(* ===== verification/_CoqProject ===== *)
-Q . S2P
Prelude.v
Memory.v
Mmu.v
StringOps.v
Kalloc.v
Vm.v
Cow.v
Wmap.v
Kernel.v
Spinlock.v
Proc.v
Wakeup.v
Pipe.v
File.v
Fork.v
PageFault.v
Syscall.v
Sysproc.v
FsState.v
Bio.v
Log.v
Txn.v
Fs.v
FsBlocks.v
FsInode.v
FsFile.v
FsDinode.v
Exec.v
Sysfile.v
Print.v
User.v
Grep.v
Textutils.v
Shell.v
Umalloc.v
Devices.v
Console.v
Ide.v
Trap.v
Mp.v
Boot.v
Mkfs.v
MkfsImage.v
Bootmain.v
Run.v
