(* ===== verification/Prelude.v ===== *)
(** * xv6 with wmap and copy-on-write fork: verification library

    The program is the xv6 system of xv6-public/, a teaching Unix for 32-bit x86: a
    kernel, its boot loader, the user programs and the builder of the disk image.  The
    kernel is extended with memory mappings ([wmap], [wunmap], [va2pa], [getpgdirinfo],
    [getwmapinfo]), lazy allocation of mapped pages in the page fault handler, and a
    [fork] that shares pages copy-on-write with per-page reference counts.

    ** The parts and the files that model them

    - Prelude.v: machine integers, the monad of kernel routines with its rules
      ([wp], [wpy], [wpe], [yields], [iterate]), generic lemmas.
    - Memory.v, Mmu.v, StringOps.v: byte memory, memlayout.h and mmu.h, string.c.
    - Kalloc.v: kalloc.c, the free list in memory and the reference counts.
    - Vm.v: vm.c, two-level page tables in memory; Cow.v: copyuvm and the
      copy-on-write branch of the page fault handler; freevm.
    - Wmap.v: the table of mappings of a process (wmap.h, the searches of sysproc.c).
    - Kernel.v: the state the kernel shares (process table, open files, clock, locks
      held); Proc.v: proc.c's slots, sleep, wakeup, scheduler, growproc; Fork.v: fork,
      wunmap, exit, wait, userinit.
    - Spinlock.v: the code of spinlock.c, and Wakeup.v: sleep, wakeup and kill of
      proc.c, each as the interleaved steps of any number of CPUs.
    - Pipe.v, File.v: pipe.c and file.c; File.v declares the class [FileSys], what the
      kernel uses of the file system.
    - PageFault.v: the page fault part of trap in trap.c and user accesses through
      the page table; Syscall.v, Sysproc.v: syscall.c and sysproc.c.
    - FsState.v, Bio.v, Log.v, Fs.v: sleeplock.c, bio.c, memide.c, log.c, fs.c, in the
      source's layers; [Fs.xv6fs] is the instance of [FileSys].  Txn.v, FsBlocks.v,
      FsInode.v, FsFile.v, FsDinode.v: what transactions, balloc, bmap, readi, writei,
      iupdate and ilock do to the contents of blocks and files.
    - Exec.v, Sysfile.v: exec.c (and loaduvm), sysfile.c.
    - Devices.v: kbd.c, uart.c, lapic.c, ioapic.c, picirq.c; Console.v: console.c and
      procdump; Ide.v: ide.c; Trap.v: the whole of trap.c over all of these; Mp.v: mp.c.
    - Boot.v: main.c, seginit and kvmalloc; Bootmain.v: bootmain.c.
    - Print.v, User.v: ulib.c and printf.c; Umalloc.v: umalloc.c; Grep.v: grep.c;
      Textutils.v: cat, wc, echo, kill, ln, mkdir, rm; Shell.v: the parser of sh.c;
      Run.v: the rest of sh.c, init.c and zombie.c, as trees of system calls run by a
      pool of processes.
    - Mkfs.v, MkfsImage.v: mkfs.c and the image it makes.

    Definitions have the names of the C functions; the body of a loop of [f] is
    [f_body] or [f_loop].  C structures are records, tables are lists, a pointer to a
    table entry is its index, memory that the code reaches by address (page tables,
    the free list, kernel stacks, pipes, user pages) is one map from addresses to
    bytes.

    ** The model of execution

    A routine is a function of the state that returns, gives the CPU to the scheduler
    ([Sched], with the state at the switch and a continuation), panics, runs into
    behaviour C leaves undefined, or runs out of the bound of a loop.  One CPU runs
    kernel code; other processes, and other CPUs that are waited for, act only at
    [Sched], where a routine is resumed in an arbitrary state the theorem's rely
    condition allows.  [wp m Q s] says that [m] returns from [s] without switching, in
    a state and with a value that satisfy [Q]; panic, undefined behaviour and an
    exhausted bound all make it false, so it is a statement of total correctness.
    [wpy] adds conditions on the states at the switches and on those it is resumed in;
    [wpe] is for a routine that waits, and allows any bounded number of resumptions
    before what it waits for has happened.  Unsigned and signed integers are in [Z],
    reduced to their width where the source computes at it.

    Loops that count have the number of iterations as their bound, and are shown to
    need no more.  Loops that wait for another process, a processor or a device take a
    bound [fuel]: it is any number greater than the number of early wakeups ([wpe]) or
    than the patience of the device, and from 1 on when nobody has to be waited for.

    ** What the theorems show

    - Cow: copyuvm gives the child the parent's memory; after it no store of either
      process to a page that could be written before is seen by the other, whichever
      branch of the fault handler resolves it; freevm returns what an address space
      owned.
    - Kalloc: the allocator refines a list of free pages, from boot on.
    - Spinlock, Wakeup: on any number of CPUs, no two own the same spin lock and a lock
      is handed over; no wakeup is lost between the test of a condition and sleep.
    - Proc: what a pass of the scheduler does to every slot; allocproc and kill are
      described exactly.
    - Wmap, Sysproc, PageFault: which ranges wmap accepts, exactly (those that wrap
      around the address space too); the search for a free range finds the lowest, and
      the first store to a mapped page gets a zeroed page; a fault outside every
      mapping kills the process.
    - Pipe, File: a pipe is a bounded queue of bytes, also when its counters wrap, with
      flow control in both directions, and its ends can be closed in any order.
    - Bio, Log, Txn: bread refines reading the logical contents of a block; a
      transaction leaves exactly its changes on the disk; a commit cut short at any disk
      write and recovered is all or nothing.
    - FsFile, FsDinode: what writei writes readi reads back, and writei changes nothing
      else of the file; iupdate and ilock are inverse.
    - Devices, Console, Ide, Trap, Mp, Boot: kbdgetc decodes a keyboard given by its
      keys and legends; the console is a line editor; disk requests are completed in
      order, and iderw returns only when its request is; a clock tick and a sleep do
      what they should; mpinit reads the firmware's tables; the kernel's page table maps
      what it should; the other processors are started by interrupts to them, each on a
      stack of its own.
    - Shell, Run: the parser inverts printing; a command starts its programs and no
      others, with the descriptors of their places, also when calls fail.
    - Grep, Textutils, Umalloc: the matcher decides the language of the pattern, the
      filters do to the whole input what they do to its pieces, and the blocks of
      malloc keep their contents.
    - Mkfs, Bootmain: the image has the files, and the kernel is loaded from its ELF
      segments.

    Facts about defects of the code are lemmas next to the definitions concerned:
    [Kalloc.decref_zero_wraps], [Wmap.check_fixed_accepts_wrapping],
    [Cow.copyuvm_exposes_read_only], [Proc.kill_zero_marks_free_slot],
    [Grep.grep_loses_partial_lines], [Umalloc.malloc_huge_wraps], [Mp.mpinit_spins],
    [MkfsImage.mkfs_root_hole].

    ** Assumptions

    Code and machinery outside the repository are parameters: the linker's symbols
    ([KernelImage], [KernelSymbols]), the device of the buffer cache ([BlockDevice], with
    the memory disk of memide.c and the driver of ide.c as instances; its laws [Disk],
    which the memory disk meets), the device switch ([DevSw]), ports and device registers ([Hardware]), and what the
    drivers rely on of a device ([IdeDisk] for the disk controller, [Board] for the
    screen and the serial port, [Keyboard], and [LocalApic] for interrupts between
    processors), the kernel below a user program ([Env]).  Each class of laws has an
    instance.  Disk writes are atomic per block and done in the order issued.

    ** Not modelled

    The TLB: [lcr3] records the page table base, and translation always reads the
    tables, so a missing flush would not be seen.  Interleaving of CPUs inside kernel
    routines other than those of Spinlock.v, Wakeup.v and Run.v: elsewhere spin locks
    are the set of locks this CPU holds, with acquire of a held lock and release of one
    not held panicking as in spinlock.c.  Assembly (bootasm.S, entry.S, entryother.S,
    initcode.S, swtch.S, trapasm.S, usys.S): a context switch is [Sched].  The recorded
    call stacks of spinlock.c, the messages of the page fault case and the shell's
    leftovers message.  stat of ulib.c, ls, forktest, stressfs, usertests and the test
    programs. *)

From Stdlib Require Import ZArith Lia FunctionalExtensionality.
From stdpp Require Import base tactics numbers option list strings zmap.

#[global] Open Scope Z_scope.

(** ** Machine integers

    [uint], [int] and [uchar] values are integers; arithmetic is done in [Z]
    and reduced to the width of the C type where the source computes at that
    width. *)

Definition u32 (z : Z) : Z := z mod 2 ^ 32.
Definition s32 (z : Z) : Z := (z + 2 ^ 31) mod 2 ^ 32 - 2 ^ 31.
Definition u8 (z : Z) : Z := z mod 2 ^ 8.
Definition u16 (z : Z) : Z := z mod 2 ^ 16.

(** Division and remainder by constants, discharged by [lia] after the
    Euclidean equations are added. *)
Ltac divlia := Z.to_euclidean_division_equations; lia.

Lemma u32_range z : 0 <= u32 z < 4294967296.
Proof. unfold u32. apply Z.mod_pos_bound. lia. Qed.

Lemma u32_id z : 0 <= z < 4294967296 -> u32 z = z.
Proof. intros. unfold u32. apply Z.mod_small. lia. Qed.

Lemma u32_idem z : u32 (u32 z) = u32 z.
Proof. apply u32_id, u32_range. Qed.

Lemma u8_range z : 0 <= u8 z < 256.
Proof. unfold u8. apply Z.mod_pos_bound. lia. Qed.

Lemma u8_add_l a b : u8 (u8 a + b) = u8 (a + b).
Proof. unfold u8. by rewrite Zplus_mod_idemp_l. Qed.

Lemma u8_id z : 0 <= z < 256 -> u8 z = z.
Proof. intros. unfold u8. apply Z.mod_small. lia. Qed.

Lemma s32_id z : -2147483648 <= z < 2147483648 -> s32 z = z.
Proof. intros. unfold s32. rewrite Z.mod_small; lia. Qed.

Lemma s32_range z : -2147483648 <= s32 z < 2147483648.
Proof.
  unfold s32. pose proof (Z.mod_pos_bound (z + 2 ^ 31) (2 ^ 32) ltac:(lia)). lia.
Qed.

Lemma s32_u32 z : s32 (u32 z) = s32 z.
Proof. unfold s32, u32. by rewrite Zplus_mod_idemp_l. Qed.

Lemma u32_s32 z : u32 (s32 z) = u32 z.
Proof.
  unfold u32, s32. rewrite Zminus_mod_idemp_l. f_equal. lia.
Qed.

(** ** Kernel computations

    A kernel routine is a function on a state that ends in one of five ways:
    it returns, it gives the CPU to the scheduler (the state is the one at the
    context switch; the continuation runs from the state it is resumed in), it panics, it runs into behaviour C leaves undefined (a
    null pointer dereference, an index out of range), or the iteration bound
    of a loop is exhausted.  The last one is shown not to happen by every
    theorem that states that a routine returns. *)

Inductive outcome (S A : Type) : Type :=
| Ret (a : A) (s : S)
| Sched (s : S) (k : S -> outcome S A)
| Panic (msg : string)
| Undef (why : string)
| OutOfFuel.

Arguments Ret {S A} a s.
Arguments Sched {S A} s k.
Arguments Panic {S A} msg.
Arguments Undef {S A} why.
Arguments OutOfFuel {S A}.

Definition M (S A : Type) : Type := S -> outcome S A.

#[export] Instance M_ret S : MRet (M S) := fun A a s => Ret a s.

Fixpoint obind {S A B} (f : A -> S -> outcome S B) (o : outcome S A) : outcome S B :=
  match o with
  | Ret a s => f a s
  | Sched s k => Sched s (fun s' => obind f (k s'))
  | Panic msg => Panic msg
  | Undef why => Undef why
  | OutOfFuel => OutOfFuel
  end.

#[export] Instance M_bind S : MBind (M S) := fun A B k m s => obind k (m s).

Definition panic {S A} (msg : string) : M S A := fun _ => Panic msg.
Definition undef {S A} (why : string) : M S A := fun _ => Undef why.
Definition out_of_fuel {S A} : M S A := fun _ => OutOfFuel.
Definition get {S} : M S S := fun s => Ret s s.
Definition gets {S A} (f : S -> A) : M S A := fun s => Ret (f s) s.
Definition modify {S} (f : S -> S) : M S unit := fun s => Ret tt (f s).
Definition yield_cpu {S} : M S unit := fun s => Sched s (fun s' => Ret tt s').
Definition when {S} (b : bool) (m : M S unit) : M S unit := if b then m else mret tt.

(** A routine on a component's state, run on the state of a larger system that
    contains the component. *)
Fixpoint ozoom {S T A} (view : S -> T) (set : T -> S -> S) (s : S) (o : outcome T A) : outcome S A :=
  match o with
  | Ret a t => Ret a (set t s)
  | Sched t k => Sched (set t s) (fun s' => ozoom view set s' (k (view s')))
  | Panic msg => Panic msg
  | Undef why => Undef why
  | OutOfFuel => OutOfFuel
  end.
Definition zoom {S T A} (view : S -> T) (set : T -> S -> S) (m : M T A) : M S A := fun s =>
  ozoom view set s (m (view s)).

(** ** Total-correctness postconditions

    [wp m Q s]: started in [s], the routine [m] returns, and its result and
    final state satisfy [Q].  A panic, undefined behaviour, a context switch or
    an exhausted loop bound falsify it. *)

Definition wp {S A} (m : M S A) (Q : A -> S -> Prop) (s : S) : Prop :=
  match m s with
  | Ret a s' => Q a s'
  | _ => False
  end.

Section wp_rules.
Context {S : Type}.
Implicit Types s : S.

Lemma wp_ret {A} (a : A) (Q : A -> S -> Prop) s : Q a s -> wp (mret a) Q s.
Proof. done. Qed.

Lemma wp_bind {A B} (m : M S A) (k : A -> M S B) (Q : B -> S -> Prop) s :
  wp m (fun a s' => wp (k a) Q s') s -> wp (m ≫= k) Q s.
Proof. unfold wp, mbind, M_bind. by destruct (m s). Qed.

Lemma wp_bind_inv {A B} (m : M S A) (k : A -> M S B) (Q : B -> S -> Prop) s :
  wp (m ≫= k) Q s -> wp m (fun a s' => wp (k a) Q s') s.
Proof. unfold wp, mbind, M_bind. by destruct (m s). Qed.

Lemma wp_mono {A} (m : M S A) (Q Q' : A -> S -> Prop) s :
  wp m Q s -> (forall a s', Q a s' -> Q' a s') -> wp m Q' s.
Proof. unfold wp. destruct (m s); naive_solver. Qed.

Lemma wp_tail (m : M S unit) (Q : unit -> S -> Prop) s : wp (m ;; mret tt) Q s -> wp m Q s.
Proof. intros H%wp_bind_inv. eapply wp_mono; [exact H|]. by intros [] s' Hs. Qed.

Lemma wp_get (Q : S -> S -> Prop) s : Q s s -> wp get Q s.
Proof. done. Qed.

Lemma wp_gets {A} (f : S -> A) (Q : A -> S -> Prop) s : Q (f s) s -> wp (gets f) Q s.
Proof. done. Qed.

Lemma wp_modify (f : S -> S) (Q : unit -> S -> Prop) s : Q tt (f s) -> wp (modify f) Q s.
Proof. done. Qed.

Lemma wp_when (b : bool) (m : M S unit) (Q : unit -> S -> Prop) s :
  (b = true -> wp m Q s) -> (b = false -> Q tt s) -> wp (when b m) Q s.
Proof. destruct b; naive_solver. Qed.

Lemma wp_if {A} (b : bool) (m1 m2 : M S A) (Q : A -> S -> Prop) s :
  (b = true -> wp m1 Q s) -> (b = false -> wp m2 Q s) -> wp (if b then m1 else m2) Q s.
Proof. destruct b; naive_solver. Qed.

Lemma wp_exec {A} (m : M S A) (Q : A -> S -> Prop) s :
  wp m Q s <-> exists a s', m s = Ret a s' /\ Q a s'.
Proof. unfold wp. destruct (m s); naive_solver. Qed.

Lemma wp_run {A} (m m' : M S A) (Q : A -> S -> Prop) s s' :
  m s = m' s' -> wp m' Q s' -> wp m Q s.
Proof. unfold wp. by intros ->. Qed.

Lemma wp_bind_same {A B} (m m' : M S A) (k : A -> M S B) (Q : B -> S -> Prop) s :
  m s = m' s -> wp (m' ≫= k) Q s -> wp (m ≫= k) Q s.
Proof. unfold wp, mbind, M_bind. by intros ->. Qed.

Lemma wp_result {A} (m : M S A) (Q : A -> S -> Prop) s a s' :
  m s = Ret a s' -> Q a s' -> wp m Q s.
Proof. unfold wp. by intros ->. Qed.

Lemma wp_returns {A} (m : M S A) (Q : A -> S -> Prop) s : wp m Q s -> exists a s', m s = Ret a s' /\ Q a s'.
Proof. unfold wp. destruct (m s); naive_solver. Qed.

Lemma bind_ret_run {A B} (m : M S A) (k : A -> M S B) s a s' :
  m s = Ret a s' -> (m ≫= k) s = k a s'.
Proof. intros E. unfold mbind, M_bind. by rewrite E. Qed.

End wp_rules.

Lemma wp_zoom {S T A} (view : S -> T) (set : T -> S -> S) (m : M T A) (Q : A -> S -> Prop) s :
  wp m (fun a t => Q a (set t s)) (view s) -> wp (zoom view set m) Q s.
Proof. unfold wp, zoom. by destruct (m (view s)). Qed.

(** ** Routines that give up the CPU

    [wpy Y R m Q s]: whenever [m] calls the scheduler the state satisfies [Y]; if
    it is resumed in a state related by [R] to the one it left, it goes on, and
    when it returns, result and state satisfy [Q]. *)
Fixpoint opost {S A} (Y : S -> Prop) (R : S -> S -> Prop) (Q : A -> S -> Prop) (o : outcome S A) : Prop :=
  match o with
  | Ret a s => Q a s
  | Sched s k => Y s /\ forall s', R s s' -> opost Y R Q (k s')
  | _ => False
  end.
Definition wpy {S A} (Y : S -> Prop) (R : S -> S -> Prop) (m : M S A) (Q : A -> S -> Prop) (s : S) : Prop :=
  opost Y R Q (m s).

Section wpy_rules.
Context {S : Type} (Y : S -> Prop) (R : S -> S -> Prop).

Lemma opost_mono {A} (Q Q' : A -> S -> Prop) (o : outcome S A) :
  opost Y R Q o -> (forall a s, Q a s -> Q' a s) -> opost Y R Q' o.
Proof. intros H HQ. induction o; cbn in *; try done; [auto|]. destruct H; split; auto. Qed.

Lemma opost_bind {A B} (f : A -> S -> outcome S B) (Q : B -> S -> Prop) (o : outcome S A) :
  opost Y R (fun a s => opost Y R Q (f a s)) o -> opost Y R Q (obind f o).
Proof. induction o; cbn; try done. intros [? ?]; split; auto. Qed.

Lemma wpy_bind {A B} (m : M S A) (k : A -> M S B) (Q : B -> S -> Prop) s :
  wpy Y R m (fun a s' => wpy Y R (k a) Q s') s -> wpy Y R (m ≫= k) Q s.
Proof. apply opost_bind. Qed.

Lemma wpy_mono {A} (m : M S A) (Q Q' : A -> S -> Prop) s :
  wpy Y R m Q s -> (forall a s', Q a s' -> Q' a s') -> wpy Y R m Q' s.
Proof. apply opost_mono. Qed.

Lemma wpy_wp {A} (m : M S A) (Q : A -> S -> Prop) s : wp m Q s -> wpy Y R m Q s.
Proof. unfold wp, wpy. by destruct (m s). Qed.

Lemma wpy_ret {A} (a : A) (Q : A -> S -> Prop) s : Q a s -> wpy Y R (mret a) Q s.
Proof. done. Qed.

Lemma wpy_yield (Q : unit -> S -> Prop) s :
  Y s -> (forall s', R s s' -> Q tt s') -> wpy Y R yield_cpu Q s.
Proof. by split. Qed.

End wpy_rules.

(** [wpe Y R D m Q n s]: the same for a routine that waits for [D], when it is resumed at most [n] times before [D] holds, and any number of
    times with it. *)
Fixpoint oposte {S A} (Y : S -> Prop) (R : S -> S -> Prop) (D : S -> Prop) (Q : A -> S -> Prop) (n : nat) (o : outcome S A) : Prop :=
  match o with
  | Ret a s => Q a s
  | Sched s k => Y s /\ forall s', R s s' -> (D s' -> oposte Y R D Q n (k s')) /\
      (~ D s' -> match n with O => True | Datatypes.S n' => oposte Y R D Q n' (k s') end)
  | _ => False
  end.
Definition wpe {S A} (Y : S -> Prop) (R : S -> S -> Prop) (D : S -> Prop) (m : M S A) (Q : A -> S -> Prop) (n : nat) (s : S) : Prop :=
  oposte Y R D Q n (m s).

Lemma oposte_mono {S A} Y R D (Q Q' : A -> S -> Prop) n (o : outcome S A) :
  oposte Y R D Q n o -> (forall a s, Q a s -> Q' a s) -> oposte Y R D Q' n o.
Proof.
  intros H HQ. revert n H. induction o as [a s|s k IH| | |]; intros n; cbn; try done; [apply HQ|].
  intros [HY HR]. split; [done|]. intros s' Hs. destruct (HR s' Hs) as [H1 H2]. split; [auto|]. destruct n; auto.
Qed.

Lemma oposte_less {S A} Y R D (Q : A -> S -> Prop) (o : outcome S A) : forall n n', (n' <= n)%nat -> oposte Y R D Q n o -> oposte Y R D Q n' o.
Proof.
  induction o as [a s|s k IH| | |]; intros n n' Hn; cbn; try done. intros [HY HR]. split; [done|]. intros s' Hs. destruct (HR s' Hs) as [H1 H2].
  split; [intros HD; by apply (IH s' n n'), H1|]. intros HD. destruct n' as [|n']; [done|]. destruct n as [|n]; [lia|]. apply (IH s' n n'); [lia|auto].
Qed.

Lemma oposte_bind {S A B} Y R D (f : A -> M S B) (Q : B -> S -> Prop) n (o : outcome S A) : forall n', (n' <= n)%nat ->
  oposte Y R D (fun a s => oposte Y R D Q n (f a s)) n' o -> oposte Y R D Q n' (obind f o).
Proof.
  induction o as [a s|s k IH| | |]; intros n' Hn; cbn; try done; [by apply oposte_less|]. intros [HY HR]. split; [done|]. intros s' Hs.
  destruct (HR s' Hs) as [H1 H2]. split; [auto|]. destruct n'; [auto|]. intros HD. apply IH; [lia|auto].
Qed.

Lemma wpe_bind {S A B} Y R D (m : M S A) (f : A -> M S B) (Q : B -> S -> Prop) n s :
  wpe Y R D m (fun a s' => wpe Y R D (f a) Q n s') n s -> wpe Y R D (m ≫= f) Q n s.
Proof. by apply oposte_bind. Qed.

Lemma wpe_mono {S A} Y R D (m : M S A) (Q Q' : A -> S -> Prop) n s :
  wpe Y R D m Q n s -> (forall a s', Q a s' -> Q' a s') -> wpe Y R D m Q' n s.
Proof. apply oposte_mono. Qed.

Lemma oposte_then {S A B} Y R D (f : A -> M S B) (Q : B -> S -> Prop) n (o : outcome S A) :
  oposte Y R D (fun a s => wp (f a) Q s) n o -> oposte Y R D Q n (obind f o).
Proof.
  revert n. induction o as [a s|s k IH| | |]; intros n; cbn; try done.
  - unfold wp. by destruct (f a s).
  - intros [HY HR]. split; [done|]. intros s' Hs. destruct (HR s' Hs) as [H1 H2]. split; [auto|]. destruct n; auto.
Qed.

(** [yields m P s]: started in [s], the routine gives up the CPU, in a state that
    satisfies [P]. *)
Definition yields {S A} (m : M S A) (P : S -> Prop) (s : S) : Prop :=
  match m s with Sched s1 _ => P s1 | _ => False end.

Lemma yields_bind {S A B} (m : M S A) (f : A -> M S B) (P : S -> Prop) s :
  yields m P s -> yields (m ≫= f) P s.
Proof. unfold yields, mbind, M_bind. by destruct (m s). Qed.

Lemma yields_after {S A B} (m : M S A) (f : A -> M S B) (P : S -> Prop) s a s' :
  m s = Ret a s' -> yields (f a) P s' -> yields (m ≫= f) P s.
Proof. intros E. unfold yields at 2. by rewrite (bind_ret_run _ _ _ _ _ E). Qed.

(** ** Running a routine on a given state *)

Section run.
Context {S : Type}.

Lemma run_bind_ret {A B} (a : A) (k : A -> M S B) s : (mret a ≫= k) s = k a s.
Proof. done. Qed.
Lemma run_bind_gets {A B} (f : S -> A) (k : A -> M S B) s : (gets f ≫= k) s = k (f s) s.
Proof. done. Qed.
Lemma run_bind_get {B} (k : S -> M S B) s : (get ≫= k) s = k s s.
Proof. done. Qed.
Lemma run_bind_modify {B} (f : S -> S) (k : unit -> M S B) s : (modify f ≫= k) s = k tt (f s).
Proof. done. Qed.
Lemma run_bind_panic {A B} msg (k : A -> M S B) s : (panic msg ≫= k) s = Panic msg.
Proof. done. Qed.
Lemma run_bind_bind {A B C} (m : M S A) (k1 : A -> M S B) (k2 : B -> M S C) s :
  ((m ≫= k1) ≫= k2) s = (m ≫= fun a => k1 a ≫= k2) s.
Proof.
  unfold mbind, M_bind. induction (m s) as [| s' k IH | | |]; cbn; [done| |done..].
  f_equal. apply functional_extensionality. exact IH.
Qed.
Lemma run_when_true (m : M S unit) : when true m = m.
Proof. done. Qed.
Lemma run_when_false (m : M S unit) : when false m = mret tt.
Proof. done. Qed.

End run.

(** Run the leading primitive actions of a routine. *)
Ltac mrun :=
  repeat first
    [ rewrite run_bind_ret | rewrite run_bind_gets | rewrite run_bind_get
    | rewrite run_bind_modify | rewrite run_bind_panic | rewrite run_bind_bind
    | rewrite run_when_true | rewrite run_when_false ]; cbn beta iota.

(** ** Loops

    [iterate fuel body a] runs [body] from [a] until it answers [inr]; [inl]
    carries the loop variables of the next iteration. *)

Fixpoint iterate {S A B} (fuel : nat) (body : A -> M S (A + B)) (a : A) : M S B :=
  match fuel with
  | O => out_of_fuel
  | Datatypes.S fuel' =>
      r ← body a;
      match r with
      | inl a' => iterate fuel' body a'
      | inr b => mret b
      end
  end.

(** The rule for loops: an invariant and a measure below the bound. *)
Lemma wp_iterate {S A B} (I : A -> S -> Prop) (measure : A -> nat)
    (body : A -> M S (A + B)) (Q : B -> S -> Prop) :
  (forall a s, I a s ->
     wp (body a) (fun r s' =>
       match r with
       | inl a' => I a' s' /\ (measure a' < measure a)%nat
       | inr b => Q b s'
       end) s) ->
  forall fuel a s, (measure a < fuel)%nat -> I a s -> wp (iterate fuel body a) Q s.
Proof.
  intros Hbody. induction fuel as [|fuel IH]; intros a s Hm HI; [lia|].
  simpl. apply wp_bind. eapply wp_mono; [by apply Hbody|].
  intros [a'|b] s' H; simpl in *; [|done]. apply IH; [lia | tauto].
Qed.

(** ** Linear search

    The index of the first element of a table that passes a test. *)
Fixpoint find_index {A} (f : A -> bool) (l : list A) : option nat :=
  match l with
  | [] => None
  | x :: l' => if f x then Some 0%nat else S <$> find_index f l'
  end.

Section find_index.
Context {A : Type}.
Implicit Types (f : A -> bool) (l : list A) (r : A).

Lemma find_index_Some f l i :
  find_index f l = Some i <->
  exists r, l !! i = Some r /\ f r = true /\ forall j r', (j < i)%nat -> l !! j = Some r' -> f r' = false.
Proof.
  revert i. induction l as [|r l IH]; intros i; cbn.
  - split; [done|]. by intros (r & ? & _).
  - destruct (f r) eqn:E.
    + split.
      * intros [= <-]. exists r. split_and!; try done. lia.
      * intros (r' & Hi & Hf & Hj). destruct i; [done|]. specialize (Hj 0%nat r ltac:(lia) eq_refl). congruence.
    + rewrite fmap_Some. split.
      * intros (i' & (r' & Hi & Hf & Hj)%IH & ->). exists r'. split_and!; [done..|].
        intros [|j] r'' Hlt Hr; cbn in *; [congruence|]. eapply Hj; [|done]. lia.
      * intros (r' & Hi & Hf & Hj). destruct i as [|i]; cbn in *; [congruence|].
        exists i. split; [|done]. apply IH. exists r'. split_and!; [done..|].
        intros j r'' Hlt Hr. apply (Hj (S j) r''); [lia|done].
Qed.

Lemma find_index_None f l : find_index f l = None <-> forall i r, l !! i = Some r -> f r = false.
Proof.
  induction l as [|r l IH]; cbn; [split; [by intros _ [] ?|done]|]. destruct (f r) eqn:E.
  - split; [done|]. intros H. specialize (H 0%nat r eq_refl). congruence.
  - rewrite fmap_None, IH. split.
    + intros H [|i] r' Hr; cbn in *; [congruence|by eapply H].
    + intros H i r' Hr. by apply (H (S i)).
Qed.

End find_index.

Lemma alter_insert_lookup {A} (g : A -> A) i (l : list A) x :
  l !! i = Some x -> alter g i l = <[i := g x]> l.
Proof.
  revert i. induction l as [|y l IH]; intros [|i] Hi; cbn in *; try done; [congruence|].
  f_equal. by apply IH.
Qed.

Lemma alter_alter {A} (f g : A -> A) i (l : list A) : alter f i (alter g i l) = alter (fun x => f (g x)) i l.
Proof. revert i. induction l as [|y l IH]; intros [|i]; cbn; f_equal; [done..|]. apply IH. Qed.

Create HintDb xv6.
#[export] Hint Resolve u32_range u8_range : xv6.
Create Rewrite HintDb xv6.
#[export] Hint Rewrite u32_idem : xv6.

(** One step of symbolic execution under [wp]. *)
Ltac wp_step :=
  lazymatch goal with
  | |- wp (mbind _ _) _ _ => apply wp_bind
  | |- wp (mret _) _ _ => apply wp_ret
  | |- wp (gets _) _ _ => apply wp_gets
  | |- wp get _ _ => apply wp_get
  | |- wp (modify _) _ _ => apply wp_modify
  | |- wp (zoom _ _ _) _ _ => apply wp_zoom
  | |- wp (if ?b then _ else _) _ _ => destruct b eqn:?
  | |- wp (when ?b _) _ _ => apply wp_when; intros ?
  end; cbn beta iota.

Ltac wp_steps := repeat wp_step.

Lemma filter_ne_id {A} `{EqDecision A} (x : A) (l : list A) : x ∉ l -> filter (fun y => y <> x) l = l.
Proof.
  induction l as [|y l IH]; [done|]. intros [Hx Hl]%not_elem_of_cons.
  rewrite filter_cons_True by congruence. by rewrite IH.
Qed.

Lemma length_filter_rem {A} `{EqDecision A} (b : A) l : NoDup l -> b ∈ l -> S (List.length (filter (fun c => c <> b) l)) = List.length l.
Proof.
  induction l as [|c l IH]; [by intros _ ?%not_elem_of_nil|]. intros [Hc Hnd]%NoDup_cons [<-|Hb]%elem_of_cons.
  - rewrite filter_cons_False by tauto. by rewrite filter_ne_id.
  - rewrite filter_cons_True by (by intros ->). cbn. by rewrite IH.
Qed.
