(* ===== verification/Memory.v ===== *)
(** * Byte-addressed kernel memory

    The kernel reaches all of physical memory through the direct map at
    KERNBASE (memlayout.h, [P2V]/[V2P]).  [mem] is that window: a finite map
    from kernel virtual addresses to bytes, reading 0 where nothing was stored.
    32-bit loads and stores are little endian. *)

From Stdlib Require Import ZArith Lia.
From stdpp Require Import base tactics numbers option list strings zmap.
From S2P Require Import Prelude.

Definition ld8 (m : Zmap Z) (a : Z) : Z := default 0 (m !! a).
Definition st8 (m : Zmap Z) (a v : Z) : Zmap Z := <[a := u8 v]> m.

Definition ld32 (m : Zmap Z) (a : Z) : Z :=
  ld8 m a + 256 * ld8 m (a + 1) + 65536 * ld8 m (a + 2) + 16777216 * ld8 m (a + 3).

Definition st32 (m : Zmap Z) (a v : Z) : Zmap Z :=
  st8 (st8 (st8 (st8 m a v) (a + 1) (v / 256)) (a + 2) (v / 65536)) (a + 3) (v / 16777216).

(** [n] bytes of memory from [a]. *)
Definition ld_bytes (m : Zmap Z) (a : Z) (n : nat) : list Z :=
  (fun i => ld8 m (a + Z.of_nat i)) <$> seq 0 n.

Fixpoint st_bytes (m : Zmap Z) (a : Z) (bs : list Z) : Zmap Z :=
  match bs with
  | [] => m
  | b :: bs' => st_bytes (st8 m a b) (a + 1) bs'
  end.

(** Every stored byte is a byte. *)
Definition mem_ok (m : Zmap Z) : Prop := forall a, 0 <= ld8 m a < 256.

(** Two memories agree outside a set of addresses. *)
Definition same_but (P : Z -> Prop) (m m' : Zmap Z) : Prop :=
  forall a, ~ P a -> ld8 m' a = ld8 m a.

Section bytes.
Implicit Types m : Zmap Z.

Lemma ld8_st8 m a b v : ld8 (st8 m a v) b = if decide (a = b) then u8 v else ld8 m b.
Proof. unfold ld8, st8. rewrite lookup_insert. by case_decide. Qed.

Lemma ld8_st8_eq m a v : ld8 (st8 m a v) a = u8 v.
Proof. rewrite ld8_st8. by case_decide. Qed.

Lemma ld8_st8_ne m a b v : a <> b -> ld8 (st8 m a v) b = ld8 m b.
Proof. intros. rewrite ld8_st8. by case_decide. Qed.

Lemma ld8_st32_ne m a b v : b < a \/ a + 4 <= b -> ld8 (st32 m a v) b = ld8 m b.
Proof. intros. unfold st32. by rewrite !ld8_st8_ne by lia. Qed.

Lemma mem_ok_empty : mem_ok ∅.
Proof. intros a. unfold ld8. rewrite lookup_empty. simpl. lia. Qed.

(** [mem_ok] by evaluation. *)
Lemma mem_ok_by_eval (m : Zmap Z) : forallb (fun p => (0 <=? p.2) && (p.2 <? 256)) (map_to_list m) = true -> mem_ok m.
Proof.
  intros H a. unfold ld8. destruct (m !! a) as [b|] eqn:E; cbn; [|lia]. rewrite forallb_forall in H.
  specialize (H (a, b)). cbn in H. rewrite andb_true_iff, Z.leb_le, Z.ltb_lt in H. apply H, list_elem_of_In. by apply elem_of_map_to_list.
Qed.

Lemma mem_ok_st8 m a v : mem_ok m -> mem_ok (st8 m a v).
Proof. intros H b. rewrite ld8_st8. case_decide; auto using u8_range. Qed.

Lemma mem_ok_st32 m a v : mem_ok m -> mem_ok (st32 m a v).
Proof. intros. by do 4 apply mem_ok_st8. Qed.

Lemma mem_ok_st_bytes bs m a : mem_ok m -> mem_ok (st_bytes m a bs).
Proof. revert m a. induction bs; simpl; auto using mem_ok_st8. Qed.

Lemma ld32_range m a : mem_ok m -> 0 <= ld32 m a < 4294967296.
Proof.
  intros H. unfold ld32.
  pose proof (H a). pose proof (H (a + 1)). pose proof (H (a + 2)). pose proof (H (a + 3)). lia.
Qed.

Lemma bytes_of_u32 v : 0 <= v < 4294967296 ->
  u8 v + 256 * u8 (v / 256) + 65536 * u8 (v / 65536) + 16777216 * u8 (v / 16777216) = v.
Proof. intros. unfold u8. divlia. Qed.

Lemma ld32_st32_eq m a v : 0 <= v < 4294967296 -> ld32 (st32 m a v) a = v.
Proof.
  intros. rewrite <- (bytes_of_u32 v) at 2 by done. unfold ld32, st32.
  repeat (rewrite ld8_st8_eq || rewrite ld8_st8_ne by lia). done.
Qed.

Lemma ld32_st32_ne m a b v : b + 4 <= a \/ a + 4 <= b -> ld32 (st32 m a v) b = ld32 m b.
Proof. intros. unfold ld32. by rewrite !ld8_st32_ne by lia. Qed.

Lemma ld32_ext m m' a :
  (forall i, a <= i < a + 4 -> ld8 m' i = ld8 m i) -> ld32 m' a = ld32 m a.
Proof. intros H. unfold ld32. rewrite !H by lia. done. Qed.

(** Only the low 32 bits of the value are stored. *)
Lemma st32_u32 m a v : st32 m a (u32 v) = st32 m a v.
Proof.
  assert (Hd : forall d, 0 < d -> (exists e, 4294967296 = d * e * 256 /\ 0 < e) -> u8 (u32 v / d) = u8 (v / d)).
  { intros d Hd (e & He & He0). unfold u8, u32. change (2 ^ 32) with 4294967296. change (2 ^ 8) with 256.
    rewrite (Z.mod_eq v 4294967296) by lia. rewrite He.
    replace (v - d * e * 256 * (v / (d * e * 256))) with (v + (- e * 256 * (v / (d * e * 256))) * d) by lia.
    rewrite Z.div_add by lia. replace (- e * 256 * (v / (d * e * 256))) with ((- e * (v / (d * e * 256))) * 256) by lia.
    by rewrite Z.mod_add. }
  unfold st32, st8.
  rewrite (Hd 256), (Hd 65536), (Hd 16777216) by
    (lia || (exists 65536; lia) || (exists 256; lia) || (exists 1; lia)).
  pose proof (Hd 1 ltac:(lia) ltac:(exists 16777216; lia)) as H1. rewrite !Z.div_1_r in H1. by rewrite H1.
Qed.

Lemma st32_st32 m a v w : st32 (st32 m a v) a w = st32 m a w.
Proof.
  apply map_eq. intros i. unfold st32, st8. rewrite !lookup_insert.
  repeat case_decide; (done || lia).
Qed.

Lemma ld8_st_bytes bs m a b :
  ld8 (st_bytes m a bs) b =
    if decide (a <= b < a + Z.of_nat (length bs))
    then u8 (default 0 (bs !! Z.to_nat (b - a))) else ld8 m b.
Proof.
  revert m a. induction bs as [|x bs IH]; intros m a; simpl length; simpl st_bytes.
  - rewrite decide_False by lia. done.
  - rewrite IH. destruct (decide (a = b)) as [->|Hne].
    + rewrite decide_False by lia. rewrite decide_True by lia.
      rewrite ld8_st8_eq. by replace (Z.to_nat (b - b)) with 0%nat by lia.
    + rewrite ld8_st8_ne by done.
      destruct (decide (a + 1 <= b < a + 1 + Z.of_nat (length bs))).
      * rewrite decide_True by lia.
        replace (Z.to_nat (b - a)) with (S (Z.to_nat (b - (a + 1)))) by lia. done.
      * rewrite decide_False by lia. done.
Qed.

Lemma length_ld_bytes m a n : length (ld_bytes m a n) = n.
Proof. unfold ld_bytes. by rewrite length_fmap, length_seq. Qed.

Lemma lookup_ld_bytes m a n i :
  (i < n)%nat -> ld_bytes m a n !! i = Some (ld8 m (a + Z.of_nat i)).
Proof.
  intros. unfold ld_bytes. rewrite list_lookup_fmap, lookup_seq_lt by lia. done.
Qed.

Lemma ld_bytes_ext m m' a a' n :
  (forall i, 0 <= i < Z.of_nat n -> ld8 m (a + i) = ld8 m' (a' + i)) ->
  ld_bytes m a n = ld_bytes m' a' n.
Proof.
  intros H. apply list_fmap_ext. intros i x [-> ?]%lookup_seq. apply H. lia.
Qed.

Lemma same_but_refl P m : same_but P m m.
Proof. by intros a _. Qed.

Lemma same_but_trans (P : Z -> Prop) m1 m2 m3 :
  same_but P m1 m2 -> same_but P m2 m3 -> same_but P m1 m3.
Proof. intros H1 H2 a Ha. by rewrite H2, H1. Qed.

Lemma same_but_mono (P Q : Z -> Prop) m m' :
  same_but P m m' -> (forall a, P a -> Q a) -> same_but Q m m'.
Proof. intros H HPQ a Ha. apply H. naive_solver. Qed.

Lemma same_but_st32 (P : Z -> Prop) m a v :
  (forall i, a <= i < a + 4 -> P i) -> same_but P m (st32 m a v).
Proof.
  intros H b Hb. apply ld8_st32_ne.
  destruct (decide (a <= b < a + 4)); [naive_solver | lia].
Qed.

Lemma same_but_ld32 (P : Z -> Prop) m m' a :
  same_but P m m' -> (forall i, a <= i < a + 4 -> ~ P i) -> ld32 m' a = ld32 m a.
Proof. intros H Hd. apply ld32_ext. intros. apply H. naive_solver. Qed.

End bytes.

Arguments ld8 : simpl never.
Arguments st8 : simpl never.
Arguments ld32 : simpl never.
Arguments st32 : simpl never.

#[export] Hint Resolve mem_ok_empty mem_ok_st8 mem_ok_st32 mem_ok_st_bytes ld32_range
  same_but_refl : xv6.
#[export] Hint Rewrite ld8_st8_eq : xv6.
