(* ===== verification/Mmu.v ===== *)
(** * x86 memory management definitions

    The macros and constants of mmu.h and memlayout.h that the virtual-memory
    code computes with, and the arithmetic facts about them: a virtual address
    is (page directory index, page table index, offset), a page table entry is
    a page address and twelve flag bits. *)

From Stdlib Require Import ZArith Lia.
From stdpp Require Import base tactics numbers.
From S2P Require Import Prelude.

(** ** memlayout.h *)

Definition EXTMEM : Z := 0x100000.
Definition PHYSTOP : Z := 0xE000000.
Definition DEVSPACE : Z := 0xFE000000.
Definition KERNBASE : Z := 0x80000000.
Definition KERNLINK : Z := KERNBASE + EXTMEM.

Definition V2P (a : Z) : Z := u32 (a - KERNBASE).
Definition P2V (a : Z) : Z := u32 (a + KERNBASE).

(** ** mmu.h *)

Definition NPDENTRIES : Z := 1024.
Definition NPTENTRIES : Z := 1024.
Definition PGSIZE : Z := 4096.
Definition PTXSHIFT : Z := 12.
Definition PDXSHIFT : Z := 22.

Definition PDX (va : Z) : Z := Z.land (Z.shiftr va PDXSHIFT) 0x3FF.
Definition PTX (va : Z) : Z := Z.land (Z.shiftr va PTXSHIFT) 0x3FF.
Definition PGADDR (d t o : Z) : Z :=
  u32 (Z.lor (Z.lor (Z.shiftl d PDXSHIFT) (Z.shiftl t PTXSHIFT)) o).

Definition PGROUNDUP (sz : Z) : Z := Z.land (u32 (sz + PGSIZE - 1)) (Z.lnot (PGSIZE - 1)).
Definition PGROUNDDOWN (a : Z) : Z := Z.land a (Z.lnot (PGSIZE - 1)).

Definition PTE_P : Z := 0x001.
Definition PTE_W : Z := 0x002.
Definition PTE_U : Z := 0x004.
Definition PTE_PS : Z := 0x080.
Definition PTE_COW : Z := 0x200.

Definition PTE_ADDR (pte : Z) : Z := Z.land pte (Z.lnot 0xFFF).
Definition PTE_FLAGS (pte : Z) : Z := Z.land pte 0xFFF.

(** The C condition [x & f]. *)
Definition flag (x f : Z) : bool := negb (Z.land x f =? 0).

(** ** Segment and gate descriptors *)

Definition FL_IF : Z := 0x200.
Definition SEG_KCODE : Z := 1.
Definition SEG_KDATA : Z := 2.
Definition SEG_UCODE : Z := 3.
Definition SEG_UDATA : Z := 4.
Definition SEG_TSS : Z := 5.
Definition DPL_USER : Z := 3.
Definition STA_X : Z := 0x8.
Definition STA_W : Z := 0x2.
Definition STA_R : Z := 0x2.
Definition STS_T32A : Z := 0x9.
Definition STS_IG32 : Z := 0xE.
Definition STS_TG32 : Z := 0xF.

Record segdesc : Type := Segdesc {
  lim_15_0 : Z; base_15_0 : Z; base_23_16 : Z; sd_type : Z; sd_s : Z; sd_dpl : Z; sd_p : Z;
  lim_19_16 : Z; sd_avl : Z; sd_rsv1 : Z; sd_db : Z; sd_g : Z; base_31_24 : Z }.

(** Each initialiser is truncated to its bit-field's width. *)
Definition bits (w v : Z) : Z := v mod 2 ^ w.

Definition SEG (type base lim dpl : Z) : segdesc :=
  Segdesc (bits 16 (Z.land (Z.shiftr lim 12) 0xffff)) (bits 16 (Z.land (u32 base) 0xffff))
    (bits 8 (Z.land (Z.shiftr (u32 base) 16) 0xff)) (bits 4 type) 1 (bits 2 dpl) 1
    (bits 4 (Z.shiftr (u32 lim) 28)) 0 0 1 1 (bits 8 (Z.shiftr (u32 base) 24)).

Definition SEG16 (type base lim dpl : Z) : segdesc :=
  Segdesc (bits 16 (Z.land lim 0xffff)) (bits 16 (Z.land (u32 base) 0xffff))
    (bits 8 (Z.land (Z.shiftr (u32 base) 16) 0xff)) (bits 4 type) 1 (bits 2 dpl) 1
    (bits 4 (Z.shiftr (u32 lim) 16)) 0 0 1 0 (bits 8 (Z.shiftr (u32 base) 24)).

Record gatedesc : Type := Gatedesc {
  off_15_0 : Z; gd_cs : Z; gd_args : Z; gd_rsv1 : Z; gd_type : Z; gd_s : Z; gd_dpl : Z; gd_p : Z;
  off_31_16 : Z }.

Definition SETGATE (istrap : bool) (sel off d : Z) : gatedesc :=
  Gatedesc (bits 16 (Z.land (u32 off) 0xffff)) (bits 16 sel) 0 0
    (if istrap then STS_TG32 else STS_IG32) 0 (bits 2 d) 1 (bits 16 (Z.shiftr (u32 off) 16)).

(** ** Arithmetic of the macros *)

Ltac unfold_mmu :=
  unfold PGSIZE, NPDENTRIES, NPTENTRIES, KERNLINK, KERNBASE, EXTMEM, PHYSTOP, DEVSPACE,
    PTE_P, PTE_W, PTE_U, PTE_PS, PTE_COW, PTXSHIFT, PDXSHIFT in *.

(** ** traps.h *)
Definition T_PGFLT : Z := 14.
Definition T_SYSCALL : Z := 64.
Definition T_IRQ0 : Z := 32.
Definition IRQ_TIMER : Z := 0.
Definition IRQ_KBD : Z := 1.
Definition IRQ_COM1 : Z := 4.
Definition IRQ_IDE : Z := 14.
Definition IRQ_ERROR : Z := 19.
Definition IRQ_SPURIOUS : Z := 31.

Lemma land_ones_low x n : 0 <= n -> Z.land x (Z.ones n) = x mod 2 ^ n.
Proof. apply Z.land_ones. Qed.

Lemma land_lnot_ones x n : 0 <= n -> Z.land x (Z.lnot (Z.ones n)) = x - x mod 2 ^ n.
Proof.
  intros. rewrite <- Z.ldiff_land, Z.ldiff_ones_r by done.
  rewrite Z.shiftl_mul_pow2, Z.shiftr_div_pow2 by done.
  rewrite (Z.div_mod x (2 ^ n)) at 2 by lia. lia.
Qed.

Lemma PTE_ADDR_eq x : PTE_ADDR x = x - x mod 4096.
Proof. exact (land_lnot_ones x 12 ltac:(lia)). Qed.

Lemma PTE_FLAGS_eq x : PTE_FLAGS x = x mod 4096.
Proof. exact (land_ones_low x 12 ltac:(lia)). Qed.

Lemma PGROUNDDOWN_eq x : PGROUNDDOWN x = x - x mod 4096.
Proof. exact (land_lnot_ones x 12 ltac:(lia)). Qed.

Lemma PGROUNDUP_eq x : 0 <= x <= 4294963200 -> PGROUNDUP x = x + (- x) mod 4096.
Proof.
  intros. unfold PGROUNDUP. rewrite u32_id by (unfold_mmu; lia).
  change (PGSIZE - 1) with (Z.ones 12). rewrite land_lnot_ones by lia.
  unfold_mmu. divlia.
Qed.

Lemma PDX_eq va : 0 <= va < 4294967296 -> PDX va = va / 4194304.
Proof.
  intros. unfold PDX, PDXSHIFT. change 0x3FF with (Z.ones 10).
  rewrite Z.land_ones, Z.shiftr_div_pow2 by lia. apply Z.mod_small. divlia.
Qed.

Lemma PTX_eq va : PTX va = (va / 4096) mod 1024.
Proof.
  unfold PTX, PTXSHIFT. change 0x3FF with (Z.ones 10).
  by rewrite Z.land_ones, Z.shiftr_div_pow2 by lia.
Qed.

Lemma PDX_range va : 0 <= PDX va < 1024.
Proof.
  unfold PDX. change 0x3FF with (Z.ones 10). rewrite Z.land_ones by lia.
  apply Z.mod_pos_bound. lia.
Qed.

Lemma PTX_range va : 0 <= PTX va < 1024.
Proof. rewrite PTX_eq. apply Z.mod_pos_bound. lia. Qed.

(** A virtual address is determined by its two indices up to the page. *)
Lemma PDX_PTX_page va va' :
  0 <= va < 4294967296 -> 0 <= va' < 4294967296 ->
  PDX va = PDX va' -> PTX va = PTX va' -> PGROUNDDOWN va = PGROUNDDOWN va'.
Proof. intros ? ?. rewrite !PDX_eq, !PTX_eq, !PGROUNDDOWN_eq by done. intros. divlia. Qed.

Lemma PDX_PGROUNDDOWN va : 0 <= va < 4294967296 -> PDX (PGROUNDDOWN va) = PDX va.
Proof.
  intros. rewrite PGROUNDDOWN_eq. rewrite !PDX_eq by divlia. divlia.
Qed.

Lemma PTX_PGROUNDDOWN va : PTX (PGROUNDDOWN va) = PTX va.
Proof. rewrite PGROUNDDOWN_eq, !PTX_eq. f_equal. divlia. Qed.

Lemma PGADDR_eq d : 0 <= d <= 1023 -> PGADDR d 0 0 = d * 4194304.
Proof.
  intros. unfold PGADDR, PDXSHIFT, PTXSHIFT.
  rewrite Z.shiftl_0_l, !Z.lor_0_r, Z.shiftl_mul_pow2 by lia. apply u32_id. lia.
Qed.

Lemma V2P_P2V a : 0 <= a < 4294967296 -> V2P (P2V a) = a.
Proof.
  intros. unfold V2P, P2V, u32. rewrite Zminus_mod_idemp_l.
  replace (a + KERNBASE - KERNBASE) with a by lia. by apply u32_id.
Qed.

Lemma P2V_V2P v : KERNBASE <= v < 4294967296 -> P2V (V2P v) = v.
Proof.
  intros. unfold V2P, P2V. unfold_mmu. rewrite (u32_id (v - _)) by lia.
  rewrite u32_id; lia.
Qed.

Lemma V2P_P2V_add a o : V2P (P2V a + o) = u32 (a + o).
Proof. unfold V2P, P2V, u32. rewrite Zminus_mod, Zplus_mod_idemp_l, <- Zminus_mod. f_equal. lia. Qed.

Lemma P2V_eq a : 0 <= a < KERNBASE -> P2V a = a + KERNBASE.
Proof. intros. unfold P2V. unfold_mmu. apply u32_id. lia. Qed.

Lemma V2P_eq v : KERNBASE <= v < 4294967296 -> V2P v = v - KERNBASE.
Proof. intros. unfold V2P. unfold_mmu. apply u32_id. lia. Qed.

(** ** Flag bits *)

Lemma flag_testbit x k : 0 <= k -> flag x (2 ^ k) = Z.testbit x k.
Proof.
  intros Hk. unfold flag. destruct (Z.testbit x k) eqn:E.
  - apply negb_true_iff, Z.eqb_neq. intros H.
    assert (Z.testbit (Z.land x (2 ^ k)) k = true) as H1.
    { by rewrite Z.land_spec, E, Z.pow2_bits_true. }
    by rewrite H, Z.bits_0 in H1.
  - apply negb_false_iff, Z.eqb_eq. apply Z.bits_inj'. intros n ?.
    rewrite Z.land_spec, Z.bits_0, Z.pow2_bits_eqb by done.
    destruct (Z.eqb_spec k n) as [->|]; [by rewrite E | apply andb_false_r].
Qed.

Lemma flag_P x : flag x PTE_P = Z.testbit x 0.
Proof. exact (flag_testbit x 0 ltac:(lia)). Qed.
Lemma flag_W x : flag x PTE_W = Z.testbit x 1.
Proof. exact (flag_testbit x 1 ltac:(lia)). Qed.
Lemma flag_U x : flag x PTE_U = Z.testbit x 2.
Proof. exact (flag_testbit x 2 ltac:(lia)). Qed.
Lemma flag_COW x : flag x PTE_COW = Z.testbit x 9.
Proof. exact (flag_testbit x 9 ltac:(lia)). Qed.

Lemma flag_0 f : flag 0 f = false.
Proof. done. Qed.

(** Bits of the address and flag parts of a PTE. *)
Lemma testbit_PTE_ADDR x n : 0 <= n -> Z.testbit (PTE_ADDR x) n = Z.testbit x n && (12 <=? n).
Proof.
  intros. unfold PTE_ADDR. change 0xFFF with (Z.ones 12).
  rewrite Z.land_spec, Z.lnot_spec, Z.testbit_ones_nonneg by lia.
  by rewrite Z.leb_antisym.
Qed.

Lemma testbit_PTE_FLAGS x n : 0 <= n -> Z.testbit (PTE_FLAGS x) n = Z.testbit x n && (n <? 12).
Proof.
  intros. unfold PTE_FLAGS. change 0xFFF with (Z.ones 12).
  by rewrite Z.land_spec, Z.testbit_ones_nonneg by lia.
Qed.

Lemma testbit_small x n k : 0 <= x < 2 ^ k -> 0 <= k <= n -> Z.testbit x n = false.
Proof.
  intros. destruct (decide (x = 0)) as [->|]; [apply Z.bits_0|].
  apply Z.bits_above_log2; [lia|].
  assert (Z.log2 x < k) by (apply Z.log2_lt_pow2; lia). lia.
Qed.

Lemma testbit_aligned x n : x mod 4096 = 0 -> 0 <= n < 12 -> Z.testbit x n = false.
Proof.
  intros. rewrite <- (Z.mod_pow2_bits_low x 12 n) by lia.
  change (2 ^ 12) with 4096. rewrite H. apply Z.bits_0.
Qed.

Lemma PTE_ADDR_nonneg x : 0 <= x -> 0 <= PTE_ADDR x.
Proof. intros. rewrite PTE_ADDR_eq. divlia. Qed.

Lemma PTE_ADDR_aligned x : PTE_ADDR x mod 4096 = 0.
Proof. rewrite PTE_ADDR_eq. divlia. Qed.

Lemma PTE_ADDR_range x : 0 <= x < 4294967296 -> 0 <= PTE_ADDR x < 4294967296.
Proof. intros. rewrite PTE_ADDR_eq. divlia. Qed.

Lemma PTE_ADDR_id x : x mod 4096 = 0 -> PTE_ADDR x = x.
Proof. intros. rewrite PTE_ADDR_eq. lia. Qed.

Lemma PTE_FLAGS_range x : 0 <= PTE_FLAGS x < 4096.
Proof. rewrite PTE_FLAGS_eq. apply Z.mod_pos_bound. lia. Qed.

Lemma lor_range x y n : 0 <= n -> 0 <= x < 2 ^ n -> 0 <= y < 2 ^ n -> 0 <= Z.lor x y < 2 ^ n.
Proof.
  intros Hn Hx Hy.
  assert (Z.lor x y = Z.lor x y mod 2 ^ n) as ->.
  { rewrite <- Z.land_ones, Z.land_lor_distr_l, !Z.land_ones, !Z.mod_small by lia. done. }
  apply Z.mod_pos_bound. lia.
Qed.

Lemma land_range x y n : 0 <= n -> 0 <= x < 2 ^ n -> 0 <= Z.land x y < 2 ^ n.
Proof.
  intros Hn Hx.
  assert (Z.land x y = Z.land x y mod 2 ^ n) as ->.
  { rewrite <- Z.land_ones by done.
    rewrite <- Z.land_assoc, (Z.land_comm y), Z.land_assoc, Z.land_ones, Z.mod_small by lia.
    done. }
  apply Z.mod_pos_bound. lia.
Qed.

(** A PTE built from a page address and flags gives them back. *)
Lemma PTE_ADDR_make pa perm :
  pa mod 4096 = 0 -> 0 <= perm < 4096 -> PTE_ADDR (Z.lor (Z.lor pa perm) PTE_P) = pa.
Proof.
  intros Ha Hp. apply Z.bits_inj'. intros n Hn.
  rewrite testbit_PTE_ADDR, !Z.lor_spec by done.
  destruct (Z.leb_spec 12 n).
  - rewrite (testbit_small perm n 12), (testbit_small PTE_P n 12) by (unfold PTE_P; lia).
    by rewrite !orb_false_r, andb_true_r.
  - by rewrite andb_false_r, testbit_aligned by (done || lia).
Qed.

Lemma PTE_FLAGS_make pa perm :
  pa mod 4096 = 0 -> 0 <= perm < 4096 ->
  PTE_FLAGS (Z.lor (Z.lor pa perm) PTE_P) = Z.lor perm PTE_P.
Proof.
  intros Ha Hp. apply Z.bits_inj'. intros n Hn.
  rewrite testbit_PTE_FLAGS, !Z.lor_spec by done.
  destruct (Z.ltb_spec n 12).
  - by rewrite (testbit_aligned pa), andb_true_r by (done || lia).
  - rewrite (testbit_small perm n 12), (testbit_small PTE_P n 12) by (unfold PTE_P; lia).
    by rewrite andb_false_r.
Qed.

Lemma PTE_make_range pa perm :
  0 <= pa < 4294967296 -> 0 <= perm < 4096 ->
  0 <= Z.lor (Z.lor pa perm) PTE_P < 4294967296.
Proof.
  intros. apply (lor_range _ _ 32); [lia| |unfold PTE_P; lia].
  apply (lor_range _ _ 32); lia.
Qed.

(** Setting and clearing one of the low twelve bits keeps the address. *)
Lemma PTE_ADDR_lor x f : 0 <= f < 4096 -> PTE_ADDR (Z.lor x f) = PTE_ADDR x.
Proof.
  intros Hf. apply Z.bits_inj'. intros n Hn. rewrite !testbit_PTE_ADDR, Z.lor_spec by done.
  destruct (Z.leb_spec 12 n); [|by rewrite !andb_false_r].
  by rewrite (testbit_small f n 12), orb_false_r by lia.
Qed.

Lemma PTE_ADDR_clear x f : 0 <= f < 4096 -> PTE_ADDR (Z.land x (Z.lnot f)) = PTE_ADDR x.
Proof.
  intros Hf. apply Z.bits_inj'. intros n Hn.
  rewrite !testbit_PTE_ADDR, Z.land_spec, Z.lnot_spec by done.
  destruct (Z.leb_spec 12 n); [|by rewrite !andb_false_r].
  by rewrite (testbit_small f n 12), andb_true_r by lia.
Qed.

(** Test a bit of an expression built with [lor], [land] and [lnot] from
    constant masks. *)
Ltac bit_simpl :=
  rewrite ?flag_P, ?flag_W, ?flag_U, ?flag_COW;
  repeat first
    [ rewrite Z.lor_spec | rewrite Z.land_spec | rewrite Z.lnot_spec by lia
    | rewrite testbit_PTE_FLAGS by lia | rewrite testbit_PTE_ADDR by lia ];
  repeat match goal with
  | |- context [Z.testbit ?c ?n] =>
      first [is_const c | lazymatch c with Z0 => idtac | Zpos _ => idtac end];
      let v := eval vm_compute in (Z.testbit c n) in
      match v with true => idtac | false => idtac end;
      change (Z.testbit c n) with v
  end;
  cbn [orb andb negb Z.ltb Z.leb Z.compare Pos.compare Pos.compare_cont];
  rewrite ?orb_false_r, ?orb_true_r, ?andb_true_r, ?andb_false_r.

#[export] Hint Resolve PTE_ADDR_aligned PTE_FLAGS_range PDX_range PTX_range : xv6.
