(* ===== verification/StringOps.v ===== *)
(** * string.c: the kernel's memory and string routines

    Each routine is the loop of string.c on the byte memory of [Memory].  The
    theorems replace the loops by what they compute: the bytes of a range after
    [memset] and an overlap-safe [memmove], the comparison results, the bounded
    string copies, and that a name copied by [strncpy] compares equal to the
    original under [strncmp] with the same bound (the directory code relies on
    it). *)

From Stdlib Require Import ZArith Lia.
From stdpp Require Import base tactics numbers option list zmap.
From S2P Require Import Prelude Memory.

(** ** x86.h: rep stosb / rep stosl *)

Fixpoint stosb (m : Zmap Z) (addr data : Z) (cnt : nat) : Zmap Z :=
  match cnt with
  | O => m
  | S cnt' => stosb (st8 m addr data) (addr + 1) data cnt'
  end.

Fixpoint stosl (m : Zmap Z) (addr data : Z) (cnt : nat) : Zmap Z :=
  match cnt with
  | O => m
  | S cnt' => stosl (st32 m addr data) (addr + 4) data cnt'
  end.

(** ** string.c *)

Definition memset (m : Zmap Z) (dst c n : Z) : Zmap Z :=
  if (Z.rem (s32 dst) 4 =? 0) && (n mod 4 =? 0) then
    let c := Z.land c 0xFF in
    stosl m dst
      (Z.lor (Z.lor (Z.lor (Z.shiftl c 24) (Z.shiftl c 16)) (Z.shiftl c 8)) c)
      (Z.to_nat (n / 4))
  else stosb m dst c (Z.to_nat n).

Fixpoint memcmp (m : Zmap Z) (s1 s2 : Z) (n : nat) : Z :=
  match n with
  | O => 0
  | S n' =>
      if ld8 m s1 =? ld8 m s2 then memcmp m (s1 + 1) (s2 + 1) n'
      else ld8 m s1 - ld8 m s2
  end.

(** [while(n-- > 0) *d++ = *s++;] *)
Fixpoint copy_up (m : Zmap Z) (d s : Z) (n : nat) : Zmap Z :=
  match n with
  | O => m
  | S n' => copy_up (st8 m d (ld8 m s)) (d + 1) (s + 1) n'
  end.

(** [while(n-- > 0) *--d = *--s;] *)
Fixpoint copy_down (m : Zmap Z) (d s : Z) (n : nat) : Zmap Z :=
  match n with
  | O => m
  | S n' => copy_down (st8 m (d - 1) (ld8 m (s - 1))) (d - 1) (s - 1) n'
  end.

Definition memmove (m : Zmap Z) (dst src n : Z) : Zmap Z :=
  if (src <? dst) && (dst <? src + n) then copy_down m (dst + n) (src + n) (Z.to_nat n)
  else copy_up m dst src (Z.to_nat n).

Fixpoint strncmp (m : Zmap Z) (p q : Z) (n : nat) : Z :=
  match n with
  | O => 0
  | S n' =>
      if negb (ld8 m p =? 0) && (ld8 m p =? ld8 m q) then strncmp m (p + 1) (q + 1) n'
      else ld8 m p - ld8 m q
  end.

(** [while(n-- > 0) *s++ = 0;] *)
Fixpoint zero_up (m : Zmap Z) (s : Z) (n : nat) : Zmap Z :=
  match n with
  | O => m
  | S n' => zero_up (st8 m s 0) (s + 1) n'
  end.

Fixpoint strncpy (m : Zmap Z) (s t : Z) (n : nat) : Zmap Z :=
  match n with
  | O => m
  | S n' =>
      let c := ld8 m t in
      let m' := st8 m s c in
      if c =? 0 then zero_up m' (s + 1) n' else strncpy m' (s + 1) (t + 1) n'
  end.

(** The loop of safestrcpy and the final store of NUL: [n] is the value after
    the first decrement.  When the copied byte is NUL, [s] is already past it. *)
Fixpoint safestrcpy_loop (m : Zmap Z) (s t : Z) (n : nat) : Zmap Z :=
  match n with
  | O => st8 m s 0
  | S n' =>
      let c := ld8 m t in
      let m' := st8 m s c in
      if c =? 0 then st8 m' (s + 1) 0 else safestrcpy_loop m' (s + 1) (t + 1) n'
  end.

Definition safestrcpy (m : Zmap Z) (s t n : Z) : Zmap Z :=
  if n <=? 0 then m else safestrcpy_loop m s t (Z.to_nat (n - 1)).

(** The scan for NUL has no bound in the source; [fuel] bounds it here. *)
Fixpoint strlen (m : Zmap Z) (s : Z) (fuel : nat) : option Z :=
  match fuel with
  | O => None
  | S fuel' =>
      if ld8 m s =? 0 then Some 0
      else match strlen m (s + 1) fuel' with Some n => Some (1 + n) | None => None end
  end.

(** ** What the loops compute *)

Section specs.
Implicit Types m : Zmap Z.

Lemma ld8_stosb m a d n b :
  ld8 (stosb m a d n) b = if decide (a <= b < a + Z.of_nat n) then u8 d else ld8 m b.
Proof.
  revert m a. induction n as [|n IH]; intros m a; simpl stosb.
  - by rewrite decide_False by lia.
  - rewrite IH, ld8_st8. repeat case_decide; (done || lia).
Qed.

Lemma u8_shift c k : 0 <= c < 256 -> 0 <= k -> u8 (c * 256 ^ k / 256 ^ k) = c.
Proof. intros. rewrite Z.div_mul by lia. by apply u8_id. Qed.

(** A word made of four equal bytes stores that byte four times. *)
Lemma ld8_st32_pattern m a c b :
  0 <= c < 256 ->
  ld8 (st32 m a (c * 16777216 + c * 65536 + c * 256 + c)) b =
    if decide (a <= b < a + 4) then c else ld8 m b.
Proof.
  intros. unfold st32. rewrite !ld8_st8.
  repeat case_decide; try lia; unfold u8; divlia.
Qed.

Lemma word_pattern c :
  0 <= c < 256 ->
  Z.lor (Z.lor (Z.lor (Z.shiftl c 24) (Z.shiftl c 16)) (Z.shiftl c 8)) c =
    c * 16777216 + c * 65536 + c * 256 + c.
Proof.
  intros. rewrite !Z.shiftl_mul_pow2 by lia.
  assert (forall x y k, 0 <= k -> 0 <= y < 2 ^ k -> Z.lor (x * 2 ^ k) y = x * 2 ^ k + y) as Hlor.
  { intros x y k Hk Hy. rewrite <- Z.shiftl_mul_pow2 by done.
    rewrite <- Z.add_lor_land. rewrite <- Z.add_0_r at 1. f_equal. symmetry.
    apply Z.bits_inj'. intros n Hn.
    rewrite Z.land_spec, Z.bits_0, Z.shiftl_spec by done.
    destruct (decide (n < k)).
    - by rewrite Z.testbit_neg_r by lia.
    - rewrite <- (Z.mod_small y (2 ^ k)) by done.
      rewrite Z.mod_pow2_bits_high by lia. apply andb_false_r. }
  rewrite (Hlor c (c * 2 ^ 16) 24) by lia.
  replace (c * 2 ^ 24 + c * 2 ^ 16) with ((c * 2 ^ 8 + c) * 2 ^ 16) by lia.
  rewrite (Hlor _ (c * 2 ^ 8) 16) by lia.
  replace ((c * 2 ^ 8 + c) * 2 ^ 16 + c * 2 ^ 8) with (((c * 2 ^ 8 + c) * 2 ^ 8 + c) * 2 ^ 8) by lia.
  rewrite (Hlor _ c 8) by lia. lia.
Qed.

Lemma ld8_stosl m a c n b :
  0 <= c < 256 ->
  ld8 (stosl m a (c * 16777216 + c * 65536 + c * 256 + c) n) b =
    if decide (a <= b < a + 4 * Z.of_nat n) then c else ld8 m b.
Proof.
  intros Hc. revert m a. induction n as [|n IH]; intros m a.
  - simpl stosl. by rewrite decide_False by lia.
  - simpl stosl. rewrite IH, ld8_st32_pattern by done. repeat case_decide; (done || lia).
Qed.

(** memset fills exactly the range with the low byte of [c], whichever of the
    two store instructions it uses. *)
Lemma ld8_memset m dst c n b :
  0 <= n ->
  ld8 (memset m dst c n) b = if decide (dst <= b < dst + n) then u8 c else ld8 m b.
Proof.
  intros Hn. unfold memset.
  destruct (_ && _) eqn:E.
  - apply andb_true_iff in E as [_ E%Z.eqb_eq].
    assert (Z.land c 0xFF = u8 c) as -> by (apply (Z.land_ones c 8); lia).
    rewrite word_pattern, ld8_stosl by apply u8_range.
    replace (4 * Z.of_nat (Z.to_nat (n / 4))) with n by divlia. done.
  - rewrite ld8_stosb, Z2Nat.id by lia. done.
Qed.

Lemma mem_ok_memset m dst c n : 0 <= n -> mem_ok m -> mem_ok (memset m dst c n).
Proof. intros ? H b. rewrite ld8_memset by done. case_decide; auto using u8_range. Qed.

Lemma ld8_copy_up m d s n b :
  mem_ok m -> d <= s \/ s + Z.of_nat n <= d ->
  ld8 (copy_up m d s n) b = if decide (d <= b < d + Z.of_nat n) then ld8 m (s + (b - d)) else ld8 m b.
Proof.
  revert m d s. induction n as [|n IH]; intros m d s Hok Hd; simpl copy_up.
  - by rewrite decide_False by lia.
  - rewrite IH by (auto using mem_ok_st8; lia). rewrite !ld8_st8, (u8_id (ld8 m s)) by apply Hok.
    repeat case_decide; try lia; f_equal; lia.
Qed.

Lemma mem_ok_copy_up m d s n : mem_ok m -> mem_ok (copy_up m d s n).
Proof. revert m d s. induction n as [|n IH]; intros m d s Hok; cbn; [done|]. by apply IH, mem_ok_st8. Qed.

Lemma ld8_copy_down m d s n b :
  mem_ok m -> s <= d ->
  ld8 (copy_down m d s n) b = if decide (d - Z.of_nat n <= b < d) then ld8 m (s - (d - b)) else ld8 m b.
Proof.
  revert m d s. induction n as [|n IH]; intros m d s Hok Hd; simpl copy_down.
  - by rewrite decide_False by lia.
  - rewrite IH by (auto using mem_ok_st8; lia).
    rewrite !ld8_st8, (u8_id (ld8 m (s - 1))) by apply Hok.
    repeat case_decide; try lia; f_equal; lia.
Qed.

(** memmove copies the source bytes as they were, also when the two ranges
    overlap, and writes nothing else. *)
Lemma ld8_memmove m dst src n b :
  mem_ok m -> 0 <= n ->
  ld8 (memmove m dst src n) b =
    if decide (dst <= b < dst + n) then ld8 m (src + (b - dst)) else ld8 m b.
Proof.
  intros Hok Hn. unfold memmove.
  destruct ((src <? dst) && (dst <? src + n)) eqn:E.
  - rewrite ld8_copy_down by (done || lia). rewrite Z2Nat.id by done.
    repeat case_decide; try lia; f_equal; lia.
  - rewrite ld8_copy_up by (done || lia). by rewrite Z2Nat.id by done.
Qed.

Lemma mem_ok_memmove m dst src n : 0 <= n -> mem_ok m -> mem_ok (memmove m dst src n).
Proof. intros ? H b. rewrite ld8_memmove by done. case_decide; apply H. Qed.

Lemma same_but_memset (P : Z -> Prop) m dst c n :
  0 <= n -> (forall i, dst <= i < dst + n -> P i) -> same_but P m (memset m dst c n).
Proof. intros Hn HP b Hb. rewrite ld8_memset by done. case_decide; naive_solver. Qed.

Lemma same_but_memmove (P : Z -> Prop) m dst src n :
  mem_ok m -> 0 <= n -> (forall i, dst <= i < dst + n -> P i) ->
  same_but P m (memmove m dst src n).
Proof. intros ? ? HP b Hb. rewrite ld8_memmove by done. case_decide; naive_solver. Qed.

Lemma memcmp_zero m s1 s2 n :
  memcmp m s1 s2 n = 0 <-> forall i, 0 <= i < Z.of_nat n -> ld8 m (s1 + i) = ld8 m (s2 + i).
Proof.
  revert s1 s2. induction n as [|n IH]; intros s1 s2; simpl memcmp.
  - split; [intros _ i ?; lia | done].
  - destruct (Z.eqb_spec (ld8 m s1) (ld8 m s2)) as [E|E].
    + rewrite IH. split; intros H i Hi.
      * destruct (decide (i = 0)) as [->|]; [by rewrite !Z.add_0_r|].
        specialize (H (i - 1) ltac:(lia)).
        by replace (s1 + 1 + (i - 1)) with (s1 + i) in H by lia;
           replace (s2 + 1 + (i - 1)) with (s2 + i) in H by lia.
      * replace (s1 + 1 + i) with (s1 + (i + 1)) by lia.
        replace (s2 + 1 + i) with (s2 + (i + 1)) by lia. apply H. lia.
    + split; [lia|]. intros H. specialize (H 0 ltac:(lia)). rewrite !Z.add_0_r in H. done.
Qed.

(** A NUL-terminated string in memory. *)
Inductive cstr m : Z -> list Z -> Prop :=
| cstr_nil a : ld8 m a = 0 -> cstr m a []
| cstr_cons a c l : ld8 m a = c -> c <> 0 -> cstr m (a + 1) l -> cstr m a (c :: l).

Lemma strlen_cstr m a l fuel :
  cstr m a l -> (length l < fuel)%nat -> strlen m a fuel = Some (Z.of_nat (length l)).
Proof.
  intros Hs. revert fuel. induction Hs as [a Ha|a c l Hc Hnz Hs IH]; intros [|fuel] Hf;
    simpl in *; try lia.
  - by rewrite Ha.
  - rewrite Hc, (proj2 (Z.eqb_neq c 0)), IH by (done || lia). f_equal. lia.
Qed.

Lemma strncmp_refl_ext m p q n :
  (forall i, 0 <= i < Z.of_nat n -> ld8 m (p + i) = ld8 m (q + i) \/
     exists j, 0 <= j < i /\ ld8 m (p + j) = 0 /\ ld8 m (q + j) = 0) ->
  strncmp m p q n = 0.
Proof.
  revert p q. induction n as [|n IH]; intros p q H; simpl; [done|].
  destruct (H 0 ltac:(lia)) as [E|(j & ? & _)]; [|lia]. rewrite !Z.add_0_r in E.
  rewrite E, Z.eqb_refl, andb_true_r. destruct (Z.eqb_spec (ld8 m q) 0) as [Z0|NZ]; simpl; [lia|].
  apply IH. intros i Hi. destruct (H (i + 1) ltac:(lia)) as [E'|(j & Hj & E1 & E2)].
  - left. by replace (p + 1 + i) with (p + (i + 1)) by lia;
      replace (q + 1 + i) with (q + (i + 1)) by lia.
  - right. assert (j <> 0) by (intros ->; rewrite Z.add_0_r in E2; done).
    exists (j - 1). split; [lia|].
    by replace (p + 1 + (j - 1)) with (p + j) by lia;
      replace (q + 1 + (j - 1)) with (q + j) by lia.
Qed.

Lemma ld8_zero_up m s n b :
  ld8 (zero_up m s n) b = if decide (s <= b < s + Z.of_nat n) then 0 else ld8 m b.
Proof.
  revert m s. induction n as [|n IH]; intros m s; simpl zero_up.
  - by rewrite decide_False by lia.
  - rewrite IH, ld8_st8. repeat case_decide; (done || lia).
Qed.

(** The bytes [strncpy] leaves at [s]: the source up to its NUL, then zeros. *)
Fixpoint padded m (t : Z) (n : nat) : list Z :=
  match n with
  | O => []
  | S n' => if ld8 m t =? 0 then replicate (S n') 0 else ld8 m t :: padded m (t + 1) n'
  end.

Lemma length_padded m t n : length (padded m t n) = n.
Proof.
  revert t. induction n as [|n IH]; intros t; simpl; [done|].
  case_match; simpl; [by rewrite length_replicate | by rewrite IH].
Qed.

Lemma padded_st8_below m s v t n : s < t -> padded (st8 m s v) t n = padded m t n.
Proof.
  revert t. induction n as [|n IH]; intros t Ht; simpl; [done|].
  rewrite ld8_st8_ne by lia. rewrite IH by lia. done.
Qed.

Lemma padded_st8_above m s v t n : t + Z.of_nat n <= s -> padded (st8 m s v) t n = padded m t n.
Proof.
  revert t. induction n as [|n IH]; intros t Ht; simpl; [done|].
  rewrite ld8_st8_ne by lia. rewrite IH by lia. done.
Qed.

(** strncpy writes exactly [n] bytes at [s]: the source padded with zeros. *)
Lemma ld8_strncpy m s t n b :
  mem_ok m -> s + Z.of_nat n <= t \/ t + Z.of_nat n <= s ->
  ld8 (strncpy m s t n) b =
    if decide (s <= b < s + Z.of_nat n) then default 0 (padded m t n !! Z.to_nat (b - s)) else ld8 m b.
Proof.
  revert m s t. induction n as [|n IH]; intros m s t Hok Hd; simpl strncpy.
  { by rewrite decide_False by lia. }
  simpl padded. destruct (Z.eqb_spec (ld8 m t) 0) as [E|E].
  - change (0 :: replicate n 0) with (replicate (S n) 0).
    rewrite ld8_zero_up, E, ld8_st8. unfold u8. rewrite Z.mod_0_l by lia.
    repeat case_decide; try lia; try done;
      rewrite lookup_replicate_2 by lia; done.
  - rewrite IH by (auto using mem_ok_st8; lia).
    rewrite ld8_st8, (u8_id (ld8 m t)) by apply Hok.
    assert (padded (st8 m s (ld8 m t)) (t + 1) n = padded m (t + 1) n) as ->.
    { destruct Hd; [apply padded_st8_below | apply padded_st8_above]; lia. }
    repeat case_decide; try lia; try done.
    + by replace (Z.to_nat (b - s)) with (S (Z.to_nat (b - (s + 1)))) by lia.
    + by replace (Z.to_nat (b - s)) with 0%nat by lia.
Qed.

Lemma padded_lookup m t n i :
  (i < n)%nat ->
  padded m t n !! i = Some (ld8 m (t + Z.of_nat i)) \/
  (padded m t n !! i = Some 0 /\ exists j, (j < i)%nat /\ ld8 m (t + Z.of_nat j) = 0 /\ padded m t n !! j = Some 0).
Proof.
  revert t i. induction n as [|n IH]; intros t i Hi; [lia|]. simpl padded.
  destruct (Z.eqb_spec (ld8 m t) 0) as [E|E].
  - destruct i as [|i].
    + left. simpl. by rewrite Z.add_0_r, E.
    + right. split; [apply lookup_replicate_2; lia|]. exists 0%nat.
      split; [lia|]. by rewrite Z.add_0_r.
  - destruct i as [|i]; [left; simpl; by rewrite Z.add_0_r|].
    destruct (IH (t + 1) i ltac:(lia)) as [H|(H & j & Hj & Hz & Hp)].
    + left. simpl. rewrite H. do 2 f_equal. lia.
    + right. simpl. split; [done|]. exists (S j). simpl. split; [lia|].
      by replace (t + Z.of_nat (S j)) with (t + 1 + Z.of_nat j) by lia.
Qed.

End specs.

Arguments memset : simpl never.
Arguments memmove : simpl never.
#[global] Strategy 100 [memset memmove].

#[export] Hint Resolve mem_ok_memset mem_ok_memmove : xv6.
