(* ===== verification/Kalloc.v ===== *)
(** * kalloc.c: the physical page allocator and the page reference counts

    The state of the memory subsystem is the direct-mapped memory (free pages
    are chained through their first word), the head of the free list, the lock
    fields, the one-byte reference counts of proc.c and the page table base
    register of the CPU.  The abstract view of the
    allocator is the list of its free pages: [km_ok s l] relates a state to it,
    and the lemmas give each operation's effect on that list. *)

From Stdlib Require Import ZArith Lia.
From stdpp Require Import base tactics numbers option list strings zmap.
From S2P Require Import Prelude Memory Mmu StringOps.

(** What the linker script (kernel.ld) promises about the symbols [data] and
    [end], and main.c about the size of the kernel image: [data] is page
    aligned above KERNLINK, the image ends below the 4 MB that entrypgdir
    maps. *)
Class KernelImage : Type := {
  k_data : Z;
  k_end : Z;
  k_data_aligned : k_data mod 4096 = 0;
  k_data_lo : KERNLINK < k_data;
  k_data_end : k_data <= k_end;
  k_end_hi : k_end <= KERNBASE + 4 * 1024 * 1024 }.

Definition MAX_PAGES : Z := 1024 * 1024.

Record kmst : Type := KM {
  mem : Zmap Z;
  freelist : Z;
  use_lock : bool;
  kmem_lock : bool;
  ref_counts : Zmap Z;
  cr3 : Z }.

Definition set_mem (m : Zmap Z) (s : kmst) : kmst :=
  KM m (freelist s) (use_lock s) (kmem_lock s) (ref_counts s) (cr3 s).
Definition set_freelist (h : Z) (s : kmst) : kmst :=
  KM (mem s) h (use_lock s) (kmem_lock s) (ref_counts s) (cr3 s).
Definition set_use_lock (b : bool) (s : kmst) : kmst :=
  KM (mem s) (freelist s) b (kmem_lock s) (ref_counts s) (cr3 s).
Definition set_kmem_lock (b : bool) (s : kmst) : kmst :=
  KM (mem s) (freelist s) (use_lock s) b (ref_counts s) (cr3 s).

Definition set_cr3 (v : Z) (s : kmst) : kmst :=
  KM (mem s) (freelist s) (use_lock s) (kmem_lock s) (ref_counts s) v.

(** lcr3: load the CPU's page table base register. *)
Definition lcr3 (v : Z) : M kmst unit := modify (set_cr3 v).

(** [ref_counts[i]], an array of [uchar]. *)
Definition refcnt (s : kmst) (i : Z) : Z := default 0 (ref_counts s !! i).
Definition set_ref (i v : Z) (s : kmst) : kmst :=
  KM (mem s) (freelist s) (use_lock s) (kmem_lock s) (<[i := u8 v]> (ref_counts s)) (cr3 s).

(** acquire(&kmem.lock) and release(&kmem.lock) as seen by the CPU that runs
    the allocator: a lock it already holds is a panic. *)
Definition acquire_kmem : M kmst unit :=
  b ← gets kmem_lock;
  if (b : bool) then panic "acquire" else modify (set_kmem_lock true).
Definition release_kmem : M kmst unit :=
  b ← gets kmem_lock;
  if (b : bool) then modify (set_kmem_lock false) else panic "release".

(** Evaluate a routine on an explicit state down to its record of fields. *)
Ltac km_eval :=
  cbv [mbind M_bind obind mret M_ret gets modify when panic lcr3 acquire_kmem release_kmem
       set_mem set_freelist set_use_lock set_kmem_lock set_ref set_cr3
       mem freelist use_lock kmem_lock ref_counts cr3 negb Z.eqb].

Section kalloc.
Context {KI : KernelImage}.

Definition init_refs : M kmst unit :=
  modify (fun s => KM (mem s) (freelist s) (use_lock s) (kmem_lock s) ∅ (cr3 s)).

Definition get_ref_count (pa : Z) : M kmst Z :=
  if PHYSTOP <=? pa then panic "get_ref_count"
  else gets (fun s => refcnt s (pa / PGSIZE)).

Definition kfree (v : Z) : M kmst unit :=
  if negb (v mod PGSIZE =? 0) || (v <? k_end) || (PHYSTOP <=? V2P v) then panic "kfree"
  else
    c ← get_ref_count (V2P v);
    if 1 <? c then mret tt
    else
      modify (fun s => set_mem (memset (mem s) v 1 PGSIZE) s);;
      ul ← gets use_lock;
      when ul acquire_kmem;;
      modify (fun s => set_mem (st32 (mem s) v (freelist s)) s);;
      modify (set_freelist v);;
      ul ← gets use_lock;
      when ul release_kmem.

Definition incref (pa : Z) : M kmst unit :=
  if PHYSTOP <=? pa then panic "incref: invalid physical address: "
  else modify (fun s => set_ref (pa / PGSIZE) (refcnt s (pa / PGSIZE) + 1) s).

Definition decref (pa : Z) : M kmst unit :=
  if PHYSTOP <=? pa then panic "decref: invalid physical address"
  else
    c ← gets (fun s => refcnt s (pa / PGSIZE));
    when (c <? 1) (kfree (P2V pa));;
    modify (fun s => set_ref (pa / PGSIZE) (refcnt s (pa / PGSIZE) - 1) s);;
    c ← gets (fun s => refcnt s (pa / PGSIZE));
    if c =? 0 then kfree (P2V pa) else mret tt.

(** [for(; p + PGSIZE <= vend; p += PGSIZE) kfree(p);] *)
Definition freerange_body (vend p : Z) : M kmst (Z + unit) :=
  if u32 (p + PGSIZE) <=? vend then kfree p;; mret (inl (u32 (p + PGSIZE)))
  else mret (inr tt).

Definition freerange (vstart vend : Z) : M kmst unit :=
  let p := PGROUNDUP vstart in
  iterate (Z.to_nat ((vend - p) / PGSIZE + 2)) (freerange_body vend) p.

Definition kinit1 (vstart vend : Z) : M kmst unit :=
  modify (set_kmem_lock false);;
  modify (set_use_lock false);;
  freerange vstart vend.

Definition kinit2 (vstart vend : Z) : M kmst unit :=
  freerange vstart vend;;
  modify (set_use_lock true).

Definition kalloc : M kmst Z :=
  ul ← gets use_lock;
  when ul acquire_kmem;;
  r ← gets freelist;
  when (negb (r =? 0)) (modify (fun s => set_freelist (ld32 (mem s) r) s));;
  modify (set_ref (V2P r / PGSIZE) 1);;
  ul ← gets use_lock;
  when ul release_kmem;;
  mret r.

(** ** The free list *)

(** A page the allocator manages. *)
Definition page_ok (p : Z) : Prop := p mod 4096 = 0 /\ k_end <= p < KERNBASE + PHYSTOP.

Definition in_page (p a : Z) : Prop := p <= a < p + 4096.

(** The chain of [struct run] pointers from [h] is the list [l]. *)
Fixpoint freechain (m : Zmap Z) (h : Z) (l : list Z) : Prop :=
  match l with
  | [] => h = 0
  | p :: l' => h = p /\ freechain m (ld32 m p) l'
  end.

(** The state [s] represents an allocator whose free pages are [l]. *)
Record km_ok (s : kmst) (l : list Z) : Prop := {
  ok_mem : mem_ok (mem s);
  ok_lock : kmem_lock s = false;
  ok_refs : forall i, 0 <= refcnt s i < 256;
  ok_chain : freechain (mem s) (freelist s) l;
  ok_nodup : NoDup l;
  ok_pages : Forall page_ok l }.

Lemma k_end_lo : KERNLINK < k_end.
Proof. pose proof k_data_lo. pose proof k_data_end. lia. Qed.

Lemma page_ok_range p : page_ok p -> KERNBASE < p /\ p + 4096 <= KERNBASE + PHYSTOP /\ p mod 4096 = 0.
Proof.
  intros [Ha Hr]. pose proof k_end_lo. unfold_mmu.
  assert (p <> KERNBASE + PHYSTOP - 1) by (unfold_mmu; divlia).
  unfold_mmu. split_and!; [lia | divlia | done].
Qed.

Lemma page_ok_nz p : page_ok p -> p <> 0.
Proof. intros H%page_ok_range. unfold_mmu. lia. Qed.

Lemma page_ok_V2P p : page_ok p -> V2P p = p - KERNBASE /\ 0 <= V2P p < PHYSTOP /\ V2P p mod 4096 = 0.
Proof.
  intros H%page_ok_range. rewrite V2P_eq by (unfold_mmu; lia).
  unfold_mmu. split_and!; (lia || divlia).
Qed.

Lemma page_ok_P2V p : page_ok p -> P2V (V2P p) = p.
Proof. intros H%page_ok_range. apply P2V_V2P. unfold_mmu. lia. Qed.

Lemma in_page_disjoint p q a : p mod 4096 = 0 -> q mod 4096 = 0 -> p <> q -> in_page p a -> ~ in_page q a.
Proof. unfold in_page. intros. divlia. Qed.

Lemma page_index_inj p q : page_ok p -> page_ok q -> V2P p / PGSIZE = V2P q / PGSIZE -> p = q.
Proof.
  intros Hp Hq. destruct (page_ok_V2P p Hp) as (-> & ? & ?).
  destruct (page_ok_V2P q Hq) as (-> & ? & ?). unfold_mmu.
  destruct Hp as [? _], Hq as [? _]. divlia.
Qed.

Lemma freechain_ext m m' h l :
  freechain m h l -> (forall p, p ∈ l -> ld32 m' p = ld32 m p) -> freechain m' h l.
Proof.
  revert h. induction l as [|p l IH]; simpl; intros h; [done|].
  intros [-> Hc] He. split; [done|]. rewrite He by set_solver. apply IH; set_solver.
Qed.

(** Memory may change anywhere outside the free pages. *)
Lemma freechain_same_but (P : Z -> Prop) m m' h l :
  freechain m h l -> same_but P m m' -> Forall page_ok l ->
  (forall p a, p ∈ l -> in_page p a -> ~ P a) -> freechain m' h l.
Proof.
  intros Hc Hs Hp Hd. eapply freechain_ext; [done|]. intros p Hin.
  eapply same_but_ld32; [done|]. intros i Hi. eapply Hd; [done|].
  unfold in_page. lia.
Qed.

Lemma refcnt_set_ref s i j v : refcnt (set_ref i v s) j = if decide (i = j) then u8 v else refcnt s j.
Proof. unfold refcnt, set_ref. simpl. rewrite lookup_insert. by case_decide. Qed.

Lemma km_ok_set_ref s l i v : km_ok s l -> km_ok (set_ref i v s) l.
Proof.
  intros []; split; try done. intros j. rewrite refcnt_set_ref.
  case_decide; auto using u8_range.
Qed.

(** Any update of memory outside the free pages keeps the allocator's view. *)
Lemma km_ok_set_cr3 s l v : km_ok s l -> km_ok (set_cr3 v s) l.
Proof. by intros [? ? ? ? ? ?]; split. Qed.

Lemma km_ok_set_mem (P : Z -> Prop) s l m :
  km_ok s l -> mem_ok m -> same_but P (mem s) m ->
  (forall p a, p ∈ l -> in_page p a -> ~ P a) -> km_ok (set_mem m s) l.
Proof. intros [] Hm Hs Hd. split; try done. simpl. eauto using freechain_same_but. Qed.

(** ** Effect of the operations on the free list *)

Lemma kalloc_nil s : km_ok s [] -> kalloc s = Ret 0 (set_ref 0x80000 1 s).
Proof.
  intros [_ Hlk _ Hc _ _]. simpl in Hc. destruct s as [m f ul lk rc c3]. simpl in *. subst.
  by destruct ul.
Qed.

Definition after_kalloc (s : kmst) (p : Z) : kmst :=
  set_ref (V2P p / PGSIZE) 1 (set_freelist (ld32 (mem s) p) s).

Lemma kalloc_cons s p l : km_ok s (p :: l) -> kalloc s = Ret p (after_kalloc s p).
Proof.
  intros [_ Hlk _ Hc _ Hp]. destruct Hc as [Hf _]. apply Forall_cons in Hp as [Hp _].
  destruct s as [m f ul lk rc c3]. simpl in *. subst f lk.
  apply page_ok_nz in Hp. unfold kalloc, after_kalloc.
  destruct p; [congruence| |]; destruct ul; km_eval; reflexivity.
Qed.

Lemma km_ok_after_kalloc s p l : km_ok s (p :: l) -> km_ok (after_kalloc s p) l.
Proof.
  intros [Hm Hlk Hr [_ Hc] Hnd Hp]. unfold after_kalloc. apply km_ok_set_ref.
  split; simpl; try done; [by apply NoDup_cons in Hnd as [_ ?] | by apply Forall_cons in Hp as [_ ?]].
Qed.

(** The address checks of kfree pass for a page of the allocator. *)
Lemma kfree_checks s v :
  page_ok v ->
  kfree v s =
    (if 1 <? refcnt s (V2P v / PGSIZE) then mret tt
     else
       modify (fun s => set_mem (memset (mem s) v 1 PGSIZE) s);;
       ul ← gets use_lock;
       when ul acquire_kmem;;
       modify (fun s => set_mem (st32 (mem s) v (freelist s)) s);;
       modify (set_freelist v);;
       ul ← gets use_lock;
       when ul release_kmem) s.
Proof.
  intros Hv. destruct (page_ok_V2P v Hv) as (_ & Hr & _). destruct Hv as [Ha Hlo].
  unfold kfree, get_ref_count.
  rewrite (proj2 (Z.leb_gt PHYSTOP (V2P v))), (proj2 (Z.ltb_ge v k_end)) by lia.
  unfold PGSIZE in *. rewrite Ha. by mrun.
Qed.

(** kfree of a page that several page tables still refer to returns at once. *)
Lemma kfree_shared s v :
  page_ok v -> 1 < refcnt s (V2P v / PGSIZE) -> kfree v s = Ret tt s.
Proof. intros Hv Hc. rewrite kfree_checks by done. by rewrite (proj2 (Z.ltb_lt _ _)). Qed.

Definition after_kfree (s : kmst) (v : Z) : kmst :=
  set_freelist v (set_mem (st32 (memset (mem s) v 1 PGSIZE) v (freelist s)) s).

Lemma kfree_last s v :
  page_ok v -> kmem_lock s = false -> refcnt s (V2P v / PGSIZE) <= 1 ->
  kfree v s = Ret tt (after_kfree s v).
Proof.
  intros Hv Hlk Hc. rewrite kfree_checks, (proj2 (Z.ltb_ge _ _)) by done.
  destruct s as [m f ul lk rc c3]. simpl in *. subst lk. unfold after_kfree.
  destruct ul; km_eval; reflexivity.
Qed.

Lemma same_but_after_kfree s v : same_but (in_page v) (mem s) (mem (after_kfree s v)).
Proof.
  unfold after_kfree, in_page. simpl. eapply same_but_trans.
  - apply (same_but_memset _ (mem s) v 1 PGSIZE); unfold_mmu; [lia|]. intros i. lia.
  - apply same_but_st32. intros i. lia.
Qed.

Lemma km_ok_after_kfree s l v :
  km_ok s l -> page_ok v -> v ∉ l -> km_ok (after_kfree s v) (v :: l).
Proof.
  intros [Hm Hlk Hr Hc Hnd Hp] Hv Hnin.
  assert (0 <= freelist s < 4294967296).
  { destruct l as [|p l]; simpl in Hc; [lia|]. destruct Hc as [-> _].
    apply Forall_cons in Hp as [Hp%page_ok_range _]. unfold_mmu. lia. }
  split; simpl.
  - apply mem_ok_st32, (mem_ok_memset _ v 1 PGSIZE); [unfold_mmu; lia|done].
  - done.
  - apply Hr.
  - split; [done|]. rewrite ld32_st32_eq by done.
    eapply freechain_same_but; [done|apply same_but_after_kfree|done|].
    intros p a Hin Hpa. apply (in_page_disjoint p v a); try done.
    + eapply Forall_forall in Hp; [|done]. apply Hp.
    + apply Hv.
    + by intros ->.
  - by apply NoDup_cons.
  - by apply Forall_cons.
Qed.

(** ** Boot: freerange *)

(** [n] consecutive pages from [lo], the highest first. *)
Fixpoint pages_desc (lo : Z) (n : nat) : list Z :=
  match n with
  | O => []
  | S n' => (lo + 4096 * Z.of_nat n') :: pages_desc lo n'
  end.

Lemma elem_of_pages_desc lo n p :
  p ∈ pages_desc lo n <-> lo <= p < lo + 4096 * Z.of_nat n /\ (p - lo) mod 4096 = 0.
Proof.
  induction n as [|n IH]; simpl.
  - split; [intros H; inversion H | lia].
  - rewrite elem_of_cons, IH. split; [intros [->|[? ?]]; split; (lia || divlia)|].
    intros [? ?]. destruct (decide (p < lo + 4096 * Z.of_nat n)); [right; lia | left; divlia].
Qed.

(** One kfree of a page that is not free yet: the page is pushed. *)
Lemma wp_kfree s l v :
  km_ok s l -> page_ok v -> v ∉ l -> refcnt s (V2P v / PGSIZE) <= 1 ->
  wp (kfree v) (fun _ s' => s' = after_kfree s v /\ km_ok s' (v :: l)) s.
Proof.
  intros Hs Hv Hn Hc. unfold wp. rewrite kfree_last by (done || apply Hs).
  split; [done|]. by apply km_ok_after_kfree.
Qed.

Lemma freerange_spec s l vstart vend :
  km_ok s l ->
  k_end <= vstart -> vstart <= vend <= KERNBASE + PHYSTOP -> vend mod 4096 = 0 ->
  (forall p, PGROUNDUP vstart <= p < vend -> (p ∉ l) /\ refcnt s (V2P p / PGSIZE) <= 1) ->
  wp (freerange vstart vend)
    (fun _ s' => km_ok s' (pages_desc (PGROUNDUP vstart)
                             (Z.to_nat ((vend - PGROUNDUP vstart) / 4096)) ++ l) /\
       ref_counts s' = ref_counts s /\ use_lock s' = use_lock s) s.
Proof.
  intros Hs Hlo Hve Hva Hfree. pose proof k_end_lo as Hend.
  assert (Hup : PGROUNDUP vstart mod 4096 = 0 /\ vstart <= PGROUNDUP vstart <= vend).
  { rewrite PGROUNDUP_eq by (unfold_mmu; lia). split; divlia. }
  unfold freerange. set (lo := PGROUNDUP vstart) in *. destruct Hup as [Hla Hup].
  apply (wp_iterate
    (fun p s' => exists n, p = lo + 4096 * Z.of_nat n /\ p <= vend /\
       km_ok s' (pages_desc lo n ++ l) /\ ref_counts s' = ref_counts s /\ use_lock s' = use_lock s)
    (fun p => Z.to_nat ((vend - p) / 4096))).
  - intros p s' (n & -> & Hp & Hok & Hr & Hu). unfold freerange_body.
    assert (Hw : u32 (lo + 4096 * Z.of_nat n + PGSIZE) = lo + 4096 * Z.of_nat (S n)).
    { rewrite u32_id; unfold_mmu; lia. }
    rewrite Hw. wp_step.
    + apply Z.leb_le in Heqb. wp_step.
      eapply wp_mono; [apply (wp_kfree s' (pages_desc lo n ++ l))|].
      * done.
      * split; [divlia | lia].
      * rewrite elem_of_app, elem_of_pages_desc. intros [?|Hin]; [lia|].
        revert Hin. apply Hfree. lia.
      * unfold refcnt in *. rewrite Hr. apply Hfree. lia.
      * intros _ s'' [-> Hok']. apply wp_ret. split; [|divlia].
        exists (S n). simpl pages_desc. split_and!; try done; lia.
    + apply Z.leb_gt in Heqb. apply wp_ret.
      replace (Z.to_nat ((vend - lo) / 4096)) with n by divlia. done.
  - unfold_mmu. divlia.
  - exists 0%nat. simpl. split_and!; try done; lia.
Qed.

(** ** Reference counts *)

Lemma run_incref s pa :
  pa < PHYSTOP ->
  incref pa s = Ret tt (set_ref (pa / PGSIZE) (refcnt s (pa / PGSIZE) + 1) s).
Proof. intros. unfold incref. by rewrite (proj2 (Z.leb_gt _ _)). Qed.

(** decref with other references left. *)
Lemma run_decref_shared s pa :
  pa < PHYSTOP -> 1 < refcnt s (pa / PGSIZE) < 256 ->
  decref pa s = Ret tt (set_ref (pa / PGSIZE) (refcnt s (pa / PGSIZE) - 1) s).
Proof.
  intros Hp Hc. unfold decref. rewrite (proj2 (Z.leb_gt _ _)) by done. mrun.
  rewrite (proj2 (Z.ltb_ge (refcnt s (pa / PGSIZE)) 1)) by lia. mrun.
  rewrite refcnt_set_ref, decide_True by done. rewrite u8_id by lia.
  by rewrite (proj2 (Z.eqb_neq _ _)) by lia.
Qed.

(** decref of the last reference frees the page. *)
Lemma run_decref_last s v :
  page_ok v -> kmem_lock s = false -> refcnt s (V2P v / PGSIZE) = 1 ->
  decref (V2P v) s = Ret tt (after_kfree (set_ref (V2P v / PGSIZE) 0 s) v).
Proof.
  intros Hv Hlk Hc. pose proof (page_ok_V2P v Hv) as (_ & Hr & _).
  unfold decref. rewrite (proj2 (Z.leb_gt _ _)) by lia. mrun. rewrite Hc. mrun.
  rewrite page_ok_P2V, refcnt_set_ref, decide_True, Hc by done.
  change (u8 (1 - 1)) with 0. change (0 =? 0) with true. cbn iota.
  apply kfree_last; [done|done|]. rewrite refcnt_set_ref, decide_True by done. done.
Qed.

(** ** A concrete allocator, to instantiate the theorems *)

(** Nothing free, as the zeroed BSS leaves it. *)
Definition km_zero : kmst := KM ∅ 0 false false ∅ 0.

(** The allocator whose free list is [l]. *)
Definition km_free (l : list Z) : kmst := foldr (fun p s => after_kfree s p) km_zero l.

Lemma km_ok_zero : km_ok km_zero [].
Proof.
  split; simpl; try done; [apply mem_ok_empty| |constructor].
  intros i. unfold refcnt. simpl. rewrite lookup_empty. simpl. lia.
Qed.

Lemma ref_counts_free l : ref_counts (km_free l) = ∅.
Proof. induction l as [|p l IH]; [done|exact IH]. Qed.

Lemma km_ok_free l : NoDup l -> Forall page_ok l -> km_ok (km_free l) l.
Proof.
  induction l as [|p l IH]; intros Hn Hp; simpl; [apply km_ok_zero|].
  apply NoDup_cons in Hn as [? ?]. apply Forall_cons in Hp as [? ?].
  apply km_ok_after_kfree; auto.
Qed.

Lemma km_free_outside l i :
  (forall p, p ∈ l -> ~ in_page p i) -> ld8 (mem (km_free l)) i = 0.
Proof.
  induction l as [|p l IH]; intros Hi; [by unfold ld8; simpl; rewrite lookup_empty|].
  change (mem (km_free (p :: l))) with (mem (after_kfree (km_free l) p)).
  rewrite (same_but_after_kfree (km_free l) p i); [|apply Hi; by left].
  apply IH. intros q Hq. apply Hi. by right.
Qed.

End kalloc.

(** A kernel image of the size the Makefile's kernel has. *)
#[export] Instance example_image : KernelImage :=
  {| k_data := 0x80109000; k_end := 0x80213000; k_data_aligned := eq_refl;
     k_data_lo := eq_refl; k_data_end := ltac:(discriminate); k_end_hi := ltac:(discriminate) |}.

(** ** Properties *)

(** C25: kalloc refines popping the abstract list of free pages: it never
    panics, answers null exactly when no page is free, and otherwise returns
    the head of the free list, removes exactly that page, leaves memory alone
    and gives the page reference count 1 without changing another page's. *)
Theorem kalloc_pops_free_list {KI : KernelImage} (s : kmst) (l : list Z) :
  km_ok s l ->
  match l with
  | [] => exists s', kalloc s = Ret 0 s' /\ km_ok s' [] /\ mem s' = mem s
  | p :: l' =>
      exists s', kalloc s = Ret p s' /\ km_ok s' l' /\ mem s' = mem s /\
        refcnt s' (V2P p / PGSIZE) = 1 /\
        (forall q, page_ok q -> q <> p -> refcnt s' (V2P q / PGSIZE) = refcnt s (V2P q / PGSIZE))
  end.
Proof.
  intros Hs. destruct l as [|p l].
  - exists (set_ref 0x80000 1 s). split_and!; [by apply kalloc_nil | by apply km_ok_set_ref | done].
  - exists (after_kalloc s p). split_and!; eauto using kalloc_cons, km_ok_after_kalloc.
    + unfold after_kalloc. by rewrite refcnt_set_ref, decide_True.
    + intros q Hq Hne. unfold after_kalloc. rewrite refcnt_set_ref, decide_False; [done|].
      intros E. apply Hne. symmetry. eapply page_index_inj; eauto.
      eapply Forall_cons. apply Hs.
Qed.

Lemma kalloc_pops_free_list_witness :
  exists s', kalloc (km_free [0x80400000; 0x80500000]) = Ret 0x80400000 s' /\
    km_ok s' [0x80500000].
Proof.
  destruct (kalloc_pops_free_list (km_free [0x80400000; 0x80500000])
              [0x80400000; 0x80500000]) as (s' & H1 & H2 & _).
  - apply km_ok_free; [apply (bool_decide_unpack _); vm_compute; exact I|].
    repeat constructor; vm_compute; congruence.
  - exists s'. split; assumption.
Defined.

(** C26: kfree refines pushing on the abstract free list.  For a page of the
    allocator that is not free, it returns; with at most one reference the page
    becomes the head of the free list and nothing outside the page changes;
    with more references the whole state is unchanged. *)
Theorem kfree_pushes_free_list {KI : KernelImage} (s : kmst) (l : list Z) (v : Z) :
  km_ok s l -> page_ok v -> v ∉ l ->
  if decide (refcnt s (V2P v / PGSIZE) <= 1) then
    exists s', kfree v s = Ret tt s' /\ km_ok s' (v :: l) /\
      same_but (in_page v) (mem s) (mem s') /\ ref_counts s' = ref_counts s
  else kfree v s = Ret tt s.
Proof.
  intros Hs Hv Hn. case_decide.
  - exists (after_kfree s v). split_and!; [|by apply km_ok_after_kfree| |done].
    + apply kfree_last; [done| |done]. apply Hs.
    + apply same_but_after_kfree.
  - apply kfree_shared; [done|lia].
Qed.

Lemma kfree_pushes_free_list_witness :
  exists s', kfree 0x80400000 (km_free [0x80500000]) = Ret tt s' /\
    km_ok s' [0x80400000; 0x80500000].
Proof.
  pose proof (kfree_pushes_free_list (km_free [0x80500000]) [0x80500000] 0x80400000) as H.
  destruct H as (s' & H1 & H2 & _).
  - apply km_ok_free; [apply (bool_decide_unpack _); vm_compute; exact I|].
    repeat constructor; vm_compute; congruence.
  - split; vm_compute; [reflexivity | split; congruence].
  - apply (bool_decide_unpack _). vm_compute. exact I.
  - exists s'. split; assumption.
Defined.

(** C24: the boot sequence of main.c, kinit1(end, P2V(4M)) then
    kinit2(P2V(4M), P2V(PHYSTOP)), started on a zeroed allocator, returns and
    leaves exactly the page-aligned addresses from PGROUNDUP(end) up to
    P2V(PHYSTOP) on the free list, each once, with locking switched on. *)
Theorem boot_frees_all_pages {KI : KernelImage} (s : kmst) :
  mem_ok (mem s) -> freelist s = 0 -> ref_counts s = ∅ ->
  wp (kinit1 k_end (P2V (4 * 1024 * 1024));; kinit2 (P2V (4 * 1024 * 1024)) (P2V PHYSTOP))
     (fun _ s' => use_lock s' = true /\
        exists l, km_ok s' l /\
          forall p, p ∈ l <-> p mod 4096 = 0 /\ PGROUNDUP k_end <= p < P2V PHYSTOP) s.
Proof.
  intros Hm Hf Hr. pose proof k_end_lo. pose proof k_end_hi.
  change (P2V (4 * 1024 * 1024)) with 0x80400000. change (P2V PHYSTOP) with 0x8E000000.
  set (s0 := set_use_lock false (set_kmem_lock false s)).
  assert (Hrc : forall i, refcnt s0 i = 0).
  { intros i. unfold refcnt, s0. simpl. by rewrite Hr, lookup_empty. }
  assert (Hs0 : km_ok s0 []).
  { split; simpl; try done; [|constructor]. intros i. rewrite Hrc. lia. }
  assert (Hup : PGROUNDUP k_end mod 4096 = 0 /\ k_end <= PGROUNDUP k_end <= 0x80400000).
  { rewrite PGROUNDUP_eq by (unfold_mmu; lia). unfold_mmu. split; divlia. }
  unfold kinit1, kinit2. wp_steps. fold s0.
  eapply wp_mono.
  { apply (freerange_spec s0 []); [done|lia|unfold_mmu; lia|done|]. intros p Hp. rewrite Hrc. split; [apply not_elem_of_nil|lia]. }
  intros [] s1 (Hs1 & Hr1 & _). wp_step.
  set (l1 := pages_desc _ _ ++ []) in Hs1.
  assert (Hl1 : forall p, p ∈ l1 <-> p mod 4096 = 0 /\ PGROUNDUP k_end <= p < 0x80400000).
  { intros p. unfold l1. rewrite app_nil_r, elem_of_pages_desc. split; intros []; divlia. }
  eapply wp_mono.
  { apply (freerange_spec s1 l1); [done|unfold_mmu; lia|unfold_mmu; lia|done|].
    intros p Hp. rewrite Hl1. change (PGROUNDUP 0x80400000) with 0x80400000 in Hp.
    unfold refcnt. rewrite Hr1. change (default 0 _) with (refcnt s0 (V2P p / PGSIZE)).
    rewrite Hrc. lia. }
  intros [] s2 (Hs2 & _ & _). wp_step. split; [done|].
  eexists. split; [destruct Hs2; split; done|].
  intros p. rewrite elem_of_app, elem_of_pages_desc, Hl1.
  change (PGROUNDUP 0x80400000) with 0x80400000.
  change (Z.of_nat (Z.to_nat ((0x8E000000 - 0x80400000) / 4096))) with 56320.
  split; intros []; divlia.
Qed.

Lemma boot_frees_all_pages_witness :
  wp (kinit1 k_end (P2V (4 * 1024 * 1024));; kinit2 (P2V (4 * 1024 * 1024)) (P2V PHYSTOP))
     (fun _ s' => use_lock s' = true /\
        exists l, km_ok s' l /\
          forall p, p ∈ l <-> p mod 4096 = 0 /\ PGROUNDUP k_end <= p < P2V PHYSTOP) km_zero.
Proof. apply boot_frees_all_pages; [apply mem_ok_empty | reflexivity | reflexivity]. Defined.

(** decref of a page with c references, 1 <= c <= 255: with c > 1 only the
    count drops to c - 1; with c = 1 the count becomes 0 and the page is put on
    the free list. *)
Theorem decref_frees_last {KI : KernelImage} (s : kmst) (l : list Z) (v : Z) :
  km_ok s l -> page_ok v -> v ∉ l -> 1 <= refcnt s (V2P v / PGSIZE) ->
  exists s', decref (V2P v) s = Ret tt s' /\
    refcnt s' (V2P v / PGSIZE) = refcnt s (V2P v / PGSIZE) - 1 /\
    km_ok s' (if decide (refcnt s (V2P v / PGSIZE) = 1) then v :: l else l) /\
    same_but (in_page v) (mem s) (mem s').
Proof.
  intros Hs Hv Hn Hc. pose proof (page_ok_V2P v Hv) as (_ & Hr & _).
  pose proof (ok_refs s l Hs (V2P v / PGSIZE)). case_decide as E.
  - eexists. split; [apply run_decref_last; [done| |done]; apply Hs|]. split_and!.
    + change (refcnt (set_ref (V2P v / PGSIZE) 0 s) (V2P v / PGSIZE) = refcnt s (V2P v / PGSIZE) - 1).
      rewrite refcnt_set_ref, decide_True, E by done. done.
    + apply km_ok_after_kfree; [by apply km_ok_set_ref|done|done].
    + apply (same_but_after_kfree (set_ref (V2P v / PGSIZE) 0 s)).
  - eexists. split; [apply run_decref_shared; lia|]. split_and!.
    + rewrite refcnt_set_ref, decide_True, u8_id by (done || lia). done.
    + by apply km_ok_set_ref.
    + apply same_but_refl.
Qed.

Lemma decref_frees_last_witness :
  exists s', decref (V2P 0x80400000) (set_ref (V2P 0x80400000 / PGSIZE) 1 (km_free [])) = Ret tt s' /\
    km_ok s' [0x80400000].
Proof.
  destruct (decref_frees_last (set_ref (V2P 0x80400000 / PGSIZE) 1 (km_free [])) [] 0x80400000)
    as (s' & H1 & _ & H2 & _).
  - apply km_ok_set_ref, km_ok_zero.
  - split; vm_compute; [reflexivity | split; congruence].
  - apply not_elem_of_nil.
  - vm_compute. congruence.
  - exists s'. split; [exact H1 | exact H2].
Defined.

(** decref of a page whose count is already 0 frees the page and leaves
    the one-byte count at 255: the page is on the free list, and any later
    kfree of it takes it for shared. *)
Theorem decref_zero_wraps {KI : KernelImage} (s : kmst) (l : list Z) (v : Z) :
  km_ok s l -> page_ok v -> v ∉ l -> refcnt s (V2P v / PGSIZE) = 0 ->
  exists s', decref (V2P v) s = Ret tt s' /\ km_ok s' (v :: l) /\
    refcnt s' (V2P v / PGSIZE) = 255 /\ kfree v s' = Ret tt s'.
Proof.
  intros Hs Hv Hn Hc. pose proof (page_ok_V2P v Hv) as (_ & Hr & _).
  pose proof (ok_lock s l Hs) as Hlk.
  set (s' := set_ref (V2P v / PGSIZE) (-1) (after_kfree s v)).
  assert (Hc' : refcnt s' (V2P v / PGSIZE) = 255).
  { unfold s'. by rewrite refcnt_set_ref, decide_True. }
  exists s'. split_and!.
  - unfold decref. rewrite (proj2 (Z.leb_gt _ _)) by lia. mrun. rewrite Hc. mrun.
    rewrite page_ok_P2V by done.
    rewrite (bind_ret_run _ _ s tt (after_kfree s v)) by (apply kfree_last; (done || lia)). mrun.
    change (refcnt (after_kfree s v) (V2P v / PGSIZE)) with (refcnt s (V2P v / PGSIZE)).
    rewrite Hc. change (0 - 1) with (-1). fold s'. by rewrite Hc'.
  - apply km_ok_set_ref. by apply km_ok_after_kfree.
  - done.
  - apply kfree_shared; [done|lia].
Qed.

Lemma decref_zero_wraps_witness :
  exists s', decref (V2P 0x80400000) (km_free []) = Ret tt s' /\
    km_ok s' [0x80400000] /\ refcnt s' (V2P 0x80400000 / PGSIZE) = 255.
Proof.
  destruct (decref_zero_wraps (km_free []) [] 0x80400000) as (s' & H1 & H2 & H3 & _).
  - apply km_ok_zero.
  - split; vm_compute; [reflexivity | split; congruence].
  - apply not_elem_of_nil.
  - vm_compute. reflexivity.
  - exists s'. split; [exact H1 | split; [exact H2 | exact H3]].
Defined.
