(* ===== verification/Vm.v ===== *)
(** * vm.c: page tables and address spaces

    The two-level x86 page tables live in the memory of [Kalloc]: a page
    directory is an allocator page of 1024 words, a present entry of it points
    to a page of 1024 page table entries.  The operations are those of vm.c on
    that memory.  The abstract view of an address space is the function
    [pte_of m pgdir] from virtual addresses to page table entries (0 where no
    page table exists); [pt_ok] says that the pages of a page table are
    allocated, distinct and not free, and every operation is described by how
    it changes [pte_of]. *)

From Stdlib Require Import ZArith Lia Sorted.
From stdpp Require Import base tactics numbers option list strings zmap.
From S2P Require Import Prelude Memory Mmu StringOps Kalloc.

Section vm.
Context {KI : KernelImage}.

(** ** Operations *)

Definition load (a : Z) : M kmst Z := gets (fun s => ld32 (mem s) a).
Definition store (a v : Z) : M kmst unit := modify (fun s => set_mem (st32 (mem s) a v) s).

Definition walkpgdir (pgdir va : Z) (alloc : bool) : M kmst Z :=
  let pde := pgdir + 4 * PDX va in
  e ← load pde;
  if flag e PTE_P then mret (P2V (PTE_ADDR e) + 4 * PTX va)
  else if negb alloc then mret 0
  else
    pgtab ← kalloc;
    if pgtab =? 0 then mret 0
    else
      modify (fun s => set_mem (memset (mem s) pgtab 0 PGSIZE) s);;
      store pde (Z.lor (Z.lor (Z.lor (V2P pgtab) PTE_P) PTE_W) PTE_U);;
      mret (pgtab + 4 * PTX va).

Definition mappages_body (pgdir last perm : Z) (x : Z * Z) : M kmst (Z * Z + Z) :=
  let '(a, pa) := x in
  pte ← walkpgdir pgdir a true;
  if pte =? 0 then mret (inr (-1))
  else
    e ← load pte;
    if flag e PTE_P then panic "remap"
    else
      store pte (Z.lor (Z.lor pa perm) PTE_P);;
      if a =? last then mret (inr 0)
      else mret (inl (u32 (a + PGSIZE), u32 (pa + PGSIZE))).

Definition mappages (pgdir va size pa perm : Z) : M kmst Z :=
  let a := PGROUNDDOWN va in
  let last := PGROUNDDOWN (u32 (va + size - 1)) in
  iterate (Z.to_nat (u32 (last - a) / PGSIZE + 1)) (mappages_body pgdir last perm) (a, pa).

Definition deallocuvm_body (pgdir oldsz a : Z) : M kmst (Z + unit) :=
  if a <? oldsz then
    pte ← walkpgdir pgdir a false;
    if pte =? 0 then mret (inl (u32 (u32 (PGADDR (PDX a + 1) 0 0 - PGSIZE) + PGSIZE)))
    else
      e ← load pte;
      (if flag e PTE_P then
         if PTE_ADDR e =? 0 then panic "kfree"
         else kfree (P2V (PTE_ADDR e));; store pte 0
       else mret tt);;
      mret (inl (u32 (a + PGSIZE)))
  else mret (inr tt).

Definition deallocuvm (pgdir oldsz newsz : Z) : M kmst Z :=
  if oldsz <=? newsz then mret oldsz
  else
    iterate (Z.to_nat (oldsz / PGSIZE + 2)) (deallocuvm_body pgdir oldsz) (PGROUNDUP newsz);;
    mret newsz.

Fixpoint freevm_tables (pgdir i : Z) (n : nat) : M kmst unit :=
  match n with
  | O => mret tt
  | S n' =>
      e ← load (pgdir + 4 * i);
      when (flag e PTE_P) (kfree (P2V (PTE_ADDR e)));;
      freevm_tables pgdir (i + 1) n'
  end.

Definition freevm (pgdir : Z) : M kmst unit :=
  if pgdir =? 0 then panic "freevm: no pgdir"
  else
    deallocuvm pgdir KERNBASE 0;;
    freevm_tables pgdir 0 (Z.to_nat NPDENTRIES);;
    kfree pgdir.

Record kmap_entry : Type := Kmap { virt : Z; phys_start : Z; phys_end : Z; kperm : Z }.

Definition kmap : list kmap_entry :=
  [ Kmap KERNBASE 0 EXTMEM PTE_W;
    Kmap KERNLINK (V2P KERNLINK) (V2P k_data) 0;
    Kmap k_data (V2P k_data) PHYSTOP PTE_W;
    Kmap DEVSPACE DEVSPACE 0 PTE_W ].

Fixpoint setupkvm_map (pgdir : Z) (ks : list kmap_entry) : M kmst Z :=
  match ks with
  | [] => mret pgdir
  | k :: ks' =>
      r ← mappages pgdir (virt k) (u32 (phys_end k - phys_start k)) (phys_start k) (kperm k);
      if r <? 0 then freevm pgdir;; mret 0
      else setupkvm_map pgdir ks'
  end.

Definition setupkvm : M kmst Z :=
  pgdir ← kalloc;
  if pgdir =? 0 then mret 0
  else
    modify (fun s => set_mem (memset (mem s) pgdir 0 PGSIZE) s);;
    if DEVSPACE <? P2V PHYSTOP then panic "PHYSTOP too high"
    else setupkvm_map pgdir kmap.

(** [init] is the initcode image the linker embeds, as bytes. *)
Definition inituvm (pgdir : Z) (init : list Z) (sz : Z) : M kmst unit :=
  if PGSIZE <=? sz then panic "inituvm: more than a page"
  else
    mem ← kalloc;
    modify (fun s => set_mem (memset (Kalloc.mem s) mem 0 PGSIZE) s);;
    mappages pgdir 0 PGSIZE (V2P mem) (Z.lor PTE_W PTE_U);;
    modify (fun s => set_mem (st_bytes (Kalloc.mem s) mem (take (Z.to_nat sz) init)) s).

Definition allocuvm_body (pgdir oldsz newsz a : Z) : M kmst (Z + Z) :=
  if a <? newsz then
    mem ← kalloc;
    if mem =? 0 then
      deallocuvm pgdir newsz oldsz;; mret (inr 0)
    else
      modify (fun s => set_mem (memset (Kalloc.mem s) mem 0 PGSIZE) s);;
      r ← mappages pgdir a PGSIZE (V2P mem) (Z.lor PTE_W PTE_U);
      if r <? 0 then
        deallocuvm pgdir newsz oldsz;; kfree mem;; mret (inr 0)
      else mret (inl (u32 (a + PGSIZE)))
  else mret (inr newsz).

Definition allocuvm (pgdir oldsz newsz : Z) : M kmst Z :=
  if KERNBASE <=? newsz then mret 0
  else if newsz <? oldsz then mret oldsz
  else iterate (Z.to_nat (newsz / PGSIZE + 2)) (allocuvm_body pgdir oldsz newsz) (PGROUNDUP oldsz).

Definition clearpteu (pgdir uva : Z) : M kmst unit :=
  pte ← walkpgdir pgdir uva false;
  if pte =? 0 then panic "clearpteu"
  else e ← load pte; store pte (Z.land e (Z.lnot PTE_U)).

(** One page of copyuvm: the parent's entry is read, both entries are turned
    into copy-on-write ones and the child's is installed. *)
Definition copyuvm_body (pgdir d sz i : Z) : M kmst (Z + Z) :=
  if i <? sz then
    pte ← walkpgdir pgdir i false;
    if pte =? 0 then panic "copyuvm: pte should exist"
    else
      e ← load pte;
      if negb (flag e PTE_P) then panic "copyuvm: page not present"
      else
        let pa := PTE_ADDR e in
        let flags := PTE_FLAGS e in
        flags ←
          (if flag flags PTE_W then
             lcr3 (V2P pgdir);;
             e1 ← load pte; store pte (Z.lor e1 PTE_COW);;
             e2 ← load pte; store pte (Z.land e2 (Z.lnot PTE_W));;
             lcr3 (V2P pgdir);;
             mret (Z.land (Z.lor flags PTE_COW) (Z.lnot PTE_W))
           else mret flags);
        e1 ← load pte; store pte (Z.lor e1 PTE_COW);;
        e2 ← load pte; store pte (Z.land e2 (Z.lnot PTE_W));;
        lcr3 (V2P pgdir);;
        r ← mappages d i PGSIZE pa flags;
        if r <? 0 then lcr3 (V2P pgdir);; mret (inr 0)
        else incref pa;; mret (inl (u32 (i + PGSIZE)))
  else lcr3 (V2P pgdir);; mret (inr d).

Definition copyuvm (pgdir sz : Z) : M kmst Z :=
  d ← setupkvm;
  if d =? 0 then mret 0
  else iterate (Z.to_nat (sz / PGSIZE + 2)) (copyuvm_body pgdir d sz) 0.

Definition uva2ka (pgdir uva : Z) : M kmst Z :=
  pte ← walkpgdir pgdir uva false;
  if pte =? 0 then undef "uva2ka: null pte"
  else
    e ← load pte;
    if negb (flag e PTE_P) then mret 0
    else if negb (flag e PTE_U) then mret 0
    else mret (P2V (PTE_ADDR e)).

(** [buf] is the rest of the source bytes; its length is [len]. *)
Definition copyout_body (pgdir : Z) (x : Z * list Z) : M kmst (Z * list Z + Z) :=
  let '(va, buf) := x in
  let len := Z.of_nat (length buf) in
  if 0 <? len then
    let va0 := PGROUNDDOWN va in
    pa0 ← uva2ka pgdir va0;
    if pa0 =? 0 then mret (inr (-1))
    else
      let n := if len <? PGSIZE - (va - va0) then len else PGSIZE - (va - va0) in
      modify (fun s => set_mem (st_bytes (mem s) (pa0 + (va - va0)) (take (Z.to_nat n) buf)) s);;
      mret (inl (u32 (va0 + PGSIZE), drop (Z.to_nat n) buf))
  else mret (inr 0).

Definition copyout (pgdir va : Z) (buf : list Z) : M kmst Z :=
  iterate (length buf + 1) (copyout_body pgdir) (va, buf).

(** ** The abstract view *)

Definition pde (m : Zmap Z) (pgdir i : Z) : Z := ld32 m (pgdir + 4 * i).
Definition ptab (m : Zmap Z) (pgdir i : Z) : Z := P2V (PTE_ADDR (pde m pgdir i)).
Definition present (m : Zmap Z) (pgdir i : Z) : bool := flag (pde m pgdir i) PTE_P.

Definition pte_slot (m : Zmap Z) (pgdir va : Z) : option Z :=
  if present m pgdir (PDX va) then Some (ptab m pgdir (PDX va) + 4 * PTX va) else None.

Definition pte_of (m : Zmap Z) (pgdir va : Z) : Z :=
  match pte_slot m pgdir va with Some a => ld32 m a | None => 0 end.

(** The physical address the MMU translates [va] to, with the entry's flags. *)
Definition translate (m : Zmap Z) (pgdir va : Z) : option (Z * Z) :=
  let e := pte_of m pgdir va in
  if flag e PTE_P then Some (PTE_ADDR e + va mod PGSIZE, PTE_FLAGS e) else None.

Definition in_pages (l : list Z) (a : Z) : Prop := exists p, p ∈ l /\ in_page p a.

(** The addresses of the pages that make up a page table. *)
Definition pt_addr (m : Zmap Z) (pgdir a : Z) : Prop :=
  in_page pgdir a \/ exists i, 0 <= i < 1024 /\ present m pgdir i = true /\ in_page (ptab m pgdir i) a.

(** The pages of a page table are pages of the allocator, distinct, and not
    among the free pages [l]. *)
Record pt_ok (m : Zmap Z) (l : list Z) (pgdir : Z) : Prop := {
  pt_dir : page_ok pgdir /\ (pgdir ∉ l);
  pt_tab i : 0 <= i < 1024 -> present m pgdir i = true ->
    page_ok (ptab m pgdir i) /\ (ptab m pgdir i ∉ l) /\ ptab m pgdir i <> pgdir;
  pt_inj i j : 0 <= i < 1024 -> 0 <= j < 1024 -> present m pgdir i = true ->
    present m pgdir j = true -> ptab m pgdir i = ptab m pgdir j -> i = j }.

(** [pt_ok] by evaluation. *)
Definition page_ok_eval (p : Z) : bool := (p mod 4096 =? 0) && (k_end <=? p) && (p <? KERNBASE + PHYSTOP).
Definition pt_ok_eval (m : Zmap Z) (l : list Z) (pgdir : Z) : bool :=
  let tabs := ptab m pgdir <$> filter (fun i => present m pgdir i = true) (Z.of_nat <$> seq 0 1024) in
  page_ok_eval pgdir && forallb page_ok_eval tabs && bool_decide (NoDup (pgdir :: tabs)) && bool_decide (Forall (fun p => p ∉ l) (pgdir :: tabs)).

Lemma page_ok_by_eval p : page_ok_eval p = true -> page_ok p.
Proof. unfold page_ok_eval, page_ok. rewrite !andb_true_iff, Z.eqb_eq, Z.leb_le, Z.ltb_lt. tauto. Qed.

Lemma pt_ok_by_eval m l pgdir : pt_ok_eval m l pgdir = true -> pt_ok m l pgdir.
Proof.
  unfold pt_ok_eval. set (idx := filter _ _). intros [[[H1%page_ok_by_eval H2]%andb_prop H3%bool_decide_eq_true]%andb_prop H4%bool_decide_eq_true]%andb_prop.
  assert (Hin : forall i, 0 <= i < 1024 -> present m pgdir i = true -> i ∈ idx).
  { intros i Hi Hp. apply list_elem_of_filter. split; [done|]. apply list_elem_of_fmap. exists (Z.to_nat i).
    split; [lia|]. apply elem_of_seq. lia. }
  apply NoDup_cons in H3 as [H3 H5]. apply Forall_cons in H4 as [H4 H6]. rewrite Forall_forall in H6. rewrite forallb_forall in H2.
  assert (Ht : forall i, 0 <= i < 1024 -> present m pgdir i = true -> ptab m pgdir i ∈ ptab m pgdir <$> idx).
  { intros i Hi Hp. apply list_elem_of_fmap. eauto. }
  split; [done|..].
  - intros i Hi Hp. split; [apply page_ok_by_eval, H2, list_elem_of_In; by apply Ht|]. split; [by apply H6, Ht|]. intros E. apply H3. rewrite <- E at 1. by apply Ht.
  - intros i j Hi Hj Pi Pj E. apply Hin, list_elem_of_lookup in Pi as [a Ha]; [|done]. apply Hin, list_elem_of_lookup in Pj as [b Hb]; [|done].
    assert (a = b) as <-; [|congruence]. eapply NoDup_lookup; [exact H5|rewrite list_lookup_fmap, Ha; reflexivity|].
    rewrite list_lookup_fmap, Hb. cbn. by rewrite E.
Qed.

(** ** Addresses of page table words *)

Lemma word_in_page p i : 0 <= i < 1024 -> forall a, p + 4 * i <= a < p + 4 * i + 4 -> in_page p a.
Proof. unfold in_page. lia. Qed.

Lemma same_idx va va' :
  0 <= va < 4294967296 -> 0 <= va' < 4294967296 ->
  (PDX va = PDX va' /\ PTX va = PTX va') <-> va / 4096 = va' / 4096.
Proof.
  intros. rewrite !PDX_eq, !PTX_eq by done. split; [intros []; divlia|].
  intros E. rewrite E. split; [divlia|done].
Qed.

Lemma pde_ext m m' pgdir i :
  (forall a, in_page pgdir a -> ld8 m' a = ld8 m a) -> 0 <= i < 1024 -> pde m' pgdir i = pde m pgdir i.
Proof. intros H Hi. apply ld32_ext. intros a Ha. apply H. by eapply word_in_page. Qed.

Lemma pde_dir_ext m m' pgdir :
  (forall a, in_page pgdir a -> ld8 m' a = ld8 m a) ->
  forall i, 0 <= i < 1024 -> present m' pgdir i = present m pgdir i /\ ptab m' pgdir i = ptab m pgdir i.
Proof. intros H i Hi. unfold present, ptab. by rewrite (pde_ext m m') by done. Qed.

Lemma pt_addr_dir_ext m m' pgdir a :
  (forall a, in_page pgdir a -> ld8 m' a = ld8 m a) -> pt_addr m' pgdir a <-> pt_addr m pgdir a.
Proof.
  intros H. pose proof (pde_dir_ext m m' pgdir H) as He. unfold pt_addr.
  split; (intros [?|(i & Hi & Hp & ?)]; [by left|right; exists i]; destruct (He i Hi) as [E1 E2]);
    rewrite ?E1, ?E2 in *; done.
Qed.

Lemma pt_ok_dir_ext m m' l l' pgdir :
  pt_ok m l pgdir -> (forall a, in_page pgdir a -> ld8 m' a = ld8 m a) ->
  (forall p, p ∈ l' -> p ∈ l) -> pt_ok m' l' pgdir.
Proof.
  intros [[Hd1 Hd2] Ht Hi] H Hl. pose proof (pde_dir_ext m m' pgdir H) as He. split.
  - split; [done|]. intros ?. by apply Hd2, Hl.
  - intros i Hr Hp. destruct (He i Hr) as [E1 E2]. rewrite E1 in Hp. rewrite E2.
    destruct (Ht i Hr Hp) as (? & Hn & ?). split_and!; try done. intros ?. by apply Hn, Hl.
  - intros i j Hri Hrj. destruct (He i Hri) as [-> ->], (He j Hrj) as [-> ->]. by apply Hi.
Qed.

Lemma slot_range m l pgdir va a :
  pt_ok m l pgdir -> pte_slot m pgdir va = Some a ->
  present m pgdir (PDX va) = true /\ a = ptab m pgdir (PDX va) + 4 * PTX va /\
  page_ok (ptab m pgdir (PDX va)) /\ a <> 0.
Proof.
  intros [_ Ht _] Hs. unfold pte_slot in Hs. destruct (present m pgdir (PDX va)) eqn:E; [|done].
  injection Hs as <-. destruct (Ht _ (PDX_range va) E) as (Hp & _ & _).
  split_and!; try done. pose proof (PTX_range va).
  pose proof (page_ok_range _ Hp). unfold_mmu. lia.
Qed.

(** Memory outside a page table does not matter to it. *)
Lemma pte_of_frame m m' l pgdir va :
  pt_ok m l pgdir -> (forall a, pt_addr m pgdir a -> ld8 m' a = ld8 m a) ->
  pte_slot m' pgdir va = pte_slot m pgdir va /\ pte_of m' pgdir va = pte_of m pgdir va.
Proof.
  intros Hok H. assert (Hdir : forall a, in_page pgdir a -> ld8 m' a = ld8 m a).
  { intros a Ha. apply H. by left. }
  destruct (pde_dir_ext m m' pgdir Hdir (PDX va) (PDX_range va)) as [E1 E2].
  assert (Hs : pte_slot m' pgdir va = pte_slot m pgdir va).
  { unfold pte_slot. by rewrite E1, E2. }
  split; [done|]. unfold pte_of. rewrite Hs.
  destruct (pte_slot m pgdir va) as [a|] eqn:Es; [|done].
  destruct (slot_range m l pgdir va a Hok Es) as (Hp & -> & _ & _).
  apply ld32_ext. intros b Hb. apply H. right. exists (PDX va).
  split_and!; [apply PDX_range| |done|eapply word_in_page; [apply PTX_range|done]].
  apply PDX_range.
Qed.

(** The entry of an address is that of its page. *)
Lemma pte_of_page m pgdir va va' :
  0 <= va < 4294967296 -> 0 <= va' < 4294967296 -> va / 4096 = va' / 4096 ->
  pte_of m pgdir va = pte_of m pgdir va'.
Proof.
  intros Hv Hv' He. apply same_idx in He as [H1 H2]; [|done|done].
  unfold pte_of, pte_slot. by rewrite H1, H2.
Qed.

(** A present entry is a word of a page table. *)
Lemma pte_of_slot m pgdir va :
  flag (pte_of m pgdir va) PTE_P = true ->
  exists a, pte_slot m pgdir va = Some a /\ pte_of m pgdir va = ld32 m a.
Proof. unfold pte_of. destruct (pte_slot m pgdir va) as [a|]; [by exists a|done]. Qed.

(** The pages of a page table are not free. *)
Lemma pt_addr_not_free m l pgdir a :
  pt_ok m l pgdir -> Forall page_ok l -> pt_addr m pgdir a -> ~ in_pages l a.
Proof.
  intros Hok Hl Ha (p & Hp & Hpa). eapply Forall_forall in Hl; [|done].
  destruct Ha as [Ha|(i & Hi & Hpr & Ha)].
  - destruct (pt_dir _ _ _ Hok) as [Hd Hn].
    eapply (in_page_disjoint pgdir p a); [apply Hd|apply Hl|by intros <-|done|done].
  - destruct (pt_tab _ _ _ Hok i Hi Hpr) as (Ht & Hn & _).
    eapply (in_page_disjoint _ p a); [apply Ht|apply Hl|by intros <-|done|done].
Qed.

(** An address space is not affected by changes outside its page table. *)
Lemma pt_frame (P : Z -> Prop) m m' l l' pgdir :
  pt_ok m l pgdir -> same_but P m m' -> (forall a, pt_addr m pgdir a -> ~ P a) ->
  (forall p, p ∈ l' -> p ∈ l) ->
  pt_ok m' l' pgdir /\ (forall va, pte_of m' pgdir va = pte_of m pgdir va) /\
  (forall a, pt_addr m' pgdir a <-> pt_addr m pgdir a).
Proof.
  intros Hok Hs Hd Hl.
  assert (Hdir : forall a, in_page pgdir a -> ld8 m' a = ld8 m a).
  { intros a Ha. apply Hs, Hd. by left. }
  split_and!.
  - by eapply pt_ok_dir_ext.
  - intros va. eapply pte_of_frame; [done|]. intros a Ha. by apply Hs, Hd.
  - intros a. by apply pt_addr_dir_ext.
Qed.

(** ** Writing a page table entry *)

Lemma slot_not_dir m l pgdir va a b :
  pt_ok m l pgdir -> pte_slot m pgdir va = Some a -> a <= b < a + 4 -> ~ in_page pgdir b.
Proof.
  intros Hok Hs Hb Hd. destruct (slot_range _ _ _ _ _ Hok Hs) as (Hpr & -> & Hp & _).
  destruct (pt_tab _ _ _ Hok (PDX va)) as (_ & _ & Hne); [apply PDX_range|done|].
  eapply (in_page_disjoint _ pgdir b); [apply Hp|apply (pt_dir _ _ _ Hok)|exact Hne| |done].
  eapply (word_in_page _ (PTX va)); [apply PTX_range|done].
Qed.

Lemma slot_word_dir_disjoint m l pgdir va a :
  pt_ok m l pgdir -> pte_slot m pgdir va = Some a ->
  forall v b, in_page pgdir b -> ld8 (st32 m a v) b = ld8 m b.
Proof.
  intros Hok Hs v b Hb. destruct (slot_range m l pgdir va a Hok Hs) as (Hp & -> & Hpg & _).
  destruct (pt_tab m l pgdir Hok (PDX va) (PDX_range va) Hp) as (_ & _ & Hne).
  apply ld8_st32_ne. pose proof (PTX_range va).
  destruct (pt_dir m l pgdir Hok) as [Hd _].
  assert (~ in_page (ptab m pgdir (PDX va)) b).
  { intros Hb'. eapply in_page_disjoint; [apply Hpg|apply Hd|exact Hne|exact Hb'|done]. }
  unfold in_page in *. lia.
Qed.

Lemma pte_of_store m l pgdir va a v va' :
  pt_ok m l pgdir -> pte_slot m pgdir va = Some a -> 0 <= v < 4294967296 ->
  0 <= va < 4294967296 -> 0 <= va' < 4294967296 ->
  pte_slot (st32 m a v) pgdir va' = pte_slot m pgdir va' /\
  pte_of (st32 m a v) pgdir va' = if decide (va' / 4096 = va / 4096) then v else pte_of m pgdir va'.
Proof.
  intros Hok Hs Hv Hva Hva'.
  pose proof (slot_word_dir_disjoint m l pgdir va a Hok Hs v) as Hdir.
  destruct (pde_dir_ext m (st32 m a v) pgdir Hdir (PDX va') (PDX_range va')) as [E1 E2].
  assert (Hs' : pte_slot (st32 m a v) pgdir va' = pte_slot m pgdir va').
  { unfold pte_slot. by rewrite E1, E2. }
  split; [done|]. unfold pte_of. rewrite Hs'.
  destruct (slot_range m l pgdir va a Hok Hs) as (Hp & -> & Hpg & _).
  case_decide as Heq.
  - apply same_idx in Heq as [Ed Et]; [|done|done]. unfold pte_slot. rewrite Ed, Et, Hp.
    by apply ld32_st32_eq.
  - destruct (pte_slot m pgdir va') as [a'|] eqn:Es'; [|done].
    destruct (slot_range m l pgdir va' a' Hok Es') as (Hp' & -> & Hpg' & _).
    apply ld32_st32_ne. pose proof (PTX_range va). pose proof (PTX_range va').
    destruct (decide (PDX va' = PDX va)) as [Ed|Nd].
    + rewrite Ed in *. assert (PTX va' <> PTX va) by (intros ?; apply Heq, same_idx; done). lia.
    + assert (Hne : ptab m pgdir (PDX va') <> ptab m pgdir (PDX va)).
      { intros E. apply Nd. apply (pt_inj m l pgdir Hok); auto using PDX_range. }
      destruct Hpg as [A _], Hpg' as [B _]. unfold_mmu. divlia.
Qed.

Lemma pt_ok_store m l pgdir va a v :
  pt_ok m l pgdir -> pte_slot m pgdir va = Some a -> pt_ok (st32 m a v) l pgdir.
Proof.
  intros Hok Hs. eapply pt_ok_dir_ext; [done| |done].
  intros b Hb. by eapply slot_word_dir_disjoint.
Qed.

Lemma same_but_slot m l pgdir va a v :
  pt_ok m l pgdir -> pte_slot m pgdir va = Some a -> same_but (pt_addr m pgdir) m (st32 m a v).
Proof.
  intros Hok Hs. destruct (slot_range m l pgdir va a Hok Hs) as (Hp & -> & _ & _).
  apply same_but_st32. intros b Hb. right. exists (PDX va).
  split_and!; [apply PDX_range|apply PDX_range|done|eapply word_in_page; [apply PTX_range|done]].
Qed.

(** The bytes of an entry belong to the page table. *)
Lemma pt_addr_slot m l pgdir va a x :
  pt_ok m l pgdir -> pte_slot m pgdir va = Some a -> a <= x < a + 4 -> pt_addr m pgdir x.
Proof.
  intros Hok Hs Hx. destruct (slot_range m l pgdir va a Hok Hs) as (Hp & -> & _ & _).
  right. exists (PDX va). split; [apply PDX_range|]. split; [done|].
  eapply word_in_page; [apply PTX_range|done].
Qed.

(** A page that is not part of the page table may become free. *)
Lemma pt_ok_add m l l' pgdir f :
  pt_ok m l pgdir -> (forall p, p ∈ l' -> p = f \/ p ∈ l) ->
  (forall x, in_page f x -> ~ pt_addr m pgdir x) -> pt_ok m l' pgdir.
Proof.
  intros [[D1 D2] T I] Hl Hf.
  assert (Hn : forall p, (forall x, in_page p x -> pt_addr m pgdir x) -> p ∉ l -> p ∉ l').
  { intros p Hp Hn [->|?]%Hl; [|done]. eapply (Hf f); [unfold in_page; lia|]. apply Hp. unfold in_page. lia. }
  split; [|intros i Hi Hpi|done].
  - split; [done|]. apply Hn; [|done]. intros x Hx. by left.
  - destruct (T i Hi Hpi) as (T1 & T2 & T3). split; [done|]. split; [|done]. apply Hn; [|done].
    intros x Hx. right. by exists i.
Qed.

(** ** Counting page table pages *)

Fixpoint count (f : Z -> bool) (n : nat) : nat :=
  match n with
  | O => 0
  | S n' => (if f (Z.of_nat n') then 1 else 0) + count f n'
  end.

Lemma count_ext f g n : (forall i, 0 <= i < Z.of_nat n -> f i = g i) -> count f n = count g n.
Proof.
  induction n as [|n IH]; intros H; simpl; [done|].
  rewrite (H (Z.of_nat n)) by lia. rewrite IH; [done|]. intros. apply H. lia.
Qed.

Lemma count_le f g n : (forall i, 0 <= i < Z.of_nat n -> f i = true -> g i = true) -> (count f n <= count g n)%nat.
Proof.
  induction n as [|n IH]; intros H; simpl; [done|].
  assert (count f n <= count g n)%nat by (apply IH; intros; apply H; [lia|done]).
  pose proof (H (Z.of_nat n) ltac:(lia)) as Hn.
  destruct (f (Z.of_nat n)), (g (Z.of_nat n)); (lia || naive_solver).
Qed.

Lemma count_pos f n k : 0 <= k < Z.of_nat n -> f k = true -> (1 <= count f n)%nat.
Proof.
  induction n as [|n IH]; intros Hk Hf; [lia|]. cbn [count].
  destruct (decide (k = Z.of_nat n)) as [<-|]; [rewrite Hf; lia|]. specialize (IH ltac:(lia) Hf). lia.
Qed.

Lemma count_add f g n k :
  0 <= k < Z.of_nat n -> f k = false -> g k = true ->
  (forall i, 0 <= i < Z.of_nat n -> i <> k -> f i = g i) -> count g n = S (count f n).
Proof.
  induction n as [|n IH]; intros Hk Hf Hg H; [lia|]. simpl.
  destruct (decide (k = Z.of_nat n)) as [->|Hne].
  - rewrite Hf, Hg. f_equal. symmetry. apply count_ext. intros. apply H; lia.
  - rewrite IH by (first [done | lia | intros i Hi Hik; apply H; lia]).
    rewrite (H (Z.of_nat n)) by lia. lia.
Qed.

(** The number of page table pages below a page directory. *)
Definition ntables (m : Zmap Z) (pgdir : Z) : nat := count (present m pgdir) 1024.

Lemma ntables_eq m pgdir : ntables m pgdir = count (present m pgdir) 1024.
Proof. done. Qed.

#[local] Opaque ntables.

Lemma ntables_dir_ext m m' pgdir :
  (forall a, in_page pgdir a -> ld8 m' a = ld8 m a) -> ntables m' pgdir = ntables m pgdir.
Proof.
  intros H. rewrite !ntables_eq. apply count_ext. intros i Hi. by apply (pde_dir_ext m m').
Qed.

(** ** Extending a page table

    [vm_ext pgdir s l s' l']: an operation took pages from the front of the free
    list [l], leaving [l'], and wrote only to pages of the page table [pgdir] and
    to the pages it took; the page table is still well formed. *)

Record vm_ext (pgdir : Z) (s : kmst) (l : list Z) (s' : kmst) (l' : list Z) : Prop := {
  ve_suffix : exists pre, l = pre ++ l';
  ve_count : (length l' + ntables (mem s') pgdir = length l + ntables (mem s) pgdir)%nat;
  ve_km : km_ok s' l';
  ve_pt : pt_ok (mem s') l' pgdir;
  ve_own a : pt_addr (mem s') pgdir a -> pt_addr (mem s) pgdir a \/ in_pages l a;
  ve_mem : same_but (fun a => pt_addr (mem s) pgdir a \/ in_pages l a) (mem s) (mem s');
  ve_ref q : page_ok q -> q ∉ l -> refcnt s' (V2P q / PGSIZE) = refcnt s (V2P q / PGSIZE);
  ve_cr3 : cr3 s' = cr3 s }.

Lemma in_pages_suffix pre l a : in_pages l a -> in_pages (pre ++ l) a.
Proof. intros (p & Hp & Ha). exists p. split; [set_solver|done]. Qed.

Lemma vm_ext_refl pgdir s l : km_ok s l -> pt_ok (mem s) l pgdir -> vm_ext pgdir s l s l.
Proof. intros. split; auto using same_but_refl. by exists []. Qed.

Lemma vm_ext_trans pgdir s1 l1 s2 l2 s3 l3 :
  vm_ext pgdir s1 l1 s2 l2 -> vm_ext pgdir s2 l2 s3 l3 -> vm_ext pgdir s1 l1 s3 l3.
Proof.
  intros [[p1 ->] Hn1 _ _ Ho1 Hm1 Hr1 Hc1] [[p2 ->] Hn2 Hk Hp Ho2 Hm2 Hr2 Hc2].
  split; [|lia|exact Hk|exact Hp| | | |congruence].
  - exists (p1 ++ p2). by rewrite app_assoc.
  - intros a [Ha|Ha]%Ho2; [by apply Ho1|]. right. by apply in_pages_suffix.
  - eapply same_but_trans; [done|]. eapply same_but_mono; [done|].
    intros a [Ha|Ha]; [by apply Ho1|]. right. by apply in_pages_suffix.
  - intros q Hq Hn. rewrite !elem_of_app in *. rewrite Hr2, Hr1 by (done || rewrite ?elem_of_app; tauto).
    done.
Qed.

(** Writing an entry of the page table. *)
Lemma vm_ext_store pgdir s l va a v :
  km_ok s l -> pt_ok (mem s) l pgdir -> pte_slot (mem s) pgdir va = Some a ->
  vm_ext pgdir s l (set_mem (st32 (mem s) a v) s) l.
Proof.
  intros Hk Hp Hs. pose proof (same_but_slot _ _ _ _ _ v Hp Hs) as Hsb. split; simpl; [by exists []| | | | | |done|done].
  - rewrite (ntables_dir_ext (mem s)); [done|]. intros. by eapply slot_word_dir_disjoint.
  - eapply km_ok_set_mem; [done| |done|].
    + apply mem_ok_st32, Hk.
    + intros p b Hin Hb Hpt. pose proof (ok_pages s l Hk) as Hpg.
      eapply Forall_forall in Hpg; [|done].
      destruct Hpt as [Hd|(i & Hi & Hpr & Ht)].
      * destruct (pt_dir _ _ _ Hp) as [Hd1 Hd2].
        eapply (in_page_disjoint p pgdir b); [apply Hpg|apply Hd1|by intros ->|done|done].
      * destruct (pt_tab _ _ _ Hp i Hi Hpr) as (Ht1 & Ht2 & _).
        eapply (in_page_disjoint p _ b); [apply Hpg|apply Ht1|by intros ->|done|done].
  - by eapply pt_ok_store.
  - intros b Hb. left. eapply (pt_addr_dir_ext (mem s) (st32 (mem s) a v)); [|done].
    intros. by eapply slot_word_dir_disjoint.
  - eapply same_but_mono; [done|]. by left.
Qed.

(** ** walkpgdir *)

Lemma run_walk s pgdir va : walkpgdir pgdir va false s = Ret (default 0 (pte_slot (mem s) pgdir va)) s.
Proof.
  unfold walkpgdir, load. mrun. unfold pte_slot, present, ptab, pde.
  by destruct (flag _ _).
Qed.

Lemma run_walk_present s pgdir va b a :
  pte_slot (mem s) pgdir va = Some a -> walkpgdir pgdir va b s = Ret a s.
Proof.
  unfold walkpgdir, load. mrun. unfold pte_slot, present, ptab, pde.
  intros H. destruct (flag _ _); [|done]. by injection H as <-.
Qed.

(** The entry walkpgdir installs for a new page table page. *)
Definition new_pde (p : Z) : Z := Z.lor (Z.lor (Z.lor (V2P p) PTE_P) PTE_W) PTE_U.

Lemma new_pde_ok p : page_ok p ->
  PTE_ADDR (new_pde p) = V2P p /\ flag (new_pde p) PTE_P = true /\ 0 <= new_pde p < 4294967296.
Proof.
  intros Hp. destruct (page_ok_V2P p Hp) as (_ & Hr & Ha). unfold new_pde. split_and!.
  - rewrite !PTE_ADDR_lor by (unfold_mmu; lia). by apply PTE_ADDR_id.
  - rewrite flag_P, !Z.lor_spec. change (Z.testbit PTE_P 0) with true.
    by rewrite orb_true_r.
  - repeat apply (lor_range _ _ 32); try lia; unfold_mmu; lia.
  - repeat apply (lor_range _ _ 32); try lia; unfold_mmu; lia.
Qed.

(** Memory after walkpgdir has added page [p] as the page table of [va]. *)
Definition add_table (m : Zmap Z) (pgdir va p : Z) : Zmap Z :=
  st32 (memset m p 0 PGSIZE) (pgdir + 4 * PDX va) (new_pde p).

Section add_table.
Context (m : Zmap Z) (l : list Z) (pgdir va p : Z).
Context (Hok : pt_ok m (p :: l) pgdir) (Hp : page_ok p) (Hnin : p ∉ l) (Hva : 0 <= va < 4294967296).
Context (Habs : present m pgdir (PDX va) = false).

Lemma add_table_new a : in_page p a -> ld8 (add_table m pgdir va p) a = 0.
Proof.
  intros Ha. destruct (pt_dir _ _ _ Hok) as [Hd Hd2]. unfold add_table.
  rewrite ld8_st32_ne.
  - rewrite (ld8_memset m p 0 PGSIZE) by done.
    rewrite decide_True by (unfold in_page in Ha; unfold_mmu; lia). done.
  - pose proof (PDX_range va). assert (~ in_page pgdir a) as Hn.
    { eapply in_page_disjoint; [apply Hp|apply Hd|set_solver|done]. }
    unfold in_page in *. lia.
Qed.

Lemma add_table_other a :
  ~ in_page p a -> a < pgdir + 4 * PDX va \/ pgdir + 4 * PDX va + 4 <= a ->
  ld8 (add_table m pgdir va p) a = ld8 m a.
Proof.
  intros Hn Ha. unfold add_table. rewrite ld8_st32_ne by lia.
  rewrite (ld8_memset m p 0 PGSIZE) by done.
  rewrite decide_False; [done|]. unfold in_page in Hn. unfold_mmu. lia.
Qed.

Lemma add_table_pde i :
  0 <= i < 1024 -> pde (add_table m pgdir va p) pgdir i = if decide (i = PDX va) then new_pde p else pde m pgdir i.
Proof.
  intros Hi. pose proof (PDX_range va). destruct (pt_dir _ _ _ Hok) as [Hd Hd2]. unfold pde.
  case_decide as E.
  - subst i. apply ld32_st32_eq, new_pde_ok, Hp.
  - apply ld32_ext. intros a Ha. apply add_table_other; [|lia].
    assert (in_page pgdir a) by (unfold in_page; lia).
    eapply in_page_disjoint; [apply Hd|apply Hp|set_solver|done].
Qed.

Lemma add_table_present i :
  0 <= i < 1024 ->
  present (add_table m pgdir va p) pgdir i = true /\ ptab (add_table m pgdir va p) pgdir i = p /\ i = PDX va \/
  present (add_table m pgdir va p) pgdir i = present m pgdir i /\
  ptab (add_table m pgdir va p) pgdir i = ptab m pgdir i /\ i <> PDX va.
Proof.
  intros Hi. unfold present, ptab. rewrite add_table_pde by done.
  destruct (new_pde_ok p Hp) as (E1 & E2 & _). case_decide; [left|right]; [|done].
  by rewrite E1, E2, page_ok_P2V.
Qed.

Lemma add_table_ok : pt_ok (add_table m pgdir va p) l pgdir.
Proof.
  destruct (pt_dir _ _ _ Hok) as [Hd Hd2]. split.
  - split; [done|set_solver].
  - intros i Hi Hpr. destruct (add_table_present i Hi) as [(_ & -> & _)|(E1 & -> & _)].
    + split_and!; [done|done|set_solver].
    + rewrite E1 in Hpr. destruct (pt_tab _ _ _ Hok i Hi Hpr) as (? & ? & ?).
      split_and!; [done|set_solver|done].
  - assert (Hfresh : forall i, 0 <= i < 1024 -> present m pgdir i = true -> ptab m pgdir i <> p).
    { intros i Hi Hpr. destruct (pt_tab _ _ _ Hok i Hi Hpr) as (_ & ? & _). set_solver. }
    intros i j Hi Hj Hpi Hpj. 
    destruct (add_table_present i Hi) as [(_ & -> & ->)|(Ei & -> & Ni)],
      (add_table_present j Hj) as [(_ & -> & ->)|(Ej & -> & Nj)]; rewrite ?Ei, ?Ej in *.
    + done.
    + intros E. by apply Hfresh in Hpj.
    + intros E. by apply Hfresh in Hpi.
    + by apply (pt_inj _ _ _ Hok).
Qed.

Lemma add_table_slot : pte_slot (add_table m pgdir va p) pgdir va = Some (p + 4 * PTX va).
Proof.
  unfold pte_slot.
  destruct (add_table_present (PDX va) (PDX_range va)) as [(-> & -> & _)|(_ & _ & N)]; [done|].
  by destruct N.
Qed.

(** A new page table is empty: no translation changes. *)
Lemma add_table_pte_of va' : pte_of (add_table m pgdir va p) pgdir va' = pte_of m pgdir va'.
Proof.
  unfold pte_of, pte_slot. pose proof (PTX_range va').
  destruct (add_table_present (PDX va') (PDX_range va')) as [(-> & -> & E)|(-> & -> & N)].
  - rewrite E, Habs. unfold ld32. rewrite !add_table_new by (unfold in_page; lia). done.
  - destruct (present m pgdir (PDX va')) eqn:Hpr; [|done].
    destruct (pt_tab _ _ _ Hok _ (PDX_range va') Hpr) as (Ht1 & Ht2 & Ht3).
    apply ld32_ext. intros a Ha. assert (Hin : in_page (ptab m pgdir (PDX va')) a).
    { eapply word_in_page; [|done]. done. }
    apply add_table_other.
    + eapply in_page_disjoint; [apply Ht1|apply Hp|set_solver|done].
    + destruct (pt_dir _ _ _ Hok) as [Hd Hd2]. pose proof (PDX_range va).
      assert (~ in_page pgdir a) as Hn.
      { eapply in_page_disjoint; [apply Ht1|apply Hd|done|done]. }
      unfold in_page in *. lia.
Qed.

Lemma add_table_ntables : ntables (add_table m pgdir va p) pgdir = S (ntables m pgdir).
Proof.
  rewrite !ntables_eq. apply (count_add _ _ _ (PDX va)); [apply PDX_range|done| |].
  - destruct (add_table_present (PDX va) (PDX_range va)) as [(-> & _)|(_ & _ & N)]; [done|].
    by destruct N.
  - intros i Hi Hne. by destruct (add_table_present i Hi) as [(_ & _ & ?)|(-> & _)].
Qed.

Lemma add_table_addr a : pt_addr (add_table m pgdir va p) pgdir a -> pt_addr m pgdir a \/ in_page p a.
Proof.
  intros [Ha|(i & Hi & Hpr & Ha)]; [left; by left|].
  destruct (add_table_present i Hi) as [(_ & E & _)|(E1 & E & _)]; rewrite E in Ha; [by right|].
  left. right. exists i. by rewrite E1 in Hpr.
Qed.

End add_table.

Lemma vm_ext_out_of_memory pgdir s :
  km_ok s [] -> pt_ok (mem s) [] pgdir -> vm_ext pgdir s [] (set_ref 0x80000 1 s) [].
Proof.
  intros Hk Hp. split; [by exists []|done|by apply km_ok_set_ref|done|by left|apply same_but_refl| |done].
  - intros q Hq _. rewrite refcnt_set_ref, decide_False; [done|].
    destruct (page_ok_V2P q Hq) as (_ & ? & _). unfold_mmu. divlia.
Qed.

Lemma vm_ext_add_table pgdir s l va p :
  km_ok s (p :: l) -> pt_ok (mem s) (p :: l) pgdir -> 0 <= va < 4294967296 ->
  present (mem s) pgdir (PDX va) = false ->
  vm_ext pgdir s (p :: l) (set_mem (add_table (mem s) pgdir va p) (after_kalloc s p)) l.
Proof.
  intros Hk Hok Hva Habs. pose proof (ok_pages _ _ Hk) as Hpg. apply Forall_cons in Hpg as [Hp Hpg].
  pose proof (ok_nodup _ _ Hk) as Hnd. apply NoDup_cons in Hnd as [Hnin _].
  destruct (pt_dir _ _ _ Hok) as [Hd Hd2].
  assert (Hsb : same_but (fun a => in_page pgdir a \/ in_page p a) (mem s) (add_table (mem s) pgdir va p)).
  { intros a Ha. apply add_table_other; [tauto|]. pose proof (PDX_range va).
    assert (~ in_page pgdir a) by tauto. unfold in_page in *. lia. }
  split; simpl.
  - by exists [p].
  - rewrite (add_table_ntables (mem s) l) by done. lia.
  - eapply km_ok_set_mem; [by apply km_ok_after_kalloc| |exact Hsb|].
    + apply mem_ok_st32, (mem_ok_memset _ p 0 PGSIZE); [done|]. apply Hk.
    + intros q a Hq Ha. eapply Forall_forall in Hpg as Hqo; [|done].
      intros [Hb|Hb]; eapply (in_page_disjoint q); try exact Hb; try exact Ha;
        [apply Hqo|apply Hd|set_solver|apply Hqo|apply Hp|set_solver].
  - by apply add_table_ok.
  - intros a Ha. eapply (add_table_addr (mem s) l pgdir va p) in Ha as [Ha|Ha]; try done; [by left|].
    right. exists p. split; [set_solver|done].
  - eapply same_but_mono; [done|]. intros a [Ha|Ha]; [left; by left|].
    right. exists p. split; [set_solver|done].
  - intros q Hq Hn. unfold after_kalloc. simpl.
    change (refcnt (set_ref (V2P p / PGSIZE) 1 s) (V2P q / PGSIZE) = refcnt s (V2P q / PGSIZE)).
    rewrite refcnt_set_ref, decide_False; [done|]. intros E.
    apply page_index_inj in E; set_solver.
  - done.
Qed.

Lemma wp_walk_alloc s l pgdir va :
  km_ok s l -> pt_ok (mem s) l pgdir -> 0 <= va < 4294967296 ->
  wp (walkpgdir pgdir va true) (fun r s' =>
    (r = 0 /\ l = [] /\ vm_ext pgdir s [] s' [] /\ mem s' = mem s /\
       present (mem s) pgdir (PDX va) = false) \/
    (exists l', vm_ext pgdir s l s' l' /\ pte_slot (mem s') pgdir va = Some r /\ r <> 0 /\
       (forall i, 0 <= i < 1024 -> present (mem s') pgdir i = true ->
          present (mem s) pgdir i = true \/ i = PDX va) /\
       forall va', pte_of (mem s') pgdir va' = pte_of (mem s) pgdir va')) s.
Proof.
  intros Hk Hok Hva. unfold wp. destruct (pte_slot (mem s) pgdir va) as [a|] eqn:Es.
  { rewrite (run_walk_present s pgdir va true a Es). right. exists l.
    split_and!; [by apply vm_ext_refl|done| |auto|done].
    by destruct (slot_range _ _ _ _ _ Hok Es) as (_ & _ & _ & ?). }
  assert (Habs : present (mem s) pgdir (PDX va) = false).
  { unfold pte_slot in Es. by destruct (present _ _ _). }
  unfold walkpgdir, load. mrun. unfold present, pde in Habs. rewrite Habs. cbn [negb].
  destruct l as [|p l].
  - rewrite (bind_ret_run _ _ _ _ _ (kalloc_nil s Hk)). left.
    split_and!; try done. by apply vm_ext_out_of_memory.
  - rewrite (bind_ret_run _ _ _ _ _ (kalloc_cons s p l Hk)).
    pose proof (ok_pages _ _ Hk) as Hpg. apply Forall_cons in Hpg as [Hp Hpg].
    pose proof (ok_nodup _ _ Hk) as Hnd. apply NoDup_cons in Hnd as [Hnin _].
    rewrite (proj2 (Z.eqb_neq p 0)) by (by apply page_ok_nz). unfold store. mrun.
    right. exists l. change (set_mem _ _) with
      (set_mem (add_table (mem s) pgdir va p) (after_kalloc s p)). simpl mem.
    pose proof (page_ok_range p Hp). pose proof (PTX_range va).
    split_and!; [by apply vm_ext_add_table| by apply add_table_slot with (l := l) |unfold_mmu; lia| |].
    { intros i Hi Hpr. destruct (add_table_present (mem s) l pgdir va p Hok Hp Hnin Hva Habs i Hi)
        as [(_ & _ & ->)|(E & _ & _)]; [by right|left]. by rewrite <- E. }
    intros va'. by apply add_table_pte_of with (l := l).
Qed.

(** ** mappages *)

(** The address space [f] after [n] pages from [a0] were mapped to the frames
    from [pa] with permissions [perm]. *)
Definition mapped (a0 n pa perm : Z) (f : Z -> Z) (va : Z) : Z :=
  if decide (a0 <= va < a0 + 4096 * n)
  then Z.lor (Z.lor (pa + (PGROUNDDOWN va - a0)) perm) PTE_P else f va.

(** Page tables were added only for directory slots of the range. *)
Definition tables_within (m m' : Zmap Z) (pgdir lo hi : Z) : Prop :=
  forall i, 0 <= i < 1024 -> present m' pgdir i = true ->
    present m pgdir i = true \/ PDX lo <= i <= PDX hi.

Lemma PDX_mono va va' : 0 <= va -> va <= va' -> va' < 4294967296 -> PDX va <= PDX va'.
Proof. intros. rewrite !PDX_eq by lia. apply Z.div_le_mono; lia. Qed.

(** Outcome of mapping [n] pages: all of them, or a prefix when the free list
    ran empty at a page whose page table does not exist. *)
Definition mappages_post (s : kmst) (l : list Z) (pgdir a0 n pa perm r : Z) (s' : kmst) : Prop :=
  exists l', vm_ext pgdir s l s' l' /\ tables_within (mem s) (mem s') pgdir a0 (a0 + 4096 * n - 1) /\
    (r = 0 /\ (forall va, 0 <= va < 4294967296 ->
       pte_of (mem s') pgdir va = mapped a0 n pa perm (pte_of (mem s) pgdir) va) \/
     r = -1 /\ l' = [] /\ exists k, 0 <= k < n /\
       present (mem s') pgdir (PDX (a0 + 4096 * k)) = false /\
       forall va, 0 <= va < 4294967296 ->
         pte_of (mem s') pgdir va = mapped a0 k pa perm (pte_of (mem s) pgdir) va).

(** Mapping one page whose page table exists is one store. *)
Lemma run_mappages_one s pgdir va a pa perm :
  pte_slot (mem s) pgdir va = Some a -> a <> 0 -> flag (ld32 (mem s) a) PTE_P = false ->
  0 <= va <= 4294967296 - 4096 -> va mod 4096 = 0 ->
  mappages pgdir va PGSIZE pa perm s =
    Ret 0 (set_mem (st32 (mem s) a (Z.lor (Z.lor pa perm) PTE_P)) s).
Proof.
  intros Hs Ha Hp Hr Hva. unfold mappages.
  assert (PGROUNDDOWN va = va) as -> by (rewrite PGROUNDDOWN_eq; lia).
  assert (PGROUNDDOWN (u32 (va + PGSIZE - 1)) = va) as ->.
  { rewrite u32_id by (unfold_mmu; lia). rewrite PGROUNDDOWN_eq. unfold_mmu. divlia. }
  rewrite Z.sub_diag. change (Z.to_nat (u32 0 / PGSIZE + 1)) with 1%nat. cbn [iterate].
  unfold mappages_body at 1. mrun.
  rewrite (bind_ret_run _ _ _ _ _ (run_walk_present s pgdir va true a Hs)).
  rewrite (proj2 (Z.eqb_neq a 0)) by done. unfold load, store. mrun. rewrite Hp. mrun.
  rewrite Z.eqb_refl. by mrun.
Qed.

Section mappages.
Context (s : kmst) (l : list Z) (pgdir a0 n pa perm : Z).
Context (Hk : km_ok s l) (Hok : pt_ok (mem s) l pgdir).
Context (Ha0 : 0 <= a0) (Haa : a0 mod 4096 = 0) (Hn : 0 < n) (Han : a0 + 4096 * n <= 4294967296).
Context (Hpa : 0 <= pa) (Hpaa : pa mod 4096 = 0) (Hpan : pa + 4096 * n <= 4294967296).
Context (Hperm : 0 <= perm < 4096).
Context (Hfree : forall va, a0 <= va < a0 + 4096 * n -> flag (pte_of (mem s) pgdir va) PTE_P = false).

(** The state after [k] pages. *)
Definition mapped_upto (k : Z) (s' : kmst) (l' : list Z) : Prop :=
  vm_ext pgdir s l s' l' /\ tables_within (mem s) (mem s') pgdir a0 (a0 + 4096 * n - 1) /\
  forall va, 0 <= va < 4294967296 ->
    pte_of (mem s') pgdir va = mapped a0 k pa perm (pte_of (mem s) pgdir) va.

(** Storing the entry of page [k] extends the mapped prefix. *)
Lemma mapped_upto_store k s2 l2 r :
  0 <= k < n -> mapped_upto k s2 l2 -> pte_slot (mem s2) pgdir (a0 + 4096 * k) = Some r ->
  mapped_upto (k + 1)
    (set_mem (st32 (mem s2) r (Z.lor (Z.lor (pa + 4096 * k) perm) PTE_P)) s2) l2.
Proof.
  intros Hkn (Hext & Hin & Hpte) Hs2. set (v := Z.lor (Z.lor (pa + 4096 * k) perm) PTE_P).
  pose proof (vm_ext_store pgdir s2 l2 _ r v (ve_km _ _ _ _ _ Hext) (ve_pt _ _ _ _ _ Hext) Hs2) as Hext2.
  split_and!.
  - by eapply vm_ext_trans.
  - intros i Hi Hpr. apply Hin; [done|]. rewrite <- Hpr. symmetry. simpl mem.
    apply (pde_dir_ext (mem s2) (st32 (mem s2) r v)); [|done].
    intros b Hb. eapply slot_word_dir_disjoint; [apply Hext|done|done].
  - intros va Hva. simpl mem.
    destruct (pte_of_store (mem s2) l2 pgdir (a0 + 4096 * k) r v va)
      as [_ ->]; [apply Hext|done|apply PTE_make_range; lia|lia|done|].
    rewrite Hpte by done. unfold mapped, v. rewrite PGROUNDDOWN_eq.
    repeat case_decide; try (exfalso; divlia); try done. do 2 f_equal. divlia.
Qed.

Lemma wp_mappages_loop :
  wp (iterate (Z.to_nat n) (mappages_body pgdir (a0 + 4096 * (n - 1)) perm) (a0, pa))
    (mappages_post s l pgdir a0 n pa perm) s.
Proof.
  apply (wp_iterate
    (fun '(a, pa') s' => exists k l', 0 <= k < n /\ a = a0 + 4096 * k /\ pa' = pa + 4096 * k /\
       mapped_upto k s' l')
    (fun '(a, pa') => Z.to_nat ((a0 + 4096 * (n - 1) - a) / 4096))).
  - intros [a pa'] s1 (k & l1 & Hkn & -> & -> & Hup). pose proof Hup as (Hext & Hin & Hpte).
    unfold mappages_body. wp_step.
    eapply wp_mono; [apply (wp_walk_alloc s1 l1); [apply Hext|apply Hext|lia]|].
    intros r s2 [(-> & -> & Hext2 & Hm & Habs)|(l2 & Hext2 & Hs2 & Hr & Hin2 & Hpte2)].
    + simpl. exists []. rewrite Hm. split_and!; [by eapply vm_ext_trans|done|].
      right. split_and!; try done. exists k. done.
    + rewrite (proj2 (Z.eqb_neq r 0)) by done. unfold load, store. wp_step. wp_step.
      assert (Hup2 : mapped_upto k s2 l2).
      { split_and!; [by eapply vm_ext_trans| |intros; by rewrite Hpte2, Hpte].
        intros i Hi Hpr. destruct (Hin2 i Hi Hpr) as [?| ->]; [by apply Hin|].
        right. split; apply PDX_mono; lia. }
      assert (Hcur : flag (ld32 (mem s2) r) PTE_P = false).
      { rewrite <- (Hfree (a0 + 4096 * k)) by lia. f_equal.
        transitivity (pte_of (mem s2) pgdir (a0 + 4096 * k)); [unfold pte_of; by rewrite Hs2|].
        rewrite Hpte2, Hpte by lia. unfold mapped. by rewrite decide_False by lia. }
      rewrite Hcur. cbn iota. wp_step. wp_step.
      pose proof (mapped_upto_store k s2 l2 r Hkn Hup2 Hs2) as Hup3.
      destruct (Z.eqb_spec (a0 + 4096 * k) (a0 + 4096 * (n - 1))) as [El|Nl].
      * apply wp_ret. exists l2. destruct Hup3 as (? & ? & ?). split_and!; [done|done|]. left.
        split; [done|]. assert (k + 1 = n) as <- by lia. done.
      * apply wp_ret. assert (k < n - 1) by lia. rewrite !u32_id by (unfold_mmu; lia).
        split; [|unfold_mmu; divlia]. exists (k + 1), l2. unfold_mmu.
        split_and!; try done; lia.
  - divlia.
  - exists 0, l. split_and!; try lia. split_and!; [by apply vm_ext_refl|intros i Hi ?; by left|].
    intros va Hva. unfold mapped. by rewrite decide_False by lia.
Qed.

Lemma wp_mappages :
  wp (mappages pgdir a0 (4096 * n) pa perm) (mappages_post s l pgdir a0 n pa perm) s.
Proof.
  unfold mappages.
  assert (E1 : PGROUNDDOWN a0 = a0) by (rewrite PGROUNDDOWN_eq; lia).
  assert (E2 : PGROUNDDOWN (u32 (a0 + 4096 * n - 1)) = a0 + 4096 * (n - 1)).
  { rewrite u32_id by lia. rewrite PGROUNDDOWN_eq. divlia. }
  rewrite E1, E2. replace (a0 + 4096 * (n - 1) - a0) with (4096 * (n - 1)) by lia.
  rewrite u32_id by lia. unfold PGSIZE.
  replace (4096 * (n - 1) / 4096 + 1) with n by divlia.
  apply wp_mappages_loop.
Qed.

End mappages.

(** ** setupkvm *)

(** A zeroed page is an empty page directory. *)
Lemma empty_dir_ok m l p :
  page_ok p -> p ∉ l -> (forall a, in_page p a -> ld8 m a = 0) ->
  pt_ok m l p /\ (forall i, 0 <= i < 1024 -> present m p i = false) /\ ntables m p = 0%nat.
Proof.
  intros Hp Hn Hz.
  assert (Hpr : forall i, 0 <= i < 1024 -> present m p i = false).
  { intros i Hi. unfold present, pde, ld32. rewrite !Hz by (unfold in_page; lia). done. }
  split_and!; [split|done|].
  - done.
  - intros i Hi Hpi. by rewrite Hpr in Hpi.
  - intros i j Hi Hj Hpi. by rewrite Hpr in Hpi.
  - rewrite ntables_eq, (count_ext _ (fun _ => false)) by done. done.
Qed.

(** The directory slots the kernel part of an address space uses: 56 for
    KERNBASE..KERNBASE+PHYSTOP and 8 for the devices. *)
Definition kern_slot (i : Z) : bool := (512 <=? i) && (i <? 568) || (1016 <=? i) && (i <? 1024).

Definition kern_only (m : Zmap Z) (pgdir : Z) : Prop :=
  forall i, 0 <= i < 1024 -> present m pgdir i = true -> kern_slot i = true.

Lemma kern_only_ntables m pgdir x :
  kern_only m pgdir -> 0 <= x < 1024 -> kern_slot x = true -> present m pgdir x = false ->
  (ntables m pgdir <= 63)%nat.
Proof.
  intros Hk Hx Hs Ha. rewrite ntables_eq. set (g := fun i => kern_slot i && negb (i =? x)).
  assert (count kern_slot 1024 = S (count g 1024)) as E.
  { unfold g. apply (count_add _ _ _ x); [done|by rewrite Z.eqb_refl, andb_false_r|done|].
    intros i _ Hne. by rewrite (proj2 (Z.eqb_neq i x)), andb_true_r by done. }
  change (count kern_slot 1024) with 64%nat in E.
  assert (count (present m pgdir) 1024 <= count g 1024)%nat; [|lia].
  apply count_le. intros i Hi Hpr. unfold g. rewrite (Hk i Hi Hpr). simpl.
  apply negb_true_iff, Z.eqb_neq. intros ->. congruence.
Qed.

(** The kernel's translation: identity above KERNBASE, text read-only, device
    space mapped to itself; nothing below KERNBASE. *)
Definition kern_pte (va : Z) : Z :=
  let page := PGROUNDDOWN va in
  if decide (KERNBASE <= va < KERNLINK) then Z.lor (Z.lor (page - KERNBASE) PTE_W) PTE_P
  else if decide (KERNLINK <= va < k_data) then Z.lor (Z.lor (page - KERNBASE) 0) PTE_P
  else if decide (k_data <= va < KERNBASE + PHYSTOP) then Z.lor (Z.lor (page - KERNBASE) PTE_W) PTE_P
  else if decide (DEVSPACE <= va) then Z.lor (Z.lor page PTE_W) PTE_P
  else 0.

(** Conditions on a line of kmap: aligned, in range, within the kernel slots. *)
Definition npages (e : kmap_entry) : Z := u32 (phys_end e - phys_start e) / 4096.
Definition kmap_last (e : kmap_entry) : Z := virt e + 4096 * npages e - 1.

Record kmap_ok (e : kmap_entry) : Prop := {
  ko_virt : 0 <= virt e /\ virt e mod 4096 = 0;
  ko_size : u32 (phys_end e - phys_start e) = 4096 * npages e /\ 0 < npages e;
  ko_top : kmap_last e < 4294967296;
  ko_phys : 0 <= phys_start e /\ phys_start e mod 4096 = 0 /\
    phys_start e + 4096 * npages e <= 4294967296;
  ko_perm : 0 <= kperm e < 4096;
  ko_slot i : PDX (virt e) <= i <= PDX (kmap_last e) -> kern_slot i = true }.

(** The address space [f] with the lines [ks] of kmap installed. *)
Definition kmapped (ks : list kmap_entry) (f : Z -> Z) : Z -> Z :=
  fold_left (fun f e => mapped (virt e) (npages e) (phys_start e) (kperm e) f) ks f.

Lemma kmapped_ext ks f g va :
  (forall va, 0 <= va < 4294967296 -> f va = g va) -> 0 <= va < 4294967296 ->
  kmapped ks f va = kmapped ks g va.
Proof.
  revert f g. induction ks as [|e ks IH]; intros f g Hfg Hva; simpl; [auto|].
  apply IH; [|done]. intros va' Hva'. unfold mapped. case_decide; auto.
Qed.

(** The lines of kmap are installed when the page tables they need fit in the
    free memory. *)
Lemma wp_setupkvm_map d ks : forall s l,
  Forall kmap_ok ks -> StronglySorted (fun e e' => kmap_last e < virt e') ks ->
  km_ok s l -> pt_ok (mem s) l d -> kern_only (mem s) d -> (64 <= length l + ntables (mem s) d)%nat ->
  (forall e va, e ∈ ks -> virt e <= va <= kmap_last e -> flag (pte_of (mem s) d va) PTE_P = false) ->
  wp (setupkvm_map d ks) (fun r s' => r = d /\ exists l', vm_ext d s l s' l' /\
    forall va, 0 <= va < 4294967296 -> pte_of (mem s') d va = kmapped ks (pte_of (mem s) d) va) s.
Proof.
  induction ks as [|e ks IH]; intros s l Hks Hsort Hk Hok Hko Hlen Hfree.
  { apply wp_ret. split; [done|]. exists l. split; [by apply vm_ext_refl|done]. }
  apply Forall_cons in Hks as [[[? ?] [Hsz ?] Htop (? & ? & ?) ? Hslot] Hks].
  apply StronglySorted_inv in Hsort as [Hsort Hall]. unfold kmap_last in *.
  simpl. wp_step. rewrite Hsz. eapply wp_mono.
  { apply (wp_mappages s l); try done; try lia. intros va Hva. apply (Hfree e); [by left|lia]. }
  intros r s' (l' & Hext & Hin & Hcase).
  assert (Hko' : kern_only (mem s') d).
  { intros i Hi Hpr. destruct (Hin i Hi Hpr); [by apply Hko|by apply Hslot]. }
  pose proof (ve_count _ _ _ _ _ Hext) as Hc.
  destruct Hcase as [(-> & Hpte)|(-> & -> & k & Hkn & Habs & _)].
  - simpl. eapply wp_mono.
    + apply (IH s' l' Hks Hsort (ve_km _ _ _ _ _ Hext) (ve_pt _ _ _ _ _ Hext) Hko'); [lia|].
      intros e' va He' Hva. eapply Forall_forall in Hall as Hlt; [|done]. simpl in Hlt.
      eapply Forall_forall in Hks as Hke; [|done]. destruct Hke as [[? ?] [? ?] ? _ _ _].
      unfold kmap_last in *. rewrite Hpte by lia. unfold mapped. rewrite decide_False by lia.
      apply (Hfree e'); [by right|lia].
    + intros r s'' (-> & l'' & Hext' & Hpte'). split; [done|]. exists l''.
      split; [by eapply vm_ext_trans|]. intros va Hva. rewrite Hpte' by done.
      by apply kmapped_ext.
  - exfalso. simpl length in Hc. assert (ntables (mem s') d <= 63)%nat; [|lia].
    eapply kern_only_ntables; [done|apply PDX_range| |done].
    apply Hslot. split; apply PDX_mono; lia.
Qed.

Lemma kmap_ok_intro e n :
  npages e = n -> u32 (phys_end e - phys_start e) = 4096 * n -> 0 < n ->
  virt e mod 4096 = 0 -> 0 <= phys_start e -> phys_start e mod 4096 = 0 ->
  phys_start e + 4096 * n <= 4294967296 -> 0 <= kperm e < 4096 ->
  KERNBASE <= virt e /\ virt e + 4096 * n <= KERNBASE + PHYSTOP \/
  DEVSPACE <= virt e /\ virt e + 4096 * n <= 4294967296 ->
  kmap_ok e.
Proof.
  intros <- ? ? ? ? ? ? ? Hr. unfold_mmu. split; unfold kmap_last; try done; try lia.
  intros i. rewrite !PDX_eq by lia. unfold kern_slot. intros Hi.
  apply orb_true_iff. rewrite !andb_true_iff, !Z.leb_le, !Z.ltb_lt.
  destruct Hr; [left|right]; divlia.
Qed.

Lemma V2P_data : V2P k_data = k_data - KERNBASE.
Proof.
  pose proof k_data_lo. pose proof k_data_end. pose proof k_end_hi.
  apply V2P_eq. unfold_mmu. lia.
Qed.

Definition ntext : Z := (k_data - KERNLINK) / 4096.
Definition ndata : Z := (KERNBASE + PHYSTOP - k_data) / 4096.

Lemma kmap_npages :
  npages (Kmap KERNLINK (V2P KERNLINK) (V2P k_data) 0) = ntext /\
  npages (Kmap k_data (V2P k_data) PHYSTOP PTE_W) = ndata /\ KERNLINK + 4096 * ntext = k_data /\ 0 < ntext /\
  k_data + 4096 * ndata = KERNBASE + PHYSTOP /\ 0 < ndata.
Proof.
  pose proof k_data_lo. pose proof k_data_end. pose proof k_end_hi. pose proof k_data_aligned.
  unfold ntext, ndata. unfold npages. simpl phys_end. simpl phys_start.
  rewrite V2P_data. change (V2P KERNLINK) with EXTMEM.
  rewrite (u32_id (k_data - KERNBASE - EXTMEM)), (u32_id (PHYSTOP - _)) by (unfold_mmu; lia).
  unfold_mmu. split_and!; try divlia; f_equal; lia.
Qed.

Lemma kmap_entries_ok : Forall kmap_ok kmap /\ StronglySorted (fun e e' => kmap_last e < virt e') kmap.
Proof.
  destruct kmap_npages as (H2 & H3 & Ht & Ht0 & Hd & Hd0). unfold kmap. pose proof k_data_lo. pose proof k_data_end. pose proof k_end_hi.
  pose proof k_data_aligned. pose proof V2P_data as HV. pose proof (V2P_eq KERNLINK ltac:(done)) as HL.
  split.
  - repeat apply Forall_cons_2; [| | | |constructor].
    + apply (kmap_ok_intro _ 256); simpl; try done; unfold_mmu; lia.
    + apply (kmap_ok_intro _ ntext); simpl; try done; rewrite ?HV, ?HL, ?u32_id;
        unfold_mmu; try lia; done.
    + apply (kmap_ok_intro _ ndata); simpl; try done; rewrite ?HV, ?u32_id;
        unfold_mmu; try lia; try divlia; done.
    + apply (kmap_ok_intro _ 8192); simpl; try done; unfold_mmu; lia.
  - repeat first [apply SSorted_nil | apply Forall_nil_2 | apply SSorted_cons | apply Forall_cons_2];
      unfold kmap_last; rewrite ?H2, ?H3;
      try change (npages (Kmap KERNBASE 0 EXTMEM PTE_W)) with 256; simpl; unfold_mmu; lia.
Qed.

Lemma kmapped_kern_pte va : 0 <= va < 4294967296 -> kmapped kmap (fun _ => 0) va = kern_pte va.
Proof.
  intros Hva. destruct kmap_npages as (H2 & H3 & Ht & Ht0 & Hd & Hd0). unfold kmap. pose proof k_data_lo. pose proof k_data_end.
  pose proof k_end_hi. pose proof V2P_data as HV. pose proof (V2P_eq KERNLINK ltac:(done)) as HL.
  unfold kmapped, fold_left. rewrite H2, H3. change (npages (Kmap KERNBASE 0 EXTMEM PTE_W)) with 256.
  change (npages (Kmap DEVSPACE DEVSPACE 0 PTE_W)) with 8192. unfold mapped, kern_pte.
  cbn [virt phys_start kperm]. rewrite HV, HL.
  repeat case_decide; try (exfalso; unfold_mmu; lia); try done; do 2 f_equal; unfold_mmu; lia.
Qed.

(** A page directory [d] was built from the free pages [l], leaving [l']; memory
    outside those pages, and the counts of other pages, did not change. *)
Record new_dir (d : Z) (s : kmst) (l : list Z) (s' : kmst) (l' : list Z) : Prop := {
  nd_suffix : exists pre, l = pre ++ l' /\ d ∈ pre;
  nd_km : km_ok s' l';
  nd_pt : pt_ok (mem s') l' d;
  nd_own a : pt_addr (mem s') d a -> in_pages l a;
  nd_mem : same_but (in_pages l) (mem s) (mem s');
  nd_ref q : page_ok q -> q ∉ l -> refcnt s' (V2P q / PGSIZE) = refcnt s (V2P q / PGSIZE);
  nd_cr3 : cr3 s' = cr3 s }.

Lemma new_dir_ext d s l s' l' s'' l'' :
  new_dir d s l s' l' -> vm_ext d s' l' s'' l'' -> new_dir d s l s'' l''.
Proof.
  intros [(pre & -> & Hd) Hk Hp Ho Hm Hr Hc] [[pre2 ->] _ Hk2 Hp2 Ho2 Hm2 Hr2 Hc2].
  split; [|exact Hk2|exact Hp2| | | |congruence].
  - exists (pre ++ pre2). rewrite app_assoc. split; [done|]. apply elem_of_app. by left.
  - intros a [Ha|Ha]%Ho2; [by apply Ho|by apply in_pages_suffix].
  - eapply same_but_trans; [done|]. eapply same_but_mono; [done|].
    intros a [Ha|Ha]; [by apply Ho|by apply in_pages_suffix].
  - intros q Hq Hn. rewrite !elem_of_app in Hn. rewrite Hr2, Hr by (done || rewrite ?elem_of_app; tauto).
    done.
Qed.

Lemma new_dir_zeroed s p l :
  km_ok s (p :: l) ->
  let s1 := set_mem (memset (mem s) p 0 PGSIZE) (after_kalloc s p) in
  new_dir p s (p :: l) s1 l /\ kern_only (mem s1) p /\ (forall va, pte_of (mem s1) p va = 0) /\
  ntables (mem s1) p = 0%nat.
Proof.
  intros Hk s1. pose proof (ok_pages _ _ Hk) as Hpg. apply Forall_cons in Hpg as [Hp Hpg].
  pose proof (ok_nodup _ _ Hk) as Hnd. apply NoDup_cons in Hnd as [Hnin _].
  destruct (empty_dir_ok (mem s1) l p Hp Hnin) as (Hok & Hpr & Hnt).
  { intros a Ha. simpl. rewrite (ld8_memset _ p 0 PGSIZE) by done.
    rewrite decide_True by (unfold in_page in Ha; unfold_mmu; lia). done. }
  assert (Hsb : same_but (in_page p) (mem s) (memset (mem s) p 0 PGSIZE)).
  { apply (same_but_memset _ (mem s) p 0 PGSIZE); [done|]. unfold in_page. unfold_mmu. auto. }
  split_and!; [split| | |done].
  - exists [p]. split; [done|set_solver].
  - eapply km_ok_set_mem; [by apply km_ok_after_kalloc| |exact Hsb|].
    + apply (mem_ok_memset _ p 0 PGSIZE); [done|]. apply Hk.
    + intros q a Hq Ha. eapply Forall_forall in Hpg as Hqo; [|done].
      apply (in_page_disjoint q p a); [apply Hqo|apply Hp|set_solver|done].
  - done.
  - intros a [Ha|(i & Hi & Hpi & _)]; [|by rewrite Hpr in Hpi].
    exists p. split; [set_solver|done].
  - simpl. eapply same_but_mono; [done|]. intros a Ha. exists p. split; [set_solver|done].
  - intros q Hq Hn.
    change (refcnt (set_ref (V2P p / PGSIZE) 1 s) (V2P q / PGSIZE) = refcnt s (V2P q / PGSIZE)).
    rewrite refcnt_set_ref, decide_False; [done|]. intros E.
    apply page_index_inj in E; set_solver.
  - done.
  - intros i Hi Hpi. by rewrite Hpr in Hpi.
  - intros va. unfold pte_of, pte_slot. by rewrite Hpr by apply PDX_range.
Qed.


Lemma wp_setupkvm s p l :
  km_ok s (p :: l) -> (64 <= length l)%nat ->
  wp setupkvm (fun r s' => r = p /\ exists l', new_dir p s (p :: l) s' l' /\
    forall va, 0 <= va < 4294967296 -> pte_of (mem s') p va = kern_pte va) s.
Proof.
  intros Hk Hlen. destruct (new_dir_zeroed s p l Hk) as (Hnd0 & Hko0 & Hz & Hnt).
  pose proof (ok_pages _ _ Hk) as Hpg. apply Forall_cons in Hpg as [Hp _].
  unfold setupkvm. wp_step. unfold wp at 1. rewrite (kalloc_cons s p l Hk).
  rewrite (proj2 (Z.eqb_neq p 0)) by (by apply page_ok_nz). wp_step. wp_step.
  change (DEVSPACE <? P2V PHYSTOP) with false. cbn iota. set (s1 := set_mem _ _) in *.
  destruct kmap_entries_ok as [Hk1 Hk2]. eapply wp_mono.
  { apply (wp_setupkvm_map p kmap s1 l); try done; try apply Hnd0; [lia|].
    intros. by rewrite Hz. }
  intros r s' (-> & l' & Hext & Hpte). split; [done|]. exists l'.
  split; [by eapply new_dir_ext|]. intros va Hva. rewrite Hpte by done.
  rewrite <- kmapped_kern_pte by done. apply kmapped_ext; [|done]. intros. apply Hz.
Qed.

(** ** Mapping a fresh page

    A page taken from the allocator, zeroed, and mapped at one virtual page that
    was not mapped: lazy allocation and the growth of a process. *)
Definition zeroed (s : kmst) (q : Z) : kmst := set_mem (memset (mem s) q 0 PGSIZE) (after_kalloc s q).

Record fresh_mapped (s : kmst) (q : Z) (l : list Z) (pgdir va perm : Z) (s' : kmst) (l' : list Z) : Prop := {
  fm_suffix : exists pre, l = pre ++ l';
  fm_km : km_ok s' l';
  fm_pt : pt_ok (mem s') l' pgdir;
  fm_pte va' : 0 <= va' < 4294967296 -> pte_of (mem s') pgdir va' =
    if decide (va' / 4096 = va / 4096) then Z.lor (Z.lor (V2P q) perm) PTE_P else pte_of (mem s) pgdir va';
  fm_zero x : in_page q x -> ld8 (mem s') x = 0;
  fm_mem : same_but (fun x => pt_addr (mem s) pgdir x \/ in_pages (q :: l) x) (mem s) (mem s');
  fm_own x : pt_addr (mem s') pgdir x -> pt_addr (mem s) pgdir x \/ in_pages l x;
  fm_ref p : page_ok p -> p ∉ l -> refcnt s' (V2P p / PGSIZE) =
    if decide (p = q) then 1 else refcnt s (V2P p / PGSIZE);
  fm_count : (length l' + ntables (mem s') pgdir = length l + ntables (mem s) pgdir)%nat;
  fm_cr3 : cr3 s' = cr3 s }.

Section map_fresh.
Context (s : kmst) (q : Z) (l : list Z) (pgdir va perm : Z).
Context (Hk : km_ok s (q :: l)) (Hpt : pt_ok (mem s) (q :: l) pgdir) (Hva : 0 <= va < 4294967296).
Context (Habs : flag (pte_of (mem s) pgdir va) PTE_P = false) (Hperm : 0 <= perm < 4096).

Lemma fresh_page : page_ok q /\ (q ∉ l) /\ Forall page_ok l.
Proof.
  pose proof (ok_pages _ _ Hk) as [? ?]%Forall_cons. pose proof (ok_nodup _ _ Hk) as [? _]%NoDup_cons. done.
Qed.

Lemma zeroed_ok :
  km_ok (zeroed s q) l /\ pt_ok (mem (zeroed s q)) l pgdir /\
  (forall va, pte_of (mem (zeroed s q)) pgdir va = pte_of (mem s) pgdir va) /\
  (forall a, pt_addr (mem (zeroed s q)) pgdir a <-> pt_addr (mem s) pgdir a) /\
  ntables (mem (zeroed s q)) pgdir = ntables (mem s) pgdir /\
  same_but (in_page q) (mem s) (mem (zeroed s q)) /\ (forall x, in_page q x -> ld8 (mem (zeroed s q)) x = 0).
Proof.
  destruct fresh_page as (Hq & Hnl & Hl). assert (Hm : mem_ok (mem s)) by apply Hk.
  assert (Hsb : same_but (in_page q) (mem s) (mem (zeroed s q))).
  { apply same_but_memset; [unfold_mmu; lia|]. intros x Hx. exact Hx. }
  assert (Hpa : forall a, pt_addr (mem s) pgdir a -> ~ in_page q a).
  { intros a Ha Hqa. eapply pt_addr_not_free; [exact Hpt|apply Hk|exact Ha|]. exists q. split; [by left|done]. }
  destruct (pt_frame (in_page q) (mem s) (mem (zeroed s q)) (q :: l) l pgdir Hpt Hsb Hpa) as (H1 & H2 & H3).
  { intros p Hp. by right. }
  split.
  { apply (km_ok_set_mem (in_page q)); [by apply km_ok_after_kalloc| |exact Hsb|].
    - apply mem_ok_memset; [unfold_mmu; lia|done].
    - intros p a Hp Ha. eapply in_page_disjoint; [| | |exact Ha].
      + eapply Forall_forall in Hp; [|exact Hl]. apply Hp.
      + apply Hq.
      + congruence. }
  split; [done|]. split; [done|]. split; [done|]. split.
  { apply ntables_dir_ext. intros a Ha. apply Hsb, Hpa. by left. }
  split; [done|]. intros x Hx. unfold zeroed. cbn [mem set_mem]. rewrite ld8_memset by (unfold_mmu; lia).
  rewrite decide_True by exact Hx. done.
Qed.

Lemma wp_map_fresh :
  l <> [] ->
  wp (mappages pgdir (PGROUNDDOWN va) PGSIZE (V2P q) perm)
    (fun r s' => r = 0 /\ exists l', fresh_mapped s q l pgdir va perm s' l') (zeroed s q).
Proof.
  intros Hl0. destruct fresh_page as (Hq & Hnl & Hl). destruct (page_ok_V2P q Hq) as (_ & Hr & Ha).
  destruct zeroed_ok as (Z1 & Z2 & Z3 & Z4 & Z5 & Z6 & Z7).
  set (a0 := PGROUNDDOWN va). assert (Ha0 : a0 = 4096 * (va / 4096)) by (unfold a0; rewrite (PGROUNDDOWN_eq va); divlia).
  assert (Hpage : forall va', a0 <= va' < a0 + 4096 * 1 <-> va' / 4096 = va / 4096) by (rewrite Ha0; intros; divlia).
  assert (Hall : forall va', 0 <= va' < 4294967296 -> va' / 4096 = va / 4096 ->
            pte_of (mem s) pgdir va' = pte_of (mem s) pgdir va) by (intros; by apply pte_of_page).
  eapply wp_mono; [apply (wp_mappages (zeroed s q) l pgdir a0 1 (V2P q) perm)|].
  - exact Z1.
  - exact Z2.
  - rewrite Ha0. divlia.
  - rewrite Ha0. divlia.
  - lia.
  - rewrite Ha0. divlia.
  - lia.
  - revert Hr. unfold_mmu. lia.
  - exact Hperm.
  - intros va' Hva'. apply Hpage in Hva' as Hva''. rewrite Z3, Hall; [done|rewrite Ha0 in Hva'; divlia|done].
  - cbv beta. intros r s' (l' & Hext & Htw & [[-> Hpte]|(-> & -> & k & Hk1 & Hk2 & Hk3)]).
    + split; [done|]. exists l'. pose proof (ve_cr3 _ _ _ _ _ Hext) as Hcr3. destruct Hext. split.
      * exact ve_suffix0.
      * exact ve_km0.
      * exact ve_pt0.
      * intros va' Hva'. rewrite Hpte by done. unfold mapped. fold a0 in Hpage. rewrite Z3.
        destruct (decide (va' / 4096 = va / 4096)) as [E|E].
        -- rewrite decide_True by (by apply Hpage). f_equal. f_equal. rewrite (PGROUNDDOWN_eq va'). rewrite Ha0. divlia.
        -- rewrite decide_False; [done|]. by rewrite Hpage.
      * intros x Hx. rewrite ve_mem0; [by apply Z7|]. rewrite Z4. intros [Hpa|(p & Hp & Hpx)].
        -- eapply pt_addr_not_free; [exact Hpt|apply Hk|exact Hpa|]. exists q. split; [by left|done].
        -- eapply in_page_disjoint; [| | |exact Hpx|exact Hx].
           ++ eapply Forall_forall in Hp; [|exact Hl]. apply Hp.
           ++ apply Hq.
           ++ congruence.
      * eapply same_but_trans; [eapply same_but_mono; [exact Z6|]|eapply same_but_mono; [exact ve_mem0|]].
        -- intros x Hx. right. exists q. split; [by left|done].
        -- intros x [Hx|(p & Hp & Hx)]; [left; by apply Z4|]. right. exists p. split; [by right|done].
      * intros x Hx. destruct (ve_own0 x Hx) as [Hx'|Hx']; [left; by apply Z4|by right].
      * intros p Hp Hpl. rewrite ve_ref0 by done. unfold zeroed, after_kalloc.
        change (refcnt (set_mem ?m ?t) ?i) with (refcnt t i). rewrite refcnt_set_ref.
        destruct (decide (p = q)) as [->|Hne]; [by rewrite decide_True|].
        rewrite decide_False; [done|]. intros E. apply Hne. symmetry. by eapply page_index_inj.
      * rewrite <- Z5. exact ve_count0.
      * exact Hcr3.
    + exfalso. assert (k = 0) as -> by lia. rewrite Z.mul_0_r, Z.add_0_r in Hk2. destruct Hext.
      cbn [length] in ve_count0. rewrite Z5 in ve_count0.
      assert (ntables (mem s') pgdir <= ntables (mem (zeroed s q)) pgdir)%nat as Hle.
      { rewrite !ntables_eq. apply count_le. intros i Hi Hpi. destruct (Htw i Hi Hpi) as [?|Hi2]; [done|].
        exfalso. assert (PDX (a0 + 4096 * 1 - 1) = PDX a0) as E.
        { rewrite !PDX_eq by (rewrite Ha0; divlia). rewrite Ha0. divlia. }
        rewrite E in Hi2. assert (i = PDX a0) as -> by lia. congruence. }
      rewrite Z5 in Hle. apply Hl0, length_zero_iff_nil. lia.
Qed.

End map_fresh.

(** ** Unmapping a range

    The kernel address of the frame of a virtual page; the state after the pages
    of [lo, hi) have been unmapped, [fr] being the frames that became free. *)
Definition frame (m : Zmap Z) (pgdir va : Z) : Z := P2V (PTE_ADDR (pte_of m pgdir va)).
Definition is_mapped (m : Zmap Z) (pgdir va : Z) : bool := flag (pte_of m pgdir va) PTE_P.

(** The mapped pages of [lo, hi) have allocator frames that are not free and not
    part of the page table; a frame counted at most once is mapped once. *)
Record unmappable (s : kmst) (l : list Z) (pgdir lo hi : Z) : Prop := {
  ua_km : km_ok s l;
  ua_pt : pt_ok (mem s) l pgdir;
  ua_lo : 0 <= lo /\ lo mod 4096 = 0;
  ua_hi : hi <= 4294967296 - 4096 /\ hi mod 4096 = 0;
  ua_frame va : lo <= va < hi -> is_mapped (mem s) pgdir va = true ->
    page_ok (frame (mem s) pgdir va) /\ (frame (mem s) pgdir va ∉ l) /\
    forall a, in_page (frame (mem s) pgdir va) a -> ~ pt_addr (mem s) pgdir a;
  ua_sole va va' : lo <= va < hi -> lo <= va' < hi -> is_mapped (mem s) pgdir va = true ->
    is_mapped (mem s) pgdir va' = true -> frame (mem s) pgdir va = frame (mem s) pgdir va' ->
    refcnt s (V2P (frame (mem s) pgdir va) / PGSIZE) <= 1 -> va / 4096 = va' / 4096 }.

Record unmapped (s : kmst) (l : list Z) (pgdir lo hi : Z) (s' : kmst) (fr : list Z) : Prop := {
  um_km : km_ok s' (fr ++ l);
  um_pt : pt_ok (mem s') (fr ++ l) pgdir;
  um_fr p : p ∈ fr <-> exists va, lo <= va < hi /\ is_mapped (mem s) pgdir va = true /\
    frame (mem s) pgdir va = p /\ refcnt s (V2P p / PGSIZE) <= 1;
  um_slot va : 0 <= va < 4294967296 -> pte_slot (mem s') pgdir va = pte_slot (mem s) pgdir va;
  um_pte va : 0 <= va < 4294967296 -> pte_of (mem s') pgdir va =
    if decide (lo <= va < hi) then if is_mapped (mem s) pgdir va then 0 else pte_of (mem s) pgdir va
    else pte_of (mem s) pgdir va;
  um_own a : pt_addr (mem s') pgdir a <-> pt_addr (mem s) pgdir a;
  um_dir a : in_page pgdir a -> ld8 (mem s') a = ld8 (mem s) a;
  um_mem : same_but (fun a => pt_addr (mem s) pgdir a \/ in_pages fr a) (mem s) (mem s');
  um_refs : ref_counts s' = ref_counts s;
  um_cr3 : cr3 s' = cr3 s }.

Section unmap.
Context (s : kmst) (l : list Z) (pgdir lo hi : Z) (Hu : unmappable s l pgdir lo hi).

Lemma unmapped_nil : unmapped s l pgdir lo lo s [].
Proof.
  destruct Hu. split; try done.
  - intros p. split; [by intros ?%not_elem_of_nil|]. intros (va & ? & _). lia.
  - intros va Hva. by rewrite decide_False by lia.
Qed.

(** Pages that are not mapped may be skipped. *)
Lemma unmapped_skip mid mid' s1 fr :
  unmapped s l pgdir lo mid s1 fr -> mid <= mid' ->
  (forall va, mid <= va < mid' -> is_mapped (mem s) pgdir va = false) ->
  unmapped s l pgdir lo mid' s1 fr.
Proof.
  intros [] Hle Hno. split; try done.
  - intros p. rewrite um_fr0. split; intros (va & Hva & Hm & Hrest); exists va.
    + split; [lia|done].
    + split; [|done]. destruct (decide (va < mid)); [lia|]. rewrite Hno in Hm by lia. done.
  - intros va Hva. rewrite um_pte0 by done. repeat case_decide; try done; [lia|].
    rewrite Hno by lia. done.
Qed.

(** One mapped page: free its frame, clear its entry. *)
Section page.
Context (mid : Z) (s1 : kmst) (fr : list Z) (Hum : unmapped s l pgdir lo mid s1 fr).
Context (Hmid : lo <= mid < hi) (Hma : mid mod 4096 = 0) (Hmap : is_mapped (mem s) pgdir mid = true).
#[local] Abbreviation f := (frame (mem s) pgdir mid).

Lemma unmap_facts : exists a,
  pte_slot (mem s) pgdir mid = Some a /\ a <> 0 /\ ld32 (mem s1) a = pte_of (mem s) pgdir mid /\
  pte_slot (mem s1) pgdir mid = Some a /\
  page_ok f /\ (f ∉ l) /\ (forall x, in_page f x -> ~ pt_addr (mem s) pgdir x) /\
  (refcnt s (V2P f / PGSIZE) <= 1 -> f ∉ fr) /\ 0 <= mid < 4294967296 /\
  (forall va, mid <= va < mid + 4096 -> lo <= va < hi /\ pte_of (mem s) pgdir va = pte_of (mem s) pgdir mid).
Proof.
  destruct Hu as [Hk Hpt [Hlo Hloa] [Hhi Hhia] Hf Hsole]. destruct (Hf mid Hmid Hmap) as (Hp & Hfl & Hfp).
  destruct (pte_of_slot _ _ _ Hmap) as (a & Ha & He). exists a.
  destruct (slot_range _ _ _ _ _ Hpt Ha) as (_ & _ & _ & Hnz).
  assert (Hpg : forall va, mid <= va < mid + 4096 -> lo <= va < hi /\ va / 4096 = mid / 4096) by (intros; divlia).
  assert (Hs1 : pte_slot (mem s1) pgdir mid = Some a) by (rewrite (um_slot _ _ _ _ _ _ _ Hum) by lia; done).
  split; [done|]. split; [done|]. split.
  { assert (pte_of (mem s1) pgdir mid = ld32 (mem s1) a) as <- by (unfold pte_of; by rewrite Hs1).
    rewrite (um_pte _ _ _ _ _ _ _ Hum), decide_False by lia. done. }
  split; [done|]. split; [done|]. split; [done|]. split; [done|]. split; [|split; [lia|]].
  - intros Hr (va & Hva & Hm & Hfe & _)%(um_fr _ _ _ _ _ _ _ Hum).
    assert (mid / 4096 = va / 4096); [|divlia]. apply Hsole; try done. lia.
  - intros va Hva. destruct (Hpg va Hva) as [? ?]. split; [done|]. apply pte_of_page; lia.
Qed.

(** The bookkeeping common to the two cases. *)
Lemma unmapped_next s2 fr' a :
  pte_slot (mem s) pgdir mid = Some a ->
  km_ok s2 (fr' ++ l) -> fr' = (if decide (refcnt s (V2P f / PGSIZE) <= 1) then f :: fr else fr) ->
  same_but (fun x => f ∈ fr' /\ in_page f x) (mem s1) (mem s2) ->
  ref_counts s2 = ref_counts s1 -> cr3 s2 = cr3 s1 ->
  unmapped s l pgdir lo (mid + 4096) (set_mem (st32 (mem s2) a 0) s2) fr'.
Proof.
  intros Ha Hk2 Hfr' Hsb Href Hcr. destruct unmap_facts as (a' & Ha' & Hnz & He & Hs1 & Hp & Hfl & Hfp & Hnf & Hmr & Hpg).
  assert (a' = a) as -> by congruence. destruct Hum as [Uk Up Uf Us Upte Uo Ud Um Ur Uc].
  assert (Hfr : forall p, p ∈ fr' ++ l -> p = f \/ p ∈ fr ++ l) by (rewrite Hfr'; case_decide; set_solver).
  destruct (pt_frame _ _ _ _ (fr ++ l) _ Up Hsb) as (P1 & P2 & P3); [|done|].
  { intros x Hx%Uo [_ Hx2]. by eapply Hfp. }
  assert (P4 : forall va, pte_slot (mem s2) pgdir va = pte_slot (mem s1) pgdir va).
  { intros va. eapply pte_of_frame; [exact Up|]. intros x Hx. apply Hsb. intros [_ Hx2]. by eapply Hfp, Uo. }
  assert (P5 : pt_ok (mem s2) (fr' ++ l) pgdir).
  { apply (pt_ok_add _ (fr ++ l) _ _ f); [done|done|]. intros x Hx Hx2. eapply Hfp; [done|]. by apply Uo, P3. }
  assert (Hs2 : pte_slot (mem s2) pgdir mid = Some a) by (by rewrite P4).
  assert (Hst : forall va, 0 <= va < 4294967296 -> pte_slot (st32 (mem s2) a 0) pgdir va = pte_slot (mem s) pgdir va /\
     pte_of (st32 (mem s2) a 0) pgdir va = if decide (va / 4096 = mid / 4096) then 0 else pte_of (mem s1) pgdir va).
  { intros va Hva. destruct (pte_of_store _ _ _ _ _ 0 va P1 Hs2 ltac:(lia) Hmr Hva) as [-> ->].
    rewrite P4, P2. split; [by apply Us|done]. }
  assert (Hsl : forall x, a <= x < a + 4 -> pt_addr (mem s) pgdir x).
  { intros x Hx. by apply Uo, P3, (pt_addr_slot _ _ _ _ _ x P1 Hs2). }
  split; cbn [mem set_mem ref_counts cr3].
  - apply (km_ok_set_mem (fun x => a <= x < a + 4)); [done|apply mem_ok_st32, Hk2| |].
    + apply same_but_st32. done.
    + intros p x Hpl Hx Hx2. eapply pt_addr_not_free; [exact P5|apply Hk2|by apply P3, Uo, Hsl|]. by exists p.
  - by eapply pt_ok_store.
  - intros p. rewrite Hfr'. split.
    + intros Hin. assert (p = f /\ refcnt s (V2P f / PGSIZE) <= 1 \/ p ∈ fr) as [[-> Hr]|Hin2] by (case_decide; set_solver).
      * exists mid. split; [lia|done].
      * apply Uf in Hin2 as (va & Hva & Hrest). exists va. split; [lia|done].
    + intros (va & Hva & Hm & Hfe & Hr). destruct (decide (va < mid)).
      * assert (p ∈ fr) by (apply Uf; exists va; split; [lia|done]). case_decide; set_solver.
      * destruct (Hpg va ltac:(lia)) as [_ E]. assert (p = f) as -> by (rewrite <- Hfe; unfold frame; by rewrite E).
        rewrite decide_True by done. by left.
  - intros va Hva. apply Hst. done.
  - intros va Hva. destruct (Hst va Hva) as [_ ->]. rewrite Upte by done.
    destruct (decide (va / 4096 = mid / 4096)) as [E|E].
    + rewrite decide_True by divlia. destruct (Hpg va ltac:(divlia)) as [_ E2]. unfold is_mapped. rewrite E2.
      fold (is_mapped (mem s) pgdir mid). by rewrite Hmap.
    + repeat case_decide; try done; exfalso; divlia.
  - intros x. rewrite <- Uo, <- P3. apply pt_addr_dir_ext. intros y Hy. by eapply slot_word_dir_disjoint.
  - intros x Hx. erewrite slot_word_dir_disjoint by done. rewrite Hsb; [by apply Ud|].
    intros [_ Hx2]. eapply Hfp; [done|]. by left.
  - intros x Hx. rewrite ld8_st32_ne.
    + rewrite Hsb; [apply Um|].
      * intros [?|(p & Hpf & ?)]; apply Hx; [by left|right]. exists p. split; [|done].
        rewrite Hfr'. case_decide; set_solver.
      * intros [Hin Hx2]. apply Hx. right. by exists f.
    + destruct (decide (a <= x < a + 4)); [|lia]. exfalso. apply Hx. left. by apply Hsl.
  - by rewrite Href.
  - by rewrite Hcr.
Qed.

Lemma run_unmap :
  exists a s2 fr', pte_slot (mem s1) pgdir mid = Some a /\ a <> 0 /\
    flag (ld32 (mem s1) a) PTE_P = true /\ P2V (PTE_ADDR (ld32 (mem s1) a)) = f /\
    (PTE_ADDR (ld32 (mem s1) a) =? 0) = false /\
    kfree f s1 = Ret tt s2 /\ unmapped s l pgdir lo (mid + 4096) (set_mem (st32 (mem s2) a 0) s2) fr'.
Proof.
  destruct unmap_facts as (a & Ha & Hnz & He & Hs1 & Hp & Hfl & Hfp & Hnf & Hmr & Hpg). exists a.
  pose proof (um_km _ _ _ _ _ _ _ Hum) as Hk1.
  assert (Hr1 : refcnt s1 (V2P f / PGSIZE) = refcnt s (V2P f / PGSIZE)).
  { unfold refcnt. by rewrite (um_refs _ _ _ _ _ _ _ Hum). }
  assert (Hpz : (PTE_ADDR (ld32 (mem s1) a) =? 0) = false).
  { apply Z.eqb_neq. rewrite He. intros E. destruct (page_ok_range _ Hp) as (Hlo & _). revert Hlo.
    unfold frame. rewrite E. change (P2V 0) with KERNBASE. lia. }
  destruct (decide (refcnt s (V2P f / PGSIZE) <= 1)) as [Hr|Hr].
  - exists (after_kfree s1 f), (f :: fr). rewrite He at 1 2. do 5 (split; [done|]). split.
    { apply kfree_last; [done|apply Hk1|by rewrite Hr1]. }
    apply unmapped_next; [done| |by rewrite decide_True| |done|done].
    + apply km_ok_after_kfree; [done|done|]. rewrite elem_of_app. intros [?|?]; [by apply Hnf|done].
    + intros x Hx. apply same_but_after_kfree. intros Hx2. apply Hx. split; [by left|done].
  - exists s1, fr. rewrite He at 1 2. do 5 (split; [done|]). split.
    { apply kfree_shared; [done|rewrite Hr1; lia]. }
    apply unmapped_next; [done|done|by rewrite decide_False| |done|done]. apply same_but_refl.
Qed.

End page.

End unmap.

(** *** deallocuvm *)
Section dealloc.
Context (s : kmst) (l : list Z) (pgdir oldsz newsz : Z).
Context (Hsz : 0 <= newsz < oldsz) (Hold : oldsz <= KERNBASE).
Context (Hu : unmappable s l pgdir (PGROUNDUP newsz) (PGROUNDUP oldsz)).

Definition dealloc_inv (a : Z) (s1 : kmst) : Prop :=
  PGROUNDUP newsz <= a /\ a mod 4096 = 0 /\
  exists fr, unmapped s l pgdir (PGROUNDUP newsz) (Z.min a (PGROUNDUP oldsz)) s1 fr.

Lemma sizes : PGROUNDUP newsz <= PGROUNDUP oldsz /\ PGROUNDUP oldsz mod 4096 = 0 /\
  oldsz <= PGROUNDUP oldsz <= KERNBASE /\ PGROUNDUP newsz mod 4096 = 0 /\ 0 <= PGROUNDUP newsz /\
  forall a, a mod 4096 = 0 -> oldsz <= a -> PGROUNDUP oldsz <= a.
Proof.
  unfold KERNBASE in *. rewrite !PGROUNDUP_eq by lia. split_and!; try (intros; divlia).
Qed.

(** The first address of the next page table. *)
Lemma next_table a : 0 <= a < KERNBASE ->
  u32 (u32 (PGADDR (PDX a + 1) 0 0 - PGSIZE) + PGSIZE) = 4194304 * (a / 4194304 + 1).
Proof.
  unfold KERNBASE. intros Ha. rewrite PDX_eq by lia. rewrite PGADDR_eq by divlia. unfold PGSIZE.
  rewrite (u32_id ((a / 4194304 + 1) * 4194304 - 4096)) by divlia. rewrite u32_id by divlia. divlia.
Qed.

Lemma no_table_unmapped a va : pte_slot (mem s) pgdir a = None -> 0 <= a < 4294967296 -> 0 <= va < 4294967296 ->
  va / 4194304 = a / 4194304 -> is_mapped (mem s) pgdir va = false.
Proof.
  intros Hs Ha Hva He. unfold is_mapped, pte_of, pte_slot in *. rewrite PDX_eq in * by done. rewrite He.
  by destruct (present _ _ _).
Qed.

Lemma wp_deallocuvm_body a s1 : dealloc_inv a s1 ->
  wp (deallocuvm_body pgdir oldsz a) (fun r s2 =>
    match r with
    | inl a' => dealloc_inv a' s2 /\ a < oldsz /\ a < a'
    | inr _ => exists fr, unmapped s l pgdir (PGROUNDUP newsz) (PGROUNDUP oldsz) s2 fr
    end) s1.
Proof.
  intros (Ha & Haa & fr & Hum). destruct sizes as (S1 & S2 & S3 & S4 & S5 & S6). unfold KERNBASE in S3, Hold.
  unfold deallocuvm_body. destruct (Z.ltb_spec a oldsz) as [Hlt|Hge].
  2:{ apply wp_ret. exists fr. by rewrite Z.min_r in Hum by (by apply S6). }
  rewrite Z.min_l in Hum by lia. apply wp_bind. eapply wp_result; [apply run_walk|]. cbv beta.
  assert (Hsl : pte_slot (mem s1) pgdir a = pte_slot (mem s) pgdir a) by (apply (um_slot _ _ _ _ _ _ _ Hum); lia).
  destruct (is_mapped (mem s) pgdir a) eqn:Hm.
  - destruct (run_unmap s l pgdir _ _ Hu a s1 fr Hum ltac:(lia) Haa Hm) as (x & s2 & fr' & Hx & Hnz & Hp & Hf & Hz & Hk & Hu2).
    rewrite Hx. cbn [default id]. rewrite (proj2 (Z.eqb_neq x 0) Hnz). unfold load. wp_step. wp_step. rewrite Hp, Hz, Hf.
    apply wp_bind, wp_bind. eapply wp_result; [exact Hk|]. unfold store. apply wp_modify, wp_ret.
    unfold PGSIZE. rewrite u32_id by lia. split; [|lia]. split; [lia|]. split; [divlia|]. exists fr'.
    rewrite Z.min_l by divlia. exact Hu2.
  - assert (Hskip : forall a', a < a' -> a' mod 4096 = 0 -> (forall va, a <= va < a' -> is_mapped (mem s) pgdir va = false) ->
      dealloc_inv a' s1 /\ a < oldsz /\ a < a').
    { intros a' Hlt' Ha' Hno. split; [|lia]. split; [lia|]. split; [done|]. exists fr.
      eapply unmapped_skip; [exact Hum|lia|]. intros va Hva. apply Hno. lia. }
    destruct (pte_slot (mem s1) pgdir a) as [x|] eqn:Hx; cbn [default id].
    + assert (x <> 0) as Hnz by (by eapply slot_range in Hx; [|apply (um_pt _ _ _ _ _ _ _ Hum)]; destruct Hx as (_ & _ & _ & ?)).
      rewrite (proj2 (Z.eqb_neq x 0) Hnz). unfold load. wp_step. wp_step.
      assert (ld32 (mem s1) x = pte_of (mem s) pgdir a) as ->.
      { transitivity (pte_of (mem s1) pgdir a); [unfold pte_of; by rewrite Hx|].
        rewrite (um_pte _ _ _ _ _ _ _ Hum), decide_False by lia. done. }
      fold (is_mapped (mem s) pgdir a). rewrite Hm. apply wp_bind, wp_ret, wp_ret. unfold PGSIZE. rewrite u32_id by lia.
      apply Hskip; [lia|divlia|]. intros va Hva. rewrite <- Hm. unfold is_mapped. f_equal. apply pte_of_page; divlia.
    + change (0 =? 0) with true. cbv iota. apply wp_ret. rewrite next_table by (unfold KERNBASE; lia).
      apply Hskip; [divlia|divlia|]. intros va Hva. eapply (no_table_unmapped a); [by rewrite <- Hsl|divlia..].
Qed.

Lemma wp_deallocuvm :
  wp (deallocuvm pgdir oldsz newsz) (fun r s' => r = newsz /\
    exists fr, unmapped s l pgdir (PGROUNDUP newsz) (PGROUNDUP oldsz) s' fr) s.
Proof.
  unfold deallocuvm. rewrite (proj2 (Z.leb_gt oldsz newsz)) by lia. apply wp_bind.
  destruct sizes as (S1 & S2 & S3 & S4 & S5 & S6). eapply wp_mono.
  - apply (wp_iterate dealloc_inv (fun a => Z.to_nat (oldsz / 4096 + 1 - a / 4096))).
    + intros a s1 Hi. pose proof Hi as (Ha & Haa & _). eapply wp_mono; [by apply wp_deallocuvm_body|]. cbv beta.
      intros [a'|u] s2 H; [|exact H]. destruct H as (H1 & H2 & H3). split; [done|].
      destruct H1 as (_ & Ha' & _). divlia.
    + unfold PGSIZE. divlia.
    + split; [lia|]. split; [done|]. exists []. rewrite Z.min_l by lia. by eapply unmapped_nil.
  - cbv beta. intros u s2 H. by apply wp_ret.
Qed.

End dealloc.

(** *** freevm *)

(** The page table pages [0, n) of [pgdir] and the free pages [L] before. *)
Section free_tables.
Context (s : kmst) (L : list Z) (pgdir : Z) (Hk : km_ok s L) (Hpt : pt_ok (mem s) L pgdir).
Context (Href : forall i, 0 <= i < 1024 -> present (mem s) pgdir i = true ->
  refcnt s (V2P (ptab (mem s) pgdir i) / PGSIZE) <= 1).

Record tables_freed (n : Z) (t : kmst) (tb : list Z) : Prop := {
  tf_km : km_ok t (tb ++ L);
  tf_tb p : p ∈ tb <-> exists j, 0 <= j < n /\ present (mem s) pgdir j = true /\ ptab (mem s) pgdir j = p;
  tf_dir x : in_page pgdir x -> ld8 (mem t) x = ld8 (mem s) x;
  tf_refs : ref_counts t = ref_counts s;
  tf_cr3 : cr3 t = cr3 s }.

Lemma tables_freed_step n t tb :
  0 <= n < 1024 -> tables_freed n t tb ->
  wp (e ← load (pgdir + 4 * n); when (flag e PTE_P) (kfree (P2V (PTE_ADDR e))))
    (fun _ t' => exists tb', tables_freed (n + 1) t' tb') t.
Proof.
  intros Hn [Tk Tt Td Tr Tc]. unfold load. wp_step. wp_step.
  destruct (pde_dir_ext _ _ _ Td n Hn) as [E1 E2]. fold (pde (mem t) pgdir n). fold (present (mem t) pgdir n).
  fold (ptab (mem t) pgdir n). rewrite E1, E2. destruct (present (mem s) pgdir n) eqn:Hp; cbn [when].
  - destruct (pt_tab _ _ _ Hpt n Hn Hp) as (T1 & T2 & T3). set (q := ptab (mem s) pgdir n) in *.
    assert (Hq : q ∉ tb ++ L).
    { rewrite elem_of_app, Tt. intros [(j & Hj & Hpj & Hqj)|?]; [|done].
      assert (j = n) by (eapply (pt_inj _ _ _ Hpt); try done; lia). lia. }
    eapply wp_result; [apply kfree_last; [done|apply Tk|]|].
    { unfold refcnt. rewrite Tr. by apply Href. }
    exists (q :: tb). split; try done.
    + by apply km_ok_after_kfree.
    + intros p. rewrite elem_of_cons, Tt. split.
      * intros [->|(j & Hj & ?)]; [by exists n; split; [lia|]|exists j; split; [lia|done]].
      * intros (j & Hj & Hpj & Hqj). destruct (decide (j = n)) as [->|]; [by left|]. right. exists j. split; [lia|done].
    + intros x Hx. rewrite same_but_after_kfree; [by apply Td|]. intros Hx2.
      eapply (in_page_disjoint pgdir q x); [apply (pt_dir _ _ _ Hpt)|apply T1|congruence|done|done].
  - apply wp_ret. exists tb. split; try done. intros p. rewrite Tt. split; intros (j & Hj & Hpj & Hqj); exists j.
    + split; [lia|done].
    + split; [|done]. destruct (decide (j = n)) as [->|]; [congruence|lia].
Qed.

Lemma wp_freevm_tables k : forall n t tb,
  0 <= n -> n + Z.of_nat k <= 1024 -> tables_freed n t tb ->
  wp (freevm_tables pgdir n k) (fun _ t' => exists tb', tables_freed (n + Z.of_nat k) t' tb') t.
Proof.
  induction k as [|k IH]; intros n t tb Hn Hk1 Ht.
  - apply wp_ret. exists tb. by rewrite Z.add_0_r.
  - cbn [freevm_tables]. pose proof (tables_freed_step n t tb ltac:(lia) Ht) as H. apply wp_bind_inv in H.
    apply wp_bind. eapply wp_mono; [exact H|]. cbv beta. intros e t1 H1. apply wp_bind.
    eapply wp_mono; [exact H1|]. cbv beta. intros _ t2 (tb2 & H2).
    replace (n + Z.of_nat (S k)) with (n + 1 + Z.of_nat k) by lia. eapply IH; [lia|lia|done].
Qed.

End free_tables.

(** An address space that can be freed: its user pages can be unmapped and its
    page table pages are not shared. *)
Record freeable (s : kmst) (l : list Z) (pgdir : Z) : Prop := {
  fr_user : unmappable s l pgdir 0 KERNBASE;
  fr_tables i : 0 <= i < 1024 -> present (mem s) pgdir i = true ->
    refcnt s (V2P (ptab (mem s) pgdir i) / PGSIZE) <= 1;
  fr_dir : refcnt s (V2P pgdir / PGSIZE) <= 1 }.

(** The pages of an address space: directory, page tables, and the user frames
    no one else refers to. *)
Definition space_page (s : kmst) (pgdir p : Z) : Prop :=
  p = pgdir \/ (exists i, 0 <= i < 1024 /\ present (mem s) pgdir i = true /\ ptab (mem s) pgdir i = p) \/
  exists va, 0 <= va < KERNBASE /\ is_mapped (mem s) pgdir va = true /\ frame (mem s) pgdir va = p /\
    refcnt s (V2P p / PGSIZE) <= 1.

Lemma wp_freevm s l pgdir :
  freeable s l pgdir ->
  wp (freevm pgdir) (fun _ s' => ref_counts s' = ref_counts s /\ cr3 s' = cr3 s /\
    exists l', km_ok s' (l' ++ l) /\ forall p, p ∈ l' <-> space_page s pgdir p) s.
Proof.
  intros [Hu Ht Hd]. pose proof (ua_pt _ _ _ _ _ Hu) as Hpt. unfold freevm.
  assert (pgdir <> 0) as Hnz by (apply page_ok_nz, Hpt). rewrite (proj2 (Z.eqb_neq _ _) Hnz). apply wp_bind.
  eapply wp_mono.
  { apply (wp_deallocuvm s l pgdir KERNBASE 0); [unfold KERNBASE; lia|lia|exact Hu]. }
  cbv beta. change (PGROUNDUP 0) with 0. change (PGROUNDUP KERNBASE) with KERNBASE.
  intros r s1 (-> & fr & [Uk Up Uf Us Upte Uo Ud Um Ur Uc]).
  pose proof (pde_dir_ext _ _ _ Ud) as Hpe.
  assert (Hd0 : forall i, 0 <= i < 1024 -> present (mem s1) pgdir i = true ->
            refcnt s1 (V2P (ptab (mem s1) pgdir i) / PGSIZE) <= 1).
  { intros i Hi Hp. destruct (Hpe i Hi) as [E1 E2]. unfold refcnt. rewrite E2, Ur. apply Ht; congruence. }
  apply wp_bind. eapply wp_mono.
  { apply (wp_freevm_tables s1 (fr ++ l) pgdir Up Hd0 1024 0 s1 []); [lia|lia|].
    split; try done. intros p. split; [by intros ?%not_elem_of_nil|]. intros (j & ? & _). lia. }
  cbv beta. intros _ s2 (tb & [Tk Tt Td Tr Tc]). destruct (pt_dir _ _ _ Up) as [Hpd Hpl].
  assert (Hnin : pgdir ∉ tb ++ fr ++ l).
  { rewrite elem_of_app. intros [(j & Hj & Hpj & Hqj)%Tt|?]; [|done].
    by destruct (pt_tab _ _ _ Up j ltac:(lia) Hpj) as (_ & _ & ?). }
  eapply wp_result; [apply kfree_last; [done|apply Tk|]|].
  { unfold refcnt. rewrite Tr, Ur. exact Hd. }
  cbn [ref_counts cr3 after_kfree set_freelist set_mem]. split; [congruence|]. split; [congruence|].
  exists (pgdir :: tb ++ fr). split.
  - cbn [app]. rewrite <- app_assoc. by apply km_ok_after_kfree.
  - intros p. rewrite elem_of_cons, elem_of_app, Tt, Uf. unfold space_page. split.
    + intros [?|[(j & Hj & H1 & H2)|?]]; [by left| |by right; right].
      destruct (Hpe j ltac:(lia)) as [E1 E2]. right. left. exists j. split; [lia|split; congruence].
    + intros [?|[(j & Hj & H1 & H2)|?]]; [by left| |by right; right].
      destruct (Hpe j ltac:(lia)) as [E1 E2]. right. left. exists j. split; [lia|split; congruence].
Qed.



(** ** A small address space

    A directory [A] with one page table [T] that maps page 0 with entry [e]; used
    to instantiate the theorems. *)
Definition one_page (m : Zmap Z) (A T e : Z) : Zmap Z := st32 (add_table m A 0 T) T e.

Lemma one_page_ok m l A T e :
  page_ok A -> page_ok T -> A <> T -> (A ∉ l) -> (T ∉ l) -> (forall i, in_page A i -> ld8 m i = 0) ->
  0 <= e < 4294967296 ->
  pt_ok (one_page m A T e) l A /\
  (forall va, 0 <= va < 4294967296 ->
     pte_of (one_page m A T e) A va = if decide (va / 4096 = 0) then e else 0) /\
  (forall i, pt_addr (one_page m A T e) A i -> in_page A i \/ in_page T i) /\
  same_but (fun i => in_page A i \/ in_page T i) m (one_page m A T e) /\
  pte_slot (one_page m A T e) A 0 = Some T.
Proof.
  intros HA HT HAT HnA HnT Hz He.
  destruct (empty_dir_ok m (T :: l) A HA) as (Hok & Hpr & _); [set_solver|done|].
  assert (Hr0 : 0 <= 0 < 4294967296) by lia.
  assert (Habs : present m A (PDX 0) = false) by (apply Hpr, PDX_range).
  pose proof (add_table_ok m l A 0 T Hok HT HnT Hr0 Habs) as Hok1.
  pose proof (add_table_slot m l A 0 T Hok HT HnT Hr0 Habs) as Hs1.
  rewrite Z.add_0_r in Hs1. unfold one_page.
  assert (Hpt : forall i, pt_addr (st32 (add_table m A 0 T) T e) A i -> in_page A i \/ in_page T i).
  { intros i Hi. apply (pt_addr_dir_ext (add_table m A 0 T)) in Hi; [|by eapply slot_word_dir_disjoint].
    apply (add_table_addr m l A 0 T Hok HT HnT Hr0 Habs) in Hi as [[Hi|(j & Hj & Hp & _)]|Hi]; [by left| |by right].
    by rewrite Hpr in Hp. }
  split_and!.
  - by eapply pt_ok_store.
  - intros va Hva. rewrite (proj2 (pte_of_store _ _ _ _ _ e va Hok1 Hs1 He Hr0 Hva)).
    rewrite (add_table_pte_of m l A 0 T Hok HT HnT Hr0 Habs). change (0 / 4096) with 0. case_decide; [done|].
    unfold pte_of, pte_slot. by rewrite Hpr by apply PDX_range.
  - done.
  - eapply same_but_trans; [|eapply same_but_mono; [by eapply same_but_slot|]].
    + intros i Hi. apply add_table_other; [tauto|]. unfold in_page in Hi.
      change (PDX 0) with 0. lia.
    + intros i Hi. apply (add_table_addr m l A 0 T Hok HT HnT Hr0 Habs) in Hi as [[Hi|(j & Hj & Hp & _)]|Hi]; [by left| |by right].
      by rewrite Hpr in Hp.
  - by rewrite (proj1 (pte_of_store _ _ _ _ _ e 0 Hok1 Hs1 He Hr0 Hr0)).
Qed.

End vm.
