(* ===== verification/Cow.v ===== *)
(** * Copy-on-write: copyuvm of vm.c

    fork gives the child the parent's frames: copyuvm builds a page directory
    for the child whose user entries point to the same frames, write-protects
    and marks both sides copy-on-write, and counts the new references.  The
    theorem describes both address spaces, the counts and the memory after it. *)

From Stdlib Require Import ZArith Lia.
From stdpp Require Import base tactics numbers option list strings zmap.
From S2P Require Import Prelude Memory Mmu StringOps Kalloc Vm.

Section cow.
Context {KI : KernelImage}.

(** ** The copy-on-write branch of the page fault handler (trap.c)

    [pte] is the address of the entry of [fault_addr] in [pgdir].  The answer is
    whether the fault was handled; it is not when memory is exhausted, and the
    caller then kills the process. *)
Definition pgflt_cow (pgdir fault_addr pte : Z) : M kmst bool :=
  e ← load pte;
  let pa := PTE_ADDR e in
  c ← gets (fun s => refcnt s (pa / PGSIZE));
  if c =? 1 then
    e1 ← load pte; store pte (Z.lor e1 PTE_W);;
    e2 ← load pte; store pte (Z.land e2 (Z.lnot PTE_COW));;
    lcr3 (V2P pgdir);;
    mret true
  else
    new_page ← kalloc;
    if new_page =? 0 then mret false
    else
      modify (fun s => set_mem (memmove (mem s) new_page (P2V pa) PGSIZE) s);;
      e1 ← load pte; store pte (Z.lor e1 PTE_W);;
      e2 ← load pte; store pte (Z.land e2 (Z.lnot PTE_COW));;
      lcr3 (V2P pgdir);;
      e3 ← load pte;
      let old := P2V (PTE_ADDR e3) in
      let flags := PTE_FLAGS e3 in
      store pte 0;;
      let flags := Z.lor flags PTE_W in
      r ← mappages pgdir (PGROUNDDOWN fault_addr) PGSIZE (V2P new_page) flags;
      if r <? 0 then panic "mampages duplciate pages failed"
      else
        lcr3 (V2P pgdir);;
        modify (fun s => set_mem (memmove (mem s) new_page old PGSIZE) s);;
        decref pa;;
        mret true.

(** ** Entries before and after

    The parent's entry after fork, and the flags of the child's. *)
Definition cow_parent (e : Z) : Z := Z.land (Z.lor e PTE_COW) (Z.lnot PTE_W).
Definition cow_flags (f : Z) : Z :=
  if flag f PTE_W then Z.land (Z.lor f PTE_COW) (Z.lnot PTE_W) else f.
Definition cow_child (e : Z) : Z := Z.lor (Z.lor (PTE_ADDR e) (cow_flags (PTE_FLAGS e))) PTE_P.

Lemma cow_parent_range e : 0 <= e < 4294967296 -> 0 <= cow_parent e < 4294967296.
Proof.
  intros. apply (land_range _ _ 32); [lia|]. apply (lor_range _ _ 32); [lia|done|unfold_mmu; lia].
Qed.

Lemma cow_parent_idem e : cow_parent (cow_parent e) = cow_parent e.
Proof.
  unfold cow_parent. apply Z.bits_inj'. intros n Hn.
  rewrite !Z.land_spec, !Z.lor_spec, !Z.land_spec, !Z.lor_spec, !Z.lnot_spec by done.
  destruct (Z.testbit e n), (Z.testbit PTE_COW n) eqn:E, (Z.testbit PTE_W n) eqn:E'; try done.
Qed.

Lemma cow_flags_range f : 0 <= f < 4096 -> 0 <= cow_flags f < 4096.
Proof.
  intros. unfold cow_flags. case_match; [|done]. apply (land_range _ _ 12); [lia|].
  apply (lor_range _ _ 12); [lia|done|unfold_mmu; lia].
Qed.

Lemma cow_parent_addr e : PTE_ADDR (cow_parent e) = PTE_ADDR e.
Proof. unfold cow_parent. rewrite PTE_ADDR_clear, PTE_ADDR_lor by (unfold_mmu; lia). done. Qed.

Lemma cow_parent_flags e :
  flag (cow_parent e) PTE_P = flag e PTE_P /\ flag (cow_parent e) PTE_U = flag e PTE_U /\
  flag (cow_parent e) PTE_W = false /\ flag (cow_parent e) PTE_COW = true.
Proof. unfold cow_parent. bit_simpl. done. Qed.

Lemma cow_child_flags e :
  flag (cow_child e) PTE_P = true /\ flag (cow_child e) PTE_U = flag e PTE_U /\
  flag (cow_child e) PTE_W = false /\ flag (cow_child e) PTE_COW = flag e PTE_W || flag e PTE_COW.
Proof.
  unfold cow_child, cow_flags.
  destruct (flag (PTE_FLAGS e) PTE_W) eqn:E; revert E; bit_simpl; intros E; rewrite ?E;
    split_and!; try done; by rewrite orb_true_r.
Qed.

Lemma cow_child_addr e : PTE_ADDR (cow_child e) = PTE_ADDR e.
Proof. apply PTE_ADDR_make; [apply PTE_ADDR_aligned|]. apply cow_flags_range, PTE_FLAGS_range. Qed.

(** One iteration of copyuvm, up to the call of mappages. *)
Lemma run_copyuvm_body s pd d sz i a e :
  i < sz -> pte_slot (mem s) pd i = Some a -> a <> 0 -> ld32 (mem s) a = e ->
  0 <= e < 4294967296 -> flag e PTE_P = true ->
  copyuvm_body pd d sz i s =
    (r ← mappages d i PGSIZE (PTE_ADDR e) (cow_flags (PTE_FLAGS e));
     if r <? 0 then lcr3 (V2P pd);; mret (inr 0)
     else incref (PTE_ADDR e);; mret (inl (u32 (i + PGSIZE))))
    (set_cr3 (V2P pd) (set_mem (st32 (mem s) a (cow_parent e)) s)).
Proof.
  intros Hi Hs Ha He Hr Hp. pose proof (cow_parent_range e Hr) as Hcr.
  assert (Hr1 : 0 <= Z.lor e PTE_COW < 4294967296).
  { apply (lor_range _ _ 32); [lia|done|unfold_mmu; lia]. }
  assert (Hr2 : 0 <= Z.lor (cow_parent e) PTE_COW < 4294967296).
  { apply (lor_range _ _ 32); [lia|done|unfold_mmu; lia]. }
  unfold copyuvm_body. rewrite (proj2 (Z.ltb_lt i sz)) by done.
  rewrite (bind_ret_run _ _ _ _ _ (run_walk_present s pd i false a Hs)).
  rewrite (proj2 (Z.eqb_neq a 0)) by done. unfold load, store, lcr3. mrun.
  rewrite He, Hp. cbn [negb]. unfold cow_flags. destruct (flag (PTE_FLAGS e) PTE_W); mrun.
  - cbn [mem set_cr3 set_mem]. rewrite !st32_st32, He.
    rewrite (ld32_st32_eq _ _ (Z.lor e PTE_COW)) by done. fold (cow_parent e).
    rewrite (ld32_st32_eq _ _ (cow_parent e)) by done.
    rewrite (ld32_st32_eq _ _ (Z.lor (cow_parent e) PTE_COW)) by done.
    fold (cow_parent (cow_parent e)). by rewrite cow_parent_idem.
  - cbn [mem set_cr3 set_mem]. rewrite He, st32_st32.
    by rewrite (ld32_st32_eq _ _ (Z.lor e PTE_COW)) by done.
Qed.

(** ** The loop of copyuvm

    [copied kp kc kr s' l']: of the parent's user pages, the first [kp] have been
    made copy-on-write, the first [kc] are mapped in the new directory [d] and
    the first [kr] have been counted. *)
Section copyuvm.
Context (s : kmst) (d : Z) (l : list Z) (pgdir sz : Z).

Definition share (k : nat) (i : Z) : nat :=
  count (fun j => PTE_ADDR (pte_of (mem s) pgdir (4096 * j)) / PGSIZE =? i) k.

Record copied (kp kc kr : nat) (s' : kmst) (l' : list Z) : Prop := {
  cp_suffix : exists pre, d :: l = pre ++ l' /\ d ∈ pre;
  cp_km : km_ok s' l';
  cp_ppt : pt_ok (mem s') l' pgdir;
  cp_cpt : pt_ok (mem s') l' d;
  cp_pown a : pt_addr (mem s') pgdir a <-> pt_addr (mem s) pgdir a;
  cp_cown a : pt_addr (mem s') d a -> in_pages (d :: l) a;
  cp_mem : same_but (fun a => pt_addr (mem s) pgdir a \/ in_pages (d :: l) a) (mem s) (mem s');
  cp_parent va : 0 <= va < 4294967296 ->
    pte_of (mem s') pgdir va =
      if decide (va < 4096 * Z.of_nat kp) then cow_parent (pte_of (mem s) pgdir va)
      else pte_of (mem s) pgdir va;
  cp_child va : 0 <= va < 4294967296 ->
    pte_of (mem s') d va =
      if decide (va < 4096 * Z.of_nat kc) then cow_child (pte_of (mem s) pgdir va) else kern_pte va;
  cp_ref q : page_ok q -> q ∉ d :: l ->
    refcnt s' (V2P q / PGSIZE) =
      u8 (refcnt s (V2P q / PGSIZE) + Z.of_nat (share kr (V2P q / PGSIZE))) }.

Context (Hk : km_ok s (d :: l)) (Hpt : pt_ok (mem s) (d :: l) pgdir).
Context (Hsz : 0 <= sz <= KERNBASE).
Context (Huser : forall va, 0 <= va < sz ->
  flag (pte_of (mem s) pgdir va) PTE_P = true /\ PTE_ADDR (pte_of (mem s) pgdir va) < PHYSTOP).

Lemma copied_parent k s1 l1 a :
  0 <= 4096 * Z.of_nat k < 4294967296 ->
  copied k k k s1 l1 -> pte_slot (mem s1) pgdir (4096 * Z.of_nat k) = Some a ->
  copied (S k) k k
    (set_cr3 (V2P pgdir) (set_mem (st32 (mem s1) a (cow_parent (ld32 (mem s1) a))) s1)) l1.
Proof.
  intros Hr [Hsuf Hkm Hpp Hcp Hpo Hco Hm Hp Hc Href] Hs.
  set (v := cow_parent _).
  assert (Hv : 0 <= v < 4294967296) by (apply cow_parent_range, ld32_range, Hkm).
  pose proof (same_but_slot _ _ _ _ _ v Hpp Hs) as Hsb.
  destruct (pt_frame _ _ _ _ l1 _ Hcp Hsb) as (Hcp2 & Hc2 & Hco2); [|done|].
  { intros b Hb Hb'. eapply (pt_addr_not_free _ _ _ b Hpt); [apply Hk|by apply Hpo|by apply Hco]. }
  assert (Hkm2 : km_ok (set_mem (st32 (mem s1) a v) s1) l1).
  { eapply ve_km, (vm_ext_store pgdir s1 l1); done. }
  split; cbn [mem set_cr3 set_mem].
  - done.
  - by apply km_ok_set_cr3.
  - by eapply pt_ok_store.
  - done.
  - intros b. rewrite <- Hpo. apply pt_addr_dir_ext. by eapply slot_word_dir_disjoint.
  - intros b Hb. by apply Hco, Hco2.
  - eapply same_but_trans; [done|]. eapply same_but_mono; [done|]. intros b Hb. left. by apply Hpo.
  - intros va Hva. rewrite (proj2 (pte_of_store _ _ _ _ _ v va Hpp Hs Hv Hr Hva)), Hp by done.
    destruct (decide (va / 4096 = _)) as [E|E].
    + rewrite decide_True by divlia. subst v. f_equal.
      rewrite (pte_of_page (mem s) _ va (4096 * Z.of_nat k)) by (done || divlia).
      transitivity (pte_of (mem s1) pgdir (4096 * Z.of_nat k)); [unfold pte_of at 1; by rewrite Hs|].
      rewrite Hp by done. rewrite decide_False by lia. done.
    + destruct (decide (va < 4096 * Z.of_nat k)) as [E'|E'].
      * rewrite decide_True by lia. done.
      * rewrite decide_False by divlia. done.
  - intros va Hva. rewrite Hc2. by apply Hc.
  - intros q Hq Hn. by apply Href.
Qed.

(** The new directory has no user page before its turn. *)
Lemma kern_pte_user va : 0 <= va < KERNBASE -> kern_pte va = 0.
Proof.
  intros. unfold kern_pte. pose proof k_data_lo. revert H H0. unfold_mmu. intros.
  rewrite !decide_False by lia. done.
Qed.

(** Extending the child's page table. *)
Lemma copied_ext kp kc kr kc' s1 l1 s2 l2 :
  copied kp kc kr s1 l1 -> vm_ext d s1 l1 s2 l2 ->
  (forall va, 0 <= va < 4294967296 -> pte_of (mem s2) d va =
     if decide (va < 4096 * Z.of_nat kc') then cow_child (pte_of (mem s) pgdir va) else kern_pte va) ->
  copied kp kc' kr s2 l2.
Proof.
  intros [[pre [Hsuf Hd]] Hkm Hpp Hcp Hpo Hco Hm Hp Hc Href] Hext Hc2.
  destruct (ve_suffix _ _ _ _ _ Hext) as [pre' Hpre].
  assert (Hsub : forall a, in_pages l1 a -> in_pages (d :: l) a).
  { intros a Ha. rewrite Hsuf. by apply in_pages_suffix. }
  assert (Hown : forall a, pt_addr (mem s1) d a \/ in_pages l1 a -> in_pages (d :: l) a).
  { intros a [Ha|Ha]; auto. }
  destruct (pt_frame _ _ _ _ l2 _ Hpp (ve_mem _ _ _ _ _ Hext)) as (Hpp2 & Hp2 & Hpo2).
  { intros a Ha Ha'. eapply (pt_addr_not_free _ _ _ a Hpt); [apply Hk|by apply Hpo|by apply Hown]. }
  { intros q Hq. rewrite Hpre. apply elem_of_app. by right. }
  split.
  - exists (pre ++ pre'). rewrite <- app_assoc, <- Hpre. split; [done|]. apply elem_of_app. by left.
  - apply Hext.
  - done.
  - apply Hext.
  - intros a. by rewrite Hpo2.
  - intros a [Ha|Ha]%(ve_own _ _ _ _ _ Hext); auto.
  - eapply same_but_trans; [done|]. eapply same_but_mono; [apply Hext|]. intros a Ha. right. by apply Hown.
  - intros va Hva. rewrite Hp2. by apply Hp.
  - done.
  - intros q Hq Hn. rewrite (ve_ref _ _ _ _ _ Hext), Href; [done..|].
    rewrite Hsuf in Hn. intros Hq1. apply Hn, elem_of_app. by right.
Qed.

Lemma copied_child k s1 l1 :
  4096 * Z.of_nat k < sz -> copied (S k) k k s1 l1 ->
  let e := pte_of (mem s) pgdir (4096 * Z.of_nat k) in
  wp (mappages d (4096 * Z.of_nat k) PGSIZE (PTE_ADDR e) (cow_flags (PTE_FLAGS e)))
    (fun r s' => exists l', r = 0 /\ copied (S k) (S k) k s' l' \/
       r = -1 /\ l' = [] /\ copied (S k) k k s' []) s1.
Proof.
  intros Hks [Hsuf Hkm Hpp Hcp Hpo Hco Hm Hp Hc Href] e.
  assert (KERNBASE = 2147483648) by done.
  destruct (Huser (4096 * Z.of_nat k)) as [He Hpa]; [lia|]. fold e in He, Hpa.
  assert (Her : 0 <= e < 4294967296).
  { destruct (pte_of_slot _ _ _ He) as (a & _ & Ha). unfold e. rewrite Ha. apply ld32_range, Hk. }
  assert (Hea : 0 <= PTE_ADDR e < 4294967296 - 4096).
  { split; [apply PTE_ADDR_nonneg, Her|]. revert Hpa. unfold_mmu. lia. }
  eapply wp_mono; [apply (wp_mappages s1 l1 d (4096 * Z.of_nat k) 1); [done|done|lia| |lia..| | ]|].
  - by rewrite Z.mul_comm, Z.mod_mul.
  - apply cow_flags_range, PTE_FLAGS_range.
  - intros va Hva. rewrite Hc, decide_False, kern_pte_user by lia. done.
  - intros r s' (l' & Hext & _ & Hr). exists l'.
    destruct Hr as [[-> Hr]|(-> & -> & j & Hj & _ & Hr)]; [left|right].
    + split; [done|]. eapply copied_ext; [by split|done|]. intros va Hva. rewrite Hr by done.
      unfold mapped. destruct (decide (4096 * _ <= va < _)) as [E|E].
      * rewrite decide_True by lia. unfold cow_child. rewrite (PGROUNDDOWN_eq va).
        rewrite (pte_of_page (mem s) _ va (4096 * Z.of_nat k)) by (lia || divlia). fold e.
        do 2 f_equal. divlia.
      * rewrite Hc by done. destruct (decide (va < 4096 * Z.of_nat k)).
        { rewrite decide_True by lia. done. } { rewrite decide_False by lia. done. }
    + assert (j = 0) as -> by lia. split_and!; [done..|].
      eapply copied_ext; [by split|done|]. intros va Hva. rewrite Hr by done.
      unfold mapped. rewrite decide_False by lia. by apply Hc.
Qed.

Lemma copied_ref k s1 l1 :
  copied (S k) (S k) k s1 l1 ->
  let i := PTE_ADDR (pte_of (mem s) pgdir (4096 * Z.of_nat k)) / PGSIZE in
  copied (S k) (S k) (S k) (set_ref i (refcnt s1 i + 1) s1) l1.
Proof.
  intros [Hsuf Hkm Hpp Hcp Hpo Hco Hm Hp Hc Href] i. split; try done.
  - by apply km_ok_set_ref.
  - intros q Hq Hn. rewrite refcnt_set_ref. unfold share. cbn [count]. fold i.
    fold (share k (V2P q / PGSIZE)). destruct (decide (i = V2P q / PGSIZE)) as [E|E].
    + rewrite E, Href, u8_add_l by done. rewrite (proj2 (Z.eqb_eq _ _)) by done. f_equal. lia.
    + rewrite (proj2 (Z.eqb_neq _ _)) by done. rewrite Href by done. f_equal.
Qed.

Lemma wp_copyuvm_body k s1 l1 :
  4096 * Z.of_nat k < sz -> copied k k k s1 l1 ->
  wp (copyuvm_body pgdir d sz (4096 * Z.of_nat k)) (fun r s' => exists l',
    r = inl (4096 * Z.of_nat (S k)) /\ copied (S k) (S k) (S k) s' l' \/
    r = inr 0 /\ l' = [] /\ copied (S k) k k s' []) s1.
Proof.
  intros Hks Hcp. assert (KERNBASE = 2147483648) by done.
  set (e := pte_of (mem s) pgdir (4096 * Z.of_nat k)).
  destruct (Huser (4096 * Z.of_nat k)) as [He Hpa]; [lia|]. fold e in He, Hpa.
  assert (He1 : pte_of (mem s1) pgdir (4096 * Z.of_nat k) = e).
  { rewrite (cp_parent _ _ _ _ _ Hcp), decide_False by lia. done. }
  destruct (pte_of_slot (mem s1) pgdir (4096 * Z.of_nat k)) as (a & Ha & Hae); [by rewrite He1|].
  rewrite He1 in Hae. pose proof (slot_range _ _ _ _ _ (cp_ppt _ _ _ _ _ Hcp) Ha) as (_ & _ & _ & Hnz).
  assert (Her : 0 <= e < 4294967296) by (rewrite Hae; apply ld32_range, (cp_km _ _ _ _ _ Hcp)).
  eapply wp_run; [by apply (run_copyuvm_body s1 pgdir d sz _ a e)|].
  pose proof (copied_parent k s1 l1 a ltac:(lia) Hcp Ha) as Hcp1. rewrite <- Hae in Hcp1.
  apply wp_bind. eapply wp_mono; [by eapply copied_child|]. cbv beta.
  intros r s' (l' & [[-> Hc]|(-> & -> & Hc)]).
  - cbn. apply wp_bind. eapply wp_result; [by apply run_incref|]. apply wp_ret. exists l'.
    left. rewrite u32_id by (unfold_mmu; lia). split; [f_equal; unfold_mmu; lia|]. by apply copied_ref.
  - cbn. apply wp_bind, wp_modify, wp_ret. exists []. right. split_and!; [done..|].
    destruct Hc as [Hsuf Hkm Hpp Hcpp Hpo Hco Hm Hp Hc Href]. split; try done. by apply km_ok_set_cr3.
Qed.

Definition npg : nat := Z.to_nat ((sz + 4095) / 4096).

Lemma wp_copyuvm_loop s1 l1 :
  copied 0 0 0 s1 l1 ->
  wp (iterate (Z.to_nat (sz / PGSIZE + 2)) (copyuvm_body pgdir d sz) 0) (fun r s' => exists l',
    r = d /\ copied npg npg npg s' l' /\ cr3 s' = V2P pgdir \/
    r = 0 /\ l' = [] /\ exists k, (k < npg)%nat /\ copied (S k) k k s' []) s1.
Proof.
  intros Hcp.
  apply (wp_iterate (fun i s' => exists k l', i = 4096 * Z.of_nat k /\
           4096 * Z.of_nat k < sz + 4096 /\ copied k k k s' l')
         (fun i => Z.to_nat ((sz + 4096 - i) / 4096))).
  - intros i s2 (k & l2 & -> & Hlt & Hc).
    destruct (decide (4096 * Z.of_nat k < sz)) as [Hk'|Hk'].
    + eapply wp_mono; [by eapply wp_copyuvm_body|]. cbv beta.
      intros r s3 (l3 & [[-> Hc3]|(-> & -> & Hc3)]).
      * split; [exists (S k), l3; split_and!; [done|lia|done]|]. divlia.
      * exists []. right. split_and!; [done..|]. exists k. split; [|done]. unfold npg. divlia.
    + unfold copyuvm_body. rewrite (proj2 (Z.ltb_ge _ _)) by lia.
      apply wp_bind, wp_modify, wp_ret. exists l2. left.
      assert (npg = k) as -> by (unfold npg; divlia). split_and!; [done| |done].
      destruct Hc as [Hsuf Hkm Hpp Hcpp Hpo Hco Hm Hp Hc Href]. split; try done. by apply km_ok_set_cr3.
  - unfold_mmu. divlia.
  - exists 0%nat, l1. split_and!; [done|lia|done].
Qed.

Lemma wp_copyuvm :
  (64 <= length l)%nat ->
  wp (copyuvm pgdir sz) (fun r s' => exists l',
    r = d /\ copied npg npg npg s' l' /\ cr3 s' = V2P pgdir \/
    r = 0 /\ l' = [] /\ exists k, (k < npg)%nat /\ copied (S k) k k s' []) s.
Proof.
  intros Hl. apply wp_bind. eapply wp_mono; [by apply wp_setupkvm|]. cbv beta.
  intros r s1 (-> & l1 & [(pre & Hsuf & Hd) Hkm Hcp Hco Hm Href _] & Hc).
  destruct (pt_dir _ _ _ Hcp) as [Hdp _].
  rewrite (proj2 (Z.eqb_neq d 0)) by (by apply page_ok_nz).
  eapply wp_copyuvm_loop.
  destruct (pt_frame _ _ _ _ l1 _ Hpt Hm) as (Hpp & Hp & Hpo).
  { intros a Ha. eapply pt_addr_not_free; [done|apply Hk|done]. }
  { intros q Hq. rewrite Hsuf. apply elem_of_app. by right. }
  split; try done.
  - by exists pre.
  - eapply same_but_mono; [done|]. by right.
  - intros va Hva. rewrite decide_False by lia. apply Hp.
  - intros va Hva. rewrite decide_False by lia. by apply Hc.
  - intros q Hq Hn. rewrite Href by done. unfold share. cbn [count]. rewrite Z.add_0_r, u8_id; [done|].
    apply (ok_refs _ _ Hk).
Qed.

End copyuvm.

(** ** Resolving a copy-on-write fault *)

(** The entry of a page that has become the writer's own. *)
Definition cow_own (e : Z) : Z := Z.land (Z.lor e PTE_W) (Z.lnot PTE_COW).

Lemma cow_own_addr e : PTE_ADDR (cow_own e) = PTE_ADDR e.
Proof. unfold cow_own. rewrite PTE_ADDR_clear, PTE_ADDR_lor by (unfold_mmu; lia). done. Qed.

Lemma cow_own_range e : 0 <= e < 4294967296 -> 0 <= cow_own e < 4294967296.
Proof.
  intros. apply (land_range _ _ 32); [lia|]. apply (lor_range _ _ 32); [lia|done|unfold_mmu; lia].
Qed.

Lemma cow_own_flags e :
  flag (cow_own e) PTE_P = flag e PTE_P /\ flag (cow_own e) PTE_U = flag e PTE_U /\
  flag (cow_own e) PTE_W = true /\ flag (cow_own e) PTE_COW = false.
Proof.
  unfold cow_own. bit_simpl. done.
Qed.

Definition cow_private (p e : Z) : Z :=
  Z.lor (Z.lor (V2P p) (Z.lor (PTE_FLAGS (cow_own e)) PTE_W)) PTE_P.

Lemma cow_private_ok p e : page_ok p ->
  PTE_ADDR (cow_private p e) = V2P p /\ 0 <= cow_private p e < 4294967296 /\
  PTE_FLAGS (cow_private p e) = Z.lor (Z.lor (PTE_FLAGS (cow_own e)) PTE_W) PTE_P.
Proof.
  intros Hp. destruct (page_ok_V2P p Hp) as (_ & Hr & Ha).
  assert (Hf : 0 <= Z.lor (PTE_FLAGS (cow_own e)) PTE_W < 4096).
  { apply (lor_range _ _ 12); [lia|apply PTE_FLAGS_range|unfold_mmu; lia]. }
  split; [|split].
  - by apply PTE_ADDR_make.
  - apply PTE_make_range; [|done]. revert Hr. unfold_mmu. lia.
  - by apply PTE_FLAGS_make.
Qed.

Lemma cow_private_flags p e : page_ok p ->
  flag (cow_private p e) PTE_P = true /\ flag (cow_private p e) PTE_U = flag e PTE_U /\
  flag (cow_private p e) PTE_W = true /\ flag (cow_private p e) PTE_COW = false.
Proof.
  intros Hp. destruct (page_ok_V2P p Hp) as (_ & _ & Ha). unfold cow_private, cow_own.
  revert Ha. generalize (V2P p). intros pa Ha. bit_simpl.
  rewrite !(testbit_aligned pa) by (done || lia). cbn [orb]. rewrite ?orb_true_r, ?andb_true_r. done.
Qed.

Section cow_fault.
Context (s : kmst) (pgdir va a e : Z) (Hva : 0 <= va < 4294967296).
Context (Hs : pte_slot (mem s) pgdir va = Some a) (Ha : a <> 0).
Context (He : ld32 (mem s) a = e) (Her : 0 <= e < 4294967296).

(** The sole owner keeps its frame. *)
Lemma run_pgflt_cow_own :
  refcnt s (PTE_ADDR e / PGSIZE) = 1 ->
  pgflt_cow pgdir va a s = Ret true (set_cr3 (V2P pgdir) (set_mem (st32 (mem s) a (cow_own e)) s)).
Proof.
  intros Hc. unfold pgflt_cow, load, store, lcr3. mrun. rewrite He, Hc. cbn. mrun.
  cbn [mem set_mem]. rewrite He, st32_st32, ld32_st32_eq; [done|].
  apply (lor_range _ _ 32); [lia|done|unfold_mmu; lia].
Qed.

(** Otherwise the frame is copied to the new page [p]: the memory after it. *)
Definition cow_copied_mem (m : Zmap Z) (p : Z) : Zmap Z :=
  memmove (st32 (memmove m p (P2V (PTE_ADDR e)) PGSIZE) a (cow_private p e)) p (P2V (PTE_ADDR e)) PGSIZE.

Definition cow_copied (p : Z) : kmst :=
  set_mem (cow_copied_mem (mem s) p) (set_cr3 (V2P pgdir) (after_kalloc s p)).

Context (p : Z) (l : list Z) (Hk : km_ok s (p :: l)) (Hpt : pt_ok (mem s) (p :: l) pgdir).

Lemma slot_pt_addr i : a <= i < a + 4 -> pt_addr (mem s) pgdir i.
Proof.
  intros Hi. right. destruct (slot_range _ _ _ _ _ Hpt Hs) as (Hpr & -> & _ & _).
  exists (PDX va). split; [by apply PDX_range|]. split; [done|].
  eapply (word_in_page _ (PTX va)); [apply PTX_range|done].
Qed.

Lemma slot_not_page i : a <= i < a + 4 -> ~ in_page p i.
Proof.
  intros Hi%slot_pt_addr Hp. eapply (pt_addr_not_free _ _ _ i Hpt); [apply Hk|done|].
  exists p. by split; [left|].
Qed.

Lemma copy_frame :
  let m1 := memmove (mem s) p (P2V (PTE_ADDR e)) PGSIZE in
  mem_ok m1 /\ same_but (in_page p) (mem s) m1 /\ ld32 m1 a = e /\
  pte_slot m1 pgdir va = Some a /\ pt_ok m1 (p :: l) pgdir /\
  (forall va, pte_of m1 pgdir va = pte_of (mem s) pgdir va).
Proof.
  intros m1.
  assert (Hsb : same_but (in_page p) (mem s) m1).
  { apply same_but_memmove; [apply Hk|unfold_mmu; lia|]. intros i Hi. exact Hi. }
  destruct (pt_frame _ _ _ _ (p :: l) _ Hpt Hsb) as (Hpt1 & Hpte & _); [|done|].
  { intros i Hi Hp. eapply (pt_addr_not_free _ _ _ i Hpt); [apply Hk|done|]. exists p. by split; [left|]. }
  split_and!; try done.
  - apply mem_ok_memmove; [unfold_mmu; lia|apply Hk].
  - rewrite <- He. eapply same_but_ld32; [done|]. apply slot_not_page.
  - rewrite <- Hs. eapply pte_of_frame; [done|]. intros i Hi. apply Hsb. intros Hp.
    eapply (pt_addr_not_free _ _ _ i Hpt); [apply Hk|done|]. exists p. by split; [left|].
Qed.

Lemma run_pgflt_cow_copy :
  PTE_ADDR e < PHYSTOP -> 1 < refcnt s (PTE_ADDR e / PGSIZE) -> V2P p / PGSIZE <> PTE_ADDR e / PGSIZE ->
  pgflt_cow pgdir va a s =
    Ret true (set_ref (PTE_ADDR e / PGSIZE) (refcnt s (PTE_ADDR e / PGSIZE) - 1) (cow_copied p)).
Proof.
  intros Hpa Hc Hne. destruct copy_frame as (Hm1 & _ & Hl1 & Hs1 & Hpt1 & _).
  assert (Hpp : page_ok p) by (eapply Forall_inv, Hk).
  unfold pgflt_cow, load, store, lcr3. mrun. rewrite He.
  rewrite (proj2 (Z.eqb_neq _ 1)) by lia.
  rewrite (bind_ret_run _ _ _ _ _ (kalloc_cons s p l Hk)).
  rewrite (proj2 (Z.eqb_neq p 0)) by (by apply page_ok_nz). mrun.
  change (mem (after_kalloc s p)) with (mem s). cbn [mem set_mem set_cr3].
  set (m1 := memmove (mem s) p _ _) in *. pose proof (cow_own_range e Her) as Hor.
  assert (Hlr : 0 <= Z.lor e PTE_W < 4294967296).
  { apply (lor_range _ _ 32); [lia|done|unfold_mmu; lia]. }
  rewrite Hl1, !st32_st32, (ld32_st32_eq _ _ (Z.lor e PTE_W)) by done. fold (cow_own e).
  rewrite (ld32_st32_eq _ _ (cow_own e)), cow_own_addr by done.
  assert (Hd : 0 <= PGROUNDDOWN va <= 4294967296 - 4096 /\ PGROUNDDOWN va mod 4096 = 0 /\
                PGROUNDDOWN va / 4096 = va / 4096).
  { rewrite PGROUNDDOWN_eq. divlia. }
  assert (Hs2 : pte_slot (st32 m1 a 0) pgdir (PGROUNDDOWN va) = Some a).
  { rewrite <- Hs1, (proj1 (pte_of_store m1 _ _ va a 0 (PGROUNDDOWN va) Hpt1 Hs1 ltac:(lia) Hva ltac:(lia))).
    unfold pte_slot. destruct (proj2 (same_idx (PGROUNDDOWN va) va ltac:(lia) Hva)) as [-> ->]; [lia|done]. }
  erewrite bind_ret_run; [|apply (run_mappages_one _ _ (PGROUNDDOWN va) a); cbn [mem set_mem set_cr3]; try done; try lia; by rewrite ld32_st32_eq].
  cbn. mrun. cbn [mem set_mem set_cr3]. rewrite !st32_st32. fold (cow_private p e).
  assert (Hcnt : refcnt (cow_copied p) (PTE_ADDR e / PGSIZE) = refcnt s (PTE_ADDR e / PGSIZE)).
  { unfold cow_copied, after_kalloc.
    transitivity (refcnt (set_ref (V2P p / PGSIZE) 1 s) (PTE_ADDR e / PGSIZE)); [done|].
    by rewrite refcnt_set_ref, decide_False. }
  match goal with |- mbind _ (decref _) ?x = _ => change x with (cow_copied p) end.
  erewrite bind_ret_run; [|apply run_decref_shared; [done|]]; rewrite Hcnt; [done|].
  split; [done|]. apply (ok_refs _ _ Hk).
Qed.

(** What the copy leaves: the writer has a private frame with the old contents,
    and nothing else has changed. *)
Lemma cow_copied_spec :
  let f := P2V (PTE_ADDR e) in
  let s' := cow_copied p in
  (forall i, in_page f i -> ~ pt_addr (mem s) pgdir i /\ ~ in_page p i) ->
  km_ok s' l /\ pt_ok (mem s') l pgdir /\
  (forall va', 0 <= va' < 4294967296 -> pte_of (mem s') pgdir va' =
     if decide (va' / 4096 = va / 4096) then cow_private p e else pte_of (mem s) pgdir va') /\
  same_but (fun i => in_page p i \/ a <= i < a + 4) (mem s) (mem s') /\
  (forall i, 0 <= i < 4096 -> ld8 (mem s') (p + i) = ld8 (mem s) (f + i)).
Proof.
  intros f s' Hf. destruct copy_frame as (Hm1 & Hsb1 & Hl1 & Hs1 & Hpt1 & Hpte1).
  cbn [mem set_mem s' cow_copied]. unfold cow_copied_mem. fold f in Hm1, Hsb1, Hs1, Hpt1, Hpte1 |- *.
  set (m1 := memmove (mem s) p f PGSIZE) in *. set (m2 := st32 m1 a (cow_private p e)).
  assert (Hpp : page_ok p) by (eapply Forall_inv, Hk).
  destruct (cow_private_ok p e Hpp) as (_ & Hvr & _).
  assert (Hm2 : mem_ok m2) by (by apply mem_ok_st32).
  assert (Hsb2 : same_but (fun i => a <= i < a + 4) m1 m2) by (apply same_but_st32; done).
  assert (Hsb3 : same_but (in_page p) m2 (memmove m2 p f PGSIZE)).
  { apply same_but_memmove; [done|unfold_mmu; lia|]. intros i Hi. exact Hi. }
  assert (Hpt2 : pt_ok m2 (p :: l) pgdir) by (by eapply pt_ok_store).
  assert (Hfree : forall i, pt_addr m2 pgdir i -> ~ in_page p i).
  { intros i Hi Hp. eapply (pt_addr_not_free _ _ _ i Hpt2); [apply Hk|done|]. exists p. by split; [left|]. }
  destruct (pt_frame _ _ _ _ l _ Hpt2 Hsb3 Hfree) as (Hpt3 & Hpte3 & _); [by right|].
  assert (Hsb : same_but (fun i => in_page p i \/ a <= i < a + 4) (mem s) (memmove m2 p f PGSIZE)).
  { eapply same_but_trans; [eapply same_but_mono; [exact Hsb1|by left]|].
    eapply same_but_trans; [eapply same_but_mono; [exact Hsb2|by right]|].
    eapply same_but_mono; [exact Hsb3|by left]. }
  split; [|split; [done|split; [|split; [done|]]]].
  - eapply km_ok_set_mem; [by apply km_ok_set_cr3, km_ok_after_kalloc| |exact Hsb|].
    { apply mem_ok_memmove; [unfold_mmu; lia|done]. }
    intros q i Hq Hi [Hi'|Hi'].
    + pose proof (ok_pages _ _ Hk) as Hpg. pose proof (ok_nodup _ _ Hk) as [Hnin _]%NoDup_cons.
      eapply (in_page_disjoint p q i); [apply Hpp| |by intros ->|done|done].
      eapply Forall_forall in Hpg; [apply Hpg|by right].
    + eapply (pt_addr_not_free _ _ _ i Hpt); [apply Hk|by apply slot_pt_addr|].
      exists q. by split; [right|].
  - intros va' Hva'. rewrite Hpte3. unfold m2.
    rewrite (proj2 (pte_of_store _ _ _ _ _ _ va' Hpt1 Hs1 Hvr Hva Hva')), Hpte1. done.
  - intros i Hi. rewrite ld8_memmove by (done || unfold_mmu; lia).
    assert (Hif : in_page f (f + i)) by (unfold in_page; lia).
    rewrite decide_True by (unfold_mmu; lia). replace (f + (p + i - p)) with (f + i) by lia.
    rewrite Hsb2; [apply Hsb1; apply (Hf _ Hif)|].
    intros Ha'%slot_pt_addr. by destruct (Hf _ Hif).
Qed.

End cow_fault.

(** ** The processor's view

    A user access goes through the page table: the byte a user program sees at
    [va], and a one-byte user store, which needs a present, writable user page
    and faults otherwise. *)
Definition user_page (m : Zmap Z) (pgdir va : Z) : bool :=
  flag (pte_of m pgdir va) PTE_P && flag (pte_of m pgdir va) PTE_U.
Definition user_byte (m : Zmap Z) (pgdir va : Z) : option Z :=
  if user_page m pgdir va then Some (ld8 m (frame m pgdir va + va mod 4096)) else None.
Definition user_store (pgdir va b : Z) : M kmst unit :=
  s ← get;
  if user_page (mem s) pgdir va && flag (pte_of (mem s) pgdir va) PTE_W
  then modify (fun s => set_mem (st8 (mem s) (frame (mem s) pgdir va + va mod 4096) b) s)
  else undef "page fault".

(** A user store that faults on a write-protected page: the handler's lookup and its
    test of the copy-on-write flag, its copy-on-write branch, and the restarted
    store.  [NotCow]: the handler goes on to look for a mapping, and kills the
    process if there is none. *)
Inductive cow_result : Type := Written | NoMemory | NotCow.

Definition cow_write (pgdir va b : Z) : M kmst cow_result :=
  pte ← walkpgdir pgdir va false;
  e ← (if pte =? 0 then mret 0 else load pte);
  if (pte =? 0) || negb (flag e PTE_P) then mret NotCow
  else if flag e PTE_COW then
    ok ← pgflt_cow pgdir va pte;
    if (ok : bool) then user_store pgdir va b;; mret Written else mret NoMemory
  else mret NotCow.

(** The frames of the user pages of [pgdir] are allocated pages that hold no page
    table of [pts]. *)
Definition user_frames (m : Zmap Z) (l pts : list Z) (pgdir : Z) : Prop :=
  forall va, 0 <= va < 4294967296 -> user_page m pgdir va = true ->
    page_ok (frame m pgdir va) /\ (frame m pgdir va ∉ l) /\
    forall pt i, pt ∈ pts -> in_page (frame m pgdir va) i -> ~ pt_addr m pt i.

(** Storing into a frame that holds no page table changes the bytes seen through
    that frame only. *)
Lemma user_byte_st8 m l pgdir x b va :
  pt_ok m l pgdir -> ~ pt_addr m pgdir x ->
  user_byte (st8 m x b) pgdir va =
    if user_page m pgdir va then
      Some (if decide (frame m pgdir va + va mod 4096 = x) then u8 b
            else ld8 m (frame m pgdir va + va mod 4096))
    else None.
Proof.
  intros Hpt Hx.
  assert (Hs : same_but (fun i => i = x) m (st8 m x b)) by (intros i Hi; by rewrite ld8_st8_ne).
  destruct (pt_frame _ _ _ _ l _ Hpt Hs) as (_ & He & _); [by intros i Hi ->|done|].
  unfold user_byte, user_page, frame. rewrite !He. destruct (_ && _); [|done].
  f_equal. rewrite ld8_st8. repeat case_decide; congruence.
Qed.

Lemma phys_of_frame m pgdir va : mem_ok m -> user_page m pgdir va = true ->
  PTE_ADDR (pte_of m pgdir va) = V2P (frame m pgdir va).
Proof.
  intros Hm [Hu _]%andb_prop. destruct (pte_of_slot _ _ _ Hu) as (x & _ & Hx).
  unfold frame. rewrite V2P_P2V; [done|]. rewrite Hx. apply PTE_ADDR_range, ld32_range, Hm.
Qed.

Lemma user_page_page m pgdir va va' :
  0 <= va < 4294967296 -> 0 <= va' < 4294967296 -> va / 4096 = va' / 4096 ->
  user_page m pgdir va = user_page m pgdir va' /\ frame m pgdir va = frame m pgdir va'.
Proof. intros. unfold user_page, frame. by rewrite (pte_of_page m pgdir va va'). Qed.

(** *** Writing to a copy-on-write page *)
Section isolation.
Context (s : kmst) (A B va : Z) (Hva : 0 <= va < 4294967296).

(** The fault at [va] in [A] has been resolved with the entry [e1]: seen through
    [A] and [B] nothing has changed, except that the page of [va] is writable and
    shares its frame with no other page. *)
Record cow_resolved (s1 : kmst) (e1 : Z) : Prop := {
  cr_flags : flag e1 PTE_P = true /\ flag e1 PTE_U = true /\ flag e1 PTE_W = true;
  cr_pt X : X ∈ [A; B] -> exists l1, pt_ok (mem s1) l1 X;
  cr_own X i : X ∈ [A; B] -> in_page (P2V (PTE_ADDR e1)) i -> ~ pt_addr (mem s1) X i;
  cr_A va' : 0 <= va' < 4294967296 -> pte_of (mem s1) A va' =
    if decide (va' / 4096 = va / 4096) then e1 else pte_of (mem s) A va';
  cr_B va' : 0 <= va' < 4294967296 -> pte_of (mem s1) B va' = pte_of (mem s) B va';
  cr_new i : 0 <= i < 4096 -> ld8 (mem s1) (P2V (PTE_ADDR e1) + i) = ld8 (mem s) (frame (mem s) A va + i);
  cr_same X va' i : X ∈ [A; B] -> 0 <= va' < 4294967296 -> user_page (mem s) X va' = true ->
    0 <= i < 4096 -> ld8 (mem s1) (frame (mem s) X va' + i) = ld8 (mem s) (frame (mem s) X va' + i);
  cr_sep X va' i : X ∈ [A; B] -> 0 <= va' < 4294967296 -> user_page (mem s) X va' = true ->
    X = B \/ va' / 4096 <> va / 4096 -> in_page (frame (mem s) X va') i ->
    ~ in_page (P2V (PTE_ADDR e1)) i }.

Lemma cow_resolved_write s1 e1 b :
  user_page (mem s) A va = true -> 0 <= b < 256 -> A <> B -> cow_resolved s1 e1 ->
  wp (user_store A va b) (fun _ s' =>
    user_byte (mem s') A va = Some b /\
    (forall va', 0 <= va' < 4294967296 -> va' <> va ->
       user_byte (mem s') A va' = user_byte (mem s) A va') /\
    (forall va', 0 <= va' < 4294967296 -> user_byte (mem s') B va' = user_byte (mem s) B va')) s1.
Proof.
  intros Hup Hb HAB [(HP & HU & HW) Hpt Hown HA HB Hnew Hsame Hsep].
  assert (HeA : pte_of (mem s1) A va = e1) by (by rewrite HA, decide_True).
  assert (Hm : 0 <= va mod 4096 < 4096) by (apply Z.mod_pos_bound; lia).
  assert (HfA : frame (mem s1) A va = P2V (PTE_ADDR e1)) by (unfold frame; by rewrite HeA).
  assert (HuA : user_page (mem s1) A va = true) by (unfold user_page; by rewrite HeA, HP, HU).
  set (x := P2V (PTE_ADDR e1) + va mod 4096).
  assert (Hx : in_page (P2V (PTE_ADDR e1)) x) by (unfold in_page, x; lia).
  unfold user_store. wp_step. wp_step. rewrite HuA, HeA, HW. cbn [andb].
  apply wp_modify. rewrite HfA. fold x. cbn [mem set_mem].
  destruct (Hpt A) as [lA HptA]; [by left|]. destruct (Hpt B) as [lB HptB]; [by right; left|].
  pose proof (fun va' => user_byte_st8 _ _ _ x b va' HptA (Hown A x ltac:(by left) Hx)) as HbA.
  pose proof (fun va' => user_byte_st8 _ _ _ x b va' HptB (Hown B x ltac:(by right; left) Hx)) as HbB.
  assert (Hother : forall X va', X ∈ [A; B] -> 0 <= va' < 4294967296 ->
    pte_of (mem s1) X va' = pte_of (mem s) X va' -> X = B \/ va' / 4096 <> va / 4096 ->
    (if user_page (mem s1) X va' then
       Some (if decide (frame (mem s1) X va' + va' mod 4096 = x) then u8 b
             else ld8 (mem s1) (frame (mem s1) X va' + va' mod 4096))
     else None) = user_byte (mem s) X va').
  { intros X va' HX Hr' He Hd. unfold user_byte.
    assert (user_page (mem s1) X va' = user_page (mem s) X va') as -> by (unfold user_page; by rewrite He).
    assert (frame (mem s1) X va' = frame (mem s) X va') as -> by (unfold frame; by rewrite He).
    destruct (user_page (mem s) X va') eqn:Hu; [|done].
    assert (Hm' : 0 <= va' mod 4096 < 4096) by (apply Z.mod_pos_bound; lia).
    rewrite decide_False; [by rewrite Hsame|]. intros Hx'. eapply (Hsep X va' x); try done.
    unfold in_page. lia. }
  split; [|split].
  - rewrite HbA, HuA, HfA, decide_True by done. by rewrite u8_id.
  - intros va' Hr' Hne. rewrite HbA.
    destruct (decide (va' / 4096 = va / 4096)) as [E|E].
    + destruct (user_page_page (mem s1) A va' va Hr' Hva E) as [Eu Ef].
      destruct (user_page_page (mem s) A va' va Hr' Hva E) as [Eu' Ef'].
      unfold user_byte. rewrite Eu, Ef, Eu', Ef', Hup, HuA, HfA. f_equal.
      assert (va' mod 4096 <> va mod 4096) by divlia. rewrite decide_False by lia.
      apply Hnew, Z.mod_pos_bound. lia.
    + apply Hother; [by left|done| |by right]. by rewrite HA, decide_False.
  - intros va' Hr'. rewrite HbB. apply Hother; [by right; left|done| |by left]. by apply HB.
Qed.

Context (L : list Z) (HptA : pt_ok (mem s) L A) (HptB : pt_ok (mem s) L B) (Hpg : Forall page_ok L).
Context (Hdisj : forall i, pt_addr (mem s) A i -> ~ pt_addr (mem s) B i).
Context (HuA : user_frames (mem s) L [A; B] A) (HuB : user_frames (mem s) L [A; B] B).
Context (a e : Z) (Hs : pte_slot (mem s) A va = Some a) (He : ld32 (mem s) a = e).
Context (Hm : mem_ok (mem s)) (HP : flag e PTE_P = true) (HU : flag e PTE_U = true).

Lemma user_frames_in X va' : X ∈ [A; B] -> 0 <= va' < 4294967296 -> user_page (mem s) X va' = true ->
  page_ok (frame (mem s) X va') /\ (frame (mem s) X va' ∉ L) /\
  forall i, in_page (frame (mem s) X va') i -> ~ pt_addr (mem s) A i /\ ~ pt_addr (mem s) B i.
Proof.
  intros HX Hr Hu.
  assert (user_frames (mem s) L [A; B] X) as Huf.
  { rewrite !elem_of_cons, elem_of_nil in HX. naive_solver. }
  destruct (Huf va' Hr Hu) as (H1 & H2 & H3). split_and!; try done. intros i Hi.
  split; eapply H3; try done; set_solver.
Qed.

Lemma entry_of_va : pte_of (mem s) A va = e /\ user_page (mem s) A va = true /\
  frame (mem s) A va = P2V (PTE_ADDR e) /\ 0 <= e < 4294967296.
Proof.
  assert (Hpe : pte_of (mem s) A va = e) by (unfold pte_of; by rewrite Hs, He).
  unfold user_page, frame. rewrite Hpe, HP, HU. split_and!; try done; subst e; apply ld32_range, Hm.
Qed.

(** Case 1: the writer is the only user of the frame. *)
Lemma cow_resolved_own :
  (forall X va', X ∈ [A; B] -> 0 <= va' < 4294967296 -> user_page (mem s) X va' = true ->
     X = B \/ va' / 4096 <> va / 4096 -> frame (mem s) X va' <> frame (mem s) A va) ->
  cow_resolved (set_cr3 (V2P A) (set_mem (st32 (mem s) a (cow_own e)) s)) (cow_own e).
Proof.
  intros Hsole. destruct entry_of_va as (Hpe & Hup & Hfr & Her).
  pose proof (cow_own_flags e) as (HfP & HfU & HfW & _).
  pose proof (cow_own_range e Her) as Hor.
  pose proof (same_but_slot _ _ _ _ _ (cow_own e) HptA Hs) as Hsb.
  destruct (pt_frame _ _ _ _ L _ HptB Hsb) as (HptB' & HB' & HoB); [|done|].
  { intros i Hi Hi'. by apply (Hdisj i). }
  assert (HoA : forall i, pt_addr (st32 (mem s) a (cow_own e)) A i <-> pt_addr (mem s) A i).
  { intros i. apply pt_addr_dir_ext. by eapply slot_word_dir_disjoint. }
  destruct (user_frames_in A va ltac:(by left) Hva Hup) as (Hfp & _ & Hft).
  split; cbn [mem set_mem set_cr3]; rewrite ?cow_own_addr, <- ?Hfr.
  - by rewrite HfP, HfU, HfW.
  - intros X HX. exists L. rewrite !elem_of_cons, elem_of_nil in HX.
    destruct HX as [->|[->|[]]]; [by eapply pt_ok_store|done].
  - intros X i HX Hi. destruct (Hft i Hi). rewrite !elem_of_cons, elem_of_nil in HX.
    destruct HX as [->|[->|[]]]; [by rewrite HoA|by rewrite HoB].
  - intros va' Hr. by rewrite (proj2 (pte_of_store _ _ _ _ _ _ va' HptA Hs Hor Hva Hr)).
  - intros va' Hr. apply HB'.
  - intros i Hi. apply Hsb. apply (Hft (frame (mem s) A va + i)). unfold in_page. lia.
  - intros X va' i HX Hr Hu Hi. apply Hsb.
    destruct (user_frames_in X va' HX Hr Hu) as (_ & _ & H'). eapply H'. unfold in_page. lia.
  - intros X va' i HX Hr Hu Hd Hi. destruct (user_frames_in X va' HX Hr Hu) as (H1 & _ & _).
    eapply in_page_disjoint; [apply H1|apply Hfp| |done]. by apply Hsole.
Qed.

(** Case 2: the frame is shared and copied to the free page [p]. *)
Lemma cow_resolved_copy p l c :
  L = p :: l -> km_ok s (p :: l) ->
  cow_resolved (set_ref (PTE_ADDR e / PGSIZE) c (cow_copied s A a e p)) (cow_private p e).
Proof.
  intros HL Hk. destruct entry_of_va as (Hpe & Hup & Hfr & Her).
  assert (Hpp : page_ok p) by (eapply Forall_inv, Hk).
  assert (HptA' : pt_ok (mem s) (p :: l) A) by (by rewrite <- HL).
  destruct (user_frames_in A va ltac:(by left) Hva Hup) as (_ & _ & Hft).
  assert (Hsepp : forall X va' i, X ∈ [A; B] -> 0 <= va' < 4294967296 -> user_page (mem s) X va' = true ->
    in_page (frame (mem s) X va') i -> ~ in_page p i).
  { intros X va' i HX Hr Hu Hi. destruct (user_frames_in X va' HX Hr Hu) as (H1 & H2 & _).
    eapply in_page_disjoint; [apply H1|apply Hpp| |done]. rewrite HL in H2. set_solver. }
  destruct (slot_range _ _ _ _ _ HptA Hs) as (_ & _ & _ & Hnz).
  destruct (cow_copied_spec s A va a e Hva Hs Hnz He p l Hk HptA') as (_ & Hpt1 & Hpte & Hsb & Hcp).
  { rewrite <- Hfr. intros i Hi. split; [by apply Hft|]. by eapply (Hsepp A va); [left|..]. }
  assert (Hslot : forall i, a <= i < a + 4 -> pt_addr (mem s) A i).
  { intros i Hi. by eapply slot_pt_addr. }
  assert (Hpt_free : forall X i, X ∈ [A; B] -> in_page p i -> ~ pt_addr (mem s) X i).
  { intros X i HX Hi Hp. eapply (pt_addr_not_free (mem s) L X i); [|apply Hpg|done|exists p; rewrite HL; by split; [left|]].
    rewrite !elem_of_cons, elem_of_nil in HX. by destruct HX as [->|[->|[]]]. }
  destruct (pt_frame _ _ _ _ l _ HptB Hsb) as (HptB' & HB' & HoB).
  { intros i Hi [Hi'|Hi']; [by eapply (Hpt_free B); [right; left|..]|]. eapply Hdisj; [by apply Hslot|done]. }
  { intros q Hq. rewrite HL. by right. }
  assert (HoA : forall i, pt_addr (mem (cow_copied s A a e p)) A i -> pt_addr (mem s) A i).
  { intros i. apply pt_addr_dir_ext. intros j Hj. symmetry. apply Hsb.
    intros [Hj'|Hj']; [eapply (Hpt_free A j); [by left|done|by left]|].
    by eapply (slot_not_dir (mem s) _ A va a j). }
  destruct (cow_private_ok p e Hpp) as (Hca & _ & _).
  destruct (cow_private_flags p e Hpp) as (HfP & HfU & HfW & _).
  split; change (mem (set_ref (PTE_ADDR e / PGSIZE) c (cow_copied s A a e p))) with (mem (cow_copied s A a e p));
    rewrite ?Hca, ?page_ok_P2V by done.
  - by rewrite HfP, HfU, HfW.
  - intros X HX. exists l. rewrite !elem_of_cons, elem_of_nil in HX. by destruct HX as [->|[->|[]]].
  - intros X i HX Hi. specialize (Hpt_free X i HX Hi). rewrite !elem_of_cons, elem_of_nil in HX.
    destruct HX as [->|[->|[]]]; [by intros ?%HoA|by rewrite HoB].
  - done.
  - intros va' Hr. apply HB'.
  - rewrite Hfr. done.
  - intros X va' i HX Hr Hu Hi. apply Hsb.
    assert (Hif : in_page (frame (mem s) X va') (frame (mem s) X va' + i)) by (unfold in_page; lia).
    intros [Hi'|Hi'%Hslot]; [by eapply Hsepp|].
    destruct (user_frames_in X va' HX Hr Hu) as (_ & _ & H'). by apply (proj1 (H' _ Hif)).
  - intros X va' i HX Hr Hu _ Hi. by eapply Hsepp.
Qed.

Context (b : Z) (Hb : 0 <= b < 256) (HAB : A <> B) (Hcow : flag e PTE_COW = true).
Context (Hk : km_ok s L) (Hcnt : 1 <= refcnt s (PTE_ADDR e / PGSIZE)).
Context (Hsole : refcnt s (PTE_ADDR e / PGSIZE) = 1 ->
  forall X va', X ∈ [A; B] -> 0 <= va' < 4294967296 -> user_page (mem s) X va' = true ->
     X = B \/ va' / 4096 <> va / 4096 -> frame (mem s) X va' <> frame (mem s) A va).

Lemma frame_phys X va' : X ∈ [A; B] -> 0 <= va' < 4294967296 -> user_page (mem s) X va' = true ->
  PTE_ADDR (pte_of (mem s) X va') = V2P (frame (mem s) X va') /\
  PTE_ADDR (pte_of (mem s) X va') < PHYSTOP.
Proof.
  intros HX Hr Hu. destruct (user_frames_in X va' HX Hr Hu) as (Hf & _ & _).
  rewrite phys_of_frame by done. split; [done|]. by apply page_ok_V2P in Hf as (_ & [_ ?] & _).
Qed.

Lemma wp_cow_write :
  wp (cow_write A va b) (fun ok s' =>
    ok = NoMemory /\ L = [] /\ s' = set_ref 0x80000 1 s \/
    ok = Written /\ user_byte (mem s') A va = Some b /\
    (forall va', 0 <= va' < 4294967296 -> va' <> va ->
       user_byte (mem s') A va' = user_byte (mem s) A va') /\
    (forall va', 0 <= va' < 4294967296 -> user_byte (mem s') B va' = user_byte (mem s) B va')) s.
Proof.
  destruct entry_of_va as (Hpe & Hup & Hfr & Her).
  destruct (slot_range _ _ _ _ _ HptA Hs) as (_ & _ & _ & Hnz).
  destruct (frame_phys A va ltac:(by left) Hva Hup) as [Hph Hst]. rewrite Hpe in Hph, Hst.
  apply wp_bind. eapply wp_result; [by apply run_walk_present|].
  rewrite (proj2 (Z.eqb_neq a 0)) by done. apply wp_bind. eapply (wp_result _ _ _ e s); [unfold load, gets; by rewrite He|]. rewrite HP, Hcow. cbn [negb orb].
  assert (Hfin : forall s1 e1, pgflt_cow A va a s = Ret true s1 -> cow_resolved s1 e1 ->
    wp (ok ← pgflt_cow A va a; if (ok : bool) then user_store A va b;; mret Written else mret NoMemory)
      (fun ok s' => ok = NoMemory /\ L = [] /\ s' = set_ref 0x80000 1 s \/
        ok = Written /\ user_byte (mem s') A va = Some b /\
        (forall va', 0 <= va' < 4294967296 -> va' <> va ->
           user_byte (mem s') A va' = user_byte (mem s) A va') /\
        (forall va', 0 <= va' < 4294967296 -> user_byte (mem s') B va' = user_byte (mem s) B va')) s).
  { intros s1 e1 Hrun Hres. apply wp_bind. eapply wp_result; [exact Hrun|]. cbn beta iota.
    apply wp_bind. eapply wp_mono; [by eapply cow_resolved_write|].
    intros u s2 HQ. apply wp_ret. right. by split. }
  destruct (decide (refcnt s (PTE_ADDR e / PGSIZE) = 1)) as [E|E].
  - eapply Hfin; [by apply run_pgflt_cow_own|]. apply cow_resolved_own. by apply Hsole.
  - assert (L = [] \/ exists p l, L = p :: l) as [HL|(p & l & HL)] by (destruct L; eauto).
    + assert (Hrun : pgflt_cow A va a s = Ret false (set_ref 0x80000 1 s)).
      { pose proof Hk as Hk'. rewrite HL in Hk'. unfold pgflt_cow, load. mrun.
        rewrite He, (proj2 (Z.eqb_neq _ 1)) by done.
        by rewrite (bind_ret_run _ _ _ _ _ (kalloc_nil s Hk')). }
      apply wp_bind. eapply wp_result; [exact Hrun|]. apply wp_ret. by left.
    + pose proof Hk as Hk'. pose proof HptA as HptA'. rewrite HL in Hk', HptA'.
      destruct (user_frames_in A va ltac:(by left) Hva Hup) as (Hfp & Hn & _).
      eapply Hfin; [|by apply (cow_resolved_copy p l)].
      apply (run_pgflt_cow_copy s A va a e Hva Hs Hnz He Her p l); try done; [lia|].
      rewrite Hph. intros Heq%page_index_inj; [|eapply Forall_inv, Hk'|done].
      rewrite <- Heq, HL in Hn. set_solver.
Qed.

End isolation.

(** *** fork: both processes see the parent's memory *)
Section fork.
Context (s : kmst) (d : Z) (l : list Z) (pgdir : Z).
Context (Hk : km_ok s (d :: l)) (Hpt : pt_ok (mem s) (d :: l) pgdir).
Context (Huf : user_frames (mem s) (d :: l) [pgdir] pgdir).
Context (s' : kmst) (l' : list Z) (n : nat).
Context (Huser : forall va, 0 <= va < 4096 * Z.of_nat n -> flag (pte_of (mem s) pgdir va) PTE_P = true).
Context (Hcp : copied s d l pgdir n n n s' l').

Lemma kern_pte_not_user va : flag (kern_pte va) PTE_U = false.
Proof.
  unfold kern_pte. assert (Ha : (PGROUNDDOWN va - KERNBASE) mod 4096 = 0 /\ PGROUNDDOWN va mod 4096 = 0).
  { rewrite PGROUNDDOWN_eq. unfold_mmu. divlia. }
  destruct Ha as [H1 H2]. revert H1 H2. generalize (PGROUNDDOWN va - KERNBASE), (PGROUNDDOWN va).
  intros x y Hx Hy. repeat case_decide; bit_simpl; try done; by apply testbit_aligned.
Qed.

Lemma copied_pages va : 0 <= va < 4294967296 ->
  user_page (mem s') pgdir va = user_page (mem s) pgdir va /\
  frame (mem s') pgdir va = frame (mem s) pgdir va /\
  user_page (mem s') d va = (va <? 4096 * Z.of_nat n) && user_page (mem s) pgdir va /\
  (va < 4096 * Z.of_nat n -> frame (mem s') d va = frame (mem s) pgdir va).
Proof.
  intros Hva. unfold user_page, frame.
  rewrite (cp_parent _ _ _ _ _ _ _ _ _ Hcp va Hva), (cp_child _ _ _ _ _ _ _ _ _ Hcp va Hva).
  destruct (decide (va < 4096 * Z.of_nat n)) as [E|E].
  - rewrite (proj2 (Z.ltb_lt _ _)) by done. rewrite cow_parent_addr, cow_child_addr.
    destruct (cow_parent_flags (pte_of (mem s) pgdir va)) as (-> & -> & _).
    destruct (cow_child_flags (pte_of (mem s) pgdir va)) as (-> & -> & _).
    by rewrite Huser by lia.
  - rewrite (proj2 (Z.ltb_ge _ _)) by lia. rewrite kern_pte_not_user, andb_false_r.
    by split_and!.
Qed.

(** The frames of the parent's user pages are neither page tables nor taken. *)
Lemma parent_frame va i : 0 <= va < 4294967296 -> user_page (mem s) pgdir va = true ->
  in_page (frame (mem s) pgdir va) i -> ~ pt_addr (mem s) pgdir i /\ ~ in_pages (d :: l) i.
Proof.
  intros Hva Hu Hi. destruct (Huf va Hva Hu) as (H1 & H2 & H3). split; [by eapply H3; [left|]|].
  intros (q & Hq & Hqi). pose proof (ok_pages _ _ Hk) as Hpg. eapply Forall_forall in Hpg; [|exact Hq].
  eapply (in_page_disjoint _ q i); [apply H1|apply Hpg|by intros <-|done|done].
Qed.

Lemma copied_byte va x : 0 <= va < 4294967296 -> user_page (mem s) pgdir va = true ->
  in_page (frame (mem s) pgdir va) x -> ld8 (mem s') x = ld8 (mem s) x.
Proof.
  intros Hva Hu Hx. apply (cp_mem _ _ _ _ _ _ _ _ _ Hcp).
  destruct (parent_frame va x Hva Hu Hx). tauto.
Qed.

Lemma copied_user_byte va : 0 <= va < 4294967296 ->
  user_byte (mem s') pgdir va = user_byte (mem s) pgdir va /\
  user_byte (mem s') d va = if va <? 4096 * Z.of_nat n then user_byte (mem s) pgdir va else None.
Proof.
  intros Hva. destruct (copied_pages va Hva) as (H1 & H2 & H3 & H4). unfold user_byte.
  assert (Hm : 0 <= va mod 4096 < 4096) by (apply Z.mod_pos_bound; lia).
  rewrite H1, H2, H3. destruct (user_page (mem s) pgdir va) eqn:Hu.
  - rewrite (copied_byte va) by (done || (unfold in_page; lia)). split; [done|].
    destruct (Z.ltb_spec va (4096 * Z.of_nat n)); cbn [andb]; [|done].
    rewrite H4, (copied_byte va) by (done || (unfold in_page; lia)). done.
  - split; [done|]. rewrite andb_false_r. by destruct (va <? _).
Qed.



End fork.

End cow.

(** ** Properties *)

(** A process image that can be forked: page table, frames and free list of [s]
    are well formed, the pages below [sz] are present, and at least 65 pages are
    free (the kernel part of an address space needs a directory and 64 page
    tables). *)
Record forkable {KI : KernelImage} (s : kmst) (d : Z) (l : list Z) (pgdir sz : Z) : Prop := {
  fk_km : km_ok s (d :: l);
  fk_room : (64 <= length l)%nat;
  fk_pt : pt_ok (mem s) (d :: l) pgdir;
  fk_frames : user_frames (mem s) (d :: l) [pgdir] pgdir;
  fk_size : 0 <= sz <= KERNBASE;
  fk_user va : 0 <= va < sz ->
    flag (pte_of (mem s) pgdir va) PTE_P = true /\ PTE_ADDR (pte_of (mem s) pgdir va) < PHYSTOP }.

Section fork_lemmas.
Context {KI : KernelImage} (s : kmst) (d : Z) (l : list Z) (pgdir sz : Z).
Context (Hfk : forkable s d l pgdir sz).

Lemma npg_eq : 4096 * Z.of_nat (npg sz) = PGROUNDUP sz /\ 0 <= PGROUNDUP sz < 4294967296 /\ sz <= PGROUNDUP sz.
Proof.
  pose proof (fk_size _ _ _ _ _ Hfk) as Hsz. unfold npg.
  rewrite PGROUNDUP_eq by (revert Hsz; unfold_mmu; lia). revert Hsz. unfold_mmu. divlia.
Qed.

Lemma present_below va : 0 <= va < PGROUNDUP sz -> flag (pte_of (mem s) pgdir va) PTE_P = true.
Proof.
  intros Hva. destruct npg_eq as (H1 & H2 & H3).
  rewrite (pte_of_page (mem s) pgdir va (PGROUNDDOWN va)).
  - apply (fk_user _ _ _ _ _ Hfk). rewrite PGROUNDDOWN_eq. unfold npg in H1. divlia.
  - lia.
  - rewrite PGROUNDDOWN_eq. divlia.
  - rewrite PGROUNDDOWN_eq. divlia.
Qed.

(** What the parent ([false]) and the child ([true]) see after fork. *)
Definition fork_view (child : bool) (va : Z) : option Z :=
  if child then if va <? PGROUNDUP sz then user_byte (mem s) pgdir va else None
  else user_byte (mem s) pgdir va.

Lemma copied_view s' l' : copied s d l pgdir (npg sz) (npg sz) (npg sz) s' l' ->
  forall (child : bool) va, 0 <= va < 4294967296 ->
    user_byte (mem s') (if child then d else pgdir) va = fork_view child va.
Proof.
  intros Hcp child va Hva. destruct npg_eq as (H1 & H2 & H3).
  destruct (copied_user_byte s d l pgdir (fk_km _ _ _ _ _ Hfk) (fk_frames _ _ _ _ _ Hfk) s' l' (npg sz))
    with (va := va) as [HA HB]; try done.
  { intros va' Hva'. apply present_below. lia. }
  unfold fork_view. destruct child; [|done]. by rewrite HB, H1.
Qed.

Lemma wp_copyuvm_fork :
  wp (copyuvm pgdir sz) (fun r s' => exists l',
    r = d /\ copied s d l pgdir (npg sz) (npg sz) (npg sz) s' l' \/ r = 0 /\ freelist s' = 0) s.
Proof.
  destruct Hfk as [Hk Hl Hpt _ Hsz Hu]. eapply wp_mono; [by eapply wp_copyuvm|]. cbv beta.
  intros r s' (l' & [(-> & Hc & _)|(-> & -> & k & _ & Hc)]); [exists l'; by left|exists []].
  right. split; [done|]. apply (ok_chain _ _ (cp_km _ _ _ _ _ _ _ _ _ Hc)).
Qed.

End fork_lemmas.


(** The page may be written: it is writable, or copy-on-write since an earlier fork. *)
Definition may_write (e : Z) : bool := flag e PTE_W || flag e PTE_COW.


(** *** Instances

    [one_space]: a machine with free pages [l] and one address space that maps
    page 0 to the frame [F], counted [c] times. *)
Definition entry_of (F fl : Z) : Z := Z.lor (Z.lor (V2P F) fl) PTE_P.
Definition one_space (l : list Z) (A T F fl c : Z) : kmst :=
  set_ref (V2P F / PGSIZE) c (set_mem (one_page (mem (km_free l)) A T (entry_of F fl)) (km_free l)).

Section instances.
Context {KI : KernelImage} (l : list Z) (A T F fl c : Z).
Context (Hnd : NoDup (A :: T :: F :: l)) (Hpg : Forall page_ok (A :: T :: F :: l)) (Hfl : 0 <= fl < 4096).

Lemma NoDup_pages3 : NoDup (A :: T :: F :: l) ->
  (A ∉ T :: F :: l) /\ (T ∉ F :: l) /\ (F ∉ l) /\ NoDup l.
Proof. by intros [? [? [? ?]%NoDup_cons]%NoDup_cons]%NoDup_cons. Qed.

Lemma page_disjoint p q i : p ∈ A :: T :: F :: l -> q ∈ A :: T :: F :: l -> p <> q -> in_page p i -> ~ in_page q i.
Proof.
  intros Hp Hq Hne. eapply Forall_forall in Hp, Hq; [|exact Hpg..].
  apply in_page_disjoint; [apply Hp|apply Hq|done].
Qed.

Lemma entry_of_ok : page_ok F -> 0 <= entry_of F fl < 4294967296 /\ PTE_ADDR (entry_of F fl) = V2P F /\
  P2V (PTE_ADDR (entry_of F fl)) = F.
Proof.
  intros HF. destruct (page_ok_V2P F HF) as (_ & Hr & Ha).
  assert (Hadr : PTE_ADDR (entry_of F fl) = V2P F) by (by apply PTE_ADDR_make).
  split; [|split; [done|rewrite Hadr; by apply page_ok_P2V]].
  apply PTE_make_range; [revert Hr; unfold_mmu; lia|done].
Qed.

Lemma one_space_ok :
  let s := one_space l A T F fl c in
  km_ok s l /\ pt_ok (mem s) l A /\
  (forall va, 0 <= va < 4294967296 -> pte_of (mem s) A va = if decide (va / 4096 = 0) then entry_of F fl else 0) /\
  user_frames (mem s) l [A] A /\ pte_slot (mem s) A 0 = Some T /\
  (forall i, pt_addr (mem s) A i -> in_page A i \/ in_page T i) /\
  same_but (fun i => in_page A i \/ in_page T i) (mem (km_free l)) (mem s).
Proof.
  pose proof Hnd as (HA & HT & HF & Hnl)%NoDup_pages3.
  pose proof Hpg as [HpA [HpT [HpF Hpl]%Forall_cons]%Forall_cons]%Forall_cons.
  destruct (entry_of_ok HpF) as (Her & Hadr & Hfr).
  assert (Hz : forall i, in_page A i -> ld8 (mem (km_free l)) i = 0).
  { intros i Hi. apply km_free_outside. intros p Hp. apply (page_disjoint A); set_solver. }
  destruct (one_page_ok (mem (km_free l)) l A T (entry_of F fl)) as (Hpt & Hpte & Hown & Hsb & Hsl);
    [done..|set_solver|set_solver|set_solver|done|done|].
  pose proof (km_ok_free l Hnl Hpl) as Hk0.
  intros s. change (mem s) with (one_page (mem (km_free l)) A T (entry_of F fl)).
  split_and!; try done.
  - apply km_ok_set_ref. eapply km_ok_set_mem; [done| |done|].
    + apply mem_ok_st32, mem_ok_st32, mem_ok_memset; [unfold_mmu; lia|apply Hk0].
    + intros p i Hp Hi [Hi'|Hi']; [eapply (page_disjoint A p i)|eapply (page_disjoint T p i)]; set_solver.
  - intros va Hva Hu.
    assert (Hf : frame (one_page (mem (km_free l)) A T (entry_of F fl)) A va = F).
    { unfold frame. unfold user_page in Hu. rewrite Hpte in Hu |- * by done. case_decide; [done|discriminate]. }
    rewrite Hf. split_and!; [done|set_solver|]. intros pt i Hp Hi.
    assert (pt = A) as -> by set_solver. intros [Hi'|Hi']%Hown.
    + eapply (page_disjoint A F i); [set_solver..|done|done].
    + eapply (page_disjoint T F i); [set_solver..|done|done].
Qed.

Lemma one_space_forkable d l' :
  l = d :: l' -> (64 <= length l')%nat -> flag fl PTE_U = true ->
  forkable (one_space l A T F fl c) d l' A 4096.
Proof.
  intros Hl Hlen HU. destruct one_space_ok as (K1 & K2 & K3 & K4 & _).
  pose proof Hpg as [_ [_ [HpF _]%Forall_cons]%Forall_cons]%Forall_cons.
  destruct (entry_of_ok HpF) as (_ & Hadr & _). rewrite Hl in K1, K2, K3, K4 |- *.
  split; [done..|]. intros va Hva. rewrite K3, decide_True by divlia.
  split; [unfold entry_of; by bit_simpl|]. rewrite Hadr. by apply page_ok_V2P in HpF as (_ & [_ ?] & _).
Qed.

End instances.

(** Two address spaces that share the frame [F]. *)
Definition two_spaces (l : list Z) (A TA B TB F fl c : Z) : kmst :=
  set_ref (V2P F / PGSIZE) c
    (set_mem (one_page (mem (one_space l B TB F fl c)) A TA (entry_of F fl)) (one_space l B TB F fl c)).

(** Concrete pages, all below PHYSTOP. *)
Definition ex_free : list Z := pages_desc 0x80400000 70.
Definition ex_A : Z := 0x80600000.
Definition ex_TA : Z := 0x80601000.
Definition ex_B : Z := 0x80602000.
Definition ex_TB : Z := 0x80603000.
Definition ex_F : Z := 0x80604000.
Definition ex_one : kmst := one_space ex_free ex_A ex_TA ex_F (Z.lor PTE_W PTE_U) 1.
Definition ex_two : kmst := two_spaces ex_free ex_A ex_TA ex_B ex_TB ex_F (Z.lor PTE_U PTE_COW) 2.

Lemma ex_page_ok p : 0x80400000 <= p < 0x80700000 -> p mod 4096 = 0 -> page_ok p.
Proof. intros. split; [done|]. cbn. unfold_mmu. lia. Qed.

Lemma ex_free_ok : Forall page_ok ex_free.
Proof.
  apply Forall_forall. intros p Hp%elem_of_pages_desc. apply ex_page_ok; divlia.
Qed.

Lemma ex_one_ok : NoDup (ex_A :: ex_TA :: ex_F :: ex_free) /\ Forall page_ok (ex_A :: ex_TA :: ex_F :: ex_free).
Proof.
  split; [apply (bool_decide_unpack _); vm_compute; exact I|].
  apply Forall_cons; split; [by apply ex_page_ok|]. apply Forall_cons; split; [by apply ex_page_ok|].
  apply Forall_cons; split; [by apply ex_page_ok|]. apply ex_free_ok.
Qed.

Lemma ex_forkable : forkable ex_one 0x80445000 (pages_desc 0x80400000 69) ex_A 4096.
Proof.
  destruct ex_one_ok as [Hn Hp]. apply (one_space_forkable ex_free ex_A ex_TA ex_F); try done.
  cbn. lia.
Qed.

Lemma two_spaces_ok {KI : KernelImage} l A TA B TB F fl c :
  NoDup (A :: TA :: B :: TB :: F :: l) -> Forall page_ok (A :: TA :: B :: TB :: F :: l) ->
  0 <= fl < 4096 ->
  let s := two_spaces l A TA B TB F fl c in
  let e := entry_of F fl in
  km_ok s l /\ pt_ok (mem s) l A /\ pt_ok (mem s) l B /\
  (forall i, pt_addr (mem s) A i -> in_page A i \/ in_page TA i) /\
  (forall i, pt_addr (mem s) B i -> in_page B i \/ in_page TB i) /\
  (forall va, 0 <= va < 4294967296 -> pte_of (mem s) A va = if decide (va / 4096 = 0) then e else 0) /\
  (forall va, 0 <= va < 4294967296 -> pte_of (mem s) B va = if decide (va / 4096 = 0) then e else 0) /\
  pte_slot (mem s) A 0 = Some TA.
Proof.
  intros Hnd Hpg Hfl s e.
  pose proof Hnd as [HA [HTA Hnd']%NoDup_cons]%NoDup_cons.
  pose proof Hnd' as [HB [HTB [HF Hnl]%NoDup_cons]%NoDup_cons]%NoDup_cons.
  pose proof Hpg as [HpA [HpTA Hpg']%Forall_cons]%Forall_cons.
  pose proof Hpg' as [_ [_ [HpF _]%Forall_cons]%Forall_cons]%Forall_cons.
  assert (Hne : forall p q i, p = A \/ p = TA -> q ∈ B :: TB :: F :: l -> in_page p i -> ~ in_page q i).
  { intros p q i Hp Hq. apply in_page_disjoint; [by destruct Hp as [->| ->]; [apply HpA|apply HpTA]|..].
    - by apply (proj1 (Forall_forall _ _) Hpg' q Hq).
    - intros ->. destruct Hp as [->| ->]; [apply HA; by right|by apply HTA]. }
  destruct (one_space_ok l B TB F fl c) as (K1 & K2 & K3 & _ & _ & K4 & K5);
    [done..|].
  set (m := mem (one_space l B TB F fl c)) in *.
  destruct (entry_of_ok F fl Hfl HpF) as (Her & _ & _).
  destruct (one_page_ok m l A TA e) as (Hpt & Hpte & Hown & Hsb & Hsl);
    [done|done|clear -HA; set_solver|clear -HA; set_solver|clear -HTA; set_solver| |done|].
  { intros i Hi. rewrite K5, km_free_outside; [done| |].
    - intros p Hp. apply (Hne A); [by left|by do 3 right|done].
    - intros [Hi'|Hi']; revert Hi'; apply (Hne A); try done; [by left|left|by left|right; left]. }
  destruct (pt_frame _ _ _ _ l _ K2 Hsb) as (Hpt2 & Hpte2 & Hown2); [|done|].
  { intros i [Hi|Hi]%K4 [Hi'|Hi']; revert Hi; eapply Hne; try exact Hi';
      [by left|left|by right|left|by left|right; left|by right|right; left]. }
  change (mem s) with (one_page m A TA e). split_and!; try done.
  - apply km_ok_set_ref. eapply km_ok_set_mem; [done| |done|].
    + apply mem_ok_st32, mem_ok_st32, mem_ok_memset; [unfold_mmu; lia|apply K1].
    + intros p i Hp Hi [Hi'|Hi']; revert Hi; eapply Hne; [by left|by do 3 right|done|by right|by do 3 right|done].
  - intros i Hi%Hown2. by apply K4.
  - intros va Hva. rewrite Hpte2. by apply K3.
Qed.

Definition ex_e : Z := entry_of ex_F (Z.lor PTE_U PTE_COW).


Lemma ex_two_ok : NoDup (ex_A :: ex_TA :: ex_B :: ex_TB :: ex_F :: ex_free) /\
  Forall page_ok (ex_A :: ex_TA :: ex_B :: ex_TB :: ex_F :: ex_free).
Proof.
  split; [apply (bool_decide_unpack _); vm_compute; exact I|].
  do 5 (apply Forall_cons; split; [by apply ex_page_ok|]). apply ex_free_ok.
Qed.

Lemma ex_two_facts :
  km_ok ex_two ex_free /\ pt_ok (mem ex_two) ex_free ex_A /\ pt_ok (mem ex_two) ex_free ex_B /\
  (forall i, pt_addr (mem ex_two) ex_A i -> ~ pt_addr (mem ex_two) ex_B i) /\
  user_frames (mem ex_two) ex_free [ex_A; ex_B] ex_A /\
  user_frames (mem ex_two) ex_free [ex_A; ex_B] ex_B /\
  pte_slot (mem ex_two) ex_A 7 = Some ex_TA /\ ld32 (mem ex_two) ex_TA = ex_e /\
  refcnt ex_two (V2P ex_F / PGSIZE) = 2.
Proof.
  destruct ex_two_ok as [Hn Hp].
  destruct (two_spaces_ok ex_free ex_A ex_TA ex_B ex_TB ex_F (Z.lor PTE_U PTE_COW) 2 Hn Hp ltac:(done))
    as (K1 & K2 & K3 & KA & KB & PA & PB & Ks).
  fold ex_two ex_e in K1, K2, K3, KA, KB, PA, PB, Ks.
  assert (Hfr : forall X, X = ex_A \/ X = ex_B -> forall va, 0 <= va < 4294967296 ->
    user_page (mem ex_two) X va = true -> frame (mem ex_two) X va = ex_F).
  { intros X HX va Hva. unfold user_page, frame.
    assert (pte_of (mem ex_two) X va = if decide (va / 4096 = 0) then ex_e else 0) as ->
      by (destruct HX as [->| ->]; auto).
    case_decide; [reflexivity|discriminate]. }
  assert (Hpt : forall X i, X ∈ [ex_A; ex_B] -> in_page ex_F i -> ~ pt_addr (mem ex_two) X i).
  { intros X i HX Hi. rewrite !elem_of_cons, elem_of_nil in HX. revert Hi.
    destruct HX as [->|[->|[]]]; intros Hi [Hi'|Hi']%KA || intros Hi [Hi'|Hi']%KB;
      revert Hi Hi'; unfold in_page, ex_F, ex_A, ex_TA, ex_B, ex_TB; lia. }
  assert (Huf : forall X, X = ex_A \/ X = ex_B -> user_frames (mem ex_two) ex_free [ex_A; ex_B] X).
  { intros X HX va Hva Hu. rewrite (Hfr X HX va Hva Hu). split; [apply ex_page_ok; [unfold ex_F; lia|reflexivity]|split].
    - intros Hin%elem_of_pages_desc. unfold ex_F in Hin. lia.
    - intros pt i Hpt' Hi. by apply Hpt. }
  assert (Hs7 : pte_slot (mem ex_two) ex_A 7 = Some ex_TA) by exact Ks.
  split; [exact K1|]. split; [exact K2|]. split; [exact K3|].
  split; [|split; [apply Huf; by left|split; [apply Huf; by right|split; [exact Hs7|split]]]].
  - intros i [Hi|Hi]%KA [Hi'|Hi']%KB; revert Hi Hi'; unfold in_page, ex_A, ex_TA, ex_B, ex_TB; lia.
  - specialize (PA 7 ltac:(lia)). unfold pte_of in PA. by rewrite Hs7 in PA.
  - unfold ex_two, two_spaces. by rewrite refcnt_set_ref, decide_True.
Qed.

Lemma ex_two_frame :
  page_ok (P2V (PTE_ADDR ex_e)) /\ (P2V (PTE_ADDR ex_e) ∉ 0x80445000 :: pages_desc 0x80400000 69) /\
  (forall i, in_page (P2V (PTE_ADDR ex_e)) i -> ~ pt_addr (mem ex_two) ex_A i).
Proof.
  destruct ex_two_facts as (_ & _ & _ & _ & Hu & _ & Hs & He & _).
  destruct (Hu 7 ltac:(lia)) as (H1 & H2 & H3).
  { unfold user_page, pte_of. rewrite Hs, He. done. }
  unfold frame, pte_of in H1, H2, H3. rewrite Hs, He in H1, H2, H3.
  split; [done|]. split; [done|]. intros i. apply H3. by left.
Qed.

Lemma refcnt_one_space l A T F fl c i : 0 <= c <= 1 -> refcnt (one_space l A T F fl c) i <= 1.
Proof.
  intros Hc. unfold one_space. rewrite refcnt_set_ref. case_decide; [rewrite u8_id; lia|].
  unfold refcnt. cbn [ref_counts set_mem]. rewrite ref_counts_free, lookup_empty. cbn. lia.
Qed.

Lemma perm_WU : 0 <= Z.lor PTE_W PTE_U < 4096.
Proof. vm_compute. by split. Qed.

Lemma ex_one_space :
  km_ok ex_one ex_free /\ pt_ok (mem ex_one) ex_free ex_A /\
  (forall va, 0 <= va < 4294967296 -> pte_of (mem ex_one) ex_A va =
     if decide (va / 4096 = 0) then entry_of ex_F (Z.lor PTE_W PTE_U) else 0) /\
  user_frames (mem ex_one) ex_free [ex_A] ex_A /\
  (forall i, pt_addr (mem ex_one) ex_A i -> in_page ex_A i \/ in_page ex_TA i) /\
  (forall i, refcnt ex_one i <= 1).
Proof.
  destruct ex_one_ok as [Hn Hp].
  destruct (one_space_ok ex_free ex_A ex_TA ex_F (Z.lor PTE_W PTE_U) 1 Hn Hp perm_WU) as (H1 & H2 & H3 & H4 & _ & H6 & _).
  split; [exact H1|]. split; [exact H2|]. split; [exact H3|]. split; [exact H4|]. split; [exact H6|].
  intros i. exact (refcnt_one_space ex_free ex_A ex_TA ex_F (Z.lor PTE_W PTE_U) 1 i ltac:(lia)).
Qed.

#[local] Opaque ex_one ex_two.

(** C2: copyuvm, called by fork, gives the child the parent's memory without
    copying it.  It returns 0 only when memory is exhausted; otherwise it returns
    the new directory, and afterwards: through its own page table the parent
    still sees every byte it saw before; the child sees the same bytes up to the
    rounded-up process size and no user memory beyond; no page below the size is
    writable in either; and the reference count of every frame has grown by the
    number of pages that share it (modulo 256, the width of a count). *)
Theorem copyuvm_shares_memory {KI : KernelImage} (s : kmst) (d : Z) (l : list Z) (pgdir sz : Z) :
  forkable s d l pgdir sz ->
  wp (copyuvm pgdir sz) (fun r s' =>
    r = 0 /\ freelist s' = 0 \/
    r = d /\
    (forall va, 0 <= va < 4294967296 ->
       user_byte (mem s') pgdir va = user_byte (mem s) pgdir va /\
       user_byte (mem s') d va = if va <? PGROUNDUP sz then user_byte (mem s) pgdir va else None) /\
    (forall va, 0 <= va < sz ->
       flag (pte_of (mem s') pgdir va) PTE_W = false /\ flag (pte_of (mem s') d va) PTE_W = false) /\
    (forall q, page_ok q -> q ∉ d :: l ->
       refcnt s' (V2P q / PGSIZE) =
         u8 (refcnt s (V2P q / PGSIZE) + Z.of_nat (share s pgdir (npg sz) (V2P q / PGSIZE))))) s.
Proof.
  intros Hfk. eapply wp_mono; [by apply (wp_copyuvm_fork s d l)|]. cbv beta.
  intros r s' (l' & [[-> Hc]|[-> Hf]]); [right|by left]. split; [done|].
  destruct (npg_eq s d l pgdir sz Hfk) as (H1 & H2 & H3). split_and!.
  - intros va Hva. split; [exact (copied_view _ _ _ _ _ Hfk _ _ Hc false va Hva)|].
    exact (copied_view _ _ _ _ _ Hfk _ _ Hc true va Hva).
  - intros va Hva. rewrite (cp_parent _ _ _ _ _ _ _ _ _ Hc), (cp_child _ _ _ _ _ _ _ _ _ Hc) by lia.
    rewrite !decide_True by lia. split; [apply cow_parent_flags|apply cow_child_flags].
  - apply Hc.
Qed.

Lemma copyuvm_shares_memory_witness :
  exists r s', copyuvm ex_A 4096 ex_one = Ret r s' /\
    (r = 0 /\ freelist s' = 0 \/
     r = 0x80445000 /\ user_byte (mem s') ex_A 7 = user_byte (mem ex_one) ex_A 7 /\
     user_byte (mem s') r 7 = user_byte (mem ex_one) ex_A 7).
Proof.
  destruct (proj1 (wp_exec _ _ _)
    (copyuvm_shares_memory ex_one 0x80445000 (pages_desc 0x80400000 69) ex_A 4096 ex_forkable))
    as (r & s' & Hrun & HQ).
  exists r, s'. split; [exact Hrun|]. destruct HQ as [HQ|(-> & HQ & _)]; [by left|right].
  split; [reflexivity|]. exact (HQ 7 ltac:(lia)).
Defined.



(** C3: a store to a copy-on-write page of one address space [A] is invisible in
    any other address space [B], whoever shares the frame: the writer sees the new
    byte and its old memory elsewhere, [B] sees what it saw.  The reference count
    decides whether the frame is copied, so it must not be 1 while another page
    maps the frame.  The store fails only when the free list is empty. *)
Theorem cow_write_isolated {KI : KernelImage} (s : kmst) (l : list Z) (A B va a e b : Z) :
  km_ok s l -> pt_ok (mem s) l A -> pt_ok (mem s) l B -> A <> B ->
  (forall i, pt_addr (mem s) A i -> ~ pt_addr (mem s) B i) ->
  user_frames (mem s) l [A; B] A -> user_frames (mem s) l [A; B] B ->
  0 <= va < 4294967296 -> pte_slot (mem s) A va = Some a -> ld32 (mem s) a = e ->
  flag e PTE_P = true -> flag e PTE_U = true -> flag e PTE_COW = true -> 0 <= b < 256 ->
  1 <= refcnt s (PTE_ADDR e / PGSIZE) ->
  (refcnt s (PTE_ADDR e / PGSIZE) = 1 ->
     forall X va', X ∈ [A; B] -> 0 <= va' < 4294967296 -> user_page (mem s) X va' = true ->
       X = B \/ va' / 4096 <> va / 4096 -> frame (mem s) X va' <> frame (mem s) A va) ->
  wp (cow_write A va b) (fun ok s' =>
    ok = NoMemory /\ l = [] \/
    ok = Written /\ user_byte (mem s') A va = Some b /\
    (forall va', 0 <= va' < 4294967296 -> va' <> va ->
       user_byte (mem s') A va' = user_byte (mem s) A va') /\
    (forall va', 0 <= va' < 4294967296 -> user_byte (mem s') B va' = user_byte (mem s) B va')) s.
Proof.
  intros Hk HA HB HAB Hd HuA HuB Hva Hs He HP HU Hcow Hb Hc Hsole.
  eapply wp_mono; [eapply (wp_cow_write s A B va Hva l HA HB (ok_pages _ _ Hk) Hd HuA HuB a e); try done; apply Hk|].
  cbv beta. naive_solver.
Qed.

Lemma cow_write_isolated_witness :
  exists ok s', cow_write ex_A 7 65 ex_two = Ret ok s' /\ ok = Written /\
    user_byte (mem s') ex_A 7 = Some 65 /\ user_byte (mem s') ex_B 7 = user_byte (mem ex_two) ex_B 7.
Proof.
  destruct ex_two_facts as (K1 & K2 & K3 & Kd & KA & KB & Ks & Ke & Kr).
  destruct (proj1 (wp_exec _ _ _)
    (cow_write_isolated ex_two ex_free ex_A ex_B 7 ex_TA ex_e 65 K1 K2 K3 ltac:(done) Kd KA KB
       ltac:(lia) Ks Ke eq_refl eq_refl eq_refl ltac:(lia)
       ltac:(change (PTE_ADDR ex_e / PGSIZE) with (V2P ex_F / PGSIZE); rewrite Kr; lia)
       ltac:(change (PTE_ADDR ex_e / PGSIZE) with (V2P ex_F / PGSIZE); rewrite Kr; lia)))
    as (ok & s' & Hrun & HQ).
  exists ok, s'. split; [exact Hrun|]. destruct HQ as [[_ HQ]|(-> & H1 & _ & H2)]; [discriminate HQ|].
  split; [reflexivity|]. split; [exact H1|]. exact (H2 7 ltac:(lia)).
Defined.

(** A write-protected page that is not copy-on-write is left alone: the store is not
    made. *)
Lemma cow_write_refused {KI : KernelImage} (s : kmst) (l : list Z) (A va b : Z) :
  pt_ok (mem s) l A -> 0 <= va < 4294967296 -> flag (pte_of (mem s) A va) PTE_P = true -> flag (pte_of (mem s) A va) PTE_COW = false ->
  cow_write A va b s = Ret NotCow s.
Proof.
  intros HA Hva HP Hc. destruct (pte_of_slot _ _ _ HP) as (a & Ha & Hae). destruct (slot_range _ _ _ _ _ HA Ha) as (_ & _ & _ & Hnz).
  unfold cow_write. rewrite (bind_ret_run _ _ _ _ _ (run_walk_present s A va false a Ha)), (proj2 (Z.eqb_neq a 0)) by done.
  unfold load. mrun. rewrite <- Hae, HP, Hc. done.
Qed.

(** copyuvm marks the parent's entry copy-on-write outside the test of PTE_W, so a page
    that was read-only can be written by the parent after a fork; the child's
    cannot. *)
Lemma copyuvm_exposes_read_only {KI : KernelImage} (s : kmst) (d : Z) (l : list Z) (pgdir sz va : Z) :
  forkable s d l pgdir sz -> 0 <= va < sz -> may_write (pte_of (mem s) pgdir va) = false ->
  wp (copyuvm pgdir sz) (fun r s' => r = 0 \/
    may_write (pte_of (mem s') pgdir va) = true /\ may_write (pte_of (mem s') r va) = false) s.
Proof.
  intros Hfk Hva Hmw. eapply wp_mono; [by apply (wp_copyuvm_fork s d l)|]. cbv beta. intros r s' (l' & [[-> Hc]|[-> Hf]]); [right|by left].
  destruct (npg_eq s d l pgdir sz Hfk) as (H1 & H2 & H3). rewrite (cp_parent _ _ _ _ _ _ _ _ _ Hc), (cp_child _ _ _ _ _ _ _ _ _ Hc) by lia. rewrite !decide_True by lia.
  unfold may_write. destruct (cow_parent_flags (pte_of (mem s) pgdir va)) as (_ & _ & _ & ->). destruct (cow_child_flags (pte_of (mem s) pgdir va)) as (_ & _ & -> & ->).
  split; [apply orb_true_r|exact Hmw].
Qed.

(** the copy-on-write branch of the page fault handler on a shared frame
    (count at least 2).  It takes the first free page, whose count becomes 1, and
    drops the old frame's count by one; the new page holds a copy of the old
    frame; the entry of the faulting page points to it, writable and no longer
    copy-on-write, with the other flags as before; every other entry is
    unchanged, and so is memory outside the new page and that entry. *)
Theorem cow_fault_copies {KI : KernelImage} (s : kmst) (p : Z) (l : list Z) (pgdir va a e : Z) :
  km_ok s (p :: l) -> pt_ok (mem s) (p :: l) pgdir -> 0 <= va < 4294967296 ->
  pte_slot (mem s) pgdir va = Some a -> ld32 (mem s) a = e ->
  let f := P2V (PTE_ADDR e) in
  page_ok f -> f ∉ p :: l -> (forall i, in_page f i -> ~ pt_addr (mem s) pgdir i) ->
  2 <= refcnt s (V2P f / PGSIZE) ->
  wp (pgflt_cow pgdir va a) (fun ok s' => ok = true /\ km_ok s' l /\ pt_ok (mem s') l pgdir /\
    refcnt s' (V2P p / PGSIZE) = 1 /\
    refcnt s' (V2P f / PGSIZE) = refcnt s (V2P f / PGSIZE) - 1 /\
    (forall va', 0 <= va' < 4294967296 -> pte_of (mem s') pgdir va' =
       if decide (va' / 4096 = va / 4096) then cow_private p e else pte_of (mem s) pgdir va') /\
    flag (cow_private p e) PTE_W = true /\ flag (cow_private p e) PTE_COW = false /\
    flag (cow_private p e) PTE_U = flag e PTE_U /\
    same_but (fun i => in_page p i \/ a <= i < a + 4) (mem s) (mem s') /\
    (forall i, 0 <= i < 4096 -> ld8 (mem s') (p + i) = ld8 (mem s) (f + i))) s.
Proof.
  intros Hk Hpt Hva Hs He f Hf Hnf Hft Hc.
  assert (Hpp : page_ok p) by (eapply Forall_inv, Hk).
  assert (Her : 0 <= e < 4294967296) by (subst e; apply ld32_range, Hk).
  assert (Hph : V2P f = PTE_ADDR e) by (apply V2P_P2V, PTE_ADDR_range, Her).
  destruct (slot_range _ _ _ _ _ Hpt Hs) as (_ & _ & _ & Hnz).
  destruct (page_ok_V2P f Hf) as (_ & Hst & _).
  assert (Hne : V2P p / PGSIZE <> V2P f / PGSIZE).
  { intros Heq%page_index_inj; [|done..]. set_solver. }
  destruct (cow_copied_spec s pgdir va a e Hva Hs Hnz He p l Hk Hpt) as (K1 & K2 & K3 & K4 & K5).
  { intros i Hi. split; [by apply Hft|]. eapply in_page_disjoint; [apply Hf|apply Hpp| |done]. set_solver. }
  destruct (cow_private_flags p e Hpp) as (_ & F1 & F2 & F3).
  eapply wp_result; [apply (run_pgflt_cow_copy s pgdir va a e Hva Hs Hnz He Her p l Hk Hpt)|];
    rewrite <- ?Hph; [lia|lia|done|].
  assert (Hr : forall j, refcnt (cow_copied s pgdir a e p) j = if decide (V2P p / PGSIZE = j) then 1 else refcnt s j).
  { intros j. transitivity (refcnt (set_ref (V2P p / PGSIZE) 1 s) j); [done|]. by rewrite refcnt_set_ref. }
  rewrite !refcnt_set_ref, !Hr, decide_False, !decide_True by done.
  pose proof (ok_refs _ _ Hk (V2P f / PGSIZE)). rewrite u8_id by lia.
  split_and!; try done. by apply km_ok_set_ref.
Qed.

Lemma cow_fault_copies_witness :
  exists s', pgflt_cow ex_A 7 ex_TA ex_two = Ret true s' /\
    km_ok s' (pages_desc 0x80400000 69) /\ refcnt s' (V2P ex_F / PGSIZE) = 1.
Proof.
  destruct ex_two_facts as (K1 & K2 & K3 & Kd & KA & KB & Ks & Ke & Kr).
  destruct ex_two_frame as (Hf & Hnf & Hft).
  destruct (proj1 (wp_exec _ _ _)
    (cow_fault_copies ex_two 0x80445000 (pages_desc 0x80400000 69) ex_A 7 ex_TA ex_e K1 K2 ltac:(lia)
       Ks Ke Hf Hnf Hft
       ltac:(change (V2P (P2V (PTE_ADDR ex_e)) / PGSIZE) with (V2P ex_F / PGSIZE); rewrite Kr; lia))) as (ok & s' & Hrun & (-> & Hk & _ & _ & Hc & _)).
  exists s'. split; [exact Hrun|]. split; [exact Hk|].
  change (V2P (P2V (PTE_ADDR ex_e)) / PGSIZE) with (V2P ex_F / PGSIZE) in Hc. rewrite Hc, Kr. reflexivity.
Defined.

(** freevm gives back an address space.  It returns; the pages it adds to the
    free list, each once, are exactly the page directory, its page tables and the
    user frames whose reference count is at most one.  No count changes, so a
    frame that was shared stays allocated with the count it had. *)
Theorem freevm_frees_space {KI : KernelImage} (s : kmst) (l : list Z) (pgdir : Z) :
  freeable s l pgdir ->
  wp (freevm pgdir) (fun _ s' => ref_counts s' = ref_counts s /\
    exists l', km_ok s' (l' ++ l) /\ NoDup l' /\ forall p, p ∈ l' <-> space_page s pgdir p) s.
Proof.
  intros Hf. eapply wp_mono; [by apply wp_freevm|]. cbv beta. intros _ s' (Hr & _ & l' & Hk & Hl).
  split; [done|]. exists l'. split; [done|]. split; [|done]. pose proof (ok_nodup _ _ Hk) as Hnd.
  by apply NoDup_app in Hnd as [? _].
Qed.

Lemma ex_freeable : freeable ex_one ex_free ex_A.
Proof.
  destruct ex_one_ok as [Hn Hp]. destruct ex_one_space as (H1 & H2 & H3 & _ & H5 & H6).
  assert (Hm : forall va, 0 <= va < KERNBASE -> is_mapped (mem ex_one) ex_A va = true ->
            va / 4096 = 0 /\ frame (mem ex_one) ex_A va = ex_F).
  { unfold KERNBASE, is_mapped, frame. intros va Hva. rewrite H3 by lia.
    destruct (decide _); [intros _; split; [done|reflexivity]|discriminate]. }
  destruct (NoDup_pages3 _ _ _ _ Hn) as (N1 & N2 & N3 & _). split; [split|..].
  - exact H1.
  - exact H2.
  - split; [lia|reflexivity].
  - split; [unfold KERNBASE; lia|reflexivity].
  - intros va Hva Hma. destruct (Hm va Hva Hma) as [_ ->]. split; [by apply ex_page_ok|]. split; [exact N3|].
    intros a Ha Hpa%H5. unfold in_page, ex_F, ex_A, ex_TA in *. lia.
  - intros va va' Hva Hva' Hma Hma' _ _. destruct (Hm va Hva Hma) as [-> _]. by destruct (Hm va' Hva' Hma') as [-> _].
  - intros i _ _. apply H6.
  - apply H6.
Qed.

Lemma freevm_frees_space_witness :
  exists s' l', freevm ex_A ex_one = Ret tt s' /\ km_ok s' (l' ++ ex_free) /\ ex_A ∈ l'.
Proof.
  destruct (proj1 (wp_exec _ _ _) (freevm_frees_space ex_one ex_free ex_A ex_freeable)) as ([] & s' & Hrun & _ & l' & Hk & _ & Hl).
  exists s', l'. split; [exact Hrun|]. split; [exact Hk|]. apply Hl. by left.
Defined.
