(* ===== verification/Wmap.v ===== *)
(** * The table of memory mappings of a process (wmap.h, proc.h, sysproc.c)

    Each process has MAX_MMAPS mapping slots.  wmap reserves an address range in
    the mapping area 0x60000000..0x80000000, the page fault handler and wunmap
    look an address up.  The table is a list of regions; the operations are the
    searches of sysproc.c, trap.c and proc.c over it.  The invariant [mm_ok] is
    that the used regions lie in the mapping area and are pairwise disjoint. *)

From Stdlib Require Import ZArith Lia.
From stdpp Require Import base tactics numbers option list strings.
From S2P Require Import Prelude Mmu.

(** ** wmap.h and proc.h *)

Definition MAP_SHARED : Z := 0x0002.
Definition MAP_ANONYMOUS : Z := 0x0004.
Definition MAP_FIXED : Z := 0x0008.
Definition FAILED : Z := -1.
Definition SUCCESS : Z := 0.
Definition MAX_MMAPS : nat := 16.
Definition MAX_WMMAP_INFO : nat := 16.

Record mmap_region : Type := Region {
  addr : Z;             (* uint *)
  length : Z;           (* int *)
  flags : Z;            (* int *)
  used : Z;             (* int *)
  fd : Z;               (* int *)
  n_loaded_pages : Z }. (* int *)

Definition region0 : mmap_region := Region 0 0 0 0 0 0.
Definition set_loaded (n : Z) (r : mmap_region) : mmap_region :=
  Region (addr r) (length r) (flags r) (used r) (fd r) n.
Definition set_used (u : Z) (r : mmap_region) : mmap_region :=
  Region (addr r) (length r) (flags r) u (fd r) (n_loaded_pages r).
Definition set_fd (d : Z) (r : mmap_region) : mmap_region :=
  Region (addr r) (length r) (flags r) (used r) d (n_loaded_pages r).

#[export] Instance mmap_region_eq_dec : EqDecision mmap_region.
Proof. solve_decision. Defined.

(** The end of a region, computed as the C expression [addr + length]. *)
Definition rend (r : mmap_region) : Z := u32 (addr r + length r).

(** ** sysproc.c *)

(** The overlap test of check_fixed and suggestive_address. *)
Definition overlaps (a len : Z) (r : mmap_region) : bool :=
  negb (used r =? 0) && ((a <? rend r) && (addr r <? u32 (a + len))).

(** The overlap test of find_free_mmap_space. *)
Definition overlaps_free (a len : Z) (r : mmap_region) : bool :=
  negb (used r =? 0) && negb ((u32 (a + len) <=? addr r) || (rend r <=? a)).

Definition check_fixed (mm : list mmap_region) (a len : Z) : Z :=
  if (a =? 0) || negb (a mod PGSIZE =? 0) then FAILED
  else if (a <? 0x60000000) || (0x80000000 <? u32 (a + len)) then FAILED
  else if existsb (overlaps a len) mm then FAILED
  else 1.

Fixpoint find_free_loop (fuel : nat) (mm : list mmap_region) (len a : Z) : option Z :=
  match fuel with
  | O => None
  | S fuel' =>
      if u32 (a + len) <=? 0x80000000 then
        if existsb (overlaps_free a len) mm then find_free_loop fuel' mm len (u32 (a + PGSIZE))
        else Some a
      else Some 0
  end.

(** The search tries at most the 2^17 pages of the mapping area and one more. *)
Definition find_free_fuel : nat := Z.to_nat (0x20000000 / PGSIZE + 2).
Definition find_free_mmap_space (mm : list mmap_region) (len : Z) : option Z :=
  find_free_loop find_free_fuel mm len 0x60000000.

Definition suggestive_address (mm : list mmap_region) (a len : Z) : option Z :=
  if negb (a mod PGSIZE =? 0) || (a <? 0x60000000) || (0x80000000 <? u32 (a + len))
  then find_free_mmap_space mm len
  else if existsb (overlaps a len) mm then find_free_mmap_space mm len
  else Some a.

(** ** Lookup of a slot

    The first region that contains an address: the search of the page fault
    handler (trap.c) and of wunmap (proc.c); the first unused slot: the search of
    wmap (sysproc.c). *)
Definition contains (a : Z) (r : mmap_region) : bool :=
  negb (used r =? 0) && ((addr r <=? a) && (a <? rend r)).

Definition find_region (mm : list mmap_region) (a : Z) : option nat := find_index (contains a) mm.
Definition find_unused (mm : list mmap_region) : option nat := find_index (fun r => used r =? 0) mm.

(** ** Invariant *)

Definition in_use (r : mmap_region) : Prop := used r <> 0.

Record region_ok (r : mmap_region) : Prop := {
  ro_low : 0x60000000 <= addr r;
  ro_len : 0 < length r;
  ro_high : addr r + length r <= 0x80000000;
  ro_align : addr r mod 4096 = 0 }.

Definition disjoint (a len a' len' : Z) : Prop := a + len <= a' \/ a' + len' <= a.

Record mm_ok (mm : list mmap_region) : Prop := {
  mm_slots : List.length mm = MAX_MMAPS;
  mm_regions i r : mm !! i = Some r -> in_use r -> region_ok r;
  mm_disjoint i j r r' : mm !! i = Some r -> mm !! j = Some r' -> in_use r -> in_use r' -> i <> j ->
    disjoint (addr r) (length r) (addr r') (length r') }.

(** ** Lemmas *)

Lemma rend_ok r : region_ok r -> rend r = addr r + length r.
Proof. intros [? ? ? _]. unfold rend. apply u32_id. lia. Qed.

Lemma existsb_lookup f (mm : list mmap_region) :
  existsb f mm = true <-> exists i r, mm !! i = Some r /\ f r = true.
Proof.
  rewrite existsb_exists. split.
  - intros (r & Hin & Hf). apply list_elem_of_In in Hin. apply list_elem_of_lookup in Hin as [i Hi]. eauto.
  - intros (i & r & Hi & Hf). exists r. split; [|done]. apply list_elem_of_In. by eapply list_elem_of_lookup_2.
Qed.

(** Overlap as a statement about the ranges. *)
Lemma overlaps_spec a len r :
  (in_use r -> region_ok r) -> 0 <= a -> 0 <= len -> a + len < 4294967296 ->
  overlaps a len r = true <-> in_use r /\ ~ disjoint a len (addr r) (length r).
Proof.
  intros Hr Ha Hl Hs. unfold overlaps, in_use, disjoint in *. rewrite u32_id by lia.
  destruct (Z.eqb_spec (used r) 0) as [E|E]; cbn [negb andb]; [intuition congruence|].
  rewrite rend_ok by auto. rewrite andb_true_iff, !Z.ltb_lt. lia.
Qed.

Lemma overlaps_free_spec a len r :
  (in_use r -> region_ok r) -> 0 <= a -> 0 <= len -> a + len < 4294967296 ->
  overlaps_free a len r = true <-> in_use r /\ ~ disjoint a len (addr r) (length r).
Proof.
  intros Hr Ha Hl Hs. unfold overlaps_free, in_use, disjoint in *. rewrite u32_id by lia.
  destruct (Z.eqb_spec (used r) 0) as [E|E]; cbn [negb andb]; [intuition congruence|].
  rewrite rend_ok by auto. rewrite negb_true_iff, orb_false_iff, !Z.leb_gt. lia.
Qed.

Lemma contains_spec a r : (in_use r -> region_ok r) ->
  contains a r = true <-> in_use r /\ addr r <= a < addr r + length r.
Proof.
  intros Hr. unfold contains, in_use in *.
  destruct (Z.eqb_spec (used r) 0) as [E|E]; cbn [negb andb]; [intuition congruence|].
  rewrite rend_ok by auto. rewrite andb_true_iff, Z.leb_le, Z.ltb_lt. tauto.
Qed.

(** No used region overlaps the range. *)
Definition range_free (mm : list mmap_region) (a len : Z) : Prop :=
  forall i r, mm !! i = Some r -> in_use r -> disjoint a len (addr r) (length r).

Lemma existsb_overlaps (f : Z -> Z -> mmap_region -> bool) mm a len :
  (forall r, (in_use r -> region_ok r) ->
     f a len r = true <-> in_use r /\ ~ disjoint a len (addr r) (length r)) ->
  mm_ok mm -> existsb (f a len) mm = false <-> range_free mm a len.
Proof.
  intros Hf Hmm. rewrite <- not_true_iff_false, existsb_lookup. split.
  - intros Hno i r Hi Hu. destruct (decide (addr r + length r <= a)) as [|E]; [by right|].
    destruct (decide (a + len <= addr r)) as [|E']; [by left|]. destruct Hno. exists i, r.
    split; [done|]. apply Hf; [intros _; by eapply mm_regions|]. split; [done|]. unfold disjoint. lia.
  - intros Hfree (i & r & Hi & Ho). apply Hf in Ho as [Hu Hd]; [by apply Hd, (Hfree i)|].
    intros Hu. by eapply mm_regions.
Qed.

(** Entering a region into a slot. *)
Lemma mm_ok_insert mm i r :
  mm_ok mm -> (i < MAX_MMAPS)%nat ->
  (in_use r -> region_ok r /\ forall j r', j <> i -> mm !! j = Some r' -> in_use r' ->
     disjoint (addr r) (length r) (addr r') (length r')) ->
  mm_ok (<[i := r]> mm).
Proof.
  intros [Hl Hr Hd] Hi Hnew. split.
  - by rewrite length_insert.
  - intros j r' Hj Hu. apply list_lookup_insert_Some in Hj as [(-> & <- & _)|[_ Hj]]; [by apply Hnew|eauto].
  - intros j k r1 r2 Hj Hk Hu1 Hu2 Hne.
    apply list_lookup_insert_Some in Hj as [(<- & <- & _)|[Hj' Hj]];
      apply list_lookup_insert_Some in Hk as [(<- & <- & _)|[Hk' Hk]]; [done| | |eauto].
    + destruct (Hnew Hu1) as [_ H]. by apply (H k).
    + destruct (Hnew Hu2) as [_ H]. specialize (H j r1 ltac:(done) Hj Hu1). unfold disjoint in *. lia.
Qed.

(** Entries of a table keep their place when unrelated fields change. *)
Lemma mm_ok_update mm i r r' :
  mm_ok mm -> mm !! i = Some r -> addr r' = addr r -> length r' = length r ->
  (in_use r' -> in_use r) -> mm_ok (<[i := r']> mm).
Proof.
  intros Hmm Hi Ha Hl Hu. apply mm_ok_insert; [done| |].
  - rewrite <- (mm_slots _ Hmm). by eapply lookup_lt_Some.
  - intros Hu'%Hu. split.
    + destruct (mm_regions _ Hmm i r Hi Hu') as [H1 H2 H3 H4]. split; rewrite ?Ha, ?Hl; done.
    + intros j r2 Hj Hr2 Hu2. rewrite Ha, Hl. by eapply (mm_disjoint _ Hmm i j).
Qed.

(** At most one region contains an address. *)
Lemma contains_unique mm i j r r' a :
  mm_ok mm -> mm !! i = Some r -> mm !! j = Some r' -> contains a r = true -> contains a r' = true -> i = j.
Proof.
  intros Hmm Hi Hj Hc Hc'. destruct (decide (i = j)) as [|Hne]; [done|exfalso].
  apply contains_spec in Hc as [Hu Hr]; [|intros; by eapply mm_regions].
  apply contains_spec in Hc' as [Hu' Hr']; [|intros; by eapply mm_regions].
  destruct (mm_disjoint _ Hmm i j r r' Hi Hj Hu Hu' Hne); lia.
Qed.

(** The search for free space: from [a] on, the first page-aligned address whose
    range is free, or 0. *)
Lemma find_free_loop_spec mm len : mm_ok mm -> 0 < len < 2147483648 -> forall fuel a,
  0x60000000 <= a <= 0x80000000 -> a mod 4096 = 0 ->
  (Z.to_nat ((0x80000000 - a) / 4096) + 2 <= fuel)%nat ->
  exists x, find_free_loop fuel mm len a = Some x /\
    (x = 0 /\ (forall y, a <= y -> y mod 4096 = 0 -> y + len <= 0x80000000 -> ~ range_free mm y len) \/
     a <= x /\ x mod 4096 = 0 /\ x + len <= 0x80000000 /\ range_free mm x len /\
     forall y, a <= y < x -> y mod 4096 = 0 -> ~ range_free mm y len).
Proof.
  intros Hmm Hlen. induction fuel as [|fuel IH]; intros a Ha Hal Hf; [lia|]. cbn [find_free_loop].
  rewrite (u32_id (a + len)) by lia. destruct (Z.leb_spec (a + len) 0x80000000) as [E|E].
  - pose proof (existsb_overlaps overlaps_free mm a len
      (fun r Hr => overlaps_free_spec a len r Hr ltac:(lia) ltac:(lia) ltac:(lia)) Hmm) as Hov.
    destruct (existsb (overlaps_free a len) mm) eqn:Eo.
    + rewrite u32_id by (unfold_mmu; lia).
      assert (Hnf : ~ range_free mm a len) by (intros H%Hov; discriminate).
      destruct (IH (a + PGSIZE)) as (x & Hx & Hcase); [unfold_mmu; divlia|unfold_mmu; divlia|unfold_mmu; divlia|].
      exists x. split; [done|]. unfold PGSIZE in Hcase.
      destruct Hcase as [[-> Hno]|(H1 & H2 & H3 & H4 & H5)]; [left|right].
      * split; [done|]. intros y Hy Hya Hyl. destruct (decide (y = a)) as [->|]; [done|].
        apply Hno; [divlia|done|done].
      * split_and!; try done; [lia|]. intros y Hy Hya. destruct (decide (y = a)) as [->|]; [done|].
        apply H5; [divlia|done].
    + exists a. split; [done|]. right. split_and!; [lia|done|done|by apply Hov|lia].
  - exists 0. split; [done|]. left. split; [done|]. lia.
Qed.

(** check_fixed accepts exactly the ranges wmap may use.  On a well-formed
    table and a range that does not wrap around the address space, it answers 1
    if the address is page aligned, the range lies in the mapping area and
    overlaps no used region, and FAILED otherwise. *)
Lemma check_fixed_spec (mm : list mmap_region) (a len : Z) :
  mm_ok mm -> 0 <= a -> 0 < len < 2147483648 -> a + len < 4294967296 ->
  let P := a mod 4096 = 0 /\ 0x60000000 <= a /\ a + len <= 0x80000000 /\ range_free mm a len in
  check_fixed mm a len = 1 /\ P \/ check_fixed mm a len = FAILED /\ ~ P.
Proof.
  intros Hmm Ha Hl Hs P. unfold check_fixed. rewrite (u32_id (a + len)) by lia.
  change PGSIZE with 4096.
  destruct (Z.eqb_spec a 0); [right; split; [done|]; unfold P; lia|].
  destruct (Z.eqb_spec (a mod 4096) 0); [|right; split; [done|]; unfold P; lia]. cbn [orb negb].
  destruct (Z.ltb_spec a 0x60000000); [right; split; [done|]; unfold P; lia|].
  destruct (Z.ltb_spec 0x80000000 (a + len)); [right; split; [done|]; unfold P; lia|]. cbn [orb].
  pose proof (existsb_overlaps overlaps mm a len
    (fun r Hr => overlaps_spec a len r Hr ltac:(lia) ltac:(lia) ltac:(lia)) Hmm) as Hov.
  destruct (existsb (overlaps a len) mm) eqn:E.
  - right. split; [done|]. intros (_ & _ & _ & Hf%Hov). discriminate.
  - left. split; [done|]. unfold P. split_and!; [done|done|done|by apply Hov].
Qed.

(** A range that wraps around passes every test: its end is computed modulo 2^32, and
    no region reaches its start. *)
Lemma check_fixed_wraps (mm : list mmap_region) (a len : Z) :
  mm_ok mm -> 0 <= a < 4294967296 -> 0 < len < 2147483648 -> a mod 4096 = 0 -> 4294967296 <= a + len -> check_fixed mm a len = 1.
Proof.
  intros Hmm Ha Hl Hal Hw. unfold check_fixed. change PGSIZE with 4096. rewrite Hal.
  assert (Hu : u32 (a + len) = a + len - 4294967296) by (unfold u32; divlia). rewrite Hu.
  destruct (Z.eqb_spec a 0); [lia|]. cbn [orb negb Z.eqb].
  destruct (Z.ltb_spec a 0x60000000); [lia|].
  destruct (Z.ltb_spec 0x80000000 (a + len - 4294967296)); [lia|]. cbn [orb].
  destruct (existsb (overlaps a len) mm) eqn:E; [|done].
  apply existsb_lookup in E as (i & r & Hi & Ho). unfold overlaps in Ho. rewrite Hu in Ho.
  apply andb_prop in Ho as [Hus%negb_true_iff%Z.eqb_neq [Ho1%Z.ltb_lt Ho2%Z.ltb_lt]%andb_prop].
  destruct (mm_regions _ Hmm i r Hi Hus) as [R1 R2 R3 R4]. rewrite rend_ok in Ho1 by (by split). lia.
Qed.

(** Every range: the free ones of the mapping area and those that wrap around. *)
Lemma check_fixed_exact (mm : list mmap_region) (a len : Z) :
  mm_ok mm -> 0 <= a < 4294967296 -> 0 < len < 2147483648 -> a mod 4096 = 0 ->
  let P := 0x60000000 <= a /\ a + len <= 0x80000000 /\ range_free mm a len \/ 4294967296 <= a + len in
  check_fixed mm a len = 1 /\ P \/ check_fixed mm a len = FAILED /\ ~ P.
Proof.
  intros Hmm Ha Hl Hal P. destruct (decide (a + len < 4294967296)) as [Hlt|Hge].
  - destruct (check_fixed_spec mm a len Hmm) as [[E HP]|[E HP]]; [lia|lia|lia|left|right]; (split; [done|]); unfold P; [left; tauto|]. intros [H|H]; [tauto|lia].
  - left. split; [apply check_fixed_wraps; try done; lia|]. right. lia.
Qed.

(** ** Properties *)

Definition ex_table : list mmap_region :=
  Region 0x60000000 8192 0xE 1 (-1) 0 :: replicate 15 region0.

Lemma ex_table_used i r : ex_table !! i = Some r -> in_use r ->
  i = 0%nat /\ r = Region 0x60000000 8192 0xE 1 (-1) 0.
Proof.
  destruct i as [|i]; [by intros [= <-]|]. intros Hi Hu.
  change (replicate 15 region0 !! i = Some r) in Hi. apply lookup_replicate in Hi as [-> _]. by destruct Hu.
Qed.

Lemma ex_table_ok : mm_ok ex_table.
Proof.
  split; [done| |].
  - by intros i r Hi [-> ->]%(ex_table_used i r Hi).
  - intros i j r r' Hi Hj [-> _]%(ex_table_used i r Hi) [-> _]%(ex_table_used j r' Hj). done.
Qed.

(** The bounds test of check_fixed is done in 32-bit arithmetic: a
    page-aligned range that starts in the kernel's half of the address space and
    wraps around to an end at or below the mapping area is accepted. *)
Theorem check_fixed_accepts_wrapping (mm : list mmap_region) (a len : Z) :
  mm_ok mm -> 0x80000000 <= a < 4294967296 -> a mod 4096 = 0 -> 0 < len < 2147483648 ->
  4294967296 <= a + len <= 4294967296 + 0x60000000 ->
  check_fixed mm a len = 1.
Proof.
  intros Hmm Ha Hal Hl Hw. apply check_fixed_wraps; (done || lia).
Qed.

Lemma check_fixed_accepts_wrapping_witness : check_fixed ex_table 0xFFFFF000 4096 = 1.
Proof. apply (check_fixed_accepts_wrapping ex_table 0xFFFFF000 4096 ex_table_ok); (lia || reflexivity). Defined.

(** find_free_mmap_space terminates and returns the lowest page-aligned
    address of the mapping area whose range overlaps no used region, or 0 when
    there is none. *)
Theorem find_free_lowest (mm : list mmap_region) (len : Z) :
  mm_ok mm -> 0 < len < 2147483648 ->
  exists x, find_free_mmap_space mm len = Some x /\
    (x = 0 /\ (forall y, 0x60000000 <= y -> y mod 4096 = 0 -> y + len <= 0x80000000 -> ~ range_free mm y len) \/
     0x60000000 <= x /\ x mod 4096 = 0 /\ x + len <= 0x80000000 /\ range_free mm x len /\
     forall y, 0x60000000 <= y < x -> y mod 4096 = 0 -> ~ range_free mm y len).
Proof.
  intros Hmm Hl. apply find_free_loop_spec; [done..|lia|done|].
  change find_free_fuel with (Z.to_nat 131074). change ((0x80000000 - 0x60000000) / 4096) with 131072. lia.
Qed.

Lemma find_free_lowest_witness : find_free_mmap_space ex_table 4096 = Some 0x60002000.
Proof.
  destruct (find_free_lowest ex_table 4096 ex_table_ok ltac:(lia)) as (x & Hx & Hcase).
  assert (Hf : range_free ex_table 0x60002000 4096).
  { intros i r Hi [_ ->]%(ex_table_used i r Hi). right. cbn. lia. }
  destruct Hcase as [[_ Hno]|(H1 & H2 & H3 & H4 & H5)].
  - destruct (Hno 0x60002000); [lia|reflexivity|lia|exact Hf].
  - assert (x = 0x60002000) as ->; [|exact Hx].
    destruct (H4 0%nat (Region 0x60000000 8192 0xE 1 (-1) 0) eq_refl ltac:(discriminate)) as [H|H]; cbn in H; [lia|].
    destruct (decide (0x60002000 < x)) as [Hlt|]; [|lia].
    destruct (H5 0x60002000 ltac:(lia) eq_refl Hf).
Defined.
