(* ===== verification/Kernel.v ===== *)
(** * The kernel's shared state (proc.h, file.h, x86.h) and its spin locks

    One CPU runs kernel code of the current process.  [kst] holds what that code
    shares with the rest of the kernel: memory and page tables ([Kalloc]), the
    process table, the open-file table, the clock, the state of the file system
    (a type [F] the file layer is parametric in) and the spin locks this CPU
    holds.  Pointers to processes and files are indices into their tables; trap
    frames and kernel contexts live in memory.  Acquiring a lock this CPU holds
    and releasing one it does not hold panic, as in spinlock.c. *)

From Stdlib Require Import ZArith Lia.
From stdpp Require Import base tactics numbers option list strings zmap.
From S2P Require Import Prelude Memory Mmu StringOps Kalloc Wmap.

(** ** param.h *)
Definition NPROC : nat := 64.
Definition KSTACKSIZE : Z := 4096.
Definition NOFILE : nat := 16.
Definition NFILE : nat := 100.

(** ** Data *)

Inductive procstate : Type := UNUSED | EMBRYO | SLEEPING | RUNNABLE | RUNNING | ZOMBIE.

(** Sleep locks: that of a disk buffer, that of a cached inode. *)
Inductive slid : Type := SL_buf (b : nat) | SL_inode (i : nat).

#[export] Instance slid_eq_dec : EqDecision slid.
Proof. solve_decision. Defined.

(** Wait channels: the addresses the kernel sleeps on. *)
Inductive channel : Type :=
| Chan_proc (i : nat)        (* a process, in wait *)
| Chan_ticks                 (* &ticks *)
| Chan_nread (p : Z)         (* &p->nread of a pipe *)
| Chan_nwrite (p : Z)        (* &p->nwrite of a pipe *)
| Chan_sleeplock (lk : slid) (* a sleep lock *)
| Chan_buf (b : nat)         (* a disk buffer, in iderw *)
| Chan_log                   (* &log *)
| Chan_input.                (* &input.r of the console *)

(** Spin locks. *)
Inductive lockid : Type :=
| L_ptable | L_tickslock | L_ftable | L_cons | L_ide | L_bcache | L_log | L_icache
| L_pipe (p : Z)
| L_sleep (lk : slid).       (* lk->lk of a sleep lock *)

#[export] Instance procstate_eq_dec : EqDecision procstate.
Proof. solve_decision. Defined.
#[export] Instance channel_eq_dec : EqDecision channel.
Proof. solve_decision. Defined.
#[export] Instance lockid_eq_dec : EqDecision lockid.
Proof. solve_decision. Defined.

(** struct wmapinfo of wmap.h. *)
Record wmapinfo : Type := Wmapinfo {
  wi_total_mmaps : Z;
  wi_addr : list Z;
  wi_length : list Z;
  wi_n_loaded_pages : list Z }.

(** struct proc of proc.h. *)
Record proc : Type := Proc {
  sz : Z;
  pgdir : Z;
  kstack : Z;
  state : procstate;
  pid : Z;
  parent : option nat;
  tf : Z;
  context : Z;
  chan : option channel;
  killed : Z;
  ofile : list (option nat);
  cwd : option nat;
  name : list Z;
  mmap : list mmap_region;
  wmap_info : wmapinfo;
  total_mmaps : Z }.

Definition set_p_sz (v : Z) (p : proc) : proc :=
  Proc v (pgdir p) (kstack p) (state p) (pid p) (parent p) (tf p) (context p) (chan p) (killed p) (ofile p)
    (cwd p) (name p) (mmap p) (wmap_info p) (total_mmaps p).
Definition set_p_pgdir (v : Z) (p : proc) : proc :=
  Proc (sz p) v (kstack p) (state p) (pid p) (parent p) (tf p) (context p) (chan p) (killed p) (ofile p)
    (cwd p) (name p) (mmap p) (wmap_info p) (total_mmaps p).
Definition set_p_kstack (v : Z) (p : proc) : proc :=
  Proc (sz p) (pgdir p) v (state p) (pid p) (parent p) (tf p) (context p) (chan p) (killed p) (ofile p) (cwd p) (name p) (mmap p) (wmap_info p) (total_mmaps p).
Definition set_p_state (v : procstate) (p : proc) : proc :=
  Proc (sz p) (pgdir p) (kstack p) v (pid p) (parent p) (tf p) (context p) (chan p) (killed p) (ofile p)
    (cwd p) (name p) (mmap p) (wmap_info p) (total_mmaps p).
Definition set_p_pid (v : Z) (p : proc) : proc :=
  Proc (sz p) (pgdir p) (kstack p) (state p) v (parent p) (tf p) (context p) (chan p) (killed p) (ofile p)
    (cwd p) (name p) (mmap p) (wmap_info p) (total_mmaps p).
Definition set_p_parent (v : option nat) (p : proc) : proc :=
  Proc (sz p) (pgdir p) (kstack p) (state p) (pid p) v (tf p) (context p) (chan p) (killed p) (ofile p) (cwd p) (name p) (mmap p) (wmap_info p) (total_mmaps p).
Definition set_p_tf (v : Z) (p : proc) : proc :=
  Proc (sz p) (pgdir p) (kstack p) (state p) (pid p) (parent p) v (context p) (chan p) (killed p) (ofile p)
    (cwd p) (name p) (mmap p) (wmap_info p) (total_mmaps p).
Definition set_p_context (v : Z) (p : proc) : proc :=
  Proc (sz p) (pgdir p) (kstack p) (state p) (pid p) (parent p) (tf p) v (chan p) (killed p) (ofile p) (cwd p) (name p) (mmap p) (wmap_info p) (total_mmaps p).
Definition set_p_chan (v : option channel) (p : proc) : proc :=
  Proc (sz p) (pgdir p) (kstack p) (state p) (pid p) (parent p) (tf p) (context p) v (killed p) (ofile p)
    (cwd p) (name p) (mmap p) (wmap_info p) (total_mmaps p).
Definition set_p_killed (v : Z) (p : proc) : proc :=
  Proc (sz p) (pgdir p) (kstack p) (state p) (pid p) (parent p) (tf p) (context p) (chan p) v (ofile p) (cwd p) (name p) (mmap p) (wmap_info p) (total_mmaps p).
Definition set_p_ofile (v : list (option nat)) (p : proc) : proc :=
  Proc (sz p) (pgdir p) (kstack p) (state p) (pid p) (parent p) (tf p) (context p) (chan p) (killed p) v
    (cwd p) (name p) (mmap p) (wmap_info p) (total_mmaps p).
Definition set_p_cwd (v : option nat) (p : proc) : proc :=
  Proc (sz p) (pgdir p) (kstack p) (state p) (pid p) (parent p) (tf p) (context p) (chan p) (killed p)
    (ofile p) v (name p) (mmap p) (wmap_info p) (total_mmaps p).
Definition set_p_name (v : list Z) (p : proc) : proc :=
  Proc (sz p) (pgdir p) (kstack p) (state p) (pid p) (parent p) (tf p) (context p) (chan p) (killed p)
    (ofile p) (cwd p) v (mmap p) (wmap_info p) (total_mmaps p).
Definition set_p_mmap (v : list mmap_region) (p : proc) : proc :=
  Proc (sz p) (pgdir p) (kstack p) (state p) (pid p) (parent p) (tf p) (context p) (chan p) (killed p)
    (ofile p) (cwd p) (name p) v (wmap_info p) (total_mmaps p).
Definition set_p_wmap_info (v : wmapinfo) (p : proc) : proc :=
  Proc (sz p) (pgdir p) (kstack p) (state p) (pid p) (parent p) (tf p) (context p) (chan p) (killed p)
    (ofile p) (cwd p) (name p) (mmap p) v (total_mmaps p).
Definition set_p_total_mmaps (v : Z) (p : proc) : proc :=
  Proc (sz p) (pgdir p) (kstack p) (state p) (pid p) (parent p) (tf p) (context p) (chan p) (killed p)
    (ofile p) (cwd p) (name p) (mmap p) (wmap_info p) v.

(** struct file of file.h. *)
Inductive filetype : Type := FD_NONE | FD_PIPE | FD_INODE.

#[export] Instance filetype_eq_dec : EqDecision filetype.
Proof. solve_decision. Defined.

Record file : Type := File {
  type : filetype;
  ref : Z;
  readable : Z;
  writable : Z;
  fpipe : Z;
  ip : option nat;
  off : Z }.

Definition set_f_type (v : filetype) (f : file) : file :=
  File v (ref f) (readable f) (writable f) (fpipe f) (ip f) (off f).
Definition set_f_ref (v : Z) (f : file) : file :=
  File (type f) v (readable f) (writable f) (fpipe f) (ip f) (off f).
Definition set_f_readable (v : Z) (f : file) : file :=
  File (type f) (ref f) v (writable f) (fpipe f) (ip f) (off f).
Definition set_f_writable (v : Z) (f : file) : file :=
  File (type f) (ref f) (readable f) v (fpipe f) (ip f) (off f).
Definition set_f_fpipe (v : Z) (f : file) : file :=
  File (type f) (ref f) (readable f) (writable f) v (ip f) (off f).
Definition set_f_ip (v : option nat) (f : file) : file :=
  File (type f) (ref f) (readable f) (writable f) (fpipe f) v (off f).
Definition set_f_off (v : Z) (f : file) : file :=
  File (type f) (ref f) (readable f) (writable f) (fpipe f) (ip f) v.

(** The parts of struct cpu (proc.h) and of the processor that are written on a
    context switch: the task segment descriptor, the stack of the task state, the
    task register. *)
Record cpust : Type := Cpu {
  gdt_tss : segdesc;
  ts_ss0 : Z;
  ts_esp0 : Z;
  ts_iomb : Z;
  tr : Z }.

Record kst (F : Type) : Type := KS {
  km : kmst;
  procs : list proc;
  cur : option nat;
  cpu : cpust;
  held : list lockid;
  nextpid : Z;
  initproc : option nat;
  ticks : Z;
  files : list file;
  fsys : F }.

Arguments KS {F}.
Arguments km {F}.
Arguments procs {F}.
Arguments cur {F}.
Arguments cpu {F}.
Arguments held {F}.
Arguments nextpid {F}.
Arguments initproc {F}.
Arguments ticks {F}.
Arguments files {F}.
Arguments fsys {F}.

(** Addresses the linker gives to code and data the kernel refers to. *)
Class KernelSymbols : Type := {
  k_trapret : Z;   (* trapret of trapasm.S *)
  k_forkret : Z;   (* forkret of proc.c *)
  k_ts : Z }.      (* the task state of this CPU *)

Section kernel.
Context {F : Type}.

Definition set_km (v : kmst) (s : kst F) : kst F :=
  KS v (procs s) (cur s) (cpu s) (held s) (nextpid s) (initproc s) (ticks s) (files s) (fsys s).
Definition set_procs (v : list proc) (s : kst F) : kst F :=
  KS (km s) v (cur s) (cpu s) (held s) (nextpid s) (initproc s) (ticks s) (files s) (fsys s).
Definition set_cur (v : option nat) (s : kst F) : kst F :=
  KS (km s) (procs s) v (cpu s) (held s) (nextpid s) (initproc s) (ticks s) (files s) (fsys s).
Definition set_cpu (v : cpust) (s : kst F) : kst F :=
  KS (km s) (procs s) (cur s) v (held s) (nextpid s) (initproc s) (ticks s) (files s) (fsys s).
Definition set_held (v : list lockid) (s : kst F) : kst F :=
  KS (km s) (procs s) (cur s) (cpu s) v (nextpid s) (initproc s) (ticks s) (files s) (fsys s).
Definition set_nextpid (v : Z) (s : kst F) : kst F :=
  KS (km s) (procs s) (cur s) (cpu s) (held s) v (initproc s) (ticks s) (files s) (fsys s).
Definition set_initproc (v : option nat) (s : kst F) : kst F :=
  KS (km s) (procs s) (cur s) (cpu s) (held s) (nextpid s) v (ticks s) (files s) (fsys s).
Definition set_ticks (v : Z) (s : kst F) : kst F :=
  KS (km s) (procs s) (cur s) (cpu s) (held s) (nextpid s) (initproc s) v (files s) (fsys s).
Definition set_files (v : list file) (s : kst F) : kst F :=
  KS (km s) (procs s) (cur s) (cpu s) (held s) (nextpid s) (initproc s) (ticks s) v (fsys s).
Definition set_fsys (v : F) (s : kst F) : kst F :=
  KS (km s) (procs s) (cur s) (cpu s) (held s) (nextpid s) (initproc s) (ticks s) (files s) v.

(** Routines of the memory subsystem, of the file system. *)
Definition run_km {A} (m : M kmst A) : M (kst F) A := zoom km set_km m.
Definition run_fs {A} (m : M F A) : M (kst F) A := zoom fsys set_fsys m.

(** ** Spin locks *)

Definition holding (l : lockid) : M (kst F) bool := gets (fun s => bool_decide (l ∈ held s)).

Definition acquire (l : lockid) : M (kst F) unit :=
  b ← holding l;
  if (b : bool) then panic "acquire" else modify (fun s => set_held (l :: held s) s).

Definition release (l : lockid) : M (kst F) unit :=
  b ← holding l;
  if (b : bool) then modify (fun s => set_held (filter (fun l' => l' <> l) (held s)) s)
  else panic "release".

(** initlock of spinlock.c: the lock is free afterwards, whoever held it. *)
Definition initlock (l : lockid) : M (kst F) unit :=
  modify (fun s => set_held (filter (fun l' => l' <> l) (held s)) s).

(** ** Access to the tables *)

Definition get_proc (i : nat) : M (kst F) proc :=
  s ← get;
  match procs s !! i with Some p => mret p | None => undef "process pointer out of range" end.
Definition upd_proc (i : nat) (f : proc -> proc) : M (kst F) unit :=
  p ← get_proc i; modify (fun s => set_procs (<[i := f p]> (procs s)) s).

Definition get_file (i : nat) : M (kst F) file :=
  s ← get;
  match files s !! i with Some f => mret f | None => undef "file pointer out of range" end.
Definition upd_file (i : nat) (g : file -> file) : M (kst F) unit :=
  f ← get_file i; modify (fun s => set_files (<[i := g f]> (files s)) s).

(** myproc of proc.c; a caller that dereferences the result uses [curproc]. *)
Definition myproc : M (kst F) (option nat) := gets cur.
Definition curproc : M (kst F) nat :=
  p ← myproc; match p with Some i => mret i | None => undef "null process" end.

(** Words of kernel memory. *)
Definition kld32 (a : Z) : M (kst F) Z := gets (fun s => ld32 (mem (km s)) a).
Definition kst32 (a v : Z) : M (kst F) unit :=
  modify (fun s => set_km (set_mem (st32 (mem (km s)) a v) (km s)) s).

Definition kld16 (a : Z) : M (kst F) Z :=
  gets (fun s => ld8 (mem (km s)) a + 256 * ld8 (mem (km s)) (a + 1)).
Definition kst16 (a v : Z) : M (kst F) unit :=
  modify (fun s => set_km (set_mem (st8 (st8 (mem (km s)) a v) (a + 1) (v / 256)) (km s)) s).

(** ** Running these routines *)

Lemma run_acquire l s : l ∉ held s -> acquire l s = Ret tt (set_held (l :: held s) s).
Proof. intros. unfold acquire, holding. mrun. by rewrite bool_decide_false. Qed.

Lemma run_release l s : l ∈ held s ->
  release l s = Ret tt (set_held (filter (fun l' => l' <> l) (held s)) s).
Proof. intros. unfold release, holding. mrun. by rewrite bool_decide_true. Qed.

Lemma run_release_top s l ls : held s = l :: ls -> l ∉ ls -> release l s = Ret tt (set_held ls s).
Proof.
  intros Hh Hl. rewrite run_release by (rewrite Hh; left). rewrite Hh, filter_cons_False by tauto.
  by rewrite filter_ne_id.
Qed.

Lemma run_release_under s l l2 ls : held s = l2 :: l :: ls -> l <> l2 -> l ∉ ls ->
  release l s = Ret tt (set_held (l2 :: ls) s).
Proof.
  intros Hh Hne Hl. rewrite run_release by (rewrite Hh; right; left).
  rewrite Hh, filter_cons_True, filter_cons_False by (congruence || tauto). by rewrite filter_ne_id.
Qed.

Lemma run_get_proc s i p : procs s !! i = Some p -> get_proc i s = Ret p s.
Proof. intros Hi. unfold get_proc. mrun. by rewrite Hi. Qed.

Lemma run_upd_proc s i f p : procs s !! i = Some p ->
  upd_proc i f s = Ret tt (set_procs (<[i := f p]> (procs s)) s).
Proof. intros Hi. unfold upd_proc. by rewrite (bind_ret_run _ _ _ _ _ (run_get_proc s i p Hi)). Qed.

Lemma run_upd_proc_ins s i f p l : procs s = <[i := p]> l -> (i < List.length l)%nat ->
  upd_proc i f s = Ret tt (set_procs (<[i := f p]> l) s).
Proof.
  intros Hl Hi. rewrite (run_upd_proc s i f p) by (rewrite Hl; by apply list_lookup_insert_eq).
  by rewrite Hl, list_insert_insert_eq.
Qed.

Lemma run_get_file s i f : files s !! i = Some f -> get_file i s = Ret f s.
Proof. intros Hi. unfold get_file. mrun. by rewrite Hi. Qed.

Lemma run_upd_file s i g f : files s !! i = Some f ->
  upd_file i g s = Ret tt (set_files (<[i := g f]> (files s)) s).
Proof. intros Hi. unfold upd_file. by rewrite (bind_ret_run _ _ _ _ _ (run_get_file s i f Hi)). Qed.

Lemma run_curproc s i : cur s = Some i -> curproc s = Ret i s.
Proof. intros Hi. unfold curproc, myproc. mrun. by rewrite Hi. Qed.

Lemma run_run_km {A} s (m : M kmst A) a t : m (km s) = Ret a t -> run_km m s = Ret a (set_km t s).
Proof. intros E. unfold run_km, zoom. by rewrite E. Qed.

End kernel.

(** Simplify projections of updated states; run the next routine of a sequence
    by a lemma [routine s = Ret a s']. *)
Ltac ksimp :=
  cbn [km procs cur cpu held nextpid initproc ticks files fsys set_km set_procs set_cur set_cpu
       set_held set_nextpid set_initproc set_ticks set_files set_fsys].
Tactic Notation "krun_with" uconstr(H) := erewrite bind_ret_run; [|apply H; ksimp]; [cbv beta iota|..].

(** ** struct trapframe of x86.h: offsets of its fields *)
Definition tf_eax : Z := 28.
Definition tf_es : Z := 40.
Definition tf_ds : Z := 44.
Definition tf_trapno : Z := 48.
Definition tf_err : Z := 52.
Definition tf_eip : Z := 56.
Definition tf_cs : Z := 60.
Definition tf_eflags : Z := 64.
Definition tf_esp : Z := 68.
Definition tf_ss : Z := 72.
Definition sizeof_trapframe : Z := 76.

(** struct context of proc.h. *)
Definition ctx_ebp : Z := 12.
Definition ctx_eip : Z := 16.
Definition sizeof_context : Z := 20.
