(* ===== verification/Spinlock.v ===== *)
(** * Spin locks on several CPUs (spinlock.c)

    The rest of the library runs on one CPU and sees a lock as held or not.  Here the
    code of spinlock.c runs on any number of CPUs at once: every access to a field of
    a lock is one step of one CPU, and the steps of the CPUs interleave arbitrarily.
    Interrupts are taken whenever a CPU has them enabled; a handler is code that uses
    locks like any other.  The client code of a CPU calls acquire for locks it does
    not hold and release for locks it holds.  The recorded call stack (pcs) is
    debugging output and left out. *)

From Stdlib Require Import ZArith Lia.
From stdpp Require Import base tactics numbers option list.
From S2P Require Import Prelude.

Record spinlock : Type := Spinlock { lk_locked : Z; lk_cpu : option nat }.

(** Where a CPU is: in its own code, in acquire or release of a lock, or in panic.
    [A_locked] and [A_owner] are the two reads of holding. *)
Inductive point : Type :=
| Run
| A_locked (lk : nat) | A_owner (lk : nat) | A_spin (lk : nat) | A_record (lk : nat)
| R_locked (lk : nat) | R_owner (lk : nat) | R_clear (lk : nat) | R_unlock (lk : nat) | R_pop (lk : nat)
| Panicked.

#[export] Instance point_eq_dec : EqDecision point.
Proof. solve_decision. Defined.

(** A CPU: the interrupt flag, the fields ncli and intena of struct cpu, whether an
    interrupt handler runs, where it is, and the locks its code has acquired. *)
Record cpu_st : Type := Cpu {
  c_if : bool; ncli : Z; intena : bool; in_handler : bool; pc : point; owns : list nat }.

Record machine : Type := Machine { cpus : list cpu_st; locks : list spinlock }.

Definition set_pc (q : point) (x : cpu_st) : cpu_st := Cpu (c_if x) (ncli x) (intena x) (in_handler x) q (owns x).
Definition set_owns (l : list nat) (x : cpu_st) : cpu_st := Cpu (c_if x) (ncli x) (intena x) (in_handler x) (pc x) l.

Definition pushcli (x : cpu_st) : cpu_st :=
  Cpu false (ncli x + 1) (if ncli x =? 0 then c_if x else intena x) (in_handler x) (pc x) (owns x).

(** None is a panic. *)
Definition popcli (x : cpu_st) : option cpu_st :=
  if c_if x then None
  else
    let n := ncli x - 1 in
    if n <? 0 then None
    else Some (Cpu ((n =? 0) && intena x) n (intena x) (in_handler x) (pc x) (owns x)).

(** After popcli at [q]. *)
Definition pop_to (q : point) (x : cpu_st) : cpu_st :=
  match popcli x with Some y => set_pc q y | None => set_pc Panicked x end.

(** mycpu panics when interrupts are enabled. *)
Definition mycpu_to (x : cpu_st) (y : cpu_st) : cpu_st := if c_if x then set_pc Panicked x else y.

(** One step of CPU [c] inside acquire or release: the CPU and the lock after it. *)
Definition lock_exec (c : nat) (x : cpu_st) (l : spinlock) : cpu_st * spinlock :=
  match pc x with
  | A_locked lk => if lk_locked l =? 0 then (pop_to (A_spin lk) x, l) else (set_pc (A_owner lk) x, l)
  | A_owner lk => (mycpu_to x (if bool_decide (lk_cpu l = Some c) then set_pc Panicked x else pop_to (A_spin lk) x), l)
  | A_spin lk =>
      if lk_locked l =? 0 then (set_owns (lk :: owns x) (set_pc (A_record lk) x), Spinlock 1 (lk_cpu l))
      else (x, Spinlock 1 (lk_cpu l))
  | A_record lk => (mycpu_to x (set_pc Run x), Spinlock (lk_locked l) (Some c))
  | R_locked lk => if lk_locked l =? 0 then (set_pc Panicked x, l) else (set_pc (R_owner lk) x, l)
  | R_owner lk => (mycpu_to x (if bool_decide (lk_cpu l = Some c) then pop_to (R_clear lk) x else set_pc Panicked x), l)
  | R_clear lk => (set_pc (R_unlock lk) x, Spinlock (lk_locked l) None)
  | R_unlock lk => (set_owns (filter (fun k => k <> lk) (owns x)) (set_pc (R_pop lk) x), Spinlock 0 (lk_cpu l))
  | R_pop lk => (pop_to Run x, l)
  | Run | Panicked => (x, l)
  end.

(** The lock the CPU is working on. *)
Definition target (q : point) : nat :=
  match q with
  | A_locked lk | A_owner lk | A_spin lk | A_record lk | R_locked lk | R_owner lk | R_clear lk | R_unlock lk | R_pop lk => lk
  | Run | Panicked => 0
  end.

Inductive step (st : machine) : machine -> Prop :=
| step_acquire c x lk : cpus st !! c = Some x -> pc x = Run -> (lk < List.length (locks st))%nat -> lk ∉ owns x ->
    step st (Machine (<[c := set_pc (A_locked lk) (pushcli (pushcli x))]> (cpus st)) (locks st))
| step_release c x lk : cpus st !! c = Some x -> pc x = Run -> lk ∈ owns x ->
    step st (Machine (<[c := set_pc (R_locked lk) (pushcli x)]> (cpus st)) (locks st))
| step_exec c x l : cpus st !! c = Some x -> locks st !! target (pc x) = Some l ->
    step st (Machine (<[c := (lock_exec c x l).1]> (cpus st)) (<[target (pc x) := (lock_exec c x l).2]> (locks st)))
| step_interrupt c x : cpus st !! c = Some x -> c_if x = true ->
    step st (Machine (<[c := Cpu false (ncli x) (intena x) true (pc x) (owns x)]> (cpus st)) (locks st))
| step_iret c x : cpus st !! c = Some x -> in_handler x = true -> pc x = Run -> owns x = [] ->
    step st (Machine (<[c := Cpu true (ncli x) (intena x) false (pc x) (owns x)]> (cpus st)) (locks st)).

(** initlock *)
Definition unlocked : spinlock := Spinlock 0 None.
Definition idle_cpu : cpu_st := Cpu true 0 false false Run [].

(** [n] CPUs that run with interrupts enabled, and [m] locks. *)
Definition boot (n m : nat) : machine := Machine (replicate n idle_cpu) (replicate m unlocked).

Inductive reachable (n m : nat) : machine -> Prop :=
| reach_boot : reachable n m (boot n m)
| reach_step st st' : reachable n m st -> step st st' -> reachable n m st'.

(** ** The invariant *)

(** Between the change of the locked field and that of the owner. *)
Definition unset (q : point) (lk : nat) : bool := bool_decide (q = A_record lk \/ q = R_unlock lk).

(** pushcli calls that have no lock to show for them. *)
Definition extra (q : point) : Z :=
  match q with
  | A_locked _ | A_owner _ => 2
  | A_spin _ | R_locked _ | R_owner _ | R_pop _ => 1
  | _ => 0
  end.

Definition pc_ok (n : nat) (q : point) (l : list nat) : Prop :=
  match q with
  | Run | R_pop _ => True
  | A_locked lk | A_owner lk | A_spin lk => (lk < n)%nat /\ (lk ∉ l)
  | A_record lk | R_locked lk | R_owner lk | R_clear lk | R_unlock lk => lk ∈ l
  | Panicked => False
  end.

Record cpu_ok (n : nat) (x : cpu_st) : Prop := Cpu_ok {
  co_ncli : ncli x = extra (pc x) + Z.of_nat (List.length (owns x));
  co_if : c_if x = bool_decide (ncli x = 0) && negb (in_handler x);
  co_intena : 0 < ncli x -> intena x = negb (in_handler x);
  co_nodup : NoDup (owns x);
  co_pc : pc_ok n (pc x) (owns x) }.

(** The fields of lock [lk] when CPU [o] owns it. *)
Definition lock_of (st : machine) (lk : nat) (o : option nat) (l : spinlock) : Prop :=
  match o with
  | None => l = unlocked
  | Some c => exists x, cpus st !! c = Some x /\ l = Spinlock 1 (if unset (pc x) lk then None else Some c)
  end.

Record inv_by (owner : nat -> option nat) (st : machine) : Prop := Inv_by {
  in_cpus c x : cpus st !! c = Some x -> cpu_ok (List.length (locks st)) x;
  in_owner c x lk : cpus st !! c = Some x -> lk ∈ owns x <-> owner lk = Some c;
  in_locks lk l : locks st !! lk = Some l -> lock_of st lk (owner lk) l }.

Definition inv (st : machine) : Prop := exists owner, inv_by owner st.

(** A step of CPU [c] that changes no lock. *)
Lemma inv_local owner st c x x' :
  inv_by owner st -> cpus st !! c = Some x -> cpu_ok (List.length (locks st)) x' -> owns x' = owns x ->
  (forall lk, unset (pc x') lk = unset (pc x) lk) -> inv_by owner (Machine (<[c := x']> (cpus st)) (locks st)).
Proof.
  intros [H1 H2 H3] Hx Hok Ho Hu. assert (Hl : (c < List.length (cpus st))%nat) by (by eapply lookup_lt_Some). split; cbn.
  - intros d y Hy. destruct (decide (d = c)) as [->|Hne]; [|rewrite list_lookup_insert_ne in Hy by done; eauto].
    rewrite list_lookup_insert_eq in Hy by done. by injection Hy as <-.
  - intros d y lk Hy. destruct (decide (d = c)) as [->|Hne]; [|rewrite list_lookup_insert_ne in Hy by done; eauto].
    rewrite list_lookup_insert_eq in Hy by done. injection Hy as <-. rewrite Ho. eauto.
  - intros lk l Hlk. specialize (H3 lk l Hlk). unfold lock_of in *. destruct (owner lk) as [d|]; [|done].
    destruct H3 as (y & Hy & El). destruct (decide (d = c)) as [->|Hne].
    + exists x'. cbn. rewrite list_lookup_insert_eq by done. split; [done|]. assert (y = x) as -> by congruence. by rewrite Hu.
    + exists y. cbn. by rewrite list_lookup_insert_ne.
Qed.

(** A step of CPU [c] on lock [t], after which CPU [o] owns it. *)
Lemma inv_update owner st c x x' t l l' o :
  inv_by owner st -> cpus st !! c = Some x -> locks st !! t = Some l -> cpu_ok (List.length (locks st)) x' ->
  (forall lk, lk <> t -> lk ∈ owns x' <-> lk ∈ owns x) -> (t ∈ owns x' <-> o = Some c) ->
  (forall d, d <> c -> o = Some d <-> owner t = Some d) -> (forall lk, lk <> t -> unset (pc x') lk = unset (pc x) lk) ->
  (match o with
   | None => l' = unlocked
   | Some d => if decide (d = c) then l' = Spinlock 1 (if unset (pc x') t then None else Some c) else l' = l
   end) ->
  inv_by (fun lk => if decide (lk = t) then o else owner lk) (Machine (<[c := x']> (cpus st)) (<[t := l']> (locks st))).
Proof.
  intros [H1 H2 H3] Hx Ht Hok Ho Hto Hoth Hu Hl'. assert (Hl : (c < List.length (cpus st))%nat) by (by eapply lookup_lt_Some).
  split; cbn; rewrite ?length_insert.
  - intros d y Hy. destruct (decide (d = c)) as [->|Hne]; [|rewrite list_lookup_insert_ne in Hy by done; eauto].
    rewrite list_lookup_insert_eq in Hy by done. by injection Hy as <-.
  - intros d y lk Hy. destruct (decide (d = c)) as [->|Hne].
    + rewrite list_lookup_insert_eq in Hy by done. injection Hy as <-. case_decide as E; [by subst|]. rewrite Ho by done. eauto.
    + rewrite list_lookup_insert_ne in Hy by done. case_decide as E; [subst lk; rewrite Hoth by done|]; eauto.
  - intros lk k Hk. case_decide as E.
    + subst lk. rewrite list_lookup_insert_eq in Hk by (by eapply lookup_lt_Some). injection Hk as <-. destruct o as [d|]; [|done].
      case_decide as E; [subst d; exists x'; split; [by apply list_lookup_insert_eq|done]|]. subst l'.
      specialize (H3 t l Ht). rewrite (proj1 (Hoth d E) eq_refl) in H3. destruct H3 as (y & Hy & El). exists y.
      split; [cbn; by rewrite list_lookup_insert_ne|done].
    + rewrite list_lookup_insert_ne in Hk by done. specialize (H3 lk k Hk). unfold lock_of in *. destruct (owner lk) as [d|]; [|done].
      destruct H3 as (y & Hy & El). destruct (decide (d = c)) as [->|Hne].
      * exists x'. cbn. rewrite list_lookup_insert_eq by done. split; [done|]. assert (y = x) as -> by congruence. by rewrite Hu.
      * exists y. cbn. by rewrite list_lookup_insert_ne.
Qed.

(** ** Every step preserves it *)

Lemma popcli_ok q x n : cpu_ok n x -> 0 < ncli x -> extra q + Z.of_nat (List.length (owns x)) = ncli x - 1 -> pc_ok n q (owns x) ->
  cpu_ok n (pop_to q x) /\ pc (pop_to q x) = q /\ owns (pop_to q x) = owns x.
Proof.
  intros [Hn Hi He Hnd Hpc] Hpos Hex Hq. unfold pop_to, popcli. rewrite bool_decide_false in Hi by lia. rewrite Hi. cbn [andb].
  rewrite (proj2 (Z.ltb_ge _ _)) by lia. split; [|done]. split; cbn; try done; [|intros _; by apply He].
  rewrite He by lia. by destruct (Z.eqb_spec (ncli x - 1) 0) as [E|E]; [rewrite bool_decide_true|rewrite bool_decide_false].
Qed.

(** The part of [cpu_ok] about interrupts. *)
Definition cli_ok (x : cpu_st) : Prop :=
  0 <= ncli x /\ c_if x = bool_decide (ncli x = 0) && negb (in_handler x) /\ (0 < ncli x -> intena x = negb (in_handler x)).

Lemma pushcli_ok x : cli_ok x -> cli_ok (pushcli x).
Proof.
  intros (Hn & Hi & He). unfold cli_ok. cbn. split; [lia|]. rewrite (bool_decide_false (ncli x + 1 = 0)) by lia. split; [done|]. intros _.
  destruct (Z.eqb_spec (ncli x) 0) as [E|E]; [|apply He; lia]. rewrite Hi, bool_decide_true by done. done.
Qed.

Lemma cpu_cli_ok n x : cpu_ok n x -> cli_ok x.
Proof. intros []. split; [|done]. destruct (pc x); cbn in *; lia. Qed.

Lemma unset_not q lk : (forall k, q <> A_record k) -> (forall k, q <> R_unlock k) -> unset q lk = false.
Proof. intros H1 H2. apply bool_decide_false. intros [E|E]; [by eapply H1|by eapply H2]. Qed.

Lemma step_inv_acquire owner st c x lk : inv_by owner st -> cpus st !! c = Some x -> pc x = Run -> (lk < List.length (locks st))%nat -> lk ∉ owns x ->
  inv_by owner (Machine (<[c := set_pc (A_locked lk) (pushcli (pushcli x))]> (cpus st)) (locks st)).
Proof.
  intros Hinv Hx Hpc Hlk Hno. pose proof (in_cpus _ _ Hinv c x Hx) as [Hn Hi He Hnd _]. rewrite Hpc in Hn. cbn in Hn.
  eapply inv_local; [done|exact Hx| |done|intros k; rewrite Hpc; by rewrite !unset_not].
  pose proof (pushcli_ok _ (pushcli_ok _ (cpu_cli_ok _ _ (in_cpus _ _ Hinv c x Hx)))) as (P1 & P2 & P3).
  split; [cbn; lia|exact P2|exact P3|done|done].
Qed.

Lemma step_inv_release owner st c x lk : inv_by owner st -> cpus st !! c = Some x -> pc x = Run -> lk ∈ owns x ->
  inv_by owner (Machine (<[c := set_pc (R_locked lk) (pushcli x)]> (cpus st)) (locks st)).
Proof.
  intros Hinv Hx Hpc Hlk. pose proof (in_cpus _ _ Hinv c x Hx) as [Hn Hi He Hnd _]. rewrite Hpc in Hn. cbn in Hn.
  eapply inv_local; [done|exact Hx| |done|intros k; rewrite Hpc; by rewrite !unset_not].
  pose proof (pushcli_ok _ (cpu_cli_ok _ _ (in_cpus _ _ Hinv c x Hx))) as (P1 & P2 & P3).
  split; [cbn; lia|exact P2|exact P3|done|done].
Qed.

Lemma step_inv_interrupt owner st c x : inv_by owner st -> cpus st !! c = Some x -> c_if x = true ->
  inv_by owner (Machine (<[c := Cpu false (ncli x) (intena x) true (pc x) (owns x)]> (cpus st)) (locks st)).
Proof.
  intros Hinv Hx Hif. pose proof (in_cpus _ _ Hinv c x Hx) as [Hn Hi He Hnd Hpc]. rewrite Hif in Hi. symmetry in Hi.
  apply andb_prop in Hi as [H0%bool_decide_eq_true _]. eapply inv_local; [done|exact Hx| |done|done].
  split; cbn; try done; [by rewrite andb_false_r|lia].
Qed.

Lemma step_inv_iret owner st c x : inv_by owner st -> cpus st !! c = Some x -> in_handler x = true -> pc x = Run -> owns x = [] ->
  inv_by owner (Machine (<[c := Cpu true (ncli x) (intena x) false (pc x) (owns x)]> (cpus st)) (locks st)).
Proof.
  intros Hinv Hx Hh Hrun Ho. pose proof (in_cpus _ _ Hinv c x Hx) as [Hn Hi He Hnd Hpc]. rewrite Hrun, Ho in Hn. cbn in Hn.
  eapply inv_local; [done|exact Hx| |done|done]. split; cbn; rewrite ?Hrun, ?Ho; try done; [by rewrite bool_decide_true by lia|lia|constructor].
Qed.

(** *** A step inside acquire or release *)

Section exec_steps.
Context (owner : nat -> option nat) (st : machine) (c : nat) (x : cpu_st) (l : spinlock).
Context (Hinv : inv_by owner st) (Hx : cpus st !! c = Some x) (Hl : locks st !! target (pc x) = Some l).

Lemma exec_ok : cpu_ok (List.length (locks st)) x.
Proof using Hinv Hx. by eapply in_cpus. Qed.

Lemma cli_off : 0 < ncli x -> c_if x = false.
Proof using Hinv Hx. intros Hp. destruct exec_ok as [_ Hi _ _ _]. rewrite Hi, bool_decide_false by lia. done. Qed.

Lemma owned lk : lk ∈ owns x -> owner lk = Some c /\ (0 < List.length (owns x))%nat.
Proof using Hinv Hx.
  intros H. split; [by apply (in_owner _ _ Hinv c x lk Hx)|]. destruct (owns x); [by apply not_elem_of_nil in H|cbn; lia].
Qed.

(** What the owner reads in the lock. *)
Lemma lock_owned : target (pc x) ∈ owns x -> l = Spinlock 1 (if unset (pc x) (target (pc x)) then None else Some c).
Proof using Hinv Hx Hl.
  intros H. pose proof (in_locks _ _ Hinv _ _ Hl) as HL. rewrite (proj1 (owned _ H)) in HL. destruct HL as (y & Hy & ->).
  by assert (y = x) as -> by congruence.
Qed.

(** What others read. *)
Lemma lock_other : target (pc x) ∉ owns x ->
  lk_cpu l <> Some c /\ (lk_locked l = 0 -> owner (target (pc x)) = None /\ l = unlocked) /\ (lk_locked l <> 0 -> lk_locked l = 1).
Proof using Hinv Hx Hl.
  intros H. pose proof (in_locks _ _ Hinv _ _ Hl) as HL. unfold lock_of in HL. destruct (owner _) as [d|] eqn:Eo; [|by subst l].
  destruct HL as (y & Hy & ->). split; [|done]. cbn. destruct (unset _ _); [done|]. intros [= ->]. apply H.
  by apply (in_owner _ _ Hinv c x _ Hx).
Qed.

Lemma exec_same x' : cpu_ok (List.length (locks st)) x' -> owns x' = owns x -> (forall lk, unset (pc x') lk = unset (pc x) lk) ->
  inv (Machine (<[c := x']> (cpus st)) (<[target (pc x) := l]> (locks st))).
Proof using Hinv Hx Hl. intros H1 H2 H3. rewrite (list_insert_id (locks st)) by done. exists owner. by eapply inv_local. Qed.

(** popcli inside holding, or at the end of release. *)
Lemma exec_pop q : 0 < ncli x -> extra q + Z.of_nat (List.length (owns x)) = ncli x - 1 -> pc_ok (List.length (locks st)) q (owns x) ->
  (forall lk, unset q lk = unset (pc x) lk) -> inv (Machine (<[c := pop_to q x]> (cpus st)) (<[target (pc x) := l]> (locks st))).
Proof using Hinv Hx Hl.
  intros Hp Hq Hpc Hu. destruct (popcli_ok q x _ exec_ok Hp Hq Hpc) as (P1 & P2 & P3).
  apply exec_same; [done|done|]. intros k. by rewrite P2.
Qed.

(** The owner changes its own lock, still owning it. *)
Lemma exec_own x' l' : target (pc x) ∈ owns x -> cpu_ok (List.length (locks st)) x' -> owns x' = owns x ->
  (forall lk, lk <> target (pc x) -> unset (pc x') lk = unset (pc x) lk) ->
  l' = Spinlock 1 (if unset (pc x') (target (pc x)) then None else Some c) ->
  inv (Machine (<[c := x']> (cpus st)) (<[target (pc x) := l']> (locks st))).
Proof using Hinv Hx Hl.
  intros H Hok Ho Hu ->. pose proof (proj1 (owned _ H)) as Eo. eexists.
  eapply (inv_update owner st c x x' _ l _ (Some c)); [done|done|done|done|by rewrite Ho|by rewrite Ho|by rewrite Eo|done|].
  by rewrite decide_True.
Qed.
End exec_steps.

Lemma unset_other q lk k : q = A_record k \/ q = R_unlock k -> lk <> k -> unset q lk = false.
Proof. intros H Hne. apply bool_decide_false. naive_solver. Qed.

Lemma exec_inv_acquire owner st c x l lk : inv_by owner st -> cpus st !! c = Some x -> locks st !! target (pc x) = Some l ->
  pc x = A_locked lk \/ pc x = A_owner lk \/ pc x = A_spin lk \/ pc x = A_record lk ->
  inv (Machine (<[c := (lock_exec c x l).1]> (cpus st)) (<[target (pc x) := (lock_exec c x l).2]> (locks st))).
Proof.
  intros Hinv Hx Hl Hc. pose proof (exec_ok _ _ _ _ Hinv Hx) as [Hn Hi He Hnd Hpc].
  pose proof (exec_same _ _ _ _ _ Hinv Hx Hl) as Hsame. pose proof (exec_pop _ _ _ _ _ Hinv Hx Hl) as Hpop.
  pose proof (cli_off _ _ _ _ Hinv Hx) as Hcli. pose proof (lock_other _ _ _ _ _ Hinv Hx Hl) as Hoth.
  pose proof (lock_owned _ _ _ _ _ Hinv Hx Hl) as Hmine. pose proof (exec_own _ _ _ _ _ Hinv Hx Hl) as Hupd.
  destruct Hc as [Epc|[Epc|[Epc|Epc]]]; unfold lock_exec, mycpu_to; rewrite Epc in *; cbn [target extra pc_ok] in *.
  - destruct (lk_locked l =? 0); cbn [fst snd]; [apply Hpop; [lia|cbn; lia|done|]|apply Hsame; [split; cbn; try done; lia|done|]];
      intros k; by rewrite !unset_not.
  - destruct Hpc as [Hlk Hno]. rewrite Hcli by lia. rewrite bool_decide_false by (by apply Hoth). cbn [fst snd].
    apply Hpop; [lia|cbn; lia|done|]. intros k. by rewrite !unset_not.
  - destruct Hpc as [Hlk Hno]. destruct (Hoth Hno) as (H1 & H2 & H3). destruct (Z.eqb_spec (lk_locked l) 0) as [E0|E0]; cbn [fst snd].
    + destruct (H2 E0) as [Eo ->]. eexists. eapply (inv_update owner st c x _ lk _ _ (Some c)); [done|done|done| | | |by rewrite Eo; naive_solver| |].
      * split; cbn; try done; [lia|by apply NoDup_cons|by apply elem_of_cons; left].
      * intros k Hk. cbn. rewrite elem_of_cons. naive_solver.
      * cbn. split; [done|]. intros _. by apply elem_of_cons; left.
      * intros k Hk. cbn. by rewrite Epc, (unset_not (A_spin lk)), (unset_other _ _ lk) by auto.
      * rewrite decide_True by done. cbn. unfold unset. by rewrite bool_decide_true by auto.
    + assert (El : Spinlock 1 (lk_cpu l) = l) by (destruct l; cbn in *; by rewrite H3). rewrite El.
      apply Hsame; [exact (exec_ok _ _ _ _ Hinv Hx)|done|]. intros k. by rewrite Epc.
  - destruct (owned _ _ _ _ Hinv Hx lk Hpc) as [_ Hlen]. rewrite Hcli by lia. rewrite (Hmine Hpc). cbn [fst snd].
    apply Hupd; [done|by split|done| |done]. intros k Hk. cbn. by rewrite (unset_not Run), (unset_other (A_record lk) _ lk) by auto.
Qed.

Lemma exec_inv_release owner st c x l lk : inv_by owner st -> cpus st !! c = Some x -> locks st !! target (pc x) = Some l ->
  pc x = R_locked lk \/ pc x = R_owner lk \/ pc x = R_clear lk \/ pc x = R_unlock lk ->
  inv (Machine (<[c := (lock_exec c x l).1]> (cpus st)) (<[target (pc x) := (lock_exec c x l).2]> (locks st))).
Proof.
  intros Hinv Hx Hl Hc. pose proof (exec_ok _ _ _ _ Hinv Hx) as [Hn Hi He Hnd Hpc].
  pose proof (exec_same _ _ _ _ _ Hinv Hx Hl) as Hsame. pose proof (exec_pop _ _ _ _ _ Hinv Hx Hl) as Hpop.
  pose proof (cli_off _ _ _ _ Hinv Hx) as Hcli. pose proof (owned _ _ _ _ Hinv Hx lk) as Hown.
  pose proof (lock_owned _ _ _ _ _ Hinv Hx Hl) as Hmine. pose proof (exec_own _ _ _ _ _ Hinv Hx Hl) as Hupd.
  destruct Hc as [Epc|[Epc|[Epc|Epc]]]; unfold lock_exec, mycpu_to; rewrite Epc in *; cbn [target extra pc_ok] in *;
    destruct (Hown Hpc) as [Eo Hlen]; specialize (Hmine Hpc); subst l.
  - cbn [lk_locked Z.eqb fst snd]. apply Hsame; [split; cbn; try done; lia|done|]. intros k. by rewrite !unset_not.
  - rewrite Hcli by lia. rewrite unset_not by done. rewrite bool_decide_true by done. cbn [fst snd].
    rewrite unset_not in Hpop by done. apply Hpop; [lia|cbn; lia|done|]. intros k. by rewrite !unset_not.
  - cbn [fst snd lk_locked]. apply Hupd; [done|by split|done| |unfold unset; by rewrite bool_decide_true by auto].
    intros k Hk. by rewrite (unset_not (R_clear lk)), (unset_other (pc _) _ lk) by auto.
  - cbn [fst snd]. eexists. eapply (inv_update owner st c x _ lk _ _ None); [done|done|done| | | |by rewrite Eo; naive_solver| |].
    * split; cbn; try done; [|by apply NoDup_filter]. pose proof (length_filter_rem lk (owns x) Hnd Hpc). lia.
    * intros k Hk. cbn. rewrite list_elem_of_filter. naive_solver.
    * cbn. rewrite list_elem_of_filter. naive_solver.
    * intros k Hk. cbn. by rewrite Epc, (unset_not (R_pop lk)), (unset_other (R_unlock lk) _ lk) by auto.
    * unfold unset. by rewrite bool_decide_true by auto.
Qed.

Lemma exec_inv owner st c x l : inv_by owner st -> cpus st !! c = Some x -> locks st !! target (pc x) = Some l ->
  inv (Machine (<[c := (lock_exec c x l).1]> (cpus st)) (<[target (pc x) := (lock_exec c x l).2]> (locks st))).
Proof.
  intros Hinv Hx Hl. pose proof (exec_ok _ _ _ _ Hinv Hx) as Hok. destruct (pc x) as [|lk|lk|lk|lk|lk|lk|lk|lk|lk|] eqn:Epc;
    rewrite <- Epc in *; try (by eapply (exec_inv_acquire _ _ _ _ _ lk); eauto 6); try (by eapply (exec_inv_release _ _ _ _ _ lk); eauto 6).
  - unfold lock_exec. rewrite Epc. cbn [fst snd]. rewrite <- Epc. by eapply exec_same.
  - destruct Hok as [Hn _ _ _ _]. unfold lock_exec. rewrite Epc in *. cbn [extra] in Hn. cbn [fst snd]. rewrite <- Epc in *.
    eapply exec_pop; [done|done|done|lia|cbn; lia|done|]. intros k. rewrite Epc. by rewrite !unset_not.
  - destruct Hok as [_ _ _ _ Hpc]. by rewrite Epc in Hpc.
Qed.

Lemma step_inv st st' : inv st -> step st st' -> inv st'.
Proof.
  intros [owner Hinv] Hs. destruct Hs as [c x lk|c x lk|c x l|c x|c x].
  - exists owner. by apply step_inv_acquire.
  - exists owner. by apply step_inv_release.
  - by eapply exec_inv.
  - exists owner. by apply step_inv_interrupt.
  - exists owner. by apply step_inv_iret.
Qed.

Lemma boot_inv n m : inv (boot n m).
Proof.
  exists (fun _ => None). split; cbn.
  - intros c x [-> _]%lookup_replicate. by split; cbn; try constructor.
  - intros c x lk [-> _]%lookup_replicate. cbn. split; [by intros ?%not_elem_of_nil|done].
  - intros lk l [-> _]%lookup_replicate. done.
Qed.

Lemma reachable_inv n m st : reachable n m st -> inv st.
Proof. induction 1; [apply boot_inv|by eapply step_inv]. Qed.

(** ** What the locks promise *)

(** A CPU's own reading of a lock between calls, the test of holding, is exact. *)
Lemma holding_exact owner st c x lk l : inv_by owner st -> cpus st !! c = Some x -> locks st !! lk = Some l -> pc x = Run ->
  lk ∈ owns x <-> lk_locked l <> 0 /\ lk_cpu l = Some c.
Proof.
  intros Hinv Hx Hl Hpc. pose proof (in_locks _ _ Hinv lk l Hl) as HL. rewrite (in_owner _ _ Hinv c x lk Hx). unfold lock_of in HL. split.
  - intros E. rewrite E in HL. destruct HL as (y & Hy & ->). assert (y = x) as -> by congruence. by rewrite Hpc, unset_not.
  - destruct (owner lk) as [d|]; [|subst l; naive_solver]. destruct HL as (y & Hy & ->). cbn. intros [_ E].
    destruct (unset _ _); [done|]. congruence.
Qed.

(** C7: in every state that the interleaved code of spinlock.c reaches on any number of CPUs, no CPU has panicked, no two
    CPUs own the same lock, a CPU that owns a lock has interrupts disabled, a CPU that owns none, is between calls and runs
    no interrupt handler has them enabled, and the fields of a lock tell a CPU between calls whether it owns it. *)
Theorem spinlock_mutual_exclusion n m st c x : reachable n m st -> cpus st !! c = Some x ->
  pc x <> Panicked /\
  (forall lk d y, lk ∈ owns x -> cpus st !! d = Some y -> lk ∈ owns y -> d = c) /\
  (owns x <> [] -> c_if x = false) /\
  (owns x = [] -> pc x = Run -> in_handler x = false -> c_if x = true) /\
  (forall lk l, locks st !! lk = Some l -> pc x = Run -> lk ∈ owns x <-> lk_locked l <> 0 /\ lk_cpu l = Some c).
Proof.
  intros [owner Hinv]%reachable_inv Hx. destruct (in_cpus _ _ Hinv c x Hx) as [Hn Hi He Hnd Hpc].
  split; [by intros E; rewrite E in Hpc|]. split.
  { intros lk d y H1 Hy H2. apply (in_owner _ _ Hinv _ _ _ Hx) in H1. apply (in_owner _ _ Hinv _ _ _ Hy) in H2. congruence. }
  split; [|split].
  - intros Ho. eapply cli_off; [done|done|]. destruct (owns x); [done|]. rewrite Hn. destruct (pc x); cbn; lia.
  - intros Ho Hr Hh. by rewrite Hi, Hn, Hr, Ho, Hh.
  - intros lk l Hl Hr. by eapply holding_exact.
Qed.

(** CPU [c] makes one step inside acquire or release. *)
Definition tick (c : nat) (st : machine) : machine :=
  match cpus st !! c with
  | Some x =>
      match locks st !! target (pc x) with
      | Some l => Machine (<[c := (lock_exec c x l).1]> (cpus st)) (<[target (pc x) := (lock_exec c x l).2]> (locks st))
      | None => st
      end
  | None => st
  end.

Lemma tick_at c x l t cs ls : (c < List.length cs)%nat -> (t < List.length ls)%nat -> target (pc x) = t ->
  tick c (Machine (<[c := x]> cs) (<[t := l]> ls)) = Machine (<[c := (lock_exec c x l).1]> cs) (<[t := (lock_exec c x l).2]> ls).
Proof.
  intros Hc Ht <-. unfold tick. cbn. rewrite list_lookup_insert_eq by done. rewrite list_lookup_insert_eq by done.
  by rewrite !list_insert_insert_eq.
Qed.

(** The calls of acquire and release, up to the first access to the lock. *)
Definition acquire_call (c lk : nat) (st : machine) : machine :=
  Machine (alter (fun x => set_pc (A_locked lk) (pushcli (pushcli x))) c (cpus st)) (locks st).
Definition release_call (c lk : nat) (st : machine) : machine :=
  Machine (alter (fun x => set_pc (R_locked lk) (pushcli x)) c (cpus st)) (locks st).

Lemma reach_tick n m c st : reachable n m st -> reachable n m (tick c st).
Proof.
  intros H. unfold tick. destruct (cpus st !! c) eqn:Ec; [|done]. destruct (locks st !! _) eqn:El; [|done].
  eapply reach_step; [done|]. by apply step_exec.
Qed.

Lemma reach_ticks n m c k st : reachable n m st -> reachable n m (Nat.iter k (tick c) st).
Proof. intros H. induction k; [done|]. cbn. by apply reach_tick. Qed.

Lemma pop_to_eq q x : c_if x = false -> 0 < ncli x ->
  pop_to q x = Cpu ((ncli x - 1 =? 0) && intena x) (ncli x - 1) (intena x) (in_handler x) q (owns x).
Proof. intros Hi Hn. unfold pop_to, popcli. rewrite Hi. by rewrite (proj2 (Z.ltb_ge _ _)) by lia. Qed.

(** The owner's call of release: five steps, whatever the other CPUs hold. *)
Lemma release_run st d y lk : cpus st !! d = Some y -> locks st !! lk = Some (Spinlock 1 (Some d)) -> c_if y = false -> 0 < ncli y ->
  Nat.iter 5 (tick d) (release_call d lk st) =
  Machine (<[d := Cpu ((ncli y - 1 =? 0) && intena y) (ncli y - 1) (intena y) (in_handler y) Run (filter (fun k => k <> lk) (owns y))]> (cpus st))
    (<[lk := unlocked]> (locks st)).
Proof.
  intros Hy Hl Hi Hn. assert (Hd : (d < List.length (cpus st))%nat) by (by eapply lookup_lt_Some).
  assert (Hk : (lk < List.length (locks st))%nat) by (by eapply lookup_lt_Some).
  unfold release_call. rewrite (alter_insert_lookup _ _ _ _ Hy). rewrite <- (list_insert_id (locks st) _ _ Hl) at 1. unfold Nat.iter, nat_rect.
  rewrite tick_at by done. cbn. rewrite tick_at by done. cbn. unfold mycpu_to. cbn. rewrite bool_decide_true by done.
  rewrite pop_to_eq by (cbn; lia). cbn. rewrite tick_at by done. cbn. rewrite tick_at by done. cbn. rewrite tick_at by done. cbn.
  rewrite pop_to_eq by (cbn; lia || (rewrite (proj2 (Z.eqb_neq _ _)) by lia; done)). cbn. rewrite (proj2 (Z.eqb_neq (ncli y) 0)) by lia.
  by replace (ncli y + 1 - 1) with (ncli y) by lia.
Qed.

(** A waiting CPU takes a free lock in two steps. *)
Lemma spin_run st c x lk : cpus st !! c = Some x -> locks st !! lk = Some unlocked -> c_if x = false -> pc x = A_spin lk ->
  Nat.iter 2 (tick c) st = Machine (<[c := set_owns (lk :: owns x) (set_pc Run x)]> (cpus st)) (<[lk := Spinlock 1 (Some c)]> (locks st)).
Proof.
  intros Hx Hl Hi Hpc. assert (Hd : (c < List.length (cpus st))%nat) by (by eapply lookup_lt_Some).
  assert (Hk : (lk < List.length (locks st))%nat) by (by eapply lookup_lt_Some).
  destruct st as [cs ls]. cbn [cpus locks] in *. rewrite <- (list_insert_id ls _ _ Hl) at 1. rewrite <- (list_insert_id cs _ _ Hx) at 1.
  unfold Nat.iter, nat_rect. rewrite tick_at by (by rewrite ?Hpc). unfold lock_exec at 1 2. rewrite Hpc. cbn. rewrite tick_at by done. cbn.
  unfold mycpu_to. cbn. by rewrite Hi.
Qed.

(** C31: from every reachable state in which one CPU waits in acquire for a lock that another owns, the owner's call of
    release ends in five of its steps, and two steps of the waiting CPU then end its acquire with the lock its own: it is
    back in its own code, the lock records it, and the former owner has interrupts as it had them before the locks it held. *)
Theorem lock_handover n m st c d x y lk : reachable n m st -> cpus st !! c = Some x -> pc x = A_spin lk ->
  cpus st !! d = Some y -> pc y = Run -> lk ∈ owns y ->
  let st' := Nat.iter 2 (tick c) (Nat.iter 5 (tick d) (release_call d lk st)) in
  reachable n m st' /\ locks st' !! lk = Some (Spinlock 1 (Some c)) /\
  cpus st' !! c = Some (set_owns (lk :: owns x) (set_pc Run x)) /\
  exists y', cpus st' !! d = Some y' /\ pc y' = Run /\ owns y' = filter (fun k => k <> lk) (owns y) /\
    (owns y = [lk] -> c_if y' = negb (in_handler y)).
Proof.
  intros Hr Hx Hpx Hy Hpy Hlk st'. pose proof (reachable_inv _ _ _ Hr) as [owner Hinv].
  assert (Hne : c <> d) by (intros ->; congruence). destruct (owned _ _ _ _ Hinv Hy lk Hlk) as [Eo Hlen].
  destruct (in_cpus _ _ Hinv d y Hy) as [Hn Hi He Hnd _]. destruct (in_cpus _ _ Hinv c x Hx) as [Hnx _ _ _ Hpcx]. rewrite Hpx in Hnx, Hpcx. rewrite Hpy in Hn.
  cbn in Hn, Hnx. assert (Hex : exists l, locks st !! lk = Some l) by (apply lookup_lt_is_Some; apply Hpcx). destruct Hex as [l Hl].
  pose proof (proj1 (holding_exact _ _ _ _ lk l Hinv Hy Hl Hpy) Hlk) as [H1 H2].
  assert (El : l = Spinlock 1 (Some d)).
  { pose proof (in_locks _ _ Hinv lk l Hl) as HL. rewrite Eo in HL. destruct HL as (z & _ & ->). cbn in H2. by rewrite H2. }
  subst l. pose proof (release_run st d y lk Hy Hl (cli_off _ _ _ _ Hinv Hy ltac:(lia)) ltac:(lia)) as R1.
  pose proof (spin_run (Nat.iter 5 (tick d) (release_call d lk st)) c x lk) as R2. rewrite R1 in R2.
  specialize (R2 ltac:(cbn; by rewrite list_lookup_insert_ne) ltac:(cbn; apply list_lookup_insert_eq; by eapply lookup_lt_Some)
    (cli_off _ _ _ _ Hinv Hx ltac:(lia)) Hpx). subst st'. rewrite R1.
  split; [|rewrite R2; cbn; split; [|split]].
  - rewrite <- R1. apply reach_ticks, reach_ticks. unfold release_call. rewrite (alter_insert_lookup _ _ _ _ Hy).
    eapply reach_step; [done|]. by apply step_release.
  - apply list_lookup_insert_eq. rewrite length_insert. by eapply lookup_lt_Some.
  - apply list_lookup_insert_eq. rewrite length_insert. by eapply lookup_lt_Some.
  - eexists. split; [rewrite list_lookup_insert_ne by done; apply list_lookup_insert_eq; by eapply lookup_lt_Some|]. cbn.
    split; [done|]. split; [done|]. intros E. rewrite E in Hn. cbn in Hn. rewrite He by lia. by rewrite Hn.
Qed.

(** *** Two CPUs: CPU 0 owns the lock and CPU 1 waits for it *)

Definition ex_wait : machine := tick 1 (tick 1 (tick 1 (acquire_call 1 0 (Nat.iter 3 (tick 0) (acquire_call 0 0 (boot 2 1)))))).

Lemma reach_acquire n m c lk x st : reachable n m st -> cpus st !! c = Some x -> pc x = Run -> (lk < List.length (locks st))%nat ->
  lk ∉ owns x -> reachable n m (acquire_call c lk st).
Proof.
  intros H Hx Hpc Hlk Ho. unfold acquire_call. rewrite (alter_insert_lookup _ _ _ _ Hx). eapply reach_step; [done|]. by apply step_acquire.
Qed.

Lemma ex_wait_reachable : reachable 2 1 ex_wait.
Proof.
  unfold ex_wait. apply reach_tick, reach_tick, reach_tick. eapply reach_acquire; [apply reach_ticks| | | |].
  - eapply reach_acquire; [apply reach_boot|done|done|cbn; lia|apply not_elem_of_nil].
  - vm_compute. reflexivity.
  - done.
  - vm_compute. lia.
  - apply not_elem_of_nil.
Qed.

Lemma spinlock_mutual_exclusion_witness :
  (forall lk d y, lk ∈ [0%nat] -> cpus ex_wait !! d = Some y -> lk ∈ owns y -> d = 0%nat) /\
  (forall lk l, locks ex_wait !! lk = Some l -> Run = Run -> lk ∈ [0%nat] <-> lk_locked l <> 0 /\ lk_cpu l = Some 0%nat).
Proof.
  destruct (spinlock_mutual_exclusion 2 1 ex_wait 0 (Cpu false 1 true false Run [0%nat]) ex_wait_reachable ltac:(vm_compute; reflexivity))
    as (_ & H1 & _ & _ & H2).
  split; [exact H1|exact H2].
Defined.

Lemma lock_handover_witness :
  let st' := Nat.iter 2 (tick 1) (Nat.iter 5 (tick 0) (release_call 0 0 ex_wait)) in
  reachable 2 1 st' /\ locks st' !! 0%nat = Some (Spinlock 1 (Some 1%nat)).
Proof.
  assert (H0 : (0%nat : nat) ∈ [0%nat]) by (by apply elem_of_cons; left).
  destruct (lock_handover 2 1 ex_wait 1 0 (Cpu false 1 true false (A_spin 0) []) (Cpu false 1 true false Run [0%nat]) 0 ex_wait_reachable
    ltac:(vm_compute; reflexivity) eq_refl ltac:(vm_compute; reflexivity) eq_refl H0) as (H1 & H2 & _).
  split; [exact H1|exact H2].
Defined.
