(* ===== verification/Proc.v ===== *)
(** * The process table (proc.c, switchuvm of vm.c, sleeplock.c)

    Allocation of process slots, sleeping and waking, killing, the scheduler, and
    the growth of a process.  A context switch is the outcome [Sched] of the
    monad: the routine stops in [sched] and its continuation runs from whatever
    state the scheduler resumes it in.  fork, exit and wait, which also use the
    file layer, are in [Fork]. *)

From Stdlib Require Import ZArith Lia.
From stdpp Require Import base tactics numbers option list strings zmap.
From S2P Require Import Prelude Memory Mmu StringOps Kalloc Vm Wmap Kernel.

Section proc.
Context {KI : KernelImage} {KS0 : KernelSymbols} {F : Type}.
#[local] Abbreviation MK := (M (kst F)).

(** ** vm.c *)

Definition clear_s (d : segdesc) : segdesc :=
  Segdesc (lim_15_0 d) (base_15_0 d) (base_23_16 d) (sd_type d) 0 (sd_dpl d) (sd_p d)
    (lim_19_16 d) (sd_avl d) (sd_rsv1 d) (sd_db d) (sd_g d) (base_31_24 d).
Definition sizeof_taskstate : Z := 104.

Definition switchuvm (p : option nat) : MK unit :=
  match p with
  | None => panic "switchuvm: no process"
  | Some i =>
      p ← get_proc i;
      if kstack p =? 0 then panic "switchuvm: no kstack"
      else if pgdir p =? 0 then panic "switchuvm: no pgdir"
      else
        modify (set_cpu (Cpu (clear_s (SEG16 STS_T32A k_ts (sizeof_taskstate - 1) 0))
                           (Z.shiftl SEG_KDATA 3) (u32 (kstack p + KSTACKSIZE)) 0xFFFF
                           (Z.shiftl SEG_TSS 3)));;
        run_km (lcr3 (V2P (pgdir p)))
  end.

(** ** Sleeping and waking *)

Definition sched : MK unit :=
  i ← curproc;
  h ← holding L_ptable;
  if negb (h : bool) then panic "sched ptable.lock"
  else
    ncli ← gets (fun s => List.length (held s));
    if negb (Nat.eqb ncli 1) then panic "sched locks"
    else
      p ← get_proc i;
      if bool_decide (state p = RUNNING) then panic "sched running" else yield_cpu.

Definition yield : MK unit :=
  acquire L_ptable;;
  i ← curproc;
  upd_proc i (set_p_state RUNNABLE);;
  sched;;
  release L_ptable.

Definition sleep (c : channel) (lk : lockid) : MK unit :=
  p ← myproc;
  match p with
  | None => panic "sleep"
  | Some i =>
      when (bool_decide (lk <> L_ptable)) (acquire L_ptable;; release lk);;
      upd_proc i (set_p_chan (Some c));;
      upd_proc i (set_p_state SLEEPING);;
      sched;;
      upd_proc i (set_p_chan None);;
      when (bool_decide (lk <> L_ptable)) (release L_ptable;; acquire lk)
  end.

Definition wake (c : channel) (p : proc) : proc :=
  if bool_decide (state p = SLEEPING /\ chan p = Some c) then set_p_state RUNNABLE p else p.
Definition wakeup1 (c : channel) : MK unit := modify (fun s => set_procs (wake c <$> procs s) s).

Definition wakeup (c : channel) : MK unit := acquire L_ptable;; wakeup1 c;; release L_ptable.

Definition kill (n : Z) : MK Z :=
  acquire L_ptable;;
  s ← get;
  match find_index (fun p => pid p =? n) (procs s) with
  | Some i =>
      upd_proc i (set_p_killed 1);;
      p ← get_proc i;
      when (bool_decide (state p = SLEEPING)) (upd_proc i (set_p_state RUNNABLE));;
      release L_ptable;;
      mret 0
  | None => release L_ptable;; mret (-1)
  end.

(** ** Allocation of a slot *)

Definition wmapinfo_reset (w : wmapinfo) : wmapinfo :=
  Wmapinfo (wi_total_mmaps w) (replicate MAX_WMMAP_INFO (-1)) (replicate MAX_WMMAP_INFO (-1))
    (replicate MAX_WMMAP_INFO (-1)).

Definition allocproc : MK (option nat) :=
  acquire L_ptable;;
  s ← get;
  match find_index (fun p => bool_decide (state p = UNUSED)) (procs s) with
  | None => release L_ptable;; mret None
  | Some i =>
      upd_proc i (set_p_state EMBRYO);;
      n ← gets nextpid;
      upd_proc i (set_p_pid n);;
      modify (set_nextpid (s32 (n + 1)));;
      release L_ptable;;
      k ← run_km kalloc;
      upd_proc i (set_p_kstack k);;
      if k =? 0 then upd_proc i (set_p_state UNUSED);; mret None
      else
        let sp := k + KSTACKSIZE - sizeof_trapframe in
        upd_proc i (set_p_tf sp);;
        let sp := sp - 4 in
        kst32 sp k_trapret;;
        let sp := sp - sizeof_context in
        upd_proc i (set_p_context sp);;
        run_km (modify (fun s => set_mem (memset (mem s) sp 0 sizeof_context) s));;
        kst32 (sp + ctx_eip) k_forkret;;
        upd_proc i (set_p_total_mmaps 0);;
        upd_proc i (fun p => set_p_wmap_info (wmapinfo_reset (wmap_info p)) p);;
        mret (Some i)
  end.

(** ** Growing a process *)

Definition growproc (n : Z) : MK Z :=
  i ← curproc;
  p ← get_proc i;
  r ← (if 0 <? n then
         sz' ← run_km (allocuvm (pgdir p) (sz p) (u32 (sz p + n)));
         mret (if sz' =? 0 then None else Some sz')
       else if n <? 0 then
         sz' ← run_km (deallocuvm (pgdir p) (sz p) (u32 (sz p + n)));
         mret (if sz' =? 0 then None else Some sz')
       else mret (Some (sz p)));
  match r with
  | None => mret (-1)
  | Some sz' => upd_proc i (set_p_sz sz');; switchuvm (Some i);; mret 0
  end.

(** ** The scheduler

    One pass over the table.  [run i] is the switch to process [i] and back. *)
Context (kpgdir : Z).

Definition switchkvm : MK unit := run_km (lcr3 (V2P kpgdir)).

Definition schedule_one (run : nat -> MK unit) (i : nat) : MK unit :=
  p ← get_proc i;
  if negb (bool_decide (state p = RUNNABLE)) then mret tt
  else
    modify (set_cur (Some i));;
    switchuvm (Some i);;
    upd_proc i (set_p_state RUNNING);;
    run i;;
    switchkvm;;
    modify (set_cur None).

Fixpoint schedule_from (run : nat -> MK unit) (i n : nat) : MK unit :=
  match n with
  | O => mret tt
  | S n' => schedule_one run i;; schedule_from run (S i) n'
  end.

Definition scheduler_pass (run : nat -> MK unit) : MK unit :=
  acquire L_ptable;; schedule_from run 0 NPROC;; release L_ptable.

(** ** Lemmas *)

Definition asleep (i : nat) (c : channel) (s : kst F) : Prop :=
  exists p, procs s !! i = Some p /\ state p = SLEEPING /\ chan p = Some c.

(** sched switches when exactly the process table lock is held. *)
Lemma run_sched s i p :
  cur s = Some i -> held s = [L_ptable] -> procs s !! i = Some p -> state p <> RUNNING ->
  sched s = Sched s (fun s' => Ret tt s').
Proof.
  intros Hc Hh Hp Hs. unfold sched. rewrite (bind_ret_run _ _ _ _ _ (run_curproc s i Hc)).
  unfold holding. mrun. rewrite bool_decide_true by (rewrite Hh; left). cbn [negb]. mrun.
  rewrite Hh. cbn [List.length Nat.eqb negb].
  rewrite (bind_ret_run _ _ _ _ _ (run_get_proc s i p Hp)). by rewrite bool_decide_false.
Qed.

Lemma run_wakeup s c : L_ptable ∉ held s -> wakeup c s = Ret tt (set_procs (wake c <$> procs s) s).
Proof.
  intros Hh. unfold wakeup, wakeup1. krun_with run_acquire; [|done]. mrun.
  erewrite run_release_top; ksimp; [|done|done]. by destruct s.
Qed.

(** sleep, up to the switch and after it. *)
Definition sleeping (c : channel) (p : proc) : proc := set_p_state SLEEPING (set_p_chan (Some c) p).

Lemma run_sleep s i p c lk :
  cur s = Some i -> procs s !! i = Some p -> held s = [lk] ->
  sleep c lk s =
    Sched (set_held [L_ptable] (set_procs (<[i := sleeping c p]> (procs s)) s))
      (fun s' => (upd_proc i (set_p_chan None);;
                  when (bool_decide (lk <> L_ptable)) (release L_ptable;; acquire lk)) s').
Proof.
  intros Hc Hp Hh. unfold sleep, myproc. mrun. rewrite Hc.
  assert (Hlen : (i < List.length (procs s))%nat) by (by eapply lookup_lt_Some).
  case_bool_decide as Hl; mrun.
  - krun_with run_acquire; [|rewrite Hh; set_solver].
    krun_with run_release_under; [|by rewrite Hh|done|set_solver].
    krun_with run_upd_proc; [|done]. krun_with run_upd_proc; [|by apply list_lookup_insert_eq].
    ksimp. rewrite list_insert_insert_eq. unfold mbind at 1, M_bind at 1.
    by rewrite (run_sched _ i (sleeping c p)) by (ksimp; try done; by apply list_lookup_insert_eq).
  - krun_with run_upd_proc; [|done]. krun_with run_upd_proc; [|by apply list_lookup_insert_eq].
    ksimp. rewrite list_insert_insert_eq. unfold mbind at 1, M_bind at 1.
    assert (lk = L_ptable) as -> by (destruct (decide (lk = L_ptable)); tauto).
    rewrite (run_sched _ i (sleeping c p)) by (ksimp; try done; by apply list_lookup_insert_eq).
    cbn [obind]. f_equal. destruct s; cbn in *. by subst.
Qed.

Lemma run_sleep_resumed (s : kst F) i p lk :
  held s = [L_ptable] -> procs s !! i = Some p ->
  (upd_proc i (set_p_chan None);;
   when (bool_decide (lk <> L_ptable)) (release L_ptable;; acquire lk)) s =
    Ret tt (set_held [lk] (set_procs (<[i := set_p_chan None p]> (procs s)) s)).
Proof.
  intros Hh Hp. krun_with run_upd_proc; [|done]. case_bool_decide as Hl; cbn [when].
  - krun_with run_release_top; [|done|set_solver]. rewrite run_acquire by set_solver. done.
  - assert (lk = L_ptable) as -> by (destruct (decide (lk = L_ptable)); tauto).
    destruct s; cbn in *. by subst.
Qed.

(** ** kill *)

Definition kill_proc (p : proc) : proc :=
  let p := set_p_killed 1 p in
  if bool_decide (state p = SLEEPING) then set_p_state RUNNABLE p else p.

Lemma run_kill s n : L_ptable ∉ held s ->
  kill n s =
    match find_index (fun p => pid p =? n) (procs s) with
    | Some i => Ret 0 (set_procs (alter kill_proc i (procs s)) s)
    | None => Ret (-1) s
    end.
Proof.
  intros Hh. unfold kill. krun_with run_acquire; [|done]. mrun. ksimp.
  destruct (find_index _ (procs s)) as [i|] eqn:Hi.
  - apply find_index_Some in Hi as (p & Hp & _ & _).
    assert (Hlen : (i < List.length (procs s))%nat) by (by eapply lookup_lt_Some).
    rewrite (alter_insert_lookup _ _ _ p) by done.
    krun_with run_upd_proc; [|done]. krun_with run_get_proc; [|by apply list_lookup_insert_eq].
    unfold kill_proc. case_bool_decide; cbn [when]; mrun.
    + krun_with run_upd_proc_ins; [|done|done]. krun_with run_release_top; [|done|done]. by destruct s.
    + krun_with run_release_top; [|done|done]. by destruct s.
  - krun_with run_release_top; [|done|done]. by destruct s.
Qed.

(** ** allocproc *)

(** The slot after allocation: kernel stack [k], process id [n]. *)
Definition embryo (k n : Z) (p : proc) : proc :=
  let sp := k + KSTACKSIZE - sizeof_trapframe in
  set_p_wmap_info (wmapinfo_reset (wmap_info p)) (set_p_total_mmaps 0
    (set_p_context (sp - 4 - sizeof_context) (set_p_tf sp (set_p_kstack k
       (set_p_pid n (set_p_state EMBRYO p)))))).

(** The memory of its kernel stack. *)
Definition stack_mem (k : Z) (m : Zmap Z) : Zmap Z :=
  let sp := k + KSTACKSIZE - sizeof_trapframe - 4 in
  let ctx := sp - sizeof_context in
  st32 (memset (st32 m sp k_trapret) ctx 0 sizeof_context) (ctx + ctx_eip) k_forkret.

Lemma run_allocproc s i p k l :
  L_ptable ∉ held s ->
  find_index (fun p => bool_decide (state p = UNUSED)) (procs s) = Some i -> procs s !! i = Some p ->
  km_ok (km s) (k :: l) ->
  allocproc s = Ret (Some i)
    (set_nextpid (s32 (nextpid s + 1))
      (set_km (set_mem (stack_mem k (mem (km s))) (after_kalloc (km s) k))
        (set_procs (<[i := embryo k (nextpid s) p]> (procs s)) s))).
Proof.
  intros Hh Hf Hp Hk. unfold allocproc. krun_with run_acquire; [|done]. mrun. ksimp. rewrite Hf.
  assert (Hlen : (i < List.length (procs s))%nat) by (by eapply lookup_lt_Some).
  krun_with run_upd_proc; [|done]. mrun. krun_with run_upd_proc_ins; [|done|done]. mrun.
  krun_with run_release_top; [|done|done].
  krun_with run_run_km; [|by eapply kalloc_cons].
  krun_with run_upd_proc_ins; [|done|done].
  assert (Hkz : k <> 0) by (eapply page_ok_nz, Forall_inv, Hk). rewrite (proj2 (Z.eqb_neq k 0)) by done.
  krun_with run_upd_proc_ins; [|done|done]. unfold kst32. mrun.
  krun_with run_upd_proc_ins; [|done|done]. krun_with run_run_km; [|reflexivity]. mrun.
  krun_with run_upd_proc_ins; [|done|done]. krun_with run_upd_proc_ins; [|done|done].
  destruct s. reflexivity.
Qed.

(** Process ids: live processes have distinct positive ids below [nextpid]. *)
Definition pids_ok (s : kst F) : Prop :=
  0 < nextpid s /\
  (forall i p, procs s !! i = Some p -> state p <> UNUSED -> 0 < pid p < nextpid s) /\
  (forall i j p q, procs s !! i = Some p -> procs s !! j = Some q -> state p <> UNUSED ->
     state q <> UNUSED -> pid p = pid q -> i = j).

Lemma pids_ok_alloc s i k p :
  pids_ok s -> nextpid s < 2147483647 -> procs s !! i = Some p ->
  pids_ok (set_nextpid (s32 (nextpid s + 1)) (set_procs (<[i := embryo k (nextpid s) p]> (procs s)) s)).
Proof.
  intros (H0 & Hr & Hu) Hn Hp. unfold pids_ok. ksimp. rewrite s32_id by lia. split_and!; [lia| |].
  - intros j q Hj Hq. apply list_lookup_insert_Some in Hj as [(<- & <- & _)|[Hne Hj]]; cbn; [lia|].
    specialize (Hr j q Hj Hq). lia.
  - intros j1 j2 q1 q2 Hj1 Hj2 Hq1 Hq2 He.
    apply list_lookup_insert_Some in Hj1 as [(<- & <- & _)|[Hne1 Hj1]];
      apply list_lookup_insert_Some in Hj2 as [(<- & <- & _)|[Hne2 Hj2]]; [done| | |by eapply Hu].
    + cbn in He. specialize (Hr j2 q2 Hj2 Hq2). lia.
    + cbn in He. specialize (Hr j1 q1 Hj1 Hq1). lia.
Qed.

(** The words of a new kernel stack. *)
Lemma stack_mem_spec k m : page_ok k ->
  same_but (in_page k) m (stack_mem k m) /\
  ld32 (stack_mem k m) (k + KSTACKSIZE - sizeof_trapframe - 4) = u32 k_trapret /\
  ld32 (stack_mem k m) (k + KSTACKSIZE - sizeof_trapframe - 4 - sizeof_context + ctx_eip) = u32 k_forkret.
Proof.
  intros Hk. unfold stack_mem, KSTACKSIZE, sizeof_trapframe, sizeof_context, ctx_eip.
  assert (Hst : forall m a v, ld32 (st32 m a v) a = u32 v).
  { intros m0 a v. rewrite <- (ld32_st32_eq m0 a (u32 v)) by apply u32_range. f_equal.
    symmetry. apply st32_u32. }
  split_and!.
  - intros a Ha. unfold in_page in Ha.
    rewrite ld8_st32_ne by lia. rewrite (same_but_memset (fun b => k + 4096 - 100 <= b < k + 4096 - 80)); [|lia| |lia].
    + by rewrite ld8_st32_ne by lia.
    + intros b Hb. lia.
  - rewrite ld32_st32_ne by lia. erewrite same_but_ld32; [apply Hst| |].
    + apply (same_but_memset (fun b => k + 4096 - 100 <= b < k + 4096 - 80)); [lia|]. intros b Hb. lia.
    + intros b Hb. cbv beta. lia.
  - apply Hst.
Qed.

(** ** The scheduler *)

(** Processes that can run have a kernel stack and a page table. *)
Definition table_ok (s : kst F) : Prop :=
  List.length (procs s) = NPROC /\
  forall i p, procs s !! i = Some p -> state p = RUNNABLE -> kstack p <> 0 /\ pgdir p <> 0.

(** The state a process is switched to in. *)
Definition switched (i : nat) (s : kst F) : Prop :=
  cur s = Some i /\ held s = [L_ptable] /\
  exists p, procs s !! i = Some p /\ state p = RUNNING /\ cr3 (km s) = V2P (pgdir p) /\
    ts_esp0 (cpu s) = u32 (kstack p + KSTACKSIZE) /\ ts_ss0 (cpu s) = Z.shiftl SEG_KDATA 3.

Lemma run_switchuvm s i p :
  procs s !! i = Some p -> kstack p <> 0 -> pgdir p <> 0 ->
  exists c, switchuvm (Some i) s = Ret tt (set_km (set_cr3 (V2P (pgdir p)) (km s)) (set_cpu c s)) /\
    ts_esp0 c = u32 (kstack p + KSTACKSIZE) /\ ts_ss0 c = Z.shiftl SEG_KDATA 3.
Proof.
  intros Hp Hk Hd. eexists. split.
  - unfold switchuvm. krun_with run_get_proc; [|done].
    rewrite (proj2 (Z.eqb_neq _ 0) Hk), (proj2 (Z.eqb_neq _ 0) Hd). mrun.
    by erewrite run_run_km by reflexivity.
  - done.
Qed.

(** Process [i] is given the processor: the state [s] with it as the current, running process, its page table and kernel stack installed. *)
Definition dispatched (i : nat) (p : proc) (c : cpust) (s : kst F) : kst F :=
  set_procs (<[i := set_p_state RUNNING p]> (procs s)) (set_km (set_cr3 (V2P (pgdir p)) (km s)) (set_cpu c (set_cur (Some i) s))).

Lemma table_ok_dispatched i p c s : table_ok s -> table_ok (dispatched i p c s).
Proof.
  intros [Hlen Hok]. split; [cbn; by rewrite length_insert|]. intros j q Hj Hq.
  apply list_lookup_insert_Some in Hj as [(<- & <- & _)|[_ Hj]]; [done|by eapply Hok].
Qed.

Section scheduler.
Context (run : nat -> MK unit).

(** What a pass does with slot [i]: it leaves a process alone that is not runnable, and runs one that is until it gives the processor back. *)
Inductive round (i : nat) (s : kst F) : kst F -> Prop :=
  | round_skip p : procs s !! i = Some p -> state p <> RUNNABLE -> round i s s
  | round_run p c s' : procs s !! i = Some p -> state p = RUNNABLE -> switched i (dispatched i p c s) -> run i (dispatched i p c s) = Ret tt s' ->
      round i s (set_cur None (set_km (set_cr3 (V2P kpgdir) (km s')) s')).

Context (Hrun : forall i s, switched i s -> table_ok s ->
  wp (run i) (fun _ s' => held s' = [L_ptable] /\ table_ok s') s).

Definition between (s : kst F) : Prop := table_ok s /\ held s = [L_ptable] /\ cur s = None.

Lemma run_schedule_one s i : between s -> (i < NPROC)%nat -> exists s', schedule_one run i s = Ret tt s' /\ between s' /\ round i s s'.
Proof.
  intros ([Hlen Hok] & Hh & Hc) Hi. destruct (lookup_lt_is_Some_2 (procs s) i) as [p Hp]; [by rewrite Hlen|].
  unfold schedule_one. krun_with run_get_proc; [|done].
  case_bool_decide as Hr; cbn [negb]; [|exists s; split_and!; try done; by apply (round_skip i s p)].
  destruct (Hok i p Hp Hr) as [Hk Hd]. mrun.
  destruct (run_switchuvm (set_cur (Some i) s) i p Hp Hk Hd) as (c & Hsw & He & Hss).
  rewrite (bind_ret_run _ _ _ _ _ Hsw). krun_with (run_upd_proc _ i (set_p_state RUNNING) p); [|done].
  change (set_procs _ _) with (dispatched i p c s).
  assert (Hs0 : switched i (dispatched i p c s)).
  { split; [done|]. split; [done|]. exists (set_p_state RUNNING p). ksimp. split; [apply list_lookup_insert_eq; lia|done]. }
  destruct (wp_returns _ _ _ (Hrun i _ Hs0 (table_ok_dispatched i p c s (conj Hlen Hok)))) as ([] & s1 & E1 & Hh' & Hok').
  rewrite (bind_ret_run _ _ _ _ _ E1). eexists. split; [unfold switchkvm; by erewrite bind_ret_run by (by apply run_run_km)|].
  split; [done|]. by apply (round_run i s p c s1).
Qed.

Lemma run_schedule_from n : forall i s, (i + n <= NPROC)%nat -> between s ->
  exists f : nat -> kst F, f i = s /\ schedule_from run i n s = Ret tt (f (i + n)%nat) /\ between (f (i + n)%nat) /\
    forall j, (i <= j < i + n)%nat -> round j (f j) (f (S j)).
Proof.
  induction n as [|n IH]; intros i s Hi Hs.
  { exists (fun _ => s). split_and!; try done. intros j Hj. lia. }
  destruct (run_schedule_one s i Hs ltac:(lia)) as (s1 & E1 & Hs1 & Hr).
  destruct (IH (S i) s1 ltac:(lia) Hs1) as (f & Hf & E & Hb & Hrs). exists (fun j => if (j <=? i)%nat then s else f j).
  rewrite Nat.leb_refl, (proj2 (Nat.leb_gt (i + S n) i)) by lia. replace (i + S n)%nat with (S i + n)%nat by lia.
  split_and!; [done|by cbn [schedule_from]; rewrite (bind_ret_run _ _ _ _ _ E1)|done|]. intros j Hj.
  rewrite (proj2 (Nat.leb_gt (S j) i)) by lia. destruct (Nat.leb_spec j i) as [Hle|Hlt]; [|by apply Hrs; lia].
  assert (j = i) as -> by lia. by rewrite Hf.
Qed.

End scheduler.

End proc.

(** ** Instances *)

#[export] Instance example_symbols : KernelSymbols :=
  {| k_trapret := 0x80105F2B; k_forkret := 0x80103B60; k_ts := 0x80112794 |}.

Definition proc0 : proc :=
  Proc 0 0 0 UNUSED 0 None 0 0 None 0 (replicate NOFILE None) None (replicate 16 0)
    (replicate MAX_MMAPS region0)
    (Wmapinfo 0 (replicate MAX_WMMAP_INFO 0) (replicate MAX_WMMAP_INFO 0) (replicate MAX_WMMAP_INFO 0)) 0.
Definition cpu0 : cpust := Cpu (SEG 0 0 0 0) 0 0 0 0.
Definition file0 : file := File FD_NONE 0 0 0 0 None 0.

(** A machine with one running process, number 1 in slot 0. *)
Definition running_proc : proc := set_p_state RUNNING (set_p_pid 1 proc0).
Definition ex_machine (t : kmst) (ls : list lockid) : kst unit :=
  KS t (running_proc :: replicate 63 proc0) (Some 0%nat) cpu0 ls 2 (Some 0%nat) 0
    (replicate NFILE file0) tt.

(** ** Properties *)

(** sleep, one call at a time.  Called by the current process with exactly its
    condition lock held, it switches to the scheduler in a state where the
    process is already asleep on the channel and only the process table lock is
    held, the condition lock being released; nothing else has changed.  A wakeup
    on the channel makes a process that is asleep on it runnable.  When
    it is resumed, with the process table lock held, sleep clears the channel and
    returns with exactly the condition lock held. *)
Theorem sleep_switches {F} (s : kst F) (i : nat) (p : proc) (c : channel) (lk : lockid) :
  cur s = Some i -> procs s !! i = Some p -> held s = [lk] ->
  exists s1 k, sleep c lk s = Sched s1 k /\ asleep i c s1 /\ held s1 = [L_ptable] /\
    (forall j, j <> i -> procs s1 !! j = procs s !! j) /\ km s1 = km s /\ files s1 = files s /\
    (forall s2 : kst F, asleep i c s2 -> L_ptable ∉ held s2 ->
       exists s3 p3, wakeup c s2 = Ret tt s3 /\ procs s3 !! i = Some p3 /\ state p3 = RUNNABLE) /\
    (forall (s2 : kst F) p2, held s2 = [L_ptable] -> procs s2 !! i = Some p2 ->
       exists s3, k s2 = Ret tt s3 /\ held s3 = [lk] /\ procs s3 !! i = Some (set_p_chan None p2)).
Proof.
  intros Hc Hp Hh. assert (Hlen : (i < List.length (procs s))%nat) by (by eapply lookup_lt_Some).
  eexists _, _. split; [by eapply run_sleep|]. split_and!; ksimp; try done.
  - exists (sleeping c p). split; [|done]. ksimp. by apply list_lookup_insert_eq.
  - intros j Hj. by apply list_lookup_insert_ne.
  - intros s2 (q & Hq & Hs & Hch) Hn. eexists _, (set_p_state RUNNABLE q).
    split; [by apply run_wakeup|]. ksimp. rewrite list_lookup_fmap, Hq. cbn. unfold wake.
    by rewrite bool_decide_true.
  - intros s2 p2 Hh2 Hp2. eexists. split; [by eapply run_sleep_resumed|]. ksimp. split; [done|].
    apply list_lookup_insert_eq. by eapply lookup_lt_Some.
Qed.

Lemma sleep_switches_witness :
  exists s1 k, sleep Chan_ticks L_tickslock (ex_machine km_zero [L_tickslock]) = Sched s1 k /\
    asleep 0 Chan_ticks s1 /\ held s1 = [L_ptable].
Proof.
  destruct (sleep_switches (ex_machine km_zero [L_tickslock]) 0 running_proc Chan_ticks L_tickslock
    eq_refl eq_refl eq_refl) as (s1 & k & H1 & H2 & H3 & _).
  exists s1, k. split; [exact H1|]. split; assumption.
Defined.

(** allocproc.  With a free slot and a free page it takes the first unused
    slot, gives it a process id no live process has (while ids last), the first
    free page as kernel stack, and a kernel context that returns to forkret and
    then to trapret; ids stay distinct, no other slot changes, and memory outside
    the new stack is unchanged. *)
Theorem allocproc_fresh {KI : KernelImage} {KS0 : KernelSymbols} {F}
    (s : kst F) (i : nat) (p : proc) (k : Z) (l : list Z) :
  L_ptable ∉ held s -> km_ok (km s) (k :: l) -> pids_ok s -> nextpid s < 2147483647 ->
  procs s !! i = Some p -> state p = UNUSED ->
  (forall j q, (j < i)%nat -> procs s !! j = Some q -> state q <> UNUSED) ->
  exists s' p', allocproc s = Ret (Some i) s' /\ procs s' !! i = Some p' /\
    (forall j, j <> i -> procs s' !! j = procs s !! j) /\
    state p' = EMBRYO /\ pid p' = nextpid s /\ pids_ok s' /\ kstack p' = k /\
    ld32 (mem (km s')) (context p' + ctx_eip) = u32 k_forkret /\
    ld32 (mem (km s')) (context p' + sizeof_context) = u32 k_trapret /\
    tf p' = context p' + sizeof_context + 4 /\ tf p' + sizeof_trapframe = k + KSTACKSIZE /\
    km_ok (km s') l /\ same_but (in_page k) (mem (km s)) (mem (km s')) /\ held s' = held s.
Proof.
  intros Hh Hk Hpid Hn Hp Hst Hfirst.
  assert (Hlen : (i < List.length (procs s))%nat) by (by eapply lookup_lt_Some).
  assert (Hf : find_index (fun p => bool_decide (state p = UNUSED)) (procs s) = Some i).
  { apply find_index_Some. exists p. split; [done|]. split; [by apply bool_decide_true|].
    intros j q Hj Hq. apply bool_decide_false. by eapply Hfirst. }
  assert (Hpk : page_ok k) by (eapply Forall_inv, Hk).
  destruct (stack_mem_spec k (mem (km s)) Hpk) as (M1 & M2 & M3).
  eexists _, (embryo k (nextpid s) p). split; [by eapply run_allocproc|].
  split; [by apply list_lookup_insert_eq|]. split; [intros j Hj; by apply list_lookup_insert_ne|].
  split; [done|]. split; [done|]. split; [exact (pids_ok_alloc s i k p Hpid Hn Hp)|]. split; [done|].
  split; [exact M3|]. split; [|split; [cbn; lia|split; [cbn; unfold sizeof_trapframe; lia|split; [|by split]]]].
  - cbn [km set_nextpid set_km mem set_mem].
    replace (context (embryo k (nextpid s) p) + sizeof_context)
      with (k + KSTACKSIZE - sizeof_trapframe - 4) by (cbn; lia). exact M2.
  - cbn [km set_nextpid set_km]. eapply km_ok_set_mem; [by apply km_ok_after_kalloc| |exact M1|].
    + apply mem_ok_st32, mem_ok_memset; [unfold sizeof_context; lia|]. apply mem_ok_st32, Hk.
    + intros q a Hq Ha. pose proof (ok_nodup _ _ Hk) as [Hnin _]%NoDup_cons.
      pose proof (ok_pages _ _ Hk) as [_ Hpl]%Forall_cons. eapply Forall_forall in Hpl; [|exact Hq].
      eapply in_page_disjoint; [apply Hpl|apply Hpk| |done]. by intros ->.
Qed.

Lemma ex_machine_pids t ls : pids_ok (ex_machine t ls).
Proof.
  assert (Hz : forall i p, (running_proc :: replicate 63 proc0) !! i = Some p -> state p <> UNUSED ->
    i = 0%nat /\ p = running_proc).
  { intros [|i] p Hi Hs; [by injection Hi as <-|].
    change (replicate 63 proc0 !! i = Some p) in Hi. by apply lookup_replicate in Hi as [-> _]. }
  split_and!; cbn [nextpid procs ex_machine].
  - lia.
  - intros i p Hi [-> ->]%(Hz i p Hi). cbn. lia.
  - intros i j p q Hi Hj [-> _]%(Hz i p Hi) [-> _]%(Hz j q Hj). done.
Qed.

Lemma allocproc_fresh_witness :
  exists s', allocproc (ex_machine (km_free [0x80400000; 0x80500000]) []) = Ret (Some 1%nat) s' /\
    km_ok (km s') [0x80500000].
Proof.
  destruct (allocproc_fresh (ex_machine (km_free [0x80400000; 0x80500000]) []) 1 proc0 0x80400000 [0x80500000])
    as (s' & p' & H1 & _ & _ & _ & _ & _ & _ & _ & _ & _ & _ & Hk & _).
  - cbn. set_solver.
  - apply km_ok_free; [apply (bool_decide_unpack _); vm_compute; exact I|].
    apply Forall_cons; split; [split; [reflexivity|cbn; unfold_mmu; lia]|].
    apply Forall_cons; split; [split; [reflexivity|cbn; unfold_mmu; lia]|]. constructor.
  - apply ex_machine_pids.
  - cbn. lia.
  - reflexivity.
  - reflexivity.
  - intros [|j] q Hj Hq; [by injection Hq as <-|lia].
  - exists s'. split; assumption.
Defined.

(** kill.  It answers 0 exactly when some slot has the process id; then the
    first such slot is marked killed and, if it was sleeping, made runnable, and
    nothing else changes; otherwise it answers -1 and changes nothing. *)
Theorem kill_exact {F} (s : kst F) (n : Z) :
  L_ptable ∉ held s ->
  (exists i p, procs s !! i = Some p /\ pid p = n /\
     (forall j q, (j < i)%nat -> procs s !! j = Some q -> pid q <> n) /\
     exists s' p', kill n s = Ret 0 s' /\ procs s' !! i = Some p' /\ killed p' = 1 /\
       state p' = (if bool_decide (state p = SLEEPING) then RUNNABLE else state p) /\
       (forall j, j <> i -> procs s' !! j = procs s !! j) /\ km s' = km s /\ held s' = held s) \/
  (forall i p, procs s !! i = Some p -> pid p <> n) /\ kill n s = Ret (-1) s.
Proof.
  intros Hh. rewrite run_kill by done. destruct (find_index _ (procs s)) as [i|] eqn:Hi; [left|right].
  - apply find_index_Some in Hi as (p & Hp & Hn%Z.eqb_eq & Hj). exists i, p. split_and!; [done..| |].
    { intros j q Hlt Hq. apply Z.eqb_neq. by eapply Hj. }
    eexists _, (kill_proc p). split; [done|]. ksimp. rewrite list_lookup_alter_eq, Hp.
    unfold kill_proc. cbn [state set_p_killed].
    split_and!; try done; [by case_bool_decide..|]. intros j Hne. by apply list_lookup_alter_ne.
  - split; [|done]. intros i p Hp. apply Z.eqb_neq. by eapply (proj1 (find_index_None _ _) Hi).
Qed.

Lemma kill_exact_witness :
  exists s', kill 1 (ex_machine km_zero []) = Ret 0 s' /\ (killed <$> procs s' !! 0%nat) = Some 1.
Proof.
  destruct (kill_exact (ex_machine km_zero []) 1) as [(i & p & Hp & Hn & Hj & s' & p' & H1 & H2 & H3 & _)|[Hno _]].
  - cbn. set_solver.
  - exists s'. split; [exact H1|].
    destruct i as [|i]; [rewrite H2; cbn; by rewrite H3|].
    exfalso. by apply (Hj 0%nat running_proc ltac:(lia) eq_refl).
  - exfalso. by apply (Hno 0%nat running_proc eq_refl).
Defined.

(** kill(0) succeeds although no process has id 0: it marks the first unused
    slot (whose id is 0), and the next process allocated there is born killed,
    because allocproc does not clear the mark. *)
Theorem kill_zero_marks_free_slot {KI : KernelImage} {KS0 : KernelSymbols} {F}
    (s : kst F) (i : nat) (p : proc) (k : Z) (l : list Z) :
  L_ptable ∉ held s -> km_ok (km s) (k :: l) ->
  procs s !! i = Some p -> state p = UNUSED -> pid p = 0 ->
  (forall j q, (j < i)%nat -> procs s !! j = Some q -> state q <> UNUSED /\ pid q <> 0) ->
  exists s' p', (r ← kill 0; q ← allocproc; mret (r, q)) s = Ret (0, Some i) s' /\
    procs s' !! i = Some p' /\ state p' = EMBRYO /\ killed p' = 1.
Proof.
  intros Hh Hk Hp Hst Hpid Hfirst.
  assert (Hlen : (i < List.length (procs s))%nat) by (by eapply lookup_lt_Some).
  assert (Hki : find_index (fun p => pid p =? 0) (procs s) = Some i).
  { apply find_index_Some. exists p. split_and!; [done|by apply Z.eqb_eq|].
    intros j q Hj Hq. apply Z.eqb_neq. by apply (Hfirst j q). }
  pose proof (run_kill s 0 Hh) as Hkill. rewrite Hki, (alter_insert_lookup _ _ _ p) in Hkill by done.
  rewrite (bind_ret_run _ _ _ _ _ Hkill). eexists _, (embryo k (nextpid s) (kill_proc p)).
  assert (Hkp : kill_proc p = set_p_killed 1 p).
  { unfold kill_proc. cbn [state set_p_killed]. by rewrite Hst. }
  split.
  - krun_with (run_allocproc _ i (kill_proc p) k l); ksimp; [done|done| |by apply list_lookup_insert_eq|done].
    apply find_index_Some. exists (kill_proc p). split; [by apply list_lookup_insert_eq|].
    split; [rewrite Hkp; cbn; by rewrite Hst|].
    intros j q Hj Hq. rewrite list_lookup_insert_ne in Hq by lia. apply bool_decide_false. by apply (Hfirst j q).
  - ksimp. rewrite list_insert_insert_eq. split; [by apply list_lookup_insert_eq|]. split; [done|].
    rewrite Hkp. done.
Qed.

Lemma kill_zero_marks_free_slot_witness :
  exists s' p', (r ← kill 0; q ← allocproc; mret (r, q)) (ex_machine (km_free [0x80400000]) [])
      = Ret (0, Some 1%nat) s' /\ procs s' !! 1%nat = Some p' /\ state p' = EMBRYO /\ killed p' = 1.
Proof.
  apply (kill_zero_marks_free_slot (ex_machine (km_free [0x80400000]) []) 1 proc0 0x80400000 []).
  - cbn. set_solver.
  - apply km_ok_free; [apply (bool_decide_unpack _); vm_compute; exact I|].
    apply Forall_cons; split; [split; [reflexivity|cbn; unfold_mmu; lia]|]. constructor.
  - reflexivity.
  - reflexivity.
  - reflexivity.
  - intros [|j] q Hj Hq; [by injection Hq as <-|lia].
Defined.

(** C32: one pass of the scheduler.  It goes through the 64 slots of the table in order with the process table lock held.  A slot whose process is not runnable
    it leaves as it is; a runnable process it makes the current and running one, with its own page table and kernel stack installed and nothing else of the state
    changed, lets it run from exactly that state, and when the process gives the processor back it installs the kernel's page table and has no current process.
    If the processes come back with the lock held and the table well formed, the pass ends with the lock released and no current process. *)
Theorem scheduler_switches_properly {KI : KernelImage} {KS0 : KernelSymbols} {F}
    (kpgdir : Z) (run : nat -> M (kst F) unit) (s : kst F) :
  (forall i s, switched i s -> table_ok s ->
     wp (run i) (fun _ s' => held s' = [L_ptable] /\ table_ok s') s) ->
  table_ok s -> held s = [] -> cur s = None ->
  exists f : nat -> kst F, f 0%nat = set_held [L_ptable] s /\ (forall i, (i < NPROC)%nat -> round kpgdir run i (f i) (f (S i))) /\
    scheduler_pass kpgdir run s = Ret tt (set_held [] (f NPROC)) /\ table_ok (f NPROC) /\ cur (f NPROC) = None.
Proof.
  intros Hrun Hok Hh Hc. destruct (run_schedule_from kpgdir run Hrun NPROC 0 (set_held [L_ptable] s)) as (f & H0 & E & (Hok' & Hh' & Hc') & Hr); [lia|done|].
  exists f. split_and!; try done; [intros i Hi; apply Hr; lia|]. unfold scheduler_pass.
  krun_with run_acquire; [|rewrite Hh; set_solver]. rewrite Hh, (bind_ret_run _ _ _ _ _ E). apply (run_release_top _ _ []); [done|set_solver].
Qed.

(** A process that yields at once. *)
Definition ex_run (i : nat) : M (kst unit) unit := upd_proc i (set_p_state SLEEPING).

Lemma scheduler_switches_properly_witness :
  let p := set_p_state RUNNABLE (set_p_kstack 0x80400000 (set_p_pgdir 0x80401000 running_proc)) in
  let s := set_cur None (set_procs (p :: replicate 63 proc0) (ex_machine km_zero [])) in
  exists f : nat -> kst unit, f 0%nat = set_held [L_ptable] s /\ (forall i, (i < NPROC)%nat -> round 0x803ff000 ex_run i (f i) (f (S i))) /\
    scheduler_pass 0x803ff000 ex_run s = Ret tt (set_held [] (f NPROC)) /\ table_ok (f NPROC) /\ cur (f NPROC) = None.
Proof.
  apply scheduler_switches_properly.
  - intros i s (_ & Hh & p & Hp & Hst & _) [Hlen Hok].
    eapply wp_result; [by apply run_upd_proc|]. split; [done|]. split; [cbn; by rewrite length_insert|].
    cbn. intros j q Hj Hq. apply list_lookup_insert_Some in Hj as [(<- & <- & _)|[_ Hj]]; [done|by eapply Hok].
  - split; [reflexivity|]. intros [|j] q Hj Hq; [by injection Hj as <-|].
    change (replicate 63 proc0 !! j = Some q) in Hj. by apply lookup_replicate in Hj as [-> _].
  - reflexivity.
  - reflexivity.
Defined.
