(* ===== verification/Wakeup.v ===== *)
(** * sleep and wakeup on several CPUs (proc.c)

    The rest of the library runs sleep and wakeup one call at a time.  Here any number of
    threads run them at once, their steps interleaved arbitrarily: threads that wait for a
    condition, threads that establish it, and threads that kill others.  A thread runs a
    list of instructions; the lists of sleep and wakeup are the statements of proc.c in
    their order, and [sleep_runs_code], [wakeup_runs_code] relate them to the definitions
    of Proc.v.  Each condition has its lock and its channel.  sched gives the process table
    lock to the scheduler of the CPU; a scheduler that has the lock may let it go or resume
    a runnable thread.  Preemption needs no step of its own: a thread may take its next
    step arbitrarily late.  The loop of wakeup1 is one step, since state and channel of a
    process change only under the process table lock, which is held throughout. *)

From Stdlib Require Import Lia.
From stdpp Require Import base tactics numbers option list functions relations.
From S2P Require Import Prelude Kernel Proc.

(** The process table lock, and the lock of condition [c]. *)
Inductive lock : Type := PT | LK (c : nat).
#[export] Instance lock_eq_dec : EqDecision lock.
Proof. solve_decision. Defined.

Inductive instr : Type :=
| I_acquire (l : lock) | I_release (l : lock)
| I_chan (o : option nat) | I_asleep | I_sched
| I_wakeup1 (c : nat) | I_kill (i : nat)
| I_test (c k : nat) | I_set (c : nat) (b : bool) | I_goto (k : nat).

Definition sleep_code (c : nat) : list instr :=
  [I_acquire PT; I_release (LK c); I_chan (Some c); I_asleep; I_sched; I_chan None; I_release PT; I_acquire (LK c)].

Definition wakeup_code (c : nat) : list instr := [I_acquire PT; I_wakeup1 c; I_release PT].

Definition kill_code (i : nat) : list instr := [I_acquire PT; I_kill i; I_release PT].

(** What threads do, over and over: wait for condition [c] and use it up, establish it, kill thread [i]. *)
Inductive role : Type := Waiter (c : nat) | Waker (c : nat) | Killer (i : nat).

Definition code_of (r : role) : list instr :=
  match r with
  | Waiter c => [I_acquire (LK c); I_test c 11] ++ sleep_code c ++ [I_goto 1; I_set c false; I_release (LK c); I_goto 0]
  | Waker c => [I_acquire (LK c); I_set c true] ++ wakeup_code c ++ [I_release (LK c); I_goto 0]
  | Killer i => kill_code i ++ [I_goto 0]
  end.

(** A thread: what it does, the next instruction, whether it is on a CPU, and the state and channel of its process. *)
Record thread : Type := Thread { t_role : role; t_pc : nat; t_on : bool; t_state : procstate; t_chan : option nat }.

(** Who holds a lock. *)
Inductive agent : Type := Thr (i : nat) | Scheduler.
#[export] Instance agent_eq_dec : EqDecision agent.
Proof. solve_decision. Defined.

Record sys : Type := Sys { threads : list thread; own : lock -> option agent; cond : nat -> bool }.

Definition at_pc (k : nat) (t : thread) : thread := Thread (t_role t) k (t_on t) (t_state t) (t_chan t).
Definition next (t : thread) : thread := at_pc (S (t_pc t)) t.
Definition with_state (st : procstate) (t : thread) : thread := Thread (t_role t) (t_pc t) (t_on t) st (t_chan t).
Definition with_chan (o : option nat) (t : thread) : thread := Thread (t_role t) (t_pc t) (t_on t) (t_state t) o.
Definition off_cpu (t : thread) : thread := Thread (t_role t) (t_pc t) false (t_state t) (t_chan t).

Definition wake_thread (c : nat) (t : thread) : thread :=
  if bool_decide (t_state t = SLEEPING /\ t_chan t = Some c) then with_state RUNNABLE t else t.
Definition kill_thread (t : thread) : thread := if bool_decide (t_state t = SLEEPING) then with_state RUNNABLE t else t.

(** One instruction of thread [i].  None: it spins on a lock that is held, or it panics, releasing or switching without the lock. *)
Definition run_instr (i : nat) (t : thread) (ins : instr) (s : sys) : option sys :=
  let put t' := <[i := t']> (threads s) in
  match ins with
  | I_acquire l => if bool_decide (own s l = None) then Some (Sys (put (next t)) (<[l := Some (Thr i)]> (own s)) (cond s)) else None
  | I_release l => if bool_decide (own s l = Some (Thr i)) then Some (Sys (put (next t)) (<[l := None]> (own s)) (cond s)) else None
  | I_chan o => Some (Sys (put (with_chan o (next t))) (own s) (cond s))
  | I_asleep => Some (Sys (put (with_state SLEEPING (next t))) (own s) (cond s))
  | I_sched =>
      if bool_decide (own s PT = Some (Thr i)) then Some (Sys (put (off_cpu (next t))) (<[PT := Some Scheduler]> (own s)) (cond s)) else None
  | I_wakeup1 c => Some (Sys (wake_thread c <$> put (next t)) (own s) (cond s))
  | I_kill j => Some (Sys (alter kill_thread j (put (next t))) (own s) (cond s))
  | I_test c k => Some (Sys (put (if cond s c then at_pc k t else next t)) (own s) (cond s))
  | I_set c b => Some (Sys (put (next t)) (own s) (<[c := b]> (cond s)))
  | I_goto k => Some (Sys (put (at_pc k t)) (own s) (cond s))
  end.

Inductive step (s : sys) : sys -> Prop :=
| step_exec i t ins s' : threads s !! i = Some t -> t_on t = true -> code_of (t_role t) !! t_pc t = Some ins -> run_instr i t ins s = Some s' -> step s s'
| step_sched_acquire : own s PT = None -> step s (Sys (threads s) (<[PT := Some Scheduler]> (own s)) (cond s))
| step_sched_release : own s PT = Some Scheduler -> step s (Sys (threads s) (<[PT := None]> (own s)) (cond s))
| step_resume i t : own s PT = Some Scheduler -> threads s !! i = Some t -> t_on t = false -> t_state t = RUNNABLE ->
    step s (Sys (<[i := Thread (t_role t) (t_pc t) true RUNNING (t_chan t)]> (threads s)) (<[PT := Some (Thr i)]> (own s)) (cond s)).

(** All threads about to start, no lock held, the conditions as they may be. *)
Definition start (rs : list role) (cs : nat -> bool) : sys := Sys ((fun r => Thread r 0 true RUNNING None) <$> rs) (fun _ => None) cs.

Inductive reachable (rs : list role) (cs : nat -> bool) : sys -> Prop :=
| reach_start : reachable rs cs (start rs cs)
| reach_step s s' : reachable rs cs s -> step s s' -> reachable rs cs s'.

(** A waiter that sleeps: off its CPU, until a wakeup on its channel or a kill. *)
Definition sleeps (c : nat) (t : thread) : Prop := t = Thread (Waiter c) 7 false SLEEPING (Some c).

(** A thread that has established [c] and has its wakeup1 still to run. *)
Definition waking (c : nat) (t : thread) : Prop := (t_pc t = 2 \/ t_pc t = 3)%nat /\ t = Thread (Waker c) (t_pc t) true RUNNING None.

(** ** The invariant *)

(** The locks a thread holds. *)
Definition holds (t : thread) : list lock :=
  match t_role t with
  | Waiter c =>
      if t_on t then
        match t_pc t with
        | 1 | 2 | 10 | 11 | 12 => [LK c]
        | 3 => [LK c; PT]
        | 4 | 5 | 6 | 7 | 8 => [PT]
        | _ => []
        end
      else []
  | Waker c => match t_pc t with 1 | 2 | 5 => [LK c] | 3 | 4 => [LK c; PT] | _ => [] end
  | Killer _ => match t_pc t with 1 | 2 => [PT] | _ => [] end
  end%nat.

(** State and channel of a thread. *)
Definition thread_ok (t : thread) : Prop :=
  match t_role t with
  | Waiter c =>
      if t_on t then (t_pc t <= 13)%nat /\ t_state t = (if bool_decide (t_pc t = 6)%nat then SLEEPING else RUNNING) /\
        t_chan t = (if bool_decide (5 <= t_pc t <= 7)%nat then Some c else None)
      else t_pc t = 7%nat /\ (t_state t = SLEEPING \/ t_state t = RUNNABLE) /\ t_chan t = Some c
  | Waker _ => t_on t = true /\ (t_pc t <= 6)%nat /\ t_state t = RUNNING /\ t_chan t = None
  | Killer _ => t_on t = true /\ (t_pc t <= 3)%nat /\ t_state t = RUNNING /\ t_chan t = None
  end.

(** A waiter that has seen the condition false and still holds its lock. *)
Definition saw_false (c : nat) (t : thread) : Prop := t_role t = Waiter c /\ t_on t = true /\ (t_pc t = 2 \/ t_pc t = 3)%nat.
(** A waiter on its way to sleep, or asleep. *)
Definition to_sleep (c : nat) (t : thread) : Prop := t_role t = Waiter c /\ if t_on t then (4 <= t_pc t <= 6)%nat else t_state t = SLEEPING.

Definition pending (c : nat) (l : list thread) : Prop := exists j u, l !! j = Some u /\ waking c u.

Record inv (s : sys) : Prop := Inv {
  in_thread i t : threads s !! i = Some t -> thread_ok t;
  in_own i t l : threads s !! i = Some t -> l ∈ holds t <-> own s l = Some (Thr i);
  in_false i t c : threads s !! i = Some t -> saw_false c t -> cond s c = false;
  in_sleep i t c : threads s !! i = Some t -> to_sleep c t -> cond s c = true -> pending c (threads s) }.

Lemma insert_cases {A} (l : list A) i x j y : <[i := x]> l !! j = Some y -> j = i /\ y = x \/ j <> i /\ l !! j = Some y.
Proof. rewrite list_lookup_insert_Some. naive_solver. Qed.

Lemma holds_saw_false c t : saw_false c t -> LK c ∈ holds t.
Proof. intros (Hr & Ho & Hp). unfold holds. rewrite Hr, Ho. destruct Hp as [-> | ->]; left. Qed.

(** A step of thread [i] that leaves the other threads alone and takes or gives up locks of its own. *)
Lemma inv_upd s i t t' own' cond' : inv s -> threads s !! i = Some t -> thread_ok t' ->
  (forall l, l ∈ holds t' <-> own' l = Some (Thr i)) -> (forall l j, j <> i -> own' l = Some (Thr j) <-> own s l = Some (Thr j)) ->
  (forall c, cond' c = cond s c \/ LK c ∈ holds t /\ (cond' c = false \/ waking c t')) ->
  (forall c, waking c t -> waking c t' \/ forall j u, threads s !! j = Some u -> ~ to_sleep c u) -> (forall c, saw_false c t' -> cond' c = false) ->
  (forall c, to_sleep c t' -> cond' c = true -> to_sleep c t) -> inv (Sys (<[i := t']> (threads s)) own' cond').
Proof.
  intros [H1 H2 H3 H4] Ht Hok Ho Hoth Hc Hw Hf Hs.
  assert (Hi : <[i := t']> (threads s) !! i = Some t') by (by apply list_lookup_insert_eq; eapply lookup_lt_Some).
  assert (Hp : forall c k v, threads s !! k = Some v -> to_sleep c v -> cond s c = true -> pending c (<[i := t']> (threads s))).
  { intros c k v Hk Hv Hcc. destruct (H4 k v c Hk Hv Hcc) as (j & u & Hj & Hu). destruct (decide (j = i)) as [->|Hne]; [|exists j, u; by rewrite list_lookup_insert_ne].
    exists i, t'. split; [done|]. assert (u = t) as -> by congruence. destruct (Hw c Hu) as [?|Hno]; [done|]. by destruct (Hno k v Hk). }
  split; cbn [threads own cond].
  - intros j u [[-> ->]|[Hne Hj]]%insert_cases; eauto.
  - intros j u l [[-> ->]|[Hne Hj]]%insert_cases; [done|]. rewrite Hoth by done. eauto.
  - intros j u c [[-> ->]|[Hne Hj]]%insert_cases Hu; [by apply Hf|]. destruct (Hc c) as [->|[Hl _]]; [eauto|].
    apply holds_saw_false, (H2 _ _ _ Hj) in Hu. apply (H2 _ _ _ Ht) in Hl. congruence.
  - intros j u c Hj Hu Hcc. destruct (Hc c) as [E|[_ [E|Hk]]]; [rewrite E in Hcc|congruence|by exists i, t'].
    apply insert_cases in Hj as [[-> ->]|[Hne Hj]]; [|by eauto]. apply (Hp c i t); [done|by apply Hs; rewrite ?E|done].
Qed.

(** Locks of the scheduler. *)
Lemma inv_scheduler s o : inv s -> own s PT = None \/ own s PT = Some Scheduler -> o = None \/ o = Some Scheduler ->
  inv (Sys (threads s) (<[PT := o]> (own s)) (cond s)).
Proof.
  intros [H1 H2 H3 H4] Hs Ho. split; cbn; eauto. intros i t l Ht. rewrite (H2 i t l Ht). destruct (decide (l = PT)) as [->|Hne].
  - rewrite fn_lookup_insert. naive_solver congruence.
  - by rewrite fn_lookup_insert_ne by done.
Qed.

(** Changing states of sleeping processes to runnable. *)
Definition woken (t t' : thread) : Prop := t' = t \/ t_state t = SLEEPING /\ t' = with_state RUNNABLE t.

Lemma wake_woken c t : woken t (wake_thread c t).
Proof. unfold wake_thread. case_bool_decide; [right; naive_solver|by left]. Qed.
Lemma kill_woken t : woken t (kill_thread t).
Proof. unfold kill_thread. case_bool_decide; [by right|by left]. Qed.

(** A sleeping process whose lock can be had is off its CPU. *)
Lemma sleeping_off t : thread_ok t -> PT ∉ holds t -> t_state t = SLEEPING -> exists c, sleeps c t.
Proof.
  destruct t as [[c|c|k] pc [] st ch]; unfold thread_ok, holds; cbn; intros Hok Hh Hs; try naive_solver.
  destruct Hok as (_ & Hst & _). case_bool_decide as E; [subst pc; by destruct Hh; left|congruence].
Qed.

Lemma inv_woken s l' i : inv s -> own s PT = Some (Thr i) -> (forall j t', l' !! j = Some t' -> exists t, threads s !! j = Some t /\ woken t t') ->
  (forall j t, threads s !! j = Some t -> exists t', l' !! j = Some t' /\ woken t t') ->
  (forall j t, threads s !! j = Some t -> j = i -> t_state t = RUNNING) -> inv (Sys l' (own s) (cond s)).
Proof.
  intros [H1 H2 H3 H4] Ho Hback Hfwd Hi.
  assert (Hw : forall j t, threads s !! j = Some t -> t_state t = SLEEPING -> exists c, sleeps c t).
  { intros j t Hj Hst. apply sleeping_off; [eauto| |done]. rewrite (H2 _ _ PT Hj), Ho. intros [= <-]. by rewrite (Hi i t Hj eq_refl) in Hst. }
  assert (Hp : forall c, pending c (threads s) -> pending c l').
  { intros c (j & u & Hj & Hu). destruct (Hfwd j u Hj) as (u' & Hj' & [->|[Hst _]]); [by exists j, u|].
    destruct Hu as [_ Hu]. by rewrite Hu in Hst. }
  split; cbn [threads own cond].
  - intros j t' (t & Hj & [->|[Hst ->]])%Hback; [eauto|]. destruct (Hw j t Hj Hst) as (c & ->). cbn. auto.
  - intros j t' l (t & Hj & [->|[Hst ->]])%Hback; [eauto|]. rewrite <- (H2 j t l Hj). by destruct (Hw j t Hj Hst) as (c & ->).
  - intros j t' c (t & Hj & [->|[Hst ->]])%Hback Hf; [eauto|]. destruct (Hw j t Hj Hst) as (d & ->). by destruct Hf as (_ & ? & _).
  - intros j t' c (t & Hj & [->|[Hst ->]])%Hback Hf Hc; [eauto|]. destruct (Hw j t Hj Hst) as (d & ->). by destruct Hf as (_ & ?).
Qed.

Section moves.
Context (s : sys) (i : nat) (t : thread) (Hinv : inv s) (Ht : threads s !! i = Some t).

Lemma own_put l0 o : own s l0 = None \/ own s l0 = Some (Thr i) -> (forall j, j <> i -> o <> Some (Thr j)) ->
  forall l j, j <> i -> <[l0 := o]> (own s) l = Some (Thr j) <-> own s l = Some (Thr j).
Proof using.
  intros Hn Ho l j Hne. destruct (decide (l = l0)) as [->|Hl]; [|by rewrite fn_lookup_insert_ne]. rewrite fn_lookup_insert.
  split; [by intros E; destruct (Ho j Hne)|]. destruct Hn as [-> | ->]; congruence.
Qed.

Lemma sw_inv_acquire t' l0 : own s l0 = None -> thread_ok t' -> (forall l, l ∈ holds t' <-> l = l0 \/ l ∈ holds t) ->
  (forall c, waking c t -> waking c t') -> (forall c, saw_false c t' -> saw_false c t) -> (forall c, to_sleep c t' -> to_sleep c t) ->
  inv (Sys (<[i := t']> (threads s)) (<[l0 := Some (Thr i)]> (own s)) (cond s)).
Proof using Hinv Ht.
  intros Hn Hok Hh Hw Hf Hs. apply (inv_upd s i t); auto.
  - intros l. rewrite Hh, (in_own s Hinv i t l Ht). destruct (decide (l = l0)) as [->|Hne]; [rewrite fn_lookup_insert; tauto|].
    rewrite fn_lookup_insert_ne by done. tauto.
  - apply own_put; [by left|]. intros j Hne [= <-]. done.
  - intros c Hc. by eapply (in_false s Hinv), Hf.
Qed.

Lemma inv_give t' l0 o : own s l0 = Some (Thr i) -> (o = None \/ o = Some Scheduler) -> thread_ok t' -> (forall l, l ∈ holds t' <-> l <> l0 /\ l ∈ holds t) ->
  (forall c, waking c t -> waking c t') -> (forall c, ~ saw_false c t') -> (forall c, to_sleep c t' -> to_sleep c t \/ saw_false c t) ->
  inv (Sys (<[i := t']> (threads s)) (<[l0 := o]> (own s)) (cond s)).
Proof using Hinv Ht.
  intros Hn Ho Hok Hh Hw Hf Hs. apply (inv_upd s i t); auto.
  - intros l. rewrite Hh, (in_own s Hinv i t l Ht). destruct (decide (l = l0)) as [->|Hne]; [rewrite fn_lookup_insert; destruct Ho; subst; split; [tauto|done|tauto|done]|].
    rewrite fn_lookup_insert_ne by done. tauto.
  - apply own_put; [by right|]. intros j Hne. by destruct Ho as [-> | ->].
  - intros c Hc. by destruct (Hf c).
  - intros c Hc Hcc. destruct (Hs c Hc) as [?|Hsf]; [done|]. rewrite (in_false s Hinv i t c Ht Hsf) in Hcc. done.
Qed.

Lemma sw_inv_local t' : thread_ok t' -> holds t' = holds t -> (forall c, waking c t -> waking c t' \/ forall j u, threads s !! j = Some u -> ~ to_sleep c u) ->
  (forall c, saw_false c t' -> cond s c = false) -> (forall c, to_sleep c t' -> to_sleep c t) ->
  inv (Sys (<[i := t']> (threads s)) (own s) (cond s)).
Proof using Hinv Ht.
  intros Hok Hh Hw Hf Hs. apply (inv_upd s i t); auto; try done. intros l. rewrite Hh. by apply (in_own s Hinv).
Qed.

Lemma inv_set t' c0 b : thread_ok t' -> holds t' = holds t -> LK c0 ∈ holds t -> (b = false \/ waking c0 t') -> (forall c, ~ waking c t) ->
  (forall c, ~ saw_false c t') -> (forall c, ~ to_sleep c t') -> inv (Sys (<[i := t']> (threads s)) (own s) (<[c0 := b]> (cond s))).
Proof using Hinv Ht.
  intros Hok Hh Hl Hb Hw Hf Hs. apply (inv_upd s i t); auto; try done.
  - intros l. rewrite Hh. by apply (in_own s Hinv).
  - intros c. destruct (decide (c = c0)) as [->|Hne]; [rewrite fn_lookup_insert; auto|left; by rewrite fn_lookup_insert_ne].
  - intros c Hc. by destruct (Hw c).
  - intros c Hc. by destruct (Hf c).
  - intros c Hc. by destruct (Hs c).
Qed.

Context (Hrun : t_state t = RUNNING) (Hpt : own s PT = Some (Thr i)).

Lemma running_only j u : threads s !! j = Some u -> j = i -> t_state u = RUNNING.
Proof using Ht Hrun. intros Hj ->. congruence. Qed.

Lemma inv_wakeup1 c : inv (Sys (wake_thread c <$> threads s) (own s) (cond s)).
Proof using Hinv Ht Hrun Hpt.
  apply (inv_woken s _ i); try done; [| |exact running_only].
  - intros j t'. rewrite list_lookup_fmap. destruct (threads s !! j) as [u|]; [|done]. intros [= <-]. exists u. split; [done|apply wake_woken].
  - intros j u Hj. rewrite list_lookup_fmap, Hj. eexists. split; [done|apply wake_woken].
Qed.

Lemma inv_kill k : inv (Sys (alter kill_thread k (threads s)) (own s) (cond s)).
Proof using Hinv Ht Hrun Hpt.
  apply (inv_woken s _ i); try done; [| |exact running_only].
  - intros j t'. destruct (decide (j = k)) as [->|Hne]; [|rewrite list_lookup_alter_ne by done; intros Hj; exists t'; split; [done|by left]].
    rewrite list_lookup_alter_eq. destruct (threads s !! k) as [u|]; [|done]. intros [= <-]. exists u. split; [done|apply kill_woken].
  - intros j u Hj. destruct (decide (j = k)) as [->|Hne]; [|rewrite list_lookup_alter_ne by done; exists u; split; [done|by left]].
    rewrite list_lookup_alter_eq, Hj. eexists. split; [done|apply kill_woken].
Qed.

(** After wakeup1 no thread of the channel sleeps or is about to. *)
Lemma wakeup1_wakes c j u : (forall d, ~ to_sleep d t) -> (wake_thread c <$> threads s) !! j = Some u -> ~ to_sleep c u.
Proof using Hinv Ht Hpt.
  clear Hrun.
  intros Hno. rewrite list_lookup_fmap. destruct (threads s !! j) as [v|] eqn:Hj; [|done]. intros [= <-] [Hr Hs].
  pose proof (in_thread s Hinv j v Hj) as Hok. pose proof (in_own s Hinv j v PT Hj) as Hown.
  assert (Hro : t_role v = Waiter c /\ t_on (wake_thread c v) = t_on v /\ t_pc (wake_thread c v) = t_pc v) by (unfold wake_thread in *; by case_bool_decide).
  destruct Hro as (Hr' & Eon & Epc). rewrite Eon, Epc in Hs. unfold thread_ok, holds in *. rewrite Hr' in *. destruct (t_on v) eqn:Hon.
  - assert (own s PT = Some (Thr j)) by (apply Hown; assert (t_pc v = 4 \/ t_pc v = 5 \/ t_pc v = 6)%nat as [-> | [-> | ->]] by lia; left).
    assert (j = i) as -> by congruence. apply (Hno c). assert (t = v) as -> by congruence. split; [done|]. by rewrite Hon.
  - unfold wake_thread in Hs. destruct Hok as (_ & _ & Hch). case_bool_decide as E; [done|]. by destruct E.
Qed.

End moves.

(** ** Every step preserves it *)

(** The side conditions on a thread whose instruction is known. *)
Ltac thread_side :=
  unfold thread_ok, saw_false, to_sleep, waking, holds; cbn;
  first [ done | by split_and!; try lia | by set_solver | intros ?; naive_solver lia ].

(** The instruction at a known place, executed. *)
Ltac instr_step Hc He :=
  cbn in Hc; injection Hc as <-; unfold run_instr, next, at_pc, with_chan, with_state, off_cpu in He; cbn in He;
  try match type of He with (if bool_decide ?P then _ else _) = _ => destruct (bool_decide_reflect P) as [Hl|_]; [|done] end; injection He as <-.

Section exec.
Context (s : sys) (i : nat) (Hinv : inv s).

Lemma own_of t l : threads s !! i = Some t -> l ∈ holds t -> own s l = Some (Thr i).
Proof using Hinv. intros Ht. by apply (in_own s Hinv). Qed.

Lemma waiter_inv c pc st ch ins s' : threads s !! i = Some (Thread (Waiter c) pc true st ch) -> code_of (Waiter c) !! pc = Some ins ->
  run_instr i (Thread (Waiter c) pc true st ch) ins s = Some s' -> inv s'.
Proof using Hinv.
  intros Ht Hc He. destruct (in_thread s Hinv i _ Ht) as (Hpc & Hst & Hch). cbn in Hpc, Hst, Hch. subst st ch.
  destruct pc as [|[|[|[|[|[|[|[|[|[|[|[|[|[|pc]]]]]]]]]]]]]]; [instr_step Hc He..|lia].
  - eapply sw_inv_acquire; try done; thread_side.
  - destruct (cond s c) eqn:Ec; (eapply sw_inv_local; try done; thread_side).
  - eapply sw_inv_acquire; try done; thread_side.
  - eapply inv_give; try done; thread_side.
  - eapply sw_inv_local; try done; thread_side.
  - eapply sw_inv_local; try done; thread_side.
  - eapply inv_give; try done; thread_side.
  - eapply sw_inv_local; try done; thread_side.
  - eapply inv_give; try done; thread_side.
  - eapply sw_inv_acquire; try done; thread_side.
  - eapply sw_inv_local; try done; thread_side.
  - eapply inv_set; try done; thread_side.
  - eapply inv_give; try done; thread_side.
  - eapply sw_inv_local; try done; thread_side.
Qed.

Lemma waker_inv c pc ins s' : threads s !! i = Some (Thread (Waker c) pc true RUNNING None) -> code_of (Waker c) !! pc = Some ins ->
  run_instr i (Thread (Waker c) pc true RUNNING None) ins s = Some s' -> inv s'.
Proof using Hinv.
  intros Ht Hc He. destruct (in_thread s Hinv i _ Ht) as (_ & Hpc & _). cbn in Hpc.
  assert (Hlen : (i < List.length (threads s))%nat) by (by eapply lookup_lt_Some).
  destruct pc as [|[|[|[|[|[|[|pc]]]]]]]; [instr_step Hc He..|lia].
  - eapply sw_inv_acquire; try done; thread_side.
  - eapply inv_set; try done; thread_side.
  - eapply sw_inv_acquire; try done; thread_side.
  - pose proof (own_of _ PT Ht ltac:(right; left)) as Ho. rewrite list_fmap_insert.
    pose proof (inv_wakeup1 s i _ Hinv Ht eq_refl Ho c) as H1. set (s1 := Sys (wake_thread c <$> threads s) (own s) (cond s)) in *.
    assert (Ht1 : threads s1 !! i = Some (Thread (Waker c) 3 true RUNNING None)) by (cbn; rewrite list_lookup_fmap, Ht; done).
    apply (sw_inv_local s1 i _ H1 Ht1); try thread_side. intros d Hd. right. assert (d = c) as -> by (destruct Hd as [_ [=]]; done).
    intros j u. apply (wakeup1_wakes s i _ Hinv Ht Ho). thread_side.
  - eapply inv_give; try done; thread_side.
  - eapply inv_give; try done; thread_side.
  - eapply sw_inv_local; try done; thread_side.
Qed.

Lemma killer_inv k pc ins s' : threads s !! i = Some (Thread (Killer k) pc true RUNNING None) -> code_of (Killer k) !! pc = Some ins ->
  run_instr i (Thread (Killer k) pc true RUNNING None) ins s = Some s' -> inv s'.
Proof using Hinv.
  intros Ht Hc He. destruct (in_thread s Hinv i _ Ht) as (_ & Hpc & _). cbn in Hpc.
  assert (Hlen : (i < List.length (threads s))%nat) by (by eapply lookup_lt_Some).
  destruct pc as [|[|[|[|pc]]]]; [instr_step Hc He..|lia].
  - eapply sw_inv_acquire; try done; thread_side.
  - pose proof (own_of _ PT Ht ltac:(left)) as Ho. pose proof (inv_kill s i _ Hinv Ht eq_refl Ho k) as H1.
    set (s1 := Sys (alter kill_thread k (threads s)) (own s) (cond s)) in *.
    assert (Ht1 : threads s1 !! i = Some (Thread (Killer k) 1 true RUNNING None)).
    { cbn. destruct (decide (i = k)) as [<-|Hne]; [by rewrite list_lookup_alter_eq, Ht|by rewrite list_lookup_alter_ne]. }
    assert (El : alter kill_thread k (<[i := Thread (Killer k) 2 true RUNNING None]> (threads s)) = <[i := Thread (Killer k) 2 true RUNNING None]> (threads s1)).
    { apply list_eq. intros j. cbn. destruct (decide (j = i)) as [->|Hj].
      - rewrite (list_lookup_insert_eq (alter _ _ _)) by (by rewrite length_alter). destruct (decide (i = k)) as [<-|Hne].
        + by rewrite list_lookup_alter_eq, list_lookup_insert_eq.
        + by rewrite list_lookup_alter_ne, list_lookup_insert_eq.
      - rewrite (list_lookup_insert_ne (alter _ _ _)) by done. destruct (decide (j = k)) as [->|Hne].
        + by rewrite !list_lookup_alter_eq, list_lookup_insert_ne.
        + by rewrite !list_lookup_alter_ne, list_lookup_insert_ne. }
    rewrite El. apply (sw_inv_local s1 i _ H1 Ht1); thread_side.
  - eapply inv_give; try done; thread_side.
  - eapply sw_inv_local; try done; thread_side.
Qed.
End exec.

Lemma sw_exec_inv s i t ins s' : inv s -> threads s !! i = Some t -> t_on t = true -> code_of (t_role t) !! t_pc t = Some ins -> run_instr i t ins s = Some s' -> inv s'.
Proof.
  intros Hinv Ht Hon Hc He. pose proof (in_thread s Hinv i t Ht) as Hok. destruct t as [[c|c|k] pc on st ch]; cbn in Hon; subst on.
  - by eapply waiter_inv.
  - destruct Hok as (_ & _ & Hst & Hch). cbn in Hst, Hch. subst st ch. by eapply waker_inv.
  - destruct Hok as (_ & _ & Hst & Hch). cbn in Hst, Hch. subst st ch. by eapply killer_inv.
Qed.

Lemma sw_step_inv s s' : inv s -> step s s' -> inv s'.
Proof.
  intros Hinv Hs. destruct Hs as [i t ins s' Ht Hon Hc He|Ho|Ho|i t Ho Ht Hoff Hst].
  - by eapply sw_exec_inv.
  - apply inv_scheduler; auto.
  - apply inv_scheduler; auto.
  - pose proof (in_thread s Hinv i t Ht) as Hok. destruct t as [[c|c|k] pc on st ch]; cbn in Hoff, Hst; subst on st; try (by destruct Hok).
    destruct Hok as (Hpc & _ & Hch). cbn in Hpc, Hch. subst pc ch. apply (inv_upd s i _ _ _ _ Hinv Ht); try thread_side.
    + intros l. unfold holds. cbn. destruct (decide (l = PT)) as [->|Hl]; [rewrite fn_lookup_insert; split; [done|by left]|].
      rewrite fn_lookup_insert_ne by done. rewrite <- (in_own s Hinv i _ l Ht). unfold holds. cbn. set_solver.
    + intros l j Hne. destruct (decide (l = PT)) as [->|Hl]; [rewrite fn_lookup_insert, Ho; naive_solver|by rewrite fn_lookup_insert_ne].
Qed.

Lemma start_inv rs cs : inv (start rs cs).
Proof.
  assert (H0 : forall i t, threads (start rs cs) !! i = Some t -> exists r, t = Thread r 0 true RUNNING None).
  { intros i t. cbn. rewrite list_lookup_fmap. destruct (rs !! i) as [r|]; [|done]. intros [= <-]. by exists r. }
  split; intros i t.
  - intros ([] & ->)%H0; thread_side.
  - intros l ([] & ->)%H0; cbn; (split; [by intros ?%not_elem_of_nil|done]).
  - intros c ([] & ->)%H0; thread_side.
  - intros c ([] & ->)%H0; thread_side.
Qed.

Lemma sw_reachable_inv rs cs s : reachable rs cs s -> inv s.
Proof. induction 1; [apply start_inv|by eapply sw_step_inv]. Qed.

(** ** A sleeper can be woken *)

(** The steps until the holder of the process table lock lets it go. *)
Definition left_steps (t : thread) : nat :=
  match t_role t, t_pc t with
  | Waiter _, 3 => 4 | Waiter _, 4 => 3 | Waiter _, 5 => 2 | Waiter _, 6 => 1 | Waiter _, 7 => 2 | Waiter _, 8 => 1
  | Waker _, 3 => 2 | Waker _, 4 => 1
  | Killer _, 1 => 2 | Killer _, 2 => 1
  | _, _ => 0
  end%nat.

Definition let_go (s s' : sys) (k : nat) (v : thread) : Prop :=
  own s' PT = None \/ own s' PT = Some Scheduler \/
  own s' PT = Some (Thr k) /\ exists v', threads s' !! k = Some v' /\ (left_steps v' < left_steps v)%nat.

(** The other threads are as before, or woken. *)
Definition others (s s' : sys) (k : nat) : Prop := forall j u, j <> k -> threads s !! j = Some u -> exists u', threads s' !! j = Some u' /\ woken u u'.

Lemma others_insert s k v' own' cond' : others s (Sys (<[k := v']> (threads s)) own' cond') k.
Proof. intros j u Hne Hj. exists u. split; [by cbn; rewrite list_lookup_insert_ne|by left]. Qed.

Section holder.
Context (s : sys) (k : nat) (Hinv : inv s) (Hpt : own s PT = Some (Thr k)).

Lemma holder_local v v' ins : threads s !! k = Some v -> t_on v = true -> code_of (t_role v) !! t_pc v = Some ins ->
  run_instr k v ins s = Some (Sys (<[k := v']> (threads s)) (own s) (cond s)) -> (left_steps v' < left_steps v)%nat ->
  exists s', step s s' /\ let_go s s' k v /\ others s s' k.
Proof using Hpt.
  intros Hv Hon Hc He Hl. eexists. split; [by eapply step_exec|]. split; [|apply others_insert]. right. right. split; [done|].
  exists v'. split; [|done]. apply list_lookup_insert_eq. by eapply lookup_lt_Some.
Qed.

Lemma holder_gives v v' ins o : threads s !! k = Some v -> t_on v = true -> code_of (t_role v) !! t_pc v = Some ins -> (o = None \/ o = Some Scheduler) ->
  run_instr k v ins s = Some (Sys (<[k := v']> (threads s)) (<[PT := o]> (own s)) (cond s)) -> exists s', step s s' /\ let_go s s' k v /\ others s s' k.
Proof using.
  clear Hinv Hpt. intros Hv Hon Hc Ho He. eexists. split; [by eapply step_exec|]. split; [|apply others_insert]. unfold let_go. cbn. rewrite fn_lookup_insert. tauto.
Qed.

Lemma waiter_steps c pc st ch : threads s !! k = Some (Thread (Waiter c) pc true st ch) -> PT ∈ holds (Thread (Waiter c) pc true st ch) ->
  exists s', step s s' /\ let_go s s' k (Thread (Waiter c) pc true st ch) /\ others s s' k.
Proof using Hinv Hpt.
  intros Hv Hh. pose proof (in_thread s Hinv k _ Hv) as (Hpc & _). cbn in Hpc.
  destruct pc as [|[|[|[|[|[|[|[|[|pc]]]]]]]]]; try (exfalso; unfold holds in Hh; cbn in Hh; set_solver).
  - assert (Hlk : own s (LK c) = Some (Thr k)) by (by apply (in_own s Hinv k _ (LK c) Hv); left).
    eexists. split; [eapply step_exec; [exact Hv|done|done|unfold run_instr; by rewrite bool_decide_true]|]. split; [|apply others_insert].
    right. right. cbn. rewrite fn_lookup_insert_ne by done. split; [done|]. eexists.
    split; [apply list_lookup_insert_eq; by eapply lookup_lt_Some|cbn; lia].
  - eapply holder_local; [exact Hv|done|done|done|cbn; lia].
  - eapply holder_local; [exact Hv|done|done|done|cbn; lia].
  - eapply holder_gives; [exact Hv|done|done|right; reflexivity|unfold run_instr; by rewrite bool_decide_true].
  - eapply holder_local; [exact Hv|done|done|done|cbn; lia].
  - eapply holder_gives; [exact Hv|done|done|left; reflexivity|unfold run_instr; by rewrite bool_decide_true].
  - exfalso. unfold holds in Hh. cbn in Hh. do 4 (destruct pc as [|pc]; [set_solver|]). set_solver.
Qed.

Lemma waker_steps c pc st ch : threads s !! k = Some (Thread (Waker c) pc true st ch) -> PT ∈ holds (Thread (Waker c) pc true st ch) ->
  exists s', step s s' /\ let_go s s' k (Thread (Waker c) pc true st ch) /\ others s s' k.
Proof using Hinv Hpt.
  intros Hv Hh. pose proof (in_thread s Hinv k _ Hv) as (_ & Hpc & Hst & _). cbn in Hpc, Hst. subst st.
  destruct pc as [|[|[|[|[|pc]]]]]; try (exfalso; unfold holds in Hh; cbn in Hh; set_solver).
  - eexists. split; [eapply step_exec; [exact Hv|done|done|reflexivity]|]. split.
    + right. right. split; [done|]. exists (Thread (Waker c) 4 true RUNNING ch). cbn. rewrite list_fmap_insert, list_lookup_insert_eq by (rewrite length_fmap; by eapply lookup_lt_Some).
      split; [done|cbn; lia].
    + intros j u Hne Hj. cbn. rewrite list_lookup_fmap, list_lookup_insert_ne, Hj by done. eexists. split; [done|apply wake_woken].
  - eapply holder_gives; [exact Hv|done|done|left; reflexivity|unfold run_instr; by rewrite bool_decide_true].
  - exfalso. unfold holds in Hh. cbn in Hh. do 2 (destruct pc as [|pc]; [set_solver|]). set_solver.
Qed.

Lemma killer_steps m pc st ch : threads s !! k = Some (Thread (Killer m) pc true st ch) -> PT ∈ holds (Thread (Killer m) pc true st ch) ->
  exists s', step s s' /\ let_go s s' k (Thread (Killer m) pc true st ch) /\ others s s' k.
Proof using Hinv Hpt.
  intros Hv Hh. pose proof (in_thread s Hinv k _ Hv) as (_ & Hpc & Hst & _). cbn in Hpc, Hst. subst st.
  assert (Hlen : (k < List.length (threads s))%nat) by (by eapply lookup_lt_Some).
  destruct pc as [|[|[|pc]]]; try (exfalso; unfold holds in Hh; cbn in Hh; set_solver).
  - eexists. split; [eapply step_exec; [exact Hv|done|done|reflexivity]|]. split.
    + right. right. split; [done|]. cbn. destruct (decide (k = m)) as [->|Hne].
      * rewrite list_lookup_alter_eq, list_lookup_insert_eq by done. exists (Thread (Killer m) 2 true RUNNING ch). split; [done|cbn; lia].
      * rewrite list_lookup_alter_ne, list_lookup_insert_eq by done. exists (Thread (Killer m) 2 true RUNNING ch). split; [done|cbn; lia].
    + intros j u Hne Hj. cbn. destruct (decide (j = m)) as [->|Hjm].
      * rewrite list_lookup_alter_eq, list_lookup_insert_ne, Hj by done. eexists. split; [done|apply kill_woken].
      * rewrite list_lookup_alter_ne, list_lookup_insert_ne by done. exists u. split; [done|by left].
  - eapply holder_gives; [exact Hv|done|done|left; reflexivity|unfold run_instr; by rewrite bool_decide_true].
Qed.

Lemma holder_steps v : threads s !! k = Some v -> exists s', step s s' /\ let_go s s' k v /\ others s s' k.
Proof using Hinv Hpt.
  intros Hv. pose proof (proj2 (in_own s Hinv k v PT Hv) Hpt) as Hh. pose proof (in_thread s Hinv k v Hv) as Hok. destruct v as [[c|c|m] pc [] st ch].
  - by apply waiter_steps.
  - unfold holds in Hh. cbn in Hh. set_solver.
  - by apply waker_steps.
  - by destruct Hok.
  - by apply killer_steps.
  - by destruct Hok.
Qed.
End holder.

Section woken_up.
Context (i j c : nat).
#[local] Abbreviation sleeper := (Thread (Waiter c) 7 false SLEEPING (Some c)).
#[local] Abbreviation waker pc := (Thread (Waker c) pc true RUNNING None).

Definition can_wake (s : sys) : Prop := exists s', rtc step s s' /\ threads s' !! i = Some (with_state RUNNABLE sleeper).

Lemma can_wake_step s s' : step s s' -> can_wake s' -> can_wake s.
Proof using. intros Hs (s2 & Hr & Hi). exists s2. split; [by eapply rtc_l|done]. Qed.

Lemma can_wake_running s : threads s !! i = Some sleeper -> threads s !! j = Some (waker 3) -> can_wake s.
Proof using.
  intros Hi Hj. eexists. split; [eapply rtc_once, step_exec; [exact Hj|done|done|reflexivity]|]. cbn.
  assert (i <> j) by (intros ->; congruence). rewrite list_lookup_fmap, list_lookup_insert_ne, Hi by done.
  cbn. unfold wake_thread. by rewrite bool_decide_true.
Qed.

Lemma can_wake_free s : threads s !! i = Some sleeper -> threads s !! j = Some (waker 2) -> own s PT = None -> can_wake s.
Proof using.
  intros Hi Hj Ho. assert (i <> j) by (intros ->; congruence).
  eapply can_wake_step; [eapply step_exec; [exact Hj|done|done|unfold run_instr; by rewrite bool_decide_true]|]. apply can_wake_running; cbn.
  - by rewrite list_lookup_insert_ne.
  - apply list_lookup_insert_eq. by eapply lookup_lt_Some.
Qed.

Lemma can_wake_sched s : threads s !! i = Some sleeper -> threads s !! j = Some (waker 2) -> own s PT = Some Scheduler -> can_wake s.
Proof using.
  intros Hi Hj Ho. eapply can_wake_step; [by apply step_sched_release|]. apply can_wake_free; cbn; [done|done|apply fn_lookup_insert].
Qed.

Lemma can_wake_held n : forall s k v, inv s -> threads s !! i = Some sleeper -> threads s !! j = Some (waker 2) -> own s PT = Some (Thr k) ->
  threads s !! k = Some v -> (left_steps v <= n)%nat -> can_wake s.
Proof using.
  induction n as [n IH] using (well_founded_induction Nat.lt_wf_0). intros s k v Hinv Hi Hj Ho Hk Hn.
  destruct (holder_steps s k Hinv Ho v Hk) as (s' & Hs & Hl & Hoth).
  assert (Hh : forall m u, threads s !! m = Some u -> PT ∉ holds u -> m <> k) by (intros m u Hm Hu ->; by rewrite (in_own s Hinv k u PT Hm) in Hu).
  destruct (Hoth i _ (Hh i _ Hi ltac:(cbn; set_solver)) Hi) as (ui & Hi' & [->|[_ ->]]); [|exists s'; split; [by apply rtc_once|done]].
  destruct (Hoth j _ (Hh j _ Hj ltac:(cbn; set_solver)) Hj) as (uj & Hj' & [->|[Hbad _]]); [|done].
  eapply can_wake_step; [exact Hs|]. destruct Hl as [Hl|[Hl|(Hl & v' & Hv' & Hlt)]]; [by apply can_wake_free|by apply can_wake_sched|].
  eapply (IH (left_steps v') ltac:(lia)); [by eapply sw_step_inv|done..].
Qed.

Lemma can_wake_inv s : inv s -> threads s !! i = Some sleeper -> threads s !! j = Some (waker 2) -> (forall k, own s PT = Some (Thr k) -> is_Some (threads s !! k)) -> can_wake s.
Proof using.
  intros Hinv Hi Hj Hk. destruct (own s PT) as [[k|]|] eqn:Ho; [|by apply can_wake_sched|by apply can_wake_free].
  destruct (Hk k eq_refl) as [v Hv]. by eapply can_wake_held.
Qed.
End woken_up.

(** Locks are held by threads there are. *)
Definition owners (s : sys) : Prop := forall l k, own s l = Some (Thr k) -> (k < List.length (threads s))%nat.

Lemma owners_put s l0 o ts cs : owners s -> List.length ts = List.length (threads s) -> (forall k, o = Some (Thr k) -> (k < List.length (threads s))%nat) ->
  owners (Sys ts (<[l0 := o]> (own s)) cs).
Proof.
  intros Ho Hl Hk l k. cbn. rewrite Hl. destruct (decide (l = l0)) as [->|Hne]; [rewrite fn_lookup_insert; apply Hk|rewrite fn_lookup_insert_ne by done; apply Ho].
Qed.

Lemma owners_same s ts cs : owners s -> List.length ts = List.length (threads s) -> owners (Sys ts (own s) cs).
Proof. intros Ho Hl l k Hk. cbn. rewrite Hl. by eapply Ho. Qed.

Lemma step_owners s s' : owners s -> step s s' -> owners s'.
Proof.
  intros Ho Hs. destruct Hs as [i t ins s' Ht Hon Hc He|Hf|Hf|i t Hf Ht Hoff Hst].
  - apply lookup_lt_Some in Ht. destruct ins; cbn in He; try (case_bool_decide; [|done]); injection He as <-;
      first [apply owners_put | apply owners_same]; rewrite ?length_fmap, ?length_alter, ?length_insert; try done; naive_solver.
  - by apply owners_put.
  - by apply owners_put.
  - apply owners_put; [done|by rewrite length_insert|]. intros k [= <-]. by eapply lookup_lt_Some.
Qed.

Lemma reachable_owners rs cs s : reachable rs cs s -> owners s.
Proof. induction 1; [done|by eapply step_owners]. Qed.

(** ** The code of proc.c *)

Section code.
Context {F : Type}.

(** An instruction of process [i], for channel [ch] and its lock [lk]. *)
Definition instr_run (i : nat) (ch : channel) (lk : lockid) (ins : instr) : M (kst F) unit :=
  match ins with
  | I_acquire PT => acquire L_ptable | I_acquire (LK _) => acquire lk
  | I_release PT => release L_ptable | I_release (LK _) => release lk
  | I_chan o => upd_proc i (set_p_chan (match o with Some _ => Some ch | None => None end))
  | I_asleep => upd_proc i (set_p_state SLEEPING)
  | I_sched => sched
  | I_wakeup1 _ => wakeup1 ch
  | _ => mret tt
  end.

Fixpoint code_run (i : nat) (ch : channel) (lk : lockid) (l : list instr) : M (kst F) unit :=
  match l with [] => mret tt | [ins] => instr_run i ch lk ins | ins :: l => instr_run i ch lk ins;; code_run i ch lk l end.

(** With a lock other than the process table's, sleep is its instructions in order, and so is wakeup. *)
Lemma sleep_runs_code (s : kst F) i c ch lk : cur s = Some i -> lk <> L_ptable -> sleep ch lk s = code_run i ch lk (sleep_code c) s.
Proof.
  intros Hc Hl. unfold sleep, myproc. mrun. rewrite Hc. rewrite bool_decide_true by done. cbn [when]. by rewrite run_bind_bind.
Qed.

Lemma wakeup_runs_code (s : kst F) i c ch lk : wakeup ch s = code_run i ch lk (wakeup_code c) s.
Proof. done. Qed.

End code.

(** ** Properties *)

(** C30: no wakeup is lost.  Any number of threads wait for conditions with sleep, establish them with wakeup and kill one another, on any number of CPUs and in any
    interleaving, each condition under its own lock.  Whenever a waiter is asleep although its condition holds, it sleeps on the condition's channel, some thread
    that established the condition still has its wakeup1 of that channel to run, and from there the machine can run on to a state in which the sleeper is runnable. *)
Theorem no_lost_wakeup (rs : list role) (cs : nat -> bool) (s : sys) (i c : nat) (t : thread) :
  reachable rs cs s -> threads s !! i = Some t -> t_role t = Waiter c -> t_on t = false -> t_state t = SLEEPING -> cond s c = true ->
  t_chan t = Some c /\ exists j u, threads s !! j = Some u /\ waking c u /\
    exists s', rtc step s s' /\ threads s' !! i = Some (with_state RUNNABLE t).
Proof.
  intros Hr Ht Hro Hoff Hst Hc. pose proof (sw_reachable_inv _ _ _ Hr) as Hinv. pose proof (in_thread s Hinv i t Ht) as Hok.
  destruct t as [r pc on st ch]. cbn in Hro, Hoff, Hst. subst r on st. destruct Hok as (Hpc & _ & Hch). cbn in Hpc, Hch. subst pc ch. split; [done|].
  destruct (in_sleep s Hinv i _ c Ht (conj eq_refl eq_refl) Hc) as (j & u & Hj & Hu). exists j, u. split; [done|]. split; [done|].
  destruct Hu as [Hpc Hu]. destruct Hpc as [E|E]; rewrite E in Hu; subst u; [|by eapply can_wake_running].
  apply (can_wake_inv i j c s Hinv Ht Hj). intros k Hk. apply lookup_lt_is_Some_2. by eapply (reachable_owners _ _ _ Hr).
Qed.

(** A schedule: the next instruction of a thread, or (None) the scheduler letting the process table lock go. *)
Fixpoint runs (l : list (option nat)) (s : sys) : option sys :=
  match l with
  | [] => Some s
  | None :: l => if bool_decide (own s PT = Some Scheduler) then runs l (Sys (threads s) (<[PT := None]> (own s)) (cond s)) else None
  | Some i :: l =>
      t ← threads s !! i; ins ← (if t_on t then code_of (t_role t) !! t_pc t else None); s' ← run_instr i t ins s; runs l s'
  end.

Lemma runs_reachable rs cs l : forall s s', reachable rs cs s -> runs l s = Some s' -> reachable rs cs s'.
Proof.
  induction l as [|[i|] l IH]; intros s s' Hr; cbn; [by intros [= <-]| |].
  - destruct (threads s !! i) as [t|] eqn:Ht; cbn; [|done]. destruct (t_on t) eqn:Hon; [|done]. destruct (code_of _ !! _) as [ins|] eqn:Hc; cbn; [|done].
    destruct (run_instr i t ins s) as [s1|] eqn:He; cbn; [|done]. apply IH. by eapply reach_step; [|eapply step_exec].
  - case_bool_decide; [|done]. apply IH. by eapply reach_step; [|apply step_sched_release].
Qed.

Lemma no_lost_wakeup_witness : exists s, runs (replicate 7 (Some 0) ++ [None; Some 1; Some 1])%nat (start [Waiter 0; Waker 0] (fun _ => false)) = Some s /\
  exists s', rtc step s s' /\ (t_state <$> threads s' !! 0%nat) = Some RUNNABLE.
Proof.
  eexists. split; [vm_compute; reflexivity|]. match goal with |- exists s', rtc step ?s s' /\ _ => set (s1 := s) end.
  destruct (no_lost_wakeup [Waiter 0; Waker 0] (fun _ => false) s1 0 0 (Thread (Waiter 0) 7 false SLEEPING (Some 0%nat)))
    as (_ & j & u & _ & _ & s' & Hs' & Hi); try reflexivity.
  - eapply (runs_reachable _ _ (replicate 7 (Some 0) ++ [None; Some 1; Some 1])%nat); [apply reach_start|vm_compute; reflexivity].
  - exists s'. split; [exact Hs'|]. by rewrite Hi.
Defined.
