(* ===== verification/Pipe.v ===== *)
(** * Pipes (pipe.c)

    A pipe is a page of kernel memory: its lock, a circular buffer of PIPESIZE
    bytes, two free-running 32-bit counters and two flags, at the offsets of
    struct pipe.  The abstract view of a pipe is the list of bytes between the
    counters.  Reads and writes copy through the routines [ld] and [st], the
    accesses to the caller's buffer.  A loop that sleeps has a bound [fuel] on the
    number of wakeups it survives. *)

From Stdlib Require Import ZArith Lia.
From stdpp Require Import base tactics numbers option list strings zmap.
From S2P Require Import Prelude Memory Mmu StringOps Kalloc Vm Wmap Kernel Proc.

Definition PIPESIZE : Z := 512.

(** Offsets of the fields of struct pipe; a struct spinlock takes 52 bytes. *)
Definition pipe_data : Z := 52.
Definition pipe_nread : Z := 564.
Definition pipe_nwrite : Z := 568.
Definition pipe_readopen : Z := 572.
Definition pipe_writeopen : Z := 576.

Section pipe.
Context {KI : KernelImage} {F : Type}.
#[local] Abbreviation MK := (M (kst F)).

Definition kld8 (a : Z) : MK Z := gets (fun s => ld8 (mem (km s)) a).
Definition kst8 (a v : Z) : MK unit :=
  modify (fun s => set_km (set_mem (st8 (mem (km s)) a v) (km s)) s).

Definition pipeclose (p : Z) (writable : Z) : MK unit :=
  acquire (L_pipe p);;
  (if negb (writable =? 0) then kst32 (p + pipe_writeopen) 0;; wakeup (Chan_nread p)
   else kst32 (p + pipe_readopen) 0;; wakeup (Chan_nwrite p));;
  ro ← kld32 (p + pipe_readopen);
  wo ← kld32 (p + pipe_writeopen);
  if (ro =? 0) && (wo =? 0) then release (L_pipe p);; run_km (kfree p)
  else release (L_pipe p).

(** The inner loop of pipewrite; the answer is whether there is room. *)
Definition pipewrite_wait (p : Z) (_ : unit) : MK (unit + bool) :=
  nr ← kld32 (p + pipe_nread);
  nw ← kld32 (p + pipe_nwrite);
  if nw =? u32 (nr + PIPESIZE) then
    ro ← kld32 (p + pipe_readopen);
    i ← curproc;
    q ← get_proc i;
    if (ro =? 0) || negb (killed q =? 0) then release (L_pipe p);; mret (inr false)
    else
      wakeup (Chan_nread p);;
      sleep (Chan_nwrite p) (L_pipe p);;
      mret (inl tt)
  else mret (inr true).

Fixpoint pipewrite_loop (fuel : nat) (p : Z) (ld : Z -> MK Z) (i : Z) (n : nat) : MK bool :=
  match n with
  | O => mret true
  | S n' =>
      ok ← iterate fuel (pipewrite_wait p) tt;
      if negb (ok : bool) then mret false
      else
        b ← ld i;
        nw ← kld32 (p + pipe_nwrite);
        kst32 (p + pipe_nwrite) (u32 (nw + 1));;
        kst8 (p + pipe_data + nw mod PIPESIZE) b;;
        pipewrite_loop fuel p ld (i + 1) n'
  end.

Definition pipewrite (fuel : nat) (p : Z) (ld : Z -> MK Z) (n : Z) : MK Z :=
  acquire (L_pipe p);;
  ok ← pipewrite_loop fuel p ld 0 (Z.to_nat n);
  if negb (ok : bool) then mret (-1)
  else
    wakeup (Chan_nread p);;
    release (L_pipe p);;
    mret n.

(** The first loop of piperead; the answer is whether to go on. *)
Definition piperead_wait (p : Z) (_ : unit) : MK (unit + bool) :=
  nr ← kld32 (p + pipe_nread);
  nw ← kld32 (p + pipe_nwrite);
  wo ← kld32 (p + pipe_writeopen);
  if (nr =? nw) && negb (wo =? 0) then
    i ← curproc;
    q ← get_proc i;
    if negb (killed q =? 0) then release (L_pipe p);; mret (inr false)
    else
      sleep (Chan_nread p) (L_pipe p);;
      mret (inl tt)
  else mret (inr true).

Fixpoint piperead_loop (p : Z) (st : Z -> Z -> MK unit) (i : Z) (n : nat) : MK Z :=
  match n with
  | O => mret i
  | S n' =>
      nr ← kld32 (p + pipe_nread);
      nw ← kld32 (p + pipe_nwrite);
      if nr =? nw then mret i
      else
        kst32 (p + pipe_nread) (u32 (nr + 1));;
        b ← kld8 (p + pipe_data + nr mod PIPESIZE);
        st i b;;
        piperead_loop p st (i + 1) n'
  end.

Definition piperead (fuel : nat) (p : Z) (st : Z -> Z -> MK unit) (n : Z) : MK Z :=
  acquire (L_pipe p);;
  ok ← iterate fuel (piperead_wait p) tt;
  if negb (ok : bool) then mret (-1)
  else
    r ← piperead_loop p st 0 (Z.to_nat n);
    wakeup (Chan_nwrite p);;
    release (L_pipe p);;
    mret r.

(** ** Abstract view *)

Definition nread (m : Zmap Z) (p : Z) : Z := ld32 m (p + pipe_nread).
Definition nwrite (m : Zmap Z) (p : Z) : Z := ld32 m (p + pipe_nwrite).

(** The number of bytes in the pipe and the bytes, oldest first. *)
Definition pipe_len (m : Zmap Z) (p : Z) : Z := u32 (nwrite m p - nread m p).
Definition pipe_byte (m : Zmap Z) (p j : Z) : Z := ld8 m (p + pipe_data + (nread m p + j) mod PIPESIZE).
Definition pipe_view (m : Zmap Z) (p : Z) : list Z :=
  (fun j => pipe_byte m p (Z.of_nat j)) <$> seq 0 (Z.to_nat (pipe_len m p)).

Definition pipe_ok (m : Zmap Z) (p : Z) : Prop := mem_ok m /\ pipe_len m p <= PIPESIZE.

(** ** The circular buffer *)

Ltac pipe_unfold := unfold pipe_len, pipe_byte, nread, nwrite, PIPESIZE, pipe_data, pipe_nread,
  pipe_nwrite, pipe_readopen, pipe_writeopen in *.

Definition push (m : Zmap Z) (p b : Z) : Zmap Z :=
  st8 (st32 m (p + pipe_nwrite) (u32 (nwrite m p + 1))) (p + pipe_data + nwrite m p mod PIPESIZE) b.
Definition pop (m : Zmap Z) (p : Z) : Zmap Z := st32 m (p + pipe_nread) (u32 (nread m p + 1)).

Lemma pipe_view_lookup m p j :
  pipe_view m p !! j = if decide (Z.of_nat j < pipe_len m p) then Some (pipe_byte m p (Z.of_nat j)) else None.
Proof.
  unfold pipe_view. rewrite list_lookup_fmap.
  pose proof (u32_range (nwrite m p - nread m p)) as Hr. fold (pipe_len m p) in Hr. case_decide.
  - rewrite lookup_seq_lt by lia. done.
  - rewrite lookup_seq_ge by lia. done.
Qed.

Lemma length_pipe_view m p : List.length (pipe_view m p) = Z.to_nat (pipe_len m p).
Proof. unfold pipe_view. by rewrite length_fmap, length_seq. Qed.

Lemma ld32_st8_ne m a b v : b < a \/ a + 4 <= b -> ld32 (st8 m b v) a = ld32 m a.
Proof. intros. apply ld32_ext. intros i Hi. apply ld8_st8_ne. lia. Qed.

Lemma mod512_bounds x : 0 <= x mod 512 < 512.
Proof. apply Z.mod_pos_bound. lia. Qed.

Lemma counters_range m p : mem_ok m ->
  0 <= nread m p < 4294967296 /\ 0 <= nwrite m p < 4294967296 /\ 0 <= pipe_len m p.
Proof. intros Hm. split; [by apply ld32_range|split; [by apply ld32_range|apply u32_range]]. Qed.

(** The counters after a push and a pop. *)
Lemma push_counters m p b : mem_ok m ->
  nread (push m p b) p = nread m p /\ nwrite (push m p b) p = u32 (nwrite m p + 1).
Proof.
  intros Hm. unfold push. pose proof (mod512_bounds (nwrite m p)). pose proof (u32_range (nwrite m p + 1)).
  pipe_unfold. split.
  - rewrite ld32_st8_ne, ld32_st32_ne by lia. done.
  - rewrite ld32_st8_ne, ld32_st32_eq by lia. done.
Qed.

Lemma pop_counters m p : mem_ok m ->
  nread (pop m p) p = u32 (nread m p + 1) /\ nwrite (pop m p) p = nwrite m p.
Proof.
  intros Hm. unfold pop. pose proof (u32_range (nread m p + 1)). pipe_unfold. split.
  - by rewrite ld32_st32_eq.
  - by rewrite ld32_st32_ne by lia.
Qed.

Lemma mem_ok_push m p b : mem_ok m -> mem_ok (push m p b).
Proof. intros. by apply mem_ok_st8, mem_ok_st32. Qed.

Lemma pipe_view_push m p b : mem_ok m -> pipe_len m p < PIPESIZE ->
  pipe_len (push m p b) p = pipe_len m p + 1 /\ pipe_view (push m p b) p = pipe_view m p ++ [u8 b].
Proof.
  intros Hm Hlen. destruct (push_counters m p b Hm) as [H1 H2].
  destruct (counters_range m p Hm) as (R1 & R2 & R3).
  assert (Hl : pipe_len (push m p b) p = pipe_len m p + 1).
  { unfold pipe_len in *. rewrite H1, H2. unfold u32 in *. unfold PIPESIZE in *. divlia. }
  split; [done|]. apply list_eq. intros j. rewrite pipe_view_lookup, Hl.
  unfold pipe_byte at 1. rewrite H1. unfold push.
  pose proof (mod512_bounds (nwrite m p)). pose proof (mod512_bounds (nread m p + Z.of_nat j)).
  assert (Hsl : Z.of_nat j < pipe_len m p -> (nread m p + Z.of_nat j) mod 512 <> nwrite m p mod 512).
  { unfold pipe_len, u32 in *. unfold PIPESIZE in *. divlia. }
  assert (Hsl2 : Z.of_nat j = pipe_len m p -> (nread m p + Z.of_nat j) mod 512 = nwrite m p mod 512).
  { unfold pipe_len, u32 in *. divlia. }
  rewrite ld8_st8. change PIPESIZE with 512 in *.
  destruct (decide (Z.of_nat j < pipe_len m p)) as [E|E].
  - rewrite decide_True by lia. rewrite decide_False by (specialize (Hsl E); lia).
    rewrite ld8_st32_ne by (unfold pipe_nwrite, pipe_data; lia).
    rewrite lookup_app_l by (rewrite length_pipe_view; lia). by rewrite pipe_view_lookup, decide_True.
  - rewrite lookup_app_r by (rewrite length_pipe_view; lia). rewrite length_pipe_view.
    destruct (decide (Z.of_nat j < pipe_len m p + 1)) as [E'|E'].
    + rewrite decide_True by (rewrite Hsl2 by lia; lia). by replace (j - Z.to_nat (pipe_len m p))%nat with 0%nat by lia.
    + symmetry. apply lookup_ge_None_2. cbn. lia.
Qed.

Lemma pipe_view_pop m p : mem_ok m -> 0 < pipe_len m p ->
  pipe_len (pop m p) p = pipe_len m p - 1 /\ pipe_view m p = pipe_byte m p 0 :: pipe_view (pop m p) p.
Proof.
  intros Hm Hlen. destruct (pop_counters m p Hm) as [H1 H2].
  destruct (counters_range m p Hm) as (R1 & R2 & R3).
  assert (Hl : pipe_len (pop m p) p = pipe_len m p - 1).
  { unfold pipe_len in *. rewrite H1, H2. unfold u32 in *. divlia. }
  split; [done|]. apply list_eq. intros [|j]; rewrite pipe_view_lookup.
  - rewrite decide_True by lia. done.
  - cbn [lookup list_lookup]. rewrite pipe_view_lookup, Hl.
    destruct (decide (Z.of_nat j < pipe_len m p - 1)) as [E|E].
    + rewrite decide_True by lia. f_equal. unfold pipe_byte. rewrite H1. unfold pop.
      pose proof (mod512_bounds (u32 (nread m p + 1) + Z.of_nat j)).
      rewrite ld8_st32_ne by (change PIPESIZE with 512; unfold pipe_nread, pipe_data; lia). do 2 f_equal.
      change PIPESIZE with 512. unfold u32. divlia.
    + rewrite decide_False by lia. done.
Qed.

(** ** pipewrite *)

Definition upd_mem (m : Zmap Z) (s : kst F) : kst F := set_km (set_mem m (km s)) s.
Definition pushes (m : Zmap Z) (p : Z) (bs : list Z) : Zmap Z := foldl (fun m b => push m p b) m bs.

Lemma upd_mem_upd_mem m m' s : upd_mem m (upd_mem m' s) = upd_mem m s.
Proof. done. Qed.

(** The pipe is full exactly when the counters are PIPESIZE apart. *)
Lemma pipe_full_iff m p : mem_ok m ->
  (nwrite m p =? u32 (nread m p + PIPESIZE)) = true <-> pipe_len m p = PIPESIZE.
Proof.
  intros Hm. destruct (counters_range m p Hm) as (R1 & R2 & _). rewrite Z.eqb_eq.
  unfold pipe_len, u32, PIPESIZE. divlia.
Qed.

Lemma run_pipewrite_wait s p fuel :
  mem_ok (mem (km s)) -> pipe_len (mem (km s)) p < PIPESIZE ->
  iterate (S fuel) (pipewrite_wait p) tt s = Ret true s.
Proof.
  intros Hm Hlen. cbn [iterate].
  assert (Hw : pipewrite_wait p tt s = Ret (inr true) s).
  { unfold pipewrite_wait, kld32. mrun. fold (nread (mem (km s)) p) (nwrite (mem (km s)) p).
    destruct (nwrite (mem (km s)) p =? u32 (nread (mem (km s)) p + PIPESIZE)) eqn:E; [|done].
    apply pipe_full_iff in E; [lia|done]. }
  by rewrite (bind_ret_run _ _ _ _ _ Hw).
Qed.

Section write.
Context (p : Z) (ld : Z -> MK Z) (fuel : nat).

Lemma run_pipewrite_loop bs : forall s i,
  (forall j b, bs !! j = Some b -> forall s, ld (i + Z.of_nat j) s = Ret b s) ->
  mem_ok (mem (km s)) -> pipe_len (mem (km s)) p + Z.of_nat (List.length bs) <= PIPESIZE ->
  pipewrite_loop (S fuel) p ld i (List.length bs) s = Ret true (upd_mem (pushes (mem (km s)) p bs) s).
Proof.
  induction bs as [|b bs IH]; intros s i Hld Hm Hlen; cbn [List.length pipewrite_loop pushes foldl].
  - by destruct s as [[]].
  - cbn [List.length] in Hlen. erewrite bind_ret_run; [|apply run_pipewrite_wait; [done|lia]]. cbn [negb].
    erewrite bind_ret_run; [|rewrite <- (Z.add_0_r i) at 1; by apply (Hld 0%nat b)].
    unfold kld32, kst32, kst8. mrun. cbn [km set_km mem set_mem].
    fold (nwrite (mem (km s)) p). fold (push (mem (km s)) p b).
    destruct (pipe_view_push (mem (km s)) p b Hm ltac:(lia)) as [Hl _].
    change (set_km (set_mem (push (mem (km s)) p b) _) _) with (upd_mem (push (mem (km s)) p b) s).
    rewrite IH; [done| | |].
    + intros j b' Hj s'. replace (i + 1 + Z.of_nat j) with (i + Z.of_nat (S j)) by lia. by apply Hld.
    + cbn. by apply mem_ok_push.
    + cbn [km upd_mem set_km mem set_mem]. rewrite Hl. lia.
Qed.

Lemma run_pipewrite bs s :
  (forall j b, bs !! j = Some b -> forall s, ld (Z.of_nat j) s = Ret b s) ->
  mem_ok (mem (km s)) -> pipe_len (mem (km s)) p + Z.of_nat (List.length bs) <= PIPESIZE ->
  L_pipe p ∉ held s -> L_ptable ∉ held s ->
  pipewrite (S fuel) p ld (Z.of_nat (List.length bs)) s =
    Ret (Z.of_nat (List.length bs))
      (set_procs (wake (Chan_nread p) <$> procs s) (upd_mem (pushes (mem (km s)) p bs) s)).
Proof.
  intros Hld Hm Hlen Hh1 Hh2. unfold pipewrite. krun_with run_acquire; [|done].
  rewrite Nat2Z.id. erewrite bind_ret_run; [|by apply run_pipewrite_loop]. cbn [negb].
  erewrite bind_ret_run; [|apply run_wakeup; cbn; set_solver].
  krun_with run_release_top; [|done|done]. by destruct s.
Qed.

Lemma pipe_view_pushes bs : forall m, mem_ok m ->
  pipe_len m p + Z.of_nat (List.length bs) <= PIPESIZE ->
  mem_ok (pushes m p bs) /\ pipe_view (pushes m p bs) p = pipe_view m p ++ (u8 <$> bs) /\
  pipe_len (pushes m p bs) p = pipe_len m p + Z.of_nat (List.length bs).
Proof.
  induction bs as [|b bs IH]; intros m Hm Hlen; cbn [List.length pushes foldl] in *.
  - rewrite app_nil_r. split_and!; [done..|lia].
  - destruct (pipe_view_push m p b Hm ltac:(lia)) as [Hl Hv].
    destruct (IH (push m p b)) as (H1 & H2 & H3); [by apply mem_ok_push|lia|]. unfold pushes in *.
    rewrite H2, H3, Hv, Hl, <- app_assoc. split_and!; [done..|lia].
Qed.

End write.

(** ** piperead *)

Lemma run_piperead_wait s p fuel :
  mem_ok (mem (km s)) -> 0 < pipe_len (mem (km s)) p \/ ld32 (mem (km s)) (p + pipe_writeopen) = 0 ->
  iterate (S fuel) (piperead_wait p) tt s = Ret true s.
Proof.
  intros Hm Hc. cbn [iterate].
  assert (Hw : piperead_wait p tt s = Ret (inr true) s).
  { unfold piperead_wait, kld32. mrun. fold (nread (mem (km s)) p) (nwrite (mem (km s)) p).
    destruct (Z.eqb_spec (nread (mem (km s)) p) (nwrite (mem (km s)) p)) as [E|E]; [|done].
    destruct Hc as [Hl|Hw]; [|by rewrite Hw]. unfold pipe_len in Hl. rewrite E, Z.sub_diag in Hl. done. }
  by rewrite (bind_ret_run _ _ _ _ _ Hw).
Qed.

(** Copying out to kernel memory at [addr], outside the pipe's page. *)
Section read.
Context (p addr : Z).

Definition dst_free (n : Z) : Prop := forall a, addr <= a < addr + n -> ~ in_page p a.

Lemma pipe_view_frame m m' : (forall a, in_page p a -> ld8 m' a = ld8 m a) ->
  pipe_view m' p = pipe_view m p /\ pipe_len m' p = pipe_len m p.
Proof.
  intros Hf. assert (H1 : nread m' p = nread m p).
  { apply ld32_ext. intros i Hi. apply Hf. unfold in_page. pipe_unfold. lia. }
  assert (H2 : nwrite m' p = nwrite m p).
  { apply ld32_ext. intros i Hi. apply Hf. unfold in_page. pipe_unfold. lia. }
  assert (Hl : pipe_len m' p = pipe_len m p) by (unfold pipe_len; by rewrite H1, H2).
  split; [|done]. apply list_eq. intros j. rewrite !pipe_view_lookup, Hl. case_decide; [|done].
  unfold pipe_byte. rewrite H1, Hf; [done|]. pose proof (mod512_bounds (nread m p + Z.of_nat j)).
  unfold in_page. change PIPESIZE with 512. unfold pipe_data. lia.
Qed.

Definition read_post (m : Zmap Z) (i n : Z) (m' : Zmap Z) : Prop :=
  let k := Z.min n (pipe_len m p) in
  mem_ok m' /\ pipe_view m' p = drop (Z.to_nat k) (pipe_view m p) /\
  (forall j, 0 <= j < k -> Some (ld8 m' (addr + i + j)) = pipe_view m p !! Z.to_nat j) /\
  same_but (fun a => p + pipe_nread <= a < p + pipe_nread + 4 \/ addr + i <= a < addr + i + k) m m'.

(** One byte of the copy loop. *)
Lemma read_post_step m i n :
  mem_ok m -> 0 < pipe_len m p -> 0 <= i -> 0 <= n -> dst_free (i + n + 1) ->
  let m1 := st8 (pop m p) (addr + i) (pipe_byte m p 0) in
  mem_ok m1 /\ pipe_view m1 p = pipe_view (pop m p) p /\ pipe_len m1 p = pipe_len m p - 1 /\
  forall m', read_post m1 (i + 1) n m' -> read_post m i (n + 1) m'.
Proof.
  intros Hm Hl Hi Hn Hd m1. destruct (pipe_view_pop m p Hm Hl) as [Hl1 Hv1].
  assert (Hm1 : mem_ok m1) by (by apply mem_ok_st8, mem_ok_st32).
  destruct (pipe_view_frame (pop m p) m1) as [Hv2 Hl2].
  { intros a Ha. apply ld8_st8_ne. intros <-. eapply Hd; [|exact Ha]. lia. }
  split; [done|]. split; [done|]. split; [lia|].
  intros m' (G1 & G2 & G3 & G4). rewrite Hl2, Hl1 in *. rewrite Hv2 in *.
  unfold read_post. replace (Z.min (n + 1) (pipe_len m p)) with (Z.min n (pipe_len m p - 1) + 1) by lia.
  set (k := Z.min n (pipe_len m p - 1)) in *. assert (Hk : 0 <= k) by lia.
  replace (Z.to_nat (k + 1)) with (S (Z.to_nat k)) by lia. rewrite Hv1. cbn [drop].
  split; [done|]. split; [done|]. split.
  - intros j Hj. destruct (decide (j = 0)) as [->|].
    + rewrite Z.add_0_r, G4.
      * change (Z.to_nat 0) with 0%nat. cbn [lookup list_lookup]. f_equal. unfold m1.
        rewrite ld8_st8_eq. apply u8_id, Hm.
      * intros [H|H]; [|lia]. eapply (Hd (addr + i)); [lia|]. unfold in_page. pipe_unfold. lia.
    + specialize (G3 (j - 1) ltac:(lia)). replace (addr + i + j) with (addr + (i + 1) + (j - 1)) by lia.
      rewrite G3. by replace (Z.to_nat j) with (S (Z.to_nat (j - 1))) by lia.
  - eapply same_but_trans; [|eapply same_but_mono; [exact G4|]].
    + intros a Ha. unfold m1, pop. rewrite ld8_st8_ne, ld8_st32_ne by lia. done.
    + intros a [Ha|Ha]; [by left|right; lia].
Qed.

Lemma wp_piperead_loop n : forall i s,
  mem_ok (mem (km s)) -> 0 <= i -> dst_free (i + Z.of_nat n) ->
  wp (piperead_loop p (fun i b => kst8 (addr + i) b) i n) (fun r s' =>
    r = i + Z.min (Z.of_nat n) (pipe_len (mem (km s)) p) /\
    exists m', s' = upd_mem m' s /\ read_post (mem (km s)) i (Z.of_nat n) m') s.
Proof.
  induction n as [|n IH]; intros i s Hm Hi Hd; cbn [piperead_loop].
  - apply wp_ret. destruct (counters_range (mem (km s)) p Hm) as (_ & _ & ?).
    split; [lia|]. exists (mem (km s)). split; [by destruct s as [[]]|]. unfold read_post.
    rewrite Z.min_l by lia. split; [done|]. split; [done|]. split; [lia|apply same_but_refl].
  - destruct (counters_range (mem (km s)) p Hm) as (R1 & R2 & R3).
    unfold kld32, kld8, kst32. wp_step. wp_step. wp_step. wp_step.
    fold (nread (mem (km s)) p) (nwrite (mem (km s)) p).
    destruct (Z.eqb_spec (nread (mem (km s)) p) (nwrite (mem (km s)) p)) as [E|E].
    + assert (Hl0 : pipe_len (mem (km s)) p = 0) by (unfold pipe_len; by rewrite E, Z.sub_diag).
      apply wp_ret. rewrite Hl0. split; [lia|]. exists (mem (km s)). split; [by destruct s as [[]]|].
      unfold read_post. rewrite Hl0, Z.min_r by lia. split; [done|]. split; [done|].
      split; [lia|apply same_but_refl].
    + assert (Hl : 0 < pipe_len (mem (km s)) p) by (unfold pipe_len, u32 in *; divlia).
      wp_step. wp_step. wp_step. wp_step. cbn [km set_km mem set_mem]. fold (pop (mem (km s)) p).
      assert (Hb : ld8 (pop (mem (km s)) p) (p + pipe_data + nread (mem (km s)) p mod PIPESIZE)
                   = pipe_byte (mem (km s)) p 0).
      { unfold pipe_byte, pop. rewrite Z.add_0_r. pose proof (mod512_bounds (nread (mem (km s)) p)).
        rewrite ld8_st32_ne; [done|]. change PIPESIZE with 512. unfold pipe_data, pipe_nread. lia. }
      rewrite Hb. apply wp_bind. unfold kst8. apply wp_modify. cbn [km set_km mem set_mem].
      destruct (read_post_step (mem (km s)) i (Z.of_nat n) Hm Hl Hi ltac:(lia)) as (H1 & H2 & H3 & H4).
      { intros a Ha. apply Hd. lia. }
      set (m1 := st8 _ _ _) in *. eapply wp_mono; [apply IH; [done|lia|]|].
      { intros a Ha. apply Hd. lia. }
      cbv beta. intros r s' (-> & m' & -> & Hpost). cbn [km set_km mem set_mem] in Hpost |- *. rewrite H3.
      split; [lia|]. exists m'. split; [done|]. replace (Z.of_nat (S n)) with (Z.of_nat n + 1) by lia. by apply H4.
Qed.

Lemma wp_piperead fuel n s :
  mem_ok (mem (km s)) -> 0 < pipe_len (mem (km s)) p \/ ld32 (mem (km s)) (p + pipe_writeopen) = 0 ->
  0 <= n -> dst_free n -> L_pipe p ∉ held s -> L_ptable ∉ held s ->
  wp (piperead (S fuel) p (fun i b => kst8 (addr + i) b) n) (fun r s' =>
    r = Z.min n (pipe_len (mem (km s)) p) /\
    exists m', s' = set_procs (wake (Chan_nwrite p) <$> procs s) (upd_mem m' s) /\
      read_post (mem (km s)) 0 n m') s.
Proof.
  intros Hm Hc Hn Hd Hh1 Hh2. unfold piperead. apply wp_bind.
  eapply wp_result; [by apply run_acquire|]. apply wp_bind.
  eapply wp_result; [by apply run_piperead_wait|]. cbn [negb]. apply wp_bind.
  eapply wp_mono; [apply wp_piperead_loop; [done|lia|by rewrite Z2Nat.id by lia]|]. cbv beta.
  rewrite Z2Nat.id by lia. intros r s' (-> & m' & -> & Hpost). apply wp_bind.
  eapply wp_result; [apply run_wakeup; cbn; set_solver|]. apply wp_bind.
  eapply wp_result; [by apply (run_release_top _ _ (held s))|]. apply wp_ret. split; [done|].
  exists m'. split; [by destruct s|done].
Qed.

End read.

(** ** Waiting *)

(** Asleep on [c] with only the process table lock held, memory as in [s], and
    nobody left asleep on [w]. *)
Definition waiting (s : kst F) (i : nat) (c w : channel) (s1 : kst F) : Prop :=
  asleep i c s1 /\ held s1 = [L_ptable] /\ km s1 = km s /\
  forall j q, j <> i -> procs s1 !! j = Some q -> ~ (state q = SLEEPING /\ chan q = Some w).

Lemma yields_sleep (s : kst F) i q c lk (P : kst F -> Prop) :
  cur s = Some i -> procs s !! i = Some q -> held s = [lk] ->
  P (set_held [L_ptable] (set_procs (<[i := sleeping c q]> (procs s)) s)) ->
  yields (sleep c lk) P s.
Proof. intros Hc Hq Hh HP. unfold yields. by rewrite (run_sleep s i q). Qed.

Lemma wake_not_asleep c q : ~ (state (wake c q) = SLEEPING /\ chan (wake c q) = Some c).
Proof. unfold wake. case_bool_decide; [by intros [? _]|done]. Qed.

Section blocked.
Context (s : kst F) (i : nat) (q : proc) (p : Z) (fuel : nat) (n : Z).
Context (Hm : mem_ok (mem (km s))) (Hh : held s = []) (Hc : cur s = Some i).
Context (Hq : procs s !! i = Some q) (Hn : 0 < n).

Lemma pipewrite_full ld :
  pipe_len (mem (km s)) p = PIPESIZE ->
  if (ld32 (mem (km s)) (p + pipe_readopen) =? 0) || negb (killed q =? 0)
  then pipewrite (S fuel) p ld n s = Ret (-1) s
  else yields (pipewrite (S fuel) p ld n) (waiting s i (Chan_nwrite p) (Chan_nread p)) s.
Proof.
  intros Hl. set (s1 := set_held [L_pipe p] s).
  assert (Ha : acquire (L_pipe p) s = Ret tt s1).
  { unfold s1. rewrite run_acquire by (rewrite Hh; set_solver). by rewrite Hh. }
  assert (Hf : (nwrite (mem (km s)) p =? u32 (nread (mem (km s)) p + PIPESIZE)) = true) by (by apply pipe_full_iff).
  destruct (Z.to_nat n) as [|n'] eqn:En; [lia|].
  destruct ((_ =? 0) || negb (killed q =? 0)) eqn:E.
  - unfold pipewrite. rewrite (bind_ret_run _ _ _ _ _ Ha), En. cbn [pipewrite_loop].
    assert (Hw : iterate (S fuel) (pipewrite_wait p) tt s1 = Ret false s).
    { cbn [iterate]. assert (Hb : pipewrite_wait p tt s1 = Ret (inr false) s).
      { unfold pipewrite_wait, kld32. mrun. cbn [km s1 set_held].
        fold (nread (mem (km s)) p) (nwrite (mem (km s)) p). rewrite Hf. mrun.
        krun_with (run_curproc _ i); [|done]. krun_with (run_get_proc _ i q); [|done].
        change (km s1) with (km s). rewrite E. krun_with run_release_top; [|done|set_solver].
        destruct s; cbn in *. by subst. }
      by rewrite (bind_ret_run _ _ _ _ _ Hb). }
    mrun. by rewrite (bind_ret_run _ _ _ _ _ Hw).
  - eapply yields_after; [exact Ha|]. apply yields_bind. rewrite En. cbn [pipewrite_loop].
    apply yields_bind. cbn [iterate]. apply yields_bind. unfold pipewrite_wait, kld32.
    eapply yields_after; [done|]. eapply yields_after; [done|]. cbn [km s1 set_held].
    fold (nread (mem (km s)) p) (nwrite (mem (km s)) p). rewrite Hf.
    eapply yields_after; [done|]. eapply yields_after; [by apply run_curproc|].
    eapply yields_after; [by apply run_get_proc|]. change (km s1) with (km s). rewrite E.
    eapply yields_after; [apply run_wakeup; cbn; set_solver|]. apply yields_bind.
    unfold s1. eapply (yields_sleep _ i (wake (Chan_nread p) q)); ksimp; [done| |done|].
    { by rewrite list_lookup_fmap, Hq. }
    split_and!; try done.
    + eexists. split; [apply list_lookup_insert_eq; rewrite length_fmap; by eapply lookup_lt_Some|done].
    + intros j q' Hj Hq'. cbn in Hq'. rewrite list_lookup_insert_ne in Hq' by done.
      rewrite list_lookup_fmap in Hq'. apply fmap_Some in Hq' as (q0 & _ & ->). apply wake_not_asleep.
Qed.

Lemma piperead_empty st :
  pipe_len (mem (km s)) p = 0 -> ld32 (mem (km s)) (p + pipe_writeopen) <> 0 ->
  if negb (killed q =? 0) then piperead (S fuel) p st n s = Ret (-1) s
  else yields (piperead (S fuel) p st n)
         (fun s1 => asleep i (Chan_nread p) s1 /\ held s1 = [L_ptable] /\ km s1 = km s) s.
Proof.
  intros Hl Hwo. set (s1 := set_held [L_pipe p] s).
  assert (Ha : acquire (L_pipe p) s = Ret tt s1).
  { unfold s1. rewrite run_acquire by (rewrite Hh; set_solver). by rewrite Hh. }
  assert (He : (nread (mem (km s)) p =? nwrite (mem (km s)) p) &&
               negb (ld32 (mem (km s)) (p + pipe_writeopen) =? 0) = true).
  { destruct (counters_range (mem (km s)) p Hm) as (R1 & R2 & _). rewrite (proj2 (Z.eqb_neq _ 0) Hwo), andb_true_r.
    apply Z.eqb_eq. unfold pipe_len, u32 in Hl. divlia. }
  destruct (negb (killed q =? 0)) eqn:E.
  - unfold piperead. rewrite (bind_ret_run _ _ _ _ _ Ha).
    assert (Hw : iterate (S fuel) (piperead_wait p) tt s1 = Ret false s).
    { cbn [iterate]. assert (Hb : piperead_wait p tt s1 = Ret (inr false) s).
      { unfold piperead_wait, kld32. mrun. cbn [km s1 set_held].
        fold (nread (mem (km s)) p) (nwrite (mem (km s)) p). rewrite He.
        krun_with (run_curproc _ i); [|done]. krun_with (run_get_proc _ i q); [|done].
        rewrite E. krun_with run_release_top; [|done|set_solver].
        destruct s; cbn in *. by subst. }
      by rewrite (bind_ret_run _ _ _ _ _ Hb). }
    by rewrite (bind_ret_run _ _ _ _ _ Hw).
  - eapply yields_after; [exact Ha|]. apply yields_bind. cbn [iterate]. apply yields_bind.
    unfold piperead_wait, kld32. do 3 (eapply yields_after; [done|]). cbn [km s1 set_held].
    fold (nread (mem (km s)) p) (nwrite (mem (km s)) p). rewrite He.
    eapply yields_after; [by apply run_curproc|]. eapply yields_after; [by apply run_get_proc|].
    rewrite E. apply yields_bind. eapply (yields_sleep _ i q); ksimp; [done|done|done|].
    split_and!; try done. eexists. split; [apply list_lookup_insert_eq; by eapply lookup_lt_Some|done].
Qed.

End blocked.


End pipe.

(** ** Properties *)

(** C40: a pipe is a queue of bytes.  Write [bs] to a pipe that holds [v] and has
    room for it, then read up to [n] bytes to kernel memory at [addr]: both
    return without switching, the read delivers, in order, as many as there are of
    the oldest bytes of [v ++ bs], and exactly the rest stays in the pipe.  The
    32-bit counters may wrap around.  Sleeping readers and writers are woken. *)
Theorem pipe_fifo {F} (s : kst F) (p addr n : Z) (bs : list Z) (ld : Z -> M (kst F) Z) (fuel : nat) :
  mem_ok (mem (km s)) -> pipe_len (mem (km s)) p + Z.of_nat (List.length bs) <= PIPESIZE ->
  (forall j b, bs !! j = Some b -> forall s, ld (Z.of_nat j) s = Ret b s) ->
  bs <> [] -> 0 <= n -> (forall a, addr <= a < addr + n -> ~ in_page p a) ->
  L_pipe p ∉ held s -> L_ptable ∉ held s ->
  let q := pipe_view (mem (km s)) p ++ (u8 <$> bs) in
  wp (w ← pipewrite (S fuel) p ld (Z.of_nat (List.length bs));
      r ← piperead (S fuel) p (fun i b => kst8 (addr + i) b) n;
      mret (w, r))
    (fun '(w, r) s' => w = Z.of_nat (List.length bs) /\ r = Z.min n (Z.of_nat (List.length q)) /\
       ld_bytes (mem (km s')) addr (Z.to_nat r) = take (Z.to_nat r) q /\
       pipe_view (mem (km s')) p = drop (Z.to_nat r) q /\
       procs s' = wake (Chan_nwrite p) <$> (wake (Chan_nread p) <$> procs s) /\ held s' = held s) s.
Proof.
  intros Hm Hlen Hld Hpos Hn Hd Hh1 Hh2 q. apply wp_bind.
  eapply wp_result; [by apply run_pipewrite|].
  destruct (pipe_view_pushes p bs (mem (km s)) Hm Hlen) as (Hm1 & Hv1 & Hl1).
  destruct (counters_range (mem (km s)) p Hm) as (_ & _ & Hl0).
  apply wp_bind. eapply wp_mono; [apply (wp_piperead p addr fuel n); ksimp|].
  - exact Hm1.
  - left. change (0 < pipe_len (pushes (mem (km s)) p bs) p). rewrite Hl1. destruct bs; [done|cbn [List.length]; lia].
  - done.
  - exact Hd.
  - done.
  - done.
  - cbv beta. intros r s' (Hr & m' & -> & G1 & G2 & G3 & _). apply wp_ret.
    change (mem (km (set_procs (wake (Chan_nread p) <$> procs s) (upd_mem (pushes (mem (km s)) p bs) s))))
      with (pushes (mem (km s)) p bs) in *.
    fold q in Hv1. assert (Hq : Z.of_nat (List.length q) = pipe_len (pushes (mem (km s)) p bs) p).
    { rewrite <- Hv1, length_pipe_view, Z2Nat.id; [done|]. rewrite Hl1. lia. }
    rewrite Hv1 in G2, G3. rewrite <- Hq in G2, G3, Hr. rewrite <- Hr in G2, G3.
    change (mem (km (set_procs _ _))) with m'. split_and!; try done. apply list_eq. intros j.
    destruct (decide (j < Z.to_nat r)%nat) as [Hj|Hj].
    + rewrite lookup_ld_bytes, lookup_take_lt by done. specialize (G3 (Z.of_nat j) ltac:(lia)).
      by rewrite Z.add_0_r, Nat2Z.id in G3.
    + rewrite lookup_take_ge by lia. apply lookup_ge_None_2. rewrite length_ld_bytes. lia.
Qed.

(** An empty pipe at [0x80400000], open at both ends, with counters about to wrap. *)
Definition ex_pipe : kst unit :=
  ex_machine (set_mem (st32 (st32 (st32 (st32 ∅ (0x80400000 + pipe_nread) 4294967295)
    (0x80400000 + pipe_nwrite) 4294967295) (0x80400000 + pipe_readopen) 1)
    (0x80400000 + pipe_writeopen) 1) km_zero) [].

Lemma pipe_fifo_witness :
  wp (w ← pipewrite 1 0x80400000 (fun i => mret (65 + i)) 3;
      r ← piperead 1 0x80400000 (fun i b => kst8 (0x80500000 + i) b) 2;
      mret (w, r))
    (fun '(w, r) s' => ld_bytes (mem (km s')) 0x80500000 2 = [65; 66] /\
       pipe_view (mem (km s')) 0x80400000 = [67]) ex_pipe.
Proof.
  eapply wp_mono.
  - apply (pipe_fifo ex_pipe 0x80400000 0x80500000 2 [65; 66; 67] (fun i => mret (65 + i)) 0).
    + apply mem_ok_st32, mem_ok_st32, mem_ok_st32, mem_ok_st32, mem_ok_empty.
    + vm_compute. discriminate.
    + intros [|[|[|j]]] b Hj s; [by injection Hj as <-..|done].
    + done.
    + lia.
    + unfold in_page. lia.
    + cbn. set_solver.
    + cbn. set_solver.
  - intros [w r] s' (_ & Hr & H1 & H2 & _). vm_compute in Hr. subst r. split; [exact H1|exact H2].
Defined.

(** Flow control.  A write to a full pipe, and a read from an empty pipe whose
    write end is open, by the current process with no lock held: if the read end
    is closed (for the write) or the process has been killed, they return -1 with
    nothing changed; otherwise they put the process to sleep, the writer on
    nwrite after waking every reader, the reader on nread, with the pipe's lock
    released and memory unchanged. *)
Theorem pipe_flow_control {F} (s : kst F) (i : nat) (q : proc) (p n : Z) (ld : Z -> M (kst F) Z)
    (st : Z -> Z -> M (kst F) unit) (fuel : nat) :
  mem_ok (mem (km s)) -> held s = [] -> cur s = Some i -> procs s !! i = Some q -> 0 < n ->
  (pipe_len (mem (km s)) p = PIPESIZE ->
     if (ld32 (mem (km s)) (p + pipe_readopen) =? 0) || negb (killed q =? 0)
     then pipewrite (S fuel) p ld n s = Ret (-1) s
     else yields (pipewrite (S fuel) p ld n) (waiting s i (Chan_nwrite p) (Chan_nread p)) s) /\
  (pipe_len (mem (km s)) p = 0 -> ld32 (mem (km s)) (p + pipe_writeopen) <> 0 ->
     if negb (killed q =? 0) then piperead (S fuel) p st n s = Ret (-1) s
     else yields (piperead (S fuel) p st n)
            (fun s1 => asleep i (Chan_nread p) s1 /\ held s1 = [L_ptable] /\ km s1 = km s) s).
Proof. intros Hm Hh Hc Hq Hn. split; intros; [by apply pipewrite_full|by apply piperead_empty]. Qed.

Lemma pipe_flow_control_witness :
  yields (piperead 1 0x80400000 (fun i b => kst8 (0x80500000 + i) b) 2)
    (fun s1 => asleep 0 (Chan_nread 0x80400000) s1 /\ held s1 = [L_ptable] /\ km s1 = km ex_pipe) ex_pipe.
Proof.
  refine (proj2 (pipe_flow_control ex_pipe 0 running_proc 0x80400000 2 (fun i => mret i) _ 0
    _ eq_refl eq_refl eq_refl _) _ _).
  - apply mem_ok_st32, mem_ok_st32, mem_ok_st32, mem_ok_st32, mem_ok_empty.
  - lia.
  - vm_compute. reflexivity.
  - vm_compute. discriminate.
Defined.
