(* ===== verification/File.v ===== *)
(** * Open files (file.c, pipealloc of pipe.c)

    The table of open files and the operations on them.  What the file layer
    uses of the file system is the class [FileSys]: the operations of log.c and
    fs.c that file.c, proc.c, sysfile.c and exec.c call, over the state [F] the
    file system keeps.  [Fs] gives the instance that models those files.  Buffers
    are passed as routines [ld i] and [st i b] that access byte [i]. *)

From Stdlib Require Import ZArith Lia.
From stdpp Require Import base tactics numbers option list strings zmap.
From S2P Require Import Prelude Memory Mmu StringOps Kalloc Vm Wmap Kernel Proc Pipe.

(** ** The file system, as its clients see it

    Inodes in the cache are named by their index. *)
Class FileSys (F : Type) : Type := {
  fs_begin_op : M (kst F) unit;
  fs_end_op : M (kst F) unit;
  fs_idup : nat -> M (kst F) unit;
  fs_ilock : nat -> M (kst F) unit;
  fs_iunlock : nat -> M (kst F) unit;
  fs_iput : nat -> M (kst F) unit;
  fs_stati : nat -> (Z -> Z -> M (kst F) unit) -> M (kst F) unit;
  fs_readi : nat -> (Z -> Z -> M (kst F) unit) -> Z -> Z -> M (kst F) Z;
  fs_writei : nat -> (Z -> M (kst F) Z) -> Z -> Z -> M (kst F) Z;
  fs_namei : (Z -> M (kst F) Z) -> M (kst F) (option nat);
  fs_iinit : Z -> M (kst F) unit;
  fs_initlog : Z -> M (kst F) unit }.

(** param.h *)
Definition MAXOPBLOCKS : Z := 10.

Section file.
Context {KI : KernelImage} {F : Type} {FS : FileSys F}.
#[local] Abbreviation MK := (M (kst F)).

(** f->ip, for a caller that dereferences it. *)
Definition the_ip (f : file) : MK nat :=
  match ip f with Some i => mret i | None => undef "null inode" end.

Definition fileinit : MK unit := initlock L_ftable.

Definition filealloc : MK (option nat) :=
  acquire L_ftable;;
  s ← get;
  match find_index (fun f => ref f =? 0) (files s) with
  | Some i => upd_file i (set_f_ref 1);; release L_ftable;; mret (Some i)
  | None => release L_ftable;; mret None
  end.

Definition filedup (i : nat) : MK nat :=
  acquire L_ftable;;
  f ← get_file i;
  if ref f <? 1 then panic "filedup"
  else upd_file i (set_f_ref (s32 (ref f + 1)));; release L_ftable;; mret i.

Definition fileclose (i : nat) : MK unit :=
  acquire L_ftable;;
  f ← get_file i;
  if ref f <? 1 then panic "fileclose"
  else
    upd_file i (set_f_ref (ref f - 1));;
    if 0 <? ref f - 1 then release L_ftable
    else
      ff ← get_file i;
      upd_file i (set_f_ref 0);;
      upd_file i (set_f_type FD_NONE);;
      release L_ftable;;
      match type ff with
      | FD_PIPE => pipeclose (fpipe ff) (writable ff)
      | FD_INODE => fs_begin_op;; n ← the_ip ff; fs_iput n;; fs_end_op
      | FD_NONE => mret tt
      end.

Definition filestat (i : nat) (st : Z -> Z -> MK unit) : MK Z :=
  f ← get_file i;
  match type f with
  | FD_INODE => n ← the_ip f; fs_ilock n;; fs_stati n st;; fs_iunlock n;; mret 0
  | _ => mret (-1)
  end.

Definition fileread (fuel : nat) (i : nat) (st : Z -> Z -> MK unit) (n : Z) : MK Z :=
  f ← get_file i;
  if readable f =? 0 then mret (-1)
  else
    match type f with
    | FD_PIPE => piperead fuel (fpipe f) st n
    | FD_INODE =>
        inode ← the_ip f;
        fs_ilock inode;;
        f ← get_file i;
        r ← fs_readi inode st (off f) n;
        when (0 <? r) (upd_file i (fun f => set_f_off (u32 (off f + r)) f));;
        fs_iunlock inode;;
        mret r
    | FD_NONE => panic "fileread"
    end.

(** The loop of filewrite on an inode: the position, then the final position.
    Each round is one transaction of at most [max] bytes. *)
Definition filewrite_max : Z := (MAXOPBLOCKS - 1 - 1 - 2) / 2 * 512.

Definition filewrite_body (i : nat) (ld : Z -> MK Z) (n : Z) (pos : Z) : MK (Z + Z) :=
  if negb (pos <? n) then mret (inr pos)
  else
    let n1 := if n - pos >? filewrite_max then filewrite_max else n - pos in
    fs_begin_op;;
    f ← get_file i;
    inode ← the_ip f;
    fs_ilock inode;;
    f ← get_file i;
    r ← fs_writei inode (fun j => ld (pos + j)) (off f) n1;
    when (0 <? r) (upd_file i (fun f => set_f_off (u32 (off f + r)) f));;
    fs_iunlock inode;;
    fs_end_op;;
    if r <? 0 then mret (inr pos)
    else if negb (r =? n1) then panic "short filewrite"
    else mret (inl (pos + r)).

Definition filewrite (fuel : nat) (i : nat) (ld : Z -> MK Z) (n : Z) : MK Z :=
  f ← get_file i;
  if writable f =? 0 then mret (-1)
  else
    match type f with
    | FD_PIPE => pipewrite fuel (fpipe f) ld n
    | FD_INODE =>
        pos ← iterate (S (Z.to_nat n)) (filewrite_body i ld n) 0;
        mret (if pos =? n then n else -1)
    | FD_NONE => panic "filewrite"
    end.

(** ** pipealloc: the two ends and the pipe *)

(** The label bad. *)
Definition pipealloc_bad (p : Z) (f0 f1 : option nat) : MK (option (nat * nat)) :=
  when (negb (p =? 0)) (run_km (kfree p));;
  match f0 with Some i => fileclose i | None => mret tt end;;
  match f1 with Some i => fileclose i | None => mret tt end;;
  mret None.

Definition pipe_end (r w p : Z) (f : file) : file :=
  set_f_fpipe p (set_f_writable w (set_f_readable r (set_f_type FD_PIPE f))).

Definition pipealloc : MK (option (nat * nat)) :=
  f0 ← filealloc;
  match f0 with
  | None => pipealloc_bad 0 None None
  | Some i0 =>
      f1 ← filealloc;
      match f1 with
      | None => pipealloc_bad 0 f0 None
      | Some i1 =>
          p ← run_km kalloc;
          if p =? 0 then pipealloc_bad p f0 f1
          else
            kst32 (p + pipe_readopen) 1;;
            kst32 (p + pipe_writeopen) 1;;
            kst32 (p + pipe_nwrite) 0;;
            kst32 (p + pipe_nread) 0;;
            initlock (L_pipe p);;
            upd_file i0 (pipe_end 1 0 p);;
            upd_file i1 (pipe_end 0 1 p);;
            mret (Some (i0, i1))
      end
  end.

(** ** Lemmas *)

Lemma find_index_lookup {A} (t : A -> bool) (l : list A) i :
  find_index t l = Some i -> exists x, l !! i = Some x /\ t x = true.
Proof. intros (x & ? & ? & _)%find_index_Some. eauto. Qed.

Lemma run_filealloc s i f :
  L_ftable ∉ held s -> find_index (fun f => ref f =? 0) (files s) = Some i -> files s !! i = Some f ->
  filealloc s = Ret (Some i) (set_files (<[i := set_f_ref 1 f]> (files s)) s).
Proof.
  intros Hh Hf Hi. unfold filealloc. krun_with run_acquire; [|done]. mrun. ksimp. rewrite Hf.
  krun_with run_upd_file; [|done]. krun_with run_release_top; [|done|done]. by destruct s.
Qed.

(** A close that leaves other references only counts down. *)
Lemma run_fileclose_shared s i f :
  L_ftable ∉ held s -> files s !! i = Some f -> 1 < ref f ->
  fileclose i s = Ret tt (set_files (<[i := set_f_ref (ref f - 1) f]> (files s)) s).
Proof.
  intros Hh Hi Hr. unfold fileclose. krun_with run_acquire; [|done]. krun_with run_get_file; [|done].
  rewrite (proj2 (Z.ltb_ge (ref f) 1)) by lia. krun_with run_upd_file; [|done].
  rewrite (proj2 (Z.ltb_lt 0 (ref f - 1))) by lia. erewrite run_release_top; [|done|done]. by destruct s.
Qed.

(** The slot of a file whose last reference is closed. *)
Definition closed (f : file) : file := set_f_type FD_NONE (set_f_ref 0 f).

Lemma run_fileclose_pipe s i f :
  L_ftable ∉ held s -> files s !! i = Some f -> ref f = 1 -> type f = FD_PIPE ->
  fileclose i s = pipeclose (fpipe f) (writable f) (set_files (<[i := closed f]> (files s)) s).
Proof.
  intros Hh Hi Hr Ht. unfold fileclose. krun_with run_acquire; [|done]. krun_with run_get_file; [|done].
  assert (Hlen : (i < List.length (files s))%nat) by (by eapply lookup_lt_Some).
  rewrite Hr. change (1 <? 1) with false. change (1 - 1) with 0. change (0 <? 0) with false. cbv iota.
  krun_with run_upd_file; [|done]. krun_with run_get_file; [|by apply list_lookup_insert_eq].
  krun_with run_upd_file; [|by apply list_lookup_insert_eq].
  krun_with run_upd_file; [|by rewrite list_insert_insert_eq; apply list_lookup_insert_eq].
  krun_with run_release_top; [|done|done]. ksimp. rewrite !list_insert_insert_eq.
  cbn [type set_f_ref]. rewrite Ht. by destruct s.
Qed.

(** Closing one end of a pipe while the other is open; closing the other end. *)
Definition end_flag (w : Z) : Z := if negb (w =? 0) then pipe_writeopen else pipe_readopen.
Definition other_flag (w : Z) : Z := if negb (w =? 0) then pipe_readopen else pipe_writeopen.
Definition end_chan (p w : Z) : channel := if negb (w =? 0) then Chan_nread p else Chan_nwrite p.

Lemma run_pipeclose (s : kst F) p w : L_pipe p ∉ held s -> L_ptable ∉ held s ->
  let s1 := set_procs (wake (end_chan p w) <$> procs s)
              (upd_mem (st32 (mem (km s)) (p + end_flag w) 0) s) in
  pipeclose p w s =
    if ld32 (mem (km s)) (p + other_flag w) =? 0 then run_km (kfree p) s1 else Ret tt s1.
Proof.
  intros Hh1 Hh2 s1. unfold pipeclose. krun_with run_acquire; [|done].
  assert (Hs : forall b : bool, (if b then kst32 (p + pipe_writeopen) 0;; wakeup (Chan_nread p)
      else kst32 (p + pipe_readopen) 0;; wakeup (Chan_nwrite p)) =
      (kst32 (F:=F) (p + if b then pipe_writeopen else pipe_readopen) 0;;
       wakeup (if b then Chan_nread p else Chan_nwrite p))) by (by intros []).
  rewrite Hs, run_bind_bind. fold (end_flag w) (end_chan p w). unfold kst32 at 1. mrun.
  erewrite bind_ret_run; [|apply run_wakeup; cbn; set_solver]. unfold kld32. mrun. ksimp.
  assert (H1 : ld32 (st32 (mem (km s)) (p + end_flag w) 0) (p + end_flag w) = 0).
  { apply ld32_st32_eq. lia. }
  assert (H2 : ld32 (st32 (mem (km s)) (p + end_flag w) 0) (p + other_flag w)
               = ld32 (mem (km s)) (p + other_flag w)).
  { apply ld32_st32_ne. unfold end_flag, other_flag, pipe_writeopen, pipe_readopen.
    destruct (negb (w =? 0)); lia. }
  assert (Hc : (ld32 (st32 (mem (km s)) (p + end_flag w) 0) (p + pipe_readopen) =? 0) &&
               (ld32 (st32 (mem (km s)) (p + end_flag w) 0) (p + pipe_writeopen) =? 0) =
               (ld32 (mem (km s)) (p + other_flag w) =? 0)).
  { rewrite <- H2. revert H1. unfold end_flag, other_flag. destruct (negb (w =? 0)); intros ->; by
      rewrite ?andb_true_r. }
  cbn [mem set_mem set_km km]. rewrite Hc. clear Hs H1 H2 Hc. destruct (ld32 (mem (km s)) (p + other_flag w) =? 0).
  - krun_with run_release_top; [|done|done]. unfold s1. by destruct s.
  - erewrite run_release_top; [|done|done]. unfold s1. by destruct s.
Qed.

(** ** The life of a pipe *)

(** The page of a new pipe. *)
Definition pipe_init (p : Z) (m : Zmap Z) : Zmap Z :=
  st32 (st32 (st32 (st32 m (p + pipe_readopen) 1) (p + pipe_writeopen) 1) (p + pipe_nwrite) 0)
    (p + pipe_nread) 0.

Lemma pipe_init_spec p m : mem_ok m ->
  mem_ok (pipe_init p m) /\ same_but (in_page p) m (pipe_init p m) /\
  ld32 (pipe_init p m) (p + pipe_readopen) = 1 /\ ld32 (pipe_init p m) (p + pipe_writeopen) = 1 /\
  pipe_view (pipe_init p m) p = [].
Proof.
  intros Hm. unfold pipe_init. split; [auto using mem_ok_st32|]. unfold pipe_readopen, pipe_writeopen, pipe_nwrite, pipe_nread.
  split; [|split_and!].
  - intros a Ha. unfold in_page in Ha. by rewrite !ld8_st32_ne by lia.
  - rewrite !ld32_st32_ne by lia. by apply ld32_st32_eq.
  - rewrite !ld32_st32_ne by lia. by apply ld32_st32_eq.
  - unfold pipe_view, pipe_len, nread, nwrite, pipe_nwrite, pipe_nread.
    rewrite ld32_st32_ne by lia. by rewrite !ld32_st32_eq by lia.
Qed.

(** Closing both ends, in either order, frees the pipe. *)
Lemma wp_close_both t a b fa fb p l :
  held t = [] -> files t !! a = Some fa -> files t !! b = Some fb -> a <> b ->
  ref fa = 1 -> ref fb = 1 -> type fa = FD_PIPE -> type fb = FD_PIPE -> fpipe fa = p -> fpipe fb = p ->
  (writable fb =? 0) = negb (writable fa =? 0) -> ld32 (mem (km t)) (p + other_flag (writable fa)) = 1 ->
  km_ok (km t) l -> page_ok p -> p ∉ l -> refcnt (km t) (V2P p / PGSIZE) <= 1 ->
  wp (fileclose a;; fileclose b) (fun _ t' =>
    km_ok (km t') (p :: l) /\ files t' = <[b := closed fb]> (<[a := closed fa]> (files t)) /\ held t' = []) t.
Proof.
  intros Hh Ha Hb Hab Hra Hrb Hta Htb Hpa Hpb Hw Hfl Hk Hp Hpl Hrc. apply wp_bind.
  eapply wp_result.
  { erewrite run_fileclose_pipe; [|rewrite Hh; set_solver|done..].
    rewrite run_pipeclose by (ksimp; rewrite Hh; set_solver). ksimp. rewrite Hpa, Hfl. cbn [Z.eqb]. reflexivity. }
  set (t1 := set_procs _ _).
  assert (Hkf : forall m, mem_ok m -> same_but (in_page p) (mem (km t)) m -> km_ok (set_mem m (km t)) l).
  { intros m Hm Hs. eapply km_ok_set_mem; [done|done|exact Hs|]. intros q x Hq Hx.
    eapply in_page_disjoint; [| | |exact Hx].
    - destruct Hk. by eapply Forall_forall in Hq; [|eassumption]; destruct Hq.
    - apply Hp.
    - congruence. }
  assert (Hm0 : mem_ok (mem (km t))) by (apply Hk). eapply wp_result.
  { erewrite (run_fileclose_pipe t1 b fb); [|unfold t1; cbn; rewrite Hh; set_solver| |done|done].
    2:{ unfold t1. ksimp. cbn. by rewrite list_lookup_insert_ne. }
    rewrite run_pipeclose by (unfold t1; ksimp; cbn; rewrite Hh; set_solver). unfold t1. ksimp.
    cbn [mem set_mem set_km km upd_mem].
    assert (end_flag (writable fa) = other_flag (writable fb)) as Hef.
    { unfold end_flag, other_flag. rewrite Hw. by destruct (writable fa =? 0). }
    rewrite Hpb, Hef, ld32_st32_eq by lia. cbn [Z.eqb]. apply run_run_km. apply kfree_last; [done|apply Hk|done]. }
  cbn. split; [|by rewrite Hh]. apply km_ok_after_kfree; [|done..]. apply Hkf; [by apply mem_ok_st32, mem_ok_st32|].
  intros x Hx. unfold in_page in Hx. assert (forall w, 572 <= end_flag w <= 576 /\ 572 <= other_flag w <= 576) as Hf.
  { intros w. unfold end_flag, other_flag, pipe_writeopen, pipe_readopen. destruct (negb (w =? 0)); lia. }
  pose proof (Hf (writable fa)). pose proof (Hf (writable fb)). by rewrite !ld8_st32_ne by lia.
Qed.

Section life.
Context (s : kst F) (p : Z) (l : list Z) (i0 i1 : nat) (f0 f1 : file).
Context (Hk : km_ok (km s) (p :: l)) (Hh : held s = []).
Context (H0 : files s !! i0 = Some f0) (H1 : files s !! i1 = Some f1) (Hlt : (i0 < i1)%nat).
Context (Hr0 : ref f0 = 0) (Hr1 : ref f1 = 0).
Context (Hfree : forall j f, (j < i1)%nat -> j <> i0 -> files s !! j = Some f -> ref f <> 0).

Definition ends (g : Z -> Z -> file -> file) : list file :=
  <[i1 := g 0 1 f1]> (<[i0 := g 1 0 f0]> (files s)).
Definition opened : list file := ends (fun r w f => pipe_end r w p (set_f_ref 1 f)).

Lemma run_pipealloc :
  pipealloc s = Ret (Some (i0, i1))
    (set_files opened (set_km (set_mem (pipe_init p (mem (km s))) (after_kalloc (km s) p)) s)).
Proof.
  unfold pipealloc. assert (Hl0 : (i0 < List.length (files s))%nat) by (by eapply lookup_lt_Some).
  assert (Hl1 : (i1 < List.length (files s))%nat) by (by eapply lookup_lt_Some).
  krun_with (run_filealloc _ i0 f0); [|rewrite Hh; set_solver| |done].
  2:{ apply find_index_Some. exists f0. split_and!; [done|by apply Z.eqb_eq|].
      intros j f Hj Hf. apply Z.eqb_neq. apply (Hfree j f); [lia|lia|done]. }
  krun_with (run_filealloc _ i1 f1); [|rewrite Hh; set_solver| |rewrite list_lookup_insert_ne by lia; done].
  2:{ apply find_index_Some. exists f1. rewrite list_lookup_insert_ne by lia.
      split_and!; [done|by apply Z.eqb_eq|]. intros j f Hj Hf. apply Z.eqb_neq.
      apply list_lookup_insert_Some in Hf as [(<- & <- & _)|[? Hf]]; [done|]. by apply (Hfree j f). }
  krun_with run_run_km; [|by eapply kalloc_cons].
  rewrite (proj2 (Z.eqb_neq p 0)) by (eapply page_ok_nz, Forall_inv, Hk).
  unfold kst32, initlock. mrun.
  krun_with run_upd_file; [|rewrite list_lookup_insert_ne by lia; by apply list_lookup_insert_eq].
  krun_with run_upd_file; [|rewrite list_lookup_insert_ne by lia; apply list_lookup_insert_eq; by rewrite length_insert].
  unfold opened, ends. ksimp. rewrite (list_insert_insert_ne _ i0 i1), list_insert_insert_eq by lia.
  rewrite list_insert_insert_eq. rewrite Hh. destruct s; cbn in *. by subst.
Qed.

End life.

End file.

(** ** Properties *)

(** the life of a pipe.  pipealloc, called with no lock held in a state with two
    free slots in the file table (the first two being [i0] and [i1]) and a free
    page [p], returns those slots as the read end and the write end of an empty
    pipe in [p].  Closing both ends, in either order, returns, frees both slots,
    puts [p] back on the free list and leaves every other open file alone. *)
Theorem pipe_lifecycle {KI : KernelImage} {F} {FS : FileSys F} (s : kst F) (p : Z) (l : list Z)
    (i0 i1 : nat) (f0 f1 : file) (read_first : bool) :
  km_ok (km s) (p :: l) -> held s = [] ->
  files s !! i0 = Some f0 -> files s !! i1 = Some f1 -> (i0 < i1)%nat -> ref f0 = 0 -> ref f1 = 0 ->
  (forall j f, (j < i1)%nat -> j <> i0 -> files s !! j = Some f -> ref f <> 0) ->
  wp pipealloc (fun r s1 =>
    r = Some (i0, i1) /\ km_ok (km s1) l /\ pipe_view (mem (km s1)) p = [] /\
    files s1 !! i0 = Some (pipe_end 1 0 p (set_f_ref 1 f0)) /\
    files s1 !! i1 = Some (pipe_end 0 1 p (set_f_ref 1 f1)) /\
    wp (if read_first then fileclose i0;; fileclose i1 else fileclose i1;; fileclose i0) (fun _ s2 =>
      km_ok (km s2) (p :: l) /\ held s2 = [] /\
      (forall j, files s2 !! j = if decide (j = i0 \/ j = i1) then closed ∘ pipe_end (if decide (j = i0) then 1 else 0)
          (if decide (j = i0) then 0 else 1) p <$> files s !! j else files s !! j)) s1) s.
Proof.
  intros Hk Hh H0 H1 Hlt Hr0 Hr1 Hfree.
  eapply wp_result; [by apply (run_pipealloc s p l i0 i1 f0 f1)|].
  set (s1 := set_files _ _). destruct (pipe_init_spec p (mem (km s))) as (Hm & Hsb & Ho & Hw & Hv); [apply Hk|].
  pose proof (ok_pages _ _ Hk) as [Hp Hl]%Forall_cons. pose proof (ok_nodup _ _ Hk) as [Hnl _]%NoDup_cons.
  assert (Hl0 : (i0 < List.length (files s))%nat) by (by eapply lookup_lt_Some).
  assert (Hl1 : (i1 < List.length (files s))%nat) by (by eapply lookup_lt_Some).
  assert (Hk1 : km_ok (km s1) l).
  { apply (km_ok_set_mem (in_page p)); [by apply km_ok_after_kalloc|done|done|].
    intros q x Hq Hx. eapply in_page_disjoint; [| | |exact Hx].
    - eapply Forall_forall in Hq; [|exact Hl]. apply Hq.
    - apply Hp.
    - congruence. }
  assert (E0 : files s1 !! i0 = Some (pipe_end 1 0 p (set_f_ref 1 f0))).
  { unfold s1, opened, ends. ksimp. rewrite list_lookup_insert_ne by lia. by apply list_lookup_insert_eq. }
  assert (E1 : files s1 !! i1 = Some (pipe_end 0 1 p (set_f_ref 1 f1))).
  { unfold s1, opened, ends. ksimp. apply list_lookup_insert_eq. by rewrite length_insert. }
  assert (Hrc : refcnt (km s1) (V2P p / PGSIZE) <= 1).
  { change (refcnt (after_kalloc (km s) p) (V2P p / PGSIZE) <= 1). unfold after_kalloc.
    rewrite refcnt_set_ref, decide_True by done. by vm_compute. }
  assert (Hrest : forall j g0 g1, j <> i0 -> j <> i1 -> (<[i1 := g1]> (<[i0 := g0]> (files s1))) !! j = files s !! j).
  { intros j g0 g1 Hj0 Hj1. unfold s1, opened, ends. ksimp. by rewrite !list_lookup_insert_ne. }
  split; [done|]. split; [done|]. split; [done|]. split; [done|]. split; [done|].
  assert (Hwp : wp (if read_first then fileclose i0;; fileclose i1 else fileclose i1;; fileclose i0) (fun _ t' =>
    km_ok (km t') (p :: l) /\ files t' = <[i1 := closed (pipe_end 0 1 p (set_f_ref 1 f1))]>
      (<[i0 := closed (pipe_end 1 0 p (set_f_ref 1 f0))]> (files s1)) /\ held t' = []) s1).
  { destruct read_first; [|rewrite list_insert_insert_ne by lia]; eapply wp_close_both; (done || lia || idtac). }
  eapply wp_mono; [exact Hwp|]. cbv beta. intros _ s2 (G1 & -> & G3). split; [done|]. split; [done|]. intros j.
  assert (List.length (files s1) = List.length (files s)) as Hlen.
  { unfold s1, opened, ends. ksimp. by rewrite !length_insert. }
  destruct (decide (j = i0)) as [->|Hj0].
  - rewrite decide_True by (by left). rewrite list_lookup_insert_ne, list_lookup_insert_eq by lia. by rewrite H0.
  - destruct (decide (j = i1)) as [->|Hj1].
    + rewrite decide_True by (by right). rewrite list_lookup_insert_eq by (rewrite length_insert; lia). by rewrite H1.
    + rewrite decide_False by tauto. by apply Hrest.
Qed.

(** A machine without a disk: every operation on an inode is undefined. *)
Definition no_fs : FileSys unit := {|
  fs_begin_op := undef "no disk"; fs_end_op := undef "no disk"; fs_idup _ := undef "no disk";
  fs_ilock _ := undef "no disk"; fs_iunlock _ := undef "no disk"; fs_iput _ := undef "no disk";
  fs_stati _ _ := undef "no disk"; fs_readi _ _ _ _ := undef "no disk";
  fs_writei _ _ _ _ := undef "no disk"; fs_namei _ := undef "no disk";
  fs_iinit _ := undef "no disk"; fs_initlog _ := undef "no disk" |}.

(** One open file, two free slots around it, one free page. *)
Definition ex_files : kst unit :=
  set_files [file0; set_f_ref 1 file0; file0] (ex_machine (km_free [0x80400000]) []).

Lemma pipe_lifecycle_witness :
  wp (pipealloc (FS := no_fs)) (fun r s1 => r = Some (0%nat, 2%nat) /\
    wp (fileclose (FS := no_fs) 2;; fileclose (FS := no_fs) 0)
      (fun _ s2 => km_ok (km s2) [0x80400000] /\ ref <$> files s2 = [0; 1; 0]) s1) ex_files.
Proof.
  eapply wp_mono.
  - apply (pipe_lifecycle (FS := no_fs) ex_files 0x80400000 [] 0 2 file0 file0 false).
    + apply km_ok_free; [apply NoDup_singleton|]. apply Forall_singleton. vm_compute.
      split; [done|]. split; [discriminate|done].
    + done.
    + done.
    + done.
    + lia.
    + done.
    + done.
    + intros [|[|[|j]]] f Hj Hne Hf; try done; [by injection Hf as <-|lia].
  - cbv beta iota. intros r s1 (-> & _ & _ & _ & _ & Hw). split; [done|].
    eapply wp_mono; [exact Hw|]. cbv beta. intros _ s2 (Hk & _ & Hf). split; [exact Hk|].
    apply list_eq. intros j. rewrite list_lookup_fmap, Hf. by destruct j as [|[|[|j]]].
Defined.
