(* ===== verification/Fork.v ===== *)
(** * Creation and end of processes (proc.c: fork, wunmap, exit, wait, userinit,
    forkret)

    The operations of proc.c that use memory, files and the process table
    together.  fork shares the parent's pages with [Cow]'s copyuvm and then maps
    the pages of its MAP_SHARED regions in the child; exit turns the process into
    a zombie and switches away for good; wait collects a zombie child. *)

From Stdlib Require Import ZArith Lia.
From stdpp Require Import base tactics numbers option list strings zmap.
From S2P Require Import Prelude Memory Mmu StringOps Kalloc Vm Cow Wmap Kernel Proc Pipe File.

Definition ROOTDEV : Z := 1.

Section fork.
Context {KI : KernelImage} {KS0 : KernelSymbols} {F : Type} {FS : FileSys F}.
#[local] Abbreviation MK := (M (kst F)).

(** safestrcpy on a process name: both names laid out in memory, then copied. *)
Definition copy_name (dst src : list Z) (n : nat) : list Z :=
  ld_bytes (safestrcpy (st_bytes (st_bytes ∅ 0 dst) 4096 src) 0 4096 (Z.of_nat n)) 0 (List.length dst).

(** ** fork *)

(** [np->ofile[i] = filedup(curproc->ofile[i])] for the open files [fs], from
    descriptor [fd] on. *)
Fixpoint fork_files (np : nat) (fd : nat) (fs : list (option nat)) : MK unit :=
  match fs with
  | [] => mret tt
  | f :: fs' =>
      match f with
      | Some i => g ← filedup i; upd_proc np (fun p => set_p_ofile (<[fd := Some g]> (ofile p)) p)
      | None => mret tt
      end;;
      fork_files np (S fd) fs'
  end.

(** The regions of the child: the parent's where the slot is in use. *)
Definition fork_mmaps (parent child : list mmap_region) : list mmap_region :=
  zip_with (fun r c => if negb (used r =? 0) then r else c) parent child.

(** One page of a MAP_SHARED region: map the parent's frame in the child. *)
Definition fork_shared_page (pgdir cpgdir a : Z) : M kmst unit :=
  pte ← walkpgdir pgdir a false;
  if pte =? 0 then undef "fork: null pte"
  else
    e ← load pte;
    let pa := PTE_ADDR e in
    let flags := PTE_FLAGS e in
    let flags := if flag flags PTE_COW then Z.land flags (Z.lnot PTE_COW) else flags in
    r ← mappages cpgdir a PGSIZE pa flags;
    if r <? 0 then mret tt else incref pa.

Definition fork_shared_body (pgdir cpgdir : Z) (r : mmap_region) (a : Z) : M kmst (Z + unit) :=
  if a <? rend r then fork_shared_page pgdir cpgdir a;; mret (inl (u32 (a + PGSIZE)))
  else mret (inr tt).

Definition region_fuel (r : mmap_region) : nat := Z.to_nat (Z.max 0 (rend r - addr r) / PGSIZE + 3).

Definition fork_shared_region (pgdir cpgdir : Z) (r : mmap_region) : M kmst unit :=
  when (flag (flags r) MAP_SHARED)
    (iterate (region_fuel r) (fork_shared_body pgdir cpgdir r) (addr r)).

Fixpoint fork_shared (pgdir cpgdir : Z) (rs : list mmap_region) : M kmst unit :=
  match rs with
  | [] => mret tt
  | r :: rs' => fork_shared_region pgdir cpgdir r;; fork_shared pgdir cpgdir rs'
  end.

Definition fork : MK Z :=
  cp ← curproc;
  np ← allocproc;
  match np with
  | None => mret (-1)
  | Some np =>
      c ← get_proc cp;
      d ← run_km (copyuvm (pgdir c) (sz c));
      upd_proc np (set_p_pgdir d);;
      if d =? 0 then
        n ← get_proc np;
        run_km (kfree (kstack n));;
        upd_proc np (set_p_kstack 0);;
        upd_proc np (set_p_state UNUSED);;
        mret (-1)
      else
        upd_proc np (set_p_sz (sz c));;
        upd_proc np (set_p_parent (Some cp));;
        n ← get_proc np;
        run_km (modify (fun s => set_mem (st_bytes (mem s) (tf n)
                                   (ld_bytes (mem s) (tf c) (Z.to_nat sizeof_trapframe))) s));;
        upd_proc np (set_p_total_mmaps (total_mmaps c));;
        upd_proc np (fun n => set_p_mmap (fork_mmaps (mmap c) (mmap n)) n);;
        upd_proc np (set_p_wmap_info (wmap_info c));;
        kst32 (tf n + tf_eax) 0;;
        fork_files np 0 (ofile c);;
        match cwd c with
        | Some i => fs_idup i
        | None => undef "idup: null inode"
        end;;
        upd_proc np (set_p_cwd (cwd c));;
        run_km (fork_shared (pgdir c) d (mmap c));;
        upd_proc np (fun n => set_p_name (copy_name (name n) (name c) 16) n);;
        n ← get_proc np;
        acquire L_ptable;;
        upd_proc np (set_p_state RUNNABLE);;
        release L_ptable;;
        run_km (lcr3 (V2P d));;
        mret (pid n)
  end.

(** ** wunmap *)

Definition get_region (i k : nat) : MK mmap_region :=
  p ← get_proc i;
  match mmap p !! k with Some r => mret r | None => undef "mmap index out of range" end.
Definition upd_region (i k : nat) (f : mmap_region -> mmap_region) : MK unit :=
  r ← get_region i k; upd_proc i (fun p => set_p_mmap (<[k := f r]> (mmap p)) p).

(** p->ofile[fd] *)
Definition get_ofile (i : nat) (n : Z) : MK (option nat) :=
  p ← get_proc i;
  if n <? 0 then undef "ofile index out of range"
  else match ofile p !! Z.to_nat n with
       | Some f => mret f
       | None => undef "ofile index out of range"
       end.

Definition wunmap_body (fuel : nat) (i k : nat) (page_start : Z) : MK (Z + unit) :=
  m ← get_region i k;
  if page_start <? rend m then
    p ← get_proc i;
    pte ← run_km (walkpgdir (pgdir p) page_start false);
    e ← (if pte =? 0 then mret 0 else kld32 pte);
    (if negb (pte =? 0) && flag e PTE_P then
       let physical_address := PTE_ADDR e in
       (if negb (flag (flags m) MAP_ANONYMOUS) then
          f ← get_ofile i (fd m);
          match f with
          | Some f =>
              upd_file f (set_f_off (u32 (page_start - addr m)));;
              filewrite fuel f (fun j => kld8 (P2V physical_address + j)) PGSIZE;;
              mret tt
          | None => mret tt
          end
        else mret tt);;
       run_km (kfree (P2V physical_address));;
       kst32 pte 0
     else mret tt);;
    mret (inl (u32 (page_start + PGSIZE)))
  else mret (inr tt).

Definition wunmap (fuel : nat) (a : Z) : MK Z :=
  i ← curproc;
  p ← get_proc i;
  match find_region (mmap p) a with
  | None => mret FAILED
  | Some k =>
      m ← get_region i k;
      iterate (region_fuel m) (wunmap_body fuel i k) (PGROUNDDOWN (addr m));;
      upd_region i k (set_used 0);;
      upd_region i k (set_loaded 0);;
      upd_proc i (fun p => set_p_total_mmaps (s32 (total_mmaps p - 1)) p);;
      mret SUCCESS
  end.

(** ** exit *)

Fixpoint exit_files (i : nat) (fd n : nat) : MK unit :=
  match n with
  | O => mret tt
  | S n' =>
      p ← get_proc i;
      match ofile p !! fd with
      | Some (Some f) => fileclose f;; upd_proc i (fun p => set_p_ofile (<[fd := None]> (ofile p)) p)
      | Some None => mret tt
      | None => undef "ofile index out of range"
      end;;
      exit_files i (S fd) n'
  end.

Fixpoint exit_mmaps (fuel : nat) (i k n : nat) : MK unit :=
  match n with
  | O => mret tt
  | S n' =>
      m ← get_region i k;
      p ← get_proc i;
      pte ← run_km (walkpgdir (pgdir p) (addr m) false);
      e ← (if pte =? 0 then mret 0 else kld32 pte);
      (if negb (pte =? 0) && flag e PTE_P then
         let pa := PTE_ADDR e in
         c ← gets (fun s => refcnt (km s) (pa / PGSIZE));
         (if flag e PTE_COW && (c <=? 1) then wunmap fuel (P2V pa);; mret tt else mret tt)
       else mret tt);;
      exit_mmaps fuel i (S k) n'
  end.

(** wakeup1 of a pointer that may be null. *)
Definition wakeup1_proc (p : option nat) : MK unit :=
  match p with
  | Some i => wakeup1 (Chan_proc i)
  | None => modify (fun s => set_procs
              ((fun q => if bool_decide (state q = SLEEPING /\ chan q = None) then set_p_state RUNNABLE q else q)
                 <$> procs s) s)
  end.

(** Pass the children of [i] to init, from slot [j] on. *)
Fixpoint exit_children (i j n : nat) : MK unit :=
  match n with
  | O => mret tt
  | S n' =>
      p ← get_proc j;
      when (bool_decide (parent p = Some i))
        (ini ← gets initproc;
         upd_proc j (set_p_parent ini);;
         when (bool_decide (state p = ZOMBIE)) (wakeup1_proc ini));;
      exit_children i (S j) n'
  end.

Definition exit (fuel : nat) : MK unit :=
  i ← curproc;
  ini ← gets initproc;
  if bool_decide (ini = Some i) then panic "init exiting"
  else
    exit_files i 0 NOFILE;;
    exit_mmaps fuel i 0 MAX_MMAPS;;
    fs_begin_op;;
    p ← get_proc i;
    match cwd p with
    | Some n => fs_iput n
    | None => undef "iput: null inode"
    end;;
    fs_end_op;;
    upd_proc i (set_p_cwd None);;
    acquire L_ptable;;
    p ← get_proc i;
    wakeup1_proc (parent p);;
    exit_children i 0 NPROC;;
    upd_proc i (set_p_state ZOMBIE);;
    sched;;
    panic "zombie exit".

(** ** wait *)

(** One scan of the table: [inr] the answer, [inl] after having slept. *)
Definition wait_scan (i : nat) (_ : unit) : MK (unit + Z) :=
  s ← get;
  match find_index (fun p => bool_decide (parent p = Some i) && bool_decide (state p = ZOMBIE)) (procs s) with
  | Some j =>
      z ← get_proc j;
      run_km (kfree (kstack z));;
      upd_proc j (set_p_kstack 0);;
      run_km (freevm (pgdir z));;
      upd_proc j (set_p_pid 0);;
      upd_proc j (set_p_parent None);;
      upd_proc j (fun z => set_p_name (<[0%nat := 0]> (name z)) z);;
      upd_proc j (set_p_killed 0);;
      upd_proc j (set_p_state UNUSED);;
      release L_ptable;;
      mret (inr (pid z))
  | None =>
      let havekids := existsb (fun p => bool_decide (parent p = Some i)) (procs s) in
      p ← get_proc i;
      if negb havekids || negb (killed p =? 0) then release L_ptable;; mret (inr (-1))
      else sleep (Chan_proc i) L_ptable;; mret (inl tt)
  end.

Definition wait (fuel : nat) : MK Z :=
  i ← curproc;
  acquire L_ptable;;
  iterate fuel (wait_scan i) tt.

(** ** The first process *)

Context (initcode : list Z).

Definition userinit : MK unit :=
  p ← allocproc;
  match p with
  | None => undef "userinit: null process"
  | Some i =>
      modify (set_initproc (Some i));;
      d ← run_km setupkvm;
      upd_proc i (set_p_pgdir d);;
      if d =? 0 then panic "userinit: out of memory?"
      else
        run_km (inituvm d initcode (Z.of_nat (List.length initcode)));;
        upd_proc i (set_p_sz PGSIZE);;
        p ← get_proc i;
        run_km (modify (fun s => set_mem (memset (mem s) (tf p) 0 sizeof_trapframe) s));;
        kst16 (tf p + tf_cs) (Z.lor (Z.shiftl SEG_UCODE 3) DPL_USER);;
        kst16 (tf p + tf_ds) (Z.lor (Z.shiftl SEG_UDATA 3) DPL_USER);;
        ds ← kld16 (tf p + tf_ds);
        kst16 (tf p + tf_es) ds;;
        ds ← kld16 (tf p + tf_ds);
        kst16 (tf p + tf_ss) ds;;
        kst32 (tf p + tf_eflags) FL_IF;;
        kst32 (tf p + tf_esp) PGSIZE;;
        kst32 (tf p + tf_eip) 0;;
        upd_proc i (fun p => set_p_name (copy_name (name p) [105; 110; 105; 116; 99; 111; 100; 101; 0] 16) p);;
        dir ← fs_namei (fun j => mret (default 0 ([47; 0] !! Z.to_nat j)));
        upd_proc i (set_p_cwd dir);;
        acquire L_ptable;;
        upd_proc i (set_p_state RUNNABLE);;
        release L_ptable
  end.

(** forkret, given its static variable [first]; the answer is its new value. *)
Definition forkret (first : Z) : MK Z :=
  release L_ptable;;
  if negb (first =? 0) then fs_iinit ROOTDEV;; fs_initlog ROOTDEV;; mret 0
  else mret first.

Lemma set_km_self (s : kst F) : set_km (km s) s = s.
Proof. by destruct s. Qed.

(** Reading the entry of [va], or 0 where there is no page table. *)
Lemma run_load_slot (s : kst F) pd va :
  (if default 0 (pte_slot (mem (km s)) pd va) =? 0 then mret 0
   else kld32 (default 0 (pte_slot (mem (km s)) pd va))) s =
  Ret (if default 0 (pte_slot (mem (km s)) pd va) =? 0 then 0 else pte_of (mem (km s)) pd va) s.
Proof.
  unfold pte_of. destruct (pte_slot (mem (km s)) pd va) as [a|]; cbn [default id]; [|reflexivity].
  destruct (a =? 0); reflexivity.
Qed.

(** ** Unmapping an anonymous region *)

Section wunmap.
Context (fuel : nat) (s : kst F) (i k : nat) (p : proc) (r : mmap_region) (l : list Z) (va : Z).
Context (Hcur : cur s = Some i) (Hp : procs s !! i = Some p).
Context (Hfind : find_region (mmap p) va = Some k) (Hr : mmap p !! k = Some r).
Context (Hanon : flag (flags r) MAP_ANONYMOUS = true) (Hro : region_ok r).
#[local] Abbreviation hi := (PGROUNDUP (addr r + length r)).
Context (Hu : unmappable (km s) l (pgdir p) (addr r) hi).

Lemma region_pages : addr r <= hi /\ hi mod 4096 = 0 /\ rend r <= hi <= 0x80000000 /\ rend r = addr r + length r /\
  addr r < rend r /\ forall a, a mod 4096 = 0 -> rend r <= a -> hi <= a.
Proof.
  destruct Hro. rewrite rend_ok by done. rewrite PGROUNDUP_eq by lia. split_and!; try divlia. intros; divlia.
Qed.

Lemma run_get_region (t : kst F) j n q x : procs t !! j = Some q -> mmap q !! n = Some x ->
  get_region j n t = Ret x t.
Proof. intros Hq Hx. unfold get_region. krun_with run_get_proc; [|done]. by rewrite Hx. Qed.

Definition unmapping (a : Z) (s1 : kst F) : Prop :=
  addr r <= a <= hi /\ a mod 4096 = 0 /\
  exists fr, s1 = set_km (km s1) s /\ unmapped (km s) l (pgdir p) (addr r) a (km s1) fr.

Lemma wp_wunmap_body a s1 : unmapping a s1 ->
  wp (wunmap_body fuel i k a) (fun x s2 =>
    match x with
    | inl a' => unmapping a' s2 /\ a' = a + 4096 /\ a < hi
    | inr _ => unmapping hi s2
    end) s1.
Proof.
  intros (Ha & Haa & fr & Hs1 & Hum). destruct region_pages as (R1 & R2 & R3 & R4 & R5 & R6). destruct Hro as [Rl _ _ Ral].
  assert (Hp1 : procs s1 !! i = Some p) by (rewrite Hs1; done).
  unfold wunmap_body. apply wp_bind. eapply wp_result; [by eapply run_get_region|]. cbv beta.
  destruct (Z.ltb_spec a (rend r)) as [Hlt|Hge].
  2:{ apply wp_ret. specialize (R6 a Haa Hge). assert (a = hi) as <- by lia. split; [lia|]. split; [done|]. by exists fr. }
  apply wp_bind. eapply wp_result; [by apply run_get_proc|]. cbv beta. apply wp_bind.
  eapply wp_result; [by apply run_run_km, run_walk|]. cbv beta. rewrite set_km_self.
  destruct (is_mapped (mem (km s)) (pgdir p) a) eqn:Hm.
  - destruct (run_unmap _ _ _ _ _ Hu a (km s1) fr Hum ltac:(lia) Haa Hm) as (x & s2 & fr' & Hx & Hnz & Hpr & Hf & _ & Hk & Hu2).
    rewrite Hx. cbn [default id]. rewrite (proj2 (Z.eqb_neq x 0) Hnz). apply wp_bind. unfold kld32.
    apply wp_gets. rewrite Hpr, Hf, Hanon. cbn [negb andb]. apply wp_bind, wp_bind, wp_ret, wp_bind.
    eapply wp_result; [by apply run_run_km|]. unfold kst32. apply wp_modify, wp_ret.
    unfold PGSIZE. rewrite u32_id by lia. split; [|lia]. split; [divlia|]. split; [divlia|]. exists fr'.
    split; [rewrite Hs1; done|exact Hu2].
  - apply wp_bind. eapply wp_result; [apply (run_load_slot s1 (pgdir p) a)|]. cbv beta. apply wp_bind.
    set (d := default 0 _). assert (negb (d =? 0) && flag (if d =? 0 then 0 else pte_of (mem (km s1)) (pgdir p) a) PTE_P = false) as ->.
    { destruct (d =? 0); [done|]. rewrite (um_pte _ _ _ _ _ _ _ Hum), decide_False by lia.
      fold (is_mapped (mem (km s)) (pgdir p) a). by rewrite Hm. }
    apply wp_ret, wp_ret. unfold PGSIZE. rewrite u32_id by lia. split; [|lia]. split; [divlia|]. split; [divlia|].
    exists fr. split; [done|]. eapply unmapped_skip; [exact Hum|lia|]. intros va' Hva'. rewrite <- Hm.
    unfold is_mapped. f_equal. apply pte_of_page; divlia.
Qed.

(** The process without the region. *)
Definition without_region (p : proc) : proc :=
  set_p_total_mmaps (s32 (total_mmaps p - 1)) (set_p_mmap (<[k := set_loaded 0 (set_used 0 r)]> (mmap p)) p).

Lemma wp_wunmap :
  wp (wunmap fuel va) (fun x s' => x = SUCCESS /\
    s' = set_km (km s') (set_procs (<[i := without_region p]> (procs s)) s) /\
    exists fr, unmapped (km s) l (pgdir p) (addr r) hi (km s') fr) s.
Proof.
  destruct region_pages as (R1 & R2 & R3 & R4 & R5 & R6). pose proof Hro as [Rl _ _ Ral].
  unfold wunmap. apply wp_bind. eapply wp_result; [by apply run_curproc|]. cbv beta. apply wp_bind.
  eapply wp_result; [by apply run_get_proc|]. cbv beta. rewrite Hfind. apply wp_bind.
  eapply wp_result; [by eapply run_get_region|]. cbv beta. apply wp_bind.
  rewrite (PGROUNDDOWN_eq (addr r)), Ral, Z.sub_0_r. eapply wp_mono.
  - apply (wp_iterate unmapping (fun a => Z.to_nat ((hi - a) / 4096))) with (Q := fun _ s2 => unmapping hi s2).
    + intros a s1 Hi. pose proof Hi as (Ha & Haa & _). eapply wp_mono; [by apply wp_wunmap_body|]. cbv beta.
      intros [a'|u] s2 H; [|exact H]. destruct H as (H1 & -> & H3). split; [done|]. divlia.
    + unfold region_fuel, PGSIZE. rewrite Z.max_r by lia. rewrite PGROUNDUP_eq by lia. divlia.
    + split; [lia|]. split; [done|]. exists []. split; [by destruct s|]. by eapply unmapped_nil.
  - cbv beta. intros _ s1 (_ & _ & fr & Hs1 & Hum). assert (Hp1 : procs s1 !! i = Some p) by (rewrite Hs1; done).
    assert (Hlen : (i < List.length (procs s1))%nat) by (by eapply lookup_lt_Some).
    assert (Hlk : (k < List.length (mmap p))%nat) by (by eapply lookup_lt_Some).
    unfold upd_region. do 2 apply wp_bind. eapply wp_result; [by eapply run_get_region|]. cbv beta.
    eapply wp_result; [by apply run_upd_proc|]. do 2 apply wp_bind.
    eapply wp_result; [eapply run_get_region; [by apply list_lookup_insert_eq|by apply list_lookup_insert_eq]|]. cbv beta.
    eapply wp_result; [by apply run_upd_proc, list_lookup_insert_eq|]. apply wp_bind.
    eapply wp_result; [apply run_upd_proc, list_lookup_insert_eq; ksimp; by rewrite ?length_insert|]. apply wp_ret.
    split; [done|]. split; [|by exists fr]. ksimp. rewrite !list_insert_insert_eq. cbn [mmap set_p_mmap].
    rewrite list_insert_insert_eq. rewrite Hs1. by destruct s, p.
Qed.

End wunmap.

End fork.
