(* ===== verification/PageFault.v ===== *)
(** * The page fault handler (trap.c) and accesses to user memory

    The T_PGFLT case of trap: copy-on-write faults are resolved by [Cow]'s
    [pgflt_cow]; any other fault is looked up in the process's mappings and, if it
    falls in one, a fresh page is mapped and filled (lazy allocation).  A kernel
    access to a user address is the processor's translation through the page table
    in the page table base register, repeated after the handler has run. *)

From Stdlib Require Import ZArith Lia.
From stdpp Require Import base tactics numbers option list strings zmap.
From S2P Require Import Prelude Memory Mmu StringOps Kalloc Vm Cow Wmap Kernel Proc Pipe File Fork.

(** How control leaves the T_PGFLT case: a return from trap, a break out of the
    switch, or falling through into the default case. *)
Inductive flow : Type := Return | Break | Default.

Section page_fault.
Context {KI : KernelImage} {KS0 : KernelSymbols} {F : Type} {FS : FileSys F}.
#[local] Abbreviation MK := (M (kst F)).
Context (fuel : nat).

Definition fileread_offset (f : nat) (st : Z -> Z -> MK unit) (n offset : Z) : MK Z :=
  fl ← get_file f;
  if readable fl =? 0 then mret (-1)
  else
    inode ← the_ip fl;
    fs_ilock inode;;
    bytes_read ← fs_readi inode st (u32 offset) n;
    fs_iunlock inode;;
    mret bytes_read.

(** The file-backed part: fill the new page [mem] from the file of region [k];
    the answer is whether the read succeeded. *)
Definition pagefault_file (i k : nat) (page_start mem : Z) : MK bool :=
  m ← get_region i k;
  f ← get_ofile i (fd m);
  match f with
  | None => undef "page fault: null file"
  | Some f =>
      fl ← get_file f;
      let original_offset := s32 (off fl) in
      upd_file f (set_f_off (u32 (page_start - addr m)));;
      bytes_read ← fileread fuel f (fun j b => kst8 (mem + j) b) PGSIZE;
      upd_file f (set_f_off (u32 original_offset));;
      if bytes_read <? 0 then
        run_km (kfree mem);;
        upd_proc i (set_p_killed 1);;
        mret false
      else
        when (bytes_read <? PGSIZE)
          (run_km (modify (fun s =>
             set_mem (memset (Kalloc.mem s) (mem + bytes_read) 0 (PGSIZE - bytes_read)) s)));;
        mret true
  end.

(** From the label pagefault_default to the end of the case. *)
Definition pagefault_default (i : nat) (fault_addr : Z) : MK flow :=
  p ← get_proc i;
  match find_region (mmap p) fault_addr with
  | None => upd_proc i (set_p_killed 1);; mret Break
  | Some k =>
      let page_start := PGROUNDDOWN fault_addr in
      mem ← run_km kalloc;
      if mem =? 0 then upd_proc i (set_p_killed 1);; mret Default
      else
        run_km (modify (fun s => set_mem (memset (Kalloc.mem s) mem 0 PGSIZE) s));;
        r ← run_km (mappages (pgdir p) page_start PGSIZE (V2P mem) (Z.lor PTE_W PTE_U));
        if r <? 0 then
          run_km (kfree mem);;
          upd_proc i (set_p_killed 1);;
          mret Default
        else
          m ← get_region i k;
          ok ← (if negb (flag (flags m) MAP_ANONYMOUS) then pagefault_file i k page_start mem
                else mret true);
          if (ok : bool) then
            upd_region i k (fun m => set_loaded (s32 (n_loaded_pages m + 1)) m);;
            mret Return
          else mret Default
  end.

(** The case T_PGFLT. *)
Definition pgflt (fault_addr : Z) : MK flow :=
  p ← myproc;
  match p with
  | None => panic "trap: page fault with no process"
  | Some i =>
      p ← get_proc i;
      pte ← run_km (walkpgdir (pgdir p) fault_addr false);
      e ← (if pte =? 0 then mret 0 else kld32 pte);
      if (pte =? 0) || negb (flag e PTE_P) then pagefault_default i fault_addr
      else if flag e PTE_COW then
        ok ← run_km (pgflt_cow (pgdir p) fault_addr pte);
        if (ok : bool) then mret Return
        else upd_proc i (set_p_killed 1);; mret Break
      else pagefault_default i fault_addr
  end.

(** The default case, and what follows the switch; [cs] is the code segment the
    trap came from. *)
Definition trap_default (cs : Z) : MK unit :=
  p ← myproc;
  match p with
  | None => panic "trap"
  | Some i => if Z.land cs 3 =? 0 then panic "trap" else upd_proc i (set_p_killed 1)
  end.

Definition exit_if_killed (cs : Z) : MK unit :=
  p ← myproc;
  match p with
  | None => mret tt
  | Some i => p ← get_proc i;
      if negb (killed p =? 0) && (Z.land cs 3 =? DPL_USER) then exit fuel else mret tt
  end.

(** Give up the CPU on a clock tick. *)
Definition trap_timer (trapno : Z) : MK unit :=
  p ← myproc;
  match p with
  | None => mret tt
  | Some i => p ← get_proc i;
      when (bool_decide (state p = RUNNING) && (trapno =? T_IRQ0 + IRQ_TIMER)) yield
  end.

Definition trap_tail (cs trapno : Z) : MK unit :=
  exit_if_killed cs;; trap_timer trapno;; exit_if_killed cs.

Definition page_fault (cs fault_addr : Z) : MK unit :=
  w ← pgflt fault_addr;
  match w with
  | Return => mret tt
  | Break => trap_tail cs T_PGFLT
  | Default => trap_default cs;; trap_tail cs T_PGFLT
  end.

(** ** Accesses through the page table

    The processor's translation of an access at [va]: the entry is present,
    grants user accesses if the access is one, and is writable if it is a store
    (CR0_WP makes that hold for the kernel too, entry.S). *)
Definition hw_translate (m : Zmap Z) (cr3 va : Z) (user write : bool) : option Z :=
  let e := pte_of m (P2V cr3) va in
  if flag e PTE_P && (negb user || flag e PTE_U) && (negb write || flag e PTE_W)
  then Some (P2V (PTE_ADDR e) + va mod PGSIZE) else None.

(** An access from code segment [cs], retried after a page fault. *)
Definition access {A} (cs va : Z) (write : bool) (act : Z -> MK A) : MK A :=
  iterate fuel (fun _ : unit =>
    s ← get;
    match hw_translate (mem (km s)) (cr3 (km s)) va (Z.land cs 3 =? DPL_USER) write with
    | Some a => r ← act a; mret (inr r)
    | None => page_fault cs va;; mret (inl tt)
    end) tt.

Definition KCS : Z := Z.shiftl SEG_KCODE 3.
Definition UCS : Z := Z.lor (Z.shiftl SEG_UCODE 3) DPL_USER.

(** Bytes and words of user memory, as the kernel accesses them. *)
Definition uld8 (va : Z) : MK Z := access KCS va false kld8.
Definition ust8 (va v : Z) : MK unit := access KCS va true (fun a => kst8 a v).
Definition uld32 (va : Z) : MK Z :=
  b0 ← uld8 va; b1 ← uld8 (u32 (va + 1)); b2 ← uld8 (u32 (va + 2)); b3 ← uld8 (u32 (va + 3));
  mret (b0 + 256 * b1 + 65536 * b2 + 16777216 * b3).
Definition ust32 (va v : Z) : MK unit :=
  ust8 va v;; ust8 (u32 (va + 1)) (v / 256);; ust8 (u32 (va + 2)) (v / 65536);;
  ust8 (u32 (va + 3)) (v / 16777216).

(** ** Lazy allocation in an anonymous region *)

(** A fault at [va] in an anonymous region: process [i] runs, region [k] of its
    table contains [va], the page is not mapped, and at least two pages are free
    (the page itself and, if need be, a page table). *)
Record lazy_fault (s : kst F) (i k : nat) (p : proc) (r : mmap_region) (va q : Z) (l : list Z) : Prop := {
  lf_cur : cur s = Some i;
  lf_proc : procs s !! i = Some p;
  lf_find : find_region (mmap p) va = Some k;
  lf_region : mmap p !! k = Some r;
  lf_anon : flag (flags r) MAP_ANONYMOUS = true;
  lf_va : 0 <= va < 4294967296;
  lf_km : km_ok (km s) (q :: l);
  lf_room : l <> [];
  lf_pt : pt_ok (mem (km s)) (q :: l) (pgdir p);
  lf_absent : flag (pte_of (mem (km s)) (pgdir p) va) PTE_P = false }.

(** The entry of a lazily allocated page. *)
Definition lazy_pte (q : Z) : Z := Z.lor (Z.lor (V2P q) (Z.lor PTE_W PTE_U)) PTE_P.

Lemma lazy_pte_ok q : page_ok q ->
  PTE_ADDR (lazy_pte q) = V2P q /\ flag (lazy_pte q) PTE_P = true /\ flag (lazy_pte q) PTE_U = true /\
  flag (lazy_pte q) PTE_W = true.
Proof.
  intros Hq. destruct (page_ok_V2P q Hq) as (_ & Hr & Ha). unfold lazy_pte. split.
  - apply PTE_ADDR_make; [done|apply perm_WU].
  - split; [|split]; bit_simpl; by rewrite ?orb_true_r.
Qed.

(** The process after the fault: one more page of region [k] is loaded. *)
Definition loaded (k : nat) (r : mmap_region) (p : proc) : proc :=
  set_p_mmap (<[k := set_loaded (s32 (n_loaded_pages r + 1)) r]> (mmap p)) p.

Definition lazy_mapped (s : kst F) (i k : nat) (p : proc) (r : mmap_region) (va q : Z) (l : list Z)
    (s' : kst F) : Prop :=
  s' = set_km (km s') (set_procs (<[i := loaded k r p]> (procs s)) s) /\
  exists l', fresh_mapped (km s) q l (pgdir p) va (Z.lor PTE_W PTE_U) (km s') l'.

(** The entry the handler reads. *)
Lemma run_pte (s : kst F) pd va : mem_ok (mem (km s)) ->
  exists a, walkpgdir pd va false (km s) = Ret a (km s) /\
    (if a =? 0 then mret 0 else kld32 a) s = Ret (if a =? 0 then 0 else pte_of (mem (km s)) pd va) s /\
    ((a =? 0) = true -> pte_of (mem (km s)) pd va = 0 \/ pte_slot (mem (km s)) pd va = Some 0).
Proof.
  intros Hm. exists (default 0 (pte_slot (mem (km s)) pd va)). split; [apply run_walk|].
  unfold pte_of. destruct (pte_slot (mem (km s)) pd va) as [a|]; cbn [default id].
  - split; [destruct (a =? 0); reflexivity|]. intros E%Z.eqb_eq. right. by subst.
  - split; [reflexivity|]. by left.
Qed.

Lemma wp_lazy_fault s i k p r va q l :
  lazy_fault s i k p r va q l ->
  wp (pgflt va) (fun w s' => w = Return /\ lazy_mapped s i k p r va q l s') s.
Proof.
  intros []. unfold pgflt, myproc. apply wp_bind, wp_gets. rewrite lf_cur0. cbv beta iota.
  apply wp_bind. eapply wp_result; [by apply run_get_proc|]. cbv beta.
  destruct (run_pte s (pgdir p) va) as (a & Ha1 & Ha2 & _); [apply lf_km0|].
  apply wp_bind. eapply wp_result; [by apply run_run_km|]. cbv beta. rewrite set_km_self.
  apply wp_bind. eapply wp_result; [exact Ha2|]. cbv beta.
  assert ((a =? 0) || negb (flag (if a =? 0 then 0 else pte_of (mem (km s)) (pgdir p) va) PTE_P) = true) as ->.
  { destruct (a =? 0); [done|]. by rewrite lf_absent0. }
  unfold pagefault_default. apply wp_bind. eapply wp_result; [by apply run_get_proc|]. cbv beta.
  rewrite lf_find0. apply wp_bind. eapply wp_result; [by apply run_run_km; eapply kalloc_cons|]. cbv beta.
  destruct (fresh_page _ _ _ lf_km0) as (Hq & Hql & Hl).
  rewrite (proj2 (Z.eqb_neq q 0)) by (by apply page_ok_nz). apply wp_bind.
  eapply wp_result; [by apply run_run_km|]. cbv beta. ksimp.
  apply wp_bind. unfold run_km. apply wp_zoom. ksimp. eapply wp_mono.
  { apply (wp_map_fresh (km s) q l (pgdir p) va (Z.lor PTE_W PTE_U)); try done. }
  cbv beta. intros r0 k1 (-> & l' & Hfm). change (0 <? 0) with false. cbv iota.
  set (s1 := set_km k1 _). assert (Hp1 : procs s1 !! i = Some p) by done.
  assert (Hreg : get_region i k s1 = Ret r s1).
  { unfold get_region. krun_with run_get_proc; [|done]. by rewrite lf_region0. }
  apply wp_bind. eapply wp_result; [exact Hreg|]. cbv beta. rewrite lf_anon0. cbn [negb].
  apply wp_bind, wp_ret. cbv beta iota. apply wp_bind. unfold upd_region. apply wp_bind.
  eapply wp_result; [exact Hreg|]. cbv beta. eapply wp_result; [by apply (run_upd_proc _ _ _ p)|].
  apply wp_ret. split; [done|]. split; [|by exists l']. by destruct s.
Qed.

(** A fault outside the mappings. *)
Lemma run_pgflt_segv s i p va :
  cur s = Some i -> procs s !! i = Some p -> mem_ok (mem (km s)) -> find_region (mmap p) va = None ->
  flag (pte_of (mem (km s)) (pgdir p) va) PTE_P && flag (pte_of (mem (km s)) (pgdir p) va) PTE_COW = false ->
  pgflt va s = Ret Break (set_procs (<[i := set_p_killed 1 p]> (procs s)) s).
Proof.
  intros Hc Hp Hm Hr Hcow. assert (Hd : pagefault_default i va s =
    Ret Break (set_procs (<[i := set_p_killed 1 p]> (procs s)) s)).
  { unfold pagefault_default. krun_with run_get_proc; [|done]. rewrite Hr.
    krun_with run_upd_proc; [|done]. done. }
  unfold pgflt, myproc. mrun. rewrite Hc. krun_with run_get_proc; [|done].
  destruct (run_pte s (pgdir p) va Hm) as (a & Ha1 & Ha2 & _).
  krun_with run_run_km; [|exact Ha1]. rewrite set_km_self. erewrite bind_ret_run; [|exact Ha2]. cbv beta.
  destruct (a =? 0); [exact Hd|]. cbn [orb]. revert Hcow.
  destruct (flag _ PTE_P); cbn [negb andb]; intros Hcow; [rewrite Hcow|]; exact Hd.
Qed.

Lemma run_trap_tail_kernel s i p :
  cur s = Some i -> procs s !! i = Some p -> trap_tail KCS T_PGFLT s = Ret tt s.
Proof.
  intros Hc Hp. assert (He : exit_if_killed KCS s = Ret tt s).
  { unfold exit_if_killed, myproc. mrun. rewrite Hc. krun_with run_get_proc; [|done]. by rewrite andb_false_r. }
  unfold trap_tail. rewrite (bind_ret_run _ _ _ _ _ He).
  assert (trap_timer T_PGFLT s = Ret tt s) as Ht.
  { unfold trap_timer, myproc. mrun. rewrite Hc. krun_with run_get_proc; [|done]. by rewrite andb_false_r. }
  by rewrite (bind_ret_run _ _ _ _ _ Ht).
Qed.

(** A user access to the page: the fault maps it, the retried access goes to it. *)
Lemma wp_access_lazy {A} s i k p r va q l (write : bool) (act : Z -> MK A) (Q : A -> kst F -> Prop) :
  lazy_fault s i k p r va q l -> cr3 (km s) = V2P (pgdir p) -> (2 <= fuel)%nat ->
  (forall s1, lazy_mapped s i k p r va q l s1 -> wp (act (q + va mod PGSIZE)) Q s1) ->
  wp (access UCS va write act) Q s.
Proof.
  intros Hlf Hcr Hfuel HQ. pose proof Hlf as [].
  pose proof (pt_dir _ _ _ lf_pt0) as [Hpd _]. destruct (fresh_page _ _ _ lf_km0) as (Hq & _).
  destruct (lazy_pte_ok q Hq) as (Ea & Ep & Eu & Ew).
  unfold access. destruct fuel as [|[|fuel']]; [lia..|]. cbn [iterate].
  apply wp_bind, wp_bind, wp_get. cbv beta. unfold hw_translate at 1.
  rewrite Hcr, page_ok_P2V, lf_absent0 by done. cbn [andb]. apply wp_bind. unfold page_fault at 1.
  apply wp_bind. eapply wp_mono; [by apply (wp_lazy_fault s i k p r va q l)|]. cbv beta. intros w s1 [-> Hlm].
  cbv iota. apply wp_ret, wp_ret. cbv iota. apply wp_bind, wp_bind, wp_get. cbv beta.
  pose proof Hlm as [_ (l' & Hfm)]. unfold hw_translate.
  rewrite (fm_cr3 _ _ _ _ _ _ _ _ Hfm), Hcr, page_ok_P2V, (fm_pte _ _ _ _ _ _ _ _ Hfm), decide_True by done.
  fold (lazy_pte q). rewrite Ep, Eu, Ew, Ea, page_ok_P2V by done. rewrite !orb_true_r. cbn [andb].
  apply wp_bind. eapply wp_mono; [by apply HQ|]. cbv beta. intros x s2 Hx. by apply wp_ret, wp_ret.
Qed.

(** What the process sees after the fault. *)
Lemma lazy_view s i k p r va q l s' va' :
  lazy_fault s i k p r va q l -> lazy_mapped s i k p r va q l s' ->
  user_frames (mem (km s)) (q :: l) [pgdir p] (pgdir p) -> 0 <= va' < 4294967296 ->
  user_byte (mem (km s')) (pgdir p) va' =
    if decide (va' / 4096 = va / 4096) then Some 0 else user_byte (mem (km s)) (pgdir p) va'.
Proof.
  intros Hlf [_ (l' & Hfm)] Huf Hva. destruct Hlf, Hfm. destruct (fresh_page _ _ _ lf_km0) as (Hq & _).
  destruct (lazy_pte_ok q Hq) as (Ea & Ep & Eu & Ew).
  unfold user_byte, user_page, frame. rewrite fm_pte by done. destruct (decide _) as [E|E].
  - fold (lazy_pte q). rewrite Ep, Eu, Ea, page_ok_P2V by done. cbn [andb]. rewrite fm_zero; [done|].
    unfold in_page. divlia.
  - fold (user_page (mem (km s)) (pgdir p) va') (frame (mem (km s)) (pgdir p) va').
    destruct (user_page _ _ va') eqn:Hu; [|done]. f_equal.
    destruct (Huf va' Hva Hu) as (Hf & Hfl & Hfp). apply fm_mem.
    assert (Hin : in_page (frame (mem (km s)) (pgdir p) va') (frame (mem (km s)) (pgdir p) va' + va' mod 4096)).
    { unfold in_page. divlia. }
    intros [Hx|(y & Hy & Hx)].
    + eapply Hfp; [by left|exact Hin|exact Hx].
    + eapply in_page_disjoint; [| | |exact Hin|exact Hx].
      * apply Hf.
      * eapply Forall_forall in Hy; [|apply lf_km0]. apply Hy.
      * congruence.
Qed.

Lemma wp_lazy_store s i k p r va q l b :
  lazy_fault s i k p r va q l -> cr3 (km s) = V2P (pgdir p) -> (2 <= fuel)%nat ->
  user_frames (mem (km s)) (q :: l) [pgdir p] (pgdir p) -> 0 <= b < 256 ->
  wp (access UCS va true (fun a => kst8 a b)) (fun _ s' =>
    procs s' = <[i := loaded k r p]> (procs s) /\
    forall va', 0 <= va' < 4294967296 -> user_byte (mem (km s')) (pgdir p) va' =
      if decide (va' = va) then Some b
      else if decide (va' / 4096 = va / 4096) then Some 0 else user_byte (mem (km s)) (pgdir p) va') s.
Proof.
  intros Hlf Hcr Hfuel Huf Hb. eapply wp_access_lazy; [done..|]. intros s1 Hlm.
  pose proof Hlm as [Hs1 (l' & Hfm)].
  unfold kst8. apply wp_modify. split; [rewrite Hs1; by ksimp|]. intros va' Hva'. cbn [km set_km mem set_mem].
  assert (Hq : page_ok q) by (by eapply fresh_page, lf_km).
  pose proof (lf_va _ _ _ _ _ _ _ _ Hlf) as Hva. destruct (lazy_pte_ok q Hq) as (Ea & Ep & Eu & Ew).
  rewrite (user_byte_st8 _ l'); [|apply Hfm|].
  2:{ intros Hpa. destruct (fm_own _ _ _ _ _ _ _ _ Hfm _ Hpa) as [Hx|(y & Hy & Hx)].
      - eapply pt_addr_not_free; [apply (lf_pt _ _ _ _ _ _ _ _ Hlf)|apply (lf_km _ _ _ _ _ _ _ _ Hlf)|exact Hx|].
        exists q. split; [by left|]. unfold in_page, PGSIZE. divlia.
      - destruct (fresh_page _ _ _ (lf_km _ _ _ _ _ _ _ _ Hlf)) as (_ & Hql & Hl).
        eapply (in_page_disjoint q y); [apply Hq| | | |exact Hx].
        + eapply Forall_forall in Hy; [|exact Hl]. apply Hy.
        + congruence.
        + unfold in_page, PGSIZE. divlia. }
  pose proof (lazy_view _ _ _ _ _ _ _ _ _ va' Hlf Hlm Huf Hva') as Hv. unfold user_byte at 1 in Hv.
  destruct (decide (va' / 4096 = va / 4096)) as [E|E].
  - assert (pte_of (mem (km s1)) (pgdir p) va' = lazy_pte q) as He.
    { rewrite (fm_pte _ _ _ _ _ _ _ _ Hfm), decide_True by done. done. }
    unfold user_page, frame in *. rewrite He, Ep, Eu, Ea, page_ok_P2V in * by done. cbn [andb] in *.
    change PGSIZE with 4096. destruct (decide (va' = va)) as [->|Hne].
    + rewrite decide_True by done. by rewrite u8_id.
    + rewrite decide_False by divlia. done.
  - rewrite (decide_False (P := va' = va)) by congruence. rewrite <- Hv.
    destruct (user_page (mem (km s1)) (pgdir p) va') eqn:Hu; [|done]. rewrite decide_False; [done|]. intros Heq.
    assert (He : pte_of (mem (km s1)) (pgdir p) va' = pte_of (mem (km s)) (pgdir p) va').
    { rewrite (fm_pte _ _ _ _ _ _ _ _ Hfm), decide_False by done. done. }
    unfold user_page, frame in Hu, Heq. rewrite He in Hu, Heq. destruct (Huf va' Hva' Hu) as (Hf & Hfl & _).
    eapply (in_page_disjoint (frame (mem (km s)) (pgdir p) va') q); [apply Hf|apply Hq|set_solver| |].
    + unfold in_page. instantiate (1 := frame (mem (km s)) (pgdir p) va' + va' mod 4096). divlia.
    + unfold frame, in_page. rewrite Heq. change PGSIZE with 4096. divlia.
Qed.

End page_fault.

(** ** An instance: one process with a mapped page 0 and a two-page anonymous
    region at 0x60000000. *)

Definition mapped_proc : proc :=
  set_p_mmap ex_table (set_p_total_mmaps 1 (set_p_sz 4096 (set_p_pgdir ex_A running_proc))).
Definition ex_mapped : kst unit :=
  set_procs (mapped_proc :: replicate 63 proc0) (ex_machine (set_cr3 (V2P ex_A) ex_one) []).

Lemma ex_lazy : lazy_fault ex_mapped 0 0 mapped_proc (Region 0x60000000 8192 0xE 1 (-1) 0)
  0x60000007 0x80445000 (pages_desc 0x80400000 69).
Proof.
  destruct ex_one_space as (H1 & H2 & H3 & H4 & _). split.
  - reflexivity.
  - reflexivity.
  - reflexivity.
  - reflexivity.
  - reflexivity.
  - lia.
  - exact (km_ok_set_cr3 _ _ _ H1).
  - discriminate.
  - exact H2.
  - change (flag (pte_of (mem ex_one) ex_A 0x60000007) PTE_P = false). rewrite H3 by lia. reflexivity.
Qed.

(** ** Properties *)

(** C37: lazy allocation.  A user store of byte [b] at an address of an anonymous
    mapping whose page has not been touched: the store faults, the handler maps a
    fresh zeroed page and the store is restarted.  Afterwards the process sees
    [b] there, zeros in the rest of that page and its old memory everywhere else,
    and the region counts one more loaded page. *)
Theorem lazy_store {KI : KernelImage} {KS0 : KernelSymbols} {F} {FS : FileSys F} (fuel : nat)
    (s : kst F) (i k : nat) (p : proc) (r : mmap_region) (va q : Z) (l : list Z) (b : Z) :
  lazy_fault s i k p r va q l -> cr3 (km s) = V2P (pgdir p) -> (2 <= fuel)%nat ->
  user_frames (mem (km s)) (q :: l) [pgdir p] (pgdir p) -> 0 <= b < 256 ->
  wp (access fuel UCS va true (fun a => kst8 a b)) (fun _ s' =>
    procs s' = <[i := loaded k r p]> (procs s) /\
    forall va', 0 <= va' < 4294967296 -> user_byte (mem (km s')) (pgdir p) va' =
      if decide (va' = va) then Some b
      else if decide (va' / 4096 = va / 4096) then Some 0 else user_byte (mem (km s)) (pgdir p) va') s.
Proof. apply wp_lazy_store. Qed.

Lemma lazy_store_witness :
  wp (access (FS := no_fs) 2 UCS 0x60000007 true (fun a => kst8 a 65)) (fun _ s' =>
    user_byte (mem (km s')) ex_A 0x60000007 = Some 65 /\
    user_byte (mem (km s')) ex_A 0x60000008 = Some 0 /\
    user_byte (mem (km s')) ex_A 7 = user_byte (mem ex_one) ex_A 7) ex_mapped.
Proof.
  destruct ex_one_space as (H1 & H2 & H3 & H4 & _). eapply wp_mono.
  - apply (lazy_store (FS := no_fs) 2 ex_mapped 0 0 mapped_proc (Region 0x60000000 8192 0xE 1 (-1) 0)
      0x60000007 0x80445000 (pages_desc 0x80400000 69) 65).
    + exact ex_lazy.
    + reflexivity.
    + lia.
    + exact H4.
    + lia.
  - cbv beta. intros _ s' [_ H]. change (pgdir mapped_proc) with ex_A in H.
    split; [rewrite (H 0x60000007) by lia; reflexivity|]. split; [rewrite (H 0x60000008) by lia; reflexivity|].
    rewrite (H 7) by lia. reflexivity.
Defined.

(** C38: a fault at an address that is neither mapped copy-on-write nor in any
    mapping of the process: the handler marks the process killed and changes
    nothing else.  If the access came from user code the process then exits; if
    it came from the kernel, the handler returns to the faulting instruction. *)
Theorem segfault_kills {KI : KernelImage} {KS0 : KernelSymbols} {F} {FS : FileSys F} (fuel : nat)
    (s : kst F) (i : nat) (p : proc) (va : Z) :
  cur s = Some i -> procs s !! i = Some p -> mem_ok (mem (km s)) ->
  find_region (mmap p) va = None ->
  flag (pte_of (mem (km s)) (pgdir p) va) PTE_P && flag (pte_of (mem (km s)) (pgdir p) va) PTE_COW = false ->
  let s1 := set_procs (<[i := set_p_killed 1 p]> (procs s)) s in
  page_fault fuel KCS va s = Ret tt s1 /\
  page_fault fuel UCS va s =
    (exit fuel;; trap_timer T_PGFLT;; exit_if_killed fuel UCS) s1.
Proof.
  intros Hc Hp Hm Hr Hcow s1. split.
  - unfold page_fault. erewrite bind_ret_run; [|by apply run_pgflt_segv]. apply (run_trap_tail_kernel _ _ i (set_p_killed 1 p)); [done|].
    apply list_lookup_insert_eq. by eapply lookup_lt_Some.
  - unfold page_fault. erewrite bind_ret_run; [|by apply run_pgflt_segv]. cbv iota.
    assert (exit_if_killed fuel UCS s1 = exit fuel s1) as He.
    { unfold exit_if_killed, myproc. mrun. change (cur s1) with (cur s). rewrite Hc.
      krun_with run_get_proc; [|apply list_lookup_insert_eq; by eapply lookup_lt_Some]. done. }
    unfold trap_tail, mbind, M_bind. by rewrite <- He.
Qed.

Lemma segfault_kills_witness :
  page_fault (FS := no_fs) 1 KCS 0x10000 ex_mapped =
    Ret tt (set_procs (set_p_killed 1 mapped_proc :: replicate 63 proc0) ex_mapped).
Proof.
  destruct ex_one_space as (H1 & H2 & H3 & H4 & _).
  refine (proj1 (segfault_kills (FS := no_fs) 1 ex_mapped 0 mapped_proc 0x10000 eq_refl eq_refl _ eq_refl _)).
  - apply H1.
  - change (mem (km ex_mapped)) with (mem ex_one). change (pgdir mapped_proc) with ex_A. rewrite H3 by lia. reflexivity.
Defined.
