(* ===== verification/Syscall.v ===== *)
(** * System call arguments and dispatch (syscall.c)

    Arguments are fetched from the user stack through the page table ([uld8] of
    [PageFault]), after the checks against the size of the process.  A routine
    that stores through a pointer and returns -1 on failure answers an option
    here. *)

From Stdlib Require Import ZArith Lia.
From stdpp Require Import base tactics numbers option list strings zmap.
From S2P Require Import Prelude Memory Mmu StringOps Kalloc Vm Cow Wmap Kernel Proc Pipe File Fork PageFault.

Section syscall.
Context {KI : KernelImage} {KS0 : KernelSymbols} {F : Type} {FS : FileSys F}.
#[local] Abbreviation MK := (M (kst F)).
Context (fuel : nat).

Definition fetchint (a : Z) : MK (option Z) :=
  i ← curproc;
  p ← get_proc i;
  if (sz p <=? a) || (sz p <? u32 (a + 4)) then mret None
  else v ← uld32 fuel a; mret (Some (s32 v)).

(** The loop of fetchstr: the length of the string at [a], looking at [n] bytes. *)
Fixpoint fetchstr_loop (a : Z) (len : Z) (n : nat) : MK (option Z) :=
  match n with
  | O => mret None
  | S n' => c ← uld8 fuel (a + len); if c =? 0 then mret (Some len) else fetchstr_loop a (len + 1) n'
  end.

(** fetchstr: the address and the length. *)
Definition fetchstr (a : Z) : MK (option (Z * Z)) :=
  i ← curproc;
  p ← get_proc i;
  if sz p <=? a then mret None
  else
    n ← fetchstr_loop a 0 (Z.to_nat (sz p - a));
    mret ((fun n => (a, n)) <$> n).

Definition argint (n : Z) : MK (option Z) :=
  i ← curproc;
  p ← get_proc i;
  esp ← kld32 (tf p + tf_esp);
  fetchint (u32 (esp + 4 + 4 * n)).

Definition argptr (n size : Z) : MK (option Z) :=
  i ← curproc;
  p ← get_proc i;
  v ← argint n;
  match v with
  | None => mret None
  | Some v =>
      p ← get_proc i;
      if (size <? 0) || (sz p <=? u32 v) || (sz p <? u32 (u32 v + size)) then mret None
      else mret (Some (u32 v))
  end.

Definition argstr (n : Z) : MK (option (Z * Z)) :=
  v ← argint n;
  match v with
  | None => mret None
  | Some v => fetchstr (u32 v)
  end.

(** Dispatch on the number in eax; [table] is the array syscalls, [unknown] prints the message for
    a number that is not in it. *)
Definition syscall (table : Z -> option (MK Z)) (unknown : proc -> Z -> MK unit) : MK unit :=
  i ← curproc;
  p ← get_proc i;
  eax ← kld32 (tf p + tf_eax);
  match (if 0 <? s32 eax then table (s32 eax) else None) with
  | Some call =>
      r ← call;
      p ← get_proc i;
      kst32 (tf p + tf_eax) r
  | None =>
      unknown p (s32 eax);;
      p ← get_proc i;
      kst32 (tf p + tf_eax) (-1)
  end.

(** ** Arguments that are in mapped memory *)

(** The byte and the word the kernel reads at a user address without a fault. *)
Definition ubyte (s : kst F) (va : Z) : option Z :=
  ld8 (mem (km s)) <$> hw_translate (mem (km s)) (cr3 (km s)) va false false.
Definition uword (s : kst F) (va : Z) : option Z :=
  b0 ← ubyte s va; b1 ← ubyte s (u32 (va + 1)); b2 ← ubyte s (u32 (va + 2)); b3 ← ubyte s (u32 (va + 3));
  Some (b0 + 256 * b1 + 65536 * b2 + 16777216 * b3).

(** Argument [n] of the system call process [p] is making is [v]. *)
Definition sysarg (s : kst F) (p : proc) (n v : Z) : Prop :=
  let a := u32 (ld32 (mem (km s)) (tf p + tf_esp) + 4 + 4 * n) in
  a + 4 <= sz p /\ sz p <= KERNBASE /\ exists w, uword s a = Some w /\ v = s32 w.

Definition sysarg_eval (s : kst F) (p : proc) (n v : Z) : bool :=
  let a := u32 (ld32 (mem (km s)) (tf p + tf_esp) + 4 + 4 * n) in
  (a + 4 <=? sz p) && (sz p <=? KERNBASE) && match uword s a with Some w => v =? s32 w | None => false end.

Lemma sysarg_by_eval s p n v : sysarg_eval s p n v = true -> sysarg s p n v.
Proof.
  unfold sysarg_eval, sysarg. intros [[H1 H2]%andb_prop H3]%andb_prop.
  split; [by apply Z.leb_le|]. split; [by apply Z.leb_le|].
  destruct (uword _ _) as [w|]; [|done]. exists w. split; [done|]. by apply Z.eqb_eq.
Qed.

Lemma run_uld8 s va b : (1 <= fuel)%nat -> ubyte s va = Some b -> uld8 fuel va s = Ret b s.
Proof.
  intros Hf Hb. unfold ubyte in Hb. apply fmap_Some in Hb as (a & Ha & ->).
  unfold uld8, access. destruct fuel as [|f]; [lia|]. cbn [iterate]. mrun.
  change (Z.land KCS 3 =? DPL_USER) with false. rewrite Ha. reflexivity.
Qed.

Lemma run_uld32 s va w : (1 <= fuel)%nat -> uword s va = Some w -> uld32 fuel va s = Ret w s.
Proof.
  intros Hf Hw. unfold uword in Hw. unfold uld32.
  apply bind_Some in Hw as (b0 & H0 & Hw). apply bind_Some in Hw as (b1 & H1 & Hw).
  apply bind_Some in Hw as (b2 & H2 & Hw). apply bind_Some in Hw as (b3 & H3 & [= <-]).
  do 4 (erewrite bind_ret_run by (by apply run_uld8); cbv beta). done.
Qed.

Lemma run_argint s i p n v : (1 <= fuel)%nat -> cur s = Some i -> procs s !! i = Some p -> sysarg s p n v ->
  argint n s = Ret (Some v) s.
Proof.
  intros Hf Hc Hp (Hb & Hsz & w & Hw & ->). unfold KERNBASE in Hsz. unfold argint.
  rewrite (bind_ret_run _ _ _ _ _ (run_curproc s i Hc)). krun_with run_get_proc; [|done].
  unfold kld32. mrun. set (a := u32 _) in *. pose proof (u32_range (ld32 (mem (km s)) (tf p + tf_esp) + 4 + 4 * n)).
  fold a in H. unfold fetchint. rewrite (bind_ret_run _ _ _ _ _ (run_curproc s i Hc)).
  krun_with run_get_proc; [|done]. rewrite (u32_id (a + 4)) by lia.
  rewrite (proj2 (Z.leb_gt (sz p) a)), (proj2 (Z.ltb_ge (sz p) (a + 4))) by lia. cbn [orb].
  erewrite bind_ret_run; [|by apply run_uld32]. done.
Qed.

(** The address of argument word [n]. *)
Definition arg_addr (s : kst F) (p : proc) (n : Z) : Z := u32 (ld32 (mem (km s)) (tf p + tf_esp) + 4 + 4 * n).

(** argint accepts exactly the words inside the process. *)
Lemma run_argint_exact s i p n w : (1 <= fuel)%nat -> cur s = Some i -> procs s !! i = Some p -> 0 <= sz p <= KERNBASE ->
  (arg_addr s p n + 4 <= sz p -> uword s (arg_addr s p n) = Some w) ->
  argint n s = Ret (if decide (arg_addr s p n + 4 <= sz p) then Some (s32 w) else None) s.
Proof.
  intros Hf Hc Hp Hsz Hw. case_decide as Hb.
  - apply (run_argint s i p n (s32 w)); try done. split; [done|]. split; [lia|]. exists w. auto.
  - unfold KERNBASE in Hsz. unfold argint. rewrite (bind_ret_run _ _ _ _ _ (run_curproc s i Hc)). krun_with run_get_proc; [|done].
    unfold kld32. mrun. fold (arg_addr s p n). assert (Ha : 0 <= arg_addr s p n < 4294967296) by apply u32_range. set (a := arg_addr s p n) in *.
    unfold fetchint. rewrite (bind_ret_run _ _ _ _ _ (run_curproc s i Hc)). krun_with run_get_proc; [|done].
    destruct (sz p <=? a) eqn:E1; [done|]. apply Z.leb_gt in E1. rewrite u32_id by lia. by rewrite (proj2 (Z.ltb_lt _ _)) by lia.
Qed.

(** The loop of fetchstr looks at the bytes up to the first 0. *)
Lemma run_fetchstr_loop s b n a len : (1 <= fuel)%nat ->
  (forall k, a + len <= k < a + len + Z.of_nat n -> ubyte s k = Some (b k)) ->
  (exists m, len <= m < len + Z.of_nat n /\ b (a + m) = 0 /\ (forall j, len <= j < m -> b (a + j) <> 0) /\
     fetchstr_loop a len n s = Ret (Some m) s) \/
  ((forall j, len <= j < len + Z.of_nat n -> b (a + j) <> 0) /\ fetchstr_loop a len n s = Ret None s).
Proof.
  intros Hf. revert len. induction n as [|n IH]; intros len Hb; cbn [fetchstr_loop]; [right; split; [lia|done]|].
  erewrite bind_ret_run; [|apply run_uld8, Hb; [done|lia]]. cbv beta. destruct (b (a + len) =? 0) eqn:E.
  - apply Z.eqb_eq in E. left. exists len. split_and!; [lia|lia|done|lia|done].
  - apply Z.eqb_neq in E. destruct (IH (len + 1)) as [(m & H1 & H2 & H3 & H4)|[H1 H2]]; [intros k Hk; apply Hb; lia|left|right].
    + exists m. split_and!; [lia|lia|done| |done]. intros j Hj. destruct (decide (j = len)) as [->|]; [done|]. apply H3. lia.
    + split; [|done]. intros j Hj. destruct (decide (j = len)) as [->|]; [done|]. apply H1. lia.
Qed.

End syscall.

(** ** Properties *)

(** C35: argptr never hands a system call a buffer outside the process.  Whatever the
    stack pointer, the argument and the size are, it accepts exactly when the word of
    the argument and the whole buffer lie inside the process, without wrapping around;
    then the answer is the argument, and otherwise none. *)
Theorem argptr_exact {KI : KernelImage} {KS0 : KernelSymbols} {F} {FS : FileSys F} (fuel : nat) (s : kst F) (i : nat) (p : proc)
    (n size w : Z) :
  (1 <= fuel)%nat -> cur s = Some i -> procs s !! i = Some p -> 0 <= sz p <= KERNBASE ->
  (arg_addr s p n + 4 <= sz p -> uword s (arg_addr s p n) = Some w) -> 0 <= w < 4294967296 -> size < 2147483648 ->
  argptr fuel n size s =
    Ret (if decide (arg_addr s p n + 4 <= sz p /\ 0 <= size /\ w < sz p /\ w + size <= sz p) then Some w else None) s.
Proof.
  intros Hf Hc Hp Hsz Hw Hwr Hsize. unfold argptr. rewrite (bind_ret_run _ _ _ _ _ (run_curproc s i Hc)). krun_with run_get_proc; [|done].
  erewrite bind_ret_run; [|by apply (run_argint_exact fuel s i p n w)]. cbv beta.
  destruct (decide (arg_addr s p n + 4 <= sz p)) as [Hb|Hb]; [|rewrite decide_False by tauto; done].
  krun_with run_get_proc; [|done]. rewrite u32_s32, (u32_id w) by done. unfold KERNBASE in Hsz.
  destruct (size <? 0) eqn:E1; [apply Z.ltb_lt in E1; rewrite decide_False by lia; done|]. apply Z.ltb_ge in E1.
  destruct (sz p <=? w) eqn:E2; [apply Z.leb_le in E2; rewrite decide_False by lia; done|]. apply Z.leb_gt in E2.
  rewrite u32_id by lia. cbn [orb]. destruct (sz p <? w + size) eqn:E3.
  - apply Z.ltb_lt in E3. rewrite decide_False by lia. done.
  - apply Z.ltb_ge in E3. rewrite decide_True by lia. done.
Qed.

(** fetchstr always ends.  For a process whose bytes from [a] on are mapped it
    answers the distance to the first 0 byte if there is one below the size of the
    process, and none otherwise; it never looks beyond the process. *)
Theorem fetchstr_exact {KI : KernelImage} {KS0 : KernelSymbols} {F} {FS : FileSys F} (fuel : nat) (s : kst F) (i : nat) (p : proc)
    (a : Z) (b : Z -> Z) :
  (1 <= fuel)%nat -> cur s = Some i -> procs s !! i = Some p -> 0 <= a ->
  (forall k, a <= k < sz p -> ubyte s k = Some (b k)) ->
  (exists len, 0 <= len /\ a + len < sz p /\ b (a + len) = 0 /\ (forall j, 0 <= j < len -> b (a + j) <> 0) /\
     fetchstr fuel a s = Ret (Some (a, len)) s) \/
  ((forall k, a <= k < sz p -> b k <> 0) /\ fetchstr fuel a s = Ret None s).
Proof.
  intros Hf Hc Hp Ha Hb. unfold fetchstr. rewrite (bind_ret_run _ _ _ _ _ (run_curproc s i Hc)). krun_with run_get_proc; [|done].
  destruct (sz p <=? a) eqn:E; [apply Z.leb_le in E; right; split; [lia|done]|]. apply Z.leb_gt in E.
  destruct (run_fetchstr_loop fuel s b (Z.to_nat (sz p - a)) a 0 Hf) as [(m & H1 & H2 & H3 & H4)|[H1 H2]].
  - intros k Hk. apply Hb. lia.
  - left. exists m. split_and!; [lia|lia|done|done|]. by rewrite (bind_ret_run _ _ _ _ _ H4).
  - right. rewrite (bind_ret_run _ _ _ _ _ H2). split; [|done]. intros k Hk. replace k with (a + (k - a)) by lia. apply H1. lia.
Qed.

(** ** An instance: a process with its stack in page 0 (frame [ex_F]) and an
    anonymous region at 0x60000000 with one loaded page (frame [ex_R]), making a
    system call with the arguments [args]. *)
Definition ex_TR : Z := 0x80605000.
Definition ex_R : Z := 0x80606000.
Definition ex_tf : Z := 0x80607000.
Definition ex_pt : Zmap Z :=
  st32 (add_table (one_page ∅ ex_A ex_TA (entry_of ex_F (Z.lor PTE_W PTE_U))) ex_A 0x60000000 ex_TR)
    ex_TR (entry_of ex_R (Z.lor PTE_W PTE_U)).
Fixpoint put_args (m : Zmap Z) (a : Z) (args : list Z) : Zmap Z :=
  match args with [] => m | v :: args' => put_args (st32 m a v) (a + 4) args' end.
Definition ex_km (args : list Z) : kmst :=
  KM (put_args (st32 ex_pt (ex_tf + tf_esp) 0xF00) (ex_F + 0xF04) args) 0 true false
    (<[V2P ex_R / PGSIZE := 1]> ∅) (V2P ex_A).
Definition calling_proc : proc := set_p_tf ex_tf mapped_proc.
Definition ex_call (args : list Z) : kst unit :=
  set_procs (calling_proc :: replicate 63 proc0) (ex_machine (ex_km args) []).

Lemma argptr_exact_witness :
  argptr (FS := no_fs) 1 0 16 (ex_call [0x100]) = Ret (Some 0x100) (ex_call [0x100]).
Proof.
  rewrite (argptr_exact (FS := no_fs) 1 (ex_call [0x100]) 0 calling_proc 0 16 0x100);
    [vm_compute; reflexivity|lia|reflexivity|reflexivity|split; discriminate|intros _; vm_compute; reflexivity|lia|lia].
Defined.

Lemma fetchstr_exact_witness :
  fetchstr (FS := no_fs) 1 0xFF0 (ex_call [7]) = Ret (Some (0xFF0, 0)) (ex_call [7]).
Proof.
  assert (Hb : forall k, 0xFF0 <= k < sz calling_proc -> ubyte (ex_call [7]) k = Some 0).
  { intros k Hk. assert (H : forallb (fun j => bool_decide (ubyte (ex_call [7]) (0xFF0 + Z.of_nat j) = Some 0)) (seq 0 16) = true)
      by (vm_compute; reflexivity).
    rewrite forallb_forall in H. specialize (H (Z.to_nat (k - 0xFF0))). rewrite bool_decide_eq_true in H.
    change (sz calling_proc) with 4096 in Hk. replace (0xFF0 + Z.of_nat (Z.to_nat (k - 0xFF0))) with k in H by lia. apply H, in_seq. lia. }
  destruct (fetchstr_exact (FS := no_fs) 1 (ex_call [7]) 0 calling_proc 0xFF0 (fun _ => 0) ltac:(lia) eq_refl eq_refl ltac:(lia) Hb)
    as [(len & H1 & H2 & H3 & H4 & H5)|[H1 _]].
  - destruct (decide (len = 0)) as [->|Hne]; [exact H5|]. exfalso. apply (H4 0); [lia|reflexivity].
  - exfalso. apply (H1 0xFF0); [|reflexivity]. change (sz calling_proc) with 4096. lia.
Defined.
