(* ===== verification/Sysproc.v ===== *)
(** * System calls on processes and mappings (sysproc.c)

    The handlers of sysproc.c.  The searches for a free range that wmap uses are
    in [Wmap]. *)

From Stdlib Require Import ZArith Lia.
From stdpp Require Import base tactics numbers option list strings zmap.
From S2P Require Import Prelude Memory Mmu StringOps Kalloc Vm Cow Wmap Kernel Proc Pipe File Fork PageFault Syscall.

Section sysproc.
Context {KI : KernelImage} {KS0 : KernelSymbols} {F : Type} {FS : FileSys F}.
#[local] Abbreviation MK := (M (kst F)).
Context (fuel : nat).

Definition sys_fork : MK Z := fork.
Definition sys_exit : MK Z := exit fuel;; mret 0.
Definition sys_wait : MK Z := wait fuel.

(** Fetch argument [n] or answer [err]. *)
Definition with_int (n err : Z) (k : Z -> MK Z) : MK Z :=
  v ← argint fuel n; match v with None => mret err | Some v => k v end.

Definition sys_kill : MK Z := with_int 0 (-1) kill.

Definition sys_getpid : MK Z := i ← curproc; p ← get_proc i; mret (pid p).

Definition sys_sbrk : MK Z :=
  with_int 0 (-1) (fun n =>
    i ← curproc;
    p ← get_proc i;
    let a := s32 (sz p) in
    r ← growproc n;
    mret (if r <? 0 then -1 else a)).

(** The loop of sys_sleep. *)
Definition sleep_body (ticks0 n : Z) (_ : unit) : MK (unit + Z) :=
  t ← gets ticks;
  if u32 (t - ticks0) <? u32 n then
    i ← curproc;
    p ← get_proc i;
    if negb (killed p =? 0) then release L_tickslock;; mret (inr (-1))
    else sleep Chan_ticks L_tickslock;; mret (inl tt)
  else release L_tickslock;; mret (inr 0).

Definition sys_sleep : MK Z :=
  with_int 0 (-1) (fun n =>
    acquire L_tickslock;;
    ticks0 ← gets ticks;
    iterate fuel (sleep_body ticks0 n) tt).

Definition sys_uptime : MK Z :=
  acquire L_tickslock;;
  xticks ← gets ticks;
  release L_tickslock;;
  mret (s32 xticks).

(** ** wmap *)

(** The address a request gets: [Some FAILED] when it is refused.  With the
    check that MAP_FIXED is mandatory before it, only the first branch runs. *)
Definition wmap_addr (mm : list mmap_region) (a len flags : Z) : option Z :=
  if flag flags MAP_FIXED then
    Some (if check_fixed mm a len =? FAILED then FAILED else a)
  else if a =? 0 then
    x ← find_free_mmap_space mm len; Some (if x =? 0 then FAILED else x)
  else
    x ← suggestive_address mm a len; Some (if x =? 0 then FAILED else x).

(** Duplicate the file [f] at descriptor [fd] for the mapping in slot [k]: the
    count of [f] goes up for the slot [fd] itself and for the first free
    descriptor, which the region records. *)
Definition wmap_file (i k : nat) (fd : Z) : MK (option unit) :=
  f ← get_ofile i fd;
  match f with
  | None => mret None
  | Some f =>
      g ← filedup f;
      upd_proc i (fun p => set_p_ofile (<[Z.to_nat fd := Some g]> (ofile p)) p);;
      p ← get_proc i;
      match find_index (fun o => bool_decide (o = None)) (ofile p) with
      | None => mret None
      | Some d =>
          g ← filedup f;
          upd_proc i (fun p => set_p_ofile (<[d := Some g]> (ofile p)) p);;
          upd_region i k (set_fd (Z.of_nat d));;
          mret (Some tt)
      end
  end.

Definition wmap_at (a len flags fd : Z) : MK Z :=
  i ← curproc;
  p ← get_proc i;
  match wmap_addr (mmap p) a len flags with
  | None => out_of_fuel
  | Some a =>
      if a =? FAILED then mret FAILED
      else
        match find_unused (mmap p) with
        | None => mret FAILED
        | Some k =>
            upd_region i k (fun m => Region a len flags 1 fd (n_loaded_pages m));;
            upd_proc i (fun p => set_p_total_mmaps (s32 (total_mmaps p + 1)) p);;
            if negb (flag flags MAP_ANONYMOUS) then
              ok ← wmap_file i k fd;
              mret (match ok with Some _ => s32 a | None => FAILED end)
            else mret (s32 a)
        end
  end.

Definition wmap : MK Z :=
  with_int 0 FAILED (fun int_addr =>
  with_int 1 FAILED (fun len =>
  with_int 2 FAILED (fun flags =>
  with_int 3 FAILED (fun fd =>
    let a := u32 int_addr in
    if (len <=? 0) || negb (a mod PGSIZE =? 0) then mret FAILED
    else if negb (flag flags MAP_SHARED) then mret FAILED
    else if negb (flag flags MAP_FIXED) then mret FAILED
    else wmap_at a len flags fd)))).

(** ** va2pa, wunmap, getwmapinfo *)

Definition va2pa : MK Z :=
  with_int 0 FAILED (fun va =>
    let page_offset := Z.land (u32 va) 0xFFF in
    let page_base := PGROUNDDOWN (u32 va) in
    i ← curproc;
    p ← get_proc i;
    pte ← run_km (walkpgdir (pgdir p) page_base false);
    e ← (if pte =? 0 then mret 0 else kld32 pte);
    if (pte =? 0) || negb (flag e PTE_P) then mret FAILED
    else mret (s32 (PTE_ADDR e + page_offset))).

Definition sys_wunmap : MK Z :=
  with_int 0 FAILED (fun int_addr =>
    let a := u32 int_addr in
    if (a <? 0x60000000) || (0x80000000 <=? a) then mret FAILED
    else wunmap fuel a).

(** struct wmapinfo in user memory: total_mmaps, then three arrays of 16. *)
Definition wi_off_addr : Z := 4.
Definition wi_off_length : Z := 68.
Definition wi_off_loaded : Z := 132.

Fixpoint getwmapinfo_loop (i : nat) (info : Z) (k : nat) (n : nat) : MK unit :=
  match n with
  | O => mret tt
  | S n' =>
      m ← get_region i k;
      when (negb (used m =? 0))
        (m ← get_region i k; ust32 fuel (info + wi_off_addr + 4 * Z.of_nat k) (addr m);;
         m ← get_region i k; ust32 fuel (info + wi_off_length + 4 * Z.of_nat k) (length m);;
         m ← get_region i k; ust32 fuel (info + wi_off_loaded + 4 * Z.of_nat k) (n_loaded_pages m));;
      getwmapinfo_loop i info (S k) n'
  end.

Definition getwmapinfo : MK Z :=
  info ← argptr fuel 0 4;
  match info with
  | None => mret FAILED
  | Some info =>
      p ← myproc;
      match p with
      | None => mret FAILED
      | Some i =>
          getwmapinfo_loop i info 0 MAX_WMMAP_INFO;;
          p ← get_proc i;
          ust32 fuel info (total_mmaps p);;
          mret SUCCESS
      end
  end.

(** ** Lemmas *)

Lemma run_with_int (s : kst F) i p n err v k : (1 <= fuel)%nat -> cur s = Some i -> procs s !! i = Some p ->
  sysarg s p n v -> with_int n err k s = k v s.
Proof.
  intros Hf Hc Hp Hv. unfold with_int. erewrite bind_ret_run; [|by eapply run_argint]. done.
Qed.

(** wmap of an anonymous region, after the arguments have been fetched. *)
Section wmap.
Context (s : kst F) (i : nat) (p : proc) (a len flags fd : Z).
Context (Hcur : cur s = Some i) (Hp : procs s !! i = Some p) (Hmm : mm_ok (mmap p)).
Context (Hanon : flag flags MAP_ANONYMOUS = true) (Hfix : flag flags MAP_FIXED = true).

(** The process with the new region in slot [k]. *)
Definition with_region (k : nat) (m : mmap_region) (p : proc) : proc :=
  set_p_total_mmaps (s32 (total_mmaps p + 1))
    (set_p_mmap (<[k := Region a len flags 1 fd (n_loaded_pages m)]> (mmap p)) p).

Lemma run_wmap_at :
  wmap_at a len flags fd s =
    if check_fixed (mmap p) a len =? FAILED then Ret FAILED s
    else if a =? FAILED then Ret FAILED s
    else match find_unused (mmap p) with
         | None => Ret FAILED s
         | Some k => match mmap p !! k with
                     | Some m => Ret (s32 a) (set_procs (<[i := with_region k m p]> (procs s)) s)
                     | None => Ret FAILED s
                     end
         end.
Proof.
  unfold wmap_at. rewrite (bind_ret_run _ _ _ _ _ (run_curproc s i Hcur)). krun_with run_get_proc; [|done].
  unfold wmap_addr. rewrite Hfix. destruct (check_fixed (mmap p) a len =? FAILED); [done|].
  destruct (a =? FAILED); [done|]. destruct (find_unused (mmap p)) as [k|] eqn:Hk; [|done].
  apply find_index_Some in Hk as (m & Hm & _). rewrite Hm.
  assert (Hlen : (i < List.length (procs s))%nat) by (by eapply lookup_lt_Some).
  unfold upd_region. rewrite run_bind_bind. erewrite bind_ret_run; [|by eapply run_get_region]. cbv beta.
  krun_with run_upd_proc; [|done]. krun_with run_upd_proc; [|by apply list_lookup_insert_eq].
  rewrite Hanon. cbn [negb]. ksimp. rewrite list_insert_insert_eq. by destruct s, p.
Qed.

End wmap.

End sysproc.

(** ** Properties *)

(** C34: the wmap system call on anonymous requests.  The arguments are on the user
    stack, and MAP_SHARED, MAP_FIXED and MAP_ANONYMOUS are set.  The request is
    accepted if and only if its length is positive, its address page aligned, a slot
    of the table free, and the range is either inside the mapping area and disjoint
    from every mapping, or wraps around the end of the address space: the upper bound
    is tested in 32-bit arithmetic.  When it is accepted, wmap returns the address,
    the first free slot holds the new region, the mapping count is one higher and
    nothing else has changed; the table still satisfies its invariant if the range
    did not wrap around.  Otherwise it returns FAILED and changes nothing. *)
Theorem wmap_anonymous_exact {KI : KernelImage} {KS0 : KernelSymbols} {F} {FS : FileSys F} (fuel : nat)
    (s : kst F) (i : nat) (p : proc) (a len flags fd : Z) :
  (1 <= fuel)%nat -> cur s = Some i -> procs s !! i = Some p -> mm_ok (mmap p) ->
  sysarg s p 0 (s32 a) -> sysarg s p 1 len -> sysarg s p 2 flags -> sysarg s p 3 fd ->
  flag flags MAP_ANONYMOUS = true -> flag flags MAP_FIXED = true -> flag flags MAP_SHARED = true ->
  0 <= a < 4294967296 -> -2147483648 <= len < 2147483648 ->
  let inside := 0x60000000 <= a /\ a + len <= 0x80000000 /\ range_free (mmap p) a len in
  let P := 0 < len /\ a mod 4096 = 0 /\ find_unused (mmap p) <> None /\ (inside \/ 4294967296 <= a + len) in
  (P /\ exists k m, find_unused (mmap p) = Some k /\ mmap p !! k = Some m /\
     wmap fuel s = Ret (s32 a) (set_procs (<[i := with_region a len flags fd k m p]> (procs s)) s) /\
     (inside -> mm_ok (mmap (with_region a len flags fd k m p)))) \/
  (~ P /\ wmap fuel s = Ret FAILED s).
Proof.
  intros Hf Hc Hp Hmm H0 H1 H2 H3 Fa Ff Fs Ha Hl inside P.
  assert (Hrun : wmap fuel s =
    if (len <=? 0) || negb (a mod PGSIZE =? 0) then Ret FAILED s else wmap_at a len flags fd s).
  { unfold wmap. do 4 (erewrite run_with_int by done). rewrite u32_s32, (u32_id a) by lia.
    destruct (_ || _); [done|]. by rewrite Fs, Ff. }
  rewrite Hrun. change PGSIZE with 4096. destruct (Z.leb_spec len 0) as [Hl0|Hl0]; [right; split; [unfold P; lia|done]|].
  destruct (Z.eqb_spec (a mod 4096) 0) as [Hal0|Hal0]; cbn [orb negb]; [|right; split; [unfold P; lia|done]].
  rewrite (run_wmap_at s i p) by done. rewrite (proj2 (Z.eqb_neq a FAILED)) by (unfold FAILED; divlia).
  destruct (check_fixed_exact (mmap p) a len) as [[-> HP]|[-> HP]]; [done|lia|lia|done|fold inside in HP..].
  - change (1 =? FAILED) with false. cbv iota. destruct (find_unused (mmap p)) as [k|] eqn:Hk.
    + left. split; [unfold P; intuition congruence|]. pose proof Hk as (m & Hm & Hu & _)%find_index_Some. exists k, m. rewrite Hm.
      split; [done|]. split; [done|]. split; [done|]. intros (P2 & P3 & P4). apply mm_ok_insert; [done| |].
      * rewrite <- (mm_slots _ Hmm). by eapply lookup_lt_Some.
      * intros _. split; [by split|]. intros j m' _ Hj Hin. by eapply P4.
    + right. split; [unfold P; intuition congruence|done].
  - right. split; [unfold P; tauto|done].
Qed.

Lemma wmap_anonymous_exact_witness :
  wmap (FS := no_fs) 1 (ex_call [0x60002000; 4096; 0xE; 0xFFFFFFFF]) =
    Ret 0x60002000 (set_procs (with_region 0x60002000 4096 0xE (-1) 1 region0 calling_proc :: replicate 63 proc0)
      (ex_call [0x60002000; 4096; 0xE; 0xFFFFFFFF])).
Proof.
  set (s := ex_call _).
  assert (Hargs : sysarg s calling_proc 0 (s32 0x60002000) /\ sysarg s calling_proc 1 4096 /\
            sysarg s calling_proc 2 0xE /\ sysarg s calling_proc 3 (-1)).
  { split; [|split; [|split]]; apply sysarg_by_eval; vm_compute; reflexivity. }
  destruct Hargs as (A0 & A1 & A2 & A3).
  destruct (wmap_anonymous_exact (FS := no_fs) 1 s 0 calling_proc 0x60002000 4096 0xE (-1)
    ltac:(lia) eq_refl eq_refl ex_table_ok A0 A1 A2 A3 eq_refl eq_refl eq_refl ltac:(lia) ltac:(lia))
    as [(_ & k & m & Hk & Hm & Hw & _)|[HP _]].
  - injection Hk as <-. injection Hm as <-. exact Hw.
  - exfalso. apply HP. split; [lia|]. split; [reflexivity|]. split; [discriminate|]. left. split; [lia|]. split; [lia|].
    intros j r Hj Hu. destruct (ex_table_used j r Hj Hu) as [_ ->]. right. cbn. lia.
Defined.

(** C36: va2pa is the processor's translation.  For the running process, whose page
    directory is in the page table base register, va2pa answers the physical address
    that a kernel load at its argument would access, and FAILED exactly when the
    load would fault. *)
Theorem va2pa_is_translation {KI : KernelImage} {KS0 : KernelSymbols} {F} {FS : FileSys F} (fuel : nat)
    (s : kst F) (i : nat) (p : proc) (v : Z) (l : list Z) :
  (1 <= fuel)%nat -> cur s = Some i -> procs s !! i = Some p -> sysarg s p 0 v ->
  mem_ok (mem (km s)) -> pt_ok (mem (km s)) l (pgdir p) -> cr3 (km s) = V2P (pgdir p) ->
  va2pa fuel s = Ret (match hw_translate (mem (km s)) (cr3 (km s)) (u32 v) false false with
                      | Some a => s32 (V2P a)
                      | None => FAILED
                      end) s.
Proof.
  intros Hf Hc Hp Hv Hm Hpt Hcr. pose proof (u32_range v) as Hr. set (va := u32 v) in *.
  unfold va2pa. erewrite run_with_int by done. fold va. rewrite (bind_ret_run _ _ _ _ _ (run_curproc s i Hc)).
  krun_with run_get_proc; [|done]. krun_with run_run_km; [|apply run_walk]. rewrite set_km_self.
  unfold hw_translate. rewrite Hcr, page_ok_P2V by apply (pt_dir _ _ _ Hpt). cbn [negb orb]. rewrite !andb_true_r.
  unfold pte_of, pte_slot. rewrite PDX_PGROUNDDOWN, PTX_PGROUNDDOWN by done. fold (pte_slot (mem (km s)) (pgdir p) va).
  destruct (pte_slot (mem (km s)) (pgdir p) va) as [a|] eqn:Ea; cbn [default id]; [|done].
  pose proof (slot_range _ _ _ _ _ Hpt Ea) as (_ & _ & _ & Hnz). rewrite (proj2 (Z.eqb_neq a 0)) by done. unfold kld32. mrun.
  cbn [orb]. set (e := ld32 (mem (km s)) a). destruct (flag e PTE_P); cbn [negb]; [|done].
  rewrite V2P_P2V_add, s32_u32. do 2 f_equal. change 0xFFF with (Z.ones 12). by rewrite Z.land_ones by lia.
Qed.

Lemma va2pa_is_translation_witness :
  va2pa (FS := no_fs) 1 (ex_call [0x60000ABC]) = Ret (s32 (V2P ex_R + 0xABC)) (ex_call [0x60000ABC]).
Proof.
  set (s := ex_call _).
  rewrite (va2pa_is_translation (FS := no_fs) 1 s 0 calling_proc 0x60000ABC []);
    [vm_compute; reflexivity|lia|reflexivity|reflexivity|apply sysarg_by_eval; vm_compute; reflexivity|
     apply mem_ok_by_eval; vm_compute; reflexivity|apply pt_ok_by_eval; vm_compute; reflexivity|reflexivity].
Defined.
