(* ===== verification/FsState.v ===== *)
(** * The state of the file system (buf.h, bio.c, log.c, fs.h, file.h, fs.c, sleeplock.h)

    Buffer cache, log, super block, inode cache and the disk, as one record.
    Buffers and inodes are named by their index in their tables; the head of the
    list of buffers is the entry after the last buffer.  The bytes of a block are
    a map from offsets to bytes.  The disk has a type [D] of its own, with the
    operation of its driver in the class [BlockDevice]. *)

From Stdlib Require Import ZArith Lia.
From stdpp Require Import base tactics numbers option list strings zmap.
From S2P Require Import Prelude Memory Mmu StringOps Kalloc Vm Wmap Kernel Proc.

(** ** param.h, fs.h, buf.h *)
Definition NINODE : nat := 50.
Definition NDEV : Z := 10.
Definition LOGSIZE : nat := 30.
Definition NBUF : nat := 30.
Definition BSIZE : Z := 512.
Definition ROOTINO : Z := 1.
Definition NDIRECT : Z := 12.
Definition NINDIRECT : Z := BSIZE / 4.
Definition MAXFILE : Z := NDIRECT + NINDIRECT.
Definition sizeof_dinode : Z := 64.
Definition IPB : Z := BSIZE / sizeof_dinode.
Definition BPB : Z := BSIZE * 8.
Definition DIRSIZ : Z := 14.
Definition sizeof_dirent : Z := 16.
Definition B_VALID : Z := 0x2.
Definition B_DIRTY : Z := 0x4.

(** ** Data *)

(** struct sleeplock; its spin lock is [L_sleep]. *)
Record sleeplock : Type := Sleeplock { locked : Z; sl_pid : Z }.

(** struct buf. *)
Record buf : Type := Buf {
  b_flags : Z;
  b_dev : Z;
  blockno : Z;
  b_lock : sleeplock;
  b_refcnt : Z;
  prev : nat;
  next : nat;
  data : Zmap Z }.

Definition set_b_flags (v : Z) (b : buf) : buf :=
  Buf v (b_dev b) (blockno b) (b_lock b) (b_refcnt b) (prev b) (next b) (data b).
Definition set_b_dev (v : Z) (b : buf) : buf :=
  Buf (b_flags b) v (blockno b) (b_lock b) (b_refcnt b) (prev b) (next b) (data b).
Definition set_b_blockno (v : Z) (b : buf) : buf :=
  Buf (b_flags b) (b_dev b) v (b_lock b) (b_refcnt b) (prev b) (next b) (data b).
Definition set_b_lock (v : sleeplock) (b : buf) : buf :=
  Buf (b_flags b) (b_dev b) (blockno b) v (b_refcnt b) (prev b) (next b) (data b).
Definition set_b_refcnt (v : Z) (b : buf) : buf :=
  Buf (b_flags b) (b_dev b) (blockno b) (b_lock b) v (prev b) (next b) (data b).
Definition set_b_prev (v : nat) (b : buf) : buf :=
  Buf (b_flags b) (b_dev b) (blockno b) (b_lock b) (b_refcnt b) v (next b) (data b).
Definition set_b_next (v : nat) (b : buf) : buf :=
  Buf (b_flags b) (b_dev b) (blockno b) (b_lock b) (b_refcnt b) (prev b) v (data b).
Definition set_b_data (v : Zmap Z) (b : buf) : buf :=
  Buf (b_flags b) (b_dev b) (blockno b) (b_lock b) (b_refcnt b) (prev b) (next b) v.

(** struct log; the fields of struct logheader are [lh_n] and [lh_block]. *)
Record logst : Type := Log {
  l_start : Z;
  l_size : Z;
  outstanding : Z;
  committing : Z;
  l_dev : Z;
  lh_n : Z;
  lh_block : list Z }.

Definition set_l_start (v : Z) (l : logst) : logst :=
  Log v (l_size l) (outstanding l) (committing l) (l_dev l) (lh_n l) (lh_block l).
Definition set_l_size (v : Z) (l : logst) : logst :=
  Log (l_start l) v (outstanding l) (committing l) (l_dev l) (lh_n l) (lh_block l).
Definition set_outstanding (v : Z) (l : logst) : logst :=
  Log (l_start l) (l_size l) v (committing l) (l_dev l) (lh_n l) (lh_block l).
Definition set_committing (v : Z) (l : logst) : logst :=
  Log (l_start l) (l_size l) (outstanding l) v (l_dev l) (lh_n l) (lh_block l).
Definition set_l_dev (v : Z) (l : logst) : logst :=
  Log (l_start l) (l_size l) (outstanding l) (committing l) v (lh_n l) (lh_block l).
Definition set_lh_n (v : Z) (l : logst) : logst :=
  Log (l_start l) (l_size l) (outstanding l) (committing l) (l_dev l) v (lh_block l).
Definition set_lh_block (v : list Z) (l : logst) : logst :=
  Log (l_start l) (l_size l) (outstanding l) (committing l) (l_dev l) (lh_n l) v.

(** struct superblock. *)
Record superblock : Type := Superblock {
  sb_size : Z;
  sb_nblocks : Z;
  sb_ninodes : Z;
  sb_nlog : Z;
  sb_logstart : Z;
  sb_inodestart : Z;
  sb_bmapstart : Z }.

(** struct inode of file.h. *)
Record inode : Type := Inode {
  i_dev : Z;
  inum : Z;
  i_ref : Z;
  i_lock : sleeplock;
  valid : Z;
  i_type : Z;
  major : Z;
  minor : Z;
  nlink : Z;
  i_size : Z;
  addrs : list Z }.

Definition set_i_key (d n r v : Z) (i : inode) : inode :=
  Inode d n r (i_lock i) v (i_type i) (major i) (minor i) (nlink i) (i_size i) (addrs i).
Definition set_i_ref (v : Z) (i : inode) : inode :=
  Inode (i_dev i) (inum i) v (i_lock i) (valid i) (i_type i) (major i) (minor i) (nlink i) (i_size i) (addrs i).
Definition set_i_lock (v : sleeplock) (i : inode) : inode :=
  Inode (i_dev i) (inum i) (i_ref i) v (valid i) (i_type i) (major i) (minor i) (nlink i) (i_size i) (addrs i).
Definition set_valid (v : Z) (i : inode) : inode :=
  Inode (i_dev i) (inum i) (i_ref i) (i_lock i) v (i_type i) (major i) (minor i) (nlink i) (i_size i) (addrs i).
Definition set_i_type (v : Z) (i : inode) : inode :=
  Inode (i_dev i) (inum i) (i_ref i) (i_lock i) (valid i) v (major i) (minor i) (nlink i) (i_size i) (addrs i).
Definition set_major (v : Z) (i : inode) : inode :=
  Inode (i_dev i) (inum i) (i_ref i) (i_lock i) (valid i) (i_type i) v (minor i) (nlink i) (i_size i) (addrs i).
Definition set_minor (v : Z) (i : inode) : inode :=
  Inode (i_dev i) (inum i) (i_ref i) (i_lock i) (valid i) (i_type i) (major i) v (nlink i) (i_size i) (addrs i).
Definition set_nlink (v : Z) (i : inode) : inode :=
  Inode (i_dev i) (inum i) (i_ref i) (i_lock i) (valid i) (i_type i) (major i) (minor i) v (i_size i) (addrs i).
Definition set_i_size (v : Z) (i : inode) : inode :=
  Inode (i_dev i) (inum i) (i_ref i) (i_lock i) (valid i) (i_type i) (major i) (minor i) (nlink i) v (addrs i).
Definition set_addrs (v : list Z) (i : inode) : inode :=
  Inode (i_dev i) (inum i) (i_ref i) (i_lock i) (valid i) (i_type i) (major i) (minor i) (nlink i) (i_size i) v.

(** The file system; [bufs] has NBUF buffers and the head of their list. *)
Record fsst (D : Type) : Type := FS {
  bufs : list buf;
  log : logst;
  sb : superblock;
  inodes : list inode;
  disk : D }.

Arguments FS {D}.
Arguments bufs {D}.
Arguments log {D}.
Arguments sb {D}.
Arguments inodes {D}.
Arguments disk {D}.

Definition HEAD : nat := NBUF.

(** The driver: iderw of ide.c or of memide.c. *)
Class BlockDevice (D : Type) : Type := { iderw : nat -> M (kst (fsst D)) unit }.

Section access.
Context {D : Type}.
#[local] Abbreviation MK := (M (kst (fsst D))).

Definition set_bufs (v : list buf) (s : kst (fsst D)) : kst (fsst D) :=
  set_fsys (FS v (log (fsys s)) (sb (fsys s)) (inodes (fsys s)) (disk (fsys s))) s.
Definition set_log (v : logst) (s : kst (fsst D)) : kst (fsst D) :=
  set_fsys (FS (bufs (fsys s)) v (sb (fsys s)) (inodes (fsys s)) (disk (fsys s))) s.
Definition set_sb (v : superblock) (s : kst (fsst D)) : kst (fsst D) :=
  set_fsys (FS (bufs (fsys s)) (log (fsys s)) v (inodes (fsys s)) (disk (fsys s))) s.
Definition set_inodes (v : list inode) (s : kst (fsst D)) : kst (fsst D) :=
  set_fsys (FS (bufs (fsys s)) (log (fsys s)) (sb (fsys s)) v (disk (fsys s))) s.
Definition set_disk (v : D) (s : kst (fsst D)) : kst (fsst D) :=
  set_fsys (FS (bufs (fsys s)) (log (fsys s)) (sb (fsys s)) (inodes (fsys s)) v) s.

Definition get_buf (b : nat) : MK buf :=
  s ← get;
  match bufs (fsys s) !! b with Some x => mret x | None => undef "buffer pointer out of range" end.
Definition upd_buf (b : nat) (f : buf -> buf) : MK unit :=
  x ← get_buf b; modify (fun s => set_bufs (<[b := f x]> (bufs (fsys s))) s).

Definition get_inode (i : nat) : MK inode :=
  s ← get;
  match inodes (fsys s) !! i with Some x => mret x | None => undef "inode pointer out of range" end.
Definition upd_inode (i : nat) (f : inode -> inode) : MK unit :=
  x ← get_inode i; modify (fun s => set_inodes (<[i := f x]> (inodes (fsys s))) s).

Definition get_log : MK logst := gets (fun s => log (fsys s)).
Definition upd_log (f : logst -> logst) : MK unit := modify (fun s => set_log (f (log (fsys s))) s).
Definition get_sb : MK superblock := gets (fun s => sb (fsys s)).

(** The sleep lock a pointer names. *)
Definition get_sl (lk : slid) : MK sleeplock :=
  match lk with
  | SL_buf b => x ← get_buf b; mret (b_lock x)
  | SL_inode i => x ← get_inode i; mret (i_lock x)
  end.
Definition set_sl (lk : slid) (v : sleeplock) : MK unit :=
  match lk with
  | SL_buf b => upd_buf b (set_b_lock v)
  | SL_inode i => upd_inode i (set_i_lock v)
  end.

(** ** sleeplock.c *)

Definition initsleeplock (lk : slid) : MK unit :=
  initlock (L_sleep lk);; set_sl lk (Sleeplock 0 0).

(** The loop that waits for the lock; [fuel] bounds the number of times the process
    is woken to find the lock taken. *)
Definition acquiresleep_wait (lk : slid) (_ : unit) : MK (unit + unit) :=
  l ← get_sl lk;
  if negb (locked l =? 0) then sleep (Chan_sleeplock lk) (L_sleep lk);; mret (inl tt)
  else mret (inr tt).

Definition acquiresleep (fuel : nat) (lk : slid) : MK unit :=
  acquire (L_sleep lk);;
  iterate fuel (acquiresleep_wait lk) tt;;
  l ← get_sl lk;
  set_sl lk (Sleeplock 1 (sl_pid l));;
  i ← curproc;
  p ← get_proc i;
  set_sl lk (Sleeplock 1 (pid p));;
  release (L_sleep lk).

Definition releasesleep (lk : slid) : MK unit :=
  acquire (L_sleep lk);;
  set_sl lk (Sleeplock 0 0);;
  wakeup (Chan_sleeplock lk);;
  release (L_sleep lk).

Definition holdingsleep (lk : slid) : MK bool :=
  acquire (L_sleep lk);;
  l ← get_sl lk;
  r ← (if locked l =? 0 then mret false
       else i ← curproc; p ← get_proc i; mret (sl_pid l =? pid p));
  release (L_sleep lk);;
  mret r.

(** ** Running these routines *)

Lemma run_get_buf s b x : bufs (fsys s) !! b = Some x -> get_buf b s = Ret x s.
Proof. intros H. unfold get_buf. mrun. by rewrite H. Qed.
Lemma run_upd_buf s b f x : bufs (fsys s) !! b = Some x ->
  upd_buf b f s = Ret tt (set_bufs (<[b := f x]> (bufs (fsys s))) s).
Proof. intros H. unfold upd_buf. by rewrite (bind_ret_run _ _ _ _ _ (run_get_buf s b x H)). Qed.
Lemma run_get_inode s i x : inodes (fsys s) !! i = Some x -> get_inode i s = Ret x s.
Proof. intros H. unfold get_inode. mrun. by rewrite H. Qed.
Lemma run_upd_inode s i f x : inodes (fsys s) !! i = Some x ->
  upd_inode i f s = Ret tt (set_inodes (<[i := f x]> (inodes (fsys s))) s).
Proof. intros H. unfold upd_inode. by rewrite (bind_ret_run _ _ _ _ _ (run_get_inode s i x H)). Qed.

(** The sleep lock [lk] in a state, and the state with its fields changed. *)
Definition sl_of (s : kst (fsst D)) (lk : slid) : option sleeplock :=
  match lk with
  | SL_buf b => b_lock <$> bufs (fsys s) !! b
  | SL_inode i => i_lock <$> inodes (fsys s) !! i
  end.
Definition with_sl (lk : slid) (v : sleeplock) (s : kst (fsst D)) : kst (fsst D) :=
  match lk with
  | SL_buf b => set_bufs (alter (set_b_lock v) b (bufs (fsys s))) s
  | SL_inode i => set_inodes (alter (set_i_lock v) i (inodes (fsys s))) s
  end.

Lemma run_get_sl s lk l : sl_of s lk = Some l -> get_sl lk s = Ret l s.
Proof.
  destruct lk; cbn; intros (x & Hx & ->)%fmap_Some.
  - by rewrite (bind_ret_run _ _ _ _ _ (run_get_buf s _ x Hx)).
  - by rewrite (bind_ret_run _ _ _ _ _ (run_get_inode s _ x Hx)).
Qed.

Lemma run_set_sl s lk l v : sl_of s lk = Some l -> set_sl lk v s = Ret tt (with_sl lk v s).
Proof.
  destruct lk; cbn; intros (x & Hx & ->)%fmap_Some; rewrite (alter_insert_lookup _ _ _ x) by done.
  - by apply run_upd_buf.
  - by apply run_upd_inode.
Qed.

Lemma sl_of_with s lk v l : sl_of s lk = Some l -> sl_of (with_sl lk v s) lk = Some v.
Proof.
  destruct lk; cbn; intros (x & Hx & ->)%fmap_Some; rewrite list_lookup_alter_eq, Hx; done.
Qed.

Lemma with_sl_with s lk v w : with_sl lk w (with_sl lk v s) = with_sl lk w s.
Proof.
  destruct lk; cbn; unfold set_bufs, set_inodes, set_fsys; cbn; do 2 f_equal;
    by rewrite alter_alter.
Qed.

Lemma with_sl_held lk v (s : kst (fsst D)) hs : with_sl lk v (set_held hs s) = set_held hs (with_sl lk v s).
Proof. by destruct lk. Qed.

Lemma sl_of_held s lk hs : sl_of (set_held hs s) lk = sl_of s lk.
Proof. by destruct lk. Qed.

Lemma run_acquiresleep fuel s lk l i p :
  (1 <= fuel)%nat -> cur s = Some i -> procs s !! i = Some p -> L_sleep lk ∉ held s ->
  sl_of s lk = Some l -> locked l = 0 ->
  acquiresleep fuel lk s = Ret tt (with_sl lk (Sleeplock 1 (pid p)) s).
Proof.
  intros Hf Hc Hp Hh Hl Hz. unfold acquiresleep. krun_with run_acquire; [|done].
  assert (Hit : iterate fuel (acquiresleep_wait lk) tt (set_held (L_sleep lk :: held s) s) =
      Ret tt (set_held (L_sleep lk :: held s) s)).
  { destruct fuel as [|fuel]; [lia|]. cbn [iterate]. unfold acquiresleep_wait. mrun.
    krun_with run_get_sl; [|by rewrite sl_of_held]. rewrite Hz. done. }
  erewrite bind_ret_run; [|exact Hit]. cbv beta.
  krun_with run_get_sl; [|by rewrite sl_of_held].
  krun_with (run_set_sl _ _ l); [|by rewrite sl_of_held]. rewrite with_sl_held.
  krun_with run_curproc; [|destruct lk; exact Hc].
  krun_with run_get_proc; [|destruct lk; exact Hp].
  krun_with (run_set_sl _ _ (Sleeplock 1 (sl_pid l))); [|rewrite sl_of_held; eapply sl_of_with; exact Hl]. rewrite with_sl_held, with_sl_with.
  assert (Hh' : held (with_sl lk (Sleeplock 1 (pid p)) s) = held s) by (by destruct lk).
  erewrite run_release_top; [|done|ksimp; exact Hh]. ksimp. destruct lk, s; done.
Qed.

Lemma run_holdingsleep s lk l i p :
  cur s = Some i -> procs s !! i = Some p -> L_sleep lk ∉ held s -> sl_of s lk = Some l ->
  holdingsleep lk s = Ret (negb (locked l =? 0) && (sl_pid l =? pid p)) s.
Proof.
  intros Hc Hp Hh Hl. unfold holdingsleep. krun_with run_acquire; [|done].
  krun_with run_get_sl; [|by rewrite sl_of_held]. destruct (locked l =? 0); cbn [negb andb].
  - mrun. krun_with run_release_top; [|done|done]. by destruct s.
  - mrun. krun_with run_curproc; [|done]. mrun. krun_with run_get_proc; [|done]. mrun.
    krun_with run_release_top; [|done|done]. by destruct s.
Qed.

Lemma run_releasesleep s lk l :
  L_sleep lk ∉ held s -> L_ptable ∉ held s -> sl_of s lk = Some l ->
  releasesleep lk s =
    Ret tt (set_procs (wake (Chan_sleeplock lk) <$> procs s) (with_sl lk (Sleeplock 0 0) s)).
Proof.
  intros Hh Hpt Hl. unfold releasesleep. krun_with run_acquire; [|done].
  krun_with (run_set_sl _ _ l); [|by rewrite sl_of_held]. rewrite with_sl_held.
  krun_with run_wakeup; [|set_solver].
  erewrite run_release_top; [|done|done]. ksimp. by destruct lk, s.
Qed.

End access.

(** Simplify projections of updated file system states. *)
Ltac fsimp :=
  cbn [km procs cur cpu held nextpid initproc ticks files fsys set_km set_procs set_cur set_cpu
       set_held set_nextpid set_initproc set_ticks set_files set_fsys
       bufs log sb inodes disk set_bufs set_log set_sb set_inodes set_disk].
