(* ===== verification/Bio.v ===== *)
(** * The buffer cache (bio.c, memide.c)

    The list of buffers through [prev] and [next], most recently used first, and
    the operations on it: [bget], [bread], [bwrite], [brelse].  The disk is the
    driver of the class [BlockDevice]; [memide] is the instance that models the
    memory disk of memide.c. *)

From Stdlib Require Import ZArith Lia.
From stdpp Require Import base tactics numbers option list strings zmap.
From S2P Require Import Prelude Memory Mmu StringOps Kalloc Vm Wmap Kernel Proc FsState.

Section bio.
Context {D : Type} {BD : BlockDevice D} (fuel : nat).
#[local] Abbreviation MK := (M (kst (fsst D))).

(** ** binit *)

Definition binit_body (b : nat) : MK unit :=
  h ← get_buf HEAD;
  upd_buf b (set_b_next (next h));;
  upd_buf b (set_b_prev HEAD);;
  initsleeplock (SL_buf b);;
  h ← get_buf HEAD;
  upd_buf (next h) (set_b_prev b);;
  upd_buf HEAD (set_b_next b).

Fixpoint binit_loop (b n : nat) : MK unit :=
  match n with
  | O => mret tt
  | S n' => binit_body b;; binit_loop (S b) n'
  end.

Definition binit : MK unit :=
  initlock L_bcache;;
  upd_buf HEAD (set_b_prev HEAD);;
  upd_buf HEAD (set_b_next HEAD);;
  binit_loop 0 NBUF.

(** ** bget: the two passes over the list *)

Definition bget_cached (dev bn : Z) (b : nat) : MK (nat + option nat) :=
  if Nat.eqb b HEAD then mret (inr None)
  else
    x ← get_buf b;
    if (b_dev x =? dev) && (blockno x =? bn) then mret (inr (Some b)) else mret (inl (next x)).

Definition bget_unused (b : nat) : MK (nat + option nat) :=
  if Nat.eqb b HEAD then mret (inr None)
  else
    x ← get_buf b;
    if (b_refcnt x =? 0) && negb (flag (b_flags x) B_DIRTY) then mret (inr (Some b)) else mret (inl (prev x)).

Definition bget (dev bn : Z) : MK nat :=
  acquire L_bcache;;
  h ← get_buf HEAD;
  r ← iterate (S NBUF) (bget_cached dev bn) (next h);
  match r with
  | Some b =>
      upd_buf b (fun x => set_b_refcnt (u32 (b_refcnt x + 1)) x);;
      release L_bcache;;
      acquiresleep fuel (SL_buf b);;
      mret b
  | None =>
      h ← get_buf HEAD;
      r ← iterate (S NBUF) bget_unused (prev h);
      match r with
      | Some b =>
          upd_buf b (set_b_dev dev);;
          upd_buf b (set_b_blockno bn);;
          upd_buf b (set_b_flags 0);;
          upd_buf b (set_b_refcnt 1);;
          release L_bcache;;
          acquiresleep fuel (SL_buf b);;
          mret b
      | None => panic "bget: no buffers"
      end
  end.

Definition bread (dev bn : Z) : MK nat :=
  b ← bget dev bn;
  x ← get_buf b;
  when (negb (flag (b_flags x) B_VALID)) (iderw b);;
  mret b.

Definition bwrite (b : nat) : MK unit :=
  h ← holdingsleep (SL_buf b);
  if negb (h : bool) then panic "bwrite"
  else
    upd_buf b (fun x => set_b_flags (Z.lor (b_flags x) B_DIRTY) x);;
    iderw b.

(** ** brelse *)

Definition brelse_unlink (b : nat) : MK unit :=
  x ← get_buf b;
  upd_buf (next x) (set_b_prev (prev x));;
  x ← get_buf b;
  upd_buf (prev x) (set_b_next (next x)).

Definition brelse_front (b : nat) : MK unit :=
  h ← get_buf HEAD;
  upd_buf b (set_b_next (next h));;
  upd_buf b (set_b_prev HEAD);;
  h ← get_buf HEAD;
  upd_buf (next h) (set_b_prev b);;
  upd_buf HEAD (set_b_next b).

Definition brelse (b : nat) : MK unit :=
  h ← holdingsleep (SL_buf b);
  if negb (h : bool) then panic "brelse"
  else
    releasesleep (SL_buf b);;
    acquire L_bcache;;
    upd_buf b (fun x => set_b_refcnt (u32 (b_refcnt x - 1)) x);;
    x ← get_buf b;
    when (b_refcnt x =? 0) (brelse_unlink b;; brelse_front b);;
    release L_bcache.

End bio.

(** ** The list of buffers

    [linked N P a l c]: from [a], the next pointers [N] lead through [l] to [c], and
    the prev pointers [P] lead back. *)
Fixpoint linked (N P : nat -> option nat) (a : nat) (l : list nat) (c : nat) : Prop :=
  match l with
  | [] => N a = Some c /\ P c = Some a
  | b :: l' => N a = Some b /\ P b = Some a /\ linked N P b l' c
  end.

Definition nextf (bs : list buf) (a : nat) : option nat := next <$> bs !! a.
Definition prevf (bs : list buf) (a : nat) : option nat := prev <$> bs !! a.

(** The buffers in [order], most recently used first, are the list. *)
Definition ring (bs : list buf) (order : list nat) : Prop := linked (nextf bs) (prevf bs) HEAD order HEAD.

Definition fupd (N : nat -> option nat) (a v : nat) : nat -> option nat :=
  fun i => if decide (i = a) then Some v else N i.

Section linked.
Implicit Types (N P : nat -> option nat) (l : list nat).

Lemma linked_app N P a l1 b l2 c :
  linked N P a (l1 ++ b :: l2) c <-> linked N P a l1 b /\ linked N P b l2 c.
Proof. revert a. induction l1 as [|x l1 IH]; intros a; cbn; [tauto|]. rewrite IH. tauto. Qed.

Lemma linked_ext N P N' P' a l c :
  linked N P a l c -> (forall i, i ∈ a :: l -> N' i = N i) -> (forall i, i ∈ l ++ [c] -> P' i = P i) ->
  linked N' P' a l c.
Proof.
  revert a. induction l as [|x l IH]; intros a; cbn.
  - intros [H1 H2] HN HP. rewrite HN, HP by set_solver. done.
  - intros (H1 & H2 & H3) HN HP. rewrite HN, HP by set_solver. split_and!; [done..|].
    apply IH; [done| |]; intros i Hi; [apply HN|apply HP]; set_solver.
Qed.

(** The neighbours of an element. *)
Lemma linked_pred N P a l b : linked N P a l b -> exists p, P b = Some p /\ N p = Some b /\ p ∈ a :: l.
Proof.
  revert a. induction l as [|x l IH]; intros a; cbn.
  - intros [H1 H2]. exists a. split_and!; [done..|set_solver].
  - intros (H1 & H2 & H3). destruct (IH x H3) as (p & ? & ? & ?). exists p. set_solver.
Qed.
Lemma linked_succ N P b l c : linked N P b l c -> exists n, N b = Some n /\ P n = Some b /\ n ∈ l ++ [c].
Proof. destruct l as [|x l]; cbn; intros H; eexists; (split_and!; [apply H|apply H|set_solver]). Qed.

(** Unlinking [b]. *)
Lemma linked_unlink N P a l1 b l2 c p n :
  linked N P a (l1 ++ b :: l2) c -> NoDup (l1 ++ b :: l2) -> a ∉ l1 ++ b :: l2 -> c ∉ l1 ++ b :: l2 ->
  P b = Some p -> N b = Some n ->
  linked (fupd N p n) (fupd P n p) a (l1 ++ l2) c.
Proof.
  revert a. induction l1 as [|y l1 IH]; intros a Hl Hnd Ha Hc Hp Hn; cbn [app] in *.
  - cbn in Hl. destruct Hl as (H1 & H2 & H3). assert (p = a) as -> by congruence.
    destruct l2 as [|x l2]; cbn in H3 |- *.
    + destruct H3 as [H3 H4]. assert (n = c) as -> by congruence. unfold fupd. by rewrite !decide_True.
    + destruct H3 as (H3 & H4 & H5). assert (n = x) as -> by congruence.
      unfold fupd at 1 2. rewrite !decide_True by done. split_and!; [done..|].
      apply NoDup_cons in Hnd as [Hb [Hx _]%NoDup_cons]. eapply linked_ext; [done| |].
      * intros i Hi. unfold fupd. rewrite decide_False; [done|]. set_solver.
      * intros i Hi. unfold fupd. rewrite decide_False; [done|]. set_solver.
  - cbn in Hl. destruct Hl as (H1 & H2 & H3). apply NoDup_cons in Hnd as [Hy Hnd].
    pose proof (proj1 (linked_app _ _ _ _ _ _ _) H3) as [Hl1 Hl2].
    destruct (linked_pred _ _ _ _ _ Hl1) as (p' & Hp' & _ & Hin).
    destruct (linked_succ _ _ _ _ _ Hl2) as (n' & Hn' & _ & Hin').
    assert (p' = p) as -> by congruence. assert (n' = n) as -> by congruence.
    cbn. unfold fupd at 1 2. rewrite !decide_False by set_solver. split_and!; [done..|].
    apply IH; [done|done|set_solver|set_solver|done|done].
Qed.

(** Inserting [b] after the head. *)
Lemma linked_front N P h l b n :
  linked N P h l h -> h ∉ l -> NoDup l -> b ∉ h :: l -> N h = Some n ->
  linked (fupd (fupd N b n) h b) (fupd (fupd P b h) n b) h (b :: l) h.
Proof.
  intros Hl Hh Hnd Hb Hn. assert (b <> h /\ b ∉ l) as [Hbh Hbl] by set_solver.
  cbn. unfold fupd at 1 3. rewrite (decide_True (P := h = h)) by done. split; [done|].
  destruct l as [|x l]; cbn in Hl |- *.
  - destruct Hl as [H1 H2]. assert (n = h) as -> by congruence.
    unfold fupd. rewrite (decide_False (P := b = h)), (decide_True (P := b = b)) by done.
    by rewrite (decide_False (P := b = h)), !decide_True by done.
  - destruct Hl as (H1 & H2 & H3). assert (n = x) as -> by congruence. apply NoDup_cons in Hnd as [Hx Hnd].
    assert (b <> x) by set_solver. assert (x <> h) by set_solver.
    unfold fupd at 1. rewrite (decide_False (P := b = x)) by done. unfold fupd at 1. rewrite decide_True by done.
    split; [done|]. unfold fupd at 1 2. rewrite (decide_False (P := b = h)), !(decide_True (P := b = b)) by done.
    unfold fupd at 1. rewrite decide_True by done. split_and!; [done..|].
    eapply linked_ext; [done| |]; intros i Hi; unfold fupd; rewrite !decide_False; set_solver.
Qed.

End linked.

(** ** The scans of bget *)

Definition tst (t : buf -> bool) (bs : list buf) (b : nat) : bool :=
  match bs !! b with Some x => t x | None => false end.
Definition hit (dev bn : Z) (x : buf) : bool := (b_dev x =? dev) && (blockno x =? bn).
Definition idle (x : buf) : bool := (b_refcnt x =? 0) && negb (flag (b_flags x) B_DIRTY).

Section scans.
Context {D : Type}.
Implicit Types s : kst (fsst D).

Lemma nextf_Some bs a b : nextf bs a = Some b -> exists x, bs !! a = Some x /\ next x = b.
Proof. unfold nextf. intros (x & ? & ->)%fmap_Some. eauto. Qed.
Lemma prevf_Some bs a b : prevf bs a = Some b -> exists x, bs !! a = Some x /\ prev x = b.
Proof. unfold prevf. intros (x & ? & ->)%fmap_Some. eauto. Qed.

Lemma scan_next s dev bn a l k :
  linked (nextf (bufs (fsys s))) (prevf (bufs (fsys s))) a l HEAD -> HEAD ∉ l -> (List.length l < k)%nat ->
  iterate k (bget_cached dev bn) (default HEAD (nextf (bufs (fsys s)) a)) s
  = Ret (List.find (tst (hit dev bn) (bufs (fsys s))) l) s.
Proof.
  revert a k. induction l as [|b l IH]; intros a k Hl Hh Hk; (destruct k as [|k]; [cbn in Hk; lia|]).
  - destruct Hl as [-> _]. done.
  - destruct Hl as (Ha & Hb & Hl). rewrite Ha. cbn [default id iterate List.find].
    assert (b <> HEAD) as Hne by set_solver. apply prevf_Some in Hb as (x & Hx & _).
    assert (Hs : bget_cached dev bn b s = Ret (if hit dev bn x then inr (Some b) else inl (next x)) s).
    { unfold bget_cached. rewrite (proj2 (Nat.eqb_neq b HEAD)) by done. krun_with run_get_buf; [|exact Hx].
      fold (hit dev bn x). by destruct (hit dev bn x). }
    rewrite (bind_ret_run _ _ _ _ _ Hs). unfold tst at 1. rewrite Hx. destruct (hit dev bn x); [done|].
    assert (Hn : nextf (bufs (fsys s)) b = Some (next x)) by (unfold nextf; by rewrite Hx).
    specialize (IH b k Hl ltac:(set_solver) ltac:(cbn in Hk; lia)). rewrite Hn in IH. exact IH.
Qed.

Lemma scan_prev s c l k :
  linked (nextf (bufs (fsys s))) (prevf (bufs (fsys s))) HEAD l c -> HEAD ∉ l -> (List.length l < k)%nat ->
  iterate k bget_unused (default HEAD (prevf (bufs (fsys s)) c)) s
  = Ret (List.find (tst idle (bufs (fsys s))) (rev l)) s.
Proof.
  revert c k. induction l as [|b l IH] using rev_ind; intros c k Hl Hh Hk;
    (destruct k as [|k]; [cbn in Hk; lia|]).
  - destruct Hl as [_ ->]. done.
  - apply linked_app in Hl as [Hl [Hb Hc]]. rewrite Hc, rev_app_distr. cbn [rev app default id iterate List.find].
    assert (b <> HEAD) as Hne by set_solver. apply nextf_Some in Hb as (x & Hx & _).
    assert (Hs : bget_unused b s = Ret (if idle x then inr (Some b) else inl (prev x)) s).
    { unfold bget_unused. rewrite (proj2 (Nat.eqb_neq b HEAD)) by done. krun_with run_get_buf; [|exact Hx].
      fold (idle x). by destruct (idle x). }
    rewrite (bind_ret_run _ _ _ _ _ Hs). unfold tst at 1. rewrite Hx. destruct (idle x); [done|].
    assert (Hn : prevf (bufs (fsys s)) b = Some (prev x)) by (unfold prevf; by rewrite Hx).
    rewrite length_app in Hk. cbn in Hk.
    specialize (IH b k Hl ltac:(set_solver) ltac:(lia)). rewrite Hn in IH. exact IH.
Qed.

Lemma run_holding_mine s i p b x :
  cur s = Some i -> procs s !! i = Some p -> held s = [] -> bufs (fsys s) !! b = Some x ->
  b_lock x = Sleeplock 1 (pid p) -> holdingsleep (SL_buf b) s = Ret true s.
Proof.
  intros Hc Hp Hh Hb Hl. rewrite (run_holdingsleep s _ (b_lock x) i p); [|done|done|rewrite Hh; set_solver|by cbn; rewrite Hb].
  rewrite Hl. cbn. by rewrite Z.eqb_refl.
Qed.

End scans.

(** ** Disks

    A disk whose requests complete before iderw returns: its blocks, the effect of a
    write, and what iderw does with a locked buffer. *)

Definition is_blk (bs : list Z) : Prop := List.length bs = Z.to_nat BSIZE /\ Forall (fun b => 0 <= b < 256) bs.
Definition bytes (m : Zmap Z) : list Z := ld_bytes m 0 (Z.to_nat BSIZE).

(** The flags after a transfer. *)
Definition synced (f : Z) : Z := Z.lor (Z.land f (Z.lnot B_DIRTY)) B_VALID.

Class Disk (D : Type) {BD : BlockDevice D} : Type := {
  dsize : D -> Z;
  dread : D -> Z -> list Z;
  dwrite : Z -> list Z -> D -> D;
  disk_ok : D -> Prop;
  dread_blk d n : disk_ok d -> 0 <= n < dsize d -> is_blk (dread d n);
  dwrite_ok d n bs : disk_ok d -> is_blk bs -> 0 <= n < dsize d -> disk_ok (dwrite n bs d);
  dsize_dwrite d n bs : dsize (dwrite n bs d) = dsize d;
  dsize_range d : disk_ok d -> dsize d <= 2147483648;
  dread_dwrite d n m bs : disk_ok d -> is_blk bs -> 0 <= n < dsize d -> 0 <= m < dsize d ->
    dread (dwrite n bs d) m = if decide (m = n) then bs else dread d m;
  iderw_write s i p b x :
    cur s = Some i -> procs s !! i = Some p -> held s = [] ->
    bufs (fsys s) !! b = Some x -> b_lock x = Sleeplock 1 (pid p) -> disk_ok (disk (fsys s)) ->
    b_dev x = 1 -> 0 <= blockno x < dsize (disk (fsys s)) -> flag (b_flags x) B_DIRTY = true ->
    iderw b s = Ret tt (set_disk (dwrite (blockno x) (bytes (data x)) (disk (fsys s)))
                  (set_bufs (<[b := set_b_flags (synced (b_flags x)) x]> (bufs (fsys s))) s));
  iderw_read s i p b x :
    cur s = Some i -> procs s !! i = Some p -> held s = [] ->
    bufs (fsys s) !! b = Some x -> b_lock x = Sleeplock 1 (pid p) -> disk_ok (disk (fsys s)) ->
    b_dev x = 1 -> 0 <= blockno x < dsize (disk (fsys s)) -> b_flags x = 0 ->
    iderw b s = Ret tt (set_bufs (<[b := set_b_flags B_VALID
                  (set_b_data (st_bytes (data x) 0 (dread (disk (fsys s)) (blockno x))) x)]> (bufs (fsys s))) s) }.

(** ** memide.c *)

Record memdisk : Type := Memdisk { disksize : Z; md_bytes : Zmap Z }.

Definition mem_iderw (b : nat) : M (kst (fsst memdisk)) unit :=
  h ← holdingsleep (SL_buf b);
  if negb (h : bool) then panic "iderw: buf not locked"
  else
    x ← get_buf b;
    if Z.land (b_flags x) (Z.lor B_VALID B_DIRTY) =? B_VALID then panic "iderw: nothing to do"
    else if negb (b_dev x =? 1) then panic "iderw: request not for disk 1"
    else
      d ← gets (fun s => disk (fsys s));
      if u32 (disksize d) <=? blockno x then panic "iderw: block out of range"
      else
        let p := u32 (blockno x * BSIZE) in
        (if flag (b_flags x) B_DIRTY then
           upd_buf b (fun x => set_b_flags (Z.land (b_flags x) (Z.lnot B_DIRTY)) x);;
           modify (set_disk (Memdisk (disksize d)
             (st_bytes (md_bytes d) p (ld_bytes (data x) 0 (Z.to_nat BSIZE)))))
         else
           upd_buf b (fun x => set_b_data (st_bytes (data x) 0 (ld_bytes (md_bytes d) p (Z.to_nat BSIZE))) x));;
        upd_buf b (fun x => set_b_flags (Z.lor (b_flags x) B_VALID) x).

#[export] Instance memide : BlockDevice memdisk := {| iderw := mem_iderw |}.

(** memide is such a disk. *)
Section memide.
Implicit Types d : memdisk.

Definition md_ok (d : memdisk) : Prop := mem_ok (md_bytes d) /\ 0 <= disksize d <= 8388608.
Definition md_read (d : memdisk) (n : Z) : list Z := ld_bytes (md_bytes d) (n * BSIZE) (Z.to_nat BSIZE).
Definition md_write (n : Z) (bs : list Z) (d : memdisk) : memdisk :=
  Memdisk (disksize d) (st_bytes (md_bytes d) (n * BSIZE) bs).

Lemma is_blk_ld m a : mem_ok m -> is_blk (ld_bytes m a (Z.to_nat BSIZE)).
Proof.
  intros Hm. split; [by rewrite length_ld_bytes|]. apply Forall_lookup. intros i y Hi.
  pose proof (lookup_lt_Some _ _ _ Hi) as Hlt. rewrite length_ld_bytes in Hlt.
  rewrite lookup_ld_bytes in Hi by done. injection Hi as <-. apply Hm.
Qed.

Lemma md_read_write d n m bs : md_ok d -> is_blk bs -> 0 <= n < disksize d -> 0 <= m < disksize d ->
  md_read (md_write n bs d) m = if decide (m = n) then bs else md_read d m.
Proof.
  intros [Hd Hs] [Hb Hr] Hn Hm. unfold md_read, md_write. cbn [md_bytes]. unfold BSIZE in *.
  change (Z.to_nat 512) with 512%nat in *. case_decide as Hmn.
  - subst m. apply list_eq. intros i. destruct (decide ((i < 512)%nat)) as [Hi|Hi].
    + rewrite lookup_ld_bytes by done. rewrite ld8_st_bytes, Hb, decide_True by lia.
      replace (Z.to_nat _) with i by lia. destruct (bs !! i) as [y|] eqn:E; [|apply lookup_ge_None in E; lia].
      cbn. f_equal. apply u8_id. by eapply Forall_lookup in Hr.
    + rewrite !lookup_ge_None_2; [done|lia|by rewrite length_ld_bytes; lia].
  - apply ld_bytes_ext. intros i Hi. rewrite ld8_st_bytes, Hb, decide_False by lia. done.
Qed.

Lemma mem_iderw_write (s : kst (fsst memdisk)) i p b x :
  cur s = Some i -> procs s !! i = Some p -> held s = [] -> bufs (fsys s) !! b = Some x ->
  b_lock x = Sleeplock 1 (pid p) -> md_ok (disk (fsys s)) -> b_dev x = 1 ->
  0 <= blockno x < disksize (disk (fsys s)) -> flag (b_flags x) B_DIRTY = true ->
  mem_iderw b s = Ret tt (set_disk (md_write (blockno x) (bytes (data x)) (disk (fsys s)))
                  (set_bufs (<[b := set_b_flags (synced (b_flags x)) x]> (bufs (fsys s))) s)).
Proof.
  intros Hc Hp Hh Hb Hl [_ Hd] Hdev Hn Hf. unfold mem_iderw.
  rewrite (bind_ret_run _ _ _ _ _ (run_holding_mine s i p b x Hc Hp Hh Hb Hl)). cbn [negb].
  krun_with run_get_buf; [|exact Hb].
  assert ((Z.land (b_flags x) (Z.lor B_VALID B_DIRTY) =? B_VALID) = false) as ->.
  { apply Z.eqb_neq. intros E. unfold flag, B_DIRTY, B_VALID in *. apply negb_true_iff, Z.eqb_neq in Hf. apply Hf.
    change (Z.lor 2 4) with 6 in E. change 4 with (Z.land 6 4). rewrite Z.land_assoc, E. done. }
  rewrite Hdev. cbn [negb Z.eqb Pos.eqb]. mrun. rewrite (u32_id (disksize (disk (fsys s)))) by lia.
  rewrite (proj2 (Z.leb_gt _ _)) by lia. unfold BSIZE at 1 2. rewrite u32_id by lia. rewrite Hf. mrun.
  krun_with run_upd_buf; [|exact Hb]. mrun. fsimp.
  assert (Hlen : (b < List.length (bufs (fsys s)))%nat) by (by eapply lookup_lt_Some).
  erewrite run_upd_buf; [|fsimp; by apply list_lookup_insert_eq]. fsimp. rewrite list_insert_insert_eq. done.
Qed.

Lemma mem_iderw_read (s : kst (fsst memdisk)) i p b x :
  cur s = Some i -> procs s !! i = Some p -> held s = [] -> bufs (fsys s) !! b = Some x ->
  b_lock x = Sleeplock 1 (pid p) -> md_ok (disk (fsys s)) -> b_dev x = 1 ->
  0 <= blockno x < disksize (disk (fsys s)) -> b_flags x = 0 ->
  mem_iderw b s = Ret tt (set_bufs (<[b := set_b_flags B_VALID
                  (set_b_data (st_bytes (data x) 0 (md_read (disk (fsys s)) (blockno x))) x)]> (bufs (fsys s))) s).
Proof.
  intros Hc Hp Hh Hb Hl [_ Hd] Hdev Hn Hf. unfold mem_iderw.
  rewrite (bind_ret_run _ _ _ _ _ (run_holding_mine s i p b x Hc Hp Hh Hb Hl)). cbn [negb].
  krun_with run_get_buf; [|exact Hb]. rewrite Hf, Hdev.
  change (Z.land 0 (Z.lor B_VALID B_DIRTY) =? B_VALID) with false. change (negb (1 =? 1)) with false. cbv iota.
  mrun. rewrite (u32_id (disksize (disk (fsys s)))) by lia.
  rewrite (proj2 (Z.leb_gt _ _)) by lia. change (flag 0 B_DIRTY) with false. cbv iota.
  unfold BSIZE at 1. rewrite u32_id by lia.
  krun_with run_upd_buf; [|exact Hb].
  assert (Hlen : (b < List.length (bufs (fsys s)))%nat) by (by eapply lookup_lt_Some).
  erewrite run_upd_buf; [|fsimp; by apply list_lookup_insert_eq]. fsimp. rewrite list_insert_insert_eq.
  cbn [b_flags set_b_data]. by rewrite Hf.
Qed.

End memide.

#[export] Program Instance memide_disk : Disk memdisk := {|
  dsize := disksize; dread := md_read; dwrite := md_write; disk_ok := md_ok;
  dread_dwrite := md_read_write; iderw_write := mem_iderw_write; iderw_read := mem_iderw_read |}.
Next Obligation. intros d n [Hd _] _. by apply is_blk_ld. Qed.
Next Obligation. intros d n bs [Hd Hs] _ _. split; [by apply mem_ok_st_bytes|done]. Qed.
Next Obligation. done. Qed.
Next Obligation. intros d [_ Hs]. cbn. lia. Qed.

(** ** The cache as a whole *)

Section cache.
Context {D : Type} {BD : BlockDevice D} {DK : Disk D}.
Implicit Types (f : fsst D) (s : kst (fsst D)).

Definition buf_at (f : fsst D) (b : nat) (x : buf) : Prop := (b < NBUF)%nat /\ bufs f !! b = Some x.

(** A buffer of a cache in which process [me] holds the buffers [busy]: it is empty,
    clean, or dirty; a busy buffer is locked by [me]; an idle clean one is in step
    with the disk [d]. *)
Definition buf_ok (me : Z) (d : D) (busy : list nat) (b : nat) (x : buf) : Prop :=
  (b_flags x = 0 \/ b_flags x = 2 \/ b_flags x = 6) /\ mem_ok (data x) /\
  (b_flags x <> 0 -> b_dev x = 1 /\ 0 <= blockno x < dsize d) /\
  (if decide (b ∈ busy) then b_refcnt x = 1 /\ b_lock x = Sleeplock 1 me /\ b_flags x <> 0
   else b_refcnt x = 0 /\ b_lock x = Sleeplock 0 0 /\
        (b_flags x = 2 -> bytes (data x) = dread d (blockno x))).

Record bc (me : Z) (f : fsst D) (order busy : list nat) : Prop := Bc {
  bc_len : List.length (bufs f) = S NBUF;
  bc_ring : ring (bufs f) order;
  bc_perm : order ≡ₚ seq 0 NBUF;
  bc_uniq a b x y : buf_at f a x -> buf_at f b y -> b_dev x = 1 -> b_dev y = 1 -> blockno x = blockno y -> a = b;
  bc_bufs b x : buf_at f b x -> buf_ok me (disk f) busy b x;
  bc_nodup : NoDup busy;
  bc_disk : disk_ok (disk f) }.

(** The contents of block [n]: those of its buffer, or those on the disk. *)
Definition is_block (n : Z) (x : buf) : bool := (b_dev x =? 1) && (blockno x =? n) && negb (b_flags x =? 0).
Definition block (f : fsst D) (n : Z) : list Z :=
  match List.find (is_block n) (take NBUF (bufs f)) with
  | Some x => bytes (data x)
  | None => dread (disk f) n
  end.

(** Block [n] is pinned in the cache. *)
Definition dirty (f : fsst D) (n : Z) : Prop :=
  exists b x, buf_at f b x /\ b_dev x = 1 /\ blockno x = n /\ b_flags x = 6.

(** Process [me] runs and holds no spin lock. *)
Definition env (me : Z) (s : kst (fsst D)) : Prop :=
  exists i p, cur s = Some i /\ procs s !! i = Some p /\ pid p = me /\ held s = [].

Lemma buf_at_take f b x : buf_at f b x <-> take NBUF (bufs f) !! b = Some x.
Proof.
  unfold buf_at. split.
  - intros [Hb Hx]. by rewrite lookup_take_lt.
  - intros Hx. pose proof (lookup_lt_Some _ _ _ Hx) as Hl. rewrite length_take in Hl.
    rewrite lookup_take_lt in Hx by lia. split; [lia|done].
Qed.

Lemma is_block_spec n x : is_block n x = true <-> b_dev x = 1 /\ blockno x = n /\ b_flags x <> 0.
Proof. unfold is_block. rewrite !andb_true_iff, !Z.eqb_eq, negb_true_iff, Z.eqb_neq. tauto. Qed.

Lemma find_lookup {A} (t : A -> bool) (l : list A) x : List.find t l = Some x -> exists i, l !! i = Some x /\ t x = true.
Proof. intros [H1 H2]%find_some. apply list_elem_of_In, list_elem_of_lookup in H1 as [i Hi]. eauto. Qed.

Definition uniq (f : fsst D) : Prop :=
  forall a b x y, buf_at f a x -> buf_at f b y -> b_dev x = 1 -> b_dev y = 1 -> blockno x = blockno y -> a = b.

Lemma block_cached f b x : uniq f -> buf_at f b x -> b_dev x = 1 -> b_flags x <> 0 ->
  block f (blockno x) = bytes (data x).
Proof.
  intros Hu Hx Hd Hf. unfold block. destruct (List.find _ _) as [y|] eqn:E.
  - apply find_lookup in E as (c & Hc & Hy). apply buf_at_take in Hc. apply is_block_spec in Hy as (Y1 & Y2 & Y3).
    assert (c = b) as -> by (by eapply Hu). destruct Hc, Hx. congruence.
  - apply buf_at_take in Hx. eapply find_none in E; [|apply list_elem_of_In, list_elem_of_lookup; eauto].
    assert (is_block (blockno x) x = true) by (by apply is_block_spec). congruence.
Qed.

Lemma block_uncached f n :
  (forall b x, buf_at f b x -> b_dev x = 1 -> blockno x = n -> b_flags x = 0) -> block f n = dread (disk f) n.
Proof.
  intros H. unfold block. destruct (List.find _ _) as [y|] eqn:E; [|done].
  apply find_lookup in E as (c & Hc & Hy). apply buf_at_take in Hc. apply is_block_spec in Hy as (Y1 & Y2 & Y3).
  destruct Y3. by eapply H.
Qed.

Lemma bc_order me f order busy b : bc me f order busy -> b ∈ order <-> (b < NBUF)%nat.
Proof. intros H. rewrite (bc_perm _ _ _ _ H), elem_of_seq. lia. Qed.
Lemma bc_order_nodup me f order busy : bc me f order busy -> NoDup order.
Proof. intros H. rewrite (bc_perm _ _ _ _ H). apply NoDup_seq. Qed.
Lemma bc_order_head me f order busy : bc me f order busy -> HEAD ∉ order.
Proof. intros H. rewrite (bc_order _ _ _ _ _ H). unfold HEAD. lia. Qed.
Lemma bc_order_length me f order busy : bc me f order busy -> List.length order = NBUF.
Proof. intros H. rewrite (bc_perm _ _ _ _ H). apply length_seq. Qed.
Lemma bc_lookup me f order busy b : bc me f order busy -> (b < NBUF)%nat -> exists x, buf_at f b x.
Proof.
  intros H Hb. destruct (bufs f !! b) as [x|] eqn:E; [by exists x|].
  apply lookup_ge_None in E. rewrite (bc_len _ _ _ _ H) in E. lia.
Qed.

(** Changing one buffer, keeping the list. *)
Lemma ring_insert bs b x y order :
  bs !! b = Some x -> next y = next x -> prev y = prev x -> ring bs order -> ring (<[b := y]> bs) order.
Proof.
  intros Hb Hn Hp Hr. assert (Hl : (b < List.length bs)%nat) by (by eapply lookup_lt_Some).
  eapply linked_ext; [exact Hr| |]; intros i _; unfold nextf, prevf.
  - destruct (decide (i = b)) as [->|Hne]; [rewrite list_lookup_insert_eq, Hb by done; cbn; by f_equal|].
    by rewrite list_lookup_insert_ne.
  - destruct (decide (i = b)) as [->|Hne]; [rewrite list_lookup_insert_eq, Hb by done; cbn; by f_equal|].
    by rewrite list_lookup_insert_ne.
Qed.

Lemma buf_at_insert f f' b x y c z :
  buf_at f b x -> bufs f' = <[b := y]> (bufs f) -> buf_at f' c z <-> (c = b /\ z = y) \/ (c <> b /\ buf_at f c z).
Proof.
  intros [Hb Hx] E. unfold buf_at. rewrite E. assert (Hl : (b < List.length (bufs f))%nat) by (by eapply lookup_lt_Some).
  destruct (decide (c = b)) as [->|Hne].
  - rewrite list_lookup_insert_eq by done. split; [|by intros [[_ ->]|[? _]]].
    intros [_ [= ->]]. by left.
  - rewrite list_lookup_insert_ne by done. split; [by right|]. by intros [[? _]|[_ ?]].
Qed.

Lemma bc_update me f f' order busy busy' b x y :
  bc me f order busy -> buf_at f b x -> bufs f' = <[b := y]> (bufs f) -> next y = next x -> prev y = prev x ->
  (b_dev y = 1 -> forall c z, c <> b -> buf_at f c z -> b_dev z = 1 -> blockno z <> blockno y) ->
  buf_ok me (disk f') busy' b y ->
  (forall c z, c <> b -> buf_at f c z -> buf_ok me (disk f) busy c z -> buf_ok me (disk f') busy' c z) ->
  NoDup busy' -> disk_ok (disk f') ->
  bc me f' order busy'.
Proof.
  intros H Hb E Hn Hp Hk Hy Hc Hnd Hd. split; try done.
  - rewrite E, length_insert. apply H.
  - rewrite E. destruct Hb as [_ Hx]. by eapply ring_insert; [exact Hx| | |apply H].
  - apply H.
  - intros a c u v Hu Hv D1 D2 Hbn.
    apply (buf_at_insert f f' b x y a u Hb E) in Hu. apply (buf_at_insert f f' b x y c v Hb E) in Hv.
    destruct Hu as [[-> ->]|[Hne Hu]], Hv as [[-> ->]|[Hne' Hv]]; [done| | |by eapply (bc_uniq _ _ _ _ H)].
    + by destruct (Hk D1 c v Hne' Hv D2).
    + by destruct (Hk D2 a u Hne Hu D1).
  - intros c z Hz. apply (buf_at_insert f f' b x y c z Hb E) in Hz.
    destruct Hz as [[-> ->]|[Hne Hz]]; [done|]. apply Hc; [done|done|]. by apply H.
Qed.

(** ** bget *)

Lemma bc_head me f order busy : bc me f order busy ->
  exists h, bufs f !! HEAD = Some h /\ next h = default HEAD (nextf (bufs f) HEAD) /\
            prev h = default HEAD (prevf (bufs f) HEAD).
Proof.
  intros H. destruct (lookup_lt_is_Some_2 (bufs f) HEAD) as [h Hh]; [rewrite (bc_len _ _ _ _ H); unfold HEAD; lia|].
  exists h. unfold nextf, prevf. by rewrite Hh.
Qed.

Section bget.
Context (fuel : nat) (me : Z) (s : kst (fsst D)) (order busy : list nat) (n : Z).
Context (Hfuel : (1 <= fuel)%nat) (Henv : env me s) (Hbc : bc me (fsys s) order busy).

Lemma run_bget_lock b x s' : held s' = [] -> cur s' = cur s -> procs s' = procs s ->
  bufs (fsys s') = <[b := x]> (bufs (fsys s)) -> b_lock x = Sleeplock 0 0 -> (b < List.length (bufs (fsys s)))%nat ->
  acquiresleep fuel (SL_buf b) s' = Ret tt (set_bufs (<[b := set_b_lock (Sleeplock 1 me) x]> (bufs (fsys s))) s').
Proof.
  intros Hh Hc Hp Hb Hl Hlen. destruct Henv as (i & p & Hcur & Hpr & Hpid & _).
  rewrite (run_acquiresleep fuel s' _ (b_lock x) i p); [|done|congruence|congruence|rewrite Hh; set_solver| |by rewrite Hl].
  - cbn [with_sl]. rewrite (alter_insert_lookup _ _ _ x), Hb, list_insert_insert_eq, Hpid; [done|].
    rewrite Hb. by apply list_lookup_insert_eq.
  - cbn. rewrite Hb, list_lookup_insert_eq by done. done.
Qed.

Lemma run_bget_hit b x : buf_at (fsys s) b x -> hit 1 n x = true -> b ∉ busy ->
  bget fuel 1 n s =
    Ret b (set_bufs (<[b := set_b_lock (Sleeplock 1 me) (set_b_refcnt 1 x)]> (bufs (fsys s))) s).
Proof.
  intros Hx Hhit Hb. destruct Henv as (i & p & Hcur & Hpr & Hpid & Hheld). unfold bget.
  destruct (bc_head _ _ _ _ Hbc) as (h & Hh & Hnext & _).
  krun_with run_acquire; [|rewrite Hheld; set_solver]. krun_with run_get_buf; [|exact Hh].
  set (s1 := set_held _ s). rewrite Hnext. erewrite bind_ret_run; [|apply (scan_next s1 1 n HEAD order (S NBUF))].
  2:{ exact (bc_ring _ _ _ _ Hbc). } 2:{ by eapply bc_order_head. }
  2:{ rewrite (bc_order_length _ _ _ _ Hbc). lia. } cbv beta.
  change (bufs (fsys s1)) with (bufs (fsys s)). pose proof (bc_bufs _ _ _ _ Hbc b x Hx) as (_ & _ & _ & Hok).
  rewrite decide_False in Hok by done. destruct Hok as (Hr & Hl & _).
  assert (List.find (tst (hit 1 n) (bufs (fsys s))) order = Some b) as ->.
  { destruct (List.find _ order) as [c|] eqn:E.
    - apply find_lookup in E as (k & Hk & Hc). unfold tst in Hc. destruct (bufs (fsys s) !! c) as [y|] eqn:Hy; [|done].
      unfold hit in *. apply andb_prop in Hc as [C1%Z.eqb_eq C2%Z.eqb_eq]. apply andb_prop in Hhit as [X1%Z.eqb_eq X2%Z.eqb_eq].
      f_equal. eapply (bc_uniq _ _ _ _ Hbc c b y x); [split; [|done]|done|lia..].
      eapply bc_order; [exact Hbc|]. apply list_elem_of_lookup; eauto.
    - eapply find_none in E; [|apply list_elem_of_In; eapply bc_order; [exact Hbc|apply Hx]].
      unfold tst in E. destruct Hx as [_ Hx]. rewrite Hx in E. congruence. }
  destruct Hx as [Hlt Hx]. assert (Hlen : (b < List.length (bufs (fsys s)))%nat) by (by eapply lookup_lt_Some).
  krun_with run_upd_buf; [|exact Hx]. rewrite Hr. change (u32 (0 + 1)) with 1.
  krun_with run_release_top; [|done|rewrite Hheld; set_solver].
  erewrite bind_ret_run.
  2:{ apply (run_bget_lock b (set_b_refcnt 1 x)); done. }
  done.
Qed.

Lemma run_bget_miss b x : (forall c y, buf_at (fsys s) c y -> hit 1 n y = false) ->
  List.find (tst idle (bufs (fsys s))) (rev order) = Some b -> buf_at (fsys s) b x -> b_lock x = Sleeplock 0 0 ->
  bget fuel 1 n s =
    Ret b (set_bufs (<[b := set_b_lock (Sleeplock 1 me) (set_b_refcnt 1 (set_b_flags 0
             (set_b_blockno n (set_b_dev 1 x))))]> (bufs (fsys s))) s).
Proof.
  intros Hmiss Hfind [Hlt Hx] Hl. destruct Henv as (i & p & Hcur & Hpr & Hpid & Hheld). unfold bget.
  destruct (bc_head _ _ _ _ Hbc) as (h & Hh & Hnext & Hprev).
  krun_with run_acquire; [|rewrite Hheld; set_solver]. krun_with run_get_buf; [|exact Hh].
  set (s1 := set_held _ s). rewrite Hnext. erewrite bind_ret_run; [|apply (scan_next s1 1 n HEAD order (S NBUF))].
  2:{ exact (bc_ring _ _ _ _ Hbc). } 2:{ by eapply bc_order_head. }
  2:{ rewrite (bc_order_length _ _ _ _ Hbc). lia. } cbv beta.
  change (bufs (fsys s1)) with (bufs (fsys s)).
  assert (List.find (tst (hit 1 n) (bufs (fsys s))) order = None) as ->.
  { destruct (List.find _ order) as [c|] eqn:E; [|done].
    apply find_lookup in E as (k & Hk & Hc). unfold tst in Hc. destruct (bufs (fsys s) !! c) as [y|] eqn:Hy; [|done].
    rewrite (Hmiss c y) in Hc; [done|]. split; [|done]. eapply bc_order; [exact Hbc|]. apply list_elem_of_lookup; eauto. }
  krun_with run_get_buf; [|exact Hh]. rewrite Hprev.
  erewrite bind_ret_run; [|apply (scan_prev s1 HEAD order (S NBUF))].
  2:{ exact (bc_ring _ _ _ _ Hbc). } 2:{ by eapply bc_order_head. }
  2:{ rewrite (bc_order_length _ _ _ _ Hbc). lia. } cbv beta.
  change (bufs (fsys s1)) with (bufs (fsys s)). rewrite Hfind.
  assert (Hlen : (b < List.length (bufs (fsys s)))%nat) by (by eapply lookup_lt_Some).
  krun_with run_upd_buf; [|exact Hx].
  do 3 (krun_with run_upd_buf; [|fsimp; by rewrite ?list_insert_insert_eq; apply list_lookup_insert_eq]).
  krun_with run_release_top; [|done|rewrite Hheld; set_solver]. fsimp. rewrite !list_insert_insert_eq.
  erewrite bind_ret_run.
  2:{ eapply (run_bget_lock b); done. }
  done.
Qed.

End bget.

(** ** The contents after changing one buffer *)

Lemma block_cases f m :
  (exists b x, buf_at f b x /\ b_dev x = 1 /\ blockno x = m /\ b_flags x <> 0) \/
  (forall b x, buf_at f b x -> b_dev x = 1 -> blockno x = m -> b_flags x = 0).
Proof.
  destruct (List.find (is_block m) (take NBUF (bufs f))) as [x|] eqn:E.
  - left. apply find_lookup in E as (b & Hb & Hx). exists b, x. rewrite buf_at_take. by rewrite is_block_spec in Hx.
  - right. intros b x Hx D1 D2. destruct (decide (b_flags x = 0)) as [|Hf]; [done|].
    apply buf_at_take in Hx. eapply find_none in E; [|apply list_elem_of_In, list_elem_of_lookup; eauto].
    assert (is_block m x = true) by (by apply is_block_spec). congruence.
Qed.

Lemma block_insert f f' b x y m :
  uniq f -> uniq f' -> buf_at f b x -> bufs f' = <[b := y]> (bufs f) -> m <> blockno y ->
  (b_dev x = 1 -> blockno x = m -> b_flags x <> 0 -> bytes (data x) = dread (disk f') m) ->
  dread (disk f') m = dread (disk f) m ->
  block f' m = block f m.
Proof.
  intros Hu Hu' Hb E Hm Hsync Hd.
  destruct (block_cases f' m) as [(c & z & Hz & Z1 & Z2 & Z3)|Hnone].
  - pose proof Hz as Hz'. apply (buf_at_insert f f' b x y c z Hb E) in Hz as [[_ ->]|[Hne Hz]]; [congruence|].
    rewrite <- Z2. by rewrite (block_cached f' c z), (block_cached f c z).
  - rewrite (block_uncached f') by done.
    destruct (block_cases f m) as [(c & z & Hz & Z1 & Z2 & Z3)|Hnone'].
    + destruct (decide (c = b)) as [->|Hne].
      * assert (z = x) as -> by (destruct Hz, Hb; congruence). rewrite <- Z2, (block_cached f b x), Z2 by done. symmetry. by apply Hsync.
      * destruct Z3. apply (Hnone c z); [|done|done]. apply (buf_at_insert f f' b x y c z Hb E). by right.
    + by rewrite (block_uncached f) by done.
Qed.

Lemma dirty_insert f f' b x y m :
  buf_at f b x -> bufs f' = <[b := y]> (bufs f) ->
  (b_flags x = 6 -> b_dev x = 1 -> b_flags y = 6 /\ b_dev y = 1 /\ blockno y = blockno x) ->
  (b_flags y = 6 -> b_flags x = 6 /\ b_dev x = 1 /\ blockno y = blockno x) -> dirty f' m <-> dirty f m.
Proof.
  intros Hb E H1 H2. unfold dirty. split; intros (c & z & Hz & Z1 & Z2 & Z3).
  - apply (buf_at_insert f f' b x y c z Hb E) in Hz as [[-> ->]|[Hne Hz]]; [|by exists c, z].
    destruct (H2 Z3) as (F & V & B). exists b, x. split_and!; [done|done|congruence|done].
  - destruct (decide (c = b)) as [->|Hne].
    + assert (z = x) as -> by (destruct Hz, Hb; congruence). destruct (H1 Z3 Z1) as (F & V & B).
      exists b, y. split_and!; [|done|congruence|done]. apply (buf_at_insert f f' b x y b y Hb E). by left.
    + exists c, z. split; [|done]. apply (buf_at_insert f f' b x y c z Hb E). by right.
Qed.

(** ** bread *)

Definition evictable (f : fsst D) (busy : list nat) : Prop :=
  exists b x, buf_at f b x /\ (b ∉ busy) /\ b_flags x <> 6.

(** Fewer pinned and busy buffers than buffers leave one to recycle. *)
Lemma evictable_count me f order busy (l : list Z) :
  bc me f order busy -> (forall m, dirty f m -> m ∈ l) -> (List.length l + List.length busy < NBUF)%nat -> evictable f busy.
Proof.
  intros Hbc Hl Hlt.
  set (key := fun b => match bufs f !! b with Some x => blockno x | None => 0 end).
  destruct (decide (Exists (fun b => (b ∉ busy) /\ default 6 (b_flags <$> bufs f !! b) <> 6) (seq 0 NBUF))) as [He|Hne].
  - apply Exists_exists in He as (b & Hb & Hb2 & Hb3). apply elem_of_seq in Hb.
    destruct (bc_lookup _ _ _ _ b Hbc) as [x Hx]; [lia|]. exists b, x. rewrite (proj2 Hx) in Hb3. done.
  - exfalso. rewrite <- Forall_Exists_neg, Forall_forall in Hne.
    assert (Hall : forall b, (b < NBUF)%nat -> b ∉ busy -> exists x, buf_at f b x /\ b_flags x = 6 /\ b_dev x = 1).
    { intros b Hb Hnb. destruct (bc_lookup _ _ _ _ b Hbc Hb) as [x Hx]. exists x. split; [done|].
      assert (b_flags x = 6) as F.
      { destruct (decide (b_flags x = 6)) as [|F]; [done|]. exfalso. apply (Hne b); [apply elem_of_seq; lia|].
        rewrite (proj2 Hx). done. }
      split; [done|]. apply (bc_bufs _ _ _ _ Hbc b x Hx). lia. }
    set (free := filter (fun b => b ∉ busy) (seq 0 NBUF)).
    assert (Hfree : (NBUF <= List.length free + List.length busy)%nat).
    { assert (Hincl : List.incl (seq 0 NBUF) (free ++ busy)).
      { intros b Hb. apply in_or_app. destruct (decide (b ∈ busy)); [right; by apply list_elem_of_In|left].
        apply list_elem_of_In, list_elem_of_filter. split; [done|by apply list_elem_of_In]. }
      apply NoDup_incl_length in Hincl; [|apply NoDup_ListNoDup, NoDup_seq]. rewrite length_app, length_seq in Hincl. lia. }
    assert (Hk : List.incl (key <$> free) l).
    { intros m Hm. apply list_elem_of_In, list_elem_of_fmap in Hm as (b & -> & Hb).
      apply list_elem_of_filter in Hb as [Hnb Hb%elem_of_seq]. destruct (Hall b) as (x & Hx & F & V); [lia|done|].
      apply list_elem_of_In, Hl. exists b, x. split_and!; [done|done|unfold key; by rewrite (proj2 Hx)|done]. }
    apply NoDup_incl_length in Hk; [rewrite length_fmap in Hk; lia|].
    apply NoDup_ListNoDup, NoDup_fmap_2_strong; [|apply NoDup_filter, NoDup_seq].
    intros b1 b2 Hb1 Hb2 E. apply list_elem_of_filter in Hb1 as [N1 B1%elem_of_seq]. apply list_elem_of_filter in Hb2 as [N2 B2%elem_of_seq].
    destruct (Hall b1) as (x1 & X1 & _ & V1); [lia|done|]. destruct (Hall b2) as (x2 & X2 & _ & V2); [lia|done|].
    unfold key in E. rewrite (proj2 X1), (proj2 X2) in E. by eapply (bc_uniq _ _ _ _ Hbc b1 b2 x1 x2).
Qed.

(** What bread of block [n] gives: buffer [b], now [x]. *)
Record got (me : Z) (s : kst (fsst D)) (n : Z) (order busy : list nat) (b : nat) (x : buf) (s' : kst (fsst D)) : Prop := Got {
  got_state : s' = set_bufs (<[b := x]> (bufs (fsys s))) s;
  got_at : buf_at (fsys s') b x;
  got_new : b ∉ busy;
  got_dev : b_dev x = 1;
  got_blockno : blockno x = n;
  got_data : bytes (data x) = block (fsys s) n;
  got_sync : b_flags x = 2 -> bytes (data x) = dread (disk (fsys s)) n;
  got_flags : b_flags x = 2 \/ b_flags x = 6;
  got_bc : bc me (fsys s') order (b :: busy);
  got_block m : 0 <= m < dsize (disk (fsys s)) -> block (fsys s') m = block (fsys s) m;
  got_dirty m : dirty (fsys s') m <-> dirty (fsys s) m }.

Lemma mem_ok_is_blk m bs : mem_ok m -> is_blk bs -> mem_ok (st_bytes m 0 bs) /\ bytes (st_bytes m 0 bs) = bs.
Proof.
  intros Hm [Hl Hr]. split; [by apply mem_ok_st_bytes|]. unfold bytes. apply list_eq. intros i.
  destruct (decide ((i < Z.to_nat BSIZE)%nat)) as [Hi|Hi].
  - rewrite lookup_ld_bytes by done. rewrite ld8_st_bytes, Hl, decide_True by lia.
    replace (Z.to_nat _) with i by lia. destruct (bs !! i) as [y|] eqn:E; [|apply lookup_ge_None in E; lia].
    cbn. f_equal. apply u8_id. by eapply Forall_lookup in Hr.
  - rewrite !lookup_ge_None_2; [done|lia|by rewrite length_ld_bytes; lia].
Qed.

Lemma got_intro me s order busy b x y n :
  bc me (fsys s) order busy -> buf_at (fsys s) b x -> b ∉ busy ->
  next y = next x -> prev y = prev x -> b_dev y = 1 -> blockno y = n -> b_refcnt y = 1 ->
  b_lock y = Sleeplock 1 me -> (b_flags y = 2 \/ b_flags y = 6) -> mem_ok (data y) ->
  bytes (data y) = block (fsys s) n -> (b_flags y = 2 -> bytes (data y) = dread (disk (fsys s)) n) ->
  0 <= n < dsize (disk (fsys s)) ->
  (forall c z, c <> b -> buf_at (fsys s) c z -> b_dev z = 1 -> blockno z <> n) ->
  (b_flags x = 6 -> b_flags y = 6 /\ blockno x = n) -> (b_flags y = 6 -> b_flags x = 6) ->
  got me s n order busy b y (set_bufs (<[b := y]> (bufs (fsys s))) s).
Proof.
  intros Hbc Hx Hb Hn Hp Hd Hbn Hr Hl Hf Hm Hdata Hsync Hrange Hk Hd1 Hd2.
  set (s' := set_bufs _ s). assert (E : bufs (fsys s') = <[b := y]> (bufs (fsys s))) by done.
  assert (Hat : buf_at (fsys s') b y) by (apply (buf_at_insert _ _ b x y b y Hx E); by left).
  pose proof (bc_bufs _ _ _ _ Hbc b x Hx) as (Hxf & _ & Hxr & Hxi). rewrite decide_False in Hxi by done.
  assert (Hbc' : bc me (fsys s') order (b :: busy)).
  { eapply bc_update; [exact Hbc|exact Hx|exact E|done|done| | | | |apply Hbc].
    - intros _ c z Hne Hz D1. rewrite Hbn. by apply (Hk c).
    - split_and!; [tauto|done|by rewrite Hbn|]. rewrite decide_True by set_solver. split_and!; [done..|lia].
    - intros c z Hne Hz (Z1 & Z2 & Z3 & Z4). split_and!; [done..|].
      destruct (decide (c ∈ busy)); [rewrite decide_True by set_solver|rewrite decide_False by set_solver]; done.
    - apply NoDup_cons. split; [done|apply Hbc]. }
  split; try done.
  - intros m Hm'. destruct (decide (m = n)) as [->|Hne].
    + rewrite <- Hbn at 1. rewrite (block_cached (fsys s') b y); [done| |done|done|lia]. exact (bc_uniq _ _ _ _ Hbc').
    + eapply (block_insert (fsys s) (fsys s') b x y); [exact (bc_uniq _ _ _ _ Hbc)|exact (bc_uniq _ _ _ _ Hbc')|done|done|congruence| |done].
      intros X1 X2 X3. rewrite <- X2. apply Hxi. destruct Hxf as [?|[?|F6]]; [done|done|]. destruct (Hd1 F6). congruence.
  - intros m. eapply (dirty_insert (fsys s) (fsys s') b x y); [done|done| |].
    + intros F6 X1. destruct (Hd1 F6). split_and!; [done|done|congruence].
    + intros F6. pose proof (Hd2 F6) as F6'. split_and!; [done|apply Hxr; lia|]. destruct (Hd1 F6'). congruence.
Qed.

(** bread after bget has found or recycled the buffer. *)
Section bread.
Context (fuel : nat) (me : Z) (s : kst (fsst D)) (order busy : list nat) (n : Z).
Context (Hf : (1 <= fuel)%nat) (Henv : env me s) (Hbc : bc me (fsys s) order busy).
Context (Hn : 0 <= n < dsize (disk (fsys s))).

Lemma wp_bread_from b x y :
  buf_at (fsys s) b x -> b ∉ busy ->
  next y = next x -> prev y = prev x -> b_dev y = 1 -> blockno y = n -> b_refcnt y = 1 ->
  b_lock y = Sleeplock 1 me -> mem_ok (data y) ->
  (forall c z, c <> b -> buf_at (fsys s) c z -> b_dev z = 1 -> blockno z <> n) ->
  (b_flags y = 0 /\ b_flags x <> 6 /\ block (fsys s) n = dread (disk (fsys s)) n \/
   (b_flags y = 2 \/ b_flags y = 6) /\ b_flags x = b_flags y /\ blockno x = n /\ data x = data y) ->
  bget fuel 1 n s = Ret b (set_bufs (<[b := y]> (bufs (fsys s))) s) ->
  wp (bread fuel 1 n) (fun b s' => exists x, got me s n order busy b x s') s.
Proof.
  intros Hx Hb Y1 Y2 Y3 Y4 Y5 Y6 Y7 Hk Hfl Hget. pose proof Henv as (i & p & Hcur & Hpr & Hpid & Hheld). unfold bread.
  assert (Hlen : (b < List.length (bufs (fsys s)))%nat) by (destruct Hx; by eapply lookup_lt_Some).
  eapply wp_run; [rewrite (bind_ret_run _ _ _ _ _ Hget)|]; [reflexivity|].
  set (s1 := set_bufs _ s). assert (Hy : bufs (fsys s1) !! b = Some y) by (unfold s1; fsimp; by apply list_lookup_insert_eq).
  eapply wp_run; [rewrite (bind_ret_run _ _ _ _ _ (run_get_buf s1 b y Hy)); reflexivity|].
  destruct Hfl as [(F0 & F1 & F2)|(F0 & F1 & F2 & F3)].
  - rewrite F0. change (negb (flag 0 B_VALID)) with true. cbn [when].
    destruct (mem_ok_is_blk (data y) (dread (disk (fsys s)) n)) as [M1 M2]; [done|by apply dread_blk; [apply Hbc|]|].
    apply wp_bind. eapply wp_result.
    { apply (iderw_read s1 i p b y); try done; [by rewrite Hpid|apply Hbc|by rewrite Y4]. }
    fsimp. rewrite Y4. change (disk (fsys s1)) with (disk (fsys s)). unfold s1 at 1. fsimp. rewrite list_insert_insert_eq.
    apply wp_ret. exists (set_b_flags B_VALID (set_b_data (st_bytes (data y) 0 (dread (disk (fsys s)) n)) y)).
    replace (set_bufs _ s1) with (set_bufs (<[b := set_b_flags B_VALID (set_b_data (st_bytes (data y) 0 (dread (disk (fsys s)) n)) y)]> (bufs (fsys s))) s) by done.
    apply (got_intro me s order busy b x); try done; cbn; [by left|by rewrite M2].
  - replace (negb (flag (b_flags y) B_VALID)) with false by (destruct F0 as [-> | ->]; done). cbn [when].
    apply wp_ret. exists y. assert (b_dev x = 1 /\ b_flags x <> 0) as [X1 X2].
    { split; [|lia]. apply (bc_bufs _ _ _ _ Hbc b x Hx). lia. }
    apply (got_intro me s order busy b x); try done; [| |split; congruence|congruence].
    2:{ intros F. pose proof (bc_bufs _ _ _ _ Hbc b x Hx) as (_ & _ & _ & Hi). rewrite decide_False in Hi by done.
        rewrite <- F2, <- F3. apply Hi. congruence. }
    rewrite <- F2, <- F3. symmetry. apply (block_cached (fsys s) b x); try done. exact (bc_uniq _ _ _ _ Hbc).
Qed.

(** bread returns the block's buffer, locked, with the block's contents. *)
Lemma wp_bread :
  (forall b x, b ∈ busy -> buf_at (fsys s) b x -> blockno x <> n) ->
  dirty (fsys s) n \/ evictable (fsys s) busy ->
  wp (bread fuel 1 n) (fun b s' => exists x, got me s n order busy b x s') s.
Proof.
  intros Hbusy Hev. destruct (List.find (hit 1 n) (take NBUF (bufs (fsys s)))) as [x|] eqn:E.
  - apply find_lookup in E as (b & Hx%buf_at_take & Hhit). pose proof Hhit as [X1%Z.eqb_eq X2%Z.eqb_eq]%andb_prop.
    assert (Hb : b ∉ busy) by (intros Hb; by eapply Hbusy).
    assert (Hk : forall c z, c <> b -> buf_at (fsys s) c z -> b_dev z = 1 -> blockno z <> n).
    { intros c z Hne Hz Z1 Z2. destruct Hne. eapply (bc_uniq _ _ _ _ Hbc c b z x); congruence. }
    pose proof (bc_bufs _ _ _ _ Hbc b x Hx) as (Hxf & Hxm & _ & _).
    eapply (wp_bread_from b x); [done|done| | | | | | | |done| |by apply run_bget_hit with (order := order) (busy := busy)]; try done.
    cbn. destruct Hxf as [F|[F|F]]; [left|right; split_and!; tauto..]. split_and!; [done|lia|].
    apply block_uncached. intros c z Hz Z1 Z2. destruct (decide (c = b)) as [->|Hne]; [destruct Hz, Hx; congruence|].
    by destruct (Hk c z Hne Hz Z1).
  - assert (Hmiss : forall c y, buf_at (fsys s) c y -> hit 1 n y = false).
    { intros c y Hy%buf_at_take. eapply find_none in E; [done|]. apply list_elem_of_In, list_elem_of_lookup; eauto. }
    assert (Hk : forall c z, buf_at (fsys s) c z -> b_dev z = 1 -> blockno z <> n).
    { intros c z Hz Z1 Z2. pose proof (Hmiss c z Hz) as H. unfold hit in H. by rewrite Z1, Z2, !Z.eqb_refl in H. }
    destruct Hev as [(c & y & Hy & Y1 & Y2 & _)|(c & y & Hy & Hc & Y6)]; [by destruct (Hk c y)|].
    destruct (List.find (tst idle (bufs (fsys s))) (rev order)) as [b|] eqn:Ef.
    2:{ exfalso. eapply find_none in Ef; [|rewrite <- in_rev; apply list_elem_of_In; eapply bc_order; [exact Hbc|apply Hy]].
        unfold tst in Ef. rewrite (proj2 Hy) in Ef. pose proof (bc_bufs _ _ _ _ Hbc c y Hy) as (F & _ & _ & Hi).
        rewrite decide_False in Hi by done. destruct Hi as (Hr & _). unfold idle in Ef. rewrite Hr in Ef.
        destruct F as [F|[F|F]]; rewrite F in Ef; done. }
    pose proof Ef as [Hin Ht]%find_some. rewrite <- in_rev, <- list_elem_of_In in Hin.
    eapply bc_order in Hin; [|exact Hbc]. destruct (bc_lookup _ _ _ _ b Hbc Hin) as [x Hx].
    unfold tst in Ht. rewrite (proj2 Hx) in Ht. apply andb_prop in Ht as [T1%Z.eqb_eq T2].
    pose proof (bc_bufs _ _ _ _ Hbc b x Hx) as (F & Hm & _ & Hi).
    destruct (decide (b ∈ busy)) as [|Hb]; [destruct Hi; lia|]. destruct Hi as (_ & Hl & _).
    eapply (wp_bread_from b x); [done|done| | | | | | | | | |by apply run_bget_miss with (order := order) (busy := busy)]; try done.
    + intros d z _ Hz. by apply (Hk d).
    + left. split_and!; [done| |].
      * intros F6. by rewrite F6 in T2.
      * apply block_uncached. intros d z Hz Z1 Z2. by destruct (Hk d z).
Qed.

End bread.

(** ** bwrite *)

(** The state after bwrite of buffer [b], which is [x]. *)
Definition wrote (s : kst (fsst D)) (b : nat) (x : buf) : kst (fsst D) :=
  set_disk (dwrite (blockno x) (bytes (data x)) (disk (fsys s)))
    (set_bufs (<[b := set_b_flags 2 x]> (bufs (fsys s))) s).

Section bwrite.
Context (me : Z) (s : kst (fsst D)) (order busy : list nat) (b : nat) (x : buf).
Context (Henv : env me s) (Hbc : bc me (fsys s) order busy) (Hx : buf_at (fsys s) b x) (Hb : b ∈ busy).

Lemma busy_facts :
  b_refcnt x = 1 /\ b_lock x = Sleeplock 1 me /\ (b_flags x = 2 \/ b_flags x = 6) /\ b_dev x = 1 /\
  0 <= blockno x < dsize (disk (fsys s)) /\ mem_ok (data x).
Proof.
  pose proof (bc_bufs _ _ _ _ Hbc b x Hx) as (F & M & R & H). rewrite decide_True in H by done.
  destruct H as (H1 & H2 & H3). destruct (R H3) as [R1 R2]. split_and!; tauto || lia.
Qed.

Lemma run_bwrite : bwrite b s = Ret tt (wrote s b x).
Proof.
  destruct Henv as (i & p & Hcur & Hpr & Hpid & Hheld). destruct busy_facts as (_ & Hl & Hf & Hd & Hr & _).
  unfold bwrite. rewrite <- Hpid in Hl. destruct Hx as [_ Hx'].
  rewrite (bind_ret_run _ _ _ _ _ (run_holding_mine s i p b x Hcur Hpr Hheld Hx' Hl)). cbn [negb].
  krun_with run_upd_buf; [|exact Hx'].
  assert (Hlen : (b < List.length (bufs (fsys s)))%nat) by (by eapply lookup_lt_Some).
  assert (Z.lor (b_flags x) B_DIRTY = 6) as -> by (destruct Hf as [-> | ->]; done).
  erewrite (iderw_write _ i p b (set_b_flags 6 x)); fsimp; try done; [|by apply list_lookup_insert_eq|apply Hbc].
  rewrite list_insert_insert_eq. done.
Qed.

Lemma wrote_at : buf_at (fsys (wrote s b x)) b (set_b_flags 2 x).
Proof. apply (buf_at_insert (fsys s) (fsys (wrote s b x)) b x (set_b_flags 2 x) b _ Hx); [done|by left]. Qed.

Lemma wrote_dread m : 0 <= m < dsize (disk (fsys s)) ->
  dread (disk (fsys (wrote s b x))) m = if decide (m = blockno x) then bytes (data x) else dread (disk (fsys s)) m.
Proof.
  intros Hm. destruct busy_facts as (_ & _ & _ & _ & Hr & Hmem). apply dread_dwrite; [apply Hbc| |done|done].
  by apply is_blk_ld.
Qed.

Lemma wrote_bc : bc me (fsys (wrote s b x)) order busy.
Proof.
  destruct busy_facts as (Hrc & Hl & Hf & Hd & Hr & Hm).
  assert (Hsz : dsize (disk (fsys (wrote s b x))) = dsize (disk (fsys s))) by apply dsize_dwrite.
  eapply bc_update; [exact Hbc|exact Hx|done|done|done| | | |apply Hbc|].
  - intros _ c z Hne Hz D1 D2. destruct Hne. by eapply (bc_uniq _ _ _ _ Hbc c b z x).
  - split_and!; [by right; left|done|intros _; split; [done|by rewrite Hsz]|]. by rewrite decide_True.
  - intros c z Hne Hz (Z1 & Z2 & Z3 & Z4). split_and!; [done|done|by rewrite Hsz|].
    destruct (decide (c ∈ busy)); [done|]. destruct Z4 as (W1 & W2 & W3). split_and!; [done..|].
    intros F2. destruct (Z3 ltac:(lia)) as [D1 R1]. rewrite wrote_dread, decide_False by (done || intros E;
      destruct Hne; by eapply (bc_uniq _ _ _ _ Hbc c b z x)). by apply W3.
  - apply dwrite_ok; [apply Hbc|by apply is_blk_ld|done].
Qed.

Lemma wrote_block m : 0 <= m < dsize (disk (fsys s)) -> block (fsys (wrote s b x)) m = block (fsys s) m.
Proof.
  intros Hm. destruct busy_facts as (Hrc & Hl & Hf & Hd & Hr & _). destruct (decide (m = blockno x)) as [->|Hne].
  - rewrite (block_cached (fsys s) b x); [|exact (bc_uniq _ _ _ _ Hbc)|done|done|lia].
    apply (block_cached (fsys (wrote s b x)) b (set_b_flags 2 x)); [exact (bc_uniq _ _ _ _ wrote_bc)|apply wrote_at|done|done].
  - eapply (block_insert (fsys s) _ b x); [exact (bc_uniq _ _ _ _ Hbc)|exact (bc_uniq _ _ _ _ wrote_bc)|done|done|done|congruence|].
    rewrite wrote_dread by done. by rewrite decide_False.
Qed.

Lemma wrote_dirty m : dirty (fsys (wrote s b x)) m <-> dirty (fsys s) m /\ m <> blockno x.
Proof.
  destruct busy_facts as (Hrc & Hl & Hf & Hd & Hr & _). unfold dirty. split.
  - intros (c & z & Hz & Z1 & Z2 & Z3). apply (buf_at_insert (fsys s) _ b x (set_b_flags 2 x) c z Hx) in Hz; [|done].
    destruct Hz as [[_ ->]|[Hne Hz]]; [done|]. split; [by exists c, z|]. intros E. destruct Hne.
    eapply (bc_uniq _ _ _ _ Hbc c b z x); congruence.
  - intros [(c & z & Hz & Z1 & Z2 & Z3) Hne]. exists c, z. split; [|done].
    apply (buf_at_insert (fsys s) _ b x (set_b_flags 2 x) c z Hx); [done|]. right. split; [|done].
    intros ->. assert (z = x) by (destruct Hz, Hx; congruence). congruence.
Qed.

End bwrite.

(** ** brelse *)

(** The buffers differ in their list pointers only. *)
Definition relinked (bs bs' : list buf) : Prop :=
  forall c y, bs' !! c = Some y -> exists x, bs !! c = Some x /\ y = set_b_next (next y) (set_b_prev (prev y) x).

Lemma relinked_trans bs1 bs2 bs3 : relinked bs1 bs2 -> relinked bs2 bs3 -> relinked bs1 bs3.
Proof.
  intros H1 H2 c z Hz. destruct (H2 c z Hz) as (y & Hy & ->). destruct (H1 c y Hy) as (x & Hx & ->). by exists x.
Qed.

Lemma run_set_prev s a v w : prevf (bufs (fsys s)) a = Some w -> exists bs',
  upd_buf a (set_b_prev v) s = Ret tt (set_bufs bs' s) /\ List.length bs' = List.length (bufs (fsys s)) /\
  (forall i, nextf bs' i = nextf (bufs (fsys s)) i) /\ (forall i, prevf bs' i = fupd (prevf (bufs (fsys s))) a v i) /\
  relinked (bufs (fsys s)) bs'.
Proof.
  intros (x & Hx & _)%prevf_Some. assert (Hlen : (a < List.length (bufs (fsys s)))%nat) by (by eapply lookup_lt_Some).
  eexists. split; [by apply run_upd_buf|]. split; [by rewrite length_insert|]. unfold nextf, prevf, fupd. split_and!.
  - intros i. destruct (decide (i = a)) as [->|Hne]; [by rewrite list_lookup_insert_eq, Hx|by rewrite list_lookup_insert_ne].
  - intros i. case_decide as Hi; [subst; by rewrite list_lookup_insert_eq|by rewrite list_lookup_insert_ne].
  - intros c y Hy. destruct (decide (c = a)) as [->|Hne].
    + rewrite list_lookup_insert_eq in Hy by done. injection Hy as <-. by exists x; destruct x.
    + rewrite list_lookup_insert_ne in Hy by done. by exists y; destruct y.
Qed.

Lemma run_set_next s a v w : nextf (bufs (fsys s)) a = Some w -> exists bs',
  upd_buf a (set_b_next v) s = Ret tt (set_bufs bs' s) /\ List.length bs' = List.length (bufs (fsys s)) /\
  (forall i, nextf bs' i = fupd (nextf (bufs (fsys s))) a v i) /\ (forall i, prevf bs' i = prevf (bufs (fsys s)) i) /\
  relinked (bufs (fsys s)) bs'.
Proof.
  intros (x & Hx & _)%nextf_Some. assert (Hlen : (a < List.length (bufs (fsys s)))%nat) by (by eapply lookup_lt_Some).
  eexists. split; [by apply run_upd_buf|]. split; [by rewrite length_insert|]. unfold nextf, prevf, fupd. split_and!.
  - intros i. case_decide as Hi; [subst; by rewrite list_lookup_insert_eq|by rewrite list_lookup_insert_ne].
  - intros i. destruct (decide (i = a)) as [->|Hne]; [by rewrite list_lookup_insert_eq, Hx|by rewrite list_lookup_insert_ne].
  - intros c y Hy. destruct (decide (c = a)) as [->|Hne].
    + rewrite list_lookup_insert_eq in Hy by done. injection Hy as <-. by exists x; destruct x.
    + rewrite list_lookup_insert_ne in Hy by done. by exists y; destruct y.
Qed.

Lemma nextf_get s a v : nextf (bufs (fsys s)) a = Some v -> exists x, get_buf a s = Ret x s /\ next x = v.
Proof. intros (x & Hx & ?)%nextf_Some. exists x. by rewrite (run_get_buf s a x Hx). Qed.

(** Unlinking [b] and putting it at the front. *)
Lemma run_unlink s l1 b l2 :
  ring (bufs (fsys s)) (l1 ++ b :: l2) -> NoDup (l1 ++ b :: l2) -> HEAD ∉ l1 ++ b :: l2 ->
  exists bs', brelse_unlink b s = Ret tt (set_bufs bs' s) /\ ring bs' (l1 ++ l2) /\
    relinked (bufs (fsys s)) bs' /\ List.length bs' = List.length (bufs (fsys s)).
Proof.
  intros Hr Hnd Hh. pose proof (proj1 (linked_app _ _ _ _ _ _ _) Hr) as [Hl1 Hl2].
  destruct (linked_pred _ _ _ _ _ Hl1) as (p & Hp & Hnp & Hpin). destruct (linked_succ _ _ _ _ _ Hl2) as (n & Hn & Hpn & Hnin).
  assert (n <> b /\ p <> b) as [Hnb Hpb].
  { rewrite NoDup_app, NoDup_cons in Hnd. set_solver. }
  unfold brelse_unlink. apply nextf_Some in Hn as Hx. destruct Hx as (x & Hx & <-).
  assert (prev x = p) as <- by (unfold prevf in Hp; rewrite Hx in Hp; by injection Hp).
  krun_with run_get_buf; [|exact Hx].
  destruct (run_set_prev s (next x) (prev x) b Hpn) as (bs1 & E1 & L1 & N1 & P1 & R1).
  rewrite (bind_ret_run _ _ _ _ _ E1).
  set (s1 := set_bufs bs1 s). assert (Hb1 : exists y, bs1 !! b = Some y /\ next y = next x /\ prev y = prev x).
  { assert (nextf bs1 b = Some (next x)) as (y & Hy & ?)%nextf_Some by (rewrite N1; done). exists y. split; [done|]. split; [done|].
    pose proof (P1 b) as Hq. unfold fupd in Hq. rewrite decide_False in Hq by done. rewrite Hp in Hq.
    unfold prevf in Hq. rewrite Hy in Hq. by injection Hq. }
  destruct Hb1 as (y & Hy & Y1 & Y2). rewrite (bind_ret_run _ _ _ _ _ (run_get_buf s1 b y Hy)). rewrite Y1, Y2.
  destruct (run_set_next s1 (prev x) (next x) b) as (bs2 & E2 & L2 & N2 & P2 & R2).
  { change (bufs (fsys s1)) with bs1. by rewrite N1. }
  exists bs2. rewrite E2. split; [done|]. split; [|split; [by eapply relinked_trans|by rewrite L2]].
  eapply linked_ext; [eapply linked_unlink; [exact Hr|done|done|done|exact Hp|exact Hn]| |].
  - intros i _. rewrite N2. change (bufs (fsys s1)) with bs1. unfold fupd. case_decide; [done|]. apply N1.
  - intros i _. rewrite P2. apply P1.
Qed.

Lemma run_front s l b :
  ring (bufs (fsys s)) l -> NoDup l -> HEAD ∉ l -> b ∉ HEAD :: l -> (b < List.length (bufs (fsys s)))%nat ->
  exists bs', brelse_front b s = Ret tt (set_bufs bs' s) /\ ring bs' (b :: l) /\
    relinked (bufs (fsys s)) bs' /\ List.length bs' = List.length (bufs (fsys s)).
Proof.
  intros Hr Hnd Hh Hb Hlen. destruct (linked_succ _ _ _ _ _ Hr) as (n & Hn & Hpn & Hnin). unfold brelse_front.
  assert (n <> b) by set_solver. assert (HEAD <> b) by set_solver.
  destruct (nextf_get s HEAD n Hn) as (h & Eh & <-). rewrite (bind_ret_run _ _ _ _ _ Eh).
  assert (exists w, nextf (bufs (fsys s)) b = Some w) as [w Hw].
  { unfold nextf. destruct (lookup_lt_is_Some_2 _ _ Hlen) as [x ->]. cbn. eauto. }
  assert (exists w, prevf (bufs (fsys s)) b = Some w) as [w' Hw'].
  { unfold prevf. destruct (lookup_lt_is_Some_2 _ _ Hlen) as [x ->]. cbn. eauto. }
  destruct (run_set_next s b (next h) w Hw) as (bs1 & E1 & L1 & N1 & P1 & R1). rewrite (bind_ret_run _ _ _ _ _ E1).
  set (s1 := set_bufs bs1 s).
  destruct (run_set_prev s1 b HEAD w') as (bs2 & E2 & L2 & N2 & P2 & R2); [change (prevf bs1 b = Some w'); by rewrite P1|].
  rewrite (bind_ret_run _ _ _ _ _ E2). set (s2 := set_bufs bs2 s1).
  change (bufs (fsys s1)) with bs1 in *.
  destruct (nextf_get s2 HEAD (next h)) as (h' & Eh' & Hh').
  { change (nextf bs2 HEAD = Some (next h)). rewrite N2, N1. unfold fupd. by rewrite decide_False. }
  rewrite (bind_ret_run _ _ _ _ _ Eh'), Hh'.
  destruct (run_set_prev s2 (next h) b HEAD) as (bs3 & E3 & L3 & N3 & P3 & R3).
  { change (prevf bs2 (next h) = Some HEAD). rewrite P2. unfold fupd. rewrite decide_False by done. by rewrite P1. }
  rewrite (bind_ret_run _ _ _ _ _ E3). set (s3 := set_bufs bs3 s2). change (bufs (fsys s2)) with bs2 in *.
  destruct (run_set_next s3 HEAD b (next h)) as (bs4 & E4 & L4 & N4 & P4 & R4).
  { change (nextf bs3 HEAD = Some (next h)). rewrite N3, N2, N1. unfold fupd. by rewrite decide_False. }
  change (bufs (fsys s3)) with bs3 in *. exists bs4. rewrite E4. split; [done|]. split.
  - eapply linked_ext; [by eapply linked_front|..].
    + intros i _. rewrite N4. unfold fupd at 1 2. case_decide; [done|]. by rewrite N3, N2, N1.
    + intros i _. rewrite P4, P3. unfold fupd at 1 2. case_decide; [done|]. rewrite P2. unfold fupd. case_decide; [done|]. by rewrite P1.
  - split; [|lia]. do 3 (eapply relinked_trans; [|eassumption]). done.
Qed.

(** Sleeping processes may have been woken; nothing else about the processes has
    changed. *)
Definition woken (ps ps' : list proc) : Prop :=
  Forall2 (fun p p' => p' = p \/ (state p = SLEEPING /\ p' = set_p_state RUNNABLE p)) ps ps'.

Lemma woken_refl ps : woken ps ps.
Proof. apply Forall2_same_length_lookup_2; [done|]. intros i p p' H1 H2. left. congruence. Qed.
Lemma woken_trans ps1 ps2 ps3 : woken ps1 ps2 -> woken ps2 ps3 -> woken ps1 ps3.
Proof.
  intros H1. revert ps3. induction H1 as [|p q l l' Hpq H1 IH]; intros ps3 H2; inversion H2 as [|? r ? ? Hqr]; subst; constructor.
  - destruct Hpq as [->|[S1 ->]], Hqr as [->|[S2 ->]]; [by left|by right|by right|done].
  - by apply IH.
Qed.
Lemma woken_wake c ps : woken ps (wake c <$> ps).
Proof.
  apply Forall2_fmap_r, Forall_Forall2_diag, Forall_true. intros p. cbn. unfold wake. case_bool_decide as H; [right|by left].
  by destruct H.
Qed.
Lemma woken_lookup ps ps' i p : woken ps ps' -> ps !! i = Some p -> exists p', ps' !! i = Some p' /\ pid p' = pid p.
Proof.
  intros H Hp. destruct (Forall2_lookup_l _ _ _ _ _ H Hp) as (p' & Hp' & Hpp). exists p'. split; [done|].
  by destruct Hpp as [->|[_ ->]].
Qed.

(** The states agree outside the file system, up to wake-ups. *)
Record same_rest (s s' : kst (fsst D)) : Prop := Same_rest {
  sr_km : km s' = km s;
  sr_cur : cur s' = cur s;
  sr_cpu : cpu s' = cpu s;
  sr_held : held s' = held s;
  sr_nextpid : nextpid s' = nextpid s;
  sr_initproc : initproc s' = initproc s;
  sr_ticks : ticks s' = ticks s;
  sr_files : files s' = files s;
  sr_procs : woken (procs s) (procs s') }.

Lemma same_rest_refl s : same_rest s s.
Proof. split; try done. apply woken_refl. Qed.
Lemma same_rest_fsys s f : same_rest s (set_fsys f s).
Proof. split; try done. apply woken_refl. Qed.
Lemma same_rest_trans s1 s2 s3 : same_rest s1 s2 -> same_rest s2 s3 -> same_rest s1 s3.
Proof. intros [] []. split; try congruence. by eapply woken_trans. Qed.
Lemma env_same me s s' : env me s -> same_rest s s' -> env me s'.
Proof.
  intros (i & p & H1 & H2 & H3 & H4) []. destruct (woken_lookup _ _ i p sr_procs0 H2) as (p' & Hp' & Hid).
  exists i, p'. split_and!; congruence.
Qed.

(** brelse of buffer [b]. *)
Record released (me : Z) (s : kst (fsst D)) (order busy : list nat) (b : nat) (s' : kst (fsst D)) : Prop := Released {
  rel_rest : same_rest s s';
  rel_log : log (fsys s') = log (fsys s);
  rel_sb : sb (fsys s') = sb (fsys s);
  rel_inodes : inodes (fsys s') = inodes (fsys s);
  rel_disk : disk (fsys s') = disk (fsys s);
  rel_bc : bc me (fsys s') (b :: filter (fun c => c <> b) order) (filter (fun c => c <> b) busy);
  rel_bufs c y : c <> b -> buf_at (fsys s') c y ->
    exists x, buf_at (fsys s) c x /\ y = set_b_next (next y) (set_b_prev (prev y) x);
  rel_block m : block (fsys s') m = block (fsys s) m;
  rel_dirty m : dirty (fsys s') m <-> dirty (fsys s) m }.

Lemma filter_middle (l1 l2 : list nat) b : NoDup (l1 ++ b :: l2) -> filter (fun c => c <> b) (l1 ++ b :: l2) = l1 ++ l2.
Proof.
  intros (_ & H2 & H3)%NoDup_app. apply NoDup_cons in H3 as [H3 _].
  assert (Hid : forall l : list nat, b ∉ l -> filter (fun c => c <> b) l = l).
  { induction l as [|x l IH]; [done|]. intros [Hx Hl]%not_elem_of_cons. rewrite filter_cons_True by done. by rewrite IH. }
  rewrite filter_app, filter_cons_False by tauto. rewrite !Hid; [done|done|]. intros Hb. by apply (H2 b Hb); left.
Qed.

(** The contents of a cache do not depend on the list pointers, locks and counts. *)
Definition same_contents (f f' : fsst D) : Prop :=
  disk f' = disk f /\
  (forall c y, buf_at f' c y -> exists x, buf_at f c x /\ b_flags y = b_flags x /\ b_dev y = b_dev x /\
     blockno y = blockno x /\ data y = data x) /\
  (forall c x, buf_at f c x -> exists y, buf_at f' c y).

Lemma same_contents_sym_at f f' c x : same_contents f f' -> buf_at f c x -> exists y, buf_at f' c y /\
  b_flags y = b_flags x /\ b_dev y = b_dev x /\ blockno y = blockno x /\ data y = data x.
Proof.
  intros (_ & H1 & H2) Hx. destruct (H2 c x Hx) as [y Hy]. exists y. split; [done|].
  destruct (H1 c y Hy) as (x' & Hx' & H). by assert (x' = x) as -> by (destruct Hx, Hx'; congruence).
Qed.

Lemma same_contents_block f f' m : uniq f -> same_contents f f' -> block f' m = block f m.
Proof.
  intros Hu H. assert (Hu' : uniq f').
  { intros a b x y Hx Hy D1 D2 E. destruct H as (_ & H & _). destruct (H a x Hx) as (x' & Hx' & X1 & X2 & X3 & X4).
    destruct (H b y Hy) as (y' & Hy' & Y1 & Y2 & Y3 & Y4). apply (Hu a b x' y'); congruence. }
  destruct (block_cases f m) as [(c & z & Hz & Z1 & Z2 & Z3)|Hnone].
  - destruct (same_contents_sym_at f f' c z H Hz) as (y & Hy & Y1 & Y2 & Y3 & Y4). rewrite <- Z2.
    rewrite (block_cached f c z), <- Y3, (block_cached f' c y) by (done || congruence). by rewrite Y4.
  - rewrite (block_uncached f) by done. destruct H as (Hd & H & _). rewrite block_uncached; [by rewrite Hd|].
    intros c y Hy D1 D2. destruct (H c y Hy) as (x & Hx & X1 & X2 & X3 & X4). rewrite X1. apply (Hnone c x); congruence.
Qed.

Lemma same_contents_dirty f f' m : same_contents f f' -> dirty f' m <-> dirty f m.
Proof.
  intros H. unfold dirty. split; intros (c & z & Hz & Z1 & Z2 & Z3).
  - destruct H as (_ & H & _). destruct (H c z Hz) as (x & Hx & X1 & X2 & X3 & X4). exists c, x. split_and!; congruence.
  - destruct (same_contents_sym_at f f' c z H Hz) as (y & Hy & Y1 & Y2 & Y3 & Y4). exists c, y. split_and!; congruence.
Qed.

Section brelse.
Context (me : Z) (s : kst (fsst D)) (order busy : list nat) (b : nat) (x : buf).
Context (Henv : env me s) (Hbc : bc me (fsys s) order busy) (Hx : buf_at (fsys s) b x) (Hb : b ∈ busy).

(** The released buffer, before it is moved. *)
Definition let_go : buf := set_b_refcnt 0 (set_b_lock (Sleeplock 0 0) x).

Lemma run_brelse : exists bs' ps',
  brelse b s = Ret tt (set_procs ps' (set_bufs bs' s)) /\ woken (procs s) ps' /\
  ring bs' (b :: filter (fun c => c <> b) order) /\ relinked (<[b := let_go]> (bufs (fsys s))) bs' /\
  List.length bs' = S NBUF.
Proof.
  destruct Henv as (i & p & Hcur & Hpr & Hpid & Hheld).
  destruct (busy_facts me s order busy b x Hbc Hx Hb) as (Hrc & Hl & Hf & Hd & Hr & Hm).
  assert (Hlen : (b < List.length (bufs (fsys s)))%nat) by (destruct Hx; by eapply lookup_lt_Some).
  unfold brelse. rewrite (bind_ret_run _ _ _ _ _ (run_holding_mine s i p b x Hcur Hpr Hheld (proj2 Hx) ltac:(congruence))).
  cbn [negb]. erewrite bind_ret_run; [|apply (run_releasesleep s (SL_buf b) (b_lock x))].
  2,3: rewrite Hheld; set_solver. 2:{ cbn. by rewrite (proj2 Hx). }
  cbn [with_sl]. rewrite (alter_insert_lookup _ _ _ x) by apply Hx.
  krun_with run_acquire; [|fsimp; rewrite Hheld; set_solver].
  krun_with run_upd_buf; [|fsimp; by apply list_lookup_insert_eq]. fsimp. rewrite list_insert_insert_eq.
  cbn [b_refcnt set_b_lock]. rewrite Hrc. change (u32 (1 - 1)) with 0. fold let_go.
  krun_with run_get_buf; [|fsimp; by apply list_lookup_insert_eq]. change (b_refcnt let_go =? 0) with true. cbn [when].
  assert (b ∈ order) as Hin by (eapply bc_order; [exact Hbc|apply Hx]).
  apply list_elem_of_split in Hin as (l1 & l2 & Horder).
  pose proof (bc_order_nodup _ _ _ _ Hbc) as Hnd. pose proof (bc_order_head _ _ _ _ Hbc) as Hhd. rewrite Horder in Hnd, Hhd.
  assert (Hring : ring (<[b := let_go]> (bufs (fsys s))) (l1 ++ b :: l2)).
  { rewrite <- Horder. by eapply ring_insert; [apply Hx| | |apply Hbc]. }
  match goal with |- context [mbind _ _ ?st] => set (s1 := st) end.
  destruct (run_unlink s1 l1 b l2 Hring Hnd Hhd) as (bs1 & E1 & R1 & L1 & N1).
  set (s2 := set_bufs bs1 s1).
  destruct (run_front s2 (l1 ++ l2) b) as (bs2 & E2 & R2 & L2 & N2); [exact R1| | | | |].
  { apply NoDup_app in Hnd as (H1 & H2 & [H3 H4]%NoDup_cons). apply NoDup_app. split_and!; [done| |done]. set_solver. }
  { set_solver. }
  { apply NoDup_app in Hnd as (H1 & H2 & [H3 H4]%NoDup_cons). set_solver. }
  { change (bufs (fsys s2)) with bs1. rewrite N1. change (bufs (fsys s1)) with (<[b:=let_go]> (bufs (fsys s))). by rewrite length_insert. }
  exists bs2, (wake (Chan_sleeplock (SL_buf b)) <$> procs s). split_and!.
  - rewrite run_bind_bind, (bind_ret_run _ _ _ _ _ E1). fold s2. rewrite (bind_ret_run _ _ _ _ _ E2).
    erewrite run_release_top; [|done|cbn; rewrite Hheld; set_solver]. done.
  - apply woken_wake.
  - rewrite Horder, filter_middle by done. exact R2.
  - eapply relinked_trans; [exact L1|exact L2].
  - rewrite N2. change (bufs (fsys s2)) with bs1. rewrite N1. change (bufs (fsys s1)) with (<[b:=let_go]> (bufs (fsys s))).
    rewrite length_insert. apply Hbc.
Qed.

(** The buffers after brelse, and before. *)
Lemma let_go_at bs' c z : relinked (<[b := let_go]> (bufs (fsys s))) bs' -> (c < NBUF)%nat -> bs' !! c = Some z ->
  exists y, buf_at (fsys s) c y /\
    z = set_b_next (next z) (set_b_prev (prev z) (if decide (c = b) then let_go else y)).
Proof.
  intros Hr Hc Hz. destruct (Hr c z Hz) as (y & Hy & Hzy).
  assert (Hlen : (b < List.length (bufs (fsys s)))%nat) by (destruct Hx; by eapply lookup_lt_Some).
  case_decide as Hcb.
  - subst c. rewrite list_lookup_insert_eq in Hy by done. injection Hy as <-. by exists x.
  - rewrite list_lookup_insert_ne in Hy by done. by exists y.
Qed.

Lemma wp_brelse : (b_flags x = 2 -> bytes (data x) = dread (disk (fsys s)) (blockno x)) ->
  wp (brelse b) (fun _ s' => released me s order busy b s') s.
Proof.
  intros Hsync. destruct run_brelse as (bs' & ps' & E & Hw & Hring & Hrel & Hlen).
  apply (wp_result _ _ _ _ _ E). set (s' := set_procs _ _).
  assert (Hat : forall c z, buf_at (fsys s') c z -> exists y, buf_at (fsys s) c y /\
    z = set_b_next (next z) (set_b_prev (prev z) (if decide (c = b) then let_go else y))).
  { intros c z [Hc Hz]. by eapply let_go_at. }
  assert (Hsc : same_contents (fsys s) (fsys s')).
  { split; [done|]. split.
    - intros c z Hz. destruct (Hat c z Hz) as (y & Hy & ->). exists y. split; [done|]. case_decide as Hcb; [|done].
      assert (y = x) as -> by (subst; destruct Hy, Hx; congruence). done.
    - intros c y [Hc Hy]. destruct (lookup_lt_is_Some_2 bs' c) as [z Hz]; [rewrite Hlen; lia|]. by exists z. }
  destruct (busy_facts me s order busy b x Hbc Hx Hb) as (Hrc & Hl & Hf & Hd & Hr & Hm).
  assert (Hbc' : bc me (fsys s') (b :: filter (fun c => c <> b) order) (filter (fun c => c <> b) busy)).
  { split; try done.
    - assert (b ∈ order) as Hin by (eapply bc_order; [exact Hbc|apply Hx]).
      rewrite <- (bc_perm _ _ _ _ Hbc). apply list_elem_of_split in Hin as (l1 & l2 & ->).
      rewrite filter_middle by (eapply bc_order_nodup; exact Hbc). apply Permutation_middle.
    - intros c1 c2 z1 z2 H1 H2 D1 D2 Eb. destruct Hsc as (_ & Hsc & _).
      destruct (Hsc c1 z1 H1) as (y1 & Hy1 & _ & Y1 & Y1' & _). destruct (Hsc c2 z2 H2) as (y2 & Hy2 & _ & Y2 & Y2' & _).
      apply (bc_uniq _ _ _ _ Hbc c1 c2 y1 y2); congruence.
    - intros c z Hz. destruct (Hat c z Hz) as (y & Hy & ->). case_decide as Hcb.
      + subst c. split_and!; [cbn; tauto|done|done|]. rewrite decide_False by (rewrite list_elem_of_filter; tauto). done.
      + destruct (bc_bufs _ _ _ _ Hbc c y Hy) as (F & M & R & K). split_and!; [done..|].
        destruct (decide (c ∈ busy)); [rewrite decide_True by (by rewrite list_elem_of_filter)|
          rewrite decide_False by (rewrite list_elem_of_filter; tauto)]; done.
    - apply NoDup_filter, Hbc.
    - apply Hbc. }
  split; try done.
  - intros c z Hc Hz. destruct (Hat c z Hz) as (y & Hy & Ez). rewrite decide_False in Ez by done. by exists y.
  - intros m. apply same_contents_block; [exact (bc_uniq _ _ _ _ Hbc)|done].
  - intros m. by apply same_contents_dirty.
Qed.

End brelse.

(** ** Changing the bytes of a held buffer *)

Section set_data.
Context (me : Z) (s : kst (fsst D)) (order busy : list nat) (b : nat) (x : buf) (m : Zmap Z).
Context (Hbc : bc me (fsys s) order busy) (Hx : buf_at (fsys s) b x) (Hb : b ∈ busy) (Hm : mem_ok m).

Definition edited : kst (fsst D) := set_bufs (<[b := set_b_data m x]> (bufs (fsys s))) s.

Lemma edited_at c y : buf_at (fsys edited) c y <-> (c = b /\ y = set_b_data m x) \/ (c <> b /\ buf_at (fsys s) c y).
Proof. by apply (buf_at_insert (fsys s) (fsys edited) b x). Qed.

Lemma edited_bc : bc me (fsys edited) order busy.
Proof.
  eapply bc_update; [exact Hbc|exact Hx|done|done|done| | | |apply Hbc|apply Hbc].
  - intros D1 c z Hne Hz D2 E. destruct Hne. by eapply (bc_uniq _ _ _ _ Hbc c b z x).
  - destruct (bc_bufs _ _ _ _ Hbc b x Hx) as (F & _ & R & K). split_and!; [done..|].
    rewrite decide_True in * by done. done.
  - done.
Qed.

Lemma edited_block n : block (fsys edited) n = if decide (n = blockno x) then bytes m else block (fsys s) n.
Proof.
  destruct (busy_facts me s order busy b x Hbc Hx Hb) as (Hrc & Hl & Hf & Hd & Hr & _). case_decide as E.
  - subst n. apply (block_cached (fsys edited) b (set_b_data m x)); [exact (bc_uniq _ _ _ _ edited_bc)| |done|cbn; lia].
    apply edited_at. by left.
  - eapply (block_insert (fsys s) _ b x); [exact (bc_uniq _ _ _ _ Hbc)|exact (bc_uniq _ _ _ _ edited_bc)|done|done|done|congruence|done].
Qed.

Lemma edited_dirty n : dirty (fsys edited) n <-> dirty (fsys s) n.
Proof. apply (dirty_insert (fsys s) _ b x (set_b_data m x)); try done. intros F.
  destruct (busy_facts me s order busy b x Hbc Hx Hb) as (_ & _ & _ & Hd & _). done. Qed.

End set_data.

(** A buffer that is still there after another one has been released. *)
Lemma released_keeps me s order busy b s' c y :
  released me s order busy b s' -> c <> b -> buf_at (fsys s) c y ->
  exists y', buf_at (fsys s') c y' /\ y' = set_b_next (next y') (set_b_prev (prev y') y).
Proof.
  intros R Hne Hy. destruct (bc_lookup _ _ _ _ c (rel_bc _ _ _ _ _ _ R)) as [y' Hy']; [apply Hy|].
  exists y'. split; [done|]. destruct (rel_bufs _ _ _ _ _ _ R c y' Hne Hy') as (z & Hz & E).
  assert (z = y) as -> by (destruct Hz, Hy; congruence). done.
Qed.

End cache.

(** ** Booting: binit *)

Definition buf0 : buf := Buf 0 0 0 (Sleeplock 0 0) 0 0 0 ∅.

(** The buffers after binit: the last one is the first of the list. *)
Definition binit_bufs : list buf :=
  imap (fun b x => set_b_next (if Nat.eqb b HEAD then 29 else if Nat.eqb b 0 then HEAD else b - 1)%nat
                     (set_b_prev (if Nat.eqb b HEAD then 0 else if Nat.eqb b 29 then HEAD else b + 1)%nat x))
    (replicate (S NBUF) buf0).
Definition binit_order : list nat := rev (seq 0 NBUF).

Lemma binit_ring : ring binit_bufs binit_order.
Proof. vm_compute. repeat split. Qed.

Lemma run_binit {D} (s : kst (fsst D)) :
  bufs (fsys s) = replicate (S NBUF) buf0 -> held s = [] -> binit s = Ret tt (set_bufs binit_bufs s).
Proof.
  destruct s as [kmv ps c cp h np ip0 tk fl [bs l sbv ins d]]. cbn. intros -> ->. vm_compute. reflexivity.
Qed.

Section boot.
Context {D : Type} {BD : BlockDevice D} {DK : Disk D}.

Lemma binit_at (f : fsst D) b x : bufs f = binit_bufs -> buf_at f b x ->
  b_dev x = 0 /\ b_flags x = 0 /\ b_refcnt x = 0 /\ b_lock x = Sleeplock 0 0 /\ data x = ∅.
Proof.
  intros E [Hb Hx]. rewrite E in Hx. unfold binit_bufs in Hx. rewrite list_lookup_imap in Hx.
  apply fmap_Some in Hx as (y & Hy & ->). apply lookup_replicate in Hy as [-> _]. done.
Qed.

Lemma binit_bc me (f : fsst D) : bufs f = binit_bufs -> disk_ok (disk f) -> bc me f binit_order [].
Proof.
  intros E Hd. split.
  - by rewrite E.
  - rewrite E. apply binit_ring.
  - unfold binit_order. symmetry. apply Permutation_rev.
  - intros a b x y Hx _ D1 _ _. destruct (binit_at f a x E Hx). congruence.
  - intros b x Hx. destruct (binit_at f b x E Hx) as (D1 & F & R & L & M). unfold buf_ok. rewrite F, R, L, M.
    split_and!; [by left|apply mem_ok_empty|done|]. rewrite decide_False by apply not_elem_of_nil. split_and!; done.
  - constructor.
  - done.
Qed.

Lemma binit_clean (f : fsst D) m : bufs f = binit_bufs -> ~ dirty f m.
Proof. intros E (b & x & Hx & _ & _ & F). destruct (binit_at f b x E Hx) as (_ & F0 & _). congruence. Qed.

Lemma binit_evictable (f : fsst D) : bufs f = binit_bufs -> evictable f [].
Proof.
  intros E. exists 0%nat, (set_b_next HEAD (set_b_prev 1 buf0)). split; [|split; [apply not_elem_of_nil|done]].
  split; [unfold NBUF; lia|]. by rewrite E.
Qed.

End boot.

(** booting builds a consistent buffer cache.  From zeroed buffers, binit returns,
    its list holds every buffer exactly once, no buffer is locked, referenced or
    dirty, and the contents of every block are those on the disk. *)
Theorem binit_builds_cache {D} {BD : BlockDevice D} {DK : Disk D} (me : Z) (s : kst (fsst D)) :
  bufs (fsys s) = replicate (S NBUF) buf0 -> held s = [] -> disk_ok (disk (fsys s)) ->
  wp binit (fun _ s' => exists order, order ≡ₚ seq 0 NBUF /\ bc me (fsys s') order [] /\
    (forall m, ~ dirty (fsys s') m) /\ (forall m, block (fsys s') m = dread (disk (fsys s)) m)) s.
Proof.
  intros Hb Hh Hd. apply (wp_result _ _ _ _ _ (run_binit s Hb Hh)). exists binit_order.
  split; [unfold binit_order; symmetry; apply Permutation_rev|]. split; [by apply binit_bc|]. split; [intros m; by apply binit_clean|].
  intros m. etrans; [apply block_uncached|done].
  intros b x Hx. by destruct (binit_at (fsys (set_bufs binit_bufs s)) b x eq_refl Hx) as (_ & ? & _).
Qed.

(** C39: the cache is transparent.  Reading block [n] through bread, looking at the
    buffer and releasing it returns the block's contents (those of its buffer if it is
    cached, else those on the disk), leaves the contents of every block and the disk
    as they were, and moves the buffer to the front of the list. *)
Theorem cache_read {D} {BD : BlockDevice D} {DK : Disk D} (fuel : nat) (me : Z) (s : kst (fsst D))
    (order busy : list nat) (n : Z) :
  (1 <= fuel)%nat -> env me s -> bc me (fsys s) order busy -> 0 <= n < dsize (disk (fsys s)) ->
  (forall b x, b ∈ busy -> buf_at (fsys s) b x -> blockno x <> n) ->
  dirty (fsys s) n \/ evictable (fsys s) busy ->
  wp (b ← bread fuel 1 n; x ← get_buf b; brelse b;; mret (bytes (data x))) (fun bs s' =>
    bs = block (fsys s) n /\
    (exists b, bc me (fsys s') (b :: filter (fun c => c <> b) order) busy) /\
    (forall m, 0 <= m < dsize (disk (fsys s)) -> block (fsys s') m = block (fsys s) m) /\
    disk (fsys s') = disk (fsys s) /\ same_rest s s') s.
Proof.
  intros Hf Henv Hbc Hn Hbusy Hev. apply wp_bind. eapply wp_mono; [by eapply wp_bread|]. intros b s1 [x G].
  pose proof (got_at _ _ _ _ _ _ _ _ G) as Hx. apply wp_bind. eapply wp_result; [apply run_get_buf, Hx|]. cbv beta.
  assert (Hs1 : same_rest s s1) by (rewrite (got_state _ _ _ _ _ _ _ _ G); apply same_rest_fsys).
  assert (Hd1 : disk (fsys s1) = disk (fsys s)) by (by rewrite (got_state _ _ _ _ _ _ _ _ G)).
  apply wp_bind. eapply wp_mono; [eapply (wp_brelse me s1 order (b :: busy) b x); [by eapply env_same|apply G|done|left|]|].
  { intros F. rewrite (got_blockno _ _ _ _ _ _ _ _ G), Hd1. by apply G. }
  intros ? s2 []. apply wp_ret. split; [apply G|]. split.
  - exists b. assert (E : filter (fun c => c <> b) (b :: busy) = busy); [|by rewrite E in rel_bc0].
    apply (filter_middle [] busy b), NoDup_cons. split; [apply G|apply Hbc].
  - split; [|split; [congruence|by eapply same_rest_trans]]. intros m Hm. rewrite rel_block0. by apply G.
Qed.

(** ** An instance: a machine with an empty memory disk of 1000 blocks. *)
Definition ex_disk : memdisk := Memdisk 1000 ∅.
Definition log0 : logst := Log 0 0 0 0 0 0 (replicate LOGSIZE 0).
Definition sb0 : superblock := Superblock 0 0 0 0 0 0 0.
Definition ex_fsys (f : fsst memdisk) : kst (fsst memdisk) :=
  KS (KM ∅ 0 true false ∅ 0) (running_proc :: replicate 63 proc0) (Some 0%nat) cpu0 [] 2 (Some 0%nat) 0 (replicate NFILE file0) f.

Lemma ex_disk_ok : disk_ok ex_disk.
Proof. split; [apply mem_ok_empty|cbn; lia]. Qed.
Lemma ex_env f : env (pid running_proc) (ex_fsys f).
Proof. by exists 0%nat, running_proc. Qed.

Lemma binit_builds_cache_witness :
  wp binit (fun _ s' => exists order, order ≡ₚ seq 0 NBUF /\ bc (BD := memide) 1 (fsys s') order [] /\
    (forall m, ~ dirty (fsys s') m) /\ (forall m, block (fsys s') m = dread ex_disk m))
    (ex_fsys (FS (replicate (S NBUF) buf0) log0 sb0 [] ex_disk)).
Proof. apply binit_builds_cache; [reflexivity|reflexivity|apply ex_disk_ok]. Defined.

Lemma cache_read_witness :
  wp (b ← bread 1 1 7; x ← get_buf b; brelse b;; mret (bytes (data x))) (fun bs s' =>
    bs = block (fsys (ex_fsys (FS binit_bufs log0 sb0 [] ex_disk))) 7 /\
    (exists b, bc (pid running_proc) (fsys s') (b :: filter (fun c => c <> b) binit_order) []) /\
    (forall m, 0 <= m < dsize (disk (fsys (ex_fsys (FS binit_bufs log0 sb0 [] ex_disk)))) ->
       block (fsys s') m = block (fsys (ex_fsys (FS binit_bufs log0 sb0 [] ex_disk))) m) /\
    disk (fsys s') = disk (fsys (ex_fsys (FS binit_bufs log0 sb0 [] ex_disk))) /\
    same_rest (ex_fsys (FS binit_bufs log0 sb0 [] ex_disk)) s') (ex_fsys (FS binit_bufs log0 sb0 [] ex_disk)).
Proof.
  apply cache_read; [lia|apply ex_env|apply binit_bc; [reflexivity|apply ex_disk_ok]|cbn; lia| |right; by apply binit_evictable].
  intros b x Hb. by apply not_elem_of_nil in Hb.
Defined.
