(* ===== verification/Log.v ===== *)
(** * The log (log.c, readsb of fs.c)

    Transactions: [begin_op] and [end_op] bracket a system call, [log_write] records
    a modified block, the last [end_op] commits; [initlog] recovers a committed
    transaction.  The theorems state that a commit is atomic: whatever prefix of
    its disk writes is done when the machine stops, recovery gives the home
    locations either all of the old or all of the new contents. *)

From Stdlib Require Import ZArith Lia.
From stdpp Require Import base tactics numbers option list strings zmap.
From S2P Require Import Prelude Memory Mmu StringOps Kalloc Vm Wmap Kernel Proc File FsState Bio.

Section log.
Context {D : Type} {BD : BlockDevice D} (fuel : nat).
#[local] Abbreviation MK := (M (kst (fsst D))).

Definition sizeof_logheader : Z := 4 + 4 * Z.of_nat LOGSIZE.

(** readsb of fs.c: the fields of struct superblock in the first words of block 1. *)
Definition decode_sb (m : Zmap Z) : superblock :=
  Superblock (ld32 m 0) (ld32 m 4) (ld32 m 8) (ld32 m 12) (ld32 m 16) (ld32 m 20) (ld32 m 24).

Definition readsb (dev : Z) : MK superblock :=
  bp ← bread fuel (u32 dev) 1;
  x ← get_buf bp;
  brelse bp;;
  mret (decode_sb (data x)).

(** memmove(to->data, from->data, BSIZE) *)
Definition copy_block (to from : nat) : MK unit :=
  x ← get_buf from;
  upd_buf to (fun y => set_b_data (st_bytes (data y) 0 (ld_bytes (data x) 0 (Z.to_nat BSIZE))) y).

(** log.lh.block[i] *)
Definition lh_get (i : Z) : MK Z :=
  l ← get_log;
  match lh_block l !! Z.to_nat i with Some v => mret v | None => undef "log header index" end.
Definition lh_set (i v : Z) : MK unit :=
  l ← get_log;
  match lh_block l !! Z.to_nat i with
  | Some _ => upd_log (fun l => set_lh_block (<[Z.to_nat i := v]> (lh_block l)) l)
  | None => undef "log header index"
  end.

Definition install_trans_body (tail : Z) : MK (Z + unit) :=
  l ← get_log;
  if negb (tail <? lh_n l) then mret (inr tt)
  else
    lbuf ← bread fuel (u32 (l_dev l)) (u32 (l_start l + tail + 1));
    v ← lh_get tail;
    dbuf ← bread fuel (u32 (l_dev l)) (u32 v);
    copy_block dbuf lbuf;;
    bwrite dbuf;;
    brelse lbuf;;
    brelse dbuf;;
    mret (inl (tail + 1)).

Definition install_trans : MK unit := iterate (S LOGSIZE) install_trans_body 0.

Definition read_head_body (bp : nat) (i : Z) : MK (Z + unit) :=
  l ← get_log;
  if negb (i <? lh_n l) then mret (inr tt)
  else
    x ← get_buf bp;
    lh_set i (s32 (ld32 (data x) (4 + 4 * i)));;
    mret (inl (i + 1)).

Definition read_head : MK unit :=
  l ← get_log;
  bp ← bread fuel (u32 (l_dev l)) (u32 (l_start l));
  x ← get_buf bp;
  upd_log (set_lh_n (s32 (ld32 (data x) 0)));;
  iterate (S LOGSIZE) (read_head_body bp) 0;;
  brelse bp.

Definition write_head_body (bp : nat) (i : Z) : MK (Z + unit) :=
  l ← get_log;
  if negb (i <? lh_n l) then mret (inr tt)
  else
    v ← lh_get i;
    upd_buf bp (fun x => set_b_data (st32 (data x) (4 + 4 * i) v) x);;
    mret (inl (i + 1)).

Definition write_head : MK unit :=
  l ← get_log;
  bp ← bread fuel (u32 (l_dev l)) (u32 (l_start l));
  upd_buf bp (fun x => set_b_data (st32 (data x) 0 (lh_n l)) x);;
  iterate (S LOGSIZE) (write_head_body bp) 0;;
  bwrite bp;;
  brelse bp.

Definition recover_from_log : MK unit :=
  read_head;;
  install_trans;;
  upd_log (set_lh_n 0);;
  write_head.

Definition initlog (dev : Z) : MK unit :=
  if BSIZE <=? sizeof_logheader then panic "initlog: too big logheader"
  else
    initlock L_log;;
    sb ← readsb dev;
    upd_log (set_l_start (s32 (sb_logstart sb)));;
    upd_log (set_l_size (s32 (sb_nlog sb)));;
    upd_log (set_l_dev dev);;
    recover_from_log.

(** ** Transactions *)

Definition begin_op_body (_ : unit) : MK (unit + unit) :=
  l ← get_log;
  if negb (committing l =? 0) then sleep Chan_log L_log;; mret (inl tt)
  else if lh_n l + (outstanding l + 1) * MAXOPBLOCKS >? Z.of_nat LOGSIZE then
    sleep Chan_log L_log;; mret (inl tt)
  else
    upd_log (fun l => set_outstanding (outstanding l + 1) l);;
    release L_log;;
    mret (inr tt).

Definition begin_op : MK unit := acquire L_log;; iterate fuel begin_op_body tt.

Definition write_log_body (tail : Z) : MK (Z + unit) :=
  l ← get_log;
  if negb (tail <? lh_n l) then mret (inr tt)
  else
    to ← bread fuel (u32 (l_dev l)) (u32 (l_start l + tail + 1));
    v ← lh_get tail;
    from ← bread fuel (u32 (l_dev l)) (u32 v);
    copy_block to from;;
    bwrite to;;
    brelse from;;
    brelse to;;
    mret (inl (tail + 1)).

Definition write_log : MK unit := iterate (S LOGSIZE) write_log_body 0.

Definition commit : MK unit :=
  l ← get_log;
  when (0 <? lh_n l) (write_log;; write_head;; install_trans;; upd_log (set_lh_n 0);; write_head).

Definition end_op : MK unit :=
  acquire L_log;;
  upd_log (fun l => set_outstanding (outstanding l - 1) l);;
  l ← get_log;
  if negb (committing l =? 0) then panic "log.committing"
  else
    let do_commit := outstanding l =? 0 in
    (if do_commit then upd_log (set_committing 1) else wakeup Chan_log);;
    release L_log;;
    when do_commit
      (commit;;
       acquire L_log;;
       upd_log (set_committing 0);;
       wakeup Chan_log;;
       release L_log).

Definition log_write (b : nat) : MK unit :=
  l ← get_log;
  if (Z.of_nat LOGSIZE <=? lh_n l) || (l_size l - 1 <=? lh_n l) then panic "too big a transaction"
  else if outstanding l <? 1 then panic "log_write outside of trans"
  else
    acquire L_log;;
    x ← get_buf b;
    l ← get_log;
    let i := default (Z.to_nat (lh_n l))
               (find_index (fun v => u32 v =? blockno x) (take (Z.to_nat (lh_n l)) (lh_block l))) in
    lh_set (Z.of_nat i) (s32 (blockno x));;
    when (Z.of_nat i =? lh_n l) (upd_log (fun l => set_lh_n (lh_n l + 1) l));;
    upd_buf b (fun x => set_b_flags (Z.lor (b_flags x) B_DIRTY) x);;
    release L_log.

End log.

(** ** What the steps of a commit do

    [quiet me s]: process [me] runs, holds no lock and no buffer, and the cache is
    consistent. *)

(** The loops that wait may run at least once. *)
Definition enough (fuel : nat) : Prop := (1 <= fuel)%nat.

Section commit.
Context {D : Type} {BD : BlockDevice D} {DK : Disk D} (fuel : nat) (me : Z).
Context (Hfuel : enough fuel).
Implicit Types (s : kst (fsst D)) (d : D).

Definition quiet (s : kst (fsst D)) : Prop := env me s /\ exists order, bc me (fsys s) order [].

(** From [s] to [s'] the block [n] was written with [bs], and nothing else about the
    file system has changed. *)
Record written (s : kst (fsst D)) (n : Z) (bs : list Z) (s' : kst (fsst D)) : Prop := Written {
  wr_rest : same_rest s s';
  wr_quiet : quiet s';
  wr_log : log (fsys s') = log (fsys s);
  wr_sb : sb (fsys s') = sb (fsys s);
  wr_inodes : inodes (fsys s') = inodes (fsys s);
  wr_disk : disk (fsys s') = dwrite n bs (disk (fsys s));
  wr_block m : 0 <= m < dsize (disk (fsys s)) ->
    block (fsys s') m = if decide (m = n) then bs else block (fsys s) m;
  wr_dirty m : dirty (fsys s') m <-> dirty (fsys s) m /\ m <> n }.

Lemma env_edited s b x m : env me s -> env me (edited s b x m).
Proof. intros (i & p & H). by exists i, p. Qed.
Lemma env_wrote s b x : env me s -> env me (wrote s b x).
Proof. intros (i & p & H). by exists i, p. Qed.

(** Write and release a held buffer, after its bytes have been changed to [m]. *)
Lemma wp_write_release s order b x m :
  env me s -> bc me (fsys s) order [b] -> buf_at (fsys s) b x -> mem_ok m ->
  wp (bwrite b;; brelse b) (fun _ s' => written s (blockno x) (bytes m) s') (edited s b x m).
Proof.
  intros Henv Hbc Hx Hm. assert (Hb : b ∈ [b]) by left.
  set (s1 := edited s b x m). set (x1 := set_b_data m x).
  assert (Hbc1 : bc me (fsys s1) order [b]) by (by apply edited_bc).
  assert (Hx1 : buf_at (fsys s1) b x1) by (apply (edited_at s b x m Hx); by left).
  apply wp_bind. eapply wp_result; [apply (run_bwrite me s1 order [b] b x1); try done; by apply env_edited|]. cbv beta.
  set (s2 := wrote s1 b x1). assert (Hbc2 : bc me (fsys s2) order [b]) by (by apply wrote_bc).
  destruct (busy_facts me s order [b] b x Hbc Hx Hb) as (_ & _ & _ & _ & Hr & _).
  eapply wp_mono; [apply (wp_brelse me s2 order [b] b (set_b_flags 2 x1)); try done|].
  - by apply wrote_at.
  - intros _. change (bytes m = dread (disk (fsys (wrote s1 b x1))) (blockno x1)). rewrite (wrote_dread me s1 order [b] b x1) by done. by rewrite decide_True.
  - intros _ s' []. assert (same_rest s s') as Hsr by (eapply same_rest_trans; [apply same_rest_fsys|done]).
    split; try done.
    + split; [by eapply env_same|]. eexists. rewrite filter_cons_False in rel_bc by tauto. exact rel_bc.
    + intros n Hn. rewrite rel_block. unfold s2. rewrite (wrote_block me s1 order [b] b x1) by done.
      unfold s1. by rewrite (edited_block me s order [b] b x m).
    + intros n. rewrite rel_dirty. unfold s2. rewrite (wrote_dirty me s1 order [b] b x1) by done.
      unfold s1. by rewrite (edited_dirty me s order [b] b x m).
Qed.

(** Copy a held buffer into another held one, write that, release both. *)
Lemma wp_transfer {A} s order busy bd xd bs xs (k : M (kst (fsst D)) A) Q :
  env me s -> bc me (fsys s) order busy -> filter (fun c => c <> bs) busy = [bd] -> bd ∈ busy -> bs ∈ busy -> bd <> bs ->
  buf_at (fsys s) bd xd -> buf_at (fsys s) bs xs ->
  (b_flags xs = 2 -> bytes (data xs) = dread (disk (fsys s)) (blockno xs)) ->
  (forall s', written s (blockno xd) (bytes (data xs)) s' -> wp k Q s') ->
  wp (copy_block bd bs;; bwrite bd;; brelse bs;; brelse bd;; k) Q s.
Proof.
  intros Henv Hbc Hfil Hbd Hbs Hne Hxd Hxs Hsync Hk.
  destruct (busy_facts me s order busy bd xd Hbc Hxd Hbd) as (_ & _ & _ & Hdd & Hrd & Hmd).
  destruct (busy_facts me s order busy bs xs Hbc Hxs Hbs) as (_ & _ & _ & Hds & Hrs & Hms).
  assert (Hkey : blockno xs <> blockno xd) by (intros E; destruct Hne; by eapply (bc_uniq _ _ _ _ Hbc bd bs xd xs)).
  destruct (mem_ok_is_blk (data xd) (bytes (data xs)) Hmd (is_blk_ld _ _ Hms)) as [Hm Em].
  set (m := st_bytes (data xd) 0 (bytes (data xs))) in *.
  set (s1 := edited s bd xd m). set (x1 := set_b_data m xd).
  assert (Hcopy : copy_block bd bs s = Ret tt s1).
  { unfold copy_block. krun_with run_get_buf; [|apply Hxs]. by rewrite (run_upd_buf s bd _ xd) by apply Hxd. }
  clearbody m. apply wp_bind. apply (wp_result _ _ _ _ _ Hcopy). cbv beta.
  assert (Hbc1 : bc me (fsys s1) order busy) by (by apply edited_bc).
  assert (Hx1 : buf_at (fsys s1) bd x1) by (apply (edited_at s bd xd m Hxd); by left).
  apply wp_bind. eapply wp_result; [apply (run_bwrite me s1 order busy bd x1); done|]. cbv beta.
  set (s2 := wrote s1 bd x1). assert (Hbc2 : bc me (fsys s2) order busy) by (by apply wrote_bc).
  assert (Hxs2 : buf_at (fsys s2) bs xs).
  { apply (buf_at_insert (fsys s1) (fsys s2) bd x1 (set_b_flags 2 x1) bs xs Hx1); [done|]. right. split; [done|].
    apply (edited_at s bd xd m Hxd). by right. }
  assert (Hd2 : forall n, 0 <= n < dsize (disk (fsys s)) ->
    dread (disk (fsys s2)) n = if decide (n = blockno xd) then bytes m else dread (disk (fsys s)) n).
  { intros n Hn. apply (wrote_dread me s1 order busy bd x1); done. }
  apply wp_bind. eapply wp_mono; [apply (wp_brelse me s2 order busy bs xs); try done|].
  { intros F. rewrite Hd2, decide_False by done. by apply Hsync. }
  intros ? s3 R3. cbv beta in R3. destruct (released_keeps _ _ _ _ _ _ bd (set_b_flags 2 x1) R3 Hne) as (y & Hy & Ey); [by apply wrote_at|].
  pose proof (rel_bc _ _ _ _ _ _ R3) as Hbc3. rewrite Hfil in Hbc3.
  apply wp_bind. eapply wp_mono; [eapply (wp_brelse me s3 _ [bd] bd y); [|exact Hbc3|done|left|]|].
  { eapply env_same; [|apply R3]. done. }
  { intros _. rewrite Ey. cbn [blockno data set_b_next set_b_prev set_b_flags x1 set_b_data]. rewrite (rel_disk _ _ _ _ _ _ R3), Hd2, decide_True by done. done. }
  intros ? s4 R4. cbv beta in R4. assert (Hsr : same_rest s s4).
  { eapply same_rest_trans; [|apply R4]. eapply same_rest_trans; [|apply R3].
    split; [done..|apply woken_refl]. }
  apply Hk. destruct R3, R4. split.
  - done.
  - split; [by eapply env_same|]. eexists. rewrite (filter_cons_False _ bd []) in rel_bc0 by tauto. exact rel_bc0.
  - by rewrite rel_log0, rel_log.
  - by rewrite rel_sb0, rel_sb.
  - by rewrite rel_inodes0, rel_inodes.
  - rewrite rel_disk0, rel_disk, <- Em. done.
  - intros n Hn. rewrite rel_block0, rel_block, <- Em. unfold s2. rewrite (wrote_block me s1 order busy bd x1) by done.
    unfold s1. by rewrite (edited_block me s order busy bd xd m).
  - intros n. rewrite rel_dirty0, rel_dirty. unfold s2. rewrite (wrote_dirty me s1 order busy bd x1) by done.
    unfold s1. by rewrite (edited_dirty me s order busy bd xd m).
Qed.

(** ** Sequences of writes *)

Definition dwrites (ws : list (Z * list Z)) (d : D) : D := foldl (fun d w => dwrite w.1 w.2 d) d ws.
Definition apply_writes (ws : list (Z * list Z)) (g : Z -> list Z) : Z -> list Z :=
  foldl (fun g w m => if decide (m = w.1) then w.2 else g m) g ws.

Record written_all (s : kst (fsst D)) (ws : list (Z * list Z)) (s' : kst (fsst D)) : Prop := Written_all {
  wa_rest : same_rest s s';
  wa_quiet : quiet s';
  wa_log : log (fsys s') = log (fsys s);
  wa_sb : sb (fsys s') = sb (fsys s);
  wa_inodes : inodes (fsys s') = inodes (fsys s);
  wa_disk : disk (fsys s') = dwrites ws (disk (fsys s));
  wa_block m : 0 <= m < dsize (disk (fsys s)) -> block (fsys s') m = apply_writes ws (block (fsys s)) m;
  wa_dirty m : dirty (fsys s') m <-> dirty (fsys s) m /\ m ∉ ws.*1 }.

Lemma dsize_dwrites ws d : dsize (dwrites ws d) = dsize d.
Proof. revert d. induction ws as [|w ws IH]; intros d; [done|].
  change (dsize (dwrites ws (dwrite w.1 w.2 d)) = dsize d). rewrite IH. apply dsize_dwrite.
Qed.

Lemma apply_writes_ext ws g g' m : g m = g' m -> apply_writes ws g m = apply_writes ws g' m.
Proof.
  revert g g'. induction ws as [|w ws IH]; intros g g' E; [done|]. cbn. apply IH. by rewrite E.
Qed.

Lemma apply_writes_app ws1 ws2 g : apply_writes (ws1 ++ ws2) g = apply_writes ws2 (apply_writes ws1 g).
Proof. apply foldl_app. Qed.
Lemma dwrites_app ws1 ws2 d : dwrites (ws1 ++ ws2) d = dwrites ws2 (dwrites ws1 d).
Proof. apply foldl_app. Qed.

Lemma apply_writes_other ws g m : m ∉ ws.*1 -> apply_writes ws g m = g m.
Proof.
  revert g. induction ws as [|w ws IH]; intros g Hm; [done|]. cbn in *. apply not_elem_of_cons in Hm as [H1 H2].
  unfold apply_writes in IH |- *. cbn. rewrite IH by done. by rewrite decide_False.
Qed.

Lemma apply_writes_in ws g m bs : NoDup ws.*1 -> (m, bs) ∈ ws -> apply_writes ws g m = bs.
Proof.
  revert g. induction ws as [|[n b] ws IH]; intros g Hnd Hin; [by apply not_elem_of_nil in Hin|].
  cbn in Hnd. apply NoDup_cons in Hnd as [Hn Hnd]. apply elem_of_cons in Hin as [[= -> ->]|Hin].
  - etrans; [apply (apply_writes_other ws); done|]. cbn. by rewrite decide_True.
  - by apply IH.
Qed.

(** Writes in range, of whole blocks. *)
Definition writes_ok (d : D) (ws : list (Z * list Z)) : Prop :=
  Forall (fun w => 0 <= w.1 < dsize d /\ is_blk w.2) ws.

Lemma dwrites_read ws d m : disk_ok d -> writes_ok d ws -> 0 <= m < dsize d ->
  disk_ok (dwrites ws d) /\ dread (dwrites ws d) m = apply_writes ws (dread d) m.
Proof.
  intros Hd Hw Hm. induction ws as [|w ws IH] using rev_ind; [done|].
  apply Forall_app in Hw as [Hws Hw]. apply Forall_inv in Hw as [Hr Hb].
  rewrite dwrites_app, apply_writes_app. destruct (IH Hws) as [H1 H2].
  assert (Hs : dsize (dwrites ws d) = dsize d) by apply dsize_dwrites.
  change (disk_ok (dwrite w.1 w.2 (dwrites ws d)) /\ dread (dwrite w.1 w.2 (dwrites ws d)) m =
    if decide (m = w.1) then w.2 else apply_writes ws (dread d) m).
  split; [apply dwrite_ok; [done|done|by rewrite Hs]|].
  rewrite dread_dwrite by (done || by rewrite Hs). case_decide; [done|]. exact H2.
Qed.

Lemma written_all_nil s : quiet s -> written_all s [] s.
Proof. intros Hq. split; try done; [apply same_rest_refl|]. intros m. set_solver. Qed.

Lemma written_all_snoc s ws s1 n bs s2 :
  written_all s ws s1 -> written s1 n bs s2 -> written_all s (ws ++ [(n, bs)]) s2.
Proof.
  intros A B. assert (Hs : dsize (disk (fsys s1)) = dsize (disk (fsys s))) by (rewrite (wa_disk _ _ _ A); apply dsize_dwrites).
  destruct A, B. split; try congruence; [by eapply same_rest_trans| | |].
  - rewrite dwrites_app, <- wa_disk0. done.
  - intros m Hm. rewrite wr_block0 by (by rewrite Hs). rewrite apply_writes_app, wa_block0 by done. done.
  - intros m. rewrite wr_dirty0, wa_dirty0, fmap_app. cbn. set_solver.
Qed.

Lemma written_all_app s ws s1 ws' s2 :
  written_all s ws s1 -> written_all s1 ws' s2 -> written_all s (ws ++ ws') s2.
Proof.
  intros A B. assert (Hs : dsize (disk (fsys s1)) = dsize (disk (fsys s))) by (rewrite (wa_disk _ _ _ A); apply dsize_dwrites).
  destruct A, B. split; try congruence; [by eapply same_rest_trans| | |].
  - by rewrite dwrites_app, <- wa_disk0.
  - intros m Hm. rewrite wa_block1 by (by rewrite Hs). rewrite apply_writes_app.
    assert (Hg : forall ws g g', g m = g' m -> apply_writes ws g m = apply_writes ws g' m).
    { induction ws0 as [|w ws0 IH]; intros g g' Hg; [done|]. unfold apply_writes in IH |- *. cbn. apply IH.
      by case_decide. }
    apply Hg. by apply wa_block0.
  - intros m. rewrite wa_dirty1, wa_dirty0, fmap_app. set_solver.
Qed.

(** Reading blocks changes nothing. *)
Record unchanged (s s' : kst (fsst D)) : Prop := Unchanged {
  un_rest : same_rest s s';
  un_log : log (fsys s') = log (fsys s);
  un_sb : sb (fsys s') = sb (fsys s);
  un_inodes : inodes (fsys s') = inodes (fsys s);
  un_disk : disk (fsys s') = disk (fsys s);
  un_block m : 0 <= m < dsize (disk (fsys s)) -> block (fsys s') m = block (fsys s) m;
  un_dirty m : dirty (fsys s') m <-> dirty (fsys s) m }.

Lemma unchanged_refl s : unchanged s s.
Proof. split; try done. apply same_rest_refl. Qed.
Lemma unchanged_trans s1 s2 s3 : unchanged s1 s2 -> unchanged s2 s3 -> unchanged s1 s3.
Proof.
  intros [] []. split; try congruence; [by eapply same_rest_trans| |].
  - intros m Hm. rewrite un_block1 by congruence. by apply un_block0.
  - intros m. by rewrite un_dirty1.
Qed.
Lemma unchanged_got s n order busy b x s' : got me s n order busy b x s' -> unchanged s s'.
Proof. intros []. subst s'. split; try done. apply same_rest_fsys. Qed.
Lemma written_pre s s1 n bs s2 : unchanged s s1 -> written s1 n bs s2 -> written s n bs s2.
Proof.
  intros [] []. split; try congruence; [by eapply same_rest_trans| |].
  - intros m Hm. rewrite wr_block0 by congruence. case_decide; [done|]. by apply un_block0.
  - intros m. by rewrite wr_dirty0, un_dirty0.
Qed.

(** ** The blocks of a transaction *)

(** A block outside the log whose header and first [k] blocks start at [start]. *)
Definition home (start : Z) (k : nat) (d : D) (v : Z) : Prop :=
  0 <= v < dsize d /\ ~ (start <= v <= start + Z.of_nat k).

(** The transaction in memory consists of the blocks [blks]. *)
Record logged (f : fsst D) (blks : list Z) : Prop := Logged {
  lg_dev : l_dev (log f) = 1;
  lg_n : lh_n (log f) = Z.of_nat (List.length blks);
  lg_blocks : take (List.length blks) (lh_block (log f)) = blks;
  lg_start : 0 <= l_start (log f);
  lg_area : l_start (log f) + Z.of_nat (List.length blks) < dsize (disk f);
  lg_home : Forall (home (l_start (log f)) (List.length blks) (disk f)) blks;
  lg_nodup : NoDup blks;
  lg_small : (List.length blks < NBUF)%nat }.

(** The log block of entry [i]. *)
Definition lblk (l : logst) (i : nat) : Z := l_start l + Z.of_nat i + 1.

Lemma logged_lookup f blks i v : logged f blks -> blks !! i = Some v ->
  lh_block (log f) !! i = Some v /\ home (l_start (log f)) (List.length blks) (disk f) v /\
  (i < List.length blks)%nat /\ 0 <= lblk (log f) i < dsize (disk f) /\ lblk (log f) i <> v.
Proof.
  intros [] Hv. pose proof (lookup_lt_Some _ _ _ Hv) as Hi.
  assert (home (l_start (log f)) (List.length blks) (disk f) v) as [H1 H2] by (by eapply Forall_lookup in lg_home0).
  unfold lblk. split_and!; try done; try lia.
  rewrite <- lg_blocks0 in Hv. by apply lookup_take_Some in Hv as [Hv _].
Qed.

Lemma run_lh_get s i v : lh_block (log (fsys s)) !! i = Some v -> lh_get (Z.of_nat i) s = Ret v s.
Proof. intros H. unfold lh_get, get_log. mrun. by rewrite Nat2Z.id, H. Qed.

Lemma wp_write_log_body s blks i v :
  quiet s -> logged (fsys s) blks -> blks !! i = Some v -> dirty (fsys s) v -> (forall m, dirty (fsys s) m -> m ∈ blks) ->
  wp (write_log_body fuel (Z.of_nat i))
     (fun r s' => r = inl (Z.of_nat (S i)) /\ written s (lblk (log (fsys s)) i) (block (fsys s) v) s') s.
Proof.
  intros [Henv [order Hbc]] Hlg Hv Hdirty Hd.
  destruct (logged_lookup _ _ _ _ Hlg Hv) as (Hlh & [Hr _] & Hi & Hlb & Hne). pose proof (dsize_range _ (bc_disk _ _ _ _ Hbc)) as Hsz.
  unfold write_log_body, get_log. apply wp_bind, wp_gets. rewrite (lg_n _ _ Hlg).
  rewrite (proj2 (Z.ltb_lt _ _)) by lia. cbn [negb]. rewrite (lg_dev _ _ Hlg). change (u32 1) with 1.
  fold (lblk (log (fsys s)) i). rewrite (u32_id (lblk _ _)) by lia.
  apply wp_bind. eapply wp_mono; [eapply wp_bread; [done|exact Henv|exact Hbc|done|set_solver|]|].
  { right. eapply evictable_count; [exact Hbc|exact Hd|]. cbn. destruct Hlg. lia. }
  intros b1 s1 [x1 G1]. pose proof (unchanged_got _ _ _ _ _ _ _ G1) as U1.
  apply wp_bind. eapply wp_result; [apply run_lh_get; rewrite (un_log _ _ U1); exact Hlh|]. cbv beta.
  rewrite (u32_id v) by lia. apply wp_bind.
  eapply wp_mono; [eapply (wp_bread fuel me s1 order [b1]); [done|by eapply env_same, U1|apply G1|by rewrite (un_disk _ _ U1)| |]|].
  { intros b x Hb%list_elem_of_singleton Hx. subst b.
    assert (x = x1) as -> by (destruct Hx, (got_at _ _ _ _ _ _ _ _ G1); congruence). by rewrite (got_blockno _ _ _ _ _ _ _ _ G1). }
  { left. by apply (un_dirty _ _ U1). }
  intros b2 s2 [x2 G2]. pose proof (unchanged_got _ _ _ _ _ _ _ G2) as U2.
  pose proof (got_new _ _ _ _ _ _ _ _ G2) as Hb12. rewrite not_elem_of_cons in Hb12. destruct Hb12 as [Hb12 _].
  assert (Hx1 : buf_at (fsys s2) b1 x1).
  { destruct (got_at _ _ _ _ _ _ _ _ G1) as [B1 B2]. split; [done|]. rewrite (got_state _ _ _ _ _ _ _ _ G2). fsimp.
    by rewrite list_lookup_insert_ne. }
  assert (U : unchanged s s2) by (by eapply unchanged_trans).
  eapply wp_transfer; [by eapply env_same, U|apply G2| |right; left|left|done|exact Hx1|apply G2| |].
  { rewrite filter_cons_False, filter_cons_True by (congruence || tauto). done. }
  { intros F. rewrite (got_blockno _ _ _ _ _ _ _ _ G2), (un_disk _ _ U2). by apply G2. }
  intros s3 W. apply wp_ret. split; [f_equal; lia|]. apply (written_pre _ _ _ _ _ U).
  rewrite (got_blockno _ _ _ _ _ _ _ _ G1), (got_data _ _ _ _ _ _ _ _ G2), (un_block _ _ U1) in W by done. done.
Qed.

Lemma wp_install_body s blks i v :
  quiet s -> logged (fsys s) blks -> blks !! i = Some v -> (forall m, dirty (fsys s) m -> m ∈ blks) ->
  (dirty (fsys s) v \/ forall m, ~ dirty (fsys s) m) ->
  wp (install_trans_body fuel (Z.of_nat i))
     (fun r s' => r = inl (Z.of_nat (S i)) /\ written s v (block (fsys s) (lblk (log (fsys s)) i)) s') s.
Proof.
  intros [Henv [order Hbc]] Hlg Hv Hd Hdirty.
  destruct (logged_lookup _ _ _ _ Hlg Hv) as (Hlh & [Hr _] & Hi & Hlb & Hne). pose proof (dsize_range _ (bc_disk _ _ _ _ Hbc)) as Hsz.
  unfold install_trans_body, get_log. apply wp_bind, wp_gets. rewrite (lg_n _ _ Hlg).
  rewrite (proj2 (Z.ltb_lt _ _)) by lia. cbn [negb]. rewrite (lg_dev _ _ Hlg). change (u32 1) with 1.
  fold (lblk (log (fsys s)) i). rewrite (u32_id (lblk _ _)) by lia.
  apply wp_bind. eapply wp_mono; [eapply wp_bread; [done|exact Henv|exact Hbc|done|set_solver|]|].
  { right. eapply evictable_count; [exact Hbc|exact Hd|]. cbn. destruct Hlg. lia. }
  intros b1 s1 [x1 G1]. pose proof (unchanged_got _ _ _ _ _ _ _ G1) as U1.
  apply wp_bind. eapply wp_result; [apply run_lh_get; rewrite (un_log _ _ U1); exact Hlh|]. cbv beta.
  rewrite (u32_id v) by lia. apply wp_bind.
  eapply wp_mono; [eapply (wp_bread fuel me s1 order [b1]); [done|by eapply env_same, U1|apply G1|by rewrite (un_disk _ _ U1)| |]|].
  { intros b x Hb%list_elem_of_singleton Hx. subst b.
    assert (x = x1) as -> by (destruct Hx, (got_at _ _ _ _ _ _ _ _ G1); congruence). by rewrite (got_blockno _ _ _ _ _ _ _ _ G1). }
  { destruct Hdirty as [Hdirty|Hno]; [left; by apply (un_dirty _ _ U1)|right].
    eapply (evictable_count _ _ _ _ []); [apply G1| |cbn; unfold NBUF; lia]. intros m Hm%(un_dirty _ _ U1). by destruct (Hno m). }
  intros b2 s2 [x2 G2]. pose proof (unchanged_got _ _ _ _ _ _ _ G2) as U2.
  pose proof (got_new _ _ _ _ _ _ _ _ G2) as Hb12. rewrite not_elem_of_cons in Hb12. destruct Hb12 as [Hb12 _].
  assert (Hx1 : buf_at (fsys s2) b1 x1).
  { destruct (got_at _ _ _ _ _ _ _ _ G1) as [B1 B2]. split; [done|]. rewrite (got_state _ _ _ _ _ _ _ _ G2). fsimp.
    by rewrite list_lookup_insert_ne. }
  assert (U : unchanged s s2) by (by eapply unchanged_trans).
  eapply wp_transfer; [by eapply env_same, U|apply G2| |left|right; left|done|apply G2|exact Hx1| |].
  { rewrite filter_cons_True, filter_cons_False by (congruence || tauto). done. }
  { intros F. rewrite (got_blockno _ _ _ _ _ _ _ _ G1), (un_disk _ _ U). by apply G1. }
  intros s3 W. apply wp_ret. split; [f_equal; lia|]. apply (written_pre _ _ _ _ _ U).
  rewrite (got_blockno _ _ _ _ _ _ _ _ G2), (got_data _ _ _ _ _ _ _ _ G1) in W. done.
Qed.

(** ** The loops *)

Definition log_writes (s : kst (fsst D)) (blks : list Z) : list (Z * list Z) :=
  imap (fun i v => (lblk (log (fsys s)) i, block (fsys s) v)) blks.
Definition home_writes (s : kst (fsst D)) (blks : list Z) : list (Z * list Z) :=
  imap (fun i v => (v, block (fsys s) (lblk (log (fsys s)) i))) blks.

Lemma logged_written s ws s' blks : written_all s ws s' -> logged (fsys s) blks -> logged (fsys s') blks.
Proof.
  intros [] []. assert (Hs : dsize (disk (fsys s')) = dsize (disk (fsys s))) by (rewrite wa_disk0; apply dsize_dwrites).
  split; rewrite ?wa_log0, ?Hs; try done. eapply Forall_impl; [done|]. intros v [H1 H2]. split; [by rewrite Hs|done].
Qed.

Lemma log_writes_keys s blks m : m ∈ (log_writes s blks).*1 -> l_start (log (fsys s)) < m <= l_start (log (fsys s)) + Z.of_nat (List.length blks).
Proof.
  intros (w & -> & Hw)%list_elem_of_fmap. apply list_elem_of_lookup in Hw as [i Hi]. unfold log_writes in Hi.
  rewrite list_lookup_imap in Hi. apply fmap_Some in Hi as (v & Hv & ->). cbn. unfold lblk.
  apply lookup_lt_Some in Hv. lia.
Qed.
Lemma home_writes_keys s blks : (home_writes s blks).*1 = blks.
Proof.
  unfold home_writes. rewrite fmap_imap. apply list_eq. intros i. rewrite list_lookup_imap. by destruct (blks !! i).
Qed.

Lemma elem_of_take_fst (ws : list (Z * list Z)) i m : m ∈ (take i ws).*1 -> m ∈ ws.*1.
Proof. rewrite <- (take_drop i ws) at 2. rewrite fmap_app. set_solver. Qed.

Lemma wp_write_log s blks :
  quiet s -> logged (fsys s) blks -> (forall m, dirty (fsys s) m <-> m ∈ blks) ->
  wp (write_log fuel) (fun _ s' => written_all s (log_writes s blks) s') s.
Proof.
  intros Hq Hlg Hd. pose proof (lg_small _ _ Hlg) as Hsm.
  eapply (wp_iterate (fun tail s' => exists i, tail = Z.of_nat i /\ (i <= List.length blks)%nat /\
    written_all s (take i (log_writes s blks)) s') (fun tail => List.length blks - Z.to_nat tail)%nat).
  2:{ unfold LOGSIZE, NBUF in *. lia. }
  2:{ exists 0%nat. split_and!; [done|lia|]. cbn. by apply written_all_nil. }
  intros tail s' (i & -> & Hi & W). destruct (decide (i = List.length blks)) as [->|Hne].
  - unfold write_log_body, get_log. apply wp_bind, wp_gets. rewrite (wa_log _ _ _ W), (lg_n _ _ Hlg).
    rewrite Z.ltb_irrefl. apply wp_ret. rewrite take_ge in W by (unfold log_writes; by rewrite length_imap). exact W.
  - destruct (lookup_lt_is_Some_2 blks i) as [v Hv]; [lia|].
    destruct (logged_lookup _ _ _ _ Hlg Hv) as (_ & [Hr Hho] & _ & Hlb & _).
    assert (Hnot : forall u, u ∈ blks -> u ∉ (take i (log_writes s blks)).*1).
    { intros u Hu Hin%elem_of_take_fst%log_writes_keys. pose proof (lg_home _ _ Hlg) as Hh. eapply Forall_forall in Hh as [_ Hh]; [|exact Hu]. lia. }
    assert (Hvin : v ∈ blks) by (apply list_elem_of_lookup; eauto).
    eapply wp_mono; [eapply (wp_write_log_body s' blks i v); [apply W|by eapply logged_written|done| |]|].
    + apply (wa_dirty _ _ _ W). split; [by apply Hd|by apply Hnot].
    + intros m [Hm _]%(wa_dirty _ _ _ W). by apply Hd.
    + intros r s'' [-> W']. split; [|lia]. exists (S i). split_and!; [done|lia|].
      assert (Hlk : log_writes s blks !! i = Some (lblk (log (fsys s)) i, block (fsys s) v)).
      { unfold log_writes. by rewrite list_lookup_imap, Hv. }
      rewrite (take_S_r _ _ _ Hlk). apply (written_all_snoc _ _ _ _ _ _ W). rewrite (wa_log _ _ _ W), (wa_block _ _ _ W) in W' by done.
      by rewrite apply_writes_other in W' by auto.
Qed.

Lemma wp_install_trans s blks :
  quiet s -> logged (fsys s) blks -> (forall m, dirty (fsys s) m <-> m ∈ blks) \/ (forall m, ~ dirty (fsys s) m) ->
  wp (install_trans fuel) (fun _ s' => written_all s (home_writes s blks) s') s.
Proof.
  intros Hq Hlg Hd. pose proof (lg_small _ _ Hlg) as Hsm.
  eapply (wp_iterate (fun tail s' => exists i, tail = Z.of_nat i /\ (i <= List.length blks)%nat /\
    written_all s (take i (home_writes s blks)) s') (fun tail => List.length blks - Z.to_nat tail)%nat).
  2:{ unfold LOGSIZE, NBUF in *. lia. }
  2:{ exists 0%nat. split_and!; [done|lia|]. cbn. by apply written_all_nil. }
  intros tail s' (i & -> & Hi & W). destruct (decide (i = List.length blks)) as [->|Hne].
  - unfold install_trans_body, get_log. apply wp_bind, wp_gets. rewrite (wa_log _ _ _ W), (lg_n _ _ Hlg).
    rewrite Z.ltb_irrefl. apply wp_ret. rewrite take_ge in W by (unfold home_writes; by rewrite length_imap). exact W.
  - destruct (lookup_lt_is_Some_2 blks i) as [v Hv]; [lia|].
    destruct (logged_lookup _ _ _ _ Hlg Hv) as (_ & [Hr Hho] & _ & Hlb & _).
    assert (Hkeys : (take i (home_writes s blks)).*1 = take i blks) by (by rewrite fmap_take, home_writes_keys).
    assert (Hvin : v ∈ blks) by (apply list_elem_of_lookup; eauto).
    assert (Hvt : v ∉ take i blks).
    { intros (j & Hj)%list_elem_of_lookup. apply lookup_take_Some in Hj as [Hj Hlt].
      pose proof (NoDup_lookup _ _ _ _ (lg_nodup _ _ Hlg) Hj Hv). lia. }
    eapply wp_mono; [eapply (wp_install_body s' blks i v); [apply W|by eapply logged_written|done| |]|].
    + intros m [Hm _]%(wa_dirty _ _ _ W). destruct Hd as [Hd|Hd]; [by apply Hd|by destruct (Hd m)].
    + destruct Hd as [Hd|Hd]; [left|right; intros m [Hm _]%(wa_dirty _ _ _ W); by destruct (Hd m)].
      apply (wa_dirty _ _ _ W). rewrite Hkeys. split; [by apply Hd|done].
    + intros r s'' [-> W']. split; [|lia]. exists (S i). split_and!; [done|lia|].
      assert (Hlk : home_writes s blks !! i = Some (v, block (fsys s) (lblk (log (fsys s)) i))).
      { unfold home_writes. by rewrite list_lookup_imap, Hv. }
      rewrite (take_S_r _ _ _ Hlk). apply (written_all_snoc _ _ _ _ _ _ W).
      rewrite (wa_log _ _ _ W), (wa_block _ _ _ W) in W' by done. rewrite apply_writes_other in W'; [done|].
      rewrite Hkeys. intros (j & Hj)%list_elem_of_lookup. apply lookup_take_Some in Hj as [Hj _].
      destruct (logged_lookup _ _ _ _ Hlg Hj) as (_ & [_ Hb] & _). unfold lblk in Hb. lia.
Qed.

(** ** The header block *)

Definition word (bs : list Z) (o : Z) : Z := ld32 (st_bytes ∅ 0 bs) o.

(** The block [bs] is a log header that lists the blocks [blks]. *)
Definition header (bs : list Z) (blks : list Z) : Prop :=
  s32 (word bs 0) = Z.of_nat (List.length blks) /\
  forall i v, blks !! i = Some v -> s32 (word bs (4 + 4 * Z.of_nat i)) = v.

Lemma word_bytes m o : mem_ok m -> 0 <= o -> o + 4 <= BSIZE -> word (bytes m) o = ld32 m o.
Proof.
  intros Hm Ho Hl. apply ld32_ext. intros i Hi. unfold bytes. rewrite ld8_st_bytes, length_ld_bytes, decide_True by (unfold BSIZE in *; lia).
  rewrite lookup_ld_bytes by (unfold BSIZE in *; lia). cbn. replace (0 + Z.of_nat (Z.to_nat (i - 0))) with i by lia.
  apply u8_id, Hm.
Qed.

Lemma edited_edited s b x m1 m2 : buf_at (fsys s) b x ->
  upd_buf b (fun y => set_b_data m2 y) (edited s b x m1) = Ret tt (edited s b x m2).
Proof.
  intros [_ Hx]. assert (Hlen : (b < List.length (bufs (fsys s)))%nat) by (by eapply lookup_lt_Some).
  erewrite run_upd_buf; [|unfold edited; fsimp; by apply list_lookup_insert_eq]. unfold edited. fsimp.
  by rewrite list_insert_insert_eq.
Qed.

Lemma upd_buf_data s b y g : bufs (fsys s) !! b = Some y ->
  upd_buf b (fun y => set_b_data (g (data y)) y) s = upd_buf b (fun y' => set_b_data (g (data y)) y') s.
Proof. intros H. by rewrite !(run_upd_buf s b _ y H). Qed.

(** The header in memory: the count, and the block numbers of the first [i] entries. *)
Definition head_mem (blks : list Z) (i : nat) (m : Zmap Z) : Prop :=
  mem_ok m /\ ld32 m 0 = Z.of_nat (List.length blks) /\
  forall j v, (j < i)%nat -> blks !! j = Some v -> ld32 m (4 + 4 * Z.of_nat j) = v.

Lemma wp_head_loop s blks b x m0 :
  logged (fsys s) blks -> buf_at (fsys s) b x -> (forall v, v ∈ blks -> v < 4294967296) -> head_mem blks 0 m0 ->
  wp (iterate (S LOGSIZE) (write_head_body b) 0)
     (fun _ s' => exists m, s' = edited s b x m /\ head_mem blks (List.length blks) m) (edited s b x m0).
Proof.
  intros Hlg Hx Hr0 Hh0. pose proof (lg_small _ _ Hlg) as Hsm.
  eapply (wp_iterate (fun tail s' => exists i m, tail = Z.of_nat i /\ (i <= List.length blks)%nat /\
    s' = edited s b x m /\ head_mem blks i m) (fun tail => List.length blks - Z.to_nat tail)%nat).
  2:{ unfold LOGSIZE, NBUF in *. lia. }
  2:{ exists 0%nat, m0. split_and!; [done|lia|done|done]. }
  intros tail s' (i & m & -> & Hi & -> & Hm & H0 & Hj). unfold write_head_body, get_log. apply wp_bind, wp_gets.
  change (log (fsys (edited s b x m))) with (log (fsys s)). rewrite (lg_n _ _ Hlg).
  destruct (Z.ltb_spec (Z.of_nat i) (Z.of_nat (List.length blks))) as [Hlt|Hge]; cbn [negb].
  - destruct (lookup_lt_is_Some_2 blks i) as [v Hv]; [lia|]. destruct (logged_lookup _ _ _ _ Hlg Hv) as (Hlh & [Hr _] & _).
    assert (v < 4294967296) by (apply Hr0, list_elem_of_lookup; eauto).
    apply wp_bind. eapply wp_result; [apply run_lh_get; exact Hlh|].
    cbv beta. apply wp_bind. eapply wp_result.
    { erewrite (upd_buf_data _ _ (set_b_data m x) (fun m => st32 m (4 + 4 * Z.of_nat i) v)); [|apply (edited_at s b x m Hx); by left].
      by apply edited_edited. }
    apply wp_ret. split; [|lia]. exists (S i), (st32 m (4 + 4 * Z.of_nat i) v). split; [lia|]. split; [lia|]. split; [done|].
    split_and!; [by apply mem_ok_st32| |].
    + rewrite ld32_st32_ne by lia. done.
    + intros j u Hju Hu. destruct (decide (j = i)) as [->|Hji].
      * rewrite ld32_st32_eq by lia. congruence.
      * rewrite ld32_st32_ne by lia. apply Hj; [lia|done].
  - apply wp_ret. exists m. split; [done|]. assert (i = List.length blks) as -> by lia. done.
Qed.

Lemma logged_unchanged s s' blks : unchanged s s' -> logged (fsys s) blks -> logged (fsys s') blks.
Proof. intros [] []. split; rewrite ?un_log0, ?un_disk0; done. Qed.

Lemma wp_write_head s blks :
  quiet s -> logged (fsys s) blks -> (forall m, dirty (fsys s) m -> m ∈ blks) ->
  wp (write_head fuel) (fun _ s' => exists bs, written s (l_start (log (fsys s))) bs s' /\ header bs blks /\ is_blk bs) s.
Proof.
  intros [Henv [order Hbc]] Hlg Hd. pose proof (lg_small _ _ Hlg) as Hsm. pose proof (dsize_range _ (bc_disk _ _ _ _ Hbc)) as Hsz.
  pose proof (lg_start _ _ Hlg) as Hst. pose proof (lg_area _ _ Hlg) as Har. unfold NBUF in Hsm.
  assert (Hr : forall i v, blks !! i = Some v -> 0 <= v < 2147483648).
  { intros i v Hv. destruct (logged_lookup _ _ _ _ Hlg Hv) as (_ & [Hr _] & _). lia. }
  unfold write_head, get_log. apply wp_bind, wp_gets. rewrite (lg_dev _ _ Hlg). change (u32 1) with 1.
  rewrite (u32_id (l_start _)) by lia.
  apply wp_bind. eapply wp_mono; [eapply wp_bread; [done|exact Henv|exact Hbc|lia|set_solver|]|].
  { right. eapply evictable_count; [exact Hbc|exact Hd|]. cbn. unfold NBUF. lia. }
  intros b s1 [x G]. pose proof (unchanged_got _ _ _ _ _ _ _ G) as U. rewrite (lg_n _ _ Hlg).
  pose proof (got_at _ _ _ _ _ _ _ _ G) as Hx.
  assert (Hm0 : mem_ok (data x)) by (apply (bc_bufs _ _ _ _ (got_bc _ _ _ _ _ _ _ _ G) b x Hx)).
  apply wp_bind. eapply wp_result; [apply run_upd_buf, Hx|]. set (m0 := st32 (data x) 0 (Z.of_nat (List.length blks))).
  apply wp_bind. eapply wp_mono; [apply (wp_head_loop s1 blks b x m0); [by eapply logged_unchanged|done| |]|].
  { intros v (i & Hv)%list_elem_of_lookup. specialize (Hr i v Hv). lia. }
  { split; [by apply mem_ok_st32|]. split; [apply ld32_st32_eq; lia|lia]. }
  intros ? s' (m & -> & Hm & H0 & Hj).
  eapply wp_mono; [eapply (wp_write_release s1 order b x m); [by eapply env_same, U|apply G|done|done]|].
  intros ? s2 W. cbv beta in W. exists (bytes m). split.
  - apply (written_pre _ _ _ _ _ U). by rewrite (got_blockno _ _ _ _ _ _ _ _ G) in W.
  - split; [|by apply is_blk_ld]. split.
    + rewrite word_bytes, H0 by (done || unfold BSIZE; lia). apply s32_id. lia.
    + intros i v Hv. assert (i < List.length blks)%nat by (by eapply lookup_lt_Some). specialize (Hr i v Hv).
      rewrite word_bytes, (Hj i v) by (done || unfold BSIZE; lia). apply s32_id. lia.
Qed.

(** ** commit *)

Lemma bc_same_bufs f f' order busy : bufs f' = bufs f -> disk f' = disk f -> bc me f order busy -> bc me f' order busy.
Proof.
  intros Hb Hd []. split; rewrite ?Hb, ?Hd; try done.
  - intros a b x y. unfold buf_at. rewrite Hb. apply bc_uniq.
  - intros b x. unfold buf_at. rewrite Hb. apply bc_bufs.
Qed.
Lemma quiet_set_log s l : quiet s -> quiet (set_log l s).
Proof. intros [Henv [order Hbc]]. split; [exact Henv|]. exists order. by eapply bc_same_bufs; [| |exact Hbc]. Qed.

(** The new contents of the blocks of the transaction. *)
Definition new_writes (s : kst (fsst D)) (blks : list Z) : list (Z * list Z) :=
  (fun v => (v, block (fsys s) v)) <$> blks.

Lemma new_writes_keys s blks : (new_writes s blks).*1 = blks.
Proof. unfold new_writes. rewrite <- list_fmap_compose. apply list_fmap_id. Qed.

Lemma log_writes_nodup s blks : NoDup (log_writes s blks).*1.
Proof.
  unfold log_writes. rewrite fmap_imap. apply NoDup_alt. intros i j x. rewrite !list_lookup_imap.
  intros (v & _ & ->)%fmap_Some (w & _ & E)%fmap_Some. cbn in E. unfold lblk in E. lia.
Qed.

(** Once the log blocks are written, the writes of install_trans are those of the new
    contents. *)
Lemma home_writes_new s s' blks ws :
  logged (fsys s) blks -> log (fsys s') = log (fsys s) ->
  (forall m, 0 <= m < dsize (disk (fsys s)) -> block (fsys s') m = apply_writes (log_writes s blks ++ ws) (block (fsys s)) m) ->
  (forall i, lblk (log (fsys s)) i ∉ ws.*1) ->
  home_writes s' blks = new_writes s blks.
Proof.
  intros Hlg Hl Hb Hws. apply list_eq. intros i. unfold home_writes, new_writes. rewrite list_lookup_imap, list_lookup_fmap.
  destruct (blks !! i) as [v|] eqn:Hv; [|done]. cbn. do 2 f_equal.
  destruct (logged_lookup _ _ _ _ Hlg Hv) as (_ & _ & _ & Hr & _). rewrite Hl, Hb, apply_writes_app, apply_writes_other by done.
  apply apply_writes_in; [apply log_writes_nodup|]. apply list_elem_of_lookup. exists i. unfold log_writes. by rewrite list_lookup_imap, Hv.
Qed.

(** The disk writes of a commit, in order. *)
Definition commit_writes (s : kst (fsst D)) (blks : list Z) (H H0 : list Z) : list (Z * list Z) :=
  log_writes s blks ++ [(l_start (log (fsys s)), H)] ++ new_writes s blks ++ [(l_start (log (fsys s)), H0)].

Lemma start_not_home s blks : logged (fsys s) blks -> l_start (log (fsys s)) ∉ blks.
Proof.
  intros Hlg (i & Hv)%list_elem_of_lookup. destruct (logged_lookup _ _ _ _ Hlg Hv) as (_ & [_ Hh] & _). lia.
Qed.

Lemma logged_none s : l_dev (log (fsys s)) = 1 -> 0 <= l_start (log (fsys s)) < dsize (disk (fsys s)) ->
  logged (fsys (set_log (set_lh_n 0 (log (fsys s))) s)) [].
Proof. intros Hdev Hs. split; try done; cbn; [lia|lia|constructor|]. unfold NBUF. lia. Qed.

Lemma wp_commit s blks :
  quiet s -> logged (fsys s) blks -> (forall m, dirty (fsys s) m <-> m ∈ blks) -> blks <> [] ->
  wp (commit fuel) (fun _ s' => exists H H0,
    header H blks /\ header H0 [] /\ is_blk H /\ is_blk H0 /\
    same_rest s s' /\ quiet s' /\ log (fsys s') = set_lh_n 0 (log (fsys s)) /\
    disk (fsys s') = dwrites (commit_writes s blks H H0) (disk (fsys s)) /\
    (forall m, ~ dirty (fsys s') m)) s.
Proof.
  intros Hq Hlg Hd Hne. unfold commit, get_log. apply wp_bind, wp_gets. rewrite (lg_n _ _ Hlg).
  rewrite (proj2 (Z.ltb_lt _ _)) by (destruct blks; [done|cbn; lia]). cbn [when].
  pose proof (start_not_home s blks Hlg) as Hst. set (start := l_start (log (fsys s))) in *.
  assert (Hlog : forall m, m ∈ blks -> m ∉ (log_writes s blks).*1).
  { intros m (i & Hv)%list_elem_of_lookup Hin%log_writes_keys. destruct (logged_lookup _ _ _ _ Hlg Hv) as (_ & [_ Hh] & _). lia. }
  apply wp_bind. eapply wp_mono; [by apply wp_write_log|]. intros ? s1 W1. cbv beta in W1.
  assert (Hd1 : forall m, dirty (fsys s1) m <-> m ∈ blks).
  { intros m. rewrite (wa_dirty _ _ _ W1), Hd. split; [tauto|]. auto. }
  pose proof (logged_written _ _ _ _ W1 Hlg) as Hlg1.
  apply wp_bind. eapply wp_mono; [apply (wp_write_head s1 blks); [apply W1|done|intros m; apply Hd1]|].
  intros ? s2 (H & W2 & HH & BH). rewrite (wa_log _ _ _ W1) in W2. fold start in W2.
  pose proof (written_all_snoc _ _ _ _ _ _ W1 W2) as W12.
  assert (Hd2 : forall m, dirty (fsys s2) m <-> m ∈ blks).
  { intros m. rewrite (wr_dirty _ _ _ _ W2), Hd1. split; [tauto|]. intros Hm. split; [done|congruence]. }
  pose proof (logged_written _ _ _ _ W12 Hlg) as Hlg2.
  apply wp_bind. eapply wp_mono; [apply (wp_install_trans s2 blks); [apply W12|done|by left]|].
  intros ? s3 W3. cbv beta in W3. rewrite (home_writes_new s s2 blks [(start, H)]) in W3; [|done|apply W12|apply W12|].
  2:{ intros i Hi%list_elem_of_singleton. cbn in Hi. unfold lblk, start in Hi. lia. }
  pose proof (written_all_app _ _ _ _ _ W12 W3) as W123.
  assert (Hd3 : forall m, ~ dirty (fsys s3) m).
  { intros m [Hm Hnot]%(wa_dirty _ _ _ W3). rewrite new_writes_keys in Hnot. by apply Hnot, Hd2. }
  pose proof (logged_written _ _ _ _ W123 Hlg) as Hlg3.
  unfold upd_log. apply wp_bind, wp_modify. set (s4 := set_log _ s3).
  assert (Hlg4 : logged (fsys s4) []).
  { pose proof (lg_start _ _ Hlg3). pose proof (lg_area _ _ Hlg3). apply logged_none; [apply Hlg3|]. lia. }
  eapply wp_mono; [apply (wp_write_head s4 []); [by apply quiet_set_log; apply W123|done|]|].
  { intros m Hm. by destruct (Hd3 m). }
  intros ? s5 (H0 & W5 & HH0 & BH0). exists H, H0. split_and!; [done..| |apply W5| | |].
  - eapply same_rest_trans; [apply W123|]. eapply same_rest_trans; [|apply W5]. apply same_rest_fsys.
  - rewrite (wr_log _ _ _ _ W5). unfold s4. fsimp. by rewrite (wa_log _ _ _ W123).
  - rewrite (wr_disk _ _ _ _ W5). change (disk (fsys s4)) with (disk (fsys s3)).
    change (l_start (log (fsys s4))) with (l_start (log (fsys s3))).
    rewrite (wa_disk _ _ _ W123), (wa_log _ _ _ W123). unfold commit_writes. fold start. rewrite !app_assoc, !dwrites_app. done.
  - intros m [Hm _]%(wr_dirty _ _ _ _ W5). by destruct (Hd3 m).
Qed.

(** ** Recovery *)

(** The log after the first [i] entries of the header [hs] have been read. *)
Definition rlog (l : logst) (hs : list Z) (i : nat) : logst :=
  set_lh_block (take i hs ++ drop i (lh_block l)) (set_lh_n (Z.of_nat (List.length hs)) l).

Lemma take_insert_next {A} (hs l : list A) i v :
  hs !! i = Some v -> (i < List.length l)%nat -> <[i := v]> (take i hs ++ drop i l) = take (S i) hs ++ drop (S i) l.
Proof.
  intros Hv Hi. pose proof (lookup_lt_Some _ _ _ Hv) as Hlt. rewrite (take_S_r _ _ _ Hv).
  destruct (lookup_lt_is_Some_2 l i Hi) as [w Hw]. rewrite (drop_S _ _ _ Hw).
  rewrite insert_app_r_alt by (rewrite length_take; lia). rewrite length_take, <- app_assoc.
  by replace (i - i `min` List.length hs)%nat with 0%nat by lia.
Qed.

Lemma wp_read_loop s hs b x l :
  List.length (lh_block l) = LOGSIZE -> (List.length hs <= LOGSIZE)%nat -> buf_at (fsys s) b x ->
  (forall i v, hs !! i = Some v -> s32 (ld32 (data x) (4 + 4 * Z.of_nat i)) = v) ->
  wp (iterate (S LOGSIZE) (read_head_body b) 0)
     (fun _ s' => s' = set_log (rlog l hs (List.length hs)) s) (set_log (rlog l hs 0) s).
Proof.
  intros Hl Hn Hx Hv.
  eapply (wp_iterate (fun tail s' => exists i, tail = Z.of_nat i /\ (i <= List.length hs)%nat /\
    s' = set_log (rlog l hs i) s) (fun tail => List.length hs - Z.to_nat tail)%nat).
  2:{ lia. }
  2:{ exists 0%nat. split_and!; [done|lia|done]. }
  intros tail s' (i & -> & Hi & ->). unfold read_head_body, get_log. apply wp_bind, wp_gets.
  change (lh_n (log (fsys (set_log (rlog l hs i) s)))) with (Z.of_nat (List.length hs)).
  destruct (Z.ltb_spec (Z.of_nat i) (Z.of_nat (List.length hs))) as [Hlt|Hge]; cbn [negb].
  - destruct (lookup_lt_is_Some_2 hs i) as [v Hiv]; [lia|].
    apply wp_bind. eapply wp_result; [apply run_get_buf, Hx|]. cbv beta. rewrite (Hv i v Hiv).
    apply wp_bind. eapply wp_result.
    { unfold lh_set, get_log. mrun. fsimp. rewrite Nat2Z.id.
      assert (exists w, lh_block (rlog l hs i) !! i = Some w) as [w ->].
      { apply lookup_lt_is_Some_2. cbn. rewrite length_app, length_take, length_drop, Hl. lia. }
      unfold upd_log, modify. fsimp. reflexivity. }
    apply wp_ret. split; [|lia]. exists (S i). split; [lia|]. split; [lia|].
    replace (rlog l hs (S i)) with (set_lh_block (<[i := v]> (lh_block (rlog l hs i))) (rlog l hs i)); [reflexivity|].
    unfold rlog, set_lh_block. cbn. rewrite take_insert_next; [done|done|lia].
  - apply wp_ret. by assert (i = List.length hs) as -> by lia.
Qed.

(** read_head finds the blocks [hs] in the header. *)
Record headed (s : kst (fsst D)) (hs : list Z) (s' : kst (fsst D)) : Prop := Headed {
  hd_rest : same_rest s s';
  hd_quiet : quiet s';
  hd_log : log (fsys s') = rlog (log (fsys s)) hs (List.length hs);
  hd_disk : disk (fsys s') = disk (fsys s);
  hd_block m : 0 <= m < dsize (disk (fsys s)) -> block (fsys s') m = block (fsys s) m;
  hd_dirty m : dirty (fsys s') m <-> dirty (fsys s) m }.

Lemma wp_read_head s hs :
  quiet s -> l_dev (log (fsys s)) = 1 -> 0 <= l_start (log (fsys s)) < dsize (disk (fsys s)) ->
  List.length (lh_block (log (fsys s))) = LOGSIZE -> (List.length hs <= LOGSIZE)%nat ->
  header (block (fsys s) (l_start (log (fsys s)))) hs -> (forall m, ~ dirty (fsys s) m) ->
  wp (read_head fuel) (fun _ s' => headed s hs s') s.
Proof.
  intros [Henv [order Hbc]] Hdev Hst Hl Hn [HH1 HH2] Hno. pose proof (dsize_range _ (bc_disk _ _ _ _ Hbc)) as Hsz. unfold LOGSIZE in Hn.
  unfold read_head, get_log. apply wp_bind, wp_gets. rewrite Hdev. change (u32 1) with 1. rewrite (u32_id (l_start _)) by lia.
  apply wp_bind. eapply wp_mono; [eapply wp_bread; [done|exact Henv|exact Hbc|lia|set_solver|]|].
  { right. eapply (evictable_count _ _ _ _ []); [exact Hbc| |cbn; unfold NBUF; lia]. intros m Hm. by destruct (Hno m). }
  intros b s1 [x G]. pose proof (unchanged_got _ _ _ _ _ _ _ G) as U. pose proof (got_at _ _ _ _ _ _ _ _ G) as Hx.
  assert (Hm0 : mem_ok (data x)) by (apply (bc_bufs _ _ _ _ (got_bc _ _ _ _ _ _ _ _ G) b x Hx)).
  rewrite <- (got_data _ _ _ _ _ _ _ _ G) in HH1, HH2.
  apply wp_bind. eapply wp_result; [apply run_get_buf, Hx|]. cbv beta.
  rewrite word_bytes in HH1 by (done || unfold BSIZE; lia). rewrite HH1.
  unfold upd_log. apply wp_bind, wp_modify. rewrite (un_log _ _ U).
  set (s2 := set_log _ s1). apply wp_bind.
  eapply wp_mono; [apply (wp_read_loop s1 hs b x (log (fsys s))); [done|unfold LOGSIZE; lia|done|]|].
  { intros i v Hv. pose proof (lookup_lt_Some _ _ _ Hv). rewrite <- (HH2 i v Hv).
    by rewrite word_bytes by (done || unfold BSIZE; lia). }
  intros ? s3 ->. set (s3 := set_log _ s1).
  assert (Hbc3 : bc me (fsys s3) order [b]) by (by eapply bc_same_bufs; [| |apply G]).
  eapply wp_mono; [apply (wp_brelse me s3 order [b] b x); [by apply (env_same me s1); [eapply env_same, U|apply same_rest_fsys]|exact Hbc3|exact Hx|left|]|].
  { intros F. change (disk (fsys s3)) with (disk (fsys s1)). rewrite (un_disk _ _ U), (got_blockno _ _ _ _ _ _ _ _ G). by apply G. }
  intros ? s4 R. cbv beta in R. assert (Hsr : same_rest s s4).
  { eapply same_rest_trans; [apply U|]. eapply same_rest_trans; [|apply R]. apply same_rest_fsys. }
  destruct R. split.
  - done.
  - split; [by eapply env_same|]. eexists. rewrite (filter_cons_False _ b []) in rel_bc by tauto. exact rel_bc.
  - by rewrite rel_log.
  - rewrite rel_disk. apply (un_disk _ _ U).
  - intros m Hm. rewrite rel_block. by apply (un_block _ _ U).
  - intros m. rewrite rel_dirty. apply (un_dirty _ _ U).
Qed.

(** A state in which recovery starts: nothing is dirty, the log is at [start], and
    its header on the disk lists [hs]. *)
Record restarted (s : kst (fsst D)) (start : Z) (hs : list Z) : Prop := Restarted {
  rs_quiet : quiet s;
  rs_clean m : ~ dirty (fsys s) m;
  rs_dev : l_dev (log (fsys s)) = 1;
  rs_start : l_start (log (fsys s)) = start;
  rs_blocks : List.length (lh_block (log (fsys s))) = LOGSIZE;
  rs_header : header (dread (disk (fsys s)) start) hs;
  rs_pos : 0 <= start;
  rs_area : start + Z.of_nat (List.length hs) < dsize (disk (fsys s));
  rs_home : Forall (home start (List.length hs) (disk (fsys s))) hs;
  rs_nodup : NoDup hs;
  rs_small : (List.length hs < NBUF)%nat }.

(** A block that is not dirty is in step with the disk. *)
Lemma clean_block s m : quiet s -> ~ dirty (fsys s) m -> block (fsys s) m = dread (disk (fsys s)) m.
Proof.
  intros [_ [order Hbc]] Hm. destruct (block_cases (fsys s) m) as [(b & x & Hx & X1 & X2 & X3)|Hnone]; [|by apply block_uncached].
  rewrite <- X2, (block_cached (fsys s) b x) by (done || exact (bc_uniq _ _ _ _ Hbc)).
  destruct (bc_bufs _ _ _ _ Hbc b x Hx) as (F & _ & _ & H). rewrite decide_False in H by apply not_elem_of_nil. apply H.
  destruct F as [F|[F|F]]; [done|done|]. destruct Hm. by exists b, x.
Qed.

Lemma wp_recover s start hs : restarted s start hs ->
  wp (recover_from_log fuel) (fun _ s' => exists H0,
    header H0 [] /\ is_blk H0 /\ same_rest s s' /\ quiet s' /\ (forall m, ~ dirty (fsys s') m) /\
    disk (fsys s') = dwrites (home_writes s hs ++ [(start, H0)]) (disk (fsys s))) s.
Proof.
  intros R. unfold recover_from_log. assert (Hst : 0 <= start < dsize (disk (fsys s))) by (destruct R; lia).
  assert (Hhd : header (block (fsys s) (l_start (log (fsys s)))) hs).
  { rewrite (rs_start _ _ _ R), clean_block by apply R. apply R. }
  apply wp_bind. eapply wp_mono; [apply (wp_read_head s hs); [apply R|apply R|by rewrite (rs_start _ _ _ R)|apply R| |exact Hhd|apply R]|].
  { pose proof (rs_small _ _ _ R). unfold LOGSIZE, NBUF in *. lia. }
  intros ? s1 Hd1. cbv beta in Hd1.
  assert (Hlg1 : logged (fsys s1) hs).
  { destruct R. split; rewrite ?(hd_log _ _ _ Hd1), ?(hd_disk _ _ _ Hd1); try done; cbn; rewrite ?rs_start0; try done.
    rewrite (take_ge hs) by lia. apply take_app_length. }
  apply wp_bind. eapply wp_mono; [apply (wp_install_trans s1 hs); [apply Hd1|done|right]|].
  { intros m Hm%(hd_dirty _ _ _ Hd1). by eapply rs_clean. }
  intros ? s2 W2. cbv beta in W2.
  assert (home_writes s1 hs = home_writes s hs) as E.
  { apply list_eq. intros i. unfold home_writes. rewrite !list_lookup_imap. destruct (hs !! i) as [v|] eqn:Hv; [|done].
    cbn. do 2 f_equal. destruct (logged_lookup _ _ _ _ Hlg1 Hv) as (_ & _ & _ & Hr & _).
    rewrite (hd_disk _ _ _ Hd1) in Hr. rewrite (hd_block _ _ _ Hd1) by done. by rewrite (hd_log _ _ _ Hd1). }
  rewrite E in W2. unfold upd_log. apply wp_bind, wp_modify. set (s3 := set_log _ s2).
  assert (Hs2 : l_start (log (fsys s2)) = start).
  { rewrite (wa_log _ _ _ W2), (hd_log _ _ _ Hd1). apply R. }
  assert (Hcl : forall m, ~ dirty (fsys s2) m).
  { intros m [Hm%(hd_dirty _ _ _ Hd1) _]%(wa_dirty _ _ _ W2). by eapply rs_clean. }
  assert (Hlg3 : logged (fsys s3) []).
  { apply logged_none; [rewrite (wa_log _ _ _ W2), (hd_log _ _ _ Hd1); apply R|].
    rewrite Hs2, (wa_disk _ _ _ W2), dsize_dwrites, (hd_disk _ _ _ Hd1). done. }
  eapply wp_mono; [apply (wp_write_head s3 []); [by apply quiet_set_log; apply W2|done|intros m Hm; by destruct (Hcl m)]|].
  intros ? s4 (H0 & W4 & HH0 & BH0). exists H0. split_and!; [done|done| |apply W4| |].
  - eapply same_rest_trans; [apply Hd1|]. eapply same_rest_trans; [apply W2|]. eapply same_rest_trans; [|apply W4]. apply same_rest_fsys.
  - intros m [Hm _]%(wr_dirty _ _ _ _ W4). by destruct (Hcl m).
  - rewrite (wr_disk _ _ _ _ W4). change (disk (fsys s3)) with (disk (fsys s2)).
    change (l_start (log (fsys s3))) with (l_start (log (fsys s2))). rewrite Hs2, (wa_disk _ _ _ W2), (hd_disk _ _ _ Hd1), dwrites_app. done.
Qed.

(** The home blocks after recovery. *)
Lemma wp_recover_home s start hs : restarted s start hs ->
  wp (recover_from_log fuel) (fun _ s' => quiet s' /\ (forall m, ~ dirty (fsys s') m) /\
    header (dread (disk (fsys s')) start) [] /\
    forall m, 0 <= m < dsize (disk (fsys s)) -> m <> start ->
      dread (disk (fsys s')) m = apply_writes (home_writes s hs) (dread (disk (fsys s))) m) s.
Proof.
  intros R. eapply wp_mono; [by apply (wp_recover s start hs)|]. intros ? s' (H0 & HH0 & BH0 & _ & Hq & Hcl & Hdk).
  pose proof (rs_quiet _ _ _ R) as [_ [order Hbc]]. pose proof (bc_disk _ _ _ _ Hbc) as Hok.
  assert (Hw : writes_ok (disk (fsys s)) (home_writes s hs ++ [(start, H0)])).
  { apply Forall_app. split; [|constructor; [|constructor]; destruct R; split; [cbn; lia|done]].
    apply Forall_lookup. intros i w Hi. unfold home_writes in Hi. rewrite list_lookup_imap in Hi.
    apply fmap_Some in Hi as (v & Hv & ->). pose proof (rs_home _ _ _ R) as Hh. eapply Forall_lookup in Hh as [Hr _]; [|exact Hv].
    split; [done|]. cbn. rewrite clean_block by (by eapply rs_quiet || by eapply rs_clean). apply dread_blk; [done|].
    pose proof (lookup_lt_Some _ _ _ Hv). destruct R. unfold lblk. lia. }
  split_and!; [done|done| |].
  - rewrite Hdk. assert (Hst : 0 <= start < dsize (disk (fsys s))) by (destruct R; lia).
    destruct (dwrites_read _ _ start Hok Hw Hst) as [_ ->]. rewrite apply_writes_app. cbn. by rewrite decide_True.
  - intros m Hm Hne. rewrite Hdk. destruct (dwrites_read _ _ m Hok Hw Hm) as [_ ->]. rewrite apply_writes_app. cbn. by rewrite decide_False.
Qed.

End commit.
(** ** Crash safety *)

Section crash.
Context {D : Type} {BD : BlockDevice D} {DK : Disk D}.
Implicit Types (s t : kst (fsst D)) (d : D).

(** The machine was restarted with disk [d]: the cache holds nothing that is not on
    the disk, and the log is known to start at [start]. *)
Definition reboot (me : Z) (start : Z) (d : D) (t : kst (fsst D)) : Prop :=
  quiet me t /\ (forall m, ~ dirty (fsys t) m) /\ l_dev (log (fsys t)) = 1 /\ l_start (log (fsys t)) = start /\
  List.length (lh_block (log (fsys t))) = LOGSIZE /\ disk (fsys t) = d.

Lemma header_nil_lookup bs blks : header bs [] -> header bs blks -> blks = [].
Proof. intros [H1 _] [H2 _]. rewrite H1 in H2. destruct blks; [done|cbn in H2; lia]. Qed.

Context (s : kst (fsst D)) (me : Z) (blks H H0 : list Z).
Context (Hq : quiet me s) (Hlg : logged (fsys s) blks) (Hd : forall m, dirty (fsys s) m <-> m ∈ blks).
Context (HH : header H blks) (HH0 : header H0 []) (BH : is_blk H) (BH0 : is_blk H0).
#[local] Abbreviation d := (disk (fsys s)).
#[local] Abbreviation start := (l_start (log (fsys s))).
#[local] Abbreviation is_home := (home start (List.length blks) d).

Lemma block_is_blk m : 0 <= m < dsize d -> is_blk (block (fsys s) m).
Proof.
  intros Hm. destruct Hq as [_ [order Hbc]]. unfold block. destruct (List.find _ _) as [x|] eqn:E; [|by apply dread_blk; [apply Hbc|]].
  apply find_lookup in E as (b & Hb%buf_at_take & _). apply is_blk_ld, (bc_bufs _ _ _ _ Hbc b x Hb).
Qed.

Lemma commit_writes_ok : writes_ok d (commit_writes s blks H H0).
Proof.
  pose proof (lg_start _ _ Hlg). pose proof (lg_area _ _ Hlg).
  unfold commit_writes, writes_ok. rewrite !Forall_app. split_and!.
  - apply Forall_lookup. intros i w Hi. unfold log_writes in Hi. rewrite list_lookup_imap in Hi.
    apply fmap_Some in Hi as (v & Hv & ->). destruct (logged_lookup _ _ _ _ Hlg Hv) as (_ & [Hr _] & _ & Hl & _).
    split; [done|]. by apply block_is_blk.
  - constructor; [|constructor]. split; [cbn; lia|done].
  - apply Forall_lookup. intros i w Hi. unfold new_writes in Hi. rewrite list_lookup_fmap in Hi.
    apply fmap_Some in Hi as (v & Hv & ->). destruct (logged_lookup _ _ _ _ Hlg Hv) as (_ & [Hr _] & _).
    split; [done|]. by apply block_is_blk.
  - constructor; [|constructor]. split; [cbn; lia|done].
Qed.

Lemma prefix_read ws1 ws2 m : commit_writes s blks H H0 = ws1 ++ ws2 -> 0 <= m < dsize d ->
  dread (dwrites ws1 d) m = apply_writes ws1 (dread d) m.
Proof.
  intros E Hm. pose proof commit_writes_ok as Hw. rewrite E in Hw. apply Forall_app in Hw as [Hw _].
  destruct Hq as [_ [order Hbc]]. by apply dwrites_read; [apply Hbc|..].
Qed.

(** The blocks of the transaction are home blocks, the others are in step with the
    disk. *)
Lemma new_home m : is_home m -> apply_writes (new_writes s blks) (dread d) m = block (fsys s) m.
Proof.
  intros Hm. destruct (decide (m ∈ blks)) as [Hin|Hin].
  - apply apply_writes_in; [rewrite new_writes_keys; apply Hlg|]. apply list_elem_of_fmap. by exists m.
  - rewrite apply_writes_other by (by rewrite new_writes_keys). symmetry. apply (clean_block me); [done|]. by rewrite Hd.
Qed.

Lemma reboot_restarted me' t ws1 hs : reboot me' start (dwrites ws1 d) t ->
  header (dread (dwrites ws1 d) start) hs -> hs = [] \/ hs = blks -> restarted me' t start hs.
Proof.
  intros (R1 & R2 & R3 & R4 & R5 & R6) Hh Hhs.
  assert (Hsz : dsize (disk (fsys t)) = dsize d) by (rewrite R6; apply dsize_dwrites).
  pose proof (lg_start _ _ Hlg). pose proof (lg_area _ _ Hlg). pose proof (lg_small _ _ Hlg).
  split; try done; rewrite ?R6, ?dsize_dwrites; try done; destruct Hhs as [->| ->];
    try solve [done | cbn; lia | constructor | apply Hlg | unfold NBUF; cbn; lia].
  eapply Forall_impl; [apply Hlg|]. intros v [V1 V2]. split; [by rewrite dsize_dwrites|done].
Qed.

(** A home block is neither a log block nor the header. *)
Lemma home_facts m : is_home m -> 0 <= m < dsize d /\ m <> start /\ m ∉ (log_writes s blks).*1.
Proof.
  intros Hm. pose proof Hm as [H1 H2]. split; [done|]. split; [lia|]. intros Hin%log_writes_keys. lia.
Qed.

(** The three stages of a commit at which the machine may stop. *)
Definition recovers (ws1 : list (Z * list Z)) : Prop :=
  forall fuel' me' t, (1 <= fuel')%nat -> reboot me' start (dwrites ws1 d) t ->
  wp (recover_from_log fuel') (fun _ t' => quiet me' t' /\ (forall m, ~ dirty (fsys t') m) /\
    header (dread (disk (fsys t')) start) [] /\
    ((forall m, is_home m -> dread (disk (fsys t')) m = dread d m) \/
     (forall m, is_home m -> dread (disk (fsys t')) m = block (fsys s) m))) t.

Lemma start_range : 0 <= start < dsize d.
Proof. pose proof (lg_start _ _ Hlg). pose proof (lg_area _ _ Hlg). lia. Qed.

Lemma recovers_none ws1 ws2 : commit_writes s blks H H0 = ws1 ++ ws2 ->
  header (dread (dwrites ws1 d) start) [] ->
  (forall m, is_home m -> apply_writes ws1 (dread d) m = dread d m) \/
  (forall m, is_home m -> apply_writes ws1 (dread d) m = block (fsys s) m) -> recovers ws1.
Proof.
  intros E Hh Hm fuel' me' t Hf Hrb.
  assert (Hrs : restarted me' t start []) by (eapply reboot_restarted; [done|done|by left]).
  destruct Hrb as (_ & _ & _ & _ & _ & Hdk).
  eapply wp_mono; [by apply (wp_recover_home fuel' me' Hf t start [])|]. intros ? t' (Q1 & Q2 & Q3 & Q4).
  split_and!; [done..|].
  assert (Hr : forall m, is_home m -> dread (disk (fsys t')) m = apply_writes ws1 (dread d) m).
  { intros m (M1 & M2 & _)%home_facts. rewrite Q4 by (done || by rewrite Hdk, dsize_dwrites). cbn. rewrite Hdk. by eapply prefix_read. }
  destruct Hm as [Hm|Hm]; [left|right]; intros m Hmm; rewrite Hr by done; by apply Hm.
Qed.

Lemma recovers_log ws1 ws2 : log_writes s blks = ws1 ++ ws2 -> header (dread d start) [] -> recovers ws1.
Proof.
  intros E Hh. assert (Hk : forall n, n ∈ ws1.*1 -> n ∈ (log_writes s blks).*1) by (rewrite E, fmap_app; set_solver).
  eapply recovers_none; [unfold commit_writes; by rewrite E, <- app_assoc| |left].
  - rewrite (prefix_read ws1 (ws2 ++ [(start, H)] ++ new_writes s blks ++ [(start, H0)])), apply_writes_other; [done| | |apply start_range].
    + intros Hin%Hk%log_writes_keys. lia.
    + unfold commit_writes. by rewrite E, <- app_assoc.
  - intros m (_ & _ & M3)%home_facts. apply apply_writes_other. auto.
Qed.

(** All writes done: the home blocks have their new contents. *)
Lemma all_home m : is_home m -> apply_writes (commit_writes s blks H H0) (dread d) m = block (fsys s) m.
Proof.
  intros Hm. pose proof (home_facts m Hm) as (M1 & M2 & M3). unfold commit_writes. rewrite !apply_writes_app. cbn.
  rewrite decide_False by done. rewrite <- (new_home m Hm). destruct (decide (m ∈ blks)) as [Hin|Hin].
  - rewrite !(apply_writes_in _ _ m (block (fsys s) m)); [done|rewrite new_writes_keys; apply Hlg|apply list_elem_of_fmap; by exists m|
      rewrite new_writes_keys; apply Hlg|apply list_elem_of_fmap; by exists m].
  - rewrite !(apply_writes_other (new_writes s blks)) by (by rewrite new_writes_keys). rewrite decide_False by done.
    by rewrite apply_writes_other.
Qed.

Lemma recovers_all : recovers (commit_writes s blks H H0).
Proof.
  eapply (recovers_none _ []); [by rewrite app_nil_r| |right; apply all_home].
  rewrite (prefix_read _ []) by (apply start_range || by rewrite app_nil_r).
  unfold commit_writes. rewrite !apply_writes_app. cbn. by rewrite decide_True.
Qed.

(** Stopped after the header was written: recovery installs the transaction. *)
Lemma recovers_committed B1 B2 : new_writes s blks = B1 ++ B2 ->
  recovers (log_writes s blks ++ [(start, H)] ++ B1).
Proof.
  intros E fuel' me' t Hf Hrb. set (ws1 := log_writes s blks ++ [(start, H)] ++ B1) in *.
  assert (Ep : commit_writes s blks H H0 = ws1 ++ (B2 ++ [(start, H0)])).
  { unfold commit_writes, ws1. by rewrite E, <- !app_assoc. }
  assert (HB1 : forall n, n ∈ B1.*1 -> n ∈ blks).
  { intros n Hn. rewrite <- (new_writes_keys s blks), E, fmap_app. set_solver. }
  assert (Hread : forall m, 0 <= m < dsize d -> dread (dwrites ws1 d) m = apply_writes ws1 (dread d) m) by (intros m Hm; by eapply prefix_read).
  pose proof (start_not_home s blks Hlg) as Hst.
  assert (Hrs : restarted me' t start blks).
  { eapply reboot_restarted; [exact Hrb| |by right]. rewrite Hread by apply start_range. unfold ws1.
    rewrite !apply_writes_app, apply_writes_other by auto. cbn. by rewrite decide_True. }
  destruct Hrb as (Rq & Rc & _ & Rs & _ & Hdk).
  eapply wp_mono; [by apply (wp_recover_home fuel' me' Hf t start blks)|]. intros ? t' (Q1 & Q2 & Q3 & Q4).
  split_and!; [done..|]. right. intros m Hm. pose proof (home_facts m Hm) as (M1 & M2 & M3).
  rewrite Q4 by (done || by rewrite Hdk, dsize_dwrites).
  assert (home_writes t blks = new_writes s blks) as ->.
  { apply list_eq. intros i. unfold home_writes, new_writes. rewrite list_lookup_imap, list_lookup_fmap.
    destruct (blks !! i) as [v|] eqn:Hv; [|done]. cbn. do 2 f_equal.
    destruct (logged_lookup _ _ _ _ Hlg Hv) as (_ & _ & Hi & Hr & _).
    rewrite (clean_block me') by done. unfold lblk in *. rewrite Rs, Hdk, Hread by done. unfold ws1. rewrite !apply_writes_app.
    rewrite apply_writes_other.
    2:{ intros Hin%HB1. apply list_elem_of_lookup in Hin as [j Hj]. destruct (logged_lookup _ _ _ _ Hlg Hj) as (_ & [_ Hh] & _). lia. }
    cbn. rewrite decide_False by lia. apply apply_writes_in; [apply log_writes_nodup|].
    apply list_elem_of_lookup. exists i. unfold log_writes. by rewrite list_lookup_imap, Hv. }
  rewrite <- (new_home m Hm). destruct (decide (m ∈ blks)) as [Hin|Hin].
  - rewrite !(apply_writes_in _ _ m (block (fsys s) m)); [done|rewrite new_writes_keys; apply Hlg|apply list_elem_of_fmap; by exists m|
      rewrite new_writes_keys; apply Hlg|apply list_elem_of_fmap; by exists m].
  - rewrite !(apply_writes_other (new_writes s blks)) by (by rewrite new_writes_keys). rewrite Hdk, Hread by done. unfold ws1.
    rewrite !apply_writes_app, (apply_writes_other B1) by auto. cbn. rewrite decide_False by done. by rewrite apply_writes_other.
Qed.

End crash.

(** C4: commit is atomic with respect to crashes.  The transaction consists of the
    blocks [blks], which are exactly the dirty blocks of the cache, and the log on the
    disk is empty.  Then commit returns, without panicking for lack of buffers; its
    disk writes are some sequence [ws]; afterwards every home block (a block outside
    the log) has its new contents on the disk.  If instead the machine stops after
    any initial part [ws1] of those writes and recovery runs on the disk it finds,
    recovery returns with an empty log, and the home blocks on the disk are either
    all as before the transaction or all as the transaction left them. *)
Theorem commit_crash_atomic {D} {BD : BlockDevice D} {DK : Disk D} (fuel : nat) (me : Z) (s : kst (fsst D)) (blks : list Z) :
  (1 <= fuel)%nat -> quiet me s -> logged (fsys s) blks -> (forall m, dirty (fsys s) m <-> m ∈ blks) -> blks <> [] ->
  header (dread (disk (fsys s)) (l_start (log (fsys s)))) [] ->
  let start := l_start (log (fsys s)) in
  let is_home := home start (List.length blks) (disk (fsys s)) in
  wp (commit fuel) (fun _ s' => exists ws,
    disk (fsys s') = dwrites ws (disk (fsys s)) /\ quiet me s' /\ lh_n (log (fsys s')) = 0 /\
    (forall m, is_home m -> dread (disk (fsys s')) m = block (fsys s) m) /\
    forall ws1 ws2 fuel' me' t, ws = ws1 ++ ws2 -> (1 <= fuel')%nat -> reboot me' start (dwrites ws1 (disk (fsys s))) t ->
      wp (recover_from_log fuel') (fun _ t' => quiet me' t' /\ (forall m, ~ dirty (fsys t') m) /\
        header (dread (disk (fsys t')) start) [] /\
        ((forall m, is_home m -> dread (disk (fsys t')) m = dread (disk (fsys s)) m) \/
         (forall m, is_home m -> dread (disk (fsys t')) m = block (fsys s) m))) t) s.
Proof.
  intros Hf Hq Hlg Hd Hne Hh start is_home. eapply wp_mono; [by apply (wp_commit fuel me Hf s blks)|].
  intros ? s' (H & H0 & HH & HH0 & BH & BH0 & _ & Hq' & Hl & Hdk & Hcl). exists (commit_writes s blks H H0).
  split; [done|]. split; [done|]. split; [by rewrite Hl|]. split.
  - intros m Hm. rewrite Hdk. rewrite (prefix_read s me blks H H0 Hq Hlg BH BH0 _ []) by (apply Hm || by rewrite app_nil_r).
    by eapply all_home.
  - intros ws1 ws2 fuel' me' t E Hf' Hrb. revert fuel' me' t Hf' Hrb. change (recovers s blks ws1).
    pose proof E as E'. unfold commit_writes in E'. apply app_eq_inv in E' as [(k & E1 & E2)|(k & E1 & E2)].
    + by eapply recovers_log.
    + rewrite E1. destruct k as [|w k]; [rewrite app_nil_r; eapply (recovers_log s); try done; by rewrite app_nil_r|].
      injection E2 as <- E2. apply app_eq_inv in E2 as [(k' & E3 & E4)|(k' & E3 & E4)].
      * by eapply recovers_committed.
      * subst k. destruct k' as [|w k']; [rewrite app_nil_r; eapply recovers_committed; try done; by rewrite app_nil_r|].
        injection E4 as <- E4. symmetry in E4. apply app_eq_nil in E4 as [-> ->]. by eapply recovers_all.
Qed.

(** ** An instance: block 5 is dirty in the cache and recorded in the log, which
    starts at block 2 of an empty disk. *)
Definition ex_dirty : buf :=
  set_b_data (st8 ∅ 0 77) (set_b_flags 6 (set_b_blockno 5 (set_b_dev 1 (set_b_next HEAD (set_b_prev 1 buf0))))).
Definition ex_txn : fsst memdisk :=
  FS (<[0%nat := ex_dirty]> binit_bufs) (Log 2 30 0 1 1 1 (5 :: replicate 29 0)) sb0 [] ex_disk.

Lemma ex_txn_at b x : buf_at ex_txn b x <-> (b = 0%nat /\ x = ex_dirty) \/
  (b <> 0%nat /\ buf_at (FS binit_bufs log0 sb0 [] ex_disk) b x).
Proof.
  apply (buf_at_insert (FS binit_bufs log0 sb0 [] ex_disk) ex_txn 0 (set_b_next HEAD (set_b_prev 1 buf0))); [|done].
  split; [unfold NBUF; lia|done].
Qed.

Lemma ex_txn_quiet : quiet (pid running_proc) (ex_fsys ex_txn).
Proof.
  split; [apply ex_env|]. exists binit_order. change (fsys (ex_fsys ex_txn)) with ex_txn.
  assert (H0 : buf_at (FS binit_bufs log0 sb0 [] ex_disk) 0 (set_b_next HEAD (set_b_prev 1 buf0))).
  { split; [unfold NBUF; lia|done]. }
  eapply bc_update; [apply (binit_bc _ (FS binit_bufs log0 sb0 [] ex_disk)); [reflexivity|apply ex_disk_ok]|exact H0|done|done|done| | | |constructor|apply ex_disk_ok].
  - intros _ c z _ Hz D1. destruct (binit_at (FS binit_bufs log0 sb0 [] ex_disk) c z eq_refl Hz). congruence.
  - split_and!; [by right; right|apply mem_ok_st8, mem_ok_empty|split; [done|cbn; lia]|].
    rewrite decide_False by apply not_elem_of_nil. split; [reflexivity|]. split; [reflexivity|]. discriminate.
  - intros c z _ Hz Hok. exact Hok.
Qed.

Lemma ex_txn_dirty m : dirty ex_txn m <-> m ∈ [5].
Proof.
  rewrite list_elem_of_singleton. split.
  - intros (b & x & [[_ ->]|[_ Hx]]%ex_txn_at & D1 & B & F); [by rewrite <- B|].
    destruct (binit_at (FS binit_bufs log0 sb0 [] ex_disk) b x eq_refl Hx) as (_ & F0 & _). congruence.
  - intros ->. exists 0%nat, ex_dirty. split; [apply ex_txn_at; by left|done].
Qed.

Lemma commit_crash_atomic_witness :
  let s := ex_fsys ex_txn in
  let is_home := home 2 1 ex_disk in
  wp (commit 1) (fun _ s' => exists ws,
    disk (fsys s') = dwrites ws ex_disk /\ quiet (pid running_proc) s' /\ lh_n (log (fsys s')) = 0 /\
    (forall m, is_home m -> dread (disk (fsys s')) m = block (fsys s) m) /\
    forall ws1 ws2 fuel' me' t, ws = ws1 ++ ws2 -> (1 <= fuel')%nat -> reboot me' 2 (dwrites ws1 ex_disk) t ->
      wp (recover_from_log fuel') (fun _ t' => quiet me' t' /\ (forall m, ~ dirty (fsys t') m) /\
        header (dread (disk (fsys t')) 2) [] /\
        ((forall m, is_home m -> dread (disk (fsys t')) m = dread ex_disk m) \/
         (forall m, is_home m -> dread (disk (fsys t')) m = block (fsys s) m))) t) s.
Proof.
  intros s is_home. apply (commit_crash_atomic 1 (pid running_proc) s [5]).
  - lia.
  - apply ex_txn_quiet.
  - split; cbn; try done; try lia.
    + constructor; [|constructor]. split; [cbn; lia|lia].
    + apply NoDup_singleton.
    + unfold NBUF. lia.
  - apply ex_txn_dirty.
  - discriminate.
  - split; [vm_compute; reflexivity|]. intros i v Hv. discriminate.
Defined.

(** ** Transactions *)

(** The blocks recorded in the log in memory. *)
Definition log_blocks (l : logst) : list Z := take (Z.to_nat (lh_n l)) (lh_block l).

(** Recording block [v]. *)
Definition log_add (v : Z) (l : logst) : logst :=
  let i := default (Z.to_nat (lh_n l)) (find_index (fun w => u32 w =? v) (log_blocks l)) in
  let l' := set_lh_block (<[i := s32 v]> (lh_block l)) l in
  if Z.of_nat i =? lh_n l then set_lh_n (lh_n l + 1) l' else l'.

Lemma log_add_blocks v l :
  0 <= lh_n l < Z.of_nat LOGSIZE -> List.length (lh_block l) = LOGSIZE -> 0 <= v < 2147483648 ->
  Forall (fun w => 0 <= w < 2147483648) (log_blocks l) ->
  log_blocks (log_add v l) = (if decide (v ∈ log_blocks l) then log_blocks l else log_blocks l ++ [v]) /\
  lh_n (log_add v l) = Z.of_nat (List.length (log_blocks (log_add v l))) /\
  List.length (lh_block (log_add v l)) = LOGSIZE.
Proof.
  intros Hn Hl Hv Hr. assert (Hlen : List.length (log_blocks l) = Z.to_nat (lh_n l)).
  { unfold log_blocks. rewrite length_take. lia. }
  unfold log_add. rewrite (s32_id v) by lia. destruct (find_index _ (log_blocks l)) as [i|] eqn:Hi; cbn [default id].
  - apply find_index_Some in Hi as (w & Hw & Hu%Z.eqb_eq & _). pose proof (lookup_lt_Some _ _ _ Hw) as Hlt.
    assert (w = v) as ->. { eapply Forall_lookup in Hr; [|exact Hw]. rewrite u32_id in Hu by lia. done. }
    rewrite (proj2 (Z.eqb_neq _ _)) by lia. unfold log_blocks in Hw |- *. cbn.
    pose proof Hw as [Hw' _]%lookup_take_Some. rewrite list_insert_id by done.
    rewrite decide_True by (apply list_elem_of_lookup; eauto). split_and!; [done| |done].
    fold (log_blocks l). rewrite Hlen. lia.
  - rewrite Z2Nat.id, Z.eqb_refl by lia. unfold log_blocks at 1. cbn.
    rewrite decide_False.
    2:{ intros (i & Hw)%list_elem_of_lookup. apply (find_index_None _ _) with (i := i) (r := v) in Hi; [|done].
        rewrite u32_id, Z.eqb_refl in Hi by lia. done. }
    assert (Hins : take (Z.to_nat (lh_n l + 1)) (<[Z.to_nat (lh_n l) := v]> (lh_block l)) = log_blocks l ++ [v]).
    { replace (Z.to_nat (lh_n l + 1)) with (S (Z.to_nat (lh_n l))) by lia.
      rewrite (take_S_r _ _ v) by (apply list_lookup_insert_eq; lia). by rewrite take_insert_ge by lia. }
    split_and!; [done| |by rewrite length_insert]. unfold log_blocks at 1. cbn. rewrite Hins, length_app, Hlen. cbn. lia.
Qed.

Lemma run_log_write {D} (s : kst (fsst D)) b x :
  held s = [] -> bufs (fsys s) !! b = Some x -> 0 <= lh_n (log (fsys s)) < Z.of_nat LOGSIZE ->
  lh_n (log (fsys s)) < l_size (log (fsys s)) - 1 -> 1 <= outstanding (log (fsys s)) ->
  List.length (lh_block (log (fsys s))) = LOGSIZE ->
  log_write b s = Ret tt (set_bufs (<[b := set_b_flags (Z.lor (b_flags x) B_DIRTY) x]> (bufs (fsys s)))
                    (set_log (log_add (blockno x) (log (fsys s))) s)).
Proof.
  intros Hh Hx Hn Hsz Ho Hl. unfold log_write, get_log. mrun.
  rewrite (proj2 (Z.leb_gt _ _)), (proj2 (Z.leb_gt _ _)), (proj2 (Z.ltb_ge _ _)) by lia. cbn [orb].
  krun_with run_acquire; [|rewrite Hh; set_solver]. krun_with run_get_buf; [|exact Hx]. mrun. fsimp.
  fold (log_blocks (log (fsys s))). set (i := default _ _).
  assert (Hi : (i <= Z.to_nat (lh_n (log (fsys s))))%nat).
  { unfold i. destruct (find_index _ _) as [j|] eqn:Hj; cbn; [|lia]. apply find_index_Some in Hj as (w & Hw & _).
    apply lookup_lt_Some in Hw. unfold log_blocks in Hw. rewrite length_take in Hw. lia. }
  destruct (lookup_lt_is_Some_2 (lh_block (log (fsys s))) i) as [w Hw]; [lia|].
  unfold lh_set, get_log, upd_log. mrun. fsimp. rewrite Nat2Z.id, Hw. mrun. unfold log_add. fold (log_blocks (log (fsys s))). fold i.
  destruct (Z.of_nat i =? lh_n (log (fsys s))); cbn [when]; mrun.
  all: krun_with run_upd_buf; [|exact Hx]; erewrite run_release_top; [|done|rewrite Hh; set_solver]; fsimp.
  all: destruct s; cbn in *; subst; done.
Qed.

(** The contents of the home blocks after a commit. *)
Lemma committed_home {D} {BD : BlockDevice D} {DK : Disk D} me (s : kst (fsst D)) blks H H0 m :
  quiet me s -> logged (fsys s) blks -> (forall m, dirty (fsys s) m <-> m ∈ blks) -> is_blk H -> is_blk H0 ->
  home (l_start (log (fsys s))) (List.length blks) (disk (fsys s)) m ->
  dread (dwrites (commit_writes s blks H H0) (disk (fsys s))) m = block (fsys s) m.
Proof.
  intros Hq Hlg Hd BH BH0 Hm. rewrite (prefix_read s me blks H H0 Hq Hlg BH BH0 _ []) by (apply Hm || by rewrite app_nil_r).
  by eapply all_home.
Qed.

Section txn.
Context {D : Type} {BD : BlockDevice D} {DK : Disk D} (me : Z).
Implicit Types s : kst (fsst D).

Lemma run_begin_op fuel s : enough fuel ->
  held s = [] -> committing (log (fsys s)) = 0 ->
  lh_n (log (fsys s)) + (outstanding (log (fsys s)) + 1) * MAXOPBLOCKS <= Z.of_nat LOGSIZE ->
  begin_op fuel s = Ret tt (set_log (set_outstanding (outstanding (log (fsys s)) + 1) (log (fsys s))) s).
Proof.
  intros Hf Hh Hc Hn. unfold begin_op. krun_with run_acquire; [|rewrite Hh; set_solver].
  destruct fuel as [|fuel]; [unfold enough in Hf; lia|]. cbn [iterate]. unfold begin_op_body, get_log, upd_log. mrun. fsimp.
  rewrite Hc. change (negb (0 =? 0)) with false. cbv iota. mrun. rewrite Z.gtb_ltb, (proj2 (Z.ltb_ge _ _)) by lia. mrun.
  krun_with run_release_top; [|done|rewrite Hh; set_solver]. mrun. destruct s; cbn in *; subst. done.
Qed.

(** log_write of a held buffer: the contents stay, the block is recorded and pinned. *)
Lemma wp_log_write s order busy b x :
  env me s -> bc me (fsys s) order busy -> buf_at (fsys s) b x -> b ∈ busy ->
  0 <= lh_n (log (fsys s)) < Z.of_nat LOGSIZE -> lh_n (log (fsys s)) < l_size (log (fsys s)) - 1 ->
  1 <= outstanding (log (fsys s)) -> List.length (lh_block (log (fsys s))) = LOGSIZE ->
  wp (log_write b) (fun _ s' =>
    s' = set_bufs (<[b := set_b_flags 6 x]> (bufs (fsys s))) (set_log (log_add (blockno x) (log (fsys s))) s) /\
    bc me (fsys s') order busy /\ buf_at (fsys s') b (set_b_flags 6 x) /\
    (forall m, block (fsys s') m = block (fsys s) m) /\
    (forall m, dirty (fsys s') m <-> dirty (fsys s) m \/ m = blockno x)) s.
Proof.
  intros (i & p & _ & _ & _ & Hh) Hbc Hx Hb Hn Hsz Ho Hl.
  destruct (busy_facts me s order busy b x Hbc Hx Hb) as (Hrc & Hlk & Hf & Hd & Hr & Hm).
  eapply wp_result; [apply (run_log_write s b x); try done; apply Hx|].
  assert (Z.lor (b_flags x) B_DIRTY = 6) as -> by (destruct Hf as [-> | ->]; done).
  set (s' := set_bufs _ _). assert (E : bufs (fsys s') = <[b := set_b_flags 6 x]> (bufs (fsys s))) by done.
  assert (Hat : forall c z, buf_at (fsys s') c z <-> (c = b /\ z = set_b_flags 6 x) \/ (c <> b /\ buf_at (fsys s) c z)).
  { intros c z. by apply (buf_at_insert (fsys s) (fsys s') b x). }
  assert (Hbc' : bc me (fsys s') order busy).
  { eapply bc_update; [exact Hbc|exact Hx|exact E|done|done| | |by intros|apply Hbc|apply Hbc].
    - intros D1 c z Hne Hz D2 Eb. destruct Hne. by eapply (bc_uniq _ _ _ _ Hbc c b z x).
    - split_and!; [by right; right|done|done|]. rewrite decide_True by done. done. }
  split; [done|]. split; [done|]. split; [apply Hat; by left|]. split.
  - intros m. destruct (decide (m = blockno x)) as [->|Hne].
    + rewrite (block_cached (fsys s) b x) by (done || lia || exact (bc_uniq _ _ _ _ Hbc)).
      apply (block_cached (fsys s') b (set_b_flags 6 x)); [exact (bc_uniq _ _ _ _ Hbc')|apply Hat; by left|done|done].
    + eapply (block_insert (fsys s) _ b x); [exact (bc_uniq _ _ _ _ Hbc)|exact (bc_uniq _ _ _ _ Hbc')|done|done|done|congruence|done].
  - intros m. unfold dirty. split.
    + intros (c & z & [[-> ->]|[Hne Hz]]%Hat & Z1 & Z2 & Z3); [by right|left; by exists c, z].
    + intros [(c & z & Hz & Z1 & Z2 & Z3)| ->].
      * destruct (decide (c = b)) as [->|Hne].
        -- assert (z = x) as -> by (destruct Hz, Hx; congruence). exists b, (set_b_flags 6 x). split_and!; [apply Hat; by left|done..].
        -- exists c, z. split_and!; [apply Hat; by right|done..].
      * exists b, (set_b_flags 6 x). split_and!; [apply Hat; by left|done..].
Qed.

(** The last end_op of a transaction commits it. *)
Lemma wp_end_op fuel s blks : enough fuel ->
  quiet me s -> logged (fsys s) blks -> (forall m, dirty (fsys s) m <-> m ∈ blks) ->
  outstanding (log (fsys s)) = 1 -> committing (log (fsys s)) = 0 -> blks <> [] ->
  wp (end_op fuel) (fun _ s' => exists H H0,
    header H blks /\ header H0 [] /\ is_blk H /\ is_blk H0 /\ same_rest s s' /\ quiet me s' /\
    log (fsys s') = set_committing 0 (set_lh_n 0 (set_outstanding 0 (log (fsys s)))) /\
    disk (fsys s') = dwrites (commit_writes s blks H H0) (disk (fsys s)) /\
    (forall m, ~ dirty (fsys s') m)) s.
Proof.
  intros Hf Hq Hlg Hd Ho Hc Hne. pose proof Hq as [(i & p & Hcur & Hp & Hid & Hh) _].
  set (s1 := set_log (set_committing 1 (set_outstanding 0 (log (fsys s)))) s).
  assert (E : end_op fuel s =
    (commit fuel;; acquire L_log;; upd_log (set_committing 0);; wakeup Chan_log;; release L_log) s1).
  { unfold end_op. krun_with run_acquire; [|rewrite Hh; set_solver]. unfold upd_log, get_log. mrun. fsimp. cbn [outstanding committing set_outstanding].
    rewrite Ho, Hc. change (negb (0 =? 0)) with false. change (1 - 1 =? 0) with true. cbv iota. mrun. fsimp.
    krun_with run_release_top; [|done|rewrite Hh; set_solver]. cbn [when].
    match goal with |- ?m ?st = _ => replace st with s1 by (unfold s1, set_log, set_held, set_fsys; cbn; rewrite Hh; done) end.
    reflexivity. }
  apply (wp_run _ _ _ _ _ E). clear E.
  assert (Hlg1 : logged (fsys s1) blks) by (destruct Hlg; by split).
  apply wp_bind. eapply wp_mono; [apply (wp_commit fuel me Hf s1 blks); [by apply quiet_set_log|done|exact Hd|done]|].
  intros ? s2 (H & H0 & HH & HH0 & BH & BH0 & Hsr & Hq2 & Hl2 & Hdk & Hcl).
  assert (Hh2 : held s2 = []) by (rewrite (sr_held _ _ Hsr); done).
  set (s3 := set_procs (wake Chan_log <$> procs s2) (set_log (set_committing 0 (log (fsys s2))) s2)).
  apply (wp_result _ _ _ tt s3).
  { krun_with run_acquire; [|rewrite Hh2; set_solver]. unfold upd_log. mrun.
    krun_with run_wakeup; [|fsimp; rewrite Hh2; set_solver]. erewrite run_release_top; [|done|fsimp; rewrite Hh2; set_solver].
    unfold s3, set_log, set_held, set_procs, set_fsys. cbn. by rewrite Hh2. }
  assert (Hsr3 : same_rest s s3).
  { eapply same_rest_trans; [apply (same_rest_fsys s (fsys s1))|]. eapply same_rest_trans; [exact Hsr|]. split; try done. apply woken_wake. }
  exists H, H0. split_and!; try done.
  - split; [eapply env_same; [|exact Hsr3]; apply Hq|]. destruct Hq2 as [_ [order Hbc]]. exists order. by eapply bc_same_bufs; [| |exact Hbc].
  - unfold s3. fsimp. by rewrite Hl2.
Qed.

End txn.
