(* ===== verification/Txn.v ===== *)
(** * Transactions as the file system sees them

    The code of fs.c holds buffers, changes them and records the changes in the log.
    [view me blks hs s] describes the cache to that code: the blocks [blks] are
    pinned, process [me] holds the buffers [hs], each with its block number and
    bytes, and nobody holds any other.  [txn blks hs s] adds that the only running
    transaction has recorded [blks].  The rules give the effect of bread, log_write
    and brelse on the contents of blocks ([block]); the theorem composes them into
    whole transactions. *)

From Stdlib Require Import ZArith Lia.
From stdpp Require Import base tactics numbers option list strings zmap.
From S2P Require Import Prelude Memory Mmu StringOps Kalloc Vm Wmap Kernel Proc File FsState Bio Log.

(** A held buffer: its index, block number and bytes. *)
Record hbuf : Type := Hbuf { h_buf : nat; h_blk : Z; h_data : Zmap Z }.

Section txn.
Context {D : Type} {BD : BlockDevice D} {DK : Disk D} (me : Z).
Implicit Types (s : kst (fsst D)) (hs : list hbuf) (blks : list Z).

Definition held_at (f : fsst D) (h : hbuf) : Prop :=
  exists x, buf_at f (h_buf h) x /\ blockno x = h_blk h /\ data x = h_data h /\
    (b_flags x = 2 -> bytes (data x) = dread (disk f) (blockno x)).

Record view blks hs s : Prop := View {
  vw_env : env me s;
  vw_bc : exists order, bc me (fsys s) order (h_buf <$> hs);
  vw_held : Forall (held_at (fsys s)) hs;
  vw_dirty k : dirty (fsys s) k <-> k ∈ blks }.

(** What changed between two states of the file system: the blocks, by the writes
    [ws], and nothing else but the log and the cache. *)
Record effect s (ws : list (Z * list Z)) s' : Prop := Effect {
  ef_rest : same_rest s s';
  ef_start : l_start (log (fsys s')) = l_start (log (fsys s));
  ef_size : l_size (log (fsys s')) = l_size (log (fsys s));
  ef_sb : sb (fsys s') = sb (fsys s);
  ef_inodes : inodes (fsys s') = inodes (fsys s);
  ef_disk : disk (fsys s') = disk (fsys s);
  ef_block k : 0 <= k < dsize (disk (fsys s)) -> block (fsys s') k = apply_writes ws (block (fsys s)) k }.

Lemma effect_refl s : effect s [] s.
Proof. split; try done. apply same_rest_refl. Qed.

Lemma effect_trans s1 ws1 s2 ws2 s3 : effect s1 ws1 s2 -> effect s2 ws2 s3 -> effect s1 (ws1 ++ ws2) s3.
Proof.
  intros [] []. split; try congruence; [by eapply same_rest_trans|].
  intros k Hk. rewrite apply_writes_app, ef_block1 by congruence. apply apply_writes_ext. by apply ef_block0.
Qed.

Lemma effect_unchanged s ws s1 s2 : effect s ws s1 -> unchanged s1 s2 -> effect s ws s2.
Proof.
  intros [] []. split; try congruence; [by eapply same_rest_trans|].
  intros k Hk. rewrite un_block by congruence. by apply ef_block0.
Qed.

Lemma view_quiet blks s : view blks [] s -> quiet me s.
Proof. intros []. by split. Qed.

(** ** Reading and releasing *)

Lemma view_mem_ok blks hs s h : view blks hs s -> h ∈ hs -> mem_ok (h_data h) /\ 0 <= h_blk h < dsize (disk (fsys s)) /\
  bytes (h_data h) = block (fsys s) (h_blk h).
Proof.
  intros [_ [order Hbc] Hh _] Hin. pose proof (proj1 (Forall_forall _ _) Hh h Hin) as (x & Hx & <- & <- & _).
  assert (Hb : h_buf h ∈ h_buf <$> hs) by (apply list_elem_of_fmap; eauto).
  destruct (busy_facts me s order _ _ _ Hbc Hx Hb) as (_ & _ & F & Dv & R & M). split_and!; try done; try lia.
  symmetry. apply (block_cached (fsys s) (h_buf h) x); [exact (bc_uniq _ _ _ _ Hbc)|done|done|lia].
Qed.

Lemma wp_read fuel blks hs s n {A} (k : nat -> M _ A) Q :
  enough fuel -> view blks hs s -> 0 <= n < dsize (disk (fsys s)) -> n ∉ h_blk <$> hs ->
  (List.length blks + List.length hs < NBUF)%nat ->
  (forall b m s', view blks (Hbuf b n m :: hs) s' -> unchanged s s' -> mem_ok m -> bytes m = block (fsys s) n -> wp (k b) Q s') ->
  wp (b ← bread fuel 1 n; k b) Q s.
Proof.
  intros Hf V Hn Hnh Hlen K. pose proof V as [Henv [order Hbc] Hh Hd]. apply wp_bind. eapply wp_mono.
  { eapply (wp_bread fuel me s order (h_buf <$> hs)); [done|exact Henv|exact Hbc|done| |].
    - intros b x (h & -> & Hin)%list_elem_of_fmap Hx E. apply Hnh, list_elem_of_fmap. exists h. split; [|done].
      pose proof (proj1 (Forall_forall _ _) Hh h Hin) as (y & Hy & <- & _). destruct Hx, Hy. congruence.
    - right. eapply (evictable_count me _ order _ blks); [done|intros j; apply Hd|by rewrite length_fmap]. }
  intros b s' [x G]. cbv beta. pose proof (unchanged_got _ _ _ _ _ _ _ _ G) as U.
  assert (Hm : mem_ok (data x)) by (apply (bc_bufs _ _ _ _ (got_bc _ _ _ _ _ _ _ _ G) b x), G).
  apply (K b (data x)); [|done|done|apply G]. split.
  - by eapply env_same, U.
  - exists order. cbn. apply G.
  - constructor.
    + exists x. rewrite (un_disk _ _ U), (got_blockno _ _ _ _ _ _ _ _ G). split_and!; try done; [apply G|apply G..].
    + apply Forall_forall. intros h Hin. pose proof (proj1 (Forall_forall _ _) Hh h Hin) as (y & Hy & E1 & E2 & E3). exists y. rewrite (un_disk _ _ U).
      split_and!; try done. rewrite (got_state _ _ _ _ _ _ _ _ G). destruct Hy as [H1 H2]. split; [done|]. fsimp.
      rewrite list_lookup_insert_ne; [done|]. intros ->. eapply (got_new _ _ _ _ _ _ _ _ G), list_elem_of_fmap. eauto.
  - intros j. rewrite (un_dirty _ _ U). apply Hd.
Qed.

(** The bytes of a held buffer. *)
Lemma wp_get_held blks hs s h {A} (k : buf -> M _ A) Q :
  view blks hs s -> h ∈ hs -> (forall x, data x = h_data h -> blockno x = h_blk h -> wp (k x) Q s) ->
  wp (x ← get_buf (h_buf h); k x) Q s.
Proof.
  intros [_ _ Hh _] Hin K. pose proof (proj1 (Forall_forall _ _) Hh h Hin) as (x & [_ Hx] & E1 & E2 & _).
  apply wp_bind. eapply wp_result; [by apply run_get_buf|]. auto.
Qed.

Lemma view_nodup blks h hs s : view blks (h :: hs) s -> h_buf h ∉ h_buf <$> hs.
Proof. intros [_ [order Hbc] _ _]. pose proof (bc_nodup _ _ _ _ Hbc) as Hn. cbn in Hn. by apply NoDup_cons in Hn as [? _]. Qed.

Lemma filter_busy (b : nat) l : b ∉ l -> filter (fun c => c <> b) (b :: l) = l.
Proof.
  intros Hb. rewrite (filter_cons_False _ b l) by tauto. by apply filter_ne_id.
Qed.

Lemma wp_release blks h hs s {A} (k : M _ A) Q :
  view blks (h :: hs) s -> (forall s', view blks hs s' -> unchanged s s' -> wp k Q s') -> wp (brelse (h_buf h);; k) Q s.
Proof.
  intros V K. pose proof (view_nodup _ _ _ _ V) as Hnd. destruct V as [Henv [order Hbc] Hh Hd].
  apply Forall_cons in Hh as [(x & Hx & E1 & E2 & E3) Hh].
  apply wp_bind. eapply wp_mono; [apply (wp_brelse me s order (h_buf <$> h :: hs) (h_buf h) x); [done..|by left|done]|].
  intros ? s' R. cbv beta in R. pose proof R as []. assert (U : unchanged s s') by (by split).
  apply K; [|done]. split.
  - by eapply env_same.
  - eexists. rewrite fmap_cons, filter_busy in rel_bc by done. exact rel_bc.
  - apply Forall_forall. intros g Hin. pose proof (proj1 (Forall_forall _ _) Hh g Hin) as (y & Hy & F1 & F2 & F3).
    assert (Hne : h_buf g <> h_buf h) by (intros E; apply Hnd; rewrite <- E; apply list_elem_of_fmap; eauto).
    destruct (released_keeps _ _ _ _ _ _ _ _ R Hne Hy) as (y' & Hy' & Ey). exists y'. rewrite rel_disk.
    rewrite Ey. split; [by rewrite <- Ey|done].
  - intros j. rewrite rel_dirty. apply Hd.
Qed.

(** ** Recording a change *)

(** The log has room for one more block. *)
Record in_txn (f : fsst D) : Prop := In_txn {
  tx_outstanding : 1 <= outstanding (log f);
  tx_n : 0 <= lh_n (log f) < Z.of_nat LOGSIZE;
  tx_size : lh_n (log f) < l_size (log f) - 1;
  tx_blocks : List.length (lh_block (log f)) = LOGSIZE }.

(** The blocks of a transaction after one more change. *)
Definition record_blk (n : Z) blks : list Z := if decide (n ∈ blks) then blks else blks ++ [n].

Lemma length_record_blk n blks : (List.length (record_blk n blks) <= S (List.length blks))%nat.
Proof. unfold record_blk. case_decide; [lia|]. rewrite length_app. cbn. lia. Qed.
Lemma elem_of_record_blk k n blks : k ∈ record_blk n blks <-> k ∈ blks \/ k = n.
Proof.
  unfold record_blk. case_decide; [|by rewrite elem_of_app, list_elem_of_singleton].
  split; [by left|]. by intros [?| ->].
Qed.

Lemma log_add_area v l : l_dev (log_add v l) = l_dev l /\ l_start (log_add v l) = l_start l /\ l_size (log_add v l) = l_size l /\
  outstanding (log_add v l) = outstanding l /\ committing (log_add v l) = committing l.
Proof. unfold log_add. by destruct (Z.of_nat _ =? _). Qed.

(** Change the bytes of a held buffer and record the block. *)
Lemma wp_change blks b n m m' hs s u {A} (k : M _ A) Q :
  view blks (Hbuf b n m :: hs) s -> in_txn (fsys s) -> mem_ok m' -> (forall x, data x = m -> u x = set_b_data m' x) ->
  (forall s', view (record_blk n blks) (Hbuf b n m' :: hs) s' -> effect s [(n, bytes m')] s' ->
     log (fsys s') = log_add n (log (fsys s)) -> wp k Q s') ->
  wp (upd_buf b u;; log_write b;; k) Q s.
Proof.
  intros V [T1 T2 T3 T4] Hm Hu K. pose proof (view_nodup _ _ _ _ V) as Hnd. destruct V as [Henv [order Hbc] Hh Hd].
  apply Forall_cons in Hh as [(x & Hx & E1 & E2 & E3) Hh]. cbn [h_buf h_blk h_data] in *. subst n.
  assert (Hb : b ∈ h_buf <$> Hbuf b (blockno x) m :: hs) by left. set (busy := h_buf <$> _) in *.
  apply wp_bind. eapply wp_result; [apply run_upd_buf, Hx|]. cbv beta. rewrite Hu by done.
  change (wp (log_write b;; k) Q (edited s b x m')). set (s2 := edited s b x m').
  assert (Hbc2 : bc me (fsys s2) order busy) by (by apply edited_bc).
  assert (Hx2 : buf_at (fsys s2) b (set_b_data m' x)) by (apply (edited_at s b x m' Hx); by left).
  assert (Henv2 : env me s2) by (eapply env_same; [exact Henv|apply same_rest_fsys]).
  apply wp_bind. eapply wp_mono; [by apply (wp_log_write me s2 order busy b (set_b_data m' x))|].
  intros ? s' (E & Hbc' & Hx' & Hblk & Hd'). cbv beta.
  assert (Hsr : same_rest s s') by (rewrite E; split; [done..|apply woken_refl]).
  apply K.
  - split.
    + eapply env_same; [exact Henv|exact Hsr].
    + by exists order.
    + constructor; [eexists; split; [exact Hx'|done]|]. apply Forall_forall. intros g Hin.
      pose proof (proj1 (Forall_forall _ _) Hh g Hin) as (y & [Y1 Y2] & F1 & F2 & F3). exists y.
      rewrite E. split_and!; try done. split; [done|].
      unfold s2, edited. fsimp. rewrite !list_lookup_insert_ne; [done|..]; intros ->; apply Hnd, list_elem_of_fmap; eauto.
    + intros j. rewrite Hd', elem_of_record_blk. unfold s2. by rewrite (edited_dirty me s order busy b x m'), Hd.
  - split; try (by rewrite E); try (rewrite E; apply log_add_area); [done|]. intros j Hj. rewrite Hblk. cbn.
    by apply (edited_block me s order busy b x m').
  - by rewrite E.
Qed.

(** ** Transactions *)

(** The place of the log. *)
Record log_area (f : fsst D) : Prop := Log_area {
  la_dev : l_dev (log f) = 1;
  la_start : 0 <= l_start (log f);
  la_end : l_start (log f) + l_size (log f) <= dsize (disk f);
  la_size : MAXOPBLOCKS < l_size (log f) <= Z.of_nat LOGSIZE;
  la_blocks : List.length (lh_block (log f)) = LOGSIZE }.

(** A block outside the log. *)
Definition outside (f : fsst D) (v : Z) : Prop :=
  home (l_start (log f)) (Z.to_nat (l_size (log f) - 1)) (disk f) v.

(** Nobody is in a transaction, the log is empty and the cache clean. *)
Record idle s : Prop := Idle {
  id_view : view [] [] s;
  id_area : log_area (fsys s);
  id_n : lh_n (log (fsys s)) = 0;
  id_outstanding : outstanding (log (fsys s)) = 0;
  id_committing : committing (log (fsys s)) = 0 }.

(** The only transaction is running and has recorded the blocks [blks]. *)
Record txn blks hs s : Prop := Txn {
  tr_view : view blks hs s;
  tr_area : log_area (fsys s);
  tr_n : lh_n (log (fsys s)) = Z.of_nat (List.length blks);
  tr_blks : log_blocks (log (fsys s)) = blks;
  tr_outstanding : outstanding (log (fsys s)) = 1;
  tr_committing : committing (log (fsys s)) = 0;
  tr_home : Forall (outside (fsys s)) blks;
  tr_nodup : NoDup blks }.

Lemma outside_effect s ws s' v : effect s ws s' -> outside (fsys s') v <-> outside (fsys s) v.
Proof. intros []. unfold outside. by rewrite ef_start0, ef_size0, ef_disk0. Qed.

Lemma unchanged_effect s s' : unchanged s s' -> effect s [] s'.
Proof. intros U. eapply effect_unchanged; [apply effect_refl|done]. Qed.

Lemma txn_unchanged blks hs hs' s s' : txn blks hs s -> unchanged s s' -> view blks hs' s' -> txn blks hs' s'.
Proof.
  intros [] U V. pose proof (unchanged_effect _ _ U) as E. destruct U. split; rewrite ?un_log; try done.
  - destruct tr_area0. by split; rewrite ?un_log, ?un_disk.
  - eapply Forall_impl; [done|]. intros v. by rewrite (outside_effect _ _ _ _ E).
Qed.

(** A transaction that has recorded fewer than MAXOPBLOCKS blocks may record another. *)
Lemma txn_room blks hs s : txn blks hs s -> Z.of_nat (List.length blks) < MAXOPBLOCKS -> in_txn (fsys s).
Proof. intros [? [] ? ? ? ? ? ?] Hlt. unfold MAXOPBLOCKS, LOGSIZE in *. split; unfold LOGSIZE; lia. Qed.

Lemma txn_dsize blks hs s : txn blks hs s -> dsize (disk (fsys s)) <= 2147483648.
Proof. intros [[_ [order Hbc] _ _] _ _ _ _ _ _ _]. pose proof (dsize_range _ (bc_disk _ _ _ _ Hbc)). lia. Qed.

Lemma txn_recorded blks hs hs' s n bs s' :
  txn blks hs s -> Z.of_nat (List.length blks) < MAXOPBLOCKS -> outside (fsys s) n ->
  view (record_blk n blks) hs' s' -> effect s [(n, bs)] s' -> log (fsys s') = log_add n (log (fsys s)) ->
  txn (record_blk n blks) hs' s'.
Proof.
  intros Ht Hlt Ho V E El. pose proof (txn_room _ _ _ Ht Hlt) as [_ T2 _ _]. pose proof (txn_dsize _ _ _ Ht) as Hsz.
  destruct Ht as [? [] ? B ? ? Hh ?]. destruct (log_add_area n (log (fsys s))) as (A1 & A2 & A3 & A4 & A5).
  destruct (log_add_blocks n (log (fsys s))) as (B1 & B2 & B3); [done|done|destruct Ho; lia|rewrite B|].
  { eapply Forall_impl; [exact Hh|]. intros w [Hw _]. cbv beta. lia. }
  rewrite B in B1. fold (record_blk n blks) in B1. pose proof (ef_disk _ _ _ E) as Ed. split; rewrite ?El.
  - done.
  - split; rewrite ?El, ?Ed, ?A1, ?A2, ?A3; done.
  - by rewrite B2, B1.
  - done.
  - by rewrite A4.
  - by rewrite A5.
  - assert (Hh' : Forall (outside (fsys s')) blks)
      by (eapply Forall_impl; [exact Hh|]; intros w; by rewrite (outside_effect _ _ _ _ E)).
    unfold record_blk. case_decide; [done|]. apply Forall_app. split; [done|]. by constructor; [rewrite (outside_effect _ _ _ _ E)|].
  - unfold record_blk. case_decide; [done|]. apply NoDup_app. split; [done|]. split; [|apply NoDup_singleton].
    by intros w Hw ->%list_elem_of_singleton.
Qed.

(** The rules inside a transaction. *)
Section rules.
Context {A : Type} (Q : A -> kst (fsst D) -> Prop).

Lemma wp_txn_read fuel blks hs s n (k : nat -> M _ A) :
  enough fuel -> txn blks hs s -> 0 <= n < dsize (disk (fsys s)) -> n ∉ h_blk <$> hs ->
  Z.of_nat (List.length blks) <= MAXOPBLOCKS -> (List.length hs < 10)%nat ->
  (forall b m s', txn blks (Hbuf b n m :: hs) s' -> effect s [] s' -> mem_ok m -> bytes m = block (fsys s) n -> wp (k b) Q s') ->
  wp (b ← bread fuel 1 n; k b) Q s.
Proof.
  intros Hf Ht Hn Hnh Hb Hl K. eapply wp_read; [done|apply Ht|done|done|unfold MAXOPBLOCKS, NBUF in *; lia|].
  intros b m s' V U Hm E. apply (K b m); [by eapply txn_unchanged|by apply unchanged_effect|done|done].
Qed.

Lemma wp_txn_release blks h hs s (k : M _ A) :
  txn blks (h :: hs) s -> (forall s', txn blks hs s' -> effect s [] s' -> wp k Q s') -> wp (brelse (h_buf h);; k) Q s.
Proof.
  intros Ht K. eapply wp_release; [apply Ht|]. intros s' V U. apply K; [by eapply txn_unchanged|by apply unchanged_effect].
Qed.

Lemma wp_txn_change blks b n m m' hs s u (k : M _ A) :
  txn blks (Hbuf b n m :: hs) s -> Z.of_nat (List.length blks) < MAXOPBLOCKS -> outside (fsys s) n ->
  mem_ok m' -> (forall x, data x = m -> u x = set_b_data m' x) ->
  (forall s', txn (record_blk n blks) (Hbuf b n m' :: hs) s' -> effect s [(n, bytes m')] s' -> wp k Q s') ->
  wp (upd_buf b u;; log_write b;; k) Q s.
Proof.
  intros Ht Hlt Ho Hm Hu K. eapply wp_change; [apply Ht|by eapply txn_room|done|done|].
  intros s' V E El. apply K; [|done]. by eapply txn_recorded.
Qed.

End rules.

Lemma wp_txn_release_last (Q : unit -> kst (fsst D) -> Prop) blks h hs s :
  txn blks (h :: hs) s -> (forall s', txn blks hs s' -> effect s [] s' -> Q tt s') -> wp (brelse (h_buf h)) Q s.
Proof.
  intros Ht K. apply wp_tail. eapply wp_txn_release; [done|]. intros s' Ht' E. apply wp_ret. auto.
Qed.

Lemma outside_home s v (blks : list Z) : log_area (fsys s) -> Z.of_nat (List.length blks) <= MAXOPBLOCKS -> outside (fsys s) v ->
  home (l_start (log (fsys s))) (List.length blks) (disk (fsys s)) v.
Proof. intros [] Hle [Hv Hh]. unfold MAXOPBLOCKS in *. split; [done|]. lia. Qed.

Lemma txn_logged blks hs s : txn blks hs s -> Z.of_nat (List.length blks) <= MAXOPBLOCKS -> logged (fsys s) blks.
Proof.
  intros [? A N B ? ? Hh ?] Hle. pose proof A as []. unfold MAXOPBLOCKS, LOGSIZE in *. split; try done.
  - unfold log_blocks in B. by rewrite N, Nat2Z.id in B.
  - lia.
  - eapply Forall_impl; [exact Hh|]. intros w Hw. by eapply outside_home.
  - unfold NBUF. lia.
Qed.

Lemma wp_begin_txn fuel s : enough fuel -> idle s -> wp (begin_op fuel) (fun _ s' => txn [] [] s' /\ effect s [] s') s.
Proof.
  intros Hf [[Henv [order Hbc] _ Hcl] A N O C]. pose proof Henv as (i & p & _ & _ & _ & Hh).
  eapply wp_result; [apply run_begin_op; [done|done|done|rewrite N, O; unfold MAXOPBLOCKS, LOGSIZE; lia]|].
  rewrite O. set (s' := set_log _ s). assert (Hsr : same_rest s s') by apply same_rest_fsys.
  split; [|by split]. split; try done.
  - split; [by eapply env_same|exists order; by eapply bc_same_bufs; [| |exact Hbc]|constructor|exact Hcl].
  - destruct A. by split.
  - unfold log_blocks. cbn. by rewrite N.
  - constructor.
Qed.

(** The end of a transaction that recorded something: afterwards every block outside
    the log is on the disk with the contents it had in the cache. *)
Lemma wp_end_txn fuel blks s : enough fuel -> txn blks [] s -> Z.of_nat (List.length blks) <= MAXOPBLOCKS -> blks <> [] ->
  wp (end_op fuel) (fun _ s' => idle s' /\ same_rest s s' /\
    forall k, outside (fsys s) k -> dread (disk (fsys s')) k = block (fsys s) k) s.
Proof.
  intros Hf Ht Hle Hne. pose proof (txn_logged _ _ _ Ht Hle) as Hlg. destruct Ht as [V A ? ? ? ? ? ?].
  pose proof (view_quiet _ _ V) as Hq. pose proof (vw_dirty _ _ _ V) as Hd.
  eapply wp_mono; [by apply (wp_end_op me fuel s blks)|].
  intros ? s' (H & H0 & H1 & H2 & BH & BH0 & Hsr & [Henv Hbc] & El & Ed & Hcl). split; [|split; [done|]].
  - assert (Hds : dsize (disk (fsys s')) = dsize (disk (fsys s))) by (rewrite Ed; apply dsize_dwrites).
    split; [|destruct A; split; rewrite ?El, ?Hds; done|by rewrite El..].
    split; [done|done|constructor|]. intros k. split; [intros Hk; by destruct (Hcl k)|by intros []%not_elem_of_nil].
  - intros k Hk. rewrite Ed. apply (committed_home me); try done. by apply outside_home.
Qed.

(** The changes of a transaction: block [n] gets the bytes of [m]. *)
Fixpoint updates (fuel : nat) (us : list (Z * Zmap Z)) : M (kst (fsst D)) unit :=
  match us with
  | [] => mret tt
  | (n, m) :: us =>
      b ← bread fuel 1 n; upd_buf b (set_b_data m);; log_write b;; brelse b;; updates fuel us
  end.

Lemma wp_updates fuel us blks s : enough fuel -> txn blks [] s ->
  Z.of_nat (List.length blks + List.length us) <= MAXOPBLOCKS -> Forall (fun u => outside (fsys s) u.1 /\ mem_ok u.2) us ->
  wp (updates fuel us) (fun _ s' => effect s (map (fun u => (u.1, bytes u.2)) us) s' /\
    exists blks', txn blks' [] s' /\ (forall v, v ∈ blks' <-> v ∈ blks \/ v ∈ us.*1) /\
      (List.length blks' <= List.length blks + List.length us)%nat) s.
Proof.
  intros Hf. revert blks s. induction us as [|[n m] us IH]; intros blks s Ht Hle Hus.
  - apply wp_ret. split; [apply effect_refl|]. exists blks. split_and!; [done|set_solver|cbn; lia].
  - apply Forall_cons in Hus as [[Ho Hm] Hus]. cbn [List.length fst snd] in *. cbn [updates].
    eapply (wp_txn_read _ fuel blks []); [done|done|apply Ho|apply not_elem_of_nil|lia|cbn; lia|].
    intros b m0 s1 Ht1 E1 _ _. pose proof Ho as Ho1. rewrite <- (outside_effect _ _ _ _ E1) in Ho1.
    eapply (wp_txn_change _ blks b n m0 m []); [done|lia|done|done|by intros|]. intros s2 Ht2 E2.
    eapply (wp_txn_release _ _ (Hbuf b n m)); [done|]. intros s3 Ht3 E3.
    assert (E : effect s [(n, bytes m)] s3).
    { apply (effect_trans s [] s1 _ _ E1). apply (effect_trans s1 [(n, bytes m)] s2 [] s3 E2 E3). }
    pose proof (length_record_blk n blks). eapply wp_mono; [apply (IH _ _ Ht3); [lia|]|].
    { eapply Forall_impl; [exact Hus|]. intros v. by rewrite (outside_effect _ _ _ _ E). }
    intros ? s4 (E4 & blks' & Ht4 & Hin & Hl). split; [by apply (effect_trans s [(n, bytes m)] s3)|].
    exists blks'. split_and!; [done| |lia]. intros v. rewrite Hin, elem_of_record_blk. cbn. rewrite elem_of_cons. tauto.
Qed.

Lemma idle_block s k : idle s -> block (fsys s) k = dread (disk (fsys s)) k.
Proof. intros [V _ _ _ _]. apply (clean_block me); [by eapply view_quiet|]. rewrite (vw_dirty _ _ _ V). apply not_elem_of_nil. Qed.

End txn.

(** C5: a transaction of up to MAXOPBLOCKS block changes is durable.  From an idle log
    and a clean cache, begin_op, for each change bread, the change of the bytes,
    log_write and brelse, and end_op all return; afterwards every block outside the log
    is on the disk with the contents the changes, in order, give it, and the log is
    idle and the cache clean again. *)
Theorem transaction_durable {D} {BD : BlockDevice D} {DK : Disk D} (fuel : nat) (me : Z) (s : kst (fsst D))
    (us : list (Z * Zmap Z)) :
  (1 <= fuel)%nat -> idle me s -> us <> [] -> Z.of_nat (List.length us) <= MAXOPBLOCKS ->
  Forall (fun u => outside (fsys s) u.1 /\ mem_ok u.2) us ->
  wp (begin_op fuel;; updates fuel us;; end_op fuel)
     (fun _ s' => idle me s' /\ same_rest s s' /\
       forall k, outside (fsys s) k ->
         dread (disk (fsys s')) k = apply_writes (map (fun u => (u.1, bytes u.2)) us) (dread (disk (fsys s))) k) s.
Proof.
  intros Hf Hi Hne Hle Hus. apply wp_bind. eapply wp_mono; [by apply wp_begin_txn|]. intros ? s1 [Ht1 E1].
  apply wp_bind. eapply wp_mono; [apply (wp_updates me fuel us [] s1); [done|done|done|]|].
  { eapply Forall_impl; [exact Hus|]. intros u. by rewrite (outside_effect _ _ _ _ E1). }
  intros ? s2 (E2 & blks & Ht2 & Hin & Hl). cbn in Hl. pose proof (effect_trans _ _ _ _ _ E1 E2) as E. cbn in E.
  eapply wp_mono; [apply (wp_end_txn me fuel blks s2); [done|done|lia|]|].
  { intros ->. destruct us as [|[n m] us]; [done|]. apply (not_elem_of_nil n), Hin. right. left. }
  intros ? s3 (Hi3 & R3 & Hd3). split; [done|]. split; [eapply same_rest_trans, R3; apply E|].
  intros k Hk. rewrite Hd3 by (by rewrite (outside_effect _ _ _ _ E)). rewrite (ef_block _ _ _ E) by apply Hk.
  apply apply_writes_ext. by apply (idle_block me).
Qed.

Definition ex_idle : kst (fsst memdisk) := ex_fsys (FS binit_bufs (Log 2 30 0 0 1 0 (replicate LOGSIZE 0)) sb0 [] ex_disk).

Lemma ex_idle_idle : idle (pid running_proc) ex_idle.
Proof.
  split; [| |reflexivity..].
  - split; [apply ex_env| |constructor|].
    + exists binit_order. apply binit_bc; [reflexivity|apply ex_disk_ok].
    + intros k. split; [intros Hk; by apply binit_clean in Hk|by intros []%not_elem_of_nil].
  - split; cbn; unfold MAXOPBLOCKS, LOGSIZE; try done; lia.
Qed.

Lemma transaction_durable_witness :
  let us := [(40, st8 ∅ 0 7); (41, st8 ∅ 1 8)] in
  wp (begin_op 1;; updates 1 us;; end_op 1)
     (fun _ s' => idle (pid running_proc) s' /\ same_rest ex_idle s' /\
       forall k, outside (fsys ex_idle) k ->
         dread (disk (fsys s')) k = apply_writes (map (fun u => (u.1, bytes u.2)) us) (dread ex_disk) k) ex_idle.
Proof.
  intros us. apply (transaction_durable 1 (pid running_proc) ex_idle us).
  - lia.
  - apply ex_idle_idle.
  - discriminate.
  - cbn. unfold MAXOPBLOCKS. lia.
  - repeat constructor; cbn; try lia; apply mem_ok_st8, mem_ok_empty.
Defined.
