(* ===== verification/Fs.v ===== *)
(** * The file system (fs.c)

    Block allocation, inodes, file contents, directories and path names, over the
    log ([Log]) and the buffer cache ([Bio]).  A destination buffer is a value of
    some type with a routine that stores byte [i] into it (user memory, a local
    variable); a source buffer is a routine that loads byte [i].  Local structures
    (struct dirent, the array name) are byte maps.  The device switch is a
    parameter of the file system, as in the source. *)

From Stdlib Require Import ZArith Lia.
From stdpp Require Import base tactics numbers option list strings zmap.
From S2P Require Import Prelude Memory Mmu StringOps Kalloc Vm Wmap Kernel Proc File Fork FsState Bio Log.

(** ** stat.h, 16-bit fields *)
Definition T_DIR : Z := 1.
Definition T_FILE : Z := 2.
Definition T_DEV : Z := 3.

Definition s16 (z : Z) : Z := (z + 2 ^ 15) mod 2 ^ 16 - 2 ^ 15.
Definition ld16 (m : Zmap Z) (a : Z) : Z := ld8 m a + 256 * ld8 m (a + 1).
Definition st16 (m : Zmap Z) (a v : Z) : Zmap Z := st8 (st8 m a v) (a + 1) (v / 256).

(** struct devsw: the functions of a major device number, null when absent.  The
    destination of a read is any value [A] with a store routine. *)
Class DevSw (D : Type) : Type := {
  dev_read : Z -> option (nat -> forall A, (A -> Z -> Z -> M (kst (fsst D)) A) -> A -> Z -> M (kst (fsst D)) (Z * A));
  dev_write : Z -> option (nat -> (Z -> M (kst (fsst D)) Z) -> Z -> M (kst (fsst D)) Z) }.

Section fs.
Context {D : Type} {BD : BlockDevice D} {DS : DevSw D} (fuel : nat).
#[local] Abbreviation MK := (M (kst (fsst D))).

(** ** Blocks *)

Definition bzero (dev bno : Z) : MK unit :=
  bp ← bread fuel dev (u32 bno);
  upd_buf bp (fun x => set_b_data (memset (data x) 0 0 BSIZE) x);;
  log_write bp;;
  brelse bp.

Definition IBLOCK (i : Z) (sb : superblock) : Z := u32 (i / IPB + sb_inodestart sb).
Definition BBLOCK (b : Z) (sb : superblock) : Z := u32 (b / BPB + sb_bmapstart sb).

(** The inner loop of balloc: the first clear bit of the bitmap block [bp]. *)
Definition balloc_scan (bp : nat) (b bi : Z) : MK (Z + option Z) :=
  sb ← get_sb;
  if negb ((bi <? BPB) && (b + bi <? sb_size sb)) then mret (inr None)
  else
    x ← get_buf bp;
    let m := Z.shiftl 1 (bi mod 8) in
    if Z.land (ld8 (data x) (bi / 8)) m =? 0 then mret (inr (Some bi)) else mret (inl (bi + 1)).

Definition balloc_body (dev b : Z) : MK (Z + Z) :=
  sb ← get_sb;
  if negb (b <? sb_size sb) then panic "balloc: out of blocks"
  else
    bp ← bread fuel dev (BBLOCK b sb);
    r ← iterate (S (Z.to_nat BPB)) (balloc_scan bp b) 0;
    match r with
    | Some bi =>
        let m := Z.shiftl 1 (bi mod 8) in
        upd_buf bp (fun x => set_b_data (st8 (data x) (bi / 8) (Z.lor (ld8 (data x) (bi / 8)) m)) x);;
        log_write bp;;
        brelse bp;;
        bzero dev (b + bi);;
        mret (inr (b + bi))
    | None => brelse bp;; mret (inl (b + BPB))
    end.

Definition balloc (dev : Z) : MK Z :=
  sb ← get_sb;
  iterate (S (S (Z.to_nat (sb_size sb / BPB)))) (balloc_body dev) 0.

Definition bfree (dev b : Z) : MK unit :=
  sb ← get_sb;
  bp ← bread fuel dev (BBLOCK b sb);
  let bi := b mod BPB in
  let m := Z.shiftl 1 (bi mod 8) in
  x ← get_buf bp;
  if Z.land (ld8 (data x) (bi / 8)) m =? 0 then panic "freeing free block"
  else
    upd_buf bp (fun x => set_b_data (st8 (data x) (bi / 8) (Z.land (ld8 (data x) (bi / 8)) (Z.lnot m))) x);;
    log_write bp;;
    brelse bp.

(** ** Inodes *)

Fixpoint iinit_loop (i n : nat) : MK unit :=
  match n with
  | O => mret tt
  | S n' => initsleeplock (SL_inode i);; iinit_loop (S i) n'
  end.

Definition iinit (dev : Z) : MK unit :=
  initlock L_icache;;
  iinit_loop 0 NINODE;;
  sb ← readsb fuel dev;
  modify (set_sb sb).

(** struct dinode at offset [o] of a block: its fields in order. *)
Definition di_type (m : Zmap Z) (o : Z) : Z := s16 (ld16 m o).
Definition di_major (m : Zmap Z) (o : Z) : Z := s16 (ld16 m (o + 2)).
Definition di_minor (m : Zmap Z) (o : Z) : Z := s16 (ld16 m (o + 4)).
Definition di_nlink (m : Zmap Z) (o : Z) : Z := s16 (ld16 m (o + 6)).
Definition di_size (m : Zmap Z) (o : Z) : Z := ld32 m (o + 8).
Definition di_addrs (m : Zmap Z) (o : Z) : list Z :=
  (fun k => ld32 m (o + 12 + 4 * Z.of_nat k)) <$> seq 0 (S (Z.to_nat NDIRECT)).

Fixpoint st_words (m : Zmap Z) (a : Z) (ws : list Z) : Zmap Z :=
  match ws with [] => m | w :: ws' => st_words (st32 m a w) (a + 4) ws' end.

Definition di_store (m : Zmap Z) (o : Z) (ip : inode) : Zmap Z :=
  let m := st16 m o (i_type ip) in
  let m := st16 m (o + 2) (major ip) in
  let m := st16 m (o + 4) (minor ip) in
  let m := st16 m (o + 6) (nlink ip) in
  let m := st32 m (o + 8) (i_size ip) in
  st_words m (o + 12) (addrs ip).

Definition di_load (m : Zmap Z) (o : Z) (ip : inode) : inode :=
  Inode (i_dev ip) (inum ip) (i_ref ip) (i_lock ip) (valid ip) (di_type m o) (di_major m o) (di_minor m o)
    (di_nlink m o) (di_size m o) (di_addrs m o).

(** The offset in its block of the dinode with number [n]. *)
Definition dinode_off (n : Z) : Z := n mod IPB * sizeof_dinode.

Definition iget (dev n : Z) : MK nat :=
  acquire L_icache;;
  s ← get;
  match find_index (fun ip => (0 <? i_ref ip) && (i_dev ip =? dev) && (inum ip =? n)) (inodes (fsys s)) with
  | Some i => upd_inode i (fun ip => set_i_ref (s32 (i_ref ip + 1)) ip);; release L_icache;; mret i
  | None =>
      match find_index (fun ip => i_ref ip =? 0) (inodes (fsys s)) with
      | None => panic "iget: no inodes"
      | Some i => upd_inode i (set_i_key dev n 1 0);; release L_icache;; mret i
      end
  end.

Definition ialloc_body (dev type n : Z) : MK (Z + nat) :=
  sb ← get_sb;
  if negb (n <? sb_ninodes sb) then panic "ialloc: no inodes"
  else
    bp ← bread fuel dev (IBLOCK n sb);
    x ← get_buf bp;
    let o := dinode_off n in
    if di_type (data x) o =? 0 then
      upd_buf bp (fun x => set_b_data (memset (data x) o 0 sizeof_dinode) x);;
      upd_buf bp (fun x => set_b_data (st16 (data x) o type) x);;
      log_write bp;;
      brelse bp;;
      i ← iget dev n;
      mret (inr i)
    else brelse bp;; mret (inl (n + 1)).

Definition ialloc (dev type : Z) : MK nat :=
  sb ← get_sb;
  iterate (S (Z.to_nat (sb_ninodes sb))) (ialloc_body dev type) 1.

Definition iupdate (i : nat) : MK unit :=
  ip ← get_inode i;
  sb ← get_sb;
  bp ← bread fuel (i_dev ip) (IBLOCK (inum ip) sb);
  ip ← get_inode i;
  upd_buf bp (fun x => set_b_data (di_store (data x) (dinode_off (inum ip)) ip) x);;
  log_write bp;;
  brelse bp.

Definition idup (i : nat) : MK nat :=
  acquire L_icache;;
  upd_inode i (fun ip => set_i_ref (s32 (i_ref ip + 1)) ip);;
  release L_icache;;
  mret i.

Definition ilock (i : nat) : MK unit :=
  ip ← get_inode i;
  if i_ref ip <? 1 then panic "ilock"
  else
    acquiresleep fuel (SL_inode i);;
    ip ← get_inode i;
    when (valid ip =? 0)
      (sb ← get_sb;
       bp ← bread fuel (i_dev ip) (IBLOCK (inum ip) sb);
       x ← get_buf bp;
       upd_inode i (fun ip => di_load (data x) (dinode_off (inum ip)) ip);;
       brelse bp;;
       upd_inode i (set_valid 1);;
       ip ← get_inode i;
       if i_type ip =? 0 then panic "ilock: no type" else mret tt).

Definition iunlock (i : nat) : MK unit :=
  h ← holdingsleep (SL_inode i);
  ip ← get_inode i;
  if negb h || (i_ref ip <? 1) then panic "iunlock" else releasesleep (SL_inode i).

(** ** Inode content *)

(** ip->addrs[k] *)
Definition addr_get (i : nat) (k : Z) : MK Z :=
  ip ← get_inode i;
  match addrs ip !! Z.to_nat k with Some a => mret a | None => undef "addrs index" end.
Definition addr_set (i : nat) (k a : Z) : MK unit :=
  upd_inode i (fun ip => set_addrs (<[Z.to_nat k := a]> (addrs ip)) ip).

(** The block in a slot of ip->addrs, allocated if there is none. *)
Definition bmap_slot (i : nat) (k : Z) : MK Z :=
  addr ← addr_get i k;
  if addr =? 0 then
    ip ← get_inode i;
    addr ← balloc (i_dev ip);
    addr_set i k addr;;
    mret addr
  else mret addr.

Definition bmap (i : nat) (bn : Z) : MK Z :=
  if bn <? NDIRECT then bmap_slot i bn
  else
    let bn := bn - NDIRECT in
    if bn <? NINDIRECT then
      addr ← bmap_slot i NDIRECT;
      ip ← get_inode i;
      bp ← bread fuel (i_dev ip) addr;
      x ← get_buf bp;
      let addr := ld32 (data x) (4 * bn) in
      addr ← (if addr =? 0 then
                addr ← balloc (i_dev ip);
                upd_buf bp (fun x => set_b_data (st32 (data x) (4 * bn) addr) x);;
                log_write bp;;
                mret addr
              else mret addr);
      brelse bp;;
      mret addr
    else panic "bmap: out of range".

Definition itrunc_direct (i : nat) (k : Z) : MK (Z + unit) :=
  if negb (k <? NDIRECT) then mret (inr tt)
  else
    a ← addr_get i k;
    when (negb (a =? 0)) (ip ← get_inode i; bfree (i_dev ip) a;; addr_set i k 0);;
    mret (inl (k + 1)).

Definition itrunc_indirect (i bp : nat) (j : Z) : MK (Z + unit) :=
  if negb (j <? NINDIRECT) then mret (inr tt)
  else
    x ← get_buf bp;
    let a := ld32 (data x) (4 * j) in
    when (negb (a =? 0)) (ip ← get_inode i; bfree (i_dev ip) a);;
    mret (inl (j + 1)).

Definition itrunc (i : nat) : MK unit :=
  iterate (S (Z.to_nat NDIRECT)) (itrunc_direct i) 0;;
  a ← addr_get i NDIRECT;
  when (negb (a =? 0))
    (ip ← get_inode i;
     bp ← bread fuel (i_dev ip) a;
     iterate (S (Z.to_nat NINDIRECT)) (itrunc_indirect i bp) 0;;
     brelse bp;;
     a ← addr_get i NDIRECT;
     bfree (i_dev ip) a;;
     addr_set i NDIRECT 0);;
  upd_inode i (set_i_size 0);;
  iupdate i.

Definition iput (i : nat) : MK unit :=
  acquiresleep fuel (SL_inode i);;
  ip ← get_inode i;
  when (negb (valid ip =? 0) && (nlink ip =? 0))
    (acquire L_icache;;
     ip ← get_inode i;
     let r := i_ref ip in
     release L_icache;;
     when (r =? 1) (itrunc i;; upd_inode i (set_i_type 0);; iupdate i;; upd_inode i (set_valid 0)));;
  releasesleep (SL_inode i);;
  acquire L_icache;;
  upd_inode i (fun ip => set_i_ref (s32 (i_ref ip - 1)) ip);;
  release L_icache.

Definition iunlockput (i : nat) : MK unit := iunlock i;; iput i.

(** Store the two or four bytes of a field at offset [o] of a destination. *)
Definition put16 (st : Z -> Z -> MK unit) (o v : Z) : MK unit := st o (u8 v);; st (o + 1) (u8 (v / 256)).
Definition put32 (st : Z -> Z -> MK unit) (o v : Z) : MK unit :=
  st o (u8 v);; st (o + 1) (u8 (v / 256));; st (o + 2) (u8 (v / 65536));; st (o + 3) (u8 (v / 16777216)).

(** struct stat: type at 0, dev at 4, ino at 8, nlink at 12, size at 16. *)
Definition stati (i : nat) (st : Z -> Z -> MK unit) : MK unit :=
  ip ← get_inode i;
  put32 st 4 (i_dev ip);;
  put32 st 8 (inum ip);;
  put16 st 0 (i_type ip);;
  put16 st 12 (nlink ip);;
  put32 st 16 (i_size ip).

(** memmove between a block buffer, from offset [o], and bytes [at..at+n) of a caller's
    buffer. *)
Fixpoint copy_to {A} (st : A -> Z -> Z -> MK A) (dst : A) (bp : nat) (o at_ : Z) (n : nat) : MK A :=
  match n with
  | O => mret dst
  | S n' =>
      x ← get_buf bp;
      dst ← st dst at_ (ld8 (data x) o);
      copy_to st dst bp (o + 1) (at_ + 1) n'
  end.
Fixpoint copy_from (ld : Z -> MK Z) (bp : nat) (o at_ : Z) (n : nat) : MK unit :=
  match n with
  | O => mret tt
  | S n' =>
      c ← ld at_;
      upd_buf bp (fun x => set_b_data (st8 (data x) o c) x);;
      copy_from ld bp (o + 1) (at_ + 1) n'
  end.

(** One round of the loop of readi: [tot] bytes are read, [off] is the offset in the
    file. *)
Definition readi_body {A} (i : nat) (st : A -> Z -> Z -> MK A) (n : Z) (a : Z * Z * A) : MK ((Z * Z * A) + A) :=
  let '(tot, off, dst) := a in
  if negb (tot <? n) then mret (inr dst)
  else
    ip ← get_inode i;
    addr ← bmap i (off / BSIZE);
    bp ← bread fuel (i_dev ip) addr;
    let m := Z.min (n - tot) (BSIZE - off mod BSIZE) in
    dst ← copy_to st dst bp (off mod BSIZE) tot (Z.to_nat m);
    brelse bp;;
    mret (inl (tot + m, u32 (off + m), dst)).

Definition readi {A} (i : nat) (st : A -> Z -> Z -> MK A) (dst : A) (off n : Z) : MK (Z * A) :=
  ip ← get_inode i;
  if i_type ip =? T_DEV then
    if (major ip <? 0) || (NDEV <=? major ip) then mret (-1, dst)
    else match dev_read (major ip) with
         | None => mret (-1, dst)
         | Some rd => rd i A st dst n
         end
  else if (i_size ip <? off) || (u32 (off + n) <? off) then mret (-1, dst)
  else
    let n := if i_size ip <? u32 (off + n) then i_size ip - off else n in
    dst ← iterate (S (Z.to_nat n)) (readi_body i st n) (0, off, dst);
    mret (s32 n, dst).

Definition writei_body (i : nat) (ld : Z -> MK Z) (n : Z) (a : Z * Z) : MK ((Z * Z) + Z) :=
  let '(tot, off) := a in
  if negb (tot <? n) then mret (inr off)
  else
    ip ← get_inode i;
    addr ← bmap i (off / BSIZE);
    bp ← bread fuel (i_dev ip) addr;
    let m := Z.min (n - tot) (BSIZE - off mod BSIZE) in
    copy_from ld bp (off mod BSIZE) tot (Z.to_nat m);;
    log_write bp;;
    brelse bp;;
    mret (inl (tot + m, u32 (off + m))).

Definition writei (i : nat) (ld : Z -> MK Z) (off n : Z) : MK Z :=
  ip ← get_inode i;
  if i_type ip =? T_DEV then
    if (major ip <? 0) || (NDEV <=? major ip) then mret (-1)
    else match dev_write (major ip) with
         | None => mret (-1)
         | Some wr => wr i ld n
         end
  else if (i_size ip <? off) || (u32 (off + n) <? off) then mret (-1)
  else if MAXFILE * BSIZE <? u32 (off + n) then mret (-1)
  else
    off ← iterate (S (Z.to_nat n)) (writei_body i ld n) (0, off);
    ip ← get_inode i;
    when ((0 <? n) && (i_size ip <? off)) (upd_inode i (set_i_size off);; iupdate i);;
    mret (s32 n).

(** ** Directories *)

(** A local array as destination. *)
Definition st_local (m : Zmap Z) (i b : Z) : MK (Zmap Z) := mret (st8 m i b).

(** The two names in one memory, [s] at 0 and [t] at 16. *)
Definition namecmp (s t : Zmap Z) : Z :=
  strncmp (st_bytes (st_bytes ∅ 0 (ld_bytes s 0 (Z.to_nat DIRSIZ))) 16 (ld_bytes t 0 (Z.to_nat DIRSIZ)))
    0 16 (Z.to_nat DIRSIZ).

(** struct dirent: inum at 0, name at 2. *)
Definition de_inum (de : Zmap Z) : Z := ld16 de 0.
Definition de_name (de : Zmap Z) : Zmap Z := st_bytes ∅ 0 (ld_bytes de 2 (Z.to_nat DIRSIZ)).

Definition dirlookup_body (dp : nat) (name : Zmap Z) (off : Z) : MK (Z + option (nat * Z)) :=
  ip ← get_inode dp;
  if negb (off <? i_size ip) then mret (inr None)
  else
    r ← readi dp st_local ∅ off sizeof_dirent;
    let '(n, de) := r in
    if negb (n =? sizeof_dirent) then panic "dirlookup read"
    else if de_inum de =? 0 then mret (inl (u32 (off + sizeof_dirent)))
    else if namecmp name (de_name de) =? 0 then
      i ← iget (i_dev ip) (de_inum de);
      mret (inr (Some (i, off)))
    else mret (inl (u32 (off + sizeof_dirent))).

(** The inode of the entry, and the offset of the entry. *)
Definition dirlookup (dp : nat) (name : Zmap Z) : MK (option (nat * Z)) :=
  ip ← get_inode dp;
  if negb (i_type ip =? T_DIR) then panic "dirlookup not DIR"
  else iterate (S (Z.to_nat (i_size ip))) (dirlookup_body dp name) 0.

(** The search for an empty entry: the offset, and the entry last read. *)
Definition dirlink_body (dp : nat) (a : Z * Zmap Z) : MK ((Z * Zmap Z) + (Z * Zmap Z)) :=
  let '(off, de) := a in
  ip ← get_inode dp;
  if negb (off <? i_size ip) then mret (inr (off, de))
  else
    r ← readi dp st_local de off sizeof_dirent;
    let '(n, de) := r in
    if negb (n =? sizeof_dirent) then panic "dirlink read"
    else if de_inum de =? 0 then mret (inr (off, de))
    else mret (inl (off + sizeof_dirent, de)).

(** strncpy(de.name, name, DIRSIZ); de.inum = inum, with [name] at 16 beside [de]. *)
Definition de_make (de name : Zmap Z) (n : Z) : Zmap Z :=
  st16 (strncpy (st_bytes de 16 (ld_bytes name 0 (Z.to_nat DIRSIZ))) 2 16 (Z.to_nat DIRSIZ)) 0 n.

Definition dirlink (dp : nat) (name : Zmap Z) (n : Z) : MK Z :=
  r ← dirlookup dp name;
  match r with
  | Some (i, _) => iput i;; mret (-1)
  | None =>
      ip ← get_inode dp;
      r ← iterate (S (Z.to_nat (i_size ip))) (dirlink_body dp) (0, ∅);
      let '(off, de) := r in
      w ← writei dp (fun k => mret (ld8 (de_make de name n) k)) (u32 off) sizeof_dirent;
      if negb (w =? sizeof_dirent) then panic "dirlink" else mret 0
  end.

(** ** Paths

    [path k] is the byte at offset [k] of the path; a pointer into it is an offset. *)

Definition SLASH : Z := 47.

Definition skip_slashes (path : Z -> MK Z) (p : Z) : MK (Z + Z) :=
  c ← path p; if c =? SLASH then mret (inl (p + 1)) else mret (inr p).
Definition scan_elem (path : Z -> MK Z) (p : Z) : MK (Z + Z) :=
  c ← path p; if negb (c =? SLASH) && negb (c =? 0) then mret (inl (p + 1)) else mret (inr p).

Fixpoint copy_elem (path : Z -> MK Z) (name : Zmap Z) (p k : Z) (n : nat) : MK (Zmap Z) :=
  match n with
  | O => mret name
  | S n' => c ← path p; copy_elem path (st8 name k c) (p + 1) (k + 1) n'
  end.

Definition skipelem (path : Z -> MK Z) (p : Z) (name : Zmap Z) : MK (option (Z * Zmap Z)) :=
  p ← iterate fuel (skip_slashes path) p;
  c ← path p;
  if c =? 0 then mret None
  else
    let s := p in
    p ← iterate fuel (scan_elem path) p;
    let len := p - s in
    name ← (if DIRSIZ <=? len then copy_elem path name s 0 (Z.to_nat DIRSIZ)
            else name ← copy_elem path name s 0 (Z.to_nat len); mret (st8 name len 0));
    p ← iterate fuel (skip_slashes path) p;
    mret (Some (p, name)).

Definition namex_body (path : Z -> MK Z) (parent : bool) (a : nat * Z * Zmap Z)
    : MK ((nat * Z * Zmap Z) + (option nat * Zmap Z)) :=
  let '(i, p, name) := a in
  r ← skipelem path p name;
  match r with
  | None => if parent then iput i;; mret (inr (None, name)) else mret (inr (Some i, name))
  | Some (p, name) =>
      ilock i;;
      ip ← get_inode i;
      if negb (i_type ip =? T_DIR) then iunlockput i;; mret (inr (None, name))
      else
        c ← (if parent then path p else mret 1);
        if parent && (c =? 0) then iunlock i;; mret (inr (Some i, name))
        else
          r ← dirlookup i name;
          match r with
          | None => iunlockput i;; mret (inr (None, name))
          | Some (next, _) => iunlockput i;; mret (inl (next, p, name))
          end
  end.

Definition namex (path : Z -> MK Z) (parent : bool) (name : Zmap Z) : MK (option nat * Zmap Z) :=
  c ← path 0;
  i ← (if c =? SLASH then iget ROOTDEV ROOTINO
       else
         k ← curproc;
         p ← get_proc k;
         match cwd p with Some i => idup i | None => undef "null inode" end);
  iterate fuel (namex_body path parent) (i, 0, name).

Definition namei (path : Z -> MK Z) : MK (option nat) :=
  r ← namex path false ∅; mret r.1.
Definition nameiparent (path : Z -> MK Z) : MK (option nat * Zmap Z) := namex path true ∅.

End fs.

(** ** What the file layer uses of it *)
Definition xv6fs {D} {BD : BlockDevice D} {DS : DevSw D} (fuel : nat) : FileSys (fsst D) := {|
  fs_begin_op := begin_op fuel;
  fs_end_op := end_op fuel;
  fs_idup i := idup i;; mret tt;
  fs_ilock := ilock fuel;
  fs_iunlock := iunlock;
  fs_iput := iput fuel;
  fs_stati := stati;
  fs_readi i st off n := r ← readi fuel i (fun _ => st) tt off (u32 n); mret r.1;
  fs_writei i ld off n := writei fuel i ld off (u32 n);
  fs_namei := namei fuel;
  fs_iinit := iinit fuel;
  fs_initlog := initlog fuel |}.
