(* ===== verification/FsBlocks.v ===== *)
(** * Blocks of the file system (balloc and bfree of fs.c)

    The bitmap says which blocks are in use: [used f b] is the bit of block [b] in
    the logical contents of the disk.  [layout] is what mkfs promises about the disk:
    the bitmap and the inodes lie outside the log, and a block that is not in use is a
    data block. *)

From Stdlib Require Import ZArith Lia.
From stdpp Require Import base tactics numbers option list strings zmap.
From S2P Require Import Prelude Memory Mmu StringOps Kalloc Vm Wmap Kernel Proc File Fork FsState Bio Log Txn Fs.

(** ** Bytes and bits of a block *)

Definition byte_at (bs : list Z) (i : Z) : Z := default 0 (bs !! Z.to_nat i).
Definition bit_at (bs : list Z) (i : Z) : bool := Z.testbit (byte_at bs (i / 8)) (i mod 8).

Lemma byte_bytes m i : 0 <= i < BSIZE -> byte_at (bytes m) i = ld8 m i.
Proof.
  intros Hi. unfold byte_at, bytes. rewrite lookup_ld_bytes by lia. cbn. f_equal. lia.
Qed.

Lemma bytes_ext m m' : (forall i, 0 <= i < BSIZE -> ld8 m i = ld8 m' i) -> bytes m = bytes m'.
Proof. intros H. apply ld_bytes_ext. intros i Hi. apply H. unfold BSIZE in *. lia. Qed.

Lemma bytes_eq m bs : is_blk bs -> (forall i, 0 <= i < BSIZE -> ld8 m i = byte_at bs i) -> bytes m = bs.
Proof.
  intros [Hl _] H. apply list_eq. intros i. unfold bytes. destruct (decide (i < Z.to_nat BSIZE)%nat) as [Hi|Hi].
  - rewrite lookup_ld_bytes by done. replace (0 + Z.of_nat i) with (Z.of_nat i) by lia. rewrite H by lia.
    unfold byte_at. rewrite Nat2Z.id. destruct (bs !! i) eqn:E; [done|]. apply lookup_ge_None in E. lia.
  - rewrite !lookup_ge_None_2; [done|lia|rewrite length_ld_bytes; lia].
Qed.

Lemma land_bit_zero v k : 0 <= k -> (Z.land v (Z.shiftl 1 k) =? 0) = negb (Z.testbit v k).
Proof.
  intros Hk. rewrite Z.shiftl_1_l. destruct (Z.testbit v k) eqn:E; cbn.
  - apply Z.eqb_neq. intros H. assert (F : Z.testbit (Z.land v (2 ^ k)) k = true).
    { rewrite Z.land_spec, E, Z.pow2_bits_true by lia. done. }
    rewrite H, Z.bits_0 in F. done.
  - apply Z.eqb_eq. apply Z.bits_inj'. intros j Hj. rewrite Z.land_spec, Z.bits_0, Z.pow2_bits_eqb by lia.
    destruct (k =? j) eqn:Ej; [|by rewrite andb_false_r]. apply Z.eqb_eq in Ej. subst. by rewrite E.
Qed.

Lemma testbit_set v k j : 0 <= k -> 0 <= j -> Z.testbit (Z.lor v (Z.shiftl 1 k)) j = Z.testbit v j || (k =? j).
Proof. intros Hk Hj. by rewrite Z.shiftl_1_l, Z.lor_spec, Z.pow2_bits_eqb. Qed.

Lemma testbit_clear v k j : 0 <= k -> 0 <= j -> Z.testbit (Z.land v (Z.lnot (Z.shiftl 1 k))) j = Z.testbit v j && negb (k =? j).
Proof. intros Hk Hj. by rewrite Z.shiftl_1_l, Z.land_spec, Z.lnot_spec, Z.pow2_bits_eqb. Qed.

(** The byte of bit [i] replaced by [v]. *)
Lemma bit_st8 m i j v : 0 <= i < BPB -> 0 <= j < BPB -> 0 <= v < 256 ->
  bit_at (bytes (st8 m (i / 8) v)) j = if decide (i / 8 = j / 8) then Z.testbit v (j mod 8) else bit_at (bytes m) j.
Proof.
  intros Hi Hj Hv. unfold BPB, BSIZE in *. unfold bit_at. rewrite !byte_bytes by (unfold BSIZE; divlia). rewrite ld8_st8.
  case_decide; [by rewrite u8_id|done].
Qed.

Lemma length_filter_ne (b : Z) l : NoDup l -> (List.length l <= S (List.length (filter (fun c => c <> b) l)))%nat.
Proof.
  induction l as [|c l IH]; [cbn; lia|]. intros [Hc Hnd]%NoDup_cons. specialize (IH Hnd). destruct (decide (c = b)) as [->|Hne].
  - rewrite filter_cons_False by tauto. cbn. rewrite filter_ne_id by done. lia.
  - rewrite filter_cons_True by done. cbn. lia.
Qed.

Section blocks.
Context {D : Type} {BD : BlockDevice D} {DK : Disk D} (me : Z) (fuel : nat) (Hfuel : enough fuel).
Implicit Types (s : kst (fsst D)) (hs : list hbuf) (blks : list Z).

(** Block [b] is in use. *)
Definition used (f : fsst D) (b : Z) : bool := bit_at (block f (BBLOCK b (sb f))) (b mod BPB).

(** Block [b] is neither the boot block nor part of the log, the bitmap or the inodes. *)
Record is_data (f : fsst D) (b : Z) : Prop := Is_data {
  da_range : 0 < b < sb_size (sb f);
  da_log : outside f b;
  da_bmap c : 0 <= c < sb_size (sb f) -> BBLOCK c (sb f) <> b;
  da_inode n : 0 <= n < sb_ninodes (sb f) -> IBLOCK n (sb f) <> b }.

Record layout (f : fsst D) : Prop := Layout {
  lo_size : 0 < sb_size (sb f) <= dsize (disk f);
  lo_ninodes : sb_ninodes (sb f) < 4294967296;
  lo_bmap b : 0 <= b < sb_size (sb f) -> outside f (BBLOCK b (sb f));
  lo_inode n : 0 <= n < sb_ninodes (sb f) -> outside f (IBLOCK n (sb f)) /\
    forall c, 0 <= c < sb_size (sb f) -> BBLOCK c (sb f) <> IBLOCK n (sb f);
  lo_free b : 0 <= b < sb_size (sb f) -> used f b = false -> is_data f b }.

(** The held buffers are in use and not of the bitmap. *)
Definition apart (f : fsst D) (hs : list hbuf) : Prop :=
  forall b, 0 <= b < sb_size (sb f) ->
    (BBLOCK b (sb f) ∉ h_blk <$> hs) /\ (used f b = false -> b ∉ h_blk <$> hs).

Lemma used_effect s s' b : effect s [] s' -> layout (fsys s) -> 0 <= b < sb_size (sb (fsys s)) -> used (fsys s') b = used (fsys s) b.
Proof.
  intros E L Hb. unfold used. rewrite (ef_sb _ _ _ E), (ef_block _ _ _ E); [done|]. by apply (lo_bmap _ L).
Qed.

Lemma BBLOCK_add b bi sb : b mod BPB = 0 -> 0 <= bi < BPB -> BBLOCK (b + bi) sb = BBLOCK b sb /\ (b + bi) mod BPB = bi.
Proof.
  intros Hb Hbi. unfold BBLOCK. replace ((b + bi) / BPB) with (b / BPB) by (unfold BPB, BSIZE in *; divlia).
  split; [done|]. unfold BPB, BSIZE in *. divlia.
Qed.

(** What the scan of a bitmap block finds. *)
Definition scanned (size : Z) (bs : list Z) (b : Z) (r : option Z) : Prop :=
  match r with
  | Some bi => 0 <= bi < BPB /\ b + bi < size /\ bit_at bs bi = false /\ forall j, 0 <= j < bi -> bit_at bs j = true
  | None => forall j, 0 <= j < BPB -> b + j < size -> bit_at bs j = true
  end.

Lemma wp_scan blks h hs s b :
  view me blks (h :: hs) s ->
  wp (iterate (S (Z.to_nat BPB)) (balloc_scan (h_buf h) b) 0)
     (fun r s' => s' = s /\ scanned (sb_size (sb (fsys s))) (bytes (h_data h)) b r) s.
Proof.
  intros V.
  apply (wp_iterate (fun bi s' => s' = s /\ 0 <= bi <= BPB /\ forall j, 0 <= j < bi -> bit_at (bytes (h_data h)) j = true)
    (fun bi => Z.to_nat (BPB - bi))).
  - intros bi s' (-> & Hbi & Hset). unfold balloc_scan, get_sb. apply wp_bind, wp_gets. cbv beta.
    destruct (negb _) eqn:G.
    + apply wp_ret. split; [done|]. intros j Hj Hjs. apply Hset. apply negb_true_iff, andb_false_iff in G.
      rewrite !Z.ltb_ge in G. lia.
    + apply negb_false_iff, andb_true_iff in G. rewrite !Z.ltb_lt in G.
      eapply wp_get_held; [exact V|left|]. intros x Ex _. rewrite Ex.
      assert (Hm : 0 <= bi mod 8) by divlia. rewrite (land_bit_zero _ _ Hm).
      assert (Eb : Z.testbit (ld8 (h_data h) (bi / 8)) (bi mod 8) = bit_at (bytes (h_data h)) bi).
      { unfold bit_at. rewrite byte_bytes; [done|]. unfold BPB, BSIZE in *. divlia. }
      rewrite Eb. destruct (bit_at _ bi) eqn:B; cbn [negb]; apply wp_ret.
      * split; [|lia]. split; [done|]. split; [lia|]. intros j Hj. destruct (decide (j = bi)) as [->|]; [done|]. apply Hset. lia.
      * split; [done|]. cbn. split_and!; try lia; [done|]. intros j Hj. apply Hset. lia.
  - lia.
  - split; [done|]. unfold BPB, BSIZE. split; [lia|]. intros j Hj. lia.
Qed.

Definition zeros : list Z := replicate (Z.to_nat BSIZE) 0.

Lemma bytes_zeroed m : bytes (memset m 0 0 BSIZE) = zeros.
Proof.
  unfold zeros. apply list_eq. intros i. unfold bytes. destruct (decide (i < Z.to_nat BSIZE)%nat) as [Hi|Hi].
  - rewrite lookup_ld_bytes, lookup_replicate_2 by done. f_equal. rewrite ld8_memset by (unfold BSIZE in *; lia).
    rewrite decide_True by (unfold BSIZE in *; lia). done.
  - rewrite !lookup_ge_None_2; [done|rewrite length_replicate; lia|rewrite length_ld_bytes; lia].
Qed.

Lemma wp_bzero blks hs s b :
  txn me blks hs s -> outside (fsys s) b -> b ∉ h_blk <$> hs -> Z.of_nat (List.length blks) < MAXOPBLOCKS -> (List.length hs < 9)%nat ->
  wp (bzero fuel 1 b) (fun _ s' => txn me (record_blk b blks) hs s' /\ effect s [(b, zeros)] s') s.
Proof.
  intros Ht Ho Hb Hl Hh. unfold bzero. pose proof (txn_dsize _ _ _ _ Ht) as Hsz. rewrite u32_id by (destruct Ho; lia).
  eapply (wp_txn_read me _ fuel blks hs); [done|done|apply Ho|done|lia|lia|]. intros bp m s1 Ht1 E1 Hm _.
  rewrite <- (outside_effect _ _ _ _ E1) in Ho.
  eapply (wp_txn_change me _ blks bp b m (memset m 0 0 BSIZE) hs); [done|done|done|by apply mem_ok_memset|by intros x ->|].
  intros s2 Ht2 E2. eapply (wp_txn_release_last me _ _ (Hbuf bp b _)); [done|]. intros s3 Ht3 E3. split; [done|].
  rewrite bytes_zeroed in E2. apply (effect_trans s [] s1 _ _ E1). by apply (effect_trans s1 [(b, zeros)] s2 []).
Qed.

(** The bitmap block with bit [i] set or cleared. *)
Definition mark (bs : list Z) (i : Z) (v : bool) (bs' : list Z) : Prop :=
  forall j, 0 <= j < BPB -> bit_at bs' j = if decide (j = i) then v else bit_at bs j.

Lemma mark_set m i : mem_ok m -> 0 <= i < BPB ->
  mark (bytes m) i true (bytes (st8 m (i / 8) (Z.lor (ld8 m (i / 8)) (Z.shiftl 1 (i mod 8))))).
Proof.
  intros Hm Hi j Hj. assert (Hk : 0 <= i mod 8 < 8) by divlia. assert (Hkj : 0 <= j mod 8 < 8) by divlia.
  rewrite bit_st8; [|done|done|]. 2:{ apply (lor_range _ _ 8); [lia|apply Hm|]. rewrite Z.shiftl_1_l.
    split; [lia|]. apply Z.pow_lt_mono_r; lia. }
  destruct (decide (j = i)) as [->|Hne].
  - rewrite decide_True by done. rewrite testbit_set, Z.eqb_refl by lia. by rewrite orb_true_r.
  - case_decide as E; [|done]. rewrite testbit_set by lia. rewrite (proj2 (Z.eqb_neq _ _)) by divlia.
    rewrite orb_false_r, E. unfold bit_at. rewrite byte_bytes; [done|]. unfold BPB, BSIZE in *. divlia.
Qed.

Lemma mark_clear m i : mem_ok m -> 0 <= i < BPB ->
  mark (bytes m) i false (bytes (st8 m (i / 8) (Z.land (ld8 m (i / 8)) (Z.lnot (Z.shiftl 1 (i mod 8)))))).
Proof.
  intros Hm Hi j Hj. assert (Hk : 0 <= i mod 8 < 8) by divlia. assert (Hkj : 0 <= j mod 8 < 8) by divlia.
  rewrite bit_st8; [|done|done|apply (land_range _ _ 8); [lia|apply Hm]].
  destruct (decide (j = i)) as [->|Hne].
  - rewrite decide_True by done. rewrite testbit_clear, Z.eqb_refl by lia. by rewrite andb_false_r.
  - case_decide as E; [|done]. rewrite testbit_clear by lia. rewrite (proj2 (Z.eqb_neq _ _)) by divlia.
    rewrite andb_true_r, E. unfold bit_at. rewrite byte_bytes; [done|]. unfold BPB, BSIZE in *. divlia.
Qed.

(** Block [b] was taken: from [s] to [s'] its bit was set and it was zeroed. *)
Record taken blks hs s b s' : Prop := Taken {
  tk_range : 0 <= b < sb_size (sb (fsys s));
  tk_free : used (fsys s) b = false;
  tk_first c : 0 <= c < b -> used (fsys s) c = true;
  tk_txn : txn me (record_blk b (record_blk (BBLOCK b (sb (fsys s))) blks)) hs s';
  tk_effect : exists bs', mark (block (fsys s) (BBLOCK b (sb (fsys s)))) (b mod BPB) true bs' /\
    effect s [(BBLOCK b (sb (fsys s)), bs'); (b, zeros)] s' }.

(** The found bit is set and the block zeroed. *)
Lemma wp_balloc_take {A} (k : M (kst (fsst D)) A) Q blks hs s s1 bp m b bi :
  layout (fsys s) -> apart (fsys s) hs -> Z.of_nat (List.length blks) + 2 <= MAXOPBLOCKS -> (List.length hs < 9)%nat ->
  b mod BPB = 0 -> 0 <= b -> (forall c, 0 <= c < b -> used (fsys s) c = true) ->
  txn me blks (Hbuf bp (BBLOCK b (sb (fsys s))) m :: hs) s1 -> effect s [] s1 -> mem_ok m ->
  bytes m = block (fsys s) (BBLOCK b (sb (fsys s))) -> scanned (sb_size (sb (fsys s))) (bytes m) b (Some bi) ->
  (forall s', taken blks hs s (b + bi) s' -> wp k Q s') ->
  wp (upd_buf bp (fun x => set_b_data (st8 (data x) (bi / 8) (Z.lor (ld8 (data x) (bi / 8)) (Z.shiftl 1 (bi mod 8)))) x);;
      log_write bp;; brelse bp;; bzero fuel 1 (b + bi);; k) Q s1.
Proof.
  intros L Ha Hl Hh Hb Hb0 Hall Ht1 E1 Hm Em (Hbi & Hsz & Hclr & Hset) K.
  destruct (BBLOCK_add b bi (sb (fsys s)) Hb Hbi) as [EB EM]. set (B := BBLOCK b (sb (fsys s))) in *.
  assert (Hbsz : 0 <= b < sb_size (sb (fsys s))) by lia. assert (Hb' : 0 <= b + bi < sb_size (sb (fsys s))) by lia.
  pose proof (lo_bmap _ L b Hbsz) as HoB. rewrite <- (outside_effect _ _ _ _ E1) in HoB.
  assert (Hfree : used (fsys s) (b + bi) = false) by (unfold used; by rewrite EB, EM, <- Em).
  pose proof (da_log _ _ (lo_free _ L _ Hb' Hfree)) as Ho.
  eapply (wp_txn_change me _ blks bp B m _ hs); [exact Ht1|lia|exact HoB|by apply mem_ok_st8|by intros x ->|].
  intros s2 Ht2 E2. eapply (wp_txn_release me _ _ (Hbuf bp B _)); [exact Ht2|]. intros s3 Ht3 E3.
  pose proof (effect_trans _ _ _ _ _ E1 (effect_trans _ _ _ _ _ E2 E3)) as E. cbn [app] in E.
  pose proof (length_record_blk B blks). apply wp_bind. eapply wp_mono.
  { apply wp_bzero; [exact Ht3|by rewrite (outside_effect _ _ _ _ E)|by apply Ha|lia|done]. }
  intros ? s4 [Ht4 E4]. apply K. split; [done|done| |by rewrite EB|].
  - intros c Hc. destruct (decide (c < b)) as [Hcb|Hcb]; [apply Hall; lia|].
    destruct (BBLOCK_add b (c - b) (sb (fsys s)) Hb) as [F1 F2]; [lia|]. replace (b + (c - b)) with c in F1, F2 by lia.
    unfold used. rewrite F1, F2. fold B. rewrite <- Em. apply Hset. lia.
  - rewrite EB, EM. eexists. split; [rewrite <- Em; by apply mark_set|]. by apply (effect_trans s [_] s3).
Qed.

Lemma wp_balloc blks hs s :
  txn me blks hs s -> layout (fsys s) -> apart (fsys s) hs -> Z.of_nat (List.length blks) + 2 <= MAXOPBLOCKS ->
  (List.length hs < 9)%nat -> (exists b, 0 <= b < sb_size (sb (fsys s)) /\ used (fsys s) b = false) ->
  wp (balloc fuel 1) (fun b s' => taken blks hs s b s') s.
Proof.
  intros Ht L Ha Hl Hh (b0 & Hb0 & Hu0). unfold balloc, get_sb. apply wp_bind, wp_gets. cbv beta.
  apply (wp_iterate (fun b s' => b mod BPB = 0 /\ 0 <= b /\ txn me blks hs s' /\ effect s [] s' /\
      forall c, 0 <= c < b -> c < sb_size (sb (fsys s)) -> used (fsys s) c = true)
    (fun b => Z.to_nat (sb_size (sb (fsys s)) / BPB + 1 - b / BPB))).
  2:{ assert (0 <= sb_size (sb (fsys s)) / BPB) by (apply Z.div_pos; unfold BPB, BSIZE; lia). change (0 / BPB) with 0. lia. }
  2:{ split_and!; [done|done|done|apply effect_refl|]. intros c Hc. lia. }
  intros b s1 (Hb & Hbp & Ht1 & E1 & Hall). unfold balloc_body, get_sb. apply wp_bind, wp_gets. cbv beta.
  rewrite (ef_sb _ _ _ E1). destruct (b <? sb_size (sb (fsys s))) eqn:Hlt.
  2:{ apply Z.ltb_ge in Hlt. rewrite Hall in Hu0 by lia. done. }
  apply Z.ltb_lt in Hlt. cbn [negb]. set (B := BBLOCK b (sb (fsys s))).
  assert (HoB : outside (fsys s1) B) by (rewrite (outside_effect _ _ _ _ E1); apply L; lia).
  eapply (wp_txn_read me _ fuel blks hs); [done|exact Ht1|apply HoB|apply (proj1 (Ha b ltac:(lia)))|lia|lia|].
  intros bp m s2 Ht2 E2 Hm Em. pose proof (effect_trans _ _ _ _ _ E1 E2) as E. cbn in E.
  rewrite (ef_block _ _ _ E1) in Em by (rewrite <- (ef_disk _ _ _ E1); apply HoB). cbn in Em.
  apply wp_bind. eapply wp_mono; [apply (wp_scan blks (Hbuf bp B m) hs s2), Ht2|].
  intros r s2' [-> Hr]. cbn [h_data] in Hr. rewrite (ef_sb _ _ _ E) in Hr. destruct r as [bi|].
  - eapply (wp_balloc_take _ _ blks hs s s2 bp m b bi); try done. intros c Hc. apply Hall; lia.
  - eapply (wp_txn_release me _ _ (Hbuf bp B m)); [exact Ht2|]. intros s3 Ht3 E3. apply wp_ret. split.
    + split_and!; [unfold BPB, BSIZE in *; divlia|unfold BPB, BSIZE; lia|done|by apply (effect_trans s [] s2)|].
      intros c Hc Hcs. destruct (decide (c < b)) as [Hcb|Hcb]; [apply Hall; lia|].
      destruct (BBLOCK_add b (c - b) (sb (fsys s)) Hb) as [F1 F2]; [lia|]. replace (b + (c - b)) with c in F1, F2 by lia.
      unfold used. rewrite F1, F2. fold B. rewrite <- Em. apply Hr; lia.
    + assert (b / BPB <= sb_size (sb (fsys s)) / BPB) by (apply Z.div_le_mono; unfold BPB, BSIZE; lia).
      replace ((b + BPB) / BPB) with (b / BPB + 1) by (unfold BPB, BSIZE in *; divlia). lia.
Qed.

Lemma BBLOCK_inj b c (f : fsst D) : layout f -> dsize (disk f) <= 2147483648 ->
  0 <= b < sb_size (sb f) -> 0 <= c < sb_size (sb f) -> BBLOCK b (sb f) = BBLOCK c (sb f) -> b / BPB = c / BPB.
Proof.
  intros L Hd Hb Hc. destruct (lo_size _ L) as [_ Hs]. unfold BBLOCK, u32.
  assert (0 <= b / BPB < 2147483648) by (unfold BPB, BSIZE in *; divlia).
  assert (0 <= c / BPB < 2147483648) by (unfold BPB, BSIZE in *; divlia).
  generalize dependent (b / BPB). generalize dependent (c / BPB). intros x Hx y Hy E.
  change (2 ^ 32) with 4294967296 in E. divlia.
Qed.

(** Changing the bit of [b] changes nothing about other blocks. *)
Lemma used_mark s s' b v bs' ws :
  layout (fsys s) -> dsize (disk (fsys s)) <= 2147483648 -> 0 <= b < sb_size (sb (fsys s)) ->
  mark (block (fsys s) (BBLOCK b (sb (fsys s)))) (b mod BPB) v bs' ->
  effect s ((BBLOCK b (sb (fsys s)), bs') :: ws) s' ->
  (forall c, 0 <= c < sb_size (sb (fsys s)) -> BBLOCK c (sb (fsys s)) ∉ ws.*1) ->
  forall c, 0 <= c < sb_size (sb (fsys s)) -> used (fsys s') c = if decide (c = b) then v else used (fsys s) c.
Proof.
  intros L Hd Hb Hm E Hws c Hc. unfold used at 1. rewrite (ef_sb _ _ _ E), (ef_block _ _ _ E) by (by apply (lo_bmap _ L)).
  pose proof (apply_writes_other ws (apply_writes [(BBLOCK b (sb (fsys s)), bs')] (block (fsys s))) _ (Hws c Hc)) as Ew.
  change (apply_writes ((BBLOCK b (sb (fsys s)), bs') :: ws) (block (fsys s)))
    with (apply_writes ws (apply_writes [(BBLOCK b (sb (fsys s)), bs')] (block (fsys s)))).
  rewrite Ew. cbn. destruct (decide (BBLOCK c (sb (fsys s)) = _)) as [EB|EB].
  - apply (BBLOCK_inj c b (fsys s) L Hd Hc Hb) in EB as EQ. rewrite Hm by (unfold BPB, BSIZE in *; divlia).
    destruct (decide (c = b)) as [->|Hne]; [by rewrite decide_True|]. rewrite decide_False by (unfold BPB, BSIZE in *; divlia).
    unfold used. by rewrite EB.
  - rewrite decide_False; [done|]. by intros ->.
Qed.

Lemma is_data_effect s ws s' b : effect s ws s' -> is_data (fsys s') b <-> is_data (fsys s) b.
Proof.
  intros E. split; intros []; split; rewrite ?(ef_sb _ _ _ E) in *; try done; by apply (outside_effect _ _ _ _ E).
Qed.

Lemma layout_keep s s' ws : layout (fsys s) -> effect s ws s' ->
  (forall c, 0 <= c < sb_size (sb (fsys s)) -> used (fsys s') c = false -> used (fsys s) c = false \/ is_data (fsys s) c) ->
  layout (fsys s').
Proof.
  intros [] E Hu. split; rewrite ?(ef_sb _ _ _ E), ?(ef_disk _ _ _ E); try done.
  - intros b Hb. rewrite (outside_effect _ _ _ _ E). auto.
  - intros n Hn. rewrite (outside_effect _ _ _ _ E). auto.
  - intros b Hb Hf. apply (is_data_effect _ _ _ _ E). destruct (Hu b Hb Hf) as [H|H]; auto.
Qed.

(** A write outside the bitmap. *)
Lemma used_other s ws s' : layout (fsys s) -> effect s ws s' ->
  (forall c, 0 <= c < sb_size (sb (fsys s)) -> BBLOCK c (sb (fsys s)) ∉ ws.*1) ->
  layout (fsys s') /\ forall c, 0 <= c < sb_size (sb (fsys s)) -> used (fsys s') c = used (fsys s) c.
Proof.
  intros L E Hws.
  assert (U : forall c, 0 <= c < sb_size (sb (fsys s)) -> used (fsys s') c = used (fsys s) c).
  { intros c Hc. unfold used. rewrite (ef_sb _ _ _ E), (ef_block _ _ _ E) by (by apply (lo_bmap _ L)).
    by rewrite apply_writes_other by auto. }
  split; [|done]. eapply layout_keep; [done|exact E|]. intros c Hc. rewrite U by done. by left.
Qed.

Lemma taken_used blks hs s b s' : layout (fsys s) -> taken blks hs s b s' ->
  layout (fsys s') /\ forall c, 0 <= c < sb_size (sb (fsys s)) -> used (fsys s') c = if decide (c = b) then true else used (fsys s) c.
Proof.
  intros L [Hb Hf _ Ht (bs' & Hm & E)]. pose proof (txn_dsize _ _ _ _ Ht) as Hd. rewrite (ef_disk _ _ _ E) in Hd.
  assert (U : forall c, 0 <= c < sb_size (sb (fsys s)) -> used (fsys s') c = if decide (c = b) then true else used (fsys s) c).
  { eapply used_mark; [done|done|done|exact Hm|exact E|]. intros c Hc. cbn. rewrite list_elem_of_singleton. by apply (da_bmap _ _ (lo_free _ L b Hb Hf)). }
  split; [|done]. eapply layout_keep; [done|exact E|]. intros c Hc. rewrite U by done. case_decide; [done|tauto].
Qed.

(** A freed block. *)
Record freed blks hs s b s' : Prop := Freed {
  fr_txn : txn me (record_blk (BBLOCK b (sb (fsys s))) blks) hs s';
  fr_effect : exists bs', mark (block (fsys s) (BBLOCK b (sb (fsys s)))) (b mod BPB) false bs' /\ is_blk bs' /\
    effect s [(BBLOCK b (sb (fsys s)), bs')] s' }.

Lemma wp_bfree blks hs s b :
  txn me blks hs s -> layout (fsys s) -> BBLOCK b (sb (fsys s)) ∉ h_blk <$> hs -> Z.of_nat (List.length blks) < MAXOPBLOCKS ->
  (List.length hs < 9)%nat -> 0 <= b < sb_size (sb (fsys s)) -> used (fsys s) b = true ->
  wp (bfree fuel 1 b) (fun _ s' => freed blks hs s b s') s.
Proof.
  intros Ht L Hnh Hl Hh Hb Hu. unfold bfree, get_sb. apply wp_bind, wp_gets. cbv beta. set (B := BBLOCK b (sb (fsys s))) in *.
  pose proof (lo_bmap _ L b Hb) as HoB. fold B in HoB.
  eapply (wp_txn_read me _ fuel blks hs); [done|exact Ht|apply HoB|done|lia|lia|]. intros bp m s1 Ht1 E1 Hm Em.
  eapply (wp_get_held me _ _ _ (Hbuf bp B m)); [apply Ht1|left|]. cbn [h_data h_blk]. intros x -> _.
  assert (Hbi : 0 <= b mod BPB < BPB) by (unfold BPB, BSIZE; divlia).
  rewrite land_bit_zero by (unfold BPB, BSIZE; divlia).
  assert (Eb : Z.testbit (ld8 m (b mod BPB / 8)) (b mod BPB mod 8) = true).
  { rewrite <- Hu. unfold used, bit_at. fold B. rewrite <- Em, byte_bytes; [done|]. unfold BPB, BSIZE in *. divlia. }
  rewrite Eb. cbn [negb]. rewrite <- (outside_effect _ _ _ _ E1) in HoB.
  eapply (wp_txn_change me _ blks bp B m _ hs); [exact Ht1|done|exact HoB|by apply mem_ok_st8|by intros y ->|].
  intros s2 Ht2 E2. eapply (wp_txn_release_last me _ _ (Hbuf bp B _)); [exact Ht2|]. intros s3 Ht3 E3. split; [done|].
  eexists. split; [fold B; rewrite <- Em; by apply mark_clear|]. split; [by apply is_blk_ld, mem_ok_st8|].
  apply (effect_trans s [] s1 _ _ E1). by apply (effect_trans s1 [_] s2 []).
Qed.

(** Blocks with the same bits are equal. *)
Lemma bits_blk bs bs' : is_blk bs -> is_blk bs' -> (forall j, 0 <= j < BPB -> bit_at bs j = bit_at bs' j) -> bs = bs'.
Proof.
  intros [L1 F1] [L2 F2] H. apply list_eq_same_length with (n := List.length bs); [congruence..|].
  intros i x y Hi Hx Hy. rewrite Forall_forall in F1, F2.
  assert (Rx : 0 <= x < 256) by (apply F1, list_elem_of_lookup; eauto).
  assert (Ry : 0 <= y < 256) by (apply F2, list_elem_of_lookup; eauto).
  apply Z.bits_inj'. intros j Hj. destruct (decide (j < 8)) as [Hj8|Hj8].
  - specialize (H (8 * Z.of_nat i + j)). unfold bit_at, byte_at in H.
    replace ((8 * Z.of_nat i + j) / 8) with (Z.of_nat i) in H by divlia.
    replace ((8 * Z.of_nat i + j) mod 8) with j in H by divlia. rewrite Nat2Z.id, Hx, Hy in H. apply H.
    unfold BPB, BSIZE in *. lia.
  - rewrite !Z.bits_above_log2; try done; try lia.
    + destruct (decide (y = 0)) as [->|]; [cbn; lia|]. assert (Z.log2 y < 8) by (apply Z.log2_lt_pow2; lia). lia.
    + destruct (decide (x = 0)) as [->|]; [cbn; lia|]. assert (Z.log2 x < 8) by (apply Z.log2_lt_pow2; lia). lia.
Qed.

Lemma view_is_blk blks hs s k : view me blks hs s -> 0 <= k < dsize (disk (fsys s)) -> is_blk (block (fsys s) k).
Proof.
  intros [_ [order Hbc] _ _] Hk. destruct (block_cases (fsys s) k) as [(b & x & Hx & X1 & X2 & X3)|Hnone].
  - rewrite <- X2, (block_cached (fsys s) b x) by (done || exact (bc_uniq _ _ _ _ Hbc)).
    apply is_blk_ld. by apply (bc_bufs _ _ _ _ Hbc b x).
  - rewrite block_uncached by done. apply dread_blk; [apply Hbc|done].
Qed.

(** Taking a block and freeing it again: only its contents are lost. *)
Lemma taken_freed blks hs blks' hs' s b s1 s2 : txn me blks hs s -> layout (fsys s) ->
  taken blks hs s b s1 -> freed blks' hs' s1 b s2 ->
  forall k, 0 <= k < dsize (disk (fsys s)) -> block (fsys s2) k = if decide (k = b) then zeros else block (fsys s) k.
Proof.
  intros Ht L T [_ (bs2 & M2 & B2 & E2)] k Hk. destruct T as [Hb Hf _ Ht1 (bs1 & M1 & E1)].
  rewrite (ef_sb _ _ _ E1) in *. set (B := BBLOCK b (sb (fsys s))) in *. pose proof (lo_bmap _ L b Hb) as [HB _]. fold B in HB.
  assert (HBb : B <> b) by (by apply (da_bmap _ _ (lo_free _ L b Hb Hf))).
  rewrite (ef_block _ _ _ E1 B HB) in M2. cbn in M2. rewrite decide_False, decide_True in M2 by done.
  rewrite (ef_block _ _ _ E2) by (by rewrite (ef_disk _ _ _ E1)). cbn. destruct (decide (k = B)) as [->|HkB].
  - rewrite decide_False by done. apply bits_blk; [done|eapply view_is_blk; [apply Ht|done]|]. intros j Hj. rewrite M2 by done.
    case_decide as Ej; [subst j; symmetry; exact Hf|]. rewrite M1 by done. by rewrite decide_False.
  - rewrite (ef_block _ _ _ E1) by done. cbn. case_decide; [done|]. by rewrite decide_False.
Qed.

End blocks.

(** block allocation.  In a transaction with room for two blocks, when some block
    is free, balloc returns; it takes the free block with the lowest number, sets its
    bit, zeroes it, and changes no other block and no other bit of the bitmap. *)
Theorem balloc_first_free {D} {BD : BlockDevice D} {DK : Disk D} (me : Z) (fuel : nat)
    (blks : list Z) (s : kst (fsst D)) :
  (1 <= fuel)%nat -> txn me blks [] s -> layout (fsys s) -> Z.of_nat (List.length blks) + 2 <= MAXOPBLOCKS ->
  (exists b, 0 <= b < sb_size (sb (fsys s)) /\ used (fsys s) b = false) ->
  wp (balloc fuel 1) (fun b s' =>
    (0 <= b < sb_size (sb (fsys s)) /\ used (fsys s) b = false /\ forall c, 0 <= c < b -> used (fsys s) c = true) /\
    (exists blks', txn me blks' [] s' /\ (List.length blks' <= List.length blks + 2)%nat) /\ layout (fsys s') /\
    (forall c, 0 <= c < sb_size (sb (fsys s)) -> used (fsys s') c = if decide (c = b) then true else used (fsys s) c) /\
    block (fsys s') b = zeros /\
    forall k, 0 <= k < dsize (disk (fsys s)) -> k <> b -> k <> BBLOCK b (sb (fsys s)) -> block (fsys s') k = block (fsys s) k) s.
Proof.
  intros Hf Ht L Hl He. eapply wp_mono.
  { apply wp_balloc; [done|exact Ht|done| |done|cbn; lia|done]. intros b Hb. split; [apply not_elem_of_nil|intros _; apply not_elem_of_nil]. }
  intros b s' T. cbv beta in T. pose proof (taken_used _ _ _ _ _ _ L T) as [L' U]. destruct T as [Hb Hu Hc Ht' (bs & Hm & E)].
  pose proof (da_log _ _ (lo_free _ L b Hb Hu)) as [Hbd _]. split; [done|]. split.
  { eexists. split; [exact Ht'|]. pose proof (length_record_blk b (record_blk (BBLOCK b (sb (fsys s))) blks)).
    pose proof (length_record_blk (BBLOCK b (sb (fsys s))) blks). lia. }
  split; [done|]. split; [done|]. split.
  - rewrite (ef_block _ _ _ E) by done. cbn. by rewrite decide_True.
  - intros k Hk H1 H2. rewrite (ef_block _ _ _ E) by done. cbn. by rewrite !decide_False.
Qed.

(** Allocation and release of a block are inverse.  After balloc and bfree of the
    block it returned every block of the disk, the bitmap included, has the bytes it
    had before, except that the block itself is zeroed. *)
Theorem balloc_bfree_roundtrip {D} {BD : BlockDevice D} {DK : Disk D} (me : Z) (fuel : nat)
    (blks : list Z) (s : kst (fsst D)) :
  (1 <= fuel)%nat -> txn me blks [] s -> layout (fsys s) -> Z.of_nat (List.length blks) + 3 <= MAXOPBLOCKS ->
  (exists b, 0 <= b < sb_size (sb (fsys s)) /\ used (fsys s) b = false) ->
  wp (b ← balloc fuel 1; bfree fuel 1 b;; mret b) (fun b s' =>
    used (fsys s) b = false /\ (forall c, 0 <= c < sb_size (sb (fsys s)) -> used (fsys s') c = used (fsys s) c) /\
    forall k, 0 <= k < dsize (disk (fsys s)) -> block (fsys s') k = if decide (k = b) then zeros else block (fsys s) k) s.
Proof.
  intros Hf Ht L Hl He. apply wp_bind. eapply wp_mono.
  { apply wp_balloc; [done|exact Ht|done| |lia|cbn; lia|done]. intros b Hb. split; [apply not_elem_of_nil|intros _; apply not_elem_of_nil]. }
  intros b s1 T. cbv beta in T. pose proof (taken_used _ _ _ _ _ _ L T) as [L1 U1]. pose proof T as [Hb Hu _ Ht1 (bs & Hm & E1)].
  apply wp_bind. eapply wp_mono.
  { apply wp_bfree; [done|exact Ht1|done|apply not_elem_of_nil| |cbn; lia| |].
    - pose proof (length_record_blk b (record_blk (BBLOCK b (sb (fsys s))) blks)).
      pose proof (length_record_blk (BBLOCK b (sb (fsys s))) blks). lia.
    - by rewrite (ef_sb _ _ _ E1).
    - rewrite U1 by done. by rewrite decide_True. }
  intros ? s2 F. cbv beta in F. apply wp_ret. pose proof (taken_freed _ _ _ _ _ _ _ _ _ Ht L T F) as HB.
  split; [done|]. split; [|done]. intros c Hc. destruct F as [_ (bs2 & _ & _ & E2)]. unfold used at 1.
  rewrite (ef_sb _ _ _ E2), (ef_sb _ _ _ E1), HB by (by apply (lo_bmap _ L)).
  rewrite decide_False by (by apply (da_bmap _ _ (lo_free _ L b Hb Hu))). done.
Qed.

(** ** An empty disk as mkfs makes it: 1000 blocks, the log in 2..31, inodes in 32..57,
    the bitmap in 58 *)

Definition ex_sb : superblock := Superblock 1000 941 200 30 2 32 58.
Definition ex_mkfs : memdisk := Memdisk 1000 (st_bytes ∅ (58 * 512) (replicate 7 255 ++ [7])).
(** An empty file. *)
Definition ex_ino : inode := Inode 1 5 1 (Sleeplock 1 (pid running_proc)) 1 T_FILE 0 0 1 0 (replicate 13 0).
Definition ex_open : kst (fsst memdisk) :=
  ex_fsys (FS binit_bufs (Log 2 30 1 0 1 0 (replicate LOGSIZE 0)) ex_sb [ex_ino] ex_mkfs).

Lemma ex_mkfs_ok : disk_ok ex_mkfs.
Proof. split; [apply mem_ok_st_bytes, mem_ok_empty|cbn; lia]. Qed.

Lemma ex_open_txn : txn (pid running_proc) [] [] ex_open.
Proof.
  split; [| |reflexivity..|constructor|constructor].
  - split; [apply ex_env| |constructor|].
    + exists binit_order. apply binit_bc; [reflexivity|apply ex_mkfs_ok].
    + intros k. split; [intros Hk; by apply binit_clean in Hk|by intros []%not_elem_of_nil].
  - split; cbn; unfold MAXOPBLOCKS, LOGSIZE; try done; lia.
Qed.

Lemma ex_used_meta b : 0 <= b < 59 -> used (fsys ex_open) b = true.
Proof.
  intros Hb. assert (H : forallb (fun i => used (fsys ex_open) (Z.of_nat i)) (seq 0 59) = true) by (vm_compute; reflexivity).
  rewrite forallb_forall in H. specialize (H (Z.to_nat b)). rewrite Z2Nat.id in H by lia. apply H, in_seq. lia.
Qed.

Lemma ex_layout : layout (fsys ex_open).
Proof.
  assert (HB : forall b, 0 <= b < 1000 -> BBLOCK b ex_sb = 58).
  { intros b Hb. unfold BBLOCK. rewrite Z.div_small by (unfold BPB, BSIZE; lia). done. }
  assert (HI : forall n, 0 <= n < sb_ninodes ex_sb -> IBLOCK n ex_sb = n / 8 + 32).
  { intros n Hn. cbn in Hn. unfold IBLOCK. cbn. change (512 / sizeof_dinode) with 8. change IPB with 8. rewrite u32_id; divlia. }
  split.
  - cbn. lia.
  - cbn. lia.
  - intros b Hb. change (sb (fsys ex_open)) with ex_sb. rewrite HB by done. split; cbn; lia.
  - intros n Hn. change (sb (fsys ex_open)) with ex_sb. rewrite (HI n Hn). cbn in Hn.
    assert (32 <= n / 8 + 32 < 57) by divlia. split; [split; cbn; lia|]. intros c Hc. rewrite HB by done. lia.
  - intros b Hb Hf. assert (59 <= b).
    { destruct (decide (b < 59)); [|lia]. rewrite ex_used_meta in Hf by lia. done. }
    split; [cbn in *; lia|split; cbn in *; lia|..].
    + intros c Hc. change (sb (fsys ex_open)) with ex_sb. rewrite HB by done. lia.
    + intros n Hn. change (sb (fsys ex_open)) with ex_sb. rewrite (HI n Hn). cbn in Hn. divlia.
Qed.

Lemma ex_free : exists b, 0 <= b < sb_size (sb (fsys ex_open)) /\ used (fsys ex_open) b = false.
Proof. exists 59. split; [cbn; lia|vm_compute; reflexivity]. Qed.

Lemma balloc_first_free_witness :
  wp (balloc 1 1) (fun b s' =>
    (0 <= b < sb_size (sb (fsys ex_open)) /\ used (fsys ex_open) b = false /\ forall c, 0 <= c < b -> used (fsys ex_open) c = true) /\
    (exists blks', txn (pid running_proc) blks' [] s' /\ (List.length blks' <= List.length (@nil Z) + 2)%nat) /\ layout (fsys s') /\
    (forall c, 0 <= c < sb_size (sb (fsys ex_open)) -> used (fsys s') c = if decide (c = b) then true else used (fsys ex_open) c) /\
    block (fsys s') b = zeros /\
    forall k, 0 <= k < dsize (disk (fsys ex_open)) -> k <> b -> k <> BBLOCK b (sb (fsys ex_open)) -> block (fsys s') k = block (fsys ex_open) k) ex_open.
Proof.
  apply (balloc_first_free (pid running_proc) 1 [] ex_open);
    [lia|apply ex_open_txn|apply ex_layout|discriminate|apply ex_free].
Defined.

Lemma balloc_bfree_roundtrip_witness :
  wp (b ← balloc 1 1; bfree 1 1 b;; mret b) (fun b s' =>
    used (fsys ex_open) b = false /\ (forall c, 0 <= c < sb_size (sb (fsys ex_open)) -> used (fsys s') c = used (fsys ex_open) c) /\
    forall k, 0 <= k < dsize (disk (fsys ex_open)) -> block (fsys s') k = if decide (k = b) then zeros else block (fsys ex_open) k) ex_open.
Proof.
  apply (balloc_bfree_roundtrip (pid running_proc) 1 [] ex_open);
    [lia|apply ex_open_txn|apply ex_layout|discriminate|apply ex_free].
Defined.
