(* ===== verification/FsInode.v ===== *)
(** * Contents of inodes (bmap, readi, writei of fs.c)

    The contents of a file are the function [file_byte f ip] from offsets to bytes;
    [baddr f ip bn] is the disk block that holds block [bn] of the file, through the
    indirect block where the code does so, and 0 when there is none.  [ino_ok] says
    that the blocks of an inode are distinct data blocks in use. *)

From Stdlib Require Import ZArith Lia.
From stdpp Require Import base tactics numbers option list strings zmap.
From S2P Require Import Prelude Memory Mmu StringOps Kalloc Vm Wmap Kernel Proc File Fork FsState Bio Log Txn Fs FsBlocks.

Lemma word_zeros o : 0 <= o /\ o + 4 <= BSIZE -> word zeros o = 0.
Proof.
  intros Ho. rewrite <- (bytes_zeroed ∅), word_bytes by (lia || (apply mem_ok_memset; [done|apply mem_ok_empty])). unfold ld32.
  by rewrite !ld8_memset, !decide_True by (unfold BSIZE in *; lia).
Qed.

Section inode.
Context {D : Type} {BD : BlockDevice D} {DK : Disk D} {DS : DevSw D} (me : Z) (fuel : nat) (Hfuel : enough fuel).
Implicit Types (s : kst (fsst D)) (f : fsst D) (ip : inode) (blks : list Z) (hs : list hbuf).

Definition ind_of ip : Z := default 0 (addrs ip !! Z.to_nat NDIRECT).
Definition baddr f ip (bn : Z) : Z :=
  if bn <? NDIRECT then default 0 (addrs ip !! Z.to_nat bn)
  else if ind_of ip =? 0 then 0 else word (block f (ind_of ip)) (4 * (bn - NDIRECT)).
Definition file_byte f ip (o : Z) : Z :=
  let a := baddr f ip (o / BSIZE) in if a =? 0 then 0 else byte_at (block f a) (o mod BSIZE).

(** Block [a] belongs to the inode. *)
Definition own f ip (a : Z) : Prop :=
  a <> 0 /\ (a = ind_of ip \/ exists bn, 0 <= bn < MAXFILE /\ a = baddr f ip bn).

Record ino_ok f ip : Prop := Ino_ok {
  io_dev : i_dev ip = 1;
  io_len : List.length (addrs ip) = S (Z.to_nat NDIRECT);
  io_own a : own f ip a -> is_data f a /\ used f a = true;
  io_inj bn bn' : 0 <= bn < MAXFILE -> 0 <= bn' < MAXFILE -> baddr f ip bn <> 0 -> baddr f ip bn = baddr f ip bn' -> bn = bn';
  io_ind bn : 0 <= bn < MAXFILE -> baddr f ip bn <> 0 -> baddr f ip bn <> ind_of ip }.

(** ** Steps that extend a file

    From [s] to [s'] only inode [i], the bitmap, the inode's own blocks and the log
    have changed; its blocks keep their places, and new ones were free.  The blocks
    recorded in the transaction are those of before, the bitmap, the indirect block and
    the blocks of the file with numbers in [T]. *)
Record grown (T : Z -> Prop) i s ip blks s' ip' blks' : Prop := Grown {
  gr_txn : txn me blks' [] s';
  gr_layout : layout (fsys s');
  gr_ok : ino_ok (fsys s') ip';
  gr_ip : ip' = set_addrs (addrs ip') ip;
  gr_rest : same_rest s s';
  gr_start : l_start (log (fsys s')) = l_start (log (fsys s));
  gr_size : l_size (log (fsys s')) = l_size (log (fsys s));
  gr_sb : sb (fsys s') = sb (fsys s);
  gr_disk : disk (fsys s') = disk (fsys s);
  gr_inodes : inodes (fsys s') = <[i := ip']> (inodes (fsys s));
  gr_addr bn : 0 <= bn < MAXFILE -> baddr (fsys s) ip bn <> 0 -> baddr (fsys s') ip' bn = baddr (fsys s) ip bn;
  gr_ind : ind_of ip <> 0 -> ind_of ip' = ind_of ip;
  gr_new a : own (fsys s') ip' a -> own (fsys s) ip a \/ used (fsys s) a = false;
  gr_used c : 0 <= c < sb_size (sb (fsys s)) -> used (fsys s) c = true -> used (fsys s') c = true;
  gr_block k : 0 <= k < sb_size (sb (fsys s)) -> (forall c, 0 <= c < sb_size (sb (fsys s)) -> BBLOCK c (sb (fsys s)) <> k) ->
    used (fsys s) k = true -> ~ own (fsys s) ip k -> block (fsys s') k = block (fsys s) k;
  gr_blks v : v ∈ blks' -> v ∈ blks \/ (exists c, 0 <= c < sb_size (sb (fsys s)) /\ v = BBLOCK c (sb (fsys s))) \/
    (v <> 0 /\ (v = ind_of ip' \/ exists bn, 0 <= bn < MAXFILE /\ T bn /\ v = baddr (fsys s') ip' bn)) }.

Lemma grown_own T i s ip blks s' ip' blks' a : grown T i s ip blks s' ip' blks' -> own (fsys s) ip a -> own (fsys s') ip' a.
Proof.
  intros G [Ha [->|(bn & Hbn & ->)]]; (split; [done|]).
  - left. by rewrite (gr_ind _ _ _ _ _ _ _ _ G).
  - right. exists bn. split; [done|]. by rewrite (gr_addr _ _ _ _ _ _ _ _ G).
Qed.

Lemma grown_refl T i s ip blks : txn me blks [] s -> layout (fsys s) -> ino_ok (fsys s) ip -> inodes (fsys s) !! i = Some ip ->
  grown T i s ip blks s ip blks.
Proof.
  intros Ht L Ho Hi. split; try done.
  - by destruct ip.
  - apply same_rest_refl.
  - by rewrite list_insert_id.
  - by left.
  - by left.
Qed.

Lemma grown_trans T i s1 ip1 b1 s2 ip2 b2 s3 ip3 b3 : ino_ok (fsys s1) ip1 ->
  grown T i s1 ip1 b1 s2 ip2 b2 -> grown T i s2 ip2 b2 s3 ip3 b3 -> grown T i s1 ip1 b1 s3 ip3 b3.
Proof.
  intros Ho1 G1 G2. pose proof (fun a => grown_own _ _ _ _ _ _ _ _ a G2) as Own2. destruct G1 as [? ? Ok1 Ip1 ? ? ? Sb1 Dk1 In1 Ad1 Ind1 New1 Us1 Bl1 Bk1].
  destruct G2 as [? ? Ok2 Ip2 ? ? ? Sb2 Dk2 In2 Ad2 Ind2 New2 Us2 Bl2 Bk2].
  rewrite Sb1, Dk1 in *. split; try done; try congruence.
  - rewrite Ip2. rewrite Ip1 at 1. by destruct ip1.
  - by eapply same_rest_trans.
  - by rewrite In2, In1, list_insert_insert_eq.
  - intros bn Hbn Hnz. rewrite Ad2, Ad1 by (done || by rewrite Ad1). done.
  - intros Hnz. rewrite Ind2, Ind1 by (done || by rewrite Ind1). done.
  - intros a Ha. destruct (New2 a Ha) as [Ha2|Hf]; [by apply New1|]. right.
    destruct (used (fsys s1) a) eqn:U; [|done]. rewrite Us1 in Hf; [done| |done].
    destruct (io_own _ _ Ok2 a Ha) as [[Hr _ _ _] _]. rewrite Sb2 in Hr. lia.
  - auto.
  - intros k Hk Hc Hu Hno. rewrite Bl2, Bl1; try done.
    + by apply Us1.
    + intros Ho2. destruct (New1 k Ho2); [done|congruence].
  - intros v Hv. destruct (Bk2 v Hv) as [Hv2|[Hv2|Hv2]]; [|by right; left|by right; right].
    destruct (Bk1 v Hv2) as [?|[?|(Hnz & Hv1)]]; [by left|by right; left|]. right. right. split; [done|].
    destruct Hv1 as [->|(bn & Hbn & HT & ->)]; [left; by rewrite Ind2|right; exists bn; by rewrite Ad2].
Qed.

(** ** Allocation for an inode *)

(** There are at least [n] free blocks, one less if the indirect block is there. *)
Definition nfree f (n : nat) : Prop :=
  exists l, NoDup l /\ (n <= List.length l)%nat /\ Forall (fun b => 0 <= b < sb_size (sb f) /\ used f b = false) l.
Definition avail f ip (n : nat) : Prop := exists k, nfree f k /\ (n <= k + (if (ind_of ip =? 0)%Z then 0 else 1))%nat.

Lemma nfree_taken blks hs s b s' n : layout (fsys s) -> taken me blks hs s b s' -> nfree (fsys s) (S n) -> nfree (fsys s') n.
Proof.
  intros L T (l & Hnd & Hl & Hf). pose proof (taken_used _ _ _ _ _ _ L T) as [_ U].
  destruct T as [Hb _ _ _ (bs & _ & E)]. pose proof (ef_sb _ _ _ E) as Es.
  exists (filter (fun c => c <> b) l). split; [by apply NoDup_filter|]. split; [pose proof (length_filter_ne b l Hnd); lia|].
  apply Forall_forall. intros c [Hne Hin]%list_elem_of_filter.
  pose proof (proj1 (Forall_forall _ _) Hf c Hin) as [Hr Hu]. rewrite Es. split; [done|]. rewrite U by done. by rewrite decide_False.
Qed.

Lemma nfree_other s ws s' n : layout (fsys s) -> effect s ws s' ->
  (forall c, 0 <= c < sb_size (sb (fsys s)) -> BBLOCK c (sb (fsys s)) ∉ ws.*1) -> nfree (fsys s) n -> nfree (fsys s') n.
Proof.
  intros L E Hws (l & N1 & N2 & N3). destruct (used_other s ws s' L E Hws) as [_ U]. exists l. split; [done|]. split; [done|].
  eapply Forall_impl; [exact N3|]. intros c [Hc Hu]. rewrite (ef_sb _ _ _ E). split; [done|]. by rewrite U.
Qed.

Lemma nfree_exists s n : nfree (fsys s) (S n) -> exists b, 0 <= b < sb_size (sb (fsys s)) /\ used (fsys s) b = false.
Proof. intros ([|b l] & _ & Hl & Hf); [cbn in Hl; lia|]. exists b. by apply Forall_cons in Hf as [? _]. Qed.

(** The state of the file system with inode [i] changed. *)
Definition with_ino i ip s : kst (fsst D) := set_inodes (<[i := ip]> (inodes (fsys s))) s.

Lemma is_data_with_ino i ip s b : is_data (fsys (with_ino i ip s)) b <-> is_data (fsys s) b.
Proof. split; intros []; by split. Qed.

(** Block [a] was added to the inode, as its block [k] or as its indirect block. *)
Definition added (T : Z -> Prop) f ip f' ip' (a : Z) : Prop :=
  (exists k, 0 <= k < MAXFILE /\ T k /\ baddr f ip k = 0 /\ ind_of ip' = ind_of ip /\
     forall bn, 0 <= bn < MAXFILE -> baddr f' ip' bn = if decide (bn = k) then a else baddr f ip bn) \/
  (ind_of ip = 0 /\ ind_of ip' = a /\ forall bn, 0 <= bn < MAXFILE -> baddr f' ip' bn = baddr f ip bn).

Lemma added_own T f ip f' ip' a b : added T f ip f' ip' a -> own f' ip' b -> own f ip b \/ b = a.
Proof.
  intros [(k & Hk & _ & _ & Ei & Ad)|(_ & Ei & Ad)] [Hb [->|(bn & Hbn & ->)]].
  - left. rewrite Ei in *. by split; [|left].
  - rewrite Ad in * by done. case_decide; [by right|]. left. split; [done|]. right. eauto.
  - by right.
  - rewrite Ad in * by done. left. split; [done|]. right. eauto.
Qed.

Lemma added_ok T s ip s' ip' a :
  ino_ok (fsys s) ip -> added T (fsys s) ip (fsys s') ip' a -> i_dev ip' = 1 -> List.length (addrs ip') = S (Z.to_nat NDIRECT) ->
  used (fsys s) a = false -> is_data (fsys s) a ->
  (forall b, is_data (fsys s) b -> used (fsys s) b = true \/ b = a -> is_data (fsys s') b /\ used (fsys s') b = true) ->
  ino_ok (fsys s') ip'.
Proof.
  intros Ok A Hd Hl Hf Ha Hu. assert (Hna : ~ own (fsys s) ip a) by (intros [_ Hu']%(io_own _ _ Ok); congruence).
  assert (Hna' : forall bn, 0 <= bn < MAXFILE -> baddr (fsys s) ip bn = a -> a = 0).
  { intros bn Hbn E. destruct (decide (a = 0)); [done|]. destruct Hna. split; [done|]. right. eauto. }
  destruct (da_range _ _ Ha) as [Ha0 _]. split; [done|done|..].
  - intros b Hb. destruct (added_own _ _ _ _ _ _ _ A Hb) as [[H1 H2]%(io_own _ _ Ok)| ->]; auto.
  - intros bn bn' Hbn Hbn'. destruct A as [(k & Hk & _ & K0 & Ei & Ad)|(_ & Ei & Ad)]; rewrite !Ad by done.
    + repeat case_decide; subst; try done.
      * intros _ E. symmetry in E. apply Hna' in E; lia.
      * intros _ E. apply Hna' in E; lia.
      * by apply (io_inj _ _ Ok).
    + by apply (io_inj _ _ Ok).
  - intros bn Hbn. destruct A as [(k & Hk & _ & K0 & Ei & Ad)|(Ez & Ei & Ad)]; rewrite Ad, Ei by done.
    + case_decide; [|by apply (io_ind _ _ Ok)]. intros _ E. apply Hna. split; [lia|]. by left.
    + intros Hnz E. apply Hna' in E; [lia|done].
Qed.

(** One block [a] was allocated and entered into the inode. *)
Record alloc_step (T : Z -> Prop) i s ip blks ws s' ip' blks' (a : Z) : Prop := Alloc_step {
  as_layout : layout (fsys s);
  as_ok : ino_ok (fsys s) ip;
  as_txn : txn me blks' [] s';
  as_layout' : layout (fsys s');
  as_ip : ip' = set_addrs (addrs ip') ip;
  as_len : List.length (addrs ip') = S (Z.to_nat NDIRECT);
  as_effect : effect (with_ino i ip' s) ws s';
  as_range : 0 <= a < sb_size (sb (fsys s));
  as_free : used (fsys s) a = false;
  as_used c : 0 <= c < sb_size (sb (fsys s)) -> used (fsys s') c = if decide (c = a) then true else used (fsys s) c;
  as_added : added T (fsys s) ip (fsys s') ip' a;
  as_zero : block (fsys s') a = zeros;
  as_ws v : v ∈ ws.*1 -> (exists c, 0 <= c < sb_size (sb (fsys s)) /\ v = BBLOCK c (sb (fsys s))) \/ v = a \/ (v <> 0 /\ v = ind_of ip');
  as_blks v : v ∈ blks' -> v ∈ blks \/ v ∈ ws.*1 }.

Lemma step_grown T i s ip blks ws s' ip' blks' a :
  alloc_step T i s ip blks ws s' ip' blks' a -> grown T i s ip blks s' ip' blks'.
Proof.
  intros [L Ok Ht L' Eip Hlen E Ha Hf Hu A Z Hws Hbl]. pose proof (lo_free _ L a Ha Hf) as Hda.
  assert (Hd : forall b, is_data (fsys s') b <-> is_data (fsys s) b) by (intros b; by rewrite (is_data_effect _ _ _ _ E), is_data_with_ino).
  assert (Ok' : ino_ok (fsys s') ip').
  { eapply added_ok; [done|exact A|rewrite Eip; apply Ok|done|done|done|]. intros b Hb Hor. split; [by apply Hd|].
    rewrite Hu by (destruct (da_range _ _ Hb); lia). case_decide; [done|]. by destruct Hor. }
  split; try done; try apply E.
  - eapply same_rest_trans; [apply (same_rest_fsys s (fsys (with_ino i ip' s)))|apply E].
  - intros bn Hbn Hnz. destruct A as [(k & _ & _ & K0 & _ & Ad)|(_ & _ & Ad)]; rewrite Ad by done; [|done].
    case_decide; [congruence|done].
  - intros Hnz. by destruct A as [(k & _ & _ & _ & Ei & _)|(Ez & _)].
  - intros b Hb. destruct (added_own _ _ _ _ _ _ _ A Hb) as [?| ->]; [by left|by right].
  - intros c Hc Hcu. rewrite Hu by done. by case_decide.
  - intros k Hk Hnb Hku Hno. destruct (lo_size _ L). rewrite (ef_block _ _ _ E) by (cbn; lia). rewrite apply_writes_other; [done|].
    intros [(c & Hc & ->)|[->|[Hnz ->]]]%Hws; [by destruct (Hnb c)|congruence|].
    destruct (added_own _ _ _ _ _ _ (ind_of ip') A) as [Ho|Ho]; [by split; [|left]|done|]. rewrite Ho in Hku. congruence.
  - intros v [Hv|Hv]%Hbl; [by left|]. right. apply Hws in Hv as [Hv|[->|Hv]]; [by left| |right].
    + right. destruct (da_range _ _ Hda). split; [lia|]. destruct A as [(k & Hk & HT & _ & _ & Ad)|(_ & Ei & _)]; [|by left].
      right. exists k. split; [done|]. split; [done|]. rewrite Ad by done. by rewrite decide_True.
    + destruct Hv as [H1 H2]. split; [done|]. by left.
Qed.

(** The new block is zeroed where the file had a hole: the contents stay the same. *)
Lemma step_bytes T i s ip blks ws s' ip' blks' a o :
  alloc_step T i s ip blks ws s' ip' blks' a -> 0 <= o < MAXFILE * BSIZE -> file_byte (fsys s') ip' o = file_byte (fsys s) ip o.
Proof.
  intros [L Ok Ht L' Eip Hlen E Ha Hf Hu A Z Hws Hbl] Ho.
  assert (Hbn : 0 <= o / BSIZE < MAXFILE) by (unfold BSIZE in *; divlia). set (bn := o / BSIZE) in *.
  assert (Hz : forall b, b = a -> byte_at (block (fsys s') b) (o mod BSIZE) = 0).
  { intros b ->. rewrite Z. unfold byte_at, zeros. destruct (replicate _ _ !! _) eqn:R; [|done].
    by apply lookup_replicate in R as [-> _]. }
  assert (Hk : baddr (fsys s) ip bn <> 0 -> block (fsys s') (baddr (fsys s) ip bn) = block (fsys s) (baddr (fsys s) ip bn)).
  { intros Hnz. destruct (io_own _ _ Ok (baddr (fsys s) ip bn)) as [Hd Hus]; [split; [done|]; right; eauto|].
    rewrite (ef_block _ _ _ E) by apply Hd. apply apply_writes_other. intros [(c & Hc & Ec)|[Ec|[Hi Ec]]]%Hws.
    - by destruct (da_bmap _ _ Hd c Hc).
    - congruence.
    - destruct A as [(k & _ & _ & _ & Ei & _)|(_ & Ei & _)]; [|congruence]. destruct (io_ind _ _ Ok bn Hbn Hnz). congruence. }
  unfold file_byte. fold bn. destruct A as [(k & Hk' & _ & K0 & Ei & Ad)|(Ez & Ei & Ad)]; rewrite Ad by done.
  - case_decide as Ek; [|destruct (_ =? 0) eqn:E0; [done|]; rewrite Hk by (by apply Z.eqb_neq); done].
    rewrite Hz, Ek, K0 by done. by destruct (a =? 0).
  - destruct (_ =? 0) eqn:E0; [done|]. rewrite Hk by (by apply Z.eqb_neq). done.
Qed.

(** ** bmap *)

Lemma view_with_ino blks hs i ip s : view me blks hs s -> view me blks hs (with_ino i ip s).
Proof.
  intros [Henv [order Hbc] Hh Hd].
  split; [eapply env_same; [exact Henv|apply same_rest_fsys]|exists order; by eapply bc_same_bufs; [| |exact Hbc]|exact Hh|exact Hd].
Qed.

Lemma txn_with_ino blks hs i ip s : txn me blks hs s -> txn me blks hs (with_ino i ip s).
Proof.
  intros [V A]. split; try done; [by apply view_with_ino|]. destruct A. by split.
Qed.

Lemma effect_with_ino i ip s ws s' : effect s ws s' -> effect (with_ino i ip s) ws (with_ino i ip s').
Proof.
  intros []. split; try done; [|cbn; by rewrite ef_inodes]. destruct ef_rest. by split.
Qed.

Lemma layout_with_ino i ip s : layout (fsys s) -> layout (fsys (with_ino i ip s)).
Proof. intros []. split; try done. intros b Hb Hf. apply is_data_with_ino. by apply lo_free. Qed.

Lemma taken_ws blks hs s a s' v : taken me blks hs s a s' -> v ∈ record_blk a (record_blk (BBLOCK a (sb (fsys s))) blks) ->
  v ∈ blks \/ v = BBLOCK a (sb (fsys s)) \/ v = a.
Proof. intros _. rewrite !elem_of_record_blk. tauto. Qed.

(** A block was allocated for slot [k] of the inode. *)
Lemma slot_step T i s ip blks k a s1 :
  layout (fsys s) -> ino_ok (fsys s) ip -> taken me blks [] s a s1 -> 0 <= k <= NDIRECT -> (k < NDIRECT -> T k) ->
  default 0 (addrs ip !! Z.to_nat k) = 0 ->
  let ip' := set_addrs (<[Z.to_nat k := a]> (addrs ip)) ip in
  exists ws, alloc_step T i s ip blks ws (with_ino i ip' s1) ip'
    (record_blk a (record_blk (BBLOCK a (sb (fsys s))) blks)) a.
Proof.
  intros L Ok Tk Hk HT Hold ip'. pose proof (taken_used _ _ _ _ _ _ L Tk) as [L1 U1]. pose proof Tk as [Ha Hf _ Ht1 (bs & _ & E)].
  pose proof (lo_free _ L a Ha Hf) as Hd. pose proof (da_log _ _ Hd) as [Had _]. pose proof (io_len _ _ Ok) as Hlen.
  eexists. split; [done|done|by apply txn_with_ino|by apply layout_with_ino|done| |by apply effect_with_ino|done|done|exact U1| | | |].
  - cbn. by rewrite length_insert.
  - assert (Hi : k <> NDIRECT -> ind_of ip' = ind_of ip).
    { intros Hne. unfold ind_of. cbn [addrs ip' set_addrs]. rewrite list_lookup_insert_ne by (unfold NDIRECT in *; lia). done. }
    assert (Hb : ind_of ip <> 0 -> block (fsys (with_ino i ip' s1)) (ind_of ip) = block (fsys s) (ind_of ip)).
    { intros Hnz. destruct (io_own _ _ Ok (ind_of ip)) as [Hdi Hui]; [by split; [|left]|].
      change (block (fsys (with_ino i ip' s1))) with (block (fsys s1)).
      rewrite (ef_block _ _ _ E) by apply Hdi. cbn. rewrite !decide_False; [done| |congruence]. symmetry. by apply (da_bmap _ _ Hdi). }
    destruct (decide (k = NDIRECT)) as [->|Hne].
    + right. fold (ind_of ip) in Hold. assert (Ei : ind_of ip' = a).
      { unfold ind_of. cbn [addrs ip' set_addrs]. by rewrite list_lookup_insert_eq by (rewrite Hlen; unfold NDIRECT; lia). }
      split; [done|]. split; [done|]. intros bn Hbn. unfold baddr. rewrite Hold, Ei. cbn [Z.eqb].
      destruct (bn <? NDIRECT) eqn:Hlt; [apply Z.ltb_lt in Hlt; cbn; rewrite list_lookup_insert_ne by (unfold NDIRECT in *; lia); done|].
      destruct (da_range _ _ Hd). rewrite (proj2 (Z.eqb_neq a 0)) by lia. apply Z.ltb_ge in Hlt.
      change (block (fsys (with_ino i ip' s1))) with (block (fsys s1)).
      rewrite (ef_block _ _ _ E) by done. cbn. rewrite decide_True by done. apply word_zeros.
      unfold MAXFILE, NINDIRECT, NDIRECT, BSIZE in *. split; [lia|]. change (512 / 4) with 128 in *. lia.
    + left. exists k. assert (Hk' : k < NDIRECT) by (unfold NDIRECT in *; lia). assert (Hkm : 0 <= k < MAXFILE) by (unfold MAXFILE, NINDIRECT, NDIRECT, BSIZE in *; change (512 / 4) with 128; lia).
      split; [done|]. split; [auto|]. split; [unfold baddr; rewrite (proj2 (Z.ltb_lt _ _)) by done; done|]. split; [auto|].
      intros bn Hbn. unfold baddr. rewrite Hi by done. destruct (bn <? NDIRECT) eqn:Hlt.
      * apply Z.ltb_lt in Hlt. cbn [addrs ip' set_addrs]. case_decide as Eb; [subst bn; by rewrite list_lookup_insert_eq by lia|].
        by rewrite list_lookup_insert_ne by lia.
      * apply Z.ltb_ge in Hlt. rewrite decide_False by lia. destruct (ind_of ip =? 0) eqn:E0; [done|].
        rewrite Hb by (by apply Z.eqb_neq). done.
  - change (block (fsys (with_ino i ip' s1))) with (block (fsys s1)). rewrite (ef_block _ _ _ E) by done. cbn. by rewrite decide_True.
  - intros v Hv. cbn in Hv. rewrite elem_of_cons, list_elem_of_singleton in Hv. destruct Hv as [->| ->]; [left; eauto|by right; left].
  - intros v Hv. destruct (taken_ws _ _ _ _ _ _ Tk Hv) as [?|[->| ->]]; [by left|right; left|right; right; left].
Qed.

Lemma effect_same_ino i ip s ws s' : inodes (fsys s) !! i = Some ip -> effect s ws s' -> effect (with_ino i ip s) ws s'.
Proof.
  intros Hi []. split; try done; [destruct ef_rest; by split|]. cbn. by rewrite list_insert_id.
Qed.

Lemma entry_addr f ip k m a : ind_of ip <> 0 -> 0 <= k < NINDIRECT -> mem_ok m -> 0 <= a < 4294967296 ->
  block f (ind_of ip) = bytes (st32 m (4 * k) a) -> baddr f ip (NDIRECT + k) = a.
Proof.
  intros Hnz Hk Hm Ha E. unfold baddr. rewrite (proj2 (Z.ltb_ge _ _)), (proj2 (Z.eqb_neq _ _)), Z.add_simpl_l, E by lia.
  unfold NINDIRECT, BSIZE in Hk. change (512 / 4) with 128 in Hk.
  rewrite word_bytes by (lia || unfold BSIZE; lia || by apply mem_ok_st32). by apply ld32_st32_eq.
Qed.

Lemma entry_added T f f' ip k m a :
  ind_of ip <> 0 -> 0 <= k < NINDIRECT -> T (NDIRECT + k) -> mem_ok m -> 0 <= a < 4294967296 -> ld32 m (4 * k) = 0 ->
  bytes m = block f (ind_of ip) -> block f' (ind_of ip) = bytes (st32 m (4 * k) a) -> added T f ip f' ip a.
Proof.
  intros Hnz Hk HT Hm Ha Hz Em Hind. left. exists (NDIRECT + k). unfold MAXFILE, NINDIRECT, BSIZE in *. change (512 / 4) with 128 in *.
  assert (Hw : forall j, 0 <= j < 128 -> word (block f (ind_of ip)) (4 * j) = ld32 m (4 * j)).
  { intros j Hj. rewrite <- Em. apply word_bytes; [done|lia|unfold BSIZE; lia]. }
  split; [unfold NDIRECT; lia|]. split; [done|]. unfold baddr. rewrite (proj2 (Z.eqb_neq (ind_of ip) 0)) by done.
  split; [rewrite (proj2 (Z.ltb_ge _ _)), Z.add_simpl_l, Hw by lia; done|]. split; [done|].
  intros bn Hbn. destruct (bn <? NDIRECT) eqn:Hlt; [apply Z.ltb_lt in Hlt; rewrite decide_False by lia; done|].
  apply Z.ltb_ge in Hlt. rewrite Hind, Hw, word_bytes by (lia || unfold BSIZE; lia || by apply mem_ok_st32). case_decide as Ej.
  - replace (bn - NDIRECT) with k by lia. by rewrite ld32_st32_eq.
  - by rewrite ld32_st32_ne by lia.
Qed.

(** A block was allocated for entry [k] of the indirect block. *)
Lemma entry_step T i s ip blks k m bp a s1 s2 s3 :
  layout (fsys s) -> ino_ok (fsys s) ip -> inodes (fsys s) !! i = Some ip -> ind_of ip <> 0 -> 0 <= k < NINDIRECT -> T (NDIRECT + k) ->
  mem_ok m -> bytes m = block (fsys s) (ind_of ip) -> ld32 m (4 * k) = 0 -> effect s [] s1 ->
  taken me blks [Hbuf bp (ind_of ip) m] s1 a s2 -> effect s2 [(ind_of ip, bytes (st32 m (4 * k) a))] s3 ->
  txn me (record_blk (ind_of ip) (record_blk a (record_blk (BBLOCK a (sb (fsys s1))) blks))) [] s3 ->
  baddr (fsys s3) ip (NDIRECT + k) = a /\
  exists ws, alloc_step T i s ip blks ws s3 ip (record_blk (ind_of ip) (record_blk a (record_blk (BBLOCK a (sb (fsys s1))) blks))) a.
Proof.
  intros L Ok Hino Hnz Hk HT Hm Em Hz E1 Tk E3 Ht3. set (ind := ind_of ip) in *.
  destruct (io_own _ _ Ok ind) as [Hdi Hui]; [by split; [|left]|]. change (512 / 4) with 128 in *.
  assert (L1 : layout (fsys s1)) by (apply (used_other s [] s1); [done|done|intros c _; apply not_elem_of_nil]).
  pose proof (used_other s [] s1 L E1 ltac:(intros c _; apply not_elem_of_nil)) as [_ U1].
  pose proof (taken_used _ _ _ _ _ _ L1 Tk) as [L2 U2]. pose proof Tk as [Ha Hf _ _ (bs & _ & E2)].
  rewrite (ef_sb _ _ _ E1) in *. rewrite U1 in Hf by done.
  assert (E : effect s [(BBLOCK a (sb (fsys s)), bs); (a, zeros); (ind, bytes (st32 m (4 * k) a))] s3).
  { apply (effect_trans s [] s1 _ _ E1), (effect_trans s1 [_; _] s2 _ _ E2 E3). }
  assert (Esb2 : sb (fsys s2) = sb (fsys s)) by (rewrite (ef_sb _ _ _ E2); apply E1).
  pose proof (used_other s2 _ s3 L2 E3) as [L3 U3].
  { intros c Hc. cbn. rewrite list_elem_of_singleton. rewrite Esb2 in *. by apply (da_bmap _ _ Hdi). }
  pose proof (lo_free _ L a Ha Hf) as Hda. pose proof (da_log _ _ Hda) as [Had _]. pose proof (da_log _ _ Hdi) as [Hid _].
  assert (Hai : a <> ind) by congruence. assert (Hind : block (fsys s3) ind = bytes (st32 m (4 * k) a)).
  { rewrite (ef_block _ _ _ E) by done. cbn. by rewrite decide_True. }
  assert (Ha32 : 0 <= a < 4294967296) by (pose proof (txn_dsize _ _ _ _ Ht3) as Hs; rewrite (ef_disk _ _ _ E) in Hs; lia).
  split; [by eapply entry_addr|]. eexists. split; [done|done|done|done|by destruct ip|apply Ok|by eapply effect_same_ino|done|done| | | | |].
  - intros c Hc. rewrite U3 by (by rewrite Esb2). rewrite U2 by done. by rewrite U1.
  - by eapply (entry_added T _ _ ip k m a).
  - rewrite (ef_block _ _ _ E) by done. cbn. by rewrite decide_False, decide_True.
  - intros v Hv. cbn in Hv. rewrite !elem_of_cons in Hv. destruct Hv as [->|[->|[->|[]%not_elem_of_nil]]]; [left; eauto|by right; left|by right; right].
  - intros v. rewrite !elem_of_record_blk. cbn. rewrite !elem_of_cons. tauto.
Qed.

(** Writes to blocks of the file. *)
Lemma grown_write T i s ip blks ws s' blks' :
  layout (fsys s) -> ino_ok (fsys s) ip -> inodes (fsys s) !! i = Some ip -> effect s ws s' -> txn me blks' [] s' ->
  (forall v, v ∈ ws.*1 -> v <> 0 /\ exists bn, 0 <= bn < MAXFILE /\ T bn /\ v = baddr (fsys s) ip bn) ->
  (forall v, v ∈ blks' -> v ∈ blks \/ v ∈ ws.*1) ->
  grown T i s ip blks s' ip blks' /\ (forall bn, 0 <= bn < MAXFILE -> baddr (fsys s') ip bn = baddr (fsys s) ip bn) /\
  forall c, 0 <= c < sb_size (sb (fsys s)) -> used (fsys s') c = used (fsys s) c.
Proof.
  intros L Ok Hi E Ht Hws Hbl.
  assert (Hown : forall v, v ∈ ws.*1 -> own (fsys s) ip v) by (intros v (Hv & bn & Hbn & _ & ->)%Hws; split; [done|right; eauto]).
  destruct (used_other s ws s' L E) as [L' U]; [intros c Hc Hv; by eapply (da_bmap _ _ (proj1 (io_own _ _ Ok _ (Hown _ Hv))))|].
  assert (Hb : forall bn, 0 <= bn < MAXFILE -> baddr (fsys s') ip bn = baddr (fsys s) ip bn).
  { intros bn Hbn. unfold baddr. destruct (bn <? NDIRECT); [done|]. destruct (ind_of ip =? 0) eqn:Ez; [done|]. apply Z.eqb_neq in Ez.
    rewrite (ef_block _ _ _ E), apply_writes_other; [done| |].
    - intros (_ & bn' & Hbn' & _ & Ei)%Hws. by eapply (io_ind _ _ Ok bn'); [|rewrite <- Ei|].
    - apply (da_log _ _ (proj1 (io_own _ _ Ok (ind_of ip) ltac:(by split; [|left])))). }
  assert (Ho : forall a, own (fsys s') ip a <-> own (fsys s) ip a).
  { intros a. unfold own. split; intros [Ha [Hi'|(bn & Hbn & ->)]]; (split; [done|]); [by left|right; exists bn; by rewrite Hb in *..|by left|right; exists bn; by rewrite Hb in *]. }
  split; [|done]. split; try done; try apply E.
  - destruct Ok. split; try done.
    + intros a [H1 H2]%Ho%io_own0. split; [by apply (is_data_effect _ _ _ _ E)|]. rewrite U; [done|]. destruct (da_range _ _ H1). lia.
    + intros bn bn' Hbn Hbn'. rewrite !Hb by done. auto.
    + intros bn Hbn. rewrite Hb by done. auto.
  - by destruct ip.
  - rewrite (ef_inodes _ _ _ E). by rewrite list_insert_id.
  - intros bn Hbn _. by apply Hb.
  - intros a Ha%Ho. by left.
  - intros c Hc. by rewrite U.
  - intros k Hk Hnb _ Hno. destruct (lo_size _ L). rewrite (ef_block _ _ _ E) by lia. rewrite apply_writes_other; [done|]. intros Hv. by apply Hno, Hown.
  - intros v [?|Hv]%Hbl; [by left|]. right. right. apply Hws in Hv as (Hv & bn & Hbn & HT & Ev). split; [done|]. right.
    exists bn. by rewrite Hb.
Qed.

(** The file was extended and kept its contents; [n] more blocks are available. *)
Record extended (T : Z -> Prop) i s ip blks n s' ip' blks' : Prop := Extended {
  ex_grown : grown T i s ip blks s' ip' blks';
  ex_bytes o : 0 <= o < MAXFILE * BSIZE -> file_byte (fsys s') ip' o = file_byte (fsys s) ip o;
  ex_avail : avail (fsys s') ip' n }.

Lemma extended_trans T i s1 ip1 b1 n2 s2 ip2 b2 n3 s3 ip3 b3 : ino_ok (fsys s1) ip1 ->
  extended T i s1 ip1 b1 n2 s2 ip2 b2 -> extended T i s2 ip2 b2 n3 s3 ip3 b3 -> extended T i s1 ip1 b1 n3 s3 ip3 b3.
Proof.
  intros Ok [G1 B1 _] [G2 B2 A2]. split; [by eapply grown_trans| |done]. intros o Ho. by rewrite B2, B1.
Qed.

Lemma extended_same T i s ip blks n s' : layout (fsys s) -> ino_ok (fsys s) ip -> inodes (fsys s) !! i = Some ip ->
  effect s [] s' -> txn me blks [] s' -> avail (fsys s) ip n ->
  extended T i s ip blks n s' ip blks /\ forall bn, 0 <= bn < MAXFILE -> baddr (fsys s') ip bn = baddr (fsys s) ip bn.
Proof.
  intros L Ok Hi E Ht (k & Hfr & Hk).
  destruct (grown_write T i s ip blks [] s' blks) as (G & Hb & U); try done; [by intros v []%not_elem_of_nil|by left|].
  split; [|done]. split; [done| |].
  - intros o Ho. unfold file_byte. cbv zeta. rewrite Hb by (unfold BSIZE in *; divlia). destruct (baddr (fsys s) ip (o / BSIZE) =? 0) eqn:Ez; [done|].
    apply Z.eqb_neq in Ez. rewrite (ef_block _ _ _ E); [done|].
    apply (da_log _ _ (proj1 (io_own _ _ Ok _ ltac:(split; [exact Ez|right; eexists; split; [|reflexivity]; unfold BSIZE in *; divlia])))).
  - exists k. split; [|done]. eapply nfree_other; [done|exact E|intros c _; apply not_elem_of_nil|done].
Qed.

Lemma avail_le f ip n n' : (n' <= n)%nat -> avail f ip n -> avail f ip n'.
Proof. intros Hle (k & Hk & Hn). exists k. split; [done|lia]. Qed.

Lemma alloc_extended T i s ip blks ws s' ip' blks' a n :
  alloc_step T i s ip blks ws s' ip' blks' a -> avail (fsys s') ip' n -> extended T i s ip blks n s' ip' blks'.
Proof. intros A Hv. split; [by eapply step_grown|intros o Ho; by eapply step_bytes|done]. Qed.

Lemma wp_bmap_slot T i s ip blks k n :
  txn me blks [] s -> layout (fsys s) -> ino_ok (fsys s) ip -> inodes (fsys s) !! i = Some ip -> 0 <= k <= NDIRECT ->
  (k < NDIRECT -> T k) -> Z.of_nat (List.length blks) + 2 <= MAXOPBLOCKS -> avail (fsys s) ip (S (S n)) ->
  wp (bmap_slot fuel i k) (fun a s' => exists ip' blks',
    extended T i s ip blks (if decide (k = NDIRECT) then S (S n) else S n) s' ip' blks' /\
    default 0 (addrs ip' !! Z.to_nat k) = a /\ a <> 0 /\ (List.length blks' <= List.length blks + 2)%nat) s.
Proof.
  intros Ht L Ok Hi Hk HT Hl Hav. pose proof (io_len _ _ Ok) as Hlen. unfold bmap_slot, addr_get.
  apply wp_bind, wp_bind. eapply wp_result; [by apply run_get_inode|]. cbv beta.
  destruct (addrs ip !! Z.to_nat k) as [old|] eqn:Eo; [|apply lookup_ge_None in Eo; unfold NDIRECT in *; lia].
  apply wp_ret. cbv beta. destruct (old =? 0) eqn:Ez.
  - apply Z.eqb_eq in Ez. subst old. apply wp_bind. eapply wp_result; [by apply run_get_inode|]. cbv beta. rewrite (io_dev _ _ Ok).
    destruct Hav as (fr & Hfr & Hn). destruct fr as [|fr]; [destruct (ind_of ip =? 0); lia|].
    apply wp_bind. eapply wp_mono; [apply wp_balloc; [done|exact Ht|done| |done|cbn; lia|by eapply nfree_exists]|].
    { intros b Hb. split; [apply not_elem_of_nil|intros _; apply not_elem_of_nil]. }
    intros a s1 Tk. cbv beta in Tk. destruct (slot_step T i s ip blks k a s1) as [ws St]; try done; [by rewrite Eo|].
    pose proof (nfree_taken _ _ _ _ _ _ L Tk Hfr) as Hfr'. pose proof Tk as [_ _ _ _ (bs & _ & E)].
    apply wp_bind. unfold addr_set. eapply wp_result; [apply run_upd_inode; rewrite (ef_inodes _ _ _ E); exact Hi|]. cbv beta.
    apply wp_ret. fold (with_ino i (set_addrs (<[Z.to_nat k := a]> (addrs ip)) ip) s1).
    eexists _, _. split; [eapply alloc_extended; [exact St|]|].
    + exists fr. split; [exact Hfr'|]. case_decide as Ek.
      * subst k. unfold ind_of in *. rewrite Eo in Hn. cbn [addrs set_addrs] in *.
        rewrite list_lookup_insert_eq by (rewrite Hlen; lia). cbn in Hn |- *.
        destruct (da_range _ _ (lo_free _ L a (tk_range _ _ _ _ _ _ Tk) (tk_free _ _ _ _ _ _ Tk))).
        rewrite (proj2 (Z.eqb_neq a 0)) by lia. lia.
      * unfold ind_of in *. cbn [addrs set_addrs]. rewrite list_lookup_insert_ne by (unfold NDIRECT in *; lia).
        destruct (default 0 (addrs ip !! Z.to_nat NDIRECT) =? 0); lia.
    + cbn [addrs set_addrs]. rewrite list_lookup_insert_eq by (unfold NDIRECT in *; lia).
      destruct (da_range _ _ (lo_free _ L a (tk_range _ _ _ _ _ _ Tk) (tk_free _ _ _ _ _ _ Tk))).
      pose proof (length_record_blk a (record_blk (BBLOCK a (sb (fsys s))) blks)).
      pose proof (length_record_blk (BBLOCK a (sb (fsys s))) blks). split_and!; [done|lia|lia].
  - apply Z.eqb_neq in Ez. apply wp_ret. exists ip, blks. rewrite Eo. split; [|split_and!; [done|done|lia]].
    apply (extended_same T i s ip blks _ s); try done; [apply effect_refl|]. eapply avail_le; [|exact Hav]. case_decide; lia.
Qed.

(** Allocation of a block for an entry of the indirect block, which is held. *)
Lemma wp_entry_alloc T i s ip blks k n bp m s1 {A} (K : Z -> M (kst (fsst D)) A) Q :
  layout (fsys s) -> ino_ok (fsys s) ip -> inodes (fsys s) !! i = Some ip -> ind_of ip <> 0 -> 0 <= k < NINDIRECT -> T (NDIRECT + k) ->
  Z.of_nat (List.length blks) + 2 < MAXOPBLOCKS -> avail (fsys s) ip (S (S n)) ->
  txn me blks [Hbuf bp (ind_of ip) m] s1 -> effect s [] s1 -> mem_ok m -> bytes m = block (fsys s) (ind_of ip) -> ld32 m (4 * k) = 0 ->
  (forall a s' ip' blks', extended T i s ip blks (S n) s' ip' blks' -> baddr (fsys s') ip' (NDIRECT + k) = a -> a <> 0 -> wp (K a) Q s') ->
  wp (addr ← (addr ← balloc fuel 1; upd_buf bp (fun x => set_b_data (st32 (data x) (4 * k) addr) x);; log_write bp;; mret addr);
      brelse bp;; K addr) Q s1.
Proof.
  intros L Ok Hi Hnz Hk HT Hl (fr & Hfr & Hn) Ht1 E1 Hm Em Ez HK. rewrite (proj2 (Z.eqb_neq (ind_of ip) 0)) in Hn by done.
  destruct (io_own _ _ Ok (ind_of ip)) as [Hdi Hui]; [by split; [|left]|]. destruct fr as [|fr]; [lia|].
  destruct (used_other s [] s1 L E1) as [L1 U1]; [intros c _; apply not_elem_of_nil|].
  assert (Hfr1 : nfree (fsys s1) (S fr)) by (eapply nfree_other; [exact L|exact E1|intros c _; apply not_elem_of_nil|done]).
  apply wp_bind, wp_bind. eapply wp_mono; [apply wp_balloc; [done|exact Ht1|done| |lia|cbn; lia|by eapply nfree_exists]|].
  { intros b Hb. rewrite (ef_sb _ _ _ E1) in *. cbn. rewrite !list_elem_of_singleton. split; [by apply (da_bmap _ _ Hdi)|].
    intros Hu ->. rewrite U1 in Hu by done. congruence. }
  intros a s2 Tk. cbv beta in Tk. pose proof (taken_used _ _ _ _ _ _ L1 Tk) as [L2 _]. pose proof Tk as [Ha Hf _ Ht2 (bs & _ & E2)].
  pose proof (length_record_blk a (record_blk (BBLOCK a (sb (fsys s1))) blks)).
  pose proof (length_record_blk (BBLOCK a (sb (fsys s1))) blks).
  eapply (wp_txn_change me _ _ bp (ind_of ip) m); [exact Ht2|lia| |by apply mem_ok_st32|by intros y ->|].
  { rewrite (outside_effect _ _ _ _ E2), (outside_effect _ _ _ _ E1). apply Hdi. }
  intros s3 Ht3 E3. apply wp_ret. eapply (wp_txn_release me _ _ (Hbuf bp _ _)); [exact Ht3|]. intros s4 Ht4 E4.
  pose proof (effect_trans _ _ _ _ _ E3 E4) as E34. cbn [app] in E34.
  destruct (entry_step T i s ip blks k m bp a s1 s2 s4) as (Hadr & ws & St); try done.
  eapply HK; [eapply alloc_extended; [exact St|]|done|].
  - exists fr. rewrite (proj2 (Z.eqb_neq (ind_of ip) 0)) by done. split; [|lia].
    eapply nfree_other; [exact L2|exact E34| |exact (nfree_taken _ _ _ _ _ _ L1 Tk Hfr1)].
    intros c Hc. cbn. rewrite list_elem_of_singleton. rewrite (ef_sb _ _ _ E2), (ef_sb _ _ _ E1) in *. by apply (da_bmap _ _ Hdi).
  - pose proof (as_range _ _ _ _ _ _ _ _ _ _ St) as R. pose proof (as_free _ _ _ _ _ _ _ _ _ _ St) as F.
    destruct (da_range _ _ (lo_free _ L a R F)). lia.
Qed.

(** The entry of the indirect block for block [NDIRECT + k] of the file. *)
Lemma wp_bmap_entry T i s ip blks k n :
  txn me blks [] s -> layout (fsys s) -> ino_ok (fsys s) ip -> inodes (fsys s) !! i = Some ip -> ind_of ip <> 0 -> 0 <= k < NINDIRECT ->
  T (NDIRECT + k) -> Z.of_nat (List.length blks) + 2 < MAXOPBLOCKS -> avail (fsys s) ip (S (S n)) ->
  wp (bp ← bread fuel 1 (ind_of ip);
      x ← get_buf bp;
      let addr := ld32 (data x) (4 * k) in
      addr ← (if addr =? 0 then
                addr ← balloc fuel 1;
                upd_buf bp (fun x => set_b_data (st32 (data x) (4 * k) addr) x);;
                log_write bp;;
                mret addr
              else mret addr);
      brelse bp;;
      mret addr) (fun a s' => exists ip' blks',
    extended T i s ip blks (S n) s' ip' blks' /\ baddr (fsys s') ip' (NDIRECT + k) = a /\ a <> 0) s.
Proof.
  intros Ht L Ok Hi Hnz Hk HT Hl Hav. destruct (io_own _ _ Ok (ind_of ip)) as [Hdi Hui]; [by split; [|left]|].
  assert (Hbk : 0 <= NDIRECT + k < MAXFILE) by (unfold MAXFILE, NDIRECT in *; lia).
  eapply (wp_txn_read me _ fuel blks []); [done|exact Ht|apply Hdi|apply not_elem_of_nil|lia|cbn; lia|].
  intros bp m s1 Ht1 E1 Hm Em. eapply (wp_get_held me _ _ _ (Hbuf bp _ m)); [apply Ht1|left|]. cbn [h_data h_blk]. intros x -> _.
  cbv zeta. destruct (ld32 m (4 * k) =? 0) eqn:Ez.
  - apply Z.eqb_eq in Ez. eapply (wp_entry_alloc T i s ip blks k n bp m s1); try done.
    intros a s' ip' blks' X1 X2 X3. apply wp_ret. eauto.
  - apply Z.eqb_neq in Ez. apply wp_bind, wp_ret. eapply (wp_txn_release me _ _ (Hbuf bp _ m)); [exact Ht1|]. intros s2 Ht2 E2.
    apply wp_ret. pose proof (effect_trans _ _ _ _ _ E1 E2) as E. cbn in E.
    destruct (extended_same T i s ip blks (S n) s2) as [X Hb]; try done; [eapply avail_le; [|exact Hav]; lia|].
    exists ip, blks. split; [done|]. rewrite Hb by done. split; [|done].
    unfold baddr. rewrite (proj2 (Z.ltb_ge _ _)), (proj2 (Z.eqb_neq _ _)), Z.add_simpl_l, <- Em by lia.
    unfold NINDIRECT, BSIZE in Hk. change (512 / 4) with 128 in Hk. apply word_bytes; [done|lia|unfold BSIZE; lia].
Qed.

(** The disk block of block [bn] of the file, allocated if there is none. *)
Lemma wp_bmap T i s ip blks bn n :
  txn me blks [] s -> layout (fsys s) -> ino_ok (fsys s) ip -> inodes (fsys s) !! i = Some ip -> 0 <= bn < MAXFILE ->
  T bn -> Z.of_nat (List.length blks) + 4 < MAXOPBLOCKS -> avail (fsys s) ip (S (S n)) ->
  wp (bmap fuel i bn) (fun a s' => exists ip' blks',
    extended T i s ip blks (S n) s' ip' blks' /\ baddr (fsys s') ip' bn = a /\ a <> 0) s.
Proof.
  intros Ht L Ok Hi Hbn HT Hl Hav. unfold bmap. destruct (bn <? NDIRECT) eqn:Hlt.
  - apply Z.ltb_lt in Hlt. eapply wp_mono; [apply (wp_bmap_slot T i s ip blks bn n); try done; lia|].
    intros a s' (ip' & blks' & X & Ha & Hnz & _). cbv beta. rewrite decide_False in X by lia. exists ip', blks'. split; [done|].
    split; [|done]. unfold baddr. by rewrite (proj2 (Z.ltb_lt _ _)).
  - apply Z.ltb_ge in Hlt. cbv zeta. assert (Hk : 0 <= bn - NDIRECT < NINDIRECT) by (unfold MAXFILE in Hbn; lia).
    rewrite (proj2 (Z.ltb_lt _ _)) by lia.
    apply wp_bind. eapply wp_mono; [apply (wp_bmap_slot T i s ip blks NDIRECT n); try done; unfold NDIRECT; lia|].
    intros a s1 (ip1 & blks1 & X1 & Ha & Hnz & Hl1). cbv beta. rewrite decide_True in X1 by done. fold (ind_of ip1) in Ha. subst a.
    pose proof (ex_grown _ _ _ _ _ _ _ _ _ X1) as G1.
    assert (Hi1 : inodes (fsys s1) !! i = Some ip1).
    { rewrite (gr_inodes _ _ _ _ _ _ _ _ G1). apply list_lookup_insert_eq. by eapply lookup_lt_Some. }
    apply wp_bind. eapply wp_result; [by apply run_get_inode|]. cbv beta. rewrite (io_dev _ _ (gr_ok _ _ _ _ _ _ _ _ G1)).
    eapply wp_mono; [apply (wp_bmap_entry T i s1 ip1 blks1 (bn - NDIRECT) n); try done; try apply G1; try apply X1|].
    + by replace (NDIRECT + (bn - NDIRECT)) with bn by lia.
    + lia.
    + intros a s2 (ip2 & blks2 & X2 & Ha2 & Hnz2). cbv beta. exists ip2, blks2. split; [by eapply extended_trans|].
      by replace (NDIRECT + (bn - NDIRECT)) with bn in Ha2 by lia.
Qed.

End inode.
