(* ===== verification/FsFile.v ===== *)
(** * Reading and writing files (readi, writei and iupdate of fs.c)

    The loops of readi and writei over the blocks of a file, in terms of the contents
    [file_byte] of [FsInode].  A source or destination is a function on byte indices;
    the routines that access it must not change the state. *)

From Stdlib Require Import ZArith Lia.
From stdpp Require Import base tactics numbers option list strings zmap.
From S2P Require Import Prelude Memory Mmu StringOps Kalloc Vm Wmap Kernel Proc File Fork FsState Bio Log Txn Fs FsBlocks FsInode.

(** Bytes [a .. a+n) of the source [g] at offset [o] of [m]. *)
Fixpoint fill (g : Z -> Z) (m : Zmap Z) (o a : Z) (n : nat) : Zmap Z :=
  match n with O => m | S n' => fill g (st8 m o (g a)) (o + 1) (a + 1) n' end.

Lemma ld8_fill g n m o a j : ld8 (fill g m o a n) j = if decide (o <= j < o + Z.of_nat n) then u8 (g (a + (j - o))) else ld8 m j.
Proof.
  revert m o a. induction n as [|n IH]; intros m o a; cbn [fill]; [by rewrite decide_False by lia|].
  rewrite IH, ld8_st8. repeat case_decide; try lia; try done; [do 2 f_equal; lia|subst; do 2 f_equal; lia].
Qed.

Lemma mem_ok_fill g n m o a : mem_ok m -> mem_ok (fill g m o a n).
Proof. revert m o a. induction n as [|n IH]; intros m o a Hm; [done|]. by apply IH, mem_ok_st8. Qed.

(** The bytes of [f] from offset [o] on, stored into [d] from [a] on. *)
Fixpoint copyd {A} (st : A -> Z -> Z -> A) (f : Z -> Z) (d : A) (o a : Z) (n : nat) : A :=
  match n with O => d | S n' => copyd st f (st d a (f o)) (o + 1) (a + 1) n' end.

Lemma copyd_app {A} (st : A -> Z -> Z -> A) f n1 n2 d o a :
  copyd st f d o a (n1 + n2) = copyd st f (copyd st f d o a n1) (o + Z.of_nat n1) (a + Z.of_nat n1) n2.
Proof.
  revert d o a. induction n1 as [|n1 IH]; intros d o a; cbn [copyd Nat.add]; [f_equal; lia|]. rewrite IH. f_equal; lia.
Qed.

Lemma copyd_ext {A} (st : A -> Z -> Z -> A) f f' n d o o' a :
  (forall k, 0 <= k < Z.of_nat n -> f (o + k) = f' (o' + k)) -> copyd st f d o a n = copyd st f' d o' a n.
Proof.
  revert d o o' a. induction n as [|n IH]; intros d o o' a H; cbn [copyd]; [done|].
  assert (f o = f' o') as -> by (specialize (H 0); rewrite !Z.add_0_r in H; apply H; lia). apply IH. intros k Hk.
  specialize (H (k + 1)). rewrite <- !Z.add_assoc, (Z.add_comm 1 k). apply H. lia.
Qed.

Lemma ld8_copyd f n m o a j : ld8 (copyd st8 f m o a n) j = if decide (a <= j < a + Z.of_nat n) then u8 (f (o + (j - a))) else ld8 m j.
Proof.
  revert m o a. induction n as [|n IH]; intros m o a; cbn [copyd]; [by rewrite decide_False by lia|].
  rewrite IH, ld8_st8. repeat case_decide; try lia; try done; [do 2 f_equal; lia|subst; do 2 f_equal; lia].
Qed.

Section file.
Context {D : Type} {BD : BlockDevice D} {DK : Disk D} {DS : DevSw D} (me : Z) (fuel : nat) (Hfuel : enough fuel).
Implicit Types (s : kst (fsst D)) (f : fsst D) (ip : inode) (blks : list Z) (hs : list hbuf).

(** [ld] reads byte [k] of the source [g], whatever the file system has done since [s]. *)
Definition source s (ld : Z -> M (kst (fsst D)) Z) (g : Z -> Z) : Prop :=
  forall s' k, same_rest s s' -> ld k s' = Ret (g k) s'.

Lemma source_keep s s' ld g : source s ld g -> same_rest s s' -> source s' ld g.
Proof. intros H R t k R'. apply H. by eapply same_rest_trans. Qed.

(** The copy loop is one change of the buffer. *)
Lemma run_copy_from s ld g bp x o a n : source s ld g -> bufs (fsys s) !! bp = Some x ->
  copy_from ld bp o a n s = upd_buf bp (fun x => set_b_data (fill g (data x) o a n) x) s.
Proof.
  intros Hg. revert s Hg x o a. induction n as [|n IH]; intros s Hg x o a Hx.
  - rewrite (run_upd_buf _ _ _ _ Hx). cbn. unfold mret, M_ret. f_equal. rewrite list_insert_id by (by destruct x). by destruct s as [? ? ? ? ? ? ? ? ? []].
  - cbn [copy_from]. rewrite (bind_ret_run _ _ _ _ _ (Hg s a (same_rest_refl s))).
    rewrite (bind_ret_run _ _ _ _ _ (run_upd_buf _ _ _ _ Hx)). assert (Hlen : (bp < List.length (bufs (fsys s)))%nat) by (by eapply lookup_lt_Some).
    set (s1 := set_bufs _ s). assert (R : same_rest s s1) by apply same_rest_fsys.
    rewrite (IH s1 (source_keep _ _ _ _ Hg R) (set_b_data (st8 (data x) o (g a)) x)) by (unfold s1; fsimp; by apply list_lookup_insert_eq).
    rewrite (run_upd_buf _ _ _ _ Hx). unfold s1. erewrite run_upd_buf by (fsimp; by apply list_lookup_insert_eq).
    f_equal. fsimp. by rewrite list_insert_insert_eq.
Qed.

(** ** writei *)

Lemma own_baddr f ip bn : 0 <= bn < MAXFILE -> baddr f ip bn <> 0 -> own f ip (baddr f ip bn).
Proof. intros Hbn Hnz. split; [done|]. right. eauto. Qed.

Lemma block_of_range o : 0 <= o < MAXFILE * BSIZE -> 0 <= o / BSIZE < MAXFILE /\ 0 <= o mod BSIZE < BSIZE.
Proof. intros Ho. unfold BSIZE in *. divlia. Qed.

(** Bytes [o .. o+n) of block [bn] of the file are those of the source from [a] on. *)
Lemma write_block_bytes s ip bn m g o a (n : nat) s' :
  ino_ok (fsys s) ip -> 0 <= bn < MAXFILE -> baddr (fsys s) ip bn <> 0 -> bytes m = block (fsys s) (baddr (fsys s) ip bn) ->
  effect s [(baddr (fsys s) ip bn, bytes (fill g m o a n))] s' ->
  (forall bn, 0 <= bn < MAXFILE -> baddr (fsys s') ip bn = baddr (fsys s) ip bn) ->
  forall p, 0 <= p < MAXFILE * BSIZE -> file_byte (fsys s') ip p =
    if decide (p / BSIZE = bn /\ o <= p mod BSIZE < o + Z.of_nat n) then u8 (g (a + (p mod BSIZE - o))) else file_byte (fsys s) ip p.
Proof.
  intros Ok Hbn Hnz Em E Hb p Hp. destruct (block_of_range p Hp) as [Hpb Hpo]. unfold file_byte. cbv zeta. rewrite Hb by done.
  destruct (decide (p / BSIZE = bn)) as [<-|Hne].
  - rewrite (proj2 (Z.eqb_neq _ _)) by done. rewrite (ef_block _ _ _ E) by apply (io_own _ _ Ok _ (own_baddr _ _ _ Hpb Hnz)).
    cbn. rewrite decide_True by done. rewrite byte_bytes, ld8_fill by done. rewrite <- Em, byte_bytes by done.
    repeat case_decide; tauto.
  - rewrite (decide_False (P := _ /\ _)) by tauto. destruct (_ =? 0) eqn:Ez; [done|]. apply Z.eqb_neq in Ez.
    rewrite (ef_block _ _ _ E) by apply (io_own _ _ Ok _ (own_baddr _ _ _ Hpb Ez)). cbn. rewrite decide_False; [done|].
    intros Eq. apply Hne. by apply (io_inj _ _ Ok).
Qed.

Lemma wp_write_block T i s ip blks bn o a (n : nat) ld g {A} (k : M _ A) Q :
  txn me blks [] s -> layout (fsys s) -> ino_ok (fsys s) ip -> inodes (fsys s) !! i = Some ip -> 0 <= bn < MAXFILE -> T bn ->
  baddr (fsys s) ip bn <> 0 -> Z.of_nat (List.length blks) < MAXOPBLOCKS -> source s ld g ->
  (forall s' blks', grown me T i s ip blks s' ip blks' ->
     (forall p, 0 <= p < MAXFILE * BSIZE -> file_byte (fsys s') ip p =
        if decide (p / BSIZE = bn /\ o <= p mod BSIZE < o + Z.of_nat n) then u8 (g (a + (p mod BSIZE - o))) else file_byte (fsys s) ip p) ->
     (forall n, avail (fsys s) ip n -> avail (fsys s') ip n) -> wp k Q s') ->
  wp (bp ← bread fuel 1 (baddr (fsys s) ip bn); copy_from ld bp o a n;; log_write bp;; brelse bp;; k) Q s.
Proof.
  intros Ht L Ok Hi Hbn HT Hnz Hl Hsrc K. destruct (io_own _ _ Ok _ (own_baddr _ _ _ Hbn Hnz)) as [Hd _]. set (v := baddr _ _ _) in *.
  eapply (wp_txn_read me _ fuel blks []); [done|exact Ht|apply Hd|apply not_elem_of_nil|lia|cbn; lia|].
  intros bp m s1 Ht1 E1 Hm Em. destruct (tr_view _ _ _ _ Ht1) as [_ _ Hh _]. apply Forall_cons in Hh as [(x & [_ Hx] & _) _].
  cbn [h_buf] in Hx. pose proof (run_copy_from s1 ld g bp x o a n (source_keep _ _ _ _ Hsrc (ef_rest _ _ _ E1)) Hx) as Ec.
  eapply wp_bind_same; [exact Ec|].
  eapply (wp_txn_change me _ blks bp v m (fill g m o a n) []); [exact Ht1|done|rewrite (outside_effect _ _ _ _ E1); apply Hd|
    by apply mem_ok_fill|by intros y ->|].
  intros s2 Ht2 E2. eapply (wp_txn_release me _ _ (Hbuf bp v _)); [exact Ht2|]. intros s3 Ht3 E3.
  assert (E : effect s [(v, bytes (fill g m o a n))] s3).
  { apply (effect_trans s [] s1 _ _ E1). by apply (effect_trans s1 [_] s2 []). }
  destruct (grown_write me T i s ip blks _ s3 (record_blk v blks) L Ok Hi E Ht3) as (G & Hb & U).
  { intros w Hw. cbn in Hw. apply list_elem_of_singleton in Hw as ->. split; [done|]. eauto. }
  { intros w. rewrite elem_of_record_blk. cbn. rewrite list_elem_of_singleton. tauto. }
  eapply K; [exact G|by eapply write_block_bytes|]. intros n' (fr & Hfr & Hn'). exists fr. split; [|done].
  eapply nfree_other; [exact L|exact E| |done]. intros c Hc. cbn. rewrite list_elem_of_singleton. by apply (da_bmap _ _ Hd).
Qed.

Lemma grown_mono (T T' : Z -> Prop) i s ip blks s' ip' blks' :
  (forall bn, T bn -> T' bn) -> grown me T i s ip blks s' ip' blks' -> grown me T' i s ip blks s' ip' blks'.
Proof.
  intros HT []. split; try done. intros v Hv. destruct (gr_blks v Hv) as [?|[?|(Hnz & [?|(bn & ? & ? & ?)])]]; eauto 10.
Qed.

(** The number of blocks a transaction has recorded: the bitmap, the indirect block and
    the touched blocks of the file. *)
Lemma grown_count (T : Z -> Prop) lo hi i s ip blks s' ip' blks' :
  layout (fsys s) -> sb_size (sb (fsys s)) <= BPB -> grown me T i s ip blks s' ip' blks' ->
  (forall bn, T bn -> lo <= bn < hi) -> lo <= hi ->
  Z.of_nat (List.length blks') <= Z.of_nat (List.length blks) + 2 + (hi - lo).
Proof.
  intros L Hsb G HT Hle.
  assert (Hsub : blks' ⊆+ blks ++ [BBLOCK 0 (sb (fsys s)); ind_of ip'] ++ (baddr (fsys s') ip' <$> seqZ lo (hi - lo))).
  { apply NoDup_submseteq; [apply (tr_nodup _ _ _ _ (gr_txn _ _ _ _ _ _ _ _ _ G))|]. intros v Hv. rewrite !elem_of_app, !elem_of_cons.
    destruct (gr_blks _ _ _ _ _ _ _ _ _ G v Hv) as [?|[(c & Hc & ->)|(_ & [->|(bn & _ & Hbn & ->)])]]; [by left| |by right; left; right; left|].
    - right. left. left. unfold BBLOCK. rewrite !Z.div_small by lia. done.
    - right. right. apply list_elem_of_fmap. exists bn. split; [done|]. apply elem_of_seqZ. specialize (HT bn Hbn). lia. }
  apply submseteq_length in Hsub. rewrite !length_app, length_fmap, length_seqZ in Hsub. cbn [List.length] in Hsub. lia.
Qed.

Section writei_loop.
Context (i : nat) (s : kst (fsst D)) (ip : inode) (blks : list Z) (ld : Z -> M (kst (fsst D)) Z) (g : Z -> Z) (off n : Z).
Context (Ht : txn me blks [] s) (L : layout (fsys s)) (Ok : ino_ok (fsys s) ip) (Hi : inodes (fsys s) !! i = Some ip).
Context (Hsrc : source s ld g) (Hsb : sb_size (sb (fsys s)) <= BPB).
Context (Hoff : 0 <= off) (Hn : 0 < n) (Hend : off + n <= MAXFILE * BSIZE).

Definition last_blk : Z := (off + n - 1) / BSIZE.
(** The first block not touched when [tot] bytes are written. *)
Definition upto (tot : Z) : Z := if decide (tot = 0) then off / BSIZE else (off + tot - 1) / BSIZE + 1.
Definition touched (tot bn : Z) : Prop := off / BSIZE <= bn < upto tot.

(** The state after [tot] bytes. *)
Record written_upto (tot : Z) (s' : kst (fsst D)) (ip' : inode) (blks' : list Z) : Prop := Written_upto {
  wu_tot : 0 <= tot <= n;
  wu_aligned : tot = 0 \/ tot = n \/ (off + tot) mod BSIZE = 0;
  wu_grown : grown me (touched tot) i s ip blks s' ip' blks';
  wu_avail : avail (fsys s') ip' (S (Z.to_nat (last_blk + 1 - upto tot)));
  wu_mapped bn : touched tot bn -> baddr (fsys s') ip' bn <> 0;
  wu_bytes p : 0 <= p < MAXFILE * BSIZE ->
    file_byte (fsys s') ip' p = if decide (off <= p < off + tot) then u8 (g (p - off)) else file_byte (fsys s) ip p }.

(** How far one round gets. *)
Lemma round_facts tot : 0 <= tot < n -> tot = 0 \/ tot = n \/ (off + tot) mod BSIZE = 0 ->
  let m := Z.min (n - tot) (BSIZE - (off + tot) mod BSIZE) in
  0 < m /\ tot + m <= n /\ (off + tot) / BSIZE = upto tot /\ upto (tot + m) = upto tot + 1 /\ upto tot <= last_blk /\
  off / BSIZE <= upto tot /\ (tot + m = 0 \/ tot + m = n \/ (off + (tot + m)) mod BSIZE = 0) /\ (off + tot) mod BSIZE + m <= BSIZE.
Proof.
  intros Ht' Ha m. unfold upto, last_blk, m. rewrite (decide_False (P := _ + _ = 0)) by (unfold BSIZE; divlia).
  case_decide as E0; [subst tot; rewrite ?Z.add_0_r in *|]; unfold BSIZE in *; split_and!; divlia.
Qed.

Lemma wp_writei_round tot s' ip' blks' :
  Z.of_nat (List.length blks) + (last_blk + 1 - off / BSIZE) <= 4 -> tot < n -> written_upto tot s' ip' blks' ->
  wp (writei_body fuel i ld n (tot, off + tot)) (fun r s2 => exists tot' ip2 blks2,
    r = inl (tot', off + tot') /\ tot < tot' /\ written_upto tot' s2 ip2 blks2) s'.
Proof.
  intros Hl Hlt [Htot Hal G Hav Hmp Hby]. destruct (round_facts tot) as (M1 & M2 & M3 & M4 & M5 & M6 & M7 & M8); [lia|done|].
  set (m := Z.min (n - tot) (BSIZE - (off + tot) mod BSIZE)) in *.
  unfold writei_body. rewrite (proj2 (Z.ltb_lt _ _)) by done. cbn [negb].
  assert (Hi' : inodes (fsys s') !! i = Some ip').
  { rewrite (gr_inodes _ _ _ _ _ _ _ _ _ G). apply list_lookup_insert_eq. by eapply lookup_lt_Some. }
  apply wp_bind. eapply wp_result; [by apply run_get_inode|]. cbv beta. rewrite (io_dev _ _ (gr_ok _ _ _ _ _ _ _ _ _ G)), M3.
  assert (Hbn : 0 <= upto tot < MAXFILE) by (rewrite <- M3; unfold BSIZE in *; divlia).
  replace (S (Z.to_nat (last_blk + 1 - upto tot))) with (S (S (Z.to_nat (last_blk + 1 - upto (tot + m))))) in Hav by lia.
  pose proof (grown_count _ (off / BSIZE) (upto tot) _ _ _ _ _ _ _ L Hsb G ltac:(done) M6) as Hc.
  assert (G' : grown me (touched (tot + m)) i s ip blks s' ip' blks') by (eapply grown_mono; [|exact G]; unfold touched; lia).
  apply wp_bind. eapply wp_mono.
  { apply (wp_bmap me fuel Hfuel (touched (tot + m)) i s' ip' blks' (upto tot) (Z.to_nat (last_blk + 1 - upto (tot + m))));
      [apply G|apply G|apply G|done|done|unfold touched; lia|unfold MAXOPBLOCKS; lia|done]. }
  intros a s1 (ip1 & blks1 & [G1 B1 A1] & Ha & Hnz). cbv beta. subst a.
  pose proof (grown_trans _ _ _ _ _ _ _ _ _ _ _ _ Ok G' G1) as G01.
  assert (Hi1 : inodes (fsys s1) !! i = Some ip1).
  { rewrite (gr_inodes _ _ _ _ _ _ _ _ _ G1). apply list_lookup_insert_eq. by eapply lookup_lt_Some. }
  pose proof (grown_count _ (off / BSIZE) (upto (tot + m)) _ _ _ _ _ _ _ L Hsb G01 ltac:(done) ltac:(lia)) as Hc1.
  eapply (wp_write_block (touched (tot + m)) i s1 ip1 blks1 (upto tot) _ _ _ ld g);
    [apply G1|apply G1|apply G1|done|done|unfold touched; lia|done|unfold MAXOPBLOCKS; lia|eapply source_keep; [exact Hsrc|apply G01]|].
  intros s2 blks2 G2 B2 A2. apply wp_ret. exists (tot + m), ip1, blks2. split; [|split; [lia|]].
  { do 2 f_equal. rewrite u32_id by (unfold MAXFILE, NDIRECT, NINDIRECT, BSIZE in *; change (512 / 4) with 128 in *; lia). lia. }
  split; [lia|done|by eapply grown_trans|auto| |].
  { intros bn Hbn'. assert (Hr : 0 <= bn < MAXFILE) by (pose proof (Z.div_pos off BSIZE Hoff eq_refl); unfold touched in *; lia).
    destruct (decide (bn = upto tot)) as [->|Hne]; [by rewrite (gr_addr _ _ _ _ _ _ _ _ _ G2)|].
    assert (Hz : baddr (fsys s') ip' bn <> 0) by (apply Hmp; unfold touched in *; lia).
    by rewrite (gr_addr _ _ _ _ _ _ _ _ _ G2), (gr_addr _ _ _ _ _ _ _ _ _ G1) by (done || by rewrite (gr_addr _ _ _ _ _ _ _ _ _ G1)). }
  intros p Hp. rewrite B2, B1, Hby by done. rewrite Z2Nat.id by lia.
  repeat case_decide; try done; unfold BSIZE in *; try (f_equal; f_equal); divlia.
Qed.

Lemma wp_writei_loop :
  Z.of_nat (List.length blks) + (last_blk + 1 - off / BSIZE) <= 4 -> avail (fsys s) ip (S (Z.to_nat (last_blk + 1 - off / BSIZE))) ->
  wp (iterate (S (Z.to_nat n)) (writei_body fuel i ld n) (0, off)) (fun r s' => r = off + n /\ exists ip' blks', written_upto n s' ip' blks') s.
Proof.
  intros Hl Hav.
  apply (wp_iterate (fun a s' => a.2 = off + a.1 /\ exists ip' blks', written_upto a.1 s' ip' blks') (fun a => Z.to_nat (n - a.1))).
  - intros [tot o] s' (E & ip' & blks' & W). cbn [fst snd] in *. subst o. destruct (tot <? n) eqn:Hlt.
    + apply Z.ltb_lt in Hlt. eapply wp_mono; [by eapply wp_writei_round|].
      intros r s2 (tot' & ip2 & blks2 & -> & Hlt' & W2). cbn. pose proof (wu_tot _ _ _ _ W2). split; [|lia]. split; [done|]. eauto.
    + unfold writei_body. rewrite Hlt. cbn [negb]. apply wp_ret. apply Z.ltb_ge in Hlt. pose proof (wu_tot _ _ _ _ W).
      assert (tot = n) as -> by lia. split; [done|]. eauto.
  - cbn. lia.
  - split; [cbn; lia|]. exists ip, blks. cbn. split; [lia|by left|by apply grown_refl| | |].
    + unfold upto. by rewrite decide_True.
    + intros bn. unfold touched, upto. rewrite decide_True by done. lia.
    + intros p Hp. by rewrite decide_False by lia.
Qed.

End writei_loop.

(** ** iupdate *)

Lemma mem_ok_st16 m a v : mem_ok m -> mem_ok (st16 m a v).
Proof. intros Hm. by apply mem_ok_st8, mem_ok_st8. Qed.
Lemma mem_ok_st_words ws m a : mem_ok m -> mem_ok (st_words m a ws).
Proof. revert m a. induction ws as [|w ws IH]; intros m a Hm; [done|]. by apply IH, mem_ok_st32. Qed.
Lemma mem_ok_di_store m o ip : mem_ok m -> mem_ok (di_store m o ip).
Proof. intros Hm. unfold di_store. by apply mem_ok_st_words, mem_ok_st32, mem_ok_st16, mem_ok_st16, mem_ok_st16, mem_ok_st16. Qed.

Lemma wp_iupdate blks s i ip :
  txn me blks [] s -> layout (fsys s) -> inodes (fsys s) !! i = Some ip -> i_dev ip = 1 -> 0 <= inum ip < sb_ninodes (sb (fsys s)) ->
  Z.of_nat (List.length blks) < MAXOPBLOCKS ->
  wp (iupdate fuel i) (fun _ s' => txn me (record_blk (IBLOCK (inum ip) (sb (fsys s))) blks) [] s' /\
    exists m, mem_ok m /\ bytes m = block (fsys s) (IBLOCK (inum ip) (sb (fsys s))) /\
      effect s [(IBLOCK (inum ip) (sb (fsys s)), bytes (di_store m (dinode_off (inum ip)) ip))] s') s.
Proof.
  intros Ht L Hi Hdev Hin Hl. unfold iupdate, get_sb. apply wp_bind. eapply wp_result; [by apply run_get_inode|]. cbv beta.
  apply wp_bind, wp_gets. cbv beta. rewrite Hdev. pose proof (proj1 (lo_inode _ L _ Hin)) as Ho. set (B := IBLOCK _ _) in *.
  eapply (wp_txn_read me _ fuel blks []); [done|exact Ht|apply Ho|apply not_elem_of_nil|lia|cbn; lia|].
  intros bp m s1 Ht1 E1 Hm Em. apply wp_bind. eapply wp_result; [apply run_get_inode; rewrite (ef_inodes _ _ _ E1); exact Hi|]. cbv beta.
  eapply (wp_txn_change me _ blks bp B m (di_store m (dinode_off (inum ip)) ip) []);
    [exact Ht1|done|by rewrite (outside_effect _ _ _ _ E1)|by apply mem_ok_di_store|by intros y ->|].
  intros s2 Ht2 E2. eapply (wp_txn_release_last me _ _ (Hbuf bp B _)); [exact Ht2|]. intros s3 Ht3 E3. split; [done|].
  exists m. split; [done|]. split; [done|]. apply (effect_trans s [] s1 _ _ E1). by apply (effect_trans s1 [_] s2 []).
Qed.

(** A change of the size leaves the contents of the file. *)
Lemma ino_ok_size f ip v : ino_ok f ip -> ino_ok f (set_i_size v ip).
Proof. intros []. by split. Qed.

Lemma ino_ok_with_ino i ip s ip' : ino_ok (fsys s) ip' -> ino_ok (fsys (with_ino i ip s)) ip'.
Proof. intros []. split; try done. intros a [H1 H2]%io_own. split; [by apply is_data_with_ino|done]. Qed.

(** A write to the inode blocks leaves the files. *)
Lemma other_write s ws s' ip : layout (fsys s) -> ino_ok (fsys s) ip -> effect s ws s' ->
  (forall v, v ∈ ws.*1 -> (forall c, 0 <= c < sb_size (sb (fsys s)) -> BBLOCK c (sb (fsys s)) <> v) /\ ~ own (fsys s) ip v) ->
  layout (fsys s') /\ ino_ok (fsys s') ip /\ (forall bn, 0 <= bn < MAXFILE -> baddr (fsys s') ip bn = baddr (fsys s) ip bn) /\
  (forall p, 0 <= p < MAXFILE * BSIZE -> file_byte (fsys s') ip p = file_byte (fsys s) ip p) /\
  forall c, 0 <= c < sb_size (sb (fsys s)) -> used (fsys s') c = used (fsys s) c.
Proof.
  intros L Ok E Hws. destruct (used_other s ws s' L E) as [L' U]; [intros c Hc Hv; by apply (proj1 (Hws _ Hv) c Hc)|]. split; [done|].
  assert (Hblk : forall a, own (fsys s) ip a -> block (fsys s') a = block (fsys s) a).
  { intros a Ha. rewrite (ef_block _ _ _ E) by apply (io_own _ _ Ok a Ha). apply apply_writes_other. intros Hv. by apply Hws in Hv as [_ []]. }
  assert (Hb : forall bn, 0 <= bn < MAXFILE -> baddr (fsys s') ip bn = baddr (fsys s) ip bn).
  { intros bn Hbn. unfold baddr. destruct (bn <? NDIRECT); [done|]. destruct (ind_of ip =? 0) eqn:Ez; [done|]. apply Z.eqb_neq in Ez.
    rewrite Hblk; [done|]. by split; [|left]. }
  split; [|split; [done|split; [|done]]].
  - destruct Ok. split; try done.
    + intros a [Ha Hor]. destruct (io_own a) as [H1 H2].
      { split; [done|]. destruct Hor as [?|(bn & Hbn & ->)]; [by left|right; exists bn; split; [done|by apply Hb]]. }
      split; [by apply (is_data_effect _ _ _ _ E)|]. rewrite U; [done|]. destruct (da_range _ _ H1). lia.
    + intros bn bn' Hbn Hbn'. rewrite !Hb by done. auto.
    + intros bn Hbn. rewrite Hb by done. auto.
  - intros p Hp. destruct (block_of_range p Hp) as [Hbn _]. unfold file_byte. cbv zeta. rewrite Hb by done.
    destruct (baddr (fsys s) ip (p / BSIZE) =? 0) eqn:Ez; [done|]. apply Z.eqb_neq in Ez. rewrite Hblk; [done|by apply own_baddr].
Qed.

(** What writei does: [n] bytes of the source [g] at offset [off]. *)
Record file_written i s ip blks (off n : Z) (g : Z -> Z) s' ip' : Prop := File_written {
  fw_ip : ip' = set_i_size (Z.max (i_size ip) (off + n)) (set_addrs (addrs ip') ip);
  fw_inodes : inodes (fsys s') = <[i := ip']> (inodes (fsys s));
  fw_txn : exists blks', txn me blks' [] s' /\
    Z.of_nat (List.length blks') <= Z.of_nat (List.length blks) + 3 + (last_blk off n + 1 - off / BSIZE);
  fw_layout : layout (fsys s');
  fw_ok : ino_ok (fsys s') ip';
  fw_rest : same_rest s s';
  fw_sb : sb (fsys s') = sb (fsys s);
  fw_mapped bn : 0 <= bn < MAXFILE -> baddr (fsys s) ip bn <> 0 \/ off / BSIZE <= bn <= last_blk off n -> baddr (fsys s') ip' bn <> 0;
  fw_bytes p : 0 <= p < MAXFILE * BSIZE ->
    file_byte (fsys s') ip' p = if decide (off <= p < off + n) then u8 (g (p - off)) else file_byte (fsys s) ip p;
  fw_used c : 0 <= c < sb_size (sb (fsys s)) -> used (fsys s) c = true -> used (fsys s') c = true;
  fw_other k : 0 <= k < sb_size (sb (fsys s)) -> used (fsys s) k = true -> ~ own (fsys s) ip k ->
    (forall c, 0 <= c < sb_size (sb (fsys s)) -> BBLOCK c (sb (fsys s)) <> k) -> k <> IBLOCK (inum ip) (sb (fsys s)) ->
    block (fsys s') k = block (fsys s) k }.

(** The state after the loop is the result when the size does not grow, and after
    iupdate when it does. *)
Lemma written_file i s ip blks off n g s1 ip1 blks1 ws s' v blks' :
  layout (fsys s) -> 0 < n -> sb_size (sb (fsys s)) <= BPB -> 0 <= inum ip < sb_ninodes (sb (fsys s)) ->
  written_upto i s ip blks g off n n s1 ip1 blks1 -> v = Z.max (i_size ip) (off + n) -> inodes (fsys s) !! i = Some ip ->
  effect (with_ino i (set_i_size v ip1) s1) ws s' -> (forall w, w ∈ ws.*1 -> w = IBLOCK (inum ip) (sb (fsys s))) ->
  txn me blks' [] s' -> (List.length blks' <= S (List.length blks1))%nat ->
  file_written i s ip blks off n g s' (set_i_size v ip1).
Proof.
  intros L Hn Hsb Hin [_ _ G _ Hmp Hby] Ev Hi E Hws Ht' Hl. set (s2 := with_ino i (set_i_size v ip1) s1) in *.
  pose proof (gr_sb _ _ _ _ _ _ _ _ _ G) as Esb. pose proof (gr_ip _ _ _ _ _ _ _ _ _ G) as Eip.
  assert (Hup : upto off n = last_blk off n + 1) by (unfold upto, last_blk; rewrite decide_False by lia; lia).
  destruct (other_write s2 ws s' (set_i_size v ip1)) as (L' & Ok' & Hb & Hf & Hu).
  { by apply layout_with_ino, G. }
  { apply ino_ok_with_ino, ino_ok_size, G. }
  { done. }
  { intros w ->%Hws. change (sb (fsys s2)) with (sb (fsys s1)). rewrite Esb. split; [intros c Hc; by apply (lo_inode _ L)|].
    intros Ho. destruct (io_own _ _ (ino_ok_with_ino i (set_i_size v ip1) s1 _ (ino_ok_size _ _ v (gr_ok _ _ _ _ _ _ _ _ _ G))) _ Ho) as [Hd _].
    apply (da_inode _ _ Hd (inum ip)); change (sb (fsys (with_ino i (set_i_size v ip1) s1))) with (sb (fsys s1)); by rewrite Esb. }
  split.
  - cbn [addrs set_i_size]. rewrite Eip at 1. by rewrite Ev.
  - rewrite (ef_inodes _ _ _ E). cbn. rewrite (gr_inodes _ _ _ _ _ _ _ _ _ G). by rewrite list_insert_insert_eq.
  - exists blks'. split; [done|]. pose proof (grown_count _ (off / BSIZE) (upto off n) _ _ _ _ _ _ _ L Hsb G ltac:(done)) as Hc.
    rewrite Hup in Hc. assert (off / BSIZE <= last_blk off n) by (apply Z.div_le_mono; [done|lia]). lia.
  - done.
  - done.
  - eapply same_rest_trans; [apply G|]. eapply same_rest_trans; [apply (same_rest_fsys s1 (fsys s2))|apply E].
  - rewrite (ef_sb _ _ _ E). done.
  - intros bn Hbn Hor. rewrite Hb by done. change (baddr (fsys s1) ip1 bn <> 0). destruct Hor as [Hnz|Hr].
    + by rewrite (gr_addr _ _ _ _ _ _ _ _ _ G).
    + apply Hmp. unfold touched. lia.
  - intros p Hp. rewrite Hf by done. by apply Hby.
  - intros c Hc Hcu. rewrite Hu by (by cbn; rewrite Esb). by apply (gr_used _ _ _ _ _ _ _ _ _ G).
  - intros k Hk Hku Hno Hnb Hni. destruct (lo_size _ L). rewrite (ef_block _ _ _ E) by (cbn; rewrite (gr_disk _ _ _ _ _ _ _ _ _ G); lia).
    rewrite apply_writes_other by (by intros ->%Hws). by apply (gr_block _ _ _ _ _ _ _ _ _ G).
Qed.

(** The conditions under which a write of [n] bytes fits: in the file, in the
    transaction and on the disk. *)
Record writable i s ip blks (off n : Z) : Prop := Writable {
  wr_txn : txn me blks [] s;
  wr_layout : layout (fsys s);
  wr_one : sb_size (sb (fsys s)) <= BPB;
  wr_at : inodes (fsys s) !! i = Some ip;
  wr_ok : ino_ok (fsys s) ip;
  wr_inum : 0 <= inum ip < sb_ninodes (sb (fsys s));
  wr_type : i_type ip <> T_DEV;
  wr_off : 0 <= off <= i_size ip;
  wr_n : 0 < n;
  wr_end : off + n <= MAXFILE * BSIZE;
  wr_room : Z.of_nat (List.length blks) + (last_blk off n + 1 - off / BSIZE) <= 4;
  wr_avail : avail (fsys s) ip (S (Z.to_nat (last_blk off n + 1 - off / BSIZE))) }.

Lemma MAXFILE_bytes : MAXFILE * BSIZE = 71680.
Proof. reflexivity. Qed.

Lemma set_i_size_id ip : set_i_size (i_size ip) ip = ip.
Proof. by destruct ip. Qed.

Lemma with_ino_id i ip s : inodes (fsys s) !! i = Some ip -> with_ino i ip s = s.
Proof. intros Hi. unfold with_ino. rewrite list_insert_id by done. by destruct s as [? ? ? ? ? ? ? ? ? []]. Qed.

Lemma wp_writei i s ip blks ld g off n : writable i s ip blks off n -> source s ld g ->
  wp (writei fuel i ld off n) (fun r s' => r = n /\ exists ip', file_written i s ip blks off n g s' ip') s.
Proof.
  intros [Ht L Hsb Hi Ok Hin Hty Hoff Hn Hend Hl Hav] Hsrc. pose proof MAXFILE_bytes as EM.
  unfold writei. apply wp_bind. eapply wp_result; [by apply run_get_inode|]. cbv beta.
  rewrite (proj2 (Z.eqb_neq _ _)) by done. rewrite u32_id by lia.
  rewrite (proj2 (Z.ltb_ge _ _)), (proj2 (Z.ltb_ge _ _)), (proj2 (Z.ltb_ge _ _)) by lia. cbn [orb].
  apply wp_bind. eapply wp_mono; [apply (wp_writei_loop i s ip blks ld g off n); try done; lia|].
  intros r s1 (-> & ip1 & blks1 & W). cbv beta. pose proof (wu_grown _ _ _ _ _ _ _ _ _ _ _ W) as G.
  assert (Hi1 : inodes (fsys s1) !! i = Some ip1).
  { rewrite (gr_inodes _ _ _ _ _ _ _ _ _ G). apply list_lookup_insert_eq. by eapply lookup_lt_Some. }
  assert (Esz : i_size ip1 = i_size ip /\ inum ip1 = inum ip) by (rewrite (gr_ip _ _ _ _ _ _ _ _ _ G); done). destruct Esz as [Esz Enu].
  pose proof (gr_sb _ _ _ _ _ _ _ _ _ G) as Esb. rewrite (s32_id n) by lia.
  apply wp_bind. eapply wp_result; [by apply run_get_inode|]. cbv beta. rewrite Esz, (proj2 (Z.ltb_lt 0 n)) by done. cbn [andb].
  destruct (i_size ip <? off + n) eqn:Hgrow; cbn [when].
  - apply Z.ltb_lt in Hgrow. set (ip2 := set_i_size (off + n) ip1).
    apply wp_bind, wp_bind. eapply wp_result; [by apply run_upd_inode|]. cbv beta. fold (with_ino i ip2 s1).
    pose proof (grown_count _ (off / BSIZE) (upto off n) _ _ _ _ _ _ _ L Hsb G ltac:(done)) as Hc.
    assert (Hup : upto off n = last_blk off n + 1) by (unfold upto, last_blk; rewrite decide_False by lia; lia).
    assert (off / BSIZE <= last_blk off n) by (apply Z.div_le_mono; [done|lia]).
    eapply wp_mono; [apply (wp_iupdate blks1 (with_ino i ip2 s1) i ip2)|].
    + apply txn_with_ino, G.
    + apply layout_with_ino, G.
    + cbn. apply list_lookup_insert_eq. by eapply lookup_lt_Some.
    + apply G.
    + change (0 <= inum ip1 < sb_ninodes (sb (fsys s1))). by rewrite Enu, Esb.
    + unfold MAXOPBLOCKS. lia.
    + intros ? s3 (Ht3 & m & Hm & Em & E3). cbv beta. apply wp_ret. split; [done|]. exists ip2.
      change (inum ip2) with (inum ip1) in *. change (sb (fsys (with_ino i ip2 s1))) with (sb (fsys s1)) in *. rewrite Enu, Esb in *.
      eapply (written_file i s ip blks off n g s1 ip1 blks1 _ s3 (off + n)); try done; [lia| |].
      * intros w Hw. cbn in Hw. by apply list_elem_of_singleton in Hw.
      * apply length_record_blk.
  - apply Z.ltb_ge in Hgrow. apply wp_bind, wp_ret. apply wp_ret. split; [done|]. exists ip1.
    rewrite <- (set_i_size_id ip1), Esz.
    eapply (written_file i s ip blks off n g s1 ip1 blks1 [] s1 (i_size ip) blks1); try done; [lia| | |apply G|lia].
    + rewrite <- Esz, set_i_size_id, with_ino_id by done. apply effect_refl.
    + intros w Hw. cbn in Hw. by apply not_elem_of_nil in Hw.
Qed.

(** ** readi

    readi needs no transaction when the blocks it reads are there. *)

Lemma wp_bmap_present blks s i ip bn :
  view me blks [] s -> (List.length blks + 1 < NBUF)%nat -> ino_ok (fsys s) ip -> inodes (fsys s) !! i = Some ip ->
  0 <= bn < MAXFILE -> baddr (fsys s) ip bn <> 0 ->
  wp (bmap fuel i bn) (fun a s' => a = baddr (fsys s) ip bn /\ view me blks [] s' /\ unchanged s s') s.
Proof.
  intros V Hl Ok Hi Hbn Hnz. pose proof (io_len _ _ Ok) as Hlen.
  assert (Hslot : forall k, 0 <= k <= NDIRECT -> default 0 (addrs ip !! Z.to_nat k) <> 0 ->
            bmap_slot fuel i k s = Ret (default 0 (addrs ip !! Z.to_nat k)) s).
  { intros k Hk Hk0. unfold bmap_slot, addr_get. rewrite run_bind_bind, (bind_ret_run _ _ _ _ _ (run_get_inode _ _ _ Hi)).
    destruct (addrs ip !! Z.to_nat k) as [v|] eqn:Ev; [|done]. cbn in Hk0 |- *. mrun. by rewrite (proj2 (Z.eqb_neq v 0)). }
  unfold bmap. unfold baddr in Hnz |- *. destruct (bn <? NDIRECT) eqn:Hlt.
  - apply Z.ltb_lt in Hlt. eapply wp_result; [by apply Hslot; [lia|]|]. split; [done|]. split; [done|]. apply unchanged_refl.
  - apply Z.ltb_ge in Hlt. assert (Hk : 0 <= bn - NDIRECT < NINDIRECT) by (unfold MAXFILE in Hbn; lia).
    rewrite (proj2 (Z.ltb_lt _ _)) by lia. destruct (ind_of ip =? 0) eqn:Ez; [done|]. apply Z.eqb_neq in Ez.
    destruct (io_own _ _ Ok (ind_of ip)) as [Hd _]; [by split; [|left]|].
    apply wp_bind. eapply wp_result; [apply Hslot; [unfold NDIRECT; lia|done]|]. cbv beta. fold (ind_of ip).
    apply wp_bind. eapply wp_result; [by apply run_get_inode|]. cbv beta. rewrite (io_dev _ _ Ok).
    eapply (wp_read me fuel blks []); [done|exact V|apply Hd|apply not_elem_of_nil|cbn; lia|]. intros bp m s1 V1 U1 Hm Em.
    eapply (wp_get_held me _ _ _ (Hbuf bp _ m)); [exact V1|left|]. cbn [h_data h_blk]. intros x -> _.
    assert (Ew : word (block (fsys s) (ind_of ip)) (4 * (bn - NDIRECT)) = ld32 m (4 * (bn - NDIRECT))).
    { rewrite <- Em. unfold NINDIRECT, BSIZE in Hk. change (512 / 4) with 128 in Hk. apply word_bytes; [done|lia|unfold BSIZE; lia]. }
    rewrite Ew in *. rewrite (proj2 (Z.eqb_neq _ _)) by done. apply wp_bind, wp_ret.
    eapply (wp_release me _ (Hbuf bp _ m)); [exact V1|]. intros s2 V2 U2. apply wp_ret. split; [done|]. split; [done|].
    by eapply unchanged_trans.
Qed.

(** [st] stores bytes into a destination as the function [g] says. *)
Definition sink {A} s (st : A -> Z -> Z -> M (kst (fsst D)) A) (g : A -> Z -> Z -> A) : Prop :=
  forall s' d k b, same_rest s s' -> st d k b s' = Ret (g d k b) s'.

Lemma run_copy_to {A} s st (g : A -> Z -> Z -> A) bp x d o a n : sink s st g -> bufs (fsys s) !! bp = Some x ->
  copy_to st d bp o a n s = Ret (copyd g (ld8 (data x)) d o a n) s.
Proof.
  intros Hg Hx. revert d o a. induction n as [|n IH]; intros d o a; [done|]. cbn [copy_to copyd].
  rewrite (bind_ret_run _ _ _ _ _ (run_get_buf _ _ _ Hx)), (bind_ret_run _ _ _ _ _ (Hg s d a _ (same_rest_refl s))). apply IH.
Qed.

(** A file that can be read: every block below its size is there. *)
Record readable i s ip : Prop := Readable {
  rd_at : inodes (fsys s) !! i = Some ip;
  rd_ok : ino_ok (fsys s) ip;
  rd_type : i_type ip <> T_DEV;
  rd_size : 0 <= i_size ip <= MAXFILE * BSIZE;
  rd_mapped bn : 0 <= bn -> bn * BSIZE < i_size ip -> baddr (fsys s) ip bn <> 0 }.

Lemma readable_unchanged i s ip s' : readable i s ip -> unchanged s s' -> layout (fsys s) ->
  readable i s' ip /\ layout (fsys s') /\ forall p, 0 <= p < MAXFILE * BSIZE -> file_byte (fsys s') ip p = file_byte (fsys s) ip p.
Proof.
  intros [? Ok ? Hsz Hmp] U L. pose proof (unchanged_effect _ _ U) as E.
  destruct (other_write s [] s' ip L Ok E) as (L' & Ok' & Hb & Hf & _); [by intros v []%not_elem_of_nil|].
  split; [|done]. split; try done; [by rewrite (un_inodes _ _ U)|]. intros bn H1 H2. rewrite Hb; [auto|].
  rewrite MAXFILE_bytes in Hsz. unfold BSIZE in *. change MAXFILE with 140. lia.
Qed.

Lemma wp_readi_round {A} i s ip blks st (g : A -> Z -> Z -> A) n tot off d :
  view me blks [] s -> (List.length blks + 1 < NBUF)%nat -> layout (fsys s) -> readable i s ip -> sink s st g ->
  0 <= off -> 0 <= tot < n -> off + (n - tot) <= i_size ip ->
  let m := Z.min (n - tot) (BSIZE - off mod BSIZE) in
  wp (readi_body fuel i st n (tot, off, d)) (fun r s' =>
    r = inl (tot + m, off + m, copyd g (file_byte (fsys s) ip) d off tot (Z.to_nat m)) /\ view me blks [] s' /\ unchanged s s') s.
Proof.
  intros V Hl L R Hst Hoff Htot Hend m. pose proof R as [Hi Ok _ Hsz Hmp]. rewrite MAXFILE_bytes in Hsz.
  destruct (block_of_range off) as [Hbn Ho]; [rewrite MAXFILE_bytes; lia|].
  assert (Hnz : baddr (fsys s) ip (off / BSIZE) <> 0) by (apply Hmp; [lia|unfold BSIZE; divlia]).
  unfold readi_body. rewrite (proj2 (Z.ltb_lt _ _)) by lia. cbn [negb]. apply wp_bind. eapply wp_result; [by apply run_get_inode|]. cbv beta.
  apply wp_bind. eapply wp_mono; [by apply (wp_bmap_present blks s i ip)|]. intros a s1 (-> & V1 & U1). cbv beta. rewrite (io_dev _ _ Ok).
  destruct (io_own _ _ Ok _ (own_baddr _ _ _ Hbn Hnz)) as [Hd _]. set (v := baddr _ _ _) in *.
  eapply (wp_read me fuel blks []); [done|exact V1|rewrite (un_disk _ _ U1); apply Hd|apply not_elem_of_nil|cbn; lia|].
  intros bp mm s2 V2 U2 Hm Em. fold m.
  pose proof (vw_held _ _ _ _ V2) as Hh. apply Forall_cons in Hh as [(x & [_ Hx] & _ & Edx & _) _]. cbn [h_buf h_data] in *.
  pose proof (unchanged_trans _ _ _ U1 U2) as U12.
  apply wp_bind. eapply wp_result.
  { apply run_copy_to; [|exact Hx]. intros s' d' k' b' R'. apply Hst. eapply same_rest_trans; [apply U12|exact R']. }
  cbv beta. eapply (wp_release me _ (Hbuf bp v mm)); [exact V2|]. intros s3 V3 U3. apply wp_ret.
  split; [|split; [done|by eapply unchanged_trans]]. assert (Hm0 : 0 < m) by (unfold m; lia).
  rewrite u32_id by (unfold m; lia). do 2 f_equal. rewrite Edx. apply copyd_ext. intros k Hk. rewrite Z2Nat.id in Hk by lia.
  unfold file_byte. cbv zeta. assert (Hk1 : (off + k) / BSIZE = off / BSIZE /\ (off + k) mod BSIZE = off mod BSIZE + k).
  { unfold m, BSIZE in *. divlia. }
  destruct Hk1 as [-> ->]. fold v. rewrite (proj2 (Z.eqb_neq v 0)) by done. rewrite <- (un_block _ _ U1) by apply Hd.
  rewrite <- Em, byte_bytes; [done|]. unfold m in *. lia.
Qed.

Lemma wp_readi {A} i s ip blks st (g : A -> Z -> Z -> A) dst off n :
  view me blks [] s -> (List.length blks + 1 < NBUF)%nat -> layout (fsys s) -> readable i s ip -> sink s st g ->
  0 <= off <= i_size ip -> 0 <= n -> off + n < 4294967296 ->
  wp (readi fuel i st dst off n) (fun r s' =>
    r = (Z.min n (i_size ip - off), copyd g (file_byte (fsys s) ip) dst off 0 (Z.to_nat (Z.min n (i_size ip - off)))) /\ view me blks [] s' /\ unchanged s s') s.
Proof.
  intros V Hl L R Hst Hoff Hn Hw. set (n' := Z.min n (i_size ip - off)). pose proof (rd_size _ _ _ R) as Hsz. rewrite MAXFILE_bytes in Hsz.
  unfold readi. apply wp_bind. eapply wp_result; [apply run_get_inode, R|]. cbv beta.
  rewrite (proj2 (Z.eqb_neq _ _)) by apply R. rewrite u32_id by lia.
  rewrite (proj2 (Z.ltb_ge _ _)), (proj2 (Z.ltb_ge _ _)) by lia. cbn [orb]. cbv zeta.
  assert (Hn' : (if i_size ip <? off + n then i_size ip - off else n) = n').
  { unfold n'. destruct (_ <? _) eqn:H; [apply Z.ltb_lt in H|apply Z.ltb_ge in H]; lia. }
  rewrite Hn'. assert (0 <= n' <= i_size ip - off) by (unfold n'; lia). clearbody n'. clear Hn' n Hn Hw.
  apply wp_bind. eapply wp_mono.
  { apply (wp_iterate (fun a s' => let '(tot, o, d) := a in o = off + tot /\ 0 <= tot <= n' /\ view me blks [] s' /\ unchanged s s' /\
        d = copyd g (file_byte (fsys s) ip) dst off 0 (Z.to_nat tot)) (fun a => Z.to_nat (n' - a.1.1))
      _ (fun d s' => d = copyd g (file_byte (fsys s) ip) dst off 0 (Z.to_nat n') /\ view me blks [] s' /\ unchanged s s')).
    - intros [[tot o] d] s1 (-> & Ht & V1 & U1 & ->). destruct (readable_unchanged _ _ _ _ R U1 L) as (R1 & L1 & Hf).
      destruct (tot <? n') eqn:Hlt.
      + apply Z.ltb_lt in Hlt. eapply wp_mono.
        { apply (wp_readi_round i s1 ip blks st g n' tot (off + tot)); try done; try lia.
          intros s' d k b R'. apply Hst. eapply same_rest_trans; [apply U1|exact R']. }
        intros r s2 (-> & V2 & U2). cbn [fst]. set (m := Z.min (n' - tot) (BSIZE - (off + tot) mod BSIZE)).
        assert (0 < m <= n' - tot) by (unfold m, BSIZE; divlia). split; [|lia]. split; [lia|]. split; [lia|]. split; [done|].
        split; [by eapply unchanged_trans|]. rewrite Z2Nat.inj_add by lia. rewrite copyd_app, !Z2Nat.id, Z.add_0_l by lia. apply copyd_ext.
        intros k Hk. apply Hf. rewrite MAXFILE_bytes. lia.
      + unfold readi_body. rewrite Hlt. cbn [negb]. apply wp_ret. apply Z.ltb_ge in Hlt. assert (tot = n') as -> by lia. done.
    - cbn. lia.
    - split_and!; try done; [lia|lia|apply unchanged_refl]. }
  intros d s' (-> & V' & U'). cbv beta. apply wp_ret. rewrite s32_id by lia. done.
Qed.

End file.

(** C27: writing a file.  Inside a transaction, for a write of up to four blocks inside
    the maximal file size, at an offset not beyond the end, with enough free blocks:
    writei returns the number of bytes; it allocates the missing blocks, the indirect
    block included; afterwards the file holds the bytes of the source at the offset
    and its old bytes everywhere else, its size is the maximum of the old size and
    the end of the write, and no block in use by anything else has changed but the
    bitmap and the block of the inode. *)
Theorem writei_updates_file {D} {BD : BlockDevice D} {DK : Disk D} {DS : DevSw D} (me : Z) (fuel i : nat) (s : kst (fsst D))
    (ip : inode) (blks : list Z) (ld : Z -> M (kst (fsst D)) Z) (g : Z -> Z) (off n : Z) :
  (1 <= fuel)%nat -> writable me i s ip blks off n -> source s ld g ->
  wp (writei fuel i ld off n) (fun r s' => r = n /\ exists ip',
    inodes (fsys s') = <[i := ip']> (inodes (fsys s)) /\ i_size ip' = Z.max (i_size ip) (off + n) /\ ino_ok (fsys s') ip' /\
    (forall p, 0 <= p < MAXFILE * BSIZE ->
       file_byte (fsys s') ip' p = if decide (off <= p < off + n) then u8 (g (p - off)) else file_byte (fsys s) ip p) /\
    (forall k, 0 <= k < sb_size (sb (fsys s)) -> used (fsys s) k = true -> ~ own (fsys s) ip k ->
       (forall c, 0 <= c < sb_size (sb (fsys s)) -> BBLOCK c (sb (fsys s)) <> k) -> k <> IBLOCK (inum ip) (sb (fsys s)) ->
       block (fsys s') k = block (fsys s) k)) s.
Proof.
  intros Hf W Hs. eapply wp_mono; [by apply (wp_writei me fuel Hf i s ip blks ld g off n)|].
  intros r s' (-> & ip' & F). split; [done|]. exists ip'. pose proof F as [Eip]. split; [done|].
  split; [by rewrite Eip|]. split; [done|]. split; [done|]. done.
Qed.

(** C6: what is written is what is read.  After a write as above to a file all of whose
    blocks below its size are there, readi at the same offset returns the same number
    of bytes and these are the bytes of the source. *)
Theorem writei_readi_roundtrip {D} {BD : BlockDevice D} {DK : Disk D} {DS : DevSw D} (me : Z) (fuel i : nat) (s : kst (fsst D))
    (ip : inode) (blks : list Z) (ld : Z -> M (kst (fsst D)) Z) (g : Z -> Z) (off n : Z) :
  (1 <= fuel)%nat -> writable me i s ip blks off n -> readable i s ip -> source s ld g ->
  wp (writei fuel i ld off n;; readi fuel i st_local ∅ off n)
     (fun r s' => r.1 = n /\ forall k, 0 <= k < n -> ld8 r.2 k = u8 (g k)) s.
Proof.
  intros Hf W R Hs. pose proof W as [Ht L Hsb Hi Ok Hin Hty Hoff Hn Hend Hl Hav]. rewrite MAXFILE_bytes in Hend.
  apply wp_bind. eapply wp_mono; [by apply (wp_writei me fuel Hf i s ip blks ld g off n)|].
  intros r s1 (-> & ip1 & F). cbv beta. destruct F as [Eip Ein (blks1 & Ht1 & Hl1) L1 Ok1 _ _ Hmp Hby _ _].
  assert (Esz : i_size ip1 = Z.max (i_size ip) (off + n) /\ i_type ip1 = i_type ip) by (rewrite Eip; done). destruct Esz as [Esz Ety].
  pose proof (rd_size _ _ _ R) as Hsz. rewrite MAXFILE_bytes in Hsz.
  assert (R1 : readable i s1 ip1).
  { split; [|done|congruence|rewrite MAXFILE_bytes; lia|].
    - rewrite Ein. apply list_lookup_insert_eq. by eapply lookup_lt_Some.
    - intros bn H1 H2. apply Hmp; [change MAXFILE with 140; unfold BSIZE in *; lia|].
      destruct (decide (bn * BSIZE < i_size ip)) as [H3|H3]; [left; by apply (rd_mapped _ _ _ R)|right].
      unfold last_blk, BSIZE in *. divlia. }
  eapply wp_mono; [apply (wp_readi me fuel Hf i s1 ip1 blks1 st_local st8 ∅ off n); try done; try lia; [apply Ht1|unfold NBUF; lia]|].
  intros r s2 (-> & _ & _). cbn [fst snd]. assert (En : Z.min n (i_size ip1 - off) = n) by lia. rewrite En. split; [done|].
  intros k Hk. rewrite ld8_copyd, decide_True by lia. rewrite Z.sub_0_r, Hby by (rewrite MAXFILE_bytes; lia).
  rewrite decide_True by lia. rewrite u8_id by apply u8_range. do 2 f_equal. lia.
Qed.

Definition ex_devsw : DevSw memdisk := {| dev_read := fun _ => None; dev_write := fun _ => None |}.

Lemma ex_ino_addr bn : baddr (fsys ex_open) ex_ino bn = 0.
Proof.
  unfold baddr. destruct (bn <? NDIRECT); [|done]. cbn [addrs ex_ino]. destruct (replicate 13 0 !! Z.to_nat bn) eqn:E; [|done].
  by apply lookup_replicate in E as [-> _].
Qed.

Lemma ex_ino_ok : ino_ok (fsys ex_open) ex_ino.
Proof.
  split; [done|done|..].
  - intros a [Ha [->|(bn & _ & ->)]]; [done|by rewrite ex_ino_addr in Ha].
  - intros bn bn' _ _ H. by rewrite ex_ino_addr in H.
  - intros bn _ H. by rewrite ex_ino_addr in H.
Qed.

(** A write of 600 bytes to the empty file needs two blocks. *)
Lemma ex_writable : writable (pid running_proc) 0 ex_open ex_ino [] 0 600.
Proof.
  split; [apply ex_open_txn|apply ex_layout|cbn; unfold BPB, BSIZE; lia|done|apply ex_ino_ok|cbn; lia|discriminate|cbn; lia|lia|
    rewrite MAXFILE_bytes; lia|vm_compute; discriminate|].
  exists 3%nat. split; [|vm_compute; lia]. exists [59; 60; 61]. split; [repeat constructor; set_solver|]. split; [done|].
  repeat constructor; cbn; try lia; vm_compute; reflexivity.
Qed.

Lemma ex_readable : readable 0 ex_open ex_ino.
Proof. split; [done|apply ex_ino_ok|discriminate|rewrite MAXFILE_bytes; cbn; lia|]. intros bn H1 H2. cbn in H2. unfold BSIZE in H2. lia. Qed.

Lemma writei_updates_file_witness :
  wp (writei (DS := ex_devsw) 1 0 (fun k => mret (k mod 256)) 0 600) (fun r s' => r = 600 /\ exists ip',
    inodes (fsys s') = <[0%nat := ip']> (inodes (fsys ex_open)) /\ i_size ip' = Z.max (i_size ex_ino) (0 + 600) /\ ino_ok (fsys s') ip' /\
    (forall p, 0 <= p < MAXFILE * BSIZE ->
       file_byte (fsys s') ip' p = if decide (0 <= p < 0 + 600) then u8 ((p - 0) mod 256) else file_byte (fsys ex_open) ex_ino p) /\
    (forall k, 0 <= k < sb_size (sb (fsys ex_open)) -> used (fsys ex_open) k = true -> ~ own (fsys ex_open) ex_ino k ->
       (forall c, 0 <= c < sb_size (sb (fsys ex_open)) -> BBLOCK c (sb (fsys ex_open)) <> k) -> k <> IBLOCK (inum ex_ino) (sb (fsys ex_open)) ->
       block (fsys s') k = block (fsys ex_open) k)) ex_open.
Proof.
  apply (writei_updates_file (DS := ex_devsw) (pid running_proc) 1 0 ex_open ex_ino [] _ (fun k => k mod 256) 0 600);
    [lia|apply ex_writable|by intros s' k _].
Defined.

Lemma writei_readi_roundtrip_witness :
  wp (writei (DS := ex_devsw) 1 0 (fun k => mret (k mod 256)) 0 600;; readi (DS := ex_devsw) 1 0 st_local ∅ 0 600)
     (fun r s' => r.1 = 600 /\ forall k, 0 <= k < 600 -> ld8 r.2 k = u8 (k mod 256)) ex_open.
Proof.
  apply (writei_readi_roundtrip (DS := ex_devsw) (pid running_proc) 1 0 ex_open ex_ino [] _ (fun k => k mod 256) 0 600);
    [lia|apply ex_writable|apply ex_readable|by intros s' k _].
Defined.
