(* ===== verification/FsDinode.v ===== *)
(** * Inodes on the disk (iupdate and ilock of fs.c)

    struct dinode is 64 bytes of a block: four shorts, the size and the block numbers.
    What iupdate stores is what ilock loads into a cache entry that is not valid, and
    the other inodes of the block stay as they are. *)

From Stdlib Require Import ZArith Lia.
From stdpp Require Import base tactics numbers option list strings zmap.
From S2P Require Import Prelude Memory Mmu StringOps Kalloc Vm Wmap Kernel Proc File Fork FsState Bio Log Txn Fs FsBlocks FsInode FsFile.

(** ** Encoding and decoding *)

Lemma s16_u16 v : -32768 <= v < 32768 -> s16 (u8 v + 256 * u8 (v / 256)) = v.
Proof.
  intros Hv. unfold s16, u8. change (2 ^ 15) with 32768. change (2 ^ 16) with 65536. change (2 ^ 8) with 256. divlia.
Qed.

Lemma ld8_st16_ne m a v b : b < a \/ a + 2 <= b -> ld8 (st16 m a v) b = ld8 m b.
Proof. intros H. unfold st16. by rewrite !ld8_st8_ne by lia. Qed.
Lemma field16 m m' a v : -32768 <= v < 32768 -> ld8 m' a = ld8 (st16 m a v) a -> ld8 m' (a + 1) = ld8 (st16 m a v) (a + 1) ->
  s16 (ld16 m' a) = v.
Proof. intros Hv H1 H2. unfold ld16. rewrite H1, H2. unfold st16. rewrite ld8_st8_ne, !ld8_st8_eq by lia. by apply s16_u16. Qed.

Lemma ld8_st_words ws m a b : b < a \/ a + 4 * Z.of_nat (List.length ws) <= b -> ld8 (st_words m a ws) b = ld8 m b.
Proof.
  revert m a. induction ws as [|w ws IH]; intros m a H; [done|]. cbn [st_words List.length] in *. rewrite IH by lia.
  by apply ld8_st32_ne; lia.
Qed.
Lemma ld32_st_words ws m a k w : ws !! k = Some w -> 0 <= w < 4294967296 -> ld32 (st_words m a ws) (a + 4 * Z.of_nat k) = w.
Proof.
  revert m a k. induction ws as [|v ws IH]; intros m a [|k] Hk Hw; try done; cbn [st_words].
  - injection Hk as ->. rewrite Z.add_0_r. rewrite (ld32_ext (st32 m a w)) by (intros; apply ld8_st_words; lia). by apply ld32_st32_eq.
  - replace (a + 4 * Z.of_nat (S k)) with (a + 4 + 4 * Z.of_nat k) by lia. by apply IH.
Qed.

(** The fields of an inode have the ranges of their C types. *)
Record fields_ok (ip : inode) : Prop := Fields_ok {
  fi_type : -32768 <= i_type ip < 32768;
  fi_major : -32768 <= major ip < 32768;
  fi_minor : -32768 <= minor ip < 32768;
  fi_nlink : -32768 <= nlink ip < 32768;
  fi_size : 0 <= i_size ip < 4294967296;
  fi_len : List.length (addrs ip) = S (Z.to_nat NDIRECT);
  fi_addrs : Forall (fun a => 0 <= a < 4294967296) (addrs ip) }.

Lemma di_store_ne m o ip b : List.length (addrs ip) = S (Z.to_nat NDIRECT) -> b < o \/ o + sizeof_dinode <= b ->
  ld8 (di_store m o ip) b = ld8 m b.
Proof.
  intros Hl Hb. unfold di_store, sizeof_dinode, NDIRECT in *. rewrite ld8_st_words by (rewrite Hl; lia).
  rewrite ld8_st32_ne by lia. by rewrite !ld8_st16_ne by lia.
Qed.

(** Loading what was stored. *)
Lemma di_load_store m o ip old : fields_ok ip ->
  di_load (di_store m o ip) o old = Inode (i_dev old) (inum old) (i_ref old) (i_lock old) (valid old)
    (i_type ip) (major ip) (minor ip) (nlink ip) (i_size ip) (addrs ip).
Proof.
  intros []. unfold di_load. f_equal.
  - unfold di_type, di_store. apply (field16 m); [done|..].
    all: by rewrite ld8_st_words, ld8_st32_ne, (ld8_st16_ne _ (o + 6)), (ld8_st16_ne _ (o + 4)), (ld8_st16_ne _ (o + 2))
      by (rewrite ?fi_len0; unfold NDIRECT; lia).
  - unfold di_major, di_store. apply (field16 (st16 m o (i_type ip))); [done|..].
    all: by rewrite ld8_st_words, ld8_st32_ne, (ld8_st16_ne _ (o + 6)), (ld8_st16_ne _ (o + 4)) by (rewrite ?fi_len0; unfold NDIRECT; lia).
  - unfold di_minor, di_store. apply (field16 (st16 (st16 m o (i_type ip)) (o + 2) (major ip))); [done|..].
    all: by rewrite ld8_st_words, ld8_st32_ne, (ld8_st16_ne _ (o + 6)) by (rewrite ?fi_len0; unfold NDIRECT; lia).
  - unfold di_nlink, di_store. apply (field16 (st16 (st16 (st16 m o (i_type ip)) (o + 2) (major ip)) (o + 4) (minor ip))); [done|..].
    all: by rewrite ld8_st_words, ld8_st32_ne by (rewrite ?fi_len0; unfold NDIRECT; lia).
  - unfold di_size, di_store. erewrite ld32_ext; [apply ld32_st32_eq; done|]. intros. apply ld8_st_words. rewrite fi_len0. unfold NDIRECT. lia.
  - unfold di_addrs, di_store. apply list_eq. intros k. rewrite list_lookup_fmap.
    destruct (decide (k < S (Z.to_nat NDIRECT))%nat) as [Hk|Hk].
    + rewrite lookup_seq_lt by done. cbn [fmap option_fmap option_map]. destruct (addrs ip !! k) as [w|] eqn:Ew; [|apply lookup_ge_None in Ew; lia].
      f_equal. apply ld32_st_words; [done|]. by apply (proj1 (Forall_lookup _ _) fi_addrs0 k).
    + rewrite lookup_seq_ge by lia. rewrite lookup_ge_None_2 by lia. done.
Qed.

(** Loading depends only on the 64 bytes of the inode. *)
Lemma di_load_ext m m' o ip : (forall j, o <= j < o + sizeof_dinode -> ld8 m j = ld8 m' j) -> di_load m o ip = di_load m' o ip.
Proof.
  intros H. unfold sizeof_dinode in H. unfold di_load, di_type, di_major, di_minor, di_nlink, di_size, di_addrs, ld16.
  rewrite !H by lia. rewrite (ld32_ext m' m) by (intros; apply H; lia). f_equal. apply list_fmap_ext. intros j k Hk.
  apply lookup_seq in Hk as [-> Hk]. apply ld32_ext. intros. apply H. unfold NDIRECT in Hk. lia.
Qed.

(** The offset of an inode in its block. *)
Lemma dinode_off_range n : 0 <= n -> 0 <= dinode_off n /\ dinode_off n + sizeof_dinode <= BSIZE.
Proof. intros Hn. unfold dinode_off, sizeof_dinode, IPB. change (BSIZE / sizeof_dinode) with 8. unfold BSIZE. divlia. Qed.

Lemma dinode_off_apart n n' : 0 <= n -> 0 <= n' -> n <> n' -> n / IPB = n' / IPB ->
  dinode_off n' + sizeof_dinode <= dinode_off n \/ dinode_off n + sizeof_dinode <= dinode_off n'.
Proof. intros H1 H2 H3 H4. unfold dinode_off, sizeof_dinode, IPB in *. change (BSIZE / sizeof_dinode) with 8 in *. divlia. Qed.

Section dinode.
Context {D : Type} {BD : BlockDevice D} {DK : Disk D} (me : Z) (fuel : nat) (Hfuel : enough fuel).
Implicit Types (s : kst (fsst D)) (ip : inode) (blks : list Z).

(** ilock of an unlocked cache entry that is not valid loads the inode. *)
Lemma wp_ilock_load blks s i ip : 
  view me blks [] s -> (List.length blks + 1 < NBUF)%nat -> inodes (fsys s) !! i = Some ip ->
  1 <= i_ref ip -> locked (i_lock ip) = 0 -> valid ip = 0 -> i_dev ip = 1 -> 0 <= inum ip ->
  0 <= IBLOCK (inum ip) (sb (fsys s)) < dsize (disk (fsys s)) ->
  (forall m, bytes m = block (fsys s) (IBLOCK (inum ip) (sb (fsys s))) -> di_type m (dinode_off (inum ip)) <> 0) ->
  wp (ilock fuel i) (fun _ s' => view me blks [] s' /\ exists m, bytes m = block (fsys s) (IBLOCK (inum ip) (sb (fsys s))) /\
    inodes (fsys s') = <[i := set_valid 1 (di_load m (dinode_off (inum ip)) (set_i_lock (Sleeplock 1 me) ip))]> (inodes (fsys s)) /\
    forall k, 0 <= k < dsize (disk (fsys s)) -> block (fsys s') k = block (fsys s) k) s.
Proof.
  intros V Hl Hi Hr Hlk Hv Hdev Hnum HB Hty. pose proof (vw_env _ _ _ _ V) as (c & p & Hc & Hp & Hme & Hh).
  unfold ilock. apply wp_bind. eapply wp_result; [by apply run_get_inode|]. cbv beta. rewrite (proj2 (Z.ltb_ge _ _)) by lia.
  apply wp_bind. eapply wp_result.
  { apply (run_acquiresleep fuel s (SL_inode i) (i_lock ip) c p); try done; [rewrite Hh; apply not_elem_of_nil|cbn; by rewrite Hi]. }
  cbv beta. rewrite Hme. set (ip1 := set_i_lock (Sleeplock 1 me) ip).
  assert (Es : with_sl (SL_inode i) (Sleeplock 1 me) s = with_ino i ip1 s).
  { cbn. unfold with_ino. f_equal. by apply alter_insert_lookup. }
  rewrite Es. set (s1 := with_ino i ip1 s).
  assert (Hi1 : inodes (fsys s1) !! i = Some ip1) by (cbn; apply list_lookup_insert_eq; by eapply lookup_lt_Some).
  apply wp_bind. eapply wp_result; [by apply run_get_inode|]. cbv beta. change (valid ip1) with (valid ip). rewrite Hv. cbn [Z.eqb when].
  unfold get_sb. apply wp_bind, wp_gets. cbv beta. change (i_dev ip1) with (i_dev ip). rewrite Hdev. change (inum ip1) with (inum ip).
  change (sb (fsys s1)) with (sb (fsys s)). set (B := IBLOCK _ _) in *.
  eapply (wp_read me fuel blks []); [done|by apply view_with_ino|exact HB|apply not_elem_of_nil|cbn; lia|]. intros bp m s2 V2 U2 Hm Em.
  eapply (wp_get_held me _ _ _ (Hbuf bp _ m)); [exact V2|left|]. cbn [h_data h_blk]. intros x -> _.
  assert (Hi2 : inodes (fsys s2) !! i = Some ip1) by (by rewrite (un_inodes _ _ U2)).
  apply wp_bind. eapply wp_result; [by apply run_upd_inode|]. cbv beta. fold (with_ino i (di_load m (dinode_off (inum ip1)) ip1) s2).
  change (inum ip1) with (inum ip). set (ip3 := di_load m (dinode_off (inum ip)) ip1). set (s3 := with_ino i ip3 s2).
  eapply (wp_release me _ (Hbuf bp B m)); [by apply view_with_ino|]. intros s4 V4 U4.
  assert (Hi4 : inodes (fsys s4) !! i = Some ip3).
  { rewrite (un_inodes _ _ U4). cbn. apply list_lookup_insert_eq. by eapply lookup_lt_Some. }
  apply wp_bind. eapply wp_result; [by apply run_upd_inode|]. cbv beta. fold (with_ino i (set_valid 1 ip3) s4).
  apply wp_bind. eapply wp_result; [apply run_get_inode; cbn; apply list_lookup_insert_eq; by eapply lookup_lt_Some|]. cbv beta.
  rewrite (proj2 (Z.eqb_neq _ _)) by (by apply Hty). apply wp_ret. split; [by apply view_with_ino|]. exists m. split; [done|]. split.
  - cbn. rewrite (un_inodes _ _ U4). cbn. rewrite (un_inodes _ _ U2). cbn. by rewrite !list_insert_insert_eq.
  - intros k Hk. change (block (fsys (with_ino i (set_valid 1 ip3) s4)) k) with (block (fsys s4) k).
    rewrite (un_block _ _ U4) by (cbn; by rewrite (un_disk _ _ U2)). change (block (fsys s3) k) with (block (fsys s2) k).
    by rewrite (un_block _ _ U2).
Qed.

Lemma IBLOCK_inj (f : fsst D) n n' : layout f -> 0 <= n < sb_ninodes (sb f) -> 0 <= n' < sb_ninodes (sb f) ->
  IBLOCK n (sb f) = IBLOCK n' (sb f) -> n / IPB = n' / IPB.
Proof.
  intros L Hn Hn'. pose proof (lo_ninodes _ L). unfold IBLOCK, u32, IPB. change (BSIZE / sizeof_dinode) with 8. change (2 ^ 32) with 4294967296.
  assert (0 <= n / 8 < 4294967296 / 8) by divlia. assert (0 <= n' / 8 < 4294967296 / 8) by divlia.
  generalize dependent (n / 8). generalize dependent (n' / 8). intros x Hx y Hy E. clear -Hx Hy E. divlia.
Qed.

(** Storing one inode leaves the other inodes on the disk. *)
Lemma other_dinodes s ip m s1 n j :
  layout (fsys s) -> 0 <= inum ip < sb_ninodes (sb (fsys s)) -> fields_ok ip -> bytes m = block (fsys s) (IBLOCK (inum ip) (sb (fsys s))) ->
  effect s [(IBLOCK (inum ip) (sb (fsys s)), bytes (di_store m (dinode_off (inum ip)) ip))] s1 ->
  0 <= n < sb_ninodes (sb (fsys s)) -> n <> inum ip -> 0 <= j < sizeof_dinode ->
  byte_at (block (fsys s1) (IBLOCK n (sb (fsys s)))) (dinode_off n + j) =
  byte_at (block (fsys s) (IBLOCK n (sb (fsys s)))) (dinode_off n + j).
Proof.
  intros L Hin Hfo Em E Hn Hne Hj. destruct (lo_inode _ L n Hn) as [[HBn _] _]. rewrite (ef_block _ _ _ E) by done. cbn.
  case_decide as Eq; [|done]. rewrite Eq, <- Em. destruct (dinode_off_range n) as [N1 N2]; [lia|].
  rewrite !byte_bytes by (unfold sizeof_dinode, BSIZE in *; lia). apply di_store_ne; [apply Hfo|].
  apply (IBLOCK_inj (fsys s)) in Eq; [|done..]. destruct (dinode_off_apart n (inum ip)); [lia|lia|done|done|lia|lia].
Qed.

End dinode.

(** C33: inodes survive on the disk.  iupdate, inside a transaction, writes the fields of
    the cached inode [i] so that a cache entry for the same inode that is not valid
    (its other fields [old] are arbitrary) gets exactly these fields back from ilock,
    locked by the caller and valid; every other inode on the disk keeps its 64 bytes. *)
Theorem iupdate_ilock_roundtrip {D} {BD : BlockDevice D} {DK : Disk D} (me : Z) (fuel i : nat) (s : kst (fsst D))
    (blks : list Z) (ip old : inode) :
  (1 <= fuel)%nat -> txn me blks [] s -> Z.of_nat (List.length blks) < MAXOPBLOCKS -> layout (fsys s) ->
  inodes (fsys s) !! i = Some ip -> i_dev ip = 1 -> 0 <= inum ip < sb_ninodes (sb (fsys s)) -> fields_ok ip -> i_type ip <> 0 ->
  i_dev old = 1 -> inum old = inum ip -> 1 <= i_ref old -> valid old = 0 -> locked (i_lock old) = 0 ->
  wp (iupdate fuel i;; upd_inode i (fun _ => old);; ilock fuel i) (fun _ s' =>
    inodes (fsys s') !! i = Some (Inode 1 (inum ip) (i_ref old) (Sleeplock 1 me) 1
      (i_type ip) (major ip) (minor ip) (nlink ip) (i_size ip) (addrs ip)) /\
    forall n j, 0 <= n < sb_ninodes (sb (fsys s)) -> n <> inum ip -> 0 <= j < sizeof_dinode ->
      byte_at (block (fsys s') (IBLOCK n (sb (fsys s)))) (dinode_off n + j) =
      byte_at (block (fsys s) (IBLOCK n (sb (fsys s)))) (dinode_off n + j)) s.
Proof.
  intros Hf Ht Hl L Hi Hdev Hin Hfo Hty Od On Or Ov Ol.
  apply wp_bind. eapply wp_mono; [by apply (wp_iupdate me fuel Hf blks s i ip)|].
  intros ? s1 (Ht1 & m & Hm & Em & E1). cbv beta. set (B := IBLOCK (inum ip) (sb (fsys s))) in *.
  pose proof (proj1 (lo_inode _ L _ Hin)) as [HB _]. fold B in HB. destruct (dinode_off_range (inum ip)) as [O1 O2]; [lia|].
  assert (EB : block (fsys s1) B = bytes (di_store m (dinode_off (inum ip)) ip)).
  { rewrite (ef_block _ _ _ E1) by done. cbn. by rewrite decide_True. }
  assert (Hi1 : (i < List.length (inodes (fsys s1)))%nat) by (rewrite (ef_inodes _ _ _ E1); by eapply lookup_lt_Some).
  apply wp_bind. eapply wp_result; [apply run_upd_inode; rewrite (ef_inodes _ _ _ E1); exact Hi|]. cbv beta. fold (with_ino i old s1).
  assert (Hld : forall m' o', bytes m' = block (fsys s1) B -> di_load m' (dinode_off (inum ip)) o' = di_load (di_store m (dinode_off (inum ip)) ip) (dinode_off (inum ip)) o').
  { intros m' o' Em'. apply di_load_ext. intros j Hj. rewrite <- !byte_bytes by (unfold sizeof_dinode, BSIZE in *; lia). by rewrite Em', EB. }
  assert (Hsb : sb (fsys (with_ino i old s1)) = sb (fsys s)) by (cbn; apply E1).
  eapply wp_mono; [apply (wp_ilock_load me fuel Hf (record_blk B blks) (with_ino i old s1) i old)|].
  - apply view_with_ino, Ht1.
  - pose proof (length_record_blk B blks). unfold MAXOPBLOCKS, NBUF in *. lia.
  - cbn. by apply list_lookup_insert_eq.
  - done.
  - done.
  - done.
  - done.
  - lia.
  - rewrite Hsb, On. cbn. by rewrite (ef_disk _ _ _ E1).
  - rewrite Hsb, On. intros m' Em'. pose proof (Hld m' old Em') as Hd. rewrite di_load_store in Hd by done.
    intros E0. apply Hty. assert (F : i_type (di_load m' (dinode_off (inum ip)) old) = i_type ip) by (by rewrite Hd).
    cbn in F. congruence.
  - intros ? s2 (V2 & m' & Em' & Ei & Hblk). rewrite Hsb, On in *. split.
    + rewrite Ei. cbn [inodes fsys with_ino set_inodes set_fsys]. rewrite list_insert_insert_eq, list_lookup_insert_eq by done.
      rewrite Hld, di_load_store by done. cbn. by rewrite Od, On.
    + intros n j Hn Hne Hj. destruct (lo_inode _ L n Hn) as [[HBn _] _].
      rewrite Hblk by (cbn; by rewrite (ef_disk _ _ _ E1)). exact (other_dinodes s ip m s1 n j L Hin Hfo Em E1 Hn Hne Hj).
Qed.

(** A cache entry that has just been taken by iget. *)
Definition ex_stale : inode := Inode 1 5 1 (Sleeplock 0 0) 0 7 7 7 7 7 [].

Lemma ex_fields : fields_ok ex_ino.
Proof. split; cbn; unfold T_FILE; try lia; [done|]. by repeat (constructor; [lia|]). Qed.

Lemma iupdate_ilock_roundtrip_witness :
  wp (iupdate 1 0;; upd_inode 0 (fun _ => ex_stale);; ilock 1 0) (fun _ s' =>
    inodes (fsys s') !! 0%nat = Some (Inode 1 (inum ex_ino) (i_ref ex_stale) (Sleeplock 1 (pid running_proc)) 1
      (i_type ex_ino) (major ex_ino) (minor ex_ino) (nlink ex_ino) (i_size ex_ino) (addrs ex_ino)) /\
    forall n j, 0 <= n < sb_ninodes (sb (fsys ex_open)) -> n <> inum ex_ino -> 0 <= j < sizeof_dinode ->
      byte_at (block (fsys s') (IBLOCK n (sb (fsys ex_open)))) (dinode_off n + j) =
      byte_at (block (fsys ex_open) (IBLOCK n (sb (fsys ex_open)))) (dinode_off n + j)) ex_open.
Proof.
  apply (iupdate_ilock_roundtrip (pid running_proc) 1 0 ex_open [] ex_ino ex_stale);
    [lia|apply ex_open_txn|done|apply ex_layout|done|done|cbn; lia|apply ex_fields|discriminate|done|done|cbn; lia|done|done].
Defined.
