(* ===== verification/Exec.v ===== *)
(** * exec (exec.c, loaduvm of vm.c)

    Loading a program: the ELF headers are read through the file system, the image
    is built in a new page table, the arguments are pushed on its stack, and only
    then is the process switched to it. *)

From Stdlib Require Import ZArith Lia.
From stdpp Require Import base tactics numbers option list strings zmap.
From S2P Require Import Prelude Memory Mmu StringOps Kalloc Vm Cow Wmap Kernel Proc Pipe File Fork PageFault Syscall FsState Bio Log Fs.

(** ** elf.h: offsets of the fields of struct elfhdr and struct proghdr *)
Definition ELF_MAGIC : Z := 0x464C457F.
Definition ELF_PROG_LOAD : Z := 1.
Definition ELF_PROG_FLAG_WRITE : Z := 2.
Definition sizeof_elfhdr : Z := 52.
Definition elf_magic : Z := 0.
Definition elf_entry : Z := 24.
Definition elf_phoff : Z := 28.
Definition elf_phnum : Z := 44.
Definition sizeof_proghdr : Z := 32.
Definition ph_type : Z := 0.
Definition ph_off : Z := 4.
Definition ph_vaddr : Z := 8.
Definition ph_filesz : Z := 16.
Definition ph_memsz : Z := 20.
Definition ph_flags : Z := 24.
Definition MAXARG : Z := 32.

Section exec.
Context {KI : KernelImage} {KS0 : KernelSymbols} {D : Type} {BD : BlockDevice D} {DS : DevSw D} (fuel : nat).
#[local] Abbreviation MK := (M (kst (fsst D))).
#[local] Instance exec_fs : FileSys (fsst D) := xv6fs fuel.

Definition loaduvm_body (pd va : Z) (ip : nat) (offset sz flags i : Z) : MK (Z + Z) :=
  if negb (i <? sz) then mret (inr 0)
  else
    pte ← run_km (walkpgdir pd (u32 (va + i)) false);
    if pte =? 0 then panic "loaduvm: address should exist"
    else
      e ← kld32 pte;
      let pa := PTE_ADDR e in
      let n := if sz - i <? PGSIZE then sz - i else PGSIZE in
      r ← readi fuel ip (fun _ k b => kst8 (P2V pa + k) b) tt (u32 (offset + i)) n;
      if negb (u32 r.1 =? n) then mret (inr (-1))
      else
        e ← kld32 pte;
        (if flag flags ELF_PROG_FLAG_WRITE then kst32 pte (Z.lor e ELF_PROG_FLAG_WRITE)
         else kst32 pte (Z.land e (Z.lnot ELF_PROG_FLAG_WRITE)));;
        mret (inl (i + PGSIZE)).

Definition loaduvm (pd va : Z) (ip : nat) (offset sz flags : Z) : MK Z :=
  if negb (va mod PGSIZE =? 0) then panic "loaduvm: addr must be page aligned"
  else iterate (S (S (Z.to_nat (sz / PGSIZE)))) (loaduvm_body pd va ip offset sz flags) 0.

(** The label bad. *)
Definition exec_bad (pd : Z) (ip : option nat) : MK Z :=
  when (negb (pd =? 0)) (run_km (freevm pd));;
  match ip with Some i => iunlockput fuel i;; end_op fuel | None => mret tt end;;
  mret (-1).

(** One program header: the number of headers left to see, the offset of the next one, the size of the image;
    [None] is the jump to bad. *)
Definition exec_seg (pd : Z) (ip : nat) (phnum : Z) (a : Z * Z * Z) : MK ((Z * Z * Z) + option Z) :=
  let '(i, off, sz) := a in
  if negb (i <? phnum) then mret (inr (Some sz))
  else
    r ← readi fuel ip st_local ∅ (u32 off) sizeof_proghdr;
    let '(n, ph) := r in
    if negb (n =? sizeof_proghdr) then mret (inr None)
    else if negb (ld32 ph ph_type =? ELF_PROG_LOAD) then mret (inl (i + 1, off + sizeof_proghdr, sz))
    else if ld32 ph ph_memsz <? ld32 ph ph_filesz then mret (inr None)
    else if u32 (ld32 ph ph_vaddr + ld32 ph ph_memsz) <? ld32 ph ph_vaddr then mret (inr None)
    else
      sz ← run_km (allocuvm pd sz (u32 (ld32 ph ph_vaddr + ld32 ph ph_memsz)));
      if sz =? 0 then mret (inr None)
      else if negb (ld32 ph ph_vaddr mod PGSIZE =? 0) then mret (inr None)
      else
        r ← loaduvm pd (ld32 ph ph_vaddr) ip (ld32 ph ph_off) (ld32 ph ph_filesz) (ld32 ph ph_flags);
        if r <? 0 then mret (inr None)
        else mret (inl (i + 1, off + sizeof_proghdr, sz)).

(** strlen and the bytes of a string in user memory. *)
Definition user_strlen (a : Z) : MK Z :=
  iterate fuel (fun n => c ← uld8 fuel (u32 (a + n)); if c =? 0 then mret (inr n) else mret (inl (n + 1))) 0.
Fixpoint user_bytes (a : Z) (n : nat) : MK (list Z) :=
  match n with
  | O => mret []
  | S n' => c ← uld8 fuel (u32 a); cs ← user_bytes (a + 1) n'; mret (c :: cs)
  end.

(** Push the argument strings: the count, the stack pointer, the entries of ustack
    from index 3. *)
Definition exec_arg (pd : Z) (argv : list Z) (a : Z * Z * list Z) : MK ((Z * Z * list Z) + option (Z * Z * list Z)) :=
  let '(argc, sp, ustack) := a in
  match argv !! Z.to_nat argc with
  | None => undef "argv index"
  | Some arg =>
      if arg =? 0 then mret (inr (Some (argc, sp, ustack)))
      else if MAXARG <=? argc then mret (inr None)
      else
        len ← user_strlen arg;
        let sp := Z.land (u32 (sp - (len + 1))) 0xFFFFFFFC in
        len ← user_strlen arg;
        bytes ← user_bytes arg (Z.to_nat (len + 1));
        r ← run_km (copyout pd sp bytes);
        if r <? 0 then mret (inr None) else mret (inl (argc + 1, sp, ustack ++ [sp]))
  end.

(** The bytes of a word in memory. *)
Definition word_bytes (w : Z) : list Z := [u8 w; u8 (w / 256); u8 (w / 65536); u8 (w / 16777216)].

(** The scan for the last path element. *)
Definition last_body (path : Z) (a : Z * Z) : MK ((Z * Z) + Z) :=
  let '(s, last) := a in
  c ← uld8 fuel (u32 (path + s));
  if c =? 0 then mret (inr last) else mret (inl (s + 1, if c =? SLASH then s + 1 else last)).

(** safestrcpy from user memory: the bytes it stores. *)
Fixpoint user_safestr (a : Z) (n : nat) : MK (list Z) :=
  match n with
  | O => mret [0]
  | S n' =>
      c ← uld8 fuel (u32 a);
      if c =? 0 then mret [0; 0] else cs ← user_safestr (a + 1) n'; mret (c :: cs)
  end.

(** From the new image to the end: stack, arguments, switch. *)
Definition exec_image (cp : nat) (path : Z) (argv : list Z) (pd sz entry : Z) : MK Z :=
  let sz := PGROUNDUP sz in
  sz ← run_km (allocuvm pd sz (u32 (sz + 2 * PGSIZE)));
  if sz =? 0 then exec_bad pd None
  else
    run_km (clearpteu pd (u32 (sz - 2 * PGSIZE)));;
    r ← iterate (S (S (Z.to_nat MAXARG))) (exec_arg pd argv) (0, sz, []);
    match r with
    | None => exec_bad pd None
    | Some (argc, sp, args) =>
        let ustack := [0xFFFFFFFF; argc; u32 (sp - (argc + 1) * 4)] ++ args ++ [0] in
        let sp := u32 (sp - (3 + argc + 1) * 4) in
        r ← run_km (copyout pd sp (mjoin (word_bytes <$> ustack)));
        if r <? 0 then exec_bad pd None
        else
          last ← iterate fuel (last_body path) (0, 0);
          nm ← user_safestr (path + last) 15;
          upd_proc cp (fun p => set_p_name (nm ++ drop (List.length nm) (name p)) p);;
          p ← get_proc cp;
          let oldpgdir := pgdir p in
          upd_proc cp (set_p_pgdir pd);;
          upd_proc cp (set_p_sz sz);;
          kst32 (tf p + tf_eip) entry;;
          kst32 (tf p + tf_esp) sp;;
          switchuvm (Some cp);;
          run_km (freevm oldpgdir);;
          mret 0
    end.

Definition exec (path : Z) (argv : list Z) : MK Z :=
  cp ← curproc;
  begin_op fuel;;
  ip ← namei fuel (fun k => uld8 fuel (u32 (path + k)));
  match ip with
  | None => end_op fuel;; mret (-1)
  | Some ip =>
      ilock fuel ip;;
      r ← readi fuel ip st_local ∅ 0 sizeof_elfhdr;
      let '(n, elf) := r in
      if negb (n =? sizeof_elfhdr) then exec_bad 0 (Some ip)
      else if negb (ld32 elf elf_magic =? ELF_MAGIC) then exec_bad 0 (Some ip)
      else
        pd ← run_km setupkvm;
        if pd =? 0 then exec_bad pd (Some ip)
        else
          r ← iterate (S (Z.to_nat (ld16 elf elf_phnum)))
                (exec_seg pd ip (ld16 elf elf_phnum)) (0, s32 (ld32 elf elf_phoff), 0);
          match r with
          | None => exec_bad pd (Some ip)
          | Some sz =>
              iunlockput fuel ip;;
              end_op fuel;;
              exec_image cp path argv pd sz (ld32 elf elf_entry)
          end
  end.

End exec.
