(* ===== verification/Sysfile.v ===== *)
(** * System calls on files (sysfile.c)

    The handlers of sysfile.c.  Path names and buffers are in user memory and are
    accessed through the page table of the process. *)

From Stdlib Require Import ZArith Lia.
From stdpp Require Import base tactics numbers option list strings zmap.
From S2P Require Import Prelude Memory Mmu StringOps Kalloc Vm Cow Wmap Kernel Proc Pipe File Fork PageFault Syscall Sysproc FsState Bio Log Fs Exec.

(** ** fcntl.h *)
Definition O_RDONLY : Z := 0x000.
Definition O_WRONLY : Z := 0x001.
Definition O_RDWR : Z := 0x002.
Definition O_CREATE : Z := 0x200.
Definition sizeof_stat : Z := 20.

Section sysfile.
Context {KI : KernelImage} {KS0 : KernelSymbols} {D : Type} {BD : BlockDevice D} {DS : DevSw D} (fuel : nat).
#[local] Abbreviation MK := (M (kst (fsst D))).
#[local] Instance sysfile_fs : FileSys (fsst D) := xv6fs fuel.

(** A path, a source and a destination in user memory. *)
Definition upath (a k : Z) : MK Z := uld8 fuel (u32 (a + k)).
Definition usrc (a k : Z) : MK Z := uld8 fuel (u32 (a + k)).
Definition udst (a k b : Z) : MK unit := ust8 fuel (u32 (a + k)) b.

(** ** Descriptors *)

(** The descriptor and the file. *)
Definition argfd (n : Z) : MK (option (Z * nat)) :=
  v ← argint fuel n;
  match v with
  | None => mret None
  | Some fd =>
      if (fd <? 0) || (Z.of_nat NOFILE <=? fd) then mret None
      else
        i ← curproc;
        f ← get_ofile i fd;
        mret ((fun f => (fd, f)) <$> f)
  end.

Definition fdalloc (f : nat) : MK Z :=
  i ← curproc;
  p ← get_proc i;
  match find_index (fun o => bool_decide (o = None)) (take NOFILE (ofile p)) with
  | Some fd => upd_proc i (fun p => set_p_ofile (<[fd := Some f]> (ofile p)) p);; mret (Z.of_nat fd)
  | None => mret (-1)
  end.

(** myproc()->ofile[fd] = 0 *)
Definition fdclear (fd : Z) : MK unit :=
  i ← curproc; upd_proc i (fun p => set_p_ofile (<[Z.to_nat fd := None]> (ofile p)) p).

Definition with_fd (n : Z) (k : Z -> nat -> MK Z) : MK Z :=
  v ← argfd n; match v with None => mret (-1) | Some (fd, f) => k fd f end.
Definition with_ptr (n size : Z) (k : Z -> MK Z) : MK Z :=
  v ← argptr fuel n size; match v with None => mret (-1) | Some a => k a end.
Definition with_str (n : Z) (k : Z -> MK Z) : MK Z :=
  v ← argstr fuel n; match v with None => mret (-1) | Some (a, _) => k a end.

Definition sys_dup : MK Z :=
  with_fd 0 (fun _ f =>
    fd ← fdalloc f;
    if fd <? 0 then mret (-1) else filedup f;; mret fd).

Definition sys_read : MK Z :=
  with_fd 0 (fun _ f =>
  with_int fuel 2 (-1) (fun n =>
  with_ptr 1 n (fun p => fileread fuel f (udst p) n))).

Definition sys_write : MK Z :=
  with_fd 0 (fun _ f =>
  with_int fuel 2 (-1) (fun n =>
  with_ptr 1 n (fun p => filewrite fuel f (usrc p) n))).

Definition sys_close : MK Z :=
  with_fd 0 (fun fd f => fdclear fd;; fileclose f;; mret 0).

Definition sys_fstat : MK Z :=
  with_fd 0 (fun _ f => with_ptr 1 sizeof_stat (fun st => filestat f (udst st))).

(** ** link *)

Definition link_bad (i : nat) : MK Z :=
  ilock fuel i;;
  upd_inode i (fun ip => set_nlink (s16 (nlink ip - 1)) ip);;
  iupdate fuel i;;
  iunlockput fuel i;;
  end_op fuel;;
  mret (-1).

Definition sys_link : MK Z :=
  with_str 0 (fun old =>
  with_str 1 (fun new =>
    begin_op fuel;;
    r ← namei fuel (upath old);
    match r with
    | None => end_op fuel;; mret (-1)
    | Some i =>
        ilock fuel i;;
        ip ← get_inode i;
        if i_type ip =? T_DIR then iunlockput fuel i;; end_op fuel;; mret (-1)
        else
          upd_inode i (fun ip => set_nlink (s16 (nlink ip + 1)) ip);;
          iupdate fuel i;;
          iunlock i;;
          r ← nameiparent fuel (upath new);
          match r with
          | (None, _) => link_bad i
          | (Some d, nm) =>
              ilock fuel d;;
              dp ← get_inode d;
              ip ← get_inode i;
              r ← (if negb (i_dev dp =? i_dev ip) then mret (-1) else dirlink fuel d nm (inum ip));
              if r <? 0 then iunlockput fuel d;; link_bad i
              else
                iunlockput fuel d;;
                iput fuel i;;
                end_op fuel;;
                mret 0
          end
    end)).

(** ** unlink *)

Definition isdirempty_body (d : nat) (off : Z) : MK (Z + bool) :=
  dp ← get_inode d;
  if negb (off <? i_size dp) then mret (inr true)
  else
    r ← readi fuel d st_local ∅ off sizeof_dirent;
    let '(n, de) := r in
    if negb (n =? sizeof_dirent) then panic "isdirempty: readi"
    else if negb (de_inum de =? 0) then mret (inr false)
    else mret (inl (off + sizeof_dirent)).

Definition isdirempty (d : nat) : MK bool :=
  dp ← get_inode d;
  iterate (S (Z.to_nat (i_size dp))) (isdirempty_body d) (2 * sizeof_dirent).

Definition DOT : Zmap Z := st_bytes ∅ 0 [46; 0].
Definition DOTDOT : Zmap Z := st_bytes ∅ 0 [46; 46; 0].

Definition unlink_bad (d : nat) : MK Z := iunlockput fuel d;; end_op fuel;; mret (-1).

Definition unlink_found (d i : nat) (off : Z) : MK Z :=
  ilock fuel i;;
  ip ← get_inode i;
  if nlink ip <? 1 then panic "unlink: nlink < 1"
  else
    empty ← (if i_type ip =? T_DIR then isdirempty i else mret true);
    if negb (empty : bool) then iunlockput fuel i;; unlink_bad d
    else
      w ← writei fuel d (fun k => mret (ld8 (memset ∅ 0 0 sizeof_dirent) k)) off sizeof_dirent;
      if negb (w =? sizeof_dirent) then panic "unlink: writei"
      else
        ip ← get_inode i;
        when (i_type ip =? T_DIR)
          (upd_inode d (fun dp => set_nlink (s16 (nlink dp - 1)) dp);; iupdate fuel d);;
        iunlockput fuel d;;
        upd_inode i (fun ip => set_nlink (s16 (nlink ip - 1)) ip);;
        iupdate fuel i;;
        iunlockput fuel i;;
        end_op fuel;;
        mret 0.

Definition sys_unlink : MK Z :=
  with_str 0 (fun path =>
    begin_op fuel;;
    r ← nameiparent fuel (upath path);
    match r with
    | (None, _) => end_op fuel;; mret (-1)
    | (Some d, nm) =>
        ilock fuel d;;
        if (namecmp nm DOT =? 0) || (namecmp nm DOTDOT =? 0) then unlink_bad d
        else
          r ← dirlookup fuel d nm;
          match r with
          | None => unlink_bad d
          | Some (i, off) => unlink_found d i off
          end
    end).

(** ** create, open *)

Definition create_new (d : nat) (nm : Zmap Z) (type maj min : Z) : MK (option nat) :=
  dp ← get_inode d;
  i ← ialloc fuel (i_dev dp) type;
  ilock fuel i;;
  upd_inode i (set_major maj);;
  upd_inode i (set_minor min);;
  upd_inode i (set_nlink 1);;
  iupdate fuel i;;
  when (type =? T_DIR)
    (upd_inode d (fun dp => set_nlink (s16 (nlink dp + 1)) dp);;
     iupdate fuel d;;
     ip ← get_inode i;
     r ← dirlink fuel i DOT (inum ip);
     if r <? 0 then panic "create dots"
     else
       dp ← get_inode d;
       r ← dirlink fuel i DOTDOT (inum dp);
       if r <? 0 then panic "create dots" else mret tt);;
  ip ← get_inode i;
  r ← dirlink fuel d nm (inum ip);
  if r <? 0 then panic "create: dirlink"
  else iunlockput fuel d;; mret (Some i).

Definition create (path : Z) (type maj min : Z) : MK (option nat) :=
  r ← nameiparent fuel (upath path);
  match r with
  | (None, _) => mret None
  | (Some d, nm) =>
      ilock fuel d;;
      r ← dirlookup fuel d nm;
      match r with
      | Some (i, _) =>
          iunlockput fuel d;;
          ilock fuel i;;
          ip ← get_inode i;
          if (type =? T_FILE) && (i_type ip =? T_FILE) then mret (Some i)
          else iunlockput fuel i;; mret None
      | None => create_new d nm type maj min
      end
  end.

(** The inode to open, locked: created or looked up. *)
Definition open_inode (path omode : Z) : MK (option nat) :=
  if flag omode O_CREATE then
    r ← create path T_FILE 0 0;
    match r with None => end_op fuel;; mret None | Some i => mret (Some i) end
  else
    r ← namei fuel (upath path);
    match r with
    | None => end_op fuel;; mret None
    | Some i =>
        ilock fuel i;;
        ip ← get_inode i;
        if (i_type ip =? T_DIR) && negb (omode =? O_RDONLY) then
          iunlockput fuel i;; end_op fuel;; mret None
        else mret (Some i)
    end.

Definition open_fail (i : nat) : MK Z := iunlockput fuel i;; end_op fuel;; mret (-1).

Definition b2z (b : bool) : Z := if b then 1 else 0.

Definition sys_open : MK Z :=
  with_str 0 (fun path =>
  with_int fuel 1 (-1) (fun omode =>
    begin_op fuel;;
    r ← open_inode path omode;
    match r with
    | None => mret (-1)
    | Some i =>
        f ← filealloc;
        match f with
        | None => open_fail i
        | Some f =>
            fd ← fdalloc f;
            if fd <? 0 then fileclose f;; open_fail i
            else
              iunlock i;;
              end_op fuel;;
              upd_file f (set_f_type FD_INODE);;
              upd_file f (set_f_ip (Some i));;
              upd_file f (set_f_off 0);;
              upd_file f (set_f_readable (b2z (negb (flag omode O_WRONLY))));;
              upd_file f (set_f_writable (b2z (flag omode O_WRONLY || flag omode O_RDWR)));;
              mret fd
        end
    end)).

(** ** mkdir, mknod, chdir *)

(** Close the transaction after create. *)
Definition created (r : option nat) : MK Z :=
  match r with
  | None => end_op fuel;; mret (-1)
  | Some i => iunlockput fuel i;; end_op fuel;; mret 0
  end.

Definition sys_mkdir : MK Z :=
  begin_op fuel;;
  path ← argstr fuel 0;
  r ← match path with
      | None => mret None
      | Some (path, _) => create path T_DIR 0 0
      end;
  created r.

Definition sys_mknod : MK Z :=
  begin_op fuel;;
  path ← argstr fuel 0;
  r ← match path with
      | None => mret None
      | Some (path, _) =>
          maj ← argint fuel 1;
          match maj with
          | None => mret None
          | Some maj =>
              min ← argint fuel 2;
              match min with
              | None => mret None
              | Some min => create path T_DEV (s16 maj) (s16 min)
              end
          end
      end;
  created r.

Definition sys_chdir : MK Z :=
  cp ← curproc;
  begin_op fuel;;
  path ← argstr fuel 0;
  r ← match path with
      | None => mret None
      | Some (path, _) => namei fuel (upath path)
      end;
  match r with
  | None => end_op fuel;; mret (-1)
  | Some i =>
      ilock fuel i;;
      ip ← get_inode i;
      if negb (i_type ip =? T_DIR) then iunlockput fuel i;; end_op fuel;; mret (-1)
      else
        iunlock i;;
        p ← get_proc cp;
        match cwd p with Some c => iput fuel c | None => undef "null inode" end;;
        end_op fuel;;
        upd_proc cp (set_p_cwd (Some i));;
        mret 0
  end.

(** ** exec, pipe *)

(** The loop of sys_exec: the addresses of the argument strings, or [None] where it
    returns -1. *)
Definition exec_argv (uargv : Z) (a : Z * list Z) : MK ((Z * list Z) + option (list Z)) :=
  let '(i, argv) := a in
  if MAXARG <=? i then mret (inr None)
  else
    v ← fetchint fuel (u32 (uargv + 4 * i));
    match v with
    | None => mret (inr None)
    | Some uarg =>
        if uarg =? 0 then mret (inr (Some (<[Z.to_nat i := 0]> argv)))
        else
          r ← fetchstr fuel (u32 uarg);
          match r with
          | None => mret (inr None)
          | Some (s, _) => mret (inl (i + 1, <[Z.to_nat i := s]> argv))
          end
    end.

Definition sys_exec : MK Z :=
  with_str 0 (fun path =>
  with_int fuel 1 (-1) (fun uargv =>
    r ← iterate (S (Z.to_nat MAXARG)) (exec_argv (u32 uargv)) (0, replicate (Z.to_nat MAXARG) 0);
    match r with None => mret (-1) | Some argv => exec fuel path argv end)).

Definition sys_pipe : MK Z :=
  with_ptr 0 8 (fun fd =>
    r ← pipealloc;
    match r with
    | None => mret (-1)
    | Some (rf, wf) =>
        fd0 ← fdalloc rf;
        if fd0 <? 0 then fileclose rf;; fileclose wf;; mret (-1)
        else
          fd1 ← fdalloc wf;
          if fd1 <? 0 then fdclear fd0;; fileclose rf;; fileclose wf;; mret (-1)
          else ust32 fuel fd fd0;; ust32 fuel (u32 (fd + 4)) fd1;; mret 0
    end).

End sysfile.
