(* ===== verification/Print.v ===== *)
(** * Characters, and the printing of numbers

    What printf.c and console.c share: character codes, and the loop of printint that
    collects the digits of a number, last one first, in a buffer of 16 bytes. *)

From Stdlib Require Import ZArith Lia Ascii String.
From stdpp Require Import base tactics numbers option list strings.
From S2P Require Import Prelude.

(** ** Characters and literals *)

Definition asc (a : ascii) : Z := Z.of_nat (nat_of_ascii a).

Fixpoint bytes_of (s : string) : list Z :=
  match s with
  | EmptyString => []
  | String a s' => asc a :: bytes_of s'
  end.

Definition NL : Z := 10.

(** ** Numbers *)

(** [do buf[i++] = digits[x % base]; while((x /= base) != 0)], the buffer with its
    last entry first; [None] when the 16 bytes of the buffer do not suffice. *)
Fixpoint digits_loop (room : nat) (digits : list Z) (base x : Z) (buf : list Z) : option (list Z) :=
  match room with
  | O => None
  | S room' =>
      let buf' := default 0 (digits !! Z.to_nat (x mod base)) :: buf in
      if x / base =? 0 then Some buf' else digits_loop room' digits base (x / base) buf'
  end.

(** The characters printint writes. *)
Definition printint_chars (digits : list Z) (xx base : Z) (sgn : bool) : option (list Z) :=
  let neg := sgn && (xx <? 0) in
  buf ← digits_loop 16 digits base (if neg then u32 (- xx) else u32 xx) [];
  if neg then if (List.length buf <? 16)%nat then Some (asc "-" :: buf) else None
  else Some buf.

(** What the caller pushes: a word, or a pointer to a string (or null). *)
Inductive arg : Type := AInt (z : Z) | AStr (s : option (list Z)).

(** The value of a digit string. *)
Definition dec (l : list Z) : Z := fold_left (fun n c => n * 10 + (c - asc "0")) l 0.

Definition is_digit (c : Z) : Prop := 48 <= c <= 57.

(** The buffer suffices for numbers of its length. *)
Lemma digits_loop_fits digits base room x buf : 2 <= base -> 0 <= x < base ^ Z.of_nat room -> (0 < room)%nat ->
  exists l, digits_loop room digits base x buf = Some l /\ (List.length l <= room + List.length buf)%nat.
Proof.
  intros Hb. revert x buf. induction room as [|room IH]; intros x buf Hx Hr; [lia|]. cbn [digits_loop].
  destruct (Z.eqb_spec (x / base) 0) as [E|E]; [eexists; split; [done|cbn; lia]|].
  destruct (IH (x / base) (default 0 (digits !! Z.to_nat (x mod base)) :: buf)) as (l & -> & Hl).
  - rewrite Nat2Z.inj_succ, Z.pow_succ_r in Hx by lia. split; [apply Z.div_pos; lia|apply Z.div_lt_upper_bound; lia].
  - destruct room; [|lia]. exfalso. apply E. change (Z.of_nat 1) with 1 in Hx. rewrite Z.pow_1_r in Hx. by apply Z.div_small.
  - exists l. split; [done|]. cbn in Hl. lia.
Qed.

Lemma digits_loop_more digits base room x buf l : digits_loop room digits base x buf = Some l -> digits_loop (S room) digits base x buf = Some l.
Proof.
  revert x buf. induction room as [|room IH]; intros x buf; [done|]. cbn [digits_loop]. destruct (_ =? 0); [done|]. apply IH.
Qed.

(** Every word fits into the buffer of printint. *)
Lemma printint_total digits xx base sgn : 10 <= base -> exists l, printint_chars digits xx base sgn = Some l.
Proof.
  intros Hb. unfold printint_chars. set (neg := sgn && _). set (x := if neg then _ else _).
  assert (Hx : 0 <= x < base ^ Z.of_nat 15).
  { assert (10 ^ 15 <= base ^ Z.of_nat 15) by (apply Z.pow_le_mono_l; lia). change (10 ^ 15) with 1000000000000000 in *.
    unfold x. destruct neg; pose proof (u32_range (- xx)); pose proof (u32_range xx); lia. }
  destruct (digits_loop_fits digits base 15 x [] ltac:(lia) Hx ltac:(lia)) as (l & El & Hl). cbn in Hl. rewrite (digits_loop_more _ _ _ _ _ _ El).
  cbn [mbind option_bind]. destruct neg; [|by eexists]. rewrite (proj2 (Nat.ltb_lt _ _)) by lia. by eexists.
Qed.
