(* ===== verification/User.v ===== *)
(** * User programs: the C library of ulib.c and printf.c

    A user program runs on its own byte memory and talks to the kernel through
    system calls.  [ust] is what it sees: its memory, the named files, the bytes its
    open descriptors have still to deliver, what it has written.  The class [Env]
    holds the choices the kernel makes: how many bytes a read delivers at most
    (pipes and the console give less than asked for) or that it fails, and whether a
    write succeeds. *)

From Stdlib Require Import ZArith Lia Ascii String.
From stdpp Require Import base tactics numbers option list strings zmap gmap.
From S2P Require Import Prelude Memory StringOps Print.

(** ** The program's view of the system *)

Record ust : Type := Ust {
  umem : Zmap Z;
  ufiles : gmap (list Z) (list Z);
  ufds : Zmap (list Z);
  uout : list (Z * Z);
  ureads : nat;
  uwrites : nat }.

Definition set_umem (v : Zmap Z) (s : ust) : ust := Ust v (ufiles s) (ufds s) (uout s) (ureads s) (uwrites s).
Definition set_ufds (v : Zmap (list Z)) (s : ust) : ust := Ust (umem s) (ufiles s) v (uout s) (ureads s) (uwrites s).
Definition set_uout (v : list (Z * Z)) (s : ust) : ust := Ust (umem s) (ufiles s) (ufds s) v (ureads s) (uwrites s).
Definition count_read (s : ust) : ust := Ust (umem s) (ufiles s) (ufds s) (uout s) (S (ureads s)) (uwrites s).
Definition count_write (s : ust) : ust := Ust (umem s) (ufiles s) (ufds s) (uout s) (ureads s) (S (uwrites s)).

(** The [k]-th read delivers at most [deliver k] bytes, and at least one before the
    end of the input, or fails; the [k]-th write succeeds if [accept k]. *)
Class Env : Type := { deliver : nat -> option Z; accept : nat -> bool }.

Abbreviation MU := (M ust).

Section user.
Context {EN : Env}.

(** ** System calls *)

(** What read answers and delivers. *)
Definition recv (fd n : Z) : MU (Z * list Z) :=
  s ← get;
  match ufds s !! fd with
  | None => mret (-1, [])
  | Some rest =>
      match deliver (ureads s) with
      | None => modify count_read;; mret (-1, [])
      | Some d =>
          let k := Z.to_nat (Z.min n (Z.max 1 d)) in
          modify (fun s => count_read (set_ufds (<[fd := drop k rest]> (ufds s)) s));;
          mret (Z.of_nat (List.length (take k rest)), take k rest)
      end
  end.

Definition read (fd p n : Z) : MU Z :=
  '(r, bs) ← recv fd n;
  modify (fun s => set_umem (st_bytes (umem s) p bs) s);;
  mret r.

Definition write_bytes (fd : Z) (bs : list Z) : MU Z :=
  s ← get;
  if accept (uwrites s) then
    modify (fun s => count_write (set_uout (uout s ++ ((fun b => (fd, b)) <$> bs)) s));;
    mret (Z.of_nat (List.length bs))
  else modify count_write;; mret (-1).

Definition write (fd p n : Z) : MU Z :=
  m ← gets umem; write_bytes fd (ld_bytes m p (Z.to_nat n)).

(** open for reading: the lowest free descriptor. *)
Definition free_fd (fds : Zmap (list Z)) : option Z :=
  Z.of_nat <$> find_index (fun k : nat => negb (bool_decide (is_Some (fds !! Z.of_nat k)))) (seq 0 16).

Definition open (path : list Z) : MU Z :=
  s ← get;
  match ufiles s !! path, free_fd (ufds s) with
  | Some bs, Some fd => modify (fun s => set_ufds (<[fd := bs]> (ufds s)) s);; mret fd
  | _, _ => mret (-1)
  end.

Definition close (fd : Z) : MU unit := modify (fun s => set_ufds (delete fd (ufds s)) s).

(** ** ulib.c

    Loops that stop at a NUL take a bound; [None] is a string without end. *)

Fixpoint strcpy (m : Zmap Z) (s t : Z) (fuel : nat) : option (Zmap Z) :=
  match fuel with
  | O => None
  | S fuel' =>
      let c := ld8 m t in
      let m' := st8 m s c in
      if c =? 0 then Some m' else strcpy m' (s + 1) (t + 1) fuel'
  end.

Fixpoint strcmp (m : Zmap Z) (p q : Z) (fuel : nat) : option Z :=
  match fuel with
  | O => None
  | S fuel' =>
      if negb (ld8 m p =? 0) && (ld8 m p =? ld8 m q) then strcmp m (p + 1) (q + 1) fuel'
      else Some (ld8 m p - ld8 m q)
  end.

Fixpoint strlen (m : Zmap Z) (s : Z) (fuel : nat) : option Z :=
  match fuel with
  | O => None
  | S fuel' => if ld8 m s =? 0 then Some 0 else Z.add 1 <$> strlen m (s + 1) fuel'
  end.

Definition memset (m : Zmap Z) (dst c n : Z) : Zmap Z := stosb m dst c (Z.to_nat n).

(** Inner [None]: the null pointer. *)
Fixpoint strchr (m : Zmap Z) (s c : Z) (fuel : nat) : option (option Z) :=
  match fuel with
  | O => None
  | S fuel' =>
      if ld8 m s =? 0 then Some None
      else if ld8 m s =? c then Some (Some s)
      else strchr m (s + 1) c fuel'
  end.

(** strchr on a string literal, as a test. *)
Definition strchr_lit (l : list Z) (c : Z) : bool := existsb (fun x => x =? c) l.

(** Signed overflow is undefined. *)
Fixpoint atoi_loop (n : Z) (s : list Z) : option Z :=
  match s with
  | [] => Some n
  | c :: s' =>
      if (asc "0" <=? c) && (c <=? asc "9") then
        let n' := n * 10 + c - asc "0" in
        if n' <? 2147483648 then atoi_loop n' s' else None
      else Some n
  end.
Definition atoi (s : list Z) : option Z := atoi_loop 0 s.

(** [while(n-- > 0) *dst++ = *src++;] *)
Definition memmove (m : Zmap Z) (dst src n : Z) : Zmap Z := copy_up m dst src (Z.to_nat n).

(** One iteration of the loop of gets; [inr] carries the final [i]. *)
Definition gets_body (buf max : Z) (i : Z) : MU (Z + Z) :=
  if i + 1 <? max then
    '(cc, bs) ← recv 0 1;
    if cc <? 1 then mret (inr i)
    else
      let c := default 0 (head bs) in
      modify (fun s => set_umem (st8 (umem s) (buf + i) c) s);;
      mret (if (c =? NL) || (c =? 13) then inr (i + 1) else inl (i + 1))
  else mret (inr i).

Definition ugets (buf max : Z) : MU unit :=
  i ← iterate (S (Z.to_nat max)) (gets_body buf max) 0;
  modify (fun s => set_umem (st8 (umem s) (buf + i) 0) s).

(** ** printf.c *)

Definition putc (fd c : Z) : MU unit := write_bytes fd [u8 c];; mret tt.

Definition HEX : list Z := bytes_of "0123456789ABCDEF".

Fixpoint puts (fd : Z) (l : list Z) : MU unit :=
  match l with
  | [] => mret tt
  | c :: l' => putc fd c;; puts fd l'
  end.

Definition printint (fd xx base : Z) (sgn : bool) : MU unit :=
  match printint_chars HEX xx base sgn with
  | Some l => puts fd l
  | None => undef "printint: buffer overflow"
  end.

Fixpoint printf_loop (fd : Z) (fmt : list Z) (state : Z) (ap : list arg) : MU unit :=
  match fmt with
  | [] => mret tt
  | c :: fmt' =>
      if state =? 0 then
        if c =? asc "%" then printf_loop fd fmt' (asc "%") ap
        else putc fd c;; printf_loop fd fmt' 0 ap
      else if state =? asc "%" then
        if c =? asc "d" then
          match ap with
          | AInt z :: ap' => printint fd (s32 z) 10 true;; printf_loop fd fmt' 0 ap'
          | _ => undef "printf: argument"
          end
        else if (c =? asc "x") || (c =? asc "p") then
          match ap with
          | AInt z :: ap' => printint fd z 16 false;; printf_loop fd fmt' 0 ap'
          | _ => undef "printf: argument"
          end
        else if c =? asc "s" then
          match ap with
          | AStr o :: ap' => puts fd (default (bytes_of "(null)") o);; printf_loop fd fmt' 0 ap'
          | _ => undef "printf: argument"
          end
        else if c =? asc "c" then
          match ap with
          | AInt z :: ap' => putc fd z;; printf_loop fd fmt' 0 ap'
          | _ => undef "printf: argument"
          end
        else if c =? asc "%" then putc fd c;; printf_loop fd fmt' 0 ap
        else putc fd (asc "%");; putc fd c;; printf_loop fd fmt' 0 ap
      else printf_loop fd fmt' state ap
  end.

Definition printf (fd : Z) (fmt : string) (ap : list arg) : MU unit := printf_loop fd (bytes_of fmt) 0 ap.

End user.

(** ** What the routines do *)

(** The state after writing [bs] to [fd] in [k] calls. *)
Definition wrote (fd : Z) (bs : list Z) (k : nat) (s : ust) : ust :=
  Ust (umem s) (ufiles s) (ufds s) (uout s ++ ((fun b => (fd, b)) <$> bs)) (ureads s) (k + uwrites s).

(** The bytes written to one descriptor. *)
Definition sent (fd : Z) (s : ust) : list Z := snd <$> filter (fun p => p.1 = fd) (uout s).

Lemma sent_wrote fd bs k s : sent fd (wrote fd bs k s) = sent fd s ++ bs.
Proof.
  unfold sent. cbn. rewrite filter_app, fmap_app. f_equal. induction bs as [|b bs IH]; [done|].
  rewrite fmap_cons, filter_cons_True by done. by rewrite fmap_cons, IH.
Qed.

Lemma wrote_wrote fd a b j k s : wrote fd b k (wrote fd a j s) = wrote fd (a ++ b) (j + k) s.
Proof. unfold wrote. cbn. rewrite fmap_app, app_assoc. f_equal. lia. Qed.

Section lemmas.
Context {EN : Env}.

Lemma run_recv fd n s rest d : ufds s !! fd = Some rest -> deliver (ureads s) = Some d ->
  let k := Z.to_nat (Z.min n (Z.max 1 d)) in
  recv fd n s = Ret (Z.of_nat (List.length (take k rest)), take k rest) (count_read (set_ufds (<[fd := drop k rest]> (ufds s)) s)).
Proof. intros H1 H2. unfold recv. mrun. rewrite H1, H2. done. Qed.

Section accepting.
Context (Hacc : forall k, accept k = true).

Lemma run_write_bytes fd bs s : write_bytes fd bs s = Ret (Z.of_nat (List.length bs)) (wrote fd bs 1 s).
Proof using Hacc. unfold write_bytes. mrun. by rewrite Hacc. Qed.

Lemma run_putc fd c s : putc fd c s = Ret tt (wrote fd [u8 c] 1 s).
Proof using Hacc. unfold putc. by rewrite (bind_ret_run _ _ _ _ _ (run_write_bytes fd [u8 c] s)). Qed.

Lemma run_puts fd l s : Forall (fun c => 0 <= c < 256) l -> puts fd l s = Ret tt (wrote fd l (List.length l) s).
Proof using Hacc.
  revert s. induction l as [|c l IH]; intros s Hl; cbn [puts].
  - unfold wrote. cbn. rewrite app_nil_r. by destruct s.
  - apply Forall_cons in Hl as [Hc Hl]. rewrite (bind_ret_run _ _ _ _ _ (run_putc fd c s)), IH by done.
    rewrite wrote_wrote, u8_id by done. done.
Qed.
End accepting.
End lemmas.

(** *** Numbers *)

Lemma digits_loop_dec room x buf l : 0 <= x -> digits_loop room HEX 10 x buf = Some l ->
  exists ds, l = ds ++ buf /\ Forall is_digit ds /\ dec ds = x /\ ds <> [].
Proof.
  revert x buf. induction room as [|room IH]; intros x buf Hx; cbn [digits_loop]; [done|].
  assert (Hd : exists c, HEX !! Z.to_nat (x mod 10) = Some c /\ is_digit c /\ c - 48 = x mod 10).
  { pose proof (Z.mod_pos_bound x 10 ltac:(lia)) as Hm. set (d := x mod 10) in *. clearbody d.
    assert (d = 0 \/ d = 1 \/ d = 2 \/ d = 3 \/ d = 4 \/ d = 5 \/ d = 6 \/ d = 7 \/ d = 8 \/ d = 9) as E by lia.
    repeat (destruct E as [->|E]; [by eexists|]). subst d. by eexists. }
  destruct Hd as (c & Hc & Hdig & Hv). rewrite Hc. cbn [default from_option id].
  destruct (Z.eqb_spec (x / 10) 0) as [E|E].
  - intros [= <-]. exists [c]. split; [done|]. split; [by constructor|]. split; [|done]. unfold dec. cbn [fold_left]. change (asc "0") with 48. divlia.
  - intros H. apply IH in H as (ds & -> & Hf & Hdec & Hne); [|divlia]. exists (ds ++ [c]). rewrite <- app_assoc. split; [done|].
    split; [apply Forall_app; by split; [|constructor]|]. split; [|by destruct ds]. unfold dec in *. rewrite fold_left_app, Hdec. cbn [fold_left].
    change (asc "0") with 48. divlia.
Qed.

Lemma atoi_dec ds rest n : Forall is_digit ds -> 0 <= n -> fold_left (fun n c => n * 10 + (c - asc "0")) ds n < 2147483648 ->
  (forall c, head rest = Some c -> ~ is_digit c) -> atoi_loop n (ds ++ rest) = Some (fold_left (fun n c => n * 10 + (c - asc "0")) ds n).
Proof.
  revert n. induction ds as [|c ds IH]; intros n Hf Hn Hb Hr; cbn [app atoi_loop fold_left] in *.
  - destruct rest as [|c rest]; [done|]. specialize (Hr c eq_refl). unfold is_digit in Hr. cbn [atoi_loop]. change (asc "0") with 48. change (asc "9") with 57.
    destruct (Z.leb_spec 48 c), (Z.leb_spec c 57); cbn [andb]; (done || lia).
  - apply Forall_cons in Hf as [Hc Hf]. unfold is_digit in Hc. change (asc "0") with 48 in *. change (asc "9") with 57.
    rewrite (proj2 (Z.leb_le 48 c)), (proj2 (Z.leb_le c 57)) by lia. cbn [andb]. replace (n * 10 + c - 48) with (n * 10 + (c - 48)) by lia.
    assert (Hmono : forall l m, Forall is_digit l -> 0 <= m -> m <= fold_left (fun n c => n * 10 + (c - 48)) l m).
    { clear. induction l as [|c l IH]; intros m Hf Hm; cbn; [lia|]. apply Forall_cons in Hf as [Hc Hf]. unfold is_digit in Hc.
      specialize (IH (m * 10 + (c - 48)) Hf). lia. }
    rewrite (proj2 (Z.ltb_lt _ _)) by (eapply Z.le_lt_trans; [|exact Hb]; apply Hmono; [done|lia]). apply IH; [done|lia|done|done].
Qed.

Lemma printint_dec x : -2147483648 <= x < 2147483648 -> exists l, printint_chars HEX x 10 true = Some l /\
  Forall (fun c => 0 <= c < 256) l /\
  if x <? 0 then exists ds, l = asc "-" :: ds /\ Forall is_digit ds /\ dec ds = - x else Forall is_digit l /\ dec l = x.
Proof.
  intros Hx. unfold printint_chars. cbn [andb]. set (v := if x <? 0 then u32 (- x) else u32 x).
  assert (Hv : v = Z.abs x) by (unfold v; destruct (Z.ltb_spec x 0); rewrite u32_id by lia; lia). clearbody v. subst v.
  destruct (digits_loop_fits HEX 10 15 (Z.abs x) [] ltac:(lia) ltac:(change (10 ^ Z.of_nat 15) with 1000000000000000; lia) ltac:(lia)) as (l & El & Hl). cbn in Hl.
  pose proof (digits_loop_more _ _ _ _ _ _ El) as E16.
  rewrite E16. destruct (digits_loop_dec _ _ _ _ (Z.abs_nonneg x) E16) as (ds & -> & Hf & Hd & _). rewrite app_nil_r in *. cbn [mbind option_bind].
  assert (Hb : Forall (fun c => 0 <= c < 256) ds) by (eapply Forall_impl; [exact Hf|]; unfold is_digit; cbn; lia).
  destruct (Z.ltb_spec x 0).
  - rewrite (proj2 (Nat.ltb_lt _ _)) by lia. eexists. split; [done|]. split; [constructor; [by cbn|done]|]. exists ds. split; [done|]. split; [done|lia].
  - exists ds. split; [done|]. split; [done|]. split; [done|lia].
Qed.

Lemma run_printint {EN : Env} (Hacc : forall k, accept k = true) fd x : -2147483648 <= x < 2147483648 ->
  exists l, (forall s, printint fd (s32 x) 10 true s = Ret tt (wrote fd l (List.length l) s)) /\
    (0 <= x -> atoi l = Some x) /\ (x < 0 -> exists ds, l = asc "-" :: ds /\ Forall is_digit ds /\ dec ds = - x).
Proof.
  intros Hx. rewrite s32_id by lia. destruct (printint_dec x Hx) as (l & El & Hb & Hl). exists l. split.
  - intros s. unfold printint. rewrite El. by apply run_puts.
  - destruct (Z.ltb_spec x 0); [split; [lia|done]|]. split; [|lia]. intros _. destruct Hl as [Hf Hd]. unfold atoi. rewrite <- (app_nil_r l).
    rewrite atoi_dec; [|done|lia|fold (dec l); lia|done]. fold (dec l). by rewrite Hd.
Qed.

(** numbers survive printing.  When the writes are accepted, printf of "%d" writes, for every 32-bit integer, its sign
    and its decimal digits and nothing else; atoi reads a number that is not negative back from them, and the value of the
    digits after the sign is the absolute value of a negative one, the least one included. *)
Theorem printf_atoi_roundtrip {EN : Env} (fd x : Z) (s : ust) :
  (forall k, accept k = true) -> -2147483648 <= x < 2147483648 ->
  exists l, printf fd "%d" [AInt x] s = Ret tt (wrote fd l (List.length l) s) /\
    (0 <= x -> atoi l = Some x) /\ (x < 0 -> exists ds, l = asc "-" :: ds /\ Forall is_digit ds /\ dec ds = - x).
Proof.
  intros Hacc Hx. destruct (run_printint Hacc fd x Hx) as (l & Hl & H). exists l. split; [|done].
  unfold printf. change (printf_loop fd (bytes_of "%d") 0 [AInt x] s) with ((printint fd (s32 x) 10 true;; mret tt) s).
  by rewrite (bind_ret_run _ _ _ _ _ (Hl s)).
Qed.

Definition ex_user_env : Env := {| deliver := fun _ => Some 1; accept := fun _ => true |}.

Lemma printf_atoi_roundtrip_witness :
  exists l, @printf ex_user_env 1 "%d" [AInt 448] (Ust ∅ ∅ ∅ [] 0 0) = Ret tt (wrote 1 l (List.length l) (Ust ∅ ∅ ∅ [] 0 0)) /\ atoi l = Some 448.
Proof.
  destruct (@printf_atoi_roundtrip ex_user_env 1 448 (Ust ∅ ∅ ∅ [] 0 0) (fun _ => eq_refl) ltac:(lia)) as (l & H1 & H2 & _).
  exists l. split; [exact H1|]. apply H2. lia.
Defined.
