(* ===== verification/Grep.v ===== *)
(** * grep.c: the pattern matcher and the line filter

    The matcher works on NUL-terminated strings, here the list of their characters
    before the NUL.  It is compared with the language of the pattern: a pattern is
    read as a sequence of items (a character, any character, either one repeated)
    with optional anchors, and denotes a set of strings.  The filter is compared
    with the lines of the input that match. *)

From Stdlib Require Import ZArith Lia Ascii String.
From stdpp Require Import base tactics numbers option list strings zmap gmap.
From S2P Require Import Prelude Memory StringOps Print User.

(** ** The matcher *)

(** matchstar, given matchhere for the rest of the pattern. *)
Fixpoint matchstar (c : Z) (here : list Z -> bool) (text : list Z) : bool :=
  if here text then true
  else match text with
       | [] => false
       | a :: text' => if (a =? c) || (c =? asc ".") then matchstar c here text' else false
       end.

Fixpoint matchhere (re text : list Z) : bool :=
  match re with
  | [] => true
  | c :: re1 =>
      let next :=
        if (c =? asc "$") && match re1 with [] => true | _ => false end
        then match text with [] => true | _ => false end
        else match text with
             | [] => false
             | a :: text' => if (c =? asc ".") || (c =? a) then matchhere re1 text' else false
             end in
      match re1 with
      | s :: re2 => if s =? asc "*" then matchstar c (matchhere re2) text else next
      | [] => next
      end
  end.

(** The loop of match: look at every suffix, the empty one included. *)
Fixpoint match_loop (re text : list Z) : bool :=
  if matchhere re text then true
  else match text with
       | [] => false
       | _ :: text' => match_loop re text'
       end.

Definition match_ (re text : list Z) : bool :=
  match re with
  | c :: re' => if c =? asc "^" then matchhere re' text else match_loop re text
  | [] => match_loop re text
  end.

(** ** The language of a pattern *)

Inductive item : Type := One (c : Z) | Many (c : Z).

(** The items of a pattern, and whether it ends in an anchor. *)
Fixpoint items (re : list Z) : list item * bool :=
  match re with
  | [] => ([], false)
  | c :: re1 =>
      let next := match re1 with
                  | [] => if c =? asc "$" then ([], true) else ([One c], false)
                  | _ => (One c :: (items re1).1, (items re1).2)
                  end in
      match re1 with
      | s :: re2 => if s =? asc "*" then (Many c :: (items re2).1, (items re2).2) else next
      | [] => next
      end
  end.

Definition sym (c a : Z) : Prop := c = asc "." \/ c = a.

Inductive lang : list item -> list Z -> Prop :=
| lang_nil : lang [] []
| lang_one c a l u : sym c a -> lang l u -> lang (One c :: l) (a :: u)
| lang_many c l v u : Forall (sym c) v -> lang l u -> lang (Many c :: l) (v ++ u).

(** A pattern matches somewhere in a text: at the start if it begins with an
    anchor, up to the end if it ends with one. *)
Definition matches (re text : list Z) : Prop :=
  let '(front, body) := match re with
                        | c :: re' => if c =? asc "^" then (true, re') else (false, re)
                        | [] => (false, re)
                        end in
  exists u v w, text = u ++ v ++ w /\ lang (items body).1 v /\
    (front = true -> u = []) /\ ((items body).2 = true -> w = []).

Lemma sym_test c a : (c =? asc ".") || (c =? a) = true <-> sym c a.
Proof. unfold sym. rewrite orb_true_iff, !Z.eqb_eq. done. Qed.

(** What matchhere looks for. *)
Definition here (its : list item * bool) (text : list Z) : Prop :=
  exists v w, text = v ++ w /\ lang its.1 v /\ (its.2 = true -> w = []).

Lemma here_one c l e text : here (One c :: l, e) text <-> exists a t, text = a :: t /\ sym c a /\ here (l, e) t.
Proof.
  split.
  - intros (v & w & -> & Hl & He). cbn in Hl, He. inversion Hl as [|? a ? u Ha Hu|]; subst. exists a, (u ++ w). split; [done|]. split; [done|].
    by exists u, w.
  - intros (a & t & -> & Ha & v & w & -> & Hl & He). exists (a :: v), w. split; [done|]. split; [by constructor|done].
Qed.

Lemma here_many c l e text :
  here (Many c :: l, e) text <-> here (l, e) text \/ exists a t, text = a :: t /\ sym c a /\ here (Many c :: l, e) t.
Proof.
  split.
  - intros (v & w & -> & Hl & He). cbn in Hl, He. inversion Hl as [| |? ? [|a v'] u Hv Hu]; subst.
    + left. by exists u, w.
    + right. apply Forall_cons in Hv as [Ha Hv]. exists a, (v' ++ u ++ w). split; [cbn; by rewrite <- app_assoc|]. split; [done|].
      exists (v' ++ u), w. split; [by rewrite app_assoc|]. split; [by constructor|done].
  - intros [(v & w & -> & Hl & He)|(a & t & -> & Ha & v & w & -> & Hl & He)].
    + exists v, w. split; [done|]. split; [|done]. by apply (lang_many c l [] v).
    + exists (a :: v), w. split; [done|]. split; [|done]. cbn in Hl. inversion Hl as [| |? ? v' u Hv Hu]; subst.
      apply (lang_many c l (a :: v') u); [by constructor|done].
Qed.

Lemma matchstar_here c f its text : (forall t, f t = true <-> here its t) ->
  matchstar c f text = true <-> here (Many c :: its.1, its.2) text.
Proof.
  destruct its as [l e]. intros Hf. induction text as [|a t IH]; cbn [matchstar]; rewrite here_many, <- Hf.
  - destruct (f []); [tauto|]. split; [done|]. by intros [|(a & t & ? & _)].
  - destruct (f (a :: t)); [tauto|]. rewrite (Z.eqb_sym a c), orb_comm. cbn [fst snd] in IH.
    destruct ((c =? asc ".") || (c =? a)) eqn:E.
    + apply sym_test in E. rewrite IH. split; [intros H; right; by exists a, t|]. intros [|(a' & t' & [= <- <-] & _ & H)]; done.
    + split; [done|]. intros [|(a' & t' & [= <- <-] & Ha & H)]; [done|]. apply sym_test in Ha. congruence.
Qed.

Lemma here_nil e text : here ([], e) text <-> (e = true -> text = []).
Proof.
  split.
  - intros (v & w & -> & Hl & He). inversion Hl; subst. cbn in He. done.
  - intros He. exists [], text. split; [done|]. split; [constructor|done].
Qed.

Lemma matchhere_spec re text : matchhere re text = true <-> here (items re) text.
Proof.
  revert text. remember (List.length re) as n eqn:En. revert re En. induction n as [n IH] using lt_wf_ind. intros re -> text.
  destruct re as [|c re1]; [cbn; by rewrite here_nil|]. destruct re1 as [|s re2].
  - cbn. rewrite andb_true_r. destruct (c =? asc "$"); cbn [fst snd].
    + rewrite here_nil. destruct text; naive_solver.
    + rewrite here_one. destruct text as [|a t]; [naive_solver|].
      destruct ((c =? asc ".") || (c =? a)) eqn:E.
      * split; [|done]. intros _. exists a, t. split; [done|]. split; [by apply sym_test|by apply here_nil].
      * split; [done|]. intros (a' & t' & [= <- <-] & Ha%sym_test & _). congruence.
  - change (items (c :: s :: re2)) with (if s =? asc "*" then (Many c :: (items re2).1, (items re2).2) else (One c :: (items (s :: re2)).1, (items (s :: re2)).2)).
    change (matchhere (c :: s :: re2) text) with (if s =? asc "*" then matchstar c (matchhere re2) text else
      if (c =? asc "$") && false then match text with [] => true | _ => false end
      else match text with [] => false | a :: text' => if (c =? asc ".") || (c =? a) then matchhere (s :: re2) text' else false end).
    destruct (s =? asc "*").
    + apply matchstar_here. intros t. eapply IH; [|done]. cbn. lia.
    + rewrite andb_false_r, here_one. destruct text as [|a t]; [naive_solver|]. destruct ((c =? asc ".") || (c =? a)) eqn:E.
      * rewrite IH; [|shelve|done]. rewrite <- surjective_pairing. apply sym_test in E. naive_solver.
        Unshelve. cbn. lia.
      * split; [done|]. intros (a' & t' & [= <- <-] & Ha%sym_test & _). congruence.
Qed.

Lemma match_loop_spec re text : match_loop re text = true <-> exists u t, text = u ++ t /\ here (items re) t.
Proof.
  induction text as [|a text IH]; cbn [match_loop].
  - destruct (matchhere re []) eqn:E.
    + split; [|done]. intros _. exists [], []. split; [done|]. by apply matchhere_spec.
    + split; [done|]. intros (u & t & Hu & Ht). symmetry in Hu. apply app_nil in Hu as [-> ->]. apply matchhere_spec in Ht. congruence.
  - destruct (matchhere re (a :: text)) eqn:E.
    + split; [|done]. intros _. exists [], (a :: text). split; [done|]. by apply matchhere_spec.
    + rewrite IH. split.
      * intros (u & t & -> & Ht). by exists (a :: u), t.
      * intros ([|b u] & t & Hu & Ht); cbn in Hu; [subst t; apply matchhere_spec in Ht; congruence|]. injection Hu as <- ->. by exists u, t.
Qed.

(** C10: the matcher decides the language of the pattern.  For every pattern and every text, match answers 1 exactly when
    some part of the text (beginning at its start for a pattern with an initial anchor, ending at its end for one with a
    final anchor) is in the language of the items of the pattern. *)
Theorem match_decides_language (re text : list Z) : match_ re text = true <-> matches re text.
Proof.
  unfold match_, matches. destruct re as [|c re']; [|destruct (c =? asc "^")].
  - rewrite match_loop_spec. unfold here. naive_solver.
  - rewrite matchhere_spec. unfold here. split.
    + intros (v & w & -> & Hl & He). by exists [], v, w.
    + intros (u & v & w & -> & Hl & Hu & He). rewrite (Hu eq_refl). by exists v, w.
  - rewrite match_loop_spec. unfold here. naive_solver.
Qed.

(** ** The filter

    [buf] is the address of the buffer of 1024 bytes. *)

(** The string at an address. *)
Fixpoint cstring (m : Zmap Z) (p : Z) (fuel : nat) : option (list Z) :=
  match fuel with
  | O => None
  | S fuel' => if ld8 m p =? 0 then Some [] else cons (ld8 m p) <$> cstring m (p + 1) fuel'
  end.

Section grep.
Context {EN : Env} (buf : Z).

Definition BUFSZ : Z := 1024.

(** One line of the buffer, from [p] on; [inr] carries [p] when no newline is left. *)
Definition line_body (pattern : list Z) (p : Z) : MU (Z + Z) :=
  m ← gets umem;
  match strchr m p NL (Z.to_nat BUFSZ) with
  | None => undef "strchr: no end"
  | Some None => mret (inr p)
  | Some (Some q) =>
      modify (fun s => set_umem (st8 (umem s) q 0) s);;
      m ← gets umem;
      match cstring m p (Z.to_nat BUFSZ) with
      | None => undef "match: no end"
      | Some text =>
          (if match_ pattern text then
             modify (fun s => set_umem (st8 (umem s) q NL) s);;
             write 1 p (q + 1 - p);; mret tt
           else mret tt);;
          mret (inl (q + 1))
      end
  end.

(** One read: [m] bytes of an unfinished line are in the buffer. *)
Definition grep_body (pattern : list Z) (fd m : Z) : MU (Z + unit) :=
  n ← read fd (buf + m) (BUFSZ - m - 1);
  if n <=? 0 then mret (inr tt)
  else
    let m := m + n in
    modify (fun s => set_umem (st8 (umem s) (buf + m) 0) s);;
    p ← iterate (Z.to_nat BUFSZ) (line_body pattern) buf;
    let m := if p =? buf then 0 else m in
    if 0 <? m then
      let m := m - (p - buf) in
      modify (fun s => set_umem (memmove (umem s) buf p m) s);;
      mret (inl m)
    else mret (inl m).

(** [fuel] bounds the number of reads. *)
Definition grep (fuel : nat) (pattern : list Z) (fd : Z) : MU unit := iterate fuel (grep_body pattern fd) 0.

(** The files of the command line in turn. *)
Fixpoint grep_files (fuel : nat) (pattern : list Z) (args : list (list Z)) : MU unit :=
  match args with
  | [] => mret tt
  | f :: args' =>
      fd ← open f;
      if fd <? 0 then printf 1 ("grep: cannot open %s" +:+ String "010" "") [AStr (Some f)]
      else grep fuel pattern fd;; close fd;; grep_files fuel pattern args'
  end.

(** main, on the arguments after the program's name; every path ends in exit. *)
Definition grep_main (fuel : nat) (args : list (list Z)) : MU unit :=
  match args with
  | [] => printf 2 ("usage: grep pattern [file ...]" +:+ String "010" "") []
  | [pattern] => grep fuel pattern 0
  | pattern :: files => grep_files fuel pattern files
  end.

End grep.

(** *** Reading lines from the buffer *)

(** The lines a text completes, [cur] being the beginning of the first one. *)
Fixpoint lines (cur text : list Z) : list (list Z) :=
  match text with
  | [] => []
  | c :: text' => if c =? NL then cur :: lines [] text' else lines (cur ++ [c]) text'
  end.

(** What is left after the last newline. *)
Fixpoint tail_of (cur text : list Z) : list Z :=
  match text with
  | [] => cur
  | c :: text' => if c =? NL then tail_of [] text' else tail_of (cur ++ [c]) text'
  end.

(** The matching lines, each with its newline. *)
Definition select (pattern : list Z) (ls : list (list Z)) : list Z :=
  concat ((fun l => l ++ [NL]) <$> filter (fun l => match_ pattern l = true) ls).

Lemma select_cons pattern l ls : select pattern (l :: ls) = (if match_ pattern l then l ++ [NL] else []) ++ select pattern ls.
Proof.
  unfold select. destruct (match_ pattern l) eqn:E; [by rewrite filter_cons_True|by rewrite filter_cons_False by (by rewrite E)].
Qed.

Lemma select_app pattern a b : select pattern (a ++ b) = select pattern a ++ select pattern b.
Proof. unfold select. by rewrite filter_app, fmap_app, concat_app. Qed.

Lemma lines_app cur a b : lines cur (a ++ b) = lines cur a ++ lines (tail_of cur a) b.
Proof. revert cur. induction a as [|c a IH]; intros cur; cbn; [done|]. destruct (c =? NL); cbn; by rewrite IH. Qed.

Lemma lines_cur cur l text : NL ∉ l -> lines cur (l ++ text) = lines (cur ++ l) text.
Proof.
  revert cur. induction l as [|c l IH]; intros cur Hl; [by rewrite app_nil_r|]. apply not_elem_of_cons in Hl as [Hc Hl]. cbn.
  rewrite (proj2 (Z.eqb_neq c NL)) by done. rewrite IH by done. by rewrite <- app_assoc.
Qed.

Lemma tail_of_cur cur l : NL ∉ l -> tail_of cur l = cur ++ l.
Proof.
  revert cur. induction l as [|c l IH]; intros cur Hl; [by rewrite app_nil_r|]. apply not_elem_of_cons in Hl as [Hc Hl]. cbn.
  rewrite (proj2 (Z.eqb_neq c NL)) by done. rewrite IH by done. by rewrite <- app_assoc.
Qed.

Lemma lines_none l : NL ∉ l -> lines [] l = [].
Proof. intros H. rewrite <- (app_nil_r l). by rewrite lines_cur. Qed.

(** A text is one line and the rest, or has no newline. *)
Lemma split_line text : (NL ∉ text) \/ exists l rest, text = l ++ NL :: rest /\ (NL ∉ l).
Proof.
  induction text as [|c text [H|(l & rest & -> & Hl)]]; [left; apply not_elem_of_nil| |];
    destruct (decide (c = NL)) as [->|Hc].
  - right. exists [], text. split; [done|apply not_elem_of_nil].
  - left. by apply not_elem_of_cons.
  - right. exists [], (l ++ NL :: rest). split; [done|apply not_elem_of_nil].
  - right. exists (c :: l), rest. split; [done|]. by apply not_elem_of_cons.
Qed.

Lemma tail_suffix cur text : NL ∉ cur -> exists u, cur ++ text = u ++ tail_of cur text /\ (NL ∉ tail_of cur text) /\ (u = [] -> NL ∉ text).
Proof.
  revert cur. induction text as [|c text IH]; intros cur Hc; cbn [tail_of].
  - exists []. rewrite app_nil_r. split; [done|]. split; [done|]. intros _. apply not_elem_of_nil.
  - destruct (Z.eqb_spec c NL) as [->|Hne].
    + destruct (IH [] ltac:(apply not_elem_of_nil)) as (u & Hu & Ht & _). exists (cur ++ NL :: u). cbn in Hu. rewrite Hu at 1.
      split; [by rewrite <- app_assoc|]. split; [done|]. intros E. by destruct cur.
    + destruct (IH (cur ++ [c])) as (u & Hu & Ht & Hn); [apply not_elem_of_app; split; [done|]; apply not_elem_of_cons; split; [congruence|apply not_elem_of_nil]|].
      exists u. rewrite <- Hu, <- app_assoc. split; [done|]. split; [done|]. intros E. apply not_elem_of_cons. split; [congruence|by apply Hn].
Qed.

(** No 1023 bytes in a row are without a newline. *)
Definition short_lines (text : list Z) : Prop :=
  forall u v w, text = u ++ v ++ w -> NL ∉ v -> (List.length v <= 1022)%nat.

Lemma short_lines_suffix u text : short_lines (u ++ text) -> short_lines text.
Proof. intros H a v w ->. apply (H (u ++ a) v w). by rewrite !app_assoc. Qed.

(** The bytes [l] are in memory at [p]. *)
Definition has (m : Zmap Z) (p : Z) (l : list Z) : Prop := forall i c, l !! i = Some c -> ld8 m (p + Z.of_nat i) = c.

Lemma has_cons m p c l : has m p (c :: l) <-> ld8 m p = c /\ has m (p + 1) l.
Proof.
  split.
  - intros H. split; [rewrite <- (Z.add_0_r p); by apply (H 0%nat)|]. intros i d Hi. replace (p + 1 + Z.of_nat i) with (p + Z.of_nat (S i)) by lia. by apply H.
  - intros [H0 H] [|i] d Hd; cbn in Hd; [injection Hd as <-; by rewrite Z.add_0_r|].
    replace (p + Z.of_nat (S i)) with (p + 1 + Z.of_nat i) by lia. by apply H.
Qed.

Lemma has_app m p a b : has m p (a ++ b) <-> has m p a /\ has m (p + Z.of_nat (List.length a)) b.
Proof.
  revert p. induction a as [|c a IH]; intros p; cbn [app List.length].
  - rewrite Z.add_0_r. split; [|tauto]. intros H. split; [done|done].
  - rewrite !has_cons, IH. replace (p + 1 + Z.of_nat (List.length a)) with (p + Z.of_nat (S (List.length a))) by lia. tauto.
Qed.

Lemma has_ld_bytes m p l : has m p l -> ld_bytes m p (List.length l) = l.
Proof.
  intros H. apply list_eq. intros i. destruct (l !! i) as [c|] eqn:E.
  - rewrite lookup_ld_bytes by (by eapply lookup_lt_Some). f_equal. by apply H.
  - apply lookup_ge_None in E. apply lookup_ge_None. by rewrite length_ld_bytes.
Qed.

Lemma has_same m m' p l : (forall a, p <= a < p + Z.of_nat (List.length l) -> ld8 m' a = ld8 m a) -> has m p l -> has m' p l.
Proof. intros H Hl i c Hi. rewrite H by (apply lookup_lt_Some in Hi; lia). by apply Hl. Qed.

Lemma has_st8_out m p l a v : (a < p \/ p + Z.of_nat (List.length l) <= a) -> has m p l -> has (st8 m a v) p l.
Proof. intros Ha. apply has_same. intros b Hb. apply ld8_st8_ne. lia. Qed.

Lemma has_st_bytes m p l : Forall (fun c => 0 <= c < 256) l -> has (st_bytes m p l) p l.
Proof.
  intros Hl i c Hi. rewrite ld8_st_bytes, decide_True by (apply lookup_lt_Some in Hi; lia).
  replace (Z.to_nat (p + Z.of_nat i - p)) with i by lia. rewrite Hi. cbn. apply u8_id. by eapply (Forall_lookup_1 _ _ _ _ Hl Hi).
Qed.

Lemma strchr_none m p c l fuel : has m p l -> ld8 m (p + Z.of_nat (List.length l)) = 0 -> c ∉ l -> 0 ∉ l -> (List.length l < fuel)%nat ->
  strchr m p c fuel = Some None.
Proof.
  revert p l. induction fuel as [|fuel IH]; intros p l Hl H0 Hc Hz Hf; [lia|]. cbn [strchr]. destruct l as [|a l]; cbn [List.length] in *.
  - rewrite Z.add_0_r in H0. by rewrite H0.
  - apply has_cons in Hl as [Ha Hl]. apply not_elem_of_cons in Hc as [Hca Hc], Hz as [Hza Hz].
    rewrite Ha, (proj2 (Z.eqb_neq a 0)), (proj2 (Z.eqb_neq a c)) by congruence. apply (IH _ l); [done| |done|done|lia].
    replace (p + 1 + Z.of_nat (List.length l)) with (p + Z.of_nat (S (List.length l))) by lia. done.
Qed.

Lemma strchr_some m p c l fuel : has m p l -> ld8 m (p + Z.of_nat (List.length l)) = c -> c <> 0 -> c ∉ l -> 0 ∉ l -> (List.length l < fuel)%nat ->
  strchr m p c fuel = Some (Some (p + Z.of_nat (List.length l))).
Proof.
  revert p l. induction fuel as [|fuel IH]; intros p l Hl H0 Hn Hc Hz Hf; [lia|]. cbn [strchr]. destruct l as [|a l]; cbn [List.length] in *.
  - rewrite Z.add_0_r in *. rewrite H0, (proj2 (Z.eqb_neq c 0)), Z.eqb_refl by done. done.
  - apply has_cons in Hl as [Ha Hl]. apply not_elem_of_cons in Hc as [Hca Hc], Hz as [Hza Hz].
    rewrite Ha, (proj2 (Z.eqb_neq a 0)), (proj2 (Z.eqb_neq a c)) by congruence.
    replace (p + Z.of_nat (S (List.length l))) with (p + 1 + Z.of_nat (List.length l)) in * by lia. apply IH; (done || lia).
Qed.

Lemma cstring_has m p l fuel : has m p l -> ld8 m (p + Z.of_nat (List.length l)) = 0 -> 0 ∉ l -> (List.length l < fuel)%nat ->
  cstring m p fuel = Some l.
Proof.
  revert p l. induction fuel as [|fuel IH]; intros p l Hl H0 Hz Hf; [lia|]. cbn [cstring]. destruct l as [|a l]; cbn [List.length] in *.
  - rewrite Z.add_0_r in H0. by rewrite H0.
  - apply has_cons in Hl as [Ha Hl]. apply not_elem_of_cons in Hz as [Hza Hz]. rewrite Ha, (proj2 (Z.eqb_neq a 0)) by congruence.
    rewrite (IH _ l); [done|done| |done|lia]. replace (p + 1 + Z.of_nat (List.length l)) with (p + Z.of_nat (S (List.length l))) by lia. done.
Qed.

Section grep_lemmas.
Context {EN : Env} (buf : Z) (pattern : list Z).
Context (Hacc : forall k, accept k = true).

(** What the program writes to its standard output, and nothing else changes but memory. *)
Definition printed (bs : list Z) (s s' : ust) : Prop :=
  ufiles s' = ufiles s /\ ufds s' = ufds s /\ ureads s' = ureads s /\ uout s' = uout s ++ ((fun b => (1, b)) <$> bs) /\
  (mem_ok (umem s) -> mem_ok (umem s')).

Lemma printed_trans a b s s1 s2 : printed a s s1 -> printed b s1 s2 -> printed (a ++ b) s s2.
Proof. unfold printed. intros (-> & -> & -> & -> & H1) (-> & -> & -> & -> & H2). rewrite fmap_app, app_assoc. auto 10. Qed.

Lemma line_step p l rest s : has (umem s) p (l ++ NL :: rest) -> NL ∉ l -> 0 ∉ l -> (List.length l < 1024)%nat ->
  wp (line_body pattern p) (fun r s' => r = inl (p + Z.of_nat (List.length l) + 1) /\
    printed (select pattern [l]) s s' /\ forall a, p + Z.of_nat (List.length l) < a -> ld8 (umem s') a = ld8 (umem s) a) s.
Proof using Hacc.
  intros Hl Hn Hz Hlen. apply has_app in Hl as [Hl [Hq Hr]%has_cons]. set (q := p + Z.of_nat (List.length l)) in *.
  unfold line_body. wp_step. wp_step. rewrite (strchr_some _ _ _ l) by done. fold q. wp_step. wp_step. wp_step. wp_step.
  assert (Hm : has (st8 (umem s) q 0) p l) by (apply has_st8_out; [lia|done]). cbn [umem set_umem].
  rewrite (cstring_has _ _ l); [|done|fold q; by rewrite ld8_st8_eq|done|done]. wp_step. rewrite select_cons.
  destruct (match_ pattern l) eqn:E.
  - wp_step. wp_step. wp_step. unfold write. wp_step. wp_step.
    eapply wp_result; [by apply (run_write_bytes Hacc)|]. wp_step. wp_step. cbn [umem set_umem wrote].
    split; [done|]. split.
    + unfold printed. cbn. split_and!; try done; [|by intros; do 2 apply mem_ok_st8]. do 2 f_equal.
      assert (Hm2 : has (st8 (st8 (umem s) q 0) q NL) p (l ++ [NL])).
      { apply has_app. split; [apply has_st8_out; [lia|done]|]. apply has_cons. fold q. rewrite ld8_st8_eq. split; [done|]. by intros i c Hi. }
      apply has_ld_bytes in Hm2. rewrite length_app in Hm2. cbn in Hm2. change (select pattern []) with (@nil Z). rewrite app_nil_r. rewrite <- Hm2. f_equal. lia.
    + intros a Ha. by rewrite !ld8_st8_ne by lia.
  - wp_step. wp_step. cbn [umem set_umem]. split; [done|]. split.
    + unfold printed. change (select pattern []) with (@nil Z). cbn. rewrite app_nil_r. split_and!; auto using mem_ok_st8.
    + intros a Ha. by rewrite ld8_st8_ne by lia.
Qed.

Lemma no_nl p l s : has (umem s) p l -> ld8 (umem s) (p + Z.of_nat (List.length l)) = 0 -> NL ∉ l -> 0 ∉ l -> (List.length l < 1024)%nat ->
  line_body pattern p s = Ret (inr p) s.
Proof using. intros Hl H0 Hn Hz Hlen. unfold line_body. mrun. by rewrite (strchr_none _ _ _ l). Qed.

Lemma wp_lines fuel todo p s : has (umem s) p todo -> ld8 (umem s) (p + Z.of_nat (List.length todo)) = 0 -> 0 ∉ todo ->
  (List.length todo < fuel)%nat -> (List.length todo < 1024)%nat ->
  wp (iterate fuel (line_body pattern) p) (fun r s' =>
    r = p + Z.of_nat (List.length todo) - Z.of_nat (List.length (tail_of [] todo)) /\
    has (umem s') r (tail_of [] todo) /\ printed (select pattern (lines [] todo)) s s') s.
Proof using Hacc.
  revert todo p s. induction fuel as [|fuel IH]; intros todo p s Hl H0 Hz Hf Hlen; [lia|]. cbn [iterate]. wp_step.
  destruct (split_line todo) as [Hn|(l & rest & -> & Hn)].
  - eapply wp_result; [by eapply no_nl|]. cbv beta iota. wp_step. rewrite tail_of_cur, lines_none by done. cbn [app].
    split; [lia|]. split; [done|]. unfold printed. cbn. by rewrite app_nil_r.
  - apply not_elem_of_app in Hz as [Hzl [_ Hzr]%not_elem_of_cons]. rewrite length_app in Hf, Hlen, H0. cbn [List.length] in Hf, Hlen, H0.
    eapply wp_mono; [eapply line_step; [done|done|done|lia]|]. intros r s1 (-> & Hp & Hsame). cbv beta iota.
    pose proof Hl as [_ [_ Hr]%has_cons]%has_app. set (p1 := p + Z.of_nat (List.length l) + 1) in *.
    eapply wp_mono; [apply (IH rest)|].
    + eapply has_same; [|exact Hr]. intros a Ha. apply Hsame. lia.
    + rewrite Hsame by lia. rewrite <- H0. f_equal. lia.
    + done.
    + lia.
    + lia.
    + intros r s2 (-> & Hh & Hp2). rewrite lines_cur by done. cbn [lines app]. rewrite Z.eqb_refl.
      replace (tail_of [] (l ++ NL :: rest)) with (tail_of [] rest).
      2: { clear -Hn. assert (H : forall cur, tail_of cur (l ++ NL :: rest) = tail_of [] rest); [|done].
           induction l as [|c l IH]; intros cur; cbn; [done|]. apply not_elem_of_cons in Hn as [Hc Hn].
           rewrite (proj2 (Z.eqb_neq c NL)) by done. by apply IH. }
      rewrite length_app. cbn [List.length]. split; [lia|]. split; [done|]. rewrite select_cons. eapply printed_trans; [|exact Hp2].
      rewrite select_cons in Hp. change (select pattern []) with (@nil Z) in Hp. by rewrite app_nil_r in Hp.
Qed.

(** A read of a file delivers what is asked for. *)
Context (Hdel : forall k, exists d, deliver k = Some d /\ 1023 <= d).

Definition text_byte (c : Z) : Prop := 0 < c < 256.

Lemma text_no_nul l : Forall text_byte l -> 0 ∉ l.
Proof using. intros Hl Hin. by apply (proj1 (Forall_forall _ _) Hl) in Hin as [? _]. Qed.

(** One read that delivers [chunk] after the leftover [l]. *)
Lemma read_chunk fd l rest s : ufds s !! fd = Some rest -> (List.length l <= 1022)%nat -> Forall text_byte l -> Forall text_byte rest -> has (umem s) buf l -> mem_ok (umem s) ->
  let k := (1023 - List.length l)%nat in
  wp (read fd (buf + Z.of_nat (List.length l)) (BUFSZ - Z.of_nat (List.length l) - 1)) (fun n s' =>
    n = Z.of_nat (List.length (take k rest)) /\ has (umem s') buf (l ++ take k rest) /\
    ufiles s' = ufiles s /\ ufds s' = <[fd := drop k rest]> (ufds s) /\ uout s' = uout s /\ mem_ok (umem s')) s.
Proof using Hdel.
  intros Hfd Hl Htl Htr Hh Hok k. destruct (Hdel (ureads s)) as (d & Hd & Hge). unfold read. wp_step.
  eapply wp_result; [by apply run_recv|]. unfold BUFSZ.
  replace (Z.to_nat (Z.min (1024 - Z.of_nat (List.length l) - 1) (Z.max 1 d))) with k by (subst k; lia).
  wp_step. wp_step. wp_step. cbn. split; [done|]. split; [|auto using mem_ok_st_bytes]. apply has_app. split.
  - eapply has_same; [|exact Hh]. intros a Ha. rewrite ld8_st_bytes, decide_False by lia. done.
  - apply has_st_bytes. apply Forall_take. eapply Forall_impl; [exact Htr|]. unfold text_byte. cbn. lia.
Qed.

Definition bytes_1 (bs : list Z) : list (Z * Z) := (fun b => (1, b)) <$> bs.

(** One iteration, when the leftover [l] and the input still to come are text with short lines. *)
Lemma wp_grep_body fd l rest s : ufds s !! fd = Some rest -> NL ∉ l -> Forall text_byte (l ++ rest) -> short_lines (l ++ rest) -> has (umem s) buf l ->
  mem_ok (umem s) -> rest <> [] ->
  wp (grep_body buf pattern fd (Z.of_nat (List.length l))) (fun r s' => exists l' rest' out, r = inl (Z.of_nat (List.length l')) /\
    ufds s' = <[fd := rest']> (ufds s) /\ (List.length rest' < List.length rest)%nat /\ (NL ∉ l') /\ Forall text_byte (l' ++ rest') /\
    short_lines (l' ++ rest') /\ has (umem s') buf l' /\ mem_ok (umem s') /\ ufiles s' = ufiles s /\ uout s' = uout s ++ bytes_1 out /\
    select pattern (lines l rest) = out ++ select pattern (lines l' rest')) s.
Proof using Hacc Hdel.
  intros Hfd Hnl Ht Hs Hh Hok Hne. pose proof Ht as [Htl Htr]%Forall_app.
  assert (Hlen : (List.length l <= 1022)%nat) by (by apply (Hs [] l rest)).
  unfold grep_body. wp_step. eapply wp_mono; [by apply read_chunk|]. set (k := (1023 - List.length l)%nat).
  intros n s1 (-> & Hh1 & Hfs1 & Hfd1 & Ho1 & Hok1). cbv beta. set (chunk := take k rest) in *. set (rest' := drop k rest) in *.
  assert (Ed : l ++ rest = (l ++ chunk) ++ rest') by (unfold chunk, rest'; by rewrite <- app_assoc, take_drop).
  assert (Hck : (0 < List.length chunk)%nat) by (unfold chunk; rewrite length_take; destruct rest; [done|cbn; lia]).
  assert (Hrl : (List.length rest' < List.length rest)%nat) by (unfold rest'; rewrite length_drop; destruct rest; [done|cbn; lia]).
  rewrite (proj2 (Z.leb_gt _ _)) by lia. rewrite Ed in Ht, Hs. pose proof Ht as [Htd Htr']%Forall_app. set (d := l ++ chunk) in *.
  assert (Hd : List.length d = (List.length l + List.length chunk)%nat) by (unfold d; by rewrite length_app).
  assert (Hd1 : (List.length d < 1024)%nat) by (rewrite Hd; unfold chunk; rewrite length_take; lia).
  replace (Z.of_nat (List.length l) + Z.of_nat (List.length chunk)) with (Z.of_nat (List.length d)) by lia.
  wp_step. wp_step. wp_step. eapply wp_mono.
  { apply (wp_lines (Z.to_nat BUFSZ) d); cbn [umem set_umem].
    - apply has_st8_out; [lia|done].
    - apply ld8_st8_eq.
    - by apply text_no_nul.
    - change (Z.to_nat BUFSZ) with 1024%nat. lia.
    - lia. }
  intros p s2 (-> & Hh2 & Hp2). cbv beta. destruct Hp2 as (Hfs2 & Hfd2 & _ & Ho2 & Hok2). cbn in Hfs2, Hfd2, Ho2, Hok2.
  specialize (Hok2 ltac:(by apply mem_ok_st8)).
  destruct (tail_suffix [] d ltac:(apply not_elem_of_nil)) as (u & Hu & Htn & Hun). cbn in Hu. set (tl := tail_of [] d) in *.
  assert (El : select pattern (lines l rest) = select pattern (lines [] d) ++ select pattern (lines tl rest')).
  { rewrite <- select_app. f_equal. transitivity (lines [] (l ++ rest)); [by rewrite lines_cur|]. rewrite Ed. apply lines_app. }
  assert (Hul : List.length d = (List.length u + List.length tl)%nat) by (rewrite Hu at 1; apply length_app).
  destruct (Z.eqb_spec (buf + Z.of_nat (List.length d) - Z.of_nat (List.length tl)) buf) as [E|E].
  - (* no newline: the input ends here *)
    assert (u = []) as Eu by (destruct u; [done|cbn in Hul; lia]). specialize (Hun Eu).
    assert (Er : rest' = []).
    { pose proof (Hs [] d rest' eq_refl Hun) as Hb. apply length_zero_iff_nil. unfold rest'. rewrite length_drop. unfold chunk in Hd. rewrite length_take in Hd. lia. }
    change (0 <? 0) with false. cbv iota. wp_step. exists [], rest', []. split; [done|]. split; [by rewrite Hfd2, Hfd1|]. split; [done|]. split; [apply not_elem_of_nil|]. split; [done|].
    split; [by eapply short_lines_suffix|]. split; [by intros i c Hi|]. split; [done|]. split; [congruence|]. split.
    + rewrite Ho2, Ho1, lines_none by done. done.
    + rewrite El, lines_none by done. by rewrite Er.
  - rewrite (proj2 (Z.ltb_lt 0 _)) by lia. wp_step. wp_step. wp_step.
    set (p := buf + Z.of_nat (List.length d) - Z.of_nat (List.length tl)) in *.
    replace (Z.of_nat (List.length d) - (p - buf)) with (Z.of_nat (List.length tl)) by lia.
    exists tl, rest', (select pattern (lines [] d)). split; [done|]. split; [cbn; by rewrite Hfd2, Hfd1|]. split; [done|]. split; [done|].
    rewrite Hu in Ht, Hs. rewrite <- app_assoc in Ht, Hs. split; [by apply Forall_app in Ht as [_ Ht]|]. split; [by eapply short_lines_suffix|].
    split; [|cbn; split; [by apply mem_ok_copy_up|split; [congruence|split; [unfold bytes_1; congruence|done]]]].
    cbn [umem set_umem]. unfold User.memmove. intros i c Hi. pose proof (lookup_lt_Some _ _ _ Hi) as Hil.
    rewrite ld8_copy_up by (done || lia). rewrite decide_True by lia. replace (p + (buf + Z.of_nat i - buf)) with (p + Z.of_nat i) by lia. by apply Hh2.
Qed.

Lemma wp_grep_loop fd fuel : forall l rest s, ufds s !! fd = Some rest -> NL ∉ l -> Forall text_byte (l ++ rest) -> short_lines (l ++ rest) ->
  has (umem s) buf l -> mem_ok (umem s) -> (List.length rest < fuel)%nat ->
  wp (iterate fuel (grep_body buf pattern fd) (Z.of_nat (List.length l))) (fun _ s' =>
    uout s' = uout s ++ bytes_1 (select pattern (lines l rest)) /\ ufds s' = <[fd := []]> (ufds s) /\ ufiles s' = ufiles s /\ mem_ok (umem s')) s.
Proof using Hacc Hdel.
  induction fuel as [|fuel IH]; intros l rest s Hfd Hnl Ht Hs Hh Hok Hf; [lia|]. cbn [iterate]. wp_step. destruct rest as [|c rest].
  - rewrite app_nil_r in *. assert (Hlen : (List.length l <= 1022)%nat) by (apply (Hs [] l []); [by rewrite app_nil_r|done]).
    unfold grep_body. wp_step. eapply wp_mono; [by apply read_chunk|]. intros n s1 (-> & _ & Hfs & Hfds & Ho & Hok1). cbv beta. rewrite take_nil.
    change (Z.of_nat (List.length (@nil Z)) <=? 0) with true. cbv iota. wp_step. wp_step.
    change (select pattern (lines l [])) with (@nil Z). rewrite Ho, Hfds, drop_nil. done.
  - eapply wp_mono; [by apply wp_grep_body|].
    intros r s1 (l' & rest' & out & -> & Hfd1 & Hlt & Hn1 & Ht1 & Hs1 & Hh1 & Hok1 & Hfs1 & Ho1 & El). cbv beta iota.
    eapply wp_mono; [apply (IH l' rest'); try done|].
    + rewrite Hfd1. by rewrite lookup_insert_eq.
    + cbn in *. lia.
    + intros [] s2 (Ho2 & Hfd2 & Hfs2 & Hok2). rewrite Ho2, Ho1, El, Hfd2, Hfd1, Hfs2. unfold bytes_1. rewrite fmap_app, app_assoc.
      by rewrite insert_insert_eq.
Qed.

End grep_lemmas.

(** C28: grep prints exactly the matching lines.  On a file of text (no NUL bytes, no line of more than 1022 characters),
    whose reads deliver what is asked for, grep ends, has read the whole file, and has added to the standard output the
    lines that match the pattern, in order, each with its newline; a last line without newline is not printed. *)
Theorem grep_selects_lines {EN : Env} (buf : Z) (fuel : nat) (pattern text : list Z) (fd : Z) (s : ust) :
  (forall k, accept k = true) -> (forall k, exists d, deliver k = Some d /\ 1023 <= d) ->
  ufds s !! fd = Some text -> Forall text_byte text -> short_lines text -> mem_ok (umem s) -> (List.length text < fuel)%nat ->
  wp (grep buf fuel pattern fd) (fun _ s' => sent 1 s' = sent 1 s ++ select pattern (lines [] text) /\ ufds s' = <[fd := []]> (ufds s)) s.
Proof.
  intros Hacc Hdel Hfd Ht Hs Hok Hf. unfold grep. eapply wp_mono.
  { apply (wp_grep_loop buf pattern Hacc Hdel fd fuel [] text); [done|apply not_elem_of_nil|done|done|by intros i c Hi|done|done]. }
  intros [] s' (Ho & Hfd' & _). split; [|done]. unfold sent at 1. rewrite Ho. apply (sent_wrote 1 (select pattern (lines [] text)) 0 s).
Qed.

(** *** An input from a file *)

Definition ex_file_env : Env := {| deliver := fun _ => Some 4096; accept := fun _ => true |}.
Definition ex_text : list Z := bytes_of "foo" ++ [NL] ++ bytes_of "bar" ++ [NL] ++ bytes_of "a food" ++ [NL] ++ bytes_of "fo".
Definition ex_in (text : list Z) : ust := Ust ∅ ∅ {[ 3 := text ]} [] 0 0.

Lemma grep_selects_lines_witness :
  wp (@grep ex_file_env 8192 20 (bytes_of "^fo*") 3)
    (fun _ s' => sent 1 s' = sent 1 (ex_in ex_text) ++ select (bytes_of "^fo*") (lines [] ex_text) /\ ufds s' = <[3 := []]> (ufds (ex_in ex_text)))
    (ex_in ex_text) /\
  select (bytes_of "^fo*") (lines [] ex_text) = bytes_of "foo" ++ [NL].
Proof.
  split; [|vm_compute; reflexivity]. apply (@grep_selects_lines ex_file_env 8192 20 (bytes_of "^fo*") ex_text 3 (ex_in ex_text)).
  - done.
  - intros k. exists 4096. split; [done|lia].
  - done.
  - repeat (constructor; [unfold text_byte; vm_compute; split; reflexivity|]). constructor.
  - intros u v w E _. apply (f_equal (@List.length Z)) in E. rewrite !length_app in E. change (List.length ex_text) with 17%nat in E. lia.
  - apply mem_ok_empty.
  - vm_compute. lia.
Defined.

(** *** An input from a pipe that delivers one byte at a time *)

Definition ex_pipe_env : Env := {| deliver := fun _ => Some 1; accept := fun _ => true |}.

(** When a read ends inside the first line in the buffer, its beginning is thrown away: the line "ab" matches the pattern
    "ab" but is not printed. *)
Theorem grep_loses_partial_lines :
  lines [] (bytes_of "ab" ++ [NL]) = [bytes_of "ab"] /\ match_ (bytes_of "ab") (bytes_of "ab") = true /\
  wp (@grep ex_pipe_env 8192 10 (bytes_of "ab") 3) (fun _ s' => sent 1 s' = []) (ex_in (bytes_of "ab" ++ [NL])).
Proof. split; [reflexivity|]. split; [reflexivity|]. vm_compute. reflexivity. Qed.
