(* ===== verification/Textutils.v ===== *)
(** * Small user programs: cat.c, wc.c, echo.c, kill.c, ln.c, mkdir.c, rm.c

    Programs that read their input in pieces are shown to do what they do to the
    whole input, however the kernel cuts it into reads. *)

From Stdlib Require Import ZArith Lia Ascii String.
From stdpp Require Import base tactics numbers option list strings zmap gmap.
From S2P Require Import Prelude Memory StringOps Print User.

(** A format ended by a newline. *)
Definition ln (s : string) : string := s +:+ String "010" "".

Section progs.
Context {EN : Env} (buf : Z).

(** ** cat.c *)

(** One iteration; the answer is the last result of read, or [None] after exit. *)
Definition cat_body (fd : Z) (_ : unit) : MU (unit + option Z) :=
  n ← read fd buf 512;
  if 0 <? n then
    r ← write 1 buf n;
    if negb (r =? n) then printf 1 (ln "cat: write error") [];; mret (inr None)
    else mret (inl tt)
  else mret (inr (Some n)).

(** The answer is whether the program goes on. *)
Definition cat (fuel : nat) (fd : Z) : MU bool :=
  r ← iterate fuel (cat_body fd) tt;
  match r with
  | None => mret false
  | Some n => if n <? 0 then printf 1 (ln "cat: read error") [];; mret false else mret true
  end.

Fixpoint cat_files (fuel : nat) (args : list (list Z)) : MU unit :=
  match args with
  | [] => mret tt
  | f :: args' =>
      fd ← open f;
      if fd <? 0 then printf 1 (ln "cat: cannot open %s") [AStr (Some f)]
      else
        b ← cat fuel fd;
        if (b : bool) then close fd;; cat_files fuel args' else mret tt
  end.

Definition cat_main (fuel : nat) (args : list (list Z)) : MU unit :=
  match args with
  | [] => cat fuel 0;; mret tt
  | _ => cat_files fuel args
  end.

(** ** wc.c *)

Record counts : Type := Counts { c_l : Z; c_w : Z; c_c : Z; c_inword : bool }.

Definition SPACES : list Z := [32; 13; 9; 10; 11].

Definition wc_byte (k : counts) (b : Z) : counts :=
  let l := if b =? NL then c_l k + 1 else c_l k in
  if strchr_lit SPACES b then Counts l (c_w k) (c_c k + 1) false
  else if negb (c_inword k) then Counts l (c_w k + 1) (c_c k + 1) true
  else Counts l (c_w k) (c_c k + 1) (c_inword k).

Definition wc_body (fd : Z) (k : counts) : MU (counts + (Z * counts)) :=
  n ← read fd buf 512;
  if 0 <? n then
    m ← gets umem;
    mret (inl (fold_left wc_byte (ld_bytes m buf (Z.to_nat n)) k))
  else mret (inr (n, k)).

Definition wc (fuel : nat) (fd : Z) (name : list Z) : MU bool :=
  '(n, k) ← iterate fuel (wc_body fd) (Counts 0 0 0 false);
  if n <? 0 then printf 1 (ln "wc: read error") [];; mret false
  else printf 1 (ln "%d %d %d %s") [AInt (c_l k); AInt (c_w k); AInt (c_c k); AStr (Some name)];; mret true.

Fixpoint wc_files (fuel : nat) (args : list (list Z)) : MU unit :=
  match args with
  | [] => mret tt
  | f :: args' =>
      fd ← open f;
      if fd <? 0 then printf 1 (ln "wc: cannot open %s") [AStr (Some f)]
      else
        b ← wc fuel fd f;
        if (b : bool) then close fd;; wc_files fuel args' else mret tt
  end.

Definition wc_main (fuel : nat) (args : list (list Z)) : MU unit :=
  match args with
  | [] => wc fuel 0 [];; mret tt
  | _ => wc_files fuel args
  end.

(** ** echo.c *)

Fixpoint echo_main (args : list (list Z)) : MU unit :=
  match args with
  | [] => mret tt
  | a :: args' =>
      printf 1 "%s%s" [AStr (Some a); AStr (Some (match args' with [] => [NL] | _ => bytes_of " " end))];;
      echo_main args'
  end.

(** ** kill.c, ln.c, mkdir.c, rm.c, over the system calls they make *)

Fixpoint kill_loop (kill : Z -> MU Z) (args : list (list Z)) : MU unit :=
  match args with
  | [] => mret tt
  | a :: args' =>
      match atoi a with
      | Some pid => kill pid;; kill_loop kill args'
      | None => undef "atoi: overflow"
      end
  end.

Definition kill_main (kill : Z -> MU Z) (args : list (list Z)) : MU unit :=
  match args with
  | [] => printf 2 (ln "usage: kill pid...") []
  | _ => kill_loop kill args
  end.

Definition ln_main (link : list Z -> list Z -> MU Z) (args : list (list Z)) : MU unit :=
  match args with
  | [old; new] =>
      r ← link old new;
      when (r <? 0) (printf 2 (ln "link %s %s: failed") [AStr (Some old); AStr (Some new)])
  | _ => printf 2 (ln "Usage: ln old new") []
  end.

(** The loop of mkdir and of rm: stop at the first failure. *)
Fixpoint until_failure (call : list Z -> MU Z) (msg : string) (args : list (list Z)) : MU unit :=
  match args with
  | [] => mret tt
  | a :: args' =>
      r ← call a;
      if r <? 0 then printf 2 msg [AStr (Some a)] else until_failure call msg args'
  end.

Definition mkdir_main (mkdir : list Z -> MU Z) (args : list (list Z)) : MU unit :=
  match args with
  | [] => printf 2 (ln "Usage: mkdir files...") []
  | _ => until_failure mkdir (ln "mkdir: %s failed to create") args
  end.

Definition rm_main (unlink : list Z -> MU Z) (args : list (list Z)) : MU unit :=
  match args with
  | [] => printf 2 (ln "Usage: rm files...") []
  | _ => until_failure unlink (ln "rm: %s failed to delete") args
  end.

End progs.

(** ** Input in pieces *)

Section pieces.
Context {EN : Env} (buf : Z).
Context (Hacc : forall k, accept k = true) (Hdel : forall k, exists d, deliver k = Some d).

(** Every read of a descriptor with input left delivers a piece of it. *)
Lemma wp_read_piece fd rest s : ufds s !! fd = Some rest -> Forall (fun c => 0 <= c < 256) rest ->
  wp (read fd buf 512) (fun n s' => exists piece rest', rest = piece ++ rest' /\ n = Z.of_nat (List.length piece) /\
    (rest <> [] -> piece <> []) /\ ld_bytes (umem s') buf (Z.to_nat n) = piece /\
    ufds s' = <[fd := rest']> (ufds s) /\ ufiles s' = ufiles s /\ uout s' = uout s) s.
Proof using Hdel.
  intros Hfd Hb. destruct (Hdel (ureads s)) as [d Hd]. unfold read. wp_step. eapply wp_result; [by apply run_recv|].
  set (k := Z.to_nat _). cbv beta iota. wp_step. wp_step. wp_step. cbn. exists (take k rest), (drop k rest). split; [by rewrite take_drop|]. split; [done|].
  split; [intros Hne E; destruct rest; [done|]; destruct k eqn:Ek; [lia|done]|]. split; [|done].
  rewrite Nat2Z.id. apply list_eq. intros i. destruct (take k rest !! i) as [c|] eqn:E.
  - pose proof (lookup_lt_Some _ _ _ E) as Hi. rewrite lookup_ld_bytes by done. rewrite ld8_st_bytes, decide_True by lia.
    replace (Z.to_nat (buf + Z.of_nat i - buf)) with i by lia. rewrite E. cbn. f_equal. apply u8_id.
    apply (proj1 (Forall_lookup _ _) Hb i). by apply lookup_take_Some in E as [E _].
  - apply lookup_ge_None in E. apply lookup_ge_None. by rewrite length_ld_bytes.
Qed.

Lemma wp_cat fd fuel rest s : ufds s !! fd = Some rest -> Forall (fun c => 0 <= c < 256) rest -> (List.length rest < fuel)%nat ->
  wp (cat buf fuel fd) (fun b s' => b = true /\ sent 1 s' = sent 1 s ++ rest /\ ufds s' = <[fd := []]> (ufds s) /\ ufiles s' = ufiles s) s.
Proof using Hacc Hdel.
  intros Hfd Hb Hf. unfold cat. wp_step.
  eapply (wp_mono _ (fun r s' => r = Some 0 /\ sent 1 s' = sent 1 s ++ rest /\ ufds s' = <[fd := []]> (ufds s) /\ ufiles s' = ufiles s)).
  2: { intros r s' (-> & H). by wp_step. }
  revert rest s Hfd Hb Hf. induction fuel as [|fuel IH]; intros rest s Hfd Hb Hf; [lia|]. cbn [iterate]. wp_step. unfold cat_body. wp_step.
  eapply wp_mono; [by apply wp_read_piece|]. intros n s1 (piece & rest' & -> & -> & Hne & Hld & Hfd1 & Hfs1 & Ho1). cbv beta.
  destruct piece as [|c piece].
  - destruct rest' as [|c rest']; [|by destruct Hne]. change (0 <? Z.of_nat (List.length (@nil Z))) with false. cbv iota. wp_step. cbv beta iota. wp_step. rewrite Hfd1. unfold sent. rewrite Ho1. cbn. by rewrite app_nil_r.
  - rewrite (proj2 (Z.ltb_lt 0 _)) by (cbn; lia). wp_step. unfold write. wp_step. wp_step. rewrite Hld.
    eapply wp_result; [by apply (run_write_bytes Hacc)|]. cbv beta. rewrite Z.eqb_refl. cbn [negb]. wp_step. cbv beta iota.
    apply Forall_app in Hb as [_ Hb]. eapply wp_mono; [apply (IH rest')|].
    + cbn. rewrite Hfd1. by rewrite lookup_insert_eq.
    + done.
    + rewrite length_app in Hf. cbn in Hf. lia.
    + intros r s2 (-> & Ho2 & Hfd2 & Hfs2). split; [done|]. rewrite Ho2, sent_wrote. cbn in Hfd2, Hfs2. rewrite Hfd2, Hfd1, Hfs2.
      unfold sent at 1 2. rewrite Ho1. by rewrite insert_insert_eq, app_assoc.
Qed.

(** *** Counting *)

Lemma wp_wc_loop fd fuel rest k s : ufds s !! fd = Some rest -> Forall (fun c => 0 <= c < 256) rest -> (List.length rest < fuel)%nat ->
  wp (iterate fuel (wc_body buf fd) k) (fun r s' => r = (0, fold_left wc_byte rest k) /\ uout s' = uout s) s.
Proof using Hdel.
  revert rest k s. induction fuel as [|fuel IH]; intros rest k s Hfd Hb Hf; [lia|]. cbn [iterate]. wp_step. unfold wc_body. wp_step.
  eapply wp_mono; [by apply wp_read_piece|]. intros n s1 (piece & rest' & -> & -> & Hne & Hld & Hfd1 & Hfs1 & Ho1). cbv beta.
  destruct piece as [|c piece].
  - destruct rest' as [|c rest']; [|by destruct Hne]. change (0 <? Z.of_nat (List.length (@nil Z))) with false. cbv iota. wp_step. cbv beta iota. by wp_step.
  - rewrite (proj2 (Z.ltb_lt 0 _)) by (cbn; lia). wp_step. wp_step. wp_step. cbv beta iota. rewrite Hld.
    apply Forall_app in Hb as [_ Hb]. eapply wp_mono; [apply (IH rest')|].
    + rewrite Hfd1. by rewrite lookup_insert_eq.
    + done.
    + rewrite length_app in Hf. cbn in Hf. lia.
    + intros r s2 (-> & Ho2). rewrite fold_left_app. by rewrite Ho2.
Qed.

End pieces.

Definition is_space (b : Z) : bool := strchr_lit SPACES b.

(** The maximal runs of characters that are not white space. *)
Fixpoint words (cur text : list Z) : list (list Z) :=
  match text with
  | [] => match cur with [] => [] | _ => [cur] end
  | c :: text' => if is_space c then match cur with [] => words [] text' | _ => cur :: words [] text' end
                  else words (cur ++ [c]) text'
  end.

Lemma wc_counts_spec text k cur : c_inword k = negb (bool_decide (cur = [])) ->
  let k' := fold_left wc_byte text k in
  c_l k' = c_l k + Z.of_nat (List.length (filter (fun c => c = NL) text)) /\
  c_w k' = c_w k + Z.of_nat (List.length (words cur text)) - (if c_inword k then 1 else 0) /\
  c_c k' = c_c k + Z.of_nat (List.length text).
Proof.
  revert k cur. induction text as [|b text IH]; intros k cur Hk; cbn [fold_left].
  - rewrite Hk. destruct cur as [|c cur]; cbn; lia.
  - assert (Hl : c_l (wc_byte k b) + Z.of_nat (List.length (filter (fun c => c = NL) text)) = c_l k + Z.of_nat (List.length (filter (fun c => c = NL) (b :: text)))).
    { unfold wc_byte. destruct (Z.eqb_spec b NL) as [->|Hne].
      - rewrite filter_cons_True by done. destruct (strchr_lit SPACES NL), (c_inword k); cbn; lia.
      - rewrite filter_cons_False by done. destruct (strchr_lit SPACES b), (c_inword k); cbn; lia. }
    cbn [words]. unfold is_space. destruct (strchr_lit SPACES b) eqn:E.
    + destruct (IH (wc_byte k b) []) as (H1 & H2 & H3); [unfold wc_byte; by rewrite E|]. cbv zeta. rewrite H1, H2, H3, Hl. split; [done|].
      unfold wc_byte. rewrite E, Hk. cbn. destruct cur as [|c cur]; cbn; lia.
    + destruct (IH (wc_byte k b) (cur ++ [b])) as (H1 & H2 & H3).
      { unfold wc_byte. rewrite E. rewrite (bool_decide_false (cur ++ [b] = [])) by (by destruct cur). by destruct (c_inword k) eqn:Ei. }
      cbv zeta. rewrite H1, H2, H3, Hl. split; [done|]. unfold wc_byte. rewrite E. destruct (c_inword k) eqn:Ei; cbn; rewrite ?Ei; lia.
Qed.

Lemma length_words cur text : (List.length (words cur text) <= List.length text + (if bool_decide (cur = []) then 0 else 1))%nat.
Proof.
  revert cur. induction text as [|c text IH]; intros cur; cbn [words List.length].
  - destruct cur; cbn; lia.
  - destruct (is_space c).
    + specialize (IH []). cbn in IH. destruct cur; cbn; lia.
    + specialize (IH (cur ++ [c])). rewrite bool_decide_false in IH by (by destruct cur). destruct cur; cbn in *; lia.
Qed.

Definition byte (c : Z) : Prop := 0 <= c < 256.

(** cat copies its files.  Whatever sizes the reads have, if all named files exist, cat ends, has written the contents
    of the files, one after the other and nothing else, to the standard output, and has closed what it opened. *)
Theorem cat_concatenates {EN : Env} (buf : Z) (fuel : nat) (args contents : list (list Z)) (fd : Z) (s : ust) :
  (forall k, accept k = true) -> (forall k, exists d, deliver k = Some d) -> args <> [] -> free_fd (ufds s) = Some fd ->
  Forall2 (fun f bs => ufiles s !! f = Some bs /\ Forall byte bs /\ (List.length bs < fuel)%nat) args contents ->
  wp (cat_main buf fuel args) (fun _ s' => sent 1 s' = sent 1 s ++ concat contents /\ ufds s' = ufds s) s.
Proof.
  intros Hacc Hdel Hne Hfree Hall. unfold cat_main. destruct args as [|f0 args0]; [done|]. clear Hne. revert s Hfree Hall.
  generalize (f0 :: args0). intros args. revert contents. induction args as [|f args IH]; intros contents s Hfree Hall.
  - apply Forall2_nil_inv_l in Hall as ->. cbn. apply wp_ret. by rewrite app_nil_r.
  - apply Forall2_cons_inv_l in Hall as (bs & contents' & (Hf & Hb & Hl) & Hall & ->). cbn [cat_files].
    assert (Hfd : 0 <= fd /\ ufds s !! fd = None).
    { unfold free_fd in Hfree. apply fmap_Some in Hfree as (i & Hi & ->). split; [lia|]. apply find_index_Some in Hi as (j & Hj & Ht & _).
      apply lookup_seq in Hj as [-> _]. apply negb_true_iff, bool_decide_eq_false in Ht. by apply eq_None_not_Some. }
    destruct Hfd as [Hfd0 Hfd]. wp_step. unfold open. wp_step. wp_step. rewrite Hf, Hfree. wp_step. wp_step. wp_step.
    rewrite (proj2 (Z.ltb_ge fd 0)) by lia. wp_step. eapply wp_mono.
    { apply (wp_cat buf Hacc Hdel fd fuel bs); [cbn; by rewrite lookup_insert_eq|done|done]. }
    intros b s1 (-> & Ho & Hfd1 & Hfs). cbn in Ho, Hfd1, Hfs. cbv beta iota. wp_step. unfold close. wp_step.
    assert (Efds : delete fd (ufds s1) = ufds s) by (by rewrite Hfd1, !delete_insert_eq, delete_id).
    eapply wp_mono; [apply (IH contents')|].
    + cbn. by rewrite Efds.
    + cbn. by rewrite Hfs.
    + intros [] s2 [Ho2 Hfd2]. cbn in Hfd2. rewrite Ho2, Hfd2, Efds. split; [|done]. cbn [concat]. rewrite app_assoc. f_equal. exact Ho.
Qed.

Lemma wrote_0 fd s : s = wrote fd [] 0 s.
Proof. unfold wrote. cbn. rewrite app_nil_r. by destruct s. Qed.

(** wc counts lines, words and characters.  Whatever sizes the reads have, wc ends and prints the decimal numbers of
    newlines, of maximal runs of characters that are not white space, and of bytes of its input, and the name. *)
Theorem wc_counts {EN : Env} (buf : Z) (fuel : nat) (fd : Z) (text name : list Z) (s : ust) :
  (forall k, accept k = true) -> (forall k, exists d, deliver k = Some d) -> ufds s !! fd = Some text -> Forall byte text ->
  Forall byte name -> (List.length text < fuel)%nat -> Z.of_nat (List.length text) < 2147483648 ->
  wp (wc buf fuel fd name) (fun b s' => b = true /\ exists dl dw dc, sent 1 s' = sent 1 s ++ dl ++ [32] ++ dw ++ [32] ++ dc ++ [32] ++ name ++ [NL] /\
    atoi dl = Some (Z.of_nat (List.length (filter (fun c => c = NL) text))) /\
    atoi dw = Some (Z.of_nat (List.length (words [] text))) /\ atoi dc = Some (Z.of_nat (List.length text))) s.
Proof.
  intros Hacc Hdel Hfd Hb Hname Hf Hlen. unfold wc. wp_step. eapply wp_mono; [by apply (wp_wc_loop buf Hdel fd fuel text)|].
  intros r s1 [-> Ho]. cbv beta iota. change (0 <? 0) with false. cbv iota.
  destruct (wc_counts_spec text (Counts 0 0 0 false) [] eq_refl) as (Hl & Hw & Hc). cbv zeta in Hl, Hw, Hc. cbn [c_l c_w c_c c_inword] in Hl, Hw, Hc.
  rewrite Hl, Hw, Hc. rewrite !Z.add_0_l, Z.sub_0_r.
  assert (Hfl : (List.length (filter (fun c => c = NL) text) <= List.length text)%nat) by apply length_filter.
  set (fl := filter (fun c => c = NL) text) in *. pose proof (length_words [] text) as Hwl. cbn in Hwl.
  destruct (run_printint Hacc 1 (Z.of_nat (List.length fl)) ltac:(lia)) as (dl & Rl & Al & _).
  destruct (run_printint Hacc 1 (Z.of_nat (List.length (words [] text))) ltac:(lia)) as (dw & Rw & Aw & _).
  destruct (run_printint Hacc 1 (Z.of_nat (List.length text)) ltac:(lia)) as (dc & Rc & Ac & _).
  set (x := Z.of_nat (List.length fl)) in Rl, Al |- * at 1. set (y := Z.of_nat (List.length (words [] text))) in Rw, Aw |- * at 1.
  set (z := Z.of_nat (List.length text)) in Rc, Ac |- * at 1.
  unfold printf. change (printf_loop 1 (bytes_of (ln "%d %d %d %s")) 0 [AInt x; AInt y; AInt z; AStr (Some name)]) with
    (printint 1 (s32 x) 10 true;; putc 1 32;; printint 1 (s32 y) 10 true;; putc 1 32;; printint 1 (s32 z) 10 true;; putc 1 32;; puts 1 name;; putc 1 NL;; mret tt).
  wp_step. wp_step. eapply wp_result; [apply Rl|]. cbv beta. wp_step. eapply wp_result; [apply (run_putc Hacc)|]. cbv beta.
  wp_step. eapply wp_result; [apply Rw|]. cbv beta. wp_step. eapply wp_result; [apply (run_putc Hacc)|]. cbv beta.
  wp_step. eapply wp_result; [apply Rc|]. cbv beta. wp_step. eapply wp_result; [apply (run_putc Hacc)|]. cbv beta.
  wp_step. eapply wp_result; [by apply (run_puts Hacc)|]. cbv beta. wp_step. eapply wp_result; [apply (run_putc Hacc)|]. cbv beta. wp_step. wp_step.
  split; [done|]. exists dl, dw, dc. rewrite !wrote_wrote, sent_wrote. unfold sent at 1. rewrite Ho. fold (sent 1 s).
  split; [|split; [apply Al; lia|split; [apply Aw; lia|apply Ac; lia]]]. change (u8 32) with 32. change (u8 NL) with NL. by simplify_list_eq.
Qed.

(** *** One byte at a time *)

Lemma cat_concatenates_witness :
  let s := Ust ∅ {[ bytes_of "a" := bytes_of "hello"; bytes_of "b" := bytes_of " world" ]} ∅ [] 0 0 in
  wp (@cat_main ex_user_env 4096 10 [bytes_of "a"; bytes_of "b"])
    (fun _ s' => sent 1 s' = sent 1 s ++ concat [bytes_of "hello"; bytes_of " world"] /\ ufds s' = ufds s) s.
Proof.
  intros s. apply (@cat_concatenates ex_user_env 4096 10 _ _ 0 s).
  - done.
  - intros k. by exists 1.
  - done.
  - vm_compute. reflexivity.
  - repeat constructor; try (vm_compute; (reflexivity || discriminate)).
Defined.

Lemma wc_counts_witness :
  let text := bytes_of "two words" ++ [NL] ++ bytes_of " x" in
  let s := Ust ∅ ∅ {[ 3 := text ]} [] 0 0 in
  wp (@wc ex_user_env 4096 20 3 (bytes_of "f")) (fun b s' => b = true /\ exists dl dw dc,
    sent 1 s' = sent 1 s ++ dl ++ [32] ++ dw ++ [32] ++ dc ++ [32] ++ bytes_of "f" ++ [NL] /\
    atoi dl = Some (Z.of_nat (List.length (filter (fun c => c = NL) text))) /\
    atoi dw = Some (Z.of_nat (List.length (words [] text))) /\ atoi dc = Some (Z.of_nat (List.length text))) s /\
  List.length (words [] text) = 3%nat.
Proof.
  intros text s. split; [|vm_compute; reflexivity]. apply (@wc_counts ex_user_env 4096 20 3 text (bytes_of "f") s).
  - done.
  - intros k. by exists 1.
  - done.
  - repeat constructor; vm_compute; discriminate.
  - repeat constructor; vm_compute; discriminate.
  - vm_compute. lia.
  - vm_compute. reflexivity.
Defined.
