(* ===== verification/Shell.v ===== *)
(** * sh.c: the command parser of the shell

    The line is a list of characters (the NUL is its end), pointers into it are
    indices, and the scanning pointer [*ps] is the state of the parsers.  A panic of
    the shell (a syntax error) is a panic of the monad.  The nodes of a parsed
    command come from malloc, which is taken to succeed; an exec node and the
    redirections around it are one tree, and adding an argument updates the node at
    its bottom, as the code does through the second pointer it keeps. *)

From Stdlib Require Import ZArith Lia Ascii String.
From stdpp Require Import base tactics numbers option list strings.
From S2P Require Import Prelude Print User.

(** ** Commands *)

(** Where a string begins and ends in the line. *)
Definition token : Type := nat * nat.

Inductive cmd : Type :=
| EXEC (argv : list token)
| REDIR (c : cmd) (file : token) (mode fd : Z)
| PIPE (left right : cmd)
| LIST (left right : cmd)
| BACK (c : cmd).

Definition MAXARGS : nat := 10.
Definition O_RDONLY : Z := 0.
Definition O_WRONLY : Z := 1.
Definition O_CREATE : Z := 512.

(** [cmd->argv[argc] = q; cmd->eargv[argc] = eq] on the exec node below [c]. *)
Fixpoint add_arg (t : token) (c : cmd) : cmd :=
  match c with
  | EXEC argv => EXEC (argv ++ [t])
  | REDIR c' file mode fd => REDIR (add_arg t c') file mode fd
  | _ => c
  end.

Definition whitespace : list Z := [32; 9; 13; 10; 11].
Definition symbols : list Z := bytes_of "<|>&;()".

Definition is_ws (c : Z) : bool := strchr_lit whitespace c.
Definition is_sym (c : Z) : bool := strchr_lit symbols c.

(** ** The parser *)

Section parser.
Context (buf : list Z).

#[local] Abbreviation MP := (M nat).

Definition es : nat := List.length buf.
Definition ch (i : nat) : Z := default 0 (buf !! i).

(** [while(s < es && f( *s)) s++], with [n] at least the number of characters left. *)
Fixpoint scan (f : Z -> bool) (n s : nat) : nat :=
  match n with
  | O => s
  | S n' => if f (ch s) then scan f n' (S s) else s
  end.

Definition skip (s : nat) : nat := scan is_ws (es - s) s.

Definition gettoken : MP (Z * token) :=
  s ← get;
  let s := skip s in
  let q := s in
  let c := ch s in
  let '(ret, s) :=
    if c =? 0 then (c, s)
    else if strchr_lit (bytes_of "|();&<") c then (c, S s)
    else if c =? asc ">" then
      if ch (S s) =? asc ">" then (asc "+", S (S s)) else (c, S s)
    else (asc "a", scan (fun c => negb (is_ws c) && negb (is_sym c)) (es - s) s) in
  modify (fun _ => skip s);;
  mret (ret, (q, s)).

Definition peek (toks : string) : MP bool :=
  s ← get;
  let s := skip s in
  modify (fun _ => s);;
  mret (negb (ch s =? 0) && strchr_lit (bytes_of toks) (ch s)).

(** One redirection; [inr] when there is none. *)
Definition redir_body (c : cmd) : MP (cmd + cmd) :=
  b ← peek "<>";
  if (b : bool) then
    '(tok, _) ← gettoken;
    '(t, f) ← gettoken;
    if negb (t =? asc "a") then panic "missing file for redirection"
    else mret (inl (if tok =? asc "<" then REDIR c f O_RDONLY 0
                    else if tok =? asc ">" then REDIR c f (Z.lor O_WRONLY O_CREATE) 1
                    else if tok =? asc "+" then REDIR c f (Z.lor O_WRONLY O_CREATE) 1
                    else c))
  else mret (inr c).

Definition parseredirs (c : cmd) : MP cmd := iterate (S es) redir_body c.

(** One argument and the redirections after it. *)
Definition exec_body (a : cmd * nat) : MP ((cmd * nat) + cmd) :=
  let '(ret, argc) := a in
  b ← peek "|)&;";
  if (b : bool) then mret (inr ret)
  else
    '(tok, t) ← gettoken;
    if tok =? 0 then mret (inr ret)
    else if negb (tok =? asc "a") then panic "syntax"
    else
      let ret := add_arg t ret in
      let argc := S argc in
      if (MAXARGS <=? argc)%nat then panic "too many args"
      else ret ← parseredirs ret; mret (inl (ret, argc)).

Definition back_body (c : cmd) : MP (cmd + cmd) :=
  b ← peek "&";
  if (b : bool) then gettoken;; mret (inl (BACK c)) else mret (inr c).

(** [n] bounds the depth of the recursion. *)
Fixpoint parseline (n : nat) : MP cmd :=
  match n with
  | O => out_of_fuel
  | S n' =>
      c ← parsepipe n';
      c ← iterate (S es) back_body c;
      b ← peek ";";
      if (b : bool) then gettoken;; r ← parseline n'; mret (LIST c r) else mret c
  end
with parsepipe (n : nat) : MP cmd :=
  match n with
  | O => out_of_fuel
  | S n' =>
      c ← parseexec n';
      b ← peek "|";
      if (b : bool) then gettoken;; r ← parsepipe n'; mret (PIPE c r) else mret c
  end
with parseexec (n : nat) : MP cmd :=
  match n with
  | O => out_of_fuel
  | S n' =>
      b ← peek "(";
      if (b : bool) then parseblock n'
      else ret ← parseredirs (EXEC []); iterate (S es) exec_body (ret, 0%nat)
  end
with parseblock (n : nat) : MP cmd :=
  match n with
  | O => out_of_fuel
  | S n' =>
      b ← peek "(";
      if negb b then panic "parseblock"
      else
        gettoken;;
        c ← parseline n';
        b ← peek ")";
        if negb b then panic "syntax - missing )"
        else gettoken;; parseredirs c
  end.

End parser.

(** NUL-terminate all the counted strings. *)
Fixpoint nulterminate (c : cmd) (buf : list Z) : list Z :=
  match c with
  | EXEC argv => fold_left (fun b t => <[snd t := 0]> b) argv buf
  | REDIR c' file _ _ => <[snd file := 0]> (nulterminate c' buf)
  | PIPE l r => nulterminate r (nulterminate l buf)
  | LIST l r => nulterminate r (nulterminate l buf)
  | BACK c' => nulterminate c' buf
  end.

(** The command and the line with its strings ended. *)
Definition parsecmd (s : list Z) : outcome nat (cmd * list Z) :=
  (c ← parseline s (4 * es s + 4);
   peek s "";;
   p ← get;
   if negb (p =? es s)%nat then panic "syntax" else mret (c, nulterminate c s)) 0%nat.

(** ** The scanner on the text that is left

    A pointer into the line is determined by the text from it on: [pos x] points to
    the suffix [x]. *)

#[local] Arguments is_ws : simpl never.
#[local] Arguments is_sym : simpl never.

Fixpoint strip (l : list Z) : list Z :=
  match l with
  | [] => []
  | c :: r => if is_ws c then strip r else l
  end.

(** The characters of a word. *)
Definition is_word (c : Z) : bool := negb (is_ws c) && negb (is_sym c).

#[local] Arguments is_word : simpl never.

(** Maximal prefix of characters that pass a test. *)
Fixpoint take_while (f : Z -> bool) (l : list Z) : list Z :=
  match l with
  | [] => []
  | c :: r => if f c then c :: take_while f r else []
  end.

(** A text whose first character is not in a word. *)
Definition ends (l : list Z) : Prop := match l with [] => True | c :: _ => is_word c = false end.

Lemma strip_idem l : strip (strip l) = strip l.
Proof. induction l as [|c l IH]; cbn; [done|]. destruct (is_ws c) eqn:E; [done|]. cbn. by rewrite E. Qed.

Lemma strip_ws w l : forallb is_ws w = true -> strip (w ++ l) = strip l.
Proof. induction w as [|c w IH]; cbn; [done|]. intros [Hc Hw]%andb_prop. rewrite Hc. by apply IH. Qed.

Lemma strip_take l : l = take_while is_ws l ++ strip l.
Proof. induction l as [|c l IH]; cbn; [done|]. destruct (is_ws c); [|done]. cbn. by rewrite <- IH. Qed.

Lemma strip_app a b : exists p, strip (a ++ b) = p ++ strip b.
Proof.
  induction a as [|c a [p IH]]; cbn; [by exists []|]. destruct (is_ws c); [by exists p|].
  exists (c :: a ++ take_while is_ws b). cbn. by rewrite <- app_assoc, <- strip_take.
Qed.

Lemma word_take w r : forallb is_word w = true -> ends r -> take_while is_word (w ++ r) = w.
Proof.
  induction w as [|c w IH]; cbn.
  - intros _ H. destruct r as [|c r]; cbn in *; [done|]. by rewrite H.
  - intros [Hc Hw]%andb_prop Hr. rewrite Hc. by rewrite IH.
Qed.

Section scanner.
Context (buf : list Z) (Hnz : Forall (fun c => c <> 0) buf).

Definition suf (x : list Z) : Prop := exists pre, buf = pre ++ x.
Definition pos (x : list Z) : nat := (es buf - List.length x)%nat.

Lemma suf_app a x : suf (a ++ x) -> suf x.
Proof using. intros [pre E]. exists (pre ++ a). by rewrite <- app_assoc. Qed.

Lemma suf_cons c x : suf (c :: x) -> suf x.
Proof using. apply (suf_app [c]). Qed.

Lemma suf_strip x : suf x -> suf (strip x).
Proof using. intros H. rewrite (strip_take x) in H. by eapply suf_app. Qed.

Lemma suf_length x : suf x -> (List.length x <= es buf)%nat.
Proof using. unfold es. intros [pre E]. rewrite E, length_app. lia. Qed.

Lemma drop_pos x : suf x -> drop (pos x) buf = x.
Proof using.
  intros [pre E]. unfold pos, es. rewrite E at 1. rewrite length_app.
  replace (List.length pre + List.length x - List.length x)%nat with (List.length pre) by lia.
  rewrite E. by rewrite drop_app_length.
Qed.

Lemma pos_app a x : suf (a ++ x) -> pos x = (pos (a ++ x) + List.length a)%nat.
Proof using. intros H%suf_length. unfold pos. rewrite length_app in *. lia. Qed.

Lemma ch_pos x : suf x -> ch buf (pos x) = default 0 (head x).
Proof using.
  intros H. unfold ch. rewrite <- (Nat.add_0_r (pos x)), <- lookup_drop, drop_pos by done. by destruct x.
Qed.

Lemma scan_pos f x : suf x -> scan buf f (List.length x) (pos x) = (pos x + List.length (take_while f x))%nat.
Proof using.
  induction x as [|c x IH]; intros H; cbn [scan List.length take_while]; [cbn; lia|]. rewrite ch_pos by done. cbn [head default from_option id].
  destruct (f c); [|cbn; lia]. replace (S (pos (c :: x))) with (pos x) by (rewrite (pos_app [c] x) by done; cbn; lia).
  rewrite IH by (by eapply suf_cons). rewrite (pos_app [c] x) by done. cbn. lia.
Qed.

Lemma left_pos x : suf x -> (es buf - pos x)%nat = List.length x.
Proof using. intros H%suf_length. unfold pos. lia. Qed.

Lemma skip_pos x : suf x -> skip buf (pos x) = pos (strip x).
Proof using.
  intros H. unfold skip. rewrite left_pos, scan_pos by done. rewrite (strip_take x) in H. rewrite (pos_app _ _ H).
  by rewrite <- strip_take.
Qed.

Lemma head_nz x c r : suf x -> x = c :: r -> c <> 0.
Proof using Hnz. intros [pre E] ->. rewrite E in Hnz. apply Forall_app in Hnz as [_ H]. by apply Forall_cons in H as [H _]. Qed.

Lemma run_peek toks x : suf x ->
  peek buf toks (pos x) = Ret (match strip x with [] => false | c :: _ => strchr_lit (bytes_of toks) c end) (pos (strip x)).
Proof using Hnz.
  intros H. unfold peek. mrun. rewrite skip_pos, ch_pos by (done || by apply suf_strip). unfold mret, M_ret. f_equal.
  destruct (strip x) as [|c r] eqn:E; cbn; [done|]. rewrite (proj2 (Z.eqb_neq c 0)); [done|].
  eapply (head_nz (strip x)); [by apply suf_strip|done].
Qed.

(** gettoken on the end of the line, on a one-character symbol, on [>>], and on a word. *)
Lemma run_gettoken_end x : suf x -> strip x = [] -> exists t, gettoken buf (pos x) = Ret (0, t) (pos []).
Proof using.
  intros H E. unfold gettoken. mrun. rewrite skip_pos, E by done. rewrite ch_pos by (exists buf; by rewrite app_nil_r). cbn [head default from_option id].
  rewrite Z.eqb_refl. cbv iota beta. eexists. mrun. rewrite skip_pos by (exists buf; by rewrite app_nil_r). done.
Qed.

Lemma run_gettoken_sym x c r : suf x -> strip x = c :: r -> strchr_lit (bytes_of "|();&<") c = true \/ (c = asc ">" /\ head r <> Some (asc ">")) ->
  exists t, gettoken buf (pos x) = Ret (c, t) (pos (strip r)).
Proof using Hnz.
  intros H E Hc. pose proof (suf_strip x H) as Hs. rewrite E in Hs. pose proof (suf_cons _ _ Hs) as Hr.
  pose proof (head_nz _ _ _ Hs eq_refl) as Hc0. assert (Ep : S (pos (c :: r)) = pos r) by (rewrite (pos_app [c] r) by done; cbn; lia).
  unfold gettoken. mrun. rewrite skip_pos, E by done. rewrite ch_pos by done. cbn [head default from_option id].
  rewrite (proj2 (Z.eqb_neq c 0)) by done. rewrite Ep, ch_pos by done. destruct Hc as [Hc|[-> Hh]].
  - rewrite Hc. cbv iota beta. mrun. rewrite skip_pos by done. by eexists.
  - change (strchr_lit (bytes_of "|();&<") (asc ">")) with false. rewrite Z.eqb_refl. cbv iota beta.
    assert (E2 : (default 0 (head r) =? asc ">") = false) by (destruct r as [|d r]; [done|]; cbn; apply Z.eqb_neq; intros ->; by apply Hh).
    rewrite E2. cbv iota beta. mrun. rewrite skip_pos by done. by eexists.
Qed.

Lemma run_gettoken_app x r : suf x -> strip x = asc ">" :: asc ">" :: r -> exists t, gettoken buf (pos x) = Ret (asc "+", t) (pos (strip r)).
Proof using Hnz.
  intros H E. pose proof (suf_strip x H) as Hs. rewrite E in Hs. pose proof (suf_cons _ _ Hs) as Hr. pose proof (suf_cons _ _ Hr) as Hr2.
  assert (Ep : S (pos (asc ">" :: asc ">" :: r)) = pos (asc ">" :: r)) by (rewrite (pos_app [asc ">"] (asc ">" :: r)) by done; cbn; lia).
  assert (Ep2 : S (pos (asc ">" :: r)) = pos r) by (rewrite (pos_app [asc ">"] r) by done; cbn; lia).
  unfold gettoken. mrun. rewrite skip_pos, E by done. rewrite ch_pos by done. rewrite Ep, ch_pos by done.
  cbn [head default from_option id].
  change (asc ">" =? 0) with false. change (strchr_lit (bytes_of "|();&<") (asc ">")) with false. change (asc ">" =? asc ">") with true.
  cbv iota beta. mrun. rewrite Ep2, skip_pos by done. by eexists.
Qed.

Lemma run_gettoken_word x w r : suf x -> strip x = w ++ r -> w <> [] -> forallb is_word w = true -> ends r ->
  gettoken buf (pos x) = Ret (asc "a", (pos (w ++ r), pos r)) (pos (strip r)).
Proof using Hnz.
  intros H E Hne Hw Hr. pose proof (suf_strip x H) as Hs. rewrite E in Hs. pose proof (suf_app _ _ Hs) as Hsr.
  unfold gettoken. mrun. rewrite skip_pos, E by done. rewrite ch_pos by done. rewrite left_pos, scan_pos by done.
  change (fun c => negb (is_ws c) && negb (is_sym c)) with is_word. rewrite word_take by done. rewrite <- pos_app by done.
  destruct w as [|c w]; [done|]. cbn [app head default from_option id]. cbn [forallb] in Hw. apply andb_prop in Hw as [Hc _].
  pose proof (head_nz _ _ _ Hs eq_refl) as Hc0. rewrite (proj2 (Z.eqb_neq c 0)) by done.
  assert (Hsym : strchr_lit (bytes_of "|();&<") c = false /\ (c =? asc ">") = false).
  { unfold is_word, is_sym, symbols in Hc. apply andb_prop in Hc as [_ Hc]. apply negb_true_iff in Hc. unfold strchr_lit in *. cbn in Hc |- *.
    repeat (apply orb_false_elim in Hc as [? Hc]). rewrite (Z.eqb_sym c). split; [|done]. by repeat apply orb_false_intro. }
  destruct Hsym as [-> ->]. cbv iota beta. mrun. rewrite skip_pos by done. done.
Qed.

End scanner.

(** ** The language of command lines

    The syntax tree of a line keeps the white space before every token, so that
    printing it gives every way to write a command. *)

(** What a command means: its strings instead of their places in the line. *)
Inductive acmd : Type :=
| AExec (argv : list (list Z))
| ARedir (c : acmd) (file : list Z) (mode fd : Z)
| APipe (left right : acmd)
| AList (left right : acmd)
| ABack (c : acmd).

Inductive rkind : Type := RIn | ROut | RApp.

Record redir : Type := Redir { r_ws : list Z; r_kind : rkind; r_ws2 : list Z; r_file : list Z }.
Record argument : Type := Argument { g_ws : list Z; g_word : list Z; g_redirs : list redir }.

Inductive line : Type :=
| Last (p : pipe) (backs : list (list Z))
| Seq (p : pipe) (backs : list (list Z)) (ws : list Z) (l : line)
with pipe : Type :=
| Single (s : simple)
| Piped (s : simple) (ws : list Z) (p : pipe)
with simple : Type :=
| Command (rs : list redir) (args : list argument)
| Block (ws : list Z) (l : line) (ws2 : list Z) (rs : list redir).

Scheme line_mut := Induction for line Sort Prop
with pipe_mut := Induction for pipe Sort Prop
with simple_mut := Induction for simple Sort Prop.
Combined Scheme syntax_ind from line_mut, pipe_mut, simple_mut.

(** *** Printing *)

Definition print_redir (r : redir) : list Z :=
  r_ws r ++ bytes_of (match r_kind r with RIn => "<" | ROut => ">" | RApp => ">>" end) ++ r_ws2 r ++ r_file r.
Definition print_redirs (rs : list redir) : list Z := concat (print_redir <$> rs).
Definition print_arg (a : argument) : list Z := g_ws a ++ g_word a ++ print_redirs (g_redirs a).
Definition print_args (l : list argument) : list Z := concat (print_arg <$> l).
Definition print_backs (l : list (list Z)) : list Z := concat ((fun ws => ws ++ bytes_of "&") <$> l).

Fixpoint print_line (l : line) : list Z :=
  match l with
  | Last p backs => print_pipe p ++ print_backs backs
  | Seq p backs ws l' => print_pipe p ++ print_backs backs ++ ws ++ bytes_of ";" ++ print_line l'
  end
with print_pipe (p : pipe) : list Z :=
  match p with
  | Single s => print_simple s
  | Piped s ws p' => print_simple s ++ ws ++ bytes_of "|" ++ print_pipe p'
  end
with print_simple (s : simple) : list Z :=
  match s with
  | Command rs args => print_redirs rs ++ print_args args
  | Block ws l ws2 rs => ws ++ bytes_of "(" ++ print_line l ++ ws2 ++ bytes_of ")" ++ print_redirs rs
  end.

(** *** Meaning *)

Definition redirect (c : acmd) (r : redir) : acmd :=
  match r_kind r with
  | RIn => ARedir c (r_file r) O_RDONLY 0
  | ROut | RApp => ARedir c (r_file r) (Z.lor O_WRONLY O_CREATE) 1
  end.

Fixpoint add_word (w : list Z) (c : acmd) : acmd :=
  match c with
  | AExec argv => AExec (argv ++ [w])
  | ARedir c' file mode fd => ARedir (add_word w c') file mode fd
  | _ => c
  end.

Definition add_argument (c : acmd) (a : argument) : acmd := fold_left redirect (g_redirs a) (add_word (g_word a) c).

Fixpoint denote_line (l : line) : acmd :=
  match l with
  | Last p backs => fold_left (fun c _ => ABack c) backs (denote_pipe p)
  | Seq p backs _ l' => AList (fold_left (fun c _ => ABack c) backs (denote_pipe p)) (denote_line l')
  end
with denote_pipe (p : pipe) : acmd :=
  match p with
  | Single s => denote_simple s
  | Piped s _ p' => APipe (denote_simple s) (denote_pipe p')
  end
with denote_simple (s : simple) : acmd :=
  match s with
  | Command rs args => fold_left add_argument args (fold_left redirect rs (AExec []))
  | Block _ l _ rs => fold_left redirect rs (denote_line l)
  end.

(** *** Lines that are written correctly *)

Definition blank (w : list Z) : Prop := forallb is_ws w = true.
Definition word (w : list Z) : Prop := w <> [] /\ forallb is_word w = true /\ Forall (fun c => c <> 0) w.

Definition redir_ok (r : redir) : Prop := blank (r_ws r) /\ blank (r_ws2 r) /\ word (r_file r).
Definition arg_ok (a : argument) : Prop := blank (g_ws a) /\ word (g_word a) /\ Forall redir_ok (g_redirs a).

(** Words that follow something are separated from it. *)
Definition separated (args : list argument) : Prop := Forall (fun a => g_ws a <> []) args.

Fixpoint line_ok (l : line) : Prop :=
  match l with
  | Last p backs => pipe_ok p /\ Forall blank backs
  | Seq p backs ws l' => pipe_ok p /\ Forall blank backs /\ blank ws /\ line_ok l'
  end
with pipe_ok (p : pipe) : Prop :=
  match p with
  | Single s => simple_ok s
  | Piped s ws p' => simple_ok s /\ blank ws /\ pipe_ok p'
  end
with simple_ok (s : simple) : Prop :=
  match s with
  | Command rs args => Forall redir_ok rs /\ Forall arg_ok args /\ (List.length args < MAXARGS)%nat /\
      match rs, args with
      | [], _ :: args' => separated args'
      | _, _ => separated args
      end
  | Block ws l ws2 rs => blank ws /\ line_ok l /\ blank ws2 /\ Forall redir_ok rs
  end.

(** *** Reading the parsed command *)

(** The string at a place of the line, up to its NUL. *)
Definition cstr_at (buf : list Z) (q : nat) : list Z := take_while (fun c => negb (c =? 0)) (drop q buf).

Fixpoint resolve (buf : list Z) (c : cmd) : acmd :=
  match c with
  | EXEC argv => AExec ((fun t : token => cstr_at buf t.1) <$> argv)
  | REDIR c' file mode fd => ARedir (resolve buf c') (cstr_at buf file.1) mode fd
  | PIPE l r => APipe (resolve buf l) (resolve buf r)
  | LIST l r => AList (resolve buf l) (resolve buf r)
  | BACK c' => ABack (resolve buf c')
  end.

(** ** Parsing what was printed *)

(** The next token is one of some symbols. *)
Definition next_in (toks : string) (l : list Z) : bool :=
  match strip l with [] => false | c :: _ => strchr_lit (bytes_of toks) c end.

Lemma next_in_strip toks a b : strip a = strip b -> next_in toks a = next_in toks b.
Proof. unfold next_in. by intros ->. Qed.

Lemma strip_word w r : word w -> strip (w ++ r) = w ++ r.
Proof.
  intros (Hne & Hw & _). destruct w as [|c w]; [done|]. cbn in *. apply andb_prop in Hw as [Hc _]. unfold is_word in Hc.
  apply andb_prop in Hc as [Hc _]. apply negb_true_iff in Hc. by rewrite Hc.
Qed.

Lemma next_in_word toks ws w r : forallb is_sym (bytes_of toks) = true -> blank ws -> word w -> next_in toks (ws ++ w ++ r) = false.
Proof.
  intros Ht Hws Hw. unfold next_in. rewrite strip_ws, strip_word by done. destruct Hw as (Hne & Hw & _). destruct w as [|c w]; [done|]. cbn in *.
  apply andb_prop in Hw as [Hc _]. unfold is_word in Hc. apply andb_prop in Hc as [_ Hc]. apply negb_true_iff in Hc.
  apply not_true_is_false. intros H. unfold strchr_lit in H. apply existsb_exists in H as (d & Hd & ->%Z.eqb_eq).
  rewrite forallb_forall in Ht. rewrite (Ht c Hd) in Hc. done.
Qed.

(** What may follow a command. *)
Definition stop (post : list Z) : Prop := strip post = [] \/ next_in "|)&;" post = true.

Lemma sym_not_word c : is_sym c = true -> is_word c = false.
Proof. unfold is_word. intros ->. by rewrite andb_false_r. Qed.

Lemma stop_sym post : stop post -> strip post = [] \/ exists c r, strip post = c :: r /\ strchr_lit (bytes_of "|)&;") c = true.
Proof. intros [H|H]; [by left|]. unfold next_in in H. destruct (strip post) as [|c r] eqn:E; [done|]. right. by exists c, r. Qed.

Lemma lit_4 c : strchr_lit (bytes_of "|)&;") c = true -> is_sym c = true /\ strchr_lit (bytes_of "<>") c = false /\ strchr_lit (bytes_of "(") c = false.
Proof.
  unfold strchr_lit. intros H. apply existsb_exists in H as (d & Hd & ->%Z.eqb_eq). repeat (destruct Hd as [<-|Hd]; [done|]). by destruct Hd.
Qed.

Lemma stop_ends post : stop post -> ends post.
Proof.
  intros Hs%stop_sym. destruct post as [|d post]; [done|]. cbn [ends]. cbn [strip] in Hs. destruct (is_ws d) eqn:E; [unfold is_word; by rewrite E|].
  destruct Hs as [H|(c & r & [= -> _] & Hc)]; [done|]. apply sym_not_word. by apply lit_4.
Qed.

Lemma stop_redir post : stop post -> next_in "<>" post = false.
Proof. intros [H|(c & r & H & Hc)]%stop_sym; unfold next_in; rewrite H; [done|]. by apply lit_4. Qed.

Lemma ends_blank w r : blank w -> ends r \/ w <> [] -> ends (w ++ r).
Proof.
  intros Hw [Hr|Hne]; destruct w as [|c w]; try done; cbn in *; apply andb_prop in Hw as [Hc _]; unfold is_word; by rewrite Hc.
Qed.

Lemma ends_redirs rs post : Forall redir_ok rs -> ends post -> ends (print_redirs rs ++ post).
Proof.
  intros Hrs Hp. destruct rs as [|r rs]; [done|]. apply Forall_cons in Hrs as [(Hw & _) _]. unfold print_redirs, print_redir. cbn.
  rewrite <- !app_assoc. apply ends_blank; [done|]. left. by destruct (r_kind r).
Qed.

Section parsing.
Context (buf : list Z) (Hnz : Forall (fun c => c <> 0) buf).

Definition tok_of (t : token) (w : list Z) : Prop :=
  exists r, suf buf (w ++ r) /\ t = (pos buf (w ++ r), pos buf r) /\ forallb is_word w = true /\ ends r.

Inductive means : cmd -> acmd -> Prop :=
| means_exec argv ws : Forall2 tok_of argv ws -> means (EXEC argv) (AExec ws)
| means_redir c a f w mode fd : means c a -> tok_of f w -> means (REDIR c f mode fd) (ARedir a w mode fd)
| means_pipe l r a b : means l a -> means r b -> means (PIPE l r) (APipe a b)
| means_list l r a b : means l a -> means r b -> means (LIST l r) (AList a b)
| means_back c a : means c a -> means (BACK c) (ABack a).

Lemma means_add_arg t w c a : means c a -> tok_of t w -> means (add_arg t c) (add_word w a).
Proof using.
  intros Hm Ht. induction Hm; cbn; constructor; try done. apply Forall2_app; [done|]. by constructor.
Qed.

Lemma peek_at toks x l : suf buf x -> strip x = strip l -> peek buf toks (pos buf x) = Ret (next_in toks l) (pos buf (strip l)).
Proof using Hnz. intros H E. rewrite run_peek by done. unfold next_in. by rewrite E. Qed.

Lemma suf_eq x l : suf buf x -> strip x = strip l -> suf buf (strip l).
Proof using. intros H <-. by apply suf_strip. Qed.

Lemma suf_post a b : suf buf (strip (a ++ b)) -> suf buf (strip b).
Proof using. destruct (strip_app a b) as [p ->]. apply suf_app. Qed.

(** A redirection. *)
Lemma run_redir_body r c a x post : suf buf x -> strip x = strip (print_redir r ++ post) -> redir_ok r -> ends post -> means c a ->
  exists c', redir_body buf c (pos buf x) = Ret (inl c') (pos buf (strip post)) /\ means c' (redirect a r).
Proof using Hnz.
  intros Hx E (Hw & Hw2 & Hf) He Hm. unfold print_redir in E. rewrite <- !app_assoc, strip_ws in E by done.
  pose proof (suf_eq _ _ Hx E) as Hs. pose proof Hf as (Hfne & Hfw & _).
  assert (Hfile : forall y, suf buf y -> strip y = strip (r_ws2 r ++ r_file r ++ post) -> exists f,
    gettoken buf (pos buf y) = Ret (asc "a", f) (pos buf (strip post)) /\ tok_of f (r_file r)).
  { intros y Hy Ey. rewrite strip_ws, strip_word in Ey by done. eexists. split; [by apply run_gettoken_word|]. exists post.
    rewrite <- Ey. split; [by apply suf_strip|]. by rewrite Ey. }
  assert (Hgo : forall tok y, suf buf y -> strip y = strip (r_ws2 r ++ r_file r ++ post) -> next_in "<>" x = true ->
    (exists t, gettoken buf (pos buf (strip x)) = Ret (tok, t) (pos buf y)) ->
    (forall f, (if tok =? asc "<" then REDIR c f O_RDONLY 0 else if tok =? asc ">" then REDIR c f (Z.lor O_WRONLY O_CREATE) 1
       else if tok =? asc "+" then REDIR c f (Z.lor O_WRONLY O_CREATE) 1 else c) =
       REDIR c f (match r_kind r with RIn => O_RDONLY | _ => Z.lor O_WRONLY O_CREATE end) (match r_kind r with RIn => 0 | _ => 1 end)) ->
    exists c', redir_body buf c (pos buf x) = Ret (inl c') (pos buf (strip post)) /\ means c' (redirect a r)).
  { intros tok y Hy Ey Hn [t Ht] Hc. destruct (Hfile y Hy Ey) as (f & Hf1 & Hf2). eexists. unfold redir_body.
    rewrite (bind_ret_run _ _ _ _ _ (peek_at _ x x Hx eq_refl)), Hn. cbv iota. rewrite (bind_ret_run _ _ _ _ _ Ht). cbv beta iota.
    rewrite (bind_ret_run _ _ _ _ _ Hf1). cbv beta iota. change (asc "a" =? asc "a") with true. cbn [negb]. cbv iota. rewrite Hc.
    split; [done|]. unfold redirect. destruct (r_kind r); by constructor. }
  pose proof (suf_strip _ _ Hx) as Hsx. set (rest := r_ws2 r ++ r_file r ++ post) in *.
  assert (Hhd : head rest <> Some (asc ">")).
  { unfold rest. unfold blank in Hw2. destruct (r_ws2 r) as [|d w2]; cbn in *.
    - destruct (r_file r) as [|d w]; [done|]. cbn in *. intros [= ->]. apply andb_prop in Hfw as [Hd _]. by vm_compute in Hd.
    - intros [= ->]. apply andb_prop in Hw2 as [Hd _]. by vm_compute in Hd. }
  destruct (r_kind r) eqn:Ek.
  - assert (E' : strip x = asc "<" :: rest) by (rewrite E; done). rewrite E' in Hsx.
    apply (Hgo (asc "<") (strip rest)); [apply suf_strip; by eapply suf_cons|apply strip_idem|unfold next_in; by rewrite E'| |done].
    apply (run_gettoken_sym _ Hnz); [by apply suf_strip|rewrite strip_idem; exact E'|by left].
  - assert (E' : strip x = asc ">" :: rest) by (rewrite E; done). rewrite E' in Hsx.
    apply (Hgo (asc ">") (strip rest)); [apply suf_strip; by eapply suf_cons|apply strip_idem|unfold next_in; by rewrite E'| |done].
    apply (run_gettoken_sym _ Hnz); [by apply suf_strip|rewrite strip_idem; exact E'|by right].
  - assert (E' : strip x = asc ">" :: asc ">" :: rest) by (rewrite E; done). rewrite E' in Hsx.
    apply (Hgo (asc "+") (strip rest)); [apply suf_strip; by do 2 eapply suf_cons|apply strip_idem|unfold next_in; by rewrite E'| |done].
    apply (run_gettoken_app _ Hnz); [by apply suf_strip|rewrite strip_idem; exact E'].
Qed.

Lemma run_redirs rs : forall k c a x post, suf buf x -> strip x = strip (print_redirs rs ++ post) -> Forall redir_ok rs ->
  (rs <> [] -> ends post) -> next_in "<>" post = false -> means c a -> (List.length rs < k)%nat ->
  exists c', iterate k (redir_body buf) c (pos buf x) = Ret c' (pos buf (strip post)) /\ means c' (fold_left redirect rs a).
Proof using Hnz.
  induction rs as [|r rs IH]; intros [|k] c a x post Hx E Hok He Hn Hm Hk; cbn [List.length] in Hk; try lia.
  - exists c. split; [|done]. cbn [iterate]. erewrite bind_ret_run; [|unfold redir_body; rewrite (bind_ret_run _ _ _ _ _ (peek_at _ _ _ Hx E)); cbn [print_redirs]; cbn; rewrite Hn; done].
    done.
  - apply Forall_cons in Hok as [Hr Hok]. specialize (He ltac:(done)). assert (Ep : print_redirs (r :: rs) ++ post = print_redir r ++ print_redirs rs ++ post).
    { unfold print_redirs. cbn. by rewrite app_assoc. }
    rewrite Ep in E. destruct (run_redir_body r c a x (print_redirs rs ++ post)) as (c1 & H1 & Hm1); try done; [by apply ends_redirs|].
    pose proof (suf_post _ _ (suf_eq _ _ Hx E)) as Hs1.
    destruct (IH k c1 (redirect a r) (strip (print_redirs rs ++ post)) post) as (c2 & H2 & Hm2); [done|apply strip_idem|done|done|done|done|lia|].
    exists c2. split; [|done]. cbn [iterate]. rewrite (bind_ret_run _ _ _ _ _ H1). exact H2.
Qed.

Lemma len_redirs rs : Forall redir_ok rs -> (List.length rs <= List.length (print_redirs rs))%nat.
Proof using.
  induction rs as [|r rs IH]; intros Hok; [done|]. apply Forall_cons in Hok as [(_ & _ & Hf & _) Hok]. unfold print_redirs in *.
  rewrite fmap_cons. cbn [concat List.length]. rewrite length_app. specialize (IH Hok). unfold print_redir at 1. rewrite !length_app.
  assert (1 <= List.length (bytes_of (match r_kind r with RIn => "<" | ROut => ">" | RApp => ">>" end)))%nat by (destruct (r_kind r); cbn; lia). lia.
Qed.

Lemma strip_length l : (List.length (strip l) <= List.length l)%nat.
Proof using. induction l as [|c l IH]; cbn; [done|]. destruct (is_ws c); cbn; lia. Qed.

Lemma len_strip_redirs rs post : Forall redir_ok rs -> (List.length rs <= List.length (strip (print_redirs rs ++ post)))%nat.
Proof using.
  intros Hok. destruct rs as [|r rs]; [cbn; lia|]. apply Forall_cons in Hok as [(Hw & _) Hok]. pose proof (len_redirs rs Hok) as Hl.
  unfold print_redirs in *. rewrite fmap_cons. cbn [concat List.length]. unfold print_redir at 1. rewrite <- !app_assoc, strip_ws by done.
  assert (Hk : exists c t, bytes_of (match r_kind r with RIn => "<" | ROut => ">" | RApp => ">>" end) = c :: t /\ is_ws c = false)
    by (destruct (r_kind r); by do 2 eexists).
  destruct Hk as (c & t & -> & Hc). cbn [app strip]. rewrite Hc. cbn [List.length]. rewrite !length_app. lia.
Qed.

Lemma run_parseredirs rs c a x post : suf buf x -> strip x = strip (print_redirs rs ++ post) -> Forall redir_ok rs ->
  (rs <> [] -> ends post) -> next_in "<>" post = false -> means c a ->
  exists c', parseredirs buf c (pos buf x) = Ret c' (pos buf (strip post)) /\ means c' (fold_left redirect rs a).
Proof using Hnz.
  intros Hx E Hok He Hn Hm. eapply run_redirs; try done. pose proof (len_strip_redirs rs post Hok) as Hl. rewrite <- E in Hl.
  pose proof (suf_length _ _ (suf_strip _ _ Hx)). lia.
Qed.

Lemma print_args_cons g args : print_args (g :: args) = print_arg g ++ print_args args.
Proof using. done. Qed.

Lemma ends_args args post : Forall arg_ok args -> separated args -> stop post -> ends (print_args args ++ post).
Proof using.
  intros Hok Hs Hp. destruct args as [|g args]; [by apply stop_ends|]. apply Forall_cons in Hok as [(Hw & _) _]. apply Forall_cons in Hs as [Hs _].
  rewrite print_args_cons. unfold print_arg. rewrite <- !app_assoc. apply ends_blank; [done|by right].
Qed.

Lemma redir_args args post : Forall arg_ok args -> stop post -> next_in "<>" (print_args args ++ post) = false.
Proof using.
  intros Hok Hp. destruct args as [|g args]; [by apply stop_redir|]. apply Forall_cons in Hok as [(Hw & Hg & _) _].
  rewrite print_args_cons. unfold print_arg. rewrite <- !app_assoc. by apply next_in_word.
Qed.

(** An argument and its redirections. *)
Lemma run_exec_body g args c a argc x post : suf buf x -> strip x = strip (print_args (g :: args) ++ post) -> arg_ok g -> Forall arg_ok args ->
  separated args -> stop post -> (S argc < MAXARGS)%nat -> means c a ->
  exists c', exec_body buf (c, argc) (pos buf x) = Ret (inl (c', S argc)) (pos buf (strip (print_args args ++ post))) /\ means c' (add_argument a g).
Proof using Hnz.
  intros Hx E (Hw & Hg & Hr) Hargs Hs Hp Hn Hm. rewrite print_args_cons in E. unfold print_arg in E. rewrite <- !app_assoc in E.
  set (rest := print_args args ++ post) in *. pose proof (ends_args _ _ Hargs Hs Hp) as He. fold rest in He.
  assert (Hn1 : next_in "|)&;" (g_ws g ++ g_word g ++ print_redirs (g_redirs g) ++ rest) = false) by (by apply next_in_word).
  unfold exec_body. rewrite (bind_ret_run _ _ _ _ _ (peek_at _ _ _ Hx E)), Hn1. cbv iota.
  pose proof (suf_eq _ _ Hx E) as Hsx. rewrite strip_ws, strip_word in Hsx by done. rewrite strip_ws, strip_word by done.
  pose proof Hg as (Hgne & Hgw & _). pose proof (ends_redirs _ _ Hr He) as He2.
  erewrite bind_ret_run; [|apply run_gettoken_word; [done|done|by apply strip_word|done|done|done]]. cbv beta iota.
  change (asc "a" =? 0) with false. change (asc "a" =? asc "a") with true. cbn [negb]. cbv iota.
  rewrite (proj2 (Nat.leb_gt _ _)) by lia.
  destruct (run_parseredirs (g_redirs g) (add_arg (pos buf (g_word g ++ print_redirs (g_redirs g) ++ rest), pos buf (print_redirs (g_redirs g) ++ rest)) c)
    (add_word (g_word g) a) (strip (print_redirs (g_redirs g) ++ rest)) rest) as (c1 & H1 & Hm1).
  - apply suf_strip. by eapply suf_app.
  - apply strip_idem.
  - done.
  - done.
  - by apply redir_args.
  - apply means_add_arg; [done|]. by exists (print_redirs (g_redirs g) ++ rest).
  - exists c1. rewrite (bind_ret_run _ _ _ _ _ H1). by split.
Qed.

Lemma run_args args : forall k c a argc x post, suf buf x -> strip x = strip (print_args args ++ post) -> Forall arg_ok args ->
  separated (tail args) -> stop post -> (argc + List.length args < MAXARGS)%nat -> means c a -> (List.length args < k)%nat ->
  exists c', iterate k (exec_body buf) (c, argc) (pos buf x) = Ret c' (pos buf (strip post)) /\ means c' (fold_left add_argument args a).
Proof using Hnz.
  induction args as [|g args IH]; intros [|k] c a argc x post Hx E Hok Hs Hp Hn Hm Hk; cbn [List.length] in *; try lia.
  - exists c. split; [|done]. cbn [iterate]. cbn in E. erewrite bind_ret_run with (a := inr c) (s' := pos buf (strip post)); [done|].
    unfold exec_body. rewrite (bind_ret_run _ _ _ _ _ (peek_at _ _ _ Hx E)). destruct Hp as [Hp|Hp]; [|by rewrite Hp].
    unfold next_in. rewrite Hp. cbv iota. destruct (run_gettoken_end buf []) as (t & Ht); [exists buf; by rewrite app_nil_r|done|].
    by rewrite (bind_ret_run _ _ _ _ _ Ht).
  - apply Forall_cons in Hok as [Hg Hok]. destruct (run_exec_body g args c a argc x post) as (c1 & H1 & Hm1); try done; [lia|].
    pose proof (suf_eq _ _ Hx E) as Hsx. rewrite print_args_cons, <- app_assoc in Hsx.
    destruct (IH k c1 (add_argument a g) (S argc) (strip (print_args args ++ post)) post) as (c2 & H2 & Hm2);
      [by eapply suf_post|apply strip_idem|done| |done|lia|done|lia|].
    + cbn in Hs. destruct args as [|g' args]; [constructor|]. by apply Forall_cons in Hs as [_ Hs].
    + exists c2. split; [|done]. cbn [iterate]. rewrite (bind_ret_run _ _ _ _ _ H1). exact H2.
Qed.

(** A symbol ahead: it can be seen and taken. *)
Lemma see_symbol ws c r x : suf buf x -> strip x = strip (ws ++ c :: r) -> blank ws -> strchr_lit (bytes_of "|();&<") c = true ->
  suf buf (c :: r) /\ suf buf (strip r) /\ (forall toks, peek buf toks (pos buf x) = Ret (strchr_lit (bytes_of toks) c) (pos buf (c :: r))) /\
  exists t, gettoken buf (pos buf (c :: r)) = Ret (c, t) (pos buf (strip r)).
Proof using Hnz.
  intros Hx E Hw Hc. assert (Hws : strip (c :: r) = c :: r).
  { cbn. assert (is_ws c = false) as ->; [|done]. unfold strchr_lit in Hc. apply existsb_exists in Hc as (d & Hd & ->%Z.eqb_eq).
    repeat (destruct Hd as [<-|Hd]; [done|]). by destruct Hd. }
  rewrite strip_ws, Hws in E by done. pose proof (suf_strip _ _ Hx) as Hs. rewrite E in Hs.
  split; [done|]. split; [apply suf_strip; by eapply suf_cons|]. split.
  - intros toks. rewrite run_peek by done. by rewrite E.
  - apply (run_gettoken_sym buf Hnz); [done|done|by left].
Qed.

Lemma run_backs backs : forall k c a x post, suf buf x -> strip x = strip (print_backs backs ++ post) -> Forall blank backs ->
  next_in "&" post = false -> means c a -> (List.length backs < k)%nat ->
  exists c', iterate k (back_body buf) c (pos buf x) = Ret c' (pos buf (strip post)) /\ means c' (fold_left (fun c _ => ABack c) backs a).
Proof using Hnz.
  induction backs as [|w backs IH]; intros [|k] c a x post Hx E Hok Hn Hm Hk; cbn [List.length] in Hk; try lia.
  - exists c. split; [|done]. cbn [iterate]. cbn in E. erewrite bind_ret_run with (a := inr c) (s' := pos buf (strip post)); [done|].
    unfold back_body. by rewrite (bind_ret_run _ _ _ _ _ (peek_at _ _ _ Hx E)), Hn.
  - apply Forall_cons in Hok as [Hw Hok]. assert (Ep : print_backs (w :: backs) ++ post = w ++ asc "&" :: print_backs backs ++ post).
    { unfold print_backs. cbn. by rewrite <- !app_assoc. }
    rewrite Ep in E. destruct (see_symbol _ _ _ _ Hx E Hw eq_refl) as (_ & Hs & Hpk & t & Ht).
    destruct (IH k (BACK c) (ABack a) (strip (print_backs backs ++ post)) post) as (c2 & H2 & Hm2);
      [done|apply strip_idem|done|done|by constructor|lia|].
    exists c2. split; [|done]. cbn [iterate]. erewrite bind_ret_run with (a := inl (BACK c)); [exact H2|]. unfold back_body.
    rewrite (bind_ret_run _ _ _ _ _ (Hpk "&")). change (strchr_lit (bytes_of "&") (asc "&")) with true. cbv iota. by rewrite (bind_ret_run _ _ _ _ _ Ht).
Qed.

Fixpoint depth_line (l : line) : nat :=
  match l with
  | Last p _ => S (depth_pipe p)
  | Seq p _ _ l' => S (Nat.max (depth_pipe p) (depth_line l'))
  end
with depth_pipe (p : pipe) : nat :=
  match p with
  | Single s => S (depth_simple s)
  | Piped s _ p' => S (Nat.max (depth_simple s) (depth_pipe p'))
  end
with depth_simple (s : simple) : nat :=
  match s with
  | Command _ _ => 1
  | Block _ l _ _ => S (S (depth_line l))
  end.

(** What a parser does with what was printed. *)
Definition parses (p : nat -> M nat cmd) (depth : nat) (text : list Z) (stops : string) (a : acmd) : Prop :=
  forall n x post, suf buf x -> strip x = strip (text ++ post) -> strip post = [] \/ next_in stops post = true -> (depth <= n)%nat ->
  exists c, p n (pos buf x) = Ret c (pos buf (strip post)) /\ means c a.

Lemma print_backs_cons w backs : print_backs (w :: backs) = w ++ asc "&" :: print_backs backs.
Proof using. unfold print_backs. cbn. by rewrite <- app_assoc. Qed.

Lemma len_backs backs post : Forall blank backs -> (List.length backs <= List.length (strip (print_backs backs ++ post)))%nat.
Proof using.
  intros Hok. destruct backs as [|w backs]; [cbn; lia|]. apply Forall_cons in Hok as [Hw _].
  assert (Hl : (List.length backs <= List.length (print_backs backs))%nat).
  { clear. induction backs as [|v l IH]; [done|]. rewrite print_backs_cons, length_app. cbn [List.length]. lia. }
  rewrite print_backs_cons, <- app_assoc, strip_ws by done. cbn [app strip]. change (is_ws (asc "&")) with false. cbv iota. cbn [List.length].
  rewrite length_app. lia.
Qed.

Lemma len_args args post : Forall arg_ok args -> (List.length args <= List.length (strip (print_args args ++ post)))%nat.
Proof using.
  intros Hok. assert (Hl : forall l, Forall arg_ok l -> (List.length l <= List.length (print_args l))%nat).
  { induction l as [|g l IH]; intros Hl; [done|]. apply Forall_cons in Hl as [(_ & (Hne & _) & _) Hl]. rewrite print_args_cons. unfold print_arg.
    rewrite !length_app. cbn [List.length]. specialize (IH Hl). destruct (g_word g); [done|]. cbn [List.length]. lia. }
  destruct args as [|g args]; [cbn; lia|]. apply Forall_cons in Hok as [(Hw & Hg & _) Hok]. specialize (Hl args Hok).
  rewrite print_args_cons. unfold print_arg. rewrite <- !app_assoc, strip_ws, strip_word by done. rewrite !length_app. cbn [List.length].
  destruct Hg as [Hne _]. destruct (g_word g); [done|]. cbn [List.length]. lia.
Qed.

Lemma parses_command rs args : simple_ok (Command rs args) ->
  parses (parseexec buf) 1 (print_simple (Command rs args)) "|)&;" (denote_simple (Command rs args)).
Proof using Hnz.
  intros (Hrs & Hargs & Hlen & Hsep) [|n] x post Hx E Hp Hn; [lia|]. cbn [print_simple] in E. rewrite <- app_assoc in E.
  assert (Hs : separated (tail args)).
  { destruct rs; [by destruct args|]. destruct args; [done|]. by apply Forall_cons in Hsep as [_ Hsep]. }
  assert (He : rs <> [] -> ends (print_args args ++ post)).
  { intros Hne. apply ends_args; [done| |done]. by destruct rs. }
  assert (Hno : next_in "(" (print_redirs rs ++ print_args args ++ post) = false).
  { destruct rs as [|r rs].
    - cbn. destruct args as [|g args].
      + cbn. apply stop_sym in Hp. unfold next_in. destruct Hp as [->|(c & r & -> & Hc)]; [done|]. by apply lit_4.
      + apply Forall_cons in Hargs as [(Hw & Hg & _) _]. rewrite print_args_cons. unfold print_arg. rewrite <- !app_assoc. by apply next_in_word.
    - apply Forall_cons in Hrs as [(Hw & _) _]. unfold print_redirs. rewrite fmap_cons. cbn [concat]. unfold print_redir at 1. rewrite <- !app_assoc.
      unfold next_in. rewrite strip_ws by done. by destruct (r_kind r). }
  cbn [parseexec]. rewrite (bind_ret_run _ _ _ _ _ (peek_at _ _ _ Hx E)), Hno. cbv iota.
  destruct (run_parseredirs rs (EXEC []) (AExec []) (strip (print_redirs rs ++ print_args args ++ post)) (print_args args ++ post)) as (c1 & H1 & Hm1);
    [by eapply suf_eq|apply strip_idem|done|done|by apply redir_args|by repeat constructor|].
  rewrite (bind_ret_run _ _ _ _ _ H1).
  pose proof (suf_post _ _ (suf_eq _ _ Hx E)) as Hs1.
  apply (run_args args (S (es buf)) c1 _ 0 (strip (print_args args ++ post)) post); [done|apply strip_idem|done|done|done|lia|done|].
  pose proof (len_args args post Hargs). pose proof (suf_length _ _ Hs1). lia.
Qed.

Lemma next_symbol toks ws c r : blank ws -> strchr_lit (bytes_of "|();&<") c = true -> next_in toks (ws ++ c :: r) = strchr_lit (bytes_of toks) c.
Proof using.
  intros Hw Hc. unfold next_in. rewrite strip_ws by done. cbn [strip]. assert (is_ws c = false) as ->; [|done].
  unfold strchr_lit in Hc. apply existsb_exists in Hc as (d & Hd & ->%Z.eqb_eq). repeat (destruct Hd as [<-|Hd]; [done|]). by destruct Hd.
Qed.

Lemma parses_block ws l ws2 rs : simple_ok (Block ws l ws2 rs) ->
  parses (parseline buf) (depth_line l) (print_line l) ")" (denote_line l) ->
  parses (parseexec buf) (depth_simple (Block ws l ws2 rs)) (print_simple (Block ws l ws2 rs)) "|)&;" (denote_simple (Block ws l ws2 rs)).
Proof using Hnz.
  intros (Hw & Hl & Hw2 & Hrs) IH n x post Hx E Hp Hn. cbn [depth_simple] in Hn. destruct n as [|[|n]]; [lia|lia|].
  cbn [print_simple] in E. rewrite <- !app_assoc in E. cbn [bytes_of app] in E.
  destruct (see_symbol _ _ _ _ Hx E Hw eq_refl) as (Hs0 & Hs1 & Hpk & t & Ht).
  destruct (see_symbol [] _ _ _ Hs0 eq_refl eq_refl eq_refl) as (_ & _ & Hpk2 & _).
  set (rest := ws2 ++ asc ")" :: print_redirs rs ++ post) in *.
  destruct (IH n (strip (print_line l ++ rest)) rest) as (c & Hc & Hm); [done|apply strip_idem|right; by unfold rest; rewrite next_symbol|lia|].
  destruct (see_symbol ws2 (asc ")") (print_redirs rs ++ post) (strip rest)) as (_ & Hs3 & Hpk3 & t3 & Ht3);
    [by eapply suf_post|by rewrite strip_idem|done|done|].
  cbn [parseexec]. rewrite (bind_ret_run _ _ _ _ _ (Hpk "(")). change (strchr_lit (bytes_of "(") (asc "(")) with true. cbv iota.
  cbn [parseblock]. rewrite (bind_ret_run _ _ _ _ _ (Hpk2 "(")). change (strchr_lit (bytes_of "(") (asc "(")) with true. cbn [negb]. cbv iota.
  rewrite (bind_ret_run _ _ _ _ _ Ht), (bind_ret_run _ _ _ _ _ Hc), (bind_ret_run _ _ _ _ _ (Hpk3 ")")).
  change (strchr_lit (bytes_of ")") (asc ")")) with true. cbn [negb]. cbv iota. rewrite (bind_ret_run _ _ _ _ _ Ht3).
  apply run_parseredirs; [done|apply strip_idem|done|intros _; by apply stop_ends|by apply stop_redir|done].
Qed.

(** A set of symbols that excludes another one. *)
Lemma next_excl toks toks' post : (forall c, strchr_lit (bytes_of toks) c = true -> strchr_lit (bytes_of toks') c = false) ->
  strip post = [] \/ next_in toks post = true -> next_in toks' post = false.
Proof using. unfold next_in. intros H [->|Hp]; [done|]. destruct (strip post); [done|]. by apply H. Qed.

Lemma next_incl toks toks' post : (forall c, strchr_lit (bytes_of toks) c = true -> strchr_lit (bytes_of toks') c = true) ->
  strip post = [] \/ next_in toks post = true -> strip post = [] \/ next_in toks' post = true.
Proof using. unfold next_in. intros H [->|Hp]; [by left|]. destruct (strip post); [by left|]. right. by apply H. Qed.

Ltac lit_cases :=
  let c := fresh "c" in let H := fresh "H" in let d := fresh "d" in let Hd := fresh "Hd" in
  intros c H; unfold strchr_lit in H; apply existsb_exists in H as (d & Hd & ->%Z.eqb_eq);
  repeat (destruct Hd as [<-|Hd]; [done|]); by destruct Hd.

Lemma parses_pipe_single s : parses (parseexec buf) (depth_simple s) (print_simple s) "|)&;" (denote_simple s) ->
  parses (parsepipe buf) (depth_pipe (Single s)) (print_pipe (Single s)) ")&;" (denote_pipe (Single s)).
Proof using Hnz.
  intros IH [|n] x post Hx E Hp Hn; cbn [depth_pipe print_pipe] in *; [lia|].
  destruct (IH n x post Hx E) as (c & Hc & Hm); [eapply next_incl; [|exact Hp]; lit_cases|lia|].
  exists c. split; [|done]. cbn [parsepipe]. rewrite (bind_ret_run _ _ _ _ _ Hc).
  pose proof (suf_post _ _ (suf_eq _ _ Hx E)) as Hs. rewrite (bind_ret_run _ _ _ _ _ (peek_at _ _ _ Hs (strip_idem post))).
  by rewrite (next_excl ")&;" "|") by (done || lit_cases).
Qed.

Lemma parses_pipe_piped s ws p : blank ws -> parses (parseexec buf) (depth_simple s) (print_simple s) "|)&;" (denote_simple s) ->
  parses (parsepipe buf) (depth_pipe p) (print_pipe p) ")&;" (denote_pipe p) ->
  parses (parsepipe buf) (depth_pipe (Piped s ws p)) (print_pipe (Piped s ws p)) ")&;" (denote_pipe (Piped s ws p)).
Proof using Hnz.
  intros Hw IH1 IH2 [|n] x post Hx E Hp Hn; cbn [depth_pipe print_pipe] in *; [lia|]. rewrite <- !app_assoc in E. cbn [bytes_of app] in E.
  set (rest := ws ++ asc "|" :: print_pipe p ++ post) in *.
  destruct (IH1 n x rest Hx E) as (c & Hc & Hm); [right; by unfold rest; rewrite next_symbol|lia|].
  pose proof (suf_post _ _ (suf_eq _ _ Hx E)) as Hs.
  destruct (see_symbol ws (asc "|") (print_pipe p ++ post) (strip rest)) as (_ & Hs2 & Hpk & t & Ht); [done|apply strip_idem|done|done|].
  destruct (IH2 n (strip (print_pipe p ++ post)) post) as (c2 & Hc2 & Hm2); [done|apply strip_idem|done|lia|].
  exists (PIPE c c2). split; [|by constructor]. cbn [parsepipe]. rewrite (bind_ret_run _ _ _ _ _ Hc), (bind_ret_run _ _ _ _ _ (Hpk "|")).
  change (strchr_lit (bytes_of "|") (asc "|")) with true. cbv iota. by rewrite (bind_ret_run _ _ _ _ _ Ht), (bind_ret_run _ _ _ _ _ Hc2).
Qed.

Lemma next_backs backs rest : Forall blank backs -> strip rest = [] \/ next_in ");" rest = true ->
  strip (print_backs backs ++ rest) = [] \/ next_in ")&;" (print_backs backs ++ rest) = true.
Proof using.
  intros Hok Hr. destruct backs as [|w backs]; [eapply next_incl; [|exact Hr]; lit_cases|]. apply Forall_cons in Hok as [Hw _].
  right. rewrite print_backs_cons, <- app_assoc. cbn [app]. by rewrite next_symbol.
Qed.

(** A pipeline and the ampersands after it. *)
Lemma run_pipe_backs n p backs x rest : parses (parsepipe buf) (depth_pipe p) (print_pipe p) ")&;" (denote_pipe p) -> Forall blank backs ->
  suf buf x -> strip x = strip (print_pipe p ++ print_backs backs ++ rest) -> strip rest = [] \/ next_in ");" rest = true -> (depth_pipe p <= n)%nat ->
  exists c, (c ← parsepipe buf n; iterate (S (es buf)) (back_body buf) c) (pos buf x) = Ret c (pos buf (strip rest)) /\
    means c (fold_left (fun c _ => ABack c) backs (denote_pipe p)).
Proof using Hnz.
  intros IH Hb Hx E Hr Hn. destruct (IH n x (print_backs backs ++ rest) Hx E) as (c & Hc & Hm); [by apply next_backs|done|].
  pose proof (suf_post _ _ (suf_eq _ _ Hx E)) as Hs. rewrite (bind_ret_run _ _ _ _ _ Hc).
  apply (run_backs backs); [done|apply strip_idem|done| |done|].
  - eapply next_excl; [|exact Hr]. lit_cases.
  - pose proof (len_backs backs rest Hb). pose proof (suf_length _ _ Hs). lia.
Qed.

Lemma parses_last p backs : Forall blank backs -> parses (parsepipe buf) (depth_pipe p) (print_pipe p) ")&;" (denote_pipe p) ->
  parses (parseline buf) (depth_line (Last p backs)) (print_line (Last p backs)) ")" (denote_line (Last p backs)).
Proof using Hnz.
  intros Hb IH [|n] x post Hx E Hp Hn; cbn [depth_line print_line] in *; [lia|]. rewrite <- !app_assoc in E.
  destruct (run_pipe_backs n p backs x post IH Hb Hx E) as (c & Hc & Hm); [eapply next_incl; [|exact Hp]; lit_cases|lia|].
  exists c. split; [|done]. cbn [parseline]. rewrite <- run_bind_bind, (bind_ret_run _ _ _ _ _ Hc).
  pose proof (suf_post _ _ (suf_post _ _ (suf_eq _ _ Hx E))) as Hs. rewrite (bind_ret_run _ _ _ _ _ (peek_at _ _ _ Hs (strip_idem post))).
  by rewrite (next_excl ")" ";") by (done || lit_cases).
Qed.

Lemma parses_seq p backs ws l : Forall blank backs -> blank ws -> parses (parsepipe buf) (depth_pipe p) (print_pipe p) ")&;" (denote_pipe p) ->
  parses (parseline buf) (depth_line l) (print_line l) ")" (denote_line l) ->
  parses (parseline buf) (depth_line (Seq p backs ws l)) (print_line (Seq p backs ws l)) ")" (denote_line (Seq p backs ws l)).
Proof using Hnz.
  intros Hb Hw IH1 IH2 [|n] x post Hx E Hp Hn; cbn [depth_line print_line] in *; [lia|]. rewrite <- !app_assoc in E. cbn [bytes_of app] in E.
  set (rest := ws ++ asc ";" :: print_line l ++ post) in *.
  destruct (run_pipe_backs n p backs x rest IH1 Hb Hx E) as (c & Hc & Hm); [right; by unfold rest; rewrite next_symbol|lia|].
  pose proof (suf_post _ _ (suf_post _ _ (suf_eq _ _ Hx E))) as Hs.
  destruct (see_symbol ws (asc ";") (print_line l ++ post) (strip rest)) as (_ & Hs2 & Hpk & t & Ht); [done|apply strip_idem|done|done|].
  destruct (IH2 n (strip (print_line l ++ post)) post) as (c2 & Hc2 & Hm2); [done|apply strip_idem|done|lia|].
  exists (LIST c c2). split; [|by constructor]. cbn [parseline]. rewrite <- run_bind_bind, (bind_ret_run _ _ _ _ _ Hc), (bind_ret_run _ _ _ _ _ (Hpk ";")).
  change (strchr_lit (bytes_of ";") (asc ";")) with true. cbv iota. by rewrite (bind_ret_run _ _ _ _ _ Ht), (bind_ret_run _ _ _ _ _ Hc2).
Qed.

Lemma parses_all :
  (forall l, line_ok l -> parses (parseline buf) (depth_line l) (print_line l) ")" (denote_line l)) /\
  (forall p, pipe_ok p -> parses (parsepipe buf) (depth_pipe p) (print_pipe p) ")&;" (denote_pipe p)) /\
  (forall s, simple_ok s -> parses (parseexec buf) (depth_simple s) (print_simple s) "|)&;" (denote_simple s)).
Proof using Hnz.
  apply syntax_ind.
  - intros p IH backs [Hp Hb]. apply parses_last; auto.
  - intros p IH backs ws l IHl (Hp & Hb & Hw & Hl). apply parses_seq; auto.
  - intros s IH Hs. apply parses_pipe_single; auto.
  - intros s IH ws p IHp (Hs & Hw & Hp). apply parses_pipe_piped; auto.
  - intros rs args Hs. by apply parses_command.
  - intros ws l IH ws2 rs Hs. apply parses_block; [done|]. apply IH. by destruct Hs as (_ & Hl & _).
Qed.

Lemma depth_all :
  (forall l, (depth_line l <= 4 * List.length (print_line l) + 4)%nat) /\
  (forall p, (depth_pipe p <= 4 * List.length (print_pipe p) + 3)%nat) /\
  (forall s, (depth_simple s <= 4 * List.length (print_simple s) + 2)%nat).
Proof using.
  apply syntax_ind; intros; cbn [depth_line depth_pipe depth_simple print_line print_pipe print_simple]; rewrite ?length_app; cbn [bytes_of List.length]; lia.
Qed.

End parsing.

(** ** Ending the strings *)

(** The places nulterminate writes to, in its order. *)
Fixpoint marks (c : cmd) : list nat :=
  match c with
  | EXEC argv => snd <$> argv
  | REDIR c' file _ _ => marks c' ++ [snd file]
  | PIPE l r => marks l ++ marks r
  | LIST l r => marks l ++ marks r
  | BACK c' => marks c'
  end.

Definition zero (l : list nat) (b : list Z) : list Z := fold_left (fun b i => <[i := 0]> b) l b.

Lemma nulterminate_zero c b : nulterminate c b = zero (marks c) b.
Proof.
  revert b. unfold zero. induction c as [argv|c IH file mode fd|l IHl r IHr|l IHl r IHr|c IH]; intros b; cbn [nulterminate marks];
    rewrite ?fold_left_app, <- ?IH, <- ?IHl, <- ?IHr; try done.
  revert b. induction argv as [|t argv IH]; intros b; cbn; [done|]. by rewrite IH.
Qed.

Lemma length_zero l b : List.length (zero l b) = List.length b.
Proof. revert b. induction l as [|i l IH]; intros b; cbn; [done|]. fold (zero l (<[i := 0]> b)). by rewrite IH, length_insert. Qed.

Lemma lookup_zero_out l b i : i ∉ l -> zero l b !! i = b !! i.
Proof.
  revert b. induction l as [|j l IH]; intros b Hi; cbn; [done|]. apply not_elem_of_cons in Hi as [Hj Hi].
  fold (zero l (<[j := 0]> b)). rewrite IH by done. by apply list_lookup_insert_ne.
Qed.

Lemma lookup_zero_in l b i : i ∈ l -> (i < List.length b)%nat -> zero l b !! i = Some 0.
Proof.
  revert b. induction l as [|j l IH]; intros b Hi Hb; cbn; [by apply not_elem_of_nil in Hi|]. fold (zero l (<[j := 0]> b)).
  destruct (decide (i ∈ l)) as [Hin|Hin]; [apply IH; [done|by rewrite length_insert]|].
  apply elem_of_cons in Hi as [->|Hi]; [|done]. rewrite lookup_zero_out by done. by apply list_lookup_insert_eq.
Qed.

Lemma take_while_prefix f w r : forallb f w = true -> match r with [] => True | c :: _ => f c = false end -> take_while f (w ++ r) = w.
Proof.
  intros Hw Hr. induction w as [|c w IH]; cbn in *; [destruct r as [|c r]; [done|]; cbn; by rewrite Hr|].
  apply andb_prop in Hw as [Hc Hw]. rewrite Hc. by rewrite IH.
Qed.

Section ending.
Context (buf : list Z) (Hnz : Forall (fun c => c <> 0) buf).

(** Not inside a word. *)
Definition outside (i : nat) : Prop := match buf !! i with Some c => is_word c = false | None => True end.

Lemma tok_outside t w : tok_of buf t w -> outside t.2.
Proof using.
  intros (r & Hs & -> & _ & He). cbn. unfold outside. pose proof (suf_app _ _ _ Hs) as Hr.
  rewrite <- (Nat.add_0_r (pos buf r)), <- lookup_drop, drop_pos by done. by destruct r.
Qed.

Lemma marks_outside c a : means buf c a -> Forall outside (marks c).
Proof using.
  induction 1 as [argv ws H|c a f w mode fd Hm IH Ht|l r a b H1 IH1 H2 IH2|l r a b H1 IH1 H2 IH2|c a Hm IH]; cbn [marks]; try done.
  - apply Forall_fmap. induction H as [|t w argv ws Ht H IH]; constructor; [by eapply tok_outside|done].
  - apply Forall_app. split; [done|]. constructor; [by eapply tok_outside|done].
  - by apply Forall_app.
  - by apply Forall_app.
Qed.

Lemma read_token l t w : Forall outside l -> t.2 ∈ l -> tok_of buf t w -> cstr_at (zero l buf) t.1 = w.
Proof using Hnz.
  intros Hl Hin (r & Hs & -> & Hw & He). cbn in *. unfold cstr_at. pose proof Hs as [pre Epre].
  assert (Ep : pos buf (w ++ r) = List.length pre) by (unfold pos, es; rewrite Epre, length_app at 1; lia).
  assert (Er : pos buf r = (List.length pre + List.length w)%nat) by (rewrite (pos_app _ w r Hs); lia).
  rewrite Ep. rewrite Er in Hin. set (b := zero l buf).
  assert (Hb : List.length b = (List.length pre + List.length w + List.length r)%nat).
  { unfold b. rewrite length_zero, Epre, !length_app. lia. }
  assert (Hword : forall i c, w !! i = Some c -> b !! (List.length pre + i)%nat = Some c /\ c <> 0).
  { intros i c Hi. assert (Hbi : buf !! (List.length pre + i)%nat = Some c).
    { rewrite Epre, lookup_app_r by lia. replace (List.length pre + i - List.length pre)%nat with i by lia. by apply lookup_app_l_Some. }
    split; [|by apply (Forall_lookup_1 _ _ _ _ Hnz Hbi)]. unfold b. rewrite lookup_zero_out; [done|]. intros Hm.
    apply (proj1 (Forall_forall _ _) Hl) in Hm. unfold outside in Hm. rewrite Hbi in Hm.
    rewrite (proj1 (forallb_forall _ _) Hw c) in Hm; [done|]. by apply list_elem_of_In, list_elem_of_lookup; exists i. }
  assert (Ed : exists r', drop (List.length pre) b = w ++ r' /\ match r' with [] => True | c :: _ => c = 0 end).
  { exists (drop (List.length pre + List.length w) b). split.
    - rewrite <- drop_drop. rewrite <- (take_drop (List.length w) (drop (List.length pre) b)) at 1. f_equal. apply list_eq. intros i.
      destruct (w !! i) as [c|] eqn:Ei.
      + rewrite lookup_take_lt by (by eapply lookup_lt_Some). rewrite lookup_drop. by apply Hword.
      + rewrite lookup_take_ge; [done|]. by apply lookup_ge_None.
    - destruct (drop (List.length pre + List.length w) b) as [|c r'] eqn:E; [done|].
      assert (Hlk : b !! (List.length pre + List.length w)%nat = Some c) by (rewrite <- (Nat.add_0_r (_ + _)), <- lookup_drop, E; done).
      unfold b in Hlk. rewrite lookup_zero_in in Hlk; [congruence|done|]. apply lookup_lt_Some in Hlk. by rewrite length_zero in Hlk. }
  destruct Ed as (r' & -> & Hr'). apply take_while_prefix.
  - apply forallb_forall. intros c Hc. apply list_elem_of_In, list_elem_of_lookup in Hc as [i Hi]. apply Hword in Hi as [_ Hi].
    apply negb_true_iff. by apply Z.eqb_neq.
  - destruct r' as [|c r']; [done|]. by rewrite Hr'.
Qed.

Lemma resolve_means l c a : Forall outside l -> (forall i, i ∈ marks c -> i ∈ l) -> means buf c a -> resolve (zero l buf) c = a.
Proof using Hnz.
  intros Hl Hin Hm. induction Hm as [argv ws H|c a f w mode fd Hm IH Ht|lc rc a b H1 IH1 H2 IH2|lc rc a b H1 IH1 H2 IH2|c a Hm IH]; cbn [resolve marks] in *.
  - f_equal. induction H as [|t w argv ws Ht H IH]; [done|]. cbn. f_equal; [apply read_token; [done|apply Hin; by left|done]|].
    apply IH. intros i Hi. apply Hin. by right.
  - rewrite IH by (intros; apply Hin, elem_of_app; by left). f_equal. apply read_token; [done|apply Hin, elem_of_app; right; by left|done].
  - rewrite IH1, IH2 by (intros; apply Hin, elem_of_app; auto). done.
  - rewrite IH1, IH2 by (intros; apply Hin, elem_of_app; auto). done.
  - by rewrite IH.
Qed.

End ending.

(** C9: the shell understands every way to write a command.  A line that is written correctly (words of any characters but
    white space and symbols, any white space between the tokens, at most nine arguments per command) and may be followed
    by white space is parsed to its end, and the strings of the resulting command, read in the line after nulterminate,
    are those of the command the line denotes. *)
Theorem parsecmd_print (l : line) (ws : list Z) : line_ok l -> blank ws -> Forall (fun c => c <> 0) (print_line l ++ ws) ->
  exists c, parsecmd (print_line l ++ ws) = Ret (c, nulterminate c (print_line l ++ ws)) (es (print_line l ++ ws)) /\
    resolve (nulterminate c (print_line l ++ ws)) c = denote_line l.
Proof.
  intros Hl Hw Hnz. set (buf := print_line l ++ ws) in *. assert (Hs0 : suf buf buf) by (by exists []).
  assert (Hp0 : pos buf buf = 0%nat) by (unfold pos, es; lia).
  assert (Ews : strip ws = []) by (rewrite <- (app_nil_r ws); by rewrite strip_ws).
  destruct (proj1 (parses_all buf Hnz) l Hl (4 * es buf + 4)%nat buf ws) as (c & Hc & Hm); [done|done|by left| |].
  { pose proof (proj1 depth_all l). unfold es, buf. rewrite length_app. lia. }
  rewrite Hp0, Ews in Hc. exists c. assert (Hn : suf buf []) by (exists buf; by rewrite app_nil_r).
  assert (Hpe : pos buf [] = es buf) by (unfold pos; cbn; lia). split.
  - unfold parsecmd. rewrite (bind_ret_run _ _ _ _ _ Hc), (bind_ret_run _ _ _ _ _ (run_peek buf Hnz "" [] Hn)). mrun.
    cbn [strip]. rewrite Hpe, Nat.eqb_refl. done.
  - rewrite nulterminate_zero. eapply resolve_means; [done|by eapply marks_outside|done|done].
Qed.

(** ** Every line is parsed or refused *)

Section total.
Context (buf : list Z) (Hnz : Forall (fun c => c <> 0) buf).

(** Ends in a panic, or at a place with at most [n] characters left. *)
Definition safe {A} (n : nat) (o : outcome nat A) : Prop :=
  (exists msg, o = Panic msg) \/ exists a y, o = Ret a (pos buf y) /\ suf buf y /\ (List.length y <= n)%nat.

Lemma safe_bind {A B} n n' (m : M nat A) (k : A -> M nat B) s :
  safe n (m s) -> (forall a y, suf buf y -> (List.length y <= n)%nat -> safe n' (k a (pos buf y))) -> safe n' ((m ≫= k) s).
Proof using.
  intros [[msg E]|(a & y & E & Hy & Hn)] Hk; [left; exists msg; unfold mbind, M_bind; by rewrite E|].
  rewrite (bind_ret_run _ _ _ _ _ E). by apply Hk.
Qed.

Lemma safe_ret {A} n (a : A) y : suf buf y -> (List.length y <= n)%nat -> safe n ((mret a : M nat A) (pos buf y)).
Proof using. intros Hy Hn. right. by exists a, y. Qed.

Lemma safe_panic {A} n msg s : safe n (@panic nat A msg s).
Proof using. left. by exists msg. Qed.

(** peek moves to the next token, and sees none at the end. *)
Lemma peek_next {B} n toks (k : bool -> M nat B) x : suf buf x ->
  (strip x <> [] -> safe n (k true (pos buf (strip x)))) -> safe n (k false (pos buf (strip x))) -> safe n ((peek buf toks ≫= k) (pos buf x)).
Proof using Hnz.
  intros Hx H1 H2. rewrite (bind_ret_run _ _ _ _ _ (run_peek buf Hnz toks x Hx)). destruct (strip x) as [|c r] eqn:E; [done|].
  destruct (strchr_lit _ _); [by apply H1|done].
Qed.

Lemma gettoken_total x : suf buf x -> exists tok t y, gettoken buf (pos buf x) = Ret (tok, t) (pos buf y) /\ suf buf y /\
  (List.length y <= List.length x - 1)%nat /\ (strip x <> [] -> (List.length y < List.length x)%nat) /\ (strip x = [] -> tok = 0).
Proof using Hnz.
  intros Hx. pose proof (suf_strip _ _ Hx) as Hs. pose proof (strip_length x) as Hl. destruct (strip x) as [|c r] eqn:E.
  { destruct (run_gettoken_end buf x Hx E) as [t Ht]. exists 0, t, []. split; [done|]. split; [done|]. split; [cbn; lia|done]. }
  assert (Hgo : forall tok t r', (List.length r' <= List.length r)%nat -> suf buf r' -> gettoken buf (pos buf x) = Ret (tok, t) (pos buf (strip r')) ->
    exists tok t y, gettoken buf (pos buf x) = Ret (tok, t) (pos buf y) /\ suf buf y /\
      (List.length y <= List.length x - 1)%nat /\ (c :: r <> [] -> (List.length y < List.length x)%nat) /\ (c :: r = [] -> tok = 0)).
  { intros tok t r' Hr Hsr Ht. exists tok, t, (strip r'). pose proof (strip_length r'). cbn in Hl.
    split; [done|]. split; [by apply suf_strip|]. split; [lia|]. split; [lia|done]. }
  pose proof (suf_cons _ _ _ Hs) as Hr. destruct (strchr_lit (bytes_of "|();&<") c) eqn:Ec.
  { destruct (run_gettoken_sym buf Hnz x c r Hx E) as [t Ht]; [by left|]. by eapply Hgo. }
  destruct (decide (c = asc ">")) as [->|Hgt].
  { destruct (decide (head r = Some (asc ">"))) as [Hh|Hh].
    - destruct r as [|d r]; [done|]. cbn in Hh. injection Hh as ->. destruct (run_gettoken_app buf Hnz x r Hx E) as [t Ht].
      apply (Hgo (asc "+") t r); [cbn; lia|by eapply suf_cons|exact Ht].
    - destruct (run_gettoken_sym buf Hnz x (asc ">") r Hx E) as [t Ht]; [by right|]. by eapply Hgo. }
  assert (Hc : is_word c = true).
  { unfold is_word. assert (is_ws c = false) as ->.
    { destruct (is_ws c) eqn:Ew; [|done]. pose proof (strip_idem x) as Hi. rewrite E in Hi. cbn in Hi. rewrite Ew in Hi.
      pose proof (strip_length r) as Hsl. rewrite Hi in Hsl. cbn in Hsl. lia. }
    cbn. apply negb_true_iff. unfold is_sym, symbols, strchr_lit in *. cbn in Ec |- *.
    repeat (apply orb_false_elim in Ec as [? Ec]). repeat apply orb_false_intro; try done. by apply Z.eqb_neq, not_eq_sym. }
  set (w := take_while is_word (c :: r)). assert (Ew : exists r', c :: r = w ++ r' /\ ends r' /\ (List.length r' <= List.length r)%nat /\ w <> [] /\ forallb is_word w = true).
  { unfold w. cbn. rewrite Hc. exists (drop (List.length (take_while is_word r)) r). split; [|split; [|split]].
    - cbn. f_equal. clear. induction r as [|d r IH]; cbn; [done|]. destruct (is_word d); cbn; [by f_equal|done].
    - clear. induction r as [|d r IH]; cbn; [done|]. destruct (is_word d) eqn:E; cbn; [done|]. by rewrite E.
    - rewrite length_drop. lia.
    - split; [done|]. cbn. rewrite Hc. cbn. clear. induction r as [|d r IH]; cbn; [done|]. destruct (is_word d) eqn:E; cbn; [|done]. by rewrite E. }
  destruct Ew as (r' & Ew & He & Hrl & Hne & Hw). rewrite Ew in E.
  eapply Hgo; [exact Hrl| |by apply run_gettoken_word]. rewrite Ew in Hs. by eapply suf_app.
Qed.

Lemma safe_token {B} n (k : Z * token -> M nat B) x : suf buf x ->
  (forall tok t y, suf buf y -> (List.length y <= List.length x - 1)%nat -> (strip x <> [] -> (List.length y < List.length x)%nat) ->
     (strip x = [] -> tok = 0) -> safe n (k (tok, t) (pos buf y))) -> safe n ((gettoken buf ≫= k) (pos buf x)).
Proof using Hnz.
  intros Hx Hk. destruct (gettoken_total x Hx) as (tok & t & y & E & Hy & H1 & H2 & H3). rewrite (bind_ret_run _ _ _ _ _ E). by apply Hk.
Qed.

(** A loop whose body consumes something or ends. *)
Lemma safe_iterate {A B} (body : A -> M nat (A + B)) :
  (forall a x, suf buf x -> (exists msg, body a (pos buf x) = Panic msg) \/ exists r y, body a (pos buf x) = Ret r (pos buf y) /\ suf buf y /\
     match r with inl _ => (List.length y < List.length x)%nat | inr _ => (List.length y <= List.length x)%nat end) ->
  forall k a x, suf buf x -> (List.length x < k)%nat -> safe (List.length x) (iterate k body a (pos buf x)).
Proof using.
  intros Hb. induction k as [|k IH]; intros a x Hx Hk; [lia|]. cbn [iterate].
  destruct (Hb a x Hx) as [[msg E]|([a'|b] & y & E & Hy & Hl)].
  - left. exists msg. unfold mbind, M_bind. by rewrite E.
  - rewrite (bind_ret_run _ _ _ _ _ E). destruct (IH a' y Hy ltac:(lia)) as [?|(b & z & ? & ? & ?)]; [by left|]. right. exists b, z. split; [done|]. split; [done|lia].
  - rewrite (bind_ret_run _ _ _ _ _ E). by apply safe_ret.
Qed.

Lemma strip_le x y : suf buf y -> (List.length y <= List.length (strip x))%nat -> (List.length y <= List.length x)%nat.
Proof using. pose proof (strip_length x). lia. Qed.

Ltac solve_safe := first [left; by eexists | right; do 2 eexists; split; [reflexivity|split; [eassumption|cbn in *; lia]]].

Lemma redirs_total c x : suf buf x -> safe (List.length x) (parseredirs buf c (pos buf x)).
Proof using Hnz.
  intros Hx. unfold parseredirs. apply safe_iterate; [|done|pose proof (suf_length _ _ Hx); lia]. clear c x Hx. intros c x Hx.
  unfold redir_body. rewrite (bind_ret_run _ _ _ _ _ (run_peek buf Hnz "<>" x Hx)). pose proof (suf_strip _ _ Hx) as Hs. pose proof (strip_length x) as Hl.
  destruct (strip x) as [|d r] eqn:E; [right; exists (inr c), []; by repeat split|]. destruct (strchr_lit _ _); [|right; exists (inr c), (d :: r); by repeat split].
  destruct (gettoken_total (d :: r) Hs) as (tok & t & y & E1 & Hy & H1 & H2 & _). rewrite (bind_ret_run _ _ _ _ _ E1). cbv beta iota.
  assert (Ed : strip (d :: r) <> []) by (rewrite <- E, strip_idem, E; done).
  specialize (H2 Ed). destruct (gettoken_total y Hy) as (tok2 & t2 & y2 & E2 & Hy2 & H3 & _ & _). rewrite (bind_ret_run _ _ _ _ _ E2). cbv beta iota.
  destruct (negb _); solve_safe.
Qed.

Lemma backs_total c x : suf buf x -> safe (List.length x) (iterate (S (es buf)) (back_body buf) c (pos buf x)).
Proof using Hnz.
  intros Hx. apply safe_iterate; [|done|pose proof (suf_length _ _ Hx); lia]. clear c x Hx. intros c x Hx.
  unfold back_body. rewrite (bind_ret_run _ _ _ _ _ (run_peek buf Hnz "&" x Hx)). pose proof (suf_strip _ _ Hx) as Hs. pose proof (strip_length x) as Hl.
  destruct (strip x) as [|d r] eqn:E; [right; exists (inr c), []; by repeat split|]. destruct (strchr_lit _ _); [|right; exists (inr c), (d :: r); by repeat split].
  destruct (gettoken_total (d :: r) Hs) as (tok & t & y & E1 & Hy & H1 & H2 & _). rewrite (bind_ret_run _ _ _ _ _ E1).
  assert (Ed : strip (d :: r) <> []) by (rewrite <- E, strip_idem, E; done). specialize (H2 Ed). solve_safe.
Qed.

Lemma args_total c argc x : suf buf x -> safe (List.length x) (iterate (S (es buf)) (exec_body buf) (c, argc) (pos buf x)).
Proof using Hnz.
  intros Hx. apply safe_iterate; [|done|pose proof (suf_length _ _ Hx); lia]. clear c argc x Hx. intros [c argc] x Hx.
  unfold exec_body. rewrite (bind_ret_run _ _ _ _ _ (run_peek buf Hnz "|)&;" x Hx)). pose proof (suf_strip _ _ Hx) as Hs. pose proof (strip_length x) as Hl.
  match goal with |- context [if ?b then _ else _] => destruct b; [right; exists (inr c), (strip x); by repeat split|] end.
  destruct (gettoken_total (strip x) Hs) as (tok & t & y & E1 & Hy & H1 & H2 & H3). rewrite (bind_ret_run _ _ _ _ _ E1). cbv beta iota.
  rewrite strip_idem in H2, H3. destruct (Z.eqb_spec tok 0) as [E0|E0]; [solve_safe|]. destruct (negb _); [solve_safe|].
  assert (Hne : strip x <> []) by (intros E; by apply E0, H3). specialize (H2 Hne). destruct (_ <=? _)%nat; [solve_safe|].
  destruct (redirs_total (add_arg t c) y Hy) as [[msg E]|(c' & z & E & Hz & Hlz)]; unfold mbind, M_bind; rewrite E; cbn [obind]; solve_safe.
Qed.

(** Taking the symbol that peek saw leaves less. *)
Lemma safe_symbol {B} n (m : M nat B) x : suf buf x -> strip x <> [] ->
  (forall y, suf buf y -> (List.length y < List.length x)%nat -> safe n (m (pos buf y))) -> safe n ((gettoken buf;; m) (pos buf (strip x))).
Proof using Hnz.
  intros Hx Hne Hm. apply safe_token; [by apply suf_strip|]. intros tok t y Hy _ H _. apply Hm; [done|]. rewrite strip_idem in H.
  specialize (H Hne). pose proof (strip_length x). lia.
Qed.

Lemma safe_mono {A} n n' (o : outcome nat A) : safe n o -> (n <= n')%nat -> safe n' o.
Proof using. intros [H|(a & y & E & Hy & Hl)] Hn; [by left|]. right. exists a, y. split; [done|]. split; [done|lia]. Qed.

Lemma safe_strip {A} (a : A) x : suf buf x -> safe (List.length x) ((mret a : M nat A) (pos buf (strip x))).
Proof using. intros Hx. apply safe_ret; [by apply suf_strip|apply strip_length]. Qed.

Lemma parsers_total n :
  (forall x, suf buf x -> (4 * List.length x + 4 <= n)%nat -> safe (List.length x) (parseline buf n (pos buf x))) /\
  (forall x, suf buf x -> (4 * List.length x + 3 <= n)%nat -> safe (List.length x) (parsepipe buf n (pos buf x))) /\
  (forall x, suf buf x -> (4 * List.length x + 2 <= n)%nat -> safe (List.length x) (parseexec buf n (pos buf x))) /\
  (forall x, suf buf x -> (4 * List.length x + 1 <= n)%nat -> safe (List.length x) (parseblock buf n (pos buf x))).
Proof using Hnz.
  induction n as [|n (IHl & IHp & IHe & IHb)]; [split_and!; intros; lia|]. split_and!; intros x Hx Hn; cbn [parseline parsepipe parseexec parseblock].
  - eapply safe_bind; [apply IHp; [done|lia]|]. intros c y Hy Hl. eapply safe_bind; [by apply backs_total|]. intros c1 z Hz Hlz.
    apply peek_next; [done| |eapply safe_mono; [by apply safe_strip|lia]]. intros Hne. apply safe_symbol; [done|done|]. intros u Hu Hlu.
    eapply safe_bind; [apply IHl; [done|lia]|]. intros r v Hv Hlv. apply safe_ret; [done|lia].
  - eapply safe_bind; [apply IHe; [done|lia]|]. intros c z Hz Hlz.
    apply peek_next; [done| |eapply safe_mono; [by apply safe_strip|lia]]. intros Hne. apply safe_symbol; [done|done|]. intros u Hu Hlu.
    eapply safe_bind; [apply IHp; [done|lia]|]. intros r v Hv Hlv. apply safe_ret; [done|lia].
  - pose proof (suf_strip _ _ Hx) as Hs. pose proof (strip_length x) as Hl. apply peek_next; [done| |].
    + intros _. eapply safe_mono; [apply IHb; [done|lia]|lia].
    + eapply safe_bind; [by apply redirs_total|]. intros c y Hy Hly. eapply safe_mono; [by apply args_total|lia].
  - apply peek_next; [done| |apply safe_panic]. intros Hne. cbn [negb]. cbv iota. apply safe_symbol; [done|done|]. intros y Hy Hly.
    eapply safe_bind; [apply IHl; [done|lia]|]. intros c z Hz Hlz. apply peek_next; [done| |apply safe_panic]. intros Hne2. cbn [negb]. cbv iota.
    apply safe_symbol; [done|done|]. intros u Hu Hlu. eapply safe_mono; [by apply redirs_total|lia].
Qed.

End total.

(** C29: parsing ends.  Every line whatsoever is parsed to its end, or refused with a message; the bounds on the loops and
    on the depth of the recursion are never what ends it. *)
Theorem parsecmd_total (s : list Z) : Forall (fun c => c <> 0) s ->
  (exists c, parsecmd s = Ret (c, nulterminate c s) (es s)) \/ (exists msg, parsecmd s = Panic msg).
Proof.
  intros Hnz. assert (Hs0 : suf s s) by (by exists []). assert (Hp0 : pos s s = 0%nat) by (unfold pos, es; lia).
  destruct (proj1 (parsers_total s Hnz (4 * es s + 4)) s Hs0) as [[msg E]|(c & y & E & Hy & Hl)]; [unfold es; lia| |]; rewrite Hp0 in E; unfold parsecmd.
  - right. exists msg. unfold mbind at 1, M_bind at 1. by rewrite E.
  - rewrite (bind_ret_run _ _ _ _ _ E), (bind_ret_run _ _ _ _ _ (run_peek s Hnz "" y Hy)). mrun.
    destruct (Nat.eqb_spec (pos s (strip y)) (es s)) as [Ep|Ep]; [left; exists c; cbn [negb]; by rewrite Ep|right; by exists "syntax"].
Qed.

(** *** A pipeline in the background, then a block *)

(** "ls -l|grep x >out & ; (a;b)< f " *)
Definition ex_line : line :=
  Seq (Piped (Command [] [Argument [] (bytes_of "ls") []; Argument [32] (bytes_of "-l") []]) []
         (Single (Command [] [Argument [] (bytes_of "grep") []; Argument [32] (bytes_of "x") [Redir [32] ROut [] (bytes_of "out")]])))
      [[32]] [32]
      (Last (Single (Block [32] (Seq (Single (Command [] [Argument [] (bytes_of "a") []])) [] []
                                   (Last (Single (Command [] [Argument [] (bytes_of "b") []])) [])) [] [Redir [] RIn [32] (bytes_of "f")])) []).

Lemma parsecmd_print_witness :
  print_line ex_line ++ [32] = bytes_of "ls -l|grep x >out & ; (a;b)< f " /\
  exists c, parsecmd (print_line ex_line ++ [32]) = Ret (c, nulterminate c (print_line ex_line ++ [32])) (es (print_line ex_line ++ [32])) /\
    resolve (nulterminate c (print_line ex_line ++ [32])) c = denote_line ex_line.
Proof.
  split; [reflexivity|]. apply (parsecmd_print ex_line [32]).
  - cbn. unfold blank, separated. repeat match goal with
    | |- _ /\ _ => split
    | |- Forall _ _ => constructor
    | |- redir_ok _ => unfold redir_ok, blank, word
    | |- arg_ok _ => unfold arg_ok, blank, word
    | |- _ = true => reflexivity
    | |- _ <> _ => discriminate
    | |- (_ < _)%nat => vm_compute; lia
    | |- True => exact I
    end.
  - reflexivity.
  - repeat constructor; discriminate.
Defined.

Lemma parsecmd_total_witness :
  (exists c, parsecmd (bytes_of "ls (") = Ret (c, nulterminate c (bytes_of "ls (")) (es (bytes_of "ls ("))) \/
  (exists msg, parsecmd (bytes_of "ls (") = Panic msg).
Proof. apply (parsecmd_total (bytes_of "ls (")). repeat constructor; discriminate. Defined.
