(* ===== verification/Umalloc.v ===== *)
(** * umalloc.c: the memory allocator of user programs

    Free blocks form a ring in memory, in the order of their addresses, that begins
    with the header [base] of the program's data.  A header is two words: the next
    block and the size in headers.  Blocks handed out keep their header.

    [heap F A s] relates the memory to the free blocks [F] and the blocks in use [A]:
    they do not overlap.  malloc moves a block of the right size to [A], free moves
    it back, and neither touches the contents of the blocks in use.  sbrk is what
    sysproc.c does for positive arguments, up to a limit on the size of the heap. *)

From Stdlib Require Import ZArith Lia.
From stdpp Require Import base tactics numbers option list strings zmap.
From S2P Require Import Prelude Memory.

Record hst : Type := Hst { hmem : Zmap Z; freep : Z; brk : Z }.

Definition set_hmem (v : Zmap Z) (s : hst) : hst := Hst v (freep s) (brk s).
Definition set_freep (v : Z) (s : hst) : hst := Hst (hmem s) v (brk s).
Definition set_brk (v : Z) (s : hst) : hst := Hst (hmem s) (freep s) v.

Section umalloc.
Context (hbase limit : Z).

#[local] Abbreviation MH := (M hst).

(** The fields of a header. *)
Definition get_ptr (p : Z) : MH Z := gets (fun s => ld32 (hmem s) p).
Definition get_size (p : Z) : MH Z := gets (fun s => ld32 (hmem s) (p + 4)).
Definition set_ptr (p v : Z) : MH unit := modify (fun s => set_hmem (st32 (hmem s) p v) s).
Definition set_size (p v : Z) : MH unit := modify (fun s => set_hmem (st32 (hmem s) (p + 4) v) s).

Definition sizeof_Header : Z := 8.

Definition sbrk (n : Z) : MH Z :=
  if s32 n <? 0 then undef "sbrk: shrinking"
  else
    b ← gets brk;
    if b + n <=? limit then modify (set_brk (b + n));; mret b else mret (u32 (-1)).

(** The search of free: the block after which [bp] belongs. *)
Definition free_body (bp p : Z) : MH (Z + Z) :=
  nx ← get_ptr p;
  if (p <? bp) && (bp <? nx) then mret (inr p)
  else if (nx <=? p) && ((p <? bp) || (bp <? nx)) then mret (inr p)
  else mret (inl nx).

(** Join [bp] to the block after it, or link it. *)
Definition free_upper (bp p : Z) : MH unit :=
  n ← get_size bp;
  nx ← get_ptr p;
  if u32 (bp + sizeof_Header * n) =? nx then
    k ← get_size nx; set_size bp (u32 (n + k));;
    nx ← get_ptr p; nn ← get_ptr nx; set_ptr bp nn
  else set_ptr bp nx.

(** Join [bp] to the block before it, or link it. *)
Definition free_lower (bp p : Z) : MH unit :=
  k ← get_size p;
  if u32 (p + sizeof_Header * k) =? bp then
    n ← get_size bp; set_size p (u32 (k + n));;
    nx ← get_ptr bp; set_ptr p nx
  else set_ptr p bp.

Definition free (fuel : nat) (ap : Z) : MH unit :=
  let bp := ap - sizeof_Header in
  p ← gets freep;
  p ← iterate fuel (free_body bp) p;
  free_upper bp p;;
  free_lower bp p;;
  modify (set_freep p).

Definition morecore (fuel : nat) (nu : Z) : MH Z :=
  let nu := if nu <? 4096 then 4096 else nu in
  p ← sbrk (u32 (nu * sizeof_Header));
  if p =? u32 (-1) then mret 0
  else
    set_size p nu;;
    free fuel (p + sizeof_Header);;
    gets freep.

(** One block of the search of malloc; [inr] is the answer. *)
Definition malloc_body (fuel : nat) (nunits : Z) (a : Z * Z) : MH ((Z * Z) + Z) :=
  let '(prevp, p) := a in
  n ← get_size p;
  if nunits <=? n then
    p ← (if n =? nunits then nx ← get_ptr p; set_ptr prevp nx;; mret p
         else
           set_size p (n - nunits);;
           let p := p + sizeof_Header * (n - nunits) in
           set_size p nunits;; mret p);
    modify (set_freep prevp);;
    mret (inr (p + sizeof_Header))
  else
    f ← gets freep;
    if p =? f then
      p ← morecore fuel nunits;
      if p =? 0 then mret (inr 0) else nx ← get_ptr p; mret (inl (p, nx))
    else nx ← get_ptr p; mret (inl (p, nx)).

Definition malloc (fuel : nat) (nbytes : Z) : MH Z :=
  let nunits := u32 (nbytes + sizeof_Header - 1) / sizeof_Header + 1 in
  f ← gets freep;
  prevp ← (if f =? 0 then set_ptr hbase hbase;; modify (set_freep hbase);; set_size hbase 0;; mret hbase else mret f);
  p ← get_ptr prevp;
  iterate fuel (malloc_body fuel nunits) (prevp, p).

(** ** The free blocks *)

(** Address and size. *)
#[local] Abbreviation block := (Z * Z)%type.

Definition addr_of (l : list block) (d : Z) : Z := match l with [] => d | (a, _) :: _ => a end.

(** Blocks linked by their headers, the last one to [nxt]. *)
Fixpoint chain (m : Zmap Z) (l : list block) (nxt : Z) : Prop :=
  match l with
  | [] => True
  | (a, n) :: l' => ld32 m (a + 4) = n /\ ld32 m a = addr_of l' nxt /\ chain m l' nxt
  end.

(** The room of a block: its header at least. *)
Definition room (n : Z) : Z := 8 * Z.max 1 n.

(** Blocks in the order of their addresses between two bounds. *)
Fixpoint ordered (lo : Z) (l : list block) (hi : Z) : Prop :=
  match l with
  | [] => lo <= hi
  | (a, n) :: l' => lo <= a /\ ordered (a + room n) l' hi
  end.

Definition apart (x y : block) : Prop := x.1 + room x.2 <= y.1 \/ y.1 + room y.2 <= x.1.

Fixpoint disjoint_all (l : list block) : Prop :=
  match l with
  | [] => True
  | b :: l' => Forall (apart b) l' /\ disjoint_all l'
  end.

(** [F]: the free blocks after [base]; [A]: the blocks in use. *)
Record heap (F A : list block) (s : hst) : Prop := Heap {
  hp_mem : mem_ok (hmem s);
  hp_base : 0 < hbase;
  hp_limit : brk s <= limit /\ limit < 2147483648;
  hp_chain : chain (hmem s) ((hbase, 0) :: F) hbase;
  hp_order : ordered (hbase + 8) F (brk s);
  hp_size : Forall (fun b => 1 <= b.2) F;
  hp_freep : freep s ∈ fst <$> ((hbase, 0) :: F);
  hp_used : Forall (fun b => 1 <= b.2 /\ hbase + 8 <= b.1 /\ b.1 + 8 * b.2 <= brk s /\ ld32 (hmem s) (b.1 + 4) = b.2) A;
  hp_apart : disjoint_all A;
  hp_free : forall a f, a ∈ A -> f ∈ F -> apart a f }.

Lemma chain_app m a b nxt : chain m (a ++ b) nxt <-> chain m a (addr_of b nxt) /\ chain m b nxt.
Proof using.
  induction a as [|[x n] a IH]; cbn; [tauto|]. rewrite IH.
  assert (addr_of (a ++ b) nxt = addr_of a (addr_of b nxt)) as -> by (by destruct a as [|[]]). tauto.
Qed.

Lemma ordered_app lo a b hi : ordered lo (a ++ b) hi <-> exists mid, ordered lo a mid /\ ordered mid b hi.
Proof using.
  revert lo. induction a as [|[x n] a IH]; intros lo; cbn.
  - split; [intros H; exists lo; split; [lia|done]|]. intros (mid & H1 & H2). destruct b as [|[y k] b]; cbn in *; lia || (destruct H2; split; [lia|done]).
  - rewrite IH. split; [intros (H & mid & H1 & H2); exists mid; tauto|intros (mid & (H & H1) & H2); eauto].
Qed.

Lemma room_pos n : 8 <= room n.
Proof using. unfold room. lia. Qed.

Lemma room_eq n : 1 <= n -> room n = 8 * n.
Proof using. unfold room. lia. Qed.

Lemma ordered_bounds lo l hi : ordered lo l hi -> lo <= hi.
Proof using. revert lo. induction l as [|[a n] l IH]; intros lo; cbn; [done|]. intros [H1 H2%IH]. pose proof (room_pos n). lia. Qed.

Lemma ordered_in lo l hi a n : ordered lo l hi -> (a, n) ∈ l -> lo <= a /\ a + room n <= hi.
Proof using.
  revert lo. induction l as [|[b k] l IH]; intros lo Ho Hin; [by apply not_elem_of_nil in Hin|]. cbn in Ho. destruct Ho as [H1 H2].
  apply elem_of_cons in Hin as [[= -> ->]|Hin]; [split; [done|by eapply ordered_bounds]|]. pose proof (IH _ H2 Hin). pose proof (room_pos k). lia.
Qed.

Lemma chain_st32 m l nxt x v : chain m l nxt -> Forall (fun b => x + 4 <= b.1 \/ b.1 + 8 <= x) l -> chain (st32 m x v) l nxt.
Proof using.
  intros Hc Hl. induction l as [|[a n] l IH]; cbn in *; [done|]. apply Forall_cons in Hl as [Ha Hl]. cbn in Ha. destruct Hc as (H1 & H2 & H3).
  rewrite !ld32_st32_ne by lia. auto.
Qed.

Lemma chain_lookup m l nxt i a n : chain m l nxt -> l !! i = Some (a, n) -> ld32 m (a + 4) = n /\ ld32 m a = addr_of (drop (S i) l) nxt.
Proof using.
  revert i. induction l as [|[b k] l IH]; intros i Hc Hi; [done|]. destruct Hc as (H1 & H2 & H3). destruct i as [|i]; cbn in Hi.
  - injection Hi as -> ->. done.
  - by apply IH.
Qed.

Lemma ordered_lt lo l hi i j a n b k : ordered lo l hi -> l !! i = Some (a, n) -> l !! j = Some (b, k) -> (i < j)%nat -> a + room n <= b.
Proof using.
  revert lo i j. induction l as [|[c d] l IH]; intros lo i j Ho Hi Hj Hlt; [done|]. destruct Ho as [H1 H2]. destruct j as [|j]; [lia|]. destruct i as [|i]; cbn in *.
  - injection Hi as -> ->. by eapply ordered_in in H2 as [H2 _]; [|by eapply list_elem_of_lookup_2].
  - eapply (IH _ i j); [done|done|done|lia].
Qed.

Lemma run_free_body bp p s : free_body bp p s =
  let nx := ld32 (hmem s) p in
  Ret (if (p <? bp) && (bp <? nx) then inr p else if (nx <=? p) && ((p <? bp) || (bp <? nx)) then inr p else inl nx) s.
Proof using. unfold free_body, get_ptr. mrun. cbv zeta. by repeat case_match. Qed.

(** Steps from one block of the ring to another. *)
Definition steps (N i j : nat) : nat := if (j <=? i)%nat then (i - j)%nat else (N - j + i)%nat.

Lemma free_search L hi bp s i p np : chain (hmem s) L hbase -> ordered hbase L hi -> addr_of L 0 = hbase -> hbase < bp ->
  L !! i = Some (p, np) -> p < bp -> (forall j b k, (i < j)%nat -> L !! j = Some (b, k) -> bp < b) ->
  forall d fuel j a n, (d < fuel)%nat -> L !! j = Some (a, n) -> steps (List.length L) i j = d ->
  iterate fuel (free_body bp) a s = Ret p s.
Proof using.
  intros Hc Ho Hhd Hb Hi Hp Hgt. induction d as [d IH] using lt_wf_ind. intros [|fuel] j a n Hf Hj Hd; [lia|].
  pose proof (lookup_lt_Some _ _ _ Hi) as Hil. pose proof (lookup_lt_Some _ _ _ Hj) as Hjl.
  destruct (chain_lookup _ _ _ _ _ _ Hc Hj) as [_ Hnx]. cbn [iterate].
  rewrite (bind_ret_run _ _ _ _ _ (run_free_body bp a s)). rewrite Hnx.
  assert (Hbase : exists n0, L !! 0%nat = Some (hbase, n0)) by (destruct L as [|[b0 n0] L]; [done|]; cbn in Hhd; subst b0; by exists n0).
  destruct Hbase as [n0 Hb0]. unfold steps in Hd. destruct (decide (j = i)) as [->|Hne].
  - assert (a = p) as -> by congruence. destruct (L !! S i) as [[b k]|] eqn:Es.
    + rewrite (drop_S _ _ _ Es). cbn [addr_of]. pose proof (Hgt (S i) b k ltac:(lia) Es).
      rewrite (proj2 (Z.ltb_lt p bp)), (proj2 (Z.ltb_lt bp b)) by done. done.
    + rewrite drop_ge by (by apply lookup_ge_None). cbn [addr_of]. assert (hbase <= p) by (eapply ordered_in; [done|by eapply list_elem_of_lookup_2]).
      rewrite (proj2 (Z.ltb_lt p bp)), (proj2 (Z.ltb_ge bp hbase)), (proj2 (Z.leb_le hbase p)) by lia. done.
  - destruct (L !! S j) as [[b k]|] eqn:Es.
    + rewrite (drop_S _ _ _ Es). cbn [addr_of]. pose proof (ordered_lt _ _ _ _ _ _ _ _ _ Ho Hj Es ltac:(lia)) as Hab. pose proof (room_pos n).
      assert (Hno : (a <? bp) && (bp <? b) = false).
      { apply andb_false_iff. destruct (decide (j < i)%nat) as [Hlt|Hge].
        - right. apply Z.ltb_ge. destruct (decide (S j = i)) as [Ei|Hn2]; [rewrite <- Ei, Es in Hi; injection Hi as -> _; lia|].
          pose proof (ordered_lt _ _ _ _ _ _ _ _ _ Ho Es Hi ltac:(lia)). pose proof (room_pos k). lia.
        - left. apply Z.ltb_ge. pose proof (Hgt j a n ltac:(lia) Hj). lia. }
      rewrite Hno, (proj2 (Z.leb_gt b a)) by lia. cbn [andb]. eapply (IH (steps (List.length L) i (S j))); [|shelve|exact Es|done]. Unshelve.
      * unfold steps. pose proof (lookup_lt_Some _ _ _ Es). destruct (Nat.leb_spec (S j) i), (Nat.leb_spec j i); lia.
      * unfold steps. pose proof (lookup_lt_Some _ _ _ Es). destruct (Nat.leb_spec (S j) i), (Nat.leb_spec j i); lia.
    + pose proof Es as Es'. apply lookup_ge_None in Es'. rewrite drop_ge by done. cbn [addr_of].
      assert (hbase <= a) by (eapply ordered_in; [done|by eapply list_elem_of_lookup_2]). pose proof (Hgt j a n ltac:(lia) Hj).
      rewrite (proj2 (Z.ltb_ge a bp)), (proj2 (Z.ltb_ge bp hbase)) by lia. cbn [andb orb]. rewrite andb_false_r.
      eapply (IH (steps (List.length L) i 0)); [|shelve|exact Hb0|done]. Unshelve.
      * unfold steps. destruct (Nat.leb_spec 0 i), (Nat.leb_spec j i); lia.
      * unfold steps. destruct (Nat.leb_spec 0 i), (Nat.leb_spec j i); lia.
Qed.

(** The writes of free stay in one header. *)
Definition header (a x : Z) : Prop := a <= x < a + 8.

Lemma chain_same m m' l nxt : chain m l nxt -> (forall a n x, (a, n) ∈ l -> header a x -> ld8 m' x = ld8 m x) -> chain m' l nxt.
Proof using.
  induction l as [|[a n] l IH]; intros Hc Hs; cbn in *; [done|]. destruct Hc as (H1 & H2 & H3).
  assert (Ha : forall x, header a x -> ld8 m' x = ld8 m x) by (intros x; apply (Hs a n); by left).
  unfold header in Ha. rewrite (ld32_ext m m' a), (ld32_ext m m' (a + 4)) by (intros; apply Ha; lia).
  split; [done|]. split; [done|]. apply IH; [done|]. intros b k x Hb. apply (Hs b k). by right.
Qed.

Lemma ordered_hd lo l hi : ordered lo l hi -> l <> [] -> lo <= addr_of l hi.
Proof using. destruct l as [|[a n] l]; [done|]. cbn. tauto. Qed.

Lemma same_header (a : Z) m v : same_but (header a) m (st32 m a v) /\ same_but (header a) m (st32 m (a + 4) v).
Proof using. unfold header. split; apply same_but_st32; lia. Qed.

Lemma wp_free_upper bp p n F2 hi s : mem_ok (hmem s) -> chain (hmem s) F2 hbase -> ld32 (hmem s) (bp + 4) = n -> 1 <= n ->
  ld32 (hmem s) p = addr_of F2 hbase -> ordered (bp + 8 * n) F2 hi -> hi < 2147483648 -> 0 < hbase -> hbase + 8 <= bp -> p + 8 <= bp ->
  Forall (fun b => 1 <= b.2) F2 ->
  wp (free_upper bp p) (fun _ s1 => exists m1 n1 F2', s1 = set_hmem m1 s /\ mem_ok m1 /\ same_but (header bp) (hmem s) m1 /\
    chain m1 ((bp, n1) :: F2') hbase /\ ((n1 = n /\ F2' = F2) \/ exists k, F2 = (bp + 8 * n, k) :: F2' /\ n1 = n + k)) s.
Proof using.
  intros Hok Hc Hn Hn1 Hp Ho Hhi Hb0 Hbp Hpb Hsz. pose proof (ordered_bounds _ _ _ Ho) as Hbd. unfold free_upper, get_size, get_ptr, set_ptr, set_size.
  wp_step. wp_step. wp_step. wp_step. rewrite Hn, Hp. unfold sizeof_Header. rewrite (u32_id (bp + 8 * n)) by lia.
  destruct F2 as [|[b k] F2]; cbn [addr_of].
  - rewrite (proj2 (Z.eqb_neq _ _)) by lia. wp_step. exists (st32 (hmem s) bp hbase), n, []. split; [done|]. split; [by apply mem_ok_st32|].
    split; [apply same_header|]. split; [|by left]. cbn. rewrite ld32_st32_ne, ld32_st32_eq by lia. done.
  - destruct Ho as [Ho1 Ho2]. destruct Hc as (Hc1 & Hc2 & Hc3). apply Forall_cons in Hsz as [Hk _]. cbn in Hk.
    pose proof (ordered_bounds _ _ _ Ho2) as Hbd2. rewrite room_eq in Ho2, Hbd2 by done.
    assert (Hout : forall m, same_but (header bp) (hmem s) m -> chain m F2 hbase).
    { intros m Hm. eapply chain_same; [exact Hc3|]. intros a j x Ha Hx. apply Hm. eapply ordered_in in Ha as [Ha _]; [|exact Ho2].
      unfold header in *. lia. }
    destruct (Z.eqb_spec (bp + 8 * n) b) as [E|E].
    + wp_step. wp_step. rewrite Hc1. wp_step. wp_step. wp_step. wp_step. wp_step. wp_step. cbn [hmem set_hmem]. wp_step.
      rewrite (u32_id (n + k)) by lia. rewrite (ld32_st32_ne (hmem s) (bp + 4) p), Hp by lia. cbn [addr_of].
      rewrite (ld32_st32_ne (hmem s) (bp + 4) b), Hc2 by lia. set (m0 := st32 (hmem s) (bp + 4) (n + k)). exists (st32 m0 bp (addr_of F2 hbase)), (n + k), F2.
      assert (Hs : same_but (header bp) (hmem s) (st32 m0 bp (addr_of F2 hbase))).
      { eapply same_but_trans; [apply (same_header bp)|apply (same_header bp)]. }
      split; [done|]. split; [by do 2 apply mem_ok_st32|]. split; [done|]. split; [|right; exists k; by subst b].
      cbn [chain]. split; [rewrite ld32_st32_ne by lia; apply ld32_st32_eq; lia|]. split; [|by apply Hout].
      apply ld32_st32_eq. pose proof (ld32_range (hmem s) b Hok). lia.
    + wp_step. exists (st32 (hmem s) bp b), n, ((b, k) :: F2). pose proof (same_header bp (hmem s) b) as [Hs _].
      split; [done|]. split; [by apply mem_ok_st32|]. split; [done|]. split; [|by left]. cbn [chain addr_of].
      rewrite (ld32_st32_ne _ _ (bp + 4)), ld32_st32_eq by lia. split; [done|]. split; [done|]. rewrite !ld32_st32_ne by lia. by auto.
Qed.

Lemma wp_free_lower bp p np n F1 F2 x hi s : mem_ok (hmem s) -> chain (hmem s) (F1 ++ [(p, np)]) x -> chain (hmem s) ((bp, n) :: F2) hbase ->
  0 <= np -> 1 <= n -> ordered 0 (F1 ++ [(p, np)]) bp -> ordered bp ((bp, n) :: F2) hi -> hi < 2147483648 ->
  wp (free_lower bp p) (fun _ s1 => exists m1 L, s1 = set_hmem m1 s /\ mem_ok m1 /\ same_but (header p) (hmem s) m1 /\
    chain m1 (F1 ++ L) hbase /\ (L = (p, np) :: (bp, n) :: F2 \/ (bp = p + 8 * np /\ L = (p, np + n) :: F2))) s.
Proof using.
  intros Hok Hc1 Hc2 Hnp Hn Ho1 Ho2 Hhi. apply chain_app in Hc1 as [Hf1 (Hp1 & Hp2 & _)]. destruct Hc2 as (Hb1 & Hb2 & Hf2).
  apply ordered_app in Ho1 as (mid & Ho1 & [Hmid Hpb]). cbn in Hpb. destruct Ho2 as [_ Ho2]. pose proof (ordered_bounds _ _ _ Ho2) as Hbd.
  pose proof (ordered_bounds _ _ _ Ho1) as Hbd0. pose proof (room_pos np) as Hr. rewrite room_eq in Ho2, Hbd by done.
  assert (Hout : forall m, same_but (header p) (hmem s) m -> chain m F1 p /\ chain m F2 hbase /\ ld32 m bp = addr_of F2 hbase /\ ld32 m (bp + 4) = n).
  { intros m Hm. split; [|split; [|split]].
    - eapply chain_same; [exact Hf1|]. intros a j y Ha Hy. apply Hm. eapply ordered_in in Ha as [_ Ha]; [|exact Ho1]. pose proof (room_pos j). unfold header in *. lia.
    - eapply chain_same; [exact Hf2|]. intros a j y Ha Hy. apply Hm. eapply ordered_in in Ha as [Ha _]; [|exact Ho2]. unfold header in *. lia.
    - rewrite (same_but_ld32 _ _ _ _ Hm); [done|]. unfold header. lia.
    - rewrite (same_but_ld32 _ _ _ _ Hm); [done|]. unfold header. lia. }
  unfold free_lower, get_size, get_ptr, set_ptr, set_size. wp_step. wp_step. rewrite Hp1. unfold sizeof_Header.
  assert (Hnp2 : np <= bp / 8) by (apply Z.div_le_lower_bound; unfold room in Hpb; lia).
  rewrite (u32_id (p + 8 * np)) by (unfold room in Hpb; lia). destruct (Z.eqb_spec (p + 8 * np) bp) as [E|E].
  - assert (Hnp1 : 1 <= np) by (unfold room in Hpb; lia). wp_step. wp_step. rewrite Hb1. wp_step. wp_step. wp_step. wp_step. cbn [hmem set_hmem]. wp_step.
    rewrite (u32_id (np + n)) by (rewrite room_eq in Hpb by done; lia). set (m0 := st32 (hmem s) (p + 4) (np + n)).
    pose proof (same_header p (hmem s) (np + n)) as [_ Hs0]. fold m0 in Hs0. destruct (Hout _ Hs0) as (_ & _ & E0 & _). rewrite E0.
    pose proof (same_header p m0 (addr_of F2 hbase)) as [Hs1 _]. pose proof (same_but_trans _ _ _ _ Hs0 Hs1) as Hs.
    exists (st32 m0 p (addr_of F2 hbase)), ((p, np + n) :: F2). split; [done|]. split; [by do 2 apply mem_ok_st32|]. split; [done|].
    destruct (Hout _ Hs) as (C1 & C2 & _ & _). split; [|by right]. apply chain_app. split; [done|]. cbn [chain]. split; [|split; [|done]].
    + rewrite ld32_st32_ne by lia. apply ld32_st32_eq. rewrite room_eq in Hpb by done. lia.
    + apply ld32_st32_eq. rewrite <- Hb2. apply ld32_range. done.
  - wp_step. exists (st32 (hmem s) p bp), ((p, np) :: (bp, n) :: F2). pose proof (same_header p (hmem s) bp) as [Hs _].
    split; [done|]. split; [by apply mem_ok_st32|]. split; [done|]. destruct (Hout _ Hs) as (C1 & C2 & C3 & C4). split; [|by left].
    apply chain_app. split; [done|]. cbn [chain addr_of]. rewrite (ld32_st32_ne _ _ (p + 4)), ld32_st32_eq by lia. auto 10.
Qed.

(** Where a block belongs among the free ones. *)
Lemma split_order lo F hi bp n : ordered lo F hi -> (forall f, f ∈ F -> apart (bp, n) f) -> lo <= bp -> bp + room n <= hi ->
  exists F1 F2, F = F1 ++ F2 /\ ordered lo F1 bp /\ ordered (bp + room n) F2 hi.
Proof using.
  revert lo. induction F as [|[a k] F IH]; intros lo Ho Ha Hlo Hhi; [by exists [], []|]. destruct Ho as [H1 H2].
  destruct (Ha (a, k) ltac:(by left)) as [H|H]; cbn in H.
  - exists [], ((a, k) :: F). split; [done|]. split; [done|]. by split.
  - destruct (IH (a + room k) H2) as (F1 & F2 & -> & O1 & O2); [intros f Hf; apply Ha; by right|done|done|].
    exists ((a, k) :: F1), F2. split; [done|]. split; [by split|done].
Qed.

Lemma apart_join a x n k : 1 <= n -> 1 <= k -> apart a (x, n) -> apart a (x + 8 * n, k) -> apart a (x, n + k).
Proof using. unfold apart, room. cbn. lia. Qed.

(** The bytes of a list of blocks. *)
Definition within (b : block) (x : Z) : Prop := b.1 <= x < b.1 + 8 * b.2.
Definition covers (l : list block) (x : Z) : Prop := exists b, b ∈ l /\ within b x.

(** Free blocks that are in order, apart from the blocks in use, and made of the bytes [C]. *)
Record good (A : list block) (hi : Z) (C : Z -> Prop) (G : list block) : Prop := Good {
  gd_order : ordered (hbase + 8) G hi;
  gd_size : Forall (fun b => 1 <= b.2) G;
  gd_apart : forall a f, a ∈ A -> f ∈ G -> apart a f;
  gd_covers : forall x, covers G x <-> C x }.

Lemma covers_app a b x : covers (a ++ b) x <-> covers a x \/ covers b x.
Proof using. unfold covers. setoid_rewrite elem_of_app. naive_solver. Qed.

Lemma covers_cons b l x : covers (b :: l) x <-> within b x \/ covers l x.
Proof using. unfold covers. setoid_rewrite elem_of_cons. naive_solver. Qed.

Lemma good_join A hi C G1 G2 x n k : good A hi C (G1 ++ (x, n) :: (x + 8 * n, k) :: G2) -> good A hi C (G1 ++ (x, n + k) :: G2).
Proof using.
  intros [Ho Hs Ha Hc]. apply Forall_app in Hs as [Hs1 [Hn [Hk Hs2]%Forall_cons]%Forall_cons]. cbn in Hn, Hk. split.
  - apply ordered_app in Ho as (mid & O1 & [H1 [H2 H3]]). apply ordered_app. exists mid. split; [done|]. split; [done|].
    rewrite room_eq in H2, H3 |- * by lia. replace (x + 8 * (n + k)) with (x + 8 * n + 8 * k) by lia. done.
  - apply Forall_app. split; [done|]. constructor; [cbn; lia|done].
  - intros a f HA [Hf|[->|Hf]%elem_of_cons]%elem_of_app.
    + apply Ha; [done|]. apply elem_of_app. by left.
    + apply apart_join; [done|done|apply Ha|apply Ha]; try done; apply elem_of_app; right; [by left|by right; left].
    + apply Ha; [done|]. apply elem_of_app. right. by do 2 right.
  - intros y. rewrite <- Hc, !covers_app, !covers_cons. unfold within. cbn. assert (x <= y < x + 8 * (n + k) <-> x <= y < x + 8 * n \/ x + 8 * n <= y < x + 8 * n + 8 * k) by lia. tauto.
Qed.

(** The bytes of the blocks in use. *)
Definition kept (A : list block) (m m' : Zmap Z) : Prop := forall b x, b ∈ A -> within b x -> ld8 m' x = ld8 m x.

(** The place of [bp] among the free blocks: [F1] before it, [F2] after it, [(p, np)] the last block (or the base) before it. *)
Record place (F : list block) (bp n hi : Z) (F1 F2 P : list block) (p np : Z) : Prop := Place {
  pl_split : F = F1 ++ F2;
  pl_prev : (hbase, 0) :: F1 = P ++ [(p, np)];
  pl_before : ordered (hbase + 8) F1 bp;
  pl_after : ordered (bp + 8 * n) F2 hi;
  pl_order : ordered 0 (P ++ [(p, np)]) bp;
  pl_size : 0 <= np;
  pl_below : p + room np <= bp }.

Lemma place_exists F A bp n s : heap F ((bp, n) :: A) s -> exists F1 F2 P p np, place F bp n (brk s) F1 F2 P p np.
Proof using.
  intros [Hok Hb0 _ Hch Hord Hsz _ Hus _ Hfr]. apply Forall_cons in Hus as [(Hn1 & Hlo & Hhi & _) _]. cbn in Hn1, Hlo, Hhi.
  destruct (split_order _ _ _ bp n Hord) as (F1 & F2 & -> & O1 & O2); [intros f Hf; by apply Hfr; [left|]|done|by rewrite room_eq|].
  rewrite room_eq in O2 by done. destruct (exists_last (l := (hbase, 0) :: F1)) as (P & [p np] & EP); [done|].
  assert (OP : ordered 0 (P ++ [(p, np)]) bp) by (rewrite <- EP; split; [lia|exact O1]).
  exists F1, F2, P, p, np. split; try done.
  - assert (H : (p, np) ∈ (hbase, 0) :: F1) by (rewrite EP; apply elem_of_app; right; by left). apply elem_of_cons in H as [[= _ ->]|H]; [lia|].
    apply Forall_app in Hsz as [Hsz _]. apply (proj1 (Forall_forall _ _) Hsz) in H. cbn in H. lia.
  - eapply ordered_in; [exact OP|apply elem_of_app; right; by left].
Qed.

Lemma place_ring F bp n hi F1 F2 P p np : place F bp n hi F1 F2 P p np -> (hbase, 0) :: F = P ++ (p, np) :: F2.
Proof using. intros [-> EP _ _ _ _ _]. change ((hbase, 0) :: F1 ++ F2) with (((hbase, 0) :: F1) ++ F2). by rewrite EP, <- app_assoc. Qed.

Lemma search_place fuel F A bp n s F1 F2 P p np : heap F ((bp, n) :: A) s -> place F bp n (brk s) F1 F2 P p np -> (S (List.length F) <= fuel)%nat ->
  iterate fuel (free_body bp) (freep s) s = Ret p s.
Proof using.
  intros [Hok Hb0 _ Hch Hord _ Hfp Hus _ _] Hpl Hfuel. apply Forall_cons in Hus as [(Hn1 & Hlo & Hhi & _) _]. cbn in Hn1, Hlo, Hhi.
  pose proof (place_ring _ _ _ _ _ _ _ _ _ Hpl) as EL. destruct Hpl as [_ EP O1 O2 OP Hnp Hpb]. pose proof (room_pos np) as Hrp.
  apply list_elem_of_fmap in Hfp as ([f nf] & -> & Hf). apply list_elem_of_lookup in Hf as [j Hj].
  eapply (free_search _ (brk s) bp s (List.length P) p np Hch); [|done|lia| |lia| | |exact Hj|reflexivity].
  - cbn. split; [lia|]. exact Hord.
  - rewrite EL. by apply list_lookup_middle.
  - intros i b k Hi. rewrite EL, lookup_app_r by lia. destruct (i - List.length P)%nat eqn:Ei; [lia|]. cbn. intros Hb.
    eapply ordered_in in O2 as [O2 _]; [|by eapply list_elem_of_lookup_2]. lia.
  - unfold steps. cbn [List.length]. pose proof (lookup_lt_Some _ _ _ Hj) as Hjl. cbn [List.length] in Hjl.
    assert (List.length P <= List.length F)%nat by (apply (f_equal (@List.length _)) in EL; rewrite length_app in EL; cbn in EL; lia).
    destruct (Nat.leb_spec j (List.length P)); lia.
Qed.

(** The free blocks with [bp] at its place. *)
Lemma place_good F A bp n s F1 F2 P p np : heap F ((bp, n) :: A) s -> place F bp n (brk s) F1 F2 P p np ->
  good A (brk s) (fun x => covers F x \/ within (bp, n) x) (F1 ++ (bp, n) :: F2).
Proof using.
  intros [_ _ _ _ _ Hsz _ Hus [HdA _] Hfr] [-> _ O1 O2 _ _ _]. apply Forall_cons in Hus as [(Hn1 & _) _]. cbn in Hn1. split.
  - apply ordered_app. exists bp. split; [done|]. split; [done|]. by rewrite room_eq.
  - apply Forall_app in Hsz as [H1 H2]. apply Forall_app. split; [done|]. by constructor.
  - intros a f Ha [Hf|[->|Hf]%elem_of_cons]%elem_of_app.
    + apply Hfr; [by right|apply elem_of_app; by left].
    + apply (proj1 (Forall_forall _ _) HdA) in Ha. unfold apart in *. tauto.
    + apply Hfr; [by right|apply elem_of_app; by right].
  - intros x. rewrite !covers_app, covers_cons. tauto.
Qed.

(** After the join with the block above. *)
Lemma join_upper F1 F2 F2' A hi C bp n n1 : good A hi C (F1 ++ (bp, n) :: F2) -> 1 <= n -> ordered (bp + 8 * n) F2 hi ->
  (n1 = n /\ F2' = F2) \/ (exists k, F2 = (bp + 8 * n, k) :: F2' /\ n1 = n + k) ->
  n <= n1 /\ ordered bp ((bp, n1) :: F2') hi /\ good A hi C (F1 ++ (bp, n1) :: F2') /\ (List.length F2' <= List.length F2)%nat.
Proof using.
  intros Hg Hn Ho [[-> ->]|(k & -> & ->)].
  - split; [lia|]. split; [|done]. split; [lia|]. by rewrite room_eq.
  - pose proof (gd_size _ _ _ _ Hg) as Hs. apply Forall_app in Hs as [_ [_ [Hk _]%Forall_cons]%Forall_cons]. cbn in Hk.
    split; [lia|]. split; [|split; [by apply good_join|cbn; lia]]. destruct Ho as [_ Ho]. split; [lia|]. rewrite room_eq in Ho |- * by lia.
    by replace (bp + 8 * (n + k)) with (bp + 8 * n + 8 * k) by lia.
Qed.

(** After the join with the block below: the new free blocks. *)
Lemma join_lower A hi C bp n1 F1 F2' P p np L : good A hi C (F1 ++ (bp, n1) :: F2') -> (hbase, 0) :: F1 = P ++ [(p, np)] -> hbase < bp ->
  L = (p, np) :: (bp, n1) :: F2' \/ (bp = p + 8 * np /\ L = (p, np + n1) :: F2') -> 0 <= np ->
  exists F', P ++ L = (hbase, 0) :: F' /\ good A hi C F' /\ (List.length F' <= List.length (F1 ++ (bp, n1) :: F2'))%nat /\
    exists a k, (a, k) ∈ F' /\ a <= bp /\ bp + 8 * n1 <= a + 8 * k.
Proof using.
  intros Hg EP Hb [->|[Eb ->]] Hnp.
  - exists (F1 ++ (bp, n1) :: F2'). split; [|split; [done|split; [done|]]].
    + change ((p, np) :: (bp, n1) :: F2') with ([(p, np)] ++ (bp, n1) :: F2'). by rewrite app_assoc, <- EP.
    + exists bp, n1. split; [apply elem_of_app; right; by left|lia].
  - destruct P as [|c P]; [cbn in EP; simplify_eq; lia|]. cbn in EP. injection EP as <- EF. subst F1. exists (P ++ (p, np + n1) :: F2'). split; [done|].
    rewrite <- app_assoc in Hg. cbn in Hg. rewrite Eb in Hg. split; [by apply good_join|]. split; [rewrite !length_app; cbn; lia|].
    exists p, (np + n1). split; [apply elem_of_app; right; by left|lia].
Qed.

(** Writes to the headers of [bp] and of the block before it leave the blocks in use alone. *)
Lemma kept_headers F A bp n s F1 F2 P p np m1 m2 : heap F ((bp, n) :: A) s -> place F bp n (brk s) F1 F2 P p np ->
  same_but (header bp) (hmem s) m1 -> same_but (header p) m1 m2 -> kept A (hmem s) m2.
Proof using.
  intros [_ _ _ _ _ Hsz _ Hus [HdA _] Hfr] [-> EP _ _ _ _ _] H1 H2 b x Hb Hx. apply Forall_cons in Hus as [(Hn1 & _) Hus]. cbn in Hn1.
  pose proof (proj1 (Forall_forall _ _) Hus b Hb) as (Hb1 & Hb2 & _). pose proof (proj1 (Forall_forall _ _) HdA b Hb) as Hap.
  unfold within in Hx. rewrite H2, H1; [done| |]; unfold header.
  - unfold apart, room in Hap. cbn in Hap. lia.
  - assert (Hin : (p, np) ∈ (hbase, 0) :: F1) by (rewrite EP; apply elem_of_app; right; by left). apply elem_of_cons in Hin as [[= -> ->]|Hin]; [lia|].
    assert (Hin2 : (p, np) ∈ F1 ++ F2) by (apply elem_of_app; by left). pose proof (Hfr b (p, np) ltac:(by right) Hin2) as Hap2.
    unfold apart, room in Hap2. cbn in Hap2. lia.
Qed.

(** A heap from its parts. *)
Lemma heap_make F A s m p : mem_ok m -> 0 < hbase -> brk s <= limit -> limit < 2147483648 -> chain m ((hbase, 0) :: F) hbase ->
  p ∈ fst <$> ((hbase, 0) :: F) -> Forall (fun b => 1 <= b.2 /\ hbase + 8 <= b.1 /\ b.1 + 8 * b.2 <= brk s /\ ld32 (hmem s) (b.1 + 4) = b.2) A ->
  disjoint_all A -> kept A (hmem s) m -> (exists C, good A (brk s) C F) -> heap F A (Hst m p (brk s)).
Proof using.
  intros Hok Hb0 Hl1 Hl2 Hch Hp Hus Hdis Hk (C & [Ho Hs Ha _]). split; cbn; try done.
  apply Forall_forall. intros b Hb. pose proof (proj1 (Forall_forall _ _) Hus b Hb) as (H1 & H2 & H3 & H4). split_and!; try done.
  rewrite (ld32_ext (hmem s) m); [done|]. intros i Hi. apply (Hk b); [done|]. unfold within. lia.
Qed.

(** free moves a block from the blocks in use to the free ones. *)
Lemma wp_free fuel F A bp n s : heap F ((bp, n) :: A) s -> (S (List.length F) <= fuel)%nat ->
  wp (free fuel (bp + 8)) (fun _ s' => exists F', heap F' A s' /\ kept A (hmem s) (hmem s') /\ brk s' = brk s /\
    (forall x, covers F' x <-> covers F x \/ within (bp, n) x) /\ (List.length F' <= S (List.length F))%nat /\
    exists a k, (a, k) ∈ F' /\ a <= bp /\ bp + 8 * n <= a + 8 * k) s.
Proof using.
  intros Hheap Hfuel. destruct (place_exists _ _ _ _ _ Hheap) as (F1 & F2 & P & p & np & Hpl).
  pose proof (search_place _ _ _ _ _ _ _ _ _ _ _ Hheap Hpl Hfuel) as Hsearch. pose proof (place_good _ _ _ _ _ _ _ _ _ _ Hheap Hpl) as Hg.
  pose proof (place_ring _ _ _ _ _ _ _ _ _ Hpl) as EL. pose proof (fun m1 m2 => kept_headers _ _ _ _ _ _ _ _ _ _ m1 m2 Hheap Hpl) as Hkept.
  destruct Hheap as [Hok Hb0 [Hl1 Hl2] Hch Hord Hsz _ Hus [HdA Hdis] Hfr].
  destruct Hpl as [-> EP O1 O2 OP Hnp Hpb]. apply Forall_cons in Hus as [(Hn1 & Hlo & Hhi & Hhd) Hus]. cbn in Hn1, Hlo, Hhi, Hhd.
  pose proof (room_pos np) as Hrp. rewrite EL in Hch. apply chain_app in Hch as [HcP (Hc1 & Hc2 & HcF2)]. cbn in HcP.
  unfold free, sizeof_Header. replace (bp + 8 - 8) with bp by lia. wp_step. wp_step. wp_step. eapply wp_result; [exact Hsearch|]. cbv beta. wp_step.
  apply Forall_app in Hsz as [Hsz1 Hsz2]. eapply wp_mono; [by eapply (wp_free_upper bp p n F2 (brk s)); try done; lia|].
  intros [] s1 (m1 & n1 & F2' & -> & Hok1 & Hs1 & Hch1 & Hj1). cbv beta. wp_step.
  destruct (join_upper _ _ _ _ _ _ _ _ _ Hg Hn1 O2 Hj1) as (Hle1 & Ho1 & Hg1 & Hlen1). eapply wp_mono.
  { eapply (wp_free_lower bp p np n1 P F2' (addr_of F2 hbase) (brk s)); try done; [|lia|lia]. cbn [hmem set_hmem].
    eapply chain_same; [by apply chain_app; split|]. intros a k x Ha Hx. apply Hs1. eapply ordered_in in Ha as [_ Ha]; [|exact OP].
    pose proof (room_pos k). unfold header in *. lia. }
  intros [] s2 (m2 & L & -> & Hok2 & Hs2 & Hch2 & HL). cbv beta. wp_step. cbn [hmem set_hmem] in *.
  destruct (join_lower _ _ _ _ _ _ _ _ _ _ _ Hg1 EP ltac:(lia) HL Hnp) as (F' & EF & Hg2 & Hlen2 & a & k & Hin & Ha1 & Ha2).
  pose proof (Hkept m1 m2 Hs1 Hs2) as Hk. exists F'. split; [|split; [done|split; [done|split; [apply Hg2|split]]]].
  - apply (heap_make F' A s m2 p); try done; [by rewrite <- EF| |by eexists]. rewrite <- EF.
    apply list_elem_of_fmap. destruct HL as [->|[_ ->]]; eexists; (split; [|apply elem_of_app; right; by left]); done.
  - rewrite !length_app in *. cbn in Hlen2. lia.
  - exists a, k. split; [done|]. lia.
Qed.

(** A block that is apart from everything joins the blocks in use. *)
Lemma heap_add F A s q n : heap F A s -> 1 <= n -> hbase + 8 <= q -> q + 8 * n <= brk s -> ld32 (hmem s) (q + 4) = n ->
  (forall a, a ∈ A -> apart (q, n) a) -> (forall f, f ∈ F -> apart (q, n) f) -> heap F ((q, n) :: A) s.
Proof using.
  intros [Hok Hb0 Hl Hch Hord Hsz Hfp Hus Hdis Hfr] H1 H2 H3 H4 HA HF. split; try done.
  - by constructor.
  - split; [by apply Forall_forall|done].
  - intros a f [->|Ha]%elem_of_cons Hf; [by apply HF|by apply Hfr].
Qed.

Lemma ordered_mono lo l hi hi' : ordered lo l hi -> hi <= hi' -> ordered lo l hi'.
Proof using. revert lo. induction l as [|[a n] l IH]; intros lo; cbn; [lia|]. intros [H1 H2] Hh. split; [done|by apply IH]. Qed.

(** The heap grows. *)
Lemma heap_grow F A s n : heap F A s -> 1 <= n -> brk s + 8 * n <= limit -> hbase + 8 <= brk s ->
  heap F ((brk s, n) :: A) (Hst (st32 (hmem s) (brk s + 4) n) (freep s) (brk s + 8 * n)).
Proof using.
  intros [Hok Hb0 [Hl1 Hl2] Hch Hord Hsz Hfp Hus Hdis Hfr] Hn Hlim Hbb. apply heap_add; cbn; [|done|done|lia|apply ld32_st32_eq; lia| |].
  - split; cbn; try done; [by apply mem_ok_st32| |eapply ordered_mono; [exact Hord|lia]|].
    + apply (chain_st32 (hmem s) ((hbase, 0) :: F)); [done|]. apply Forall_forall. intros [a k] [[= -> ->]|Hin]%elem_of_cons; cbn; [lia|].
      eapply ordered_in in Hin as [_ Hin]; [|exact Hord]. pose proof (room_pos k). lia.
    + eapply Forall_impl; [exact Hus|]. cbn. intros b (B1 & B2 & B3 & B4). split_and!; [done|done|lia|]. rewrite ld32_st32_ne by lia. done.
  - intros [a k] Ha. apply (proj1 (Forall_forall _ _) Hus) in Ha as (B1 & B2 & B3 & _). cbn in *. unfold apart. cbn. rewrite (room_eq k) by done. lia.
  - intros [a k] Ha. eapply ordered_in in Ha as [_ Ha]; [|exact Hord]. unfold apart. cbn. lia.
Qed.

Lemma heap_brk F A s : heap F A s -> hbase + 8 <= brk s.
Proof using. intros H. eapply ordered_bounds, (hp_order _ _ _ H). Qed.

Lemma heap_freep F A s : heap F A s -> 0 < freep s.
Proof using.
  intros [_ Hb0 _ _ Hord _ Hfp _ _ _]. apply list_elem_of_fmap in Hfp as ([f k] & -> & [[= -> ->]|Hin]%elem_of_cons); cbn; [done|].
  eapply ordered_in in Hin as [Hin _]; [|exact Hord]. lia.
Qed.

(** The units morecore asks for. *)
Definition core_units (nu : Z) : Z := if nu <? 4096 then 4096 else nu.

Lemma wp_morecore fuel F A nu s : heap F A s -> 1 <= nu <= 268435455 -> (S (List.length F) <= fuel)%nat ->
  wp (morecore fuel nu) (fun r s' => (r = 0 /\ s' = s /\ limit < brk s + 8 * core_units nu) \/
    (r = freep s' /\ 0 < r /\ exists F', heap F' A s' /\ kept A (hmem s) (hmem s') /\ brk s' = brk s + 8 * core_units nu /\
       (forall x, covers F' x <-> covers F x \/ brk s <= x < brk s') /\ (List.length F' <= S (List.length F))%nat /\
       exists a k, (a, k) ∈ F' /\ nu <= k)) s.
Proof using.
  intros Hh Hnu Hf. pose proof (hp_limit _ _ _ Hh) as [Hl1 Hl2]. pose proof (hp_base _ _ _ Hh) as Hb0. pose proof (heap_brk _ _ _ Hh) as Hbb.
  unfold morecore. fold (core_units nu). set (cu := core_units nu). assert (Hcu : nu <= cu <= 268435455 /\ 4096 <= cu) by (unfold cu, core_units; destruct (Z.ltb_spec nu 4096); lia).
  unfold sizeof_Header. rewrite (u32_id (cu * 8)) by lia. wp_step. unfold sbrk.
  rewrite (proj2 (Z.ltb_ge (s32 (cu * 8)) 0)) by (rewrite s32_id; lia).
  wp_step. wp_step. destruct (Z.leb_spec (brk s + cu * 8) limit) as [Hle|Hgt].
  - wp_step. wp_step. wp_step. change (u32 (-1)) with 4294967295. rewrite (proj2 (Z.eqb_neq (brk s) _)) by lia. unfold set_size. wp_step. wp_step. wp_step.
    pose proof (heap_grow F A s cu Hh ltac:(lia) ltac:(lia) Hbb) as Hg. replace (8 * cu) with (cu * 8) in Hg by lia.
    eapply wp_mono; [by eapply (wp_free fuel F A (brk s) cu)|]. intros [] s' (F' & Hh' & Hk & Hbrk & Hcov & Hlen & a & k & Hin & Ha1 & Ha2). cbn in Hk, Hbrk.
    cbv beta. wp_step. right. split; [done|]. split; [by eapply heap_freep|]. exists F'. split; [done|]. split; [|split; [lia|split; [|split; [done|]]]].
    + intros b x Hb Hx. rewrite (Hk b x Hb Hx). apply ld8_st32_ne. pose proof (proj1 (Forall_forall _ _) (hp_used _ _ _ Hh) b Hb) as (_ & _ & HB & _). unfold within in Hx. lia.
    + intros x. rewrite Hcov. unfold within. cbn. rewrite Hbrk. assert (brk s <= x < brk s + 8 * cu <-> brk s <= x < brk s + cu * 8) by lia. tauto.
    + exists a, k. split; [done|]. lia.
  - wp_step. rewrite Z.eqb_refl. wp_step. left. split; [done|]. split; [done|lia].
Qed.

(** What malloc hands out: [nu] units that were free. *)
Definition taken (F A : list block) (nu : Z) (s : hst) (q : Z) (F' : list block) (s' : hst) : Prop :=
  heap F' ((q, nu) :: A) s' /\ kept A (hmem s) (hmem s') /\ brk s' = brk s /\
  (forall x, covers F x <-> covers F' x \/ within (q, nu) x) /\ (List.length F' <= List.length F)%nat.

(** Writes to the base and to the free blocks leave the blocks in use alone. *)
Lemma kept_free F A s m : heap F A s -> same_but (fun x => header hbase x \/ covers F x) (hmem s) m -> kept A (hmem s) m.
Proof using.
  intros [_ _ _ _ _ Hsz _ Hus _ Hfr] Hm b x Hb Hx. apply Hm. pose proof (proj1 (Forall_forall _ _) Hus b Hb) as (B1 & B2 & _).
  unfold within in Hx. intros [Hh|(f & Hf & Hw)]; [unfold header in Hh; lia|].
  pose proof (proj1 (Forall_forall _ _) Hsz f Hf) as F1. pose proof (Hfr b f Hb Hf) as Hap. unfold apart, room in Hap. unfold within in Hw. lia.
Qed.

(** The block [(p, n)] of the ring, after [prevp]. *)
Record found (F F1 Q P : list block) (prevp k p n : Z) : Prop := Found {
  fd_split : F = F1 ++ (p, n) :: Q;
  fd_prev : (hbase, 0) :: F1 = P ++ [(prevp, k)] }.

Lemma found_ring F F1 Q P prevp k p n : found F F1 Q P prevp k p n -> (hbase, 0) :: F = P ++ (prevp, k) :: (p, n) :: Q.
Proof using. intros [-> EP]. change ((hbase, 0) :: F1 ++ (p, n) :: Q) with (((hbase, 0) :: F1) ++ (p, n) :: Q). by rewrite EP, <- app_assoc. Qed.

(** [nu] units, at the end of the block or all of it, leave [R] free. *)
Lemma good_take F F1 Q P prevp k p n nu A s R : heap F A s -> found F F1 Q P prevp k p n -> 1 <= nu <= n ->
  (n = nu /\ R = []) \/ (nu < n /\ R = [(p, n - nu)]) ->
  let q := p + 8 * (n - nu) in
  good A (brk s) (covers (F1 ++ R ++ Q)) (F1 ++ R ++ Q) /\ (forall a, a ∈ A -> apart (q, nu) a) /\
  (forall f, f ∈ F1 ++ R ++ Q -> apart (q, nu) f) /\ (forall x, covers F x <-> covers (F1 ++ R ++ Q) x \/ within (q, nu) x).
Proof using.
  intros [_ _ _ _ Hord Hsz _ _ _ Hfr] [-> _] Hnu HR q. apply ordered_app in Hord as (mid & O1 & [Hmid O2]).
  apply Forall_app in Hsz as [S1 [Hn S2]%Forall_cons]. cbn in Hn. rewrite room_eq in O2 by done.
  assert (HA : forall a, a ∈ A -> apart a (p, n)) by (intros a Ha; apply Hfr; [done|apply elem_of_app; right; by left]).
  assert (Hcov : forall x, covers (F1 ++ (p, n) :: Q) x <-> covers (F1 ++ R ++ Q) x \/ within (q, nu) x).
  { intros x. rewrite !covers_app, covers_cons. destruct HR as [[-> ->]|[Hlt ->]].
    - unfold q. replace (p + 8 * (nu - nu)) with p by lia. unfold covers at 4. setoid_rewrite elem_of_nil. naive_solver.
    - rewrite covers_cons. unfold within, q, covers at 4. setoid_rewrite elem_of_nil. cbn.
      assert (p <= x < p + 8 * n <-> p <= x < p + 8 * (n - nu) \/ p + 8 * (n - nu) <= x < p + 8 * (n - nu) + 8 * nu) by lia. naive_solver. }
  assert (HRin : forall f, f ∈ R -> f = (p, n - nu) /\ nu < n) by (intros f Hf; destruct HR as [[_ ->]|[? ->]]; [by apply not_elem_of_nil in Hf|apply list_elem_of_singleton in Hf; done]).
  split; [split|split; [|split; [|done]]].
  - apply ordered_app. exists mid. split; [done|]. destruct HR as [[-> ->]|[Hlt ->]]; cbn.
    + destruct Q as [|[y j] Q]; cbn in *; [lia|]. destruct O2. split; [lia|done].
    + split; [done|]. rewrite room_eq by lia. destruct Q as [|[y j] Q]; cbn in *; [lia|]. destruct O2. split; [lia|done].
  - apply Forall_app. split; [done|]. apply Forall_app. split; [|done]. apply Forall_forall. intros f [-> ?]%HRin. cbn. lia.
  - intros a f Ha [Hf|[Hf|Hf]%elem_of_app]%elem_of_app; [apply Hfr; [done|apply elem_of_app; by left]| |apply Hfr; [done|apply elem_of_app; right; by right]].
    apply HRin in Hf as [-> ?]. specialize (HA a Ha). unfold apart, room in *. cbn in *. lia.
  - done.
  - intros a Ha. specialize (HA a Ha). unfold apart, room, q in *. cbn in *. lia.
  - intros [y j] [Hf|[Hf|Hf]%elem_of_app]%elem_of_app; unfold apart, q.
    + eapply ordered_in in Hf as [_ Hf]; [|exact O1]. cbn. lia.
    + apply HRin in Hf as [[= -> ->] ?]. cbn. rewrite (room_eq (n - nu)) by lia. lia.
    + eapply ordered_in in Hf as [Hf _]; [|exact O2]. cbn. rewrite (room_eq nu) by lia. lia.
Qed.

(** The ring after the block is unlinked or shortened, and the header of the piece handed out. *)
Lemma chain_take F F1 Q P prevp k p n nu A s : heap F A s -> found F F1 Q P prevp k p n -> 1 <= nu <= n ->
  (n = nu -> let m := st32 (hmem s) prevp (addr_of Q hbase) in
     chain m (P ++ (prevp, k) :: Q) hbase /\ ld32 m (p + 4) = nu) /\
  (nu < n -> let m := st32 (st32 (hmem s) (p + 4) (n - nu)) (p + 8 * (n - nu) + 4) nu in
     chain m (P ++ (prevp, k) :: (p, n - nu) :: Q) hbase /\ ld32 m (p + 8 * (n - nu) + 4) = nu).
Proof using.
  intros [Hok Hb0 [Hl1 Hl2] Hch Hord Hsz _ _ _ _] Hfd Hnu. pose proof (found_ring _ _ _ _ _ _ _ _ Hfd) as EL. rewrite EL in Hch.
  assert (Ho : ordered hbase (P ++ (prevp, k) :: (p, n) :: Q) (brk s)) by (rewrite <- EL; by split).
  apply ordered_app in Ho as (mid & O1 & [O2 [O3 O4]]). pose proof (room_pos k) as Hrk. rewrite (room_eq n) in O4 by lia.
  pose proof (ordered_bounds _ _ _ O4) as Hbd. pose proof (ordered_bounds _ _ _ O1) as Hbd0. apply chain_app in Hch as [C1 (C2 & C3 & C4 & C5 & C6)]. cbn in C1, C3.
  assert (HP : Forall (fun b => b.1 + 8 <= prevp) P).
  { apply Forall_forall. intros [y j] Hy. eapply ordered_in in Hy as [_ Hy]; [|exact O1]. pose proof (room_pos j). cbn. lia. }
  assert (HQ : Forall (fun b => p + 8 * n <= b.1) Q) by (apply Forall_forall; intros [y j] Hy; by eapply ordered_in in Hy as [Hy _]; [|exact O4]).
  assert (HR : 0 <= addr_of Q hbase < 4294967296) by (rewrite <- C5; by apply ld32_range). split; intros Hc m.
  - split; [|unfold m; rewrite ld32_st32_ne by lia; congruence]. apply chain_app. cbn [chain addr_of]. unfold m. split; [|split; [|split]].
    + apply chain_st32; [done|]. eapply Forall_impl; [exact HP|]. cbn. lia.
    + rewrite ld32_st32_ne by lia. done.
    + apply ld32_st32_eq. lia.
    + apply chain_st32; [done|]. eapply Forall_impl; [exact HQ|]. cbn. lia.
  - split; [|apply ld32_st32_eq; lia]. apply chain_app. cbn [chain addr_of]. unfold m. split; [|split; [|split; [|split; [|split]]]].
    + do 2 (apply chain_st32; [|eapply Forall_impl; [exact HP|]; cbn; lia]). done.
    + rewrite !ld32_st32_ne by lia. done.
    + rewrite !ld32_st32_ne by lia. done.
    + rewrite ld32_st32_ne, ld32_st32_eq by lia. done.
    + rewrite !ld32_st32_ne by lia. done.
    + do 2 (apply chain_st32; [|eapply Forall_impl; [exact HQ|]; cbn; lia]). done.
Qed.

Lemma heap_take F F1 Q P prevp k p n nu A s R m : heap F A s -> found F F1 Q P prevp k p n -> 1 <= nu <= n ->
  (n = nu /\ R = []) \/ (nu < n /\ R = [(p, n - nu)]) -> mem_ok m -> same_but (fun x => header hbase x \/ covers F x) (hmem s) m ->
  chain m (P ++ (prevp, k) :: R ++ Q) hbase -> ld32 m (p + 8 * (n - nu) + 4) = nu ->
  taken F A nu s (p + 8 * (n - nu)) (F1 ++ R ++ Q) (Hst m prevp (brk s)).
Proof using.
  intros Hh Hfd Hnu HR Hm Hsame Hc Hq. destruct (good_take _ _ _ _ _ _ _ _ _ _ _ _ Hh Hfd Hnu HR) as (G1 & G2 & G3 & G4).
  pose proof (kept_free _ _ _ m Hh Hsame) as Hk. destruct Hh as [Hok Hb0 [Hl1 Hl2] _ Hord Hsizes _ Hus Hdis _]. destruct Hfd as [-> EP].
  pose proof (ordered_in _ _ _ p n Hord ltac:(apply elem_of_app; right; by left)) as [Hp1 Hp2]. rewrite (room_eq n) in Hp2 by lia.
  assert (EL : P ++ (prevp, k) :: R ++ Q = (hbase, 0) :: F1 ++ R ++ Q).
  { change ((hbase, 0) :: F1 ++ R ++ Q) with (((hbase, 0) :: F1) ++ R ++ Q). by rewrite EP, <- app_assoc. }
  split; [|split; [done|split; [done|split; [done|]]]].
  - apply heap_add; cbn; try done; [|lia|lia|lia]. apply (heap_make _ _ s); try done; [by rewrite <- EL| |by eexists].
    rewrite <- EL, fmap_app. apply elem_of_app. right. by left.
  - rewrite !length_app. cbn. destruct HR as [[_ ->]|[_ ->]]; cbn; lia.
Qed.

(** The block fits: malloc takes it, or its end. *)
Lemma wp_take fuel F F1 Q P prevp k p n nu A s : heap F A s -> found F F1 Q P prevp k p n -> 1 <= nu <= n ->
  wp (malloc_body fuel nu (prevp, p)) (fun r s' => exists q F', r = inr (q + 8) /\ 0 < q /\ taken F A nu s q F' s') s.
Proof using.
  intros Hh Hfd Hnu. destruct (chain_take _ _ _ _ _ _ _ _ _ _ _ Hh Hfd Hnu) as [Ceq Clt].
  pose proof (fun R m => heap_take _ _ _ _ _ _ _ _ _ _ _ R m Hh Hfd Hnu) as Htake. pose proof (found_ring _ _ _ _ _ _ _ _ Hfd) as EL.
  destruct Hfd as [EF EP]. assert (Hpn : (p, n) ∈ F) by (rewrite EF; apply elem_of_app; right; by left).
  assert (Hprev : (prevp, k) ∈ (hbase, 0) :: F) by (rewrite EL; apply elem_of_app; right; by left).
  pose proof (hp_chain _ _ _ Hh) as Hch. rewrite EL in Hch. apply chain_app in Hch as [_ (_ & _ & Hsz & Hnx & _)].
  pose proof (ordered_in _ _ _ _ _ (hp_order _ _ _ Hh) Hpn) as [Hp1 _]. destruct Hh as [Hok Hb0 _ _ _ Hsizes _ _ _ _].
  assert (Hcov : forall x, p <= x < p + 8 * n -> header hbase x \/ covers F x) by (intros x Hx; right; exists (p, n); by split).
  assert (Hpc : forall x, prevp <= x < prevp + 8 -> header hbase x \/ covers F x).
  { intros x Hx. apply elem_of_cons in Hprev as [[= -> _]|Hprev]; [by left|right]. exists (prevp, k). split; [done|].
    pose proof (proj1 (Forall_forall _ _) Hsizes _ Hprev) as Hk1. cbn in Hk1. unfold within. cbn. lia. }
  unfold malloc_body, get_size, get_ptr, set_ptr, set_size, sizeof_Header. wp_step. wp_step. rewrite Hsz, (proj2 (Z.leb_le nu n)) by lia.
  destruct (Z.eqb_spec n nu) as [E|E].
  - do 8 wp_step. rewrite Hnx. destruct (Ceq E) as [C1 C2]. exists p, (F1 ++ Q). split; [done|]. split; [lia|].
    replace p with (p + 8 * (n - nu)) at 1 by lia. apply (Htake []); [by left|by apply mem_ok_st32| |done|by rewrite E, Z.sub_diag, Z.mul_0_r, Z.add_0_r].
    apply same_but_st32. intros x Hx. apply Hpc. lia.
  - do 8 wp_step. cbn. destruct (Clt ltac:(lia)) as [C1 C2]. exists (p + 8 * (n - nu)), (F1 ++ [(p, n - nu)] ++ Q). split; [done|]. split; [lia|].
    apply Htake; [right; split; [lia|done]|by do 2 apply mem_ok_st32| |done|done].
    eapply same_but_trans; apply same_but_st32; intros x Hx; apply Hcov; lia.
Qed.

(** The index of the next block of a ring of [N]. *)
Definition next (N i : nat) : nat := if (S i =? N)%nat then 0%nat else S i.

Lemma next_lt N i : (i < N)%nat -> (next N i < N)%nat.
Proof using. unfold next. destruct (Nat.eqb_spec (S i) N); lia. Qed.

Lemma steps_next N k j : (k < N)%nat -> (j < N)%nat -> j <> k -> S (steps N k (next N j)) = steps N k j.
Proof using.
  intros Hk Hj Hne. unfold next, steps. destruct (Nat.eqb_spec (S j) N), (Nat.leb_spec j k);
    repeat (match goal with |- context [(?a <=? ?b)%nat] => destruct (Nat.leb_spec a b) end); lia.
Qed.

Lemma steps_inj N k i j : (k < N)%nat -> (i < N)%nat -> (j < N)%nat -> steps N k i = steps N k j -> i = j.
Proof using. unfold steps. intros. destruct (Nat.leb_spec i k), (Nat.leb_spec j k); lia. Qed.

Lemma steps_zero N k : steps N k k = 0%nat.
Proof using. unfold steps. rewrite Nat.leb_refl. lia. Qed.

Lemma steps_lt N k j : (k < N)%nat -> (j < N)%nat -> (steps N k j < N)%nat.
Proof using. unfold steps. intros. destruct (Nat.leb_spec j k); lia. Qed.

Lemma steps_max N k j : (k < N)%nat -> (j < N)%nat -> (steps N k j <= steps N k (next N k))%nat.
Proof using.
  intros Hk Hj. unfold next, steps. destruct (Nat.eqb_spec (S k) N), (Nat.leb_spec j k);
    repeat (match goal with |- context [(?a <=? ?b)%nat] => destruct (Nat.leb_spec a b) end); lia.
Qed.

Section ring.
Context (F A : list block) (s : hst) (Hh : heap F A s).
#[local] Abbreviation L := ((hbase, 0) :: F).
#[local] Abbreviation N := (S (List.length F)).

(** The pointer of a block leads to the next one. *)
Lemma ring_next i a n : L !! i = Some (a, n) -> exists b k, L !! next N i = Some (b, k) /\ ld32 (hmem s) a = b.
Proof using Hh.
  intros Hi. destruct (chain_lookup _ _ _ _ _ _ (hp_chain _ _ _ Hh) Hi) as [_ Hnx]. pose proof (lookup_lt_Some _ _ _ Hi) as Hlt. cbn [List.length] in Hlt.
  unfold next. destruct (Nat.eqb_spec (S i) N) as [E|E].
  - exists hbase, 0. split; [done|]. rewrite drop_ge in Hnx by (cbn [List.length]; lia). done.
  - destruct (lookup_lt_is_Some_2 L (S i)) as [[b k] Hb]; [cbn [List.length]; lia|]. exists b, k. split; [done|].
    by rewrite (drop_S _ _ _ Hb) in Hnx.
Qed.

Lemma ring_freep : exists i n, L !! i = Some (freep s, n).
Proof using Hh. pose proof (hp_freep _ _ _ Hh) as H. apply list_elem_of_fmap in H as ([f n] & -> & [i Hi]%list_elem_of_lookup). by exists i, n. Qed.

Lemma ring_inj i j a n k : L !! i = Some (a, n) -> L !! j = Some (a, k) -> i = j.
Proof using Hh.
  intros Hi Hj. assert (Ho : ordered hbase L (brk s)) by (split; [lia|apply (hp_order _ _ _ Hh)]). pose proof (room_pos n). pose proof (room_pos k).
  destruct (Nat.lt_trichotomy i j) as [Hl|[Hl|Hl]]; [|done|].
  - pose proof (ordered_lt _ _ _ _ _ _ _ _ _ Ho Hi Hj Hl). lia.
  - pose proof (ordered_lt _ _ _ _ _ _ _ _ _ Ho Hj Hi Hl). lia.
Qed.

(** A block of the ring that fits is not the base. *)
Lemma ring_found i a n p k nu : L !! i = Some (a, n) -> L !! next N i = Some (p, k) -> 1 <= nu <= k ->
  exists F1 Q P, found F F1 Q P a n p k.
Proof using.
  intros Hi Hj Hnu. unfold next in Hj. destruct (Nat.eqb_spec (S i) N) as [E|E]; [cbn in Hj; simplify_eq; lia|].
  exists (take i F), (drop (S i) F), (take i L). cbn in Hj. split.
  - by rewrite (take_drop_middle F i _ Hj).
  - pose proof (take_S_r L i _ Hi) as Ht. cbn [take] in Ht. done.
Qed.

End ring.

(** The walk of malloc: it takes the first block that fits, or comes back to [freep] and none fits. *)
Lemma malloc_walk fuel nu F A s (Q : Z -> hst -> Prop) fu0 : heap F A s -> 1 <= nu ->
  (forall q F' s', 0 < q -> taken F A nu s q F' s' -> Q (q + 8) s') ->
  (forall fu prevp, (fu0 <= fu)%nat -> (forall b, b ∈ F -> b.2 < nu) -> wp (iterate (S fu) (malloc_body fuel nu) (prevp, freep s)) Q s) ->
  forall k nf i a n p m fu, ((hbase, 0) :: F) !! k = Some (freep s, nf) -> ((hbase, 0) :: F) !! i = Some (a, n) ->
  ((hbase, 0) :: F) !! next (S (List.length F)) i = Some (p, m) ->
  (forall i' b, ((hbase, 0) :: F) !! i' = Some b -> (steps (S (List.length F)) k (next (S (List.length F)) i) < steps (S (List.length F)) k i')%nat -> b.2 < nu) ->
  (steps (S (List.length F)) k (next (S (List.length F)) i) + fu0 < fu)%nat ->
  wp (iterate fu (malloc_body fuel nu) (a, p)) Q s.
Proof using.
  intros Hh Hnu HT HM k nf i a n p m fu Hk. set (L := (hbase, 0) :: F) in *. set (N := S (List.length F)) in *.
  pose proof (lookup_lt_Some _ _ _ Hk) as Hkl. cbn [List.length] in Hkl. fold N in Hkl.
  remember (steps N k (next N i)) as d eqn:Hd. revert i a n p m fu Hd. induction d as [|d IH]; intros i a n p m fu Hd Hi Hj Hseen Hf.
  all: pose proof (lookup_lt_Some _ _ _ Hi) as Hil; cbn [List.length] in Hil; fold N in Hil; pose proof (next_lt _ _ Hil) as Hnl.
  all: destruct fu as [|fu]; [lia|]; destruct (Z.leb_spec nu m) as [Hfit|Hno].
  1, 3: destruct (ring_found F i a n p m nu Hi Hj ltac:(lia)) as (F1 & R & P & Hfd); cbn [iterate]; wp_step;
    (eapply wp_mono; [by eapply wp_take; [|done|lia]|]); intros r s' (q & F' & -> & Hq & Ht); cbv beta iota; wp_step; by eapply HT.
  - assert (next N i = k) as Ek by (apply (steps_inj N k); [done|done|done|rewrite steps_zero; done]). rewrite Ek in Hj. rewrite Hk in Hj. injection Hj as <- <-.
    apply HM; [lia|]. intros b [i' Hb]%list_elem_of_lookup. destruct (decide (S i' = k)) as [<-|Hne].
    + change (F !! i' = Some (freep s, nf)) in Hk. rewrite Hb in Hk. injection Hk as ->. done.
    + apply (Hseen (S i')); [done|]. assert (S i' < N)%nat by (apply lookup_lt_Some in Hb; unfold N; lia). destruct (decide (steps N k (S i') = 0)%nat) as [E0|]; [|lia].
      exfalso. apply Hne. apply (steps_inj N k); [done|done|done|]. by rewrite E0, steps_zero.
  - assert (Hne : next N i <> k) by (intros E0; rewrite E0, steps_zero in Hd; lia). cbn [iterate]. wp_step. unfold malloc_body at 1, get_size, get_ptr. wp_step. wp_step.
    destruct (chain_lookup _ _ _ _ _ _ (hp_chain _ _ _ Hh) Hj) as [-> _]. rewrite (proj2 (Z.leb_gt nu m)) by done. wp_step. wp_step.
    rewrite (proj2 (Z.eqb_neq p (freep s))) by (intros ->; apply Hne; by eapply (ring_inj F A s Hh)). wp_step. wp_step. wp_step. cbv beta iota.
    destruct (ring_next F A s Hh _ _ _ Hj) as (b & kb & Hb & ->). fold N in Hb. pose proof (steps_next N k (next N i) Hkl Hnl Hne) as Hst.
    eapply (IH (next N i)); [lia|exact Hj|exact Hb| |lia]. intros i' b' Hb' Hlt. destruct (decide (i' = next N i)) as [->|Hne'].
    + rewrite Hj in Hb'. injection Hb' as <-. done.
    + apply (Hseen i'); [done|]. pose proof (lookup_lt_Some _ _ _ Hb') as Hl'. cbn [List.length] in Hl'. fold N in Hl'.
      destruct (decide (steps N k i' = S d)) as [E0|]; [|lia]. exfalso. apply Hne', (steps_inj N k); [done|done|done|lia].
Qed.

(** A whole round of the ring, from [freep]. *)
Lemma malloc_round fuel nu F A s (Q : Z -> hst -> Prop) fu0 fu : heap F A s -> 1 <= nu ->
  (forall q F' s', 0 < q -> taken F A nu s q F' s' -> Q (q + 8) s') ->
  (forall fu prevp, (fu0 <= fu)%nat -> (forall b, b ∈ F -> b.2 < nu) -> wp (iterate (S fu) (malloc_body fuel nu) (prevp, freep s)) Q s) ->
  (S (List.length F) + fu0 <= fu)%nat -> wp (iterate fu (malloc_body fuel nu) (freep s, ld32 (hmem s) (freep s))) Q s.
Proof using.
  intros Hh Hnu HT HM Hf. destruct (ring_freep F A s Hh) as (k & nf & Hk). destruct (ring_next F A s Hh k _ _ Hk) as (b & nb & Hb & ->).
  pose proof (lookup_lt_Some _ _ _ Hk) as Hkl. cbn [List.length] in Hkl.
  eapply (malloc_walk fuel nu F A s Q fu0 Hh Hnu HT HM k nf k); [done|done|exact Hb| |].
  - intros i' b' Hb' Hlt. pose proof (lookup_lt_Some _ _ _ Hb') as Hl'. cbn [List.length] in Hl'. pose proof (steps_max _ k i' Hkl Hl'). lia.
  - pose proof (steps_lt _ k (next (S (List.length F)) k) Hkl (next_lt _ _ Hkl)). lia.
Qed.

(** What malloc answers: nothing, and nothing has changed, or a new block in use. *)
Definition malloc_answer (F A : list block) (nu : Z) (s : hst) (r : Z) (s' : hst) : Prop :=
  (r = 0 /\ s' = s /\ limit < brk s + 8 * core_units nu /\ forall b, b ∈ F -> b.2 < nu) \/
  (exists q F', r = q + 8 /\ 0 < q /\ heap F' ((q, nu) :: A) s' /\ kept A (hmem s) (hmem s') /\
     (forall x, covers F x \/ brk s <= x < brk s' <-> covers F' x \/ within (q, nu) x) /\ (List.length F' <= S (List.length F))%nat).

Lemma taken_answer F A nu s q F' s' : 0 < q -> taken F A nu s q F' s' -> malloc_answer F A nu s (q + 8) s'.
Proof using.
  intros Hq (T1 & T2 & T3 & T4 & T5). right. exists q, F'. split_and!; try done; [|lia]. intros x. rewrite <- T4, T3.
  split; [intros [?|?]; [done|lia]|by left].
Qed.

Lemma kept_trans A m1 m2 m3 : kept A m1 m2 -> kept A m2 m3 -> kept A m1 m3.
Proof using. intros H1 H2 b x Hb Hx. by rewrite (H2 b x Hb Hx), (H1 b x Hb Hx). Qed.

(** The search of malloc with morecore. *)
Lemma wp_malloc_search fuel F A nu s : heap F A s -> 1 <= nu <= 268435455 -> (2 * List.length F + 3 <= fuel)%nat ->
  wp (iterate fuel (malloc_body fuel nu) (freep s, ld32 (hmem s) (freep s))) (malloc_answer F A nu s) s.
Proof using.
  intros Hh Hnu Hf. apply (malloc_round fuel nu F A s _ (List.length F + 2)); [done|lia|intros; by eapply taken_answer| |lia].
  intros fu prevp Hfu Hno. cbn [iterate]. wp_step. unfold malloc_body at 1, get_size, get_ptr. wp_step. wp_step.
  assert (Hsz : ld32 (hmem s) (freep s + 4) < nu).
  { destruct (ring_freep F A s Hh) as ([|k] & nf & Hk); destruct (chain_lookup _ _ _ _ _ _ (hp_chain _ _ _ Hh) Hk) as [-> _].
    - injection Hk as _ <-. lia.
    - apply (Hno (freep s, nf)). by eapply (list_elem_of_lookup_2 _ k). }
  rewrite (proj2 (Z.leb_gt nu _)) by done. wp_step. wp_step. rewrite Z.eqb_refl. wp_step. eapply wp_mono; [apply (wp_morecore fuel F A nu s); [done|done|lia]|].
  intros r s1 [(-> & -> & Hlim)|(-> & Hpos & F1 & Hh1 & Hk1 & Hbrk & Hcov & Hlen & a & k & Hin & Hfit)]; cbv beta.
  - rewrite Z.eqb_refl. wp_step. wp_step. by left.
  - rewrite (proj2 (Z.eqb_neq (freep s1) 0)) by lia. wp_step. wp_step. wp_step. cbv beta iota. apply (malloc_round fuel nu F1 A s1 _ 0); [done|lia| | |lia].
    + intros q F' s' Hq (T1 & T2 & T3 & T4 & T5). right. exists q, F'. split_and!; try done; [by eapply kept_trans| |lia].
      intros x. rewrite <- T4, Hcov, T3. done.
    + intros fu' prevp' _ Hno'. pose proof (Hno' _ Hin) as Hk. cbn in Hk. lia.
Qed.

(** The state of a program that has not called malloc yet. *)
Definition fresh (s : hst) : Prop := freep s = 0 /\ mem_ok (hmem s) /\ 0 < hbase /\ hbase + 8 <= brk s <= limit /\ limit < 2147483648.

Definition allocator (F A : list block) (s : hst) : Prop := heap F A s \/ (fresh s /\ F = [] /\ A = []).

(** The first call makes a ring of the base alone. *)
Lemma heap_first s : fresh s -> let m := st32 (st32 (hmem s) hbase hbase) (hbase + 4) 0 in heap [] [] (Hst m hbase (brk s)).
Proof using.
  intros (H1 & H2 & H3 & H4 & H5) m. apply (heap_make [] [] s); try done; [by do 2 apply mem_ok_st32|lia| |by left| |].
  - cbn. unfold m. rewrite ld32_st32_eq, ld32_st32_ne, ld32_st32_eq by lia. done.
  - by intros b x Hb%not_elem_of_nil.
  - exists (covers []). split; try done; [cbn; lia|]. by intros a f Ha%not_elem_of_nil.
Qed.

(** The units of a request. *)
Definition units (nbytes : Z) : Z := (nbytes + 7) / 8 + 1.

Lemma units_bounds n : 0 <= n <= 2147483632 -> 1 <= units n <= 268435455 /\ n <= 8 * units n - 8.
Proof using. unfold units. intros. divlia. Qed.

(** The calls before the search. *)
Lemma wp_malloc fuel F A nbytes s : allocator F A s -> 0 <= nbytes <= 2147483632 -> (2 * List.length F + 3 <= fuel)%nat ->
  wp (malloc fuel nbytes) (fun r s' => exists s1, heap F A s1 /\ brk s1 = brk s /\ kept A (hmem s) (hmem s1) /\ malloc_answer F A (units nbytes) s1 r s') s.
Proof using.
  intros Ha Hn Hf. destruct (units_bounds _ Hn) as [Hu _]. unfold malloc, sizeof_Header. rewrite (u32_id (nbytes + 8 - 1)) by lia.
  replace ((nbytes + 8 - 1) / 8 + 1) with (units nbytes) by (unfold units; do 2 f_equal; lia). wp_step. wp_step.
  destruct Ha as [Hh|(Hfr & -> & ->)].
  - pose proof (heap_freep _ _ _ Hh). rewrite (proj2 (Z.eqb_neq _ _)) by lia. unfold get_ptr. do 4 wp_step.
    eapply wp_mono; [by apply wp_malloc_search|]. intros r s' Hr. exists s. split_and!; done.
  - pose proof (heap_first s Hfr) as Hh. destruct Hfr as [E _]. rewrite E, Z.eqb_refl. unfold get_ptr, set_ptr, set_size. do 10 wp_step. cbn.
    eapply wp_mono; [by apply (wp_malloc_search fuel [] [] (units nbytes) _ Hh)|]. intros r s' Hr. eexists. split; [exact Hh|]. split; [done|]. split; [|exact Hr].
    by intros b x Hb%not_elem_of_nil.
Qed.

(** malloc of [nbytes] bytes (fewer than 2^31 - 16) always returns.  It answers 0
    only when no free block has the units the request needs and the heap cannot grow by
    what morecore asks for, and then the free blocks and the blocks in use are what they
    were.  Otherwise it answers the address of at least [nbytes] bytes inside the heap
    that overlap no block in use, the block is in use from then on, the other blocks in
    use keep their contents, and the bytes free before are free or in the new block. *)
Theorem malloc_allocates fuel F A nbytes s : allocator F A s -> 0 <= nbytes <= 2147483632 -> (2 * List.length F + 3 <= fuel)%nat ->
  exists r s', malloc fuel nbytes s = Ret r s' /\ kept A (hmem s) (hmem s') /\
  ((r = 0 /\ heap F A s' /\ brk s' = brk s /\ limit < brk s + 8 * core_units (units nbytes) /\ (forall b, b ∈ F -> b.2 < units nbytes)) \/
   (exists q F', r = q + 8 /\ hbase + 8 < r /\ r + nbytes <= brk s' /\ (forall b, b ∈ A -> b.1 + 8 * b.2 <= r \/ r + nbytes <= b.1) /\
      heap F' ((q, units nbytes) :: A) s' /\ (forall x, covers F x \/ brk s <= x < brk s' <-> covers F' x \/ within (q, units nbytes) x))).
Proof using.
  intros Ha Hn Hf. pose proof (wp_malloc fuel F A nbytes s Ha Hn Hf) as Hw. destruct (units_bounds _ Hn) as [Hu1 Hu2].
  apply wp_returns in Hw as (r & s' & E & s1 & Hh1 & Hb1 & Hk1 & Hans). exists r, s'. split; [done|].
  destruct Hans as [(-> & -> & Hlim & Hno)|(q & F' & -> & Hq & Hh' & Hk & Hcov & _)].
  - split; [done|]. left. rewrite Hb1 in Hlim. done.
  - split; [by eapply kept_trans|]. right. exists q, F'. pose proof (hp_used _ _ _ Hh') as Hus. apply Forall_cons in Hus as [(U1 & U2 & U3 & _) Hus]. cbn in U1, U2, U3.
    pose proof (hp_apart _ _ _ Hh') as [Hap _]. split; [done|]. split; [lia|]. split; [lia|]. split; [|split; [done|by rewrite <- Hb1]].
    intros b Hb. pose proof (proj1 (Forall_forall _ _) Hap b Hb) as Hab. pose proof (proj1 (Forall_forall _ _) Hus b Hb) as (B1 & _).
    unfold apart in Hab. cbn in Hab. rewrite !room_eq in Hab by lia. lia.
Qed.

(** ** Programs

    A program allocates, releases and writes blocks; it remembers the address and the
    size of each block and what it has put there. *)

Inductive request : Type :=
  | Alloc (nbytes : Z)
  | Release (i : nat)
  | Put (i : nat) (off v : Z).

#[local] Abbreviation owned := (Z * Z * Zmap Z)%type.

Definition serve (fuel : nat) (l : list owned) (q : request) : MH (list owned) :=
  match q with
  | Alloc n => r ← malloc fuel n; mret (if r =? 0 then l else (r, n, ∅) :: l)
  | Release i =>
      match l !! i with
      | Some (r, _, _) => free fuel r;; mret (delete i l)
      | None => mret l
      end
  | Put i off v =>
      match l !! i with
      | Some (r, n, c) =>
          if (0 <=? off) && (off <? n)
          then modify (fun s => set_hmem (st8 (hmem s) (r + off) v) s);; mret (<[i := (r, n, <[off := u8 v]> c)]> l)
          else mret l
      | None => mret l
      end
  end.

Fixpoint session (fuel : nat) (l : list owned) (qs : list request) : MH (list owned) :=
  match qs with
  | [] => mret l
  | q :: qs => l ← serve fuel l q; session fuel l qs
  end.


















End umalloc.

(** ** Witnesses *)

Definition ex_heap : hst := Hst ∅ 0 8192.

Lemma fresh_ex : fresh 4096 1000000 ex_heap.
Proof. split_and!; try done. apply mem_ok_empty. Qed.

Lemma malloc_allocates_witness : exists r s', malloc 4096 1000000 10 100 ex_heap = Ret r s' /\ kept [] (hmem ex_heap) (hmem s') /\
  ((r = 0 /\ heap 4096 1000000 [] [] s' /\ brk s' = brk ex_heap /\ 1000000 < brk ex_heap + 8 * core_units (units 100) /\ (forall b, b ∈ ([] : list (Z * Z)) -> b.2 < units 100)) \/
   (exists q F', r = q + 8 /\ 4096 + 8 < r /\ r + 100 <= brk s' /\ (forall b, b ∈ ([] : list (Z * Z)) -> b.1 + 8 * b.2 <= r \/ r + 100 <= b.1) /\
      heap 4096 1000000 F' ((q, units 100) :: []) s' /\ (forall x, covers [] x \/ brk ex_heap <= x < brk s' <-> covers F' x \/ within (q, units 100) x))).
Proof. apply malloc_allocates; [right; split; [apply fresh_ex|done]|lia|cbn; lia]. Defined.

Definition ex_requests : list request := [Alloc 100; Alloc 50; Put 1 3 200; Put 0 7 65; Release 0; Alloc 20; Put 0 0 66].


(** The session evaluates: two blocks are left, and the memory of the released one is used again. *)
Example ex_session_runs : match session 4096 1000000 20 [] ex_requests ex_heap with
  | Ret l s' => (fst <$> l, (fun o : Z * Z * Zmap Z => ld8 (hmem s') (o.1.1 + 3)) <$> l)
  | _ => ([], [])
  end = ([(40824, 20); (40856, 100)], [0; 200]).
Proof. vm_compute. reflexivity. Qed.

(** A request so close to 2^32 that the rounding up wraps gets a block of a single
    unit: the header, and no byte to write to. *)
Theorem malloc_huge_wraps : exists q s', malloc 4096 1000000 10 4294967289 ex_heap = Ret (q + 8) s' /\ ld32 (hmem s') (q + 4) = 1 /\ q + 8 = brk s'.
Proof. eexists 40952, _. vm_compute. done. Qed.
