(* ===== verification/Devices.v ===== *)
(** * Devices: ports, keyboard, serial line, interrupt controllers (kbd.c, uart.c, picirq.c, ioapic.c, lapic.c)

    The processor reaches its devices by in and out instructions and by loads and
    stores of the pages the controllers answer.  What the devices do is not code of the
    kernel: the class [Hardware] holds a state and the effect of each access on it.
    [devst] adds the variables of the drivers: of the console, of the controllers, and
    [B] of the disk. *)

From Stdlib Require Import ZArith Lia Ascii String.
From stdpp Require Import base tactics numbers option list strings zmap.
From S2P Require Import Prelude Memory Mmu StringOps Print Kalloc Wmap Kernel Spinlock Proc FsState.

(** ** The hardware *)

Class Hardware (H : Type) : Type := {
  in8 : Z -> H -> Z * H;           (* in of a byte *)
  out8 : Z -> Z -> H -> H;         (* out of a byte *)
  in32 : Z -> H -> Z * H;          (* in of a long, as insl repeats it *)
  out32 : Z -> Z -> H -> H;        (* out of a long, as outsl repeats it *)
  mmio_ld : Z -> H -> Z * H;       (* load of a device register *)
  mmio_st : Z -> Z -> H -> H }.    (* store to a device register *)

(** Variables of console.c, uart.c and kbd.c: [input] is [in_buf], [in_r], [in_w], [in_e]. *)
Record consst : Type := Cons {
  panicked : Z;
  locking : Z;
  in_buf : list Z;
  in_r : Z;
  in_w : Z;
  in_e : Z;
  uart : Z;
  shift : Z }.

Definition set_panicked (v : Z) (c : consst) : consst := Cons v (locking c) (in_buf c) (in_r c) (in_w c) (in_e c) (uart c) (shift c).
Definition set_locking (v : Z) (c : consst) : consst := Cons (panicked c) v (in_buf c) (in_r c) (in_w c) (in_e c) (uart c) (shift c).
Definition set_in_buf (v : list Z) (c : consst) : consst := Cons (panicked c) (locking c) v (in_r c) (in_w c) (in_e c) (uart c) (shift c).
Definition set_in_r (v : Z) (c : consst) : consst := Cons (panicked c) (locking c) (in_buf c) v (in_w c) (in_e c) (uart c) (shift c).
Definition set_in_w (v : Z) (c : consst) : consst := Cons (panicked c) (locking c) (in_buf c) (in_r c) v (in_e c) (uart c) (shift c).
Definition set_in_e (v : Z) (c : consst) : consst := Cons (panicked c) (locking c) (in_buf c) (in_r c) (in_w c) v (uart c) (shift c).
Definition set_uart (v : Z) (c : consst) : consst := Cons (panicked c) (locking c) (in_buf c) (in_r c) (in_w c) (in_e c) v (shift c).
Definition set_shift (v : Z) (c : consst) : consst := Cons (panicked c) (locking c) (in_buf c) (in_r c) (in_w c) (in_e c) (uart c) v.

(** Variables of mp.c, lapic.c and ioapic.c; [apicids] are the apicid fields of the first ncpu entries of cpus,
    [cpu_started] the started fields of all. *)
Record mpst : Type := Mp {
  lapic : Z;
  apicids : list Z;
  ioapicid : Z;
  ioapic : Z;
  cpu_started : list Z }.

Definition set_lapic (v : Z) (t : mpst) : mpst := Mp v (apicids t) (ioapicid t) (ioapic t) (cpu_started t).
Definition set_apicids (v : list Z) (t : mpst) : mpst := Mp (lapic t) v (ioapicid t) (ioapic t) (cpu_started t).
Definition set_ioapicid (v : Z) (t : mpst) : mpst := Mp (lapic t) (apicids t) v (ioapic t) (cpu_started t).
Definition set_ioapic (v : Z) (t : mpst) : mpst := Mp (lapic t) (apicids t) (ioapicid t) v (cpu_started t).
Definition set_cpu_started (v : list Z) (t : mpst) : mpst := Mp (lapic t) (apicids t) (ioapicid t) (ioapic t) v.

Record devst (B H : Type) : Type := Dev {
  blk : B;
  cn : consst;
  mpt : mpst;
  hw : H }.

Arguments Dev {B H}.
Arguments blk {B H}.
Arguments cn {B H}.
Arguments mpt {B H}.
Arguments hw {B H}.

(** struct rtcdate of date.h *)
Record rtcdate : Type := Rtcdate { second : Z; minute : Z; hour : Z; day : Z; month : Z; year : Z }.

#[export] Instance rtcdate_eq_dec : EqDecision rtcdate.
Proof. solve_decision. Defined.

Section devices.
Context {B H : Type} {HW : Hardware H}.
#[local] Abbreviation kern := (kst (fsst (devst B H))).
#[local] Abbreviation MD := (M kern).

Definition dev_of (s : kern) : devst B H := disk (fsys s).
Definition set_cn (v : consst) (s : kern) : kern := set_disk (Dev (blk (dev_of s)) v (mpt (dev_of s)) (hw (dev_of s))) s.
Definition set_mpt (v : mpst) (s : kern) : kern := set_disk (Dev (blk (dev_of s)) (cn (dev_of s)) v (hw (dev_of s))) s.
Definition set_hw (v : H) (s : kern) : kern := set_disk (Dev (blk (dev_of s)) (cn (dev_of s)) (mpt (dev_of s)) v) s.
Definition set_blk (v : B) (s : kern) : kern := set_disk (Dev v (cn (dev_of s)) (mpt (dev_of s)) (hw (dev_of s))) s.

Definition get_con {A} (f : consst -> A) : MD A := gets (fun s => f (cn (dev_of s))).
Definition upd_con (f : consst -> consst) : MD unit := modify (fun s => set_cn (f (cn (dev_of s))) s).
Definition upd_mp (f : mpst -> mpst) : MD unit := modify (fun s => set_mpt (f (mpt (dev_of s))) s).
Definition get_mp {A} (f : mpst -> A) : MD A := gets (fun s => f (mpt (dev_of s))).

(** Accesses of the hardware. *)
Definition hw_in (f : H -> Z * H) : MD Z := fun s => let '(v, h) := f (hw (dev_of s)) in Ret v (set_hw h s).
Definition hw_out (f : H -> H) : MD unit := modify (fun s => set_hw (f (hw (dev_of s))) s).

(** ** x86.h *)

Definition inb (port : Z) : MD Z := v ← hw_in (in8 port); mret (u8 v).
Definition outb (port data : Z) : MD unit := hw_out (out8 port (u8 data)).

(** ** kbd.h *)

Definition KBSTATP : Z := 0x64.
Definition KBS_DIB : Z := 0x01.
Definition KBDATAP : Z := 0x60.
Definition NO : Z := 0.
Definition SHIFT : Z := 1.
Definition CTL : Z := 2.
Definition ALT : Z := 4.
Definition CAPSLOCK : Z := 8.
Definition NUMLOCK : Z := 16.
Definition SCROLLLOCK : Z := 32.
Definition E0ESC : Z := 64.
Definition KEY_HOME : Z := 0xE0.
Definition KEY_END : Z := 0xE1.
Definition KEY_UP : Z := 0xE2.
Definition KEY_DN : Z := 0xE3.
Definition KEY_LF : Z := 0xE4.
Definition KEY_RT : Z := 0xE5.
Definition KEY_PGUP : Z := 0xE6.
Definition KEY_PGDN : Z := 0xE7.
Definition KEY_INS : Z := 0xE8.
Definition KEY_DEL : Z := 0xE9.

(** Control-x. *)
Definition C (x : ascii) : Z := asc x - asc "@".

(** An array of 256 from its first entries and its designated ones. *)
Definition array256 (l : list Z) (ds : list (Z * Z)) : list Z :=
  fold_left (fun t d => <[Z.to_nat (fst d) := snd d]> t) ds (l ++ replicate (256 - List.length l) 0).

Definition shiftcode : list Z := array256 [] [(0x1D, CTL); (0x2A, SHIFT); (0x36, SHIFT); (0x38, ALT); (0x9D, CTL); (0xB8, ALT)].
Definition togglecode : list Z := array256 [] [(0x3A, CAPSLOCK); (0x45, NUMLOCK); (0x46, SCROLLLOCK)].

(** The keys after an E0 escape that normalmap and shiftmap share; ctlmap has the last ten. *)
Definition KEYPAD : list (Z * Z) := [(0x9C, 10); (0xB5, asc "/")].
Definition ARROWS : list (Z * Z) :=
  [(0xC8, KEY_UP); (0xD0, KEY_DN); (0xC9, KEY_PGUP); (0xD1, KEY_PGDN); (0xCB, KEY_LF); (0xCD, KEY_RT);
   (0x97, KEY_HOME); (0xCF, KEY_END); (0xD2, KEY_INS); (0xD3, KEY_DEL)].

Definition normalmap : list Z := array256
  ([NO; 0x1B] ++ bytes_of "1234567890-=" ++ [8; 9] ++ bytes_of "qwertyuiop[]" ++ [10; NO] ++ bytes_of "asdfghjkl;'`" ++ [NO] ++
   bytes_of "\zxcvbnm,./" ++ [NO] ++ bytes_of "*" ++ [NO] ++ bytes_of " " ++ replicate 13 NO ++ bytes_of "789-456+1230." ++ replicate 4 NO)
  (KEYPAD ++ ARROWS).

Definition shiftmap : list Z := array256
  ([NO; 27] ++ bytes_of "!@#$%^&*()_+" ++ [8; 9] ++ bytes_of "QWERTYUIOP{}" ++ [10; NO] ++ bytes_of "ASDFGHJKL:" ++ [34] ++ bytes_of "~" ++ [NO] ++
   bytes_of "|ZXCVBNM<>?" ++ [NO] ++ bytes_of "*" ++ [NO] ++ bytes_of " " ++ replicate 13 NO ++ bytes_of "789-456+1230." ++ replicate 4 NO)
  (KEYPAD ++ ARROWS).

Definition ctlmap : list Z := array256
  (replicate 16 NO ++ (C <$> ["Q"; "W"; "E"; "R"; "T"; "Y"; "U"; "I"; "O"; "P"]%char) ++ [NO; NO; 13; NO] ++
   (C <$> ["A"; "S"; "D"; "F"; "G"; "H"; "J"; "K"; "L"]%char) ++ [NO; NO; NO; NO] ++
   (C <$> ["\"; "Z"; "X"; "C"; "V"; "B"; "N"; "M"]%char) ++ [NO; NO; u8 (C "/"); NO; NO])
  ([(0x9C, 13); (0xB5, u8 (C "/"))] ++ ARROWS).

(** ** kbd.c *)

Definition at256 (t : list Z) (i : Z) : MD Z :=
  match t !! Z.to_nat i with Some v => mret v | None => undef "keyboard map" end.

(** charcode[k] *)
Definition charcode (k : Z) : list Z := if k =? 0 then normalmap else if k =? 1 then shiftmap else ctlmap.

Definition upd_shift (f : Z -> Z) : MD unit := upd_con (fun c => set_shift (f (shift c)) c).

Definition kbdgetc : MD Z :=
  st ← inb KBSTATP;
  if Z.land st KBS_DIB =? 0 then mret (-1)
  else
    data ← inb KBDATAP;
    if data =? 0xE0 then upd_shift (fun v => Z.lor v E0ESC);; mret 0
    else if negb (Z.land data 0x80 =? 0) then
      sh ← get_con shift;
      let data := if negb (Z.land sh E0ESC =? 0) then data else Z.land data 0x7F in
      k ← at256 shiftcode data;
      upd_shift (fun v => Z.land v (Z.lnot (Z.lor k E0ESC)));; mret 0
    else
      sh ← get_con shift;
      data ← (if negb (Z.land sh E0ESC =? 0) then upd_shift (fun v => Z.land v (Z.lnot E0ESC));; mret (Z.lor data 0x80) else mret data);
      k ← at256 shiftcode data; upd_shift (fun v => Z.lor v k);;
      k ← at256 togglecode data; upd_shift (fun v => Z.lxor v k);;
      sh ← get_con shift;
      c ← at256 (charcode (Z.land sh (Z.lor CTL SHIFT))) data;
      if negb (Z.land sh CAPSLOCK =? 0) then
        if (asc "a" <=? c) && (c <=? asc "z") then mret (c + (asc "A" - asc "a"))
        else if (asc "A" <=? c) && (c <=? asc "Z") then mret (c + (asc "a" - asc "A"))
        else mret c
      else mret c.

(** ** lapic.c *)

Definition lapic_at (index : Z) : MD Z := a ← get_mp lapic; v ← hw_in (mmio_ld (a + 4 * index)); mret (u32 v).

Definition ID : Z := 0x0020 / 4.
Definition VER : Z := 0x0030 / 4.
Definition TPR : Z := 0x0080 / 4.
Definition EOI : Z := 0x00B0 / 4.
Definition SVR : Z := 0x00F0 / 4.
Definition ENABLE : Z := 0x100.
Definition ESR : Z := 0x0280 / 4.
Definition ICRLO : Z := 0x0300 / 4.
Definition INIT : Z := 0x500.
Definition STARTUP : Z := 0x600.
Definition DELIVS : Z := 0x1000.
Definition ASSERT : Z := 0x4000.
Definition LEVEL : Z := 0x8000.
Definition BCAST : Z := 0x80000.
Definition ICRHI : Z := 0x0310 / 4.
Definition TIMER : Z := 0x0320 / 4.
Definition X1 : Z := 0xB.
Definition PERIODIC : Z := 0x20000.
Definition PCINT : Z := 0x0340 / 4.
Definition LINT0 : Z := 0x0350 / 4.
Definition LINT1 : Z := 0x0360 / 4.
Definition ERROR : Z := 0x0370 / 4.
Definition MASKED : Z := 0x10000.
Definition TICR : Z := 0x0380 / 4.
Definition TDCR : Z := 0x03E0 / 4.

Definition lapicw (index value : Z) : MD unit :=
  a ← get_mp lapic;
  hw_out (mmio_st (a + 4 * index) (u32 value));;
  lapic_at ID;; mret tt.

Definition lapicid : MD Z :=
  a ← get_mp lapic;
  if a =? 0 then mret 0 else v ← lapic_at ID; mret (Z.shiftr v 24).

Definition lapiceoi : MD unit :=
  a ← get_mp lapic;
  when (negb (a =? 0)) (lapicw EOI 0).

Definition microdelay (us : Z) : MD unit := mret tt.

(** [fuel] bounds the polling of the hardware. *)
Section fuel.
Context (fuel : nat).

Definition icr_wait (_ : unit) : MD (unit + unit) :=
  v ← lapic_at ICRLO;
  if negb (Z.land v DELIVS =? 0) then mret (inl tt) else mret (inr tt).

Definition lapicinit : MD unit :=
  a ← get_mp lapic;
  if a =? 0 then mret tt
  else
    lapicw SVR (Z.lor ENABLE (T_IRQ0 + IRQ_SPURIOUS));;
    lapicw TDCR X1;;
    lapicw TIMER (Z.lor PERIODIC (T_IRQ0 + IRQ_TIMER));;
    lapicw TICR 10000000;;
    lapicw LINT0 MASKED;;
    lapicw LINT1 MASKED;;
    v ← lapic_at VER;
    when (4 <=? Z.land (Z.shiftr v 16) 0xFF) (lapicw PCINT MASKED);;
    lapicw ERROR (T_IRQ0 + IRQ_ERROR);;
    lapicw ESR 0;;
    lapicw ESR 0;;
    lapicw EOI 0;;
    lapicw ICRHI 0;;
    lapicw ICRLO (Z.lor (Z.lor BCAST INIT) LEVEL);;
    iterate fuel icr_wait tt;;
    lapicw TPR 0.

Definition CMOS_PORT : Z := 0x70.
Definition CMOS_RETURN : Z := 0x71.

Definition startup_ipi (apicid addr : Z) : MD unit :=
  lapicw ICRHI (Z.shiftl apicid 24);;
  lapicw ICRLO (Z.lor STARTUP (Z.shiftr addr 12));;
  microdelay 200.

Definition lapicstartap (apicid addr : Z) : MD unit :=
  outb CMOS_PORT 0xF;;
  outb (CMOS_PORT + 1) 0x0A;;
  let wrv := P2V (Z.lor (Z.shiftl 0x40 4) 0x67) in
  kst16 wrv 0;;
  kst16 (wrv + 2) (u16 (Z.shiftr addr 4));;
  lapicw ICRHI (Z.shiftl apicid 24);;
  lapicw ICRLO (Z.lor (Z.lor INIT LEVEL) ASSERT);;
  microdelay 200;;
  lapicw ICRLO (Z.lor INIT LEVEL);;
  microdelay 100;;
  startup_ipi apicid addr;; startup_ipi apicid addr.

(** *** The clock *)

Definition cmos_read (reg : Z) : MD Z :=
  outb CMOS_PORT reg;; microdelay 200;; inb CMOS_RETURN.

Definition fill_rtcdate : MD rtcdate :=
  s ← cmos_read 0x00; m ← cmos_read 0x02; h ← cmos_read 0x04;
  d ← cmos_read 0x07; mo ← cmos_read 0x08; y ← cmos_read 0x09;
  mret (Rtcdate s m h d mo y).

Definition rtc_body (_ : unit) : MD (unit + rtcdate) :=
  t1 ← fill_rtcdate;
  a ← cmos_read 0x0a;
  if negb (Z.land a (Z.shiftl 1 7) =? 0) then mret (inl tt)
  else t2 ← fill_rtcdate; if bool_decide (t1 = t2) then mret (inr t1) else mret (inl tt).

Definition CONV (x : Z) : Z := Z.shiftr x 4 * 10 + Z.land x 0xf.

Definition cmostime : MD rtcdate :=
  b ← cmos_read 0x0b;
  t ← iterate fuel rtc_body tt;
  let t := if Z.land b (Z.shiftl 1 2) =? 0
           then Rtcdate (CONV (second t)) (CONV (minute t)) (CONV (hour t)) (CONV (day t)) (CONV (month t)) (CONV (year t)) else t in
  mret (Rtcdate (second t) (minute t) (hour t) (day t) (month t) (year t + 2000)).

End fuel.

(** ** picirq.c and ioapic.c *)

Definition IO_PIC1 : Z := 0x20.
Definition IO_PIC2 : Z := 0xA0.

Definition picinit : MD unit := outb (IO_PIC1 + 1) 0xFF;; outb (IO_PIC2 + 1) 0xFF.

Definition IOAPIC : Z := 0xFEC00000.
Definition REG_ID : Z := 0x00.
Definition REG_VER : Z := 0x01.
Definition REG_TABLE : Z := 0x10.
Definition INT_DISABLED : Z := 0x10000.

(** struct ioapic: [reg] at 0, [data] at 16. *)
Definition ioapicread (reg : Z) : MD Z :=
  a ← get_mp ioapic; hw_out (mmio_st a (u32 reg));; v ← hw_in (mmio_ld (a + 16)); mret (u32 v).
Definition ioapicwrite (reg data : Z) : MD unit :=
  a ← get_mp ioapic; hw_out (mmio_st a (u32 reg));; hw_out (mmio_st (a + 16) (u32 data)).

Definition ioapicenable (irq cpunum : Z) : MD unit :=
  ioapicwrite (REG_TABLE + 2 * irq) (T_IRQ0 + irq);;
  ioapicwrite (REG_TABLE + 2 * irq + 1) (Z.shiftl cpunum 24).

(** ** uart.c *)

Definition COM1 : Z := 0x3f8.

(** Wait for the transmitter, at most [n] times. *)
Fixpoint uart_wait (n : nat) : MD unit :=
  match n with
  | O => mret tt
  | S n => st ← inb (COM1 + 5); if Z.land st 0x20 =? 0 then microdelay 10;; uart_wait n else mret tt
  end.

Definition uartputc (c : Z) : MD unit :=
  u ← get_con uart;
  if u =? 0 then mret tt else uart_wait 128;; outb COM1 c.

Definition uartgetc : MD Z :=
  u ← get_con uart;
  if u =? 0 then mret (-1)
  else st ← inb (COM1 + 5); if Z.land st 0x01 =? 0 then mret (-1) else inb COM1.

Fixpoint uart_puts (l : list Z) : MD unit :=
  match l with
  | [] => mret tt
  | c :: l' => uartputc c;; uart_puts l'
  end.

Definition uartinit : MD unit :=
  outb (COM1 + 2) 0;;
  outb (COM1 + 3) 0x80;;
  outb COM1 (115200 / 9600);;
  outb (COM1 + 1) 0;;
  outb (COM1 + 3) 0x03;;
  outb (COM1 + 4) 0;;
  outb (COM1 + 1) 0x01;;
  st ← inb (COM1 + 5);
  if st =? 0xFF then mret tt
  else
    upd_con (set_uart 1);;
    inb (COM1 + 2);; inb COM1;;
    ioapicenable IRQ_COM1 0;;
    uart_puts (bytes_of "xv6..." ++ [NL]).

End devices.

(** ** The keyboard *)

Section kbd.
Context {B H : Type} {HW : Hardware H}.
#[local] Abbreviation kern := (kst (fsst (devst B H))).
Implicit Types s : kern.

Lemma run_inb port s : inb port s = Ret (u8 (in8 port (hw (dev_of s))).1) (set_hw (in8 port (hw (dev_of s))).2 s).
Proof using. unfold inb, hw_in, mbind, M_bind. by destruct (in8 port (hw (dev_of s))). Qed.

(** kbdgetc once it has a byte: the flags before and after it, and the answer. *)
Definition decode (sh data : Z) : option (Z * Z) :=
  if data =? 0xE0 then Some (Z.lor sh E0ESC, 0)
  else if negb (Z.land data 0x80 =? 0) then
    k ← shiftcode !! Z.to_nat (if negb (Z.land sh E0ESC =? 0) then data else Z.land data 0x7F);
    Some (Z.land sh (Z.lnot (Z.lor k E0ESC)), 0)
  else
    let '(sh, data) := if negb (Z.land sh E0ESC =? 0) then (Z.land sh (Z.lnot E0ESC), Z.lor data 0x80) else (sh, data) in
    k1 ← shiftcode !! Z.to_nat data; k2 ← togglecode !! Z.to_nat data;
    let sh := Z.lxor (Z.lor sh k1) k2 in
    c ← charcode (Z.land sh (Z.lor CTL SHIFT)) !! Z.to_nat data;
    Some (sh, if negb (Z.land sh CAPSLOCK =? 0) then
                if (asc "a" <=? c) && (c <=? asc "z") then c + (asc "A" - asc "a")
                else if (asc "A" <=? c) && (c <=? asc "Z") then c + (asc "a" - asc "A") else c
              else c).

Definition with_shift (sh : Z) (h : H) (s : kern) : kern := set_cn (set_shift sh (cn (dev_of s))) (set_hw h s).

Lemma run_at256 t i v s : t !! Z.to_nat i = Some v -> at256 t i s = Ret v s.
Proof using. intros Hv. unfold at256. by rewrite Hv. Qed.

Lemma run_upd_shift f sh h s : upd_shift f (with_shift sh h s) = Ret tt (with_shift (f sh) h s).
Proof using. done. Qed.

Lemma run_kbdgetc s data sh c : let r := in8 KBSTATP (hw (dev_of s)) in let r2 := in8 KBDATAP r.2 in
  Z.land (u8 r.1) KBS_DIB <> 0 -> u8 r2.1 = data -> decode (shift (cn (dev_of s))) data = Some (sh, c) -> kbdgetc s = Ret c (with_shift sh r2.2 s).
Proof using.
  intros r r2 Hst Hd Hdec. unfold kbdgetc. rewrite (bind_ret_run _ _ _ _ _ (run_inb KBSTATP s)). fold r. rewrite (proj2 (Z.eqb_neq _ _) Hst).
  rewrite (bind_ret_run _ _ _ _ _ (run_inb KBDATAP _)). change (in8 KBDATAP (hw (dev_of (set_hw r.2 s)))) with r2. rewrite Hd.
  assert (Es : set_hw r2.2 (set_hw r.2 s) = with_shift (shift (cn (dev_of s))) r2.2 s) by (by destruct s as [? ? ? ? ? ? ? ? ? [? ? ? ? [? [] ? ?]]]).
  rewrite Es. generalize (shift (cn (dev_of s))) as sh0, r2.2 as h, Hdec. clear. intros sh0 h Hdec. unfold decode in Hdec.
  destruct (data =? 0xE0); [injection Hdec as <- <-; by rewrite (bind_ret_run _ _ _ _ _ (run_upd_shift _ _ _ _))|].
  unfold get_con. destruct (negb (Z.land data 0x80 =? 0)).
  { mrun. change (shift (cn (dev_of (with_shift sh0 h s)))) with sh0. destruct (shiftcode !! _) as [k|] eqn:Ek; cbn [mbind option_bind] in Hdec; [|done]. injection Hdec as <- <-.
    rewrite (bind_ret_run _ _ _ _ _ (run_at256 _ _ _ _ Ek)). by rewrite (bind_ret_run _ _ _ _ _ (run_upd_shift _ _ _ _)). }
  rewrite run_bind_gets. change (shift (cn (dev_of (with_shift sh0 h s)))) with sh0.
  set (esc := if negb (Z.land sh0 E0ESC =? 0) then _ else _) in Hdec. set (key := if negb (Z.land sh0 E0ESC =? 0) then _ else _ : M kern Z).
  assert (Ee : key (with_shift sh0 h s) = Ret esc.2 (with_shift esc.1 h s)) by (unfold key, esc; by destruct (negb (Z.land sh0 E0ESC =? 0))).
  rewrite (bind_ret_run _ _ _ _ _ Ee). destruct esc as [sh1 d]. cbn [fst snd].
  destruct (shiftcode !! _) as [k1|] eqn:Ek1; cbn [mbind option_bind] in Hdec; [|done]. rewrite (bind_ret_run _ _ _ _ _ (run_at256 _ _ _ _ Ek1)), (bind_ret_run _ _ _ _ _ (run_upd_shift _ _ _ _)).
  destruct (togglecode !! _) as [k2|] eqn:Ek2; cbn [mbind option_bind] in Hdec; [|done]. rewrite (bind_ret_run _ _ _ _ _ (run_at256 _ _ _ _ Ek2)), (bind_ret_run _ _ _ _ _ (run_upd_shift _ _ _ _)).
  rewrite run_bind_gets. set (sh2 := Z.lxor (Z.lor sh1 k1) k2) in *. change (shift (cn (dev_of (with_shift sh2 h s)))) with sh2.
  destruct (charcode _ !! _) as [c0|] eqn:Ec; cbn [mbind option_bind] in Hdec; [|done]. rewrite (bind_ret_run _ _ _ _ _ (run_at256 _ _ _ _ Ec)). injection Hdec as <- <-.
  destruct (negb (Z.land sh2 CAPSLOCK =? 0)); [|done]. destruct ((asc "a" <=? c0) && _); [done|]. by destruct ((asc "A" <=? c0) && _).
Qed.

End kbd.

(** *** What a keyboard does

    The specification, without the maps of kbd.h: the state of the keyboard, what a key is called, and what its legends are. *)
Record kbstate : Type := Kb { k_shift : bool; k_ctl : bool; k_alt : bool; k_caps : bool; k_num : bool; k_scroll : bool; k_escaped : bool }.
#[export] Instance kbstate_eq_dec : EqDecision kbstate.
Proof. solve_decision. Defined.

(** The variable shift of kbdgetc. *)
Definition kb_bits (k : kbstate) : Z :=
  Z.b2z (k_shift k) * SHIFT + Z.b2z (k_ctl k) * CTL + Z.b2z (k_alt k) * ALT + Z.b2z (k_caps k) * CAPSLOCK + Z.b2z (k_num k) * NUMLOCK +
  Z.b2z (k_scroll k) * SCROLLLOCK + Z.b2z (k_escaped k) * E0ESC.

(** A key by its scan code, those of the second set (after an escape) with 128 added. *)
Inductive kind : Type := KShift | KCtl | KAlt | KCaps | KNum | KScroll | KOther.
Definition kind_of (key : Z) : kind :=
  if (key =? 0x2A) || (key =? 0x36) then KShift else if (key =? 0x1D) || (key =? 0x9D) then KCtl else if (key =? 0x38) || (key =? 0xB8) then KAlt
  else if key =? 0x3A then KCaps else if key =? 0x45 then KNum else if key =? 0x46 then KScroll else KOther.

(** Pressing a modifier holds it, releasing it ends that; pressing a lock key toggles the lock.  Either ends an escape. *)
Definition press (key : Z) (k : kbstate) : kbstate :=
  let '(Kb s c a l n r _) := k in
  match kind_of key with
  | KShift => Kb true c a l n r false | KCtl => Kb s true a l n r false | KAlt => Kb s c true l n r false
  | KCaps => Kb s c a (negb l) n r false | KNum => Kb s c a l (negb n) r false | KScroll => Kb s c a l n (negb r) false
  | KOther => Kb s c a l n r false
  end.
Definition unpress (key : Z) (k : kbstate) : kbstate :=
  let '(Kb s c a l n r _) := k in
  match kind_of key with
  | KShift => Kb false c a l n r false | KCtl => Kb s false a l n r false | KAlt => Kb s c false l n r false
  | _ => Kb s c a l n r false
  end.

(** The rows of keys: the first key, the legends without and with shift. *)
Definition key_rows : list (Z * list Z * list Z) :=
  [(0x02, bytes_of "1234567890-=", bytes_of "!@#$%^&*()_+"); (0x10, bytes_of "qwertyuiop[]", bytes_of "QWERTYUIOP{}");
   (0x1E, bytes_of "asdfghjkl;'`", bytes_of "ASDFGHJKL:" ++ [34] ++ bytes_of "~"); (0x2B, bytes_of "\zxcvbnm,./", bytes_of "|ZXCVBNM<>?")].
(** Keys that are the same with shift: escape, backspace and tab, enter, the star, the space bar, the keypad, and the second set. *)
Definition plain_keys : list (Z * list Z) :=
  [(0x01, [27]); (0x0E, [8; 9]); (0x1C, [10]); (0x37, bytes_of "*"); (0x39, bytes_of " "); (0x47, bytes_of "789-456+1230."); (0x9C, [10]); (0xB5, bytes_of "/");
   (0x97, [KEY_HOME]); (0xC8, [KEY_UP; KEY_PGUP]); (0xCB, [KEY_LF]); (0xCD, [KEY_RT]); (0xCF, [KEY_END; KEY_DN; KEY_PGDN; KEY_INS; KEY_DEL])].

Definition in_row (key first : Z) (l : list Z) : option Z := if (first <=? key) && (key <? first + Z.of_nat (List.length l)) then l !! Z.to_nat (key - first) else None.
Fixpoint legends (key : Z) (rows : list (Z * list Z * list Z)) : option (Z * Z) :=
  match rows with
  | [] => None
  | (first, plain, shifted) :: rows =>
      match in_row key first plain, in_row key first shifted with Some p, Some q => Some (p, q) | _, _ => legends key rows end
  end.
Definition legend (key : Z) : option (Z * Z) := legends key (key_rows ++ ((fun '(first, l) => (first, l, l)) <$> plain_keys)).

Definition lower (c : Z) : bool := (asc "a" <=? c) && (c <=? asc "z").
Definition upper (c : Z) : bool := (asc "A" <=? c) && (c <=? asc "Z").

(** Control with a letter, a backslash or a slash is that character less 64 (in a byte), with enter a carriage return; the named keys stay, the others are nothing. *)
Definition control (key c : Z) : Z :=
  if lower c then c - 32 - 64
  else if (key =? 0x2B) || (key =? 0x35) || (key =? 0xB5) then (c - 64) mod 256
  else if c =? 10 then 13 else if 0xE0 <=? c then c else 0.
Definition flip_case (c : Z) : Z := if lower c then c - 32 else if upper c then c + 32 else c.

Definition key_char (k : kbstate) (key : Z) : Z :=
  match legend key with
  | None => 0
  | Some (plain, shifted) =>
      let c := if k_ctl k then control key plain else if k_shift k then shifted else plain in
      if k_caps k then flip_case c else c
  end.

(** A byte from the keyboard: the escape, a key released (128 added), or a key pressed, which is the only one to give a character. *)
Definition key_event (k : kbstate) (b : Z) : kbstate * Z :=
  if b =? 0xE0 then (Kb (k_shift k) (k_ctl k) (k_alt k) (k_caps k) (k_num k) (k_scroll k) true, 0)
  else if 128 <=? b then (unpress (if k_escaped k then b else b - 128) k, 0)
  else let key := if k_escaped k then b + 128 else b in let k := press key k in (k, key_char k key).

(** *** kbdgetc does that *)

Definition mod_bit (x : kind) : Z := match x with KShift => SHIFT | KCtl => CTL | KAlt => ALT | _ => 0 end.
Definition lock_bit (x : kind) : Z := match x with KCaps => CAPSLOCK | KNum => NUMLOCK | KScroll => SCROLLLOCK | _ => 0 end.
Definition legend_by (f : Z -> Z * Z -> Z) (key : Z) : Z := match legend key with None => 0 | Some l => f key l end.

(** The maps of kbd.h say what the keys are. *)
Lemma shiftcode_kinds : shiftcode = (fun key => mod_bit (kind_of key)) <$> seqZ 0 256.
Proof. vm_compute. reflexivity. Qed.
Lemma togglecode_kinds : togglecode = (fun key => lock_bit (kind_of key)) <$> seqZ 0 256.
Proof. vm_compute. reflexivity. Qed.
Lemma normalmap_legends : normalmap = legend_by (fun _ => fst) <$> seqZ 0 256.
Proof. vm_compute. reflexivity. Qed.
Lemma shiftmap_legends : shiftmap = legend_by (fun _ => snd) <$> seqZ 0 256.
Proof. vm_compute. reflexivity. Qed.
Lemma ctlmap_legends : ctlmap = legend_by (fun key l => control key (fst l)) <$> seqZ 0 256.
Proof. vm_compute. reflexivity. Qed.

Lemma lookup_map (f : Z -> Z) key : 0 <= key < 256 -> (f <$> seqZ 0 256) !! Z.to_nat key = Some (f key).
Proof.
  intros Hk. rewrite list_lookup_fmap, (proj2 (lookup_seqZ 0 256 (Z.to_nat key) key)) by lia. done.
Qed.

(** The flags. *)
Lemma bits_escape k : Z.lor (kb_bits k) E0ESC = kb_bits (Kb (k_shift k) (k_ctl k) (k_alt k) (k_caps k) (k_num k) (k_scroll k) true).
Proof. by destruct k as [[] [] [] [] [] [] []]. Qed.
Lemma bits_escaped k : negb (Z.land (kb_bits k) E0ESC =? 0) = k_escaped k.
Proof. by destruct k as [[] [] [] [] [] [] []]. Qed.
Lemma bits_unpress key k : Z.land (kb_bits k) (Z.lnot (Z.lor (mod_bit (kind_of key)) E0ESC)) = kb_bits (unpress key k).
Proof. unfold unpress. destruct (kind_of key), k as [[] [] [] [] [] [] []]; done. Qed.
Lemma bits_press key k : Z.lxor (Z.lor (if k_escaped k then Z.land (kb_bits k) (Z.lnot E0ESC) else kb_bits k) (mod_bit (kind_of key))) (lock_bit (kind_of key)) = kb_bits (press key k).
Proof. unfold press. destruct (kind_of key), k as [[] [] [] [] [] [] []]; done. Qed.
Lemma bits_caps k : negb (Z.land (kb_bits k) CAPSLOCK =? 0) = k_caps k.
Proof. by destruct k as [[] [] [] [] [] [] []]. Qed.
Lemma bits_map k : charcode (Z.land (kb_bits k) (Z.lor CTL SHIFT)) = if k_ctl k then ctlmap else if k_shift k then shiftmap else normalmap.
Proof. by destruct k as [[] [] [] [] [] [] []]. Qed.

(** The byte. *)
Lemma byte_high b : 0 <= b < 256 -> negb (Z.land b 0x80 =? 0) = (128 <=? b) /\ Z.land b 0x7F = b mod 128 /\ (b < 128 -> Z.lor b 0x80 = b + 128).
Proof.
  intros Hb. assert (Ht : forallb (fun b => Bool.eqb (negb (Z.land b 0x80 =? 0)) (128 <=? b) && (Z.land b 0x7F =? b mod 128) && ((128 <=? b) || (Z.lor b 0x80 =? b + 128))) (seqZ 0 256) = true)
    by (vm_compute; reflexivity).
  rewrite forallb_forall in Ht. specialize (Ht b (proj1 (list_elem_of_In _ _) (proj2 (elem_of_seqZ 0 256 b) ltac:(lia)))).
  apply andb_true_iff in Ht as [[H1%eqb_prop H2%Z.eqb_eq]%andb_true_iff H3]. split; [done|]. split; [done|]. intros Hl.
  apply orb_true_iff in H3 as [?%Z.leb_le|?%Z.eqb_eq]; [lia|done].
Qed.

Lemma decode_key_event k b : 0 <= b < 256 -> decode (kb_bits k) b = Some (kb_bits (key_event k b).1, (key_event k b).2).
Proof.
  intros Hb. unfold decode, key_event. destruct (b =? 0xE0); [by rewrite bits_escape|]. destruct (byte_high b Hb) as (-> & E7 & E8). rewrite bits_escaped, E7.
  destruct (Z.leb_spec 128 b) as [Hh|Hl].
  - assert (Ek : (if k_escaped k then b else b mod 128) = if k_escaped k then b else b - 128) by (destruct (k_escaped k); [done|divlia]).
    rewrite Ek, shiftcode_kinds, lookup_map by (destruct (k_escaped k); lia). cbn [mbind option_bind]. by rewrite bits_unpress.
  - rewrite E8 by done. set (key := if k_escaped k then b + 128 else b). assert (Hk : 0 <= key < 256) by (unfold key; destruct (k_escaped k); lia).
    assert (Ee : (if k_escaped k then (Z.land (kb_bits k) (Z.lnot E0ESC), b + 128) else (kb_bits k, b)) =
      (if k_escaped k then Z.land (kb_bits k) (Z.lnot E0ESC) else kb_bits k, key)) by (unfold key; by destruct (k_escaped k)).
    rewrite Ee, shiftcode_kinds, togglecode_kinds, !lookup_map by done. cbn [mbind option_bind]. rewrite bits_press, bits_caps, bits_map. set (k' := press key k).
    assert (Ec : (if k_ctl k' then ctlmap else if k_shift k' then shiftmap else normalmap) !! Z.to_nat key =
      Some (legend_by (fun key l => if k_ctl k' then control key (fst l) else if k_shift k' then snd l else fst l) key)).
    { destruct (k_ctl k'); [by rewrite ctlmap_legends, lookup_map|]. destruct (k_shift k'); [by rewrite shiftmap_legends, lookup_map|by rewrite normalmap_legends, lookup_map]. }
    rewrite Ec. cbn [mbind option_bind]. unfold legend_by, key_char. do 2 f_equal. cbn [fst snd].
    destruct (legend key) as [[p q]|]; [|by destruct (k_caps k')]. destruct (k_caps k'); [|done]. unfold flip_case, lower, upper. cbn [fst snd].
    set (c := if k_ctl k' then _ else _). change (asc "A" - asc "a") with (-32). change (asc "a" - asc "A") with 32. by destruct (_ && _).
Qed.

(** The characters of a sequence of bytes, those that are 0 left out as consoleintr does. *)
Fixpoint typed_text (k : kbstate) (bs : list Z) : kbstate * list Z :=
  match bs with
  | [] => (k, [])
  | b :: bs => let '(k, c) := key_event k b in let '(k', cs) := typed_text k bs in (k', if c =? 0 then cs else c :: cs)
  end.

Definition idle_keys : kbstate := Kb false false false false false false false.

(** How a character is typed: its key, with shift around it if need be. *)
Definition key_with (f : Z * Z -> Z) (c : Z) : option Z := find (fun key => match legend key with Some l => f l =? c | None => false end) (seqZ 0 128).
Definition keystrokes (c : Z) : list Z :=
  match key_with fst c with
  | Some key => [key; key + 128]
  | None => match key_with snd c with Some key => [0x2A; key; key + 128; 0x2A + 128] | None => [] end
  end.
Definition typeable (c : Z) : Prop := 32 <= c < 127 \/ c = 10.

Lemma typed_text_app k bs bs' : typed_text k (bs ++ bs') =
  let '(k1, cs) := typed_text k bs in let '(k2, cs') := typed_text k1 bs' in (k2, cs ++ cs').
Proof.
  revert k. induction bs as [|b bs IH]; intros k; cbn [app typed_text]; [by destruct (typed_text k bs')|]. destruct (key_event k b) as [k0 c]. rewrite IH.
  destruct (typed_text k0 bs) as [k1 cs]. destruct (typed_text k1 bs') as [k2 cs']. by destruct (c =? 0).
Qed.

(** Every printable character can be typed, and a text typed key by key is that text. *)
Lemma typing_text text : Forall typeable text -> typed_text idle_keys (concat (keystrokes <$> text)) = (idle_keys, text).
Proof.
  assert (H1 : forallb (fun c => bool_decide (typed_text idle_keys (keystrokes c) = (idle_keys, [c]))) (10 :: seqZ 32 95) = true) by (vm_compute; reflexivity).
  rewrite forallb_forall in H1. induction 1 as [|c text Hc _ IH]; [done|]. cbn [fmap list_fmap concat]. rewrite typed_text_app.
  assert (Hin : In c (10 :: seqZ 32 95)) by (apply list_elem_of_In; destruct Hc as [Hc| ->]; [right; apply elem_of_seqZ; lia|left]).
  specialize (H1 c Hin). apply bool_decide_eq_true in H1. rewrite H1.
  by rewrite IH.
Qed.

(** The keyboard controller: the bytes that wait in it. *)
Class Keyboard (H : Type) {HW : Hardware H} : Type := {
  kb_queue : H -> list Z;
  kb_status : forall h, let r := in8 KBSTATP h in kb_queue r.2 = kb_queue h /\ (Z.land (u8 r.1) KBS_DIB = 0 <-> kb_queue h = []);
  kb_data : forall h b bs, kb_queue h = b :: bs -> let r := in8 KBDATAP h in u8 r.1 = b /\ kb_queue r.2 = bs }.

(** C23: kbdgetc decodes the keyboard.  With nothing waiting in the controller it answers -1.  Otherwise it takes the next byte, and its answer and the modifier state it keeps are
    those of the keyboard: an escape selects the second set of keys for the next byte only; a key released gives nothing, and ends what holding a modifier does; a key
    pressed gives its legend, the upper one under shift, the control character under control, letters in the other case under caps lock; modifiers are held and locks toggled
    by pressing them.  Nothing but this state and the hardware changes. *)
Theorem kbdgetc_keys {B H} {HW : Hardware H} {KB : Keyboard H} (s : kst (fsst (devst B H))) (k : kbstate) :
  shift (cn (dev_of s)) = kb_bits k ->
  match kb_queue (hw (dev_of s)) with
  | [] => exists h, kbdgetc s = Ret (-1) (set_hw h s) /\ kb_queue h = []
  | b :: bs => exists h, kbdgetc s = Ret (key_event k b).2 (set_cn (set_shift (kb_bits (key_event k b).1) (cn (dev_of s))) (set_hw h s)) /\ kb_queue h = bs
  end.
Proof.
  intros Hs. destruct (kb_status (hw (dev_of s))) as [Hq Hst]. destruct (kb_queue (hw (dev_of s))) as [|b bs].
  - exists (in8 KBSTATP (hw (dev_of s))).2. split; [|done]. unfold kbdgetc. rewrite (bind_ret_run _ _ _ _ _ (run_inb KBSTATP s)). by rewrite (proj2 Hst eq_refl).
  - destruct (kb_data _ b bs Hq) as [Hd Hq2]. eexists. split; [|exact Hq2]. apply (run_kbdgetc s b); [|done|].
    + intros E. by apply Hst in E.
    + rewrite Hs. apply decode_key_event. rewrite <- Hd. apply u8_range.
Qed.

(** *** A keyboard *)

(** Hardware that delivers scan codes and records what goes out; other input is 0. *)
Record keys : Type := Keys { codes : list Z; outs : list (Z * Z) }.

#[export] Instance ex_keyboard : Hardware keys := {|
  in8 := fun port h =>
    if port =? KBSTATP then (match codes h with [] => 0 | _ => KBS_DIB end, h)
    else if port =? KBDATAP then (default 0 (head (codes h)), Keys (tail (codes h)) (outs h))
    else (0, h);
  out8 := fun port v h => Keys (codes h) (outs h ++ [(port, v)]);
  in32 := fun _ h => (0, h);
  out32 := fun _ _ h => h;
  mmio_ld := fun _ h => (0, h);
  mmio_st := fun _ _ h => h |}.

Definition ex_cons : consst := Cons 0 1 (replicate 128 0) 0 0 0 1 0.

(** A machine with one process, with the given devices. *)
Definition ex_board {B H} (b : B) (c : consst) (h : H) : kst (fsst (devst B H)) :=
  KS (KM ∅ 0 true false ∅ 0) (running_proc :: replicate 63 proc0) (Some 0%nat) cpu0 [] 2 (Some 0%nat) 0 (replicate NFILE file0)
    (FS [] (Log 0 0 0 0 0 0 []) (Superblock 0 0 0 0 0 0 0) [] (Dev b c (Mp 0 [] 0 IOAPIC []) h)).

#[export] Instance ex_keys : Keyboard keys.
Proof.
  refine {| kb_queue := fun h => u8 <$> codes h |}; [intros h|intros h b bs]; cbn; destruct (codes h) as [|c cs]; cbn; try done.
  by intros [= -> ->].
Defined.

(** Caps lock is on, and the key of the letter a is pressed: the letter is a capital one. *)
Lemma kbdgetc_keys_witness :
  let s := ex_board tt (set_shift CAPSLOCK ex_cons) (Keys [0x1E; 0x9E] []) in
  exists h, kbdgetc s = Ret (asc "A") (set_cn (set_shift CAPSLOCK (cn (dev_of s))) (set_hw h s)) /\ kb_queue h = [0x9E].
Proof.
  intros s. exact (kbdgetc_keys s (Kb false false false true false false false) eq_refl).
Defined.
