(* ===== verification/Console.v ===== *)
(** * console.c: console input and output, and the listing of processes

    Input from the keyboard or the serial line is collected in a ring of 128 bytes with
    three indices: bytes from [in_r] to [in_w] are ready for a reader, bytes from [in_w]
    to [in_e] belong to the line being edited.  Output goes to the serial line and to
    the text memory of the screen.

    [console m l] reads the ring as two lists: the bytes committed and the line being
    edited.  The interrupt handler is shown to be an editor of these lists, and
    consoleread to take from the first one; the indices may wrap around. *)

From Stdlib Require Import ZArith Lia Ascii String.
From stdpp Require Import base tactics numbers option list strings zmap.
From S2P Require Import Prelude Memory Mmu StringOps Print Kalloc Wmap Kernel Spinlock Proc FsState Bio Fs Devices.

Section console.
Context {B H : Type} {HW : Hardware H} {BD : BlockDevice (devst B H)} (fuel : nat).
#[local] Abbreviation kern := (kst (fsst (devst B H))).
#[local] Abbreviation MD := (M kern).

(** ** Output *)

Definition BACKSPACE : Z := 0x100.
Definition CRTPORT : Z := 0x3d4.
Definition crt : Z := P2V 0xb8000.

Definition upd_mem (f : Zmap Z -> Zmap Z) : MD unit := modify (fun s => set_km (set_mem (f (mem (km s))) (km s)) s).

(** The cursor position, col + 80*row. *)
Definition get_cursor : MD Z :=
  outb CRTPORT 14;;
  hi ← inb (CRTPORT + 1);
  outb CRTPORT 15;;
  lo ← inb (CRTPORT + 1);
  mret (Z.lor (Z.shiftl hi 8) lo).

Definition put_cursor (pos : Z) : MD unit :=
  outb CRTPORT 14;;
  outb (CRTPORT + 1) (Z.shiftr pos 8);;
  outb CRTPORT 15;;
  outb (CRTPORT + 1) pos.

Definition scroll_up (pos : Z) : MD Z :=
  upd_mem (fun m => memmove m crt (crt + 2 * 80) (2 * 23 * 80));;
  let pos := pos - 80 in
  upd_mem (fun m => memset m (crt + 2 * pos) 0 (2 * (24 * 80 - pos)));;
  mret pos.

Definition cgaputc (c : Z) : MD unit :=
  pos ← get_cursor;
  pos ← (if c =? NL then mret (pos + (80 - Z.rem pos 80))
         else if c =? BACKSPACE then mret (if 0 <? pos then pos - 1 else pos)
         else kst16 (crt + 2 * pos) (Z.lor (Z.land c 0xff) 0x0700);; mret (pos + 1));
  if (pos <? 0) || (25 * 80 <? pos) then panic "pos under/overflow"
  else
    pos ← (if 24 <=? pos / 80 then scroll_up pos else mret pos);
    put_cursor pos;;
    kst16 (crt + 2 * pos) (Z.lor (asc " ") 0x0700).

(** A CPU that finds [panicked] set stops for good. *)
Definition consputc (c : Z) : MD unit :=
  p ← get_con panicked;
  if negb (p =? 0) then panic "panicked"
  else
    (if c =? BACKSPACE then uartputc 8;; uartputc (asc " ");; uartputc 8 else uartputc c);;
    cgaputc c.

Fixpoint cputs (l : list Z) : MD unit :=
  match l with
  | [] => mret tt
  | c :: l' => consputc c;; cputs l'
  end.

Definition digits : list Z := bytes_of "0123456789abcdef".

Definition printint (xx base : Z) (sign : bool) : MD unit :=
  match printint_chars digits xx base sign with
  | Some l => cputs l
  | None => undef "printint: buffer overflow"
  end.

Fixpoint cprintf_loop (fmt : list Z) (argp : list arg) : MD unit :=
  match fmt with
  | [] => mret tt
  | c :: fmt =>
      if negb (c =? asc "%") then consputc c;; cprintf_loop fmt argp
      else match fmt with
           | [] => mret tt
           | c :: fmt =>
               if c =? asc "d" then
                 match argp with AInt z :: ap => printint (s32 z) 10 true;; cprintf_loop fmt ap | _ => undef "cprintf: argument" end
               else if (c =? asc "x") || (c =? asc "p") then
                 match argp with AInt z :: ap => printint z 16 false;; cprintf_loop fmt ap | _ => undef "cprintf: argument" end
               else if c =? asc "s" then
                 match argp with AStr o :: ap => cputs (default (bytes_of "(null)") o);; cprintf_loop fmt ap | _ => undef "cprintf: argument" end
               else if c =? asc "%" then consputc (asc "%");; cprintf_loop fmt argp
               else consputc (asc "%");; consputc c;; cprintf_loop fmt argp
           end
  end.

Definition newline : string := String "010" EmptyString.

Definition cprintf (fmt : string) (argp : list arg) : MD unit :=
  l ← get_con locking;
  when (negb (l =? 0)) (acquire L_cons);;
  cprintf_loop (bytes_of fmt) argp;;
  when (negb (l =? 0)) (release L_cons).

(** getcallerpcs of spinlock.c: return addresses from a chain of frame pointers. *)
Fixpoint callerpcs (m : Zmap Z) (ebp : Z) (n : nat) : list Z :=
  match n with
  | O => []
  | S n' =>
      if (ebp =? 0) || (ebp <? KERNBASE) || (ebp =? 0xffffffff) then replicate n 0
      else ld32 m (ebp + 4) :: callerpcs m (ld32 m ebp) n'
  end.
Definition getcallerpcs (v : Z) : MD (list Z) := gets (fun s => callerpcs (mem (km s)) (u32 (v - 8)) 10).

Fixpoint print_pcs (l : list Z) : MD unit :=
  match l with
  | [] => mret tt
  | pc :: l' => cprintf " %p" [AInt pc];; print_pcs l'
  end.

(** panic of console.c, called with its argument at [v] on the stack. *)
Definition kpanic (s : string) (v : Z) : MD unit :=
  upd_con (set_locking 0);;
  id ← lapicid;
  cprintf "lapicid %d: panic: " [AInt id];;
  cprintf s [];;
  cprintf newline [];;
  pcs ← getcallerpcs v;
  print_pcs pcs;;
  upd_con (set_panicked 1);;
  panic s.

(** ** procdump of proc.c *)

Definition state_name (st : procstate) : list Z :=
  bytes_of (match st with
            | UNUSED => "unused" | EMBRYO => "embryo" | SLEEPING => "sleep " | RUNNABLE => "runble" | RUNNING => "run   " | ZOMBIE => "zombie"
            end).

(** The characters of a NUL-terminated array. *)
Fixpoint until_nul (l : list Z) : list Z :=
  match l with
  | [] => []
  | c :: l' => if c =? 0 then [] else c :: until_nul l'
  end.

Fixpoint print_stack (l : list Z) : MD unit :=
  match l with
  | [] => mret tt
  | pc :: l' => if pc =? 0 then mret tt else cprintf " %p" [AInt pc];; print_stack l'
  end.

Fixpoint procdump_loop (n : nat) (i : nat) : MD unit :=
  match n with
  | O => mret tt
  | S n' =>
      p ← get_proc i;
      (if bool_decide (state p = UNUSED) then mret tt
       else
         cprintf "%d %s %s" [AInt (pid p); AStr (Some (state_name (state p))); AStr (Some (until_nul (name p)))];;
         (if bool_decide (state p = SLEEPING) then
            ebp ← kld32 (context p + ctx_ebp);
            pc ← getcallerpcs (u32 (ebp + 8));
            print_stack pc
          else mret tt);;
         cprintf newline []);;
      procdump_loop n' (S i)
  end.

Definition procdump : MD unit := procdump_loop NPROC 0.

(** ** Input *)

Definition INPUT_BUF : Z := 128.

(** input.buf[i % INPUT_BUF] *)
Definition input_at (i : Z) : MD Z :=
  b ← get_con in_buf;
  match b !! Z.to_nat (i mod INPUT_BUF) with Some c => mret c | None => undef "input buffer" end.

(** The loop of Control-U. *)
Definition kill_line (_ : unit) : MD (unit + unit) :=
  e ← get_con in_e; w ← get_con in_w;
  if e =? w then mret (inr tt)
  else
    c ← input_at (u32 (e - 1));
    if c =? NL then mret (inr tt)
    else upd_con (fun c => set_in_e (u32 (in_e c - 1)) c);; consputc BACKSPACE;; mret (inl tt).

(** One character that is not negative; the answer is whether it asks for the process list. *)
Definition console_char (c : Z) : MD bool :=
  if c =? C "P" then mret true
  else if c =? C "U" then iterate (S (Z.to_nat INPUT_BUF)) kill_line tt;; mret false
  else if (c =? C "H") || (c =? 0x7f) then
    e ← get_con in_e; w ← get_con in_w;
    (if negb (e =? w) then upd_con (fun c => set_in_e (u32 (in_e c - 1)) c);; consputc BACKSPACE else mret tt);;
    mret false
  else
    e ← get_con in_e; r ← get_con in_r;
    (if negb (c =? 0) && (u32 (e - r) <? INPUT_BUF) then
       let c := if c =? 13 then NL else c in
       upd_con (fun k => set_in_e (u32 (e + 1)) (set_in_buf (<[Z.to_nat (e mod INPUT_BUF) := u8 c]> (in_buf k)) k));;
       consputc c;;
       e ← get_con in_e; r ← get_con in_r;
       (if (c =? NL) || (c =? C "D") || (e =? u32 (r + INPUT_BUF)) then
          upd_con (set_in_w e);; wakeup Chan_input
        else mret tt)
     else mret tt);;
    mret false.

Definition intr_body (getc : MD Z) (doprocdump : bool) : MD (bool + bool) :=
  c ← getc;
  if c <? 0 then mret (inr doprocdump)
  else b ← console_char c; mret (inl (doprocdump || b)).

Definition consoleintr (getc : MD Z) : MD unit :=
  acquire L_cons;;
  doprocdump ← iterate fuel (intr_body getc) false;
  release L_cons;;
  when doprocdump procdump.

Definition kbdintr : MD unit := consoleintr kbdgetc.
Definition uartintr : MD unit := consoleintr uartgetc.

(** Wait until there is input; [false] when the process has been killed. *)
Definition read_wait (_ : unit) : MD (unit + bool) :=
  r ← get_con in_r; w ← get_con in_w;
  if r =? w then
    i ← curproc; p ← get_proc i;
    if negb (killed p =? 0) then mret (inr false)
    else sleep Chan_input L_cons;; mret (inl tt)
  else mret (inr true).

(** One byte for the reader: [inl] when there is more to do; [None] when the process has been killed. *)
Definition read_body {A} (st : A -> Z -> Z -> MD A) (target : Z) (a : Z * A) : MD ((Z * A) + (option Z * A)) :=
  let '(n, dst) := a in
  if 0 <? n then
    b ← iterate fuel read_wait tt;
    if negb (b : bool) then mret (inr (None, dst))
    else
      r ← get_con in_r;
      c ← input_at r;
      upd_con (set_in_r (u32 (r + 1)));;
      if c =? C "D" then
        when (n <? target) (upd_con (set_in_r (u32 (u32 (r + 1) - 1))));;
        mret (inr (Some n, dst))
      else
        dst ← st dst (target - n) c;
        if c =? NL then mret (inr (Some (n - 1), dst)) else mret (inl (n - 1, dst))
  else mret (inr (Some n, dst)).

Definition consoleread (i : nat) (A : Type) (st : A -> Z -> Z -> MD A) (dst : A) (n : Z) : MD (Z * A) :=
  iunlock i;;
  acquire L_cons;;
  a ← iterate (S (Z.to_nat n)) (read_body st n) (n, dst);
  release L_cons;;
  ilock fuel i;;
  mret (match fst a with None => -1 | Some n' => n - n' end, snd a).

Fixpoint write_loop (ld : Z -> MD Z) (k : nat) (i : Z) : MD unit :=
  match k with
  | O => mret tt
  | S k => c ← ld i; consputc (Z.land c 0xff);; write_loop ld k (i + 1)
  end.

Definition consolewrite (i : nat) (ld : Z -> MD Z) (n : Z) : MD Z :=
  iunlock i;;
  acquire L_cons;;
  write_loop ld (Z.to_nat n) 0;;
  release L_cons;;
  ilock fuel i;;
  mret n.

(** Major number of the console, file.h. *)
Definition CONSOLE : Z := 1.

Definition consoleinit : MD unit :=
  initlock L_cons;;
  upd_con (set_locking 1);;
  ioapicenable IRQ_KBD 0.

(** devsw after consoleinit *)
Definition devsw : DevSw (devst B H) := {|
  dev_read := fun m => if m =? CONSOLE then Some consoleread else None;
  dev_write := fun m => if m =? CONSOLE then Some consolewrite else None |}.

(** ** ioapicinit of ioapic.c *)

Fixpoint mask_loop (n : nat) (i : Z) : MD unit :=
  match n with
  | O => mret tt
  | S n' =>
      ioapicwrite (REG_TABLE + 2 * i) (Z.lor INT_DISABLED (T_IRQ0 + i));;
      ioapicwrite (REG_TABLE + 2 * i + 1) 0;;
      mask_loop n' (i + 1)
  end.

Definition ioapicinit : MD unit :=
  upd_mp (set_ioapic IOAPIC);;
  v ← ioapicread REG_VER;
  let maxintr := Z.land (Z.shiftr v 16) 0xFF in
  v ← ioapicread REG_ID;
  want ← get_mp ioapicid;
  when (negb (Z.shiftr v 24 =? want)) (cprintf ("ioapicinit: id isn't equal to ioapicid; not a MP" +:+ newline) []);;
  mask_loop (S (Z.to_nat maxintr)) 0.

End console.

(** ** The hardware of a console

    What the code relies on: the cursor registers behind an index register, and the
    serial line with its received bytes. *)

Class Board (H : Type) {HW : Hardware H} : Type := {
  crt_index : H -> Z;
  cursor : H -> Z;
  serial_in : H -> list Z;
  cursor_range : forall h, 0 <= cursor h < 65536;
  out_index : forall h v, let h' := out8 CRTPORT v h in
    crt_index h' = v /\ cursor h' = cursor h /\ serial_in h' = serial_in h;
  in_cursor : forall h, let r := in8 (CRTPORT + 1) h in
    crt_index r.2 = crt_index h /\ cursor r.2 = cursor h /\ serial_in r.2 = serial_in h /\
    (crt_index h = 14 -> r.1 = cursor h / 256) /\ (crt_index h = 15 -> r.1 = cursor h mod 256);
  out_cursor : forall h v, 0 <= v < 256 -> let h' := out8 (CRTPORT + 1) v h in
    crt_index h' = crt_index h /\ serial_in h' = serial_in h /\
    (crt_index h = 14 -> cursor h' = v * 256 + cursor h mod 256) /\ (crt_index h = 15 -> cursor h' = cursor h / 256 * 256 + v);
  line_status : forall h, let r := in8 (COM1 + 5) h in
    crt_index r.2 = crt_index h /\ cursor r.2 = cursor h /\ serial_in r.2 = serial_in h /\ (Z.land (u8 r.1) 1 = 0 <-> serial_in h = []);
  line_data : forall h c cs, serial_in h = c :: cs -> let r := in8 COM1 h in
    crt_index r.2 = crt_index h /\ cursor r.2 = cursor h /\ serial_in r.2 = cs /\ u8 r.1 = c;
  line_send : forall h v, let h' := out8 COM1 v h in
    crt_index h' = crt_index h /\ cursor h' = cursor h /\ serial_in h' = serial_in h }.

Section output.
Context {B H : Type} {HW : Hardware H} {BO : Board H}.
#[local] Abbreviation kern := (kst (fsst (devst B H))).
Implicit Types s : kern.

(** The text memory of the screen, 25 rows of 80 cells. *)
Definition screen (a : Z) : Prop := crt <= a < crt + 4000.

(** [s'] is [s] after output: the devices and the screen may have changed, and the cursor is [p]. *)
Definition shown (p : Z) (s s' : kern) : Prop := exists m h,
  s' = set_hw h (set_km (set_mem m (km s)) s) /\ cursor h = p /\ serial_in h = serial_in (hw (dev_of s)) /\ same_but screen (mem (km s)) m /\ mem_ok m.

Lemma shown_refl s : mem_ok (mem (km s)) -> shown (cursor (hw (dev_of s))) s s.
Proof using. intros Hok. exists (mem (km s)), (hw (dev_of s)). split_and!; try done. by destruct s as [[] ? ? ? ? ? ? ? ? [? ? ? ? []]]. Qed.

Lemma shown_trans p q s1 s2 s3 : shown p s1 s2 -> shown q s2 s3 -> shown q s1 s3.
Proof using.
  intros (m1 & h1 & -> & _ & Hs1 & Hm1 & _) (m2 & h2 & -> & Hp & Hs2 & Hm2 & Hok). exists m2, h2. split; [done|]. split; [done|].
  split; [by rewrite Hs2|]. split; [by eapply same_but_trans|done].
Qed.

Lemma shown_ok p s s' : shown p s s' -> mem_ok (mem (km s')).
Proof using. by intros (m & h & -> & _ & _ & _ & Hok). Qed.

Lemma shown_hw p q s0 s h : shown p s0 s -> cursor h = q -> serial_in h = serial_in (hw (dev_of s)) -> shown q s0 (set_hw h s).
Proof using. intros (m & h0 & -> & Hp & Hs & Hm) Hq Hh. exists m, h. split; [done|]. split; [done|]. split; [by rewrite Hh|done]. Qed.

Lemma shown_mem p s0 s f : shown p s0 s -> same_but screen (mem (km s)) (f (mem (km s))) -> mem_ok (f (mem (km s))) -> shown p s0 (set_km (set_mem (f (mem (km s))) (km s)) s).
Proof using.
  intros (m & h0 & -> & Hp & Hs & Hm & _) Hf Hok. exists (f m), h0. split; [done|]. split; [done|]. split; [done|]. split; [by eapply same_but_trans|done].
Qed.

Lemma wp_outb port v (Q : unit -> kern -> Prop) s : Q tt (set_hw (out8 port (u8 v) (hw (dev_of s))) s) -> wp (outb port v) Q s.
Proof using. done. Qed.

Lemma wp_inb port (Q : Z -> kern -> Prop) s : Q (u8 (in8 port (hw (dev_of s))).1) (set_hw (in8 port (hw (dev_of s))).2 s) -> wp (inb port) Q s.
Proof using. intros HQ. eapply wp_result; [apply run_inb|done]. Qed.

Lemma join_bytes p : 0 <= p < 65536 -> Z.lor (Z.shiftl (p / 256) 8) (p mod 256) = p.
Proof using.
  intros Hp. rewrite Z.shiftl_mul_pow2 by lia. change (2 ^ 8) with 256. rewrite Z.lor_comm, <- Z.add_nocarry_lor; [divlia|].
  assert (Z.land (p mod 256) (p / 256 * 256) = 0) as E; [|exact E]. change 256 with (2 ^ 8). rewrite <- Z.shiftl_mul_pow2, <- Z.land_ones by lia.
  apply Z.bits_inj'. intros n Hn. rewrite !Z.land_spec, Z.bits_0. destruct (decide (n < 8)).
  - rewrite Z.shiftl_spec_low by lia. by rewrite !andb_false_r.
  - rewrite Z.ones_spec_high by lia. by rewrite andb_false_r.
Qed.

Lemma wp_get_cursor p s0 s (Q : Z -> kern -> Prop) : shown p s0 s -> (forall s', shown p s0 s' -> Q p s') -> wp get_cursor Q s.
Proof using.
  intros Hsh HQ. assert (Hp : cursor (hw (dev_of s)) = p) by (by destruct Hsh as (m & h & -> & Hp & _)). pose proof (cursor_range (hw (dev_of s))) as Hr. rewrite Hp in Hr.
  unfold get_cursor. wp_step. apply wp_outb. destruct (out_index (hw (dev_of s)) (u8 14)) as (I1 & C1 & S1). set (h1 := out8 _ _ _) in *. clearbody h1.
  wp_step. apply wp_inb. cbn [dev_of set_hw set_disk disk fsys hw set_fsys]. destruct (in_cursor h1) as (I2 & C2 & S2 & E2 & _). set (r2 := in8 _ h1) in *. clearbody r2. rewrite (E2 I1).
  wp_step. apply wp_outb. cbn [dev_of set_hw set_disk disk fsys hw set_fsys]. destruct (out_index r2.2 (u8 15)) as (I3 & C3 & S3). set (h3 := out8 _ _ _) in *. clearbody h3.
  wp_step. apply wp_inb. cbn [dev_of set_hw set_disk disk fsys hw set_fsys]. destruct (in_cursor h3) as (I4 & C4 & S4 & _ & E4). set (r4 := in8 _ h3) in *. clearbody r4. rewrite (E4 I3).
  wp_step. rewrite C3, C2, C1, Hp, !u8_id by divlia. rewrite join_bytes by done. apply HQ.
  change (shown p s0 (set_hw r4.2 s)). eapply shown_hw; [exact Hsh|congruence|congruence].
Qed.

Lemma wp_put_cursor p q s0 s (Q : unit -> kern -> Prop) : shown p s0 s -> 0 <= q < 65536 -> (forall s', shown q s0 s' -> Q tt s') -> wp (put_cursor q) Q s.
Proof using.
  intros Hsh Hq HQ. unfold put_cursor. rewrite (Z.shiftr_div_pow2 q 8) by lia. change (2 ^ 8) with 256.
  wp_step. apply wp_outb. destruct (out_index (hw (dev_of s)) (u8 14)) as (I1 & C1 & S1). set (h1 := out8 _ _ _) in *. clearbody h1.
  wp_step. apply wp_outb. cbn [dev_of set_hw set_disk disk fsys hw set_fsys]. destruct (out_cursor h1 (u8 (q / 256)) (u8_range _)) as (I2 & S2 & E2 & _). specialize (E2 I1). set (h2 := out8 _ _ h1) in *. clearbody h2.
  wp_step. apply wp_outb. cbn [dev_of set_hw set_disk disk fsys hw set_fsys]. destruct (out_index h2 (u8 15)) as (I3 & C3 & S3). set (h3 := out8 _ _ h2) in *. clearbody h3.
  apply wp_outb. cbn [dev_of set_hw set_disk disk fsys hw set_fsys]. destruct (out_cursor h3 (u8 q) (u8_range _)) as (I4 & S4 & _ & E4). specialize (E4 I3). set (h4 := out8 _ _ h3) in *. clearbody h4.
  apply HQ. change (shown q s0 (set_hw h4 s)). eapply shown_hw; [exact Hsh| |congruence]. rewrite E4, C3, E2, (u8_id (q / 256)) by divlia. unfold u8. pose proof (cursor_range h1). divlia.
Qed.

(** Where the cursor goes. *)
Definition advance (c p : Z) : Z :=
  let q := if c =? NL then p + (80 - Z.rem p 80) else if c =? BACKSPACE then (if 0 <? p then p - 1 else p) else p + 1 in
  if 1920 <=? q then q - 80 else q.

Lemma advance_range c p : 0 <= p < 2000 -> 0 <= advance c p < 2000.
Proof using.
  intros Hp. unfold advance. destruct (c =? NL); [|destruct (c =? BACKSPACE); [destruct (Z.ltb_spec 0 p)|]];
    match goal with |- context [1920 <=? ?x] => destruct (Z.leb_spec 1920 x) end; divlia.
Qed.

Lemma wp_cell p q v s0 s (Q : unit -> kern -> Prop) : shown p s0 s -> 0 <= q < 2000 -> (forall s', shown p s0 s' -> Q tt s') -> wp (kst16 (crt + 2 * q) v) Q s.
Proof using.
  intros Hsh Hq HQ. apply HQ. apply (shown_mem p s0 s (fun m => st8 (st8 m (crt + 2 * q) v) (crt + 2 * q + 1) (v / 256)) Hsh); [|by do 2 apply mem_ok_st8; eapply shown_ok].
  intros a Ha. unfold screen in Ha. rewrite !ld8_st8_ne by lia. done.
Qed.

Lemma wp_scroll p q s0 s (Q : Z -> kern -> Prop) : shown p s0 s -> 1920 <= q <= 2000 -> (forall s', shown p s0 s' -> Q (q - 80) s') -> wp (scroll_up q) Q s.
Proof using.
  intros Hsh Hq HQ. unfold scroll_up, upd_mem. wp_step. wp_step. wp_step. wp_step. wp_step. apply HQ.
  pose proof (shown_mem p s0 s (fun m => memmove m crt (crt + 2 * 80) (2 * 23 * 80)) Hsh) as H1. cbv beta in H1.
  pose proof (shown_ok _ _ _ Hsh) as Hok. specialize (H1 ltac:(apply same_but_memmove; [done|lia|unfold screen; lia]) ltac:(by apply mem_ok_memmove)).
  apply (shown_mem p s0 _ (fun m => memset m (crt + 2 * (q - 80)) 0 (2 * (24 * 80 - (q - 80)))) H1).
  - apply same_but_memset; [lia|]. unfold screen. lia.
  - apply mem_ok_memset; [lia|]. by eapply shown_ok.
Qed.

Lemma wp_cgaputc c p s0 s (Q : unit -> kern -> Prop) : shown p s0 s -> 0 <= p < 2000 -> (forall s', shown (advance c p) s0 s' -> Q tt s') -> wp (cgaputc c) Q s.
Proof using.
  intros Hsh Hp HQ. pose proof (advance_range c p Hp) as Ha. unfold cgaputc. wp_step. eapply wp_get_cursor; [exact Hsh|]. intros s1 H1.
  set (q := if c =? NL then p + (80 - Z.rem p 80) else if c =? BACKSPACE then (if 0 <? p then p - 1 else p) else p + 1).
  assert (Hq : 0 <= q <= 2000) by (unfold q; destruct (c =? NL); [divlia|]; destruct (c =? BACKSPACE); [destruct (Z.ltb_spec 0 p)|]; lia).
  assert (Eq : advance c p = if 1920 <=? q then q - 80 else q) by done. wp_step. apply (wp_mono _ (fun r s' => r = q /\ shown p s0 s')).
  { unfold q. destruct (c =? NL); [wp_step; by split|]. destruct (c =? BACKSPACE); [wp_step; by split|]. wp_step. eapply wp_cell; [exact H1|done|]. intros s2 H2. wp_step. by split. }
  intros r s2 [-> H2]. cbv beta. change (25 * 80) with 2000. rewrite (proj2 (Z.ltb_ge q 0)), (proj2 (Z.ltb_ge 2000 q)) by lia. cbn [orb].
  wp_step. apply (wp_mono _ (fun r s' => r = advance c p /\ shown p s0 s')).
  { rewrite Eq. destruct (Z.leb_spec 24 (q / 80)), (Z.leb_spec 1920 q); try divlia; [|wp_step; by split]. eapply wp_scroll; [exact H2|lia|]. intros s3 Hs3. by split. }
  intros r s3 [-> H3]. cbv beta. wp_step. eapply wp_put_cursor; [exact H3|lia|]. intros s4 H4. eapply wp_cell; [exact H4|lia|]. done.
Qed.

Lemma shown_cn p s0 s : shown p s0 s -> cn (dev_of s) = cn (dev_of s0).
Proof using. by intros (m & h & -> & _). Qed.

Lemma wp_uart_wait n p s0 s (Q : unit -> kern -> Prop) : shown p s0 s -> (forall s', shown p s0 s' -> Q tt s') -> wp (uart_wait n) Q s.
Proof using.
  revert s. induction n as [|n IH]; intros s Hsh HQ; cbn [uart_wait]; [wp_step; by apply HQ|]. wp_step. apply wp_inb.
  destruct (line_status (hw (dev_of s))) as (_ & C1 & S1 & _). assert (Hp : cursor (hw (dev_of s)) = p) by (by destruct Hsh as (m & h & -> & Hp & _)).
  eapply (shown_hw p p) in Hsh; [|rewrite C1; exact Hp|exact S1]. destruct (_ =? 0); [unfold microdelay; wp_step; wp_step; by apply IH|wp_step; by apply HQ].
Qed.

Lemma wp_uartputc c p s0 s (Q : unit -> kern -> Prop) : shown p s0 s -> (forall s', shown p s0 s' -> Q tt s') -> wp (uartputc c) Q s.
Proof using.
  intros Hsh HQ. unfold uartputc, get_con. wp_step. wp_step. destruct (_ =? 0); [wp_step; by apply HQ|]. wp_step. eapply wp_uart_wait; [exact Hsh|].
  intros s1 H1. apply wp_outb, HQ. destruct (line_send (hw (dev_of s1)) (u8 c)) as (_ & C1 & S1).
  assert (Hp : cursor (hw (dev_of s1)) = p) by (by destruct H1 as (m & h & -> & Hp & _)). eapply (shown_hw p p); [exact H1|congruence|exact S1].
Qed.

(** consputc of a CPU that may print. *)
Lemma wp_consputc c p s0 s (Q : unit -> kern -> Prop) : shown p s0 s -> panicked (cn (dev_of s0)) = 0 -> 0 <= p < 2000 ->
  (forall s', shown (advance c p) s0 s' -> Q tt s') -> wp (consputc c) Q s.
Proof using.
  intros Hsh Hpan Hp HQ. unfold consputc, get_con. wp_step. wp_step. rewrite (shown_cn _ _ _ Hsh), Hpan. change (negb (0 =? 0)) with false. cbv iota.
  wp_step. apply (wp_mono _ (fun _ s' => shown p s0 s')).
  - destruct (c =? BACKSPACE); [|by eapply wp_uartputc]. wp_step. eapply wp_uartputc; [exact Hsh|]. intros s1 H1. wp_step. eapply wp_uartputc; [exact H1|]. intros s2 H2.
    by eapply wp_uartputc.
  - intros [] s1 H1. cbv beta. by eapply wp_cgaputc.
Qed.

(** *** Formatted output *)

(** [s] is [s0] after output that left the cursor on the screen. *)
Definition prints (s0 s : kern) : Prop := exists p, shown p s0 s /\ 0 <= p < 2000.

Lemma wp_cputs l s0 s : prints s0 s -> panicked (cn (dev_of s0)) = 0 -> wp (cputs l) (fun _ s' => prints s0 s') s.
Proof using.
  revert s. induction l as [|c l IH]; intros s Hs Hp; cbn [cputs]; [by wp_step|]. destruct Hs as (p & Hs & Hr). wp_step. eapply wp_consputc; [exact Hs|done|done|].
  intros s1 H1. apply IH; [|done]. exists (advance c p). split; [done|by apply advance_range].
Qed.

Lemma wp_consputc_prints c s0 s (Q : unit -> kern -> Prop) : prints s0 s -> panicked (cn (dev_of s0)) = 0 -> (forall s', prints s0 s' -> Q tt s') -> wp (consputc c) Q s.
Proof using. intros (p & Hs & Hr) Hp HQ. eapply wp_consputc; [exact Hs|done|done|]. intros s1 H1. apply HQ. exists (advance c p). split; [done|by apply advance_range]. Qed.

(** The arguments a format asks for. *)
Fixpoint fmt_ok (fmt : list Z) (argp : list arg) : bool :=
  match fmt with
  | [] => true
  | c :: fmt =>
      if negb (c =? asc "%") then fmt_ok fmt argp
      else match fmt with
           | [] => true
           | c :: fmt =>
               if (c =? asc "d") || (c =? asc "x") || (c =? asc "p") then match argp with AInt _ :: ap => fmt_ok fmt ap | _ => false end
               else if c =? asc "s" then match argp with AStr _ :: ap => fmt_ok fmt ap | _ => false end
               else fmt_ok fmt argp
           end
  end.

Lemma wp_printint xx base sgn s0 s : prints s0 s -> panicked (cn (dev_of s0)) = 0 -> 10 <= base -> wp (printint xx base sgn) (fun _ s' => prints s0 s') s.
Proof using. intros Hs Hp Hb. unfold printint. destruct (printint_total digits xx base sgn Hb) as (l & ->). by apply wp_cputs. Qed.

Lemma wp_cprintf_loop n s0 : panicked (cn (dev_of s0)) = 0 -> forall fmt argp s, (List.length fmt <= n)%nat -> prints s0 s -> fmt_ok fmt argp = true ->
  wp (cprintf_loop fmt argp) (fun _ s' => prints s0 s') s.
Proof using.
  intros Hp. induction n as [|n IH]; intros [|c fmt] argp s Hn Hs Hok; cbn [List.length] in Hn; try lia; [exact Hs|exact Hs|]. cbn [cprintf_loop fmt_ok] in *.
  destruct (negb (c =? asc "%")); [wp_step; eapply wp_consputc_prints; [exact Hs|done|]; intros s1 H1; apply IH; [lia|done|done]|].
  destruct fmt as [|c2 fmt]; [by wp_step|]. cbn [List.length] in Hn.
  destruct (c2 =? asc "d"); [cbn [orb] in Hok|].
  { destruct argp as [|[z|] ap]; try done. wp_step. eapply wp_mono; [by eapply wp_printint|]. intros [] s1 H1. apply IH; [lia|done|done]. }
  destruct ((c2 =? asc "x") || (c2 =? asc "p")) eqn:Exp; cbn [orb] in Hok; rewrite Exp in Hok.
  { destruct argp as [|[z|] ap]; try done. wp_step. eapply wp_mono; [by eapply wp_printint|]. intros [] s1 H1. apply IH; [lia|done|done]. }
  destruct (c2 =? asc "s").
  { destruct argp as [|[z|o] ap]; try done. wp_step. eapply wp_mono; [by eapply wp_cputs|]. intros [] s1 H1. apply IH; [lia|done|done]. }
  destruct (c2 =? asc "%"); wp_step; (eapply wp_consputc_prints; [exact Hs|done|]); intros s1 H1; [apply IH; [lia|done|done]|].
  wp_step. eapply wp_consputc_prints; [exact H1|done|]. intros s2 H2. apply IH; [lia|done|done].
Qed.

Lemma prints_held s0 s l : prints s0 s -> prints (set_held l s0) (set_held l s).
Proof using. intros (p & (m & h & -> & H1 & H2 & H3) & Hp). exists p. split; [|done]. by exists m, h. Qed.

Lemma prints_held_eq s0 s : prints s0 s -> held s = held s0 /\ procs s = procs s0 /\ cn (dev_of s) = cn (dev_of s0).
Proof using. by intros (p & (m & h & -> & H1 & H2 & H3) & Hp). Qed.

(** cprintf with the console lock free. *)
Lemma wp_cprintf fmt argp s0 s : prints s0 s -> panicked (cn (dev_of s0)) = 0 -> L_cons ∉ held s0 -> fmt_ok (bytes_of fmt) argp = true ->
  wp (cprintf fmt argp) (fun _ s' => prints s0 s') s.
Proof using.
  intros Hs Hp Hh Hok. destruct (prints_held_eq _ _ Hs) as (Eh & _ & Ec). unfold cprintf, get_con. wp_step. wp_step. rewrite Ec. destruct (negb (_ =? 0)); cbn [when].
  - wp_step. eapply wp_result; [apply run_acquire; by rewrite Eh|]. wp_step. eapply wp_mono; [by eapply (wp_cprintf_loop _ (set_held (L_cons :: held s0) s0)); [|reflexivity|rewrite Eh; apply prints_held|]|].
    intros [] s1 H1. cbv beta. destruct (prints_held_eq _ _ H1) as (Eh1 & _ & _). eapply wp_result; [apply (run_release_top s1 L_cons (held s0)); [done|done]|].
    apply (prints_held _ _ (held s0)) in H1. by destruct s0.
  - wp_step. wp_step. wp_step. eapply wp_mono; [by eapply wp_cprintf_loop|]. intros [] s1 H1. cbv beta. by wp_step.
Qed.

Lemma wp_print_stack l s0 s : prints s0 s -> panicked (cn (dev_of s0)) = 0 -> L_cons ∉ held s0 -> wp (print_stack l) (fun _ s' => prints s0 s') s.
Proof using.
  revert s. induction l as [|pc l IH]; intros s Hs Hp Hh; cbn [print_stack]; [by wp_step|]. destruct (pc =? 0); [by wp_step|]. wp_step.
  eapply wp_mono; [by eapply wp_cprintf|]. intros [] s1 H1. by apply IH.
Qed.

Lemma wp_procdump_loop n i s0 s : prints s0 s -> panicked (cn (dev_of s0)) = 0 -> L_cons ∉ held s0 -> (i + n <= List.length (procs s0))%nat ->
  wp (procdump_loop n i) (fun _ s' => prints s0 s') s.
Proof using.
  revert i s. induction n as [|n IH]; intros i s Hs Hp Hh Hl; cbn [procdump_loop]; [by wp_step|]. destruct (prints_held_eq _ _ Hs) as (_ & Eps & _).
  destruct (lookup_lt_is_Some_2 (procs s0) i) as [p Hpi]; [lia|]. wp_step. eapply wp_result; [apply run_get_proc; by rewrite Eps|]. wp_step.
  apply (wp_mono _ (fun _ s' => prints s0 s')); [|intros [] s1 H1; apply IH; [done|done|done|lia]]. case_bool_decide; [by wp_step|]. wp_step.
  eapply wp_mono; [by eapply wp_cprintf|]. intros [] s1 H1. cbv beta. wp_step. apply (wp_mono _ (fun _ s' => prints s0 s')); [|intros [] s2 H2; by eapply wp_cprintf].
  case_bool_decide; [|by wp_step]. unfold kld32, getcallerpcs. do 4 wp_step. by apply wp_print_stack.
Qed.

End output.

(** ** The line discipline

    The specification: an editor of two lists, the bytes committed for readers and the
    line being typed. *)

Definition edit (c : Z) (a : list Z * list Z) : list Z * list Z :=
  let '(rdy, ed) := a in
  if c =? C "P" then (rdy, ed)
  else if c =? C "U" then (rdy, [])
  else if (c =? C "H") || (c =? 0x7f) then (rdy, take (List.length ed - 1) ed)
  else if negb (c =? 0) && (List.length rdy + List.length ed <? 128)%nat then
    let c := if c =? 13 then NL else c in
    if (c =? NL) || (c =? C "D") || (List.length rdy + List.length ed =? 127)%nat then (rdy ++ ed ++ [c], []) else (rdy, ed ++ [c])
  else (rdy, ed).

(** The ring of console.c holds [l] from the read to the edit index; the indices may have wrapped around. *)
Record holds (l : list Z) (c : consst) : Prop := Holds {
  hd_len : List.length (in_buf c) = 128%nat;
  hd_r : 0 <= in_r c < 4294967296;
  hd_e : in_e c = u32 (in_r c + Z.of_nat (List.length l));
  hd_fit : (List.length l <= 128)%nat;
  hd_data : forall i v, l !! i = Some v -> in_buf c !! Z.to_nat ((in_r c + Z.of_nat i) mod 128) = Some v }.

(** Committed bytes up to the write index, then the line being typed. *)
Record ring (rdy ed : list Z) (c : consst) : Prop := Ring {
  rg_holds : holds (rdy ++ ed) c;
  rg_w : in_w c = u32 (in_r c + Z.of_nat (List.length rdy));
  rg_line : Forall (fun v => v <> NL) ed }.

Lemma mod_u32_128 z : u32 z mod 128 = z mod 128.
Proof. unfold u32. apply Z.mod_mod_divide. by exists 33554432. Qed.

Lemma u32_succ_pred z : u32 (u32 (z + 1) - 1) = u32 z.
Proof. unfold u32. rewrite Zminus_mod_idemp_l. f_equal. lia. Qed.

Lemma u32_inj_small a b r : 0 <= a < 4294967296 -> 0 <= b < 4294967296 -> u32 (r + a) = u32 (r + b) -> a = b.
Proof. unfold u32. change (2 ^ 32) with 4294967296. intros Ha Hb E. divlia. Qed.

Lemma holds_pop l v c : holds (l ++ [v]) c ->
  in_buf c !! Z.to_nat (u32 (in_e c - 1) mod 128) = Some v /\ holds l (set_in_e (u32 (in_e c - 1)) c).
Proof.
  intros [Hl Hr He Hf Hd]. rewrite length_app in He, Hf. cbn in He, Hf.
  assert (Ee : u32 (in_e c - 1) = u32 (in_r c + Z.of_nat (List.length l))).
  { rewrite He. replace (in_r c + Z.of_nat (List.length l + 1)) with (in_r c + Z.of_nat (List.length l) + 1) by lia. apply u32_succ_pred. }
  split.
  - rewrite Ee, mod_u32_128. apply Hd. by apply list_lookup_middle.
  - split; cbn; try done; [lia|]. intros i x Hi. apply Hd. by apply lookup_app_l_Some.
Qed.

Lemma holds_room l c : holds l c -> u32 (in_e c - in_r c) = Z.of_nat (List.length l).
Proof.
  intros [_ Hr He Hf _]. rewrite He. unfold u32. rewrite Zminus_mod_idemp_l.
  replace (in_r c + Z.of_nat (List.length l) - in_r c) with (Z.of_nat (List.length l)) by lia. apply Z.mod_small. lia.
Qed.

Lemma holds_full l c : holds l c -> (in_e c =? u32 (in_r c + 128)) = (List.length l =? 128)%nat.
Proof.
  intros [_ Hr He Hf _]. rewrite He. destruct (Nat.eqb_spec (List.length l) 128) as [->|Hne]; [apply Z.eqb_refl|].
  apply Z.eqb_neq. intros E. apply u32_inj_small in E; lia.
Qed.

Lemma holds_push l c v : holds l c -> (List.length l < 128)%nat ->
  holds (l ++ [v]) (set_in_e (u32 (in_e c + 1)) (set_in_buf (<[Z.to_nat (in_e c mod 128) := v]> (in_buf c)) c)).
Proof.
  intros [Hl Hr He Hf Hd] Hlt. split; cbn; try done.
  - by rewrite length_insert.
  - rewrite He, length_app. cbn. unfold u32. rewrite Zplus_mod_idemp_l. f_equal. lia.
  - rewrite length_app. cbn. lia.
  - intros i x Hi. rewrite He, mod_u32_128. apply lookup_app_Some in Hi as [Hi|[Hge Hi]].
    + pose proof (lookup_lt_Some _ _ _ Hi). rewrite list_lookup_insert_ne by divlia. by apply Hd.
    + apply list_lookup_singleton_Some in Hi as [Hi <-]. replace i with (List.length l) by lia. apply list_lookup_insert_eq. rewrite Hl. divlia.
Qed.

Lemma holds_shift v l c : holds (v :: l) c ->
  in_buf c !! Z.to_nat (in_r c mod 128) = Some v /\ holds l (set_in_r (u32 (in_r c + 1)) c).
Proof.
  intros [Hl Hr He Hf Hd]. cbn in He, Hf. split.
  - replace (in_r c) with (in_r c + Z.of_nat 0) by lia. by apply Hd.
  - split; cbn; try done; [apply u32_range| |lia|].
    + rewrite He. unfold u32. rewrite Zplus_mod_idemp_l. f_equal. lia.
    + intros i x Hi. replace ((u32 (in_r c + 1) + Z.of_nat i) mod 128) with ((in_r c + Z.of_nat (S i)) mod 128); [by apply Hd|].
      rewrite <- (Zplus_mod_idemp_l (u32 (in_r c + 1))), mod_u32_128, Zplus_mod_idemp_l. f_equal. lia.
Qed.

(** The ring is the same when its five fields are. *)
Lemma ring_same rdy ed c c' : in_buf c' = in_buf c -> in_r c' = in_r c -> in_w c' = in_w c -> in_e c' = in_e c -> ring rdy ed c -> ring rdy ed c'.
Proof. intros E1 E2 E3 E4 [[H1 H2 H3 H4 H5] H6 H7]. split; [split|..]; rewrite ?E1, ?E2, ?E3, ?E4; done. Qed.

Lemma ring_last rdy ed v c : ring rdy (ed ++ [v]) c ->
  in_e c <> in_w c /\ in_buf c !! Z.to_nat (u32 (in_e c - 1) mod 128) = Some v /\ v <> NL /\ ring rdy ed (set_in_e (u32 (in_e c - 1)) c).
Proof.
  intros [Hh Hw Hn]. rewrite app_assoc in Hh. destruct (holds_pop _ _ _ Hh) as [Hv Hh']. apply Forall_app in Hn as [Hn [Hv' _]%Forall_cons]. split_and!; try done.
  rewrite (hd_e _ _ Hh), Hw. intros E. pose proof (hd_fit _ _ Hh) as Hf. rewrite !length_app in Hf, E. cbn in Hf, E. apply u32_inj_small in E; lia.
Qed.

Lemma ring_empty rdy c : ring rdy [] c -> in_e c = in_w c.
Proof. intros [Hh Hw _]. rewrite (hd_e _ _ Hh), Hw. by rewrite app_nil_r. Qed.

(** ** The interrupt handler edits the lists *)

Section editor.
Context {B H : Type} {HW : Hardware H} {BO : Board H}.
#[local] Abbreviation kern := (kst (fsst (devst B H))).
Implicit Types s : kern.

(** [s] is [s0] after some input: received bytes [cs] are left, the ring holds the two
    lists, readers may have been woken, the devices and the screen may have changed. *)
Record edited (s0 : kern) (cs rdy ed : list Z) (s : kern) : Prop := Edited {
  ed_state : exists m h c ps, s = set_cn c (set_hw h (set_km (set_mem m (km s0)) (set_procs ps s0))) /\ mem_ok m /\ same_but screen (mem (km s0)) m /\
    (ps = procs s0 \/ ps = wake Chan_input <$> procs s0);
  ed_ring : ring rdy ed (cn (dev_of s));
  ed_vars : panicked (cn (dev_of s)) = 0 /\ locking (cn (dev_of s)) = locking (cn (dev_of s0)) /\ uart (cn (dev_of s)) = uart (cn (dev_of s0)) /\ shift (cn (dev_of s)) = shift (cn (dev_of s0));
  ed_cursor : 0 <= cursor (hw (dev_of s)) < 2000;
  ed_input : serial_in (hw (dev_of s)) = cs }.

Lemma edited_refl s rdy ed : ring rdy ed (cn (dev_of s)) -> panicked (cn (dev_of s)) = 0 -> 0 <= cursor (hw (dev_of s)) < 2000 -> mem_ok (mem (km s)) ->
  edited s (serial_in (hw (dev_of s))) rdy ed s.
Proof using.
  intros Hr Hp Hc Hm. split; try done. exists (mem (km s)), (hw (dev_of s)), (cn (dev_of s)), (procs s). split; [|split; [done|split; [done|by left]]].
  by destruct s as [[] ? ? ? ? ? ? ? ? [? ? ? ? []]].
Qed.

Lemma edited_shown s0 cs rdy ed p s s' : edited s0 cs rdy ed s -> shown p s s' -> 0 <= p < 2000 -> edited s0 cs rdy ed s'.
Proof using.
  intros [(m & h & c & ps & -> & Hm & Hs & Hps) Hr Hv Hc Hi] (m' & h' & -> & Hp & Hi' & Hs' & Hm') Hpr. split; [|done|done|by rewrite <- Hp in Hpr|by rewrite <- Hi].
  exists m', h', c, ps. split; [done|]. split; [done|]. split; [by eapply same_but_trans|done].
Qed.

Lemma edited_cn s0 cs rdy ed rdy' ed' s f : edited s0 cs rdy ed s -> ring rdy' ed' (f (cn (dev_of s))) ->
  (forall c, panicked (f c) = panicked c /\ locking (f c) = locking c /\ uart (f c) = uart c /\ shift (f c) = shift c) ->
  edited s0 cs rdy' ed' (set_cn (f (cn (dev_of s))) s).
Proof using.
  intros [(m & h & c & ps & -> & Hm & Hs & Hps) Hr Hv Hc Hi] Hr' Hf. destruct (Hf c) as (F1 & F2 & F3 & F4). split; [by exists m, h, (f c), ps|done| |done|done].
  cbn in *. by rewrite F1, F2, F3, F4.
Qed.

Lemma wake_wake ch (l : list proc) : wake ch <$> (wake ch <$> l) = wake ch <$> l.
Proof using.
  rewrite <- list_fmap_compose. apply list_fmap_ext. intros i q _. cbn. unfold wake.
  destruct q as [? ? ? st ? ? ? ? c ? ? ? ? ? ? ?]; cbn. repeat (case_bool_decide; cbn in *; try done); naive_solver.
Qed.

Lemma edited_wake s0 cs rdy ed s : edited s0 cs rdy ed s -> L_ptable ∉ held s0 ->
  wp (wakeup Chan_input) (fun _ s' => edited s0 cs rdy ed s' /\ procs s' = wake Chan_input <$> procs s0) s.
Proof using.
  intros [(m & h & c & ps & -> & Hm & Hs & Hps) Hr Hv Hc Hi] Hh. eapply wp_result; [by apply run_wakeup|]. cbn.
  assert (Eps : wake Chan_input <$> ps = wake Chan_input <$> procs s0) by (destruct Hps as [->| ->]; [done|apply wake_wake]).
  split; [|exact Eps]. split; try done. exists m, h, c, (wake Chan_input <$> procs s0). split; [by rewrite <- Eps|]. split; [done|]. split; [done|by right].
Qed.

Lemma wp_echo c s0 cs rdy ed s (Q : unit -> kern -> Prop) : edited s0 cs rdy ed s ->
  (forall s', edited s0 cs rdy ed s' -> cn (dev_of s') = cn (dev_of s) -> procs s' = procs s -> Q tt s') -> wp (consputc c) Q s.
Proof using.
  intros He HQ. eapply wp_consputc; [apply shown_refl|apply (ed_vars _ _ _ _ _ He)|apply (ed_cursor _ _ _ _ _ He)|].
  - by destruct (ed_state _ _ _ _ _ He) as (m & h & c' & ps & -> & Hm & _).
  - intros s' Hs. apply HQ; [eapply edited_shown; [exact He|exact Hs|apply advance_range, (ed_cursor _ _ _ _ _ He)]|by eapply shown_cn|by destruct Hs as (m & h & -> & _)].
Qed.

Lemma wp_kill_line s0 cs rdy (Q : unit -> kern -> Prop) : forall ed n s, edited s0 cs rdy ed s -> (List.length ed < n)%nat ->
  (forall s', edited s0 cs rdy [] s' -> procs s' = procs s -> Q tt s') -> wp (iterate n kill_line tt) Q s.
Proof using.
  induction ed as [|v ed IH] using rev_ind; intros [|n] s He Hn HQ; try (exfalso; lia).
  - cbn [iterate]. wp_step. unfold kill_line, get_con. do 4 wp_step. rewrite (ring_empty _ _ (ed_ring _ _ _ _ _ He)), Z.eqb_refl. do 2 wp_step. by apply HQ.
  - rewrite length_app in Hn. cbn in Hn. destruct (ring_last _ _ _ _ (ed_ring _ _ _ _ _ He)) as (Hne & Hv & Hnl & Hr). cbn [iterate]. wp_step.
    unfold kill_line at 1, get_con, input_at, upd_con, INPUT_BUF. do 4 wp_step. rewrite (proj2 (Z.eqb_neq _ _) Hne). wp_step. unfold get_con. do 2 wp_step. rewrite Hv. wp_step.
    rewrite (proj2 (Z.eqb_neq _ _) Hnl). do 3 wp_step. pose proof (edited_cn _ _ _ _ rdy ed s (fun c => set_in_e (u32 (in_e c - 1)) c) He Hr ltac:(done)) as He'.
    eapply wp_echo; [exact He'|]. intros s2 He2 _ Hps. wp_step. cbv beta iota. apply IH; [done|lia|]. intros s3 He3 Hps3. apply HQ; [done|]. by rewrite Hps3, Hps.
Qed.

(** Readers have been woken, or there is nothing new for them. *)
Definition woken (s0 : kern) (rdy0 rdy : list Z) (s : kern) : Prop := procs s = wake Chan_input <$> procs s0 \/ (rdy = rdy0 /\ procs s = procs s0).

(** A byte is stored; [line] says whether it ends the line. *)
Lemma ring_stored rdy ed c v (line : bool) : ring rdy ed c -> (List.length (rdy ++ ed) < 128)%nat -> (line = false -> v <> NL) ->
  let c1 := set_in_e (u32 (in_e c + 1)) (set_in_buf (<[Z.to_nat (in_e c mod 128) := v]> (in_buf c)) c) in
  if line then ring (rdy ++ ed ++ [v]) [] (set_in_w (in_e c1) c1) else ring rdy (ed ++ [v]) c1.
Proof using.
  intros [Hh Hw Hn] Hlt Hv c1. pose proof (holds_push _ _ v Hh Hlt) as Hp. fold c1 in Hp. rewrite <- app_assoc in Hp. destruct line.
  - split; [|apply (hd_e _ _ Hp)|done]. rewrite app_nil_r. destruct Hp as [P1 P2 P3 P4 P5]. by split.
  - split; [done|done|]. apply Forall_app. split; [done|]. constructor; [by apply Hv|done].
Qed.

(** The line is echoed before it is committed. *)
Lemma edited_commit s0 cs rdy ed rdy' ed' p s s2 c1 c2 : edited s0 cs rdy ed s -> shown p (set_cn c1 s) s2 -> 0 <= p < 2000 -> ring rdy' ed' c2 ->
  panicked c2 = panicked (cn (dev_of s)) -> locking c2 = locking (cn (dev_of s)) -> uart c2 = uart (cn (dev_of s)) -> shift c2 = shift (cn (dev_of s)) ->
  edited s0 cs rdy' ed' (set_cn c2 s2).
Proof using.
  intros [(m & h & c & ps & -> & Hm & Hs & Hps) Hr Hv Hc Hi] (m' & h' & -> & Hp & Hi' & Hs' & Hm') Hpr Hr2 F1 F2 F3 F4.
  split; [|done| |by rewrite <- Hp in Hpr|by rewrite <- Hi].
  - exists m', h', c2, ps. split; [done|]. split; [done|]. split; [by eapply same_but_trans|done].
  - cbn in *. by rewrite F1, F2, F3, F4.
Qed.

(** Bytes other than the three editing ones. *)
Lemma wp_plain_char s0 cs rdy0 rdy ed s c : edited s0 cs rdy ed s -> L_ptable ∉ held s0 -> 0 <= c < 256 -> woken s0 rdy0 rdy s ->
  c <> C "P" -> c <> C "U" -> c <> C "H" -> c <> 0x7f ->
  wp (console_char c) (fun b s' => b = false /\ edited s0 cs (edit c (rdy, ed)).1 (edit c (rdy, ed)).2 s' /\ woken s0 rdy0 (edit c (rdy, ed)).1 s') s.
Proof using.
  intros He Hh Hc Hw N1 N2 N3 N4. unfold console_char, edit. rewrite !(proj2 (Z.eqb_neq c _)) by done. cbn [orb]. unfold get_con. do 5 wp_step.
  pose proof (ed_ring _ _ _ _ _ He) as Hr. pose proof (holds_room _ _ (rg_holds _ _ _ Hr)) as Hroom.
  rewrite Hroom. unfold INPUT_BUF. rewrite <- length_app. destruct (Z.eqb_spec c 0) as [->|Hc0]; [done|]. cbn [negb andb].
  destruct (Nat.ltb_spec (List.length (rdy ++ ed)) 128) as [Hlt|Hge]; [rewrite (proj2 (Z.ltb_lt _ 128)) by lia|rewrite (proj2 (Z.ltb_ge _ 128)) by lia; wp_step; wp_step; done].
  set (v := if c =? 13 then NL else c). assert (Hv : 0 <= v < 256) by (unfold v; destruct (c =? 13); [done|lia]). rewrite (u8_id v Hv).
  unfold upd_con. wp_step. wp_step. set (k1 := set_in_e _ _). wp_step.
  assert (Hcur : 0 <= cursor (hw (dev_of (set_cn k1 s))) < 2000) by apply (ed_cursor _ _ _ _ _ He).
  eapply (wp_consputc v (cursor (hw (dev_of s))) (set_cn k1 s)); [apply (shown_refl (set_cn k1 s))|apply (ed_vars _ _ _ _ _ He)|done|].
  { by destruct (ed_state _ _ _ _ _ He) as (m & h & c' & ps & -> & Hm & _). }
  intros s2 Hsh. pose proof (advance_range v _ Hcur) as Hadv. pose proof (shown_cn _ _ _ Hsh) as Ecn. change (cn (dev_of (set_cn k1 s))) with k1 in Ecn.
  assert (Eps : procs s2 = procs s) by (by destruct Hsh as (m & h & -> & _)). do 4 wp_step. rewrite Ecn.
  set (line := (v =? NL) || (v =? C "D") || (List.length (rdy ++ ed) =? 127)%nat).
  assert (Hvn : line = false -> v <> NL) by (unfold line; intros E ->; rewrite Z.eqb_refl in E; done).
  pose proof (ring_stored rdy ed (cn (dev_of s)) v line Hr Hlt Hvn) as Hr1. cbv zeta in Hr1. fold k1 in Hr1.
  pose proof (holds_push _ _ v (rg_holds _ _ _ Hr) Hlt) as Hp. fold k1 in Hp. rewrite (holds_full _ _ Hp), length_app. cbn [List.length].
  assert ((List.length (rdy ++ ed) + 1 =? 128)%nat = (List.length (rdy ++ ed) =? 127)%nat) as -> by (destruct (Nat.eqb_spec (List.length (rdy ++ ed)) 127), (Nat.eqb_spec (List.length (rdy ++ ed) + 1) 128); lia).
  fold line. destruct line.
  - wp_step. wp_step. rewrite Ecn. eapply wp_mono; [apply (edited_wake s0 cs (rdy ++ ed ++ [v]) []); [by eapply edited_commit|done]|].
    intros [] s3 [He3 Hw3]. wp_step. split; [done|]. split; [done|by left].
  - wp_step. wp_step. split; [done|]. cbn. split; [|unfold woken in *; by rewrite Eps]. eapply edited_shown; [|exact Hsh|done].
    by apply (edited_cn s0 cs rdy ed rdy (ed ++ [v]) s (fun k => set_in_e (u32 (in_e (cn (dev_of s)) + 1)) (set_in_buf (<[Z.to_nat (in_e (cn (dev_of s)) mod 128) := v]> (in_buf k)) k))).
Qed.

(** Every byte acts on the ring as [edit] on the lists. *)
Lemma wp_console_char s0 cs rdy0 rdy ed s c : edited s0 cs rdy ed s -> L_ptable ∉ held s0 -> 0 <= c < 256 -> woken s0 rdy0 rdy s ->
  wp (console_char c) (fun b s' => b = (c =? C "P") /\ edited s0 cs (edit c (rdy, ed)).1 (edit c (rdy, ed)).2 s' /\ woken s0 rdy0 (edit c (rdy, ed)).1 s') s.
Proof using.
  intros He Hh Hc Hw. destruct (Z.eqb_spec c (C "P")) as [->|N1]; [done|]. destruct (Z.eqb_spec c (C "U")) as [->|N2].
  { unfold console_char. cbn [Z.eqb C]. change (C "U" =? C "P") with false. change (C "U" =? C "U") with true. cbv iota. wp_step.
    eapply wp_kill_line; [exact He| |].
    - pose proof (hd_fit _ _ (rg_holds _ _ _ (ed_ring _ _ _ _ _ He))) as Hf. rewrite length_app in Hf. change (Z.to_nat INPUT_BUF) with 128%nat. lia.
    - intros s' He' Hps. wp_step. split; [done|]. split; [done|]. unfold woken in *. by rewrite Hps. }
  destruct (decide (c = C "H" \/ c = 0x7f)) as [Hbs|Hbs]; [|apply wp_plain_char; tauto].
  assert (Eb : (c =? C "H") || (c =? 0x7f) = true) by (by destruct Hbs as [-> | ->]).
  unfold console_char, edit. rewrite (proj2 (Z.eqb_neq c (C "P")) N1), (proj2 (Z.eqb_neq c (C "U")) N2), Eb. unfold get_con. do 5 wp_step. cbn [fst snd].
  destruct ed as [|v ed _] using rev_ind.
  - rewrite (ring_empty _ _ (ed_ring _ _ _ _ _ He)), Z.eqb_refl. cbn [negb]. wp_step. wp_step. done.
  - destruct (ring_last _ _ _ _ (ed_ring _ _ _ _ _ He)) as (Hne & _ & _ & Hr). rewrite (proj2 (Z.eqb_neq _ _) Hne). cbn [negb]. unfold upd_con. wp_step. wp_step.
    pose proof (edited_cn _ _ _ _ rdy ed s (fun c => set_in_e (u32 (in_e c - 1)) c) He Hr ltac:(done)) as He'.
    eapply wp_echo; [exact He'|]. intros s2 He2 _ Hps. wp_step. split; [done|]. rewrite length_app, Nat.add_sub, take_app_length. split; [done|].
    unfold woken in *. by rewrite Hps.
Qed.

Lemma edited_hw s0 cs cs' rdy ed s h : edited s0 cs rdy ed s -> cursor h = cursor (hw (dev_of s)) -> serial_in h = cs' -> edited s0 cs' rdy ed (set_hw h s).
Proof using.
  intros [(m & h0 & c & ps & -> & Hm & Hs & Hps) Hr Hv Hc Hi] Ec Ei. split; [by exists m, h, c, ps|done|done|cbn; by rewrite Ec|done].
Qed.

(** The serial line delivers its bytes one by one. *)
Lemma wp_uartgetc s0 cs rdy ed s (Q : Z -> kern -> Prop) : edited s0 cs rdy ed s -> uart (cn (dev_of s0)) <> 0 ->
  match cs with
  | [] => forall s', edited s0 [] rdy ed s' -> procs s' = procs s -> Q (-1) s'
  | c :: cs' => forall s', edited s0 cs' rdy ed s' -> procs s' = procs s -> Q c s'
  end -> wp uartgetc Q s.
Proof using.
  intros He Hu HQ. destruct (ed_vars _ _ _ _ _ He) as (_ & _ & Eu & _). unfold uartgetc, get_con. wp_step. wp_step. rewrite (proj2 (Z.eqb_neq _ 0)) by congruence. wp_step.
  apply wp_inb. destruct (line_status (hw (dev_of s))) as (_ & C1 & S1 & D1). rewrite (ed_input _ _ _ _ _ He) in S1, D1. set (r := in8 _ _) in *. clearbody r.
  pose proof (edited_hw s0 cs cs rdy ed s r.2 He C1 S1) as He1. destruct cs as [|c cs].
  - rewrite (proj2 D1) by done. change (0 =? 0) with true. cbv iota. wp_step. by apply HQ.
  - rewrite (proj2 (Z.eqb_neq _ 0)) by (intros E; by apply D1 in E). apply wp_inb. destruct (line_data _ _ _ S1) as (_ & C2 & S2 & V2).
    change (hw (dev_of (set_hw r.2 s))) with r.2. rewrite V2. apply HQ; [|done]. by eapply edited_hw.
Qed.

(** All of them are edited in. *)
Lemma wp_intr_loop s0 rdy0 : uart (cn (dev_of s0)) <> 0 -> L_ptable ∉ held s0 -> forall cs fuel a b s, edited s0 cs a.1 a.2 s -> woken s0 rdy0 a.1 s ->
  Forall (fun c => 0 <= c < 256) cs -> (List.length cs < fuel)%nat ->
  wp (iterate fuel (intr_body uartgetc) b) (fun _ s' => let a' := fold_left (fun a c => edit c a) cs a in edited s0 [] a'.1 a'.2 s' /\ woken s0 rdy0 a'.1 s') s.
Proof using.
  intros Hu Hh. induction cs as [|c cs IH]; intros [|fuel] [rdy ed] b s He Hw Hcs Hf; cbn [List.length] in Hf; try lia; cbn [iterate fold_left]; wp_step; unfold intr_body at 1; wp_step.
  - eapply wp_uartgetc; [exact He|done|]. intros s1 He1 Ep. cbv beta iota. change (-1 <? 0) with true. cbv iota. wp_step. wp_step. split; [done|]. unfold woken in *. by rewrite Ep.
  - apply Forall_cons in Hcs as [Hc Hcs]. eapply wp_uartgetc; [exact He|done|]. intros s1 He1 Ep. cbv beta iota. rewrite (proj2 (Z.ltb_ge c 0)) by lia. wp_step.
    eapply wp_mono; [apply (wp_console_char s0 cs rdy0 rdy ed s1 c He1 Hh Hc); unfold woken in *; by rewrite Ep|].
    intros b2 s2 (_ & He2 & Hw2). cbv beta. wp_step. cbv beta iota. apply (IH fuel (edit c (rdy, ed))); [done|done|done|lia].
Qed.

Lemma edited_held s0 cs rdy ed s l : edited s0 cs rdy ed s -> edited (set_held l s0) cs rdy ed (set_held l s).
Proof using. intros [(m & h & c & ps & -> & Hm & Hs & Hps) Hr Hv Hc Hi]. split; try done. by exists m, h, c, ps. Qed.

Lemma edited_keeps s0 cs rdy ed s : edited s0 cs rdy ed s -> held s = held s0 /\ List.length (procs s) = List.length (procs s0) /\ mem_ok (mem (km s)).
Proof using. intros [(m & h & c & ps & -> & Hm & Hs & [->| ->]) Hr Hv Hc Hi]; cbn; rewrite ?length_fmap; done. Qed.

Lemma edited_prints s0 rdy ed s s' : edited s0 (serial_in (hw (dev_of s))) rdy ed s -> prints s s' -> edited s0 (serial_in (hw (dev_of s))) rdy ed s' /\ procs s' = procs s.
Proof using. intros He (p & Hs & Hp). split; [by eapply edited_shown|]. by destruct Hs as (m & h & -> & _). Qed.

End editor.

(** C14: the console's line discipline.  An interrupt of the serial line takes all bytes received and acts on the input ring, whose
    indices may have wrapped around, as the line editor [edit] on the two lists it holds: backspace and Control-U take back only
    what has not been committed, a newline, an end of file or a full ring commits the line, carriage returns become newlines, bytes
    that do not fit are dropped.  Readers asleep on the input are woken whenever something was committed.  The handler returns with
    its lock released, and changes nothing else but the screen and the devices. *)
Theorem consoleintr_edits {B H} {HW : Hardware H} {BO : Board H} (fuel : nat) (rdy ed cs : list Z) (s : kst (fsst (devst B H))) :
  ring rdy ed (cn (dev_of s)) -> panicked (cn (dev_of s)) = 0 -> uart (cn (dev_of s)) <> 0 -> 0 <= cursor (hw (dev_of s)) < 2000 ->
  serial_in (hw (dev_of s)) = cs -> Forall (fun c => 0 <= c < 256) cs -> mem_ok (mem (km s)) -> L_cons ∉ held s -> L_ptable ∉ held s ->
  List.length (procs s) = NPROC -> (List.length cs < fuel)%nat ->
  let a := fold_left (fun a c => edit c a) cs (rdy, ed) in
  exists s', uartintr fuel s = Ret tt s' /\ edited s [] a.1 a.2 s' /\ woken s rdy a.1 s'.
Proof.
  intros Hr Hp Hu Hc Hin Hcs Hm Hh1 Hh2 Hlen Hf a. set (s0 := set_held (L_cons :: held s) s).
  assert (Hw : wp (uartintr fuel) (fun _ s' => edited s [] a.1 a.2 s' /\ woken s rdy a.1 s') s); [|by apply wp_returns in Hw as ([] & s' & E & Hs'); exists s'].
  unfold uartintr, consoleintr. wp_step. eapply wp_result; [by apply run_acquire|]. wp_step.
  assert (He : edited s0 cs rdy ed s0) by (rewrite <- Hin; by apply (edited_refl s0)).
  eapply wp_mono; [apply (wp_intr_loop s0 rdy Hu ltac:(cbn; set_solver) cs fuel (rdy, ed)); [done|by right|done|done]|].
  intros b s1 [He1 Hw1]. cbv beta. fold a in He1, Hw1. wp_step. destruct (edited_keeps _ _ _ _ _ He1) as (Eh & El & Hm1).
  eapply wp_result; [by apply (run_release_top s1 L_cons (held s))|]. apply (edited_held _ _ _ _ _ (held s)) in He1.
  replace (set_held (held s) s0) with s in He1 by (by destruct s). destruct b; cbn [when]; [|by wp_step].
  pose proof (ed_input _ _ _ _ _ He1) as Ei. set (s2 := set_held (held s) s1) in *. unfold procdump. eapply wp_mono.
  { eapply (wp_procdump_loop NPROC 0 s2 s2); [|apply (ed_vars _ _ _ _ _ He1)|done|by cbn; rewrite El, <- Hlen].
    exists (cursor (hw (dev_of s2))). split; [by apply shown_refl|apply (ed_cursor _ _ _ _ _ He1)]. }
  intros [] s3 H3. rewrite <- Ei in He1. destruct (edited_prints _ _ _ _ _ He1 H3) as [He3 Ep3]. rewrite Ei in He3. split; [done|]. unfold woken in *. by rewrite Ep3.
Qed.

(** ** Reading *)

(** What a read of at most [n] bytes gets of the committed ones and what it leaves;
    [None] when it has to wait for more.  An end of file is only taken by a read that
    has got nothing ([first]). *)
Fixpoint take_line (n : nat) (first : bool) (rdy : list Z) : option (list Z * list Z) :=
  match n with
  | O => Some ([], rdy)
  | S n' =>
      match rdy with
      | [] => None
      | c :: rdy' =>
          if c =? C "D" then Some ([], if first then rdy' else rdy)
          else if c =? NL then Some ([c], rdy')
          else '(got, rest) ← take_line n' false rdy'; Some (c :: got, rest)
      end
  end.

Lemma ring_take v rdy ed c : ring (v :: rdy) ed c ->
  in_r c <> in_w c /\ in_buf c !! Z.to_nat (in_r c mod 128) = Some v /\ ring rdy ed (set_in_r (u32 (in_r c + 1)) c).
Proof.
  intros [Hh Hw Hn]. destruct (holds_shift _ _ _ Hh) as [Hv Hh']. pose proof (hd_fit _ _ Hh) as Hf. cbn in Hf. rewrite length_app in Hf. split; [|split; [done|]].
  - pose proof (hd_r _ _ Hh) as Hr. rewrite Hw. intros E. assert (u32 (in_r c + 0) = u32 (in_r c + Z.of_nat (List.length (v :: rdy)))) as E' by (rewrite <- E, Z.add_0_r; apply u32_id; lia). clear E. rename E' into E.
    apply u32_inj_small in E; cbn [List.length] in *; lia.
  - split; [done| |done]. cbn. rewrite Hw. cbn [List.length]. unfold u32. rewrite Zplus_mod_idemp_l. f_equal. lia.
Qed.

Lemma ring_none ed c : ring [] ed c -> in_r c = in_w c.
Proof. intros [Hh Hw _]. rewrite Hw. cbn. rewrite Z.add_0_r. symmetry. apply u32_id, (hd_r _ _ Hh). Qed.

Section reading.
Context {B H : Type} {HW : Hardware H}.
#[local] Abbreviation kern := (kst (fsst (devst B H))).
Implicit Types s : kern.

Lemma set_cn_id s : set_cn (cn (dev_of s)) s = s.
Proof using. by destruct s as [? ? ? ? ? ? ? ? ? [? ? ? ? []]]. Qed.

Lemma set_in_r_id c : set_in_r (in_r c) c = c.
Proof using. by destruct c. Qed.

(** A byte that is ready. *)
Lemma run_ready fuel v rdy ed s : ring (v :: rdy) ed (cn (dev_of s)) -> iterate (S fuel) read_wait tt s = Ret true s.
Proof using.
  intros Hr. destruct (ring_take _ _ _ _ Hr) as (Hne & _ & _). cbn [iterate]. unfold read_wait, get_con. mrun. by rewrite (proj2 (Z.eqb_neq _ _) Hne).
Qed.

Lemma run_read_body fuel target k dst v rdy ed s : ring (v :: rdy) ed (cn (dev_of s)) -> (k < target)%nat ->
  let c := cn (dev_of s) in
  read_body (S fuel) st_local (Z.of_nat target) (Z.of_nat (S k), dst) s =
    if v =? C "D" then Ret (inr (Some (Z.of_nat (S k)), dst)) (set_cn (set_in_r (if (S k =? target)%nat then u32 (in_r c + 1) else in_r c) c) s)
    else Ret (let dst' := st8 dst (Z.of_nat target - Z.of_nat (S k)) v in if v =? NL then inr (Some (Z.of_nat k), dst') else inl (Z.of_nat k, dst'))
           (set_cn (set_in_r (u32 (in_r c + 1)) c) s).
Proof using.
  intros Hr Hk c. destruct (ring_take _ _ _ _ Hr) as (Hne & Hv & _). unfold read_body. rewrite (proj2 (Z.ltb_lt 0 (Z.of_nat (S k)))) by lia.
  rewrite (bind_ret_run _ _ _ _ _ (run_ready fuel v rdy ed s Hr)). cbn [negb]. unfold input_at, get_con, upd_con, INPUT_BUF. mrun. rewrite Hv. mrun. destruct (v =? C "D").
  - destruct (Nat.eqb_spec (S k) target) as [E|E]; [rewrite (proj2 (Z.ltb_ge _ _)) by lia; by mrun|rewrite (proj2 (Z.ltb_lt _ _)) by lia].
    cbn [when]. mrun. rewrite u32_succ_pred, (u32_id (in_r (cn (dev_of s)))) by apply (hd_r _ _ (rg_holds _ _ _ Hr)). done.
  - unfold st_local. mrun. replace (Z.of_nat (S k) - 1) with (Z.of_nat k) by lia. by destruct (v =? NL).
Qed.

#[local] Arguments Nat.eqb : simpl never.

(** The loop of consoleread while there is enough. *)
Lemma run_read_loop fuel target ed : forall rdy k dst s got rest, ring rdy ed (cn (dev_of s)) -> (k <= target)%nat -> take_line k (k =? target)%nat rdy = Some (got, rest) ->
  exists r, iterate (S k) (read_body (S fuel) st_local (Z.of_nat target)) (Z.of_nat k, dst) s =
      Ret (Some (Z.of_nat k - Z.of_nat (List.length got)), st_bytes dst (Z.of_nat target - Z.of_nat k) got) (set_cn (set_in_r r (cn (dev_of s))) s) /\
    ring rest ed (set_in_r r (cn (dev_of s))).
Proof using.
  induction rdy as [|v rdy IH]; intros [|k] dst s got rest Hr Hk Ht; cbn [take_line] in Ht; try done.
  1, 2: injection Ht as <- <-; exists (in_r (cn (dev_of s))); rewrite set_in_r_id, set_cn_id; (split; [|done]); cbn; by rewrite Z.sub_0_r.
  destruct (ring_take _ _ _ _ Hr) as (_ & _ & Hr').
  assert (Eb := run_read_body fuel target k dst v rdy ed s Hr ltac:(lia)). cbv zeta in Eb. change (iterate (S (S k)) ?b ?a) with (x ← b a; match x with inl a' => iterate (S k) b a' | inr r => mret r end).
  destruct (v =? C "D").
  - injection Ht as <- <-. rewrite (bind_ret_run _ _ _ _ _ Eb). eexists. replace (Z.of_nat (S k) - Z.of_nat (List.length (@nil Z))) with (Z.of_nat (S k)) by (cbn; lia).
    split; [reflexivity|]. destruct (S k =? target)%nat; [exact Hr'|]. by rewrite set_in_r_id.
  - destruct (v =? NL).
    + injection Ht as <- <-. eexists. rewrite (bind_ret_run _ _ _ _ _ Eb). cbn [List.length st_bytes]. replace (Z.of_nat (S k) - Z.of_nat 1) with (Z.of_nat k) by lia. done.
    + apply bind_Some in Ht as ([got' rest'] & Ht & [= <- <-]). rewrite (bind_ret_run _ _ _ _ _ Eb). cbv iota.
      assert ((k =? target)%nat = false) as Ek by (apply Nat.eqb_neq; lia). rewrite <- Ek in Ht.
      destruct (IH k (st8 dst (Z.of_nat target - Z.of_nat (S k)) v) (set_cn (set_in_r (u32 (in_r (cn (dev_of s)) + 1)) (cn (dev_of s))) s) got' rest' Hr' ltac:(lia) Ht) as (r & -> & Hr2).
      exists r. split; [|done]. cbn [List.length st_bytes]. replace (Z.of_nat target - Z.of_nat (S k) + 1) with (Z.of_nat target - Z.of_nat k) by lia.
      replace (Z.of_nat (S k) - Z.of_nat (S (List.length got'))) with (Z.of_nat k - Z.of_nat (List.length got')) by lia. done.
Qed.

(** And when there is not: it takes what there is and waits. *)
Lemma read_loop_waits fuel target ed me p : forall rdy k dst s, ring rdy ed (cn (dev_of s)) -> (k <= target)%nat -> take_line k (k =? target)%nat rdy = None ->
  cur s = Some me -> procs s !! me = Some p -> held s = [L_cons] -> killed p = 0 ->
  yields (iterate (S k) (read_body (S fuel) st_local (Z.of_nat target)) (Z.of_nat k, dst))
    (fun s1 => asleep me Chan_input s1 /\ held s1 = [L_ptable] /\ ring [] ed (cn (dev_of s1))) s.
Proof using.
  induction rdy as [|v rdy IH]; intros [|k] dst s Hr Hk Ht Hc Hp Hh Hkl; cbn [take_line] in Ht; try done;
    change (iterate (S (S k)) ?b ?a) with (x ← b a; match x with inl a' => iterate (S k) b a' | inr r => mret r end).
  - apply yields_bind. unfold read_body. rewrite (proj2 (Z.ltb_lt 0 (Z.of_nat (S k)))) by lia. apply yields_bind. cbn [iterate]. apply yields_bind.
    unfold yields, read_wait, get_con. mrun. rewrite (ring_none _ _ Hr), Z.eqb_refl. krun_with (run_curproc s me); [|done]. krun_with (run_get_proc s me p); [|done].
    rewrite Hkl. cbn [Z.eqb negb]. unfold mbind at 1, M_bind at 1. rewrite (run_sleep s me p Chan_input L_cons Hc Hp Hh). cbn [obind]. split; [|done].
    exists (sleeping Chan_input p). ksimp. rewrite list_lookup_insert_eq by (by eapply lookup_lt_Some). done.
  - destruct (ring_take _ _ _ _ Hr) as (_ & _ & Hr'). assert (Eb := run_read_body fuel target k dst v rdy ed s Hr ltac:(lia)). cbv zeta in Eb.
    destruct (v =? C "D"); [done|]. destruct (v =? NL); [done|]. eapply yields_after; [exact Eb|]. cbv beta iota. apply IH; try done; [lia|].
    assert ((k =? target)%nat = false) as -> by (apply Nat.eqb_neq; lia). destruct (take_line k false rdy) as [[]|]; done.
Qed.

End reading.

(** The lock of an inode this process holds is given back for the time of the read. *)
Section inode_lock.
Context {B H : Type} {HW : Hardware H} {BD : BlockDevice (devst B H)}.
#[local] Abbreviation kern := (kst (fsst (devst B H))).
Context (s : kern) (i me : nat) (p : proc) (ip : inode).
Context (Hc : cur s = Some me) (Hp : procs s !! me = Some p) (Hst : state p = RUNNING).
Context (Hi : inodes (fsys s) !! i = Some ip) (Href : 1 <= i_ref ip) (Hval : valid ip <> 0) (Hlk : i_lock ip = Sleeplock 1 (pid p)).

Definition unlocked_inode : kern := set_procs (wake (Chan_sleeplock (SL_inode i)) <$> procs s) (with_sl (SL_inode i) (Sleeplock 0 0) s).

Lemma run_iunlock : held s = [] -> iunlock i s = Ret tt unlocked_inode.
Proof using Hc Hp Hi Href Hlk.
  intros Hh. assert (Hsl : sl_of s (SL_inode i) = Some (Sleeplock 1 (pid p))) by (cbn; by rewrite Hi; cbn; rewrite Hlk).
  unfold iunlock. erewrite bind_ret_run; [|eapply run_holdingsleep; [done|done|by rewrite Hh; apply not_elem_of_nil|exact Hsl]]. cbn [locked sl_pid negb Z.eqb andb].
  krun_with (run_get_inode s i ip); [|done]. rewrite Z.eqb_refl, (proj2 (Z.ltb_ge _ 1)) by done. cbn [negb orb].
  eapply run_releasesleep; [by rewrite Hh; apply not_elem_of_nil|by rewrite Hh; apply not_elem_of_nil|exact Hsl].
Qed.

Lemma wake_me ch : (wake ch <$> procs s) !! me = Some p.
Proof using Hp Hst. rewrite list_lookup_fmap, Hp. cbn. unfold wake. by rewrite bool_decide_false by (rewrite Hst; by intros [? _]). Qed.

(** ilock after it, in a state with the same inodes. *)
Lemma run_ilock_again fuel c : held s = [] ->
  ilock (S fuel) i (set_cn c unlocked_inode) = Ret tt (set_cn c (set_procs (wake (Chan_sleeplock (SL_inode i)) <$> procs s) s)).
Proof using Hc Hp Hst Hi Href Hval Hlk.
  intros Hh. set (s1 := set_cn c unlocked_inode). pose proof (list_lookup_alter_eq (set_i_lock (Sleeplock 0 0)) (inodes (fsys s)) i) as Hal. rewrite Hi in Hal. cbn in Hal.
  unfold ilock. krun_with (run_get_inode s1 i (set_i_lock (Sleeplock 0 0) ip)); [|done]. cbn [i_ref set_i_lock]. rewrite (proj2 (Z.ltb_ge _ 1)) by done.
  erewrite bind_ret_run; [|eapply (run_acquiresleep (S fuel) s1 (SL_inode i) (Sleeplock 0 0) me p); [lia|done|apply wake_me|cbn; rewrite Hh; apply not_elem_of_nil|cbn; by rewrite Hal|done]].
  set (s2 := with_sl _ _ s1). assert (E2 : s2 = set_cn c (set_procs (wake (Chan_sleeplock (SL_inode i)) <$> procs s) s)).
  { unfold s2, s1, unlocked_inode. cbn [with_sl]. unfold set_cn, set_disk, set_inodes, set_procs, set_fsys, dev_of. cbn. do 2 f_equal. rewrite alter_alter. cbn.
    rewrite <- (list_insert_id (inodes (fsys s)) i ip Hi) at 2. rewrite (alter_insert_lookup _ _ _ ip Hi). f_equal. destruct ip; cbn in *. by subst. }
  rewrite E2. krun_with (run_get_inode (set_cn c (set_procs (wake (Chan_sleeplock (SL_inode i)) <$> procs s) s)) i ip); [|done]. by rewrite (proj2 (Z.eqb_neq _ 0) Hval).
Qed.

End inode_lock.

(** C22: consoleread takes a line.  A read of [n] bytes by the current process gets the committed bytes up to a newline, to an end
    of file or to [n], in order, and leaves the rest; an end of file after some bytes is left for the next read, so that this one
    gets 0 bytes.  When the committed bytes do not suffice, it takes them and goes to sleep on the input, with the console lock
    given back.  The inode is unlocked meanwhile and locked again at the end. *)
Theorem consoleread_takes {B H} {HW : Hardware H} {BD : BlockDevice (devst B H)} (fuel n i me : nat) (p : proc) (ip : inode) (rdy ed : list Z) (dst : Zmap Z) (s : kst (fsst (devst B H))) :
  cur s = Some me -> procs s !! me = Some p -> state p = RUNNING -> killed p = 0 -> held s = [] ->
  inodes (fsys s) !! i = Some ip -> 1 <= i_ref ip -> valid ip <> 0 -> i_lock ip = Sleeplock 1 (pid p) -> ring rdy ed (cn (dev_of s)) ->
  match take_line n true rdy with
  | Some (got, rest) => exists c, ring rest ed c /\
      consoleread (S fuel) i (Zmap Z) st_local dst (Z.of_nat n) s =
        Ret (Z.of_nat (List.length got), st_bytes dst 0 got) (set_cn c (set_procs (wake (Chan_sleeplock (SL_inode i)) <$> procs s) s))
  | None => yields (consoleread (S fuel) i (Zmap Z) st_local dst (Z.of_nat n))
      (fun s1 => asleep me Chan_input s1 /\ held s1 = [L_ptable] /\ ring [] ed (cn (dev_of s1))) s
  end.
Proof.
  intros Hc Hp Hst Hk Hh Hi Href Hval Hlk Hr. pose proof (run_iunlock s i me p ip Hc Hp Hi Href Hlk Hh) as Eu. set (u := unlocked_inode s i) in *.
  assert (Ea : acquire L_cons u = Ret tt (set_held [L_cons] u)) by (rewrite run_acquire; [by cbn; rewrite Hh|cbn; rewrite Hh; apply not_elem_of_nil]).
  pose proof (Nat.eqb_refl n) as En. destruct (take_line n true rdy) as [[got rest]|] eqn:Et; rewrite <- En in Et.
  - destruct (run_read_loop fuel n ed rdy n dst (set_held [L_cons] u) got rest Hr ltac:(lia) Et) as (r & El & Hr'). eexists. split; [exact Hr'|].
    unfold consoleread. rewrite (bind_ret_run _ _ _ _ _ Eu), (bind_ret_run _ _ _ _ _ Ea). rewrite Nat2Z.id, (bind_ret_run _ _ _ _ _ El).
    erewrite bind_ret_run; [|apply (run_release_top _ L_cons []); [done|apply not_elem_of_nil]]. set (c := set_in_r r _).
    erewrite bind_ret_run; [|rewrite <- (run_ilock_again s i me p ip Hc Hp Hst Hi Href Hval Hlk fuel c Hh)].
    + cbn [fst snd]. rewrite Z.sub_diag. unfold mret, M_ret. do 2 f_equal. lia.
    + f_equal. unfold u, unlocked_inode. destruct s; cbn in *. by subst.
  - unfold consoleread. eapply yields_after; [exact Eu|]. eapply yields_after; [exact Ea|]. apply yields_bind. rewrite Nat2Z.id.
    apply (read_loop_waits fuel n ed me p rdy n dst (set_held [L_cons] u)); try done. apply (wake_me s me p Hp Hst).
Qed.

(** ** A terminal *)

Record term : Type := Term { t_index : Z; t_cursor : Z; t_in : list Z; t_out : list Z }.

#[export] Instance ex_term : Hardware term := {|
  in8 := fun port h =>
    if port =? CRTPORT + 1 then (if t_index h =? 14 then t_cursor h mod 65536 / 256 else if t_index h =? 15 then t_cursor h mod 65536 mod 256 else 0, h)
    else if port =? COM1 + 5 then (match t_in h with [] => 0x20 | _ => 0x21 end, h)
    else if port =? COM1 then (u8 (default 0 (head (t_in h))), Term (t_index h) (t_cursor h) (tail (t_in h)) (t_out h))
    else (0, h);
  out8 := fun port v h =>
    if port =? CRTPORT then Term v (t_cursor h) (t_in h) (t_out h)
    else if port =? CRTPORT + 1 then
      let c := t_cursor h mod 65536 in
      Term (t_index h) (if t_index h =? 14 then v * 256 + c mod 256 else if t_index h =? 15 then c / 256 * 256 + v else c) (t_in h) (t_out h)
    else if port =? COM1 then Term (t_index h) (t_cursor h) (t_in h) (t_out h ++ [v])
    else h;
  in32 := fun _ h => (0, h);
  out32 := fun _ _ h => h;
  mmio_ld := fun _ h => (0, h);
  mmio_st := fun _ _ h => h |}.

#[export] Instance ex_term_board : Board term.
Proof.
  refine {| crt_index := t_index; cursor := fun h => t_cursor h mod 65536; serial_in := fun h => u8 <$> t_in h |}.
  - intros h. apply Z.mod_pos_bound. lia.
  - done.
  - intros h r. split_and!; try done; intros E; unfold r; cbn; by rewrite E.
  - intros h v Hv h'. split_and!; try done; intros E; unfold h'; cbn; rewrite E; cbn; apply Z.mod_small; divlia.
  - intros h r. split_and!; try done. unfold r. cbn. by destruct (t_in h).
  - intros h c cs Hc r. unfold r. cbn. destruct (t_in h); [done|]. injection Hc as <- <-. split_and!; try done. by apply u8_id, u8_range.
  - done.
Defined.

Definition ex_typed : list Z := bytes_of "la" ++ [C "H"] ++ bytes_of "s" ++ [13] ++ bytes_of "ec".

Definition ex_terminal (c : consst) : kst (fsst (devst unit term)) := ex_board tt c (Term 0 0 ex_typed []).

Lemma ring_start : ring [] [] ex_cons.
Proof. split; [split|..]; try done. cbn. lia. Qed.

(** What was typed: a line with a correction, then the start of the next one. *)
Lemma consoleintr_edits_witness :
  exists s', uartintr 20 (ex_terminal ex_cons) = Ret tt s' /\ edited (ex_terminal ex_cons) [] (bytes_of "ls" ++ [NL]) (bytes_of "ec") s' /\
    woken (ex_terminal ex_cons) [] (bytes_of "ls" ++ [NL]) s'.
Proof.
  apply (consoleintr_edits 20 [] [] ex_typed (ex_terminal ex_cons));
    [apply ring_start|done|done|done|done|by repeat constructor|apply mem_ok_empty|apply not_elem_of_nil|apply not_elem_of_nil|done|cbn; lia].
Defined.

(** The ring after it, and the inode of the console. *)
Definition ex_line : consst := Cons 0 1 (bytes_of "ls" ++ [NL] ++ bytes_of "ec" ++ replicate 123 0) 0 3 5 1 0.
Definition ex_reader : kst (fsst (devst unit term)) :=
  set_inodes [Inode 1 9 1 (Sleeplock 1 (pid running_proc)) 1 T_DEV CONSOLE 0 1 0 (replicate 13 0)] (ex_terminal ex_line).

Lemma ring_line : ring (bytes_of "ls" ++ [NL]) (bytes_of "ec") ex_line.
Proof. split; [split|..]; try done; [cbn; lia| |by repeat constructor]. intros i v Hi. do 5 (destruct i as [|i]; [done|]). done. Qed.

Definition ex_block {B H} : BlockDevice (devst B H) := {| iderw := fun _ => mret tt |}.

Lemma consoleread_takes_witness : exists c, ring [] (bytes_of "ec") c /\
  consoleread (BD := ex_block) 1 0 (Zmap Z) st_local ∅ (Z.of_nat 10) ex_reader =
    Ret (Z.of_nat 3, st_bytes ∅ 0 (bytes_of "ls" ++ [NL])) (set_cn c (set_procs (wake (Chan_sleeplock (SL_inode 0)) <$> procs ex_reader) ex_reader)).
Proof.
  apply (consoleread_takes (BD := ex_block) 0 10 0 0 running_proc _ (bytes_of "ls" ++ [NL]) (bytes_of "ec") ∅ ex_reader eq_refl eq_refl eq_refl eq_refl eq_refl eq_refl); try done.
  apply ring_line.
Defined.
