(* ===== verification/Ide.v ===== *)
(** * ide.c: the IDE disk driver

    Requests are buffers on a linked queue, the first one being the one the disk works
    on.  iderw appends its buffer and sleeps; the interrupt handler completes the first
    request, wakes its owner and starts the next one.

    The class [IdeDisk] states what the driver relies on of the controller: its task
    registers, its commands, its data port, its status.  [ide_ok] ties the state of
    the controller to the first request of the queue; iderw and ideintr keep it, and
    requests are completed in the order they were made. *)

From Stdlib Require Import ZArith Lia Ascii String.
From stdpp Require Import base tactics numbers option list strings zmap.
From S2P Require Import Prelude Memory Mmu StringOps Print Kalloc Wmap Kernel Spinlock Proc FsState Bio Devices.

(** ** The driver *)

Definition SECTOR_SIZE : Z := 512.
Definition IDE_BSY : Z := 0x80.
Definition IDE_DRDY : Z := 0x40.
Definition IDE_DF : Z := 0x20.
Definition IDE_ERR : Z := 0x01.
Definition IDE_CMD_READ : Z := 0x20.
Definition IDE_CMD_WRITE : Z := 0x30.
Definition IDE_CMD_RDMUL : Z := 0xc4.
Definition IDE_CMD_WRMUL : Z := 0xc5.
Definition FSSIZE : Z := 1000.

(** The variables of ide.c; [qnext] holds the links of the buffers. *)
Record idest : Type := Ide { idequeue : option nat; qnext : list (option nat); havedisk1 : Z }.

Section ide.
Context {H : Type} {HW : Hardware H} (fuel : nat).
#[local] Abbreviation kern := (kst (fsst (devst idest H))).
#[local] Abbreviation MD := (M kern).

Definition get_ide {A} (f : idest -> A) : MD A := gets (fun s => f (blk (dev_of s))).
Definition upd_ide (f : idest -> idest) : MD unit := modify (fun s => set_blk (f (blk (dev_of s))) s).

Definition set_idequeue (v : option nat) (d : idest) : idest := Ide v (qnext d) (havedisk1 d).
Definition set_qnext (b : nat) (v : option nat) (d : idest) : idest := Ide (idequeue d) (<[b := v]> (qnext d)) (havedisk1 d).
Definition set_havedisk1 (v : Z) (d : idest) : idest := Ide (idequeue d) (qnext d) v.

Definition get_qnext (b : nat) : MD (option nat) :=
  q ← get_ide qnext;
  match q !! b with Some v => mret v | None => undef "buffer pointer out of range" end.

(** Poll the status until the disk is ready; the answer is the status. *)
Definition poll (_ : unit) : MD (unit + Z) :=
  r ← inb 0x1f7;
  if negb (Z.land r (Z.lor IDE_BSY IDE_DRDY) =? IDE_DRDY) then mret (inl tt) else mret (inr r).

Definition idewait (checkerr : bool) : MD Z :=
  r ← iterate fuel poll tt;
  if checkerr && negb (Z.land r (Z.lor IDE_DF IDE_ERR) =? 0) then mret (-1) else mret 0.

(** Look for disk 1, at most [n] times. *)
Fixpoint find_disk1 (n : nat) : MD unit :=
  match n with
  | O => mret tt
  | S n' => r ← inb 0x1f7; if negb (r =? 0) then upd_ide (set_havedisk1 1) else find_disk1 n'
  end.

Definition ideinit : MD unit :=
  initlock L_ide;;
  ids ← get_mp apicids;
  ioapicenable IRQ_IDE (Z.of_nat (List.length ids) - 1);;
  idewait false;;
  outb 0x1f6 (Z.lor 0xe0 (Z.shiftl 1 4));;
  find_disk1 1000;;
  outb 0x1f6 (Z.lor 0xe0 (Z.shiftl 0 4)).

(** outsl and insl of x86.h, between a port and a buffer, from long [k] on. *)
Fixpoint outsl (port : Z) (b : nat) (n : nat) (k : Z) : MD unit :=
  match n with
  | O => mret tt
  | S n' => x ← get_buf b; hw_out (out32 port (ld32 (data x) (4 * k)));; outsl port b n' (k + 1)
  end.
Fixpoint insl (port : Z) (b : nat) (n : nat) (k : Z) : MD unit :=
  match n with
  | O => mret tt
  | S n' => v ← hw_in (in32 port); upd_buf b (fun x => set_b_data (st32 (data x) (4 * k) v) x);; insl port b n' (k + 1)
  end.

Definition idestart (b : option nat) : MD unit :=
  match b with
  | None => panic "idestart"
  | Some b =>
      x ← get_buf b;
      if FSSIZE <=? blockno x then panic "incorrect blockno"
      else
        let sector_per_block := BSIZE / SECTOR_SIZE in
        let sector := blockno x * sector_per_block in
        let read_cmd := if sector_per_block =? 1 then IDE_CMD_READ else IDE_CMD_RDMUL in
        let write_cmd := if sector_per_block =? 1 then IDE_CMD_WRITE else IDE_CMD_WRMUL in
        if 7 <? sector_per_block then panic "idestart"
        else
          idewait false;;
          outb 0x3f6 0;;
          outb 0x1f2 sector_per_block;;
          outb 0x1f3 (Z.land sector 0xff);;
          outb 0x1f4 (Z.land (Z.shiftr sector 8) 0xff);;
          outb 0x1f5 (Z.land (Z.shiftr sector 16) 0xff);;
          outb 0x1f6 (Z.lor (Z.lor 0xe0 (Z.shiftl (Z.land (b_dev x) 1) 4)) (Z.land (Z.shiftr sector 24) 0x0f));;
          if flag (b_flags x) B_DIRTY then
            outb 0x1f7 write_cmd;; outsl 0x1f0 b (Z.to_nat (BSIZE / 4)) 0
          else outb 0x1f7 read_cmd
  end.

Definition ideintr : MD unit :=
  acquire L_ide;;
  q ← get_ide idequeue;
  match q with
  | None => release L_ide
  | Some b =>
      nx ← get_qnext b;
      upd_ide (set_idequeue nx);;
      x ← get_buf b;
      (if flag (b_flags x) B_DIRTY then mret tt
       else r ← idewait true; when (0 <=? r) (insl 0x1f0 b (Z.to_nat (BSIZE / 4)) 0));;
      upd_buf b (fun x => set_b_flags (Z.lor (b_flags x) B_VALID) x);;
      upd_buf b (fun x => set_b_flags (Z.land (b_flags x) (Z.lnot B_DIRTY)) x);;
      wakeup (Chan_buf b);;
      q ← get_ide idequeue;
      match q with None => mret tt | Some _ => idestart q end;;
      release L_ide
  end.

(** The loop to the end of the queue; [pp] is idequeue's address, or that of a buffer's link. *)
Definition load_link (pp : option nat) : MD (option nat) :=
  match pp with None => get_ide idequeue | Some b => get_qnext b end.
Definition store_link (pp v : option nat) : MD unit :=
  match pp with None => upd_ide (set_idequeue v) | Some b => upd_ide (set_qnext b v) end.

Definition last_link (pp : option nat) : MD (option nat + option nat) :=
  v ← load_link pp;
  match v with None => mret (inr pp) | Some b => mret (inl (Some b)) end.

(** Sleep until the request is done. *)
Definition wait_done (b : nat) (_ : unit) : MD (unit + unit) :=
  x ← get_buf b;
  if negb (Z.land (b_flags x) (Z.lor B_VALID B_DIRTY) =? B_VALID) then sleep (Chan_buf b) L_ide;; mret (inl tt)
  else mret (inr tt).

Definition ide_iderw (b : nat) : MD unit :=
  h ← holdingsleep (SL_buf b);
  if negb (h : bool) then panic "iderw: buf not locked"
  else
    x ← get_buf b;
    if Z.land (b_flags x) (Z.lor B_VALID B_DIRTY) =? B_VALID then panic "iderw: nothing to do"
    else
      h1 ← get_ide havedisk1;
      if negb (b_dev x =? 0) && (h1 =? 0) then panic "iderw: ide disk 1 not present"
      else
        acquire L_ide;;
        upd_ide (set_qnext b None);;
        pp ← iterate (S NBUF) last_link None;
        store_link pp (Some b);;
        q ← get_ide idequeue;
        when (bool_decide (q = Some b)) (idestart (Some b));;
        iterate fuel (wait_done b) tt;;
        release L_ide.

End ide.

(** The block device of the kernel that uses ide.c. *)
Definition ide_device {H} {HW : Hardware H} (fuel : nat) : BlockDevice (devst idest H) := {| iderw := ide_iderw fuel |}.

(** ** The controller *)

(** What it is doing: a sector of a disk is read, [k] longs delivered, or written, the longs [ws] received. *)
Inductive op : Type := Idle | Reading (dev sec : Z) (k : nat) | Writing (dev sec : Z) (ws : list Z).

(** The sector the task registers name. *)
Definition task_dev (t : Z -> Z) : Z := Z.land (Z.shiftr (t 0x1f6) 4) 1.
Definition task_sec (t : Z -> Z) : Z := t 0x1f3 + 256 * t 0x1f4 + 65536 * t 0x1f5 + 16777216 * Z.land (t 0x1f6) 15.

Class IdeDisk (H : Type) {HW : Hardware H} : Type := {
  busy : H -> nat;            (* polls until it is ready *)
  patience : nat;             (* their bound *)
  failing : H -> bool;        (* the error bits of the status *)
  task : H -> Z -> Z;         (* the registers *)
  doing : H -> op;
  sector : H -> Z -> Z -> list Z;
  busy_bound : forall h, (busy h <= patience)%nat;
  sector_len : forall h d n, List.length (sector h d n) = 128%nat;
  in_status : forall h, let r := in8 0x1f7 h in
    task r.2 = task h /\ doing r.2 = doing h /\ sector r.2 = sector h /\ failing r.2 = failing h /\
    match busy h with
    | O => Z.land (u8 r.1) 0xC0 = 0x40 /\ (Z.land (u8 r.1) 0x21 = 0 <-> failing h = false) /\ busy r.2 = O
    | S n => Z.land (u8 r.1) 0xC0 <> 0x40 /\ busy r.2 = n
    end;
  out_control : forall h v, let h' := out8 0x3f6 v h in task h' = task h /\ doing h' = doing h /\ sector h' = sector h;
  out_task : forall h p v, 0x1f2 <= p <= 0x1f6 -> let h' := out8 p v h in
    (forall q, task h' q = if q =? p then v else task h q) /\ doing h' = doing h /\ sector h' = sector h;
  out_read : forall h, task h 0x1f2 = 1 -> let h' := out8 0x1f7 IDE_CMD_READ h in
    doing h' = Reading (task_dev (task h)) (task_sec (task h)) 0 /\ sector h' = sector h;
  out_write : forall h, task h 0x1f2 = 1 -> let h' := out8 0x1f7 IDE_CMD_WRITE h in
    doing h' = Writing (task_dev (task h)) (task_sec (task h)) [] /\ sector h' = sector h;
  out_data : forall h w d n ws, doing h = Writing d n ws -> (List.length ws < 128)%nat -> let h' := out32 0x1f0 w h in
    if (List.length ws =? 127)%nat
    then doing h' = Idle /\ forall d' n', sector h' d' n' = if bool_decide (d' = d /\ n' = n) then ws ++ [w] else sector h d' n'
    else doing h' = Writing d n (ws ++ [w]) /\ sector h' = sector h;
  in_data : forall h d n k, doing h = Reading d n k -> (k < 128)%nat -> let r := in32 0x1f0 h in
    sector h d n !! k = Some r.1 /\ doing r.2 = Reading d n (S k) /\ sector r.2 = sector h }.

(** The registers for a block of the file system. *)
Lemma task_block (t : Z -> Z) dev n : 0 <= n < 1000 -> t 0x1f3 = u8 (Z.land n 0xff) -> t 0x1f4 = u8 (Z.land (Z.shiftr n 8) 0xff) -> t 0x1f5 = u8 (Z.land (Z.shiftr n 16) 0xff) ->
  t 0x1f6 = u8 (Z.lor (Z.lor 0xe0 (Z.shiftl (Z.land dev 1) 4)) (Z.land (Z.shiftr n 24) 0x0f)) -> task_dev t = Z.land dev 1 /\ task_sec t = n.
Proof.
  intros Hn T3 T4 T5 T6. change 0xff with (Z.ones 8) in *. change 0x0f with (Z.ones 4) in *. rewrite Z.land_ones in * by lia. rewrite !Z.shiftr_div_pow2 in * by lia.
  rewrite (Z.div_small n (2 ^ 24)), (Z.div_small n (2 ^ 16)) in * by lia. change (2 ^ 8) with 256 in *.
  assert (Hd : Z.land dev 1 = 0 \/ Z.land dev 1 = 1) by (pose proof (Z.land_ones dev 1 ltac:(lia)) as E; change (Z.ones 1) with 1 in E; change (2 ^ 1) with 2 in E; rewrite E; divlia).
  unfold task_dev, task_sec. rewrite T3, T4, T5, T6, (u8_id (n mod 256)), (u8_id ((n / 256) mod 256)) by divlia.
  destruct Hd as [-> | ->]; (split; [done|]); [change (16777216 * _) with 0|change (16777216 * _) with 0]; change (65536 * u8 (0 mod 256)) with 0; divlia.
Qed.

(** The longs of a buffer, and a buffer with longs stored into it. *)
Definition longs (d : Zmap Z) (k n : nat) : list Z := (fun j => ld32 d (4 * Z.of_nat j)) <$> seq k n.

Fixpoint store_longs (d : Zmap Z) (k : nat) (ws : list Z) : Zmap Z :=
  match ws with
  | [] => d
  | w :: ws' => store_longs (st32 d (4 * Z.of_nat k) w) (S k) ws'
  end.

Lemma longs_S d k n : longs d k (S n) = ld32 d (4 * Z.of_nat k) :: longs d (S k) n.
Proof. done. Qed.

Lemma store_longs_below ws d k j : (j < k)%nat -> ld32 (store_longs d k ws) (4 * Z.of_nat j) = ld32 d (4 * Z.of_nat j).
Proof. revert d k. induction ws as [|w ws IH]; intros d k Hj; cbn; [done|]. rewrite IH by lia. apply ld32_st32_ne. lia. Qed.

Lemma longs_store_longs ws d k : longs (store_longs d k ws) k (List.length ws) = u32 <$> ws.
Proof.
  revert d k. induction ws as [|w ws IH]; intros d k; [done|]. cbn [List.length store_longs]. rewrite longs_S, IH, store_longs_below by lia.
  rewrite <- st32_u32, ld32_st32_eq by apply u32_range. done.
Qed.

Section controller.
Context {H : Type} {HW : Hardware H} {ID : IdeDisk H}.
#[local] Abbreviation kern := (kst (fsst (devst idest H))).
Implicit Types s : kern.

(** Only the hardware changes. *)
Lemma set_hw_id s : set_hw (hw (dev_of s)) s = s.
Proof using. by destruct s as [? ? ? ? ? ? ? ? ? [? ? ? ? []]]. Qed.

Lemma wp_out port v (Q : unit -> kern -> Prop) s : Q tt (set_hw (out8 port (u8 v) (hw (dev_of s))) s) -> wp (outb port v) Q s.
Proof using. done. Qed.

Lemma wp_poll n : forall h s (Q : Z -> kern -> Prop), (busy h < n)%nat ->
  (forall r h', task h' = task h -> doing h' = doing h -> sector h' = sector h -> (Z.land r (Z.lor IDE_DF IDE_ERR) = 0 <-> failing h = false) -> Q r (set_hw h' s)) ->
  wp (iterate n poll tt) Q (set_hw h s).
Proof using.
  induction n as [|n IH]; intros h s Q Hb HQ; [lia|]. cbn [iterate]. wp_step. unfold poll at 1. wp_step. eapply wp_result; [apply run_inb|].
  change (hw (dev_of (set_hw h s))) with h. destruct (in_status h) as (T1 & D1 & S1 & F1 & B1). set (r := in8 0x1f7 h) in *. change (set_hw r.2 (set_hw h s)) with (set_hw r.2 s).
  change (Z.lor IDE_BSY IDE_DRDY) with 0xC0. change IDE_DRDY with 0x40. destruct (busy h) as [|k] eqn:Eb.
  - destruct B1 as (E1 & E2 & _). rewrite E1, Z.eqb_refl. cbn [negb]. wp_step. wp_step. by apply HQ.
  - destruct B1 as [E1 E2]. rewrite (proj2 (Z.eqb_neq _ _) E1). cbn [negb]. wp_step. cbv beta iota. apply IH; [lia|]. intros v h' H1 H2 H3 H4. apply HQ; congruence.
Qed.

(** The sector after the longs [ws] have been written to it. *)
Definition written (d n : Z) (ws : list Z) (h h' : H) : Prop := doing h' = Idle /\ forall d' n', sector h' d' n' = if bool_decide (d' = d /\ n' = n) then ws else sector h d' n'.

Lemma wp_outsl b x h0 s dv n (Q : unit -> kern -> Prop) : bufs (fsys s) !! b = Some x -> forall m k ws h, (k + m = 128)%nat -> (0 < m)%nat -> List.length ws = k ->
  doing h = Writing dv n ws -> sector h = sector h0 -> (forall h', written dv n (ws ++ longs (data x) k m) h0 h' -> Q tt (set_hw h' s)) -> wp (outsl 0x1f0 b m (Z.of_nat k)) Q (set_hw h s).
Proof using.
  intros Hx. induction m as [|m IH]; intros k ws h Hk Hm Hl Hd Hs HQ; [lia|]. cbn [outsl]. wp_step. eapply wp_result; [by apply (run_get_buf (set_hw h s) b x)|]. unfold hw_out. wp_step. wp_step.
  change (set_hw (out32 0x1f0 (ld32 (data x) (4 * Z.of_nat k)) (hw (dev_of (set_hw h s)))) (set_hw h s)) with (set_hw (out32 0x1f0 (ld32 (data x) (4 * Z.of_nat k)) h) s).
  pose proof (out_data h (ld32 (data x) (4 * Z.of_nat k)) dv n ws Hd ltac:(lia)) as Ho. cbv zeta in Ho. set (h1 := out32 _ _ h) in *. clearbody h1. rewrite longs_S in HQ.
  destruct (Nat.eqb_spec (List.length ws) 127) as [E|E].
  - assert (m = 0%nat) as -> by lia. cbn [outsl]. wp_step. apply HQ. split; [by destruct Ho|]. intros d' n'. rewrite (proj2 Ho). by rewrite Hs.
  - destruct Ho as [Hd1 Hs1]. replace (Z.of_nat k + 1) with (Z.of_nat (S k)) by lia. eapply (IH (S k) _ h1); [lia|lia| |exact Hd1|by rewrite Hs1|].
    + rewrite length_app. cbn. lia.
    + intros h' Hw. apply HQ. by rewrite <- app_assoc in Hw.
Qed.

Lemma hw_bufs h (bs : list buf) s : set_hw h (set_bufs bs s) = set_bufs bs (set_hw h s).
Proof using. done. Qed.

(** The longs read go to the buffer, the other bytes stay. *)
Lemma wp_insl b h0 dv n (Q : unit -> kern -> Prop) s : forall m k h x, (k + m = 128)%nat -> bufs (fsys s) !! b = Some x ->
  doing h = Reading dv n k -> sector h = sector h0 ->
  (forall h', sector h' = sector h0 -> Q tt (set_hw h' (set_bufs (<[b := set_b_data (store_longs (data x) k (drop k (sector h0 dv n))) x]> (bufs (fsys s))) s))) ->
  wp (insl 0x1f0 b m (Z.of_nat k)) Q (set_hw h s).
Proof using.
  revert s. intros s m. revert s. induction m as [|m IH]; intros s k h x Hk Hx Hd Hs HQ; cbn [insl].
  - wp_step. pose proof (sector_len h0 dv n) as Hl. rewrite drop_ge in HQ by lia. cbn [store_longs] in HQ. specialize (HQ h Hs).
    rewrite list_insert_id in HQ by (rewrite Hx; by destruct x). replace (set_bufs (bufs (fsys s)) s) with s in HQ by (by destruct s as [? ? ? ? ? ? ? ? ? []]). done.
  - wp_step. unfold hw_in. unfold wp at 1. change (hw (dev_of (set_hw h s))) with h. destruct (in_data h dv n k Hd ltac:(lia)) as (Hv & Hd1 & Hs1).
    destruct (in32 0x1f0 h) as [v h1]. cbn [fst snd] in *. wp_step. change (set_hw h1 (set_hw h s)) with (set_hw h1 s). eapply wp_result; [by apply (run_upd_buf (set_hw h1 s) b _ x)|].
    change (set_bufs ?l (set_hw h1 s)) with (set_hw h1 (set_bufs l s)). replace (Z.of_nat k + 1) with (Z.of_nat (S k)) by lia.
    set (x1 := set_b_data _ x). eapply (IH (set_bufs (<[b := x1]> (bufs (fsys s))) s) (S k) h1 x1); [lia| |done|by rewrite Hs1|].
    + cbn. apply list_lookup_insert_eq. by eapply lookup_lt_Some.
    + intros h' Hs'. specialize (HQ h' Hs'). rewrite (drop_S _ v) in HQ by (by rewrite <- Hs). cbn [store_longs] in HQ. cbn. rewrite list_insert_insert_eq. done.
Qed.

(** The request of a buffer, as the controller has it after idestart. *)
Definition started (x : buf) (h h' : H) : Prop :=
  if flag (b_flags x) B_DIRTY then written (Z.land (b_dev x) 1) (blockno x) (longs (data x) 0 128) h h'
  else doing h' = Reading (Z.land (b_dev x) 1) (blockno x) 0 /\ sector h' = sector h.

(** ** The queue *)

(** The links lead from [hd] through [q]. *)
Fixpoint links (hd : option nat) (nx : list (option nat)) (q : list nat) : Prop :=
  match q with
  | [] => hd = None
  | b :: q' => hd = Some b /\ exists v, nx !! b = Some v /\ links v nx q'
  end.

Lemma links_insert hd nx q b v : links hd nx q -> b ∉ q -> links hd (<[b := v]> nx) q.
Proof using.
  revert hd. induction q as [|c q IH]; intros hd; cbn; [done|]. intros (-> & w & Hw & Hl) Hb. apply not_elem_of_cons in Hb as [Hne Hb].
  split; [done|]. exists w. split; [by rewrite list_lookup_insert_ne|by apply IH].
Qed.

Lemma links_bound hd nx q b : links hd nx q -> b ∈ q -> (b < List.length nx)%nat.
Proof using.
  revert hd. induction q as [|c q IH]; intros hd; cbn; [by intros _ ?%not_elem_of_nil|]. intros (-> & w & Hw & Hl) [->|Hb]%elem_of_cons; [by eapply lookup_lt_Some|by eapply IH].
Qed.

(** Linking a last element. *)
Lemma links_app_last hd nx q b c : links hd nx (q ++ [c]) -> NoDup (q ++ [c]) -> nx !! b = Some None -> b ∉ q ++ [c] -> links hd (<[c := Some b]> nx) (q ++ [c; b]).
Proof using.
  revert hd. induction q as [|a q IH]; intros hd; cbn.
  - intros (-> & w & Hw & ->) _ Hb Hne. split; [done|]. exists (Some b). split; [apply list_lookup_insert_eq; by eapply lookup_lt_Some|]. split; [done|]. exists None.
    split; [|done]. rewrite list_lookup_insert_ne; [done|]. intros ->. apply Hne. by left.
  - intros (-> & w & Hw & Hl) Hnd Hb Hne. apply NoDup_cons in Hnd as [Ha Hnd]. apply not_elem_of_cons in Hne as [Hne1 Hne]. split; [done|]. exists w. split; [|by apply IH].
    rewrite list_lookup_insert_ne; [done|]. intros ->. apply Ha, elem_of_app. right. by left.
Qed.

(** A request that waits: in range, and not done. *)
Definition wanted (x : buf) : Prop := 0 <= blockno x < FSSIZE /\ Z.land (b_flags x) (Z.lor B_VALID B_DIRTY) <> B_VALID.

(** What the controller has of the first request. *)
Definition active (x : buf) (h : H) : Prop :=
  if flag (b_flags x) B_DIRTY then sector h (Z.land (b_dev x) 1) (blockno x) = longs (data x) 0 128
  else doing h = Reading (Z.land (b_dev x) 1) (blockno x) 0.

Record ide_ok (q : list nat) (s : kern) : Prop := IdeOk {
  io_links : links (idequeue (blk (dev_of s))) (qnext (blk (dev_of s))) q;
  io_nodup : NoDup q;
  io_bufs : List.length (qnext (blk (dev_of s))) = NBUF;
  io_wanted : forall b, b ∈ q -> exists x, bufs (fsys s) !! b = Some x /\ wanted x;
  io_active : forall b q' x, q = b :: q' -> bufs (fsys s) !! b = Some x -> active x (hw (dev_of s)) }.

Lemma started_active x h h' : started x h h' -> active x h'.
Proof using. unfold started, active. destruct (flag _ _); [|by intros [? _]]. intros [_ Hs]. rewrite Hs. by rewrite bool_decide_true. Qed.

Lemma ide_short q s : ide_ok q s -> (List.length q <= NBUF)%nat.
Proof using.
  intros [Hl Hn Hb _ _]. rewrite <- Hb, <- (length_seq (List.length (qnext (blk (dev_of s)))) 0). apply submseteq_length, NoDup_submseteq; [done|].
  intros b Hin. apply elem_of_seq. split; [lia|]. by eapply links_bound.
Qed.

(** The end of the queue. *)
Lemma run_last_link s : forall q hd pp n, links hd (qnext (blk (dev_of s))) q -> load_link pp s = Ret hd s -> (List.length q < n)%nat ->
  iterate n last_link pp s = Ret (match last q with None => pp | Some c => Some c end) s.
Proof using.
  induction q as [|b q IH]; intros hd pp [|n] Hl Hp Hn; cbn [List.length] in Hn; try lia; cbn [links] in Hl; cbn [iterate].
  - subst hd. unfold last_link. rewrite run_bind_bind, (bind_ret_run _ _ _ _ _ Hp). done.
  - destruct Hl as (-> & v & Hv & Hl). assert (E : last_link pp s = Ret (inl (Some b)) s) by (unfold last_link; by rewrite (bind_ret_run _ _ _ _ _ Hp)).
    rewrite (bind_ret_run _ _ _ _ _ E). rewrite (IH v (Some b) n Hl); [|cbn; unfold get_qnext, get_ide; mrun; by rewrite Hv|lia].
    f_equal. destruct q as [|c q]; [done|]. change (last (b :: c :: q)) with (last (c :: q)). by destruct (last (c :: q)) eqn:El; [|apply last_None in El].
Qed.

Lemma started_sector x h1 h2 h' : sector h1 = sector h2 -> started x h1 h' -> started x h2 h'.
Proof using. unfold started, written. intros E. destruct (flag _ _); by rewrite E. Qed.

(** The buffer of a request the interrupt handler has completed, the controller being in [h]. *)
Definition completed (h : H) (x : buf) : buf :=
  set_b_flags (Z.land (Z.lor (b_flags x) B_VALID) (Z.lnot B_DIRTY))
    (set_b_data (if flag (b_flags x) B_DIRTY || failing h then data x else store_longs (data x) 0 (sector h (Z.land (b_dev x) 1) (blockno x))) x).

(** The state in which it is read. *)
Definition with_buf (b : nat) (x : buf) (h : H) (s : kern) : kern := set_hw h (set_bufs (<[b := x]> (bufs (fsys s))) s).

(** The queue with [b] at its end. *)
Definition queued (b : nat) (q : list nat) (d : idest) : idest :=
  match last q with
  | None => set_idequeue (Some b) (set_qnext b None d)
  | Some c => set_qnext c (Some b) (set_qnext b None d)
  end.

Lemma links_queued b q d : links (idequeue d) (qnext d) q -> NoDup q -> b ∉ q -> (b < List.length (qnext d))%nat -> links (idequeue (queued b q d)) (qnext (queued b q d)) (q ++ [b]).
Proof using.
  intros Hl Hn Hb Hlt. unfold queued. apply (links_insert _ _ _ b None) in Hl; [|done]. assert (Hbn : (<[b := None]> (qnext d)) !! b = Some None) by (by apply list_lookup_insert_eq).
  destruct q as [|c q _] using rev_ind; [cbn; split; [done|]; by exists None|]. rewrite last_snoc. rewrite <- app_assoc. cbn. by apply links_app_last.
Qed.

Lemma run_enqueue b q s : ide_ok q s -> b ∉ q ->
  (upd_ide (set_qnext b None);; pp ← iterate (S NBUF) last_link None; store_link pp (Some b)) s = Ret tt (set_blk (queued b q (blk (dev_of s))) s).
Proof using.
  intros Hok Hb. pose proof (ide_short q s Hok) as Hq. unfold upd_ide at 1. mrun. set (s1 := set_blk _ s).
  erewrite bind_ret_run; [|apply (run_last_link s1 q (idequeue (blk (dev_of s)))); [|done|lia]].
  - unfold queued. destruct (last q); done.
  - apply links_insert; [apply (io_links _ _ Hok)|done].
Qed.

Lemma idequeue_queued b q d : links (idequeue d) (qnext d) q -> b ∉ q -> idequeue (queued b q d) = match q with [] => Some b | c :: _ => Some c end.
Proof using.
  intros Hl Hb. unfold queued. destruct q as [|c q]; [done|]. destruct Hl as [Hd _]. destruct (last (c :: q)) eqn:El; [done|by apply last_None in El].
Qed.

(** The queue with one more request, its first one started if it is the only one. *)
Lemma ide_ok_queued b q x h s : ide_ok q s -> b ∉ q -> (b < NBUF)%nat -> bufs (fsys s) !! b = Some x -> wanted x ->
  match q with [] => active x h | _ => h = hw (dev_of s) end -> ide_ok (q ++ [b]) (set_hw h (set_blk (queued b q (blk (dev_of s))) s)).
Proof using.
  intros [Hl Hn Hlen Hw Ha] Hb Hlt Hx Hwx Hh. split; cbn.
  - apply links_queued; [done|done|done|by rewrite Hlen].
  - apply NoDup_app. split; [done|]. split; [|apply NoDup_singleton]. intros c Hc ->%list_elem_of_singleton. done.
  - unfold queued. destruct (last q); cbn; by rewrite !length_insert.
  - intros c [Hc| ->%list_elem_of_singleton]%elem_of_app; [by apply Hw|by exists x].
  - intros c q' y Eq Hy. destruct q as [|a q]; cbn in Eq; [injection Eq as <- <-; assert (y = x) as -> by congruence; done|]. injection Eq as <- <-. rewrite Hh. by eapply Ha.
Qed.

(** What a process asleep in iderw may count on, and what it is woken for. *)
Definition waits (me b : nat) (q : list nat) (s s1 : kern) : Prop :=
  asleep me (Chan_buf b) s1 /\ held s1 = [L_ptable] /\ ide_ok (q ++ [b]) s1 /\ bufs (fsys s1) = bufs (fsys s).
Definition finished (x : buf) : Prop := Z.land (b_flags x) (Z.lor B_VALID B_DIRTY) = B_VALID.
(** Whenever it sleeps, it is on the buffer's channel, without the driver's lock, and the request is not done. *)
Definition waiting (me b : nat) (s1 : kern) : Prop :=
  asleep me (Chan_buf b) s1 /\ held s1 = [L_ptable] /\ exists x, bufs (fsys s1) !! b = Some x /\ ~ finished x.
(** It gets the CPU back, for whatever reason: anything may have changed meanwhile. *)
Definition resumed (me b : nat) (s1 s2 : kern) : Prop :=
  held s2 = [L_ptable] /\ cur s2 = Some me /\ (exists p, procs s2 !! me = Some p) /\ exists x, bufs (fsys s2) !! b = Some x.
Definition request_done (b : nat) (s2 : kern) : Prop := exists x, bufs (fsys s2) !! b = Some x /\ finished x.

(** The wait of iderw: asleep until the request is done. *)
Lemma wait_done_done b x s n : bufs (fsys s) !! b = Some x -> finished x -> (1 <= n)%nat -> iterate n (wait_done b) tt s = Ret tt s.
Proof using.
  intros Hx Hf Hn. destruct n as [|n]; [lia|]. cbn [iterate]. assert (E : wait_done b tt s = Ret (inr tt) s); [|by rewrite (bind_ret_run _ _ _ _ _ E)].
  unfold wait_done. rewrite (bind_ret_run _ _ _ _ _ (run_get_buf s b x Hx)). rewrite Hf. done.
Qed.

Lemma wait_done_sleeps me p b x s n : cur s = Some me -> procs s !! me = Some p -> held s = [L_ide] -> bufs (fsys s) !! b = Some x -> ~ finished x ->
  exists k, iterate (S n) (wait_done b) tt s = Sched (set_held [L_ptable] (set_procs (<[me := sleeping (Chan_buf b) p]> (procs s)) s)) k /\
    forall s2 p2, held s2 = [L_ptable] -> procs s2 !! me = Some p2 ->
      k s2 = iterate n (wait_done b) tt (set_held [L_ide] (set_procs (<[me := set_p_chan None p2]> (procs s2)) s2)).
Proof using.
  intros Hc Hp Hh Hx Hf. eexists. cbn [iterate]. split.
  - unfold mbind at 1, M_bind at 1. assert (E : wait_done b tt s = (sleep (Chan_buf b) L_ide;; mret (inl tt)) s).
    { unfold wait_done. by rewrite (bind_ret_run _ _ _ _ _ (run_get_buf s b x Hx)), (proj2 (Z.eqb_neq _ _) Hf). }
    rewrite E. unfold mbind at 1, M_bind at 1. rewrite (run_sleep s me p (Chan_buf b) L_ide Hc Hp Hh). reflexivity.
  - intros s2 p2 Hh2 Hp2. cbv beta. rewrite (run_sleep_resumed s2 me p2 L_ide Hh2 Hp2). done.
Qed.

Lemma wpe_wait_done me b n : forall m p x s, cur s = Some me -> procs s !! me = Some p -> held s = [L_ide] -> bufs (fsys s) !! b = Some x -> (n + 2 <= m)%nat ->
  wpe (waiting me b) (resumed me b) (request_done b) (iterate m (wait_done b) tt) (fun _ s' => held s' = [L_ide] /\ request_done b s') n s.
Proof using.
  induction n as [|n IH]; intros m p x s Hc Hp Hh Hx Hm; destruct (decide (finished x)) as [Hf|Hf].
  1, 3: unfold wpe; rewrite (wait_done_done b x s m Hx Hf) by lia; split; [done|by exists x].
  all: destruct m as [|m]; [lia|]; destruct (wait_done_sleeps me p b x s m Hc Hp Hh Hx Hf) as (k & E & Hk); unfold wpe; rewrite E; cbn [oposte]; split;
    [split; [exists (sleeping (Chan_buf b) p); ksimp; rewrite list_lookup_insert_eq by (by eapply lookup_lt_Some); done|split; [done|by exists x]]|].
  all: intros s2 (Hh2 & Hc2 & (p2 & Hp2) & x2 & Hx2); rewrite (Hk s2 p2 Hh2 Hp2); set (s3 := set_held _ _); split; [intros (y & Hy & Hfy)|].
  - rewrite (wait_done_done b y s3 m Hy Hfy) by lia. split; [done|by exists y].
  - done.
  - rewrite (wait_done_done b y s3 m Hy Hfy) by lia. split; [done|by exists y].
  - intros _. apply (IH m (set_p_chan None p2) x2); [done|ksimp; apply list_lookup_insert_eq; by eapply lookup_lt_Some|done|done|lia].
Qed.

Lemma wait_release q me p b x s0 s fuel n : cur s = Some me -> procs s !! me = Some p -> held s = [L_ide] -> bufs (fsys s) !! b = Some x -> wanted x -> (n + 2 <= fuel)%nat ->
  ide_ok (q ++ [b]) s -> bufs (fsys s) = bufs (fsys s0) -> let m := (iterate fuel (wait_done b) tt;; release L_ide) in
  yields m (waits me b q s0) s /\ wpe (waiting me b) (resumed me b) (request_done b) m (fun _ s' => held s' = [] /\ request_done b s') n s.
Proof using.
  intros Hc Hp Hh Hx [_ Hwf] Hn Hok Hbs m. split.
  - apply yields_bind. destruct fuel as [|f]; [lia|]. unfold yields. destruct (wait_done_sleeps me p b x s f Hc Hp Hh Hx Hwf) as (k & -> & _).
    split; [exists (sleeping (Chan_buf b) p); ksimp; rewrite list_lookup_insert_eq by (by eapply lookup_lt_Some); done|]. split; [done|]. split; [|done].
    destruct Hok as [O1 O2 O3 O4 O5]. by split.
  - apply oposte_then. eapply oposte_mono; [by apply (wpe_wait_done me b n fuel p x)|]. intros _ s' [Hh' Hd].
    eapply wp_result; [apply (run_release_top s' L_ide []); [done|apply not_elem_of_nil]|]. done.
Qed.

(** ** The routines of the driver *)

Context (fuel : nat) (Hfuel : (patience < fuel)%nat).

Lemma wp_idewait chk s (Q : Z -> kern -> Prop) :
  (forall h', task h' = task (hw (dev_of s)) -> doing h' = doing (hw (dev_of s)) -> sector h' = sector (hw (dev_of s)) ->
     Q (if chk && failing (hw (dev_of s)) then -1 else 0) (set_hw h' s)) -> wp (idewait fuel chk) Q s.
Proof using Hfuel.
  intros HQ. unfold idewait. wp_step. rewrite <- (set_hw_id s) at 1. apply wp_poll; [pose proof (busy_bound (hw (dev_of s))); lia|]. intros r h' H1 H2 H3 H4.
  assert (chk && negb (Z.land r (Z.lor IDE_DF IDE_ERR) =? 0) = chk && failing (hw (dev_of s))) as ->.
  { f_equal. destruct (Z.eqb_spec (Z.land r (Z.lor IDE_DF IDE_ERR)) 0) as [E|E]; destruct (failing (hw (dev_of s))); naive_solver. }
  specialize (HQ h' H1 H2 H3). destruct (chk && failing (hw (dev_of s))); by wp_step.
Qed.

Lemma wp_idestart b x s (Q : unit -> kern -> Prop) : bufs (fsys s) !! b = Some x -> 0 <= blockno x < FSSIZE ->
  (forall h', started x (hw (dev_of s)) h' -> Q tt (set_hw h' s)) -> wp (idestart fuel (Some b)) Q s.
Proof using Hfuel.
  intros Hx Hn HQ. unfold idestart. wp_step. eapply wp_result; [by apply run_get_buf|]. cbv beta. change (BSIZE / SECTOR_SIZE) with 1. cbv zeta. rewrite (proj2 (Z.leb_gt FSSIZE _)) by lia.
  rewrite Z.mul_1_r. change (1 =? 1) with true. change (7 <? 1) with false. cbv iota. wp_step. apply wp_idewait. intros h0 _ _ S0. wp_step. apply wp_out.
  change (hw (dev_of (set_hw h0 s))) with h0. destruct (out_control h0 (u8 0)) as (_ & _ & S1). set (h1 := out8 0x3f6 _ _) in *. clearbody h1. change (set_hw h1 (set_hw h0 s)) with (set_hw h1 s).
  wp_step. apply wp_out. change (hw (dev_of (set_hw h1 s))) with h1. destruct (out_task h1 0x1f2 (u8 1) ltac:(lia)) as (T2 & _ & S2). set (h2 := out8 _ _ h1) in *. clearbody h2. change (set_hw h2 (set_hw h1 s)) with (set_hw h2 s).
  wp_step. apply wp_out. change (hw (dev_of (set_hw h2 s))) with h2. destruct (out_task h2 0x1f3 (u8 (Z.land (blockno x) 0xff)) ltac:(lia)) as (T3 & _ & S3). set (h3 := out8 _ _ h2) in *. clearbody h3. change (set_hw h3 (set_hw h2 s)) with (set_hw h3 s).
  wp_step. apply wp_out. change (hw (dev_of (set_hw h3 s))) with h3. destruct (out_task h3 0x1f4 (u8 (Z.land (Z.shiftr (blockno x) 8) 0xff)) ltac:(lia)) as (T4 & _ & S4). set (h4 := out8 _ _ h3) in *. clearbody h4. change (set_hw h4 (set_hw h3 s)) with (set_hw h4 s).
  wp_step. apply wp_out. change (hw (dev_of (set_hw h4 s))) with h4. destruct (out_task h4 0x1f5 (u8 (Z.land (Z.shiftr (blockno x) 16) 0xff)) ltac:(lia)) as (T5 & _ & S5). set (h5 := out8 _ _ h4) in *. clearbody h5. change (set_hw h5 (set_hw h4 s)) with (set_hw h5 s).
  wp_step. apply wp_out. change (hw (dev_of (set_hw h5 s))) with h5. set (v6 := u8 (Z.lor _ _)). destruct (out_task h5 0x1f6 v6 ltac:(lia)) as (T6 & _ & S6). set (h6 := out8 _ _ h5) in *. clearbody h6. change (set_hw h6 (set_hw h5 s)) with (set_hw h6 s).
  assert (HS : sector h6 = sector (hw (dev_of s))) by congruence. destruct (task_block (task h6) (b_dev x) (blockno x) Hn) as [Td Ts]; [by rewrite T6, T5, T4, T3|by rewrite T6, T5, T4|by rewrite T6, T5|by rewrite T6|].
  assert (T1f2 : task h6 0x1f2 = 1) by (by rewrite T6, T5, T4, T3, T2). unfold started in HQ. destruct (flag (b_flags x) B_DIRTY).
  - wp_step. apply wp_out. change (hw (dev_of (set_hw h6 s))) with h6. destruct (out_write h6 T1f2) as [D7 S7]. rewrite Td, Ts in D7. change (u8 IDE_CMD_WRITE) with IDE_CMD_WRITE. set (h7 := out8 _ _ h6) in *. clearbody h7.
    change (set_hw h7 (set_hw h6 s)) with (set_hw h7 s). change (Z.to_nat (BSIZE / 4)) with 128%nat. 
    apply (wp_outsl b x (hw (dev_of s)) s (Z.land (b_dev x) 1) (blockno x) Q Hx 128 0 [] h7); [done|lia|done|exact D7|congruence|]. done.
  - apply wp_out. change (hw (dev_of (set_hw h6 s))) with h6. destruct (out_read h6 T1f2) as [D7 S7]. rewrite Td, Ts in D7. change (u8 IDE_CMD_READ) with IDE_CMD_READ. set (h7 := out8 _ _ h6) in *. clearbody h7.
    change (set_hw h7 (set_hw h6 s)) with (set_hw h7 s). apply HQ. split; [done|congruence].
Qed.

(** The transfer of ideintr. *)
Lemma wp_ide_transfer b x s (Q : unit -> kern -> Prop) : bufs (fsys s) !! b = Some x -> active x (hw (dev_of s)) ->
  (forall h, sector h = sector (hw (dev_of s)) ->
     Q tt (with_buf b (set_b_data (if flag (b_flags x) B_DIRTY || failing (hw (dev_of s)) then data x
                                   else store_longs (data x) 0 (sector (hw (dev_of s)) (Z.land (b_dev x) 1) (blockno x))) x) h s)) ->
  wp (if flag (b_flags x) B_DIRTY then mret tt else r ← idewait fuel true; when (0 <=? r) (insl 0x1f0 b (Z.to_nat (BSIZE / 4)) 0)) Q s.
Proof using Hfuel.
  intros Hx Ha HQ. assert (Hid : forall h, with_buf b (set_b_data (data x) x) h s = set_hw h s).
  { intros h. unfold with_buf. rewrite list_insert_id by (rewrite Hx; by destruct x). by destruct s as [? ? ? ? ? ? ? ? ? []]. }
  unfold active in Ha. destruct (flag (b_flags x) B_DIRTY); cbn [orb] in HQ.
  - wp_step. specialize (HQ (hw (dev_of s)) eq_refl). by rewrite Hid, set_hw_id in HQ.
  - wp_step. apply wp_idewait. intros h0 _ D0 S0. cbn [andb]. destruct (failing (hw (dev_of s))).
    + change (0 <=? -1) with false. cbn [when]. wp_step. specialize (HQ h0 S0). by rewrite Hid in HQ.
    + change (0 <=? 0) with true. cbn [when]. change (Z.to_nat (BSIZE / 4)) with 128%nat.
      apply (wp_insl b (hw (dev_of s)) (Z.land (b_dev x) 1) (blockno x) Q s 128 0 h0 x); [done|done|by rewrite D0|done|]. intros h' Hs'. rewrite drop_0. by apply HQ.
Qed.

Lemma run_buf_flags b y f h s : (b < List.length (bufs (fsys s)))%nat -> upd_buf b f (with_buf b y h s) = Ret tt (with_buf b (f y) h s).
Proof using.
  intros Hb. rewrite (run_upd_buf _ b f y) by (cbn; by apply list_lookup_insert_eq). unfold with_buf. cbn. by rewrite list_insert_insert_eq.
Qed.

(** The state after a completed request. *)
Definition served (b : nat) (x : buf) (v : option nat) (h : H) (s : kern) : kern :=
  set_procs (wake (Chan_buf b) <$> procs s) (with_buf b x h (set_blk (set_idequeue v (blk (dev_of s))) s)).

Lemma wp_ideintr b q s : ide_ok (b :: q) s -> L_ide ∉ held s -> L_ptable ∉ held s ->
  wp (ideintr fuel) (fun _ s' => exists x v h, bufs (fsys s) !! b = Some x /\ s' = served b (completed (hw (dev_of s)) x) v h s /\ ide_ok q s' /\
    match q with
    | [] => sector h = sector (hw (dev_of s))
    | c :: _ => exists y, bufs (fsys s) !! c = Some y /\ started y (hw (dev_of s)) h
    end) s.
Proof using Hfuel.
  intros Hok Hh1 Hh2. destruct Hok as [(Eq & v & Hv & Hl) Hnd Hlen Hw Hact]. destruct (Hw b ltac:(by left)) as (x & Hx & Hwx). specialize (Hact b q x eq_refl Hx).
  apply NoDup_cons in Hnd as [Hbq Hnd]. pose proof (lookup_lt_Some _ _ _ Hx) as Hbl.
  unfold ideintr. wp_step. eapply wp_result; [by apply run_acquire|]. unfold get_ide. wp_step. wp_step.
  change (idequeue (blk (dev_of (set_held (L_ide :: held s) s)))) with (idequeue (blk (dev_of s))). rewrite Eq. unfold get_qnext, get_ide, upd_ide. do 3 wp_step.
  change (qnext (blk (dev_of (set_held (L_ide :: held s) s)))) with (qnext (blk (dev_of s))). rewrite Hv. do 3 wp_step. set (s2 := set_blk _ _). wp_step.
  eapply wp_result; [by apply (run_get_buf s2 b x)|]. wp_step. apply wp_ide_transfer; [done|done|]. intros h0 S0. change (hw (dev_of s2)) with (hw (dev_of s)) in *.
  wp_step. eapply wp_result; [by apply run_buf_flags|]. wp_step. eapply wp_result; [by apply run_buf_flags|]. cbn [set_b_flags b_flags set_b_data].
  match goal with |- wp _ _ (with_buf b ?y h0 s2) => change y with (completed (hw (dev_of s)) x) end.
  wp_step. eapply wp_result; [apply run_wakeup; set_solver|]. set (s3 := set_procs _ _). assert (E3 : s3 = set_held (L_ide :: held s) (served b (completed (hw (dev_of s)) x) v h0 s)) by done.
  assert (Hoth : forall c, c ∈ q -> (<[b := completed (hw (dev_of s)) x]> (bufs (fsys s))) !! c = bufs (fsys s) !! c) by (intros c Hc; apply list_lookup_insert_ne; by intros <-).
  assert (Hout : forall h, (forall c q' y, q = c :: q' -> bufs (fsys s) !! c = Some y -> active y h) -> ide_ok q (served b (completed (hw (dev_of s)) x) v h s)).
  { intros h Hh. split; [done|done|done| |].
    - intros c Hc. cbn. rewrite Hoth by done. apply Hw. by right.
    - intros c q' y -> Hy. cbn in Hy. rewrite Hoth in Hy by (by left). by eapply Hh. }
  wp_step. wp_step. change (idequeue (blk (dev_of s3))) with v. destruct q as [|c q]; cbn [links] in Hl.
  - rewrite Hl. wp_step. wp_step. rewrite E3. eapply wp_result; [by apply (run_release_top _ L_ide (held s))|]. exists x, v, h0. split; [done|]. split; [by destruct s|].
    split; [|done]. by apply Hout.
  - destruct Hl as (-> & w & Hwc & Hl). destruct (Hw c ltac:(by right; left)) as (y & Hy & [Hr _]). wp_step.
    apply (wp_idestart c y); [cbn; rewrite Hoth by (by left); done|done|]. intros h1 Hst. change (hw (dev_of s3)) with h0 in Hst. apply (started_sector _ _ (hw (dev_of s))) in Hst; [|done].
    rewrite E3. eapply wp_result; [by apply (run_release_top _ L_ide (held s))|]. exists x, (Some c), h1. split; [done|]. split; [by destruct s|]. split; [|by exists y].
    apply (Hout h1). intros c' q' y' [= <- <-] Hy'. assert (y' = y) as -> by congruence. by eapply started_active.
Qed.

Lemma wpe_iderw q me p b x n s : cur s = Some me -> procs s !! me = Some p -> held s = [] -> bufs (fsys s) !! b = Some x -> b_lock x = Sleeplock 1 (pid p) -> wanted x ->
  b_dev x = 0 \/ havedisk1 (blk (dev_of s)) <> 0 -> ide_ok q s -> b ∉ q -> (b < NBUF)%nat -> (n + 2 <= fuel)%nat ->
  yields (ide_iderw fuel b) (waits me b q s) s /\
  wpe (waiting me b) (resumed me b) (request_done b) (ide_iderw fuel b) (fun _ s' => held s' = [] /\ request_done b s') n s.
Proof using Hfuel.
  intros Hc Hp Hh Hx Hlk Hw Hd Hok Hb Hlt Hf2. unfold ide_iderw. unfold wpe, yields.
  assert (Hsl : sl_of s (SL_buf b) = Some (Sleeplock 1 (pid p))) by (cbn; by rewrite Hx; cbn; rewrite Hlk).
  erewrite bind_ret_run; [|eapply run_holdingsleep; [done|done|by rewrite Hh; apply not_elem_of_nil|exact Hsl]]. cbn [locked sl_pid]. rewrite Z.eqb_refl. cbn [negb Z.eqb andb].
  rewrite (bind_ret_run _ _ _ _ _ (run_get_buf s b x Hx)). rewrite (proj2 (Z.eqb_neq _ _) (proj2 Hw)). unfold get_ide. mrun.
  assert (negb (b_dev x =? 0) && (havedisk1 (blk (dev_of s)) =? 0) = false) as ->.
  { destruct Hd as [->|Hd]; [done|]. rewrite (proj2 (Z.eqb_neq _ _) Hd). apply andb_false_r. }
  erewrite bind_ret_run; [|apply run_acquire; by rewrite Hh; apply not_elem_of_nil]. rewrite Hh. set (s1 := set_held [L_ide] s).
  assert (Hok1 : ide_ok q s1) by (destruct Hok as [O1 O2 O3 O4 O5]; by split). pose proof (run_enqueue b q s1 Hok1 Hb) as Eq.
  match goal with |- context [oposte _ _ _ _ _ (?m s1)] => assert (Em : m s1 = ((upd_ide (set_qnext b None);; pp ← iterate (S NBUF) last_link None; store_link pp (Some b));;
    q ← gets (fun s0 => idequeue (blk (dev_of s0))); when (bool_decide (q = Some b)) (idestart fuel (Some b));; iterate fuel (wait_done b) tt;; release L_ide) s1) by (unfold upd_ide; by mrun) end.
  rewrite Em. clear Em. rewrite (bind_ret_run _ _ _ _ _ Eq). mrun. set (s2 := set_blk _ s1).
  pose proof (idequeue_queued b q (blk (dev_of s)) (io_links _ _ Hok) Hb) as Ehd. change (idequeue (blk (dev_of s2))) with (idequeue (queued b q (blk (dev_of s)))). rewrite Ehd.
  pose proof (fun h => ide_ok_queued b q x h s1 Hok1 Hb Hlt Hx Hw) as Hq. destruct q as [|c q].
  - rewrite bool_decide_true by done. cbn [when]. assert (Hs2 : wp (idestart fuel (Some b)) (fun _ s3 => exists h', started x (hw (dev_of s2)) h' /\ s3 = set_hw h' s2) s2).
    { apply (wp_idestart b x); [done|apply Hw|]. intros h' Hst. by exists h'. }
    apply wp_returns in Hs2 as ([] & s3 & E3 & h' & Hst & ->). rewrite (bind_ret_run _ _ _ _ _ E3).
    apply (wait_release [] me p b x); try done. apply Hq. by eapply started_active.
  - rewrite bool_decide_false by (intros [= ->]; apply Hb; by left). cbn [when]. mrun. apply (wait_release (c :: q) me p b x); try done. specialize (Hq _ eq_refl).
    destruct Hq as [O1 O2 O3 O4 O5]. by split.
Qed.

End controller.

Lemma completed_finished {H} {HW : Hardware H} {ID : IdeDisk H} (h : H) x : finished (completed h x).
Proof.
  unfold finished, completed. cbn. change (Z.lor B_VALID B_DIRTY) with 6. change B_VALID with 2. change B_DIRTY with 4. apply Z.bits_inj'. intros n Hn.
  rewrite !Z.land_spec, Z.lnot_spec, Z.lor_spec by done. assert (n = 0 \/ n = 1 \/ n = 2 \/ 3 <= n) as [->|[->|[->|Hn3]]] by lia; cbn; rewrite ?andb_false_r, ?orb_true_r; try done.
  rewrite (Z.bits_above_log2 6 n), (Z.bits_above_log2 2 n) by (cbn; lia). by rewrite andb_false_r.
Qed.

(** C15: a disk interrupt completes the first request.  The interrupt handler takes the first buffer off the queue and marks it valid and clean.  After a write
    the sector of the disk holds the buffer's contents; after a read without error the buffer holds those of the sector; after a read that fails the buffer keeps its old
    contents, and is marked valid all the same.  Processes that sleep on it are woken, the next request, if any, is started, and nothing changes but this
    buffer, the state of those processes, the head of the queue and the controller. *)
Theorem ideintr_completes {H} {HW : Hardware H} {ID : IdeDisk H} (fuel b : nat) (q : list nat) (s : kst (fsst (devst idest H))) :
  (patience < fuel)%nat -> ide_ok (b :: q) s -> L_ide ∉ held s -> L_ptable ∉ held s ->
  exists x x' v s', ideintr fuel s = Ret tt s' /\ s' = served b x' v (hw (dev_of s')) s /\ ide_ok q s' /\ bufs (fsys s) !! b = Some x /\ bufs (fsys s') = <[b := x']> (bufs (fsys s)) /\
    procs s' = wake (Chan_buf b) <$> procs s /\ held s' = held s /\ mem (km s') = mem (km s) /\ finished x' /\
    let sec := sector (hw (dev_of s)) (Z.land (b_dev x) 1) (blockno x) in
    (if flag (b_flags x) B_DIRTY then data x' = data x /\ sec = longs (data x) 0 128
     else if failing (hw (dev_of s)) then data x' = data x else longs (data x') 0 128 = u32 <$> sec) /\
    match q with
    | [] => sector (hw (dev_of s')) = sector (hw (dev_of s))
    | c :: _ => exists y, bufs (fsys s) !! c = Some y /\ started y (hw (dev_of s)) (hw (dev_of s'))
    end.
Proof.
  intros Hf Hok Hh1 Hh2. pose proof (wp_ideintr fuel Hf b q s Hok Hh1 Hh2) as Hw. apply wp_returns in Hw as ([] & s' & E & x & v & h & Hx & -> & Hok' & Hq).
  exists x, (completed (hw (dev_of s)) x), v. eexists. split; [exact E|]. do 3 (split; [done|]). do 4 (split; [done|]). split; [apply completed_finished|]. split; [|done].
  pose proof (io_active _ _ Hok b q x eq_refl Hx) as Ha. unfold active in Ha. unfold completed. cbn [data]. cbv zeta. destruct (flag (b_flags x) B_DIRTY); [done|]. cbn [orb].
  destruct (failing (hw (dev_of s))); [done|]. rewrite <- (sector_len (hw (dev_of s)) (Z.land (b_dev x) 1) (blockno x)). apply longs_store_longs.
Qed.

(** C16: iderw waits for its request.  Called with the buffer locked and a transfer to do, iderw appends the buffer to the queue of requests, starts the
    disk when it is the only one, and goes to sleep on the buffer with the queue consistent, its lock given back and the buffers as they were.  A process asleep in
    iderw can be resumed before the request is done, by a kill for instance, and find anything changed: if that happens [n] times at most ([n] is any number below
    the bound on the iterations), and after that it is resumed with the request done, iderw goes back to sleep on the buffer each time the request is not done
    and returns only when it is, with no lock held. *)
Theorem iderw_waits {H} {HW : Hardware H} {ID : IdeDisk H} (fuel b me n : nat) (q : list nat) (p : proc) (x : buf) (s : kst (fsst (devst idest H))) :
  (patience < fuel)%nat -> (n + 2 <= fuel)%nat -> cur s = Some me -> procs s !! me = Some p -> held s = [] -> bufs (fsys s) !! b = Some x ->
  b_lock x = Sleeplock 1 (pid p) -> wanted x -> b_dev x = 0 \/ havedisk1 (blk (dev_of s)) <> 0 -> ide_ok q s -> b ∉ q -> (b < NBUF)%nat ->
  yields (ide_iderw fuel b) (waits me b q s) s /\
  wpe (waiting me b) (resumed me b) (request_done b) (ide_iderw fuel b) (fun _ s' => held s' = [] /\ request_done b s') n s.
Proof. intros. by eapply wpe_iderw. Qed.

(** A controller that is always ready, and its two disks. *)
Record ctl : Type := Ctl { c_task : Z -> Z; c_op : op; c_sect : Z -> Z -> list Z }.

#[export] Instance ex_ctl : Hardware ctl := {|
  in8 := fun port h => (if port =? 0x1f7 then 0x40 else 0, h);
  out8 := fun port v h =>
    if port =? 0x1f7 then
      Ctl (c_task h) (if v =? IDE_CMD_READ then Reading (task_dev (c_task h)) (task_sec (c_task h)) 0
                      else if v =? IDE_CMD_WRITE then Writing (task_dev (c_task h)) (task_sec (c_task h)) [] else c_op h) (c_sect h)
    else if (0x1f2 <=? port) && (port <=? 0x1f6) then Ctl (fun q => if q =? port then v else c_task h q) (c_op h) (c_sect h)
    else h;
  in32 := fun _ h =>
    match c_op h with
    | Reading d n k => (default 0 (take 128 (c_sect h d n ++ replicate 128 0) !! k), Ctl (c_task h) (Reading d n (S k)) (c_sect h))
    | _ => (0, h)
    end;
  out32 := fun _ w h =>
    match c_op h with
    | Writing d n ws =>
        if (List.length ws =? 127)%nat
        then Ctl (c_task h) Idle (fun d' n' => if bool_decide (d' = d /\ n' = n) then ws ++ [w] else c_sect h d' n')
        else Ctl (c_task h) (Writing d n (ws ++ [w])) (c_sect h)
    | _ => h
    end;
  mmio_ld := fun _ h => (0, h);
  mmio_st := fun _ _ h => h |}.

Lemma take_padded (l : list Z) : List.length (take 128 (l ++ replicate 128 0)) = 128%nat.
Proof. rewrite length_take, length_app, length_replicate. lia. Qed.

#[export] Instance ex_ide_disk : IdeDisk ctl.
Proof.
  refine {| busy := fun _ => O; patience := O; failing := fun _ => false; task := c_task; doing := c_op;
            sector := fun h d n => take 128 (c_sect h d n ++ replicate 128 0) |}; try done.
  - intros h d n. apply take_padded.
  - intros h p v Hp h'. unfold h'. cbn [out8 ex_ctl]. rewrite (proj2 (Z.eqb_neq p 0x1f7)), (proj2 (Z.leb_le 0x1f2 p)), (proj2 (Z.leb_le p 0x1f6)) by lia. done.
  - intros h w d n ws Hd Hl h'. unfold h'. cbn [out32 ex_ctl]. rewrite Hd. destruct (List.length ws =? 127)%nat eqn:E; [|done]. apply Nat.eqb_eq in E.
    split; [done|]. intros d' n'. cbn [c_sect]. destruct (bool_decide _); [|done]. apply take_app_length'. rewrite length_app. cbn. lia.
  - intros h d n k Hd Hk r. unfold r. cbn [in32 ex_ctl]. rewrite Hd. cbn [fst snd]. split; [|done].
    destruct (lookup_lt_is_Some_2 (take 128 (c_sect h d n ++ replicate 128 0)) k) as [v Hv]; [rewrite take_padded; lia|]. by rewrite Hv.
Defined.

(** A read of block 5 in progress, a write of block 7 queued behind it. *)
Definition ex_bufs : list buf :=
  Buf 0 1 5 (Sleeplock 1 1) 1 0 0 ∅ :: Buf B_DIRTY 1 7 (Sleeplock 1 1) 1 0 0 {[0 := 1]} :: replicate 28 (Buf 0 0 0 (Sleeplock 0 0) 0 0 0 ∅).
Definition ex_ctl_at (o : op) : ctl := Ctl (fun _ => 0) o (fun _ n => [n]).
Definition ex_disk (d : idest) (o : op) : kst (fsst (devst idest ctl)) :=
  KS (KM ∅ 0 true false ∅ 0) (running_proc :: replicate 63 proc0) (Some 0%nat) cpu0 [] 2 (Some 0%nat) 0 (replicate NFILE file0)
    (FS ex_bufs (Log 0 0 0 0 0 0 []) (Superblock 0 0 0 0 0 0 0) [] (Dev d ex_cons (Mp 0 [] 0 IOAPIC []) (ex_ctl_at o))).
Definition ex_queue2 : idest := Ide (Some 0%nat) (Some 1%nat :: replicate 29 None) 1.
Definition ex_queue1 : idest := Ide (Some 0%nat) (replicate 30 None) 1.

Lemma ide_ok_queue2 : ide_ok [0%nat; 1%nat] (ex_disk ex_queue2 (Reading 1 5 0)).
Proof.
  split; [|repeat constructor; set_solver|done|..].
  - cbn. split; [done|]. eexists. split; [done|]. split; [done|]. by exists None.
  - intros b Hb. assert (b = 0%nat \/ b = 1%nat) as [-> | ->] by set_solver; (eexists; split; [done|]); (split; [cbn; unfold FSSIZE; lia|done]).
  - intros b q x Hq Hx. injection Hq as <- <-. injection Hx as <-. done.
Qed.

Lemma ide_ok_queue1 : ide_ok [0%nat] (ex_disk ex_queue1 (Reading 1 5 0)).
Proof.
  split; [|repeat constructor; set_solver|done|..].
  - cbn. split; [done|]. by exists None.
  - intros b Hb. assert (b = 0%nat) as -> by set_solver; (eexists; split; [done|]). split; [cbn; unfold FSSIZE; lia|done].
  - intros b q x Hq Hx. injection Hq as <- <-. injection Hx as <-. done.
Qed.

(** Block 5 arrives in the first buffer, and the second one is written. *)
Lemma ideintr_completes_witness : exists x x' v s', let s := ex_disk ex_queue2 (Reading 1 5 0) in
  ideintr 1 s = Ret tt s' /\ s' = served 0 x' v (hw (dev_of s')) s /\ ide_ok [1%nat] s' /\ bufs (fsys s) !! 0%nat = Some x /\ bufs (fsys s') = <[0%nat := x']> (bufs (fsys s)) /\
  procs s' = wake (Chan_buf 0) <$> procs s /\ held s' = held s /\ mem (km s') = mem (km s) /\ finished x' /\
  let sec := sector (hw (dev_of s)) (Z.land (b_dev x) 1) (blockno x) in
  (if flag (b_flags x) B_DIRTY then data x' = data x /\ sec = longs (data x) 0 128
   else if failing (hw (dev_of s)) then data x' = data x else longs (data x') 0 128 = u32 <$> sec) /\
  exists y, bufs (fsys s) !! 1%nat = Some y /\ started y (hw (dev_of s)) (hw (dev_of s')).
Proof.
  exact (ideintr_completes 1 0 [1%nat] (ex_disk ex_queue2 (Reading 1 5 0)) (Nat.lt_0_succ 0) ide_ok_queue2 (not_elem_of_nil _) (not_elem_of_nil _)).
Defined.

(** The process asks for the write while the read is in progress. *)
Lemma iderw_waits_witness : let s := ex_disk ex_queue1 (Reading 1 5 0) in
  yields (ide_iderw 7 1) (waits 0 1 [0%nat] s) s /\
  wpe (waiting 0 1) (resumed 0 1) (request_done 1) (ide_iderw 7 1) (fun _ s' => held s' = [] /\ request_done 1 s') 5 s.
Proof.
  eapply (iderw_waits 7 1 0 5 [0%nat]); try done; try (cbn; lia); try apply ide_ok_queue1; [set_solver|unfold NBUF; lia].
Defined.
