(* ===== verification/Trap.v ===== *)
(** * Traps (trap.c, syscall.c, proc.c)

    The whole of trap: system calls, the interrupts of the clock, the disk, the
    keyboard and the serial port, page faults, and everything else.  Here the
    kernel is put together: the table of system calls with the handlers of
    [Sysproc] and [Sysfile], over the file system on the disk driver of [Ide], with
    the console of [Console].  The registers trap reads are arguments: [eflags],
    the flags on entry, and [cr2], the address of a page fault.  The messages of
    the page fault case are left out. *)

From Stdlib Require Import ZArith Lia Ascii String.
From stdpp Require Import base tactics numbers option list strings zmap.
From S2P Require Import Prelude Memory Mmu StringOps Kalloc Vm Cow Wmap Kernel Spinlock Proc Pipe File Fork PageFault Syscall Sysproc FsState Bio Fs Exec Sysfile Print Devices Console Ide.

Section trap.
Context {KI : KernelImage} {KS0 : KernelSymbols} {H : Type} {HW : Hardware H} (fuel : nat).
#[local] Abbreviation kern := (kst (fsst (devst idest H))).
#[local] Abbreviation MD := (M kern).

#[local] Instance trap_disk : BlockDevice (devst idest H) := ide_device fuel.
#[local] Instance trap_devsw : DevSw (devst idest H) := devsw fuel.
#[local] Instance trap_fs : FileSys (fsst (devst idest H)) := xv6fs fuel.

(** The array syscalls, by the numbers of syscall.h. *)
Definition syscalls (num : Z) : option (MD Z) :=
  match num with
  | 1 => Some sys_fork
  | 2 => Some (sys_exit fuel)
  | 3 => Some (sys_wait fuel)
  | 4 => Some (sys_pipe fuel)
  | 5 => Some (sys_read fuel)
  | 6 => Some (sys_kill fuel)
  | 7 => Some (sys_exec fuel)
  | 8 => Some (sys_fstat fuel)
  | 9 => Some (sys_chdir fuel)
  | 10 => Some (sys_dup fuel)
  | 11 => Some sys_getpid
  | 12 => Some (sys_sbrk fuel)
  | 13 => Some (sys_sleep fuel)
  | 14 => Some sys_uptime
  | 15 => Some (sys_open fuel)
  | 16 => Some (sys_write fuel)
  | 17 => Some (sys_mknod fuel)
  | 18 => Some (sys_unlink fuel)
  | 19 => Some (sys_link fuel)
  | 20 => Some (sys_mkdir fuel)
  | 21 => Some (sys_close fuel)
  | 22 => Some (wmap fuel)
  | 23 => Some (va2pa fuel)
  | 24 => Some (sys_wunmap fuel)
  | 25 => Some (getwmapinfo fuel)
  | _ => None
  end.

Definition unknown_syscall (p : proc) (num : Z) : MD unit :=
  cprintf ("%d %s: unknown sys call %d" ++ newline) [AInt (pid p); AStr (Some (until_nul (name p))); AInt num].

(** ** proc.c *)

Definition mycpu (eflags : Z) : MD nat :=
  if flag eflags FL_IF then panic "mycpu called with interrupts enabled"
  else
    apicid ← lapicid;
    ids ← get_mp apicids;
    match find_index (fun a => a =? apicid) ids with
    | Some i => mret i
    | None => panic "unknown apicid"
    end.

Definition cpuid (eflags : Z) : MD Z := c ← mycpu eflags; mret (Z.of_nat c).

(** ** trap.c *)

(** [vectors] are the entry points vectors.S gives; the table is the answer. *)
Definition tvinit (vectors : Z -> Z) : MD (list gatedesc) :=
  let gates := (fun i => SETGATE false (Z.shiftl SEG_KCODE 3) (vectors (Z.of_nat i)) 0) <$> seq 0 256 in
  initlock L_tickslock;;
  mret (<[Z.to_nat T_SYSCALL := SETGATE true (Z.shiftl SEG_KCODE 3) (vectors T_SYSCALL) DPL_USER]> gates).

Definition trap_clock (eflags : Z) : MD unit :=
  c ← cpuid eflags;
  when (c =? 0)
    (acquire L_tickslock;;
     modify (fun s => set_ticks (u32 (ticks s + 1)) s);;
     wakeup Chan_ticks;;
     release L_tickslock);;
  lapiceoi.

Definition trap_spurious (eflags tf : Z) : MD unit :=
  c ← cpuid eflags;
  cs ← kld16 (tf + tf_cs);
  eip ← kld32 (tf + tf_eip);
  cprintf ("cpu%d: spurious interrupt at %x:%x" ++ newline) [AInt c; AInt cs; AInt eip];;
  lapiceoi.

(** The default case. *)
Definition trap_unexpected (eflags cr2 tf : Z) : MD unit :=
  p ← myproc;
  cs ← kld16 (tf + tf_cs);
  trapno ← kld32 (tf + tf_trapno);
  err ← kld32 (tf + tf_err);
  eip ← kld32 (tf + tf_eip);
  match (if Z.land cs 3 =? 0 then None else p) with
  | None =>
      c ← cpuid eflags;
      cprintf ("unexpected trap %d from cpu %d eip %x (cr2=0x%x)" ++ newline) [AInt trapno; AInt c; AInt eip; AInt cr2];;
      panic "trap"
  | Some i =>
      p ← get_proc i;
      c ← cpuid eflags;
      cprintf ("pid %d %s: trap %d err %d on cpu %d eip 0x%x addr 0x%x--kill proc" ++ newline)
        [AInt (pid p); AStr (Some (until_nul (name p))); AInt trapno; AInt err; AInt c; AInt eip; AInt cr2];;
      upd_proc i (set_p_killed 1)
  end.

(** The switch. *)
Definition trap_switch (eflags cr2 tf trapno : Z) : MD flow :=
  if trapno =? T_IRQ0 + IRQ_TIMER then trap_clock eflags;; mret Break
  else if trapno =? T_IRQ0 + IRQ_IDE then ideintr fuel;; lapiceoi;; mret Break
  else if trapno =? T_IRQ0 + IRQ_IDE + 1 then mret Break
  else if trapno =? T_IRQ0 + IRQ_KBD then kbdintr fuel;; lapiceoi;; mret Break
  else if trapno =? T_IRQ0 + IRQ_COM1 then uartintr fuel;; lapiceoi;; mret Break
  else if (trapno =? T_IRQ0 + 7) || (trapno =? T_IRQ0 + IRQ_SPURIOUS) then trap_spurious eflags tf;; mret Break
  else if trapno =? T_PGFLT then pgflt fuel cr2
  else mret Default.

(** The case T_SYSCALL. *)
Definition exit_killed : MD unit :=
  i ← curproc; p ← get_proc i; when (negb (killed p =? 0)) (exit fuel).

Definition trap_syscall (tf : Z) : MD unit :=
  exit_killed;;
  i ← curproc;
  upd_proc i (set_p_tf tf);;
  syscall syscalls unknown_syscall;;
  exit_killed.

Definition trap (eflags cr2 tf : Z) : MD unit :=
  trapno ← kld32 (tf + tf_trapno);
  if trapno =? T_SYSCALL then trap_syscall tf
  else
    w ← trap_switch eflags cr2 tf trapno;
    match w with
    | Return => mret tt
    | Break => cs ← kld16 (tf + tf_cs); trap_tail fuel cs trapno
    | Default => trap_unexpected eflags cr2 tf;; cs ← kld16 (tf + tf_cs); trap_tail fuel cs trapno
    end.

End trap.

(** ** The clock *)

Section clock.
Context {H : Type} {HW : Hardware H}.
#[local] Abbreviation kern := (kst (fsst (devst idest H))).
Implicit Types s : kern.

(** Reading the identity of the local interrupt controller at [a], and acknowledging an interrupt. *)
Definition apic_read (a : Z) (h : H) : Z * H :=
  if a =? 0 then (0, h) else let r := mmio_ld (a + 4 * ID) h in (Z.shiftr (u32 (fst r)) 24, snd r).
Definition acked (a : Z) (h : H) : H :=
  if a =? 0 then h else snd (mmio_ld (a + 4 * ID) (mmio_st (a + 4 * EOI) 0 h)).

Definition apic_of (s : kern) : Z * H := apic_read (lapic (mpt (dev_of s))) (hw (dev_of s)).

Lemma run_lapicid s : lapicid s = Ret (fst (apic_of s)) (set_hw (snd (apic_of s)) s).
Proof using.
  unfold lapicid, apic_of, apic_read, get_mp. mrun. destruct (_ =? 0); [cbn; by rewrite set_hw_id|]. unfold lapic_at, get_mp. mrun.
  unfold hw_in, obind, mbind, M_bind. destruct (mmio_ld _ _) as [v h] eqn:E. done.
Qed.

Lemma run_lapiceoi s : lapiceoi s = Ret tt (set_hw (acked (lapic (mpt (dev_of s))) (hw (dev_of s))) s).
Proof using.
  unfold lapiceoi, acked, get_mp. mrun. destruct (_ =? 0); cbn [negb when]; [cbn; by rewrite set_hw_id|]. unfold lapicw, lapic_at, get_mp, hw_out. mrun.
  unfold hw_in, obind, mbind, M_bind. cbn. change (u32 0) with 0. destruct (mmio_ld _ _) as [v h] eqn:E. cbn. done.
Qed.

Lemma run_cpuid s eflags c : flag eflags FL_IF = false -> find_index (fun a => a =? fst (apic_of s)) (apicids (mpt (dev_of s))) = Some c ->
  cpuid eflags s = Ret (Z.of_nat c) (set_hw (snd (apic_of s)) s).
Proof using.
  intros Hf Hc. unfold cpuid, mycpu. rewrite Hf. mrun. rewrite (bind_ret_run _ _ _ _ _ (run_lapicid s)). unfold get_mp. mrun.
  change (mpt (dev_of (set_hw _ s))) with (mpt (dev_of s)). by rewrite Hc.
Qed.

(** The clock has ticked: on the first CPU the count is advanced and the processes that sleep on it are runnable. *)
Definition tick (c : nat) (s : kern) : kern :=
  if (c =? 0)%nat then set_ticks (u32 (ticks s + 1)) (set_procs (wake Chan_ticks <$> procs s) s) else s.
Definition after_tick (c : nat) (s : kern) : kern := set_hw (acked (lapic (mpt (dev_of s))) (snd (apic_of s))) (tick c s).

Lemma run_trap_clock s eflags c : flag eflags FL_IF = false -> find_index (fun a => a =? fst (apic_of s)) (apicids (mpt (dev_of s))) = Some c -> held s = [] ->
  trap_clock eflags s = Ret tt (after_tick c s).
Proof using.
  intros Hf Hc Hh. unfold trap_clock. rewrite (bind_ret_run _ _ _ _ _ (run_cpuid s eflags c Hf Hc)). unfold after_tick, tick.
  replace (Z.of_nat c =? 0) with (c =? 0)%nat by (destruct c; done). destruct (c =? 0)%nat; cbn [when]; mrun; [|by rewrite run_lapiceoi].
  krun_with run_acquire; [|cbn; rewrite Hh; apply not_elem_of_nil]. mrun. krun_with run_wakeup; [|cbn; rewrite Hh; by intros [=]%list_elem_of_singleton].
  krun_with run_release_top; [|cbn; by rewrite Hh|apply not_elem_of_nil]. rewrite run_lapiceoi. destruct s. cbn in Hh. by subst.
Qed.

Lemma after_tick_frame c s i p : procs s !! i = Some p -> state p = RUNNING ->
  procs (after_tick c s) !! i = Some p /\ cur (after_tick c s) = cur s /\ held (after_tick c s) = held s /\ mem (km (after_tick c s)) = mem (km s).
Proof using.
  intros Hp Hs. unfold after_tick, tick. destruct (c =? 0)%nat; [|done]. split; [|done]. cbn. rewrite list_lookup_fmap, Hp. cbn. unfold wake. by rewrite Hs.
Qed.

End clock.

Section return_from_trap.
Context {KI : KernelImage} {KS0 : KernelSymbols} {F : Type} {FS : FileSys F} (fuel : nat).

Lemma run_yield (s : kst F) i p : cur s = Some i -> procs s !! i = Some p -> held s = [] ->
  yield s = Sched (set_held [L_ptable] (set_procs (<[i := set_p_state RUNNABLE p]> (procs s)) s)) (fun s' => release L_ptable s').
Proof.
  intros Hc Hp Hh. unfold yield. krun_with run_acquire; [|rewrite Hh; apply not_elem_of_nil]. krun_with run_curproc; [|done]. krun_with run_upd_proc; [|done].
  change ((sched ≫= ?k) ?x) with (obind k (sched x)). erewrite (run_sched _ i); [|done|cbn; by rewrite Hh|ksimp; apply list_lookup_insert_eq; by eapply lookup_lt_Some|done].
  cbn [obind]. by rewrite Hh.
Qed.

Lemma run_exit_if_killed (s : kst F) i p cs : cur s = Some i -> procs s !! i = Some p -> killed p = 0 -> exit_if_killed fuel cs s = Ret tt s.
Proof. intros Hc Hp Hk. unfold exit_if_killed, myproc. mrun. rewrite Hc. krun_with run_get_proc; [|done]. by rewrite Hk. Qed.

(** A clock interrupt gives up the CPU, and the process goes on when it gets it back. *)
Lemma run_trap_tail_clock (s : kst F) i p cs : cur s = Some i -> procs s !! i = Some p -> killed p = 0 -> state p = RUNNING -> held s = [] ->
  exists k, trap_tail fuel cs (T_IRQ0 + IRQ_TIMER) s = Sched (set_held [L_ptable] (set_procs (<[i := set_p_state RUNNABLE p]> (procs s)) s)) k /\
    forall s2 p2, cur s2 = Some i -> procs s2 !! i = Some p2 -> killed p2 = 0 -> held s2 = [L_ptable] -> k s2 = Ret tt (set_held [] s2).
Proof.
  intros Hc Hp Hk Hs Hh. unfold trap_tail. rewrite (bind_ret_run _ _ _ _ _ (run_exit_if_killed s i p cs Hc Hp Hk)).
  assert (Ht : trap_timer (T_IRQ0 + IRQ_TIMER) s = yield s).
  { unfold trap_timer, myproc. mrun. rewrite Hc. krun_with run_get_proc; [|done]. by rewrite bool_decide_true, Z.eqb_refl. }
  change ((trap_timer _ ≫= ?k) s) with (obind k (trap_timer (T_IRQ0 + IRQ_TIMER) s)). rewrite Ht, (run_yield s i p) by done. cbn [obind]. eexists. split; [done|].
  intros s2 p2 Hc2 Hp2 Hk2 Hh2. cbv beta. rewrite (run_release_top s2 L_ptable []) by (done || apply not_elem_of_nil). cbn [obind]. by rewrite (run_exit_if_killed _ i p2).
Qed.

End return_from_trap.

(** C17: a clock tick.  A timer interrupt in a running process that has not been killed: on the first CPU the count of ticks goes up by one (modulo 2^32) and
    every process asleep on it becomes runnable; the interrupt is acknowledged; the process is made runnable and gives up the CPU with the
    process table locked, everything else unchanged.  When it is given the CPU again, trap returns with the lock released. *)
Theorem clock_tick {KI : KernelImage} {KS0 : KernelSymbols} {H} {HW : Hardware H} (fuel : nat) (eflags cr2 tf : Z) (i c : nat) (p : proc) (s : kst (fsst (devst idest H))) :
  flag eflags FL_IF = false -> ld32 (mem (km s)) (tf + tf_trapno) = T_IRQ0 + IRQ_TIMER ->
  find_index (fun a => a =? fst (apic_of s)) (apicids (mpt (dev_of s))) = Some c ->
  cur s = Some i -> procs s !! i = Some p -> state p = RUNNING -> killed p = 0 -> held s = [] ->
  exists k, trap fuel eflags cr2 tf s = Sched (set_held [L_ptable] (set_procs (<[i := set_p_state RUNNABLE p]> (procs (tick c s))) (after_tick c s))) k /\
    forall s2 p2, cur s2 = Some i -> procs s2 !! i = Some p2 -> killed p2 = 0 -> held s2 = [L_ptable] -> k s2 = Ret tt (set_held [] s2).
Proof.
  intros Hf Hno Hc Hcur Hp Hs Hk Hh. destruct (after_tick_frame c s i p Hp Hs) as (Hp1 & Hc1 & Hh1 & Hm1).
  unfold trap, kld32. mrun. rewrite Hno. change (T_IRQ0 + IRQ_TIMER =? T_SYSCALL) with false. cbv iota. unfold trap_switch. rewrite Z.eqb_refl. mrun.
  rewrite (bind_ret_run _ _ _ _ _ (run_trap_clock s eflags c Hf Hc Hh)). mrun. unfold kld16. mrun.
  edestruct (run_trap_tail_clock (FS := trap_fs fuel) fuel (after_tick c s) i p) as (k & -> & Hres); [by rewrite Hc1|done..|by rewrite Hh1|]. exists k. split; [|done].
  unfold after_tick. done.
Qed.

Section refused.
Context {KI : KernelImage} {KS0 : KernelSymbols} {H : Type} {HW : Hardware H} {BO : Board H} (fuel : nat).
#[local] Abbreviation kern := (kst (fsst (devst idest H))).
Implicit Types s : kern.

Lemma syscalls_outside num : ~ 1 <= num <= 25 -> syscalls (HW := HW) fuel num = None.
Proof using. intros Hn. destruct num as [|q|q]; [done| |done]. do 5 (destruct q as [q|q|]; try done; try lia). Qed.

Lemma run_exit_killed s i p : cur s = Some i -> procs s !! i = Some p -> killed p = 0 -> exit_killed fuel s = Ret tt s.
Proof using. intros Hc Hp Hk. unfold exit_killed. krun_with run_curproc; [|done]. krun_with run_get_proc; [|done]. by rewrite Hk. Qed.

Lemma unknown_fmt p num : fmt_ok (bytes_of ("%d %s: unknown sys call %d" ++ newline)) [AInt (pid p); AStr (Some (until_nul (name p))); AInt num] = true.
Proof using. done. Qed.

End refused.

(** an unknown system call is refused.  A system call trap whose number is not one of the 25 of the table prints a message, answers -1 in the register eax of the trap
    frame, and changes nothing else: no process, lock, file or buffer, no memory outside the screen and that register. *)
Theorem unknown_syscall_refused {KI : KernelImage} {KS0 : KernelSymbols} {H} {HW : Hardware H} {BO : Board H} (fuel : nat) (eflags cr2 tf : Z) (i : nat) (p : proc)
    (s : kst (fsst (devst idest H))) :
  ld32 (mem (km s)) (tf + tf_trapno) = T_SYSCALL -> ~ 1 <= s32 (ld32 (mem (km s)) (tf + tf_eax)) <= 25 ->
  cur s = Some i -> procs s !! i = Some p -> killed p = 0 -> held s = [] -> panicked (cn (dev_of s)) = 0 -> mem_ok (mem (km s)) -> 0 <= cursor (hw (dev_of s)) < 2000 ->
  exists s1, prints (set_procs (<[i := set_p_tf tf p]> (procs s)) s) s1 /\
    trap fuel eflags cr2 tf s = Ret tt (set_km (set_mem (st32 (mem (km s1)) (tf + tf_eax) (-1)) (km s1)) s1).
Proof.
  intros Hno Hn Hc Hp Hk Hh Hpan Hok Hcu. set (s0 := set_procs (<[i := set_p_tf tf p]> (procs s)) s).
  assert (Hp0 : procs s0 !! i = Some (set_p_tf tf p)) by (cbn; apply list_lookup_insert_eq; by eapply lookup_lt_Some).
  unfold trap, kld32. mrun. rewrite Hno, Z.eqb_refl. unfold trap_syscall.
  rewrite (bind_ret_run _ _ _ _ _ (run_exit_killed fuel s i p Hc Hp Hk)). krun_with run_curproc; [|done]. krun_with run_upd_proc; [|done]. fold s0.
  pose proof (wp_cprintf _ _ s0 s0 (ex_intro _ _ (conj (shown_refl s0 Hok) Hcu)) Hpan ltac:(cbn; rewrite Hh; apply not_elem_of_nil)
    (unknown_fmt (set_p_tf tf p) (s32 (ld32 (mem (km s)) (tf + tf_eax))))) as (u & s1 & E & Hs1)%wp_returns. destruct u. exists s1. split; [done|].
  destruct (prints_held_eq _ _ Hs1) as (Hh1 & Hp1 & _). assert (Hc1 : cur s1 = Some i) by (by destruct Hs1 as (? & (? & ? & -> & _) & _)).
  set (s2 := set_km _ s1). enough (Es : syscall (syscalls fuel) (unknown_syscall) s0 = Ret tt s2).
  { rewrite (bind_ret_run _ _ _ _ _ Es). apply (run_exit_killed fuel s2 i (set_p_tf tf p)); [done|cbn; by rewrite Hp1|done]. }
  unfold syscall. krun_with run_curproc; [|done]. krun_with run_get_proc; [|done]. unfold kld32. mrun. change (mem (km s0)) with (mem (km s)). cbn [Kernel.tf set_p_tf].
  replace (if 0 <? _ then _ else _) with (@None (M (kst (fsst (devst idest H))) Z)) by (destruct (0 <? _); [by rewrite syscalls_outside|done]).
  unfold unknown_syscall. rewrite (bind_ret_run _ _ _ _ _ E). rewrite (bind_ret_run _ _ _ _ _ (run_get_proc s1 i (set_p_tf tf p) ltac:(by rewrite Hp1))). done.
Qed.

(** ** Sleeping for a number of ticks *)

Section sleep.
Context {KI : KernelImage} {KS0 : KernelSymbols} {F : Type} {FS : FileSys F}.

(** The ticks since [t0] are fewer than asked for, and nobody killed the process. *)
Definition keeps_waiting (i : nat) (t0 n : Z) (s : kst F) : Prop := u32 (ticks s - t0) < u32 n /\ exists p, procs s !! i = Some p /\ killed p = 0.

(** The process sleeps on the clock. *)
Definition on_clock (i : nat) (t0 n : Z) (s1 : kst F) : Prop := asleep i Chan_ticks s1 /\ held s1 = [L_ptable] /\ keeps_waiting i t0 n s1.

(** The process gets the CPU back, whatever has happened meanwhile. *)
Definition back (i : nat) (s1 s2 : kst F) : Prop := held s2 = [L_ptable] /\ cur s2 = Some i /\ exists p2, procs s2 !! i = Some p2.

Definition slept (i : nat) (t0 n r : Z) (s' : kst F) : Prop := held s' = [] /\
  (r = 0 /\ u32 n <= u32 (ticks s' - t0) \/ r = -1 /\ u32 (ticks s' - t0) < u32 n /\ exists p, procs s' !! i = Some p /\ killed p <> 0).

Lemma sleep_loop_ends (i : nat) (t0 n : Z) fuel (s : kst F) p : held s = [L_tickslock] -> cur s = Some i -> procs s !! i = Some p -> ~ keeps_waiting i t0 n s ->
  exists r s', iterate (S fuel) (sleep_body t0 n) tt s = Ret r s' /\ slept i t0 n r s'.
Proof.
  intros Hh Hc Hp Hw. cbn [iterate]. assert (exists r, sleep_body t0 n tt s = Ret (inr r) (set_held [] s) /\ slept i t0 n r (set_held [] s)) as (r & E & Hs).
  { unfold sleep_body. mrun. pose proof (run_release_top s L_tickslock [] Hh (not_elem_of_nil _)) as Hr. destruct (Z.ltb_spec (u32 (ticks s - t0)) (u32 n)) as [Hlt|Hge].
    - assert (Hk : killed p <> 0) by (intros Hk; apply Hw; split; [done|by exists p]). exists (-1). split; [|split; [done|right; split; [done|split; [done|by exists p]]]].
      krun_with run_curproc; [|done]. krun_with run_get_proc; [|done]. rewrite (proj2 (Z.eqb_neq _ _) Hk). cbn [negb]. by rewrite (bind_ret_run _ _ _ _ _ Hr).
    - exists 0. split; [by rewrite (bind_ret_run _ _ _ _ _ Hr)|]. split; [done|by left]. }
  exists r, (set_held [] s). split; [by rewrite (bind_ret_run _ _ _ _ _ E)|done].
Qed.

Lemma sleep_loop_sleeps (i : nat) (t0 n : Z) fuel (s : kst F) p : held s = [L_tickslock] -> cur s = Some i -> procs s !! i = Some p -> keeps_waiting i t0 n s ->
  exists k, iterate (S fuel) (sleep_body t0 n) tt s = Sched (set_held [L_ptable] (set_procs (<[i := sleeping Chan_ticks p]> (procs s)) s)) k /\
    forall s2 p2, held s2 = [L_ptable] -> procs s2 !! i = Some p2 ->
      k s2 = iterate fuel (sleep_body t0 n) tt (set_held [L_tickslock] (set_procs (<[i := set_p_chan None p2]> (procs s2)) s2)).
Proof.
  intros Hh Hc Hp (Hlt & p' & Hp' & Hk). assert (p' = p) as -> by congruence. eexists. cbn [iterate]. split.
  - unfold mbind at 1, M_bind at 1. assert (E : sleep_body t0 n tt s = (sleep Chan_ticks L_tickslock;; mret (inl tt)) s).
    { unfold sleep_body. mrun. rewrite (proj2 (Z.ltb_lt _ _) Hlt). krun_with run_curproc; [|done]. krun_with run_get_proc; [|done]. by rewrite Hk. }
    rewrite E. unfold mbind at 1, M_bind at 1. rewrite (run_sleep s i p) by done. reflexivity.
  - intros s2 p2 Hh2 Hp2. cbv beta. rewrite (run_sleep_resumed s2 i p2 L_tickslock Hh2 Hp2). done.
Qed.

Lemma wpe_sleep_loop (i : nat) (t0 n : Z) (m : nat) : forall fuel (s : kst F) p, (m + 2 <= fuel)%nat -> held s = [L_tickslock] -> cur s = Some i -> procs s !! i = Some p ->
  wpe (on_clock i t0 n) (back i) (fun s2 => ~ keeps_waiting i t0 n s2) (iterate fuel (sleep_body t0 n) tt) (slept i t0 n) m s.
Proof.
  assert (Hd : forall s : kst F, {keeps_waiting i t0 n s} + {~ keeps_waiting i t0 n s}).
  { intros s. unfold keeps_waiting. destruct (procs s !! i) as [p|]; [|right; naive_solver]. destruct (decide (u32 (ticks s - t0) < u32 n /\ killed p = 0)); [left|right]; naive_solver. }
  induction m as [|m IH]; intros fuel s p Hf Hh Hc Hp; (destruct fuel as [|fuel]; [lia|]); destruct (Hd s) as [Hw|Hw].
  2, 4: destruct (sleep_loop_ends i t0 n fuel s p Hh Hc Hp Hw) as (r & s' & E & Hs); unfold wpe; by rewrite E.
  all: destruct (sleep_loop_sleeps i t0 n fuel s p Hh Hc Hp Hw) as (k & E & Hk); unfold wpe; rewrite E; cbn [oposte]; split;
    [pose proof (lookup_lt_Some _ _ _ Hp); split; [exists (sleeping Chan_ticks p); ksimp; by rewrite list_lookup_insert_eq|]; split; [done|];
     destruct Hw as (Hlt & p' & Hp' & Hkp); assert (p' = p) as -> by congruence; split; [done|]; exists (sleeping Chan_ticks p); ksimp; by rewrite list_lookup_insert_eq|].
  all: intros s2 (Hh2 & Hc2 & p2 & Hp2); rewrite (Hk s2 p2 Hh2 Hp2); set (s3 := set_held _ _); pose proof (lookup_lt_Some _ _ _ Hp2) as Hl2;
    assert (Hp3 : procs s3 !! i = Some (set_p_chan None p2)) by (by ksimp; apply list_lookup_insert_eq); split; [intros Hw2|].
  2: done.
  3: intros _; apply (IH fuel s3 _ ltac:(lia) eq_refl Hc2 Hp3).
  all: destruct fuel as [|fuel]; [lia|]; destruct (sleep_loop_ends i t0 n fuel s3 _ eq_refl Hc2 Hp3) as (r & s' & E' & Hs'); [|by rewrite E'].
  all: intros (Hlt & p3 & Hp3' & Hk3); apply Hw2; split; [done|]; exists p2; split; [done|]; rewrite Hp3 in Hp3'; by injection Hp3' as <-.
Qed.

End sleep.

(** C20: sleep(n) waits for n ticks.  The system call puts the process to sleep on the clock, with no lock but that of the process table, as long as fewer than n ticks
    have passed since the call and the process is not killed; the process may get the CPU back any number of ticks later, or with none, and then goes back to sleep.  If that
    happens [m] times at most ([m] is any number below the bound on the iterations) before n ticks have passed or it is killed, the call returns: 0 when at least n ticks have
    passed, also when the count wraps around, and -1 when the process is killed before that.  Ticks are counted modulo 2^32, and a negative n is read as unsigned. *)
Theorem sleep_waits {KI : KernelImage} {KS0 : KernelSymbols} {F} {FS : FileSys F} (fuel i m : nat) (p : proc) (n : Z) (s : kst F) :
  cur s = Some i -> procs s !! i = Some p -> held s = [] -> sysarg s p 0 n -> (m + 2 <= fuel)%nat ->
  wpe (on_clock i (ticks s) n) (back i) (fun s2 => ~ keeps_waiting i (ticks s) n s2) (sys_sleep fuel) (slept i (ticks s) n) m s.
Proof.
  intros Hc Hp Hh Ha Hf. unfold sys_sleep. unfold wpe. rewrite (run_with_int fuel s i p) with (v := n) by (done || lia).
  krun_with run_acquire; [|rewrite Hh; apply not_elem_of_nil]. mrun. rewrite Hh. by apply (wpe_sleep_loop i (ticks s) n m fuel _ p).
Qed.

(** ** Instances *)

(** A machine whose process is interrupted, with another one that sleeps on the clock; the trap frame is in page 0x80700000. *)
Definition ex_frame (trapno eax : Z) : kmst := KM (st32 (st32 ∅ (0x80700000 + tf_trapno) trapno) (0x80700000 + tf_eax) eax) 0 true false ∅ 0.
Definition ex_sleeper : proc := sleeping Chan_ticks (set_p_pid 2 proc0).
Definition ex_trapped {H} (t : kmst) (h : H) : kst (fsst (devst idest H)) :=
  KS t (running_proc :: ex_sleeper :: replicate 62 proc0) (Some 0%nat) cpu0 [] 3 (Some 0%nat) 0xFFFFFFFF (replicate NFILE file0)
    (FS [] (Log 0 0 0 0 0 0 []) (Superblock 0 0 0 0 0 0 0) [] (Dev (Ide None [] 0) ex_cons (Mp 0xFEE00000 [0] 0 IOAPIC []) h)).

(** The count wraps around to 0, and the sleeper becomes runnable. *)
Lemma clock_tick_witness : exists s1 k, trap 1 0 0 0x80700000 (ex_trapped (ex_frame 32 0) (ex_ctl_at Idle)) = Sched s1 k /\
  ticks s1 = 0 /\ procs s1 = set_p_state RUNNABLE running_proc :: set_p_state RUNNABLE ex_sleeper :: replicate 62 proc0 /\ held s1 = [L_ptable].
Proof.
  destruct (clock_tick (HW := ex_ctl) 1 0 0 0x80700000 0 0 running_proc (ex_trapped (ex_frame 32 0) (ex_ctl_at Idle)) eq_refl eq_refl eq_refl eq_refl eq_refl eq_refl eq_refl eq_refl) as (k & E & _).
  eexists _, k. split; [exact E|]. vm_compute. auto.
Defined.

Lemma unknown_syscall_refused_witness : let s := ex_trapped (ex_frame 64 26) (Term 0 0 [] []) in
  exists s1, prints (set_procs (<[0%nat := set_p_tf 0x80700000 running_proc]> (procs s)) s) s1 /\
    trap 1 0 0 0x80700000 s = Ret tt (set_km (set_mem (st32 (mem (km s1)) (0x80700000 + tf_eax) (-1)) (km s1)) s1).
Proof.
  intros s. apply (unknown_syscall_refused 1 0 0 0x80700000 0 running_proc s); try done; [|by apply mem_ok_by_eval].
  change (s32 (ld32 (mem (km s)) (0x80700000 + tf_eax))) with 26. lia.
Defined.

Lemma sleep_waits_witness : wpe (on_clock 0 (ticks (ex_call [10])) 10) (back 0) (fun s2 => ~ keeps_waiting 0 (ticks (ex_call [10])) 10 s2) (sys_sleep (FS := no_fs) 5)
  (slept 0 (ticks (ex_call [10])) 10) 3 (ex_call [10]).
Proof.
  assert (Ha : sysarg (ex_call [10]) calling_proc 0 10) by (apply sysarg_by_eval; vm_compute; reflexivity).
  exact (sleep_waits (FS := no_fs) 5 0 3 calling_proc 10 (ex_call [10]) eq_refl eq_refl eq_refl Ha (le_n 5)).
Defined.
