(* ===== verification/Mp.v ===== *)
(** * Processor discovery (mp.c, mp.h)

    The firmware leaves a table of the processors and interrupt controllers in
    memory.  mpinit finds it by its signature and checksum and records the local
    interrupt controllers, one for each processor.  The theorem is that it reads
    every table of known entries, the fact after it that it never ends on another
    one. *)

From Stdlib Require Import ZArith Lia Ascii String.
From stdpp Require Import base tactics numbers option list strings zmap.
From S2P Require Import Prelude Memory Mmu StringOps Kalloc Kernel Proc Pipe FsState Fs Print Devices Console.

Definition NCPU : nat := 8.
Definition MPPROC : Z := 0x00.
Definition MPBUS : Z := 0x01.
Definition MPIOAPIC : Z := 0x02.
Definition MPIOINTR : Z := 0x03.
Definition MPLINTR : Z := 0x04.

(** ** Sizes and fields of the structures *)
Definition sizeof_mp : Z := 16.
Definition mp_physaddr : Z := 4.
Definition mp_imcrp : Z := 12.
Definition sizeof_mpconf : Z := 44.
Definition conf_length : Z := 4.
Definition conf_version : Z := 6.
Definition conf_lapicaddr : Z := 36.
Definition sizeof_mpproc : Z := 20.
Definition sizeof_mpioapic : Z := 8.

(** ** Finding the table *)

Definition sum (m : Zmap Z) (addr : Z) (len : nat) : Z := u8 (foldr Z.add 0 (ld_bytes m addr len)).

(** The loop of mpsearch1, [n] structures from [p] on. *)
Fixpoint mpsearch_loop (m : Zmap Z) (p : Z) (n : nat) : option Z :=
  match n with
  | O => None
  | S n' =>
      if bool_decide (ld_bytes m p 4 = bytes_of "_MP_") && (sum m p (Z.to_nat sizeof_mp) =? 0) then Some p
      else mpsearch_loop m (u32 (p + sizeof_mp)) n'
  end.

Definition mpsearch1 (m : Zmap Z) (a len : Z) : option Z := mpsearch_loop m (P2V a) (Z.to_nat (len / sizeof_mp)).

Definition mpsearch (m : Zmap Z) : option Z :=
  let bda := P2V 0x400 in
  let p := Z.shiftl (Z.lor (Z.shiftl (ld8 m (bda + 0x0F)) 8) (ld8 m (bda + 0x0E))) 4 in
  let found :=
    if negb (p =? 0) then mpsearch1 m p 1024
    else
      let p := Z.lor (Z.shiftl (ld8 m (bda + 0x14)) 8) (ld8 m (bda + 0x13)) * 1024 in
      mpsearch1 m (u32 (p - 1024)) 1024 in
  match found with
  | Some mp => Some mp
  | None => mpsearch1 m 0xF0000 0x10000
  end.

(** The floating pointer structure and the table. *)
Definition mpconfig (m : Zmap Z) : option (Z * Z) :=
  mp ← mpsearch m;
  if ld32 m (mp + mp_physaddr) =? 0 then None
  else
    let conf := P2V (ld32 m (mp + mp_physaddr)) in
    if negb (bool_decide (ld_bytes m conf 4 = bytes_of "PCMP")) then None
    else if negb (ld8 m (conf + conf_version) =? 1) && negb (ld8 m (conf + conf_version) =? 4) then None
    else if negb (sum m conf (Z.to_nat (ld16 m (conf + conf_length))) =? 0) then None
    else Some (mp, conf).

(** ** Reading it *)

Section mp.
Context {B H : Type} {HW : Hardware H} (fuel : nat).
#[local] Abbreviation kern := (kst (fsst (devst B H))).
#[local] Abbreviation MD := (M kern).

(** One entry: the position, and ismp. *)
Definition mpinit_body (e : Z) (a : Z * Z) : MD (Z * Z + Z) :=
  let '(p, ismp) := a in
  if negb (p <? e) then mret (inr ismp)
  else
    t ← kld8 p;
    if t =? MPPROC then
      apicid ← kld8 (p + 1);
      ids ← get_mp apicids;
      when (List.length ids <? NCPU)%nat (upd_mp (fun x => set_apicids (apicids x ++ [apicid]) x));;
      mret (inl (u32 (p + sizeof_mpproc), ismp))
    else if t =? MPIOAPIC then
      apicno ← kld8 (p + 1);
      upd_mp (set_ioapicid apicno);;
      mret (inl (u32 (p + sizeof_mpioapic), ismp))
    else if (t =? MPBUS) || (t =? MPIOINTR) || (t =? MPLINTR) then mret (inl (u32 (p + 8), ismp))
    else mret (inl (p, 0)).

Definition mpinit : MD unit :=
  c ← gets (fun s => mpconfig (mem (km s)));
  match c with
  | None => panic "Expect to run on an SMP"
  | Some (mp, conf) =>
      lapicaddr ← kld32 (conf + conf_lapicaddr);
      upd_mp (set_lapic lapicaddr);;
      len ← gets (fun s => ld16 (mem (km s)) (conf + conf_length));
      ismp ← iterate fuel (mpinit_body (u32 (conf + len))) (u32 (conf + sizeof_mpconf), 1);
      if ismp =? 0 then panic "Didn't find a suitable machine"
      else
        imcrp ← kld8 (mp + mp_imcrp);
        when (negb (imcrp =? 0))
          (outb 0x22 0x70;;
           v ← inb 0x23;
           outb 0x23 (Z.lor v 1))
  end.

End mp.

(** ** Tables of known entries *)

(** An entry, with the bytes mpinit does not look at. *)
Inductive mpentry : Type := Processor (apicid : Z) (rest : list Z) | Controller (apicno : Z) (rest : list Z) | Other (type : Z) (rest : list Z).

Definition encode (x : mpentry) : list Z :=
  match x with
  | Processor apicid rest => MPPROC :: apicid :: rest
  | Controller apicno rest => MPIOAPIC :: apicno :: rest
  | Other type rest => type :: rest
  end.

Definition entry_ok (x : mpentry) : Prop :=
  match x with
  | Processor _ rest => List.length rest = 18%nat
  | Controller _ rest => List.length rest = 6%nat
  | Other type rest => (type = MPBUS \/ type = MPIOINTR \/ type = MPLINTR) /\ List.length rest = 7%nat
  end.

Definition table (es : list mpentry) : list Z := concat (encode <$> es).

(** What is known after an entry. *)
Definition discover (t : mpst) (x : mpentry) : mpst :=
  match x with
  | Processor apicid _ => if (List.length (apicids t) <? NCPU)%nat then set_apicids (apicids t ++ [apicid]) t else t
  | Controller apicno _ => set_ioapicid apicno t
  | Other _ _ => t
  end.

Section discovery.
Context {B H : Type} {HW : Hardware H}.
#[local] Abbreviation kern := (kst (fsst (devst B H))).
Implicit Types s : kern.

(** The bytes [l] are in memory at [a]. *)
Definition bytes_at (m : Zmap Z) (a : Z) (l : list Z) : Prop := forall i b, l !! i = Some b -> ld8 m (a + Z.of_nat i) = b.

Lemma bytes_at_app m a l1 l2 : bytes_at m a (l1 ++ l2) -> bytes_at m a l1 /\ bytes_at m (a + Z.of_nat (List.length l1)) l2.
Proof using.
  intros Hb. split; intros i b Hi.
  - apply Hb. by apply lookup_app_l_Some.
  - replace (a + Z.of_nat (List.length l1) + Z.of_nat i) with (a + Z.of_nat (List.length l1 + i)) by lia. apply Hb.
    rewrite lookup_app_r by lia. by replace (List.length l1 + i - List.length l1)%nat with i by lia.
Qed.

Lemma set_mpt_id s : set_mpt (mpt (dev_of s)) s = s.
Proof using. by destruct s as [? ? ? ? ? ? ? ? ? [? ? ? ? []]]. Qed.

Lemma run_entry s p e x ismp : entry_ok x -> bytes_at (mem (km s)) p (encode x) -> 0 <= p -> p + Z.of_nat (List.length (encode x)) <= e < 2 ^ 32 ->
  mpinit_body e (p, ismp) s = Ret (inl (p + Z.of_nat (List.length (encode x)), ismp)) (set_mpt (discover (mpt (dev_of s)) x) s).
Proof using.
  intros Hx Hb Hp He. unfold mpinit_body. assert (Hpos : (0 < List.length (encode x))%nat) by (destruct x; cbn; lia).
  rewrite (proj2 (Z.ltb_lt p e)) by lia. cbn [negb]. unfold kld8. mrun.
  destruct x as [a rest|a rest|t rest]; cbn [encode entry_ok List.length] in *.
  - pose proof (Hb 0%nat _ eq_refl) as H0. pose proof (Hb 1%nat _ eq_refl) as H1. change (Z.of_nat 0) with 0 in H0. change (Z.of_nat 1) with 1 in H1. rewrite Z.add_0_r in H0. rewrite H0. cbn [Z.eqb MPPROC]. mrun. rewrite H1.
    unfold get_mp. mrun. unfold discover, sizeof_mpproc. rewrite Hx, u32_id by lia. destruct (_ <? NCPU)%nat; [done|]. cbn [when]. mrun. by rewrite set_mpt_id.
  - pose proof (Hb 0%nat _ eq_refl) as H0. pose proof (Hb 1%nat _ eq_refl) as H1. change (Z.of_nat 0) with 0 in H0. change (Z.of_nat 1) with 1 in H1. rewrite Z.add_0_r in H0. rewrite H0. change (MPIOAPIC =? MPPROC) with false. change (MPIOAPIC =? MPIOAPIC) with true. cbv iota. mrun. rewrite H1.
    unfold discover, sizeof_mpioapic. rewrite Hx, u32_id by lia. done.
  - pose proof (Hb 0%nat _ eq_refl) as H0. change (Z.of_nat 0) with 0 in H0. rewrite Z.add_0_r in H0. rewrite H0. destruct Hx as [Ht Hl]. cbn [discover]. rewrite set_mpt_id. replace (p + Z.of_nat (S (List.length rest))) with (u32 (p + 8)) by (rewrite u32_id; lia). by destruct Ht as [->|[->| ->]].
Qed.

Lemma table_cons x es : table (x :: es) = encode x ++ table es.
Proof using. done. Qed.

(** Going through known entries, and what comes after them. *)
Lemma iterate_table es : forall s p e ismp fuel, Forall entry_ok es -> bytes_at (mem (km s)) p (table es) -> 0 <= p ->
  p + Z.of_nat (List.length (table es)) <= e < 2 ^ 32 ->
  iterate (List.length es + fuel) (mpinit_body e) (p, ismp) s =
    iterate fuel (mpinit_body e) (p + Z.of_nat (List.length (table es)), ismp) (set_mpt (fold_left discover es (mpt (dev_of s))) s).
Proof using.
  induction es as [|x es IH]; intros s p e ismp fuel Hes Hb Hp He.
  - cbn [List.length table fmap list_fmap concat fold_left]. by rewrite set_mpt_id, Z.add_0_r.
  - apply Forall_cons in Hes as [Hx Hes]. rewrite table_cons, length_app in *. destruct (bytes_at_app _ _ _ _ Hb) as [Hb1 Hb2]. cbn [List.length Nat.add iterate fold_left].
    rewrite (bind_ret_run _ _ _ _ _ (run_entry s p e x ismp Hx Hb1 Hp ltac:(lia))). rewrite IH; [|done|done|lia|lia]. by rewrite Nat2Z.inj_add, Z.add_assoc.
Qed.

Lemma iterate_end s e ismp fuel : iterate (S fuel) (mpinit_body e) (e, ismp) s = Ret ismp s.
Proof using.
  assert (E : mpinit_body e (e, ismp) s = Ret (inr ismp) s) by (unfold mpinit_body; by rewrite Z.ltb_irrefl). cbn [iterate]. by rewrite (bind_ret_run _ _ _ _ _ E).
Qed.

(** An unknown entry is never passed. *)
Lemma iterate_unknown s p e ismp fuel : p < e -> 4 < ld8 (mem (km s)) p -> iterate fuel (mpinit_body e) (p, ismp) s = OutOfFuel.
Proof using.
  intros Hp Ht. revert ismp. induction fuel as [|fuel IH]; intros ismp; [done|]. cbn [iterate].
  assert (E : mpinit_body e (p, ismp) s = Ret (inl (p, 0)) s).
  { unfold mpinit_body. rewrite (proj2 (Z.ltb_lt p e)) by done. cbn [negb]. unfold kld8. mrun.
    rewrite !(proj2 (Z.eqb_neq _ _)) by (unfold MPPROC, MPIOAPIC, MPBUS, MPIOINTR, MPLINTR; lia). done. }
  rewrite (bind_ret_run _ _ _ _ _ E). apply IH.
Qed.

End discovery.

(** ** The processors *)

Definition processors (es : list mpentry) : list Z := omap (fun x => match x with Processor a _ => Some a | _ => None end) es.
Definition controllers (es : list mpentry) : list Z := omap (fun x => match x with Controller a _ => Some a | _ => None end) es.

Lemma discovered es : forall t, (List.length (apicids t) <= NCPU)%nat -> let t' := fold_left discover es t in
  apicids t' = take NCPU (apicids t ++ processors es) /\ ioapicid t' = default (ioapicid t) (last (controllers es)) /\ lapic t' = lapic t /\ ioapic t' = ioapic t /\ cpu_started t' = cpu_started t.
Proof.
  induction es as [|x es IH]; intros t Ht; cbn [fold_left].
  - cbn. rewrite app_nil_r, take_ge by done. done.
  - destruct (IH (discover t x)) as (H1 & H2 & H3 & H4 & H5).
    { destruct x; cbn [discover]; try done. destruct (Nat.ltb_spec (List.length (apicids t)) NCPU); [|done]. cbn [apicids set_apicids]. rewrite length_app. cbn. lia. }
    cbv zeta. rewrite H1, H2, H3, H4, H5. destruct x as [a r|a r|ty r]; cbn [discover]; [|split; [done|]; split; [|done]; change (controllers (Controller a r :: es)) with (a :: controllers es); rewrite last_cons; by destruct (last (controllers es))|done].
    destruct (Nat.ltb_spec (List.length (apicids t)) NCPU); (split; [|done]); change (processors (Processor a r :: es)) with (a :: processors es); [cbn [apicids set_apicids]; by rewrite <- app_assoc|].
    by rewrite !take_app_le by lia.
Qed.

Lemma mpconfig_range m mp conf : mpconfig m = Some (mp, conf) -> 0 <= conf.
Proof.
  unfold mpconfig. intros (q & _ & E)%bind_Some. repeat (case_match; [done|]). injection E as _ <-. apply u32_range.
Qed.

(** C21: mpinit reads the firmware's table.  When the search finds a configuration table that consists of entries of the five known kinds, mpinit returns with the address of the local
    interrupt controllers, the identities of the first eight processors of the table in its order, and that of its last I/O interrupt controller;
    nothing else changes but the interrupt mode register, and that only when the table asks for it. *)
Theorem mpinit_reads_table {B H} {HW : Hardware H} (fuel : nat) (es : list mpentry) (mp conf : Z) (s : kst (fsst (devst B H))) :
  let m := mem (km s) in
  mpconfig m = Some (mp, conf) -> Forall entry_ok es -> bytes_at m (conf + sizeof_mpconf) (table es) ->
  ld16 m (conf + conf_length) = sizeof_mpconf + Z.of_nat (List.length (table es)) -> conf + sizeof_mpconf + Z.of_nat (List.length (table es)) < 2 ^ 32 ->
  apicids (mpt (dev_of s)) = [] -> (List.length es < fuel)%nat ->
  exists t h, mpinit fuel s = Ret tt (set_hw h (set_mpt t s)) /\
    apicids t = take NCPU (processors es) /\ ioapicid t = default (ioapicid (mpt (dev_of s))) (last (controllers es)) /\
    lapic t = ld32 m (conf + conf_lapicaddr) /\ ioapic t = ioapic (mpt (dev_of s)) /\ cpu_started t = cpu_started (mpt (dev_of s)) /\ (ld8 m (mp + mp_imcrp) = 0 -> h = hw (dev_of s)).
Proof.
  intros m Hc Hes Hb Hl Hr H0 Hf. pose proof (mpconfig_range _ _ _ Hc) as Hpos. unfold sizeof_mpconf in *. subst m.
  set (s1 := set_mpt (set_lapic (ld32 (mem (km s)) (conf + conf_lapicaddr)) (mpt (dev_of s))) s).
  destruct (discovered es (mpt (dev_of s1))) as (D1 & D2 & D3 & D4 & D5); [cbn; rewrite H0; cbn; lia|]. cbv zeta in *. change (apicids (mpt (dev_of s1))) with (apicids (mpt (dev_of s))) in D1. rewrite H0 in D1.
  set (t := fold_left discover es (mpt (dev_of s1))) in *.
  assert (E : iterate fuel (mpinit_body (conf + (44 + Z.of_nat (List.length (table es))))) (conf + 44, 1) s1 = Ret 1 (set_mpt t s1)).
  { replace fuel with (List.length es + S (fuel - List.length es - 1))%nat by lia. rewrite iterate_table; [|done|done|lia|lia].
    replace (conf + 44 + _) with (conf + (44 + Z.of_nat (List.length (table es)))) by lia. apply iterate_end. }
  unfold mpinit. mrun. rewrite Hc. unfold kld32, upd_mp. mrun.
  fold s1. mrun. change (mem (km s1)) with (mem (km s)). unfold sizeof_mpconf. rewrite Hl, (u32_id (conf + 44)), (u32_id (conf + (44 + _))) by lia. rewrite (bind_ret_run _ _ _ _ _ E). change (1 =? 0) with false. cbv iota. unfold kld8. mrun.
  change (mem (km (set_mpt t s1))) with (mem (km s)). destruct (ld8 (mem (km s)) (mp + mp_imcrp) =? 0) eqn:Ei; cbn [negb when].
  - exists t, (hw (dev_of s)). split; [|by split_and!].
    by change (set_hw (hw (dev_of s)) (set_mpt t s)) with (set_mpt t s1).
  - set (r := in8 0x23 (out8 0x22 (u8 0x70) (hw (dev_of s)))). exists t, (out8 0x23 (u8 (Z.lor (u8 (fst r)) 1)) (snd r)). split; [|split_and!; try done; intros E0; by rewrite E0 in Ei].
    unfold outb, inb, hw_in, hw_out. mrun. unfold obind, mbind, M_bind. change (in8 _ _) with r. by destruct r.
Qed.

(** A table with an unknown entry is never finished: the case that would give up on it does not advance, so mpinit does not return and does not panic, whatever the bound on
    its steps. *)
Lemma mpinit_spins {B H} {HW : Hardware H} (fuel : nat) (es : list mpentry) (mp conf : Z) (s : kst (fsst (devst B H))) :
  let m := mem (km s) in let p := conf + sizeof_mpconf + Z.of_nat (List.length (table es)) in
  mpconfig m = Some (mp, conf) -> Forall entry_ok es -> bytes_at m (conf + sizeof_mpconf) (table es) -> 4 < ld8 m p ->
  p < conf + ld16 m (conf + conf_length) < 2 ^ 32 -> mpinit fuel s = OutOfFuel.
Proof.
  intros m p Hc Hes Hb Hu Hr. subst m p. pose proof (mpconfig_range _ _ _ Hc) as Hpos. unfold sizeof_mpconf in *.
  set (s1 := set_mpt (set_lapic (ld32 (mem (km s)) (conf + conf_lapicaddr)) (mpt (dev_of s))) s).
  unfold mpinit. mrun. rewrite Hc. unfold kld32, upd_mp. mrun. fold s1. change (mem (km s1)) with (mem (km s)). unfold sizeof_mpconf.
  rewrite (u32_id (conf + 44)), (u32_id (conf + ld16 _ _)) by lia. change ((iterate ?n ?b ?a ≫= ?k) s1) with (obind k (iterate n b a s1)).
  enough (iterate fuel (mpinit_body (conf + ld16 (mem (km s)) (conf + conf_length))) (conf + 44, 1) s1 = OutOfFuel) as -> by done.
  destruct (Nat.le_gt_cases (List.length es) fuel) as [Hf|Hf].
  - replace fuel with (List.length es + (fuel - List.length es))%nat by lia. rewrite iterate_table; [|done|done|lia|lia]. apply iterate_unknown; [lia|done].
  - clear Hu. revert Hb Hes Hr Hf. generalize 1 as ismp. generalize (conf + ld16 (mem (km s)) (conf + conf_length)) as e.
    change (mem (km s)) with (mem (km s1)). assert (Hp : 0 <= conf + 44) by lia. revert Hp. generalize (conf + 44) as p. clearbody s1. clear -s1. revert s1 es.
    induction fuel as [|fuel IH]; intros s1 es p Hp e ismp Hb Hes Hr Hf; [done|]. destruct es as [|x es]; [cbn in Hf; lia|]. apply Forall_cons in Hes as [Hx Hes].
    rewrite table_cons, length_app in *. destruct (bytes_at_app _ _ _ _ Hb) as [Hb1 Hb2]. cbn [iterate].
    rewrite (bind_ret_run _ _ _ _ _ (run_entry s1 p e x ismp Hx Hb1 Hp ltac:(lia))). apply (IH _ es); [lia|done|done|lia|cbn in Hf; lia].
Qed.

(** ** An instance: two processors, a bus and an I/O interrupt controller *)
Definition ex_entries : list mpentry := [Processor 0 (replicate 18 0); Processor 1 (replicate 18 0); Other MPBUS (replicate 7 0); Controller 2 (replicate 6 0)].
Definition ex_conf : list Z := bytes_of "PCMP" ++ [100; 0; 1; 135] ++ replicate 28 0 ++ [0; 0; 0xE0; 0xFE] ++ replicate 4 0 ++ table ex_entries.
Definition ex_float : list Z := bytes_of "_MP_" ++ [0x00; 0x02; 0x0F; 0x00; 1; 1; 146; 0] ++ replicate 4 0.
Definition ex_firmware : Zmap Z := st_bytes (st_bytes ∅ (P2V 0xF0010) ex_float) (P2V 0xF0200) ex_conf.
Definition ex_booting : kst (fsst (devst unit term)) := set_mpt (Mp 0 [] 0 0 (replicate NCPU 0)) (set_km (KM ex_firmware 0 false false ∅ 0) (ex_terminal ex_cons)).

Lemma bytes_at_by_eval m a l : ld_bytes m a (List.length l) = l -> bytes_at m a l.
Proof. intros E i b Hi. rewrite <- E in Hi. rewrite lookup_ld_bytes in Hi; [by injection Hi|]. apply lookup_lt_Some in Hi. by rewrite length_ld_bytes in Hi. Qed.

Lemma mpinit_reads_table_witness : exists t h, mpinit 5 ex_booting = Ret tt (set_hw h (set_mpt t ex_booting)) /\
  apicids t = [0; 1] /\ ioapicid t = 2 /\ lapic t = 0xFEE00000.
Proof.
  destruct (mpinit_reads_table 5 ex_entries (P2V 0xF0010) (P2V 0xF0200) ex_booting) as (t & h & E & E1 & E2 & E3 & _).
  - vm_compute. reflexivity.
  - repeat constructor; done || auto.
  - apply bytes_at_by_eval. vm_compute. reflexivity.
  - vm_compute. reflexivity.
  - vm_compute. reflexivity.
  - reflexivity.
  - cbn. lia.
  - exists t, h. split; [exact E|]. rewrite E1, E2, E3. vm_compute. auto.
Defined.
