(* ===== verification/Boot.v ===== *)
(** * Booting (main.c; seginit and kvmalloc of vm.c)

    The first processor runs [main]: it sets up the page allocator, the kernel's
    page table, the interrupt controllers, the devices and the tables of the
    kernel, starts the other processors and makes the first process.  The
    addresses and images the linker provides are arguments; descriptor tables only
    the processor reads are answers.  While [startothers] waits for another
    processor, that one runs: each look at its started field is a point where the
    rest of the machine may act. *)

From Stdlib Require Import ZArith Lia Ascii String.
From stdpp Require Import base tactics numbers option list strings zmap.
From S2P Require Import Prelude Memory Mmu StringOps Kalloc Vm Kernel Proc File Fork FsState Bio Fs Print Devices Console Ide Trap Mp.

Section boot.
Context {KI : KernelImage} {KS0 : KernelSymbols} {H : Type} {HW : Hardware H} (fuel : nat).
#[local] Abbreviation kern := (kst (fsst (devst idest H))).
#[local] Abbreviation MD := (M kern).
(** The flags register, interrupts off; the entry points of vectors.S, the images of entryother.S and initcode.S, and the
    addresses of mpenter and entrypgdir. *)
Context (eflags : Z) (vectors : Z -> Z) (entryother initcode : list Z) (k_mpenter k_entrypgdir : Z).

#[local] Instance boot_disk : BlockDevice (devst idest H) := ide_device fuel.
#[local] Instance boot_devsw : DevSw (devst idest H) := devsw fuel.
#[local] Instance boot_fs : FileSys (fsst (devst idest H)) := xv6fs fuel.

(** ** vm.c *)

(** The descriptors of this CPU, of which there are NSEGS. *)
Definition seginit (gdt : list segdesc) : MD (list segdesc) :=
  cpuid eflags;;
  let gdt := <[Z.to_nat SEG_KCODE := SEG (Z.lor STA_X STA_R) 0 0xffffffff 0]> gdt in
  let gdt := <[Z.to_nat SEG_KDATA := SEG STA_W 0 0xffffffff 0]> gdt in
  let gdt := <[Z.to_nat SEG_UCODE := SEG (Z.lor STA_X STA_R) 0 0xffffffff DPL_USER]> gdt in
  mret (<[Z.to_nat SEG_UDATA := SEG STA_W 0 0xffffffff DPL_USER]> gdt).

Definition kvmalloc : MD Z :=
  kpgdir ← run_km setupkvm;
  switchkvm kpgdir;;
  mret kpgdir.

(** ** main.c *)

(** The boot page table used in entry.S and entryother.S. *)
Definition entrypgdir : list Z :=
  let e := Z.lor (Z.lor (Z.lor 0 PTE_P) PTE_W) PTE_PS in
  <[Z.to_nat (Z.shiftr KERNBASE PDXSHIFT) := e]> (<[0%nat := e]> (replicate (Z.to_nat NPDENTRIES) 0)).

(** mpmain, up to the call of scheduler. *)
Definition mpmain : MD unit :=
  c1 ← cpuid eflags;
  c2 ← cpuid eflags;
  cprintf ("cpu%d: starting %d" ++ newline) [AInt c1; AInt c2];;
  c ← mycpu eflags;
  upd_mp (fun t => set_cpu_started (<[c := 1]> (cpu_started t)) t).

(** What the other processors run. *)
Definition mpenter (kpgdir : Z) (gdt : list segdesc) : MD (list segdesc) :=
  switchkvm kpgdir;;
  gdt ← seginit gdt;
  lapicinit fuel;;
  mpmain;;
  mret gdt.

Definition wait_started (c : nat) (_ : unit) : MD (unit + unit) :=
  yield_cpu;;
  l ← get_mp cpu_started;
  match l !! c with
  | None => undef "cpus: index"
  | Some v => mret (if v =? 0 then inl tt else inr tt)
  end.

Definition start_one (code : Z) (c : nat) : MD unit :=
  stack ← run_km kalloc;
  kst32 (code - 4) (u32 (stack + KSTACKSIZE));;
  kst32 (code - 8) k_mpenter;;
  kst32 (code - 12) (V2P k_entrypgdir);;
  ids ← get_mp apicids;
  match ids !! c with
  | None => undef "cpus: index"
  | Some apicid =>
      lapicstartap apicid (V2P code);;
      iterate fuel (wait_started c) tt
  end.

(** The loop over the processors, [n] from [c] on. *)
Fixpoint start_from (code : Z) (c n : nat) : MD unit :=
  match n with
  | O => mret tt
  | S n' =>
      me ← mycpu eflags;
      (if (c =? me)%nat then mret tt else start_one code c);;
      start_from code (S c) n'
  end.

Definition startothers : MD unit :=
  let code := P2V 0x7000 in
  upd_mem (fun m => st_bytes m code entryother);;
  ids ← get_mp apicids;
  start_from code 0 (List.length ids).

(** Up to the call of scheduler: the kernel's page table, the segment descriptors of this CPU, and the interrupt descriptors. *)
Definition main (gdt : list segdesc) : MD (Z * list segdesc * list gatedesc) :=
  run_km (kinit1 k_end (P2V (4 * 1024 * 1024)));;
  kpgdir ← kvmalloc;
  mpinit fuel;;
  lapicinit fuel;;
  gdt ← seginit gdt;
  picinit;;
  ioapicinit;;
  consoleinit;;
  uartinit;;
  initlock L_ptable;;
  idt ← tvinit vectors;
  binit;;
  fileinit;;
  ideinit fuel;;
  startothers;;
  run_km (kinit2 (P2V (4 * 1024 * 1024)) (P2V PHYSTOP));;
  userinit initcode;;
  mpmain;;
  mret (kpgdir, gdt, idt).

End boot.

(** ** The kernel's page table *)

Lemma length_pages_desc lo n : List.length (pages_desc lo n) = n.
Proof. induction n as [|n IH]; cbn; [done|by rewrite IH]. Qed.

Lemma wp_kvmalloc_run {KI : KernelImage} {F} (s : kst F) p l : km_ok (km s) (p :: l) -> (64 <= List.length l)%nat ->
  exists t, run_km setupkvm s = Ret p (set_km t s) /\ exists l', new_dir p (km s) (p :: l) t l' /\ forall va, 0 <= va < 4294967296 -> pte_of (mem t) p va = kern_pte va.
Proof.
  intros Hk Hl. destruct (wp_returns _ _ _ (wp_setupkvm (km s) p l Hk Hl)) as (r & t & E & -> & Hpost). exists t. split; [by apply run_run_km|done].
Qed.

(** C19: the kernel's own page table.  main's first two steps, on a zeroed allocator: when the kernel image leaves 65 pages below 4 MB, kinit1 and kvmalloc return, the page table base register
    holds the new directory, and every address of the 4 GB space translates as the layout of the kernel prescribes: KERNBASE up to PHYSTOP onto physical memory, the text read-only,
    the devices onto themselves, everything else unmapped.  The pages left on the free list are pages of the first 4 MB above the kernel image, outside the table. *)
Theorem kvmalloc_maps_kernel {KI : KernelImage} {H} {HW : Hardware H} (s : kst (fsst (devst idest H))) :
  mem_ok (mem (km s)) -> freelist (km s) = 0 -> ref_counts (km s) = ∅ -> PGROUNDUP k_end + 65 * 4096 <= P2V (4 * 1024 * 1024) ->
  exists kpgdir t l, (run_km (kinit1 k_end (P2V (4 * 1024 * 1024)));; kvmalloc) s = Ret kpgdir (set_km t s) /\
    cr3 t = V2P kpgdir /\ (forall va, 0 <= va < 4294967296 -> pte_of (mem t) kpgdir va = kern_pte va) /\
    km_ok t l /\ pt_ok (mem t) l kpgdir /\ forall p, p ∈ l -> PGROUNDUP k_end <= p < P2V (4 * 1024 * 1024).
Proof.
  intros Hm Hf Hr Hroom. pose proof k_end_lo. pose proof k_end_hi. change (P2V (4 * 1024 * 1024)) with 0x80400000 in *.
  set (s0 := set_use_lock false (set_kmem_lock false (km s))).
  assert (Hrc : forall i, refcnt s0 i = 0) by (intros i; unfold refcnt; cbn; by rewrite Hr, lookup_empty).
  assert (Hs0 : km_ok s0 []) by (split; cbn; try done; [intros i; rewrite Hrc; lia|constructor]).
  assert (Hup : PGROUNDUP k_end mod 4096 = 0 /\ k_end <= PGROUNDUP k_end) by (rewrite PGROUNDUP_eq by (unfold_mmu; lia); unfold_mmu; split; divlia).
  assert (Hfree : forall p, PGROUNDUP k_end <= p < 0x80400000 -> (p ∉ []) /\ refcnt s0 (V2P p / PGSIZE) <= 1) by (intros p Hp; rewrite Hrc; split; [apply not_elem_of_nil|lia]).
  pose proof (freerange_spec s0 [] k_end 0x80400000 Hs0 (Z.le_refl _)) as Hfr. destruct (wp_returns _ _ _ (Hfr ltac:(unfold_mmu; lia) eq_refl Hfree)) as ([] & t1 & E1 & Hk1 & _ & _).
  set (n := Z.to_nat ((0x80400000 - PGROUNDUP k_end) / 4096)) in *. rewrite app_nil_r in Hk1. assert (Hn : (65 <= n)%nat) by (unfold n; divlia).
  assert (E0 : run_km (kinit1 k_end 0x80400000) s = Ret tt (set_km t1 s)) by (apply run_run_km; unfold kinit1; mrun; exact E1).
  destruct (Nat.lt_exists_pred 0 n ltac:(lia)) as (n' & En & _). rewrite En in Hk1. cbn [pages_desc] in Hk1. set (p := PGROUNDUP k_end + 4096 * Z.of_nat n') in *.
  destruct (wp_kvmalloc_run (set_km t1 s) p (pages_desc (PGROUNDUP k_end) n') Hk1 ltac:(rewrite length_pages_desc; lia)) as (t2 & E2 & l' & [(pre & Hpre & Hd) Hk2 Hpt _ _ _ _] & Hpte).
  exists p, (set_cr3 (V2P p) t2), l'. split_and!.
  - rewrite (bind_ret_run _ _ _ _ _ E0). unfold kvmalloc. rewrite (bind_ret_run _ _ _ _ _ E2). done.
  - done.
  - done.
  - destruct Hk2. by split.
  - done.
  - intros q Hq. assert (Hin : q ∈ p :: pages_desc (PGROUNDUP k_end) n') by (rewrite Hpre; apply elem_of_app; by right).
    assert (q ∈ pages_desc (PGROUNDUP k_end) (S n')) as [Hr1 _]%elem_of_pages_desc by done. rewrite <- En in Hr1. unfold n in Hr1. split; [lia|]. divlia.
Qed.

(** ** Interrupts between processors

    What the local interrupt controller has been told: the processor selected, the processors that an INIT interrupt has reset and that wait for a startup interrupt,
    and the startup interrupts that reached such a processor, with the address it begins at.  A startup interrupt to a processor that is not waiting is ignored. *)
Record ipis : Type := Ipis { ipi_dest : Z; halted : list Z; sent : list (Z * Z) }.

Definition ipi_write (reg v : Z) (a : ipis) : ipis :=
  if reg =? ICRHI then Ipis (Z.shiftr v 24) (halted a) (sent a)
  else if Z.land v 0x700 =? INIT then (if flag v ASSERT then Ipis (ipi_dest a) (ipi_dest a :: halted a) (sent a) else a)
  else if Z.land v 0x700 =? STARTUP then
    if bool_decide (ipi_dest a ∈ halted a)
    then Ipis (ipi_dest a) (filter (fun d => d <> ipi_dest a) (halted a)) ((ipi_dest a, Z.shiftl (Z.land v 0xff) 12) :: sent a) else a
  else a.

(** The controller at [base]: the two words of its command register, its other uses in lapicstartap and lapicid, and the clock chip. *)
Class LocalApic (H : Type) {HW : Hardware H} (base : Z) : Type := {
  ipi : H -> ipis;
  ipi_st : forall h reg v, 0 <= v < 2 ^ 32 -> reg = ICRHI \/ reg = ICRLO -> ipi (mmio_st (base + 4 * reg) v h) = ipi_write reg v (ipi h);
  ipi_id : forall h, ipi (snd (mmio_ld (base + 4 * ID) h)) = ipi h;
  ipi_cmos : forall h port v, port = CMOS_PORT \/ port = CMOS_PORT + 1 -> ipi (out8 port v h) = ipi h }.

(** ** Starting the other processors *)

(** Memory below the kernel image. *)
Definition low (a : Z) : Prop := KERNBASE <= a < KERNLINK.

Section others.
Context {KI : KernelImage} {H : Type} {HW : Hardware H} {base : Z} {LA : LocalApic H base}.
Context (fuel : nat) (eflags : Z) (entryother : list Z) (k_mpenter k_entrypgdir : Z).
#[local] Abbreviation kern := (kst (fsst (devst idest H))).
Implicit Types s : kern.

(** The state while booting: memory, the started fields and the hardware differ from [s]. *)
Definition at_boot (k : kmst) (st : list Z) (h : H) (s : kern) : kern := set_km k (set_hw h (set_mpt (set_cpu_started st (mpt (dev_of s))) s)).

Definition code : Z := P2V 0x7000.

(** What entryother.S finds: itself, the stack [p + KSTACKSIZE], where to go, the page table. *)
Definition told (p : Z) (m : Zmap Z) : Prop :=
  bytes_at m code entryother /\ ld32 m (code - 4) = u32 (p + KSTACKSIZE) /\ ld32 m (code - 8) = u32 k_mpenter /\ ld32 m (code - 12) = V2P k_entrypgdir.

Lemma run_mycpu s id me : flag eflags FL_IF = false -> (forall h, fst (apic_read (lapic (mpt (dev_of s))) h) = id) ->
  find_index (fun a => a =? id) (apicids (mpt (dev_of s))) = Some me -> mycpu eflags s = Ret me (set_hw (snd (apic_of s)) s).
Proof using.
  intros Hf Hid Hme. unfold mycpu. rewrite Hf. rewrite (bind_ret_run _ _ _ _ _ (run_lapicid s)). unfold get_mp. mrun.
  change (mpt (dev_of (set_hw _ s))) with (mpt (dev_of s)). unfold apic_of at 1. rewrite Hid, Hme. done.
Qed.

(** Telling a processor to start touches the hardware and the reset vector. *)
Definition with_dev (h : H) (m : Zmap Z) (s : kern) : kern := set_hw h (set_km (set_mem m (km s)) s).

Lemma with_dev_id s : with_dev (hw (dev_of s)) (mem (km s)) s = s.
Proof using. by destruct s as [[] ? ? ? ? ? ? ? ? [? ? ? ? []]]. Qed.

Lemma wp_outb_dev port v h m s (Q : unit -> kern -> Prop) : port = CMOS_PORT \/ port = CMOS_PORT + 1 ->
  (forall h', ipi h' = ipi h -> Q tt (with_dev h' m s)) -> wp (outb port v) Q (with_dev h m s).
Proof using. intros Hp HQ. unfold outb, hw_out. wp_step. apply (HQ (out8 port (u8 v) h)). by apply ipi_cmos. Qed.

Lemma wp_lapicw i v h m s (Q : unit -> kern -> Prop) : lapic (mpt (dev_of s)) = base -> i = ICRHI \/ i = ICRLO ->
  (forall h', ipi h' = ipi_write i (u32 v) (ipi h) -> Q tt (with_dev h' m s)) -> wp (lapicw i v) Q (with_dev h m s).
Proof using.
  intros Hb Hi HQ. unfold wp, lapicw, lapic_at, get_mp, hw_out. mrun. unfold hw_in, obind, mbind, M_bind. cbn. change (dev_of (set_km (set_mem m (km s)) s)) with (dev_of s). rewrite Hb.
  pose proof (ipi_id (mmio_st (base + 4 * i) (u32 v) h)) as Hid. rewrite ipi_st in Hid by (apply u32_range || done).
  destruct (mmio_ld _ _) as [x h']. by apply (HQ h').
Qed.

(** The commands of lapicstartap. *)
Lemma write_hi a i : 0 <= a < 256 -> ipi_write ICRHI (u32 (Z.shiftl a 24)) i = Ipis a (halted i) (sent i).
Proof using.
  intros Ha. unfold ipi_write. rewrite Z.eqb_refl. f_equal. rewrite Z.shiftl_mul_pow2, Z.shiftr_div_pow2 by lia. change (2 ^ 24) with 16777216. rewrite u32_id by lia. divlia.
Qed.
Lemma write_init i : ipi_write ICRLO (u32 (Z.lor (Z.lor INIT LEVEL) ASSERT)) i = Ipis (ipi_dest i) (ipi_dest i :: halted i) (sent i).
Proof using. reflexivity. Qed.
Lemma write_deassert i : ipi_write ICRLO (u32 (Z.lor INIT LEVEL)) i = i.
Proof using. reflexivity. Qed.
Lemma write_startup i : ipi_write ICRLO (u32 (Z.lor STARTUP (Z.shiftr 0x7000 12))) i =
  if bool_decide (ipi_dest i ∈ halted i) then Ipis (ipi_dest i) (filter (fun d => d <> ipi_dest i) (halted i)) ((ipi_dest i, 0x7000) :: sent i) else i.
Proof using. reflexivity. Qed.

(** Up to the next write to the local interrupt controller. *)
Ltac to_lapicw := repeat lazymatch goal with |- wp (lapicw _ _) _ _ => fail | _ => wp_step end.

(** The processor has been reset and started at [code]. *)
Definition kicked (a : Z) (i i' : ipis) : Prop := sent i' = (a, 0x7000) :: sent i.

Lemma wp_lapicstartap s a : mem_ok (mem (km s)) -> lapic (mpt (dev_of s)) = base -> 0 <= a < 256 -> wp (lapicstartap a (V2P code)) (fun _ s' => exists h m, s' = with_dev h m s /\
  mem_ok m /\ same_but (fun x => P2V 0x467 <= x < P2V 0x467 + 4) (mem (km s)) m /\ kicked a (ipi (hw (dev_of s))) (ipi h)) s.
Proof using.
  intros Hok Hb Ha. match goal with |- wp ?c ?Q s => cut (wp c Q (with_dev (hw (dev_of s)) (mem (km s)) s)); [by rewrite with_dev_id|] end.
  change (V2P code) with 0x7000. unfold lapicstartap, startup_ipi, microdelay, kst16. wp_step. apply wp_outb_dev; [by left|]. intros h1 E1. wp_step. apply wp_outb_dev; [by right|]. intros h2 E2.
  do 4 wp_step. set (w := P2V (Z.lor (Z.shiftl 0x40 4) 0x67)). set (v := u16 (Z.shiftr 0x7000 4)).
  set (m := st8 (st8 (st8 (st8 (mem (km s)) w 0) (w + 1) (0 / 256)) (w + 2) v) (w + 2 + 1) (v / 256)).
  match goal with |- wp ?c ?Q _ => change (wp c Q (with_dev h2 m s)) end. rewrite E1 in E2. clear h1 E1.
  to_lapicw. apply wp_lapicw; [done|by left|]. intros h3 E3. to_lapicw. apply wp_lapicw; [done|by right|]. intros h4 E4. to_lapicw. apply wp_lapicw; [done|by right|]. intros h5 E5.
  to_lapicw. apply wp_lapicw; [done|by left|]. intros h6 E6. to_lapicw. apply wp_lapicw; [done|by right|]. intros h7 E7.
  to_lapicw. apply wp_lapicw; [done|by left|]. intros h8 E8. to_lapicw. apply wp_lapicw; [done|by right|]. intros h9 E9. wp_step.
  exists h9, m. split; [done|]. split; [by do 4 apply mem_ok_st8|]. split.
  - intros x Hx. change (P2V 0x467) with w in Hx. unfold m. rewrite !ld8_st8_ne by lia. done.
  - unfold kicked. rewrite <- E2. rewrite E9, write_startup, E8, write_hi, E7, write_startup, E6, write_hi, E5, write_deassert, E4, write_init, E3, write_hi by done.
    cbn [ipi_dest halted sent]. rewrite (bool_decide_true (a ∈ a :: _)) by left. cbn [ipi_dest halted sent].
    rewrite bool_decide_false by (intros [Hn _]%list_elem_of_filter; done). done.
Qed.

(** *** The other processors *)

(** Processor [c] has been sent to the start code. *)
Definition apic_sent (c : nat) (s : kern) : Prop := exists a, apicids (mpt (dev_of s)) !! c = Some a /\ (a, 0x7000) ∈ sent (ipi (hw (dev_of s))).

(** The number of processors before [c] other than [me]: as many pages have become stacks. *)
Definition stack_no (me c : nat) : nat := if (c <=? me)%nat then c else pred c.

(** The machine while this processor waits for [c]: those before it have started; [c] has not, but it has been sent to the start code, whose words name its own page
    of the free list [L], the entry point and the page table; the allocator has the pages of the later ones. *)
Definition told_cpu (me : nat) (L : list Z) (s1 : kern) : Prop := exists c p, c <> me /\ cpu_started (mpt (dev_of s1)) !! c = Some 0 /\
  (forall j, (j < c)%nat -> j <> me -> cpu_started (mpt (dev_of s1)) !! j = Some 1) /\ apic_sent c s1 /\
  L !! stack_no me c = Some p /\ told p (mem (km s1)) /\ km_ok (km s1) (drop (S (stack_no me c)) L).

(** Meanwhile some of the processors that have been sent to the start code may start; they print what they like. *)
Definition others_run (s1 s2 : kern) : Prop := exists m st h, s2 = at_boot (set_mem m (km s1)) st h s1 /\ mem_ok m /\ same_but screen (mem (km s1)) m /\
  ipi h = ipi (hw (dev_of s1)) /\ List.length st = List.length (cpu_started (mpt (dev_of s1))) /\
  forall j, st !! j = cpu_started (mpt (dev_of s1)) !! j \/ st !! j = Some 1 /\ apic_sent j s1.

(** All processors that have been sent to it have started. *)
Definition all_started (s2 : kern) : Prop := forall j, apic_sent j s2 -> cpu_started (mpt (dev_of s2)) !! j = Some 1.

Lemma bytes_at_same_but (P : Z -> Prop) m m' a l : bytes_at m a l -> same_but P m m' -> (forall x, a <= x < a + Z.of_nat (List.length l) -> ~ P x) -> bytes_at m' a l.
Proof using. intros Hb Hs Hd i b Hi. rewrite Hs; [by apply Hb|]. apply Hd. apply lookup_lt_Some in Hi. lia. Qed.

Lemma low_outside_pages k l p a : km_ok k l -> p ∈ l -> in_page p a -> ~ low a.
Proof using.
  intros Hk Hp Ha. pose proof (proj1 (Forall_forall _ _) (ok_pages _ _ Hk) p Hp) as Hpg. pose proof k_end_lo. destruct Hpg. unfold in_page, low in *. lia.
Qed.

Lemma km_ok_low k l m : km_ok k l -> mem_ok m -> same_but low (mem k) m -> km_ok (set_mem m k) l.
Proof using. intros Hk Hm Hs. eapply km_ok_set_mem; [done|done|done|]. intros p a Hp Ha. by eapply low_outside_pages. Qed.

(** The started fields when the processors below [c] have been started and those up to [e] not yet. *)
Definition started_upto (me c e : nat) (st : list Z) : Prop :=
  (forall j, (j < c)%nat -> j <> me -> st !! j = Some 1) /\ forall j, (c <= j < e)%nat -> st !! j = Some 0.

(** Only processors below [c] have been sent to the start code. *)
Definition sent_upto (me c : nat) (ids : list Z) (l : list (Z * Z)) : Prop := forall x, x ∈ l -> exists j, (j < c)%nat /\ j <> me /\ ids !! j = Some (fst x).

Lemma sent_upto_apic me c k st h s0 j : NoDup (apicids (mpt (dev_of s0))) -> sent_upto me c (apicids (mpt (dev_of s0))) (sent (ipi h)) ->
  apic_sent j (at_boot k st h s0) -> (j < c)%nat /\ j <> me.
Proof using.
  intros Hnd Hs (a & Ha & Hin). cbn in Ha. destruct (Hs _ Hin) as (j' & Hj' & Hm & Hl). by rewrite (NoDup_lookup _ _ _ _ Hnd Ha Hl).
Qed.

Lemma apic_sent_same k st h k' st' h' s0 c : ipi h' = ipi h -> apic_sent c (at_boot k st h s0) -> apic_sent c (at_boot k' st' h' s0).
Proof using. intros Hi (a & Ha & Hin). exists a. split; [done|]. change (ipi (hw (dev_of (at_boot k' st' h' s0)))) with (ipi h'). by rewrite Hi. Qed.

Lemma others_run_started me c e k st h s0 s2 : NoDup (apicids (mpt (dev_of s0))) -> sent_upto me (S c) (apicids (mpt (dev_of s0))) (sent (ipi h)) ->
  started_upto me c e st -> others_run (at_boot k st h s0) s2 ->
  exists m st' h', s2 = at_boot (set_mem m k) st' h' s0 /\ mem_ok m /\ same_but screen (mem k) m /\ ipi h' = ipi h /\ (st' = st \/ st' = <[c := 1]> st).
Proof using.
  intros Hnd Hse [Hs1 Hs2] (m & st' & h' & -> & Hm & Hsc & Hi & Hlen & Hst). exists m, st', h'. split; [done|]. split; [done|]. split; [done|]. split; [done|].
  cbn in Hlen, Hst. assert (Hoth : forall j, j <> c -> st' !! j = st !! j).
  { intros j Hj. destruct (Hst j) as [?|[E Hsj]]; [done|]. apply (sent_upto_apic me (S c)) in Hsj as [Hl Hm']; [|done|done]. rewrite E, Hs1 by (done || lia). done. }
  destruct (Hst c) as [E|[E _]]; [left|right]; apply list_eq; intros j; (destruct (decide (j = c)) as [->|Hj]; [|rewrite Hoth by done]); try done.
  - rewrite E. symmetry. apply list_lookup_insert_eq. apply lookup_lt_Some in E. lia.
  - by rewrite list_lookup_insert_ne.
Qed.

Lemma wait_started_once c st k h s0 : exists k', forall n, iterate (S n) (wait_started c) tt (at_boot k st h s0) = Sched (at_boot k st h s0) (k' n) /\
  forall m st' h', (st' !! c = Some 1 -> k' n (at_boot m st' h' s0) = Ret tt (at_boot m st' h' s0)) /\
    (st' !! c = Some 0 -> k' n (at_boot m st' h' s0) = iterate n (wait_started c) tt (at_boot m st' h' s0)).
Proof using.
  set (look := l ← get_mp cpu_started; match l !! c with None => undef "cpus: index" | Some v => mret (if v =? 0 then inl tt else inr tt) end : M kern (unit + unit)).
  exists (fun n s2 => obind (fun r => match r with inl a' => iterate n (wait_started c) a' | inr b => (mret b : M kern unit) end) (look s2)). intros n. split; [reflexivity|]. intros m st' h'.
  assert (E : forall v, st' !! c = Some v -> look (at_boot m st' h' s0) = Ret (if v =? 0 then inl tt else inr tt) (at_boot m st' h' s0)).
  { intros v Hv. unfold look, get_mp. mrun. change (cpu_started (mpt (dev_of (at_boot m st' h' s0)))) with st'. by rewrite Hv. }
  split; intros Hc; by rewrite (E _ Hc).
Qed.

Lemma wpe_wait_started me L c e n : forall f k st h s0, (n + 1 <= f)%nat -> NoDup (apicids (mpt (dev_of s0))) -> sent_upto me (S c) (apicids (mpt (dev_of s0))) (sent (ipi h)) ->
  started_upto me c e st -> (c < e)%nat -> apic_sent c (at_boot k st h s0) ->
  (forall m h', mem_ok m -> same_but screen (mem k) m -> ipi h' = ipi h -> told_cpu me L (at_boot (set_mem m k) st h' s0)) -> mem_ok (mem k) ->
  wpe (told_cpu me L) others_run all_started (iterate f (wait_started c) tt)
    (fun _ s' => exists m h', s' = at_boot (set_mem m k) (<[c := 1]> st) h' s0 /\ mem_ok m /\ same_but screen (mem k) m /\ ipi h' = ipi h) n (at_boot k st h s0).
Proof using.
  induction n as [|n IH]; intros [|f] k st h s0 Hf Hnd Hse Hst Hc Hap Ht Hk; try lia; destruct (wait_started_once c st k h s0) as (k' & E); destruct (E f) as [E1 E2];
    unfold wpe; rewrite E1; cbn [oposte]; (split; [pose proof (Ht (mem k) h Hk (same_but_refl _ _) eq_refl) as Ht0; by destruct k|]);
    intros s2 Hs2; destruct (others_run_started me c e k st h s0 s2 Hnd Hse Hst Hs2) as (m & st' & h' & -> & Hm & Hsc & Hi & Hst');
    (assert (H0 : st !! c = Some 0) by (apply Hst; lia)); destruct (E2 (set_mem m k) st' h') as [E3 E4];
    (assert (H1 : <[c := 1]> st !! c = Some 1) by (apply list_lookup_insert_eq; by eapply lookup_lt_Some)).
  1, 2: split; [intros Hall|].
  2: done.
  3: intros _; destruct Hst' as [-> | ->]; [rewrite (E4 H0)|rewrite (E3 H1); by exists m, h'].
  1, 2: rewrite E3; [exists m, h'; destruct Hst' as [-> | ->]; [|done]|];
    pose proof (Hall c (apic_sent_same _ _ _ _ _ _ _ _ Hi Hap)) as Hc1; change (st' !! c = Some 1) in Hc1 || change (st !! c = Some 1) in Hc1; congruence || done.
  eapply wpe_mono; [apply (IH f (set_mem m k) st h' s0); try done; [lia|by rewrite Hi| |]|].
  - by apply (apic_sent_same k st h).
  - intros m' h'' Hm' Hsc' Hi'. apply Ht; [done|by eapply same_but_trans|congruence].
  - intros [] s' (m' & h'' & -> & Hm' & Hsc' & Hi'). exists m', h''. split; [done|]. split; [done|]. split; [by eapply same_but_trans|congruence].
Qed.

Context (Hentry : (List.length entryother <= 4096)%nat).

(** The words before the code. *)
Lemma told_words k p : mem_ok (mem k) -> bytes_at (mem k) code entryother ->
  let m := st32 (st32 (st32 (mem k) (code - 4) (u32 (p + KSTACKSIZE))) (code - 8) k_mpenter) (code - 12) (V2P k_entrypgdir) in
  mem_ok m /\ same_but low (mem k) m /\ told p m.
Proof using Hentry.
  intros Hok Hb. split; [by do 3 apply mem_ok_st32|]. change code with 0x80007000 in *. split.
  - do 2 (eapply same_but_trans; [|apply same_but_st32; unfold low, KERNBASE, KERNLINK, KERNBASE, EXTMEM; lia]). apply same_but_st32. unfold low, KERNBASE, KERNLINK, KERNBASE, EXTMEM. lia.
  - split; [|split; [|split]]; change code with 0x80007000.
    + intros i b Hi. apply lookup_lt_Some in Hi as Hl. rewrite !ld8_st32_ne by lia. by apply Hb.
    + rewrite !ld32_st32_ne by lia. apply ld32_st32_eq, u32_range.
    + rewrite ld32_st32_ne by lia. rewrite <- st32_u32. apply ld32_st32_eq, u32_range.
    + apply ld32_st32_eq, u32_range.
Qed.

Lemma told_same_but (P : Z -> Prop) p m m' : told p m -> same_but P m m' -> (forall x, code - 12 <= x < code + 4096 -> ~ P x) -> told p m'.
Proof using Hentry.
  intros (H1 & H2 & H3 & H4) Hs Hd. split; [|split; [|split]].
  - eapply bytes_at_same_but; [done|done|]. intros x Hx. apply Hd. lia.
  - rewrite (same_but_ld32 P m m') by (done || intros; apply Hd; lia). done.
  - rewrite (same_but_ld32 P m m') by (done || intros; apply Hd; lia). done.
  - rewrite (same_but_ld32 P m m') by (done || intros; apply Hd; lia). done.
Qed.

Lemma stack_no_S me c : c <> me -> stack_no me (S c) = S (stack_no me c).
Proof using. clear Hentry. intros Hc. unfold stack_no. destruct (Nat.leb_spec (S c) me), (Nat.leb_spec c me); lia. Qed.
Lemma stack_no_me me : stack_no me (S me) = stack_no me me.
Proof using. clear Hentry. unfold stack_no. destruct (Nat.leb_spec (S me) me), (Nat.leb_spec me me); lia. Qed.

(** When processor [c] is next: the state, the pages left, and what the others have been told. *)
Definition boot_at (me c e : nat) (L : list Z) (k : kmst) (st : list Z) (h : H) (s0 : kern) : Prop :=
  started_upto me c e st /\ km_ok k (drop (stack_no me c) L) /\ bytes_at (mem k) code entryother /\
  sent_upto me c (apicids (mpt (dev_of s0))) (sent (ipi h)).

Context (n : nat) (Hfuel : (n + 1 <= fuel)%nat).

Lemma started_next me c e st : started_upto me c e st -> (c < e)%nat -> c <> me -> started_upto me (S c) e (<[c := 1]> st).
Proof using.
  clear Hentry Hfuel. intros [H1 H2] Hc Hne. pose proof (H2 c ltac:(lia)) as Hst.
  split; intros j Hj; [intros Hm; destruct (decide (j = c)) as [->|Hjc]; [apply list_lookup_insert_eq; by eapply lookup_lt_Some|rewrite list_lookup_insert_ne by done; apply H1; [lia|done]]|].
  rewrite list_lookup_insert_ne by lia. apply H2. lia.
Qed.

Lemma sent_upto_kicked me c ids a i i' : sent_upto me c ids (sent i) -> c <> me -> ids !! c = Some a -> kicked a i i' -> sent_upto me (S c) ids (sent i').
Proof using.
  clear Hentry Hfuel. intros Hs Hc Ha Hk x Hx. rewrite Hk in Hx. apply elem_of_cons in Hx as [->|Hx]; [exists c; split; [lia|done]|].
  destruct (Hs x Hx) as (j & Hj & Hm & Hl). exists j. split; [lia|done].
Qed.

(** The screen is outside what the allocator and the start code use. *)
Lemma screen_low a : screen a -> low a.
Proof using. clear Hentry Hfuel. unfold screen, crt. change (P2V 0xb8000) with 0x800b8000. unfold low, KERNLINK, KERNBASE, EXTMEM. lia. Qed.
Lemma screen_code a : code - 12 <= a < code + 4096 -> ~ screen a.
Proof using. clear Hentry Hfuel. unfold screen, crt. change (P2V 0xb8000) with 0x800b8000. change code with 0x80007000. lia. Qed.

Lemma wpe_start_one me L c e k st h s0 a : boot_at me c e L k st h s0 -> NoDup (apicids (mpt (dev_of s0))) -> lapic (mpt (dev_of s0)) = base ->
  c <> me -> (c < e)%nat -> (stack_no me c < List.length L)%nat -> apicids (mpt (dev_of s0)) !! c = Some a -> 0 <= a < 256 ->
  wpe (told_cpu me L) others_run all_started (start_one fuel k_mpenter k_entrypgdir code c)
    (fun _ s' => exists k' st' h', s' = at_boot k' st' h' s0 /\ boot_at me (S c) e L k' st' h' s0) n (at_boot k st h s0).
Proof using Hentry Hfuel.
  intros (Hst & Hk & Hb & Hse) Hnd Hbase Hc Hce Hl Ha Har. unfold start_one. destruct (lookup_lt_is_Some_2 L _ Hl) as [p Hp].
  rewrite (drop_S L p) in Hk by done. set (l := drop (S (stack_no me c)) L) in *. set (k1 := after_kalloc k p). assert (Hk1 : km_ok k1 l) by (by apply km_ok_after_kalloc).
  assert (Ek : run_km kalloc (at_boot k st h s0) = Ret p (at_boot k1 st h s0)) by (rewrite (run_run_km _ _ p k1); [done|by apply (kalloc_cons k p l)]).
  assert (Est : forall k2 x v, kst32 x v (at_boot k2 st h s0) = Ret tt (at_boot (set_mem (st32 (mem k2) x v) k2) st h s0)) by done.
  unfold wpe. rewrite (bind_ret_run _ _ _ _ _ Ek), !(bind_ret_run _ _ _ _ _ (Est _ _ _)). unfold get_mp. mrun.
  destruct (told_words k1 p) as (Hm & Hlow & Ht); [apply Hk1|done|].
  set (m1 := st32 (st32 (st32 (mem k1) _ _) _ _) _ _) in *. match goal with |- context [at_boot ?k2 st h s0] => change k2 with (set_mem m1 k1) end. clearbody m1.
  change (apicids (mpt (dev_of (at_boot (set_mem m1 k1) st h s0)))) with (apicids (mpt (dev_of s0))). rewrite Ha.
  destruct (wp_returns _ _ _ (wp_lapicstartap (at_boot (set_mem m1 k1) st h s0) a Hm Hbase Har)) as ([] & s2 & E2 & h2 & m2 & -> & Hm2 & Hs2 & Hki). cbn in Hs2.
  change (ipi (hw (dev_of (at_boot (set_mem m1 k1) st h s0)))) with (ipi h) in Hki.
  rewrite (bind_ret_run _ _ _ _ _ E2). change (with_dev h2 m2 (at_boot (set_mem m1 k1) st h s0)) with (at_boot (set_mem m2 k1) st h2 s0).
  assert (Hlow2 : same_but low m1 m2) by (eapply same_but_mono; [exact Hs2|]; cbv beta; change (P2V 0x467) with 0x80000467; unfold low, KERNLINK, KERNBASE, EXTMEM; lia).
  assert (Ht2 : told p m2) by (eapply told_same_but; [exact Ht|exact Hs2|]; cbv beta; change (P2V 0x467) with 0x80000467; change code with 0x80007000; lia).
  assert (Hk2 : km_ok (set_mem m2 k1) l) by (apply km_ok_low; [done|done|by eapply same_but_trans]).
  assert (Hse2 := sent_upto_kicked me c _ a _ _ Hse Hc Ha Hki).
  assert (Hap : apic_sent c (at_boot (set_mem m2 k1) st h2 s0)).
  { exists a. split; [done|]. change (ipi (hw (dev_of (at_boot (set_mem m2 k1) st h2 s0)))) with (ipi h2). rewrite Hki. left. }
  assert (Hscr : forall m, mem_ok m -> same_but screen m2 m -> told p m /\ km_ok (set_mem m k1) l).
  { intros m Hmo Hsc. split; [by eapply told_same_but; [exact Ht2|exact Hsc|exact screen_code]|]. apply (km_ok_low (set_mem m2 k1)); [done|done|].
    eapply same_but_mono; [exact Hsc|exact screen_low]. }
  eapply wpe_mono; [apply (wpe_wait_started me L c e n); try done|].
  - intros m h' Hmo Hsc Hi. destruct (Hscr m Hmo Hsc) as [Htm Hkm]. exists c, p. split; [done|]. split; [apply Hst; lia|]. split; [apply Hst|].
    split; [by apply (apic_sent_same (set_mem m2 k1) st h2)|]. done.
  - intros [] s3 (m3 & h3 & -> & Hm3 & Hs3 & Hi3). cbn in Hs3. destruct (Hscr m3 Hm3 Hs3) as [Ht3 Hk3]. exists (set_mem m3 k1), (<[c := 1]> st), h3. split; [done|].
    split; [by apply started_next|]. rewrite stack_no_S by done. split; [done|]. split; [apply Ht3|]. by rewrite Hi3.
Qed.

Lemma wpe_start_from me id L s0 e : flag eflags FL_IF = false -> (forall h, fst (apic_read (lapic (mpt (dev_of s0))) h) = id) ->
  find_index (fun a => a =? id) (apicids (mpt (dev_of s0))) = Some me -> NoDup (apicids (mpt (dev_of s0))) -> lapic (mpt (dev_of s0)) = base ->
  Forall (fun a => 0 <= a < 256) (apicids (mpt (dev_of s0))) -> (e <= S (List.length L))%nat -> e = List.length (apicids (mpt (dev_of s0))) ->
  forall m c k st h, (c + m)%nat = e -> boot_at me c e L k st h s0 ->
  wpe (told_cpu me L) others_run all_started (start_from fuel eflags k_mpenter k_entrypgdir code c m)
    (fun _ s' => exists k' st' h', s' = at_boot k' st' h' s0 /\ boot_at me e e L k' st' h' s0) n (at_boot k st h s0).
Proof using Hentry Hfuel.
  intros Hfl Hid Hme Hnd Hbase Hids HeL He. assert (Hmee : (me < e)%nat) by (apply find_index_Some in Hme as (x & Hx & _); subst e; by eapply lookup_lt_Some).
  induction m as [|m IH]; intros c k st h Hn Hb; cbn [start_from].
  - exists k, st, h. split; [done|]. by replace e with c in * by lia.
  - unfold wpe. rewrite (bind_ret_run _ _ _ _ _ (run_mycpu (at_boot k st h s0) id me Hfl Hid Hme)). set (h1 := snd (apic_of _)).
    assert (Hi1 : ipi h1 = ipi h).
    { unfold h1, apic_of, apic_read. change (lapic (mpt (dev_of (at_boot k st h s0)))) with (lapic (mpt (dev_of s0))). rewrite Hbase. destruct (base =? 0); [done|]. apply (ipi_id h). }
    change (set_hw h1 (at_boot k st h s0)) with (at_boot k st h1 s0). assert (Hb1 : boot_at me c e L k st h1 s0) by (unfold boot_at in *; by rewrite Hi1). clearbody h1.
    destruct (Nat.eqb_spec c me) as [->|Hne].
    + mrun. apply IH; [lia|]. destruct Hb1 as ([Hs1 Hs2] & B2 & B3 & B4). split; [split; intros j Hj; [intros; apply Hs1; lia|apply Hs2; lia]|].
      rewrite stack_no_me. split; [done|]. split; [done|]. intros x Hx. destruct (B4 x Hx) as (j & Hj & Hm & Hl). exists j. split; [lia|done].
    + destruct (lookup_lt_is_Some_2 (apicids (mpt (dev_of s0))) c ltac:(lia)) as [a Ha]. apply wpe_bind.
      eapply wpe_mono; [eapply (wpe_start_one me L c e k st h1 s0 a); try done; try lia|].
      * unfold stack_no. destruct (Nat.leb_spec c me); lia.
      * by eapply Forall_lookup_1 in Hids.
      * intros [] s1 (k1 & st1 & h2 & -> & Hb2). cbv beta. apply IH; [lia|done].
Qed.

End others.

(** C18: the other processors are started one after the other.  On a machine with the processors of the table, startothers copies the start code to 0x7000 and starts every other
    processor in turn.  While it waits for one, that processor has been reset and sent to the start code by interrupts to its own APIC id, and the words before the start code
    hold the top of a page of its own, taken off the free list (the k-th processor to be started gets the k-th page), the entry point and the page table.  Meanwhile only
    processors that have been sent there may start, printing what they like, and it may take them a while: this processor looks [n] times at most before all of them have
    ([n] is any number below the bound on the iterations).  Then startothers returns, every other processor has started, and the allocator has the pages that are left. *)
Theorem startothers_starts_all {KI : KernelImage} {H} {HW : Hardware H} {base : Z} {LA : LocalApic H base} (fuel n : nat) (eflags : Z) (entryother : list Z)
    (k_mpenter k_entrypgdir id : Z) (me : nat) (l : list Z) (s : kst (fsst (devst idest H))) :
  let ids := apicids (mpt (dev_of s)) in
  flag eflags FL_IF = false -> (n + 1 <= fuel)%nat -> lapic (mpt (dev_of s)) = base -> (forall h, fst (apic_read base h) = id) ->
  find_index (fun a => a =? id) ids = Some me -> NoDup ids -> Forall (fun a => 0 <= a < 256) ids -> sent (ipi (hw (dev_of s))) = [] ->
  (List.length entryother <= 4096)%nat -> Forall (fun b => 0 <= b < 256) entryother ->
  cpu_started (mpt (dev_of s)) = replicate NCPU 0 -> (List.length ids <= NCPU)%nat -> km_ok (km s) l -> (List.length ids <= S (List.length l))%nat ->
  wpe (told_cpu entryother k_mpenter k_entrypgdir me l) others_run all_started (startothers fuel eflags entryother k_mpenter k_entrypgdir)
    (fun _ s' => exists k st h, s' = at_boot k st h s /\ km_ok k (drop (pred (List.length ids)) l) /\ forall c, (c < List.length ids)%nat -> c <> me -> st !! c = Some 1) n s.
Proof.
  intros ids Hfl Hf Hbase Hid Hme Hnd Hids Hse Hlen Hby Hst Hn Hk Hl. unfold startothers, upd_mem, get_mp, wpe. mrun. set (m := st_bytes (mem (km s)) (P2V 0x7000) entryother).
  assert (Hb : bytes_at m code entryother).
  { intros i b Hi. pose proof (lookup_lt_Some _ _ _ Hi). unfold m. change (P2V 0x7000) with code. rewrite ld8_st_bytes, decide_True by lia.
    replace (Z.to_nat _) with i by lia. rewrite Hi. cbn. apply u8_id. by eapply Forall_lookup_1 in Hby. }
  assert (Hlow : same_but low (mem (km s)) m).
  { intros a Ha. unfold m. rewrite ld8_st_bytes, decide_False; [done|]. intros Hin. apply Ha. change (P2V 0x7000) with 0x80007000 in Hin. unfold low, KERNLINK, KERNBASE, EXTMEM. lia. }
  assert (Hk1 : km_ok (set_mem m (km s)) l) by (apply km_ok_low; [done|apply mem_ok_st_bytes, Hk|done]).
  assert (Es : set_km (set_mem m (km s)) s = at_boot (set_mem m (km s)) (replicate NCPU 0) (hw (dev_of s)) s).
  { unfold at_boot. rewrite <- Hst. by destruct s as [? ? ? ? ? ? ? ? ? [? ? ? ? [? ? [] ?]]]. }
  assert (Hme' : (me < List.length ids)%nat) by (apply find_index_Some in Hme as (x & Hx & _); by eapply lookup_lt_Some).
  rewrite Es. eapply wpe_mono; [apply (wpe_start_from fuel eflags entryother k_mpenter k_entrypgdir Hlen n Hf me id l s (List.length ids)); try done|].
  - by rewrite Hbase.
  - split; [split; intros j Hj; [lia|]; apply lookup_replicate_2; lia|]. split; [done|]. split; [done|]. rewrite Hse. by intros x ?%not_elem_of_nil.
  - intros [] s' (k & st & h & -> & [Hs' _] & Hk' & _). exists k, st, h. split; [done|]. split; [|done].
    unfold stack_no in Hk'. by rewrite (proj2 (Nat.leb_gt (List.length ids) me)) in Hk' by done.
Qed.

(** ** Instances *)

(** A machine with two processors. *)
Definition ex_smp (t : kmst) : kst (fsst (devst idest ctl)) :=
  KS t (replicate 64 proc0) None cpu0 [] 1 None 0 (replicate NFILE file0)
    (FS [] (Log 0 0 0 0 0 0 []) (Superblock 0 0 0 0 0 0 0) [] (Dev (Ide None [] 0) ex_cons (Mp 0xFEE00000 [0; 1] 0 IOAPIC (replicate NCPU 0)) (ex_ctl_at Idle))).

Lemma kvmalloc_maps_kernel_witness : exists kpgdir t, (run_km (kinit1 k_end (P2V (4 * 1024 * 1024)));; kvmalloc) (ex_smp km_zero) = Ret kpgdir (set_km t (ex_smp km_zero)) /\
  pte_of (mem t) kpgdir 0x80100000 = 0x100001.
Proof.
  destruct (kvmalloc_maps_kernel (ex_smp km_zero)) as (d & t & l & E & _ & Hpte & _); [apply mem_ok_empty|done|done|done|].
  exists d, t. split; [exact E|]. rewrite Hpte by lia. vm_compute. reflexivity.
Defined.

(** The commands a local interrupt controller at 0xFEE00000 is given, on a machine that does nothing else. *)
#[local] Instance ex_apic_hw : Hardware ipis := {|
  in8 := fun _ h => (0, h); out8 := fun _ _ h => h; in32 := fun _ h => (0, h); out32 := fun _ _ h => h;
  mmio_ld := fun _ h => (0, h);
  mmio_st := fun a v h => if (a =? 0xFEE00000 + 4 * ICRHI) then ipi_write ICRHI v h else if (a =? 0xFEE00000 + 4 * ICRLO) then ipi_write ICRLO v h else h |}.

#[local] Instance ex_apic : LocalApic ipis 0xFEE00000.
Proof. refine {| ipi := fun h => h |}; try done. by intros h reg v _ [-> | ->]. Defined.

Definition ex_smp3 (t : kmst) : kst (fsst (devst idest ipis)) :=
  KS t (replicate 64 proc0) None cpu0 [] 1 None 0 (replicate NFILE file0)
    (FS [] (Log 0 0 0 0 0 0 []) (Superblock 0 0 0 0 0 0 0) [] (Dev (Ide None [] 0) ex_cons (Mp 0xFEE00000 [4; 0; 7] 0 IOAPIC (replicate NCPU 0)) (Ipis 0 [] []))).

Lemma startothers_starts_all_witness : let l := [0x80500000; 0x80501000; 0x80502000] in let s := ex_smp3 (km_free l) in
  wpe (told_cpu [0xfa] 0x80103000 0x80109000 1 l) others_run all_started (startothers 6 0 [0xfa] 0x80103000 0x80109000)
    (fun _ s' => exists k st h, s' = at_boot k st h s /\ km_ok k [0x80502000] /\ forall c, (c < 3)%nat -> c <> 1%nat -> st !! c = Some 1) 5 s.
Proof.
  intros l s. apply (startothers_starts_all 6 5 0 [0xfa] 0x80103000 0x80109000 0 1 l s); try done; try (cbn; lia).
  - repeat constructor; set_solver.
  - by repeat constructor.
  - by repeat constructor.
  - change (3 <= 8)%nat. lia.
  - apply km_ok_free; [repeat constructor; set_solver|]. repeat constructor; vm_compute; (done || intuition congruence).
Defined.
