(* ===== verification/Mkfs.v ===== *)
(** * The image builder (mkfs.c)

    The program of the build host that makes the initial file system.  The image is
    a file of the host, here its bytes and its length in sectors; reading past its
    end makes the program exit, as do failed assertions: both are the [Panic]
    outcome.  Input files are read to their end, [BSIZE] bytes at a time, which is
    what read does on a regular file.  A [struct dinode] or sector in memory is a
    byte memory at offset 0. *)

From Stdlib Require Import ZArith Lia Ascii String.
From stdpp Require Import base tactics numbers option list strings zmap.
From S2P Require Import Prelude Memory Mmu FsState Log Fs Print Ide.

Definition NINODES : Z := 200.
Definition nbitmap : Z := FSSIZE / (BSIZE * 8) + 1.
Definition ninodeblocks : Z := NINODES / IPB + 1.
Definition nlog : Z := Z.of_nat LOGSIZE.
Definition nmeta : Z := 2 + nlog + ninodeblocks + nbitmap.
Definition nblocks : Z := FSSIZE - nmeta.

(** The bytes in Intel order, read back on a little-endian host. *)
Definition xshort (x : Z) : Z := u8 x + 256 * u8 (Z.shiftr x 8).
Definition xint (x : Z) : Z := u8 x + 256 * u8 (Z.shiftr x 8) + 65536 * u8 (Z.shiftr x 16) + 16777216 * u8 (Z.shiftr x 24).

Record mkst : Type := Mk { img : Zmap Z; nsect : Z; freeinode : Z; freeblock : Z }.
Definition set_img (v : Zmap Z) (s : mkst) : mkst := Mk v (nsect s) (freeinode s) (freeblock s).
Definition set_nsect (v : Z) (s : mkst) : mkst := Mk (img s) v (freeinode s) (freeblock s).
Definition set_freeinode (v : Z) (s : mkst) : mkst := Mk (img s) (nsect s) v (freeblock s).
Definition set_freeblock (v : Z) (s : mkst) : mkst := Mk (img s) (nsect s) (freeinode s) v.

(** The variable sb of mkfs.c. *)
Definition mk_sb : superblock :=
  Superblock (xint FSSIZE) (xint nblocks) (xint NINODES) (xint nlog) (xint 2) (xint (2 + nlog)) (xint (2 + nlog + ninodeblocks)).

#[local] Abbreviation MI := (M mkst).

Definition rsect (sec : Z) : MI (Zmap Z) :=
  n ← gets nsect;
  let off := u32 (sec * BSIZE) in
  if negb (off + BSIZE <=? n * BSIZE) then panic "read"
  else m ← gets img; mret (st_bytes ∅ 0 (ld_bytes m off (Z.to_nat BSIZE))).

Definition wsect (sec : Z) (buf : Zmap Z) : MI unit :=
  let off := u32 (sec * BSIZE) in
  modify (fun s => set_nsect (Z.max (nsect s) (off / BSIZE + 1)) (set_img (st_bytes (img s) off (ld_bytes buf 0 (Z.to_nat BSIZE))) s)).

Definition winode (inum : Z) (ip : Zmap Z) : MI unit :=
  let bn := IBLOCK inum mk_sb in
  buf ← rsect bn;
  wsect bn (st_bytes buf (inum mod IPB * sizeof_dinode) (ld_bytes ip 0 (Z.to_nat sizeof_dinode))).

Definition rinode (inum : Z) : MI (Zmap Z) :=
  let bn := IBLOCK inum mk_sb in
  buf ← rsect bn;
  mret (st_bytes ∅ 0 (ld_bytes buf (inum mod IPB * sizeof_dinode) (Z.to_nat sizeof_dinode))).

(** freeblock++ *)
Definition next_block : MI Z := b ← gets freeblock; modify (set_freeblock (u32 (b + 1)));; mret b.

Definition ialloc (type : Z) : MI Z :=
  inum ← gets freeinode;
  modify (set_freeinode (u32 (inum + 1)));;
  winode inum (st32 (st16 (st16 ∅ 0 (xshort type)) 6 (xshort 1)) 8 (xint 0));;
  mret inum.

(** The bitmap: [n] bits from bit [i] on. *)
Fixpoint set_bits (buf : Zmap Z) (i : Z) (n : nat) : Zmap Z :=
  match n with
  | O => buf
  | S n' => set_bits (st8 buf (i / 8) (Z.lor (ld8 buf (i / 8)) (Z.shiftl 1 (i mod 8)))) (i + 1) n'
  end.

Definition balloc (used : Z) : MI unit :=
  if negb (used <? BSIZE * 8) then panic "assert: used < BSIZE*8"
  else wsect (sb_bmapstart mk_sb) (set_bits ∅ 0 (Z.to_nat used)).

(** The block of the file with inode [din] that holds block [fbn] of it, allocated if need be. *)
Definition append_block (din : Zmap Z) (fbn : Z) : MI (Z * Zmap Z) :=
  let addr k := 12 + 4 * k in
  if fbn <? NDIRECT then
    din ← (if xint (ld32 din (addr fbn)) =? 0 then b ← next_block; mret (st32 din (addr fbn) (xint b)) else mret din);
    mret (xint (ld32 din (addr fbn)), din)
  else
    din ← (if xint (ld32 din (addr NDIRECT)) =? 0 then b ← next_block; mret (st32 din (addr NDIRECT) (xint b)) else mret din);
    let ind := xint (ld32 din (addr NDIRECT)) in
    indirect ← rsect ind;
    indirect ←
      (if ld32 indirect (4 * (fbn - NDIRECT)) =? 0 then
         b ← next_block;
         let indirect := st32 indirect (4 * (fbn - NDIRECT)) (xint b) in
         wsect ind indirect;;
         mret indirect
       else mret indirect);
    mret (xint (ld32 indirect (4 * (fbn - NDIRECT))), din).

(** The loop of iappend: the bytes left, the offset, the inode. *)
Definition append_body (a : list Z * Z * Zmap Z) : MI (list Z * Z * Zmap Z + Z * Zmap Z) :=
  let '(p, off, din) := a in
  match p with
  | [] => mret (inr (off, din))
  | _ =>
      let fbn := off / BSIZE in
      if negb (fbn <? MAXFILE) then panic "assert: fbn < MAXFILE"
      else
        '(x, din) ← append_block din fbn;
        let n1 := Z.to_nat (Z.min (Z.of_nat (List.length p)) ((fbn + 1) * BSIZE - off)) in
        buf ← rsect x;
        wsect x (st_bytes buf (off - fbn * BSIZE) (take n1 p));;
        mret (inl (drop n1 p, u32 (off + Z.of_nat n1), din))
  end.

Definition iappend (inum : Z) (p : list Z) : MI unit :=
  din ← rinode inum;
  '(off, din) ← iterate (S (List.length p)) append_body (p, xint (ld32 din 8), din);
  winode inum (st32 din 8 (xint off)).

(** ** The program *)

(** A directory entry with the given number and name. *)
Definition dirent (inum : Z) (name : list Z) : list Z :=
  let name := take (Z.to_nat DIRSIZ) name in
  [u8 (xshort inum); u8 (Z.shiftr (xshort inum) 8)] ++ name ++ replicate (Z.to_nat DIRSIZ - List.length name) 0.

(** The loop over the contents of an input file. *)
Fixpoint append_file (inum : Z) (n : nat) (l : list Z) : MI unit :=
  match n with
  | O => out_of_fuel
  | S n' =>
      match take (Z.to_nat BSIZE) l with
      | [] => mret tt
      | buf => iappend inum buf;; append_file inum n' (drop (Z.to_nat BSIZE) l)
      end
  end.

(** The name in the image, without a leading underscore. *)
Definition skip_underscore (name : list Z) : list Z :=
  match name with c :: name' => if c =? asc "_" then name' else name | [] => [] end.

(** One argument; [host] has the files of the build host. *)
Definition add_file (host : list Z -> option (list Z)) (rootino : Z) (name : list Z) : MI unit :=
  if bool_decide (asc "/" ∈ name) then panic "assert: index(argv[i], '/') == 0"
  else
    match host name with
    | None => panic "open"
    | Some l =>
        inum ← ialloc T_FILE;
        iappend rootino (dirent inum (skip_underscore name));;
        append_file inum (S (List.length l)) l
    end.

Fixpoint add_files (host : list Z -> option (list Z)) (rootino : Z) (names : list (list Z)) : MI unit :=
  match names with
  | [] => mret tt
  | name :: names' => add_file host rootino name;; add_files host rootino names'
  end.

(** [n] zeroed sectors from [i] on. *)
Fixpoint zero_sectors (i : Z) (n : nat) : MI unit :=
  match n with O => mret tt | S n' => wsect i ∅;; zero_sectors (i + 1) n' end.

(** memmove(buf, &sb, sizeof(sb)) *)
Definition sb_sector : Zmap Z :=
  foldr (fun '(o, v) m => st32 m o v) ∅
    [(0, sb_size mk_sb); (4, sb_nblocks mk_sb); (8, sb_ninodes mk_sb); (12, sb_nlog mk_sb); (16, sb_logstart mk_sb); (20, sb_inodestart mk_sb); (24, sb_bmapstart mk_sb)].

(** main, with the image file opened and truncated. *)
Definition mkfs_main (host : list Z -> option (list Z)) (argv : list (list Z)) : MI unit :=
  modify (set_freeblock nmeta);;
  zero_sectors 0 (Z.to_nat FSSIZE);;
  wsect 1 sb_sector;;
  rootino ← ialloc T_DIR;
  if negb (rootino =? ROOTINO) then panic "assert: rootino == ROOTINO"
  else
    iappend rootino (dirent rootino (bytes_of "."));;
    iappend rootino (dirent rootino (bytes_of ".."));;
    add_files host rootino argv;;
    din ← rinode rootino;
    let off := xint (ld32 din 8) in
    let off := u32 ((off / BSIZE + 1) * BSIZE) in
    winode rootino (st32 din 8 (xint off));;
    used ← gets freeblock;
    balloc used.

(** ** Sectors *)

Lemma xint_id x : 0 <= x < 2 ^ 32 -> xint x = x.
Proof. intros Hx. unfold xint, u8. rewrite !Z.shiftr_div_pow2 by lia. change (2 ^ 8) with 256. change (2 ^ 16) with 65536. change (2 ^ 24) with 16777216. divlia. Qed.

Lemma xshort_id x : 0 <= x < 65536 -> xshort x = x.
Proof. intros Hx. unfold xshort, u8. rewrite !Z.shiftr_div_pow2 by lia. change (2 ^ 8) with 256. divlia. Qed.

Lemma xint_ld32 m a : mem_ok m -> xint (ld32 m a) = ld32 m a.
Proof. intros Hm. apply xint_id. pose proof (ld32_range m a Hm). lia. Qed.

(** [n] bytes of [m] from [a] on, as a memory of their own. *)
Definition copy (m : Zmap Z) (a n : Z) : Zmap Z := st_bytes ∅ 0 (ld_bytes m a (Z.to_nat n)).
(** [m] with the first [n] bytes of [b] at [a]. *)
Definition paste (m : Zmap Z) (a n : Z) (b : Zmap Z) : Zmap Z := st_bytes m a (ld_bytes b 0 (Z.to_nat n)).

Lemma ld8_copy m a n j : mem_ok m -> 0 <= j < n -> ld8 (copy m a n) j = ld8 m (a + j).
Proof.
  intros Hm Hj. unfold copy. rewrite ld8_st_bytes, length_ld_bytes, decide_True by lia. rewrite lookup_ld_bytes by lia. cbn.
  rewrite u8_id by apply Hm. f_equal. lia.
Qed.

Lemma mem_ok_copy m a n : mem_ok (copy m a n).
Proof. apply mem_ok_st_bytes, mem_ok_empty. Qed.

Lemma ld8_paste m a n b j : mem_ok b -> 0 <= n -> ld8 (paste m a n b) j = if decide (a <= j < a + n) then ld8 b (j - a) else ld8 m j.
Proof.
  intros Hb Hn. unfold paste. rewrite ld8_st_bytes, length_ld_bytes, Z2Nat.id by lia. case_decide; [|done].
  rewrite lookup_ld_bytes by lia. cbn. rewrite u8_id by apply Hb. f_equal. lia.
Qed.

Lemma mem_ok_paste m a n b : mem_ok m -> mem_ok (paste m a n b).
Proof. apply mem_ok_st_bytes. Qed.

Lemma ld32_copy m a n j : mem_ok m -> 0 <= j -> j + 4 <= n -> ld32 (copy m a n) j = ld32 m (a + j).
Proof. intros Hm H1 H2. unfold ld32. rewrite !ld8_copy by (done || lia). by rewrite !Z.add_assoc. Qed.

Lemma copy_ext m m' a n : (forall j, 0 <= j < n -> ld8 m (a + j) = ld8 m' (a + j)) -> copy m a n = copy m' a n.
Proof. intros E. unfold copy. f_equal. apply ld_bytes_ext. intros i Hi. apply E. lia. Qed.

(** The image once it has its [FSSIZE] sectors. *)
Lemma run_rsect s sec : nsect s = FSSIZE -> 0 <= sec < FSSIZE -> rsect sec s = Ret (copy (img s) (sec * BSIZE) BSIZE) s.
Proof.
  intros Hn Hs. unfold rsect. mrun. rewrite Hn. unfold BSIZE, FSSIZE in *. rewrite u32_id by lia. rewrite (proj2 (Z.leb_le _ _)) by lia. done.
Qed.

Lemma run_wsect s sec b : nsect s = FSSIZE -> 0 <= sec < FSSIZE -> wsect sec b s = Ret tt (set_img (paste (img s) (sec * BSIZE) BSIZE b) s).
Proof.
  intros Hn Hs. unfold wsect, modify. rewrite Hn. unfold BSIZE, FSSIZE in *. rewrite u32_id, Z.div_mul by lia. rewrite Z.max_l by lia. destruct s. cbn in *. by subst.
Qed.

(** ** Inodes *)

(** Where inode [n] is in the image. *)
Definition iaddr (n : Z) : Z := 16384 + 64 * n.
Definition inode_of (m : Zmap Z) (n : Z) : Zmap Z := copy m (iaddr n) 64.

Lemma iblock n : 0 <= n < 208 -> IBLOCK n mk_sb = n / 8 + 32 /\ 0 <= n / 8 + 32 < FSSIZE /\ (n / 8 + 32) * BSIZE + n mod IPB * sizeof_dinode = iaddr n /\ 0 <= n mod IPB * sizeof_dinode <= 448.
Proof.
  intros Hn. unfold IBLOCK. change (sb_inodestart mk_sb) with 32. change IPB with 8. unfold FSSIZE, BSIZE, sizeof_dinode, iaddr. rewrite u32_id by divlia. divlia.
Qed.

Lemma run_rinode s n : nsect s = FSSIZE -> mem_ok (img s) -> 0 <= n < 208 -> rinode n s = Ret (inode_of (img s) n) s.
Proof.
  intros Hs Hm Hn. destruct (iblock n Hn) as (E & Hb & Ea & Ho). unfold rinode. rewrite E. rewrite (bind_ret_run _ _ _ _ _ (run_rsect s _ Hs Hb)).
  unfold inode_of. rewrite <- Ea. unfold sizeof_dinode in *. unfold mret, M_ret. f_equal. change (copy (img s) ?a 64) with (st_bytes ∅ 0 (ld_bytes (img s) a 64)). f_equal.
  apply ld_bytes_ext. intros i Hi. rewrite ld8_copy by (done || unfold BSIZE; lia). f_equal. lia.
Qed.

Lemma run_winode s n d : nsect s = FSSIZE -> mem_ok (img s) -> mem_ok d -> 0 <= n < 208 -> exists m', winode n d s = Ret tt (set_img m' s) /\ mem_ok m' /\
  forall a, ld8 m' a = if decide (iaddr n <= a < iaddr n + 64) then ld8 d (a - iaddr n) else ld8 (img s) a.
Proof.
  intros Hs Hm Hd Hn. destruct (iblock n Hn) as (E & Hb & Ea & Ho). unfold winode. rewrite E. rewrite (bind_ret_run _ _ _ _ _ (run_rsect s _ Hs Hb)), run_wsect by done.
  eexists. split; [done|]. split; [by apply mem_ok_paste|]. intros a. set (o := n mod IPB * sizeof_dinode) in *. set (sec := n / 8 + 32) in *.
  change (st_bytes ?x o (ld_bytes d 0 (Z.to_nat sizeof_dinode))) with (paste x o 64 d). rewrite ld8_paste; [|by apply mem_ok_paste, mem_ok_copy|done].
  rewrite <- Ea. unfold BSIZE in *. repeat case_decide; try lia; rewrite ?ld8_paste by done; repeat case_decide; try lia; try (f_equal; lia); try done. rewrite ld8_copy by (done || lia). f_equal. lia.
Qed.

(** ** Files of the image

    As for the kernel ([FsInode]): the blocks and bytes of the file with inode [d], in the image [m]. *)
Definition iad (d : Zmap Z) (k : Z) : Z := ld32 d (12 + 4 * k).
Definition blk (m d : Zmap Z) (fbn : Z) : Z :=
  if fbn <? 12 then iad d fbn else if iad d 12 =? 0 then 0 else ld32 m (iad d 12 * 512 + 4 * (fbn - 12)).
Definition fbyte (m d : Zmap Z) (o : Z) : Z := ld8 m (blk m d (o / 512) * 512 + o mod 512).
Definition uses (m d : Zmap Z) (b : Z) : Prop := b <> 0 /\ (b = iad d 12 \/ exists fbn, 0 <= fbn < 140 /\ b = blk m d fbn).

Record view_ok (m d : Zmap Z) (fb : Z) : Prop := View_ok {
  v_range : forall b, uses m d b -> nmeta <= b < fb;
  v_inj : forall i j, 0 <= i < 140 -> 0 <= j < 140 -> blk m d i <> 0 -> blk m d i = blk m d j -> i = j;
  v_ind : forall i, 0 <= i < 140 -> blk m d i <> 0 -> blk m d i <> iad d 12 }.

Record base (s : mkst) : Prop := Base {
  b_mem : mem_ok (img s);
  b_sect : nsect s = FSSIZE;
  b_free : nmeta <= freeblock s <= FSSIZE;
  b_zero : forall a, freeblock s * 512 <= a -> ld8 (img s) a = 0 }.

Lemma uses_blk m d i : 0 <= i < 140 -> blk m d i <> 0 -> uses m d (blk m d i).
Proof. intros Hi Hb. split; [done|]. right. by exists i. Qed.

Lemma ld32_zero s a : base s -> freeblock s * 512 <= a -> ld32 (img s) a = 0.
Proof. intros Hb Ha. unfold ld32. by rewrite !(b_zero _ Hb) by lia. Qed.

Lemma run_next_block s : base s -> freeblock s < FSSIZE -> next_block s = Ret (freeblock s) (set_freeblock (freeblock s + 1) s).
Proof. intros Hb Hf. unfold next_block. mrun. pose proof (b_free _ Hb) as Hr. change nmeta with 59 in Hr. unfold FSSIZE in *. by rewrite u32_id by lia. Qed.

Lemma base_next s : base s -> freeblock s < FSSIZE -> base (set_freeblock (freeblock s + 1) s).
Proof. intros [H1 H2 H3 H4] Hf. split; cbn; try done; [lia|]. intros a Ha. apply H4. lia. Qed.

(** Writing sectors below the free ones. *)
Lemma base_img s m' : base s -> mem_ok m' -> (forall a, freeblock s * 512 <= a -> ld8 m' a = ld8 (img s) a) -> base (set_img m' s).
Proof. intros [H1 H2 H3 H4] Hm Hz. split; cbn; try done. intros a Ha. rewrite Hz by done. by apply H4. Qed.

Definition one_if (b : bool) : Z := if b then 1 else 0.

Lemma one_if_range b : 0 <= one_if b <= 1.
Proof. by destruct b. Qed.

(** The file has got block [fbn]; its other blocks and the rest of the image, but for its indirect block, are as before. *)
Record grown (s : mkst) (d : Zmap Z) (fbn : Z) (s' : mkst) (d' : Zmap Z) : Prop := Grown {
  g_base : base s';
  g_ino : freeinode s' = freeinode s;
  g_mem : mem_ok d';
  g_din : forall j, 0 <= j < 12 -> ld8 d' j = ld8 d j;
  g_view : view_ok (img s') d' (freeblock s');
  g_blk : blk (img s') d' fbn <> 0;
  g_old : forall i, 0 <= i < 140 -> blk (img s) d i <> 0 \/ i <> fbn -> blk (img s') d' i = blk (img s) d i;
  g_uses : forall b, uses (img s') d' b -> uses (img s) d b \/ freeblock s <= b < freeblock s';
  g_frame : forall a, (iad d' 12 <> 0 -> a / 512 <> iad d' 12) -> ld8 (img s') a = ld8 (img s) a;
  g_ind : iad d 12 <> 0 -> iad d' 12 = iad d 12;
  g_cost : freeblock s <= freeblock s' /\
    freeblock s' + one_if (iad d' 12 =? 0) <= freeblock s + one_if (iad d 12 =? 0) + one_if (blk (img s) d fbn =? 0) }.

Lemma iad_st32 d k i v : 0 <= k -> 0 <= i -> 0 <= v < 4294967296 -> iad (st32 d (12 + 4 * k) v) i = if decide (i = k) then v else iad d i.
Proof. intros Hk Hi Hv. unfold iad. case_decide as E; [subst; by apply ld32_st32_eq|]. apply ld32_st32_ne. lia. Qed.

Lemma mk_grown_refl s d fbn : base s -> mem_ok d -> view_ok (img s) d (freeblock s) -> blk (img s) d fbn <> 0 -> grown s d fbn s d.
Proof. intros Hb Hd Hv Hn. split; try done; [by left|]. split; [done|]. pose proof (one_if_range (blk (img s) d fbn =? 0)). lia. Qed.

(** A direct block. *)
Lemma grown_direct s d fbn : base s -> mem_ok d -> view_ok (img s) d (freeblock s) -> 0 <= fbn < 12 -> iad d fbn = 0 -> freeblock s < FSSIZE ->
  grown s d fbn (set_freeblock (freeblock s + 1) s) (st32 d (12 + 4 * fbn) (freeblock s)).
Proof.
  intros Hb Hd Hv Hf Hz Hfb. pose proof (b_free _ Hb) as Hr. change nmeta with 59 in Hr. unfold FSSIZE in *. set (d' := st32 d _ _).
  assert (Ei : forall i, 0 <= i -> iad d' i = if decide (i = fbn) then freeblock s else iad d i) by (intros i Hi; apply iad_st32; lia).
  assert (E12 : iad d' 12 = iad d 12) by (rewrite Ei by lia; by rewrite decide_False by lia).
  assert (Eb : forall i, 0 <= i < 140 -> blk (img s) d' i = if decide (i = fbn) then freeblock s else blk (img s) d i).
  { intros i Hi. unfold blk. rewrite E12. destruct (Z.ltb_spec i 12); [by apply Ei; lia|]. by rewrite decide_False by lia. }
  assert (Hu : forall b, uses (img s) d' b -> uses (img s) d b \/ b = freeblock s).
  { intros b [Hn [->|(i & Hi & ->)]]; [left; split; [done|left; by rewrite E12]|]. rewrite Eb in Hn |- * by done. case_decide; [by right|left; by apply uses_blk]. }
  assert (Hold : forall i, 0 <= i < 140 -> blk (img s) d i <> freeblock s).
  { intros i Hi E. destruct (v_range _ _ _ Hv (blk (img s) d i)) as [_ ?]; [apply uses_blk; [done|]; lia|lia]. }
  split; cbn [img freeblock freeinode set_freeblock]; try done.
  - by apply base_next.
  - by apply mem_ok_st32.
  - intros j Hj. apply ld8_st32_ne. lia.
  - split.
    + intros b [Hb'| ->]%Hu; [destruct (v_range _ _ _ Hv b Hb'); lia|change nmeta with 59; lia].
    + intros i j Hi Hj. rewrite !Eb by done. repeat case_decide; subst; try done; [|intros _ E; by destruct (Hold i Hi)|by apply (v_inj _ _ _ Hv)]. intros _ E. by destruct (Hold j Hj).
    + intros i Hi. rewrite Eb, E12 by done. case_decide; [|by apply (v_ind _ _ _ Hv)]. intros _ E. destruct (v_range _ _ _ Hv (iad d 12)) as [_ ?]; [split; [lia|by left]|lia].
  - rewrite Eb by lia. rewrite decide_True by done. lia.
  - intros i Hi Hor. rewrite Eb by done. case_decide; [|done]. subst i. unfold blk in Hor. rewrite (proj2 (Z.ltb_lt fbn 12)), Hz in Hor by lia. by destruct Hor.
  - intros b [?| ->]%Hu; [by left|right; lia].
  - split; [lia|]. rewrite E12. unfold blk. rewrite (proj2 (Z.ltb_lt fbn 12)), Hz by lia. cbn. lia.
Qed.

(** An entry of the indirect block. *)
Lemma grown_entry s d fbn m' : base s -> mem_ok d -> view_ok (img s) d (freeblock s) -> 12 <= fbn < 140 -> iad d 12 <> 0 -> blk (img s) d fbn = 0 -> freeblock s < FSSIZE ->
  mem_ok m' -> (forall a, ld8 m' a = ld8 (st32 (img s) (iad d 12 * 512 + 4 * (fbn - 12)) (freeblock s)) a) ->
  grown s d fbn (set_img m' (set_freeblock (freeblock s + 1) s)) d.
Proof.
  intros Hb Hd Hv Hf Hi Hz Hfb Hm Em. pose proof (b_free _ Hb) as Hr. change nmeta with 59 in Hr. unfold FSSIZE in *. set (x := iad d 12) in *. set (e := x * 512 + 4 * (fbn - 12)) in *.
  assert (Hx : 59 <= x < freeblock s) by (apply (v_range _ _ _ Hv); split; [done|by left]).
  assert (Eb : forall i, 0 <= i < 140 -> blk m' d i = if decide (i = fbn) then freeblock s else blk (img s) d i).
  { intros i Hi'. unfold blk. fold x. rewrite (proj2 (Z.eqb_neq x 0)) by done. destruct (Z.ltb_spec i 12); [by rewrite decide_False by lia|].
    rewrite (ld32_ext (st32 (img s) e (freeblock s)) m') by (intros; apply Em). case_decide; [subst i; apply ld32_st32_eq; lia|]. apply ld32_st32_ne. unfold e. lia. }
  assert (Hu : forall b, uses m' d b -> uses (img s) d b \/ b = freeblock s).
  { intros b [Hn [->|(i & Hi' & ->)]]; [left; split; [done|by left]|]. rewrite Eb in Hn |- * by done. case_decide; [by right|left; by apply uses_blk]. }
  assert (Hold : forall i, 0 <= i < 140 -> blk (img s) d i <> freeblock s).
  { intros i Hi' E. destruct (v_range _ _ _ Hv (blk (img s) d i)) as [_ ?]; [apply uses_blk; [done|]; lia|lia]. }
  split; cbn [img freeblock freeinode set_freeblock set_img]; try done.
  - apply base_img; [by apply base_next|done|]. cbn. intros a Ha. rewrite Em. apply ld8_st32_ne. unfold e. lia.
  - split.
    + intros b [Hb'| ->]%Hu; [destruct (v_range _ _ _ Hv b Hb'); lia|change nmeta with 59; lia].
    + intros i j Hi' Hj. rewrite !Eb by done. repeat case_decide; subst; try done; [|intros _ E; by destruct (Hold i Hi')|by apply (v_inj _ _ _ Hv)]. intros _ E. by destruct (Hold j Hj).
    + intros i Hi'. rewrite Eb by done. fold x. case_decide; [lia|by apply (v_ind _ _ _ Hv)].
  - rewrite Eb by lia. rewrite decide_True by done. lia.
  - intros i Hi' Hor. rewrite Eb by done. case_decide; [|done]. subst i. by destruct Hor.
  - intros b [?| ->]%Hu; [by left|right; lia].
  - intros a Ha. rewrite Em. apply ld8_st32_ne. fold x in Ha. unfold e. specialize (Ha Hi). destruct (decide (a < x * 512 + 4 * (fbn - 12))); [by left|right]. revert Ha. divlia.
  - split; [lia|]. rewrite Hz. fold x. rewrite (proj2 (Z.eqb_neq x 0)) by done. cbn. lia.
Qed.

(** The indirect block itself, at first empty. *)
Lemma grown_indirect s d fbn : let s1 := set_freeblock (freeblock s + 1) s in let d1 := st32 d (12 + 4 * 12) (freeblock s) in
  base s -> mem_ok d -> view_ok (img s) d (freeblock s) -> 12 <= fbn < 140 -> iad d 12 = 0 -> freeblock s < FSSIZE ->
  (base s1 /\ mem_ok d1 /\ view_ok (img s1) d1 (freeblock s1) /\ iad d1 12 = freeblock s /\ blk (img s1) d1 fbn = 0) /\
  forall s' d', grown s1 d1 fbn s' d' -> grown s d fbn s' d'.
Proof.
  intros s1 d1 Hb Hd Hv Hf Hz Hfb. pose proof (b_free _ Hb) as Hr. change nmeta with 59 in Hr. unfold FSSIZE in *.
  assert (Ei : forall i, 0 <= i -> iad d1 i = if decide (i = 12) then freeblock s else iad d i) by (intros i Hi; apply iad_st32; lia).
  assert (E12 : iad d1 12 = freeblock s) by (rewrite Ei by lia; by rewrite decide_True).
  assert (Eb : forall i, 0 <= i < 140 -> blk (img s) d1 i = blk (img s) d i).
  { intros i Hi. unfold blk. rewrite E12, Hz. destruct (Z.ltb_spec i 12); [rewrite Ei by lia; by rewrite decide_False by lia|]. cbn [Z.eqb].
    rewrite (proj2 (Z.eqb_neq _ _)) by lia. apply ld32_zero; [done|lia]. }
  assert (Hu : forall b, uses (img s) d1 b -> uses (img s) d b \/ b = freeblock s).
  { intros b [Hn [->|(i & Hi' & ->)]]; [by right|]. rewrite Eb in Hn |- * by done. left. by apply uses_blk. }
  assert (Hz' : blk (img s) d fbn = 0) by (unfold blk; rewrite Hz; by destruct (Z.ltb_spec fbn 12); [lia|]).
  split.
  - split_and!; [by apply base_next|by apply mem_ok_st32| |done|cbn; by rewrite Eb by lia]. cbn. split.
    + intros b [Hb'| ->]%Hu; [destruct (v_range _ _ _ Hv b Hb'); lia|change nmeta with 59; lia].
    + intros i j Hi Hj. rewrite !Eb by done. by apply (v_inj _ _ _ Hv).
    + intros i Hi. rewrite Eb, E12 by done. intros Hn E. destruct (v_range _ _ _ Hv (blk (img s) d i)) as [_ ?]; [by apply uses_blk|lia].
  - intros s' d' [G1 G2 G3 G4 G5 G6 G7 G8 G9 G10 [G11 G12]]. split; try done; cbn in *.
    + intros j Hj. rewrite G4 by done. apply ld8_st32_ne. lia.
    + intros i Hi Hor. rewrite G7; [by apply Eb|done|]. by rewrite Eb.
    + intros b [[?| ->]%Hu|?]%G8; [by left|right; lia|right; lia].
    + split; [lia|]. rewrite Hz, Hz'. rewrite G10, E12 in * by (rewrite E12; lia). rewrite (proj2 (Z.eqb_neq (freeblock s) 0)) in * by lia.
      pose proof (one_if_range (blk (img s) d1 fbn =? 0)). cbn in *. lia.
Qed.

Lemma view_block_range m d fb i : view_ok m d fb -> 0 <= i < 140 -> blk m d i <> 0 -> 59 <= blk m d i < fb.
Proof. intros Hv Hi Hn. apply (v_range _ _ _ Hv). by apply uses_blk. Qed.

(** With an indirect block there. *)
Lemma run_append_entry s d fbn : base s -> mem_ok d -> view_ok (img s) d (freeblock s) -> 12 <= fbn < 140 -> iad d 12 <> 0 ->
  freeblock s + one_if (blk (img s) d fbn =? 0) <= FSSIZE ->
  exists s', (indirect ← rsect (iad d 12);
     indirect ←
       (if ld32 indirect (4 * (fbn - NDIRECT)) =? 0 then
          b ← next_block;
          let indirect := st32 indirect (4 * (fbn - NDIRECT)) (xint b) in
          wsect (iad d 12) indirect;;
          mret indirect
        else mret indirect);
     mret (xint (ld32 indirect (4 * (fbn - NDIRECT))), d)) s = Ret (blk (img s') d fbn, d) s' /\ grown s d fbn s' d.
Proof.
  intros Hb Hd Hv Hf Hi Hfb. pose proof (b_free _ Hb) as Hr. pose proof (b_mem _ Hb) as Hm. pose proof (b_sect _ Hb) as Hs. change nmeta with 59 in Hr. set (x := iad d 12) in *.
  assert (Hx : 59 <= x < freeblock s) by (apply (v_range _ _ _ Hv); split; [done|by left]).
  assert (Ebl : blk (img s) d fbn = ld32 (img s) (x * 512 + 4 * (fbn - 12))) by (unfold blk; fold x; rewrite (proj2 (Z.eqb_neq x 0)) by done; by destruct (Z.ltb_spec fbn 12); [lia|]).
  rewrite (bind_ret_run _ _ _ _ _ (run_rsect s x Hs ltac:(lia))). unfold NDIRECT. rewrite ld32_copy by (done || unfold BSIZE; lia). change BSIZE with 512. rewrite <- Ebl.
  destruct (Z.eqb_spec (blk (img s) d fbn) 0) as [Hz|Hnz]; cbn [one_if] in Hfb.
  - rewrite run_bind_bind. rewrite (bind_ret_run _ _ _ _ _ (run_next_block s Hb ltac:(lia))). cbv zeta. rewrite xint_id by (unfold FSSIZE in *; lia).
    set (c := copy (img s) (x * 512) 512). set (c' := st32 c (4 * (fbn - 12)) (freeblock s)). assert (Hc' : mem_ok c') by (by apply mem_ok_st32, mem_ok_copy).
    rewrite run_bind_bind. rewrite (bind_ret_run _ _ _ _ _ (run_wsect (set_freeblock (freeblock s + 1) s) x c' Hs ltac:(lia))). mrun. cbn [img set_freeblock].
    set (m' := paste (img s) (x * BSIZE) BSIZE c'). exists (set_img m' (set_freeblock (freeblock s + 1) s)).
    assert (Em : forall a, ld8 m' a = ld8 (st32 (img s) (x * 512 + 4 * (fbn - 12)) (freeblock s)) a).
    { intros a. unfold m'. change BSIZE with 512. rewrite ld8_paste by done. unfold c', st32, c. rewrite !ld8_st8.
      repeat case_decide; try lia; try done. rewrite ld8_copy by (done || lia). f_equal. lia. }
    assert (G : grown s d fbn (set_img m' (set_freeblock (freeblock s + 1) s)) d) by (apply grown_entry; try done; [lia|by apply mem_ok_paste]).
    split; [|done]. cbn [img set_img]. f_equal. f_equal. unfold blk. fold x. rewrite (proj2 (Z.eqb_neq x 0)) by done. destruct (Z.ltb_spec fbn 12); [lia|].
    unfold c'. rewrite ld32_st32_eq, xint_id by (unfold FSSIZE in *; lia). symmetry. rewrite (ld32_ext (st32 (img s) (x * 512 + 4 * (fbn - 12)) (freeblock s)) m') by (intros; apply Em). apply ld32_st32_eq. unfold FSSIZE in *. lia.
  - mrun. rewrite ld32_copy by (done || lia). rewrite <- Ebl. exists s. split; [|by apply mk_grown_refl]. rewrite xint_id; [done|]. pose proof (view_block_range (img s) d (freeblock s) fbn Hv ltac:(lia) Hnz). unfold FSSIZE in *. lia.
Qed.

Lemma run_append_block s d fbn : base s -> mem_ok d -> view_ok (img s) d (freeblock s) -> 0 <= fbn < 140 ->
  freeblock s + one_if (iad d 12 =? 0) + one_if (blk (img s) d fbn =? 0) <= FSSIZE ->
  exists s' d', append_block d fbn s = Ret (blk (img s') d' fbn, d') s' /\ grown s d fbn s' d'.
Proof.
  intros Hb Hd Hv Hf Hfb. pose proof (b_free _ Hb) as Hr. change nmeta with 59 in Hr. pose proof (one_if_range (iad d 12 =? 0)). unfold append_block, NDIRECT. cbv zeta.
  destruct (Z.ltb_spec fbn 12) as [Hlt|Hge].
  - assert (Ebl : blk (img s) d fbn = iad d fbn) by (unfold blk; by rewrite (proj2 (Z.ltb_lt _ _))). change (ld32 d (12 + 4 * fbn)) with (iad d fbn).
    rewrite xint_id by (apply (ld32_range d); done). rewrite Ebl in Hfb. destruct (Z.eqb_spec (iad d fbn) 0) as [Hz|Hnz]; cbn [one_if] in Hfb.
    + rewrite run_bind_bind. rewrite (bind_ret_run _ _ _ _ _ (run_next_block s Hb ltac:(lia))). mrun. rewrite (xint_id (freeblock s)) by (unfold FSSIZE in *; lia).
      eexists _, _. split; [|apply grown_direct; try done; lia]. unfold mret, M_ret. f_equal. f_equal. unfold blk. rewrite (proj2 (Z.ltb_lt _ _)) by done. unfold iad. apply xint_id.
      apply ld32_range. by apply mem_ok_st32.
    + mrun. exists s, d. split; [|apply mk_grown_refl; try done; by rewrite Ebl]. unfold mret, M_ret. rewrite Ebl. do 2 f_equal. apply xint_id, ld32_range. done.
  - change (ld32 d (12 + 4 * 12)) with (iad d 12). rewrite (xint_id (iad d 12)) by (by apply ld32_range). destruct (Z.eqb_spec (iad d 12) 0) as [Hz|Hnz]; cbn [one_if] in Hfb.
    + rewrite run_bind_bind. rewrite (bind_ret_run _ _ _ _ _ (run_next_block s Hb ltac:(pose proof (one_if_range (blk (img s) d fbn =? 0)); lia))). mrun. rewrite (xint_id (freeblock s)) by (unfold FSSIZE in *; lia).
      set (d1 := st32 d (12 + 4 * 12) (freeblock s)). set (s1 := set_freeblock (freeblock s + 1) s). change (ld32 d1 (12 + 4 * 12)) with (iad d1 12).
      rewrite (xint_id (iad d1 12)) by (apply ld32_range; by apply mem_ok_st32).
      destruct (grown_indirect s d fbn Hb Hd Hv ltac:(lia) Hz) as [(B1 & M1 & V1 & I1 & Z1) HG]; [pose proof (one_if_range (blk (img s) d fbn =? 0)); lia|].
      assert (Ez : blk (img s) d fbn = 0) by (unfold blk; rewrite Hz; by destruct (Z.ltb_spec fbn 12); [lia|]). rewrite Ez in Hfb. cbn [one_if Z.eqb] in Hfb.
      fold d1 s1 in I1, Z1, M1, V1, B1, HG. destruct (run_append_entry s1 d1 fbn B1 M1 V1 ltac:(lia)) as (s' & E & G); [rewrite I1; lia|rewrite Z1; cbn; lia|]. exists s', d1. split; [exact E|by apply HG].
    + mrun. change (ld32 d (12 + 4 * 12)) with (iad d 12). rewrite (xint_id (iad d 12)) by (by apply ld32_range).
      destruct (run_append_entry s d fbn Hb Hd Hv ltac:(lia) Hnz) as (s' & E & G); [lia|]. exists s', d. split; [exact E|done].
Qed.

(** A block the file has got was free. *)
Lemma grown_new s d fbn s' d' : grown s d fbn s' d' -> 0 <= fbn < 140 -> blk (img s) d fbn = 0 -> freeblock s <= blk (img s') d' fbn.
Proof.
  intros [_ _ _ _ G5 G6 G7 G8 _ G10 _] Hf Hz. destruct (G8 _ (uses_blk _ _ fbn Hf G6)) as [[Hn [E|(j & Hj & E)]]|?]; [| |lia].
  - destruct (v_ind _ _ _ G5 fbn Hf G6). rewrite G10; congruence.
  - assert (Ej : j = fbn) by (apply (v_inj _ _ _ G5); [done|done|rewrite G7|rewrite G7]; [congruence|done|left; congruence|congruence|done|left; congruence]). congruence.
Qed.

(** The bytes of the file, zero in the new block. *)
Lemma grown_bytes s d fbn s' d' o : base s -> 0 <= fbn < 140 -> grown s d fbn s' d' -> 0 <= o < 71680 -> blk (img s') d' (o / 512) <> 0 ->
  fbyte (img s') d' o = if decide (blk (img s) d (o / 512) = 0) then 0 else fbyte (img s) d o.
Proof.
  intros Hb Hf G Ho Hn. assert (Hi : 0 <= o / 512 < 140) by divlia. pose proof G as [_ _ _ _ G5 _ G7 _ G9 _ _]. unfold fbyte. rewrite G9.
  2: { intros _. replace ((_ * 512 + _) / 512) with (blk (img s') d' (o / 512)) by divlia. by apply (v_ind _ _ _ G5). }
  case_decide as Hz; [|by rewrite G7 by (done || by left)]. destruct (decide (o / 512 = fbn)) as [E|Hne]; [|rewrite G7 in Hn by (done || by right); congruence].
  subst fbn. apply (b_zero _ Hb). pose proof (grown_new _ _ _ _ _ G Hf Hz). divlia.
Qed.

(** Writing into a block of a file. *)
Lemma run_write_block s x o l : base s -> 59 <= x < freeblock s -> 0 <= o -> o + Z.of_nat (List.length l) <= 512 -> exists m', forall A (k : unit -> MI A),
  (buf ← rsect x; wsect x (st_bytes buf o l) ≫= k) s = k tt (set_img m' s) /\ mem_ok m' /\
  forall a, ld8 m' a = if decide (x * 512 + o <= a < x * 512 + o + Z.of_nat (List.length l)) then u8 (default 0 (l !! Z.to_nat (a - (x * 512 + o)))) else ld8 (img s) a.
Proof.
  intros Hb Hx Ho Hl. pose proof (b_free _ Hb) as Hr. pose proof (b_sect _ Hb) as Hs. pose proof (b_mem _ Hb) as Hm. eexists. intros A k. split; [|split].
  - rewrite (bind_ret_run _ _ _ _ _ (run_rsect s x Hs ltac:(lia))). rewrite (bind_ret_run _ _ _ _ _ (run_wsect s x _ Hs ltac:(lia))). reflexivity.
  - by apply mem_ok_paste.
  - intros a. change BSIZE with 512. rewrite ld8_paste; [|by apply mem_ok_st_bytes, mem_ok_copy|done]. rewrite ld8_st_bytes.
    repeat case_decide; try lia; try done; [do 4 f_equal; lia|]. rewrite ld8_copy by (done || lia). f_equal. lia.
Qed.


Definition blocks (o : Z) : Z := (o + 511) / 512.

(** What the loop of iappend has done when [p] of the bytes [p0] are left. *)
Record appending (s0 : mkst) (d0 : Zmap Z) (sz0 : Z) (p0 : list Z) (p : list Z) (off : Z) (s : mkst) (d : Zmap Z) : Prop := Appending {
  a_base : base s;
  a_ino : freeinode s = freeinode s0;
  a_mem : mem_ok d;
  a_din : forall j, 0 <= j < 12 -> ld8 d j = ld8 d0 j;
  a_view : view_ok (img s) d (freeblock s);
  a_off : sz0 <= off /\ off - sz0 + Z.of_nat (List.length p) = Z.of_nat (List.length p0) /\ p = drop (Z.to_nat (off - sz0)) p0;
  a_bytes : forall o, 0 <= o < off -> blk (img s) d (o / 512) <> 0 /\
    fbyte (img s) d o = if decide (o < sz0) then fbyte (img s0) d0 o else u8 (default 0 (p0 !! Z.to_nat (o - sz0)));
  a_pad : forall o, off <= o < 71680 -> blk (img s) d (o / 512) <> 0 -> fbyte (img s) d o = 0;
  a_end : forall i, blocks off <= i < 140 -> blk (img s) d i = 0;
  a_uses : forall b, uses (img s) d b -> uses (img s0) d0 b \/ freeblock s0 <= b < freeblock s;
  a_frame : forall a, a / 512 < freeblock s0 -> ~ uses (img s0) d0 (a / 512) -> ld8 (img s) a = ld8 (img s0) a;
  a_cost : freeblock s0 <= freeblock s /\ freeblock s + one_if (iad d 12 =? 0) + blocks sz0 <= freeblock s0 + one_if (iad d0 12 =? 0) + blocks off }.

(** A change inside a data block leaves the map of the file. *)
Lemma blk_same m m' d x i : 0 <= i < 140 -> (forall a, a / 512 <> x -> ld8 m' a = ld8 m a) -> x <> iad d 12 -> blk m' d i = blk m d i.
Proof.
  intros Hi Hs Hx. unfold blk. destruct (Z.ltb_spec i 12); [done|]. destruct (iad d 12 =? 0); [done|]. apply ld32_ext. intros a Ha. apply Hs.
  assert (a / 512 = iad d 12) by divlia. congruence.
Qed.

Lemma blocks_step off n1 : 0 <= off -> 1 <= n1 <= 512 - off mod 512 -> blocks (off + n1) = blocks off + one_if (off mod 512 =? 0).
Proof. intros Ho Hn. unfold blocks. destruct (Z.eqb_spec (off mod 512) 0); cbn; divlia. Qed.

Lemma same_block o off n1 : 0 <= off -> off <= o < off + n1 -> n1 <= 512 - off mod 512 -> o / 512 = off / 512 /\ o mod 512 = off mod 512 + (o - off).
Proof. intros Ho Hn Hr. divlia. Qed.

(** The bytes of the file after a write of [l] at [off]. *)
Lemma written_bytes m m' d fb off l o : view_ok m d fb -> 0 <= off < 71680 -> Z.of_nat (List.length l) <= 512 - off mod 512 -> blk m d (off / 512) <> 0 ->
  (forall i, 0 <= i < 140 -> blk m' d i = blk m d i) ->
  (forall a, ld8 m' a = let y := blk m d (off / 512) * 512 + (off - off / 512 * 512) in if decide (y <= a < y + Z.of_nat (List.length l)) then u8 (default 0 (l !! Z.to_nat (a - y))) else ld8 m a) ->
  0 <= o < 71680 -> blk m d (o / 512) <> 0 ->
  fbyte m' d o = if decide (off <= o < off + Z.of_nat (List.length l)) then u8 (default 0 (l !! Z.to_nat (o - off))) else fbyte m d o.
Proof.
  intros Hv Hoff Hl Hx Eb Em Ho Hn. assert (Hi : 0 <= o / 512 < 140) by divlia. assert (Hj : 0 <= off / 512 < 140) by divlia. unfold fbyte. rewrite Eb, Em by done. cbv zeta.
  case_decide as Hin; case_decide as Ho'; [do 4 f_equal| | |done].
  - destruct (same_block o off (Z.of_nat (List.length l)) ltac:(lia) Ho' ltac:(lia)) as [-> ->]. divlia.
  - destruct Ho'. assert (E : blk m d (o / 512) = blk m d (off / 512)) by divlia. pose proof (v_inj _ _ _ Hv _ _ Hi Hj Hn E). rewrite E in Hin. divlia.
  - destruct Hin. destruct (same_block o off (Z.of_nat (List.length l)) ltac:(lia) Ho' ltac:(lia)) as [-> ->]. divlia.
Qed.

Section append.
Context (s0 : mkst) (d0 : Zmap Z) (sz0 : Z) (p0 : list Z).
Context (Hsz : 0 <= sz0) (Hmax : sz0 + Z.of_nat (List.length p0) <= 71680) (Hbase0 : base s0) (Hview0 : view_ok (img s0) d0 (freeblock s0)).
Context (Hroom : freeblock s0 + one_if (iad d0 12 =? 0) + blocks (sz0 + Z.of_nat (List.length p0)) - blocks sz0 <= FSSIZE).

(** The block that holds [off] may be new only at its start. *)
Lemma append_fresh p off s d : appending s0 d0 sz0 p0 p off s d -> off mod 512 <> 0 -> blk (img s) d (off / 512) <> 0.
Proof using Hsz.
  intros A Hm. pose proof (a_off _ _ _ _ _ _ _ _ A) as (Ho & _). destruct (a_bytes _ _ _ _ _ _ _ _ A (off - 1)) as [Hb _]; [divlia|]. by replace (off / 512) with ((off - 1) / 512) by divlia.
Qed.

Lemma append_step c p off s d : let n1 := Z.to_nat (Z.min (Z.of_nat (List.length (c :: p))) ((off / 512 + 1) * 512 - off)) in
  appending s0 d0 sz0 p0 (c :: p) off s d ->
  exists s' d', append_body (c :: p, off, d) s = Ret (inl (drop n1 (c :: p), off + Z.of_nat n1, d')) s' /\ appending s0 d0 sz0 p0 (drop n1 (c :: p)) (off + Z.of_nat n1) s' d'.
Proof using Hsz Hmax Hbase0 Hroom.
  intros n1 A. pose proof A as [A1 A2 A3 A4 A5 (A6 & A7 & A8) A9 Apad Aend A10 A11 [A12 A13]]. set (l := c :: p) in *. assert (Hl : (1 <= List.length l)%nat) by (cbn; lia).
  assert (Hn1 : 1 <= Z.of_nat n1 <= 512 - off mod 512 /\ Z.of_nat n1 <= Z.of_nat (List.length l)) by (unfold n1; divlia).
  assert (Hfbn : 0 <= off / 512 < 140) by divlia. assert (Hbl : blocks (off + Z.of_nat n1) <= blocks (sz0 + Z.of_nat (List.length p0))) by (unfold blocks; apply Z.div_le_mono; lia).
  rewrite blocks_step in Hbl by lia.
  assert (Hz : one_if (blk (img s) d (off / 512) =? 0) <= one_if (off mod 512 =? 0)).
  { destruct (Z.eqb_spec (off mod 512) 0) as [|Hm]; [apply one_if_range|]. by rewrite (proj2 (Z.eqb_neq _ _) (append_fresh _ _ _ _ A Hm)). }
  destruct (run_append_block s d (off / 512) A1 A3 A5 Hfbn ltac:(lia)) as (s1 & d1 & E1 & G). pose proof G as [G1 G2 G3 G4 G5 G6 G7 G8 G9 G10 [G11 G12]].
  pose proof (view_block_range _ _ _ _ G5 Hfbn G6) as Hx. set (x := blk (img s1) d1 (off / 512)) in *.
  assert (Htk : List.length (take n1 l) = n1) by (rewrite length_take; lia).
  destruct (run_write_block s1 x (off - off / 512 * 512) (take n1 l) G1 Hx ltac:(divlia) ltac:(rewrite Htk; divlia)) as (m2 & Hm2).
  destruct (Hm2 (list Z * Z * Zmap Z + Z * Zmap Z)%type (fun _ => mret (inl (drop n1 l, u32 (off + Z.of_nat n1), d1)))) as (E2 & Hok2 & Em2). rewrite Htk in Em2. clear Hm2.
  exists (set_img m2 s1), d1. split.
  - change l with (c :: p) in *. unfold append_body. change BSIZE with 512 in *. rewrite (proj2 (Z.ltb_lt (off / 512) MAXFILE)) by (change MAXFILE with 140; lia). cbn [negb].
    rewrite (bind_ret_run _ _ _ _ _ E1). cbv beta iota. fold l. fold n1. fold x. etransitivity; [exact E2|]. unfold mret, M_ret. rewrite u32_id by lia. done.
  - assert (Hxi : x <> iad d1 12) by (by apply (v_ind _ _ _ G5)).
    assert (Hsec : forall a, a / 512 <> x -> ld8 m2 a = ld8 (img s1) a) by (intros a Ha; rewrite Em2; case_decide; [|done]; exfalso; apply Ha; divlia).
    assert (Eb : forall i, 0 <= i < 140 -> blk m2 d1 i = blk (img s1) d1 i) by (intros i Hi; by eapply blk_same).
    assert (Hu : forall b, uses m2 d1 b -> uses (img s1) d1 b).
    { intros b [Hn [->|(i & Hi & ->)]]; [by split; [|left]|]. rewrite Eb in Hn |- * by done. by apply uses_blk. }
    assert (Hu0 : forall b, uses (img s1) d1 b -> uses (img s0) d0 b \/ freeblock s0 <= b < freeblock s1) by (intros b [[?|?]%A10|?]%G8; [by left|right; lia|right; lia]).
    assert (Hxu : uses (img s1) d1 x) by (by apply uses_blk).
    assert (Hby : forall o, 0 <= o < 71680 -> blk (img s1) d1 (o / 512) <> 0 -> fbyte m2 d1 o = if decide (off <= o < off + Z.of_nat n1) then u8 (default 0 (take n1 l !! Z.to_nat (o - off)))
      else if decide (blk (img s) d (o / 512) = 0) then 0 else fbyte (img s) d o).
    { intros o Ho Hn. rewrite (written_bytes (img s1) m2 d1 (freeblock s1) off (take n1 l)); try done; [|lia|rewrite Htk; lia|intros a; rewrite Htk; apply Em2].
      by rewrite Htk, (grown_bytes s d (off / 512) s1 d1 o). }
    split; cbn [img freeblock freeinode set_img]; try done.
    + apply base_img; [done|done|]. intros a Ha. apply Hsec. divlia.
    + congruence.
    + intros j Hj. rewrite G4 by done. by apply A4.
    + split; [intros b Hb%Hu; by apply (v_range _ _ _ G5)| |].
      * intros i j Hi Hj. rewrite !Eb by done. by apply (v_inj _ _ _ G5).
      * intros i Hi. rewrite Eb by done. by apply (v_ind _ _ _ G5).
    + split; [lia|]. split; [rewrite length_drop; lia|]. rewrite A8, drop_drop. f_equal. lia.
    + intros o Ho. rewrite Eb by divlia. assert (Hne : blk (img s1) d1 (o / 512) <> 0).
      { destruct (decide (o < off)); [destruct (A9 o) as [? _]; [lia|]; rewrite G7; [done|divlia|by left]|]. by rewrite (proj1 (same_block o off (Z.of_nat n1) ltac:(lia) ltac:(lia) ltac:(lia))). }
      split; [done|]. rewrite Hby by (done || lia). destruct (decide (o < off)) as [Hlt|Hge].
      * destruct (A9 o ltac:(lia)) as [B1 B2]. rewrite (decide_False (P := off <= o < _)), decide_False by (done || lia). done.
      * rewrite (decide_True (P := off <= o < _)), (decide_False (P := o < sz0)) by lia. rewrite lookup_take_lt by lia. rewrite A8, lookup_drop. do 3 f_equal. lia.
    + intros o Ho. rewrite Eb by divlia. intros Hne. rewrite Hby by (done || lia). rewrite (decide_False (P := off <= o < _)) by lia. case_decide; [done|]. apply Apad; [lia|done].
    + intros i Hi. assert (off / 512 < i /\ blocks off <= i) as [Hi1 Hi2] by (unfold blocks in *; divlia). rewrite Eb, G7 by (lia || (right; lia)). apply Aend. lia.
    + intros b Hb%Hu. by apply Hu0.
    + intros a Ha Hn. rewrite Hsec, G9; [by apply A11| |].
      * intros Hi E. destruct (Hu0 (a / 512)) as [?|?]; [rewrite E; by split; [|left]|done|lia].
      * intros E. destruct (Hu0 (a / 512)) as [?|?]; [by rewrite E|done|lia].
    + split; [lia|]. rewrite blocks_step by lia. lia.
Qed.

Lemma append_loop fuel : forall p off s d, (List.length p < fuel)%nat -> appending s0 d0 sz0 p0 p off s d ->
  exists s' d', iterate fuel append_body (p, off, d) s = Ret (sz0 + Z.of_nat (List.length p0), d') s' /\ appending s0 d0 sz0 p0 [] (sz0 + Z.of_nat (List.length p0)) s' d'.
Proof using Hsz Hmax Hbase0 Hroom.
  induction fuel as [|fuel IH]; intros p off s d Hf A; [lia|]. cbn [iterate]. destruct p as [|c p].
  - pose proof (a_off _ _ _ _ _ _ _ _ A) as (_ & Ho & _). cbn in Ho. replace off with (sz0 + Z.of_nat (List.length p0)) in A |- * by lia. exists s, d. split; [done|done].
  - destruct (append_step c p off s d A) as (s1 & d1 & E & A1). rewrite (bind_ret_run _ _ _ _ _ E). apply IH; [|done]. rewrite length_drop. cbn [List.length] in *.
    pose proof (a_off _ _ _ _ _ _ _ _ A) as (Ho & _). divlia.
Qed.

End append.
