(* ===== verification/MkfsImage.v ===== *)
(** * The image made by mkfs.c

    iappend, ialloc and balloc on an image seen as a list of files, and the whole
    program: the image it makes from the files of its arguments. *)

From Stdlib Require Import ZArith Lia Ascii String.
From stdpp Require Import base tactics numbers option list strings zmap.
From S2P Require Import Prelude Memory Mmu FsState Log Fs Print Ide Mkfs.

#[local] Abbreviation MI := (M mkst).

(** ** The image as a list of files *)

(** Inode [n] is that of a file of type [t] with one link and the contents [c]. *)
Record file_at (s : mkst) (n t : Z) (c : list Z) : Prop := File_at {
  f_view : view_ok (img s) (inode_of (img s) n) (freeblock s);
  f_type : ld16 (inode_of (img s) n) 0 = t;
  f_link : ld16 (inode_of (img s) n) 6 = 1;
  f_size : ld32 (inode_of (img s) n) 8 = Z.of_nat (List.length c);
  f_max : Z.of_nat (List.length c) <= 71680;
  f_bytes : forall o, 0 <= o < Z.of_nat (List.length c) -> blk (img s) (inode_of (img s) n) (o / 512) <> 0 /\ c !! Z.to_nat o = Some (fbyte (img s) (inode_of (img s) n) o);
  f_pad : forall o, Z.of_nat (List.length c) <= o < 71680 -> blk (img s) (inode_of (img s) n) (o / 512) <> 0 -> fbyte (img s) (inode_of (img s) n) o = 0;
  f_end : forall i, blocks (Z.of_nat (List.length c)) <= i < 140 -> blk (img s) (inode_of (img s) n) i = 0 }.

Definition total (l : list Z) : Z := foldr Z.add 0 l.
Definition cost (f : Z * list Z) : Z := blocks (Z.of_nat (List.length (snd f))) + 1.

(** The files [fs], with the inodes from 1 on; [us] counts the blocks each of them has. *)
Record image (s : mkst) (fs : list (Z * list Z)) (us : list Z) : Prop := Image {
  i_base : base s;
  i_next : freeinode s = 1 + Z.of_nat (List.length fs);
  i_num : (List.length fs < 200)%nat;
  i_files : forall i t c, fs !! i = Some (t, c) -> file_at s (1 + Z.of_nat i) t c;
  i_sep : forall i j b, (i < List.length fs)%nat -> (j < List.length fs)%nat -> i <> j ->
    uses (img s) (inode_of (img s) (1 + Z.of_nat i)) b -> ~ uses (img s) (inode_of (img s) (1 + Z.of_nat j)) b;
  i_used : freeblock s = nmeta + total us;
  i_cost : Forall2 (fun u f => u <= cost f) us fs;
  i_ind : forall i u f, us !! i = Some u -> fs !! i = Some f -> u + one_if (iad (inode_of (img s) (1 + Z.of_nat i)) 12 =? 0) <= cost f }.

Lemma total_insert l i x y : l !! i = Some x -> total (<[i := y]> l) = total l - x + y.
Proof.
  unfold total. revert i. induction l as [|a l IH]; intros [|i] Hi; try done; [injection Hi as ->; cbn; lia|]. change (<[S i := y]> (a :: l)) with (a :: <[i := y]> l). cbn [foldr]. rewrite (IH i Hi). lia.
Qed.

Lemma total_le (us : list Z) (fs : list (Z * list Z)) i u f e : Forall2 (fun u f => u <= cost f) us fs -> us !! i = Some u -> fs !! i = Some f -> u + e <= cost f ->
  total us + e <= total (cost <$> fs).
Proof.
  intros F. revert i. induction F as [|a b us fs Hab F IH]; intros i Hu Hf He; [done|]. destruct i as [|i]; cbn in *.
  - injection Hu as ->. injection Hf as ->. assert (foldr Z.add 0 us <= foldr Z.add 0 (cost <$> fs)) by (clear -F; induction F; cbn in *; lia). lia.
  - specialize (IH i Hu Hf He). unfold total in IH. lia.
Qed.

(** A file whose addresses and blocks stay. *)
Lemma view_transport m d m' d' fb fb' : (forall k, 0 <= k <= 12 -> iad d' k = iad d k) -> (forall a, uses m d (a / 512) -> ld8 m' a = ld8 m a) -> view_ok m d fb -> fb <= fb' ->
  (forall i, 0 <= i < 140 -> blk m' d' i = blk m d i) /\ (forall b, uses m' d' b <-> uses m d b) /\ view_ok m' d' fb' /\
  forall o, 0 <= o < 71680 -> blk m d (o / 512) <> 0 -> fbyte m' d' o = fbyte m d o.
Proof.
  intros Hk Hs Hv Hf. assert (Eb : forall i, 0 <= i < 140 -> blk m' d' i = blk m d i).
  { intros i Hi. unfold blk. rewrite (Hk 12) by lia. destruct (Z.ltb_spec i 12); [apply Hk; lia|]. destruct (Z.eqb_spec (iad d 12) 0) as [|Hn]; [done|]. apply ld32_ext. intros a Ha. apply Hs.
    replace (a / 512) with (iad d 12) by divlia. split; [done|by left]. }
  assert (Hu : forall b, uses m' d' b <-> uses m d b).
  { intros b. split; intros [Hn [->|(i & Hi & ->)]]; (split; [done|]); [left; apply Hk; lia|right; exists i; by rewrite Eb|left; symmetry; apply Hk; lia|right; exists i; by rewrite Eb]. }
  split; [done|]. split; [done|]. split; [split|].
  - intros b Hb%Hu. destruct (v_range _ _ _ Hv b Hb). lia.
  - intros i j Hi Hj. rewrite !Eb by done. by apply (v_inj _ _ _ Hv).
  - intros i Hi. rewrite Eb, Hk by (done || lia). by apply (v_ind _ _ _ Hv).
  - intros o Ho Hn. unfold fbyte. rewrite Eb by divlia. apply Hs. replace ((blk m d (o / 512) * 512 + o mod 512) / 512) with (blk m d (o / 512)) by divlia. apply uses_blk; [divlia|done].
Qed.

Lemma iad_inode m n k : mem_ok m -> 0 <= k <= 12 -> iad (inode_of m n) k = ld32 m (iaddr n + 12 + 4 * k).
Proof. intros Hm Hk. unfold iad, inode_of. rewrite ld32_copy by (done || lia). f_equal. lia. Qed.

(** iappend on one file. *)
Record appended (s : mkst) (n : Z) (p : list Z) (s' : mkst) : Prop := Appended {
  p_base : base s';
  p_ino : freeinode s' = freeinode s;
  p_head : forall j, 0 <= j < 8 -> ld8 (inode_of (img s') n) j = ld8 (inode_of (img s) n) j;
  p_size : ld32 (inode_of (img s') n) 8 = ld32 (inode_of (img s) n) 8 + Z.of_nat (List.length p);
  p_view : view_ok (img s') (inode_of (img s') n) (freeblock s');
  p_bytes : forall o, 0 <= o < ld32 (inode_of (img s') n) 8 -> blk (img s') (inode_of (img s') n) (o / 512) <> 0 /\
    fbyte (img s') (inode_of (img s') n) o = if decide (o < ld32 (inode_of (img s) n) 8) then fbyte (img s) (inode_of (img s) n) o
      else u8 (default 0 (p !! Z.to_nat (o - ld32 (inode_of (img s) n) 8)));
  p_pad : forall o, ld32 (inode_of (img s') n) 8 <= o < 71680 -> blk (img s') (inode_of (img s') n) (o / 512) <> 0 -> fbyte (img s') (inode_of (img s') n) o = 0;
  p_end : forall i, blocks (ld32 (inode_of (img s') n) 8) <= i < 140 -> blk (img s') (inode_of (img s') n) i = 0;
  p_uses : forall b, uses (img s') (inode_of (img s') n) b -> uses (img s) (inode_of (img s) n) b \/ freeblock s <= b < freeblock s';
  p_frame : forall a, a / 512 < freeblock s -> ~ uses (img s) (inode_of (img s) n) (a / 512) -> ~ (iaddr n <= a < iaddr n + 64) -> ld8 (img s') a = ld8 (img s) a;
  p_cost : freeblock s <= freeblock s' /\ freeblock s' + one_if (iad (inode_of (img s') n) 12 =? 0) + blocks (ld32 (inode_of (img s) n) 8) <=
    freeblock s + one_if (iad (inode_of (img s) n) 12 =? 0) + blocks (ld32 (inode_of (img s') n) 8) }.

Lemma run_iappend s n p : let d := inode_of (img s) n in let sz := ld32 d 8 in
  base s -> 0 <= n < 208 -> view_ok (img s) d (freeblock s) -> (forall o, 0 <= o < sz -> blk (img s) d (o / 512) <> 0) ->
  (forall o, sz <= o < 71680 -> blk (img s) d (o / 512) <> 0 -> fbyte (img s) d o = 0) ->
  (forall i, blocks sz <= i < 140 -> blk (img s) d i = 0) -> sz + Z.of_nat (List.length p) <= 71680 ->
  freeblock s + one_if (iad d 12 =? 0) + blocks (sz + Z.of_nat (List.length p)) - blocks sz <= FSSIZE -> exists s', iappend n p s = Ret tt s' /\ appended s n p s'.
Proof.
  intros d sz Hb Hn Hv Hmap Hpad Hend Hmax Hroom. pose proof (b_mem _ Hb) as Hm. assert (Hd : mem_ok d) by apply mem_ok_copy. pose proof (ld32_range d 8 Hd) as Hsz. fold sz in Hsz.
  assert (A0 : appending s d sz p p sz s d).
  { split; try done; [split; [lia|]; split; [lia|]; by rewrite Z.sub_diag|..].
    - intros o Ho. split; [by apply Hmap|]. by rewrite decide_True by lia.
    - by left. }
  destruct (append_loop s d sz p ltac:(lia) Hmax Hb Hroom (S (List.length p)) p sz s d ltac:(lia) A0) as (s1 & d1 & E1 & A). clear A0. destruct A as [A1 A2 A3 A4 A5 _ A9 Apad Aend A10 A11 A12].
  set (sz' := sz + Z.of_nat (List.length p)) in *. set (dw := st32 d1 8 sz').
  destruct (run_winode s1 n dw (b_sect _ A1) (b_mem _ A1) ltac:(by apply mem_ok_st32) Hn) as (m' & E2 & Hm' & Em').
  exists (set_img m' s1). split.
  { unfold iappend. rewrite (bind_ret_run _ _ _ _ _ (run_rinode s n (b_sect _ Hb) Hm Hn)). fold d. rewrite (xint_ld32 d 8 Hd). fold sz. rewrite (bind_ret_run _ _ _ _ _ E1).
    cbv beta iota. fold sz'. rewrite xint_id by lia. exact E2. }
  set (d' := inode_of m' n). assert (Ed : forall j, 0 <= j < 64 -> ld8 d' j = ld8 dw j).
  { intros j Hj. unfold d', inode_of. rewrite ld8_copy, Em' by done. rewrite decide_True by lia. f_equal. lia. }
  assert (E8 : ld32 d' 8 = sz') by (rewrite (ld32_ext dw d') by (intros; apply Ed; lia); apply ld32_st32_eq; lia).
  assert (Ek : forall k, 0 <= k <= 12 -> iad d' k = iad d1 k) by (intros k Hk; unfold iad; rewrite (ld32_ext dw d') by (intros; apply Ed; lia); apply ld32_st32_ne; lia).
  assert (Hiad : iaddr n + 64 <= 59 * 512) by (unfold iaddr; lia).
  assert (Hkeep : forall a, uses (img s1) d1 (a / 512) -> ld8 m' a = ld8 (img s1) a).
  { intros a Ha. rewrite Em', decide_False; [done|]. destruct (v_range _ _ _ A5 _ Ha) as [Hlo _]. change nmeta with 59 in Hlo. divlia. }
  destruct (view_transport (img s1) d1 m' d' (freeblock s1) (freeblock s1) Ek Hkeep A5 ltac:(lia)) as (Eb & Hu & Hv' & Hby).
  pose proof (b_free _ A1) as Hr1. change nmeta with 59 in Hr1.
  split; cbn [img freeblock freeinode set_img]; fold d d' sz; rewrite ?E8; try done.
  - apply base_img; [done|done|]. intros a Ha. rewrite Em', decide_False by lia. done.
  - intros j Hj. rewrite Ed by lia. unfold dw. rewrite ld8_st32_ne by lia. apply A4. lia.
  - intros o Ho. destruct (A9 o Ho) as [B1 B2]. rewrite Eb by divlia. split; [done|]. rewrite Hby by (done || lia). exact B2.
  - intros o Ho. rewrite Eb by divlia. intros Hne. rewrite Hby by (done || lia). by apply Apad.
  - intros i Hi. assert (0 <= blocks sz') by (unfold blocks; divlia). rewrite Eb by lia. by apply Aend.
  - intros b Hb'%Hu. by apply A10.
  - intros a Ha Hnu Hni. rewrite Em', decide_False by done. by apply A11.
  - rewrite Ek by lia. exact A12.
Qed.

Lemma inode_of_ext m m' n : (forall a, iaddr n <= a < iaddr n + 64 -> ld8 m' a = ld8 m a) -> inode_of m' n = inode_of m n.
Proof. intros E. unfold inode_of. apply copy_ext. intros j Hj. apply E. lia. Qed.

(** A file that is not concerned by a change. *)
Lemma file_at_same s s' n t c : file_at s n t c -> freeblock s <= freeblock s' -> (forall a, iaddr n <= a < iaddr n + 64 -> ld8 (img s') a = ld8 (img s) a) ->
  (forall a, uses (img s) (inode_of (img s) n) (a / 512) -> ld8 (img s') a = ld8 (img s) a) -> file_at s' n t c /\
  (forall b, uses (img s') (inode_of (img s') n) b <-> uses (img s) (inode_of (img s) n) b) /\ inode_of (img s') n = inode_of (img s) n.
Proof.
  intros [F1 F2 F3 F4 F5 F6 F7 F8] Hf Hi Hk. pose proof (inode_of_ext _ _ _ Hi) as Ed. destruct (view_transport (img s) (inode_of (img s) n) (img s') (inode_of (img s') n) (freeblock s) (freeblock s')
    ltac:(intros; by rewrite Ed) Hk F1 Hf) as (Eb & Hu & Hv & Hby). split; [|done]. split; rewrite ?Ed in *; try done.
  - intros o Ho. destruct (F6 o Ho) as [H1 H2]. rewrite Eb by divlia. split; [done|]. rewrite H2. f_equal. symmetry. apply Hby; [lia|done].
  - intros o Ho. rewrite Eb by divlia. intros Hn. rewrite Hby by (done || lia). by apply F7.
  - intros i Hi'. assert (0 <= blocks (Z.of_nat (List.length c))) by (unfold blocks; divlia). rewrite Eb by lia. by apply F8.
Qed.

Lemma length_cost (c p : list Z) t : cost (t, c ++ p) = cost (t, c) + (blocks (Z.of_nat (List.length c) + Z.of_nat (List.length p)) - blocks (Z.of_nat (List.length c))).
Proof. unfold cost. cbn [snd]. rewrite length_app, Nat2Z.inj_add. lia. Qed.

Lemma image_append s fs us i t c p : image s fs us -> fs !! i = Some (t, c) -> Forall (fun b => 0 <= b < 256) p -> Z.of_nat (List.length c) + Z.of_nat (List.length p) <= 71680 ->
  nmeta + total (cost <$> <[i := (t, c ++ p)]> fs) <= FSSIZE ->
  exists s' us', iappend (1 + Z.of_nat i) p s = Ret tt s' /\ image s' (<[i := (t, c ++ p)]> fs) us' /\ forall a, a < iaddr 1 -> ld8 (img s') a = ld8 (img s) a.
Proof.
  intros [I1 I2 I3 I4 I5 I6 I7 I8] Hi Hp Hmax Hroom. destruct (I4 i t c Hi) as [F1 F2 F3 F4 F5 F6 F7 F8]. pose proof (lookup_lt_Some _ _ _ Hi) as Hil. set (n := 1 + Z.of_nat i) in *. set (d := inode_of (img s) n) in *.
  destruct (Forall2_lookup_r _ _ _ _ _ I7 Hi) as (u & Hu & Huc). pose proof (I8 i u _ Hu Hi) as Hui. fold n d in Hui.
  assert (Htot : total (cost <$> <[i := (t, c ++ p)]> fs) = total (cost <$> fs) - cost (t, c) + cost (t, c ++ p)).
  { rewrite list_fmap_insert. apply total_insert. by rewrite list_lookup_fmap, Hi. }
  rewrite Htot, length_cost in Hroom. pose proof (total_le us fs i u _ _ I7 Hu Hi Hui) as Hle.
  destruct (run_iappend s n p I1 ltac:(unfold n; lia) F1) as (s' & E & A).
  { intros o Ho. fold d in Ho. rewrite F4 in Ho. by apply F6. }
  { fold d. by rewrite F4. }
  { fold d. by rewrite F4. }
  { fold d. rewrite F4. lia. }
  { fold d. rewrite F4. change nmeta with 59 in *. lia. }
  destruct A as [A1 A2 A3 A4 A5 A6 Apad Aend A7 A8 [A9 A10]]. fold d in A3, A4, A6, A7, A8, A10. set (d' := inode_of (img s') n) in *. rewrite F4 in A4, A6, A10.
  exists s', (<[i := u + (freeblock s' - freeblock s)]> us). split; [done|]. pose proof (b_free _ I1) as Hr. change nmeta with 59 in Hr.
  split; [|intros a Ha; apply A8; [unfold iaddr in Ha; divlia| |unfold n, iaddr in *; lia]; intros Hn; pose proof (v_range _ _ _ F1 _ Hn) as [Hlo _]; change nmeta with 59 in Hlo; unfold iaddr in Ha; divlia].
  assert (Hother : forall j t' c', fs !! j = Some (t', c') -> j <> i -> file_at s' (1 + Z.of_nat j) t' c' /\
    (forall b, uses (img s') (inode_of (img s') (1 + Z.of_nat j)) b <-> uses (img s) (inode_of (img s) (1 + Z.of_nat j)) b) /\
    inode_of (img s') (1 + Z.of_nat j) = inode_of (img s) (1 + Z.of_nat j)).
  { intros j t' c' Hj Hne. pose proof (lookup_lt_Some _ _ _ Hj) as Hjl. apply file_at_same; [by apply I4|done|..].
    - intros a Ha. apply A8; [unfold iaddr in Ha; divlia| |unfold iaddr, n in *; lia]. intros Hn. pose proof (v_range _ _ _ F1 _ Hn) as [Hlo _]. change nmeta with 59 in Hlo. unfold iaddr in Ha. divlia.
    - intros a Ha. pose proof (v_range _ _ _ (f_view _ _ _ _ (I4 j t' c' Hj)) _ Ha) as [Hlo Hhi]. change nmeta with 59 in Hlo. apply A8; [done| |unfold iaddr, n in *; divlia].
      intros Hn. by apply (I5 i j (a / 512) Hil Hjl ltac:(done)). }
  assert (Huse : forall j b, (j < List.length fs)%nat -> j <> i -> uses (img s') (inode_of (img s') (1 + Z.of_nat j)) b -> uses (img s) (inode_of (img s) (1 + Z.of_nat j)) b /\ ~ uses (img s') d' b).
  { intros j b Hj Hne Hb. destruct (lookup_lt_is_Some_2 fs j Hj) as [[t' c'] Hjl]. destruct (Hother j t' c' Hjl Hne) as (_ & Hiff & _). apply Hiff in Hb. split; [done|].
    intros [Hn|Hn]%A7; [by apply (I5 i j b)|]. pose proof (v_range _ _ _ (f_view _ _ _ _ (I4 j t' c' Hjl)) _ Hb). lia. }
  split; rewrite ?length_insert; try done.
  - congruence.
  - intros j t' c' Hj. destruct (decide (j = i)) as [->|Hne]; [|rewrite list_lookup_insert_ne in Hj by done; by apply Hother].
    rewrite list_lookup_insert_eq in Hj by done. injection Hj as <- <-. split; fold n d'; rewrite ?length_app, ?Nat2Z.inj_add; try done.
    + rewrite <- F2. unfold ld16. by rewrite !A3 by lia.
    + rewrite <- F3. unfold ld16. by rewrite !A3 by lia.
    + intros o Ho. rewrite A4 in A6. destruct (A6 o Ho) as [B1 B2]. split; [done|]. rewrite B2. case_decide as Hlt.
      * rewrite lookup_app_l by lia. apply F6. lia.
      * rewrite lookup_app_r by lia. replace (Z.to_nat o - List.length c)%nat with (Z.to_nat (o - Z.of_nat (List.length c))) by lia.
        destruct (lookup_lt_is_Some_2 p (Z.to_nat (o - Z.of_nat (List.length c))) ltac:(lia)) as [v Hv]. rewrite Hv. cbn. f_equal. symmetry. apply u8_id. by eapply Forall_lookup_1 in Hp.
    + rewrite <- A4. done.
    + rewrite <- A4. done.
  - intros j k b Hj Hk Hne Hb Hb'. destruct (decide (j = i)) as [->|Hji]; [by destruct (Huse k b Hk ltac:(done) Hb')|].
    destruct (Huse j b Hj Hji Hb) as [H1 H2]. destruct (decide (k = i)) as [->|Hki]; [done|]. destruct (Huse k b Hk Hki Hb') as [H3 _]. by apply (I5 j k b).
  - rewrite (total_insert _ _ u) by done. lia.
  - apply Forall2_insert; [done|]. rewrite length_cost. pose proof (one_if_range (iad d' 12 =? 0)). rewrite A4 in A10. lia.
  - intros j u' f Hju Hjf. destruct (decide (j = i)) as [->|Hne].
    + rewrite list_lookup_insert_eq in Hju by (by eapply lookup_lt_Some). rewrite list_lookup_insert_eq in Hjf by done. injection Hju as <-. injection Hjf as <-.
      fold n d'. rewrite length_cost. rewrite A4 in A10. lia.
    + rewrite list_lookup_insert_ne in Hju by done. rewrite list_lookup_insert_ne in Hjf by done. destruct f as [t' c']. destruct (Hother j t' c' Hjf Hne) as (_ & _ & ->). by apply I8.
Qed.

(** ** New inodes *)

Definition new_dinode (type : Z) : Zmap Z := st32 (st16 (st16 ∅ 0 (xshort type)) 6 (xshort 1)) 8 (xint 0).

Lemma new_dinode_fields t : t = T_DIR \/ t = T_FILE ->
  mem_ok (new_dinode t) /\ ld16 (new_dinode t) 0 = t /\ ld16 (new_dinode t) 6 = 1 /\ ld32 (new_dinode t) 8 = 0 /\ forall a, 12 <= a -> ld8 (new_dinode t) a = 0.
Proof.
  intros Ht. split; [apply mem_ok_st32; repeat apply mem_ok_st8; apply mem_ok_empty|]. split; [by destruct Ht as [->| ->]|]. split; [by destruct Ht as [->| ->]|]. split; [by destruct Ht as [->| ->]|].
  intros a Ha. unfold new_dinode, st16. rewrite ld8_st32_ne, !ld8_st8_ne by lia. unfold ld8. by rewrite lookup_empty.
Qed.

(** The first inode not in use becomes an empty file of type [t]. *)
Lemma image_ialloc s fs us t : image s fs us -> (S (List.length fs) < 200)%nat -> t = T_DIR \/ t = T_FILE ->
  exists s', ialloc t s = Ret (1 + Z.of_nat (List.length fs)) s' /\ image s' (fs ++ [(t, [])]) (us ++ [0]) /\ forall a, a < iaddr 1 -> ld8 (img s') a = ld8 (img s) a.
Proof.
  intros [I1 I2 I3 I4 I5 I6 I7 I8] Hlen Ht. destruct (new_dinode_fields t Ht) as (D1 & D2 & D3 & D4 & D5). set (n := 1 + Z.of_nat (List.length fs)) in *.
  set (s0 := set_freeinode (n + 1) s). destruct (run_winode s0 n (new_dinode t) (b_sect _ I1) (b_mem _ I1) D1 ltac:(unfold n; lia)) as (m' & E & Hm' & Em').
  exists (set_img m' s0). split.
  { unfold ialloc. mrun. rewrite I2. rewrite u32_id by lia. fold s0. fold (new_dinode t). by rewrite (bind_ret_run _ _ _ _ _ E). }
  assert (Ed : forall j, 0 <= j < 64 -> ld8 (inode_of m' n) j = ld8 (new_dinode t) j).
  { intros j Hj. unfold inode_of. rewrite ld8_copy, Em' by done. rewrite decide_True by lia. f_equal. lia. }
  assert (Ek : forall k, 0 <= k <= 12 -> iad (inode_of m' n) k = 0) by (intros k Hk; unfold iad, ld32; rewrite !Ed by lia; by rewrite !D5 by lia).
  assert (Hno : forall b, ~ uses m' (inode_of m' n) b).
  { intros b [Hb [->|(i & Hi & ->)]]; [by rewrite Ek in Hb by lia|]. unfold blk in Hb. rewrite (Ek 12) in Hb by lia. destruct (Z.ltb_spec i 12); [by rewrite Ek in Hb by lia|done]. }
  assert (Hfar : forall a, a < iaddr n \/ 59 * 512 <= a -> ld8 m' a = ld8 (img s) a) by (intros a Ha; rewrite Em', decide_False; [done|unfold n, iaddr in *; lia]).
  pose proof (b_free _ I1) as Hr. change nmeta with 59 in Hr.
  assert (Hold : forall j t' c', fs !! j = Some (t', c') -> file_at (set_img m' s0) (1 + Z.of_nat j) t' c' /\
    (forall b, uses m' (inode_of m' (1 + Z.of_nat j)) b <-> uses (img s) (inode_of (img s) (1 + Z.of_nat j)) b) /\ inode_of m' (1 + Z.of_nat j) = inode_of (img s) (1 + Z.of_nat j)).
  { intros j t' c' Hj. pose proof (lookup_lt_Some _ _ _ Hj) as Hjl. apply (file_at_same s (set_img m' s0)); [by apply I4|cbn; lia|..].
    - intros a Ha. apply Hfar. unfold n, iaddr in *. lia.
    - intros a Ha. apply Hfar. pose proof (v_range _ _ _ (f_view _ _ _ _ (I4 j t' c' Hj)) _ Ha) as [Hlo _]. change nmeta with 59 in Hlo. divlia. }
  split; [|intros a Ha; apply Hfar; unfold n, iaddr in *; lia]. split; rewrite ?length_app; cbn [img freeblock freeinode set_img List.length].
  - apply (base_img s0); [by destruct I1|done|]. intros a Ha. apply Hfar. cbn in Ha. lia.
  - cbn. unfold n. lia.
  - lia.
  - intros j t' c' [Hj|[Hj1 Hj2]]%lookup_app_Some; [by apply Hold|]. apply list_lookup_singleton_Some in Hj2 as [Hj2 [= <- <-]].
    replace (1 + Z.of_nat j) with n by (unfold n; lia). split; cbn [img freeblock set_img]; try done; try (cbn; lia).
    + split; [by intros b Hb%Hno|intros i k Hi Hk Hb _|intros i Hi Hb _]; by destruct (Hno _ (uses_blk _ _ i Hi Hb)).
    + rewrite <- D2. unfold ld16. by rewrite !Ed by lia.
    + rewrite <- D3. unfold ld16. by rewrite !Ed by lia.
    + transitivity (ld32 (new_dinode t) 8); [apply ld32_ext; intros; apply Ed; lia|exact D4].
    + intros o Ho Hb. assert (Hi : 0 <= o / 512 < 140) by (cbn in Ho; divlia). by destruct (Hno _ (uses_blk _ _ _ Hi Hb)).
    + intros i Hi. change (blocks _) with 0 in Hi. destruct (decide (blk m' (inode_of m' n) i = 0)) as [|Hb]; [done|]. by destruct (Hno _ (uses_blk _ _ _ Hi Hb)).
  - assert (Hlk : forall i b, (i < List.length fs + 1)%nat -> uses m' (inode_of m' (1 + Z.of_nat i)) b -> (i < List.length fs)%nat /\ uses (img s) (inode_of (img s) (1 + Z.of_nat i)) b).
    { intros i b Hi Hb. destruct (decide (i = List.length fs)) as [->|Hne]; [by destruct (Hno b)|]. destruct (lookup_lt_is_Some_2 fs i ltac:(lia)) as [[t' c'] Hi']. split; [lia|]. by apply (Hold i t' c' Hi'). }
    intros i j b Hi Hj Hne [Hi' Hb]%Hlk [Hj' Hb']%Hlk; [|done|done]. by apply (I5 i j b).
  - cbn. rewrite I6. unfold total. rewrite foldr_app. cbn. done.
  - apply Forall2_app; [done|]. constructor; [cbn; vm_compute; discriminate|constructor].
  - pose proof (Forall2_length _ _ _ I7) as Hl. intros i u f Hu [Hf|[Hf1 Hf2]]%lookup_app_Some.
    + rewrite lookup_app_l in Hu by (apply lookup_lt_Some in Hf; lia). destruct f as [t' c']. destruct (Hold i t' c' Hf) as (_ & _ & ->). by apply I8.
    + apply list_lookup_singleton_Some in Hf2 as [Hf2 <-]. rewrite lookup_app_r in Hu by lia. apply list_lookup_singleton_Some in Hu as [_ <-]. pose proof (one_if_range (iad (inode_of m' (1 + Z.of_nat i)) 12 =? 0)).
      unfold cost. cbn [snd List.length]. change (blocks (Z.of_nat 0)) with 0. lia.
Qed.

(** ** The files of the arguments *)

Definition byte_list (l : list Z) : Prop := Forall (fun b => 0 <= b < 256) l.
Definition room (fs : list (Z * list Z)) : Prop := nmeta + total (cost <$> fs) <= FSSIZE.

Lemma cost_mono t t' c c' : (List.length c <= List.length c')%nat -> cost (t, c) <= cost (t', c').
Proof. intros Hl. unfold cost, blocks. cbn [snd]. divlia. Qed.

Lemma cost_pos f : 1 <= cost f.
Proof. unfold cost, blocks. divlia. Qed.

Lemma total_app l k : total (l ++ k) = total l + total k.
Proof. unfold total. induction l; cbn; lia. Qed.

Lemma room_le fs fs' : room fs' -> total (cost <$> fs) <= total (cost <$> fs') -> room fs.
Proof. unfold room. lia. Qed.

Lemma total_cost_le (fs fs' : list (Z * list Z)) k : Forall2 (fun f f' => cost f <= cost f') fs fs' -> total (cost <$> fs) <= total (cost <$> fs' ++ k).
Proof.
  intros F. rewrite fmap_app, total_app. assert (0 <= total (cost <$> k)) by (clear; unfold total; induction k as [|f k IH]; cbn; [lia|]; pose proof (cost_pos f); lia).
  assert (total (cost <$> fs) <= total (cost <$> fs')) by (unfold total; induction F; cbn in *; lia). lia.
Qed.

Lemma cost_insert_le (fs : list (Z * list Z)) i t c c' : (List.length c <= List.length c')%nat -> Forall2 (fun f f' => cost f <= cost f') (<[i := (t, c)]> fs) (<[i := (t, c')]> fs).
Proof. intros Hl. revert i. induction fs as [|f fs IH]; intros [|i]; cbn; constructor; try done; [by apply cost_mono|by apply Forall_Forall2_diag, Forall_forall]. Qed.

(** All of an input file is appended. *)
Lemma image_append_file n : forall l s fs us i t c, (List.length l < n)%nat -> image s fs us -> fs !! i = Some (t, c) -> byte_list l -> Z.of_nat (List.length c) + Z.of_nat (List.length l) <= 71680 ->
  room (<[i := (t, c ++ l)]> fs) ->
  exists s' us', append_file (1 + Z.of_nat i) n l s = Ret tt s' /\ image s' (<[i := (t, c ++ l)]> fs) us' /\ forall a, a < iaddr 1 -> ld8 (img s') a = ld8 (img s) a.
Proof.
  induction n as [|n IH]; intros l s fs us i t c Hn Hi Hf Hl Hmax Hr; [lia|]. cbn [append_file]. change (Z.to_nat BSIZE) with 512%nat. destruct l as [|x l].
  - exists s, us. split; [done|]. split; [|done]. by rewrite app_nil_r, list_insert_id.
  - change (take 512 (x :: l)) with (x :: take 511 l) at 1. cbv iota. change (x :: take 511 l) with (take 512 (x :: l)). remember (x :: l) as k eqn:Ek.
    assert (Hk : (1 <= List.length k)%nat) by (subst k; cbn; lia). clear x l Ek. rewrite <- (take_drop 512 k) in Hl, Hr. apply Forall_app in Hl as [Hl1 Hl2]. rewrite (assoc_L (++)) in Hr.
    destruct (image_append s fs us i t c (take 512 k) Hi Hf Hl1) as (s1 & us1 & E1 & I1 & F1).
    { rewrite length_take. lia. }
    { eapply room_le; [exact Hr|]. rewrite <- (app_nil_r (<[i := (t, (c ++ _) ++ _)]> fs)). apply total_cost_le, cost_insert_le. rewrite (length_app (c ++ _)). lia. }
    destruct (IH (drop 512 k) s1 (<[i := (t, c ++ take 512 k)]> fs) us1 i t (c ++ take 512 k)) as (s2 & us2 & E2 & I2 & F2); try done.
    { rewrite length_drop. lia. }
    { apply list_lookup_insert_eq. by eapply lookup_lt_Some. }
    { rewrite length_app, length_take, length_drop. lia. }
    { by rewrite list_insert_insert_eq. }
    rewrite list_insert_insert_eq, <- (assoc_L (++)), take_drop in I2. exists s2, us2. rewrite (bind_ret_run _ _ _ _ _ E1). split; [done|]. split; [done|]. intros a Ha. by rewrite F2, F1.
Qed.

Lemma length_dirent n name : List.length (dirent n name) = 16%nat.
Proof. unfold dirent. change (Z.to_nat DIRSIZ) with 14%nat. rewrite !length_app, length_replicate, length_take. cbn [List.length]. lia. Qed.

Lemma byte_list_dirent n name : byte_list name -> byte_list (dirent n name).
Proof.
  intros Hn. unfold dirent. apply Forall_app. split; [repeat constructor; unfold u8; divlia|]. apply Forall_app. split; [by apply Forall_take|]. apply Forall_replicate. lia.
Qed.

Lemma byte_list_skip name : byte_list name -> byte_list (skip_underscore name).
Proof. intros Hn. destruct name as [|c name]; [done|]. cbn. inversion Hn; subst. by destruct (c =? asc "_"). Qed.

(** The directory entries of the arguments, the first with inode [n]. *)
Fixpoint entries (n : Z) (names : list (list Z)) : list Z :=
  match names with [] => [] | name :: names' => dirent n (skip_underscore name) ++ entries (n + 1) names' end.

Lemma length_entries names : forall n, List.length (entries n names) = (16 * List.length names)%nat.
Proof. induction names as [|name names IH]; intros n; [done|]. cbn [entries]. rewrite length_app, length_dirent, IH. cbn [List.length]. lia. Qed.

(** An argument that names a file of the build host with the contents [l]. *)
Record input (host : list Z -> option (list Z)) (name l : list Z) : Prop := Input {
  in_open : host name = Some l;
  in_slash : asc "/" ∉ name;
  in_name : byte_list name;
  in_bytes : byte_list l;
  in_max : Z.of_nat (List.length l) <= 71680 }.

Lemma image_add_file host name l s r fl us : let r' := r ++ dirent (2 + Z.of_nat (List.length fl)) (skip_underscore name) in
  image s ((T_DIR, r) :: fl) us -> input host name l -> (S (S (List.length fl)) < 200)%nat -> Z.of_nat (List.length r') <= 71680 -> room ((T_DIR, r') :: fl ++ [(T_FILE, l)]) ->
  exists s' us', add_file host ROOTINO name s = Ret tt s' /\ image s' ((T_DIR, r') :: fl ++ [(T_FILE, l)]) us' /\ forall a, a < iaddr 1 -> ld8 (img s') a = ld8 (img s) a.
Proof.
  intros r' Hi [N1 N2 N3 N4 N5] Hlen Hmax Hroom. unfold add_file. rewrite bool_decide_eq_false_2, N1 by done.
  destruct (image_ialloc s _ us T_FILE Hi Hlen ltac:(by right)) as (s1 & E1 & I1 & F1). rewrite (bind_ret_run _ _ _ _ _ E1). cbn [List.length].
  replace (1 + Z.of_nat (S (List.length fl))) with (2 + Z.of_nat (List.length fl)) by lia.
  assert (Hr' : List.length r' = (List.length r + 16)%nat) by (unfold r'; by rewrite length_app, length_dirent).
  destruct (image_append s1 _ _ 0 T_DIR r (dirent (2 + Z.of_nat (List.length fl)) (skip_underscore name)) I1) as (s2 & us2 & E2 & I2 & F2); [done|by apply byte_list_dirent, byte_list_skip|rewrite length_dirent; lia|..].
  { eapply room_le; [exact Hroom|]. rewrite <- (app_nil_r (_ :: fl ++ [(T_FILE, l)])). apply total_cost_le. cbn. constructor; [done|]. apply Forall2_app; [by apply Forall_Forall2_diag, Forall_forall|].
    constructor; [apply cost_mono; cbn; lia|constructor]. }
  change (1 + Z.of_nat 0) with ROOTINO in E2. rewrite (bind_ret_run _ _ _ _ _ E2). fold r' in I2.
  change (<[0%nat := (T_DIR, r')]> (((T_DIR, r) :: fl) ++ [(T_FILE, [])])) with ((T_DIR, r') :: fl ++ [(T_FILE, [])]) in I2.
  assert (Eins : <[S (List.length fl) := (T_FILE, l)]> ((T_DIR, r') :: fl ++ [(T_FILE, [])]) = (T_DIR, r') :: fl ++ [(T_FILE, l)]).
  { change (<[S ?n := ?x]> (?a :: ?k)) with (a :: <[n := x]> k). f_equal. rewrite <- (Nat.add_0_r (List.length fl)). by rewrite insert_app_r. }
  destruct (image_append_file (S (List.length l)) l s2 _ us2 (S (List.length fl)) T_FILE [] ltac:(lia) I2) as (s3 & us3 & E3 & I3 & F3); cbn [app]; rewrite ?Eins; try done; try (cbn; lia).
  { change ((?a :: ?k) !! S ?n) with (k !! n). rewrite lookup_app_r, Nat.sub_diag by lia. done. }
  cbn [app] in I3. rewrite Eins in I3. replace (1 + Z.of_nat (S (List.length fl))) with (2 + Z.of_nat (List.length fl)) in E3 by lia.
  exists s3, us3. split; [exact E3|]. split; [done|]. intros a Ha. by rewrite F3, F2, F1.
Qed.

Lemma image_add_files host names ls : Forall2 (input host) names ls -> forall s r fl us, let fs := (T_DIR, r ++ entries (2 + Z.of_nat (List.length fl)) names) :: fl ++ (pair T_FILE <$> ls) in
  image s ((T_DIR, r) :: fl) us -> (S (List.length fl) + List.length names < 200)%nat -> Z.of_nat (List.length r + 16 * List.length names) <= 71680 -> room fs ->
  exists s' us', add_files host ROOTINO names s = Ret tt s' /\ image s' fs us' /\ forall a, a < iaddr 1 -> ld8 (img s') a = ld8 (img s) a.
Proof.
  induction 1 as [|name l names ls Hin F IH]; intros s r fl us fs Hi Hlen Hmax Hroom; cbn [add_files entries fmap list_fmap List.length] in *.
  - exists s, us. split; [done|]. unfold fs. by rewrite !app_nil_r.
  - destruct (image_add_file host name l s r fl us Hi Hin ltac:(lia)) as (s1 & us1 & E1 & I1 & F1); [rewrite length_app, length_dirent; lia| |].
    { eapply room_le; [exact Hroom|]. replace fs with (((T_DIR, r ++ entries (2 + Z.of_nat (List.length fl)) (name :: names)) :: fl ++ [(T_FILE, l)]) ++ (pair T_FILE <$> ls)) by (cbn; by rewrite <- (assoc_L (++) fl)).
      apply total_cost_le. constructor; [|by apply Forall_Forall2_diag, Forall_forall].
      apply cost_mono. cbn [entries]. rewrite !length_app. lia. }
    rewrite (bind_ret_run _ _ _ _ _ E1). destruct (IH s1 _ _ us1 I1) as (s2 & us2 & E2 & I2 & F2).
    + rewrite length_app. cbn. lia.
    + rewrite length_app, length_dirent. lia.
    + rewrite length_app. cbn [List.length]. rewrite <- (assoc_L (++) fl), <- (assoc_L (++) r). replace (2 + Z.of_nat (List.length fl + 1)) with (2 + Z.of_nat (List.length fl) + 1) by lia. exact Hroom.
    + rewrite length_app in I2. cbn [List.length] in I2. rewrite <- (assoc_L (++) fl), <- (assoc_L (++) r) in I2. replace (2 + Z.of_nat (List.length fl + 1)) with (2 + Z.of_nat (List.length fl) + 1) in I2 by lia.
      exists s2, us2. split; [done|]. split; [exact I2|]. intros a Ha. by rewrite F2, F1.
Qed.

(** ** The empty image *)

Lemma ld8_zero a : ld8 (∅ : Zmap Z) a = 0.
Proof. unfold ld8. by rewrite lookup_empty. Qed.

Lemma run_zero_sectors n : forall i s, nsect s = i -> 0 <= i -> i + Z.of_nat n <= FSSIZE -> mem_ok (img s) -> (forall a, ld8 (img s) a = 0) ->
  exists m, zero_sectors i n s = Ret tt (Mk m (i + Z.of_nat n) (freeinode s) (freeblock s)) /\ mem_ok m /\ forall a, ld8 m a = 0.
Proof.
  induction n as [|n IH]; intros i s Hs Hi Hn Hm Hz; cbn [zero_sectors].
  - exists (img s). split; [|done]. rewrite Z.add_0_r. subst i. by destruct s.
  - assert (Ew : wsect i ∅ s = Ret tt (Mk (paste (img s) (i * 512) 512 ∅) (i + 1) (freeinode s) (freeblock s))).
    { unfold wsect, modify. unfold FSSIZE, BSIZE in *. rewrite u32_id, Z.div_mul by lia. rewrite Hs, Z.max_r by lia. unfold set_nsect, set_img, paste. cbn [img nsect freeinode freeblock]. reflexivity. }
    assert (Hp : mem_ok (paste (img s) (i * 512) 512 ∅)) by (by apply mem_ok_paste).
    assert (Hz' : forall a, ld8 (paste (img s) (i * 512) 512 ∅) a = 0) by (intros a; rewrite (ld8_paste _ _ _ _ _ mem_ok_empty) by lia; case_decide; [apply ld8_zero|apply Hz]).
    destruct (IH (i + 1) (Mk _ (i + 1) (freeinode s) (freeblock s)) eq_refl ltac:(lia) ltac:(lia) Hp Hz') as (m & E & Hok & Hm0).
    exists m. split; [|exact (conj Hok Hm0)]. replace (i + Z.of_nat (S n)) with (i + 1 + Z.of_nat n) by lia. rewrite (bind_ret_run _ _ _ _ _ Ew). exact E.
Qed.

Lemma mem_ok_sb_sector : mem_ok sb_sector.
Proof. unfold sb_sector. cbn [foldr]. repeat apply mem_ok_st32. apply mem_ok_empty. Qed.

(** The words of the superblock, from byte [a] of the image on. *)
Definition words (m : Zmap Z) (a : Z) (n : nat) : list Z := (fun k => ld32 m (a + 4 * Z.of_nat k)) <$> seq 0 n.

Lemma words_ext m m' a a' n : (forall j, 0 <= j < 4 * Z.of_nat n -> ld8 m (a + j) = ld8 m' (a' + j)) -> words m a n = words m' a' n.
Proof.
  intros E. apply list_fmap_ext. intros j x [-> Hj]%lookup_seq. unfold ld32. rewrite <- !Z.add_assoc. rewrite !E by lia. reflexivity.
Qed.

Definition sb_words : list Z := [FSSIZE; nblocks; NINODES; nlog; 2; 2 + nlog; 2 + nlog + ninodeblocks].

(** main until the first ialloc. *)
Lemma run_start s : img s = ∅ -> nsect s = 0 -> freeinode s = 1 ->
  exists s', (forall A (k : MI A), (modify (set_freeblock nmeta);; zero_sectors 0 (Z.to_nat FSSIZE);; wsect 1 sb_sector;; k) s = k s') /\ image s' [] [] /\ words (img s') 512 7 = sb_words.
Proof.
  intros Hi Hn Hf. assert (Hz0 : mem_ok (img s) /\ forall a, ld8 (img s) a = 0) by (rewrite Hi; split; [apply mem_ok_empty|apply ld8_zero]). destruct Hz0 as [Hm0 Hz0].
  destruct (run_zero_sectors (Z.to_nat FSSIZE) 0 (set_freeblock nmeta s) Hn ltac:(lia) ltac:(rewrite Z2Nat.id; unfold FSSIZE; lia) Hm0 Hz0) as (m & E & Hm & Hz).
  cbn [freeinode freeblock set_freeblock] in E. rewrite Z2Nat.id, Z.add_0_l, Hf in E by done.
  pose proof (run_wsect (Mk m FSSIZE 1 nmeta) 1 sb_sector eq_refl ltac:(unfold FSSIZE; lia)) as E2. eexists. split.
  - intros A k. rewrite (bind_ret_run (modify _) _ s tt (set_freeblock nmeta s) eq_refl), (bind_ret_run _ _ _ _ _ E). rewrite (bind_ret_run _ _ _ _ _ E2). reflexivity.
  - cbn [img set_img]. change (1 * BSIZE) with 512. change BSIZE with 512. set (m' := paste m 512 512 sb_sector).
    assert (Em : forall a, ld8 m' a = if decide (512 <= a < 1024) then ld8 sb_sector (a - 512) else 0) by (intros a; unfold m'; rewrite (ld8_paste _ _ _ _ _ mem_ok_sb_sector), Hz by lia; reflexivity).
    assert (Hm' : mem_ok m') by (by apply mem_ok_paste). clearbody m'. clear Hz Hz0 Hm0 E E2.
    split; [split; cbn [img freeinode freeblock List.length total foldr set_img]; [|reflexivity|lia|discriminate|lia|reflexivity|constructor|discriminate]|].
    + split; cbn [img nsect freeblock set_img]; [exact Hm'|reflexivity|split; discriminate|]. intros a Ha. rewrite Em, decide_False by (change nmeta with 59 in Ha; lia). reflexivity.
    + transitivity (words sb_sector 0 7); [|vm_compute; reflexivity]. apply words_ext. intros j Hj. rewrite Em, decide_True by lia. f_equal. lia.
Qed.

(** ** The bitmap *)

Lemma testbit_u8 v k : 0 <= k < 8 -> Z.testbit (u8 v) k = Z.testbit v k.
Proof. intros Hk. unfold u8. apply Z.mod_pow2_bits_low. lia. Qed.

Lemma set_bits_spec n : forall buf i b, 0 <= i -> 0 <= b ->
  Z.testbit (ld8 (set_bits buf i n) (b / 8)) (b mod 8) = (Z.testbit (ld8 buf (b / 8)) (b mod 8) || bool_decide (i <= b < i + Z.of_nat n)).
Proof.
  induction n as [|n IH]; intros buf i b Hi Hb; cbn [set_bits]; [rewrite bool_decide_eq_false_2 by lia; by rewrite orb_false_r|]. rewrite IH by lia.
  rewrite ld8_st8. case_decide as E.
  - rewrite E, testbit_u8, Z.lor_spec by (apply Z.mod_pos_bound; lia). rewrite Z.shiftl_1_l, Z.pow2_bits_eqb by (apply Z.mod_pos_bound; lia). rewrite <- orb_assoc. f_equal. destruct (Z.eqb_spec (i mod 8) (b mod 8)).
    + symmetry. rewrite orb_true_l. apply bool_decide_eq_true. divlia.
    + rewrite orb_false_l. apply bool_decide_ext. assert (i <> b) by congruence. lia.
  - f_equal. apply bool_decide_ext. assert (i <> b) by congruence. lia.
Qed.

Lemma mem_ok_set_bits n : forall buf i, mem_ok buf -> mem_ok (set_bits buf i n).
Proof. induction n as [|n IH]; intros buf i Hm; [done|]. apply IH. by apply mem_ok_st8. Qed.

Lemma run_balloc s used : nsect s = FSSIZE -> mem_ok (img s) -> 0 <= used <= FSSIZE ->
  exists m, balloc used s = Ret tt (set_img m s) /\ mem_ok m /\ (forall a, a < 29696 \/ 30208 <= a -> ld8 m a = ld8 (img s) a) /\
  forall b, 0 <= b < 4096 -> Z.testbit (ld8 m (29696 + b / 8)) (b mod 8) = bool_decide (b < used).
Proof.
  intros Hs Hm Hu. unfold balloc, FSSIZE in *. rewrite (proj2 (Z.ltb_lt used (BSIZE * 8))) by (unfold BSIZE; lia). cbn [negb]. change (sb_bmapstart mk_sb) with 58.
  rewrite (run_wsect s 58 _ Hs) by (unfold FSSIZE; lia). eexists. split; [reflexivity|]. split; [by apply mem_ok_paste|]. change (58 * BSIZE) with 29696. change BSIZE with 512.
  pose proof (mem_ok_set_bits (Z.to_nat used) ∅ 0 mem_ok_empty) as Hb. split; [intros a Ha; rewrite (ld8_paste _ _ _ _ _ Hb) by lia; rewrite decide_False by lia; reflexivity|].
  intros b Hr. rewrite (ld8_paste _ _ _ _ _ Hb) by lia. rewrite decide_True by divlia. rewrite Z.add_simpl_l, set_bits_spec, ld8_zero, Z.testbit_0_l by lia. rewrite orb_false_l. apply bool_decide_ext. lia.
Qed.

(** ** The image at the end *)

(** The image [mkfs] leaves for a root directory with the entries [r] and the files [ls]. *)
Record built (s : mkst) (r : list Z) (ls : list (list Z)) : Prop := Built {
  bt_sect : nsect s = FSSIZE;
  bt_sb : words (img s) 512 7 = sb_words;
  bt_free : nmeta <= freeblock s <= FSSIZE;
  bt_root : ld16 (inode_of (img s) ROOTINO) 0 = T_DIR /\ ld16 (inode_of (img s) ROOTINO) 6 = 1 /\
    ld32 (inode_of (img s) ROOTINO) 8 = (Z.of_nat (List.length r) / 512 + 1) * 512;
  bt_view : view_ok (img s) (inode_of (img s) ROOTINO) (freeblock s);
  bt_dir : forall o, 0 <= o < blocks (Z.of_nat (List.length r)) * 512 -> blk (img s) (inode_of (img s) ROOTINO) (o / 512) <> 0 /\
    fbyte (img s) (inode_of (img s) ROOTINO) o = default 0 (r !! Z.to_nat o);
  bt_end : forall i, blocks (Z.of_nat (List.length r)) <= i < 140 -> blk (img s) (inode_of (img s) ROOTINO) i = 0;
  bt_files : forall k l, ls !! k = Some l -> file_at s (2 + Z.of_nat k) T_FILE l;
  bt_sep : forall i j b, (i <= List.length ls)%nat -> (j <= List.length ls)%nat -> i <> j ->
    uses (img s) (inode_of (img s) (1 + Z.of_nat i)) b -> ~ uses (img s) (inode_of (img s) (1 + Z.of_nat j)) b;
  bt_bitmap : forall b, 0 <= b < 4096 -> Z.testbit (ld8 (img s) (29696 + b / 8)) (b mod 8) = bool_decide (b < freeblock s) }.

(** A directory read to the end of its last block. *)
Lemma file_at_padded s n t c o : file_at s n t c -> 0 <= o < blocks (Z.of_nat (List.length c)) * 512 ->
  blk (img s) (inode_of (img s) n) (o / 512) <> 0 /\ fbyte (img s) (inode_of (img s) n) o = default 0 (c !! Z.to_nat o).
Proof.
  intros [F1 F2 F3 F4 F5 F6 F7 F8] Ho. unfold blocks in Ho. destruct (decide (o < Z.of_nat (List.length c))) as [Hlt|Hge].
  - destruct (F6 o ltac:(lia)) as [H1 H2]. by rewrite H2.
  - destruct (F6 (Z.of_nat (List.length c) - 1) ltac:(divlia)) as [H1 _]. replace ((Z.of_nat (List.length c) - 1) / 512) with (o / 512) in H1 by divlia. split; [done|].
    rewrite F7 by (done || divlia). rewrite lookup_ge_None_2 by lia. done.
Qed.

(** The end of main. *)
Lemma run_finish s r ls us : image s ((T_DIR, r) :: (pair T_FILE <$> ls)) us -> words (img s) 512 7 = sb_words -> exists s',
  (din ← rinode ROOTINO;
   let off := xint (ld32 din 8) in
   let off := u32 ((off / BSIZE + 1) * BSIZE) in
   winode ROOTINO (st32 din 8 (xint off));;
   used ← gets freeblock;
   balloc used) s = Ret tt s' /\ built s' r ls.
Proof.
  intros [I1 I2 I3 I4 I5 I6 I7 I8] Hsb. pose proof (I4 0%nat T_DIR r eq_refl) as F. change (1 + Z.of_nat 0) with ROOTINO in F. pose proof F as [F1 F2 F3 F4 F5 F6 F7 F8].
  pose proof (b_free _ I1) as Hr. pose proof (b_mem _ I1) as Hm. rewrite (bind_ret_run _ _ _ _ _ (run_rinode s ROOTINO (b_sect _ I1) Hm ltac:(unfold ROOTINO; lia))).
  set (d := inode_of (img s) ROOTINO) in *. cbv zeta. rewrite F4, (xint_id (Z.of_nat (List.length r))) by lia. change BSIZE with 512. set (sz := (Z.of_nat (List.length r) / 512 + 1) * 512).
  assert (Hsz : 0 <= sz < 2 ^ 32) by (unfold sz; divlia). rewrite u32_id, (xint_id sz Hsz) by done. set (dw := st32 d 8 sz). assert (Hdw : mem_ok dw) by (apply mem_ok_st32, mem_ok_copy).
  destruct (run_winode s ROOTINO dw (b_sect _ I1) Hm Hdw ltac:(unfold ROOTINO; lia)) as (m1 & E1 & Hm1 & Em1). rewrite (bind_ret_run _ _ _ _ _ E1). mrun. cbn [freeblock set_img].
  change nmeta with 59 in Hr. destruct (run_balloc (set_img m1 s) (freeblock s) (b_sect _ I1) Hm1 ltac:(lia)) as (m2 & E2 & Hm2 & Ef & Ebits). cbn [img set_img] in Ef. exists (set_img m2 s). split; [exact E2|].
  change (iaddr ROOTINO) with 16448 in Em1. assert (Em : forall a, a < 29696 \/ 30208 <= a -> ld8 m2 a = if decide (16448 <= a < 16448 + 64) then ld8 dw (a - 16448) else ld8 (img s) a) by (intros a Ha; by rewrite Ef, Em1).
  assert (Ed : forall j, 0 <= j < 64 -> ld8 (inode_of m2 ROOTINO) j = ld8 dw j).
  { intros j Hj. unfold inode_of. change (iaddr ROOTINO) with 16448. rewrite ld8_copy, Em by (done || lia). rewrite decide_True by lia. f_equal. lia. }
  assert (Ek : forall k, 0 <= k <= 12 -> iad (inode_of m2 ROOTINO) k = iad d k) by (intros k Hk; unfold iad; rewrite (ld32_ext dw) by (intros; apply Ed; lia); apply ld32_st32_ne; lia).
  assert (Hdata : forall a, 59 <= a / 512 -> ld8 m2 a = ld8 (img s) a) by (intros a Ha; rewrite Em, decide_False by divlia; reflexivity).
  destruct (view_transport (img s) d m2 (inode_of m2 ROOTINO) (freeblock s) (freeblock s) Ek) as (Tb & Tu & Tv & Tby); [intros a Ha; apply Hdata; apply (v_range _ _ _ F1 _ Ha)|done|lia|].
  assert (Hold : forall k l, ls !! k = Some l -> file_at (set_img m2 s) (2 + Z.of_nat k) T_FILE l /\
    (forall b, uses m2 (inode_of m2 (2 + Z.of_nat k)) b <-> uses (img s) (inode_of (img s) (2 + Z.of_nat k)) b) /\ inode_of m2 (2 + Z.of_nat k) = inode_of (img s) (2 + Z.of_nat k)).
  { intros k l Hk. assert (Hf : file_at s (2 + Z.of_nat k) T_FILE l).
    { replace (2 + Z.of_nat k) with (1 + Z.of_nat (S k)) by lia. apply I4. change ((pair T_FILE <$> ls) !! k = Some (T_FILE, l)). by rewrite list_lookup_fmap, Hk. }
    apply lookup_lt_Some in Hk. cbn [List.length] in I3. rewrite length_fmap in I3. apply (file_at_same s (set_img m2 s)); [exact Hf|cbn; lia|..].
    - intros a Ha. unfold iaddr in Ha. rewrite Em, decide_False by lia. reflexivity.
    - intros a Ha. apply Hdata. apply (v_range _ _ _ (f_view _ _ _ _ Hf) _ Ha). }
  assert (Huse : forall i b, (i <= List.length ls)%nat -> uses m2 (inode_of m2 (1 + Z.of_nat i)) b -> uses (img s) (inode_of (img s) (1 + Z.of_nat i)) b).
  { intros [|k] b Hk Hb; [by apply Tu|]. destruct (lookup_lt_is_Some_2 ls k ltac:(lia)) as [l Hl]. replace (1 + Z.of_nat (S k)) with (2 + Z.of_nat k) in * by lia. by apply (Hold k l Hl). }
  split; cbn [img nsect freeblock set_img].
  - exact (b_sect _ I1).
  - rewrite <- Hsb. apply words_ext. intros j Hj. rewrite Em, decide_False by lia. reflexivity.
  - exact (b_free _ I1).
  - split; [rewrite <- F2|split; [rewrite <- F3|]].
    + unfold ld16. rewrite !Ed by lia. unfold dw. rewrite !ld8_st32_ne by lia. reflexivity.
    + unfold ld16. rewrite !Ed by lia. unfold dw. rewrite !ld8_st32_ne by lia. reflexivity.
    + rewrite (ld32_ext dw) by (intros; apply Ed; lia). by apply ld32_st32_eq.
  - exact Tv.
  - intros o Ho. destruct (file_at_padded s ROOTINO T_DIR r o F Ho) as [P1 P2]. fold d in P1, P2. assert (0 <= o < 71680) by (unfold blocks in Ho; divlia). rewrite Tb by divlia. split; [exact P1|]. by rewrite Tby.
  - intros i Hi. assert (0 <= blocks (Z.of_nat (List.length r))) by (unfold blocks; divlia). rewrite Tb by lia. by apply F8.
  - intros k l Hk. by apply Hold.
  - intros i j b Hi Hj Hne Hb1%Huse Hb2%Huse; [|done|done]. apply (I5 i j b); [cbn; rewrite length_fmap; lia|cbn; rewrite length_fmap; lia|done..].
  - exact Ebits.
Qed.

(** The root directory: itself, its parent and the files, whose inodes start at 2. *)
Definition root_dir (names : list (list Z)) : list Z :=
  dirent ROOTINO (bytes_of ".") ++ dirent ROOTINO (bytes_of "..") ++ entries 2 names.

Lemma image_dots s names k : image s [] [] -> room ((T_DIR, root_dir names) :: k) -> exists s' us,
  (forall A (m : Z -> MI A), (rootino ← ialloc T_DIR; if negb (rootino =? ROOTINO) then panic "assert: rootino == ROOTINO"
     else iappend rootino (dirent rootino (bytes_of "."));; iappend rootino (dirent rootino (bytes_of ".."));; m rootino) s = m ROOTINO s') /\
  image s' [(T_DIR, dirent ROOTINO (bytes_of ".") ++ dirent ROOTINO (bytes_of ".."))] us /\ forall a, a < iaddr 1 -> ld8 (img s') a = ld8 (img s) a.
Proof.
  intros Hi Hroom. set (d1 := dirent ROOTINO (bytes_of ".")) in *. set (d2 := dirent ROOTINO (bytes_of "..")) in *.
  assert (B1 : byte_list d1 /\ byte_list d2) by (split; apply byte_list_dirent, (bool_decide_unpack _); vm_compute; exact I). destruct B1 as [B1 B2].
  assert (L1 : List.length d1 = 16%nat) by apply length_dirent. assert (L2 : List.length d2 = 16%nat) by apply length_dirent.
  assert (Hcost : forall c, (List.length c <= List.length (root_dir names))%nat -> room [(T_DIR, c)]).
  { intros c Hc. eapply room_le; [exact Hroom|]. apply (total_cost_le _ [(T_DIR, root_dir names)]). constructor; [by apply cost_mono|constructor]. }
  assert (Lr : (32 <= List.length (root_dir names))%nat) by (unfold root_dir; fold d1 d2; rewrite !length_app; lia).
  destruct (image_ialloc s [] [] T_DIR Hi ltac:(cbn; lia) ltac:(by left)) as (s1 & E1 & I1 & F1). cbn [app] in I1.
  destruct (image_append s1 _ _ 0 T_DIR [] d1 I1 eq_refl B1) as (s2 & us2 & E2 & I2 & F2); [cbn [List.length]; lia|apply Hcost; cbn [app]; lia|]. cbn [app] in I2.
  destruct (image_append s2 _ us2 0 T_DIR d1 d2 I2 eq_refl B2) as (s3 & us3 & E3 & I3 & F3); [lia|apply Hcost; rewrite length_app; lia|].
  exists s3, us3. split; [|split; [exact I3|]; intros a Ha; rewrite F3, F2, F1 by done; reflexivity]. intros A m. rewrite (bind_ret_run _ _ _ _ _ E1). change (1 + Z.of_nat (List.length [])) with ROOTINO.
  change (negb (ROOTINO =? ROOTINO)) with false. cbv iota. fold d1 d2. change (1 + Z.of_nat 0) with ROOTINO in E2, E3. rewrite (bind_ret_run _ _ _ _ _ E2), (bind_ret_run _ _ _ _ _ E3). reflexivity.
Qed.

(** C13: mkfs makes the image it is asked for.  When every argument names a readable
    file of at most [MAXFILE] blocks, there are inodes for all of them and the blocks
    fit on the disk, main ends without a failed assertion.  The superblock describes
    the layout; the root directory has ".", ".." and the names in order, without
    their underscores, padded with zeroes to the end of its last block; inode
    2 + k is the k-th file, with its bytes and no block it does not need; no block is
    in two files; the bitmap marks exactly the blocks handed out. *)
Theorem mkfs_builds_image host names ls s :
  Forall2 (input host) names ls -> (List.length names < 199)%nat -> room ((T_DIR, root_dir names) :: (pair T_FILE <$> ls)) ->
  img s = ∅ -> nsect s = 0 -> freeinode s = 1 ->
  exists s', mkfs_main host names s = Ret tt s' /\ built s' (root_dir names) ls.
Proof.
  intros Hin Hlen Hroom H1 H2 H3. unfold mkfs_main.
  destruct (run_start s H1 H2 H3) as (s1 & E1 & I1 & W1). rewrite E1. clear E1.
  destruct (image_dots s1 names _ I1 Hroom) as (s2 & us2 & E2 & I2 & F2). rewrite (E2 _ (fun rootino => _)). clear E2.
  destruct (image_add_files host names ls Hin s2 _ [] us2 I2) as (s3 & us3 & E3 & I3 & F3); [cbn; lia|rewrite length_app, !length_dirent; lia|by rewrite <- (assoc_L (++))|].
  rewrite (bind_ret_run _ _ _ _ _ E3). rewrite <- (assoc_L (++)) in I3. apply (run_finish s3 _ _ us3 I3).
  rewrite <- W1. apply words_ext. intros j Hj. rewrite F3, F2 by (unfold iaddr; lia). reflexivity.
Qed.

(** A build host with two files. *)
Definition ex_host (name : list Z) : option (list Z) :=
  if decide (name = bytes_of "_cat") then Some [127; 69; 76; 70] else if decide (name = bytes_of "README") then Some (replicate 600 10) else None.

Lemma mkfs_builds_image_witness : exists s', mkfs_main ex_host [bytes_of "_cat"; bytes_of "README"] (Mk ∅ 0 1 0) = Ret tt s' /\
  built s' (root_dir [bytes_of "_cat"; bytes_of "README"]) [[127; 69; 76; 70]; replicate 600 10].
Proof.
  apply (mkfs_builds_image ex_host _ _ (Mk ∅ 0 1 0)); [|cbn; lia|apply (bool_decide_unpack _); vm_compute; exact I|reflexivity..].
  repeat constructor; try (vm_compute; reflexivity); try (apply (bool_decide_unpack _); vm_compute; exact I); vm_compute; discriminate.
Defined.

(** When the entries fill their blocks, the rounded size goes one block further, which
    the directory does not have. *)
Lemma mkfs_root_hole s names ls : built s (root_dir names) ls -> (List.length names mod 32 = 30)%nat -> (List.length names < 199)%nat ->
  exists o, 0 <= o < ld32 (inode_of (img s) ROOTINO) 8 /\ blk (img s) (inode_of (img s) ROOTINO) (o / 512) = 0.
Proof.
  intros Hb Hn Hl. destruct (bt_root _ _ _ Hb) as (_ & _ & Hs). assert (El : List.length (root_dir names) = (32 + 16 * List.length names)%nat) by (unfold root_dir; rewrite !length_app, !length_dirent, length_entries; lia).
  pose proof (Nat.div_mod (List.length names) 32 ltac:(lia)) as Hdm. rewrite Hn in Hdm. rewrite Hs. exists (Z.of_nat (List.length (root_dir names))). split; [divlia|]. apply (bt_end _ _ _ Hb). unfold blocks. divlia.
Qed.
