(* ===== verification/Bootmain.v ===== *)
(** * The boot loader (bootmain.c)

    It runs before the kernel, with the memory of the machine and its disk only
    ([bst]).  Control leaves it in two ways: it returns to bootasm.S when there is no
    ELF image ([None]), or jumps to the kernel's entry point ([Some entry]).
    The disk is the controller of [Ide], by its laws [IdeDisk]. *)

From Stdlib Require Import ZArith Lia.
From stdpp Require Import base tactics numbers option list zmap.
From S2P Require Import Prelude Memory StringOps Fs Exec Devices Ide.

Definition SECTSIZE : Z := 512.
(** The offset of paddr in struct proghdr. *)
Definition ph_paddr : Z := 12.
(** Where bootmain puts the first page of the image. *)
Definition elf : Z := 0x10000.

Record bst (H : Type) : Type := Bst { bmem : Zmap Z; bhw : H }.
Arguments Bst {H}.
Arguments bmem {H}.
Arguments bhw {H}.

Section loader.
Context {H : Type} {HW : Hardware H} (fuel : nat).
#[local] Abbreviation ML := (M (bst H)).

(** The instructions of x86.h, on this state. *)
Definition in_byte (port : Z) : ML Z := fun s => let '(v, h) := in8 port (bhw s) in Ret (u8 v) (Bst (bmem s) h).
Definition out_byte (port data : Z) : ML unit := modify (fun s => Bst (bmem s) (out8 port (u8 data) (bhw s))).
Definition in_long (port addr : Z) : ML unit := fun s => let '(v, h) := in32 port (bhw s) in Ret tt (Bst (st32 (bmem s) addr v) h).

Fixpoint in_longs (port addr : Z) (cnt : nat) : ML unit :=
  match cnt with O => mret tt | S cnt' => in_long port addr;; in_longs port (u32 (addr + 4)) cnt' end.

Definition wait_body (_ : unit) : ML (unit + unit) :=
  v ← in_byte 0x1F7;
  mret (if negb (Z.land v 0xC0 =? 0x40) then inl tt else inr tt).

Definition waitdisk : ML unit := iterate fuel wait_body tt.

Definition readsect (dst offset : Z) : ML unit :=
  waitdisk;;
  out_byte 0x1F2 1;;
  out_byte 0x1F3 offset;;
  out_byte 0x1F4 (Z.shiftr offset 8);;
  out_byte 0x1F5 (Z.shiftr offset 16);;
  out_byte 0x1F6 (Z.lor (Z.shiftr offset 24) 0xE0);;
  out_byte 0x1F7 0x20;;
  waitdisk;;
  in_longs 0x1F0 dst (Z.to_nat (SECTSIZE / 4)).

Definition readseg_body (epa : Z) (a : Z * Z) : ML (Z * Z + unit) :=
  let '(pa, offset) := a in
  if negb (pa <? epa) then mret (inr tt)
  else readsect pa offset;; mret (inl (u32 (pa + SECTSIZE), u32 (offset + 1))).

Definition readseg (pa count offset : Z) : ML unit :=
  let epa := u32 (pa + count) in
  let pa := u32 (pa - offset mod SECTSIZE) in
  let offset := offset / SECTSIZE + 1 in
  iterate (S (Z.to_nat ((epa - pa + 511) / SECTSIZE))) (readseg_body epa) (pa, offset).

(** One program header, at [ph]. *)
Definition load_body (eph ph : Z) : ML (Z + unit) :=
  if negb (ph <? eph) then mret (inr tt)
  else
    m ← gets bmem;
    let pa := ld32 m (ph + ph_paddr) in
    readseg pa (ld32 m (ph + ph_filesz)) (ld32 m (ph + ph_off));;
    m ← gets bmem;
    let filesz := ld32 m (ph + ph_filesz) in
    let memsz := ld32 m (ph + ph_memsz) in
    when (filesz <? memsz) (modify (fun s => Bst (stosb (bmem s) (u32 (pa + filesz)) 0 (Z.to_nat (memsz - filesz))) (bhw s)));;
    mret (inl (u32 (ph + sizeof_proghdr))).

Definition bootmain : ML (option Z) :=
  readseg elf 4096 0;;
  m ← gets bmem;
  if negb (ld32 m (elf + elf_magic) =? ELF_MAGIC) then mret None
  else
    let ph := u32 (elf + ld32 m (elf + elf_phoff)) in
    let phnum := ld16 m (elf + elf_phnum) in
    let eph := u32 (ph + phnum * sizeof_proghdr) in
    iterate (S (Z.to_nat phnum)) (load_body eph) ph;;
    m ← gets bmem;
    mret (Some (ld32 m (elf + elf_entry))).

End loader.

(** ** Sectors in memory *)

(** Byte [o] of a disk with the given sectors of longs. *)
Definition disk_byte (ss : Z -> list Z) (o : Z) : Z :=
  u8 (Z.shiftr (default 0 (ss (o / 512) !! Z.to_nat (o mod 512 / 4))) (8 * (o mod 4))).

Fixpoint st_longs (m : Zmap Z) (a : Z) (ws : list Z) : Zmap Z :=
  match ws with [] => m | w :: ws' => st_longs (st32 m a w) (a + 4) ws' end.

Lemma ld8_st32 m a w x : ld8 (st32 m a w) x = if decide (a <= x < a + 4) then u8 (Z.shiftr w (8 * (x - a))) else ld8 m x.
Proof.
  case_decide as Hx; [|by apply ld8_st32_ne; lia]. unfold st32. rewrite !ld8_st8. rewrite Z.shiftr_div_pow2 by lia.
  assert (x = a \/ x = a + 1 \/ x = a + 2 \/ x = a + 3) as [-> | [-> | [-> | ->]]] by lia; repeat case_decide; try lia; f_equal; rewrite ?Z.sub_diag, ?Z.add_simpl_l; change (2 ^ (8 * 0)) with 1; rewrite ?Z.div_1_r; done.
Qed.

Lemma ld8_st_longs ws : forall m a x, ld8 (st_longs m a ws) x =
  if decide (a <= x < a + 4 * Z.of_nat (List.length ws)) then u8 (Z.shiftr (default 0 (ws !! Z.to_nat ((x - a) / 4))) (8 * ((x - a) mod 4))) else ld8 m x.
Proof.
  induction ws as [|w ws IH]; intros m a x; cbn [st_longs List.length]; [by rewrite decide_False by lia|]. rewrite IH, ld8_st32. destruct (decide (a <= x < a + 4)) as [H1|H1].
  - rewrite decide_False, decide_True by lia. rewrite Z.div_small, Z.mod_small by lia. done.
  - case_decide; [rewrite decide_True by lia|rewrite decide_False by lia; done]. replace (x - a) with (x - (a + 4) + 1 * 4) by lia. rewrite Z.div_add, Z.mod_add by lia.
    rewrite Z2Nat.inj_add by (lia || divlia). rewrite Nat.add_comm. done.
Qed.

Lemma mem_ok_st_longs ws : forall m a, mem_ok m -> mem_ok (st_longs m a ws).
Proof. induction ws as [|w ws IH]; intros m a Hm; [done|]. apply IH. by apply mem_ok_st32. Qed.

Section disk.
Context {H : Type} {HW : Hardware H} {ID : IdeDisk H} (fuel : nat) (Hfuel : (patience < fuel)%nat).
Implicit Types (m : Zmap Z) (h : H).

Lemma run_wait n : forall m h, (busy h < n)%nat -> exists h', iterate n wait_body tt (Bst m h) = Ret tt (Bst m h') /\ task h' = task h /\ doing h' = doing h /\ sector h' = sector h.
Proof using.
  clear Hfuel.
  induction n as [|n IH]; intros m h Hb; [lia|]. cbn [iterate]. destruct (in_status h) as (T1 & D1 & S1 & _ & B1).
  assert (E : wait_body tt (Bst m h) = Ret (if negb (Z.land (u8 (in8 0x1F7 h).1) 0xC0 =? 0x40) then inl tt else inr tt) (Bst m (in8 0x1F7 h).2)).
  { unfold wait_body, in_byte, mbind, M_bind, obind. cbn [bhw bmem]. by destruct (in8 0x1F7 h). }
  rewrite (bind_ret_run _ _ _ _ _ E). destruct (in8 0x1F7 h) as [v h1]. cbn [fst snd] in *. destruct (busy h) as [|k].
  - destruct B1 as [-> _]. cbn. by exists h1.
  - destruct B1 as [E1 E2]. rewrite (proj2 (Z.eqb_neq _ _) E1). cbn [negb]. destruct (IH m h1 ltac:(lia)) as (h' & E' & T' & D' & S'). exists h'. rewrite T', D', S'. done.
Qed.

Lemma run_waitdisk m h : exists h', waitdisk fuel (Bst m h) = Ret tt (Bst m h') /\ task h' = task h /\ doing h' = doing h /\ sector h' = sector h.
Proof using Hfuel. apply run_wait. pose proof (busy_bound h). lia. Qed.

Lemma run_in_longs dv n cnt : forall m h a k, (k + cnt = 128)%nat -> doing h = Reading dv n k -> 0 <= a -> a + 4 * Z.of_nat cnt <= 4294967296 ->
  exists h', in_longs 0x1F0 a cnt (Bst m h) = Ret tt (Bst (st_longs m a (drop k (sector h dv n))) h') /\ sector h' = sector h.
Proof using.
  clear Hfuel.
  induction cnt as [|cnt IH]; intros m h a k Hk Hd H1 H2; cbn [in_longs].
  - exists h. split; [|done]. rewrite drop_ge by (rewrite sector_len; lia). done.
  - destruct (in_data h dv n k Hd ltac:(lia)) as (Hv & Hd1 & Hs1). unfold in_long at 1, mbind at 1, M_bind, obind. cbn [bhw bmem]. destruct (in32 0x1F0 h) as [v h1]. cbn [fst snd] in *.
    rewrite (drop_S _ v) by done. cbn [st_longs]. destruct cnt as [|cnt].
    + exists h1. split; [|done]. rewrite (drop_ge (sector h dv n)) by (rewrite sector_len; lia). done.
    + rewrite u32_id by lia. destruct (IH (st32 m a v) h1 (a + 4) (S k) ltac:(lia) Hd1 ltac:(lia) ltac:(lia)) as (h' & E & Hs'). exists h'. rewrite Hs1 in E. split; [exact E|by rewrite Hs'].
Qed.

(** The registers readsect sets name the sector on the first disk. *)
Lemma boot_task (t : Z -> Z) n : 0 <= n < 2 ^ 24 -> t 0x1f3 = u8 n -> t 0x1f4 = u8 (Z.shiftr n 8) -> t 0x1f5 = u8 (Z.shiftr n 16) -> t 0x1f6 = u8 (Z.lor (Z.shiftr n 24) 0xE0) ->
  task_dev t = 0 /\ task_sec t = n.
Proof using.
  clear Hfuel.
  intros Hn T3 T4 T5 T6. unfold task_dev, task_sec. rewrite T3, T4, T5, T6, !Z.shiftr_div_pow2 by lia. rewrite (Z.div_small n (2 ^ 24)) by lia. split; [done|].
  change (16777216 * _) with 0. unfold u8. change (2 ^ 8) with 256. change (2 ^ 16) with 65536. divlia.
Qed.

Lemma run_out m h p v : out_byte p v (Bst m h) = Ret tt (Bst m (out8 p (u8 v) h)).
Proof using. done. Qed.

Lemma run_readsect m h dst n : 0 <= n < 2 ^ 24 -> 0 <= dst -> dst + 512 <= 4294967296 ->
  exists h', readsect fuel dst n (Bst m h) = Ret tt (Bst (st_longs m dst (sector h 0 n)) h') /\ sector h' = sector h.
Proof using Hfuel.
  intros Hn H1 H2. unfold readsect. destruct (run_waitdisk m h) as (h0 & E0 & _ & _ & S0). rewrite (bind_ret_run _ _ _ _ _ E0).
  rewrite (bind_ret_run _ _ _ _ _ (run_out _ _ _ _)). destruct (out_task h0 0x1f2 (u8 1) ltac:(lia)) as (T1 & _ & S1). set (h1 := out8 0x1f2 _ h0) in *. clearbody h1.
  rewrite (bind_ret_run _ _ _ _ _ (run_out _ _ _ _)). destruct (out_task h1 0x1f3 (u8 n) ltac:(lia)) as (T2 & _ & S2). set (h2 := out8 0x1f3 _ h1) in *. clearbody h2.
  rewrite (bind_ret_run _ _ _ _ _ (run_out _ _ _ _)). destruct (out_task h2 0x1f4 (u8 (Z.shiftr n 8)) ltac:(lia)) as (T3 & _ & S3). set (h3 := out8 0x1f4 _ h2) in *. clearbody h3.
  rewrite (bind_ret_run _ _ _ _ _ (run_out _ _ _ _)). destruct (out_task h3 0x1f5 (u8 (Z.shiftr n 16)) ltac:(lia)) as (T4 & _ & S4). set (h4 := out8 0x1f5 _ h3) in *. clearbody h4.
  rewrite (bind_ret_run _ _ _ _ _ (run_out _ _ _ _)). destruct (out_task h4 0x1f6 (u8 (Z.lor (Z.shiftr n 24) 0xE0)) ltac:(lia)) as (T5 & _ & S5). set (h5 := out8 0x1f6 _ h4) in *. clearbody h5.
  assert (Et : task h5 0x1f2 = 1 /\ task_dev (task h5) = 0 /\ task_sec (task h5) = n) by (split; [|apply boot_task; [done|..]]; rewrite T5, T4, T3, T2, ?T1; reflexivity).
  destruct Et as (Ec & Ed & En). rewrite (bind_ret_run _ _ _ _ _ (run_out _ _ _ _)). destruct (out_read h5 Ec) as [D6 S6]. change (u8 0x20) with IDE_CMD_READ. set (h6 := out8 0x1f7 _ h5) in *. clearbody h6.
  destruct (run_waitdisk m h6) as (h7 & E7 & _ & D7 & S7). rewrite (bind_ret_run _ _ _ _ _ E7). rewrite Ed, En in D6. change (Z.to_nat (SECTSIZE / 4)) with 128%nat.
  destruct (run_in_longs 0 n 128 m h7 dst 0 eq_refl ltac:(by rewrite D7) H1 ltac:(lia)) as (h8 & E8 & S8). assert (Es : sector h7 = sector h) by congruence.
  exists h8. rewrite E8, drop_0, Es. split; [done|congruence].
Qed.

(** The sectors of the disk, as bytes. *)
Lemma disk_byte_sector (ss : Z -> list Z) n j : 0 <= j < 512 -> u8 (Z.shiftr (default 0 (ss n !! Z.to_nat (j / 4))) (8 * (j mod 4))) = disk_byte ss (n * 512 + j).
Proof using.
  clear Hfuel. intros Hj. unfold disk_byte. replace ((n * 512 + j) / 512) with n by divlia. replace ((n * 512 + j) mod 512) with j by divlia. replace ((n * 512 + j) mod 4) with (j mod 4) by divlia. done.
Qed.

(** [m'] is [m] with [k] sectors from sector [n] on at [a]. *)
Definition loaded (ss : Z -> list Z) (m : Zmap Z) (a n k : Z) (m' : Zmap Z) : Prop :=
  forall x, ld8 m' x = if decide (a <= x < a + 512 * k) then disk_byte ss (n * 512 + (x - a)) else ld8 m x.

Lemma loaded_step ss m a n k m' : 0 <= k -> List.length (ss n) = 128%nat -> loaded ss (st_longs m a (ss n)) (a + 512) (n + 1) k m' -> loaded ss m a n (k + 1) m'.
Proof using.
  clear Hfuel. intros Hk Hl L x. rewrite L. case_decide; [rewrite decide_True by lia; f_equal; lia|]. rewrite ld8_st_longs, Hl. case_decide; [|by rewrite decide_False by lia].
  rewrite decide_True by lia. apply disk_byte_sector. lia.
Qed.

Lemma run_sectors epa n : forall m h pa off, let k := Z.max 0 ((epa - pa + 511) / 512) in 0 <= pa -> 0 <= off -> k < Z.of_nat n -> pa + 512 * k < 4294967296 -> off + k <= 2 ^ 24 -> mem_ok m ->
  exists m' h', iterate n (readseg_body fuel epa) (pa, off) (Bst m h) = Ret tt (Bst m' h') /\ loaded (sector h 0) m pa off k m' /\ mem_ok m' /\ sector h' = sector h.
Proof using Hfuel.
  induction n as [|n IH]; intros m h pa off k H1 H2 Hk H3 H4 Hm; [lia|]. cbn [iterate]. destruct (Z.ltb_spec pa epa) as [Hlt|Hge].
  - assert (Ek : k = Z.max 0 ((epa - (pa + 512) + 511) / 512) + 1) by (unfold k; divlia). set (k1 := Z.max 0 _) in Ek. assert (Hk1 : 0 <= k1) by (unfold k1; lia).
    destruct (run_readsect m h pa off ltac:(lia) H1 ltac:(lia)) as (h1 & E1 & S1).
    assert (E : readseg_body fuel epa (pa, off) (Bst m h) = Ret (inl (pa + 512, off + 1)) (Bst (st_longs m pa (sector h 0 off)) h1)).
    { unfold readseg_body. rewrite (proj2 (Z.ltb_lt _ _) Hlt). cbn [negb]. rewrite (bind_ret_run _ _ _ _ _ E1). unfold SECTSIZE. rewrite !u32_id by lia. done. }
    rewrite (bind_ret_run _ _ _ _ _ E). destruct (IH (st_longs m pa (sector h 0 off)) h1 (pa + 512) (off + 1)) as (m' & h' & E' & L & Hm' & S'); fold k1; try lia; [by apply mem_ok_st_longs|].
    rewrite S1 in L. exists m', h'. split; [exact E'|]. split; [|split; [done|congruence]]. rewrite Ek. apply loaded_step; [done|apply sector_len|exact L].
  - assert (Ek : k = 0) by (unfold k; divlia). exists m, h. split; [|split; [|done]].
    + assert (E : readseg_body fuel epa (pa, off) (Bst m h) = Ret (inr tt) (Bst m h)) by (unfold readseg_body; by rewrite (proj2 (Z.ltb_ge _ _) Hge)). by rewrite (bind_ret_run _ _ _ _ _ E).
    + intros x. by rewrite decide_False by lia.
Qed.

(** The sectors a segment takes. *)
Definition nsectors (count offset : Z) : Z := (count + offset mod 512 + 511) / 512.

Lemma run_readseg m h pa count offset : 0 <= count -> 0 <= offset -> offset mod 512 <= pa -> pa - offset mod 512 + 512 * nsectors count offset < 4294967296 ->
  offset / 512 + 1 + nsectors count offset <= 2 ^ 24 -> mem_ok m ->
  exists m' h', readseg fuel pa count offset (Bst m h) = Ret tt (Bst m' h') /\ loaded (sector h 0) m (pa - offset mod 512) (offset / 512 + 1) (nsectors count offset) m' /\ mem_ok m' /\ sector h' = sector h.
Proof using Hfuel.
  intros H1 H2 H3 H4 H5 Hm. unfold readseg, SECTSIZE. pose proof (Z.mod_pos_bound offset 512 ltac:(lia)) as Hd. assert (Hn : count + offset mod 512 <= 512 * nsectors count offset) by (unfold nsectors; divlia).
  rewrite !u32_id by lia. assert (Ek : (pa + count - (pa - offset mod 512) + 511) / 512 = nsectors count offset) by (unfold nsectors; f_equal; lia). rewrite Ek.
  assert (Hn0 : 0 <= nsectors count offset) by (unfold nsectors; divlia).
  destruct (run_sectors (pa + count) (S (Z.to_nat (nsectors count offset))) m h (pa - offset mod 512) (offset / 512 + 1)) as (m' & h' & E & L & Hm' & S'); rewrite ?Ek, ?Z.max_r by done; try lia; try done; [divlia|].
  rewrite Ek, Z.max_r in L by done. by exists m', h'.
Qed.

End disk.

(** ** The kernel image *)

(** Words and half words of an image given by its bytes. *)
Definition image32 (K : Z -> Z) (o : Z) : Z := K o + 256 * K (o + 1) + 65536 * K (o + 2) + 16777216 * K (o + 3).
Definition image16 (K : Z -> Z) (o : Z) : Z := K o + 256 * K (o + 1).

(** The fields of a program header bootmain looks at. *)
Record segment : Type := Segment { s_off : Z; s_paddr : Z; s_filesz : Z; s_memsz : Z }.
Definition segment_at (K : Z -> Z) (o : Z) : segment :=
  Segment (image32 K (o + ph_off)) (image32 K (o + ph_paddr)) (image32 K (o + ph_filesz)) (image32 K (o + ph_memsz)).
Definition segments (K : Z -> Z) (o : Z) (n : nat) : list segment := (fun i => segment_at K (o + 32 * Z.of_nat i)) <$> seq 0 n.

(** The segments come in increasing order from [lo] on, as readseg needs it: it may overwrite the bytes around a
    segment.  Empty ones, such as that for the stack, may be anywhere. *)
Fixpoint loadable (lo : Z) (gs : list segment) : Prop :=
  match gs with
  | [] => True
  | Segment off pa filesz memsz :: gs' =>
      (filesz = 0 /\ memsz = 0 /\ off mod 512 = 0 /\ loadable lo gs') \/
      (lo <= pa - off mod 512 /\ filesz <= memsz /\ pa + memsz < 2 ^ 32 /\ pa - off mod 512 + 512 * nsectors filesz off < 2 ^ 32 /\
       off / 512 + 1 + nsectors filesz off <= 2 ^ 24 /\ loadable (pa + memsz) gs')
  end.

(** The segment is in memory: its bytes of the image, then zeroes. *)
Definition seg_in (K : Z -> Z) (m : Zmap Z) (g : segment) : Prop :=
  forall j, 0 <= j < s_memsz g -> ld8 m (s_paddr g + j) = if decide (j < s_filesz g) then K (s_off g + j) else 0.

(** The first page of the image is in its place. *)
Definition page_in (K : Z -> Z) (m : Zmap Z) : Prop := forall x, 0x10000 <= x < 0x11000 -> ld8 m x = K (x - 0x10000).

Lemma page_ld32 K m o : page_in K m -> 0 <= o -> o + 4 <= 4096 -> ld32 m (0x10000 + o) = image32 K o.
Proof. intros P H1 H2. unfold ld32, image32. rewrite !P by lia. repeat f_equal; lia. Qed.

Lemma page_ld16 K m o : page_in K m -> 0 <= o -> o + 2 <= 4096 -> ld16 m (0x10000 + o) = image16 K o.
Proof. intros P H1 H2. unfold ld16, image16. rewrite !P by lia. repeat f_equal; lia. Qed.

Lemma loadable_cons lo g gs : 0 <= s_memsz g -> loadable lo (g :: gs) ->
  loadable lo [g] /\ exists lo', lo <= lo' /\ (forall j, 0 <= j < s_memsz g -> s_paddr g + j < lo') /\ loadable lo' gs.
Proof.
  destruct g as [off pa fsz msz]. cbn [s_memsz s_paddr]. intros Hm [(L1 & L2 & L3 & L4)|(L1 & L2 & L3 & L4 & L5 & L6)].
  - split; [by left|]. exists lo. split; [lia|]. split; [intros; lia|done].
  - split; [by right|]. exists (pa + msz). split; [pose proof (Z.mod_pos_bound off 512 ltac:(lia)); lia|]. split; [intros; lia|done].
Qed.

Section kernel_image.
Context {H : Type} {HW : Hardware H} {ID : IdeDisk H} (fuel : nat) (Hfuel : (patience < fuel)%nat).
Implicit Types (m : Zmap Z) (h : H).

(** The image starts at sector 1 of the first disk. *)
Definition kernel_byte (h : H) (o : Z) : Z := disk_byte (sector h 0) (512 + o).

Lemma image32_range h o : 0 <= image32 (kernel_byte h) o < 4294967296.
Proof using.
  clear Hfuel. unfold image32, kernel_byte, disk_byte. pose proof (fun v => u8_range v) as Hu. repeat match goal with |- context [u8 ?v] => pose proof (Hu v); generalize dependent (u8 v); intros end. lia.
Qed.

(** One header: its segment is loaded, memory below it stays. *)
Lemma run_load m h eph o lo : let K := kernel_byte h in let g := segment_at K o in
  page_in K m -> mem_ok m -> 0 <= o -> o + 32 <= 4096 -> 0x10000 + o < eph -> 0x11000 <= lo -> loadable lo [g] ->
  exists m' h', load_body fuel eph (0x10000 + o) (Bst m h) = Ret (inl (0x10000 + o + 32)) (Bst m' h') /\ sector h' = sector h /\ mem_ok m' /\
    seg_in K m' g /\ forall x, x < lo -> ld8 m' x = ld8 m x.
Proof using Hfuel.
  intros K g P Hm H1 H2 H3 Hlo Hl. unfold load_body. rewrite (proj2 (Z.ltb_lt _ _) H3). cbn [negb]. mrun. cbn [bmem].
  assert (Hw : forall m' f, page_in K m' -> 0 <= f <= 28 -> ld32 m' (0x10000 + o + f) = image32 K (o + f)) by (intros m' f P' Hf; rewrite <- Z.add_assoc; apply page_ld32; [done|lia|lia]).
  rewrite !Hw by (done || (unfold ph_paddr, ph_filesz, ph_off; lia)). set (pa := image32 K (o + ph_paddr)) in *. set (off := image32 K (o + ph_off)) in *. set (fsz := image32 K (o + ph_filesz)) in *.
  assert (Hr : 0 <= pa < 4294967296 /\ 0 <= off < 4294967296 /\ 0 <= fsz < 4294967296 /\ 0 <= image32 K (o + ph_memsz) < 4294967296) by (split_and!; apply image32_range).
  set (msz := image32 K (o + ph_memsz)) in *. set (ns := nsectors fsz off). pose proof (Z.mod_pos_bound off 512 ltac:(lia)) as Hd.
  assert (Hc : off mod 512 <= pa /\ pa - off mod 512 + 512 * ns < 2 ^ 32 /\ off / 512 + 1 + ns <= 2 ^ 24 /\ fsz <= msz /\ pa + msz < 2 ^ 32 /\ (ns = 0 /\ msz = 0 \/ lo <= pa - off mod 512)).
  { cbn [loadable] in Hl. unfold g, segment_at in Hl. fold pa off fsz msz ns in Hl. destruct Hl as [(L1 & L2 & L3 & _)|(L1 & L2 & L3 & L4 & L5 & _)]; [|lia].
    assert (ns = 0) as -> by (unfold ns, nsectors; rewrite L1, L3; done). rewrite L1, L2, L3. divlia. }
  destruct Hc as (C1 & C2 & C3 & C4 & C5 & C6). assert (Hns : fsz + off mod 512 <= 512 * ns) by (unfold ns, nsectors; divlia).
  destruct (run_readseg fuel Hfuel m h pa fsz off ltac:(lia) ltac:(lia) C1 C2 C3 Hm) as (m1 & h1 & E1 & L & Hm1 & S1). rewrite (bind_ret_run _ _ _ _ _ E1). mrun. cbn [bmem].
  fold ns in L. assert (P1 : page_in K m1) by (intros x Hx; rewrite L, decide_False by lia; by apply P).
  rewrite !Hw by (done || (unfold ph_memsz, ph_filesz; lia)). fold fsz msz. rewrite (u32_id (pa + fsz)) by lia. set (m2 := if fsz <? msz then stosb m1 (pa + fsz) 0 (Z.to_nat (msz - fsz)) else m1).
  assert (E2 : when (fsz <? msz) (modify (fun s => Bst (stosb (bmem s) (pa + fsz) 0 (Z.to_nat (msz - fsz))) (bhw s))) (Bst m1 h1) = Ret tt (Bst m2 h1)) by (unfold m2; by destruct (fsz <? msz)).
  assert (L2 : forall x, ld8 m2 x = if decide (pa + fsz <= x < pa + msz) then 0 else ld8 m1 x).
  { intros x. unfold m2. destruct (Z.ltb_spec fsz msz); [|by rewrite decide_False by lia]. rewrite ld8_stosb, Z2Nat.id by lia. repeat case_decide; lia || done. }
  exists m2, h1. rewrite (bind_ret_run _ _ _ _ _ E2). split; [unfold sizeof_proghdr; rewrite u32_id by lia; reflexivity|]. split; [done|]. split; [|split].
  - intros x. rewrite L2. case_decide; [lia|apply Hm1].
  - intros j Hj. cbn [s_memsz s_paddr s_filesz s_off g segment_at] in *. fold msz in Hj. fold pa fsz off. rewrite L2. case_decide as Hj'.
    + by rewrite decide_False by lia.
    + rewrite L, !decide_True by lia. unfold K, kernel_byte. f_equal. divlia.
  - intros x Hx. rewrite L2, L, !decide_False by lia. done.
Qed.

(** The rest of the headers. *)
Lemma run_loads eph n : forall m h o lo, let K := kernel_byte h in
  page_in K m -> mem_ok m -> 0 <= o -> eph = 0x10000 + o + 32 * Z.of_nat n -> eph <= 0x11000 -> 0x11000 <= lo -> loadable lo (segments K o n) ->
  exists m' h', iterate (S n) (load_body fuel eph) (0x10000 + o) (Bst m h) = Ret tt (Bst m' h') /\ Forall (seg_in K m') (segments K o n) /\ forall x, x < lo -> ld8 m' x = ld8 m x.
Proof using Hfuel.
  induction n as [|n IH]; intros m h o lo K P Hm Ho He1 He2 Hlo Hl.
  - exists m, h. split; [|split; [constructor|done]]. cbn [iterate]. unfold load_body at 1. rewrite (proj2 (Z.ltb_ge _ _)) by lia. done.
  - assert (Es : segments K o (S n) = segment_at K o :: segments K (o + 32) n).
    { unfold segments. cbn [seq fmap list_fmap]. rewrite Z.add_0_r. f_equal. rewrite <- fmap_S_seq, <- list_fmap_compose. apply list_fmap_ext. intros i x _. cbn. f_equal. lia. }
    rewrite Es in *. set (g := segment_at K o) in *.
    assert (Hmz : 0 <= s_memsz g) by apply image32_range. destruct (loadable_cons lo g _ Hmz Hl) as (Hg & lo' & Hlo' & Hj & Hl').
    destruct (run_load m h eph o lo P Hm Ho ltac:(lia) ltac:(lia) Hlo Hg) as (m1 & h1 & E1 & S1 & Hm1 & G1 & F1). fold K g in G1.
    assert (EK : kernel_byte h1 = K) by (unfold K, kernel_byte; by rewrite S1).
    destruct (IH m1 h1 (o + 32) lo') as (m2 & h2 & E2 & G2 & F2); rewrite ?EK; try done; try lia; [intros x Hx; rewrite F1 by lia; by apply P|]. rewrite EK in G2.
    exists m2, h2. split; [|split].
    + change (iterate (S (S n)) (load_body fuel eph)) with (fun a => r ← load_body fuel eph a; match r with inl a' => iterate (S n) (load_body fuel eph) a' | inr b => mret b end).
      cbv beta. rewrite (bind_ret_run _ _ _ _ _ E1). replace (0x10000 + o + 32) with (0x10000 + (o + 32)) by lia. exact E2.
    + constructor; [|exact G2]. intros j Hj'. rewrite F2 by (by apply Hj). by apply G1.
    + intros x Hx. rewrite F2, F1 by lia. done.
Qed.

Lemma run_first_page m h : mem_ok m -> exists m' h', readseg fuel elf 4096 0 (Bst m h) = Ret tt (Bst m' h') /\ page_in (kernel_byte h) m' /\ mem_ok m' /\ kernel_byte h' = kernel_byte h.
Proof using Hfuel.
  intros Hm. destruct (run_readseg fuel Hfuel m h elf 4096 0) as (m' & h' & E & L & Hm' & S'); try done. exists m', h'. split; [done|]. split; [|split; [done|unfold kernel_byte; by rewrite S']].
  intros x Hx. rewrite L. change (nsectors 4096 0) with 8. change (elf - 0 mod 512) with 0x10000. rewrite decide_True by lia. done.
Qed.

(** C12: The boot loader loads the kernel.  When sector 1 of the disk starts an ELF
    image whose program headers are in its first page and whose segments come in
    increasing order above the page used as scratch space, bootmain jumps to the
    entry point of the header, with every segment in memory at its physical address:
    the bytes of the file, then zeroes up to its size in memory.  Without the ELF
    magic it returns. *)
Theorem bootmain_loads_kernel m h : let K := kernel_byte h in let n := Z.to_nat (image16 K elf_phnum) in
  mem_ok m -> image32 K elf_phoff + 32 * Z.of_nat n <= 4096 -> loadable 0x11000 (segments K (image32 K elf_phoff) n) ->
  exists m' h', bootmain fuel (Bst m h) = Ret (if image32 K 0 =? ELF_MAGIC then Some (image32 K elf_entry) else None) (Bst m' h') /\
    (image32 K 0 = ELF_MAGIC -> Forall (seg_in K m') (segments K (image32 K elf_phoff) n)).
Proof using Hfuel.
  intros K n Hm Hn Hl. destruct (run_first_page m h Hm) as (m1 & h1 & E1 & P1 & Hm1 & EK). fold K in P1, EK. unfold bootmain. rewrite (bind_ret_run _ _ _ _ _ E1). mrun. cbn [bmem]. unfold elf at 1.
  rewrite (page_ld32 K m1 elf_magic) by done. change (image32 K elf_magic) with (image32 K 0). destruct (Z.eqb_spec (image32 K 0) ELF_MAGIC) as [Hmg|Hmg]; cbn [negb]; [|by exists m1, h1].
  unfold elf. rewrite (page_ld32 K m1 elf_phoff), (page_ld16 K m1 elf_phnum) by done. pose proof (image32_range h elf_phoff) as Hr. fold K in Hr. fold n.
  assert (Hph : image16 K elf_phnum = Z.of_nat n) by (unfold n, image16, K, kernel_byte, disk_byte; pose proof (u8_range) as Hu; rewrite Z2Nat.id; [done|]; repeat match goal with |- context [u8 ?v] => pose proof (Hu v); generalize dependent (u8 v); intros end; lia).
  rewrite Hph. unfold sizeof_proghdr. rewrite !(u32_id (0x10000 + _)) by lia. rewrite u32_id by lia.
  destruct (run_loads (0x10000 + image32 K elf_phoff + Z.of_nat n * 32) n m1 h1 (image32 K elf_phoff) 0x11000) as (m2 & h2 & E2 & G2 & F2); rewrite ?EK; try done; try lia.
  rewrite (bind_ret_run _ _ _ _ _ E2). mrun. cbn [bmem]. rewrite EK in G2. exists m2, h2. split; [|done]. rewrite (page_ld32 K m2 elf_entry); [done| |done|done]. intros x Hx. rewrite F2 by lia. by apply P1.
Qed.

End kernel_image.

(** A disk with a kernel of one segment of 600 bytes, 1000 in memory, and an empty one. *)
Definition ex_boot_disk : ctl :=
  Ctl (fun _ => 0) Idle (fun _ n => if n =? 1 then
      [ELF_MAGIC; 0; 0; 0; 0; 0; 0x10000c; 52; 0; 0; 0; 2; 0] ++ [1; 0x1000; 0x80100000; 0x100000; 600; 1000; 7; 4096] ++ replicate 8 0
    else replicate 128 n).

Lemma bootmain_loads_kernel_witness : exists m' h', bootmain 1 (Bst ∅ ex_boot_disk) = Ret (Some 0x10000c) (Bst m' h') /\
  Forall (seg_in (kernel_byte ex_boot_disk) m') [Segment 0x1000 0x100000 600 1000; Segment 0 0 0 0].
Proof.
  destruct (bootmain_loads_kernel (ID := ex_ide_disk) 1 ltac:(cbn; lia) ∅ ex_boot_disk) as (m' & h' & E & G).
  - apply mem_ok_empty.
  - vm_compute. discriminate.
  - change (segments _ _ _) with [Segment 0x1000 0x100000 600 1000; Segment 0 0 0 0]. right. vm_compute. split_and!; try discriminate; try reflexivity. by left.
  - exists m', h'. split; [exact E|]. apply G. vm_compute. reflexivity.
Defined.
