(* ===== verification/Run.v ===== *)
(** * Programs that start processes: running commands in sh.c, init.c, zombie.c

    A program is the tree of the system calls it makes ([prog]): each node is a call,
    its subtrees are what the program does with the answer.  printf is the write of
    what it prints.  [Stuck] stands for the bound of a loop.

    The kernel side is a pool of processes with descriptor tables ([pool], [step]):
    any of them may make its next call, wait takes a child that has ended, a process
    that execs a program becomes that program, which ends at some time.  What the calls
    do is what Sysfile.v and Fork.v have them do to the table of descriptors: open, dup
    and pipe take the lowest free ones (fdalloc), fork copies the table, exec keeps it.
    fork, exec, open and pipe may fail at any time, for want of a process, a page, a file
    or an inode; the pool records that one has. *)

From Stdlib Require Import ZArith Lia Ascii String.
From stdpp Require Import base tactics numbers option list strings zmap relations.
From S2P Require Import Prelude Print User Shell.

Inductive prog : Type :=
| Exit
| Fork (k : Z -> prog)
| Wait (k : Z -> prog)
| Exec (path : list Z) (argv : list (list Z)) (k : prog)
| Open (path : list Z) (mode : Z) (k : Z -> prog)
| Close (fd : Z) (k : prog)
| Dup (fd : Z) (k : Z -> prog)
| Pipe (k : option (Z * Z) -> prog)
| Read1 (fd : Z) (k : option Z -> prog)
| Write (fd : Z) (bs : list Z) (k : prog)
| Chdir (path : list Z) (k : Z -> prog)
| Mknod (path : list Z) (major minor : Z) (k : Z -> prog)
| Sleep (n : Z) (k : prog)
| Stuck.

Definition O_RDWR : Z := 2.

(** ** sh.c *)

Definition sh_panic (s : list Z) : prog := Write 2 (s ++ [NL]) Exit.

Definition fork1 (k : Z -> prog) : prog :=
  Fork (fun pid => if pid =? -1 then sh_panic (bytes_of "fork") else k pid).

(** The strings of the command are in the line [buf], ended by NULs. *)
Fixpoint runcmd (buf : list Z) (c : cmd) : prog :=
  match c with
  | EXEC argv =>
      match (fun t : token => cstr_at buf t.1) <$> argv with
      | [] => Exit
      | (a :: _) as args => Exec a args (Write 2 (bytes_of "exec " ++ a ++ bytes_of " failed" ++ [NL]) Exit)
      end
  | REDIR c' file mode fd =>
      let file := cstr_at buf file.1 in
      Close fd (Open file mode (fun r =>
        if r <? 0 then Write 2 (bytes_of "open " ++ file ++ bytes_of " failed" ++ [NL]) Exit
        else runcmd buf c'))
  | LIST l r =>
      fork1 (fun pid =>
        if pid =? 0 then runcmd buf l
        else Wait (fun _ => runcmd buf r))
  | PIPE l r =>
      Pipe (fun p =>
        match p with
        | None => sh_panic (bytes_of "pipe")
        | Some (p0, p1) =>
            fork1 (fun pid =>
              if pid =? 0 then Close 1 (Dup p1 (fun _ => Close p0 (Close p1 (runcmd buf l))))
              else
                fork1 (fun pid =>
                  if pid =? 0 then Close 0 (Dup p0 (fun _ => Close p0 (Close p1 (runcmd buf r))))
                  else Close p0 (Close p1 (Wait (fun _ => Wait (fun _ => Exit))))))
        end)
  | BACK c' => fork1 (fun pid => if pid =? 0 then runcmd buf c' else Exit)
  end.

(** gets of ulib.c on a buffer of [max] bytes: the bytes before the NUL it stores; [n] characters fit still. *)
Fixpoint gets_chars (n : nat) (k : list Z -> prog) : prog :=
  match n with
  | O => k []
  | S n' =>
      Read1 0 (fun r =>
        match r with
        | None => k []
        | Some c => if (c =? NL) || (c =? 13) then k [c] else gets_chars n' (fun l => k (c :: l))
        end)
  end.

(** The line read, up to its first NUL; [None] is the -1 at the end of the input. *)
Definition getcmd (nbuf : nat) (k : option (list Z) -> prog) : prog :=
  Write 2 (bytes_of "$ ") (gets_chars (nbuf - 1) (fun l =>
    let buf := cstr_at l 0 in
    match buf with [] => k None | _ => k (Some buf) end)).

Definition run_line (buf : list Z) : prog :=
  match parsecmd buf with
  | Ret (c, b) _ => runcmd b c
  | Panic msg => sh_panic (bytes_of msg)
  | _ => Stuck
  end.

Fixpoint sh_open (n : nat) (k : prog) : prog :=
  match n with
  | O => Stuck
  | S n' =>
      Open (bytes_of "console") O_RDWR (fun fd =>
        if 0 <=? fd then if 3 <=? fd then Close fd k else sh_open n' k
        else k)
  end.

Fixpoint sh_loop (n : nat) : prog :=
  match n with
  | O => Stuck
  | S n' =>
      getcmd 100 (fun r =>
        match r with
        | None => Exit
        | Some buf =>
            if (nth 0 buf 0 =? asc "c") && (nth 1 buf 0 =? asc "d") && (nth 2 buf 0 =? 32) then
              let dir := drop 3 (removelast buf) in
              Chdir dir (fun r =>
                if r <? 0 then Write 2 (bytes_of "cannot cd " ++ dir ++ [NL]) (sh_loop n') else sh_loop n')
            else
              fork1 (fun pid => if pid =? 0 then run_line buf else Wait (fun _ => sh_loop n'))
        end)
  end.

Definition sh_main (n : nat) : prog := sh_open n (sh_loop n).

(** ** init.c *)

Fixpoint init_wait (n : nat) (pid : Z) (k : prog) : prog :=
  match n with
  | O => Stuck
  | S n' =>
      Wait (fun wpid =>
        if (0 <=? wpid) && negb (wpid =? pid) then Write 1 (bytes_of "zombie!" ++ [NL]) (init_wait n' pid k)
        else k)
  end.

Fixpoint init_loop (n : nat) : prog :=
  match n with
  | O => Stuck
  | S n' =>
      Write 1 (bytes_of "init: starting sh" ++ [NL])
        (Fork (fun pid =>
          if pid <? 0 then Write 1 (bytes_of "init: fork failed" ++ [NL]) Exit
          else if pid =? 0 then
            Exec (bytes_of "sh") [bytes_of "sh"] (Write 1 (bytes_of "init: exec sh failed" ++ [NL]) Exit)
          else init_wait n pid (init_loop n')))
  end.

Definition init_main (n : nat) : prog :=
  let go := Dup 0 (fun _ => Dup 0 (fun _ => init_loop n)) in
  Open (bytes_of "console") O_RDWR (fun fd =>
    if fd <? 0 then Mknod (bytes_of "console") 1 1 (fun _ => Open (bytes_of "console") O_RDWR (fun _ => go))
    else go).

(** ** zombie.c *)

Definition zombie_main : prog := Fork (fun pid => if 0 <? pid then Sleep 5 Exit else Exit).

(** ** The kernel's side *)

(** What a descriptor refers to.  A pipe is named by the history of the process that
    made it, so that every pipe has a name of its own. *)
Inductive obj : Type :=
| OFile (path : list Z) (mode : Z)
| OPipeR (pipe : list nat)
| OPipeW (pipe : list nat)
| OOther (n : nat).

Abbreviation fdtab := (Zmap obj).

(** The lowest descriptor not in use, of NOFILE. *)
Definition lowest (F : fdtab) : option Z :=
  Z.of_nat <$> find_index (fun k : nat => negb (bool_decide (is_Some (F !! Z.of_nat k)))) (seq 0 16).

(** A program that has been started: its arguments and its descriptors. *)
Record image : Type := Image { im_path : list Z; im_argv : list (list Z); im_fds : fdtab }.

(** [p_tag] is the history: 1 and 0 for the child and the parent of a fork, 2 for a pipe. *)
Record uproc : Type := UProc {
  p_pid : list nat;
  p_ppid : list nat;
  p_tag : list nat;
  p_fds : fdtab;
  p_run : prog + image }.

(** [failed]: some call has answered with an error. *)
Record pool : Type := Pool { live : list uproc; zombies : list (list nat * list nat); execd : list image; failed : bool }.

(** The calls that concern the process only; the last argument says whether the call failed. *)
Inductive calls : prog -> list nat -> fdtab -> prog -> list nat -> fdtab -> bool -> Prop :=
| C_open path mode k t F fd : lowest F = Some fd -> calls (Open path mode k) t F (k fd) t (<[fd := OFile path mode]> F) false
| C_open_fail path mode k t F : calls (Open path mode k) t F (k (-1)) t F true
| C_close fd k t F : calls (Close fd k) t F k t (delete fd F) false
| C_dup fd k t F o d : F !! fd = Some o -> lowest F = Some d -> calls (Dup fd k) t F (k d) t (<[d := o]> F) false
| C_dup_fail fd k t F : F !! fd = None \/ lowest F = None -> calls (Dup fd k) t F (k (-1)) t F true
| C_pipe k t F a b : lowest F = Some a -> lowest (<[a := OPipeR t]> F) = Some b ->
    calls (Pipe k) t F (k (Some (a, b))) (t ++ [2%nat]) (<[b := OPipeW t]> (<[a := OPipeR t]> F)) false
| C_pipe_fail k t F : calls (Pipe k) t F (k None) t F true
| C_read fd k t F r : calls (Read1 fd k) t F (k r) t F false
| C_write fd bs k t F : calls (Write fd bs k) t F k t F false
| C_chdir path k t F r : calls (Chdir path k) t F (k r) t F (r <? 0)
| C_mknod path major minor k t F r : calls (Mknod path major minor k) t F (k r) t F (r <? 0)
| C_sleep n k t F : calls (Sleep n k) t F k t F false.

Inductive step : pool -> pool -> Prop :=
| St_call l1 l2 z e b pid par t F p p' t' F' b' : calls p t F p' t' F' b' ->
    step (Pool (l1 ++ UProc pid par t F (inl p) :: l2) z e b) (Pool (l1 ++ UProc pid par t' F' (inl p') :: l2) z e (b || b'))
| St_fork l1 l2 z e b pid par t F k num : 0 < num ->
    step (Pool (l1 ++ UProc pid par t F (inl (Fork k)) :: l2) z e b)
         (Pool (l1 ++ UProc pid par (t ++ [0%nat]) F (inl (k num)) :: UProc (t ++ [1%nat]) pid (t ++ [1%nat]) F (inl (k 0)) :: l2) z e b)
| St_fork_fail l1 l2 z e b pid par t F k :
    step (Pool (l1 ++ UProc pid par t F (inl (Fork k)) :: l2) z e b) (Pool (l1 ++ UProc pid par t F (inl (k (-1))) :: l2) z e true)
| St_exec l1 l2 z e b pid par t F path argv k :
    step (Pool (l1 ++ UProc pid par t F (inl (Exec path argv k)) :: l2) z e b)
         (Pool (l1 ++ UProc pid par t F (inr (Image path argv F)) :: l2) z (Image path argv F :: e) b)
| St_exec_fail l1 l2 z e b pid par t F path argv k :
    step (Pool (l1 ++ UProc pid par t F (inl (Exec path argv k)) :: l2) z e b) (Pool (l1 ++ UProc pid par t F (inl k) :: l2) z e true)
| St_exit l1 l2 z e b pid par t F r : match r with inl p => p = Exit | inr _ => True end ->
    step (Pool (l1 ++ UProc pid par t F r :: l2) z e b) (Pool (l1 ++ l2) ((pid, par) :: z) e b)
| St_wait l1 l2 z1 z2 e b pid par t F k child num : 0 < num ->
    step (Pool (l1 ++ UProc pid par t F (inl (Wait k)) :: l2) (z1 ++ (child, pid) :: z2) e b)
         (Pool (l1 ++ UProc pid par t F (inl (k num)) :: l2) (z1 ++ z2) e b)
| St_wait_none l1 l2 z e b pid par t F k : pid ∉ z.*2 -> pid ∉ p_ppid <$> (l1 ++ l2) ->
    step (Pool (l1 ++ UProc pid par t F (inl (Wait k)) :: l2) z e b)
         (Pool (l1 ++ UProc pid par t F (inl (k (-1))) :: l2) z e b).

(** The pool at the start of a command. *)
Definition start (p : prog) (F : fdtab) : pool := Pool [UProc [0%nat] [] [0%nat] F (inl p)] [] [] false.

(** ** What a command starts *)

(** The programs of a command, with the descriptors they should have. *)
Fixpoint wire (c : acmd) (t : list nat) (F : fdtab) : list image :=
  match c with
  | AExec [] => []
  | AExec ((a :: _) as argv) => [Image a argv F]
  | ARedir c file mode fd => wire c t (<[fd := OFile file mode]> F)
  | APipe l r => wire l (t ++ [2; 1]%nat) (<[1 := OPipeW t]> F) ++ wire r (t ++ [2; 0; 1]%nat) (<[0 := OPipeR t]> F)
  | AList l r => wire l (t ++ [1%nat]) F ++ wire r (t ++ [0%nat]) F
  | ABack c => wire c (t ++ [1%nat]) F
  end.

(** What a program does, by itself and its descendants, added up: [a_exec] for a program it
    starts, [a_join] for a fork, [a_wait] for a wait with the descriptors it then has, [a_tick] for another call,
    [a_or] for a call that may fail: what the program does if it does not, and if it does. *)
Record algebra (A : Type) : Type := Algebra {
  a_exit : A;
  a_exec : image -> A;
  a_join : A -> A -> A;
  a_wait : fdtab -> A -> A;
  a_tick : A -> A;
  a_or : A -> A -> A;
  a_none : A }.

Arguments Algebra {A}.
Arguments a_exit {A}.
Arguments a_exec {A}.
Arguments a_join {A}.
Arguments a_wait {A}.
Arguments a_tick {A}.
Arguments a_or {A}.
Arguments a_none {A}.

Fixpoint fold {A} (g : algebra A) (p : prog) (t : list nat) (F : fdtab) : A :=
  match p with
  | Exit => a_exit g
  | Fork k => a_or g (a_join g (fold g (k 0) (t ++ [1%nat]) F) (fold g (k 1) (t ++ [0%nat]) F)) (a_tick g (fold g (k (-1)) t F))
  | Wait k => a_wait g F (fold g (k 1) t F)
  | Exec path argv k => a_or g (a_exec g (Image path argv F)) (a_tick g (fold g k t F))
  | Open path mode k =>
      match lowest F with
      | Some fd => a_or g (a_tick g (fold g (k fd) t (<[fd := OFile path mode]> F))) (a_tick g (fold g (k (-1)) t F))
      | None => a_tick g (fold g (k (-1)) t F)
      end
  | Close fd k => a_tick g (fold g k t (delete fd F))
  | Dup fd k =>
      match F !! fd, lowest F with
      | Some o, Some d => a_tick g (fold g (k d) t (<[d := o]> F))
      | _, _ => a_tick g (fold g (k (-1)) t F)
      end
  | Pipe k =>
      match lowest F with
      | Some a =>
          match lowest (<[a := OPipeR t]> F) with
          | Some b => a_or g (a_tick g (fold g (k (Some (a, b))) (t ++ [2%nat]) (<[b := OPipeW t]> (<[a := OPipeR t]> F)))) (a_tick g (fold g (k None) t F))
          | None => a_tick g (fold g (k None) t F)
          end
      | None => a_tick g (fold g (k None) t F)
      end
  | Write _ _ k => a_tick g (fold g k t F)
  | _ => a_none g
  end.

(** The greatest number of steps, and the programs started if no call fails. *)
Definition plan_alg : algebra (nat * list image) :=
  Algebra (1%nat, []) (fun i => (2%nat, [i])) (fun r r' => (S (r.1 + r'.1), r.2 ++ r'.2)) (fun _ r => (S r.1, r.2)) (fun r => (S r.1, r.2))
    (fun r r' => (Nat.max r.1 r'.1, r.2)) (0%nat, []).
Definition plan : prog -> list nat -> fdtab -> nat * list image := fold plan_alg.

(** The descriptors at every wait have a property. *)
Definition waits_alg (Q : fdtab -> Prop) : algebra Prop := Algebra True (fun _ => True) and (fun F P => Q F /\ P) (fun P => P) and True.
Definition waits (Q : fdtab -> Prop) : prog -> list nat -> fdtab -> Prop := fold (waits_alg Q).

(** The program complains and ends. *)
Fixpoint gives_up (p : prog) : Prop := match p with Exit => True | Write _ _ k => gives_up k | _ => False end.

(** The program does the same for every process number it gets, reads nothing, and gives up when a call fails. *)
Inductive uniform : prog -> Prop :=
| U_exit : uniform Exit
| U_fork k : (forall pid, 0 < pid -> k pid = k 1) -> uniform (k 0) -> uniform (k 1) -> gives_up (k (-1)) -> uniform (Fork k)
| U_wait k : (forall pid, k pid = k 1) -> uniform (k 1) -> uniform (Wait k)
| U_exec path argv k : gives_up k -> uniform (Exec path argv k)
| U_open path mode k : (forall r, 0 <= r -> uniform (k r)) -> gives_up (k (-1)) -> uniform (Open path mode k)
| U_close fd k : uniform k -> uniform (Close fd k)
| U_dup fd k : (forall r, uniform (k r)) -> (forall r, k r = k 0) -> uniform (Dup fd k)
| U_pipe k : (forall r, uniform (k r)) -> gives_up (k None) -> uniform (Pipe k)
| U_write fd bs k : uniform k -> uniform (Write fd bs k).

#[local] Hint Constructors uniform : core.

Lemma gives_up_uniform p : gives_up p -> uniform p.
Proof. induction p; cbn; try done; auto. Qed.

Lemma gives_up_plan p t F : gives_up p -> (plan p t F).2 = [] /\ forall Q, waits Q p t F.
Proof. induction p; cbn; try done; auto. Qed.

Lemma uniform_fork1 k : (forall pid, 0 < pid -> k pid = k 1) -> uniform (k 0) -> uniform (k 1) -> uniform (fork1 k).
Proof.
  intros Hk H0 H1. constructor; cbn; try done. intros pid Hp. rewrite (proj2 (Z.eqb_neq pid (-1))) by lia. by apply Hk.
Qed.

Lemma uniform_runcmd buf c : uniform (runcmd buf c).
Proof.
  induction c as [argv|c IH file mode fd|l IHl r IHr|l IHl r IHr|c IH]; cbn [runcmd].
  - destruct (_ <$> argv); [auto|]. by constructor.
  - constructor. constructor; [|done]. intros r _. destruct (r <? 0); auto.
  - constructor; [|done]. intros [[p0 p1]|]; [|unfold sh_panic; auto]. apply uniform_fork1; cbn; auto.
    + intros pid Hp. by rewrite (proj2 (Z.eqb_neq pid 0)) by lia.
    + apply uniform_fork1; cbn; auto. intros pid Hp. by rewrite (proj2 (Z.eqb_neq pid 0)) by lia.
  - apply uniform_fork1; cbn; auto. intros pid Hp. by rewrite (proj2 (Z.eqb_neq pid 0)) by lia.
  - apply uniform_fork1; cbn; auto. intros pid Hp. by rewrite (proj2 (Z.eqb_neq pid 0)) by lia.
Qed.

(** The descriptors of a shell: the standard ones, and free ones after them. *)
Record std (F : fdtab) : Prop := Std {
  std_0 : is_Some (F !! 0);
  std_1 : is_Some (F !! 1);
  std_2 : is_Some (F !! 2);
  std_3 : F !! 3 = None;
  std_4 : F !! 4 = None }.

Lemma lowest_is F d : (d < 16)%nat -> F !! Z.of_nat d = None -> (forall j, (j < d)%nat -> is_Some (F !! Z.of_nat j)) -> lowest F = Some (Z.of_nat d).
Proof.
  intros Hd Hn Hb. unfold lowest. rewrite (proj2 (find_index_Some _ (seq 0 16) d)); [done|]. exists d. split; [by apply lookup_seq|]. split.
  - by rewrite bool_decide_eq_false_2 by (rewrite Hn; apply is_Some_None).
  - intros j r Hj [-> _]%lookup_seq. by rewrite bool_decide_eq_true_2 by (by apply Hb).
Qed.

Lemma std_insert F fd o : std F -> is_Some (F !! fd) -> std (<[fd := o]> F).
Proof.
  intros [H0 H1 H2 H3 H4] [o' Ho]. split; rewrite lookup_insert; case_decide; subst; (done || congruence).
Qed.

Lemma lowest_fd F fd : std F -> fd = 0 \/ fd = 1 -> lowest (delete fd F) = Some fd.
Proof.
  intros [H0 H1 H2 H3 H4] [-> | ->].
  - apply (lowest_is _ 0); [lia|by rewrite lookup_delete_eq|lia].
  - apply (lowest_is _ 1); [lia|by rewrite lookup_delete_eq|]. intros j Hj. assert (j = 0%nat) as -> by lia. by rewrite lookup_delete_ne.
Qed.

(** Every redirection is one of the standard input or output. *)
Fixpoint redirs_std (c : cmd) : Prop :=
  match c with
  | EXEC _ => True
  | REDIR c _ _ fd => (fd = 0 \/ fd = 1) /\ redirs_std c
  | PIPE l r => redirs_std l /\ redirs_std r
  | LIST l r => redirs_std l /\ redirs_std r
  | BACK c => redirs_std c
  end.

Lemma lowest_pipe F t : std F -> lowest F = Some 3 /\ lowest (<[3 := OPipeR t]> F) = Some 4.
Proof.
  intros [H0 H1 H2 H3 H4]. split.
  - apply (lowest_is _ 3); [lia|done|]. intros j Hj. assert (j = 0 \/ j = 1 \/ j = 2)%nat as [-> |[-> | ->]] by lia; done.
  - apply (lowest_is _ 4); [lia|by rewrite lookup_insert_ne|]. intros j Hj. assert (j = 0 \/ j = 1 \/ j = 2 \/ j = 3)%nat as [-> |[-> |[-> | ->]]] by lia; [by rewrite lookup_insert_ne..|by rewrite lookup_insert_eq].
Qed.

Section fold.
Context {A : Type} (g : algebra A).

(** What a side of a pipe does with the two descriptors. *)
Lemma fold_side F t t' fd src o k : std F -> fd = 0 \/ fd = 1 -> (src = 3 /\ o = OPipeR t \/ src = 4 /\ o = OPipeW t) ->
  fold g (Close fd (Dup src (fun _ => Close 3 (Close 4 k)))) t' (<[4 := OPipeW t]> (<[3 := OPipeR t]> F)) = a_tick g (a_tick g (a_tick g (a_tick g (fold g k t' (<[fd := o]> F))))).
Proof.
  intros Hs Hfd Hsrc. set (F4 := <[4 := _]> _). cbn [fold].
  assert (El : lowest (delete fd F4) = Some fd).
  { destruct Hs as [H0 H1 H2 H3 H4]. destruct Hfd as [-> | ->]; [apply (lowest_is _ 0); [lia|by rewrite lookup_delete_eq|lia]|apply (lowest_is _ 1); [lia|by rewrite lookup_delete_eq|]].
    intros j Hj. assert (j = 0%nat) as -> by lia. rewrite lookup_delete_ne by done. unfold F4. by rewrite !lookup_insert_ne. }
  assert (Eo : delete fd F4 !! src = Some o).
  { rewrite lookup_delete_ne by (destruct Hfd, Hsrc as [[]|[]]; subst; done). unfold F4. destruct Hsrc as [[-> ->]|[-> ->]]; [rewrite lookup_insert_ne by done|]; apply lookup_insert_eq. }
  rewrite Eo, El. do 5 f_equal. apply map_eq. intros i. unfold F4. destruct Hs as [H0 H1 H2 H3 H4].
  destruct (decide (i = 4)) as [->|]; [rewrite lookup_delete_eq, lookup_insert_ne by (destruct Hfd; subst; done); done|]. rewrite lookup_delete_ne by done.
  destruct (decide (i = 3)) as [->|]; [rewrite lookup_delete_eq, lookup_insert_ne by (destruct Hfd; subst; done); done|]. rewrite lookup_delete_ne by done.
  destruct (decide (i = fd)) as [->|]; [by rewrite !lookup_insert_eq|]. rewrite !(lookup_insert_ne _ fd), lookup_delete_ne by done. by rewrite !lookup_insert_ne.
Qed.

(** The other side, which closes both. *)
Lemma fold_close F t t' k : std F -> fold g (Close 3 (Close 4 k)) t' (<[4 := OPipeW t]> (<[3 := OPipeR t]> F)) = a_tick g (a_tick g (fold g k t' F)).
Proof.
  intros [H0 H1 H2 H3 H4]. cbn [fold]. do 3 f_equal. apply map_eq. intros i. rewrite !lookup_delete, !lookup_insert. repeat case_decide; subst; done.
Qed.

Lemma fold_fork1 k t F : fold g (fork1 k) t F =
  a_or g (a_join g (fold g (k 0) (t ++ [1%nat]) F) (fold g (k 1) (t ++ [0%nat]) F)) (a_tick g (fold g (sh_panic (bytes_of "fork")) t F)).
Proof. done. Qed.

Lemma fold_pipe k t F : std F -> fold g (Pipe k) t F =
  a_or g (a_tick g (fold g (k (Some (3, 4))) (t ++ [2%nat]) (<[4 := OPipeW t]> (<[3 := OPipeR t]> F)))) (a_tick g (fold g (k None) t F)).
Proof. intros Hs. cbn [fold]. destruct (lowest_pipe F t Hs) as [E1 E2]. by rewrite E1, E2. Qed.

Lemma fold_redir file mode fd k t F : std F -> fd = 0 \/ fd = 1 -> fold g (Close fd (Open file mode k)) t F =
  a_tick g (a_or g (a_tick g (fold g (k fd) t (<[fd := OFile file mode]> F))) (a_tick g (fold g (k (-1)) t (delete fd F)))).
Proof. intros Hs Hfd. cbn [fold]. by rewrite (lowest_fd F fd Hs Hfd), insert_delete_eq. Qed.

(** runcmd on a pipe. *)
Lemma fold_runcmd_pipe buf l r t F : std F -> fold g (runcmd buf (PIPE l r)) t F =
  let panics s t F := a_tick g (fold g (sh_panic (bytes_of s)) t F) in let F4 := <[4 := OPipeW t]> (<[3 := OPipeR t]> F) in
  a_or g (a_tick g (a_or g (a_join g (a_tick g (a_tick g (a_tick g (a_tick g (fold g (runcmd buf l) (t ++ [2; 1]%nat) (<[1 := OPipeW t]> F))))))
      (a_or g (a_join g (a_tick g (a_tick g (a_tick g (a_tick g (fold g (runcmd buf r) (t ++ [2; 0; 1]%nat) (<[0 := OPipeR t]> F))))))
        (a_tick g (a_tick g (a_wait g F (a_wait g F (a_exit g))))))
      (panics "fork" (t ++ [2; 0]%nat) F4)))
    (panics "fork" (t ++ [2]%nat) F4))) (panics "pipe" t F).
Proof.
  intros Hs. cbv zeta. cbn [runcmd]. rewrite (fold_pipe _ t F Hs), fold_fork1. cbn [Z.eqb]. cbv iota. rewrite fold_fork1. cbn [Z.eqb]. cbv iota.
  rewrite (fold_side F t _ 1 4 (OPipeW t) _ Hs), (fold_side F t _ 0 3 (OPipeR t) _ Hs), (fold_close F t _ _ Hs) by auto. by rewrite <- !(assoc_L (++)).
Qed.

End fold.

(** The programs runcmd starts. *)
Lemma plan_runcmd buf c : redirs_std c -> forall t F, std F -> snd (plan (runcmd buf c) t F) = wire (resolve buf c) t F.
Proof.
  unfold plan. induction c as [argv|c IH file mode fd|l IHl r IHr|l IHl r IHr|c IH]; intros Hr t F Hs; cbn [resolve wire].
  - cbn [runcmd]. by destruct (_ <$> argv).
  - destruct Hr as [Hfd Hr]. cbn [runcmd]. rewrite (fold_redir _ _ _ _ _ _ _ Hs Hfd). rewrite (proj2 (Z.ltb_ge fd 0)) by lia. cbn [snd a_tick a_or plan_alg]. apply IH; [done|].
    apply std_insert; [done|]. destruct Hs, Hfd; subst; done.
  - destruct Hr as [Hl Hr]. rewrite fold_runcmd_pipe by done. cbv zeta. cbn [a_tick a_or a_join a_wait a_exit fst snd plan_alg]. rewrite app_nil_r, IHl, IHr by (done || (apply std_insert; [done|]; by destruct Hs)). done.
  - destruct Hr as [Hl Hr]. cbn [runcmd]. rewrite fold_fork1. cbn [Z.eqb fold a_or a_join a_wait snd plan_alg]. by rewrite IHl, IHr.
  - cbn [runcmd]. rewrite fold_fork1. cbn [Z.eqb fold a_or a_join a_exit snd plan_alg]. rewrite app_nil_r. by apply IH.
Qed.

(** Above the standard descriptors a process that waits has what it had at the start. *)
Definition tidy (F0 F : fdtab) : Prop := forall fd, 3 <= fd -> F !! fd = F0 !! fd.

Lemma tidy_insert F0 F fd o : fd = 0 \/ fd = 1 -> tidy F0 F -> tidy F0 (<[fd := o]> F).
Proof. intros Hfd HF i Hi. rewrite lookup_insert_ne by lia. by apply HF. Qed.

Lemma waits_runcmd buf c F0 : redirs_std c -> forall t F, std F -> tidy F0 F -> waits (tidy F0) (runcmd buf c) t F.
Proof.
  unfold waits. induction c as [argv|c IH file mode fd|l IHl r IHr|l IHl r IHr|c IH]; intros Hr t F Hs Ht.
  - cbn [runcmd]. by destruct (_ <$> argv).
  - destruct Hr as [Hfd Hr]. cbn [runcmd]. rewrite (fold_redir _ _ _ _ _ _ _ Hs Hfd). rewrite (proj2 (Z.ltb_ge fd 0)) by lia. cbn [a_tick a_or waits_alg]. split; [|done].
    apply IH; [done| |by apply tidy_insert]. apply std_insert; [done|]. destruct Hs, Hfd; subst; done.
  - destruct Hr as [Hl Hr]. rewrite fold_runcmd_pipe by done. cbv zeta. cbn [a_tick a_or a_join a_wait a_exit waits_alg].
    do 2 (split; [|done]). split; [|split; [split; [|done]|done]]; [apply IHl|apply IHr]; try done; try (apply std_insert; [done|]; by destruct Hs); apply tidy_insert; auto.
  - destruct Hr as [Hl Hr]. cbn [runcmd]. rewrite fold_fork1. cbn [Z.eqb fold a_or a_join a_wait waits_alg]. split; [|done]. auto.
  - cbn [runcmd]. rewrite fold_fork1. cbn [Z.eqb fold a_or a_join a_exit waits_alg]. split; [|done]. auto.
Qed.

(** ** Every run of the pool *)

(** A call takes one of the steps planned; if it does not fail the programs planned are the same, if it does there are none but in a program that does not care. *)
Lemma calls_plan p t F p' t' F' b Q : calls p t F p' t' F' b -> uniform p -> waits Q p t F ->
  uniform p' /\ waits Q p' t' F' /\ (List.length t <= List.length t')%nat /\ ((plan p' t' F').1 < (plan p t F).1)%nat /\
  if b then (plan p' t' F').2 ⊆+ (plan p t F).2 else (plan p' t' F').2 = (plan p t F).2.
Proof.
  intros Hc Hu Hw. destruct Hc as [path mode k t F fd E|path mode k t F|fd k t F|fd k t F o d Eo Ed|fd k t F Ef|k t F a b Ea Eb|k t F| | | | |]; inversion Hu; subst;
    unfold plan, waits in *; cbn [fold] in *.
  - rewrite E in *. destruct Hw as [Hw _]. cbn. split; [|split; [done|split; [done|split; [lia|done]]]]. match goal with H : forall r, 0 <= r -> _ |- _ => apply H end.
    unfold lowest in E. destruct (find_index _ _); [|done]. injection E as <-. lia.
  - match goal with H : gives_up _ |- _ => pose proof (gives_up_uniform _ H); destruct (gives_up_plan _ t F H) as [E2 W2] end. unfold plan in E2. rewrite E2.
    split; [done|]. split; [apply W2|]. split; [done|]. split; [destruct (lowest F); cbn; lia|apply submseteq_nil_l].
  - split; [done|]. split; [done|]. split; [done|]. split; [cbn; lia|done].
  - rewrite Eo, Ed in *. split; [auto|]. split; [done|]. split; [done|]. split; [cbn; lia|done].
  - assert (Ee : match F !! fd, lowest F with Some _, Some _ => False | _, _ => True end) by (destruct Ef as [-> | ->]; [done|by destruct (F !! fd)]).
    destruct (F !! fd), (lowest F); try done; (split; [auto|]); (split; [done|]); (split; [done|]); (split; [cbn; lia|done]).
  - rewrite Ea, Eb in *. destruct Hw as [Hw _]. split; [auto|]. split; [done|]. split; [rewrite length_app; lia|]. split; [cbn; lia|done].
  - match goal with H : gives_up _ |- _ => pose proof (gives_up_uniform _ H); destruct (gives_up_plan _ t F H) as [E2 W2] end. unfold plan in E2. rewrite E2.
    split; [done|]. split; [apply W2|]. split; [done|]. split; [destruct (lowest F) as [a|]; [destruct (lowest (<[a := OPipeR t]> F))|]; cbn; lia|apply submseteq_nil_l].
  - split; [done|]. split; [done|]. split; [done|]. split; [cbn; lia|done].
Qed.

(** What is left to do. *)
Definition to_do (p : uproc) : nat * list image :=
  match p_run p with inl q => plan q (p_tag p) (p_fds p) | inr _ => (1%nat, []) end.
Definition steps_left (l : list uproc) : nat := sum_list ((fun p => fst (to_do p)) <$> l).
Definition images_left (l : list uproc) : list image := concat ((fun p => snd (to_do p)) <$> l).

(** Children have longer numbers than their parents; [F0] are the descriptors at the start. *)
Record proc_ok (F0 : fdtab) (p : uproc) : Prop := Proc_ok {
  po_par : (List.length (p_ppid p) < List.length (p_pid p))%nat;
  po_tag : (List.length (p_pid p) <= List.length (p_tag p))%nat;
  po_run : match p_run p with inl q => uniform q /\ waits (tidy F0) q (p_tag p) (p_fds p) | inr _ => True end }.

Lemma steps_left_app l k : steps_left (l ++ k) = (steps_left l + steps_left k)%nat.
Proof. unfold steps_left. induction l as [|p l IH]; cbn in *; lia. Qed.

Lemma images_left_app l k : images_left (l ++ k) = images_left l ++ images_left k.
Proof. unfold images_left. by rewrite fmap_app, concat_app. Qed.

Lemma steps_left_cons p l : steps_left (p :: l) = (fst (to_do p) + steps_left l)%nat.
Proof. done. Qed.

Lemma images_left_cons p l : images_left (p :: l) = snd (to_do p) ++ images_left l.
Proof. done. Qed.

(** The programs started and those left, after as many as before: the same unless a call has failed. *)
Definition conserved (st st' : pool) : Prop :=
  execd st' ++ images_left (live st') ⊆+ execd st ++ images_left (live st) /\
  (failed st' = false -> failed st = false /\ execd st' ++ images_left (live st') ≡ₚ execd st ++ images_left (live st)).

Lemma conserved_perm st st' : execd st' ++ images_left (live st') ≡ₚ execd st ++ images_left (live st) -> failed st' = failed st -> conserved st st'.
Proof. intros Hp Hf. split; [by rewrite Hp|]. intros E. split; [congruence|done]. Qed.

(** A process takes a step by itself. *)
Lemma one_conserves F0 l1 l2 z e (b b' : bool) pid par t F p t' F' p' : Forall (proc_ok F0) (l1 ++ UProc pid par t F (inl p) :: l2) ->
  (List.length t <= List.length t')%nat -> uniform p' -> waits (tidy F0) p' t' F' -> ((plan p' t' F').1 < (plan p t F).1)%nat ->
  (if b' then (plan p' t' F').2 ⊆+ (plan p t F).2 else (plan p' t' F').2 = (plan p t F).2) ->
  let st := Pool (l1 ++ UProc pid par t F (inl p) :: l2) z e b in let st' := Pool (l1 ++ UProc pid par t' F' (inl p') :: l2) z e (b || b') in
  Forall (proc_ok F0) (live st') /\ (steps_left (live st') < steps_left (live st))%nat /\ conserved st st'.
Proof.
  intros Hok Ht U W Hn Hi st st'. unfold st, st'. cbn [live]. apply Forall_app in Hok as [Hok1 Hok2]. inversion Hok2 as [|? ? [O1 O2 O3] Hok3]; subst. cbn in O1, O2. split; [|split].
  - apply Forall_app. split; [done|]. constructor; [|done]. split; cbn; [done|lia|done].
  - rewrite !steps_left_app, !steps_left_cons. unfold to_do. cbn. lia.
  - unfold conserved. cbn [live execd failed]. rewrite !images_left_app, !images_left_cons. unfold to_do. cbn [p_run p_tag p_fds]. destruct b'.
    + split; [|by rewrite orb_true_r]. apply submseteq_app; [done|]. apply submseteq_app; [done|]. by apply submseteq_app.
    + rewrite Hi, orb_false_r. done.
Qed.

Lemma step_conserves F0 st st' : step st st' -> Forall (proc_ok F0) (live st) ->
  Forall (proc_ok F0) (live st') /\ (steps_left (live st') < steps_left (live st))%nat /\ conserved st st'.
Proof.
  intros Hs Hok.
  destruct Hs as [l1 l2 z e b pid par t F p p' t' F' b' Hc|l1 l2 z e b pid par t F k num Hn|l1 l2 z e b pid par t F k|l1 l2 z e b pid par t F path argv k|l1 l2 z e b pid par t F path argv k
    |l1 l2 z e b pid par t F r Hr|l1 l2 z1 z2 e b pid par t F k child num Hn|l1 l2 z e b pid par t F k Hz Hl];
    cbn [live] in Hok; pose proof Hok as Hok0; apply Forall_app in Hok as [Hok1 Hok2]; inversion Hok2 as [|? ? [O1 O2 O3] Hok3]; subst; cbn [p_ppid p_pid p_tag p_run p_fds] in *.
  - destruct O3 as [U W]. destruct (calls_plan _ _ _ _ _ _ _ _ Hc U W) as (U' & W' & Ht & Hst & Him). by apply one_conserves.
  - destruct O3 as [U [[W0 W1] _]]. inversion U as [|? Hk U0 U1| | | | | | |]; subst. rewrite (Hk num Hn).
    assert (Eplan : plan (Fork k) t F = plan (Fork k) t F) by done. unfold plan in Eplan at 2. cbn [fold a_or a_join a_tick plan_alg fst snd] in Eplan. fold plan in Eplan. split; [|split].
    + apply Forall_app. split; [done|]. constructor; [split; cbn; [done|rewrite length_app; lia|done]|]. constructor; [|done]. split; cbn; [rewrite length_app; cbn; lia|lia|done].
    + cbn [live]. rewrite !steps_left_app, !steps_left_cons. unfold to_do. cbn [p_run p_tag p_fds]. rewrite Eplan. cbn [fst]. unfold plan. lia.
    + apply conserved_perm; [|done]. cbn [live execd]. rewrite !images_left_app, !images_left_cons. unfold to_do. cbn [p_run p_tag p_fds]. rewrite Eplan. cbn [snd]. unfold plan. solve_Permutation.
  - destruct O3 as [U _]. inversion U as [|? Hk U0 U1 G| | | | | | |]; subst. destruct (gives_up_plan (k (-1)) t F G) as [E2 W2].
    rewrite <- (orb_true_r b). apply one_conserves; [done|done|by apply gives_up_uniform|apply W2|unfold plan; cbn; lia|rewrite E2; apply submseteq_nil_l].
  - split; [|split].
    + apply Forall_app. split; [done|]. constructor; [|done]. by split.
    + cbn [live]. rewrite !steps_left_app, !steps_left_cons. unfold to_do, plan. cbn. lia.
    + apply conserved_perm; [|done]. cbn [live execd]. rewrite !images_left_app, !images_left_cons. unfold to_do, plan. cbn. solve_Permutation.
  - destruct O3 as [U _]. inversion U as [| | |? ? ? G| | | | |]; subst. destruct (gives_up_plan k t F G) as [E2 W2].
    rewrite <- (orb_true_r b). apply one_conserves; [done|done|by apply gives_up_uniform|apply W2|unfold plan; cbn; lia|rewrite E2; apply submseteq_nil_l].
  - assert (E : to_do (UProc pid par t F r) = (1%nat, [])) by (destruct r; unfold to_do; cbn; [by subst|done]). split; [by apply Forall_app|]. split.
    + cbn [live]. rewrite !steps_left_app, steps_left_cons, E. cbn. lia.
    + apply conserved_perm; [|done]. cbn [live execd]. by rewrite !images_left_app, images_left_cons, E.
  - destruct O3 as [U [_ W]]. inversion U as [| |? Hk U1| | | | | |]; subst. rewrite (Hk num).
    destruct (one_conserves F0 l1 l2 (z1 ++ z2) e b false pid par t F (Wait k) t F (k 1)) as (C1 & C2 & C3); try done; [unfold plan; cbn; lia|].
    rewrite orb_false_r in *. done.
  - destruct O3 as [U [_ W]]. inversion U as [| |? Hk U1| | | | | |]; subst. rewrite (Hk (-1)).
    destruct (one_conserves F0 l1 l2 z e b false pid par t F (Wait k) t F (k 1)) as (C1 & C2 & C3); try done; [unfold plan; cbn; lia|].
    rewrite orb_false_r in *. done.
Qed.

Lemma step_some l1 l2 z e b pid par t F p : uniform p -> (forall k, p <> Wait k) -> exists st', step (Pool (l1 ++ UProc pid par t F (inl p) :: l2) z e b) st'.
Proof.
  intros Hu Hw. assert (Hc : forall p' t' F' b', calls p t F p' t' F' b' -> exists st', step (Pool (l1 ++ UProc pid par t F (inl p) :: l2) z e b) st') by (intros; eexists; by apply St_call).
  destruct Hu as [|k Hk _ _ _|k|path argv k _|path mode k _ _|fd k|fd k _ _|k _ _|fd bs k].
  - eexists. by apply St_exit.
  - eexists. by apply (St_fork _ _ _ _ _ _ _ _ _ _ 1).
  - by destruct (Hw k).
  - eexists. apply St_exec.
  - eapply Hc, C_open_fail.
  - eapply Hc, C_close.
  - destruct (F !! fd) eqn:Ef; [|eapply Hc, C_dup_fail; by left]. destruct (lowest F) eqn:E; [by eapply Hc, C_dup|eapply Hc, C_dup_fail; by right].
  - eapply Hc, C_pipe_fail.
  - eapply Hc, C_write.
Qed.

Lemma longest (l : list uproc) : l <> [] -> exists p, p ∈ l /\ forall q, q ∈ l -> (List.length (p_pid q) <= List.length (p_pid p))%nat.
Proof.
  induction l as [|p l IH]; [done|]. intros _. destruct l as [|p' l].
  - exists p. split; [set_solver|]. intros q ->%list_elem_of_singleton. done.
  - destruct IH as (m & Hm & Hmax); [done|]. destruct (decide (List.length (p_pid m) <= List.length (p_pid p))%nat).
    + exists p. split; [set_solver|]. intros q [->|Hq]%elem_of_cons; [done|]. specialize (Hmax q Hq). lia.
    + exists m. split; [set_solver|]. intros q [->|Hq]%elem_of_cons; [lia|]. by apply Hmax.
Qed.

(** The pool never gets stuck: the youngest process that waits has no running child. *)
Lemma pool_progress F0 st : Forall (proc_ok F0) (live st) -> live st <> [] -> exists st', step st st'.
Proof.
  destruct st as [l z e b]. cbn [live]. intros Hok Hne. destruct (longest l Hne) as (p & Hp & Hmax). destruct (list_elem_of_split l p Hp) as (l1 & l2 & ->). destruct p as [pid par t F [p|im]]; [|eexists; by apply St_exit].
  pose proof (proj1 (Forall_forall _ _) Hok _ Hp) as [_ _ [Hu _]]. cbn [p_run] in Hu.
  assert (W : (exists k, p = Wait k) \/ forall k, p <> Wait k) by (destruct p; (by left; eexists) || (right; congruence)). destruct W as [[k ->]|Hn]; [|by apply step_some].
  destruct (decide (pid ∈ z.*2)) as [Hz|Hz].
  - apply list_elem_of_fmap in Hz as ([child pid'] & -> & Hz). destruct (list_elem_of_split z _ Hz) as (z1 & z2 & ->). eexists. by apply (St_wait _ _ _ _ _ _ _ _ _ _ _ _ 1).
  - eexists. apply St_wait_none; [done|]. intros Hl. apply list_elem_of_fmap in Hl as (q & Hq1 & Hq2). assert (Hq : q ∈ l1 ++ UProc pid par t F (inl (Wait k)) :: l2) by set_solver.
    specialize (Hmax q Hq). pose proof (po_par F0 q (proj1 (Forall_forall _ _) Hok q Hq)). cbn [p_pid] in Hmax. subst pid. lia.
Qed.

Lemma steps_conserve F0 n st st' : nsteps step n st st' -> Forall (proc_ok F0) (live st) ->
  Forall (proc_ok F0) (live st') /\ (n + steps_left (live st') <= steps_left (live st))%nat /\ conserved st st'.
Proof.
  induction 1 as [|n st st1 st2 Hs _ IH]; intros Hok; [split; [done|]; split; [lia|by apply conserved_perm]|]. destruct (step_conserves _ _ _ Hs Hok) as (Hok1 & E1 & P1 & Q1).
  destruct (IH Hok1) as (Hok2 & E2 & P2 & Q2). split; [done|]. split; [lia|]. split; [by etrans|]. intros Hf. destruct (Q2 Hf) as [Hf1 P3]. destruct (Q1 Hf1) as [Hf0 P4].
  split; [done|]. by rewrite P3.
Qed.

(** C11: the shell starts the programs of a command with the descriptors it asks for.
    Run by runcmd in a process whose standard descriptors are open, a command starts,
    however its processes are scheduled and whichever of their calls of fork, exec, open
    and pipe fail, no program but those of the command, each at most once and with exactly
    the descriptors of its place: the redirected ones refer to the files, the two sides
    of a pipe have its ends as standard output and input, and no other end of a pipe is
    left open in a program, or in a process of the shell that waits.  The processes never
    block each other for ever, and after a bounded number of steps all have ended; if no
    call has failed, all the programs have then been started. *)
Theorem shell_wires_command buf c F : redirs_std c -> std F ->
  exists bound, forall n st, nsteps step n (start (runcmd buf c) F) st ->
    (n <= bound)%nat /\ execd st ⊆+ wire (resolve buf c) [0%nat] F /\
    (forall p k, p ∈ live st -> p_run p = inl (Wait k) -> tidy F (p_fds p)) /\
    (live st <> [] -> exists st', step st st') /\
    (live st = [] -> failed st = false -> execd st ≡ₚ wire (resolve buf c) [0%nat] F).
Proof.
  intros Hr Hs. exists (steps_left (live (start (runcmd buf c) F))). intros n st Hn.
  assert (Hok : Forall (proc_ok F) (live (start (runcmd buf c) F))) by (repeat constructor; cbn; [apply uniform_runcmd|by apply waits_runcmd]).
  destruct (steps_conserve _ _ _ _ Hn Hok) as (Hok' & E & P & P').
  assert (E0 : execd (start (runcmd buf c) F) ++ images_left (live (start (runcmd buf c) F)) = wire (resolve buf c) [0%nat] F).
  { cbn. rewrite app_nil_r. unfold to_do. cbn. by rewrite plan_runcmd. }
  rewrite E0 in P, P'. split; [lia|]. split; [etrans; [|exact P]; by apply submseteq_inserts_r|]. split; [|split; [by eapply pool_progress|]].
  - intros p k Hp Ep. pose proof (po_run _ _ (proj1 (Forall_forall _ _) Hok' p Hp)) as W. rewrite Ep in W. apply W.
  - intros Hl Hf. destruct (P' Hf) as [_ P2]. rewrite Hl in P2. cbn in P2. by rewrite app_nil_r in P2.
Qed.

(** [cat < a | wc > b], in its line. *)
Definition ex_buf : list Z := bytes_of "cat" ++ [0] ++ bytes_of "a" ++ [0] ++ bytes_of "wc" ++ [0] ++ bytes_of "b" ++ [0].
Definition ex_cmd : cmd := PIPE (REDIR (EXEC [(0, 3)%nat]) (4, 5)%nat O_RDONLY 0) (REDIR (EXEC [(6, 8)%nat]) (9, 10)%nat (Z.lor O_WRONLY O_CREATE) 1).
Definition ex_fds : fdtab := {[0 := OOther 0; 1 := OOther 0; 2 := OOther 0]}.

Lemma shell_wires_command_witness : exists bound, forall n st, nsteps step n (start (runcmd ex_buf ex_cmd) ex_fds) st ->
  (n <= bound)%nat /\ (live st = [] -> failed st = false -> execd st ≡ₚ
    [Image (bytes_of "cat") [bytes_of "cat"] (<[0 := OFile (bytes_of "a") 0]> (<[1 := OPipeW [0%nat]]> ex_fds));
     Image (bytes_of "wc") [bytes_of "wc"] (<[1 := OFile (bytes_of "b") 513]> (<[0 := OPipeR [0%nat]]> ex_fds))]).
Proof.
  destruct (shell_wires_command ex_buf ex_cmd ex_fds) as [bound Hb].
  - cbn. auto.
  - by split.
  - exists bound. intros n st Hn. destruct (Hb n st Hn) as (H1 & _ & _ & _ & H2). split; [exact H1|]. intros Hl Hf. rewrite (H2 Hl Hf). vm_compute. reflexivity.
Defined.

(** init gives the shells it starts, one after the other while no call fails, the console as their three descriptors. *)
Lemma init_starts_shells n : let con := OFile (bytes_of "console") O_RDWR in
  (plan (init_main n) [] ∅).2 = replicate n (Image (bytes_of "sh") [bytes_of "sh"] {[0 := con; 1 := con; 2 := con]}).
Proof.
  intros con. set (F := {[0 := con; 1 := con; 2 := con]} : fdtab). assert (Hloop : forall m t, (plan (init_loop m) t F).2 = replicate m (Image (bytes_of "sh") [bytes_of "sh"] F)).
  { induction m as [|m IH]; intros t; [done|]. unfold plan. cbn [init_loop fold]. change (0 <? 0) with false. change (1 <? 0) with false. change (0 =? 0) with true. change (1 =? 0) with false. cbv iota.
    cbn [init_wait fold]. change ((0 <=? 1) && negb (1 =? 1)) with false. cbv iota. cbn [a_tick a_or a_join a_wait a_exec snd fst app replicate plan_alg]. f_equal. apply IH. }
  unfold init_main, plan. cbn [fold]. change (lowest ∅) with (Some 0). cbv iota. change (0 <? 0) with false. cbv iota. cbn [fold]. fold con. change (<[0 := con]> (∅ : fdtab) !! 0) with (Some con).
  change (lowest (<[0 := con]> ∅)) with (Some 1). cbv iota. change (<[1 := con]> (<[0 := con]> (∅ : fdtab)) !! 0) with (Some con). change (lowest (<[1 := con]> (<[0 := con]> ∅))) with (Some 2). cbv iota. cbn [a_tick a_or snd plan_alg].
  change (<[2 := con]> (<[1 := con]> (<[0 := con]> (∅ : fdtab)))) with F. apply Hloop.
Qed.
